(* ===== verification/_CoqProject ===== *)
-Q . S2P
Prelude.v
GoRunes.v
GoStrings.v
GoNum.v
NetIP.v
Domain.v
GoConv.v
GoConvFacts.v
IPv4Range.v
AmneziaProfile.v
AmneziaRuntime.v
AmneziaFacts.v
Firewall.v
FirewallFacts.v
FirewallGraph.v
FirewallSettings.v
NFTables.v
NFTablesFacts.v
TargetAddresses.v
Zapret.v
Settings.v
Connection.v
GoDuration.v
Probe.v
ProbeFacts.v
Migrations.v
PersistFacts.v
AutoState.v
AutoSelect.v
AutoSelectFacts.v
Reserves.v
ReservesFacts.v
XrayConfig.v
XrayRouting.v
XrayFacts.v
BackendRequest.v
ManagedBackend.v
Scheduler.v
SchedulerFacts.v
Effects.v
ManagedSwitch.v
ManagedSwitchFacts.v
MemoryWorld.v
NodeSelection.v
NodeSelectionFacts.v
ReserveRound.v
ReserveRoundFacts.v
AutoCommit.v
Failover.v
FailoverFacts.v
Connect.v
AtomicFiles.v
AmneziaStore.v
AmneziaService.v
AmneziaServiceFacts.v
AmneziaTunnel.v
OpenWrtHost.v
AmneziaController.v
OpenWrtFirewall.v
OpenWrtDNS.v
OpenWrtZapret.v
OpenWrtZapretFacts.v
XrayWriter.v
Recovery.v
Reapply.v
SettingsKept.v
FirewallService.v
FirewallServiceFacts.v
FirewallRuns.v
SettingsService.v
SettingsServiceFacts.v
ProviderNames.v
SubscriptionFetch.v
Subscriptions.v
SubscriptionsFacts.v
Parser.v
ParserFacts.v
