(* ===== verification/Prelude.v ===== *)
(** * Fast Lane: verification library (root file)

    Fast Lane keeps a router's traffic on a working VPN node.  A daemon probes
    the nodes of the user's subscriptions, selects one, generates the
    configuration of an Xray process, moves the live route between outbounds
    through the process' management API, keeps reserves ready, watches the
    connection, and falls back on another node, on zapret, or on the direct route.
    Traffic reaches the process through rules of the firewall and of dnsmasq; the
    handlers of the service change settings, firewall, subscriptions and AmneziaWG
    profiles while the connection is up.
    The service, its policies and its persistence are Go under [src/internal]; this
    library models them as they are written and proves what they guarantee.

    ** How the parts fit together

    Pure data and policies: [domain], [probe], [store/migrations.go],
    [backend/xray/generator.go] and the ranking files of [app] are translated into
    functions.  Stateful code ([app/service.go], [app/auto.go],
    [app/managed_reserves.go], [app/amneziawg.go], [platform/openwrt],
    [backend/xray/writer.go]) becomes programs of the
    monad of [Effects] over a world [W] that is never inspected directly: what
    the code reaches outside is an operation of an interface, a type class, and what
    the code relies on is a class of laws.

    - [ManagedBackend] (file of that name): outbounds, balancer override, interface
      and generation of a running Xray process.  Laws [ManagedBackendLaws]; the
      implementation of [backend/xray/managed.go] over the management API
      discharges them ([xray_backend_confirms]).
    - [Router] (ManagedSwitch): the state file and the checks.  [saved_is_loaded] is
      what [saveState_load] proves of the store.
    - [Runtime] (NodeSelection): firewall, DNS, IPv6 and zapret managers, clocks,
      settings and subscription files.  [AutoRuntime] (ReserveRound): probes and the
      health cache.  [FailoverRuntime] (Failover): the AmneziaWG side.
      [Manager] (SubscriptionsFacts) and [Tunnel] (AmneziaTunnel): views for
      specifications, of what runs on the router and of the tunnel in use.
    - [Host] (AtomicFiles) and [XrayHost] (XrayWriter): system calls, each of which
      may fail, the Xray binary and the init script.  [OpenWrtHost]: the
      environment, the directories and the commands of the router.
    - [SubscriptionHost] and [WebText] (SubscriptionFetch): requests to providers and
      what the libraries find in their answers.  [ParserLibrary] (Parser): the
      decoders of addresses, JSON and YAML.

    [MemoryWorld], with the worlds that extend it ([SettingsWorld] in SettingsKept,
    [SubscriptionWorld] in SubscriptionsFacts, [TunnelWorld] in AmneziaTunnel), satisfies all laws of the first group,
    [MemoryHost] those of the second; every property with hypotheses is applied on
    a concrete world, so no hypothesis is vacuous.

    ** Files

    The language and its standard library: [GoRunes], [GoStrings], [GoNum], [NetIP],
    [GoDuration] (UTF-8, [strings], 64-bit integers with wrap-around, binary64,
    durations as text in both directions, instants, [net]);
    [GoConv], [GoConvFacts]: [strconv], base64, host and port.  [Effects]: programs,
    their triples, and what a program leaves untouched.

    Data and policies
    - [Domain], [Firewall], [FirewallSettings], [Zapret], [Settings], [Connection]:
      [domain/*.go].  [FirewallFacts]: normal forms and parsers.  [FirewallGraph]:
      the catalog of services as a graph.
    - [Probe], [ProbeFacts]: [probe/health.go], [probe/selector.go],
      [probe/anti_flap.go].
    - [Migrations], [PersistFacts]: [store/migrations.go],
      [store/settings.go], [store/state.go]; [AutoState]: [app/auto_state.go].
    - [AutoSelect], [AutoSelectFacts]: the evaluation half of [app/auto.go] and
      [app/auto_prepare.go].
    - [Reserves], [ReservesFacts]: [app/managed_reserve_ranking.go].
    - [Scheduler], [SchedulerFacts]: [app/scheduler.go].

    Configuration of the Xray process
    - [XrayConfig], [XrayRouting], [XrayFacts]: [backend/xray/generator.go], and what
      the generated rules do to traffic.  [BackendRequest]: [backendConfigRequest].
    - [AtomicFiles], [XrayWriter]: [store/atomic.go] and
      [backend/xray/writer.go].

    The live route
    - [ManagedBackend], [ManagedSwitch], [ManagedSwitchFacts]:
      [backend/xray/managed.go] and [tryManagedNodeSelection].
    - [NodeSelection], [NodeSelectionFacts]: [applyNodeSelection].
    - [ReserveRound], [ReserveRoundFacts]: [MaintainManagedReserves],
      [tryManagedReserveFailover].
    - [AutoCommit]: commits of automatic mode, [disconnect].
    - [Failover], [FailoverFacts]: [RunAutoHealthCheck], [RunConnectionFailover].
    - [Connect]: [connectManual], [ConnectAuto], [ResumeConnection].
    - [Recovery]: [connectionRecoveryNeeded] and what a health check commits.
    - [Reapply]: the zapret test, [restoreRuntime], [reapplyCurrentConnection].

    AmneziaWG
    - [AmneziaProfile], [AmneziaRuntime], [AmneziaFacts]: [amneziawg/*.go], the
      parser of profiles and the network configuration they become.
    - [AmneziaStore]: [store/amneziawg.go].
    - [AmneziaService], [AmneziaServiceFacts]: [app/amneziawg.go] over the interfaces
      [ProfileStore] (which [file_profiles] implements), [AWGController] and
      [InterfaceBackend].
    - [AmneziaTunnel]: what the controller has done, as the view [Tunnel], and the
      theorems about the tunnel that carries a connection.
    - [AmneziaController]: [amneziawg/controller_openwrt.go], an implementation of
      [AWGController] over the commands of the router ([controller_is_quiet]).

    The router ([platform/openwrt])
    - [IPv4Range], [TargetAddresses]: ranges and targets as prefixes.
    - [NFTables], [NFTablesFacts]: the policy and the text of the rules in
      [firewall.go], and what they do to packets.
    - [OpenWrtHost]: [paths.go] and finding dnsmasq in [dnsmasq.go].
      [OpenWrtFirewall]: the manager of [firewall.go].
      [OpenWrtDNS]: [dns_runtime.go], [ipv6.go].
      [OpenWrtZapret], [OpenWrtZapretFacts]: [zapret.go].

    Handlers of [app/service.go]
    - [SettingsKept]: what connecting keeps of the settings file, and a world with one.
    - [FirewallService], [FirewallServiceFacts], [FirewallRuns]: the firewall.
    - [SettingsService], [SettingsServiceFacts]: settings, DNS, exclusions, zapret.
    - [ProviderNames], [SubscriptionFetch], [Subscriptions], [SubscriptionsFacts]:
      [domain/provider_name.go], fetching, and the list of subscriptions.
    - [Parser], [ParserFacts]: the package [parser].

    ** What the theorems show

    - Safety of the live route: a handled switch ends on the candidate, recorded and
      checked as its caller asks, or back where it started, unless the backend
      refuses the selection on the way ([managed_switch_atomic]); a selection that succeeds is
      the route and is on file ([applyNodeSelection_recorded]); maintenance and quiet
      health checks never move the route ([maintenance_keeps_route],
      [health_check_keeps_route]); after a failover that reports success, the state
      file says which route is live ([failover_outcome]).  An AmneziaWG connection is
      made, over a tunnel prepared with its profile, or the previous one comes back
      with its tunnel, or the error says that it could not ([connect_or_restore]);
      checks neither move the route nor touch the tunnel in use
      ([check_keeps_connection]); measuring a profile sends no command about the
      interface and the routes of the connection ([probe_is_isolated]), and a zapret test ends where it began
      ([zapret_test_comes_back]).
    - Traffic: the ordered rules implement the policy of the settings
      ([Generate_routes_by_policy], [settings_decide_routes]), and the configuration
      is closed ([Generate_well_formed]).  The rules of nftables do to a packet what
      the firewall policy says ([rules_implement_policy]), are loaded as a whole
      and alone unless nft refuses to delete the old ones
      ([apply_leaves_whole_rulesets]), and after a first take-over that succeeded the
      files of zapret come back byte for byte ([originals_come_back]).
    - Requests: a handler of the firewall implements its specification, [asks], which
      is written without the edits of the handlers ([firewall_request_refined]); no
      sequence of requests leaves a reference to a missing service, those of zapret
      excepted ([references_stay_known]); a patch of settings
      is stored as a whole or not at all ([patch_all_or_nothing]) and agrees with
      single settings ([patch_matches_setting]).
    - Subscriptions: identifiers stay distinct and servers stay owned
      ([subscriptions_stay_well_formed]); with the reader of [Parser] every server on
      file can be connected to ([subscribed_servers_are_usable]); what is added,
      removed or refreshed ([added_subscription_is_stored],
      [removed_subscription_disconnects], [refresh_follows_server]).
    - Reading: every text gives an error or well-formed servers
      ([parsed_nodes_well_formed]), nested documents end ([nested_documents_end]), an
      encoded list reads as the list ([encoded_list_is_read]), a bad line hides no
      other ([bad_line_hides_nothing]).  Profiles of AmneziaWG that are accepted are
      well formed, and the text given to uci reads back ([uciBatch_reads_back]).
    - Files: replaced as a whole ([atomicWriteFile_atomic]), holding only tested
      configurations ([only_tested_configurations]), taken back after a failure
      or said to be in use still ([apply_or_take_back]); what survives a save and a load ([LoadState_SaveState],
      [LoadSettings_SaveSettings], [LoadSettings_settled], [saveState_load]).
    - Decisions: automatic selection moves only to a healthy selectable node
      ([evaluateAutoSelection_sound] and its global form), ranking and switching are
      characterised exactly ([SelectBestNode_best], [ShouldSwitch_iff],
      [UpdateHealth_trace]), reserves are bounded and confirmed
      ([selectManagedReserveStates_spec], [managedReserveProbeOrder_spec]).
    - Time: the watch's counters refine the history of rounds
      ([watch_refines_history], [failover_is_confirmed], [failure_starts_failover]),
      and the health loop terminates.
    - Catalogs: depth-first validation accepts exactly the acyclic complete catalogs
      for every order of map iteration, expansion yields what is reachable.
    - Behaviour the authors did not intend: a remembered connection is lost by a load
      ([resume_after_disconnect_rescans], [optimization_never_confirmed]), a stale
      snapshot overwrites a recorded failure ([abandoned_commit_restores_snapshot],
      [failed_recovery_claims_connection]), a bound goes negative
      ([failed_switch_adds_reserve]), a nil map is written ([outboundForNode_panics]),
      an emptied list returns ([emptied_dns_lists_return]), a range of addresses that
      ends at the last address panics ([range_to_last_address_panics]), the line
      before a managed block is joined with the next ([stripping_joins_lines]), a
      service that zapret uses can be deleted ([deleted_service_empties_zapret]), a
      patch switches a disabled firewall on ([patch_reenables_firewall]).

    ** Bounds and fuel

    The recursions over the service graph take fuel: [registry_fuel] and
    [catalog_fuel] are the number of names plus one, and the theorems show it never
    runs out.  UTF-8 decoding takes the length of the string as fuel
    ([decode_fuel_enough]).  Documents inside documents take the number of characters
    of the text ([nested_documents_end]), numbered identifiers of subscriptions the
    number of subscriptions ([free_identifier_found]), the wait for an interface the
    polls that its deadline allows ([waiting_ends]).  [maxAutoCandidateApplyAttempts], the managed limits and
    the confirmation thresholds are the constants of the source.

    ** Parameters

    [encoding/json] text, [yaml.v3], SHA-1 and SHA-256, [url.Parse] and
    [url.ParseQuery], [html.UnescapeString], regular expressions, [unicode.ToUpper],
    [strconv.ParseFloat], [time.Format] and the ranging order of maps are parameters of the definitions that
    use them.  Locks are left out: the programs are the critical sections; between a
    snapshot and the check that it is current, anything may happen to the world.
    Concurrent probes arrive in an arbitrary order, given by the interface.  The log
    and the cancellation of contexts beyond the checks that are written are left out.

    ** Not modelled

    The command line, the management server with its panels and the terminal
    interface: they print, parse requests and call methods of the service, which are
    modelled.  Speed tests, network probes, diagnostics and lookups: I/O whose
    outcomes are inputs here.  Updates, the redaction of previews, the exchange of
    exclusions as CSV, the recovery of corrupt files, file modes and the lock of the
    store: separate parts that no modelled operation depends on.  Of [app/service.go]:
    the construction of HTTP clients, [ConnectAutoSelected], reports of progress and
    what only collects a status. *)

#[export] Set Warnings "-clear-no-such-hyp".
From Stdlib Require Export ZArith Lia Bool Ascii String.
From stdpp Require Export base tactics gmap strings list fin_maps sorting.

Global Set Default Goal Selector "!".

(** ** Results

    A Go function returning [(T, error)] becomes a function into
    [result E T]: [Ok v] for a nil error, [Err e] otherwise. *)
Inductive result (E A : Type) : Type :=
| Ok (a : A)
| Err (e : E).
Arguments Ok {E A} a.
Arguments Err {E A} e.

#[export] Instance result_eq_dec {E A} `{EqDecision E, EqDecision A} : EqDecision (result E A).
Proof. solve_decision. Defined.

Definition result_bind {E A B} (r : result E A) (k : A -> result E B) : result E B :=
  match r with
  | Ok a => k a
  | Err e => Err e
  end.

Definition is_ok {E A} (r : result E A) : bool :=
  match r with Ok _ => true | Err _ => false end.

Declare Scope fastlane_scope.
Delimit Scope fastlane_scope with fl.
Notation "'let*' x ':=' c 'in' k" := (result_bind c (fun x => k))
  (at level 10, x pattern, c at level 100, k at level 200) : fastlane_scope.
Global Open Scope fastlane_scope.

Section Result.
  Context {E A B : Type}.
  Implicit Types (r : result E A) (k : A -> result E B).

Lemma result_bind_ok r k b :
  result_bind r k = Ok b <-> exists a, r = Ok a /\ k a = Ok b.
Proof. destruct r; cbn; naive_solver. Qed.

Lemma result_bind_err r k e :
  result_bind r k = Err e <-> r = Err e \/ exists a, r = Ok a /\ k a = Err e.
Proof. destruct r; cbn; naive_solver. Qed.

Lemma is_ok_true r : is_ok r = true <-> exists a, r = Ok a.
Proof. destruct r; cbn; naive_solver. Qed.

End Result.

(** [fold_result f acc l]: a Go loop that threads [acc] and returns on the
    first error. *)
Fixpoint fold_result {E A S} (f : S -> A -> result E S) (acc : S) (l : list A) : result E S :=
  match l with
  | [] => Ok acc
  | x :: t => let* acc' := f acc x in fold_result f acc' t
  end.

Lemma fold_result_inv {E A S} (f : S -> A -> result E S) (P : S -> Prop) acc l s :
  P acc ->
  (forall a x a', x ∈ l -> P a -> f a x = Ok a' -> P a') ->
  fold_result f acc l = Ok s -> P s.
Proof.
  revert acc; induction l as [|x t IH]; cbn; intros acc HP Hstep Hf; [naive_solver|].
  apply result_bind_ok in Hf as (a' & Hfx & Hrest).
  apply (IH a'); [|intros; eapply Hstep; eauto using list_elem_of_further |exact Hrest].
  eapply Hstep; eauto using list_elem_of_here.
Qed.

Lemma fold_result_app {E A S} (f : S -> A -> result E S) acc l1 l2 :
  fold_result f acc (l1 ++ l2) = (let* a := fold_result f acc l1 in fold_result f a l2).
Proof.
  revert acc; induction l1 as [|x t IH]; cbn; intros acc; [done|].
  destruct (f acc x); cbn; auto.
Qed.

(** ** Record update

    Go assigns single fields of large structs.  [r <| f := v |>] is the copy
    of [r] with field [f] replaced.  Each updatable field has a [Setter]
    instance, computed from the eta expansion of its record by [mk_setter]. *)
Class Setter {R T : Type} (proj : R -> T) : Type := upd : (T -> T) -> R -> R.
Arguments upd {R T} proj {_} f r : simpl never.

Ltac mk_setter eta proj :=
  lazymatch type of proj with
  | ?R -> ?T =>
    let t := constr:(fun (f : T -> T) (r : R) =>
      ltac:(let e := eval red in (eta r) in
            lazymatch (eval pattern (proj r) in e) with
            | ?F _ => let b := eval cbv beta in (F (f (proj r))) in exact b
            end)) in
    exact t
  end.

Lemma eta_inj {R} (eta : R -> R) (a b : R) :
  (forall r, eta r = r) -> eta a = eta b -> a = b.
Proof. intros H E. by rewrite <- (H a), <- (H b). Qed.

(** Compares two updated records field by field. *)
Ltac record_eq eta := apply (eta_inj eta); [by intros []|unfold eta].

Notation "r <| f := v |>" := (upd f (fun _ => v) r)
  (at level 1, f at level 1, v at level 200, left associativity,
   format "r  <| f  :=  v |>") : fastlane_scope.
Notation "r <| f ::= g |>" := (upd f g r)
  (at level 1, f at level 1, g at level 200, left associativity,
   format "r  <| f  ::=  g |>") : fastlane_scope.

(** ** Loops that collect values once

    The source keeps a set [seen] beside an output slice and appends a value
    only when its key is new.  [seen] always holds exactly the keys of the
    slice, so the model keeps the slice alone. *)
Section Unique.
  Context {A K : Type} `{EqDecision K} (key : A -> K).

Definition push_unique_by (out : list A) (v : A) : list A :=
  if bool_decide (key v ∈ key <$> out) then out else out ++ [v].

Lemma push_unique_by_nodup out v :
  NoDup (key <$> out) -> NoDup (key <$> push_unique_by out v).
Proof.
  unfold push_unique_by; intros Hnd; case_bool_decide as Hin; [done|].
  rewrite fmap_app; cbn. apply NoDup_app; repeat split; [done| |apply NoDup_singleton].
  intros x Hx ->%list_elem_of_singleton; done.
Qed.

Lemma push_unique_by_key out v k :
  k ∈ key <$> push_unique_by out v <-> k ∈ key <$> out \/ k = key v.
Proof.
  unfold push_unique_by; case_bool_decide as Hin.
  - naive_solver.
  - rewrite fmap_app, elem_of_app; cbn; rewrite list_elem_of_singleton; done.
Qed.

Lemma push_unique_by_elem out v x :
  x ∈ push_unique_by out v -> x ∈ out \/ x = v.
Proof.
  unfold push_unique_by; case_bool_decide; [auto|].
  rewrite elem_of_app, list_elem_of_singleton; done.
Qed.

Lemma push_unique_by_new out v :
  key v ∉ key <$> out -> push_unique_by out v = out ++ [v].
Proof. intros H; unfold push_unique_by; rewrite bool_decide_eq_false_2; done. Qed.

Lemma push_unique_by_old out v :
  key v ∈ key <$> out -> push_unique_by out v = out.
Proof. intros H; unfold push_unique_by; rewrite bool_decide_eq_true_2; done. Qed.

(** The loop over already distinct values copies them. *)
Lemma foldl_push_unique_by_id out l :
  NoDup (key <$> (out ++ l)) -> foldl push_unique_by out l = out ++ l.
Proof.
  revert out; induction l as [|v l IH]; intros out Hnd; cbn; [by rewrite app_nil_r|].
  rewrite push_unique_by_new.
  - rewrite IH, <- app_assoc; [done|]. by rewrite <- app_assoc.
  - rewrite fmap_app in Hnd; cbn in Hnd. apply NoDup_app in Hnd as (_ & Hd & _).
    intros Hin. apply (Hd _ Hin). apply list_elem_of_here.
Qed.

Lemma foldl_push_unique_by_nodup out l :
  NoDup (key <$> out) -> NoDup (key <$> foldl push_unique_by out l).
Proof.
  revert out; induction l as [|v l IH]; intros out Hnd; cbn; [done|].
  apply IH, push_unique_by_nodup, Hnd.
Qed.

Lemma foldl_push_unique_by_elem out l x :
  x ∈ foldl push_unique_by out l -> x ∈ out \/ x ∈ l.
Proof.
  revert out; induction l as [|v l IH]; intros out; cbn; [auto|].
  intros [Hx|Hx]%IH; [|right; by apply list_elem_of_further].
  apply push_unique_by_elem in Hx as [?| ->]; [auto|right; apply list_elem_of_here].
Qed.

Lemma foldl_push_unique_by_key out l k :
  k ∈ key <$> foldl push_unique_by out l <-> k ∈ key <$> out \/ k ∈ key <$> l.
Proof.
  revert out; induction l as [|v l IH]; intros out; cbn.
  - split; [auto|intros [?|Hn]; [done|by apply not_elem_of_nil in Hn]].
  - rewrite IH, push_unique_by_key, elem_of_cons. tauto.
Qed.

End Unique.

Abbreviation push_unique := (push_unique_by id).

Lemma foldl_push_unique_elem {A} `{EqDecision A} (out l : list A) x :
  x ∈ foldl push_unique out l <-> x ∈ out \/ x ∈ l.
Proof.
  pose proof (foldl_push_unique_by_key (@id A) out l x) as H.
  rewrite !list_fmap_id in H; done.
Qed.

Lemma foldl_push_unique_nodup {A} `{EqDecision A} (out l : list A) :
  NoDup out -> NoDup (foldl push_unique out l).
Proof.
  intros H. rewrite <- (list_fmap_id (foldl _ _ _)).
  apply foldl_push_unique_by_nodup; by rewrite list_fmap_id.
Qed.

(** ** Sorting

    [slices.Sort] and [sort.Strings] order strings by their bytes, which is
    stdpp's [String.le].  [sort.SliceStable] with a strict weak order has one
    possible result, the one [stable_sort] computes. *)
Definition sort_strings (l : list string) : list string := merge_sort String.le l.

Lemma sort_strings_perm l : sort_strings l ≡ₚ l.
Proof. apply merge_sort_Permutation. Qed.

Lemma sort_strings_sorted l : StronglySorted String.le (sort_strings l).
Proof. apply StronglySorted_merge_sort; apply _. Qed.

Lemma sort_strings_unique l1 l2 :
  l1 ≡ₚ l2 -> sort_strings l1 = sort_strings l2.
Proof.
  intros Hp. apply (StronglySorted_unique String.le); auto using sort_strings_sorted.
  by rewrite !sort_strings_perm.
Qed.

Lemma sort_strings_id l : StronglySorted String.le l -> sort_strings l = l.
Proof.
  intros Hs. apply (StronglySorted_unique String.le); auto using sort_strings_sorted.
  apply sort_strings_perm.
Qed.

Lemma sort_strings_elem l x : x ∈ sort_strings l <-> x ∈ l.
Proof. by rewrite sort_strings_perm. Qed.

Lemma sort_strings_nodup l : NoDup l -> NoDup (sort_strings l).
Proof. by rewrite sort_strings_perm. Qed.

Section StableSort.
  Context {A : Type} (less : A -> A -> bool).

Fixpoint stable_insert (x : A) (l : list A) : list A :=
  match l with
  | [] => [x]
  | y :: t => if less y x then y :: stable_insert x t else x :: y :: t
  end.

Definition stable_sort (l : list A) : list A := foldr stable_insert [] l.

Lemma stable_insert_perm x l : stable_insert x l ≡ₚ x :: l.
Proof.
  induction l as [|y t IH]; cbn; [done|].
  destruct (less y x); [rewrite IH; apply Permutation_swap|done].
Qed.

Lemma stable_sort_perm l : stable_sort l ≡ₚ l.
Proof.
  induction l as [|x l IH]; cbn; [done|]. by rewrite stable_insert_perm, IH.
Qed.

Lemma stable_sort_length l : length (stable_sort l) = length l.
Proof. by rewrite stable_sort_perm. Qed.

Hypothesis less_irrefl : forall x, less x x = false.
Hypothesis less_trans : forall x y z, less x y = true -> less y z = true -> less x z = true.
Hypothesis less_cotrans : forall x y z, less x z = true -> less x y = true \/ less y z = true.

Lemma less_asym x y : less x y = true -> less y x = false.
Proof.
  intros H. destruct (less y x) eqn:E; [|done].
  rewrite <- (less_irrefl x). symmetry. eauto.
Qed.

Definition in_order (x y : A) : Prop := less y x = false.

Lemma stable_insert_sorted x l :
  StronglySorted in_order l -> StronglySorted in_order (stable_insert x l).
Proof.
  induction 1 as [|y t Hs IH Hall]; cbn; [repeat constructor|].
  destruct (less y x) eqn:E.
  - constructor; [done|]. rewrite stable_insert_perm.
    constructor; [by apply less_asym|done].
  - constructor; [by constructor|]. constructor; [done|].
    eapply Forall_impl; [exact Hall|]. cbn; intros z Hz. unfold in_order in *.
    destruct (less z x) eqn:E2; [|done].
    destruct (less_cotrans z y x E2); congruence.
Qed.

Lemma stable_sort_sorted l : StronglySorted in_order (stable_sort l).
Proof. induction l; cbn; [constructor|by apply stable_insert_sorted]. Qed.

(** The head of the sorted list is minimal, and no earlier element of the
    input is as good. *)
Lemma stable_sort_head l h t :
  stable_sort l = h :: t -> h ∈ l /\ forall y, y ∈ l -> less y h = false.
Proof.
  intros E. assert (h ∈ l) by (rewrite <- stable_sort_perm, E; apply list_elem_of_here).
  split; [done|]. intros y Hy. rewrite <- stable_sort_perm, E in Hy.
  pose proof (stable_sort_sorted l) as Hs. rewrite E in Hs.
  inversion_clear Hs as [|? ? _ Hall].
  apply elem_of_cons in Hy as [->|Hy]; [apply less_irrefl|].
  rewrite Forall_forall in Hall. by apply Hall.
Qed.

Lemma stable_sort_head_first l h t :
  stable_sort l = h :: t ->
  exists pre post, l = pre ++ h :: post /\ forall y, y ∈ pre -> less h y = true.
Proof.
  revert h t; induction l as [|x l IH]; intros h t; [done|].
  change (stable_sort (x :: l)) with (stable_insert x (stable_sort l)).
  destruct (stable_sort l) as [|y s] eqn:E; cbn.
  - intros Heq; simplify_eq. exists [], l. split; [done|]. by intros ? ?%not_elem_of_nil.
  - destruct (less y x) eqn:Ey; intros Heq; simplify_eq.
    + destruct (IH _ _ eq_refl) as (pre & post & -> & Hpre).
      exists (x :: pre), post. split; [done|].
      intros z [->|Hz]%elem_of_cons; auto.
    + exists [], l. split; [done|]. by intros ? ?%not_elem_of_nil.
Qed.

End StableSort.

Lemma stable_sort_fmap {A B} (less : A -> A -> bool) (less' : B -> B -> bool) (f : B -> A) l :
  (forall x y, less (f x) (f y) = less' x y) ->
  stable_sort less (f <$> l) = f <$> stable_sort less' l.
Proof.
  intros Hf. induction l as [|x l IH]; [done|].
  change (stable_insert less (f x) (stable_sort less (f <$> l))
    = f <$> stable_insert less' x (stable_sort less' l)).
  rewrite IH. generalize (stable_sort less' l) as k. clear IH.
  induction k as [|y k IH]; [done|]. cbn. rewrite Hf. destruct (less' y x); [|done].
  rewrite IH. done.
Qed.
