(* ===== verification/GoRunes.v ===== *)
(** * Go strings as bytes and runes

    A Go string is a byte sequence; [range], [strings.ToLower],
    [strings.TrimSpace] and [strings.Fields] read it as UTF-8.  This file has
    the language's decoder ([utf8.DecodeRune]: an ill-formed byte is U+FFFD of
    width 1), its encoder, [unicode.IsSpace] and [unicode.ToLower], and the
    facts about them the components use. *)
From S2P Require Import Prelude.

Local Open Scope Z_scope.
Local Open Scope list_scope.

(** ** Bytes *)

Definition byte_of (c : ascii) : Z := Z.of_N (N_of_ascii c).
Definition ascii_of (b : Z) : ascii := ascii_of_N (Z.to_N b).

Definition to_bytes (s : string) : list Z := byte_of <$> list_ascii_of_string s.
Definition of_bytes (l : list Z) : string := string_of_list_ascii (ascii_of <$> l).

Definition is_byte (b : Z) : Prop := 0 <= b < 256.

Lemma byte_of_range c : is_byte (byte_of c).
Proof. unfold is_byte, byte_of. pose proof (N_ascii_bounded c). lia. Qed.

Lemma ascii_of_byte c : ascii_of (byte_of c) = c.
Proof. unfold ascii_of, byte_of. by rewrite N2Z.id, ascii_N_embedding. Qed.

Lemma byte_of_ascii b : is_byte b -> byte_of (ascii_of b) = b.
Proof.
  unfold is_byte, ascii_of, byte_of; intros H. rewrite N_ascii_embedding by lia. lia.
Qed.

Lemma to_bytes_bytes s : Forall is_byte (to_bytes s).
Proof. apply Forall_fmap, Forall_forall. intros; apply byte_of_range. Qed.

Lemma of_to_bytes s : of_bytes (to_bytes s) = s.
Proof.
  unfold of_bytes, to_bytes. rewrite <- list_fmap_compose.
  rewrite <- (string_of_list_ascii_of_string s) at 2. f_equal.
  rewrite <- (list_fmap_id (list_ascii_of_string s)) at 2.
  apply list_fmap_ext; intros; apply ascii_of_byte.
Qed.

Lemma to_of_bytes l : Forall is_byte l -> to_bytes (of_bytes l) = l.
Proof.
  intros H. unfold of_bytes, to_bytes.
  rewrite list_ascii_of_string_of_list_ascii, <- list_fmap_compose.
  induction H as [|b l Hb _ IH]; cbn; [done|]. by rewrite byte_of_ascii, IH.
Qed.

Lemma to_bytes_inj s t : to_bytes s = to_bytes t -> s = t.
Proof. intros H. by rewrite <- (of_to_bytes s), H, of_to_bytes. Qed.

Lemma to_bytes_app s t : to_bytes (s +:+ t) = to_bytes s ++ to_bytes t.
Proof. unfold to_bytes. induction s as [|c s IH]; [done|]. exact (f_equal (cons (byte_of c)) IH). Qed.

Lemma of_bytes_app l k : of_bytes (l ++ k) = of_bytes l +:+ of_bytes k.
Proof. unfold of_bytes. induction l as [|b l IH]; [done|]. exact (f_equal (String (ascii_of b)) IH). Qed.

Lemma to_bytes_nil s : to_bytes s = [] <-> s = "".
Proof. destruct s; cbn; split; congruence. Qed.

(** ** UTF-8 *)

Definition RuneError : Z := 65533.

Definition cont (b : Z) : bool := (128 <=? b) && (b <=? 191).

Definition ok2 (b0 b1 : Z) : bool := (194 <=? b0) && (b0 <=? 223) && cont b1.
Definition ok3 (b0 b1 b2 : Z) : bool :=
  cont b1 && cont b2 &&
  (((b0 =? 224) && (160 <=? b1)) || ((225 <=? b0) && (b0 <=? 236)) ||
   ((b0 =? 237) && (b1 <=? 159)) || (b0 =? 238) || (b0 =? 239)).
Definition ok4 (b0 b1 b2 b3 : Z) : bool :=
  cont b1 && cont b2 && cont b3 &&
  (((b0 =? 240) && (144 <=? b1)) || ((241 <=? b0) && (b0 <=? 243)) ||
   ((b0 =? 244) && (b1 <=? 143))).

(** The rune at the head of [l] and its width in bytes. *)
Definition decode1 (l : list Z) : Z * nat :=
  match l with
  | [] => (RuneError, 0%nat)
  | b0 :: t =>
    if b0 <? 128 then (b0, 1%nat) else
    match t with
    | b1 :: t1 =>
      if ok2 b0 b1 then ((b0 - 192) * 64 + (b1 - 128), 2%nat) else
      match t1 with
      | b2 :: t2 =>
        if ok3 b0 b1 b2
        then ((b0 - 224) * 4096 + (b1 - 128) * 64 + (b2 - 128), 3%nat) else
        match t2 with
        | b3 :: _ =>
          if ok4 b0 b1 b2 b3
          then ((b0 - 240) * 262144 + (b1 - 128) * 4096 + (b2 - 128) * 64 + (b3 - 128), 4%nat)
          else (RuneError, 1%nat)
        | [] => (RuneError, 1%nat)
        end
      | [] => (RuneError, 1%nat)
      end
    | [] => (RuneError, 1%nat)
    end
  end.

Fixpoint decode_fuel (n : nat) (l : list Z) : list (Z * list Z) :=
  match n with
  | O => []
  | S n =>
    match l with
    | [] => []
    | _ => let '(r, w) := decode1 l in (r, take w l) :: decode_fuel n (drop w l)
    end
  end.

(** Every rune of [l] with the bytes it was read from. *)
Definition decode (l : list Z) : list (Z * list Z) := decode_fuel (length l) l.

Definition valid_rune (r : Z) : bool :=
  ((0 <=? r) && (r <? 55296)) || ((57344 <=? r) && (r <=? 1114111)).

Definition encode_rune (r : Z) : list Z :=
  if (0 <=? r) && (r <? 128) then [r]
  else if (128 <=? r) && (r <? 2048) then [192 + r / 64; 128 + r mod 64]
  else if negb (valid_rune r) then [239; 191; 189]
  else if r <? 65536 then [224 + r / 4096; 128 + (r / 64) mod 64; 128 + r mod 64]
  else [240 + r / 262144; 128 + (r / 4096) mod 64; 128 + (r / 64) mod 64; 128 + r mod 64].

Definition encode (rs : list Z) : list Z := rs ≫= encode_rune.

(** The bytes of a decoded sequence. *)
Definition chunk_bytes (cs : list (Z * list Z)) : list Z := cs ≫= snd.

(** ** Classes and case *)

(** [unicode.IsSpace]: the White_Space property. *)
Definition is_space (r : Z) : bool :=
  ((9 <=? r) && (r <=? 13)) || (r =? 32) || (r =? 133) || (r =? 160) || (r =? 5760) ||
  ((8192 <=? r) && (r <=? 8202)) || (r =? 8232) || (r =? 8233) || (r =? 8239) ||
  (r =? 8287) || (r =? 12288).

(** [unicode.ToLower]: the simple lower-case mapping, as rows
    [(first, last, stride, delta)] over the code points that change. *)
Definition lower_table : list (Z * Z * Z * Z) := [
  (65,90,1,32); (192,214,1,32); (216,222,1,32); (256,302,2,1); (304,304,1,-199);
  (306,310,2,1); (313,327,2,1); (330,374,2,1); (376,376,1,-121); (377,381,2,1);
  (385,385,1,210); (386,388,2,1); (390,390,1,206); (391,391,1,1); (393,394,1,205);
  (395,395,1,1); (398,398,1,79); (399,399,1,202); (400,400,1,203); (401,401,1,1);
  (403,403,1,205); (404,404,1,207); (406,406,1,211); (407,407,1,209); (408,408,1,1);
  (412,412,1,211); (413,413,1,213); (415,415,1,214); (416,420,2,1); (422,422,1,218);
  (423,423,1,1); (425,425,1,218); (428,428,1,1); (430,430,1,218); (431,431,1,1);
  (433,434,1,217); (435,437,2,1); (439,439,1,219); (440,440,1,1); (444,444,1,1);
  (452,452,1,2); (453,453,1,1); (455,455,1,2); (456,456,1,1); (458,458,1,2); (459,475,2,1);
  (478,494,2,1); (497,497,1,2); (498,500,2,1); (502,502,1,-97); (503,503,1,-56);
  (504,542,2,1); (544,544,1,-130); (546,562,2,1); (570,570,1,10795); (571,571,1,1);
  (573,573,1,-163); (574,574,1,10792); (577,577,1,1); (579,579,1,-195); (580,580,1,69);
  (581,581,1,71); (582,590,2,1); (880,882,2,1); (886,886,1,1); (895,895,1,116);
  (902,902,1,38); (904,906,1,37); (908,908,1,64); (910,911,1,63); (913,929,1,32);
  (931,939,1,32); (975,975,1,8); (984,1006,2,1); (1012,1012,1,-60); (1015,1015,1,1);
  (1017,1017,1,-7); (1018,1018,1,1); (1021,1023,1,-130); (1024,1039,1,80);
  (1040,1071,1,32); (1120,1152,2,1); (1162,1214,2,1); (1216,1216,1,15); (1217,1229,2,1);
  (1232,1326,2,1); (1329,1366,1,48); (4256,4293,1,7264); (4295,4295,1,7264);
  (4301,4301,1,7264); (5024,5103,1,38864); (5104,5109,1,8); (7312,7354,1,-3008);
  (7357,7359,1,-3008); (7680,7828,2,1); (7838,7838,1,-7615); (7840,7934,2,1);
  (7944,7951,1,-8); (7960,7965,1,-8); (7976,7983,1,-8); (7992,7999,1,-8); (8008,8013,1,-8);
  (8025,8031,2,-8); (8040,8047,1,-8); (8072,8079,1,-8); (8088,8095,1,-8); (8104,8111,1,-8);
  (8120,8121,1,-8); (8122,8123,1,-74); (8124,8124,1,-9); (8136,8139,1,-86);
  (8140,8140,1,-9); (8152,8153,1,-8); (8154,8155,1,-100); (8168,8169,1,-8);
  (8170,8171,1,-112); (8172,8172,1,-7); (8184,8185,1,-128); (8186,8187,1,-126);
  (8188,8188,1,-9); (8486,8486,1,-7517); (8490,8490,1,-8383); (8491,8491,1,-8262);
  (8498,8498,1,28); (8544,8559,1,16); (8579,8579,1,1); (9398,9423,1,26);
  (11264,11311,1,48); (11360,11360,1,1); (11362,11362,1,-10743); (11363,11363,1,-3814);
  (11364,11364,1,-10727); (11367,11371,2,1); (11373,11373,1,-10780);
  (11374,11374,1,-10749); (11375,11375,1,-10783); (11376,11376,1,-10782);
  (11378,11378,1,1); (11381,11381,1,1); (11390,11391,1,-10815); (11392,11490,2,1);
  (11499,11501,2,1); (11506,11506,1,1); (42560,42604,2,1); (42624,42650,2,1);
  (42786,42798,2,1); (42802,42862,2,1); (42873,42875,2,1); (42877,42877,1,-35332);
  (42878,42886,2,1); (42891,42891,1,1); (42893,42893,1,-42280); (42896,42898,2,1);
  (42902,42920,2,1); (42922,42922,1,-42308); (42923,42923,1,-42319);
  (42924,42924,1,-42315); (42925,42925,1,-42305); (42926,42926,1,-42308);
  (42928,42928,1,-42258); (42929,42929,1,-42282); (42930,42930,1,-42261);
  (42931,42931,1,928); (42932,42946,2,1); (42948,42948,1,-48); (42949,42949,1,-42307);
  (42950,42950,1,-35384); (42951,42953,2,1); (42960,42960,1,1); (42966,42968,2,1);
  (42997,42997,1,1); (65313,65338,1,32); (66560,66599,1,40); (66736,66771,1,40);
  (66928,66938,1,39); (66940,66954,1,39); (66956,66962,1,39); (66964,66965,1,39);
  (68736,68786,1,64); (71840,71871,1,32); (93760,93791,1,32); (125184,125217,1,34)
  ].

Definition in_row (r : Z) (row : Z * Z * Z * Z) : bool :=
  let '(lo, hi, stride, _) := row in
  (lo <=? r) && (r <=? hi) && ((r - lo) mod stride =? 0).

Definition rune_lower (r : Z) : Z :=
  match List.find (in_row r) lower_table with
  | Some (_, _, _, delta) => r + delta
  | None => r
  end.

(** ** Decoding step by step *)

Lemma decode1_width b l : (1 <= snd (decode1 (b :: l)) <= S (length l))%nat.
Proof.
  unfold decode1.
  repeat case_match; cbn; lia.
Qed.

Lemma decode_fuel_enough n m l :
  (length l <= n)%nat -> (length l <= m)%nat -> decode_fuel n l = decode_fuel m l.
Proof.
  revert m l; induction n as [|n IH]; intros m l Hn Hm.
  - destruct l; [by destruct m|cbn in Hn; lia].
  - destruct m as [|m]; [destruct l; [done|cbn in Hm; lia]|].
    destruct l as [|b l]; [done|].
    pose proof (decode1_width b l) as Hw.
    cbn [decode_fuel]. destruct (decode1 (b :: l)) as [r w]. cbn [snd] in Hw.
    f_equal. apply IH; rewrite length_drop; cbn [length] in *; lia.
Qed.

Lemma decode_nil : decode [] = [].
Proof. done. Qed.

Lemma decode_cons b l :
  decode (b :: l) =
    let '(r, w) := decode1 (b :: l) in (r, take w (b :: l)) :: decode (drop w (b :: l)).
Proof.
  unfold decode. cbn [length]. cbn [decode_fuel].
  pose proof (decode1_width b l) as Hw.
  destruct (decode1 (b :: l)) as [r w]; cbn [snd] in Hw.
  f_equal. apply decode_fuel_enough; rewrite ?length_drop; cbn [length]; lia.
Qed.

(** Induction along the decoder. *)
Lemma decode_ind (P : list Z -> Prop) :
  P [] ->
  (forall b l, P (drop (snd (decode1 (b :: l))) (b :: l)) -> P (b :: l)) ->
  forall l, P l.
Proof.
  intros Hnil Hstep l.
  remember (length l) as n eqn:Hn. revert l Hn.
  induction n as [n IH] using (well_founded_induction Nat.lt_wf_0).
  intros [|b l] ->; [done|]. apply Hstep.
  pose proof (decode1_width b l) as Hw.
  apply (IH (length (drop (snd (decode1 (b :: l))) (b :: l)))); [|done].
  rewrite length_drop; cbn [length]; lia.
Qed.

Lemma chunk_bytes_decode l : chunk_bytes (decode l) = l.
Proof.
  induction l as [|b l IH] using decode_ind; [done|].
  rewrite decode_cons. destruct (decode1 (b :: l)) as [r w]; cbn [snd] in IH.
  cbn. unfold chunk_bytes in IH. rewrite IH. apply take_drop.
Qed.

Lemma valid_rune_spec r :
  valid_rune r = true <-> 0 <= r < 55296 \/ 57344 <= r <= 1114111.
Proof. unfold valid_rune. rewrite orb_true_iff, !andb_true_iff, !Z.leb_le, !Z.ltb_lt. lia. Qed.

Lemma ok2_spec b0 b1 : ok2 b0 b1 = true <-> 194 <= b0 <= 223 /\ 128 <= b1 <= 191.
Proof. unfold ok2, cont. rewrite !andb_true_iff, !Z.leb_le. lia. Qed.

Lemma ok3_spec b0 b1 b2 :
  ok3 b0 b1 b2 = true <->
  128 <= b1 <= 191 /\ 128 <= b2 <= 191 /\ 224 <= b0 <= 239 /\
  (b0 = 224 -> 160 <= b1) /\ (b0 = 237 -> b1 <= 159).
Proof.
  unfold ok3, cont. rewrite !andb_true_iff, !orb_true_iff, !andb_true_iff, !Z.leb_le, !Z.eqb_eq.
  lia.
Qed.

Lemma ok4_spec b0 b1 b2 b3 :
  ok4 b0 b1 b2 b3 = true <->
  128 <= b1 <= 191 /\ 128 <= b2 <= 191 /\ 128 <= b3 <= 191 /\ 240 <= b0 <= 244 /\
  (b0 = 240 -> 144 <= b1) /\ (b0 = 244 -> b1 <= 143).
Proof.
  unfold ok4, cont. rewrite !andb_true_iff, !orb_true_iff, !andb_true_iff, !Z.leb_le, !Z.eqb_eq.
  lia.
Qed.

Lemma decode1_valid b l :
  Forall is_byte (b :: l) -> valid_rune (fst (decode1 (b :: l))) = true.
Proof.
  intros H. assert (Hb : 0 <= b) by (inversion_clear H as [|? ? Hb _]; apply Hb). clear H.
  unfold decode1. destruct (b <? 128) eqn:E0.
  { apply Z.ltb_lt in E0. apply valid_rune_spec; cbn; lia. }
  clear E0. destruct l as [|b1 l]; [done|]. destruct (ok2 b b1) eqn:E2.
  { apply ok2_spec in E2. apply valid_rune_spec; cbn; lia. }
  clear E2. destruct l as [|b2 l]; [done|]. destruct (ok3 b b1 b2) eqn:E3.
  { apply ok3_spec in E3. apply valid_rune_spec; cbn; lia. }
  clear E3. destruct l as [|b3 l]; [done|]. destruct (ok4 b b1 b2 b3) eqn:E4; [|done].
  apply ok4_spec in E4. apply valid_rune_spec; cbn; lia.
Qed.

Lemma decode_valid l :
  Forall is_byte l -> Forall (fun c => valid_rune c.1 = true) (decode l).
Proof.
  induction l as [|b l IH] using decode_ind; intros Hb; [constructor|].
  pose proof (decode1_valid b l Hb) as Hv. rewrite decode_cons.
  destruct (decode1 (b :: l)) as [r w]; cbn [fst snd] in *.
  constructor; [done|]. apply IH. by apply Forall_drop.
Qed.

(** ** Splitting a decoded string *)

(** Cutting the input after the first rune does not change the first rune. *)
Lemma decode1_take n l :
  l <> [] -> (snd (decode1 l) <= n)%nat -> decode1 (take n l) = decode1 l.
Proof.
  intros Hne Hn.
  destruct l as [|b0 [|b1 [|b2 [|b3 l]]]]; [done| | | |].
  all: destruct n as [|[|[|[|n]]]]; try done; revert Hn; unfold decode1; cbn [take];
    repeat case_match; cbn; intros; try done; lia.
Qed.

Lemma decode_app_chunks a b l :
  decode l = a ++ b -> decode (chunk_bytes a) = a /\ decode (chunk_bytes b) = b.
Proof.
  revert l; induction a as [|c a IH]; intros l H.
  - cbn in H. split; [done|]. rewrite <- H. by rewrite chunk_bytes_decode.
  - destruct l as [|x l]; [done|]. rewrite decode_cons in H.
    pose proof (decode1_width x l) as Hw.
    destruct (decode1 (x :: l)) as [r w] eqn:E; cbn [snd] in Hw.
    cbn in H. injection H as Hc Ht. destruct (IH _ Ht) as [IHa IHb]. split; [|done].
    assert (Hpre : chunk_bytes (c :: a) = take (w + length (chunk_bytes a)) (x :: l)).
    { cbn. fold (chunk_bytes a). rewrite <- Hc; cbn [snd].
      rewrite <- take_take_drop. f_equal.
      rewrite <- (chunk_bytes_decode (drop w (x :: l))), Ht.
      unfold chunk_bytes. rewrite bind_app, take_app_length. done. }
    assert (Hne : chunk_bytes (c :: a) <> []).
    { rewrite Hpre. destruct w as [|w]; [lia|]. done. }
    assert (E' : decode1 (chunk_bytes (c :: a)) = (r, w)).
    { rewrite Hpre, decode1_take; [done|done|]. rewrite E; cbn; lia. }
    destruct (chunk_bytes (c :: a)) as [|y k] eqn:Ek; [done|].
    rewrite decode_cons, E'.
    assert (Hchunk : take w (y :: k) = take w (x :: l)).
    { rewrite Hpre, take_take. f_equal; lia. }
    assert (Hdrop : drop w (y :: k) = chunk_bytes a).
    { rewrite <- Ek. cbn. fold (chunk_bytes a). rewrite <- Hc; cbn [snd].
      rewrite drop_app_length'; [done|]. rewrite length_take; cbn [length]. lia. }
    rewrite Hchunk, Hdrop, IHa. by rewrite Hc.
Qed.

(** A sequence of chunks that decodes to itself. *)
Definition decoded (cs : list (Z * list Z)) : Prop := decode (chunk_bytes cs) = cs.

Lemma decoded_decode l : decoded (decode l).
Proof. unfold decoded. by rewrite chunk_bytes_decode. Qed.

Lemma decoded_app_inv a b : decoded (a ++ b) -> decoded a /\ decoded b.
Proof. apply decode_app_chunks. Qed.

(** Text that does not start with a continuation byte starts a new rune. *)
Definition rune_start (l : list Z) : Prop :=
  match l with [] => True | b :: _ => cont b = false end.

Lemma decode1_app x y :
  x <> [] -> rune_start y -> decode1 (x ++ y) = decode1 x.
Proof.
  intros Hx Hy. unfold rune_start in Hy.
  destruct x as [|b0 [|b1 [|b2 [|b3 x]]]]; [done| | | |].
  all: destruct y as [|c0 y]; rewrite ?app_nil_r; try done.
  all: assert (Hc : ~ (128 <= c0 <= 191))
    by (intros [Hc1%Z.leb_le Hc2%Z.leb_le]; unfold cont in Hy; by rewrite Hc1, Hc2 in Hy).
  all: cbn; repeat (case_match; try done); exfalso;
    repeat match goal with
    | H : ok2 _ _ = true |- _ => apply ok2_spec in H; lia
    | H : ok3 _ _ _ = true |- _ => apply ok3_spec in H; lia
    | H : ok4 _ _ _ _ = true |- _ => apply ok4_spec in H; lia
    end.
Qed.

Lemma decode_app x y : rune_start y -> decode (x ++ y) = decode x ++ decode y.
Proof.
  intros Hy. induction x as [|b l IH] using decode_ind; [done|].
  pose proof (decode1_width b l) as Hw.
  rewrite <- app_comm_cons, !decode_cons, app_comm_cons, decode1_app by done.
  destruct (decode1 (b :: l)) as [r w]; cbn [snd] in *.
  rewrite take_app_le, drop_app_le by (cbn [length]; lia). by rewrite IH.
Qed.

Lemma rune_start_byte b l : b < 128 \/ 191 < b -> rune_start (b :: l).
Proof.
  intros H. cbn. unfold cont. apply andb_false_iff.
  rewrite !Z.leb_gt. lia.
Qed.

(** ** Encoding *)

Lemma encode_rune_bytes r : 0 <= r -> Forall is_byte (encode_rune r).
Proof.
  intros H. unfold encode_rune, is_byte.
  destruct ((0 <=? r) && (r <? 128)) eqn:E1.
  { apply andb_true_iff in E1 as [_ E1%Z.ltb_lt]. repeat constructor; lia. }
  apply andb_false_iff in E1 as [E1%Z.leb_gt|E1%Z.ltb_ge]; [lia|].
  destruct ((128 <=? r) && (r <? 2048)) eqn:E2.
  { apply andb_true_iff in E2 as [_ E2%Z.ltb_lt].
    repeat constructor; try lia; Z.to_euclidean_division_equations; lia. }
  destruct (valid_rune r) eqn:Ev; cbn; [|repeat constructor; lia].
  apply valid_rune_spec in Ev.
  destruct (r <? 65536) eqn:E3; [apply Z.ltb_lt in E3|apply Z.ltb_ge in E3];
    repeat constructor; try lia; Z.to_euclidean_division_equations; lia.
Qed.

Lemma decode1_encode r l :
  valid_rune r = true -> decode1 (encode_rune r ++ l) = (r, length (encode_rune r)).
Proof.
  intros Hv. pose proof Hv as Hr; apply valid_rune_spec in Hr.
  unfold encode_rune. rewrite Hv; cbn [negb].
  destruct ((0 <=? r) && (r <? 128)) eqn:E1.
  { apply andb_true_iff in E1 as [_ E1]. cbn. by rewrite E1. }
  assert (128 <= r) by (apply andb_false_iff in E1 as [?%Z.leb_gt|?%Z.ltb_ge]; lia).
  clear E1. destruct ((128 <=? r) && (r <? 2048)) eqn:E2.
  { apply andb_true_iff in E2 as [_ E2%Z.ltb_lt]. cbn.
    rewrite (proj2 (Z.ltb_ge _ _)) by (Z.to_euclidean_division_equations; lia).
    rewrite (proj2 (ok2_spec _ _)) by (Z.to_euclidean_division_equations; lia).
    f_equal; Z.to_euclidean_division_equations; lia. }
  assert (2048 <= r) by (apply andb_false_iff in E2 as [?%Z.leb_gt|?%Z.ltb_ge]; lia).
  clear E2. destruct (r <? 65536) eqn:E3.
  - apply Z.ltb_lt in E3. cbn.
    rewrite (proj2 (Z.ltb_ge _ _)) by (Z.to_euclidean_division_equations; lia).
    destruct (ok2 _ _) eqn:E; [apply ok2_spec in E; Z.to_euclidean_division_equations; lia|].
    clear E. rewrite (proj2 (ok3_spec _ _ _)) by (Z.to_euclidean_division_equations; lia).
    f_equal; Z.to_euclidean_division_equations; lia.
  - apply Z.ltb_ge in E3. cbn.
    rewrite (proj2 (Z.ltb_ge _ _)) by (Z.to_euclidean_division_equations; lia).
    destruct (ok2 _ _) eqn:E; [apply ok2_spec in E; Z.to_euclidean_division_equations; lia|].
    clear E. destruct (ok3 _ _ _) eqn:E;
      [apply ok3_spec in E; Z.to_euclidean_division_equations; lia|].
    clear E. rewrite (proj2 (ok4_spec _ _ _ _)) by (Z.to_euclidean_division_equations; lia).
    f_equal; Z.to_euclidean_division_equations; lia.
Qed.

Lemma decode_encode rs :
  Forall (fun r => valid_rune r = true) rs ->
  decode (encode rs) = (fun r => (r, encode_rune r)) <$> rs.
Proof.
  induction 1 as [|r rs Hv _ IH]; [done|].
  change (encode (r :: rs)) with (encode_rune r ++ encode rs). rewrite fmap_cons.
  pose proof (decode1_encode r (encode rs) Hv) as E.
  assert (Hne : encode_rune r <> []) by (unfold encode_rune; repeat case_match; done).
  destruct (encode_rune r) as [|b k] eqn:Ek; [done|].
  rewrite <- app_comm_cons, decode_cons, app_comm_cons, E.
  rewrite take_app_length, drop_app_length. by rewrite IH.
Qed.

Lemma chunk_bytes_encode rs : chunk_bytes ((fun r => (r, encode_rune r)) <$> rs) = encode rs.
Proof.
  unfold chunk_bytes, encode. induction rs as [|r rs IH]; cbn; [done|]. by rewrite IH.
Qed.

Lemma encode_bytes rs : Forall (fun r => valid_rune r = true) rs -> Forall is_byte (encode rs).
Proof.
  induction 1 as [|r rs Hv _ IH]; [constructor|].
  apply Forall_app; split; [|done]. apply encode_rune_bytes.
  apply valid_rune_spec in Hv; lia.
Qed.

(** ** Lower case *)

(** Every property of [rune_lower] is checked on the table's entries; other
    code points are fixed points. *)
Definition row_runes (row : Z * Z * Z * Z) : list Z :=
  let '(lo, hi, stride, _) := row in
  (fun i => lo + stride * Z.of_nat i) <$> seq 0 (Z.to_nat ((hi - lo) / stride + 1)).

Definition lower_changes : list Z := lower_table ≫= row_runes.

Definition rows_ok : bool :=
  forallb (fun row : Z * Z * Z * Z => let '(lo, hi, stride, _) := row in
    (0 <? stride) && (lo <=? hi)) lower_table.

Lemma rune_lower_cases r :
  rune_lower r = r \/ r ∈ lower_changes.
Proof.
  unfold rune_lower. destruct (List.find (in_row r) lower_table) as [row|] eqn:E; [|by left].
  right. apply List.find_some in E as [Hin Hrow].
  assert (Hok : rows_ok = true) by (vm_compute; reflexivity).
  unfold rows_ok in Hok. rewrite forallb_forall in Hok. specialize (Hok _ Hin).
  unfold lower_changes. apply list_elem_of_bind. exists row.
  split; [|by apply list_elem_of_In]. destruct row as [[[lo hi] stride] delta].
  unfold in_row in Hrow. rewrite !andb_true_iff, !Z.leb_le, Z.eqb_eq in Hrow.
  rewrite andb_true_iff, Z.ltb_lt, Z.leb_le in Hok.
  cbn. apply list_elem_of_fmap. exists (Z.to_nat ((r - lo) / stride)).
  assert (0 <= (r - lo) / stride <= (hi - lo) / stride).
  { split; [apply Z.div_pos; lia|apply Z.div_le_mono; lia]. }
  split; [|apply elem_of_seq; lia].
  rewrite Z2Nat.id by lia. pose proof (Z.div_mod (r - lo) stride). lia.
Qed.

Definition lower_entry_ok (r : Z) : bool :=
  valid_rune (rune_lower r) && (rune_lower (rune_lower r) =? rune_lower r) &&
  negb (is_space r) && negb (is_space (rune_lower r)).

Lemma lower_entries_ok : forallb lower_entry_ok lower_changes = true.
Proof. vm_compute. reflexivity. Qed.

Lemma lower_entry r : r ∈ lower_changes -> lower_entry_ok r = true.
Proof.
  intros H. pose proof lower_entries_ok as Hall. rewrite forallb_forall in Hall.
  apply Hall. by apply list_elem_of_In.
Qed.

Lemma rune_lower_valid r : valid_rune r = true -> valid_rune (rune_lower r) = true.
Proof.
  intros Hv. destruct (rune_lower_cases r) as [->|H%lower_entry]; [done|].
  unfold lower_entry_ok in H. rewrite !andb_true_iff in H. tauto.
Qed.

Lemma rune_lower_idemp r : rune_lower (rune_lower r) = rune_lower r.
Proof.
  destruct (rune_lower_cases r) as [E|H%lower_entry]; [by rewrite !E|].
  unfold lower_entry_ok in H. rewrite !andb_true_iff, Z.eqb_eq in H. tauto.
Qed.

Lemma rune_lower_space r : is_space (rune_lower r) = is_space r.
Proof.
  destruct (rune_lower_cases r) as [->|H%lower_entry]; [done|].
  unfold lower_entry_ok in H. rewrite !andb_true_iff, !negb_true_iff in H.
  destruct H as [[_ H1] H2]. by rewrite H1, H2.
Qed.

(** ASCII letters only. *)
Lemma rune_lower_ascii r :
  0 <= r < 128 -> rune_lower r = if (65 <=? r) && (r <=? 90) then r + 32 else r.
Proof.
  intros H. assert (Hall : forallb (fun n => let r := Z.of_nat n in
    rune_lower r =? (if (65 <=? r) && (r <=? 90) then r + 32 else r)) (seq 0 128) = true)
    by (vm_compute; reflexivity).
  rewrite forallb_forall in Hall. specialize (Hall (Z.to_nat r)).
  rewrite Z2Nat.id in Hall by lia. apply Z.eqb_eq, Hall, in_seq. lia.
Qed.
