(* ===== verification/GoStrings.v ===== *)
(** * The [strings] functions the source calls

    Each follows the documented behaviour of the Go standard library on byte
    strings; the rune based ones go through [GoRunes.decode]. *)
From S2P Require Import Prelude GoRunes.

Local Open Scope Z_scope.
Local Open Scope list_scope.

(** ** Case and white space *)

Definition line_feed : ascii := "010".
Definition newline : string := String line_feed EmptyString.

Definition ToLower (s : string) : string :=
  of_bytes (encode ((fun c => rune_lower c.1) <$> decode (to_bytes s))).

Fixpoint drop_spaces (cs : list (Z * list Z)) : list (Z * list Z) :=
  match cs with
  | c :: t => if is_space c.1 then drop_spaces t else cs
  | [] => []
  end.

Definition trim_chunks (cs : list (Z * list Z)) : list (Z * list Z) :=
  reverse (drop_spaces (reverse (drop_spaces cs))).

Definition TrimSpace (s : string) : string :=
  of_bytes (chunk_bytes (trim_chunks (decode (to_bytes s)))).

(** The upper case of a rune when it is an ASCII character: besides ASCII
    itself only U+0131 and U+017F have one. *)
Definition rune_upper_ascii (r : Z) : option Z :=
  if (97 <=? r) && (r <=? 122) then Some (r - 32)
  else if (0 <=? r) && (r <? 128) then Some r
  else if r =? 305 then Some 73
  else if r =? 383 then Some 83
  else None.

(** [Some u] when [strings.ToUpper s] is the ASCII text [u]. *)
Definition ToUpperASCII (s : string) : option string :=
  of_bytes <$> mapM (fun c => rune_upper_ascii c.1) (decode (to_bytes s)).

(** The maximal runs of non-space runes. *)
Fixpoint split_spaces (cur : list (Z * list Z)) (cs : list (Z * list Z))
    : list (list (Z * list Z)) :=
  match cs with
  | [] => match cur with [] => [] | _ => [cur] end
  | c :: t =>
    if is_space c.1
    then match cur with [] => split_spaces [] t | _ => cur :: split_spaces [] t end
    else split_spaces (cur ++ [c]) t
  end.

Definition Fields (s : string) : list string :=
  (fun cs => of_bytes (chunk_bytes cs)) <$> split_spaces [] (decode (to_bytes s)).

(** [strings.EqualFold(s, t)] for a [t] of ASCII characters: besides the ASCII
    letters only U+017F and U+212A fold to ASCII. *)
Definition fold_rune (r : Z) : Z :=
  if r =? 383 then 115
  else if r =? 8490 then 107
  else if (65 <=? r) && (r <=? 90) then r + 32 else r.

Definition EqualFold (s t : string) : bool :=
  bool_decide ((fun c => fold_rune c.1) <$> decode (to_bytes s)
             = (fun c => fold_rune c.1) <$> decode (to_bytes t)).

(** ** Searching and cutting *)

Definition HasPrefix (s p : string) : bool := String.prefix p s.

Fixpoint HasSuffix (s p : string) : bool :=
  bool_decide (s = p) ||
  match s with
  | EmptyString => false
  | String _ t => HasSuffix t p
  end.

(** [s] without its suffix [p], if it has one. *)
Fixpoint TrimSuffix (s p : string) : string :=
  if bool_decide (s = p) then ""
  else match s with
  | EmptyString => ""
  | String c t => String c (TrimSuffix t p)
  end.

Definition TrimPrefix (s p : string) : string :=
  if HasPrefix s p
  then String.substring (String.length p) (String.length s - String.length p) s else s.

Fixpoint Contains (s sub : string) : bool :=
  String.prefix sub s ||
  match s with
  | EmptyString => false
  | String _ t => Contains t sub
  end.

Fixpoint has_byte (s : string) (c : ascii) : bool :=
  match s with
  | EmptyString => false
  | String x t => bool_decide (x = c) || has_byte t c
  end.

(** [strings.ContainsAny] for a set of ASCII characters. *)
Definition ContainsAny (s chars : string) : bool :=
  existsb (has_byte s) (list_ascii_of_string chars).

Fixpoint count_byte (s : string) (c : ascii) : nat :=
  match s with
  | EmptyString => 0
  | String x t => (if bool_decide (x = c) then 1 else 0) + count_byte t c
  end%nat.

(** The parts of [s] before and after the first [c]
    ([strings.Cut], [strings.SplitN(s, c, 2)], [s[:i]] and [s[i+1:]] for
    [i = strings.Index(s, c)]). *)
Fixpoint cut_byte (s : string) (c : ascii) : option (string * string) :=
  match s with
  | EmptyString => None
  | String x t =>
    if bool_decide (x = c) then Some ("", t)
    else match cut_byte t c with
         | Some (a, b) => Some (String x a, b)
         | None => None
         end
  end.

(** [strings.Split] at a one-byte separator. *)
Fixpoint split_byte (s : string) (c : ascii) : list string :=
  match s with
  | EmptyString => [""]
  | String x t =>
    if bool_decide (x = c) then "" :: split_byte t c
    else match split_byte t c with
         | a :: l => String x a :: l
         | [] => [String x ""]
         end
  end.

Definition Join (l : list string) (sep : string) : string := String.concat sep l.

(** One byte replaced everywhere. *)
Fixpoint replace_byte (from to : ascii) (s : string) : string :=
  match s with
  | EmptyString => EmptyString
  | String c s => String (if bool_decide (c = from) then to else c) (replace_byte from to s)
  end.

(** ** Trimming *)

Lemma drop_spaces_suffix cs : exists a, cs = a ++ drop_spaces cs.
Proof.
  induction cs as [|c t [a IH]]; cbn; [by exists []|].
  destruct (is_space c.1); [exists (c :: a); cbn; by f_equal|by exists []].
Qed.

Lemma drop_spaces_id cs :
  (forall c, head cs = Some c -> is_space c.1 = false) -> drop_spaces cs = cs.
Proof. destruct cs as [|c t]; cbn; intros H; [done|]. by rewrite (H c). Qed.

Lemma drop_spaces_head cs c : head (drop_spaces cs) = Some c -> is_space c.1 = false.
Proof.
  induction cs as [|d t IH]; cbn; [done|].
  destruct (is_space d.1) eqn:E; [done|]. cbn. by intros [= ->].
Qed.

Definition trimmed (cs : list (Z * list Z)) : Prop :=
  (forall c, head cs = Some c -> is_space c.1 = false) /\
  (forall c, last cs = Some c -> is_space c.1 = false).

Lemma trim_chunks_infix cs : exists a b, cs = a ++ trim_chunks cs ++ b.
Proof.
  destruct (drop_spaces_suffix cs) as [a Ha].
  destruct (drop_spaces_suffix (reverse (drop_spaces cs))) as [b Hb].
  exists a, (reverse b). unfold trim_chunks.
  rewrite <- reverse_app, <- Hb, reverse_involutive. done.
Qed.

Lemma trim_chunks_trimmed cs : trimmed (trim_chunks cs).
Proof.
  split; intros c.
  - unfold trim_chunks. rewrite head_reverse.
    destruct (drop_spaces_suffix (reverse (drop_spaces cs))) as [b Hb].
    intros Hl. apply (drop_spaces_head cs).
    rewrite <- (reverse_involutive (drop_spaces cs)), Hb, head_reverse, last_app, Hl. done.
  - unfold trim_chunks. rewrite last_reverse. apply drop_spaces_head.
Qed.

Lemma trim_chunks_id cs : trimmed cs -> trim_chunks cs = cs.
Proof.
  intros [Hh Hl]. unfold trim_chunks.
  rewrite (drop_spaces_id cs) by done.
  rewrite drop_spaces_id, reverse_involutive; [done|].
  intros c. rewrite head_reverse. apply Hl.
Qed.

Lemma trim_chunks_idemp cs : trim_chunks (trim_chunks cs) = trim_chunks cs.
Proof. apply trim_chunks_id, trim_chunks_trimmed. Qed.

Lemma decoded_infix a t b : decoded (a ++ t ++ b) -> decoded t.
Proof. intros [_ H]%decoded_app_inv. by apply decoded_app_inv in H as [? _]. Qed.

Lemma decoded_trim l : decoded (trim_chunks (decode l)).
Proof.
  destruct (trim_chunks_infix (decode l)) as (a & b & E).
  apply (decoded_infix a _ b). rewrite <- E. apply decoded_decode.
Qed.

Lemma chunk_bytes_app a b : chunk_bytes (a ++ b) = chunk_bytes a ++ chunk_bytes b.
Proof. apply bind_app. Qed.

Lemma trim_bytes l : Forall is_byte l -> Forall is_byte (chunk_bytes (trim_chunks (decode l))).
Proof.
  intros H. destruct (trim_chunks_infix (decode l)) as (a & b & E).
  rewrite <- (chunk_bytes_decode l), E, !chunk_bytes_app, !Forall_app in H. tauto.
Qed.

(** The runes of a trimmed string are the trimmed runes of the string. *)
Lemma decode_TrimSpace s :
  decode (to_bytes (TrimSpace s)) = trim_chunks (decode (to_bytes s)).
Proof.
  unfold TrimSpace. rewrite to_of_bytes by apply trim_bytes, to_bytes_bytes.
  apply decoded_trim.
Qed.

Lemma TrimSpace_idemp s : TrimSpace (TrimSpace s) = TrimSpace s.
Proof. unfold TrimSpace at 1. by rewrite decode_TrimSpace, trim_chunks_idemp. Qed.

Lemma TrimSpace_fixed s :
  TrimSpace s = s <-> trimmed (decode (to_bytes s)).
Proof.
  split; intros H.
  - rewrite <- H, decode_TrimSpace. apply trim_chunks_trimmed.
  - unfold TrimSpace. by rewrite trim_chunks_id, chunk_bytes_decode, of_to_bytes.
Qed.

(** ** Lower case *)

Definition lower_runes (s : string) : list Z := (fun c => rune_lower c.1) <$> decode (to_bytes s).

Lemma lower_runes_valid s : Forall (fun r => valid_rune r = true) (lower_runes s).
Proof.
  apply Forall_fmap. eapply Forall_impl; [apply decode_valid, to_bytes_bytes|].
  intros c Hc. by apply rune_lower_valid.
Qed.

Lemma decode_ToLower s :
  decode (to_bytes (ToLower s)) = (fun r => (r, encode_rune r)) <$> lower_runes s.
Proof.
  unfold ToLower. fold (lower_runes s).
  rewrite to_of_bytes by apply encode_bytes, lower_runes_valid.
  apply decode_encode, lower_runes_valid.
Qed.

Lemma ToLower_idemp s : ToLower (ToLower s) = ToLower s.
Proof.
  unfold ToLower at 1. rewrite decode_ToLower, <- list_fmap_compose.
  unfold ToLower. fold (lower_runes s). do 2 f_equal.
  unfold lower_runes. rewrite <- list_fmap_compose.
  apply list_fmap_ext. intros; apply rune_lower_idemp.
Qed.

(** A piece of a lowered string is lowered. *)
Lemma ToLower_fixed_infix s t a b :
  decode (to_bytes (ToLower s)) = a ++ decode (to_bytes t) ++ b -> ToLower t = t.
Proof.
  rewrite decode_ToLower. intros E.
  assert (Hall : Forall (fun c => rune_lower c.1 = c.1 /\ c.2 = encode_rune c.1)
    (decode (to_bytes t))).
  { assert (H : Forall (fun c => rune_lower c.1 = c.1 /\ c.2 = encode_rune c.1)
      (a ++ decode (to_bytes t) ++ b)).
    { rewrite <- E. apply Forall_fmap, Forall_fmap, Forall_forall.
      intros c _; cbn. split; [apply rune_lower_idemp|done]. }
    rewrite !Forall_app in H. tauto. }
  unfold ToLower. rewrite <- (of_to_bytes t) at 2. f_equal.
  rewrite <- (chunk_bytes_decode (to_bytes t)) at 2.
  revert Hall. generalize (decode (to_bytes t)). clear.
  induction 1 as [|c cs [H1 H2] _ IH]; [done|].
  rewrite fmap_cons. cbn [fst snd]. unfold encode, chunk_bytes in *.
  rewrite !bind_cons, IH, H1, H2. done.
Qed.

(** [TrimSpace (ToLower s)], the normal form of selectors and aliases. *)
Lemma ToLower_TrimSpace_ToLower s :
  ToLower (TrimSpace (ToLower s)) = TrimSpace (ToLower s).
Proof.
  destruct (trim_chunks_infix (decode (to_bytes (ToLower s)))) as (a & b & E).
  apply (ToLower_fixed_infix s _ a b). by rewrite decode_TrimSpace.
Qed.

Lemma trim_lower_idemp s :
  TrimSpace (ToLower (TrimSpace (ToLower s))) = TrimSpace (ToLower s).
Proof. by rewrite ToLower_TrimSpace_ToLower, TrimSpace_idemp. Qed.

(** ** ASCII text *)

Lemma decode_ascii l :
  Forall (fun b => 0 <= b < 128) l -> decode l = (fun b => (b, [b])) <$> l.
Proof.
  induction 1 as [|b l Hb _ IH]; [done|].
  rewrite decode_cons.
  assert (decode1 (b :: l) = (b, 1%nat)) as ->
    by (cbn; by rewrite (proj2 (Z.ltb_lt b 128)) by lia).
  change (take 1 (b :: l)) with [b]. change (drop 1 (b :: l)) with l.
  by rewrite IH.
Qed.

(** Visible ASCII without upper-case letters. *)
Definition plain_byte (b : Z) : bool := (33 <=? b) && (b <=? 126) && negb ((65 <=? b) && (b <=? 90)).
Definition visible_byte (b : Z) : bool := (33 <=? b) && (b <=? 126).
Definition all_bytes (p : Z -> bool) (s : string) : bool := forallb p (to_bytes s).

Lemma all_bytes_spec p s : all_bytes p s = true <-> Forall (fun b => p b = true) (to_bytes s).
Proof. unfold all_bytes. rewrite forallb_forall, Forall_forall. by setoid_rewrite list_elem_of_In. Qed.

Lemma visible_TrimSpace s : all_bytes visible_byte s = true -> TrimSpace s = s.
Proof.
  rewrite all_bytes_spec; intros H. apply TrimSpace_fixed.
  assert (Hsp : Forall (fun c : Z * list Z => is_space c.1 = false) (decode (to_bytes s))).
  { rewrite decode_ascii.
    - apply Forall_fmap. eapply Forall_impl; [exact H|]. cbn. intros b Hb.
      unfold visible_byte in Hb. apply andb_true_iff in Hb as [?%Z.leb_le ?%Z.leb_le].
      unfold is_space. repeat rewrite orb_false_iff. rewrite !andb_false_iff, !Z.eqb_neq, !Z.leb_gt.
      lia.
    - eapply Forall_impl; [exact H|]. cbn. intros b Hb.
      unfold visible_byte in Hb. apply andb_true_iff in Hb as [?%Z.leb_le ?%Z.leb_le]. lia. }
  rewrite Forall_forall in Hsp. split; intros c Hc; apply Hsp.
  - destruct (decode _); [done|]. injection Hc as ->. apply list_elem_of_here.
  - by apply last_Some_elem_of.
Qed.

Lemma plain_ToLower s : all_bytes plain_byte s = true -> ToLower s = s.
Proof.
  rewrite all_bytes_spec; intros H. unfold ToLower.
  rewrite decode_ascii.
  - rewrite <- list_fmap_compose. rewrite <- (of_to_bytes s) at 2. f_equal.
    induction H as [|b l Hb _ IH]; [done|]. cbn in *. unfold encode in *; cbn. rewrite IH.
    unfold plain_byte in Hb. rewrite !andb_true_iff, negb_true_iff, !Z.leb_le in Hb.
    rewrite rune_lower_ascii by lia. destruct Hb as [[? ?] ->]. unfold encode_rune.
    rewrite (proj2 (Z.leb_le 0 b)), (proj2 (Z.ltb_lt b 128)) by lia. done.
  - eapply Forall_impl; [exact H|]. cbn; intros b Hb. unfold plain_byte in Hb.
    rewrite !andb_true_iff, !Z.leb_le in Hb. lia.
Qed.

Lemma plain_visible s : all_bytes plain_byte s = true -> all_bytes visible_byte s = true.
Proof.
  rewrite !all_bytes_spec. intros H. eapply Forall_impl; [exact H|].
  intros b. unfold plain_byte, visible_byte. rewrite !andb_true_iff. tauto.
Qed.

Lemma plain_TrimSpace s : all_bytes plain_byte s = true -> TrimSpace s = s.
Proof. intros H. by apply visible_TrimSpace, plain_visible. Qed.

(** ** Runes *)

(** The runes a [range] over the string visits. *)
Definition runes (s : string) : list Z := fst <$> decode (to_bytes s).

Lemma decode1_ascii b l :
  Forall is_byte (b :: l) -> fst (decode1 (b :: l)) < 128 -> decode1 (b :: l) = (b, 1%nat).
Proof.
  intros Hb. unfold decode1. destruct (b <? 128) eqn:E0; [done|].
  repeat case_match; cbn [fst]; unfold RuneError; try lia;
    repeat match goal with
    | H : ok2 _ _ = true |- _ => apply ok2_spec in H
    | H : ok3 _ _ _ = true |- _ => apply ok3_spec in H
    | H : ok4 _ _ _ _ = true |- _ => apply ok4_spec in H
    end; lia.
Qed.

Lemma ascii_runes_bytes l :
  Forall is_byte l -> Forall (fun c => c.1 < 128) (decode l) -> fst <$> decode l = l.
Proof.
  induction l as [|b l IH] using decode_ind; intros Hb; [done|].
  rewrite decode_cons. destruct (decode1 (b :: l)) as [r w] eqn:E.
  intros [Hr Hrest]%Forall_cons. cbn [fst snd] in *.
  assert (E' : decode1 (b :: l) = (b, 1%nat)) by (apply decode1_ascii; [done|by rewrite E]).
  rewrite E in E'. injection E' as -> ->. cbn in IH, Hrest |- *.
  rewrite IH; [done| |done]. by apply Forall_cons in Hb as [_ ?].
Qed.

(** A text whose runes are all ASCII consists of these bytes. *)
Lemma runes_ascii p s :
  (forall r, p r = true -> r < 128) -> forallb p (runes s) = true -> all_bytes p s = true.
Proof.
  intros Hp Hr. unfold all_bytes. rewrite <- Hr. f_equal. symmetry.
  apply ascii_runes_bytes; [apply to_bytes_bytes|].
  unfold runes in Hr. rewrite forallb_forall in Hr.
  apply Forall_forall. intros c Hc. apply Hp, Hr, list_elem_of_In.
  by apply list_elem_of_fmap_2.
Qed.

Lemma ascii_bytes_runes s :
  all_bytes (fun b => b <? 128) s = true -> runes s = to_bytes s.
Proof.
  rewrite all_bytes_spec. intros H. unfold runes. rewrite decode_ascii.
  - rewrite <- list_fmap_compose. apply list_fmap_id.
  - pose proof (to_bytes_bytes s) as Hb. rewrite Forall_forall in H, Hb |- *.
    intros b Hin. specialize (H _ Hin); cbn in H. specialize (Hb _ Hin). unfold is_byte in Hb. lia.
Qed.

Lemma all_bytes_app p a b : all_bytes p (a +:+ b) = all_bytes p a && all_bytes p b.
Proof. unfold all_bytes. by rewrite to_bytes_app, forallb_app. Qed.

Lemma all_bytes_impl (p q : Z -> bool) s :
  (forall b, p b = true -> q b = true) -> all_bytes p s = true -> all_bytes q s = true.
Proof. rewrite !all_bytes_spec. intros H Hs. eapply Forall_impl; eauto. Qed.

(** ** Cutting at a byte *)

Lemma length_append a b : String.length (a +:+ b) = (String.length a + String.length b)%nat.
Proof. induction a as [|x a IH]; [done|]. exact (f_equal S IH). Qed.

Lemma append_nil_r a : a +:+ "" = a.
Proof. induction a as [|x a IH]; [done|]. exact (f_equal (String x) IH). Qed.

Lemma append_assoc a b c : (a +:+ b) +:+ c = a +:+ (b +:+ c).
Proof. induction a as [|x a IH]; [done|]. exact (f_equal (String x) IH). Qed.

Lemma HasSuffix_spec s p : HasSuffix s p = true <-> exists q, s = q +:+ p.
Proof.
  induction s as [|x s IH]; cbn; rewrite orb_true_iff, bool_decide_eq_true.
  - split; [intros [->|]; [by exists ""|done]|].
    intros [[|y q] Hq]; [by left|]. change (String y q +:+ p) with (String y (q +:+ p)) in Hq. done.
  - rewrite IH. split.
    + intros [->|[q ->]]; [by exists ""|]. by exists (String x q).
    + intros [[|y q] Hq]; [by left|]. right.
      change (String y q +:+ p) with (String y (q +:+ p)) in Hq. injection Hq as -> ->. by exists q.
Qed.

Lemma substring_all s : String.substring 0 (String.length s) s = s.
Proof. induction s as [|c s IH]; [done|]. cbn. by rewrite IH. Qed.

Lemma TrimSuffix_app q p : TrimSuffix (q +:+ p) p = q.
Proof.
  induction q as [|x q IH].
  - change (TrimSuffix p p = ""). destruct p; cbn; by rewrite bool_decide_eq_true_2.
  - change (TrimSuffix (String x (q +:+ p)) p = String x q). cbn.
    rewrite bool_decide_eq_false_2, IH; [done|].
    intros E. apply (f_equal String.length) in E. cbn in E. rewrite length_append in E. lia.
Qed.

Lemma TrimSuffix_none s p : HasSuffix s p = false -> TrimSuffix s p = s.
Proof.
  induction s as [|x s IH]; cbn; intros [Hd Hs]%orb_false_iff; rewrite Hd; [done|].
  by rewrite IH.
Qed.

Lemma count_byte_has s c : (count_byte s c =? 0)%nat = negb (has_byte s c).
Proof. induction s as [|x s IH]; cbn; [done|]. by case_bool_decide. Qed.

Lemma has_byte_app a b c : has_byte (a +:+ b) c = has_byte a c || has_byte b c.
Proof.
  induction a as [|x a IH]; [done|].
  change (bool_decide (x = c) || has_byte (a +:+ b) c
    = bool_decide (x = c) || has_byte a c || has_byte b c). by rewrite IH, orb_assoc.
Qed.

Lemma HasPrefix_spec s p : HasPrefix s p = true <-> exists b, s = p +:+ b.
Proof.
  unfold HasPrefix. revert s; induction p as [|c p IH]; intros s.
  - split; [intros _; by exists s|by destruct s].
  - destruct s as [|y s].
    + split; [done|]. intros [b H]. discriminate H.
    + cbn. destruct (ascii_dec c y) as [->|Hne].
      * rewrite IH. split; intros [b H]; exists b; [by rewrite H|].
        change (String y s = String y (p +:+ b)) in H. by injection H.
      * split; [done|]. intros [b H]. change (String y s = String c (p +:+ b)) in H. congruence.
Qed.

Lemma TrimPrefix_app p r : TrimPrefix (p +:+ r) p = r.
Proof.
  unfold TrimPrefix. rewrite (proj2 (HasPrefix_spec (p +:+ r) p)) by (by exists r).
  assert (Hl : (String.length (p +:+ r) - String.length p)%nat = String.length r) by (rewrite length_append; lia).
  rewrite Hl. clear. induction p as [|c p IH]; [apply substring_all|exact IH].
Qed.

Lemma Contains_cons x s sub :
  Contains (String x s) sub = HasPrefix (String x s) sub || Contains s sub.
Proof. done. Qed.

Lemma Contains_spec s sub : Contains s sub = true <-> exists a b, s = a +:+ sub +:+ b.
Proof.
  induction s as [|x s IH].
  - split.
    + destruct sub; [by exists "", ""|intros H; discriminate H].
    + intros ([|y a] & b & H); [|discriminate H]. destruct sub; [done|discriminate H].
  - rewrite Contains_cons, orb_true_iff, IH, HasPrefix_spec. split.
    + intros [[b H]|(a & b & ->)]; [by exists "", b|by exists (String x a), b].
    + intros ([|y a] & b & H); [left; by exists b|right].
      change (String x s = String y (a +:+ sub +:+ b)) in H. injection H as -> ->. by exists a, b.
Qed.

Lemma cut_byte_Some s c a b :
  cut_byte s c = Some (a, b) -> s = a +:+ String c b /\ has_byte a c = false.
Proof.
  revert a; induction s as [|x s IH]; intros a; cbn; [done|].
  case_bool_decide as Hx.
  - intros [= <- <-]. by subst.
  - destruct (cut_byte s c) as [[a' b']|]; [|done]. intros [= <- <-].
    destruct (IH a' eq_refl) as [-> Hn]. split; [done|]. cbn.
    by rewrite bool_decide_eq_false_2, Hn.
Qed.

Lemma cut_byte_None s c : cut_byte s c = None <-> has_byte s c = false.
Proof.
  induction s as [|x s IH]; cbn; [done|]. case_bool_decide; cbn; [done|].
  rewrite <- IH. destruct (cut_byte s c) as [[]|]; done.
Qed.

Lemma cut_byte_app a c b : has_byte a c = false -> cut_byte (a +:+ String c b) c = Some (a, b).
Proof.
  induction a as [|x a IH]; intros Ha.
  - change (cut_byte (String c b) c = Some ("", b)). cbn. by rewrite bool_decide_eq_true_2.
  - change (cut_byte (String x (a +:+ String c b)) c = Some (String x a, b)).
    cbn in Ha |- *. apply orb_false_iff in Ha as [-> Ha]. by rewrite IH.
Qed.

Lemma split_byte_cut s c :
  split_byte s c =
    match cut_byte s c with Some (a, b) => a :: split_byte b c | None => [s] end.
Proof.
  induction s as [|x s IH]; cbn; [done|]. case_bool_decide; [done|].
  rewrite IH. destruct (cut_byte s c) as [[a b]|]; done.
Qed.

Lemma has_byte_bytes s c : has_byte s c = bool_decide (byte_of c ∈ to_bytes s).
Proof.
  induction s as [|x s IH]; [done|].
  change (bool_decide (x = c) || has_byte s c = bool_decide (byte_of c ∈ byte_of x :: to_bytes s)).
  rewrite IH. rewrite <- bool_decide_or. apply bool_decide_ext.
  rewrite elem_of_cons. split; (intros [H|H]; [left|by right]); [by subst|].
  rewrite <- (ascii_of_byte x), <- H, ascii_of_byte. done.
Qed.

Lemma all_bytes_no_byte p s c :
  all_bytes p s = true -> p (byte_of c) = false -> has_byte s c = false.
Proof.
  rewrite all_bytes_spec, Forall_forall, has_byte_bytes. intros H Hc.
  apply bool_decide_eq_false_2. intros Hin. rewrite H in Hc; done.
Qed.

Create HintDb gostrings.
#[export] Hint Resolve plain_ToLower plain_TrimSpace plain_visible : gostrings.
Create Rewrite HintDb gostrings_norm.
#[export] Hint Rewrite TrimSpace_idemp ToLower_idemp ToLower_TrimSpace_ToLower : gostrings_norm.

(** ** Fields *)

Definition no_space (c : Z * list Z) : Prop := is_space c.1 = false.

(** A field: a non-empty run without white space. *)
Definition field_chunks (p : list (Z * list Z)) : Prop := p <> [] /\ Forall no_space p.

Lemma split_spaces_fields cur cs :
  Forall no_space cur ->
  Forall (fun p => field_chunks p /\ exists a b, cur ++ cs = a ++ p ++ b) (split_spaces cur cs).
Proof.
  revert cur; induction cs as [|c t IH]; intros cur Hcur; cbn [split_spaces].
  - destruct cur as [|x cur]; constructor; [|constructor].
    split; [split; [discriminate|done]|]. by exists [], [].
  - destruct (is_space c.1) eqn:E.
    + assert (Hrest : Forall (fun p => field_chunks p /\ exists a b, cur ++ c :: t = a ++ p ++ b)
        (split_spaces [] t)).
      { eapply Forall_impl; [apply (IH []); constructor|]. intros p [Hp (a & b & Hab)].
        split; [done|]. exists (cur ++ c :: a), b. cbn in Hab. rewrite Hab.
        by rewrite <- !app_assoc. }
      destruct cur as [|x cur]; [done|]. constructor; [|done].
      split; [split; [discriminate|done]|]. by exists [], (c :: t).
    + eapply Forall_impl; [apply IH; apply Forall_app; split; [done|by repeat constructor]|].
      intros p [Hp (a & b & Hab)]. split; [done|]. exists a, b. rewrite <- Hab. by rewrite <- app_assoc.
Qed.

Lemma split_spaces_run cur p c t :
  Forall no_space p -> is_space c.1 = true -> cur ++ p <> [] ->
  split_spaces cur (p ++ c :: t) = (cur ++ p) :: split_spaces [] t.
Proof.
  intros Hp Hc. revert cur; induction Hp as [|x p Hx _ IH]; intros cur Hne; cbn [app split_spaces].
  - rewrite app_nil_r in *. rewrite Hc. by destruct cur.
  - unfold no_space in Hx. rewrite Hx, IH; rewrite <- app_assoc; done.
Qed.

Lemma split_spaces_end cur p :
  Forall no_space p -> cur ++ p <> [] -> split_spaces cur p = [cur ++ p].
Proof.
  intros Hp. revert cur; induction Hp as [|x p Hx _ IH]; intros cur Hne; cbn [split_spaces].
  - rewrite app_nil_r in *. by destruct cur.
  - unfold no_space in Hx. rewrite Hx, IH; rewrite <- app_assoc; done.
Qed.

Lemma decode_space l : decode (32 :: l) = (32, [32]) :: decode l.
Proof. rewrite decode_cons. reflexivity. Qed.

(** Joining texts with spaces joins their runes. *)
Lemma decode_join l :
  decode (to_bytes (Join l " ")) =
    match l with
    | [] => []
    | s :: rest => decode (to_bytes s) ++ (rest ≫= fun t => (32, [32]) :: decode (to_bytes t))
    end.
Proof.
  unfold Join. destruct l as [|s rest]; [done|]. revert s; induction rest as [|t rest IH]; intros s.
  - cbn. by rewrite app_nil_r.
  - change (String.concat " " (s :: t :: rest)) with (s +:+ " " +:+ String.concat " " (t :: rest)).
    rewrite to_bytes_app. change (to_bytes (" " +:+ String.concat " " (t :: rest)))
      with (32 :: to_bytes (String.concat " " (t :: rest))).
    rewrite decode_app by (apply rune_start_byte; lia). rewrite decode_space, IH. done.
Qed.

Definition is_field (s : string) : Prop := field_chunks (decode (to_bytes s)).

Lemma Fields_fields s : Forall is_field (Fields s).
Proof.
  unfold Fields. apply Forall_fmap.
  assert (H := split_spaces_fields [] (decode (to_bytes s)) (Forall_nil_2 _)).
  eapply Forall_impl; [exact H|]. intros p [Hp (a & b & Hab)]. cbn in Hab.
  assert (Hd : decoded p) by (apply (decoded_infix a p b); rewrite <- Hab; apply decoded_decode).
  unfold is_field, compose. rewrite to_of_bytes; [by rewrite Hd|].
  pose proof (to_bytes_bytes s) as Hb. rewrite <- (chunk_bytes_decode (to_bytes s)), Hab in Hb.
  rewrite !chunk_bytes_app, !Forall_app in Hb. tauto.
Qed.

(** Fields separated by single spaces are read back. *)
Lemma Fields_join l : Forall is_field l -> Fields (Join l " ") = l.
Proof.
  intros Hl. unfold Fields. rewrite decode_join.
  assert (E : split_spaces [] (match l with [] => [] | s :: rest =>
      decode (to_bytes s) ++ (rest ≫= fun t => (32, [32]) :: decode (to_bytes t)) end)
    = (fun s => decode (to_bytes s)) <$> l).
  { destruct Hl as [|s rest [Hne Hs] Hrest]; [done|]. revert s Hne Hs.
    induction Hrest as [|t rest [Htne Ht] Hrest IH]; intros s Hne Hs.
    - cbn. rewrite app_nil_r. by rewrite split_spaces_end.
    - rewrite bind_cons, <- app_comm_cons, split_spaces_run by done. cbn [app].
      rewrite fmap_cons. f_equal. by apply IH. }
  rewrite E, <- list_fmap_compose. rewrite <- (list_fmap_id l) at 2. apply list_fmap_ext.
  intros i s _. unfold compose. by rewrite chunk_bytes_decode, of_to_bytes.
Qed.

Lemma Fields_join_idemp s : Fields (Join (Fields s) " ") = Fields s.
Proof. apply Fields_join, Fields_fields. Qed.
