(* ===== verification/GoNum.v ===== *)
(** * Numbers, durations and instants

    [int] and [int64] are 64 bits wide with wrap-around, [float64] is IEEE 754
    binary64 (the Standard Library's executable [SpecFloat], so no axiom is
    involved), [time.Duration] counts nanoseconds in an [int64] and
    [time.Time] counts nanoseconds from the zero instant, year 1. *)
From Stdlib Require Export SpecFloat.
From S2P Require Import Prelude.

Local Open Scope Z_scope.

(** ** 64-bit integers *)

Definition min_int64 : Z := - 2 ^ 63.
Definition max_int64 : Z := 2 ^ 63 - 1.

Definition wrap64 (z : Z) : Z := (z + 2 ^ 63) mod 2 ^ 64 - 2 ^ 63.

Definition in_int64 (z : Z) : Prop := - 2 ^ 63 <= z < 2 ^ 63.

Definition wrap_u64 (z : Z) : Z := z mod 2 ^ 64.

Lemma wrap64_id z : in_int64 z -> wrap64 z = z.
Proof. unfold in_int64, wrap64; intros H. rewrite Z.mod_small; lia. Qed.

Lemma wrap64_range z : in_int64 (wrap64 z).
Proof. unfold in_int64, wrap64. pose proof (Z.mod_pos_bound (z + 2 ^ 63) (2 ^ 64)). lia. Qed.

(** Go's [/] truncates towards zero. *)
Definition quot64 (a b : Z) : Z := wrap64 (Z.quot a b).

(** ** Durations *)

Definition Nanosecond : Z := 1.
Definition Microsecond : Z := 1000 * Nanosecond.
Definition Millisecond : Z := 1000 * Microsecond.
Definition Second : Z := 1000 * Millisecond.
Definition Minute : Z := 60 * Second.
Definition Hour : Z := 60 * Minute.

(** ** Instants *)

Definition Time : Type := Z.
Definition zero_time : Time := 0.

Definition IsZero (t : Time) : bool := t =? 0.
Definition Before (t u : Time) : bool := t <? u.
Definition After (t u : Time) : bool := u <? t.
Definition Add (t : Time) (d : Z) : Time := t + d.

(** [Time.Sub] saturates at the ends of [Duration]. *)
Definition Sub (t u : Time) : Z := Z.max min_int64 (Z.min max_int64 (t - u)).

(** Seconds since 1970. *)
Definition Unix (t : Time) : Z := t / Second - 62135596800.

Lemma Sub_small t u : in_int64 (t - u) -> Sub t u = t - u.
Proof. unfold in_int64, Sub, min_int64, max_int64. lia. Qed.

(** ** binary64 *)

Abbreviation f64 := spec_float.
Definition f64_prec : Z := 53.
Definition f64_emax : Z := 1024.

#[export] Instance spec_float_eq_dec : EqDecision spec_float.
Proof.
  intros x y; unfold Decision; decide equality;
    solve [apply bool_dec | apply Pos.eq_dec | apply Z.eq_dec].
Defined.

Definition f64_of_Z (z : Z) : f64 := binary_normalize f64_prec f64_emax z 0 false.
Definition f64_add (x y : f64) : f64 := SFadd f64_prec f64_emax x y.
Definition f64_sub (x y : f64) : f64 := SFsub f64_prec f64_emax x y.
Definition f64_mul (x y : f64) : f64 := SFmul f64_prec f64_emax x y.
Definition f64_div (x y : f64) : f64 := SFdiv f64_prec f64_emax x y.
Definition f64_ltb (x y : f64) : bool := SFltb x y.
Definition f64_leb (x y : f64) : bool := SFleb x y.
(** [==] and [!=] on [float64]. *)
Definition f64_eqb (x y : f64) : bool := SFeqb x y.

(** A decimal constant, rounded once: [n / d] with [n] and [d] exact. *)
Definition f64_const (n d : Z) : f64 := f64_div (f64_of_Z n) (f64_of_Z d).

(** Conversion to [int64]: truncation; out of range values convert to the
    least integer, as on amd64. *)
Definition f64_to_int64 (x : f64) : Z :=
  match x with
  | S754_zero _ => 0
  | S754_finite s m e =>
    let a := if 0 <=? e then Zpos m * 2 ^ e else Zpos m / 2 ^ (- e) in
    let v := if s then - a else a in
    if (min_int64 <=? v) && (v <=? max_int64) then v else min_int64
  | S754_infinity _ | S754_nan => min_int64
  end.

(** [Duration.Seconds]. *)
Definition Seconds (d : Z) : f64 :=
  f64_add (f64_of_Z (Z.quot d Second))
          (f64_div (f64_of_Z (Z.rem d Second)) (f64_of_Z 1000000000)).

Example f64_thirds : f64_to_int64 (f64_mul (f64_const 1 3) (f64_of_Z 10)) = 3.
Proof. reflexivity. Qed.

Example f64_point_two : f64_const 2 10 = S754_finite false 7205759403792794 (-55).
Proof. reflexivity. Qed.

Lemma f64_to_int64_range x : in_int64 (f64_to_int64 x).
Proof.
  unfold f64_to_int64, in_int64, min_int64, max_int64.
  destruct x as [s|s| |s m e]; try lia.
  case_match eqn:E; [|lia]. apply andb_true_iff in E as [?%Z.leb_le ?%Z.leb_le]. lia.
Qed.

(** [<] on [float64] is irreflexive and transitive, NaN included. *)
Lemma SFcompare_antisym x y c :
  SFcompare x y = Some c -> SFcompare y x = Some (CompOpp c).
Proof.
  assert (Hp : forall m n, Pos.compare_cont Eq n m = CompOpp (Pos.compare_cont Eq m n)).
  { intros m n. by rewrite Pos.compare_cont_antisym. }
  destruct x as [[]|[]| |[] m e], y as [[]|[]| |[] n f]; cbn;
    try (intros [= <-]; reflexivity); try discriminate.
  all: rewrite (Z.compare_antisym e f); destruct (Z.compare e f); cbn;
    try (intros [= <-]; reflexivity).
  all: rewrite (Hp m n); destruct (Pos.compare_cont Eq m n); cbn; by intros [= <-].
Qed.

Lemma f64_ltb_irrefl x : f64_ltb x x = false.
Proof.
  unfold f64_ltb, SFltb. destruct (SFcompare x x) as [c|] eqn:E; [|done].
  pose proof (SFcompare_antisym _ _ _ E) as E'. rewrite E in E'. by destruct c.
Qed.
