(* ===== verification/NetIP.v ===== *)
(** * The [net] functions the source calls

    [net.ParseIP], [net.ParseCIDR] and [IP.To4], after the Go standard
    library: an address is parsed by [netip.ParseAddr] (dotted quad without
    leading zeros, or RFC 4291 text with an optional zone), and [ParseIP]
    refuses a zone.  Strings are handled as their bytes. *)
From S2P Require Import Prelude GoRunes GoStrings.

Local Open Scope Z_scope.
Local Open Scope list_scope.

Inductive Addr : Type :=
| Addr4 (b : list Z)
| Addr16 (b : list Z) (zone : list Z).

#[export] Instance Addr_eq_dec : EqDecision Addr.
Proof. solve_decision. Defined.

Definition is_digit (c : Z) : bool := (48 <=? c) && (c <=? 57).

Definition hex_value (c : Z) : option Z :=
  if (48 <=? c) && (c <=? 57) then Some (c - 48)
  else if (97 <=? c) && (c <=? 102) then Some (c - 97 + 10)
  else if (65 <=? c) && (c <=? 70) then Some (c - 65 + 10)
  else None.

(** The bytes before and after the first [c]. *)
Fixpoint cut_at (c : Z) (l : list Z) : option (list Z * list Z) :=
  match l with
  | [] => None
  | x :: t =>
    if x =? c then Some ([], t)
    else match cut_at c t with Some (a, b) => Some (x :: a, b) | None => None end
  end.

Definition decimal (l : list Z) : Z := foldl (fun acc c => acc * 10 + (c - 48)) 0 l.

(** One octet: one to three digits, no leading zero, at most 255. *)
Definition parse_octet (l : list Z) : option Z :=
  if forallb is_digit l && (0 <? length l)%nat && (length l <=? 3)%nat
     && negb ((1 <? length l)%nat && bool_decide (head l = Some 48)) && (decimal l <=? 255)
  then Some (decimal l) else None.

(** [parseIPv4Fields]. *)
Definition parse_ipv4 (l : list Z) : option (list Z) :=
  match cut_at 46 l with
  | Some (a, r1) =>
    match cut_at 46 r1 with
    | Some (b, r2) =>
      match cut_at 46 r2 with
      | Some (c, d) =>
        match parse_octet a, parse_octet b, parse_octet c, parse_octet d with
        | Some a, Some b, Some c, Some d => Some [a; b; c; d]
        | _, _, _, _ => None
        end
      | None => None
      end
    | None => None
    end
  | None => None
  end.

(** The leading hexadecimal digits: their value, their number, the rest. *)
Fixpoint hex_run (acc : Z) (n : nat) (l : list Z) : Z * nat * list Z :=
  match l with
  | c :: t =>
    match hex_value c with
    | Some v => hex_run (acc * 16 + v) (S n) t
    | None => (acc, n, l)
    end
  | [] => (acc, n, l)
  end.

(** The groups of an IPv6 address after a leading ellipsis: [ip] are the bytes
    read so far, [ell] the position of the ellipsis.  At most eight groups are
    read. *)
Fixpoint ipv6_groups (fuel : nat) (ip : list Z) (ell : option nat) (s : list Z)
    : option (list Z * option nat) :=
  match fuel with
  | O => match s with [] => Some (ip, ell) | _ => None end
  | S fuel' =>
    let '(acc, off, rest) := hex_run 0 0 s in
    if (off =? 0)%nat || (4 <? off)%nat then None
    else
      let ip' := ip ++ [acc / 256; acc mod 256] in
      match rest with
      | [] => Some (ip', ell)
      | x :: rest' =>
        if x =? 46
        then
          if match ell with None => negb (length ip =? 12)%nat | Some _ => false end then None
          else if (16 <? length ip + 4)%nat then None
          else match parse_ipv4 s with Some q => Some (ip ++ q, ell) | None => None end
        else if negb (x =? 58) then None
        else
          match rest' with
          | [] => None
          | y :: s' =>
            if y =? 58
            then
              match ell, s' with
              | Some _, _ => None
              | None, [] => Some (ip', Some (length ip'))
              | None, _ => ipv6_groups fuel' ip' (Some (length ip')) s'
              end
            else ipv6_groups fuel' ip' ell rest'
          end
      end
  end.

Definition expand_ellipsis (p : list Z * option nat) : option (list Z) :=
  let '(ip, ell) := p in
  if (length ip <? 16)%nat
  then match ell with
       | Some e => Some (take e ip ++ replicate (16 - length ip) 0 ++ drop e ip)
       | None => None
       end
  else match ell with Some _ => None | None => Some ip end.

Definition parse_ipv6 (l : list Z) : option Addr :=
  let '(s, zone, ok) :=
    match cut_at 37 l with Some (s, z) => (s, z, bool_decide (z <> [])) | None => (l, [], true) end in
  if negb ok then None
  else
    let groups ell s := (fun b => Addr16 b zone) <$> (ipv6_groups 8 [] ell s ≫= expand_ellipsis) in
    match s with
    | x :: y :: s' =>
      if (x =? 58) && (y =? 58)
      then match s' with [] => Some (Addr16 (replicate 16 0) zone) | _ => groups (Some 0%nat) s' end
      else groups None s
    | _ => groups None s
    end.

(** [netip.ParseAddr]: the first of [.], [:] and [%] decides. *)
Fixpoint ParseAddr_from (l whole : list Z) : option Addr :=
  match l with
  | [] => None
  | c :: t =>
    if c =? 46 then Addr4 <$> parse_ipv4 whole
    else if c =? 58 then parse_ipv6 whole
    else if c =? 37 then None
    else ParseAddr_from t whole
  end.

Definition ParseAddr (s : string) : option Addr := ParseAddr_from (to_bytes s) (to_bytes s).

(** [net.ParseIP]: the sixteen bytes of an address without zone. *)
Definition v4_prefix : list Z := [0; 0; 0; 0; 0; 0; 0; 0; 0; 0; 255; 255].

Definition As16 (a : Addr) : list Z :=
  match a with Addr4 b => v4_prefix ++ b | Addr16 b _ => b end.

Definition no_zone (a : Addr) : bool :=
  match a with Addr4 _ => true | Addr16 _ z => bool_decide (z = []) end.

Definition BitLen (a : Addr) : Z := match a with Addr4 _ => 32 | Addr16 _ _ => 128 end.

Definition ParseIP (s : string) : option (list Z) :=
  match ParseAddr s with
  | Some a => if no_zone a then Some (As16 a) else None
  | None => None
  end.

Definition To4 (ip : list Z) : option (list Z) :=
  if bool_decide (length ip = 16%nat) && bool_decide (take 12 ip = v4_prefix)
  then Some (drop 12 ip) else None.

(** [dtoi] of the whole mask; [big] is 0xFFFFFF. *)
Fixpoint dtoi_from (n : Z) (l : list Z) : option Z :=
  match l with
  | [] => Some n
  | c :: t =>
    if is_digit c
    then let n' := n * 10 + (c - 48) in if 16777215 <=? n' then None else dtoi_from n' t
    else None
  end.

Definition dtoi (l : list Z) : option Z := match l with [] => None | _ => dtoi_from 0 l end.

(** [net.ParseCIDR]: the address as written and the prefix length. *)
Definition ParseCIDR (s : string) : option (list Z * Z) :=
  match cut_byte s "/"%char with
  | Some (addr, mask) =>
    match ParseAddr addr, dtoi (to_bytes mask) with
    | Some a, Some n => if no_zone a && (n <=? BitLen a) then Some (As16 a, n) else None
    | _, _ => None
    end
  | None => None
  end.

Example ParseIP_ex1 : ParseIP "192.168.1.10" = Some (v4_prefix ++ [192; 168; 1; 10]).
Proof. reflexivity. Qed.
Example ParseIP_ex2 : ParseIP "010.1.1.1" = None.
Proof. reflexivity. Qed.
Example ParseIP_ex3 : ParseIP "::ffff:1.2.3.4" = ParseIP "1.2.3.4".
Proof. reflexivity. Qed.
Example ParseIP_ex4 : ParseIP "fe80::1%eth0" = None.
Proof. reflexivity. Qed.
Example ParseIP_ex5 : ParseIP "1:2:3:4:5:6:7::" = Some [0;1;0;2;0;3;0;4;0;5;0;6;0;7;0;0].
Proof. reflexivity. Qed.
Example ParseCIDR_ex1 : ParseCIDR "10.0.0.0/33" = None.
Proof. reflexivity. Qed.
Example ParseCIDR_ex2 : ParseCIDR "10.1.2.3/8" = Some (v4_prefix ++ [10; 1; 2; 3], 8).
Proof. reflexivity. Qed.

(** ** IPv4 addresses are four bytes *)

Lemma cut_at_Some c l a b : cut_at c l = Some (a, b) -> l = a ++ c :: b /\ c ∉ a.
Proof.
  revert a; induction l as [|x t IH]; intros a; cbn; [done|].
  destruct (Z.eqb_spec x c) as [->|Hne].
  - intros [= <- <-]. split; [done|apply not_elem_of_nil].
  - destruct (cut_at c t) as [[a' b']|]; [|done]. intros [= <- <-].
    destruct (IH a' eq_refl) as [-> Hn]. split; [done|].
    rewrite elem_of_cons. intros [?|?]; congruence.
Qed.

Lemma cut_at_first c a b : c ∉ a -> cut_at c (a ++ c :: b) = Some (a, b).
Proof.
  induction a as [|x a IH]; intros Hn; cbn; [by rewrite Z.eqb_refl|]. apply not_elem_of_cons in Hn as [Hne Hn].
  rewrite (proj2 (Z.eqb_neq x c)) by done. by rewrite IH.
Qed.

Lemma decimal_nonneg_from l acc :
  forallb is_digit l = true -> 0 <= acc ->
  0 <= foldl (fun acc c => acc * 10 + (c - 48)) acc l.
Proof.
  revert acc; induction l as [|c l IH]; intros acc Hl Ha; cbn in *; [done|].
  apply andb_true_iff in Hl as [Hc Hl]. apply IH; [done|].
  unfold is_digit in Hc. apply andb_true_iff in Hc as [?%Z.leb_le ?%Z.leb_le]. lia.
Qed.

Lemma parse_octet_range l v : parse_octet l = Some v -> 0 <= v <= 255.
Proof.
  unfold parse_octet. case_match eqn:E; [|done]. intros [= <-].
  rewrite !andb_true_iff in E. destruct E as ((((Hd & _) & _) & _) & Hle%Z.leb_le).
  split; [|done]. by apply decimal_nonneg_from.
Qed.

Lemma parse_ipv4_shape l q :
  parse_ipv4 l = Some q ->
  exists a b c d, q = [a; b; c; d] /\ Forall (fun x => 0 <= x <= 255) q.
Proof.
  unfold parse_ipv4. repeat case_match; try done. intros [= <-].
  do 4 eexists. split; [reflexivity|]. repeat constructor; eapply parse_octet_range; eassumption.
Qed.

(** The value of four bytes, most significant first. *)
Definition be_value (l : list Z) : Z := foldl (fun acc b => acc * 256 + b) 0 l.

(** ** Every parsed address is sixteen bytes *)

Lemma hex_value_range c v : hex_value c = Some v -> 0 <= v < 16.
Proof.
  unfold hex_value. repeat case_match; try done; intros [= <-];
    repeat match goal with H : _ && _ = true |- _ => apply andb_true_iff in H as [?%Z.leb_le ?%Z.leb_le] end;
    lia.
Qed.

Lemma hex_run_range l acc n a m r :
  hex_run acc n l = (a, m, r) -> 0 <= acc < 16 ^ Z.of_nat n -> (n <= m)%nat /\ 0 <= a < 16 ^ Z.of_nat m.
Proof.
  revert acc n; induction l as [|c l IH]; intros acc n; cbn.
  - intros [= <- <- _] H. done.
  - destruct (hex_value c) as [v|] eqn:E.
    + intros Hr Ha. apply hex_value_range in E. apply IH in Hr as [? ?]; [split; [lia|done]|].
      rewrite Nat2Z.inj_succ, Z.pow_succ_r by lia. lia.
    + intros [= <- <- _] H. done.
Qed.

Definition byte_list (l : list Z) : Prop := Forall (fun x => 0 <= x <= 255) l.

Lemma group_bytes acc off :
  0 <= acc < 16 ^ Z.of_nat off -> (off <= 4)%nat -> byte_list [acc / 256; acc mod 256].
Proof.
  intros H Hle. assert (acc < 65536).
  { eapply Z.lt_le_trans; [apply H|]. change 65536 with (16 ^ 4). apply Z.pow_le_mono_r; lia. }
  repeat constructor; pose proof (Z.mod_pos_bound acc 256 ltac:(lia));
    pose proof (Z.div_mod acc 256 ltac:(lia)); lia.
Qed.

Definition ell_ok (ell : option nat) (n : nat) : Prop :=
  match ell with Some e => (e <= n)%nat | None => True end.

(** What [ipv6_groups] keeps of the bytes read and of the ellipsis. *)
Definition groups_ok (ip : list Z) (ell : option nat) : Prop :=
  byte_list ip /\ (length ip <= 16)%nat /\ ell_ok ell (length ip).

Lemma groups_ok_app ip ell ext :
  groups_ok ip ell -> byte_list ext -> (length ip + length ext <= 16)%nat ->
  groups_ok (ip ++ ext) ell /\ groups_ok (ip ++ ext) (Some (length (ip ++ ext))).
Proof.
  intros (Hb & _ & He) Hx Hl. unfold groups_ok, ell_ok in *. rewrite length_app.
  repeat split; try (by apply Forall_app); try lia. destruct ell; lia.
Qed.

Lemma ipv6_groups_ok fuel ip ell s ip' ell' :
  ipv6_groups fuel ip ell s = Some (ip', ell') ->
  (length ip + 2 * fuel <= 16)%nat -> groups_ok ip ell -> groups_ok ip' ell'.
Proof.
  revert ip ell s; induction fuel as [|fuel IH]; intros ip ell s; cbn [ipv6_groups].
  { destruct s; [|done]. by intros [= <- <-]. }
  destruct (hex_run 0 0 s) as [[acc off] rest] eqn:Er.
  apply hex_run_range in Er as [_ Hacc]; [|cbn; lia].
  destruct ((off =? 0)%nat || (4 <? off)%nat) eqn:Eo; [done|].
  apply orb_false_iff in Eo as [_ Eo%Nat.ltb_ge].
  pose proof (group_bytes acc off Hacc Eo) as Hg.
  intros H Hl Hok.
  remember [acc / 256; acc mod 256] as g eqn:Eg.
  assert (Hlg : length g = 2%nat) by by subst. clear Eg.
  destruct (groups_ok_app ip ell g Hok Hg) as [H1 H2]; [lia|].
  assert (Hlen : (length (ip ++ g) + 2 * fuel <= 16)%nat) by (rewrite length_app; lia).
  repeat case_match; simplify_eq; try done; try (by eapply IH; eauto).
  all: match goal with H : parse_ipv4 _ = Some _ |- _ => apply parse_ipv4_shape in H as (?&?&?&?&->&?) end.
  all: match goal with H : (_ <? _)%nat = false |- _ => apply Nat.ltb_ge in H end.
  all: eapply groups_ok_app; [done|done|cbn; lia].
Qed.

Lemma expand_ellipsis_ok ip ell b :
  groups_ok ip ell -> expand_ellipsis (ip, ell) = Some b -> byte_list b /\ length b = 16%nat.
Proof.
  intros (Hb & Hl & He). unfold expand_ellipsis. destruct (length ip <? 16)%nat eqn:E.
  - destruct ell as [e|]; [|done]. intros [= <-]. split.
    + apply Forall_app; split; [by apply Forall_take|]. apply Forall_app; split; [|by apply Forall_drop].
      apply Forall_replicate. lia.
    + rewrite !length_app, length_take, length_replicate, length_drop. cbn in He. lia.
  - destruct ell; [done|]. intros [= <-]. apply Nat.ltb_ge in E. split; [done|lia].
Qed.

Lemma parse_ipv6_ok l a : parse_ipv6 l = Some a -> byte_list (As16 a) /\ length (As16 a) = 16%nat.
Proof.
  assert (Hg : forall ell s zone, ell_ok ell 0 ->
    (fun b => Addr16 b zone) <$> (ipv6_groups 8 [] ell s ≫= expand_ellipsis) = Some a ->
    byte_list (As16 a) /\ length (As16 a) = 16%nat).
  { intros ell s zone He. rewrite fmap_Some. intros (b & Hb & ->).
    apply bind_Some in Hb as ([ip ell'] & Hgr & Hexp).
    apply (expand_ellipsis_ok ip ell'); [|exact Hexp].
    eapply ipv6_groups_ok; [exact Hgr|done|]. repeat split; [constructor|cbn; lia|done]. }
  unfold parse_ipv6. destruct (match cut_at 37 l with Some _ => _ | None => _ end) as [[s zone] ok].
  destruct ok; [cbn [negb]|done].
  repeat case_match; intros Ha; try (by eapply Hg; [|exact Ha]; cbn; auto).
  injection Ha as <-. split; [by repeat constructor|done].
Qed.

Lemma ParseIP_bytes s ip : ParseIP s = Some ip -> byte_list ip /\ length ip = 16%nat.
Proof.
  unfold ParseIP. destruct (ParseAddr s) as [a|] eqn:E; [|done].
  case_match; [|done]. intros [= <-]. unfold ParseAddr in E. revert E.
  generalize (to_bytes s) at 2 as whole. induction (to_bytes s) as [|c t IH]; [done|].
  intros whole. cbn [ParseAddr_from]. repeat case_match; [| |done|apply IH].
  - intros (q & Hq & ->)%fmap_Some. apply parse_ipv4_shape in Hq as (?&?&?&?&->&?).
    split; [apply Forall_app; split; [repeat constructor; lia|done]|done].
  - apply parse_ipv6_ok.
Qed.

Lemma To4_bytes ip b : byte_list ip -> To4 ip = Some b -> byte_list b /\ length b = 4%nat.
Proof.
  unfold To4. case_match eqn:E; [|done]. intros H [= <-].
  apply andb_true_iff in E as [Hl%bool_decide_eq_true _].
  split; [by apply Forall_drop|]. rewrite length_drop, Hl. done.
Qed.
