(* ===== verification/Domain.v ===== *)
(** * Nodes, health records, subscriptions and country codes

    [domain/node.go], [domain/health.go], [domain/score.go],
    [domain/ipv6.go], [domain/subscription.go] and [domain/country.go]: one
    Module per struct, its record named after the struct.  [json.RawMessage]
    is the string of its bytes; a nil slice is the empty list. *)
From stdpp Require Import pretty.
From S2P Require Import Prelude GoRunes GoStrings GoNum.

Local Open Scope Z_scope.
Local Open Scope list_scope.

(** [domain.Duration] wraps [time.Duration]. *)
Definition Duration : Type := Z.

(** [strconv.Itoa]. *)
Definition Itoa (n : Z) : string := pretty n.

(** ** node.go *)

Definition ProtocolVLESS := "vless".
Definition ProtocolVMess := "vmess".
Definition ProtocolTrojan := "trojan".
Definition ProtocolShadowsocks := "shadowsocks".
Definition ProtocolSocks := "socks".
Definition ProtocolHysteria := "hysteria".
Definition ProtocolHysteria2 := "hysteria2".
Definition ProtocolAmneziaWG := "amneziawg".

Module Node.
Record Node : Type := mk {
  ID : string;
  SubscriptionID : string;
  Name : string;
  ProviderName : string;
  Protocol : string;
  Address : string;
  Port : Z;
  UUID : string;
  Password : string;
  Encryption : string;
  Security : string;
  ServerName : string;
  ALPN : list string;
  Fingerprint : string;
  PublicKey : string;
  ShortID : string;
  SpiderX : string;
  Flow : string;
  Transport : string;
  Path : string;
  Host : string;
  Remark : string;
  RawQuery : string;
  Extras : gmap string string;
  RawOutbound : string
}.

(** [Node{}]. *)
Definition zero : Node :=
  mk "" "" "" "" "" "" 0 "" "" "" "" "" [] "" "" "" "" "" "" "" "" "" "" ∅ "".

Definition eta (n : Node) : Node :=
  mk (ID n) (SubscriptionID n) (Name n) (ProviderName n) (Protocol n) (Address n) (Port n)
     (UUID n) (Password n) (Encryption n) (Security n) (ServerName n) (ALPN n) (Fingerprint n)
     (PublicKey n) (ShortID n) (SpiderX n) (Flow n) (Transport n) (Path n) (Host n) (Remark n)
     (RawQuery n) (Extras n) (RawOutbound n).
#[export] Instance set_ID : Setter ID := ltac:(mk_setter eta ID).
#[export] Instance set_Name : Setter Name := ltac:(mk_setter eta Name).
#[export] Instance set_Remark : Setter Remark := ltac:(mk_setter eta Remark).
#[export] Instance set_Transport : Setter Transport := ltac:(mk_setter eta Transport).
#[export] Instance set_Protocol : Setter Protocol := ltac:(mk_setter eta Protocol).
#[export] Instance set_Security : Setter Security := ltac:(mk_setter eta Security).
End Node.
Export (hints) Node.
Abbreviation Node := Node.Node.

#[export] Instance Node_eq_dec : EqDecision Node.
Proof. solve_decision. Defined.

Definition DisplayName (n : Node) : string :=
  if bool_decide (Node.Name n <> "") then Node.Name n
  else if bool_decide (Node.Remark n <> "") then Node.Remark n
  else Node.Address n +:+ ":" +:+ Itoa (Node.Port n).

(** ** health.go *)

Module NodeHealth.
Record NodeHealth : Type := mk {
  NodeID : string;
  LastLatency : Duration;
  AverageLatency : Duration;
  LatencyVariation : Duration;
  SuccessCount : Z;
  FailureCount : Z;
  ConsecutiveFailures : Z;
  ConsecutiveSuccesses : Z;
  InstabilityPenalty : Z;
  LastCheckedAt : Time;
  Healthy : bool;
  Score : f64;
  EgressIP : string;
  CountryCode : string;
  LastFailureReason : string
}.

(** [NodeHealth{}]. *)
Definition zero : NodeHealth :=
  mk "" 0 0 0 0 0 0 0 0 zero_time false (S754_zero false) "" "" "".

Definition eta (h : NodeHealth) : NodeHealth :=
  mk (NodeID h) (LastLatency h) (AverageLatency h) (LatencyVariation h) (SuccessCount h)
     (FailureCount h) (ConsecutiveFailures h) (ConsecutiveSuccesses h) (InstabilityPenalty h)
     (LastCheckedAt h) (Healthy h) (Score h) (EgressIP h) (CountryCode h) (LastFailureReason h).
#[export] Instance set_NodeID : Setter NodeID := ltac:(mk_setter eta NodeID).
#[export] Instance set_LastLatency : Setter LastLatency := ltac:(mk_setter eta LastLatency).
#[export] Instance set_AverageLatency : Setter AverageLatency := ltac:(mk_setter eta AverageLatency).
#[export] Instance set_LatencyVariation : Setter LatencyVariation := ltac:(mk_setter eta LatencyVariation).
#[export] Instance set_SuccessCount : Setter SuccessCount := ltac:(mk_setter eta SuccessCount).
#[export] Instance set_FailureCount : Setter FailureCount := ltac:(mk_setter eta FailureCount).
#[export] Instance set_ConsecutiveFailures : Setter ConsecutiveFailures :=
  ltac:(mk_setter eta ConsecutiveFailures).
#[export] Instance set_ConsecutiveSuccesses : Setter ConsecutiveSuccesses :=
  ltac:(mk_setter eta ConsecutiveSuccesses).
#[export] Instance set_InstabilityPenalty : Setter InstabilityPenalty :=
  ltac:(mk_setter eta InstabilityPenalty).
#[export] Instance set_LastCheckedAt : Setter LastCheckedAt := ltac:(mk_setter eta LastCheckedAt).
#[export] Instance set_Healthy : Setter Healthy := ltac:(mk_setter eta Healthy).
#[export] Instance set_Score : Setter Score := ltac:(mk_setter eta Score).
#[export] Instance set_EgressIP : Setter EgressIP := ltac:(mk_setter eta EgressIP).
#[export] Instance set_CountryCode : Setter CountryCode := ltac:(mk_setter eta CountryCode).
#[export] Instance set_LastFailureReason : Setter LastFailureReason :=
  ltac:(mk_setter eta LastFailureReason).
End NodeHealth.
Export (hints) NodeHealth.
Abbreviation NodeHealth := NodeHealth.NodeHealth.

#[export] Instance NodeHealth_eq_dec : EqDecision NodeHealth.
Proof. solve_decision. Defined.

(** ** score.go, ipv6.go *)

Module ScoreResult.
Record ScoreResult : Type := mk {
  NodeID : string;
  Healthy : bool;
  Score : f64;
  Reason : string;
  Selected : bool
}.
End ScoreResult.

Module IPv6Status.
Record IPv6Status : Type := mk {
  Available : bool;
  ConfigPath : string;
  PersistentDisabled : bool;
  RuntimeDisabled : bool;
  EnabledInterfaces : list string
}.
End IPv6Status.

(** ** subscription.go *)

Definition SourceTypeURL := "url".
Definition SourceTypeRaw := "raw".
Definition SourceTypeFile := "file".

Definition ProviderNameSourceDefault := "default".
Definition ProviderNameSourceURL := "url".
Definition ProviderNameSourceHeader := "header".
Definition ProviderNameSourceManual := "manual".

Module SubscriptionTraffic.
Record SubscriptionTraffic : Type := mk {
  UploadBytes : Z;
  DownloadBytes : Z;
  TotalBytes : Z
}.
End SubscriptionTraffic.

Module Subscription.
Record Subscription : Type := mk {
  ID : string;
  SourceType : string;
  Source : string;
  FileName : string;
  ProviderName : string;
  ProviderNameSource : string;
  DisplayName : string;
  HWID : string;
  LastUpdatedAt : Time;
  ExpiresAt : option Time;
  Traffic : option SubscriptionTraffic.SubscriptionTraffic;
  RefreshInterval : Duration;
  LastError : string;
  ParserStatus : string;
  Nodes : list Node
}.
Definition zero : Subscription :=
  mk "" "" "" "" "" "" "" "" zero_time None None 0 "" "" [].
End Subscription.
Abbreviation Subscription := Subscription.Subscription.

Definition IsExpired (s : Subscription) (now : Time) : bool :=
  match Subscription.ExpiresAt s with
  | Some t => negb (After t now)
  | None => false
  end.

(** The first node of the list with the given ID. *)
Definition find_node (nodes : list Node) (id : string) : option Node :=
  List.find (fun n => bool_decide (Node.ID n = id)) nodes.

Definition NodeByID (s : Subscription) (id : string) : option Node :=
  find_node (Subscription.Nodes s) id.

Lemma find_node_Some nodes id n :
  find_node nodes id = Some n -> n ∈ nodes /\ Node.ID n = id.
Proof.
  intros [H1 H2]%find_some. rewrite list_elem_of_In. split; [done|].
  by apply bool_decide_eq_true in H2.
Qed.

Lemma find_node_None nodes id :
  find_node nodes id = None <-> forall n, n ∈ nodes -> Node.ID n <> id.
Proof.
  unfold find_node. split.
  - intros H n Hn%list_elem_of_In. by apply (find_none _ _ H), bool_decide_eq_false in Hn.
  - intros H. destruct (List.find _ nodes) as [n|] eqn:E; [|done].
    apply find_node_Some in E as [Hn Hid]. by destruct (H n Hn).
Qed.

(** With distinct IDs every node is the one its ID finds. *)
Lemma find_node_unique nodes n :
  NoDup (Node.ID <$> nodes) -> n ∈ nodes -> find_node nodes (Node.ID n) = Some n.
Proof.
  unfold find_node. induction nodes as [|m nodes IH]; cbn; intros Hnd Hn.
  - by apply not_elem_of_nil in Hn.
  - apply NoDup_cons in Hnd as [Hm Hnd]. apply elem_of_cons in Hn as [->|Hn].
    + by rewrite bool_decide_eq_true_2.
    + rewrite bool_decide_eq_false_2; [by apply IH|].
      intros E. apply Hm. rewrite E. by apply list_elem_of_fmap_2.
Qed.

(** ** country.go *)

Module CountryRouting.
Record CountryRouting : Type := mk {
  Enabled : bool;
  CountryCode : string
}.
Definition zero : CountryRouting := mk false "".
End CountryRouting.
Abbreviation CountryRouting := CountryRouting.CountryRouting.

Definition supportedCountryCodes : list string := [
  "AD"; "AE"; "AF"; "AG"; "AI"; "AL"; "AM"; "AO"; "AQ"; "AR"; "AS"; "AT"; "AU"; "AW"; "AX"; "AZ";
  "BA"; "BB"; "BD"; "BE"; "BF"; "BG"; "BH"; "BI"; "BJ"; "BL"; "BM"; "BN"; "BO"; "BQ"; "BR"; "BS"; "BT"; "BV"; "BW"; "BY"; "BZ";
  "CA"; "CC"; "CD"; "CF"; "CG"; "CH"; "CI"; "CK"; "CL"; "CM"; "CN"; "CO"; "CR"; "CU"; "CV"; "CW"; "CX"; "CY"; "CZ";
  "DE"; "DJ"; "DK"; "DM"; "DO"; "DZ"; "EC"; "EE"; "EG"; "EH"; "ER"; "ES"; "ET";
  "FI"; "FJ"; "FK"; "FM"; "FO"; "FR"; "GA"; "GB"; "GD"; "GE"; "GF"; "GG"; "GH"; "GI"; "GL"; "GM"; "GN"; "GP"; "GQ"; "GR"; "GS"; "GT"; "GU"; "GW"; "GY";
  "HK"; "HM"; "HN"; "HR"; "HT"; "HU"; "ID"; "IE"; "IL"; "IM"; "IN"; "IO"; "IQ"; "IR"; "IS"; "IT";
  "JE"; "JM"; "JO"; "JP"; "KE"; "KG"; "KH"; "KI"; "KM"; "KN"; "KP"; "KR"; "KW"; "KY"; "KZ";
  "LA"; "LB"; "LC"; "LI"; "LK"; "LR"; "LS"; "LT"; "LU"; "LV"; "LY";
  "MA"; "MC"; "MD"; "ME"; "MF"; "MG"; "MH"; "MK"; "ML"; "MM"; "MN"; "MO"; "MP"; "MQ"; "MR"; "MS"; "MT"; "MU"; "MV"; "MW"; "MX"; "MY"; "MZ";
  "NA"; "NC"; "NE"; "NF"; "NG"; "NI"; "NL"; "NO"; "NP"; "NR"; "NU"; "NZ";
  "OM"; "PA"; "PE"; "PF"; "PG"; "PH"; "PK"; "PL"; "PM"; "PN"; "PR"; "PS"; "PT"; "PW"; "PY"; "QA";
  "RE"; "RO"; "RS"; "RU"; "RW"; "SA"; "SB"; "SC"; "SD"; "SE"; "SG"; "SH"; "SI"; "SJ"; "SK"; "SL"; "SM"; "SN"; "SO"; "SR"; "SS"; "ST"; "SV"; "SX"; "SY"; "SZ";
  "TC"; "TD"; "TF"; "TG"; "TH"; "TJ"; "TK"; "TL"; "TM"; "TN"; "TO"; "TR"; "TT"; "TV"; "TW"; "TZ";
  "UA"; "UG"; "UM"; "US"; "UY"; "UZ"; "VA"; "VC"; "VE"; "VG"; "VI"; "VN"; "VU"; "WF"; "WS"; "YE"; "YT"; "ZA"; "ZM"; "ZW"
].

(** The source sorts the keys of a map; the list above has no duplicate. *)
Definition SupportedCountryCodes : list string := sort_strings supportedCountryCodes.

Inductive CountryError : Type :=
| UnsupportedCountryCode (value : string)
| CountryCodeRequired.

#[export] Instance CountryError_eq_dec : EqDecision CountryError.
Proof. solve_decision. Defined.

Definition NormalizeCountryCode (value : string) : result CountryError string :=
  match ToUpperASCII (TrimSpace value) with
  | Some code =>
    if bool_decide (code ∈ supportedCountryCodes) then Ok code else Err (UnsupportedCountryCode value)
  | None => Err (UnsupportedCountryCode value)
  end.

Definition CanonicalCountryRouting (value : CountryRouting) : result CountryError CountryRouting :=
  if bool_decide (TrimSpace (CountryRouting.CountryCode value) = "")
  then if CountryRouting.Enabled value then Err CountryCodeRequired else Ok CountryRouting.zero
  else
    let* code := NormalizeCountryCode (CountryRouting.CountryCode value) in
    Ok (CountryRouting.mk (CountryRouting.Enabled value) code).

Example country_ex1 : NormalizeCountryCode " ru " = Ok "RU".
Proof. vm_compute. reflexivity. Qed.
Example country_ex2 : NormalizeCountryCode "UK" = Err (UnsupportedCountryCode "UK").
Proof. vm_compute. reflexivity. Qed.

Lemma NormalizeCountryCode_supported v code :
  NormalizeCountryCode v = Ok code -> code ∈ supportedCountryCodes.
Proof. unfold NormalizeCountryCode. repeat case_match; try done. intros [= <-]. by case_bool_decide. Qed.

Lemma supported_normal code :
  code ∈ supportedCountryCodes ->
  NormalizeCountryCode code = Ok code /\ TrimSpace code <> "".
Proof.
  assert (Hall : Forall (fun c => NormalizeCountryCode c = Ok c /\ TrimSpace c <> "")
    supportedCountryCodes) by (apply (bool_decide_unpack _); vm_compute; exact I).
  rewrite Forall_forall in Hall. apply Hall.
Qed.

Lemma CanonicalCountryRouting_fixed v r :
  CanonicalCountryRouting v = Ok r ->
  (CountryRouting.CountryCode r ∈ supportedCountryCodes \/ r = CountryRouting.zero) /\
  CanonicalCountryRouting r = Ok r.
Proof.
  unfold CanonicalCountryRouting at 1. case_bool_decide as Hb.
  - destruct (CountryRouting.Enabled v) eqn:E; [done|]. intros [= <-].
    split; [by right|reflexivity].
  - intros (code & Hn & [= <-])%result_bind_ok. cbn.
    pose proof (NormalizeCountryCode_supported _ _ Hn) as Hs.
    destruct (supported_normal _ Hs) as [Hc He]. split; [by left|].
    unfold CanonicalCountryRouting; cbn. by rewrite bool_decide_eq_false_2, Hc.
Qed.

Lemma CanonicalCountryRouting_enabled v r :
  CanonicalCountryRouting v = Ok r -> CountryRouting.Enabled r = CountryRouting.Enabled v.
Proof.
  unfold CanonicalCountryRouting. case_bool_decide as Hb.
  - by destruct (CountryRouting.Enabled v) eqn:E; intros [= <-].
  - by intros (code & Hn & [= <-])%result_bind_ok.
Qed.

(** A canonical country routing names a supported country, or none and is then
    off; the switch is kept and canonicalising again changes nothing. *)
Theorem CanonicalCountryRouting_canonical v r :
  CanonicalCountryRouting v = Ok r ->
  CountryRouting.Enabled r = CountryRouting.Enabled v /\
  (CountryRouting.CountryCode r ∈ supportedCountryCodes \/ r = CountryRouting.zero) /\
  CanonicalCountryRouting r = Ok r.
Proof.
  intros H. split; [by apply CanonicalCountryRouting_enabled|].
  by apply (CanonicalCountryRouting_fixed v).
Qed.

Lemma CanonicalCountryRouting_witness :
  CanonicalCountryRouting (CountryRouting.mk true " nl") = Ok (CountryRouting.mk true "NL") /\
  CanonicalCountryRouting (CountryRouting.mk true "NL") = Ok (CountryRouting.mk true "NL").
Proof.
  assert (H : CanonicalCountryRouting (CountryRouting.mk true " nl")
    = Ok (CountryRouting.mk true "NL")) by (vm_compute; reflexivity).
  split; [exact H|]. apply (CanonicalCountryRouting_canonical _ _ H).
Defined.

Lemma SupportedCountryCodes_catalog :
  length SupportedCountryCodes = 249%nat /\ NoDup SupportedCountryCodes /\
  StronglySorted String.le SupportedCountryCodes.
Proof.
  split; [vm_compute; reflexivity|]. split; [|apply sort_strings_sorted].
  apply sort_strings_nodup. apply (bool_decide_unpack _). vm_compute. exact I.
Qed.
