(* ===== verification/GoConv.v ===== *)
(** * Conversions of the Go standard library

    [strconv] ([ParseUint], [ParseBool], [Atoi]), strict standard [base64],
    [net.SplitHostPort] and [net.JoinHostPort], and the text of [net/netip]
    addresses and prefixes, on byte strings.  Callers look only at whether an
    error occurred, so most parsers are options. *)
From S2P Require Import Prelude GoRunes GoStrings GoNum NetIP Domain.

Local Open Scope Z_scope.
Local Open Scope list_scope.

(** ** [strconv] *)

(** [strconv.Atoi] with a 64-bit [int]. *)
Definition Atoi (s : string) : option Z :=
  let bytes := to_bytes s in
  let '(sign, digits) :=
    match bytes with
    | 43 :: t => (1, t)
    | 45 :: t => (-1, t)
    | _ => (1, bytes)
    end in
  if negb (forallb is_digit digits) || bool_decide (digits = []) then None
  else
    let n := sign * decimal digits in
    if (min_int64 <=? n) && (n <=? max_int64) then Some n else None.

(** [lower(c)] of the package: [c | 'x' - 'X']. *)
Definition lower_byte (c : Z) : Z := Z.lor c 32.

Definition digit_of (c : Z) : option Z :=
  if is_digit c then Some (c - 48)
  else if (97 <=? lower_byte c) && (lower_byte c <=? 122) then Some (lower_byte c - 97 + 10)
  else None.

(** The digits of [ParseUint]; underscores are skipped for base 0. *)
Fixpoint uint_digits (base : Z) (base0 : bool) (n : Z) (l : list Z) : option Z :=
  match l with
  | [] => Some n
  | c :: t =>
    if base0 && (c =? 95) then uint_digits base base0 n t
    else match digit_of c with
         | Some d => if base <=? d then None else uint_digits base base0 (n * base + d) t
         | None => None
         end
  end.

(** The scan of [underscoreOK]; [last] is the class of the last byte. *)
Fixpoint underscore_scan (hex : bool) (last : Z) (l : list Z) : bool :=
  match l with
  | [] => negb (last =? 95)
  | c :: t =>
    if is_digit c || (hex && (97 <=? lower_byte c) && (lower_byte c <=? 102)) then underscore_scan hex 48 t
    else if c =? 95 then (last =? 48) && underscore_scan hex 95 t
    else negb (last =? 95) && underscore_scan hex 33 t
  end.

Definition underscoreOK (l : list Z) : bool :=
  let l := match l with c :: t => if (c =? 45) || (c =? 43) then t else l | [] => l end in
  match l with
  | c :: x :: t =>
    let p := lower_byte x in
    if (c =? 48) && ((p =? 98) || (p =? 111) || (p =? 120)) then underscore_scan (p =? 120) 48 t
    else underscore_scan false 94 l
  | _ => underscore_scan false 94 l
  end.

(** The base and the digits that a prefix announces. *)
Definition prefix_base (l : list Z) : Z * list Z :=
  match l with
  | c :: t =>
    if c =? 48
    then match t with
         | x :: y :: t' =>
           let p := lower_byte x in
           if p =? 98 then (2, y :: t') else if p =? 111 then (8, y :: t') else if p =? 120 then (16, y :: t') else (8, t)
         | _ => (8, t)
         end
    else (10, l)
  | [] => (10, l)
  end.

(** [strconv.ParseUint]; base 0 reads the base from a prefix. *)
Definition ParseUint (s : string) (base bits : Z) : option Z :=
  let l := to_bytes s in
  if bool_decide (l = []) then None
  else
    let '(b, digits) := if base =? 0 then prefix_base l else (base, l) in
    match uint_digits b (base =? 0) 0 digits with
    | Some n =>
      if (n <? 2 ^ bits) && negb ((base =? 0) && bool_decide (95 ∈ digits) && negb (underscoreOK l)) then Some n else None
    | None => None
    end.

Definition ParseBool (s : string) : option bool :=
  if bool_decide (s ∈ ["1"; "t"; "T"; "true"; "TRUE"; "True"]) then Some true
  else if bool_decide (s ∈ ["0"; "f"; "F"; "false"; "FALSE"; "False"]) then Some false
  else None.

(** ** [base64.StdEncoding.Strict()] *)

Definition sextet_char (v : Z) : Z :=
  if v <? 26 then 65 + v else if v <? 52 then 71 + v else if v <? 62 then v - 4 else if v =? 62 then 43 else 47.

Definition sextet_of (c : Z) : option Z :=
  if (65 <=? c) && (c <=? 90) then Some (c - 65)
  else if (97 <=? c) && (c <=? 122) then Some (c - 71)
  else if (48 <=? c) && (c <=? 57) then Some (c + 4)
  else if c =? 43 then Some 62 else if c =? 47 then Some 63 else None.

Fixpoint encode64 (l : list Z) : list Z :=
  match l with
  | a :: b :: c :: t =>
    sextet_char (a / 4) :: sextet_char (a mod 4 * 16 + b / 16) :: sextet_char (b mod 16 * 4 + c / 64)
      :: sextet_char (c mod 64) :: encode64 t
  | [a; b] => [sextet_char (a / 4); sextet_char (a mod 4 * 16 + b / 16); sextet_char (b mod 16 * 4); 61]
  | [a] => [sextet_char (a / 4); sextet_char (a mod 4 * 16); 61; 61]
  | [] => []
  end.

(** Quanta of four characters; the last may be padded, and its unused bits are zero. *)
Fixpoint decode64 (l : list Z) : option (list Z) :=
  match l with
  | [] => Some []
  | a :: b :: c :: d :: t =>
    match sextet_of a, sextet_of b with
    | Some a, Some b =>
      if d =? 61
      then
        if negb (bool_decide (t = [])) then None
        else if c =? 61 then (if b mod 16 =? 0 then Some [a * 4 + b / 16] else None)
        else match sextet_of c with
             | Some c => if c mod 4 =? 0 then Some [a * 4 + b / 16; b mod 16 * 16 + c / 4] else None
             | None => None
             end
      else
        match sextet_of c, sextet_of d, decode64 t with
        | Some c, Some d, Some rest => Some (a * 4 + b / 16 :: b mod 16 * 16 + c / 4 :: c mod 4 * 64 + d :: rest)
        | _, _, _ => None
        end
    | _, _ => None
    end
  | _ => None
  end.

(** [DecodeString] skips line ends. *)
Definition DecodeString (s : string) : option (list Z) :=
  decode64 (filter (fun c => negb ((c =? 10) || (c =? 13)) = true) (to_bytes s)).

Definition EncodeToString (l : list Z) : string := of_bytes (encode64 l).

(** ** [net] *)

(** The bytes before and after the last [c]. *)
Definition cut_last (c : Z) (l : list Z) : option (list Z * list Z) :=
  match cut_at c (rev l) with Some (b, a) => Some (rev a, rev b) | None => None end.

(** The text of an [AddrError]. *)
Definition addr_error (hostport e : string) : string :=
  if bool_decide (hostport = "") then e else "address " +:+ hostport +:+ ": " +:+ e.

(** The last checks: no bracket where it does not belong. *)
Definition without_brackets (hostport : string) (host port opening closing : list Z) : result string (string * string) :=
  if bool_decide (91 ∈ opening) then Err (addr_error hostport "unexpected '[' in address")
  else if bool_decide (93 ∈ closing) then Err (addr_error hostport "unexpected ']' in address")
  else Ok (of_bytes host, of_bytes port).

Definition SplitHostPort (hostport : string) : result string (string * string) :=
  let l := to_bytes hostport in
  let missingPort := Err (addr_error hostport "missing port in address") in
  let tooManyColons := Err (addr_error hostport "too many colons in address") in
  match cut_last 58 l with
  | None => missingPort
  | Some (before, port) =>
    if bool_decide (head l = Some 91)
    then
      match cut_at 93 l with
      | None => Err (addr_error hostport "missing ']' in address")
      | Some (inside, after) =>
        if bool_decide (after = []) then missingPort
        else if bool_decide (length before = length inside + 1)%nat
        then without_brackets hostport (tail inside) port (tail l) after
        else if bool_decide (head after = Some 58) then tooManyColons else missingPort
      end
    else if bool_decide (58 ∈ before) then tooManyColons
    else without_brackets hostport before port l l
  end.

Definition JoinHostPort (host port : string) : string :=
  if has_byte host ":" then "[" +:+ host +:+ "]:" +:+ port else host +:+ ":" +:+ port.

(** ** [net/netip] *)

Definition hex_digit (v : Z) : Z := if v <? 10 then 48 + v else 87 + v.

(** [appendHex]: no leading zeros. *)
Definition hex16 (v : Z) : list Z :=
  (if 4096 <=? v then [hex_digit (v / 4096)] else []) ++
  (if 256 <=? v then [hex_digit (v / 256 mod 16)] else []) ++
  (if 16 <=? v then [hex_digit (v / 16 mod 16)] else []) ++ [hex_digit (v mod 16)].

Fixpoint groups16 (b : list Z) : list Z :=
  match b with x :: y :: t => x * 256 + y :: groups16 t | _ => [] end.

Fixpoint zeros (l : list Z) : nat :=
  match l with x :: t => if x =? 0 then S (zeros t) else O | [] => O end.

(** The first longest run of at least two zero groups, as its start and end. *)
Definition zero_run (groups : list Z) : option (nat * nat) :=
  foldl (fun best i =>
    let n := zeros (drop i groups) in
    let longest := match best with Some (a, b) => (b - a)%nat | None => O end in
    if (2 <=? n)%nat && (longest <? n)%nat then Some (i, i + n)%nat else best) None (seq 0 8).

Definition join_bytes (sep : Z) (l : list (list Z)) : list Z :=
  match l with [] => [] | x :: t => x ++ concat ((fun y => sep :: y) <$> t) end.

Definition text6 (b : list Z) : list Z :=
  let groups := groups16 b in
  match zero_run groups with
  | None => join_bytes 58 (hex16 <$> groups)
  | Some (i, j) => join_bytes 58 (hex16 <$> take i groups) ++ [58; 58] ++ join_bytes 58 (hex16 <$> drop j groups)
  end.

Definition text4 (b : list Z) : list Z := join_bytes 46 ((fun v => to_bytes (Itoa v)) <$> b).

Definition with_zone (zone text : list Z) : list Z := if bool_decide (zone = []) then text else text ++ 37 :: zone.

Definition addr_text (a : Addr) : list Z :=
  match a with
  | Addr4 b => text4 b
  | Addr16 b zone =>
    with_zone zone (if bool_decide (take 12 b = v4_prefix) then to_bytes "::ffff:" ++ text4 (drop 12 b) else text6 b)
  end.

(** [Addr.String]. *)
Definition Addr_String (a : Addr) : string := of_bytes (addr_text a).

Definition Is6 (a : Addr) : bool := match a with Addr4 _ => false | Addr16 _ _ => true end.

(** [netip.Prefix]; [bits] is -1 for an invalid one. *)
Module Prefix.
Record Prefix : Type := mk { addr : Addr; bits : Z }.
#[export] Instance eq_dec : EqDecision Prefix.
Proof. solve_decision. Defined.
End Prefix.
Export (hints) Prefix.
Abbreviation Prefix := Prefix.Prefix.

Definition withoutZone (a : Addr) : Addr := match a with Addr16 b _ => Addr16 b [] | a => a end.

Definition PrefixFrom (a : Addr) (bits : Z) : Prefix :=
  Prefix.mk (withoutZone a) (if (0 <=? bits) && (bits <=? BitLen a) then bits else -1).

Definition Prefix_IsValid (p : Prefix) : bool := 0 <=? Prefix.bits p.

Definition ParsePrefix (s : string) : option Prefix :=
  match cut_last 47 (to_bytes s) with
  | None => None
  | Some (before, bits) =>
    match ParseAddr (of_bytes before) with
    | None => None
    | Some a =>
      let starts_wrong := match bits with c :: _ :: _ => (c <? 49) || (57 <? c) | _ => false end in
      if negb (no_zone a) || starts_wrong then None
      else match Atoi (of_bytes bits) with
           | Some n => if (0 <=? n) && (n <=? BitLen a) then Some (PrefixFrom a n) else None
           | None => None
           end
    end
  end.

Definition Prefix_String (p : Prefix) : string :=
  if Prefix_IsValid p then Addr_String (Prefix.addr p) +:+ "/" +:+ Itoa (Prefix.bits p) else "invalid Prefix".

Example ParseUint_ex1 : ParseUint "0x1F" 0 32 = Some 31 /\ ParseUint "0b1_01" 0 32 = Some 5 /\ ParseUint "017" 0 32 = Some 15.
Proof. split_and!; reflexivity. Qed.
Example ParseUint_ex2 : ParseUint "1__0" 0 32 = None /\ ParseUint "1_0" 10 32 = None /\ ParseUint "4294967296" 0 32 = None.
Proof. split_and!; reflexivity. Qed.
Example DecodeString_ex : DecodeString "TWE=" = Some [77; 97] /\ DecodeString "TWF=" = None /\ DecodeString "TWFu" = Some [77; 97; 110].
Proof. split_and!; reflexivity. Qed.
Example SplitHostPort_ex : SplitHostPort "[fe80::1]:53" = Ok ("fe80::1", "53") /\ SplitHostPort "a:b:c" = Err "address a:b:c: too many colons in address".
Proof. split; reflexivity. Qed.
Example Addr_String_ex : Addr_String <$> ParseAddr "2001:DB8:0:0:1:0:0:1%eth0" = Some "2001:db8::1:0:0:1%eth0".
Proof. reflexivity. Qed.
Example ParsePrefix_ex : Prefix_String <$> ParsePrefix "10.8.1.2/32" = Some "10.8.1.2/32" /\ ParsePrefix "10.8.1.2/032" = None.
Proof. split; reflexivity. Qed.
