(* ===== verification/GoConvFacts.v ===== *)
(** * Conversions: round trips and the bytes they write *)
From stdpp Require Import pretty.
From S2P Require Import Prelude GoRunes GoStrings GoNum NetIP Domain GoConv.

Local Open Scope Z_scope.
Local Open Scope list_scope.

(** ** Decimal digits *)

Abbreviation digit_byte b := (48 <= b <= 57).
Abbreviation decimal_from acc l := (foldl (fun acc c => acc * 10 + (c - 48)) acc l).

Lemma pretty_char_byte x : (x < 10)%N -> byte_of (pretty_N_char x) = 48 + Z.of_N x.
Proof.
  intros Hx. assert (H : (x = 0 \/ x = 1 \/ x = 2 \/ x = 3 \/ x = 4 \/ x = 5 \/ x = 6 \/ x = 7 \/ x = 8 \/ x = 9)%N) by lia.
  repeat destruct H as [->|H]; subst; done.
Qed.

Lemma pretty_digits x s : exists ds,
  to_bytes (pretty_N_go x s) = ds ++ to_bytes s /\ Forall (fun b => digit_byte b) ds /\
  (forall acc, decimal_from acc ds = acc * 10 ^ Z.of_nat (length ds) + Z.of_N x) /\
  (x <> 0%N -> exists b t, ds = b :: t /\ b <> 48).
Proof.
  revert s. induction (N.lt_wf_0 x) as [x _ IH]; intros s.
  destruct (decide (x = 0)%N) as [->|Hx].
  - exists []. rewrite pretty_N_go_0. split_and!; [done|constructor|intros acc; cbn; lia|done].
  - rewrite pretty_N_go_step by lia. pose proof (N.mod_lt x 10 ltac:(lia)) as Hm. pose proof (N.div_mod x 10 ltac:(lia)) as Hd.
    assert (Hz10 : 0 <= Z.of_N (x mod 10) < 10) by (clear -Hm; generalize dependent (x mod 10)%N; intros; lia).
    assert (Hdz : Z.of_N x = 10 * Z.of_N (x / 10) + Z.of_N (x mod 10)) by (clear -Hd; generalize dependent (x mod 10)%N; generalize (x / 10)%N; intros; lia).
    pose proof (pretty_char_byte _ Hm) as Hc. remember (Z.of_N (x mod 10)) as m eqn:Em. clear Em Hm Hd.
    destruct (IH (x / 10)%N (N.div_lt x 10 ltac:(lia) ltac:(lia)) (String (pretty_N_char (x mod 10)) s)) as (ds & E & Hds & Hv & Hh).
    exists (ds ++ [48 + m]). split_and!.
    + rewrite E, <- app_assoc. f_equal. exact (f_equal (fun b => b :: to_bytes s) Hc).
    + apply Forall_app. split; [done|]. constructor; [lia|constructor].
    + intros acc. rewrite foldl_app, Hv. cbn [foldl]. rewrite length_app, Nat.add_comm. cbn [length Nat.add].
      rewrite Nat2Z.inj_succ, Z.pow_succ_r by lia. lia.
    + intros _. destruct (decide (x / 10 = 0)%N) as [Hz|Hz].
      * rewrite Hz, pretty_N_go_0 in E. apply (f_equal length) in E. rewrite length_app in E.
        destruct ds as [|b t]; [|cbn in E; lia]. exists (48 + m), []. split; [done|]. lia.
      * destruct (Hh Hz) as (b & t & -> & Hb). by exists b, (t ++ [48 + m]).
Qed.

Lemma Itoa_digits n : 0 <= n ->
  Forall (fun b => digit_byte b) (to_bytes (Itoa n)) /\ decimal (to_bytes (Itoa n)) = n /\ to_bytes (Itoa n) <> [] /\
  (n <> 0 -> exists b t, to_bytes (Itoa n) = b :: t /\ b <> 48).
Proof.
  intros Hn. destruct n as [|p|p]; [|clear Hn|lia].
  - change (to_bytes (Itoa 0)) with [48]. split_and!; [constructor; [lia|constructor]|done|done|done].
  - destruct (pretty_digits (Npos p) "") as (ds & E & Hds & Hv & Hh). change (Itoa (Zpos p)) with (pretty_N_go (Npos p) "").
    change (to_bytes "") with (@nil Z) in E. rewrite app_nil_r in E. rewrite E. destruct (Hh ltac:(lia)) as (b & t & -> & Hb).
    split_and!; [done|exact (Hv 0)|done|by intros _; exists b, t].
Qed.

Lemma digits_read base0 acc l : Forall (fun b => digit_byte b) l -> uint_digits 10 base0 acc l = Some (decimal_from acc l).
Proof.
  intros Hl. revert acc. induction Hl as [|c l Hc _ IH]; intros acc; [done|]. cbn [uint_digits foldl].
  replace (c =? 95) with false by (symmetry; apply Z.eqb_neq; lia). rewrite andb_false_r. unfold digit_of, is_digit.
  rewrite (proj2 (Z.leb_le 48 c)), (proj2 (Z.leb_le c 57)) by lia. cbn [andb]. rewrite (proj2 (Z.leb_gt 10 (c - 48))) by lia. apply IH.
Qed.

Lemma digits_plain l : Forall (fun b => digit_byte b) l -> 95 ∉ l.
Proof. rewrite Forall_forall. intros H Hin. apply H in Hin. lia. Qed.

(** Decimal text reads back, with the base given or left to the prefix. *)
Lemma ParseUint_Itoa n base bits : base = 0 \/ base = 10 -> 0 <= n < 2 ^ bits -> ParseUint (Itoa n) base bits = Some n.
Proof.
  intros Hb Hn. destruct (Itoa_digits n ltac:(lia)) as (Hd & Hv & Hne & Hh). unfold ParseUint.
  rewrite bool_decide_eq_false_2 by done.
  destruct (decide (n = 0)) as [->|Hz].
  - pose proof (proj2 (Z.ltb_lt 0 (2 ^ bits)) ltac:(lia)) as Hlt. destruct Hb as [-> | ->].
    + change ((if (0 <? 2 ^ bits) && true then Some 0 else None) = Some 0). by rewrite Hlt.
    + change ((if (0 <? 2 ^ bits) && true then Some 0 else None) = Some 0). by rewrite Hlt.
  - destruct (Hh Hz) as (b & t & E & Hb48).
    assert (P : (if base =? 0 then prefix_base (to_bytes (Itoa n)) else (base, to_bytes (Itoa n))) = (10, to_bytes (Itoa n))).
    { destruct Hb as [-> | ->]; [|done]. cbn [Z.eqb]. rewrite E. unfold prefix_base. by rewrite (proj2 (Z.eqb_neq b 48)). }
    rewrite P. rewrite digits_read by done. fold (decimal (to_bytes (Itoa n))). rewrite Hv, (proj2 (Z.ltb_lt n (2 ^ bits))) by lia.
    rewrite (bool_decide_eq_false_2 (95 ∈ _)) by (by apply digits_plain). by rewrite andb_false_r.
Qed.

Lemma uint_digits_nonneg base base0 acc l n : 0 <= base -> 0 <= acc -> uint_digits base base0 acc l = Some n -> 0 <= n.
Proof.
  intros Hb. revert acc. induction l as [|c l IH]; intros acc Ha; cbn; [by intros [= <-]|].
  destruct (base0 && (c =? 95)); [by apply IH|]. unfold digit_of, is_digit.
  destruct ((48 <=? c) && (c <=? 57)) eqn:E1.
  - apply andb_true_iff in E1 as [?%Z.leb_le ?%Z.leb_le]. destruct (base <=? c - 48); [done|]. apply IH. nia.
  - destruct ((97 <=? lower_byte c) && (lower_byte c <=? 122)) eqn:E2; [|done].
    apply andb_true_iff in E2 as [?%Z.leb_le ?%Z.leb_le]. destruct (base <=? lower_byte c - 97 + 10); [done|]. apply IH. nia.
Qed.

Lemma ParseUint_range s base bits n : 0 <= base -> ParseUint s base bits = Some n -> 0 <= n < 2 ^ bits.
Proof.
  intros Hb. unfold ParseUint. case_bool_decide; [done|].
  destruct (if base =? 0 then _ else _) as [b digits] eqn:E.
  assert (0 <= b).
  { destruct (base =? 0); [|by injection E as <- _]. unfold prefix_base in E. repeat case_match; injection E as <- _; lia. }
  destruct (uint_digits _ _ _ _) as [m|] eqn:Em; [|done]. destruct ((m <? 2 ^ bits) && _) eqn:Ec; [|done].
  intros [= <-]. apply andb_true_iff in Ec as [Hlt%Z.ltb_lt _]. split; [|done]. by eapply uint_digits_nonneg in Em.
Qed.

(** ** Base64 *)

Lemma sextet_roundtrip v : 0 <= v < 64 ->
  sextet_of (sextet_char v) = Some v /\ sextet_char v <> 61 /\ 43 <= sextet_char v <= 122 /\
  ((sextet_char v =? 10) || (sextet_char v =? 13)) = false.
Proof.
  intros Hv. unfold sextet_char. repeat case_match; unfold sextet_of;
    repeat match goal with |- context [?a <=? ?b] => destruct (Z.leb_spec a b); try lia end;
    repeat match goal with |- context [?a =? ?b] => destruct (Z.eqb_spec a b); try lia end; cbn [andb orb];
    repeat match goal with H : (_ <? _) = true |- _ => apply Z.ltb_lt in H | H : (_ <? _) = false |- _ => apply Z.ltb_ge in H
                      | H : (_ =? _) = true |- _ => apply Z.eqb_eq in H | H : (_ =? _) = false |- _ => apply Z.eqb_neq in H end;
    split_and!; try lia; try done; f_equal; lia.
Qed.

Lemma sextets a b c : is_byte a -> is_byte b -> is_byte c ->
  0 <= a / 4 < 64 /\ 0 <= a mod 4 * 16 + b / 16 < 64 /\ 0 <= b mod 16 * 4 + c / 64 < 64 /\ 0 <= c mod 64 < 64 /\
  a / 4 * 4 + (a mod 4 * 16 + b / 16) / 16 = a /\
  (a mod 4 * 16 + b / 16) mod 16 * 16 + (b mod 16 * 4 + c / 64) / 4 = b /\
  (b mod 16 * 4 + c / 64) mod 4 * 64 + c mod 64 = c.
Proof. unfold is_byte. intros Ha Hb Hc. Z.to_euclidean_division_equations. lia. Qed.

Lemma encode64_step a b c t : encode64 (a :: b :: c :: t) =
  sextet_char (a / 4) :: sextet_char (a mod 4 * 16 + b / 16) :: sextet_char (b mod 16 * 4 + c / 64)
    :: sextet_char (c mod 64) :: encode64 t.
Proof. done. Qed.

Lemma triples (P : list Z -> Prop) :
  P [] -> (forall a, P [a]) -> (forall a b, P [a; b]) -> (forall a b c t, P t -> P (a :: b :: c :: t)) -> forall l, P l.
Proof.
  intros H0 H1 H2 H3. fix IH 1. intros [|a [|b [|c t]]]; [done|apply H1|apply H2|apply H3, IH].
Qed.

Lemma decode64_encode64 l : Forall is_byte l -> decode64 (encode64 l) = Some l.
Proof.
  induction l as [|a|a b|a b c t IH] using triples; intros Hl.
  - done.
  - inversion Hl as [|? ? Ha _]; subst. destruct (sextets a 0 0 Ha ltac:(unfold is_byte; lia) ltac:(unfold is_byte; lia)) as (R1 & R2 & _ & _ & E1 & _).
    change (0 / 16) with 0 in *. rewrite Z.add_0_r in *. cbn [encode64 decode64].
    destruct (sextet_roundtrip _ R1) as (-> & _). destruct (sextet_roundtrip _ R2) as (-> & _).
    rewrite bool_decide_eq_true_2 by done. cbn [negb Z.eqb Pos.eqb]. rewrite E1. by rewrite Z.mod_mul.
  - inversion Hl as [|? ? Ha Hl']; subst. inversion Hl' as [|? ? Hb _]; subst.
    destruct (sextets a b 0 Ha Hb ltac:(unfold is_byte; lia)) as (R1 & R2 & R3 & _ & E1 & E2 & _).
    change (0 / 64) with 0 in *. rewrite Z.add_0_r in *. cbn [encode64 decode64].
    destruct (sextet_roundtrip _ R1) as (-> & _). destruct (sextet_roundtrip _ R2) as (-> & _).
    destruct (sextet_roundtrip _ R3) as (E & Hn & _). rewrite bool_decide_eq_true_2 by done. cbn [negb].
    rewrite (proj2 (Z.eqb_neq _ _) Hn), E. change (61 =? 61) with true. cbv iota. rewrite Z.mod_mul by done. cbn [Z.eqb]. by rewrite E1, E2.
  - inversion Hl as [|? ? Ha Hl']; subst. inversion Hl' as [|? ? Hb Hl'']; subst. inversion Hl'' as [|? ? Hc Ht]; subst.
    destruct (sextets a b c Ha Hb Hc) as (R1 & R2 & R3 & R4 & E1 & E2 & E3). rewrite encode64_step. cbn [decode64].
    destruct (sextet_roundtrip _ R1) as (-> & _). destruct (sextet_roundtrip _ R2) as (-> & _).
    destruct (sextet_roundtrip _ R3) as (-> & _). destruct (sextet_roundtrip _ R4) as (-> & Hn & _).
    rewrite (proj2 (Z.eqb_neq _ _) Hn), IH by done. by rewrite E1, E2, E3.
Qed.

Lemma encode64_chars l : Forall is_byte l -> Forall (fun c => 43 <= c <= 122) (encode64 l).
Proof.
  assert (G : forall v, 0 <= v < 64 -> 43 <= sextet_char v <= 122) by (intros v Hv; apply sextet_roundtrip, Hv).
  induction l as [|a|a b|a b c t IH] using triples; intros Hl; [constructor| | |].
  - inversion Hl as [|? ? Ha _]; subst. destruct (sextets a 0 0 Ha ltac:(unfold is_byte; lia) ltac:(unfold is_byte; lia)) as (R1 & R2 & _).
    change (0 / 16) with 0 in *. rewrite Z.add_0_r in *. cbn [encode64].
    repeat (apply Forall_cons; split; [first [by apply G|lia]|]). constructor.
  - inversion Hl as [|? ? Ha Hl']; subst. inversion Hl' as [|? ? Hb _]; subst.
    destruct (sextets a b 0 Ha Hb ltac:(unfold is_byte; lia)) as (R1 & R2 & R3 & _).
    change (0 / 64) with 0 in *. rewrite Z.add_0_r in *. cbn [encode64].
    repeat (apply Forall_cons; split; [first [by apply G|lia]|]). constructor.
  - inversion Hl as [|? ? Ha Hl']; subst. inversion Hl' as [|? ? Hb Hl'']; subst. inversion Hl'' as [|? ? Hc Ht]; subst.
    destruct (sextets a b c Ha Hb Hc) as (R1 & R2 & R3 & R4 & _). rewrite encode64_step.
    repeat (apply Forall_cons; split; [by apply G|]). by apply IH.
Qed.

Lemma filter_id {A} (P : A -> Prop) `{!forall x, Decision (P x)} (l : list A) : Forall P l -> filter P l = l.
Proof. induction 1 as [|x l Hx _ IH]; [done|]. by rewrite filter_cons_True, IH. Qed.

Lemma EncodeToString_bytes l : Forall is_byte l -> to_bytes (EncodeToString l) = encode64 l.
Proof.
  intros Hl. unfold EncodeToString. apply to_of_bytes. eapply Forall_impl; [by apply encode64_chars|].
  unfold is_byte. intros c Hc. lia.
Qed.

Lemma visible_encoded l : Forall is_byte l -> all_bytes visible_byte (EncodeToString l) = true.
Proof.
  intros Hl. apply all_bytes_spec. rewrite EncodeToString_bytes by done. eapply Forall_impl; [by apply encode64_chars|].
  unfold visible_byte. intros c Hc. apply andb_true_iff. split; apply Z.leb_le; lia.
Qed.

Lemma DecodeString_EncodeToString l : Forall is_byte l -> DecodeString (EncodeToString l) = Some l.
Proof.
  intros Hl. unfold DecodeString. rewrite EncodeToString_bytes by done.
  rewrite filter_id; [by apply decode64_encode64|].
  eapply Forall_impl; [by apply encode64_chars|]. intros c Hc. cbv beta in Hc |- *.
  rewrite (proj2 (Z.eqb_neq c 10)), (proj2 (Z.eqb_neq c 13)) by lia. done.
Qed.

(** ** Addresses *)

(** Bytes that a line of text may contain. *)
Definition line_byte (b : Z) : Prop := is_byte b /\ b <> 10.

Lemma line_bytes_string l : Forall line_byte l -> Forall line_byte (to_bytes (of_bytes l)).
Proof. intros Hl. rewrite to_of_bytes; [done|]. eapply Forall_impl; [exact Hl|]. by intros b [? _]. Qed.

Lemma Itoa_line n : 0 <= n -> Forall line_byte (to_bytes (Itoa n)).
Proof.
  intros Hn. destruct (Itoa_digits n Hn) as (Hd & _). eapply Forall_impl; [exact Hd|]. unfold line_byte, is_byte. cbv beta. lia.
Qed.

Lemma join_line sep l : line_byte sep -> Forall (Forall line_byte) l -> Forall line_byte (join_bytes sep l).
Proof.
  intros Hs Hl. destruct Hl as [|x l Hx Hl]; [constructor|]. cbn. apply Forall_app. split; [done|].
  induction Hl as [|y l Hy _ IH]; [constructor|]. cbn. constructor; [done|]. apply Forall_app. by split.
Qed.

Lemma text4_line b : byte_list b -> Forall line_byte (text4 b).
Proof.
  intros Hb. apply join_line; [unfold line_byte, is_byte; lia|]. apply Forall_fmap. eapply Forall_impl; [exact Hb|].
  intros x Hx. apply Itoa_line; cbv beta in Hx; lia.
Qed.

Lemma hex_digit_line v : 0 <= v < 16 -> line_byte (hex_digit v).
Proof. intros Hv. unfold hex_digit, line_byte, is_byte. case_match eqn:E; [apply Z.ltb_lt in E|apply Z.ltb_ge in E]; lia. Qed.

Lemma hex16_line v : 0 <= v < 65536 -> Forall line_byte (hex16 v).
Proof.
  intros Hv. unfold hex16. repeat (apply Forall_app; split).
  - destruct (4096 <=? v); repeat constructor; apply hex_digit_line; Z.to_euclidean_division_equations; lia.
  - destruct (256 <=? v); repeat constructor; apply hex_digit_line; Z.to_euclidean_division_equations; lia.
  - destruct (16 <=? v); repeat constructor; apply hex_digit_line; Z.to_euclidean_division_equations; lia.
  - repeat constructor; apply hex_digit_line; Z.to_euclidean_division_equations; lia.
Qed.

Lemma groups16_range l : byte_list l -> Forall (fun v => 0 <= v < 65536) (groups16 l).
Proof.
  revert l. fix IH 1. intros [|x [|y t]] Hl; [constructor|constructor|].
  inversion Hl as [|? ? Hx Hl']; subst. inversion Hl' as [|? ? Hy Ht]; subst. cbn. constructor; [lia|by apply IH].
Qed.

Lemma text6_line b : byte_list b -> Forall line_byte (text6 b).
Proof.
  intros Hb. unfold text6. cbv zeta. pose proof (groups16_range b Hb) as Hg.
  assert (Hc : line_byte 58) by (unfold line_byte, is_byte; lia).
  assert (J : forall l, Forall (fun v => 0 <= v < 65536) l -> Forall line_byte (join_bytes 58 (hex16 <$> l))).
  { intros l Hl. apply join_line; [done|]. apply Forall_fmap. eapply Forall_impl; [exact Hl|]. apply hex16_line. }
  destruct (zero_run _) as [[i j]|]; [|by apply J].
  apply Forall_app. split; [by apply J, Forall_take|]. repeat constructor; try apply Hc. by apply J, Forall_drop.
Qed.

Lemma parse_ipv6_zone l a : parse_ipv6 l = Some a -> exists b zone, a = Addr16 b zone /\ forall c, c ∈ zone -> c ∈ l.
Proof.
  assert (G : forall o zone, (fun b => Addr16 b zone) <$> o = Some a -> exists b, a = Addr16 b zone)
    by (intros o zone (b & _ & ->)%fmap_Some; by exists b).
  assert (K : forall s zone, match s with
      | x :: y :: s' =>
        if (x =? 58) && (y =? 58)
        then match s' with [] => Some (Addr16 (replicate 16 0) zone)
             | _ => (fun b => Addr16 b zone) <$> (ipv6_groups 8 [] (Some 0%nat) s' ≫= expand_ellipsis) end
        else (fun b => Addr16 b zone) <$> (ipv6_groups 8 [] None s ≫= expand_ellipsis)
      | _ => (fun b => Addr16 b zone) <$> (ipv6_groups 8 [] None s ≫= expand_ellipsis)
      end = Some a -> exists b, a = Addr16 b zone).
  { intros s zone. destruct s as [|x [|y s']]; try apply G. destruct (_ && _); [|apply G].
    destruct s'; [|apply G]. intros [= <-]. by eexists. }
  unfold parse_ipv6. destruct (cut_at 37 l) as [[u z]|] eqn:Ec.
  - apply cut_at_Some in Ec as [-> _]. destruct (bool_decide (z <> [])); [|done]. intros [b ->]%K.
    exists b, z. split; [done|]. intros c Hc. apply elem_of_app. right. by apply elem_of_cons; right.
  - intros [b ->]%K. exists b, []. split; [done|]. intros c []%elem_of_nil.
Qed.

(** What [ParseAddr] yields. *)
Lemma ParseAddr_shape s a : ParseAddr s = Some a ->
  match a with
  | Addr4 b => byte_list b /\ length b = 4%nat
  | Addr16 b zone => byte_list b /\ length b = 16%nat /\ forall c, c ∈ zone -> c ∈ to_bytes s
  end.
Proof.
  unfold ParseAddr. generalize (to_bytes s) at 1 as l. intros l. induction l as [|c l IH]; [done|]. cbn [ParseAddr_from].
  destruct (c =? 46); [|destruct (c =? 58); [|by destruct (c =? 37)]].
  - destruct (parse_ipv4 (to_bytes s)) as [q|] eqn:E; [|done]. intros [= <-].
    apply parse_ipv4_shape in E as (w & x & y & z & -> & Hq). by split.
  - intros E. pose proof (parse_ipv6_ok _ _ E) as [Hb Hl]. by apply parse_ipv6_zone in E as (b & zone & -> & Hz).
Qed.

Definition addr_ok (a : Addr) : Prop :=
  match a with
  | Addr4 b => byte_list b /\ length b = 4%nat
  | Addr16 b zone => byte_list b /\ length b = 16%nat /\ Forall line_byte zone
  end.

Lemma ParseAddr_ok s a : Forall line_byte (to_bytes s) -> ParseAddr s = Some a -> addr_ok a.
Proof.
  intros Hs Ha%ParseAddr_shape. destruct a as [b|b zone]; [done|]. destruct Ha as (Hb & Hl & Hz). split_and!; try done.
  rewrite Forall_forall in Hs |- *. auto.
Qed.

Lemma addr_text_ok a : addr_ok a -> Forall line_byte (addr_text a).
Proof.
  destruct a as [b|b zone]; intros Ha; [apply text4_line; by destruct Ha|]. destruct Ha as (Hb & _ & Hz).
  assert (Ht : Forall line_byte (if bool_decide (take 12 b = v4_prefix) then to_bytes "::ffff:" ++ text4 (drop 12 b) else text6 b)).
  { case_bool_decide; [|by apply text6_line]. apply Forall_app. split; [|by apply text4_line, Forall_drop].
    change (to_bytes "::ffff:") with [58; 58; 102; 102; 102; 102; 58].
    repeat (constructor; [unfold line_byte, is_byte; lia|]). constructor. }
  unfold addr_text, with_zone. destruct (bool_decide (zone = [])); [done|]. apply Forall_app. split; [done|].
  constructor; [unfold line_byte, is_byte; lia|done].
Qed.

Lemma addr_text_line s a : Forall line_byte (to_bytes s) -> ParseAddr s = Some a -> Forall line_byte (addr_text a).
Proof. intros Hs Ha. by eapply addr_text_ok, ParseAddr_ok. Qed.

Lemma Addr_String_bytes s a : Forall line_byte (to_bytes s) -> ParseAddr s = Some a -> to_bytes (Addr_String a) = addr_text a.
Proof.
  intros Hs Ha. apply to_of_bytes. eapply Forall_impl; [by eapply addr_text_line|]. by intros x [? _].
Qed.

Lemma groups16_length n : forall b, length b = (2 * n)%nat -> length (groups16 b) = n.
Proof.
  induction n as [|n IH]; intros b Hb; [by destruct b|].
  destruct b as [|x [|y t]]; cbn in Hb; [lia|lia|]. cbn. f_equal. apply IH. lia.
Qed.

Lemma text6_colon b : length b = 16%nat -> 58 ∈ text6 b.
Proof.
  intros Hl. unfold text6. cbv zeta. pose proof (groups16_length 8 b Hl) as Hg. destruct (zero_run _) as [[i j]|].
  - rewrite !elem_of_app. right. left. apply elem_of_cons. by left.
  - destruct (groups16 b) as [|v [|w t]]; [done|done|]. cbn. rewrite elem_of_app. right. apply elem_of_cons. by left.
Qed.

Lemma addr_text_colon b zone : length b = 16%nat -> 58 ∈ addr_text (Addr16 b zone).
Proof.
  intros Hl. assert (K : 58 ∈ (if bool_decide (take 12 b = v4_prefix) then to_bytes "::ffff:" ++ text4 (drop 12 b) else text6 b)).
  { case_bool_decide; [|by apply text6_colon]. apply elem_of_app. left. apply elem_of_cons. by left. }
  unfold addr_text, with_zone. destruct (bool_decide (zone = [])); [done|]. apply elem_of_app. by left.
Qed.

Lemma digit_visible c : digit_byte c -> visible_byte c = true.
Proof. intros Hc. unfold visible_byte. apply andb_true_iff. split; apply Z.leb_le; lia. Qed.

(** An IPv6 address is written with a colon, an IPv4 address starts with a digit. *)
Lemma Addr_String_form s a : Forall line_byte (to_bytes s) -> ParseAddr s = Some a ->
  has_byte (Addr_String a) ":" = true \/ exists c t, to_bytes (Addr_String a) = c :: t /\ visible_byte c = true.
Proof.
  intros Hs Ha. rewrite has_byte_bytes, (Addr_String_bytes _ _ Hs Ha). apply ParseAddr_shape in Ha.
  destruct a as [[|x t]|b zone]; [by destruct Ha|right|left].
  - destruct Ha as [Hb _]. inversion Hb as [|? ? Hx _]; subst. cbv beta in Hx.
    destruct (Itoa_digits x ltac:(lia)) as (Hd & _ & Hne & _). unfold addr_text, text4. rewrite fmap_cons.
    destruct (to_bytes (Itoa x)) as [|c u]; [done|]. eexists c, _. split; [reflexivity|].
    apply Forall_cons in Hd as [Hc _]. by apply digit_visible.
  - apply bool_decide_eq_true_2, addr_text_colon. by destruct Ha as (_ & ? & _).
Qed.

Lemma visible_not_space b : visible_byte b = true -> 33 <= b <= 126 /\ is_space b = false.
Proof.
  unfold visible_byte. intros [?%Z.leb_le ?%Z.leb_le]%andb_true_iff. split; [lia|]. unfold is_space.
  repeat match goal with |- context [?x =? ?y] => destruct (Z.eqb_spec x y); try lia end.
Qed.

(** Text between visible bytes is trimmed. *)
Lemma TrimSpace_ends s a m z : to_bytes s = a :: m ++ [z] -> visible_byte a = true -> visible_byte z = true -> TrimSpace s = s.
Proof.
  intros E [Ha Hsa]%visible_not_space [Hz Hsz]%visible_not_space. apply TrimSpace_fixed. rewrite E.
  assert (A1 : forall c l, 33 <= c <= 126 -> decode (c :: l) = (c, [c]) :: decode l).
  { intros c l Hc. rewrite decode_cons. assert (decode1 (c :: l) = (c, 1%nat)) as ->
      by (cbn; by rewrite (proj2 (Z.ltb_lt c 128)) by lia). done. }
  rewrite A1 by done. rewrite decode_app.
  - rewrite (A1 z []) by done. split; intros c.
    + intros [= <-]. done.
    + change (decode []) with (@nil (Z * list Z)). rewrite app_comm_cons, last_snoc. by intros [= <-].
  - unfold rune_start, cont. apply andb_false_iff. left. apply Z.leb_gt. lia.
Qed.
