(* ===== verification/IPv4Range.v ===== *)
(** * Ranges of IPv4 addresses as prefixes

    [expandIPv4Range] and [ipv4RangeToCIDRs] of [platform/openwrt/firewall.go] on
    32-bit integers.  A range below the last address becomes a list of aligned,
    adjacent blocks that cover exactly the range; a range that ends at
    255.255.255.255 wraps around and panics on a negative shift. *)
From S2P Require Import Prelude GoRunes GoStrings GoNum NetIP Domain GoConv.

Local Open Scope Z_scope.
Local Open Scope list_scope.

(** ** Machine words *)

Definition wrap32 (x : Z) : Z := x mod 2 ^ 32.

(** [bits.Len32] and [bits.TrailingZeros32]. *)
Definition Len32 (x : Z) : Z := if x =? 0 then 0 else Z.log2 x + 1.

Fixpoint trailing_zeros (p : positive) : Z :=
  match p with xO p => 1 + trailing_zeros p | _ => 0 end.

Definition TrailingZeros32 (x : Z) : Z := match x with Zpos p => trailing_zeros p | _ => 32 end.

(** ** The loop *)

Inductive RangeFault : Type :=
| NegativeShift          (** the run-time panic of a shift by a negative count *)
| OutOfFuel.

Definition block_prefix (start fin : Z) : Z :=
  let prefix := 32 - TrailingZeros32 start in
  let remaining := wrap32 (wrap32 (fin - start) + 1) in
  let maxBlockPrefix := 32 - (Len32 remaining - 1) in
  if prefix <? maxBlockPrefix then maxBlockPrefix else prefix.

(** The first address and the prefix length of each block. *)
Fixpoint ipv4RangeToCIDRs (fuel : nat) (start fin : Z) : result RangeFault (list (Z * Z)) :=
  if fin <? start then Ok []
  else match fuel with
  | O => Err OutOfFuel
  | S fuel =>
    let prefix := block_prefix start fin in
    if prefix =? 0 then Ok [(start, prefix)]
    else if 32 - prefix <? 0 then Err NegativeShift
    else match ipv4RangeToCIDRs fuel (wrap32 (start + 2 ^ (32 - prefix))) fin with
         | Ok blocks => Ok ((start, prefix) :: blocks)
         | Err e => Err e
         end
  end.

Definition range_fuel : nat := 64.

(** [ipv4ToUint32] of four bytes and [uint32ToIPv4]. *)
Definition uint32ToIPv4 (value : Z) : list Z :=
  [value / 2 ^ 24; value / 2 ^ 16 mod 256; value / 2 ^ 8 mod 256; value mod 256].

Definition cidr_text (block : Z * Z) : string := of_bytes (text4 (uint32ToIPv4 block.1)) +:+ "/" +:+ Itoa block.2.

Inductive TargetError : Type :=
| InvalidRange (value : string)
| UnsupportedTarget (target : string)
| RangePanic.

Definition expandIPv4Range (value : string) : result TargetError (list string) :=
  match cut_byte value "-"%char with
  | None => Err (InvalidRange value)
  | Some (a, b) =>
    match ParseIP (TrimSpace a) ≫= To4, ParseIP (TrimSpace b) ≫= To4 with
    | Some startIP, Some endIP =>
      let start := be_value startIP in
      let fin := be_value endIP in
      if fin <? start then Err (InvalidRange value)
      else match ipv4RangeToCIDRs range_fuel start fin with
           | Ok blocks => Ok (cidr_text <$> blocks)
           | Err _ => Err RangePanic
           end
    | _, _ => Err (UnsupportedTarget value)
    end
  end.

Example range_ex1 : expandIPv4Range "10.0.0.1-10.0.0.9" = Ok ["10.0.0.1/32"; "10.0.0.2/31"; "10.0.0.4/30"; "10.0.0.8/31"].
Proof. vm_compute. reflexivity. Qed.
Example range_ex2 : expandIPv4Range "0.0.0.1-255.255.255.254" = Err RangePanic -> False.
Proof. vm_compute. discriminate. Qed.
Example range_ex3 : expandIPv4Range "128.0.0.0-255.255.255.255" = Err RangePanic.
Proof. vm_compute. reflexivity. Qed.

(** ** Blocks that tile a range *)

Definition block_size (prefix : Z) : Z := 2 ^ (32 - prefix).

(** Aligned blocks, one after the other, from [start] up to [stop]. *)
Fixpoint tiles (blocks : list (Z * Z)) (start stop : Z) : Prop :=
  match blocks with
  | [] => start = stop
  | (b, p) :: blocks => b = start /\ 0 < p <= 32 /\ (block_size p | b) /\ tiles blocks (b + block_size p) stop
  end.

Definition in_block (a : Z) (block : Z * Z) : Prop := block.1 <= a < block.1 + block_size block.2.

Lemma block_size_pos p : p <= 32 -> 0 < block_size p.
Proof. intros Hp. unfold block_size. apply Z.pow_pos_nonneg; lia. Qed.

Lemma tiles_le blocks : forall start stop, tiles blocks start stop -> start <= stop.
Proof.
  induction blocks as [|[b p] blocks IH]; cbn; intros start stop; [lia|]. intros (-> & Hp & _ & Ht). apply IH in Ht.
  pose proof (block_size_pos p). lia.
Qed.

Lemma tiles_cover blocks : forall start stop a, tiles blocks start stop -> start <= a < stop <-> tiles blocks start stop /\ Exists (in_block a) blocks.
Proof.
  induction blocks as [|[b p] blocks IH]; intros start stop a Ht.
  - cbn in *. subst. split; [lia|]. by intros [_ H%Exists_nil].
  - pose proof Ht as (-> & Hp & Hd & Hn). rewrite Exists_cons. pose proof (tiles_le _ _ _ Hn). pose proof (block_size_pos p).
    specialize (IH _ _ a Hn). unfold in_block at 1. cbn [fst snd]. split.
    + intros Ha. split; [done|]. destruct (decide (a < start + block_size p)); [left; lia|right]. apply IH. lia.
    + intros [_ [Ha|He]]; [lia|]. assert (start + block_size p <= a < stop) by (apply IH; done). lia.
Qed.

(** ** Trailing zeros *)

Lemma trailing_zeros_nonneg p : 0 <= trailing_zeros p.
Proof. induction p; cbn [trailing_zeros]; lia. Qed.

Lemma TrailingZeros32_divide x : 0 <= x -> (2 ^ TrailingZeros32 x | x).
Proof.
  destruct x as [|p|p]; [intros _; apply Z.divide_0_r| |lia]. intros _. cbn [TrailingZeros32].
  induction p as [p IH|p IH|]; cbn [trailing_zeros]; [apply Z.divide_1_l| |apply Z.divide_1_l].
  rewrite Z.pow_add_r by (pose proof (trailing_zeros_nonneg p); lia). change (Z.pos p~0) with (2 * Z.pos p). by apply Z.mul_divide_mono_l.
Qed.

Lemma TrailingZeros32_max x n : 0 <= x < 2 ^ 32 -> 0 <= n <= 32 -> (2 ^ n | x) -> n <= TrailingZeros32 x.
Proof.
  intros Hx Hn Hd. destruct x as [|p|p]; cbn [TrailingZeros32]; [lia| |lia]. clear Hx. revert n Hn Hd.
  induction p as [p IH|p IH|]; intros n Hn Hd; cbn [trailing_zeros].
  - destruct (decide (n = 0)); [lia|]. exfalso. replace n with (1 + (n - 1)) in Hd by lia. rewrite Z.pow_add_r in Hd by lia.
    destruct Hd as [q Hq]. change (Z.pos p~1) with (2 * Z.pos p + 1) in Hq. lia.
  - destruct (decide (n = 0)); [pose proof (trailing_zeros_nonneg p); lia|]. replace n with (1 + (n - 1)) in Hd by lia.
    rewrite Z.pow_add_r in Hd by lia. assert (n - 1 <= trailing_zeros p); [|lia]. apply IH; [lia|].
    change (Z.pos p~0) with (2 * Z.pos p) in Hd. by apply Z.mul_divide_cancel_l in Hd.
  - destruct (decide (n = 0)); [lia|]. exfalso. replace n with (1 + (n - 1)) in Hd by lia. rewrite Z.pow_add_r in Hd by lia.
    destruct Hd as [q Hq]. lia.
Qed.

Lemma TrailingZeros32_range x : 0 <= x < 2 ^ 32 -> 0 <= TrailingZeros32 x <= 32.
Proof.
  intros Hx. split; [destruct x; cbn; [lia|apply trailing_zeros_nonneg|lia]|].
  destruct (decide (x = 0)) as [->|]; [done|]. pose proof (TrailingZeros32_divide x ltac:(lia)) as Hd.
  apply Z.divide_pos_le in Hd; [|lia]. destruct (decide (TrailingZeros32 x <= 32)); [done|]. exfalso.
  assert (2 ^ 32 <= 2 ^ TrailingZeros32 x) by (apply Z.pow_le_mono_r; lia). lia.
Qed.

(** The end of the largest aligned block is better aligned. *)
Lemma next_alignment start : 0 < start < 2 ^ 32 ->
  (2 ^ (TrailingZeros32 start + 1) | start + 2 ^ TrailingZeros32 start).
Proof.
  intros Hs. pose proof (TrailingZeros32_range start ltac:(lia)) as Hr. pose proof (TrailingZeros32_divide start ltac:(lia)) as Hd.
  set (t := TrailingZeros32 start) in *.
  assert (Ht : t < 32). { apply Z.divide_pos_le in Hd; [|lia]. destruct (decide (t < 32)); [done|]. replace t with 32 in Hd by lia. lia. }
  destruct Hd as [q Hq].
  assert (Hnot : ~ (2 | q)).
  { intros [q' ->]. assert (t + 1 <= t); [|lia]. apply TrailingZeros32_max; [lia|lia|]. exists q'. rewrite Hq, Z.pow_add_r by lia. lia. }
  assert (Hq1 : (2 | q + 1)).
  { rewrite <- Z.mod_divide in Hnot |- * by lia. pose proof (Z.mod_pos_bound q 2 ltac:(lia)).
    assert (Hqm : q mod 2 = 1) by lia. rewrite Z.add_mod, Hqm by lia. done. }
  destruct Hq1 as [s Hs1]. exists s. rewrite Z.pow_add_r by lia. change (2 ^ 1) with 2. nia.
Qed.

(** ** One block *)

(** Below the last address, the block is the largest one that is aligned and fits. *)
Lemma block_below start fin : 0 <= start <= fin -> fin < 2 ^ 32 - 1 ->
  let k := Z.min (TrailingZeros32 start) (Z.log2 (fin - start + 1)) in
  block_prefix start fin = 32 - k /\ 0 <= k <= 31 /\ (2 ^ k | start) /\ 2 ^ k <= fin - start + 1 /\
  wrap32 (start + 2 ^ k) = start + 2 ^ k.
Proof.
  intros Hs Hf k. pose proof (TrailingZeros32_range start ltac:(lia)) as Ht. set (r := fin - start + 1) in *.
  assert (Hr : 0 < r < 2 ^ 32) by lia. pose proof (Z.log2_spec r ltac:(lia)) as Hl. pose proof (Z.log2_nonneg r).
  assert (Hm : Z.log2 r < 32) by (apply Z.log2_lt_pow2; lia).
  assert (Hk : 2 ^ k <= r) by (transitivity (2 ^ Z.log2 r); [apply Z.pow_le_mono_r; lia|lia]).
  split_and!; [|lia|lia| |done|].
  - unfold block_prefix. replace (wrap32 (wrap32 (fin - start) + 1)) with r.
    + unfold Len32. destruct (Z.eqb_spec r 0); [lia|]. destruct (Z.ltb_spec (32 - TrailingZeros32 start) (32 - (Z.log2 r + 1 - 1))); lia.
    + unfold wrap32. rewrite (Z.mod_small (fin - start)) by lia. rewrite Z.mod_small; lia.
  - transitivity (2 ^ TrailingZeros32 start); [|by apply TrailingZeros32_divide; lia].
    exists (2 ^ (TrailingZeros32 start - k)). rewrite <- Z.pow_add_r by lia. f_equal. lia.
  - unfold wrap32. apply Z.mod_small. assert (0 < 2 ^ k) by (apply Z.pow_pos_nonneg; lia). lia.
Qed.

Lemma range_step fuel start fin : 0 <= start <= fin -> fin < 2 ^ 32 - 1 ->
  let k := Z.min (TrailingZeros32 start) (Z.log2 (fin - start + 1)) in
  ipv4RangeToCIDRs (S fuel) start fin =
    match ipv4RangeToCIDRs fuel (start + 2 ^ k) fin with Ok blocks => Ok ((start, 32 - k) :: blocks) | Err e => Err e end.
Proof.
  intros Hs Hf k. destruct (block_below start fin Hs Hf) as (Hp & Hk & _ & _ & Hw). fold k in Hp, Hk, Hw.
  cbn [ipv4RangeToCIDRs]. destruct (Z.ltb_spec fin start); [lia|]. rewrite Hp. destruct (Z.eqb_spec (32 - k) 0); [lia|].
  replace (32 - (32 - k)) with k by lia. destruct (Z.ltb_spec k 0); [lia|]. by rewrite Hw.
Qed.

Lemma range_empty fuel start fin : fin < start -> ipv4RangeToCIDRs fuel start fin = Ok [].
Proof. intros H. destruct fuel; cbn; destruct (Z.ltb_spec fin start); done || lia. Qed.

(** A range that is tiled with fewer blocks than [n]. *)
Definition tiled (fuel n : nat) (start fin : Z) : Prop :=
  exists blocks, ipv4RangeToCIDRs fuel start fin = Ok blocks /\ tiles blocks start (fin + 1) /\ (length blocks <= n)%nat.

Lemma tiled_empty fuel n start fin : start = fin + 1 -> tiled fuel n start fin.
Proof. intros ->. exists []. split; [apply range_empty; lia|]. split; [done|cbn; lia]. Qed.

Lemma tiled_step fuel n start fin : 0 <= start <= fin -> fin < 2 ^ 32 - 1 ->
  tiled fuel n (start + 2 ^ Z.min (TrailingZeros32 start) (Z.log2 (fin - start + 1))) fin -> tiled (S fuel) (S n) start fin.
Proof.
  intros Hs Hf (blocks & Hb & Ht & Hl). set (k := Z.min _ _) in *. destruct (block_below start fin Hs Hf) as (_ & Hk & Hd & _ & _). fold k in Hk, Hd.
  exists ((start, 32 - k) :: blocks). split; [rewrite range_step by done; fold k; by rewrite Hb|]. split; [|cbn; lia].
  cbn. unfold block_size. replace (32 - (32 - k)) with k by lia. split_and!; [done|lia|lia|done|done].
Qed.

(** Once the rest is shorter than the alignment, the blocks shrink. *)
Lemma tiled_shrinking fuel : forall n start fin, (n <= fuel)%nat -> (n <= 32)%nat -> 0 <= start -> start <= fin + 1 ->
  fin < 2 ^ 32 - 1 -> (2 ^ Z.of_nat n | start) -> fin - start + 1 < 2 ^ Z.of_nat n -> tiled fuel n start fin.
Proof.
  induction fuel as [|fuel IH]; intros n start fin Hn H32 Hs Hle Hf Hd Hr.
  - assert (n = 0)%nat as -> by lia. apply tiled_empty. cbn in Hr. lia.
  - destruct (decide (start = fin + 1)) as [|Hne]; [by apply tiled_empty|]. set (r := fin - start + 1) in *.
    pose proof (Z.log2_spec r ltac:(lia)) as Hl. pose proof (Z.log2_nonneg r). set (m := Z.log2 r) in *.
    assert (Hm : m < Z.of_nat n). { apply Z.log2_lt_pow2; lia. }
    pose proof (TrailingZeros32_max start (Z.of_nat n) ltac:(lia) ltac:(lia) Hd) as Ht.
    destruct n as [|n]; [lia|].
    assert (Hk : Z.min (TrailingZeros32 start) m = m) by lia.
    assert (Hdm : (2 ^ m | start)). { transitivity (2 ^ Z.of_nat (S n)); [|done]. exists (2 ^ (Z.of_nat (S n) - m)). rewrite <- Z.pow_add_r by lia. f_equal. lia. }
    assert (Hpos : 0 < 2 ^ m) by (apply Z.pow_pos_nonneg; lia). rewrite Z.pow_succ_r in Hl by lia.
    destruct (IH (Z.to_nat m) (start + 2 ^ m) fin) as (blocks & Hb & Ht' & Hlen); try lia.
    { rewrite Z2Nat.id by lia. apply Z.divide_add_r; [done|apply Z.divide_refl]. }
    { rewrite Z2Nat.id by lia. fold r. lia. }
    apply tiled_step; [lia|lia|]. fold r. fold m. rewrite Hk. exists blocks. split_and!; [done|done|lia].
Qed.

(** Until then they grow with the alignment. *)
Lemma tiled_growing fuel : forall n start fin, (n <= 32)%nat -> (32 - n + 32 <= fuel)%nat -> 0 <= start -> start <= fin + 1 ->
  fin < 2 ^ 32 - 1 -> (2 ^ Z.of_nat n | start) -> tiled fuel (64 - n) start fin.
Proof.
  induction fuel as [|fuel IH]; intros n start fin Hn Hfuel Hs Hle Hf Hd; [lia|].
  destruct (decide (start = fin + 1)) as [|Hne]; [by apply tiled_empty|]. set (r := fin - start + 1) in *.
  pose proof (Z.log2_spec r ltac:(lia)) as Hl. pose proof (Z.log2_nonneg r). set (m := Z.log2 r) in *.
  assert (Hm : m < 32) by (apply Z.log2_lt_pow2; lia). pose proof (TrailingZeros32_range start ltac:(lia)) as Hrange.
  pose proof (TrailingZeros32_max start (Z.of_nat n) ltac:(lia) ltac:(lia) Hd) as Ht. set (t := TrailingZeros32 start) in *.
  pose proof (TrailingZeros32_divide start Hs) as Hdt. fold t in Hdt.
  destruct (decide (m < t)) as [Hmt|Hmt].
  - assert (Hdm : (2 ^ (m + 1) | start)). { transitivity (2 ^ t); [|done]. exists (2 ^ (t - (m + 1))). rewrite <- Z.pow_add_r by lia. f_equal. lia. }
    destruct (tiled_shrinking (S fuel) (Z.to_nat (m + 1)) start fin) as (blocks & Hb & Hti & Hlen); try lia.
    { by rewrite Z2Nat.id by lia. }
    { rewrite Z2Nat.id by lia. fold r. replace (m + 1) with (Z.succ m) by lia. lia. }
    exists blocks. split_and!; [done|done|lia].
  - assert (0 < start). { destruct (decide (start = 0)) as [E|]; [|lia]. exfalso. apply Hmt. unfold t. rewrite E. exact Hm. }
    pose proof (next_alignment start ltac:(lia)) as Hodd. fold t in Hodd.
    assert (Hk : Z.min t m = t) by lia. assert (2 ^ t <= 2 ^ m) by (apply Z.pow_le_mono_r; lia).
    assert (Hpos : 0 < 2 ^ t) by (apply Z.pow_pos_nonneg; lia).
    destruct (IH (Z.to_nat (t + 1)) (start + 2 ^ t) fin) as (blocks & Hb & Hti & Hlen); try lia.
    { rewrite Z2Nat.id by lia. done. }
    destruct (64 - n)%nat eqn:En; [lia|].
    apply tiled_step; [lia|lia|]. fold r t m. rewrite Hk. exists blocks. split_and!; [done|done|lia].
Qed.

(** A range of addresses becomes prefixes that cover it.  Below 255.255.255.255
    the loop ends within its fuel, its blocks are aligned and adjacent, and an address
    is in one of them exactly when it is in the range; there are at most 64. *)
Theorem range_covered start fin : 0 <= start -> start <= fin -> fin < 2 ^ 32 - 1 ->
  exists blocks, ipv4RangeToCIDRs range_fuel start fin = Ok blocks /\ tiles blocks start (fin + 1) /\ (length blocks <= 64)%nat /\
    forall a, start <= a <= fin <-> Exists (in_block a) blocks.
Proof.
  intros Hs Hle Hf. destruct (tiled_growing range_fuel 0 start fin) as (blocks & Hb & Ht & Hl); try (unfold range_fuel; lia).
  { apply Z.divide_1_l. }
  exists blocks. split_and!; [done|done|exact Hl|]. intros a. pose proof (tiles_cover _ _ _ a Ht) as [H1 H2]. split.
  - intros Ha. apply H1. lia.
  - intros He. specialize (H2 (conj Ht He)). lia.
Qed.

Lemma range_covered_witness :
  ipv4RangeToCIDRs range_fuel 1 6 = Ok [(1, 32); (2, 31); (4, 31); (6, 32)] /\ Exists (in_block 5) [(1, 32); (2, 31); (4, 31); (6, 32)].
Proof.
  destruct (range_covered 1 6 ltac:(lia) ltac:(lia) ltac:(lia)) as (blocks & Hb & _ & _ & Hin).
  assert (E : ipv4RangeToCIDRs range_fuel 1 6 = Ok [(1, 32); (2, 31); (4, 31); (6, 32)]) by (vm_compute; reflexivity).
  split; [exact E|]. rewrite E in Hb. injection Hb as <-. apply Hin. lia.
Defined.

(** ** The last address *)

Definition last_address : Z := 2 ^ 32 - 1.

Lemma all_addresses fuel : ipv4RangeToCIDRs (S fuel) 0 last_address = Err NegativeShift.
Proof. reflexivity. Qed.

Lemma top_panics fuel : forall n start, (n <= 32)%nat -> (33 - n <= fuel)%nat -> 0 <= start < 2 ^ 32 -> (2 ^ Z.of_nat n | start) ->
  ipv4RangeToCIDRs fuel start last_address = Err NegativeShift.
Proof.
  induction fuel as [|fuel IH]; intros n start Hn Hfuel Hs Hd; [lia|]. destruct (decide (start = 0)) as [->|Hne]; [apply all_addresses|].
  pose proof (TrailingZeros32_max start (Z.of_nat n) ltac:(lia) ltac:(lia) Hd) as Hnt. pose proof (next_alignment start ltac:(lia)) as Hnext.
  pose proof (TrailingZeros32_divide start ltac:(lia)) as Hdt. pose proof (TrailingZeros32_range start ltac:(lia)) as Hr.
  set (t := TrailingZeros32 start) in *.
  assert (Ht : t < 32). { apply Z.divide_pos_le in Hdt; [|lia]. destruct (decide (t < 32)); [done|]. replace t with 32 in Hdt by lia. lia. }
  assert (Hrest : 2 ^ t <= 2 ^ 32 - start).
  { apply Z.divide_pos_le; [lia|]. apply Z.divide_sub_r; [|done]. exists (2 ^ (32 - t)). rewrite <- Z.pow_add_r by lia. f_equal. lia. }
  assert (Hpos : 0 < 2 ^ t) by (apply Z.pow_pos_nonneg; lia).
  assert (Hlog : t <= Z.log2 (2 ^ 32 - start)) by (apply Z.log2_le_pow2; lia).
  assert (Hp : block_prefix start last_address = 32 - t).
  { unfold block_prefix, last_address. replace (wrap32 (wrap32 (2 ^ 32 - 1 - start) + 1)) with (2 ^ 32 - start).
    - unfold Len32. destruct (Z.eqb_spec (2 ^ 32 - start) 0); [lia|]. fold t.
      destruct (Z.ltb_spec (32 - t) (32 - (Z.log2 (2 ^ 32 - start) + 1 - 1))); lia.
    - unfold wrap32. rewrite (Z.mod_small (2 ^ 32 - 1 - start)) by lia. rewrite Z.mod_small; lia. }
  cbn [ipv4RangeToCIDRs]. rewrite Hp. unfold last_address at 1. destruct (Z.ltb_spec (2 ^ 32 - 1) start); [lia|].
  destruct (Z.eqb_spec (32 - t) 0); [lia|]. replace (32 - (32 - t)) with t by lia. destruct (Z.ltb_spec t 0); [lia|].
  destruct (decide (start + 2 ^ t = 2 ^ 32)) as [E|E].
  - unfold wrap32. rewrite E, Z.mod_same by lia. destruct fuel; [lia|]. by rewrite all_addresses.
  - unfold wrap32. rewrite Z.mod_small by lia. rewrite (IH (Z.to_nat (t + 1))); [done|lia|lia|lia|]. by rewrite Z2Nat.id by lia.
Qed.

Lemma be_value_range ip : byte_list ip -> length ip = 4%nat -> 0 <= be_value ip < 2 ^ 32.
Proof.
  intros Hb Hl. destruct ip as [|a [|b [|c [|d []]]]]; try done. unfold byte_list in Hb. rewrite !Forall_cons in Hb. unfold be_value. cbn. lia.
Qed.

(** A range that ends at 255.255.255.255 crashes.  Whatever address it starts
    from, computing the next block wraps around to 0.0.0.0, where the length of the
    rest overflows and the shift count is negative: a run-time panic. *)
Theorem range_to_last_address_panics a ip :
  has_byte a "-" = false -> ParseIP (TrimSpace a) ≫= To4 = Some ip ->
  expandIPv4Range (a +:+ "-255.255.255.255") = Err RangePanic.
Proof.
  intros Ha Hip. assert (Hv : 0 <= be_value ip < 2 ^ 32).
  { apply bind_Some in Hip as (b & Hb & Hip). apply ParseIP_bytes in Hb as [Hb _]. by apply (To4_bytes _ _ Hb) in Hip as [? ?]; apply be_value_range. }
  unfold expandIPv4Range. rewrite (cut_byte_app a "-"%char "255.255.255.255" Ha), Hip.
  change (ParseIP (TrimSpace "255.255.255.255") ≫= To4) with (Some [255; 255; 255; 255]).
  cbv zeta beta iota. change (be_value [255; 255; 255; 255]) with last_address. destruct (Z.ltb_spec last_address (be_value ip)); [unfold last_address in *; lia|].
  rewrite (top_panics range_fuel 0 (be_value ip)); [done|lia|unfold range_fuel; lia|lia|apply Z.divide_1_l].
Qed.

Lemma range_to_last_address_panics_witness : expandIPv4Range "203.0.113.9-255.255.255.255" = Err RangePanic.
Proof. exact (range_to_last_address_panics "203.0.113.9" [203; 0; 113; 9] eq_refl eq_refl). Defined.
