(* ===== verification/AmneziaProfile.v ===== *)
(** * AmneziaWG profiles

    [amneziawg/domain.go], [amneziawg/parser.go] and [amneziawg/validate.go]: a
    native configuration text becomes a validated profile, and nothing but the
    parameters of the import contract is taken from it.  [[32]byte] is the list
    of its bytes; an error carries what its message is made of. *)
From S2P Require Import Prelude GoRunes GoStrings GoNum NetIP Domain GoConv.

Local Open Scope Z_scope.
Local Open Scope list_scope.

Definition VersionLegacy : string := "legacy".
Definition Version20 : string := "2.0".
Definition Version31 : string := "3.1".

(** ** Data *)

Module PrivateKey.
Record PrivateKey : Type := mk { value : list Z; set : bool }.
Definition zero : PrivateKey := mk (replicate 32 0) false.
End PrivateKey.
Abbreviation PrivateKey := PrivateKey.PrivateKey.

Module PresharedKey.
Record PresharedKey : Type := mk { value : list Z; set : bool }.
Definition zero : PresharedKey := mk (replicate 32 0) false.
End PresharedKey.
Abbreviation PresharedKey := PresharedKey.PresharedKey.

Module Uint32Range.
Record Uint32Range : Type := mk { Min : Z; Max : Z }.
Definition zero : Uint32Range := mk 0 0.
End Uint32Range.
Abbreviation Uint32Range := Uint32Range.Uint32Range.

Module Obfuscation.
Record Obfuscation : Type := mk {
  JunkPacketCount : Z; JunkPacketMinSize : Z; JunkPacketMaxSize : Z;
  PacketJunkSizes : list Z; MagicHeaders : list Uint32Range; SpecialJunk : list string
}.
End Obfuscation.
Abbreviation Obfuscation := Obfuscation.Obfuscation.

Module V31Parameters.
Record V31Parameters : Type := mk {
  HeaderProtectionKey : PrivateKey;
  ContentPaddingAddition : Uint32Range; RekeyAfterTime : Uint32Range; RekeyTimeout : Uint32Range;
  RejectAfterTime : Uint32Range; KeepaliveTimeout : Uint32Range; MaxHandshakeAttempts : Uint32Range;
  RandomTrailers : bool; DisableCookies : bool
}.
Definition zero : V31Parameters :=
  mk PrivateKey.zero Uint32Range.zero Uint32Range.zero Uint32Range.zero Uint32Range.zero Uint32Range.zero
     Uint32Range.zero false false.
End V31Parameters.
Abbreviation V31Parameters := V31Parameters.V31Parameters.

Module Interface.
Record Interface : Type := mk {
  PrivateKey : AmneziaProfile.PrivateKey; Addresses : list Prefix; MTU : Z; Obfuscation : AmneziaProfile.Obfuscation;
  V31 : V31Parameters
}.
End Interface.
Abbreviation Interface := Interface.Interface.

Module Peer.
Record Peer : Type := mk {
  PublicKey : list Z; Endpoint : string; PersistentKeepalive : Uint32Range; PresharedKey : AmneziaProfile.PresharedKey
}.
End Peer.
Abbreviation Peer := Peer.Peer.

Module Profile.
Record Profile : Type := mk {
  Version : string; Interface : AmneziaProfile.Interface; Peer : AmneziaProfile.Peer; IgnoredParameters : list string
}.
End Profile.
Abbreviation Profile := Profile.Profile.

Module rawProfile.
Record rawProfile : Type := mk {
  sections : gmap string (gmap string string);
  seen : gmap string (gset string);
  ignored : gset string;
  declaredVersion : string
}.
Definition eta (r : rawProfile) : rawProfile := mk (sections r) (seen r) (ignored r) (declaredVersion r).
#[export] Instance set_sections : Setter sections := ltac:(mk_setter eta sections).
#[export] Instance set_seen : Setter seen := ltac:(mk_setter eta seen).
#[export] Instance set_ignored : Setter ignored := ltac:(mk_setter eta ignored).
#[export] Instance set_declaredVersion : Setter declaredVersion := ltac:(mk_setter eta declaredVersion).
End rawProfile.
Export (hints) rawProfile.
Abbreviation rawProfile := rawProfile.rawProfile.

Inductive ProfileError : Type :=
| UnsupportedSection (line : nat) (text : string)
| RepeatedSection (line : nat) (section : string)
| BeforeSection (line : nat)
| NotKeyValue (line : nat)
| UnsafeDirective (line : nat) (key : string)
| UnsupportedVersion (line : nat) (value : string)
| DuplicateParameter (line : nat) (key section : string)
| UnsupportedParameter (line : nat) (key section : string)
| TokenTooLong
| NotOneSectionEach
| Missing (parameter : string)
| Invalid (message : string)
| DuplicateCIDR (field value : string).

(** ** Reading the text *)

Definition unsafeDirectives : list string := ["preup"; "postup"; "predown"; "postdown"].

Definition awg3Parameters : list string :=
  ["headerprotectionkey"; "contentpaddingaddition"; "rekeyaftertime"; "rekeytimeout"; "rejectaftertime";
   "keepalivetimeout"; "maxhandshakeattempts"; "randomtrailers"; "disablecookies"].

Definition interface_keys : list string :=
  ["privatekey"; "address"; "mtu"; "jc"; "jmin"; "jmax"; "s1"; "s2"; "s3"; "s4"; "h1"; "h2"; "h3"; "h4";
   "i1"; "i2"; "i3"; "i4"; "i5"] ++ awg3Parameters.

Definition peer_keys : list string := ["publickey"; "endpoint"; "presharedkey"; "persistentkeepalive"].

Definition signature_keys : list string := ["i1"; "i2"; "i3"; "i4"; "i5"].

Definition carriage_return : string := String "013" EmptyString.

(** The largest token of the scanner. *)
Definition max_line : Z := 1024 * 1024.

(** [bufio.ScanLines]: the lines before the first one that is too long, and
    whether there is one. *)
Fixpoint scan_lines (lines : list string) : list string * bool :=
  match lines with
  | [] => ([], false)
  | [""] => ([], false)
  | line :: lines =>
    if max_line <=? Z.of_nat (String.length line) then ([], true)
    else let '(rest, long) := scan_lines lines in (TrimSuffix line carriage_return :: rest, long)
  end.

Definition byte_order_mark : string := String "239" (String "187" (String "191" EmptyString)).

Definition profile_lines (data : string) : list string * bool :=
  scan_lines (split_byte (TrimPrefix data byte_order_mark) line_feed).

Definition stripInlineComment (value : string) : string :=
  match cut_byte value "#" with Some (before, _) => TrimSpace before | None => value end.

Definition canonicalSection (section : string) : string :=
  if bool_decide (section = "interface") then "Interface" else "Peer".

Definition canonicalParameter (section key : string) : string :=
  let name := if bool_decide (key = "dns") then "DNS" else if bool_decide (key = "table") then "Table"
              else if bool_decide (key = "allowedips") then "AllowedIPs" else "" in
  "[" +:+ canonicalSection section +:+ "]." +:+ name.

Definition section_values (raw : rawProfile) (section : string) : gmap string string :=
  default ∅ (rawProfile.sections raw !! section).

Definition set_value (section key value : string) (raw : rawProfile) : rawProfile :=
  raw <| rawProfile.sections ::= alter <[key := value]> section |>.

Definition seen_key (raw : rawProfile) (section key : string) : bool :=
  bool_decide (key ∈ default ∅ (rawProfile.seen raw !! section)).

Definition mark_seen (section key : string) (raw : rawProfile) : rawProfile :=
  raw <| rawProfile.seen ::= alter (fun s => {[key]} ∪ s) section |>.

Definition acceptParameter (raw : rawProfile) (section key displayKey value : string) (line : nat)
    : result ProfileError rawProfile :=
  let take_value := Ok (set_value section key value raw) in
  let ignore := Ok (raw <| rawProfile.ignored ::= fun s => {[canonicalParameter section key]} ∪ s |>) in
  let unsupported := Err (UnsupportedParameter line displayKey (canonicalSection section)) in
  if bool_decide (section = "interface")
  then if bool_decide (key ∈ interface_keys) then take_value
       else if bool_decide (key ∈ ["dns"; "table"]) then ignore else unsupported
  else if bool_decide (key ∈ peer_keys) then take_value
       else if bool_decide (key ∈ ["allowedips"]) then ignore else unsupported.

Definition declared_version (line : nat) (value : string) : result ProfileError string :=
  let v := ToLower value in
  if bool_decide (v ∈ ["1"; "1.0"; VersionLegacy]) then Ok VersionLegacy
  else if bool_decide (v ∈ ["2"; Version20]) then Ok Version20
  else if bool_decide (v ∈ ["3"; "3.0"; Version31]) then Ok Version31
  else Err (UnsupportedVersion line value).

(** The variables of the loop. *)
Module Scan.
Record Scan : Type := mk { raw : rawProfile; sectionCounts : gmap string nat; currentSection : string }.
End Scan.
Abbreviation Scan := Scan.Scan.

Definition section_count (s : Scan) (section : string) : nat := default 0%nat (Scan.sectionCounts s !! section).

Definition scan_section (s : Scan) (n : nat) (line : string) : result ProfileError Scan :=
  let section := ToLower (TrimSpace (String.substring 1 (String.length line - 2) line)) in
  if negb (bool_decide (section = "interface")) && negb (bool_decide (section = "peer"))
  then Err (UnsupportedSection n line)
  else
    let count := S (section_count s section) in
    if (1 <? count)%nat then Err (RepeatedSection n (canonicalSection section))
    else Ok (Scan.mk (Scan.raw s) (<[section := count]> (Scan.sectionCounts s)) section).

Definition scan_parameter (s : Scan) (n : nat) (key value : string) : result ProfileError rawProfile :=
  let raw := Scan.raw s in
  let section := Scan.currentSection s in
  let canonicalKey := TrimSpace key in
  let normalizedKey := ToLower canonicalKey in
  let value := TrimSpace value in
  let value := if bool_decide (normalizedKey ∈ signature_keys) then value else stripInlineComment value in
  if bool_decide (normalizedKey ∈ unsafeDirectives) then Err (UnsafeDirective n canonicalKey)
  else if bool_decide (section = "interface") && bool_decide (normalizedKey ∈ ["version"; "protocolversion"])
  then
    if seen_key raw section normalizedKey || negb (bool_decide (rawProfile.declaredVersion raw = ""))
    then Err (DuplicateParameter n canonicalKey "Interface")
    else
      let* version := declared_version n value in
      Ok (mark_seen section normalizedKey (raw <| rawProfile.declaredVersion := version |>))
  else if seen_key raw section normalizedKey
  then Err (DuplicateParameter n canonicalKey (canonicalSection section))
  else
    let* raw := acceptParameter raw section normalizedKey canonicalKey value n in
    Ok (mark_seen section normalizedKey raw).

Definition scan_line (s : Scan) (numbered : nat * string) : result ProfileError Scan :=
  let '(n, text) := numbered in
  let line := TrimSpace text in
  if bool_decide (line = "") || HasPrefix line "#" || HasPrefix line ";" then Ok s
  else if HasPrefix line "[" && HasSuffix line "]" then scan_section s n line
  else if bool_decide (Scan.currentSection s = "") then Err (BeforeSection n)
  else
    match cut_byte line "=" with
    | None => Err (NotKeyValue n)
    | Some (key, value) =>
      if bool_decide (TrimSpace key = "") then Err (NotKeyValue n)
      else
        let* raw := scan_parameter s n key value in
        Ok (Scan.mk raw (Scan.sectionCounts s) (Scan.currentSection s))
    end.

Definition empty_raw : rawProfile :=
  rawProfile.mk {[ "interface" := ∅; "peer" := ∅ ]} {[ "interface" := ∅; "peer" := ∅ ]} ∅ "".

Definition numbered (lines : list string) : list (nat * string) := imap (fun i line => (S i, line)) lines.

Definition parseINI (data : string) : result ProfileError rawProfile :=
  let '(lines, long) := profile_lines data in
  let* s := fold_result scan_line (Scan.mk empty_raw ∅ "") (numbered lines) in
  if (long : bool) then Err TokenTooLong
  else if negb (section_count s "interface" =? 1)%nat || negb (section_count s "peer" =? 1)%nat
  then Err NotOneSectionEach
  else Ok (Scan.raw s).

(** ** Values *)

Definition required (values : gmap string string) (key display : string) : result ProfileError string :=
  match values !! key with
  | Some value => if bool_decide (TrimSpace value = "") then Err (Missing display) else Ok value
  | None => Err (Missing display)
  end.

(** [values[key]] and [strings.TrimSpace] of it. *)
Definition trimmed_value (values : gmap string string) (key : string) : string :=
  TrimSpace (default "" (values !! key)).

Definition parseUint16 (values : gmap string string) (key display : string) : result ProfileError Z :=
  let* raw := required values key display in
  match ParseUint raw 10 16 with
  | Some parsed => Ok parsed
  | None => Err (Invalid ("invalid " +:+ display +:+ ": expected an integer from 0 to 65535"))
  end.

Definition allZero (value : list Z) : bool := foldl Z.lor 0 value =? 0.

Definition decodeKey (raw : string) : option (list Z) :=
  match DecodeString (TrimSpace raw) with
  | Some decoded => if bool_decide (length decoded = 32%nat) then Some decoded else None
  | None => None
  end.

Definition non_zero_key (raw field : string) : result ProfileError (list Z) :=
  let invalid := Err (Invalid ("invalid " +:+ field +:+ ": expected a non-zero 32-byte base64 key")) in
  match decodeKey raw with
  | Some decoded => if allZero decoded then invalid else Ok decoded
  | None => invalid
  end.

Definition parsePrivateKey (raw field : string) : result ProfileError PrivateKey :=
  let* decoded := non_zero_key raw field in Ok (PrivateKey.mk decoded true).

Definition parsePresharedKey (raw field : string) : result ProfileError PresharedKey :=
  let* decoded := non_zero_key raw field in Ok (PresharedKey.mk decoded true).

Definition parsePublicKey (raw : string) : result ProfileError (list Z) := non_zero_key raw "[Peer].PublicKey".

(** One address of the list; [seen] holds the prefixes of [result]. *)
Definition parse_prefix (field : string) (result : list Prefix) (part : string) : Prelude.result ProfileError (list Prefix) :=
  let value := TrimSpace part in
  let* prefix :=
    match ParsePrefix value with
    | Some prefix => Ok prefix
    | None =>
      match ParseAddr value with
      | Some address => Ok (PrefixFrom address (BitLen address))
      | None => Err (Invalid ("invalid " +:+ field +:+ " CIDR"))
      end
    end in
  if bool_decide (prefix ∈ result) then Err (DuplicateCIDR field value) else Ok (result ++ [prefix]).

Definition parsePrefixes (raw field : string) : result ProfileError (list Prefix) :=
  let* prefixes := fold_result (parse_prefix field) [] (split_byte raw ",") in
  if bool_decide (prefixes = []) then Err (Missing field) else Ok prefixes.

Definition label_rune (c : Z) : bool :=
  ((97 <=? c) && (c <=? 122)) || ((65 <=? c) && (c <=? 90)) || ((48 <=? c) && (c <=? 57)) || (c =? 45).

Definition valid_label (label : string) : bool :=
  let l := to_bytes label in
  negb (bool_decide (label = "")) && (String.length label <=? 63)%nat && negb (bool_decide (head l = Some 45))
  && negb (bool_decide (last l = Some 45)) && forallb label_rune (runes label).

Definition space_chars : string :=
  String "032" (String "009" (String "013" (String "010" EmptyString))).

Definition validEndpointHost (host : string) : bool :=
  if bool_decide (host = "") || ContainsAny host space_chars then false
  else match ParseAddr host with
       | Some _ => true
       | None =>
         if (253 <? String.length host)%nat || HasPrefix host "." || HasSuffix host "." then false
         else forallb valid_label (split_byte host ".")
       end.

Definition parseEndpoint (raw : string) : result ProfileError string :=
  let malformed := Err (Invalid "invalid [Peer].Endpoint: expected host:port (IPv6 must use brackets)") in
  match SplitHostPort (TrimSpace raw) with
  | Err _ => malformed
  | Ok (host, portRaw) =>
    if negb (validEndpointHost host) then malformed
    else
      let bad_port := Err (Invalid "invalid [Peer].Endpoint: port must be from 1 to 65535") in
      match ParseUint portRaw 10 16 with
      | None => bad_port
      | Some port =>
        if port =? 0 then bad_port
        else match ParseAddr host with
             | Some address => Ok (JoinHostPort (Addr_String address) (Itoa port))
             | None => Ok (JoinHostPort (ToLower host) (Itoa port))
             end
      end
  end.

Definition parseUint32Range (raw field : string) : result ProfileError Uint32Range :=
  let invalid := Err (Invalid ("invalid " +:+ field +:+ ": expected uint32 or min-max")) in
  let descending := Err (Invalid ("invalid " +:+ field +:+ ": expected ascending uint32 range")) in
  match split_byte (TrimSpace raw) "-" with
  | [single] =>
    match ParseUint (TrimSpace single) 0 32 with Some n => Ok (Uint32Range.mk n n) | None => invalid end
  | [first; second] =>
    match ParseUint (TrimSpace first) 0 32 with
    | None => invalid
    | Some minimum =>
      match ParseUint (TrimSpace second) 0 32 with
      | Some maximum => if maximum <? minimum then descending else Ok (Uint32Range.mk minimum maximum)
      | None => descending
      end
    end
  | _ => invalid
  end.

(** Quotes, the backslash, NUL and the line ends. *)
Definition signature_forbidden : string :=
  String "039" (String "034" (String "092" (String "000" (String "013" (String "010" EmptyString))))).

Definition bad_signature (value : string) : bool :=
  (2048 <? String.length value)%nat || ContainsAny value signature_forbidden
  || negb (HasPrefix value "<") || negb (HasSuffix value ">").

Definition numbered_key (prefix : string) (i : nat) : string := prefix +:+ Itoa (Z.of_nat (S i)).

Fixpoint collect {A} (f : nat -> result ProfileError A) (from count : nat) : result ProfileError (list A) :=
  match count with
  | O => Ok []
  | S count => let* a := f from in let* rest := collect f (S from) count in Ok (a :: rest)
  end.

Definition parse_size (values : gmap string string) (i : nat) : result ProfileError Z :=
  parseUint16 values (numbered_key "s" i) (numbered_key "[Interface].S" i).

Definition parse_header (values : gmap string string) (i : nat) : result ProfileError Uint32Range :=
  let display := numbered_key "[Interface].H" i in
  let* raw := required values (numbered_key "h" i) display in parseUint32Range raw display.

Definition parse_signature (values : gmap string string) (i : nat) : result ProfileError string :=
  let value := trimmed_value values (numbered_key "i" i) in
  if bool_decide (value = "") then Ok ""
  else if bad_signature value
  then Err (Invalid ("invalid " +:+ numbered_key "[Interface].I" i +:+ ": expected an AWG packet signature"))
  else Ok value.

Definition parseObfuscation (values : gmap string string) (version : string) : result ProfileError Obfuscation :=
  let* jc := parseUint16 values "jc" "[Interface].Jc" in
  let* jmin := parseUint16 values "jmin" "[Interface].Jmin" in
  let* jmax := parseUint16 values "jmax" "[Interface].Jmax" in
  if jmax <? jmin then Err (Invalid "invalid AmneziaWG obfuscation: Jmin must not exceed Jmax")
  else
    let packetJunkCount := if bool_decide (version = Version20) || bool_decide (version = Version31) then 4%nat else 2%nat in
    let* sizes := collect (parse_size values) 0 packetJunkCount in
    let* headers := collect (parse_header values) 0 4 in
    let* signatures := collect (parse_signature values) 0 5 in
    Ok (Obfuscation.mk jc jmin jmax (sizes ++ replicate (4 - packetJunkCount) 0) headers signatures).

Definition hasV31Parameter (values : gmap string string) : bool :=
  existsb (fun key => negb (bool_decide (trimmed_value values key = ""))) awg3Parameters.

Definition range_parameter (values : gmap string string) (key label : string) : result ProfileError Uint32Range :=
  let raw := trimmed_value values key in
  if bool_decide (raw = "") then Ok Uint32Range.zero else parseUint32Range raw ("[Interface]." +:+ label).

Definition bool_parameter (values : gmap string string) (key label : string) : result ProfileError bool :=
  let raw := trimmed_value values key in
  if bool_decide (raw = "") then Ok false
  else match ParseBool raw with
       | Some value => Ok value
       | None => Err (Invalid ("invalid [Interface]." +:+ label +:+ ": expected true or false"))
       end.

Definition parseV31 (values : gmap string string) (version : string) : result ProfileError V31Parameters :=
  if negb (hasV31Parameter values) then Ok V31Parameters.zero
  else if negb (bool_decide (version = Version31))
  then Err (Invalid "invalid AmneziaWG profile: AWG 3.1 parameters require AWG 3.1")
  else
    let raw := trimmed_value values "headerprotectionkey" in
    let* protection := if bool_decide (raw = "") then Ok PrivateKey.zero
                       else parsePrivateKey raw "[Interface].HeaderProtectionKey" in
    let* padding := range_parameter values "contentpaddingaddition" "ContentPaddingAddition" in
    let* rekeyAfter := range_parameter values "rekeyaftertime" "RekeyAfterTime" in
    let* rekeyTimeout := range_parameter values "rekeytimeout" "RekeyTimeout" in
    let* rejectAfter := range_parameter values "rejectaftertime" "RejectAfterTime" in
    let* keepalive := range_parameter values "keepalivetimeout" "KeepaliveTimeout" in
    let* handshakes := range_parameter values "maxhandshakeattempts" "MaxHandshakeAttempts" in
    let* trailers := bool_parameter values "randomtrailers" "RandomTrailers" in
    let* cookies := bool_parameter values "disablecookies" "DisableCookies" in
    Ok (V31Parameters.mk protection padding rekeyAfter rekeyTimeout rejectAfter keepalive handshakes trailers cookies).

(** ** Profiles *)

Definition known_version (version : string) : bool :=
  bool_decide (version = VersionLegacy) || bool_decide (version = Version20) || bool_decide (version = Version31).

Definition legacy_signature (i : nat) : ProfileError :=
  Invalid ("invalid AmneziaWG Legacy profile: I" +:+ Itoa (Z.of_nat (S i)) +:+ " requires AWG 2.0").

Fixpoint validate_signatures (version : string) (i : nat) (signatures : list string) : option ProfileError :=
  match signatures with
  | [] => None
  | value :: rest =>
    if bool_decide (value = "") then validate_signatures version (S i) rest
    else if bad_signature value
    then Some (Invalid ("invalid " +:+ numbered_key "[Interface].I" i +:+ ": expected an AWG packet signature"))
    else if bool_decide (version = VersionLegacy) then Some (legacy_signature i)
    else validate_signatures version (S i) rest
  end.

Definition Validate (p : Profile) : option ProfileError :=
  let version := Profile.Version p in
  let i := Profile.Interface p in
  let peer := Profile.Peer p in
  let o := Interface.Obfuscation i in
  let size n := default 0 (Obfuscation.PacketJunkSizes o !! n) in
  if negb (known_version version) then Some (UnsupportedVersion 0 version)
  else if negb (PrivateKey.set (Interface.PrivateKey i)) || allZero (PrivateKey.value (Interface.PrivateKey i))
  then Some (Invalid "invalid [Interface].PrivateKey: expected a non-zero 32-byte base64 key")
  else if bool_decide (Interface.Addresses i = []) then Some (Missing "[Interface].Address")
  else if negb (forallb Prefix_IsValid (Interface.Addresses i)) then Some (Invalid "invalid [Interface].Address CIDR")
  else if negb (Interface.MTU i =? 0) && ((Interface.MTU i <? 576) || (9000 <? Interface.MTU i))
  then Some (Invalid "invalid [Interface].MTU: expected an integer from 576 to 9000")
  else if allZero (Peer.PublicKey peer)
  then Some (Invalid "invalid [Peer].PublicKey: expected a non-zero 32-byte base64 key")
  else match parseEndpoint (Peer.Endpoint peer) with
  | Err e => Some e
  | Ok _ =>
    if Obfuscation.JunkPacketMaxSize o <? Obfuscation.JunkPacketMinSize o
    then Some (Invalid "invalid AmneziaWG obfuscation: Jmin must not exceed Jmax")
    else if bool_decide (version = VersionLegacy) && (negb (size 2%nat =? 0) || negb (size 3%nat =? 0))
    then Some (Invalid "invalid AmneziaWG Legacy profile: S3/S4 must be absent")
    else match validate_signatures version 0 (Obfuscation.SpecialJunk o) with
    | Some e => Some e
    | None =>
      if PresharedKey.set (Peer.PresharedKey peer) && allZero (PresharedKey.value (Peer.PresharedKey peer))
      then Some (Invalid "invalid [Peer].PresharedKey: expected a non-zero 32-byte base64 key")
      else None
    end
  end.

(** The version that the parameters call for. *)
Definition profile_version (raw : rawProfile) : result ProfileError string :=
  let values := section_values raw "interface" in
  let hasS3 := bool_decide (is_Some (values !! "s3")) in
  let hasS4 := bool_decide (is_Some (values !! "s4")) in
  if negb (eqb hasS3 hasS4)
  then Err (Invalid "invalid AmneziaWG profile: S3 and S4 must either both be present or both be absent")
  else
    let declared := rawProfile.declaredVersion raw in
    let version := if bool_decide (declared = Version31) || hasV31Parameter values then Version31
                   else if hasS3 then Version20 else VersionLegacy in
    if negb (bool_decide (declared = "")) && negb (bool_decide (declared = version))
    then Err (Invalid ("invalid AmneziaWG profile: declared version " +:+ declared
                       +:+ " does not match its obfuscation parameters"))
    else if bool_decide (version = VersionLegacy)
    then
      match list_find (fun i => trimmed_value values (numbered_key "i" i) <> "") (seq 0 5) with
      | Some (_, i) => Err (legacy_signature i)
      | None => Ok version
      end
    else Ok version.

Definition parse_mtu (values : gmap string string) : result ProfileError Z :=
  let mtuRaw := trimmed_value values "mtu" in
  let invalid := Err (Invalid "invalid [Interface].MTU: expected an integer from 576 to 9000") in
  if bool_decide (mtuRaw = "") then Ok 0
  else match ParseUint mtuRaw 10 16 with
       | Some parsed => if (parsed <? 576) || (9000 <? parsed) then invalid else Ok parsed
       | None => invalid
       end.

Definition parse_keepalive (values : gmap string string) : result ProfileError Uint32Range :=
  let keepaliveRaw := trimmed_value values "persistentkeepalive" in
  let invalid := Err (Invalid "invalid [Peer].PersistentKeepalive: expected an integer or range from 0 to 65535") in
  if bool_decide (keepaliveRaw = "") then Ok Uint32Range.zero
  else match parseUint32Range keepaliveRaw "[Peer].PersistentKeepalive" with
       | Ok keepalive => if 65535 <? Uint32Range.Max keepalive then invalid else Ok keepalive
       | Err _ => invalid
       end.

Definition parse_interface (values : gmap string string) (version : string) : result ProfileError Interface :=
  let* privateRaw := required values "privatekey" "[Interface].PrivateKey" in
  let* privateKey := parsePrivateKey privateRaw "[Interface].PrivateKey" in
  let* addressRaw := required values "address" "[Interface].Address" in
  let* addresses := parsePrefixes addressRaw "[Interface].Address" in
  let* mtu := parse_mtu values in
  let* obfuscation := parseObfuscation values version in
  let* v31 := parseV31 values version in
  Ok (Interface.mk privateKey addresses mtu obfuscation v31).

Definition parse_peer (values : gmap string string) : result ProfileError Peer :=
  let* publicRaw := required values "publickey" "[Peer].PublicKey" in
  let* publicKey := parsePublicKey publicRaw in
  let* endpointRaw := required values "endpoint" "[Peer].Endpoint" in
  let* endpoint := parseEndpoint endpointRaw in
  let pskRaw := trimmed_value values "presharedkey" in
  let* psk := if bool_decide (pskRaw = "") then Ok PresharedKey.zero
              else parsePresharedKey pskRaw "[Peer].PresharedKey" in
  let* keepalive := parse_keepalive values in
  Ok (Peer.mk publicKey endpoint keepalive psk).

Definition buildProfile (raw : rawProfile) : result ProfileError Profile :=
  let* version := profile_version raw in
  let* interface := parse_interface (section_values raw "interface") version in
  let* peer := parse_peer (section_values raw "peer") in
  let profile := Profile.mk version interface peer (sort_strings (elements (rawProfile.ignored raw))) in
  match Validate profile with
  | Some e => Err e
  | None => Ok profile
  end.

Definition Parse (data : string) : result ProfileError Profile :=
  let* raw := parseINI data in buildProfile raw.
