(* ===== verification/AmneziaRuntime.v ===== *)
(** * Handing a profile to the router

    [uciBatch] of [amneziawg/controller_openwrt.go]: the commands that put a
    profile into the network configuration, and [StableID] of
    [amneziawg/domain.go].  [digest] stands for the JSON text, SHA-256 and
    hexadecimal form of the payload. *)
From S2P Require Import Prelude GoRunes GoStrings GoNum NetIP Domain GoConv AmneziaProfile.

Local Open Scope Z_scope.
Local Open Scope list_scope.

Definition DefaultInterfaceName : string := "fastlane_awg".

Definition interfaceName (configured : string) : string :=
  if bool_decide (TrimSpace configured = "") then DefaultInterfaceName else configured.

Definition quote_char : ascii := "039".

Fixpoint replace_quotes (value : string) : string :=
  match value with
  | EmptyString => ""
  | String c t => if bool_decide (c = quote_char) then "'\''" +:+ replace_quotes t else String c (replace_quotes t)
  end.

Definition uciQuote (value : string) : string := "'" +:+ replace_quotes value +:+ "'".

Definition formatRange (value : Uint32Range) : string :=
  if Uint32Range.Min value =? Uint32Range.Max value then Itoa (Uint32Range.Min value)
  else Itoa (Uint32Range.Min value) +:+ "-" +:+ Itoa (Uint32Range.Max value).

Definition FormatBool (b : bool) : string := if b then "true" else "false".

Definition hasIPv6Address (addresses : list Prefix) : bool := existsb (fun p => Is6 (Prefix.addr p)) addresses.

(** ** Commands *)

(** What a line of the batch asks for; a value is quoted. *)
Inductive Command : Type :=
| DeleteSection (section : string)
| NewSection (section kind : string)
| SetOption (section key value : string)
| AddList (section key value : string).

Definition render (c : Command) : string :=
  match c with
  | DeleteSection section => "delete network." +:+ section
  | NewSection section kind => "set network." +:+ section +:+ "=" +:+ kind
  | SetOption section key value => "set network." +:+ section +:+ "." +:+ key +:+ "=" +:+ uciQuote value
  | AddList section key value => "add_list network." +:+ section +:+ "." +:+ key +:+ "=" +:+ uciQuote value
  end.

Definition modern (version : string) : bool := bool_decide (version = Version20) || bool_decide (version = Version31).

Definition interface_commands (name version : string) (i : Interface) : list Command :=
  let set := SetOption name in
  let o := Interface.Obfuscation i in
  let packetJunkCount := if modern version then 4%nat else 2%nat in
  [set "proto" "amneziawg"; set "private_key" (EncodeToString (PrivateKey.value (Interface.PrivateKey i)));
   set "nohostroute" "1"]
  ++ (if 0 <? Interface.MTU i then [set "mtu" (Itoa (Interface.MTU i))] else [])
  ++ ((fun a => AddList name "addresses" (Prefix_String a)) <$> Interface.Addresses i)
  ++ [set "awg_jc" (Itoa (Obfuscation.JunkPacketCount o)); set "awg_jmin" (Itoa (Obfuscation.JunkPacketMinSize o));
      set "awg_jmax" (Itoa (Obfuscation.JunkPacketMaxSize o))]
  ++ imap (fun i value => set (numbered_key "awg_s" i) (Itoa value)) (take packetJunkCount (Obfuscation.PacketJunkSizes o))
  ++ imap (fun i value => set (numbered_key "awg_h" i) (formatRange value)) (Obfuscation.MagicHeaders o)
  ++ (if modern version
      then concat (imap (fun i value => if bool_decide (value = "") then [] else [set (numbered_key "awg_i" i) value])
                     (Obfuscation.SpecialJunk o))
      else []).

Definition v31_commands (name : string) (v : V31Parameters) : list Command :=
  let set := SetOption name in
  [set "awg_force_userspace" "1"]
  ++ (if PrivateKey.set (V31Parameters.HeaderProtectionKey v)
      then [set "awg_header_protection_key" (EncodeToString (PrivateKey.value (V31Parameters.HeaderProtectionKey v)))] else [])
  ++ [set "awg_content_padding_addition" (formatRange (V31Parameters.ContentPaddingAddition v));
      set "awg_rekey_after_time" (formatRange (V31Parameters.RekeyAfterTime v));
      set "awg_rekey_timeout" (formatRange (V31Parameters.RekeyTimeout v));
      set "awg_reject_after_time" (formatRange (V31Parameters.RejectAfterTime v));
      set "awg_keepalive_timeout" (formatRange (V31Parameters.KeepaliveTimeout v));
      set "awg_max_handshake_attempts" (formatRange (V31Parameters.MaxHandshakeAttempts v));
      set "awg_random_trailers" (FormatBool (V31Parameters.RandomTrailers v));
      set "awg_disable_cookies" (FormatBool (V31Parameters.DisableCookies v))].

Definition peer_commands (section host port : string) (addresses : list Prefix) (peer : Peer) : list Command :=
  let set := SetOption section in
  [set "public_key" (EncodeToString (Peer.PublicKey peer))]
  ++ (if PresharedKey.set (Peer.PresharedKey peer)
      then [set "preshared_key" (EncodeToString (PresharedKey.value (Peer.PresharedKey peer)))] else [])
  ++ [set "endpoint_host" host; set "endpoint_port" port; set "route_allowed_ips" "0";
      AddList section "allowed_ips" "0.0.0.0/0"]
  ++ (if hasIPv6Address addresses then [AddList section "allowed_ips" "::/0"] else [])
  ++ (if 0 <? Uint32Range.Max (Peer.PersistentKeepalive peer)
      then [set "persistent_keepalive" (formatRange (Peer.PersistentKeepalive peer))] else []).

Definition batch_commands (name : string) (p : Profile) : result string (list Command) :=
  let version := Profile.Version p in
  let i := Profile.Interface p in
  if negb (known_version version) || bool_decide (Interface.Addresses i = [])
  then Err "invalid AmneziaWG runtime profile"
  else
    match SplitHostPort (Peer.Endpoint (Profile.Peer p)) with
    | Err e => Err ("invalid AmneziaWG endpoint: " +:+ e)
    | Ok (host, port) =>
      let peerSection := "amneziawg_" +:+ name in
      Ok ([DeleteSection name; DeleteSection peerSection; NewSection name "interface"]
          ++ interface_commands name version i
          ++ (if bool_decide (version = Version31) then v31_commands name (Interface.V31 i) else [])
          ++ [NewSection peerSection peerSection]
          ++ peer_commands peerSection host port (Interface.Addresses i) (Profile.Peer p))
    end.


Definition uciBatch (configured : string) (p : Profile) : result string string :=
  let* commands := batch_commands (interfaceName configured) p in
  Ok (Join (render <$> commands) newline +:+ newline).

(** ** Identity *)

(** What [StableID] hashes. *)
Module StablePayload.
Record StablePayload : Type := mk {
  Version : string; PrivateKey : list Z; Addresses : list Prefix; MTU : Z; Obfuscation : Obfuscation;
  PublicKey : list Z; Endpoint : string; Keepalive : Uint32Range; PresharedKey : list Z; PresharedKeyIsSet : bool
}.
End StablePayload.
Abbreviation StablePayload := StablePayload.StablePayload.

Definition stable_payload (p : Profile) : StablePayload :=
  let i := Profile.Interface p in
  let peer := Profile.Peer p in
  StablePayload.mk (Profile.Version p) (PrivateKey.value (Interface.PrivateKey i)) (Interface.Addresses i)
    (Interface.MTU i) (Interface.Obfuscation i) (Peer.PublicKey peer) (Peer.Endpoint peer)
    (Peer.PersistentKeepalive peer) (PresharedKey.value (Peer.PresharedKey peer)) (PresharedKey.set (Peer.PresharedKey peer)).

Definition StableID (digest : StablePayload -> string) (p : Profile) : string := "awg-" +:+ digest (stable_payload p).

(** ** Redaction *)

Definition redacted : string := "[redacted]".

Definition abbreviatePublicKey (value : string) : string :=
  if (String.length value <=? 12)%nat then value
  else Join [String.substring 0 8 value; String.substring (String.length value - 4) 4 value] "...".

Module RedactedStatus.
Record RedactedStatus : Type := mk {
  Version : string; Addresses : list string; MTU : Z; Endpoint : string; PeerPublicKey : string;
  PrivateKey : string; PresharedKey : string; IgnoredParameters : list string
}.
End RedactedStatus.
Abbreviation RedactedStatus := RedactedStatus.RedactedStatus.

Definition Status (p : Profile) : RedactedStatus :=
  let i := Profile.Interface p in
  let peer := Profile.Peer p in
  RedactedStatus.mk (Profile.Version p) (Prefix_String <$> Interface.Addresses i) (Interface.MTU i) (Peer.Endpoint peer)
    (abbreviatePublicKey (EncodeToString (Peer.PublicKey peer))) redacted
    (if PresharedKey.set (Peer.PresharedKey peer) then redacted else "") (sort_strings (Profile.IgnoredParameters p)).

(** ** Package lists *)

(** The field of a package record; names are compared in lower case, and ASCII ones are meant. *)
Definition packageField (control name : string) : string :=
  let prefix := ToLower name +:+ ":" in
  match list_find (fun line => HasPrefix (ToLower (TrimSpace line)) prefix = true) (split_byte control "010") with
  | Some (_, line) =>
    let line := TrimSpace line in
    TrimSpace (String.substring (String.length prefix) (String.length line - String.length prefix) line)
  | None => ""
  end.
