(* ===== verification/AmneziaFacts.v ===== *)
(** * AmneziaWG profiles: theorems

    What an accepted text may contain, what the values of its profile are, and
    that the commands for the router read back as they were meant. *)
From S2P Require Import Prelude GoRunes GoStrings GoNum NetIP Domain GoConv GoConvFacts.
From S2P Require Import AmneziaProfile AmneziaRuntime.

Local Open Scope Z_scope.
Local Open Scope list_scope.

Lemma bind_inv {E A B} (r : result E A) (k : A -> result E B) b :
  result_bind r k = Ok b -> exists a, r = Ok a /\ k a = Ok b.
Proof. apply result_bind_ok. Qed.

Lemma Ok_inj {E A} (a b : A) : @Ok E A a = Ok b -> a = b.
Proof. by intros [= ->]. Qed.

(** ** The text *)

(** The key of a line that is an assignment: no comment and no section. *)
Definition assigned_key (text : string) : option string :=
  let line := TrimSpace text in
  if bool_decide (line = "") || HasPrefix line "#" || HasPrefix line ";" || (HasPrefix line "[" && HasSuffix line "]")
  then None
  else match cut_byte line "=" with Some (key, _) => Some (ToLower (TrimSpace key)) | None => None end.

Definition known_keys : list string :=
  interface_keys ++ peer_keys ++ ["dns"; "table"; "allowedips"; "version"; "protocolversion"].

Lemma hooks_unknown : Forall (fun key => key ∉ known_keys) unsafeDirectives.
Proof. apply (bool_decide_unpack _). vm_compute. exact I. Qed.

Lemma accepted_key raw section key display value n raw' :
  acceptParameter raw section key display value n = Ok raw' -> key ∈ known_keys.
Proof.
  unfold acceptParameter, known_keys. rewrite !elem_of_app.
  repeat case_bool_decide; try done; intros _; [by left|right; right|right; by left|right; right]; set_solver.
Qed.

Lemma scanned_parameter s n key value raw :
  scan_parameter s n key value = Ok raw -> ToLower (TrimSpace key) ∈ known_keys.
Proof.
  unfold scan_parameter. cbv zeta. destruct (bool_decide (_ ∈ unsafeDirectives)); [done|].
  destruct (bool_decide (Scan.currentSection s = "interface") && _) eqn:E1.
  - intros _. apply andb_true_iff in E1 as [_ Hk%bool_decide_eq_true]. unfold known_keys. rewrite !elem_of_app. right. right. set_solver.
  - destruct (seen_key _ _ _); [done|]. intros (raw1 & Ha & _)%result_bind_ok. by eapply accepted_key.
Qed.

Lemma scanned_line s numbered s' key :
  scan_line s numbered = Ok s' -> assigned_key numbered.2 = Some key -> key ∈ known_keys.
Proof.
  destruct numbered as [n text]. unfold scan_line, assigned_key. cbn [snd]. cbv zeta.
  destruct (bool_decide (TrimSpace text = "") || HasPrefix (TrimSpace text) "#" || HasPrefix (TrimSpace text) ";"); [done|].
  cbn [orb]. destruct (HasPrefix _ _ && HasSuffix _ _); [done|]. destruct (bool_decide _); [done|].
  destruct (cut_byte _ _) as [[k v]|]; [|done]. destruct (bool_decide _); [done|].
  intros (raw & Hr & _)%result_bind_ok [= <-]. by eapply scanned_parameter.
Qed.

Lemma folded_step {E A S} (f : S -> A -> result E S) acc l s x :
  fold_result f acc l = Ok s -> x ∈ l -> exists a a', f a x = Ok a'.
Proof.
  revert acc. induction l as [|y l IH]; intros acc; [by intros _ []%elem_of_nil|]. cbn.
  intros (a' & Hy & Hl)%result_bind_ok [->|Hx]%elem_of_cons; [by exists acc, a'|by eapply IH].
Qed.

Lemma numbered_elem lines line : line ∈ lines -> exists n, (n, line) ∈ numbered lines.
Proof.
  intros [i Hi]%list_elem_of_lookup_1. exists (S i). apply list_elem_of_lookup. exists i. unfold numbered.
  by rewrite list_lookup_imap, Hi.
Qed.

(** ** Reading a batch *)

(** The shell words of [uci batch]: text between quotes is literal, and a
    backslash outside quotes makes the next character literal. *)
Fixpoint unquote (inside : bool) (s : string) : option string :=
  match s with
  | EmptyString => if inside then None else Some ""
  | String c t =>
    if bool_decide (c = quote_char) then unquote (negb inside) t
    else if inside then String c <$> unquote true t
    else if bool_decide (c = "\"%char) then match t with String d t' => String d <$> unquote false t' | EmptyString => None end
    else None
  end.

Lemma unquote_quoted value rest :
  unquote true (replace_quotes value +:+ String quote_char rest) = (fun r => value +:+ r) <$> unquote false rest.
Proof.
  induction value as [|c t IH].
  - change (unquote true (String quote_char rest) = (fun r => r) <$> unquote false rest). cbn. by destruct (unquote false rest).
  - cbn [replace_quotes]. case_bool_decide as Hc.
    + subst c. change (String quote_char <$> unquote true (replace_quotes t +:+ String quote_char rest)
        = (fun r => String quote_char (t +:+ r)) <$> unquote false rest). rewrite IH. by destruct (unquote false rest).
    + change (unquote true (String c (replace_quotes t +:+ String quote_char rest)) = (fun r => String c (t +:+ r)) <$> unquote false rest).
      cbn [unquote]. rewrite (bool_decide_eq_false_2 _ Hc), IH. by destruct (unquote false rest).
Qed.

Lemma unquote_uciQuote value : unquote false (uciQuote value) = Some value.
Proof.
  change (unquote true (replace_quotes value +:+ String quote_char "") = Some value). rewrite unquote_quoted. cbn. by rewrite append_nil_r.
Qed.

Definition read_command (line : string) : option Command :=
  '(verb, rest) ← cut_byte line " ";
  '(config, target) ← cut_byte rest ".";
  if negb (bool_decide (config = "network")) then None
  else if bool_decide (verb = "delete") then Some (DeleteSection target)
  else
    '(path, value) ← cut_byte target "=";
    match cut_byte path "." with
    | None => if bool_decide (verb = "set") then Some (NewSection path value) else None
    | Some (section, key) =>
      v ← unquote false value;
      if bool_decide (verb = "set") then Some (SetOption section key v)
      else if bool_decide (verb = "add_list") then Some (AddList section key v) else None
    end.

(** A batch is a sequence of lines, each ended by a line feed. *)
Definition read_batch (text : string) : option (list Command) :=
  let lines := split_byte text line_feed in
  if bool_decide (last lines = Some "") then mapM read_command (take (length lines - 1) lines) else None.

Definition no_byte (c : ascii) (s : string) : Prop := has_byte s c = false.

Definition command_ok (c : Command) : Prop :=
  match c with
  | DeleteSection section => no_byte line_feed section
  | NewSection section kind => no_byte "." section /\ no_byte "=" section /\ no_byte line_feed section /\ no_byte line_feed kind
  | SetOption section key value | AddList section key value =>
    no_byte "." section /\ no_byte "=" section /\ no_byte line_feed section /\
    no_byte "=" key /\ no_byte line_feed key /\ no_byte line_feed value
  end.

Lemma no_byte_app c a b : no_byte c (a +:+ b) <-> no_byte c a /\ no_byte c b.
Proof. unfold no_byte. by rewrite has_byte_app, orb_false_iff. Qed.

Lemma cut_at_app a c b rest : has_byte a c = false -> rest = a +:+ String c b -> cut_byte rest c = Some (a, b).
Proof. intros Ha ->. by apply cut_byte_app. Qed.

Lemma replace_no_lf value : no_byte line_feed value -> no_byte line_feed (replace_quotes value).
Proof.
  unfold no_byte. induction value as [|c t IH]; [done|]. cbn [has_byte replace_quotes]. intros [Hc Ht]%orb_false_iff.
  destruct (bool_decide (c = quote_char)); [exact (IH Ht)|]. cbn [has_byte]. by rewrite Hc, IH.
Qed.

Lemma render_no_lf c : command_ok c -> no_byte line_feed (render c).
Proof.
  assert (Q : forall v, no_byte line_feed v -> no_byte line_feed (uciQuote v)).
  { intros v Hv. unfold uciQuote. rewrite !no_byte_app. split; [done|]. split; [by apply replace_no_lf|done]. }
  destruct c; cbn [command_ok render]; intros Hc; rewrite !no_byte_app; repeat split; try done; try tauto; apply Q; tauto.
Qed.

Lemma read_path verb section key value rest line :
  no_byte " " verb -> no_byte "." section -> no_byte "=" section -> no_byte "=" key ->
  line = verb +:+ " network." +:+ section +:+ "." +:+ key +:+ "=" +:+ rest -> unquote false rest = Some value ->
  read_command line =
    if bool_decide (verb = "delete") then Some (DeleteSection (section +:+ "." +:+ key +:+ "=" +:+ rest))
    else if bool_decide (verb = "set") then Some (SetOption section key value)
    else if bool_decide (verb = "add_list") then Some (AddList section key value) else None.
Proof.
  intros Hv Hs1 Hs2 Hk -> Hu. unfold read_command.
  rewrite (cut_at_app verb " " ("network." +:+ section +:+ "." +:+ key +:+ "=" +:+ rest)) by done. cbn [mbind option_bind].
  rewrite (cut_at_app "network" "." (section +:+ "." +:+ key +:+ "=" +:+ rest)) by done. cbn [mbind option_bind].
  rewrite (bool_decide_eq_true_2 ("network" = "network")) by done. cbn [negb]. case_bool_decide; [done|].
  rewrite (cut_at_app (section +:+ "." +:+ key) "=" rest); cbn [mbind option_bind].
  - rewrite (cut_at_app section "." key) by done. by rewrite Hu.
  - apply no_byte_app. split; [done|]. apply (no_byte_app _ "." key). by split.
  - rewrite !append_assoc. done.
Qed.

Lemma read_render c : command_ok c -> read_command (render c) = Some c.
Proof.
  destruct c as [section|section kind|section key value|section key value]; cbn [command_ok render]; intros Hc.
  - reflexivity.
  - unfold read_command. rewrite (cut_at_app "set" " " ("network." +:+ section +:+ "=" +:+ kind)) by done. cbn [mbind option_bind].
    rewrite (cut_at_app "network" "." (section +:+ "=" +:+ kind)) by done. cbn [mbind option_bind].
    rewrite (bool_decide_eq_true_2 ("network" = "network")) by done. cbn [negb]. rewrite (bool_decide_eq_false_2 ("set" = "delete")) by done.
    rewrite (cut_at_app section "=" kind); [|tauto|done]. cbn [mbind option_bind].
    rewrite (proj2 (cut_byte_None section ".")); [|tauto]. done.
  - erewrite (read_path "set" section key value); [|done|tauto..| |apply unquote_uciQuote]; [|reflexivity]. done.
  - erewrite (read_path "add_list" section key value); [|done|tauto..| |apply unquote_uciQuote]; [|reflexivity]. done.
Qed.

Lemma split_lines l : l <> [] -> Forall (no_byte line_feed) l ->
  split_byte (Join l newline +:+ newline) line_feed = l ++ [""].
Proof.
  intros Hne Hl. induction Hl as [|x l Hx Hl IH]; [done|]. rewrite split_byte_cut. destruct l as [|y l].
  - rewrite (cut_at_app x line_feed "") by done. done.
  - rewrite (cut_at_app x line_feed (Join (y :: l) newline +:+ newline)); [by rewrite IH|done|].
    change (Join (x :: y :: l) newline) with (x +:+ newline +:+ Join (y :: l) newline). by rewrite !append_assoc.
Qed.

Lemma batch_reads commands : commands <> [] -> Forall command_ok commands ->
  read_batch (Join (render <$> commands) newline +:+ newline) = Some commands.
Proof.
  intros Hne Hc. unfold read_batch. cbv zeta. rewrite split_lines.
  - rewrite last_snoc, bool_decide_eq_true_2 by done. rewrite length_app. cbn [length]. rewrite Nat.add_sub, take_app_length.
    clear Hne. induction Hc as [|c l Hc _ IH]; [done|]. cbn. rewrite read_render by done. cbn. by rewrite IH.
  - by destruct commands.
  - apply Forall_fmap. eapply Forall_impl; [exact Hc|]. apply render_no_lf.
Qed.

(** ** What a value can be *)

Definition key_ok (k : list Z) : Prop := length k = 32%nat /\ Forall is_byte k /\ allZero k = false.

Definition range_ok (r : Uint32Range) : Prop := 0 <= Uint32Range.Min r <= Uint32Range.Max r /\ Uint32Range.Max r < 2 ^ 32.

Definition prefix_ok (p : Prefix) : Prop :=
  0 <= Prefix.bits p <= BitLen (Prefix.addr p) /\ addr_ok (Prefix.addr p) /\ no_zone (Prefix.addr p) = true.

(** Endpoints are in a normal form that splits into a host and a port. *)
Definition endpoint_ok (e : string) : Prop :=
  Forall line_byte (to_bytes e) /\ TrimSpace e = e /\
  exists host port n, SplitHostPort e = Ok (host, port) /\ validEndpointHost host = true /\
    ParseUint port 10 16 = Some n /\ 0 < n < 65536.

Definition signature_ok (s : string) : Prop := s = "" \/ bad_signature s = false.

Record obfuscation_ok (version : string) (o : Obfuscation) : Prop := {
  count_ok : 0 <= Obfuscation.JunkPacketCount o < 65536;
  junk_ok : 0 <= Obfuscation.JunkPacketMinSize o <= Obfuscation.JunkPacketMaxSize o /\ Obfuscation.JunkPacketMaxSize o < 65536;
  sizes_ok : length (Obfuscation.PacketJunkSizes o) = 4%nat /\ Forall (fun v => 0 <= v < 65536) (Obfuscation.PacketJunkSizes o);
  headers_ok : length (Obfuscation.MagicHeaders o) = 4%nat /\ Forall range_ok (Obfuscation.MagicHeaders o);
  signatures_ok : length (Obfuscation.SpecialJunk o) = 5%nat /\ Forall signature_ok (Obfuscation.SpecialJunk o);
  legacy_ok : version = VersionLegacy -> drop 2 (Obfuscation.PacketJunkSizes o) = [0; 0] /\ Obfuscation.SpecialJunk o = replicate 5 ""
}.

Record v31_ok (version : string) (v : V31Parameters) : Prop := {
  protection_ok : PrivateKey.set (V31Parameters.HeaderProtectionKey v) = true -> key_ok (PrivateKey.value (V31Parameters.HeaderProtectionKey v));
  ranges_ok : Forall range_ok [V31Parameters.ContentPaddingAddition v; V31Parameters.RekeyAfterTime v; V31Parameters.RekeyTimeout v;
    V31Parameters.RejectAfterTime v; V31Parameters.KeepaliveTimeout v; V31Parameters.MaxHandshakeAttempts v];
  only_v31 : version <> Version31 -> v = V31Parameters.zero
}.

Record profile_ok (p : Profile) : Prop := {
  version_ok : known_version (Profile.Version p) = true;
  private_ok : PrivateKey.set (Interface.PrivateKey (Profile.Interface p)) = true /\ key_ok (PrivateKey.value (Interface.PrivateKey (Profile.Interface p)));
  addresses_ok : Interface.Addresses (Profile.Interface p) <> [] /\ NoDup (Interface.Addresses (Profile.Interface p)) /\
    Forall prefix_ok (Interface.Addresses (Profile.Interface p));
  mtu_ok : Interface.MTU (Profile.Interface p) = 0 \/ 576 <= Interface.MTU (Profile.Interface p) <= 9000;
  obfuscated : obfuscation_ok (Profile.Version p) (Interface.Obfuscation (Profile.Interface p));
  extended : v31_ok (Profile.Version p) (Interface.V31 (Profile.Interface p));
  public_ok : key_ok (Peer.PublicKey (Profile.Peer p));
  endpoint_good : endpoint_ok (Peer.Endpoint (Profile.Peer p));
  keepalive_ok : range_ok (Peer.PersistentKeepalive (Profile.Peer p)) /\ Uint32Range.Max (Peer.PersistentKeepalive (Profile.Peer p)) <= 65535;
  preshared_ok : PresharedKey.set (Peer.PresharedKey (Profile.Peer p)) = true -> key_ok (PresharedKey.value (Peer.PresharedKey (Profile.Peer p)));
  ignored_ok : NoDup (Profile.IgnoredParameters p) /\ StronglySorted String.le (Profile.IgnoredParameters p)
}.

(** *** Keys *)

Lemma sextet_range c v : sextet_of c = Some v -> 0 <= v < 64.
Proof. unfold sextet_of. repeat case_match; intros [= <-]; repeat match goal with H : _ && _ = true |- _ => apply andb_true_iff in H as [?%Z.leb_le ?%Z.leb_le] end; lia. Qed.

Lemma decode64_bytes n : forall l k, (length l <= n)%nat -> decode64 l = Some k -> Forall is_byte k.
Proof.
  induction n as [|n IH]; intros l k Hn; [destruct l; [|cbn in Hn; lia]; intros [= <-]; constructor|].
  destruct l as [|a [|b [|c [|d t]]]]; try done; [intros [= <-]; constructor|]. cbn [decode64].
  destruct (sextet_of a) as [va|] eqn:Ea; [|done]. destruct (sextet_of b) as [vb|] eqn:Eb; [|done].
  apply sextet_range in Ea, Eb. destruct (d =? 61).
  - destruct (negb _); [done|]. destruct (c =? 61).
    + destruct (_ =? 0); [|done]. intros [= <-]. repeat constructor; unfold is_byte; Z.to_euclidean_division_equations; lia.
    + destruct (sextet_of c) as [vc|] eqn:Ec; [|done]. apply sextet_range in Ec. destruct (_ =? 0); [|done]. intros [= <-].
      repeat constructor; unfold is_byte; Z.to_euclidean_division_equations; lia.
  - destruct (sextet_of c) as [vc|] eqn:Ec; [|done]. destruct (sextet_of d) as [vd|] eqn:Ed; [|done].
    destruct (decode64 t) as [rest|] eqn:Et; [|done]. apply sextet_range in Ec, Ed. intros [= <-].
    apply IH in Et; [|cbn in Hn; lia]. repeat (constructor; [unfold is_byte; Z.to_euclidean_division_equations; lia|]). done.
Qed.

Lemma read_key raw field k : non_zero_key raw field = Ok k -> key_ok k.
Proof.
  unfold non_zero_key, decodeKey, DecodeString. destruct (decode64 _) as [d|] eqn:E; [|done].
  case_bool_decide as Hl; [|done]. destruct (allZero d) eqn:Ez; [done|]. intros [= <-].
  split_and!; [done|by eapply decode64_bytes|done].
Qed.

(** *** Numbers *)

Lemma read_uint16 values key display n : parseUint16 values key display = Ok n -> 0 <= n < 65536.
Proof.
  unfold parseUint16. intros (raw & _ & H)%result_bind_ok. destruct (ParseUint raw 10 16) as [m|] eqn:E; [|done].
  injection H as <-. by apply ParseUint_range in E.
Qed.

Lemma read_range raw field r : parseUint32Range raw field = Ok r -> range_ok r.
Proof.
  unfold parseUint32Range. destruct (split_byte _ _) as [|a [|b [|]]]; try done.
  - destruct (ParseUint (TrimSpace a) 0 32) as [n|] eqn:E; [|done]. apply ParseUint_range in E; [|done]. intros [= <-].
    unfold range_ok. cbn -[Z.pow]. lia.
  - destruct (ParseUint (TrimSpace a) 0 32) as [m|] eqn:E; [|done]. apply ParseUint_range in E; [|done].
    destruct (ParseUint (TrimSpace b) 0 32) as [n|] eqn:E'; [|done]. apply ParseUint_range in E'; [|done].
    destruct (Z.ltb_spec n m); [done|]. intros [= <-]. unfold range_ok. cbn -[Z.pow]. lia.
Qed.

Lemma zero_range_ok : range_ok Uint32Range.zero.
Proof. unfold range_ok. cbn. lia. Qed.

Lemma collected {A} (P : A -> Prop) (f : nat -> result ProfileError A) n : forall i l,
  (forall i a, f i = Ok a -> P a) -> collect f i n = Ok l -> length l = n /\ Forall P l.
Proof.
  induction n as [|n IH]; intros i l Hf; cbn [collect]; [by intros [= <-]|].
  intros (a & Ha & (rest & Hr & [= <-])%result_bind_ok)%result_bind_ok. destruct (IH _ _ Hf Hr) as [Hl Hp].
  split; [cbn; by rewrite Hl|]. constructor; [by eapply Hf|done].
Qed.

Lemma read_signature values i s : parse_signature values i = Ok s -> signature_ok s.
Proof.
  unfold parse_signature. case_bool_decide; [intros [= <-]; by left|]. destruct (bad_signature _) eqn:E; [done|].
  intros [= <-]. by right.
Qed.

Lemma read_header values i r : parse_header values i = Ok r -> range_ok r.
Proof. unfold parse_header. intros (raw & _ & H)%result_bind_ok. by eapply read_range. Qed.

Lemma legacy_signatures values : (forall i, (i < 5)%nat -> trimmed_value values (numbered_key "i" i) = "") ->
  forall n i l, (i + n <= 5)%nat -> collect (parse_signature values) i n = Ok l -> l = replicate n "".
Proof.
  intros Hv. induction n as [|n IH]; intros i l Hi; cbn [collect]; [by intros [= <-]|].
  intros (a & Ha & (rest & Hr & [= <-])%result_bind_ok)%result_bind_ok. unfold parse_signature in Ha.
  rewrite Hv, bool_decide_eq_true_2 in Ha by (done || lia). injection Ha as <-. cbn. f_equal. eapply IH; [|exact Hr]. lia.
Qed.

Lemma read_obfuscation values version o :
  (version = VersionLegacy -> forall i, (i < 5)%nat -> trimmed_value values (numbered_key "i" i) = "") ->
  parseObfuscation values version = Ok o -> obfuscation_ok version o.
Proof.
  intros Hleg. unfold parseObfuscation.
  intros (jc & Hjc%read_uint16 & (jmin & Hjmin%read_uint16 & (jmax & Hjmax%read_uint16 & H)%result_bind_ok)%result_bind_ok)%result_bind_ok.
  destruct (Z.ltb_spec jmax jmin); [done|].
  apply result_bind_ok in H as (sizes & Hsizes & (headers & Hheaders & (signatures & Hsig & [= <-])%result_bind_ok)%result_bind_ok).
  pose proof (collected (fun v => 0 <= v < 65536) _ _ _ _ (fun i a => read_uint16 _ _ _ a) Hsizes) as [Hl Hs].
  apply (collected range_ok) in Hheaders as [Hhl Hhs]; [|by intros i a; apply read_header].
  pose proof (collected signature_ok _ _ _ _ (fun i a => read_signature values i a) Hsig) as [Hgl Hgs].
  split; cbn [Obfuscation.JunkPacketCount Obfuscation.JunkPacketMinSize Obfuscation.JunkPacketMaxSize Obfuscation.PacketJunkSizes
    Obfuscation.MagicHeaders Obfuscation.SpecialJunk]; try done; try lia.
  - rewrite length_app, Hl, length_replicate. split; [by destruct (_ || _)|]. apply Forall_app. split; [done|].
    apply Forall_replicate. lia.
  - intros ->. change (bool_decide (VersionLegacy = Version20) || bool_decide (VersionLegacy = Version31)) with false in *.
    split; [|by eapply (legacy_signatures values (Hleg eq_refl) 5 0)]. rewrite <- Hl at 1. apply drop_app_length.
Qed.

Lemma read_range_parameter values key label r : range_parameter values key label = Ok r -> range_ok r.
Proof.
  unfold range_parameter. case_bool_decide; [intros [= <-]; apply zero_range_ok|]. apply read_range.
Qed.

Lemma read_v31 values version v : parseV31 values version = Ok v -> v31_ok version v.
Proof.
  unfold parseV31. destruct (hasV31Parameter values); cbn [negb].
  - case_bool_decide as Hv; [|done]. cbn [negb]. intros H. split; [| |done].
    + intros Hset. apply result_bind_ok in H as (k & Hk & H). repeat apply result_bind_ok in H as (? & _ & H). injection H as <-.
      cbn in *. case_bool_decide; [by injection Hk as <-|]. apply result_bind_ok in Hk as (d & Hd%read_key & [= <-]). done.
    + apply result_bind_ok in H as (k & _ & H).
      do 6 apply result_bind_ok in H as (? & ?%read_range_parameter & H). do 2 apply result_bind_ok in H as (? & _ & H).
      injection H as <-. by repeat (apply Forall_cons; split; [done|]).
  - intros [= <-]. split; [done| |done]. repeat (apply Forall_cons; split; [apply zero_range_ok|]). constructor.
Qed.

(** *** Addresses *)

Lemma withoutZone_ok a s : ParseAddr s = Some a -> addr_ok (withoutZone a) /\ no_zone (withoutZone a) = true /\ BitLen (withoutZone a) = BitLen a.
Proof.
  intros Ha%ParseAddr_shape. destruct a as [b|b zone]; [done|]. destruct Ha as (Hb & Hl & _). by split_and!.
Qed.

Lemma prefix_from_ok a s n : ParseAddr s = Some a -> 0 <= n <= BitLen a -> prefix_ok (PrefixFrom a n).
Proof.
  intros Ha Hn. destruct (withoutZone_ok a s Ha) as (H1 & H2 & H3). unfold prefix_ok, PrefixFrom. cbn [Prefix.addr Prefix.bits].
  rewrite (proj2 (Z.leb_le 0 n)), (proj2 (Z.leb_le n (BitLen a))), H3 by lia. done.
Qed.

Lemma parsed_prefix_ok s p : ParsePrefix s = Some p -> prefix_ok p.
Proof.
  unfold ParsePrefix. destruct (cut_last _ _) as [[before bits]|]; [|done].
  destruct (ParseAddr _) as [a|] eqn:Ea; [|done]. cbv zeta. destruct (_ || _); [done|]. destruct (Atoi _) as [n|]; [|done].
  destruct ((0 <=? n) && (n <=? BitLen a)) eqn:En; [|done]. intros [= <-].
  apply andb_true_iff in En as [?%Z.leb_le ?%Z.leb_le]. by eapply prefix_from_ok.
Qed.

Lemma read_prefixes raw field l : parsePrefixes raw field = Ok l -> l <> [] /\ NoDup l /\ Forall prefix_ok l.
Proof.
  unfold parsePrefixes. intros (l' & Hf & H)%result_bind_ok. case_bool_decide as Hne; [done|]. injection H as <-. split; [done|].
  apply (fold_result_inv _ (fun l => NoDup l /\ Forall prefix_ok l)) in Hf; [done|by split; [apply NoDup_nil|constructor]|].
  intros acc part acc' _ [Hn Ha]. unfold parse_prefix. intros (p & Hp & Hd)%result_bind_ok.
  case_bool_decide as Hin; [done|]. injection Hd as <-. split.
  - apply NoDup_app. split_and!; [done| |apply NoDup_singleton]. intros x Hx ->%list_elem_of_singleton. done.
  - apply Forall_app. split; [done|]. constructor; [|constructor].
    destruct (ParsePrefix _) as [q|] eqn:Eq; [injection Hp as <-; by eapply parsed_prefix_ok|].
    destruct (ParseAddr _) as [a|] eqn:Ea; [|done]. injection Hp as <-. eapply prefix_from_ok; [exact Ea|].
    destruct a; cbn; lia.
Qed.

(** *** Endpoints *)

Lemma cut_last_Some c l a b : cut_last c l = Some (a, b) -> l = a ++ c :: b.
Proof.
  unfold cut_last. destruct (cut_at c (rev l)) as [[x y]|] eqn:E; [|done]. intros [= <- <-].
  apply cut_at_Some in E as [E _]. apply (f_equal (@rev Z)) in E. rewrite rev_involutive, rev_app_distr in E. cbn in E.
  by rewrite E, <- app_assoc.
Qed.

Lemma without_brackets_ok s h p opening closing host port :
  without_brackets s h p opening closing = Ok (host, port) -> host = of_bytes h /\ port = of_bytes p.
Proof. unfold without_brackets. by repeat case_bool_decide; intros [= <- <-]. Qed.

Lemma split_host_line s host port : Forall line_byte (to_bytes s) -> SplitHostPort s = Ok (host, port) ->
  Forall line_byte (to_bytes host) /\ Forall line_byte (to_bytes port).
Proof.
  intros Hs. unfold SplitHostPort. cbv zeta. destruct (cut_last 58 (to_bytes s)) as [[before p]|] eqn:Ec; [|done].
  pose proof Ec as Hc%cut_last_Some. pose proof Hs as Hs'. rewrite Hc in Hs'. apply Forall_app in Hs' as [Hb [_ Hp]%Forall_cons].
  case_bool_decide.
  - destruct (cut_at 93 (to_bytes s)) as [[inside after]|] eqn:E93; [|done].
    apply cut_at_Some in E93 as [E93 _]. rewrite E93 in Hs. apply Forall_app in Hs as [Hi _].
    case_bool_decide; [done|]. case_bool_decide; [|by case_bool_decide].
    intros [-> ->]%without_brackets_ok. split; apply line_bytes_string; [|done]. destruct inside; [done|]. by apply Forall_cons in Hi as [_ ?].
  - case_bool_decide; [done|]. intros [-> ->]%without_brackets_ok. by split; apply line_bytes_string.
Qed.

Lemma pieces_bytes s c b : b ∈ to_bytes s -> b = byte_of c \/ exists piece, piece ∈ split_byte s c /\ b ∈ to_bytes piece.
Proof.
  revert b. induction s as [|x s IH]; intros b Hb; [by apply elem_of_nil in Hb|].
  change (b ∈ byte_of x :: to_bytes s) in Hb. cbn [split_byte]. case_bool_decide as Hx.
  - apply elem_of_cons in Hb as [->|Hb]; [left; by subst|]. destruct (IH b Hb) as [?|(p & Hp & Hin)]; [by left|].
    right. exists p. split; [by apply elem_of_cons; right|done].
  - destruct (split_byte s c) as [|a l] eqn:E.
    + exfalso. rewrite split_byte_cut in E. by destruct (cut_byte s c) as [[]|].
    + apply elem_of_cons in Hb as [->|Hb].
      * right. exists (String x a). split; [by apply elem_of_cons; left|]. change (byte_of x ∈ byte_of x :: to_bytes a). by apply elem_of_cons; left.
      * destruct (IH b Hb) as [?|(p & Hp & Hin)]; [by left|]. right. apply elem_of_cons in Hp as [->|Hp].
        -- exists (String x a). split; [by apply elem_of_cons; left|]. change (b ∈ byte_of x :: to_bytes a). by apply elem_of_cons; right.
        -- exists p. split; [by apply elem_of_cons; right|done].
Qed.

Lemma label_visible r : label_rune r = true -> r < 128 /\ visible_byte r = true.
Proof.
  unfold label_rune, visible_byte. intros H. repeat rewrite orb_true_iff in H. rewrite !andb_true_iff, !Z.leb_le, Z.eqb_eq in H.
  split; [lia|]. apply andb_true_iff. rewrite !Z.leb_le. lia.
Qed.

(** A host name is visible ASCII. *)
Lemma host_visible host : forallb valid_label (split_byte host ".") = true -> all_bytes visible_byte host = true.
Proof.
  rewrite forallb_forall, all_bytes_spec, Forall_forall. intros Hl b Hb.
  destruct (pieces_bytes host "." b Hb) as [->|(p & Hp%list_elem_of_In & Hin)]; [done|].
  specialize (Hl p Hp). unfold valid_label in Hl. rewrite !andb_true_iff in Hl. destruct Hl as [_ Hr].
  apply (runes_ascii label_rune p) in Hr; [|by intros r [? _]%label_visible].
  rewrite all_bytes_spec, Forall_forall in Hr. by apply label_visible, Hr.
Qed.

Lemma lower_visible s : all_bytes visible_byte s = true -> all_bytes visible_byte (ToLower s) = true.
Proof.
  rewrite !all_bytes_spec. intros Hs. unfold ToLower. fold (lower_runes s).
  assert (Ha : Forall (fun b => 0 <= b < 128) (to_bytes s)).
  { eapply Forall_impl; [exact Hs|]. intros b [Hb _]%visible_not_space. lia. }
  assert (E : lower_runes s = rune_lower <$> to_bytes s).
  { unfold lower_runes. rewrite decode_ascii by done. by rewrite <- list_fmap_compose. }
  rewrite to_of_bytes by apply encode_bytes, lower_runes_valid. rewrite E. clear E.
  induction Hs as [|b l Hb Hl IH]; [constructor|]. apply Forall_cons in Ha as [Hb1 Ha]. rewrite fmap_cons. unfold encode.
  rewrite bind_cons. apply Forall_app. split; [|by apply IH]. apply visible_not_space in Hb as [Hb _].
  assert (Hlow : 33 <= rune_lower b <= 126).
  { rewrite rune_lower_ascii by lia. destruct ((65 <=? b) && (b <=? 90)) eqn:E; [|lia]. apply andb_true_iff in E as [?%Z.leb_le ?%Z.leb_le]. lia. }
  unfold encode_rune. rewrite (proj2 (Z.leb_le 0 _)), (proj2 (Z.ltb_lt _ 128)) by lia. constructor; [|constructor].
  unfold visible_byte. apply andb_true_iff. rewrite !Z.leb_le. lia.
Qed.

Lemma TrimSpace_sub s b : b ∈ to_bytes (TrimSpace s) -> b ∈ to_bytes s.
Proof.
  unfold TrimSpace. rewrite to_of_bytes by apply trim_bytes, to_bytes_bytes.
  destruct (trim_chunks_infix (decode (to_bytes s))) as (x & y & E). rewrite <- (chunk_bytes_decode (to_bytes s)) at 2. rewrite E at 2.
  rewrite !chunk_bytes_app, !elem_of_app. tauto.
Qed.

Definition line_text (s : string) : Prop := Forall line_byte (to_bytes s).

Lemma line_sub s t : (forall b, b ∈ to_bytes t -> b ∈ to_bytes s) -> line_text s -> line_text t.
Proof. unfold line_text. rewrite !Forall_forall. auto. Qed.

Lemma line_trim s : line_text s -> line_text (TrimSpace s).
Proof. apply line_sub, TrimSpace_sub. Qed.

Lemma line_app a b : line_text (a +:+ b) <-> line_text a /\ line_text b.
Proof. unfold line_text. by rewrite to_bytes_app, Forall_app. Qed.

Lemma line_visible s : all_bytes visible_byte s = true -> line_text s.
Proof.
  rewrite all_bytes_spec. intros Hs. eapply Forall_impl; [exact Hs|]. intros b [Hb _]%visible_not_space. unfold line_byte, is_byte. lia.
Qed.

Lemma digits_end n : 0 <= n -> exists m z, to_bytes (Itoa n) = m ++ [z] /\ visible_byte z = true.
Proof.
  intros Hn. destruct (Itoa_digits n Hn) as (Hd & _ & Hne & _). destruct (exists_last Hne) as (m & z & E). exists m, z. split; [done|].
  rewrite E in Hd. apply Forall_app in Hd as [_ [Hz _]%Forall_cons]. by apply digit_visible.
Qed.

Lemma join_endpoint host n : 0 <= n -> line_text host ->
  has_byte host ":" = true \/ (exists c t, to_bytes host = c :: t /\ visible_byte c = true) ->
  line_text (JoinHostPort host (Itoa n)) /\ TrimSpace (JoinHostPort host (Itoa n)) = JoinHostPort host (Itoa n).
Proof.
  intros Hn Hl Hform. destruct (digits_end n Hn) as (m & z & Ez & Hz). pose proof (Itoa_line n Hn) as Hd. unfold JoinHostPort.
  destruct (has_byte host ":") eqn:E.
  - split.
    + apply line_app. split; [by apply line_visible|]. apply line_app. split; [done|]. apply line_app. by split; [apply line_visible|].
    + apply (TrimSpace_ends _ 91 (to_bytes host ++ [93; 58] ++ m) z); [|done|done].
      rewrite !to_bytes_app, Ez. cbn. by rewrite <- !app_assoc.
  - destruct Hform as [|(c & t & Ec & Hc)]; [done|]. split.
    + apply line_app. split; [done|]. apply line_app. by split; [apply line_visible|].
    + apply (TrimSpace_ends _ c (t ++ [58] ++ m) z); [|done|done]. rewrite !to_bytes_app, Ez, Ec. cbn. by rewrite <- !app_assoc.
Qed.

Lemma valid_host_nonempty host : validEndpointHost host = true -> host <> "".
Proof. unfold validEndpointHost. by intros H ->. Qed.

Lemma parsed_endpoint raw e : line_text raw -> parseEndpoint raw = Ok e -> line_text e /\ TrimSpace e = e.
Proof.
  intros Hraw%line_trim. unfold parseEndpoint. destruct (SplitHostPort _) as [[host portRaw]|] eqn:Es; [|done].
  apply split_host_line in Es as [Hh _]; [|done]. destruct (validEndpointHost host) eqn:Ev; [|done]. cbn [negb]. cbv zeta.
  destruct (ParseUint portRaw 10 16) as [n|] eqn:En; [|done]. apply ParseUint_range in En; [|done].
  destruct (Z.eqb_spec n 0); [done|]. destruct (ParseAddr host) as [a|] eqn:Ea; intros [= <-]; apply join_endpoint; try lia.
  - unfold line_text. rewrite (Addr_String_bytes host a) by done. by eapply addr_text_line.
  - by eapply Addr_String_form.
  - unfold validEndpointHost in Ev. rewrite Ea in Ev. destruct (_ || _) in Ev; [done|]. destruct (_ || _) in Ev; [done|].
    by apply line_visible, lower_visible, host_visible.
  - pose proof (valid_host_nonempty _ Ev) as Hne. unfold validEndpointHost in Ev. rewrite Ea in Ev.
    destruct (_ || _) in Ev; [done|]. destruct (_ || _) in Ev; [done|]. apply host_visible, lower_visible in Ev. right.
    rewrite all_bytes_spec in Ev. destruct (to_bytes (ToLower host)) as [|c t] eqn:El; [exfalso|exists c, t; split; [done|by apply Forall_cons in Ev as [? _]]].
    apply Hne. pose proof (decode_ToLower host) as D. rewrite El in D. change (decode []) with (@nil (Z * list Z)) in D. symmetry in D.
    apply fmap_nil_inv in D. unfold lower_runes in D. apply fmap_nil_inv, (f_equal chunk_bytes) in D. rewrite chunk_bytes_decode in D.
    by apply to_bytes_nil.
Qed.

Lemma validated_endpoint e e' : line_text e -> TrimSpace e = e -> parseEndpoint e = Ok e' -> endpoint_ok e.
Proof.
  intros Hl Ht. unfold parseEndpoint. rewrite Ht. destruct (SplitHostPort e) as [[host port]|] eqn:Es; [|done].
  destruct (validEndpointHost host) eqn:Ev; [|done]. cbn [negb]. cbv zeta. destruct (ParseUint port 10 16) as [n|] eqn:En; [|done].
  pose proof (ParseUint_range port 10 16 n ltac:(done) En). destruct (Z.eqb_spec n 0); [done|]. intros _.
  split_and!; [done|done|]. exists host, port, n. split_and!; try done; lia.
Qed.

(** *** The values of the sections *)

Lemma cut_bytes s c a b x : cut_byte s c = Some (a, b) -> x ∈ to_bytes a \/ x ∈ to_bytes b -> x ∈ to_bytes s.
Proof.
  intros [-> _]%cut_byte_Some Hx. rewrite to_bytes_app. apply elem_of_app. destruct Hx as [Hx|Hx]; [by left|right].
  change (x ∈ byte_of c :: to_bytes b). by apply elem_of_cons; right.
Qed.

Definition values_line (raw : rawProfile) : Prop :=
  forall section key value, section_values raw section !! key = Some value -> line_text value.

Lemma set_value_line section key value raw : line_text value -> values_line raw -> values_line (set_value section key value raw).
Proof.
  intros Hv Hr s k v. unfold section_values, set_value. change (rawProfile.sections (raw <| rawProfile.sections ::= alter <[key:=value]> section |>))
    with (alter <[key:=value]> section (rawProfile.sections raw)).
  destruct (decide (s = section)) as [->|Hs].
  - rewrite lookup_alter_eq. destruct (rawProfile.sections raw !! section) as [m|] eqn:E; cbn; [|done].
    rewrite lookup_insert_Some. intros [[_ <-]|[_ Hk]]; [done|]. apply (Hr section k v). unfold section_values. by rewrite E.
  - rewrite lookup_alter_ne by done. apply (Hr s k v).
Qed.

Lemma values_same raw raw' : rawProfile.sections raw' = rawProfile.sections raw -> values_line raw -> values_line raw'.
Proof. unfold values_line, section_values. by intros ->. Qed.

Lemma accepted_values raw section key display value n raw' :
  line_text value -> values_line raw -> acceptParameter raw section key display value n = Ok raw' -> values_line raw'.
Proof.
  intros Hv Hr. unfold acceptParameter. repeat case_bool_decide; try done; intros [= <-];
    [by apply set_value_line|by eapply values_same|by apply set_value_line|by eapply values_same].
Qed.

Lemma stripped_line value : line_text value -> line_text (stripInlineComment value).
Proof.
  intros Hv. unfold stripInlineComment. destruct (cut_byte value "#") as [[a b]|] eqn:E; [|done].
  apply line_trim. eapply line_sub; [|exact Hv]. intros x Hx. eapply cut_bytes; [exact E|by left].
Qed.

Lemma scanned_values s numbered s' :
  line_text numbered.2 -> values_line (Scan.raw s) -> scan_line s numbered = Ok s' -> values_line (Scan.raw s').
Proof.
  destruct numbered as [n text]. cbn [snd]. intros Ht%line_trim Hr. unfold scan_line. cbv zeta.
  destruct (_ || _); [by intros [= <-]|]. destruct (_ && _).
  - unfold scan_section. cbv zeta. destruct (_ && _); [done|]. destruct (1 <? _)%nat; [done|]. intros <-%Ok_inj. exact Hr.
  - destruct (bool_decide _); [done|]. destruct (cut_byte _ _) as [[key value]|] eqn:Ec; [|done]. destruct (bool_decide _); [done|].
    intros (raw & H & [= <-])%result_bind_ok. cbn [Scan.raw]. unfold scan_parameter in H. cbv zeta in H.
    destruct (bool_decide (_ ∈ unsafeDirectives)); [done|]. destruct (_ && _).
    + destruct (_ || _); [done|]. apply result_bind_ok in H as (v & _ & [= <-]). by eapply values_same.
    + destruct (seen_key _ _ _); [done|]. apply result_bind_ok in H as (raw1 & H & [= <-]).
      eapply (values_same raw1); [done|]. eapply accepted_values; [|exact Hr|exact H].
      assert (Hv : line_text (TrimSpace value)).
      { apply line_trim. eapply line_sub; [|exact Ht]. intros x Hx. eapply cut_bytes; [exact Ec|by right]. }
      destruct (bool_decide _); [done|by apply stripped_line].
Qed.

Lemma split_lines_clean s c piece : piece ∈ split_byte s c ->
  has_byte piece c = false /\ forall b, b ∈ to_bytes piece -> b ∈ to_bytes s.
Proof.
  revert piece. induction s as [|x s IH]; intros piece; cbn [split_byte].
  - intros ->%list_elem_of_singleton. by split.
  - assert (K : forall b, b ∈ to_bytes s -> b ∈ to_bytes (String x s)).
    { intros b Hb. change (b ∈ byte_of x :: to_bytes s). by apply elem_of_cons; right. }
    case_bool_decide as Hx.
    + intros [->|Hp]%elem_of_cons; [split; [done|by intros b Hb%elem_of_nil]|]. destruct (IH _ Hp) as [H1 H2]. split; [done|]. auto.
    + destruct (split_byte s c) as [|a l] eqn:E.
      * exfalso. rewrite split_byte_cut in E. by destruct (cut_byte s c) as [[]|].
      * intros [->|Hp]%elem_of_cons.
        -- destruct (IH a ltac:(by apply elem_of_cons; left)) as [H1 H2]. split.
           ++ cbn. by rewrite (bool_decide_eq_false_2 _ Hx), H1.
           ++ intros b Hb. change (b ∈ byte_of x :: to_bytes a) in Hb. change (b ∈ byte_of x :: to_bytes s).
              apply elem_of_cons in Hb as [->|Hb]; apply elem_of_cons; [by left|right; auto].
        -- destruct (IH piece ltac:(by apply elem_of_cons; right)) as [H1 H2]. split; [done|]. auto.
Qed.

Lemma scanned_lines pieces : Forall line_text pieces -> Forall line_text (scan_lines pieces).1.
Proof.
  induction 1 as [|p l Hp _ IH]; [constructor|]. cbn [scan_lines].
  assert (G : Forall line_text (if max_line <=? Z.of_nat (String.length p) then ([], true)
    else let '(rest, long) := scan_lines l in (TrimSuffix p carriage_return :: rest, long)).1).
  { destruct (_ <=? _); [constructor|]. destruct (scan_lines l) as [rest long]. constructor; [|exact IH].
    eapply line_sub; [|exact Hp]. intros b Hb. destruct (HasSuffix p carriage_return) eqn:Es.
    - apply HasSuffix_spec in Es as [q ->]. rewrite TrimSuffix_app in Hb. rewrite to_bytes_app. apply elem_of_app. by left.
    - by rewrite TrimSuffix_none in Hb. }
  destruct p; [|exact G]. destruct l; [constructor|exact G].
Qed.

Lemma profile_lines_clean data : Forall line_text (profile_lines data).1.
Proof.
  unfold profile_lines. apply scanned_lines, Forall_forall. intros piece Hp. apply split_lines_clean in Hp as [Hc _].
  unfold line_text. rewrite has_byte_bytes in Hc. apply bool_decide_eq_false in Hc. change (byte_of line_feed) with 10 in Hc.
  pose proof (to_bytes_bytes piece) as Hb. rewrite Forall_forall in Hb |- *. intros b Hin. split; [by apply Hb|]. by intros ->.
Qed.

Lemma parsed_values data raw : parseINI data = Ok raw -> values_line raw.
Proof.
  unfold parseINI. pose proof (profile_lines_clean data) as Hl. destruct (profile_lines data) as [lines long]. cbn [fst] in Hl.
  intros (s & Hf & H)%result_bind_ok. destruct long; [done|]. destruct (_ || _); [done|]. injection H as <-.
  apply (fold_result_inv _ (fun s => values_line (Scan.raw s))) in Hf; [exact Hf| |].
  - intros section key value. unfold section_values. cbn [Scan.raw rawProfile.sections empty_raw].
    destruct (_ !! section) as [m|] eqn:E; [|done]. cbn. rewrite lookup_insert_Some, lookup_singleton_Some in E.
    by destruct E as [[_ <-]|[_ [_ <-]]].
  - intros a [n line] a' Hin Ha Hs. eapply scanned_values; [|exact Ha|exact Hs]. cbn [snd].
    apply list_elem_of_lookup_1 in Hin as [i Hi]. unfold numbered in Hi. rewrite list_lookup_imap in Hi.
    destruct (lines !! i) as [line'|] eqn:E; [|done]. injection Hi as _ <-. rewrite Forall_forall in Hl. apply Hl. by eapply list_elem_of_lookup_2.
Qed.

(** *** Whole profiles *)

Lemma required_line values key display value :
  (forall k v, values !! k = Some v -> line_text v) -> required values key display = Ok value -> line_text value.
Proof.
  intros Hv. unfold required. destruct (values !! key) as [v|] eqn:E; [|done]. case_bool_decide; [done|]. intros <-%Ok_inj. by eapply Hv.
Qed.

Lemma legacy_has_no_signature raw : profile_version raw = Ok VersionLegacy ->
  forall i, (i < 5)%nat -> trimmed_value (section_values raw "interface") (numbered_key "i" i) = "".
Proof.
  unfold profile_version. cbv zeta. destruct (negb (eqb _ _)); [done|]. destruct (_ && _); [done|].
  destruct (bool_decide (_ = VersionLegacy)) eqn:Hv; [|intros H%Ok_inj; by rewrite H, bool_decide_eq_true_2 in Hv].
  destruct (list_find _ _) as [[? ?]|] eqn:E; [done|]. intros _ i Hi. apply list_find_None in E. rewrite Forall_forall in E.
  specialize (E i). destruct (decide (trimmed_value (section_values raw "interface") (numbered_key "i" i) = "")); [done|].
  exfalso. apply E; [|done]. apply elem_of_seq. lia.
Qed.

Lemma version_known raw version : profile_version raw = Ok version -> known_version version = true.
Proof.
  unfold profile_version. cbv zeta. destruct (negb (eqb _ _)); [done|]. destruct (_ && _); [done|].
  set (v := if bool_decide (rawProfile.declaredVersion raw = Version31) || _ then Version31 else _).
  assert (Hv : known_version v = true) by (unfold v; repeat case_match; done).
  destruct (bool_decide (v = VersionLegacy)); [destruct (list_find _ _) as [[? ?]|]; [done|]|]; by intros <-%Ok_inj.
Qed.

Lemma read_mtu values n : parse_mtu values = Ok n -> n = 0 \/ 576 <= n <= 9000.
Proof.
  unfold parse_mtu. cbv zeta. case_bool_decide; [intros <-%Ok_inj; by left|]. destruct (ParseUint _ _ _) as [m|]; [|done].
  destruct ((m <? 576) || (9000 <? m)) eqn:E; [done|]. intros <-%Ok_inj. apply orb_false_iff in E as [?%Z.ltb_ge ?%Z.ltb_ge]. lia.
Qed.

Lemma read_keepalive values r : parse_keepalive values = Ok r -> range_ok r /\ Uint32Range.Max r <= 65535.
Proof.
  unfold parse_keepalive. cbv zeta. case_bool_decide; [intros <-%Ok_inj; split; [apply zero_range_ok|cbn; lia]|].
  destruct (parseUint32Range _ _) as [k|] eqn:E; [|done]. destruct (Z.ltb_spec 65535 (Uint32Range.Max k)); [done|].
  intros <-%Ok_inj. split; [by eapply read_range|done].
Qed.

Lemma read_interface values version i :
  (version = VersionLegacy -> forall i, (i < 5)%nat -> trimmed_value values (numbered_key "i" i) = "") ->
  parse_interface values version = Ok i ->
  (PrivateKey.set (Interface.PrivateKey i) = true /\ key_ok (PrivateKey.value (Interface.PrivateKey i))) /\
  (Interface.Addresses i <> [] /\ NoDup (Interface.Addresses i) /\ Forall prefix_ok (Interface.Addresses i)) /\
  (Interface.MTU i = 0 \/ 576 <= Interface.MTU i <= 9000) /\
  obfuscation_ok version (Interface.Obfuscation i) /\ v31_ok version (Interface.V31 i).
Proof.
  intros Hleg. unfold parse_interface. intros (praw & _ & H)%result_bind_ok. apply result_bind_ok in H as (k & Hk & H).
  apply result_bind_ok in H as (araw & _ & H). apply result_bind_ok in H as (addresses & Ha%read_prefixes & H).
  apply result_bind_ok in H as (mtu & Hm%read_mtu & H). apply result_bind_ok in H as (o & Ho%read_obfuscation & H); [|done].
  apply result_bind_ok in H as (v & Hv%read_v31 & <-%Ok_inj).
  apply result_bind_ok in Hk as (d & Hd%read_key & <-%Ok_inj). done.
Qed.

Lemma read_peer values p : (forall k v, values !! k = Some v -> line_text v) -> parse_peer values = Ok p ->
  key_ok (Peer.PublicKey p) /\ (line_text (Peer.Endpoint p) /\ TrimSpace (Peer.Endpoint p) = Peer.Endpoint p) /\
  (range_ok (Peer.PersistentKeepalive p) /\ Uint32Range.Max (Peer.PersistentKeepalive p) <= 65535) /\
  (PresharedKey.set (Peer.PresharedKey p) = true -> key_ok (PresharedKey.value (Peer.PresharedKey p))).
Proof.
  intros Hv. unfold parse_peer. intros (praw & _ & H)%bind_inv. apply bind_inv in H as (k & Hk & H). unfold parsePublicKey in Hk. apply read_key in Hk.
  apply bind_inv in H as (eraw & Hraw%required_line & H); [|done]. apply bind_inv in H as (e & He%parsed_endpoint & H); [|done].
  cbv zeta in H. apply bind_inv in H as (psk & Hpsk & H). apply bind_inv in H as (ka & Hka%read_keepalive & <-%Ok_inj).
  cbn [Peer.PublicKey Peer.Endpoint Peer.PersistentKeepalive Peer.PresharedKey]. split_and!; try apply Hka; try apply He; try done.
  intros Hset. destruct (bool_decide _); [apply Ok_inj in Hpsk as <-; done|].
  apply bind_inv in Hpsk as (d & Hd%read_key & <-%Ok_inj). done.
Qed.

Lemma validated_endpoint_ok p e : Validate p = None -> e = Peer.Endpoint (Profile.Peer p) -> exists e', parseEndpoint e = Ok e'.
Proof.
  intros H ->. revert H. unfold Validate. cbv zeta. repeat (destruct (_ : bool); [done|]).
  destruct (parseEndpoint _) as [e'|]; [by exists e'|done].
Qed.

Lemma parsed_profile data p : Parse data = Ok p -> profile_ok p.
Proof.
  unfold Parse. intros (raw & Hv%parsed_values & H)%bind_inv. unfold buildProfile in H.
  apply bind_inv in H as (version & Hver & H). apply bind_inv in H as (i & Hi & H).
  apply bind_inv in H as (peer & Hp & H). cbv zeta in H. destruct (Validate _) eqn:Eval; [done|]. apply Ok_inj in H as <-.
  apply read_peer in Hp as (P1 & P2 & P3 & P4); [|by intros k v; apply Hv].
  apply read_interface in Hi as (I1 & I2 & I3 & I4 & I5); [|intros ->; by apply legacy_has_no_signature].
  split; cbn [Profile.Version Profile.Interface Profile.Peer Profile.IgnoredParameters]; try done.
  - by eapply version_known.
  - destruct P2 as [Hl Ht]. destruct (validated_endpoint_ok _ _ Eval eq_refl) as [e' He]. by eapply validated_endpoint.
  - split; [apply sort_strings_nodup, NoDup_elements|apply sort_strings_sorted].
Qed.

(** ** The batch of an accepted profile *)

Lemma line_no_lf s : line_text s -> no_byte line_feed s.
Proof.
  unfold line_text, no_byte. rewrite has_byte_bytes, Forall_forall. intros H. apply bool_decide_eq_false_2. intros Hin.
  by apply H in Hin as [_ Hin].
Qed.

Lemma line_Itoa n : 0 <= n -> line_text (Itoa n).
Proof. apply Itoa_line. Qed.

Lemma line_key k : Forall is_byte k -> line_text (EncodeToString k).
Proof. intros Hk. by apply line_visible, visible_encoded. Qed.

Lemma line_range r : range_ok r -> line_text (formatRange r).
Proof.
  unfold range_ok, formatRange. intros Hr. destruct (_ =? _); [apply line_Itoa; lia|].
  apply line_app. split; [apply line_Itoa; lia|]. apply line_app. split; [by apply line_visible|apply line_Itoa; lia].
Qed.

Lemma line_bool b : line_text (FormatBool b).
Proof. destruct b; by apply line_visible. Qed.

Lemma line_prefix p : prefix_ok p -> line_text (Prefix_String p).
Proof.
  intros (Hb & Ha & _). unfold Prefix_String, Prefix_IsValid. rewrite (proj2 (Z.leb_le 0 _)) by lia. apply line_app. split.
  - by apply line_bytes_string, addr_text_ok.
  - apply line_app. split; [by apply line_visible|apply line_Itoa; lia].
Qed.

Lemma signature_no_lf s : signature_ok s -> no_byte line_feed s.
Proof.
  intros [->|Hs]; [done|]. unfold bad_signature in Hs. rewrite !orb_false_iff in Hs. destruct Hs as [[[_ Hs] _] _].
  unfold ContainsAny in Hs. cbn in Hs. rewrite !orb_false_iff in Hs. unfold no_byte. tauto.
Qed.

Lemma numbered_no_byte c prefix i : no_byte c prefix -> ~ digit_byte (byte_of c) -> no_byte c (numbered_key prefix i).
Proof.
  intros Hp Hc. unfold numbered_key. apply no_byte_app. split; [done|]. unfold no_byte. rewrite has_byte_bytes.
  apply bool_decide_eq_false_2. intros Hin. destruct (Itoa_digits (Z.of_nat (S i)) ltac:(lia)) as [Hd _].
  rewrite Forall_forall in Hd. by apply Hd in Hin.
Qed.

(** A name that is one word of a configuration path. *)
Definition plain_name (name : string) : Prop := no_byte "." name /\ no_byte "=" name /\ no_byte line_feed name.

Section Commands.
  Context (name : string) (name_ok : plain_name name).

Lemma set_ok key value : no_byte "=" key -> no_byte line_feed key -> no_byte line_feed value -> command_ok (SetOption name key value).
Proof. destruct name_ok as (?&?&?). intros. cbn [command_ok]. by split_and!. Qed.

Lemma set_line key value : no_byte "=" key /\ no_byte line_feed key -> line_text value -> command_ok (SetOption name key value).
Proof. intros [H1 H2] Hv. by apply set_ok, line_no_lf. Qed.

Lemma set_numbered prefix i value : no_byte "=" prefix -> no_byte line_feed prefix -> no_byte line_feed value ->
  command_ok (SetOption name (numbered_key prefix i) value).
Proof. intros H1 H2 Hv. apply set_ok; [| |done]; (apply numbered_no_byte; [done|]); [change (byte_of "=") with 61|change (byte_of line_feed) with 10]; lia. Qed.

Lemma list_ok key value : no_byte "=" key -> no_byte line_feed key -> line_text value -> command_ok (AddList name key value).
Proof. destruct name_ok as (N1&N2&N3). intros H1 H2 Hv%line_no_lf. cbn [command_ok]. by split_and!. Qed.

Lemma Forall_imap_ok {A} (P : Command -> Prop) (f : nat -> A -> Command) (Q : A -> Prop) l :
  (forall i a, Q a -> P (f i a)) -> Forall Q l -> Forall P (imap f l).
Proof.
  intros Hf Hl. revert f Hf. induction Hl as [|a l Ha _ IH]; intros f Hf; [constructor|]. cbn. constructor; [by apply Hf|].
  apply IH. intros i b Hb. by apply Hf.
Qed.

Lemma interface_commands_ok version i :
  key_ok (PrivateKey.value (Interface.PrivateKey i)) -> Forall prefix_ok (Interface.Addresses i) -> 0 <= Interface.MTU i ->
  obfuscation_ok version (Interface.Obfuscation i) -> Forall command_ok (interface_commands name version i).
Proof.
  intros (_ & Hk & _) Ha Hm [Hc Hj [_ Hs] [_ Hh] [_ Hg] _]. unfold interface_commands. cbv zeta.
  apply Forall_app. split; [repeat (constructor; [apply set_line; [done|first [by apply line_visible|by apply line_key]]|]); constructor|].
  apply Forall_app. split; [destruct (0 <? _); [constructor; [apply set_line; [done|by apply line_Itoa]|]|]; constructor|].
  apply Forall_app. split; [apply Forall_fmap; eapply Forall_impl; [exact Ha|]; intros p Hp; apply list_ok; [done|done|by apply line_prefix]|].
  apply Forall_app. split; [repeat (constructor; [apply set_line; [done|apply line_Itoa; lia]|]); constructor|].
  apply Forall_app. split.
  { eapply (Forall_imap_ok _ _ (fun v => 0 <= v < 65536)); [|by apply Forall_take]. intros n v Hv.
    apply set_numbered; [done|done|]. apply line_no_lf, line_Itoa. lia. }
  apply Forall_app. split.
  { eapply (Forall_imap_ok _ _ range_ok); [|done]. intros n v Hv. apply set_numbered; [done|done|]. by apply line_no_lf, line_range. }
  destruct (modern version); [|constructor]. apply Forall_concat, Forall_forall. intros cs Hcs.
  apply list_elem_of_lookup_1 in Hcs as [n Hn]. rewrite list_lookup_imap in Hn. destruct (_ !! n) as [s|] eqn:Es; [|done].
  injection Hn as <-. case_bool_decide; [constructor|]. constructor; [|constructor]. apply set_numbered; [done|done|].
  rewrite Forall_forall in Hg. apply signature_no_lf, Hg. by eapply list_elem_of_lookup_2.
Qed.

Lemma v31_commands_ok version v : v31_ok version v -> Forall command_ok (v31_commands name v).
Proof.
  intros [Hp Hr _]. unfold v31_commands. cbv zeta. rewrite !Forall_cons in Hr. destruct Hr as (R1 & R2 & R3 & R4 & R5 & R6 & _).
  constructor; [apply set_line; [done|by apply line_visible]|]. apply Forall_app. split.
  - destruct (PrivateKey.set _); [|constructor]. destruct (Hp eq_refl) as (_ & Hk & _).
    constructor; [apply set_line; [done|by apply line_key]|constructor].
  - repeat (constructor; [apply set_line; [done|first [by apply line_range|apply line_bool]]|]). constructor.
Qed.

Lemma peer_commands_ok host port addresses peer :
  line_text host -> line_text port -> key_ok (Peer.PublicKey peer) -> range_ok (Peer.PersistentKeepalive peer) ->
  (PresharedKey.set (Peer.PresharedKey peer) = true -> key_ok (PresharedKey.value (Peer.PresharedKey peer))) ->
  Forall command_ok (peer_commands name host port addresses peer).
Proof.
  intros Hh Hp (_ & Hk & _) Hr Hpsk. unfold peer_commands. cbv zeta. constructor; [apply set_line; [done|by apply line_key]|].
  apply Forall_app. split.
  { destruct (PresharedKey.set _); [|constructor]. destruct (Hpsk eq_refl) as (_ & Hs & _).
    constructor; [apply set_line; [done|by apply line_key]|constructor]. }
  do 3 (constructor; [apply set_line; [done|first [done|by apply line_visible]]|]).
  constructor; [apply list_ok; [done|done|by apply line_visible]|].
  apply Forall_app. split; [destruct (hasIPv6Address _); [constructor; [apply list_ok; [done|done|by apply line_visible]|]|]; constructor|].
  destruct (0 <? _); [|constructor]. constructor; [apply set_line; [done|by apply line_range]|constructor].
Qed.

End Commands.

Lemma batch_commands_ok name p : plain_name name -> profile_ok p ->
  exists commands, batch_commands name p = Ok commands /\ commands <> [] /\ Forall command_ok commands.
Proof.
  intros Hn [Hver [_ Hk] (Hne & _ & Ha) Hm Ho Hv Hpub (Hl & _ & host & port & n & Hs & _) [Hka _] Hpsk _].
  assert (Hpn : plain_name ("amneziawg_" +:+ name)).
  { destruct Hn as (?&?&?). unfold plain_name. by rewrite !no_byte_app. }
  unfold batch_commands. cbv zeta. rewrite Hver, (bool_decide_eq_false_2 _ Hne), Hs. cbn [negb orb].
  apply split_host_line in Hs as [Hh Hp]; [|done]. eexists. split; [reflexivity|]. split; [done|].
  destruct Hn as (N1 & N2 & N3). destruct Hpn as (P1 & P2 & P3).
  constructor; [done|]. constructor; [done|]. constructor; [by split_and!|].
  apply Forall_app. split; [apply interface_commands_ok; try done; destruct Hm; lia|].
  apply Forall_app. split; [case_bool_decide; [by eapply v31_commands_ok|constructor]|].
  constructor; [by split_and!|]. by apply peer_commands_ok.
Qed.

(** ** Properties *)

(** An accepted text contains nothing but parameters of the import contract.
    Every line that assigns a key assigns a known one, so no hook that the router
    would run, and no parameter that is not understood, ever gets through. *)
Theorem Parse_known_keys data p line key :
  Parse data = Ok p -> line ∈ (profile_lines data).1 -> assigned_key line = Some key ->
  key ∈ known_keys /\ key ∉ unsafeDirectives.
Proof.
  unfold Parse, parseINI. destruct (profile_lines data) as [lines long]. cbn [fst].
  intros (raw & (s & Hf & _)%bind_inv & _)%bind_inv Hin Hk. destruct (numbered_elem _ _ Hin) as [n Hn].
  destruct (folded_step _ _ _ _ _ Hf Hn) as (a & a' & Hs). pose proof (scanned_line _ _ _ key Hs Hk) as Hknown.
  split; [done|]. intros Hu. pose proof hooks_unknown as Hf'. rewrite Forall_forall in Hf'. by apply (Hf' key).
Qed.

(** C29: the values of an accepted profile are in range: the keys have 32 bytes that
    are not all zero, the numbers fit their fields, the ranges ascend, the addresses
    are distinct prefixes, the endpoint is in a normal form that splits into a valid
    host and a port from 1 to 65535, and the fields of later versions are empty in
    earlier ones. *)
Theorem Parse_well_formed data p : Parse data = Ok p -> profile_ok p.
Proof. apply parsed_profile. Qed.

(** C28: an accepted profile can be handed to the router, and its values cannot inject
    commands.  The batch exists, and the router reads back from it exactly the
    commands that were meant, whatever the text of the profile contained. *)
Theorem uciBatch_reads_back configured data p :
  plain_name (interfaceName configured) -> Parse data = Ok p ->
  exists commands text, batch_commands (interfaceName configured) p = Ok commands /\
    uciBatch configured p = Ok text /\ read_batch text = Some commands.
Proof.
  intros Hn Hp%parsed_profile. destruct (batch_commands_ok _ _ Hn Hp) as (commands & Hc & Hne & Hok).
  exists commands. eexists. split; [done|]. unfold uciBatch. rewrite Hc. split; [reflexivity|]. by apply batch_reads.
Qed.

(** ** An example *)

Definition sample_key (first : Z) : list Z := imap (fun i _ => first + Z.of_nat i) (replicate 32 0).

(** The zone of the endpoint holds a quote, and the signature looks like a shell word. *)
Definition sample_lines (protection : string) : list string :=
  ["[Interface]"; "PrivateKey = " +:+ EncodeToString (sample_key 1); "Address = 10.8.0.2/32, fd00::2"; "MTU = 1280 # link";
   "Jc = 4"; "Jmin = 40"; "Jmax = 70"; "S1 = 1"; "S2 = 2"; "S3 = 3"; "S4 = 4"; "H1 = 1-5"; "H2 = 0x10"; "H3 = 7"; "H4 = 8";
   "I1 = <b 0x01>; $(reboot)>"; "HeaderProtectionKey = " +:+ protection; "DNS = 1.1.1.1"; "[Peer]";
   "PublicKey = " +:+ EncodeToString (sample_key 5); "Endpoint = [fe80::1%a'b]:51820"; "AllowedIPs = 0.0.0.0/0"].

Definition sample_text (protection : string) : string := Join (sample_lines protection) newline.

Definition is_Some_bool {A} (o : option A) : bool := match o with Some _ => true | None => false end.

Lemma Parse_known_keys_witness : "mtu" ∈ known_keys /\ "mtu" ∉ unsafeDirectives.
Proof.
  destruct (Parse (sample_text "")) as [p|e] eqn:E; [|vm_compute in E; discriminate E].
  apply (Parse_known_keys (sample_text "") p "MTU = 1280 # link" "mtu" E); [|reflexivity].
  apply list_elem_of_In. vm_compute. tauto.
Defined.

Lemma Parse_well_formed_witness :
  match Parse (sample_text (EncodeToString (sample_key 9))) with Ok p => profile_ok p | Err _ => False end.
Proof.
  destruct (Parse (sample_text (EncodeToString (sample_key 9)))) as [p|e] eqn:E; [|vm_compute in E; discriminate E].
  exact (Parse_well_formed _ p E).
Defined.

Lemma uciBatch_reads_back_witness :
  match Parse (sample_text "") with
  | Ok p => exists commands text, uciBatch "" p = Ok text /\ read_batch text = Some commands /\ (40 <? length commands)%nat = false
  | Err _ => False
  end.
Proof.
  destruct (Parse (sample_text "")) as [p|e] eqn:E; [|vm_compute in E; discriminate E].
  destruct (uciBatch_reads_back "" (sample_text "") p) as (commands & text & Hc & Ht & Hr);
    [split; [reflexivity|split; reflexivity]|exact E|].
  exists commands, text. split; [exact Ht|]. split; [exact Hr|].
  vm_compute in E. injection E as <-. vm_compute in Hc. injection Hc as <-. reflexivity.
Defined.
