(* ===== verification/Firewall.v ===== *)
(** * Firewall selectors and target services

    [domain/firewall.go] and the selector set of [domain/settings.go].  A
    catalog of user-defined services is a finite map from names to
    definitions; the merged registry puts the built-in presets on top.  The
    two recursive walks of the source (expansion of a service, validation of
    the dependencies) take fuel; [registry_fuel] and [catalog_fuel] are proved
    enough.  [range] over a map is a parameter: any enumeration of the keys. *)
From S2P Require Import Prelude GoRunes GoStrings NetIP.

Local Open Scope Z_scope.
Local Open Scope list_scope.

(** ** Data *)

Module FirewallTargetDefinition.
Record FirewallTargetDefinition : Type := mk {
  Services : list string;
  Domains : list string;
  CIDRs : list string
}.
Definition zero : FirewallTargetDefinition := mk [] [] [].
End FirewallTargetDefinition.
Abbreviation FirewallTargetDefinition := FirewallTargetDefinition.FirewallTargetDefinition.

#[export] Instance FirewallTargetDefinition_eq_dec : EqDecision FirewallTargetDefinition.
Proof. solve_decision. Defined.

(** [map[string]FirewallTargetDefinition]. *)
Abbreviation Catalog := (gmap string FirewallTargetDefinition).

Definition FirewallTargetServiceSourceBuiltin := "builtin".
Definition FirewallTargetServiceSourceCustom := "custom".

Module FirewallTargetService.
Record FirewallTargetService : Type := mk {
  Name : string;
  Source : string;
  ReadOnly : bool;
  Services : list string;
  Domains : list string;
  CIDRs : list string
}.
End FirewallTargetService.
Abbreviation FirewallTargetService := FirewallTargetService.FirewallTargetService.

Module FirewallTargets.
Record FirewallTargets : Type := mk {
  Services : list string;
  CIDRs : list string;
  Domains : list string
}.
Definition zero : FirewallTargets := mk [] [] [].
Definition eta (t : FirewallTargets) : FirewallTargets := mk (Services t) (CIDRs t) (Domains t).
#[export] Instance set_Services : Setter Services := ltac:(mk_setter eta Services).
#[export] Instance set_CIDRs : Setter CIDRs := ltac:(mk_setter eta CIDRs).
#[export] Instance set_Domains : Setter Domains := ltac:(mk_setter eta Domains).
End FirewallTargets.
Export (hints) FirewallTargets.
Abbreviation FirewallTargets := FirewallTargets.FirewallTargets.

Module FirewallSelectorSet.
Record FirewallSelectorSet : Type := mk {
  Services : list string;
  Domains : list string;
  CIDRs : list string
}.
Definition zero : FirewallSelectorSet := mk [] [] [].
End FirewallSelectorSet.
Abbreviation FirewallSelectorSet := FirewallSelectorSet.FirewallSelectorSet.

Definition googleAIMobileSharedDomains : list string := [
    "myaccount.google.com"; "one.google.com"; "support.google.com"; "www.google.com";
    "mtalk.google.com"; "dns.google.com"; "dns.google"; "googleapis.com"; "clients6.google.com";
    "gstatic.com"; "googleusercontent.com"].

Definition googleAIMobileSharedCIDRs : list string := [
    "74.125.205.0/24"; "173.194.73.0/24"].

Definition googleAIMobileDomains (primaryHost : string) : list string :=
  ["accounts.google.com"; primaryHost] ++ googleAIMobileSharedDomains.

Definition firewallTargetServicePresetList : list (string * FirewallTargetDefinition) := [
  ("youtube", FirewallTargetDefinition.mk [] [
      "youtube.com"; "youtu.be"; "youtube-nocookie.com"; "youtubei.googleapis.com";
      "youtube.googleapis.com"; "googlevideo.com"; "ytimg.com"; "ggpht.com"] []);
  ("instagram", FirewallTargetDefinition.mk [] [
      "instagram.com"; "cdninstagram.com"; "fbcdn.net"; "facebook.com"; "facebook.net";
      "fbsbx.com"] []);
  ("netflix", FirewallTargetDefinition.mk [] [
      "netflix.com"; "netflix.net"; "nflxvideo.net"; "nflximg.net"; "nflximg.com"; "nflxso.net";
      "nflxext.com"; "nflxsearch.net"; "fast.com"] []);
  ("discord", FirewallTargetDefinition.mk [] [
      "discord.com"; "discord.gg"; "discord.gift"; "discord.media"; "discordapp.com";
      "discordapp.net"] []);
  ("whatsapp", FirewallTargetDefinition.mk [] [
      "whatsapp.com"; "web.whatsapp.com"; "whatsapp.net"; "static.whatsapp.net";
      "mmg.whatsapp.net"; "graph.whatsapp.net"; "pps.whatsapp.net"; "g.whatsapp.net"] []);
  ("telegram", FirewallTargetDefinition.mk [] [
      "telegram.org"; "t.me"; "telegram.me"; "web.telegram.org"; "desktop.telegram.org";
      "core.telegram.org"] [
      "91.108.0.0/16"; "149.154.0.0/16"]);
  ("twitter", FirewallTargetDefinition.mk [] [
      "x.com"; "twitter.com"; "t.co"; "twimg.com"] []);
  ("facetime", FirewallTargetDefinition.mk [] [
      "facetime.apple.com"; "facetime.icloud.com"; "gateway.icloud.com"; "relay.icloud.com";
      "push.apple.com"; "courier.push.apple.com"] []);
  ("gemini", FirewallTargetDefinition.mk [] [
      "accounts.google.com"; "content.googleapis.com"; "gemini.google.com";
      "geminiweb-pa.clients6.google.com"; "generativelanguage.googleapis.com";
      "lh3.googleusercontent.com"; "myaccount.google.com"; "ogads-pa.clients6.google.com";
      "one.google.com"; "ssl.gstatic.com"; "support.google.com"; "waa-pa.clients6.google.com";
      "www.google.com"; "www.gstatic.com"] []);
  ("gemini-mobile", FirewallTargetDefinition.mk [] (googleAIMobileDomains "gemini.google.com") googleAIMobileSharedCIDRs);
  ("notebooklm", FirewallTargetDefinition.mk [] [
      "accounts.google.com"; "content.googleapis.com"; "generativelanguage.googleapis.com";
      "lh3.googleusercontent.com"; "notebooklm.google.com"] []);
  ("notebooklm-mobile", FirewallTargetDefinition.mk [] (googleAIMobileDomains "notebooklm.google.com") googleAIMobileSharedCIDRs)
].

Definition firewallTargetServicePresets : Catalog :=
  list_to_map firewallTargetServicePresetList.

Definition firewallTargetDomainFamilies : gmap string string := list_to_map [
  ("youtube.com", "youtube");
  ("instagram.com", "instagram");
  ("netflix.com", "netflix");
  ("discord.com", "discord");
  ("whatsapp.com", "whatsapp");
  ("x.com", "twitter");
  ("twitter.com", "twitter");
  ("gemini.google.com", "gemini");
  ("notebooklm.google.com", "notebooklm");
  ("telegram.org", "telegram");
  ("web.telegram.org", "telegram");
  ("facetime.apple.com", "facetime")
].

Definition deprecatedFirewallTargetAliases : gmap string string :=
  {[ "telegram-web" := "telegram" ]}.

(** ** Selectors *)

Inductive FirewallError : Type :=
| UnsupportedSource (selector : string)
| UnsupportedTarget (value : string)
| InvalidIPv4Range (value : string)
| UnknownTargetService (selector : string)
| EmptyServiceName
| InvalidServiceName (value : string)
| ReadOnlyService (name : string)
| SelfReference (name : string)
| EmptyDefinition (name : string)
| ServiceCycle (name : string)
| ServiceNotFound (name : string)
| UnknownDependency (name dependency : string)
| OutOfFuel.

#[export] Instance FirewallError_eq_dec : EqDecision FirewallError.
Proof. solve_decision. Defined.

Definition canonicalFirewallTargetAlias (value : string) : string :=
  let value := TrimSpace (ToLower value) in
  default value (deprecatedFirewallTargetAliases !! value).

Definition lower_letter (r : Z) : bool := (97 <=? r) && (r <=? 122).
Definition digit (r : Z) : bool := (48 <=? r) && (r <=? 57).

(** The rune loop of [normalizeFirewallTargetAlias]. *)
Definition alias_runes (rs : list Z) : bool :=
  match rs with
  | [] => true
  | r :: rest => lower_letter r && forallb (fun r => lower_letter r || digit r || (r =? 45)) rest
  end.

Definition normalizeFirewallTargetAlias (value : string) : result FirewallError string :=
  let value := canonicalFirewallTargetAlias value in
  if bool_decide (value = "") then Err EmptyServiceName
  else if alias_runes (runes value) then Ok value else Err (InvalidServiceName value).

Definition parseIPv4 (value : string) : bool :=
  match ParseIP value with Some ip => bool_decide (is_Some (To4 ip)) | None => false end.

Definition parseIPv4CIDR (value : string) : bool :=
  match ParseCIDR value with Some (ip, _) => bool_decide (is_Some (To4 ip)) | None => false end.

(** The comparison loop of [validateIPv4Range]: [Some true] at the first
    smaller byte, [Some false] at the first larger one. *)
Fixpoint compare_bytes (start fin : list Z) : option bool :=
  match start, fin with
  | s :: start', e :: fin' =>
    if s <? e then Some true else if e <? s then Some false else compare_bytes start' fin'
  | _, _ => None
  end.

Definition validateIPv4Range (value : string) : result FirewallError unit :=
  match cut_byte value "-"%char with
  | None => Err (InvalidIPv4Range value)
  | Some (a, b) =>
    match ParseIP (TrimSpace a) ≫= To4, ParseIP (TrimSpace b) ≫= To4 with
    | Some startBytes, Some endBytes =>
      match compare_bytes startBytes endBytes with
      | Some false => Err (InvalidIPv4Range value)
      | _ => Ok ()
      end
    | _, _ => Err (UnsupportedTarget value)
    end
  end.

Definition looksLikeIPv4Range (value : string) : bool :=
  match cut_byte value "-"%char with
  | None => false
  | Some (a, b) =>
    let start := TrimSpace a in
    let fin := TrimSpace b in
    if bool_decide (start = "") || bool_decide (fin = "") then false
    else parseIPv4 start && parseIPv4 fin
  end.

(** [Ok (Some v)]: an IPv4 selector; [Ok None]: not one. *)
Definition normalizeFirewallIPv4Selector (value : string) : result FirewallError (option string) :=
  let value := TrimSpace value in
  if parseIPv4 value || parseIPv4CIDR value then Ok (Some value)
  else if looksLikeIPv4Range value
  then let* _ := validateIPv4Range value in Ok (Some value)
  else Ok None.

Definition domain_rune (r : Z) : bool := lower_letter r || digit r || (r =? 45).

Definition domain_label (label : string) : bool :=
  negb (bool_decide (label = "")) && negb (HasPrefix label "-") && negb (HasSuffix label "-")
  && forallb domain_rune (runes label).

Definition normalizeFirewallDomain (value : string) : result FirewallError string :=
  let value := TrimSuffix (TrimSpace (ToLower value)) "." in
  if bool_decide (value = "") then Err (UnsupportedTarget value)
  else if Contains value "://" then Err (UnsupportedTarget value)
  else if ContainsAny value "/:@" then Err (UnsupportedTarget value)
  else if Contains value "*" then Err (UnsupportedTarget value)
  else if (count_byte value "."%char =? 0)%nat then Err (UnsupportedTarget value)
  else if forallb domain_label (split_byte value "."%char) then Ok value
  else Err (UnsupportedTarget value).

(** ** The merged registry *)

Definition cloneFirewallTargetDefinition (d : FirewallTargetDefinition) : FirewallTargetDefinition :=
  FirewallTargetDefinition.mk (FirewallTargetDefinition.Services d)
    (FirewallTargetDefinition.Domains d) (FirewallTargetDefinition.CIDRs d).

Definition CloneFirewallTargetCatalog (catalog : Catalog) : Catalog :=
  cloneFirewallTargetDefinition <$> catalog.

(** Built-in definitions are written last and win. *)
Definition mergeFirewallTargetRegistry (customCatalog : Catalog) : Catalog :=
  (cloneFirewallTargetDefinition <$> firewallTargetServicePresets)
  ∪ (cloneFirewallTargetDefinition <$> customCatalog).

Definition isBuiltinFirewallTargetService (name : string) : bool :=
  bool_decide (is_Some (firewallTargetServicePresets !! canonicalFirewallTargetAlias name)).

Definition normalizeFirewallTargetService (value : string) (registry : Catalog) : option string :=
  let value := canonicalFirewallTargetAlias value in
  if bool_decide (value = "") then None
  else if bool_decide (is_Some (registry !! value)) then Some value else None.

Definition FirewallTargetServiceNames : list string :=
  sort_strings ((map_to_list firewallTargetServicePresets).*1).

Definition service_entry (name source : string) (readonly : bool) (d : FirewallTargetDefinition)
    : FirewallTargetService :=
  FirewallTargetService.mk name source readonly (FirewallTargetDefinition.Services d)
    (FirewallTargetDefinition.Domains d) (FirewallTargetDefinition.CIDRs d).

Definition FirewallTargetServices (customCatalog : Catalog) : list FirewallTargetService :=
  ((fun name =>
      service_entry name FirewallTargetServiceSourceBuiltin true
        (default FirewallTargetDefinition.zero (firewallTargetServicePresets !! name)))
     <$> FirewallTargetServiceNames)
  ++ ((fun name =>
      service_entry name FirewallTargetServiceSourceCustom false
        (default FirewallTargetDefinition.zero (customCatalog !! name)))
     <$> sort_strings
           (List.filter (fun name => negb (isBuiltinFirewallTargetService name))
              ((map_to_list customCatalog).*1))).

Definition LookupFirewallTargetService (customCatalog : Catalog) (name : string)
    : option FirewallTargetService :=
  match normalizeFirewallTargetAlias name with
  | Err _ => None
  | Ok normalized =>
    match firewallTargetServicePresets !! normalized with
    | Some d => Some (service_entry normalized FirewallTargetServiceSourceBuiltin true d)
    | None =>
      (fun d => service_entry normalized FirewallTargetServiceSourceCustom false d)
        <$> customCatalog !! normalized
    end
  end.

(** ** Parsing selector lists *)

Fixpoint parse_sources (out : list string) (selectors : list string)
    : result FirewallError (list string) :=
  match selectors with
  | [] => Ok out
  | selector :: rest =>
    let selector := TrimSpace selector in
    if bool_decide (selector = "") then parse_sources out rest
    else if EqualFold selector "all" || bool_decide (selector = "*") then Ok ["all"]
    else
      let* normalized := normalizeFirewallIPv4Selector selector in
      match normalized with
      | None => Err (UnsupportedSource selector)
      | Some normalized => parse_sources (push_unique out normalized) rest
      end
  end.

Definition ParseFirewallSources (selectors : list string) : result FirewallError (list string) :=
  parse_sources [] selectors.

(** One round of the loop of [ParseFirewallTargets]. *)
Definition parse_target (registry : Catalog) (acc : FirewallTargets) (selector : string)
    : result FirewallError FirewallTargets :=
  let selector := TrimSpace selector in
  if bool_decide (selector = "") then Ok acc
  else
    let* ipv4 := normalizeFirewallIPv4Selector selector in
    match ipv4 with
    | Some normalized => Ok (acc <| FirewallTargets.CIDRs ::= fun l => push_unique l normalized |>)
    | None =>
      match normalizeFirewallTargetService selector registry with
      | Some normalized =>
        Ok (acc <| FirewallTargets.Services ::= fun l => push_unique l normalized |>)
      | None =>
        if is_ok (normalizeFirewallTargetAlias selector) && negb (Contains selector ".")
        then Err (UnknownTargetService selector)
        else
          let* normalized := normalizeFirewallDomain selector in
          Ok (acc <| FirewallTargets.Domains ::= fun l => push_unique l normalized |>)
      end
    end.

Definition ParseFirewallTargets (selectors : list string) (customCatalog : Catalog)
    : result FirewallError FirewallTargets :=
  fold_result (parse_target (mergeFirewallTargetRegistry customCatalog))
    FirewallTargets.zero selectors.

(** One round of the loop of [ParseFirewallTargetDefinition]; [name] is the
    normalized name of the service being defined. *)
Definition parse_definition_selector (name : string) (registry : Catalog) (acc : FirewallTargets)
    (selector : string) : result FirewallError FirewallTargets :=
  let selector := TrimSpace selector in
  if bool_decide (selector = "") then Ok acc
  else
    let* ipv4 := normalizeFirewallIPv4Selector selector in
    match ipv4 with
    | Some normalized => Ok (acc <| FirewallTargets.CIDRs ::= fun l => push_unique l normalized |>)
    | None =>
      match normalizeFirewallTargetService selector registry with
      | Some normalized =>
        if bool_decide (normalized = name) then Err (SelfReference name)
        else Ok (acc <| FirewallTargets.Services ::= fun l => push_unique l normalized |>)
      | None =>
        match normalizeFirewallTargetAlias selector with
        | Ok normalized =>
          if negb (Contains selector ".")
          then if bool_decide (normalized = name) then Err (SelfReference name)
               else Err (UnknownTargetService selector)
          else
            let* normalized := normalizeFirewallDomain selector in
            Ok (acc <| FirewallTargets.Domains ::= fun l => push_unique l normalized |>)
        | Err _ =>
          let* normalized := normalizeFirewallDomain selector in
          Ok (acc <| FirewallTargets.Domains ::= fun l => push_unique l normalized |>)
        end
      end
    end.

(** ** Dependencies of user-defined services *)

(** [validateFirewallTargetDependencies]: the returned set is [visited];
    [visiting] is restored by the deferred [delete] and is an argument. *)
Fixpoint validateFirewallTargetDependencies (fuel : nat) (customCatalog : Catalog)
    (visiting visited : gset string) (name : string) : result FirewallError (gset string) :=
  match fuel with
  | O => Err OutOfFuel
  | S fuel' =>
    if bool_decide (name ∈ visited) then Ok visited
    else if bool_decide (name ∈ visiting) then Err (ServiceCycle name)
    else match customCatalog !! name with
    | None => Err (ServiceNotFound name)
    | Some definition =>
      let* visited' := fold_result (fun visited dependency =>
          if bool_decide (dependency = name) then Err (SelfReference name)
          else if isBuiltinFirewallTargetService dependency then Ok visited
          else if bool_decide (customCatalog !! dependency = None)
          then Err (UnknownDependency name dependency)
          else validateFirewallTargetDependencies fuel' customCatalog ({[ name ]} ∪ visiting)
                 visited dependency)
        visited (FirewallTargetDefinition.Services definition) in
      Ok ({[ name ]} ∪ visited')
    end
  end.

Definition catalog_fuel (customCatalog : Catalog) : nat := S (S (size customCatalog)).

(** [names] enumerates the keys in the order of the [range] loop. *)
Definition validateFirewallTargetCatalog (names : list string) (customCatalog : Catalog)
    : result FirewallError (gset string) :=
  fold_result (fun visited name =>
      validateFirewallTargetDependencies (catalog_fuel customCatalog) customCatalog ∅ visited name)
    ∅ names.

Section Define.
  (** The order in which Go ranges over a catalog. *)
  Variable range_order : Catalog -> list string.

Definition ParseFirewallTargetDefinition (name : string) (selectors : list string)
    (customCatalog : Catalog) : result FirewallError (string * FirewallTargetDefinition) :=
  let* normalizedName := normalizeFirewallTargetAlias name in
  if isBuiltinFirewallTargetService normalizedName then Err (ReadOnlyService normalizedName)
  else
    let* acc := fold_result
      (parse_definition_selector normalizedName (mergeFirewallTargetRegistry customCatalog))
      FirewallTargets.zero selectors in
    let definition := FirewallTargetDefinition.mk (FirewallTargets.Services acc)
      (FirewallTargets.Domains acc) (FirewallTargets.CIDRs acc) in
    if bool_decide (FirewallTargetDefinition.Services definition = []) &&
       bool_decide (FirewallTargetDefinition.Domains definition = []) &&
       bool_decide (FirewallTargetDefinition.CIDRs definition = [])
    then Err (EmptyDefinition normalizedName)
    else
      let candidateCatalog :=
        <[normalizedName := definition]> (CloneFirewallTargetCatalog customCatalog) in
      let* _ := validateFirewallTargetCatalog (range_order candidateCatalog) candidateCatalog in
      Ok (normalizedName, definition).

End Define.

(** ** Expansion *)

(** The common body of [appendFirewallServiceDomains] and
    [appendFirewallServiceCIDRs]: [entries] selects the list that is copied. *)
Fixpoint appendFirewallService (entries : FirewallTargetDefinition -> list string) (fuel : nat)
    (registry : Catalog) (out : list string) (service : string) (visiting : gset string)
    : list string :=
  match fuel with
  | O => out
  | S fuel' =>
    let service := canonicalFirewallTargetAlias service in
    match registry !! service with
    | None => out
    | Some definition =>
      if bool_decide (service ∈ visiting) then out
      else
        let out := foldl (fun out included =>
            appendFirewallService entries fuel' registry out included ({[ service ]} ∪ visiting))
          out (FirewallTargetDefinition.Services definition) in
        foldl push_unique out (entries definition)
    end
  end.

Definition registry_fuel (registry : Catalog) : nat := S (size registry).

Definition appendFirewallServiceDomains (registry : Catalog) (out : list string) (service : string)
    : list string :=
  appendFirewallService FirewallTargetDefinition.Domains (registry_fuel registry) registry out
    service ∅.

Definition appendFirewallServiceCIDRs (registry : Catalog) (out : list string) (service : string)
    : list string :=
  appendFirewallService FirewallTargetDefinition.CIDRs (registry_fuel registry) registry out
    service ∅.

Definition expand_domain (registry : Catalog) (out : list string) (domain : string) : list string :=
  let domain := TrimSpace (ToLower domain) in
  if bool_decide (domain = "") then out
  else match firewallTargetDomainFamilies !! domain with
  | Some service => appendFirewallServiceDomains registry out service
  | None => push_unique out domain
  end.

Definition ExpandFirewallTargetDomains (customCatalog : Catalog) (services domains : list string)
    : list string :=
  let registry := mergeFirewallTargetRegistry customCatalog in
  foldl (expand_domain registry)
    (foldl (appendFirewallServiceDomains registry) [] services) domains.

Definition expand_cidr (out : list string) (cidr : string) : list string :=
  let cidr := TrimSpace cidr in
  if bool_decide (cidr = "") then out else push_unique out cidr.

Definition ExpandFirewallTargetCIDRs (customCatalog : Catalog) (services cidrs : list string)
    : list string :=
  let registry := mergeFirewallTargetRegistry customCatalog in
  foldl expand_cidr (foldl (appendFirewallServiceCIDRs registry) [] services) cidrs.

Definition ExpandFirewallSelectorSetDomains (customCatalog : Catalog) (s : FirewallSelectorSet)
    : list string :=
  ExpandFirewallTargetDomains customCatalog (FirewallSelectorSet.Services s)
    (FirewallSelectorSet.Domains s).

Definition ExpandFirewallSelectorSetCIDRs (customCatalog : Catalog) (s : FirewallSelectorSet)
    : list string :=
  ExpandFirewallTargetCIDRs customCatalog (FirewallSelectorSet.Services s)
    (FirewallSelectorSet.CIDRs s).

Example expand_ex1 :
  ExpandFirewallTargetDomains ∅ ["Telegram-Web"] ["x.com"; "Example.org"; "t.me"] =
  ["telegram.org"; "t.me"; "telegram.me"; "web.telegram.org"; "desktop.telegram.org";
   "core.telegram.org"; "x.com"; "twitter.com"; "t.co"; "twimg.com"; "example.org"].
Proof. vm_compute. reflexivity. Qed.

Example parse_ex1 :
  ParseFirewallTargets ["YouTube"; "1.2.3.4"; " 10.0.0.1-10.0.0.9"; "youtube"; "Example.ORG."] ∅ =
  Ok (FirewallTargets.mk ["youtube"] ["1.2.3.4"; "10.0.0.1-10.0.0.9"] ["example.org"]).
Proof. vm_compute. reflexivity. Qed.

Example parse_ex2 : ParseFirewallTargets ["10.0.0.9-10.0.0.1"] ∅ =
  Err (InvalidIPv4Range "10.0.0.9-10.0.0.1").
Proof. vm_compute. reflexivity. Qed.

(** An IPv4-mapped IPv6 literal passes as IPv4. *)
Example parse_ex3 : ParseFirewallSources ["::ffff:1.2.3.4"] = Ok ["::ffff:1.2.3.4"].
Proof. vm_compute. reflexivity. Qed.
