(* ===== verification/FirewallFacts.v ===== *)
(** * Selectors of the firewall: normal forms and parsing

    Domains, IPv4 selectors, service aliases, and the three parsers of
    [Firewall] built on them. *)
From S2P Require Import Prelude GoRunes GoStrings NetIP Firewall.

Local Open Scope Z_scope.
Local Open Scope list_scope.

(** ** Copies *)

Lemma cloneFirewallTargetDefinition_id d : cloneFirewallTargetDefinition d = d.
Proof. by destruct d. Qed.

Lemma CloneFirewallTargetCatalog_id catalog : CloneFirewallTargetCatalog catalog = catalog.
Proof.
  unfold CloneFirewallTargetCatalog. rewrite <- (map_fmap_id catalog) at 2.
  apply map_fmap_ext. intros; apply cloneFirewallTargetDefinition_id.
Qed.

(** ** Domain names *)

(** A domain in normal form: at least two labels, each a non-empty run of
    lower-case letters, digits and inner hyphens. *)
Definition valid_domain (d : string) : bool :=
  (0 <? count_byte d "."%char)%nat && forallb domain_label (split_byte d "."%char).

Lemma domain_rune_spec r :
  domain_rune r = true <-> 97 <= r <= 122 \/ 48 <= r <= 57 \/ r = 45.
Proof.
  unfold domain_rune, lower_letter, digit.
  rewrite !orb_true_iff, !andb_true_iff, !Z.leb_le, Z.eqb_eq. lia.
Qed.

Definition domain_byte (b : Z) : bool := domain_rune b || (b =? 46).

Lemma domain_byte_plain b : domain_byte b = true -> plain_byte b = true.
Proof.
  unfold domain_byte. rewrite orb_true_iff, domain_rune_spec, Z.eqb_eq. intros H.
  unfold plain_byte. rewrite !andb_true_iff, negb_true_iff, andb_false_iff, !Z.leb_le, !Z.leb_gt. lia.
Qed.

Lemma domain_label_bytes l : domain_label l = true -> all_bytes domain_rune l = true.
Proof.
  unfold domain_label. rewrite !andb_true_iff. intros [_ H].
  apply runes_ascii; [|done]. intros r Hr. apply domain_rune_spec in Hr. lia.
Qed.

Lemma split_labels_bytes s :
  forallb domain_label (split_byte s "."%char) = true -> all_bytes domain_byte s = true.
Proof.
  remember (String.length s) as n eqn:Hn. revert s Hn.
  induction (lt_wf n) as [n _ IH]; intros s ->.
  rewrite split_byte_cut. destruct (cut_byte s "."%char) as [[a b]|] eqn:E; cbn [forallb].
  - apply cut_byte_Some in E as [-> _]. rewrite andb_true_iff. intros [Ha Hb].
    rewrite all_bytes_app. apply andb_true_iff. split.
    + eapply all_bytes_impl; [|by apply domain_label_bytes].
      intros r Hr. unfold domain_byte. by rewrite Hr.
    + change (domain_byte 46 && all_bytes domain_byte b = true). cbn [andb domain_byte].
      apply (IH (String.length b)); [|done|done].
      rewrite length_append. cbn. lia.
  - rewrite andb_true_r. intros H. eapply all_bytes_impl; [|by apply domain_label_bytes].
    intros r Hr. unfold domain_byte. by rewrite Hr.
Qed.

Lemma valid_domain_bytes d : valid_domain d = true -> all_bytes domain_byte d = true.
Proof. unfold valid_domain. rewrite andb_true_iff. intros [_ H]. by apply split_labels_bytes. Qed.

Lemma valid_domain_plain d : valid_domain d = true -> all_bytes plain_byte d = true.
Proof. intros H. eapply all_bytes_impl; [exact domain_byte_plain|by apply valid_domain_bytes]. Qed.

(** No guard of [normalizeFirewallDomain] fires on such bytes. *)
Lemma Contains_first p s c t :
  all_bytes p s = true -> p (byte_of c) = false -> Contains s (String c t) = false.
Proof.
  induction s as [|x s IH]; intros Hs Hc; [done|].
  cbn in Hs. apply andb_true_iff in Hs as [Hx Hs].
  cbn [Contains]. rewrite IH by done. rewrite orb_false_r. cbn.
  destruct (ascii_dec c x) as [->|]; [congruence|done].
Qed.

Lemma domain_ContainsAny s :
  all_bytes domain_byte s = true -> ContainsAny s "/:@" = false.
Proof.
  intros H. unfold ContainsAny. cbn [list_ascii_of_string existsb].
  by rewrite !(all_bytes_no_byte domain_byte).
Qed.

(** A list of labels does not end in a dot. *)
Lemma labels_no_final_dot s :
  forallb domain_label (split_byte s "."%char) = true -> HasSuffix s "." = false.
Proof.
  intros H. apply not_true_iff_false. intros [q ->]%HasSuffix_spec.
  revert H. remember (String.length q) as n eqn:Hn. revert q Hn.
  induction (lt_wf n) as [n _ IH]; intros q ->.
  rewrite split_byte_cut.
  destruct (cut_byte (q +:+ ".") "."%char) as [[a b]|] eqn:E.
  - apply cut_byte_Some in E as [E _]. cbn [forallb]. intros [_ Hb]%andb_true_iff.
    destruct (HasSuffix b ".") eqn:Eb.
    + apply HasSuffix_spec in Eb as [q' ->].
      apply (IH (String.length q')) with (q := q'); [|done|done].
      apply (f_equal String.length) in E. rewrite !length_append in E.
      cbn in E. rewrite length_append in E. cbn in E. lia.
    + assert (b = "") as ->; [|done].
      destruct (HasSuffix (a +:+ String "." b) ".") eqn:Es.
      * apply not_true_iff_false in Eb. destruct b as [|x b]; [done|]. exfalso. apply Eb.
        apply HasSuffix_spec. clear -E.
        assert (Hl : forall t (u v : string), v <> "" -> t +:+ "." = u +:+ v -> exists w, v = w +:+ ".").
        { clear. induction t as [|y t IH]; intros [|z u] v Hv H.
          - by exists "".
          - exfalso. change ("" +:+ ".") with "." in H.
            change (String z u +:+ v) with (String z (u +:+ v)) in H.
            injection H as _ H. destruct u; [by change ("" +:+ v) with v in H; subst|done].
          - exists (String y t). change ("" +:+ v) with v in H. by rewrite <- H.
          - change (String y (t +:+ ".") = String z (u +:+ v)) in H. injection H as _ H. by eapply IH. }
        apply (Hl q (a +:+ ".") (String x b)); [done|]. rewrite E, append_assoc. done.
      * apply not_true_iff_false in Es. exfalso. apply Es, HasSuffix_spec. by exists q.
  - apply cut_byte_None in E. rewrite has_byte_app in E. apply orb_false_iff in E as [_ E]. done.
Qed.

(** The accepted domains are the normal forms, and each is its own. *)
Lemma normalizeFirewallDomain_valid v d :
  normalizeFirewallDomain v = Ok d -> valid_domain d = true.
Proof.
  unfold normalizeFirewallDomain. repeat (case_match; [done|]).
  case_match eqn:Hl; [|done]. intros [= <-]. unfold valid_domain. rewrite Hl, andb_true_r.
  apply Nat.ltb_lt. match goal with H : (_ =? 0)%nat = false |- _ => apply Nat.eqb_neq in H; lia end.
Qed.

Lemma valid_domain_fixed d : valid_domain d = true -> normalizeFirewallDomain d = Ok d.
Proof.
  intros H. pose proof (valid_domain_plain d H) as Hp.
  pose proof (valid_domain_bytes d H) as Hb. apply andb_true_iff in H as [Hc Hl].
  unfold normalizeFirewallDomain.
  rewrite (plain_ToLower d Hp), (plain_TrimSpace d Hp), TrimSuffix_none by by apply labels_no_final_dot.
  rewrite bool_decide_eq_false_2 by (intros ->; done).
  rewrite (Contains_first domain_byte) by done. rewrite domain_ContainsAny by done.
  rewrite (Contains_first domain_byte) by done.
  apply Nat.ltb_lt in Hc. rewrite (proj2 (Nat.eqb_neq _ _)) by lia. by rewrite Hl.
Qed.

(** ** IPv4 ranges *)

Lemma be_value_from l acc : foldl (fun a b => a * 256 + b) acc l = acc * 256 ^ Z.of_nat (length l) + be_value l.
Proof.
  unfold be_value. revert acc; induction l as [|x l IH]; intros acc; cbn [foldl length].
  - cbn. lia.
  - rewrite IH, (IH (0 * 256 + x)). rewrite Nat2Z.inj_succ, Z.pow_succ_r by lia. lia.
Qed.

Lemma be_value_cons x l : be_value (x :: l) = x * 256 ^ Z.of_nat (length l) + be_value l.
Proof. unfold be_value at 1; cbn [foldl]. rewrite be_value_from. lia. Qed.

Lemma be_value_bound l : byte_list l -> 0 <= be_value l < 256 ^ Z.of_nat (length l).
Proof.
  induction 1 as [|x l Hx _ IH]; [cbn; lia|].
  rewrite be_value_cons. cbn [length]. rewrite Nat2Z.inj_succ, Z.pow_succ_r by lia. nia.
Qed.

(** The byte by byte comparison of two addresses is the comparison of their
    numeric values. *)
Lemma compare_bytes_value s e :
  byte_list s -> byte_list e -> length s = length e ->
  match compare_bytes s e with
  | Some true => be_value s < be_value e
  | Some false => be_value e < be_value s
  | None => be_value s = be_value e
  end.
Proof.
  intros Hs; revert e; induction Hs as [|x s Hx Hs IH]; intros e He Hl;
    destruct He as [|y e Hy He]; try done.
  injection Hl as Hl. cbn [compare_bytes]. rewrite !be_value_cons, <- Hl.
  pose proof (be_value_bound s Hs). pose proof (be_value_bound e He) as He'. rewrite <- Hl in He'.
  destruct (Z.ltb_spec x y); [nia|]. destruct (Z.ltb_spec y x); [nia|].
  specialize (IH e He Hl). assert (x = y) as -> by lia. destruct (compare_bytes s e) as [[]|]; lia.
Qed.

Lemma parse_v4_bytes s b : ParseIP s ≫= To4 = Some b -> byte_list b /\ length b = 4%nat.
Proof.
  intros (ip & Hip & Hb)%bind_Some. apply ParseIP_bytes in Hip as [Hip _]. by eapply To4_bytes.
Qed.

Lemma parseIPv4_spec s : parseIPv4 s = true <-> exists b, ParseIP s ≫= To4 = Some b.
Proof.
  unfold parseIPv4. destruct (ParseIP s) as [ip|]; cbn.
  - by rewrite bool_decide_eq_true.
  - split; [done|]. by intros [? ?].
Qed.

(** A text that looks like an IPv4 range is accepted exactly when the
    address before the first hyphen is not above the one after it. *)
Theorem validateIPv4Range_numeric v :
  looksLikeIPv4Range v = true ->
  exists a b s e,
    cut_byte v "-"%char = Some (a, b) /\
    ParseIP (TrimSpace a) ≫= To4 = Some s /\ ParseIP (TrimSpace b) ≫= To4 = Some e /\
    length s = 4%nat /\ length e = 4%nat /\
    validateIPv4Range v =
      if be_value s <=? be_value e then Ok tt else Err (InvalidIPv4Range v).
Proof.
  unfold looksLikeIPv4Range, validateIPv4Range.
  destruct (cut_byte v "-"%char) as [[a b]|]; [|done].
  case_match; [done|]. rewrite andb_true_iff, !parseIPv4_spec. intros [[s Hs] [e He]].
  pose proof (parse_v4_bytes _ _ Hs) as [Bs Ls]. pose proof (parse_v4_bytes _ _ He) as [Be Le].
  exists a, b, s, e. rewrite Hs, He. repeat split; try done.
  pose proof (compare_bytes_value s e Bs Be) as Hc.
  destruct (compare_bytes s e) as [[]|]; specialize (Hc ltac:(congruence));
    destruct (Z.leb_spec (be_value s) (be_value e)); try done; lia.
Qed.

Lemma validateIPv4Range_witness :
  validateIPv4Range "10.0.0.200 - 10.0.1.9" = Ok tt /\
  exists a b s e, cut_byte "10.0.0.200 - 10.0.1.9" "-"%char = Some (a, b) /\
    ParseIP (TrimSpace a) ≫= To4 = Some s /\ ParseIP (TrimSpace b) ≫= To4 = Some e /\
    length s = 4%nat /\ length e = 4%nat /\
    validateIPv4Range "10.0.0.200 - 10.0.1.9" =
      if be_value s <=? be_value e then Ok tt
      else Err (InvalidIPv4Range "10.0.0.200 - 10.0.1.9").
Proof.
  split; [vm_compute; reflexivity|].
  apply (validateIPv4Range_numeric "10.0.0.200 - 10.0.1.9"). vm_compute. reflexivity.
Defined.

(** The accepted domain names are exactly the texts in normal form, and
    parsing one again gives it back. *)
Theorem normalizeFirewallDomain_normal_form d :
  (exists v, normalizeFirewallDomain v = Ok d) <->
  valid_domain d = true /\ normalizeFirewallDomain d = Ok d.
Proof.
  split.
  - intros [v Hv%normalizeFirewallDomain_valid]. split; [done|by apply valid_domain_fixed].
  - intros [_ H]. by exists d.
Qed.

(** ** IPv4 selectors *)

Definition ipv4_selector (x : string) : Prop := normalizeFirewallIPv4Selector x = Ok (Some x).

Lemma normalizeFirewallIPv4Selector_trim v :
  normalizeFirewallIPv4Selector (TrimSpace v) = normalizeFirewallIPv4Selector v.
Proof. unfold normalizeFirewallIPv4Selector. by rewrite TrimSpace_idemp. Qed.

Lemma normalizeFirewallIPv4Selector_some v x :
  normalizeFirewallIPv4Selector v = Ok (Some x) -> x = TrimSpace v /\ ipv4_selector x.
Proof.
  intros H. assert (x = TrimSpace v) as ->.
  { unfold normalizeFirewallIPv4Selector in H. case_match; [congruence|].
    case_match; [|done]. apply result_bind_ok in H as (? & _ & H). congruence. }
  split; [done|]. unfold ipv4_selector. by rewrite normalizeFirewallIPv4Selector_trim.
Qed.

(** A dot or a colon is needed. *)
Lemma no_separator_not_ipv4 p v :
  all_bytes p v = true -> p 46 = false -> p 58 = false -> ParseIP v = None.
Proof.
  intros Hv H1 H2. unfold ParseIP. enough (ParseAddr v = None) as -> by done.
  unfold ParseAddr. generalize (to_bytes v) at 2 as whole.
  unfold all_bytes in Hv. induction (to_bytes v) as [|c t IH]; intros whole; cbn [ParseAddr_from]; [done|].
  cbn in Hv. apply andb_true_iff in Hv as [Hc Ht].
  destruct (Z.eqb_spec c 46); [congruence|]. destruct (Z.eqb_spec c 58); [congruence|].
  destruct (c =? 37); [done|]. by apply IH.
Qed.

(** ** LAN sources *)

Definition all_sources (s : string) : bool := EqualFold s "all" || bool_decide (s = "*").

(** What every parsed source satisfies. *)
Definition plain_source (x : string) : Prop :=
  ipv4_selector x /\ TrimSpace x = x /\ x <> "" /\ all_sources x = false.

Lemma parse_sources_sound selectors out r :
  NoDup out -> Forall plain_source out -> parse_sources out selectors = Ok r ->
  (r = ["all"] /\ exists s, s ∈ selectors /\ all_sources (TrimSpace s) = true) \/
  (NoDup r /\ Forall plain_source r /\
   forall x, x ∈ r <-> x ∈ out \/ (x <> "" /\ exists s, s ∈ selectors /\ TrimSpace s = x)).
Proof.
  revert out; induction selectors as [|s rest IH]; intros out Hnd Hall; cbn [parse_sources].
  { intros [= <-]. right. split; [done|]. split; [done|]. intros x. split; [auto|].
    intros [?|(_ & ? & Hn & _)]; [done|]. by apply not_elem_of_nil in Hn. }
  fold (all_sources (TrimSpace s)). case_bool_decide as Hb.
  { intros H. destruct (IH out Hnd Hall H) as [(-> & t & Ht & Ha)|(Hr & Hp & Hx)]; [left|right].
    - split; [done|]. exists t. split; [by apply list_elem_of_further|done].
    - split; [done|]. split; [done|]. intros x. rewrite Hx.
      setoid_rewrite elem_of_cons. naive_solver. }
  destruct (all_sources (TrimSpace s)) eqn:Ea.
  { intros [= <-]. left. split; [done|]. exists s. split; [apply list_elem_of_here|done]. }
  rewrite normalizeFirewallIPv4Selector_trim.
  destruct (normalizeFirewallIPv4Selector s) as [[n|]|e] eqn:En; cbn; try done.
  apply normalizeFirewallIPv4Selector_some in En as [-> Hip]. intros H.
  destruct (IH (push_unique out (TrimSpace s))) as [(-> & t & Ht & Ha)|(Hr & Hp & Hx)]; [| |done| |].
  - rewrite <- (list_fmap_id (push_unique _ _)). apply push_unique_by_nodup. by rewrite list_fmap_id.
  - apply Forall_forall. intros x [Hx| ->]%push_unique_by_elem.
    + rewrite Forall_forall in Hall; auto.
    + repeat split; auto. apply TrimSpace_idemp.
  - left. split; [done|]. exists t. split; [by apply list_elem_of_further|done].
  - right. split; [done|]. split; [done|]. intros x. rewrite Hx.
    pose proof (push_unique_by_key id out (TrimSpace s) x) as Hk.
    rewrite !list_fmap_id in Hk. rewrite Hk. setoid_rewrite elem_of_cons. unfold id. naive_solver.
Qed.

(** A list of distinct parsed sources parses to itself. *)
Lemma parse_sources_fixed out l :
  NoDup (out ++ l) -> Forall plain_source l -> parse_sources out l = Ok (out ++ l).
Proof.
  revert out; induction l as [|x l IH]; intros out Hnd Hall; cbn [parse_sources];
    [by rewrite app_nil_r|].
  apply Forall_cons in Hall as [(Hip & Ht & Hne & Ha) Hall].
  unfold all_sources in Ha. rewrite Ht, bool_decide_eq_false_2, Ha by done.
  rewrite Hip. cbn. rewrite push_unique_by_new, IH, <- app_assoc; auto.
  - by rewrite <- app_assoc.
  - rewrite list_fmap_id. apply NoDup_app in Hnd as (_ & Hd & _).
    intros Hin. apply (Hd _ Hin). apply list_elem_of_here.
Qed.

(** A parsed source list is [all], when some selector says so, or the
    distinct IPv4 selectors among the trimmed non-blank ones, none lost; and
    parsing the result again gives it back. *)
Theorem ParseFirewallSources_sound selectors out :
  ParseFirewallSources selectors = Ok out ->
  ((out = ["all"] /\ exists s, s ∈ selectors /\ all_sources (TrimSpace s) = true) \/
   (NoDup out /\ (forall x, x ∈ out -> ipv4_selector x) /\
    forall x, x ∈ out <-> x <> "" /\ exists s, s ∈ selectors /\ TrimSpace s = x)) /\
  ParseFirewallSources out = Ok out.
Proof.
  intros H. destruct (parse_sources_sound _ _ _ (NoDup_nil_2) (Forall_nil_2 _) H)
    as [[-> Hs]|(Hnd & Hp & Hx)].
  - split; [by left|reflexivity].
  - split; [right|by apply (parse_sources_fixed [])].
    split; [done|]. split; [rewrite Forall_forall in Hp; naive_solver|].
    intros x. rewrite Hx. split; [intros [Hn|?]; [by apply not_elem_of_nil in Hn|done]|auto].
Qed.

Lemma ParseFirewallSources_witness :
  ParseFirewallSources [" 192.168.1.0/24"; ""; "192.168.1.0/24 "; "10.0.0.2"]
    = Ok ["192.168.1.0/24"; "10.0.0.2"] /\
  ParseFirewallSources ["192.168.1.0/24"; "10.0.0.2"] = Ok ["192.168.1.0/24"; "10.0.0.2"].
Proof.
  assert (H : ParseFirewallSources [" 192.168.1.0/24"; ""; "192.168.1.0/24 "; "10.0.0.2"]
    = Ok ["192.168.1.0/24"; "10.0.0.2"]) by (vm_compute; reflexivity).
  split; [exact H|]. apply (ParseFirewallSources_sound _ _ H).
Defined.

(** ** Service aliases *)

Lemma deprecated_fixed v w :
  deprecatedFirewallTargetAliases !! v = Some w -> v = "telegram-web" /\ w = "telegram".
Proof. unfold deprecatedFirewallTargetAliases. rewrite lookup_singleton_Some. naive_solver. Qed.

Lemma canonicalFirewallTargetAlias_idemp v :
  canonicalFirewallTargetAlias (canonicalFirewallTargetAlias v) = canonicalFirewallTargetAlias v.
Proof.
  unfold canonicalFirewallTargetAlias at 2 3.
  destruct (deprecatedFirewallTargetAliases !! TrimSpace (ToLower v)) as [w|] eqn:E; cbn.
  - apply deprecated_fixed in E as [_ ->]. vm_compute. reflexivity.
  - unfold canonicalFirewallTargetAlias. by rewrite trim_lower_idemp, E.
Qed.

Definition alias_byte (b : Z) : bool := lower_letter b || digit b || (b =? 45).

Lemma alias_runes_bytes v : alias_runes (runes v) = true -> all_bytes alias_byte v = true.
Proof.
  intros H. apply runes_ascii.
  - intros r. unfold alias_byte, lower_letter, digit.
    rewrite !orb_true_iff, !andb_true_iff, !Z.leb_le, Z.eqb_eq. lia.
  - destruct (runes v) as [|r rs]; [done|]. cbn in *.
    apply andb_true_iff in H as [Hr Hrs]. unfold alias_byte at 1. rewrite Hr. exact Hrs.
Qed.

(** [n] is a service name in normal form. *)
Definition valid_alias (n : string) : Prop := normalizeFirewallTargetAlias n = Ok n.

Lemma normalizeFirewallTargetAlias_valid v n :
  normalizeFirewallTargetAlias v = Ok n ->
  n = canonicalFirewallTargetAlias v /\ valid_alias n /\ n <> "" /\ all_bytes alias_byte n = true.
Proof.
  unfold valid_alias, normalizeFirewallTargetAlias. case_bool_decide as Hb; [done|].
  destruct (alias_runes _) eqn:E; [|done]. intros [= <-].
  rewrite canonicalFirewallTargetAlias_idemp, bool_decide_eq_false_2, E by done.
  repeat split; auto using alias_runes_bytes.
Qed.

Lemma cut_byte_all p v c a b :
  cut_byte v c = Some (a, b) -> all_bytes p v = true -> all_bytes p a = true.
Proof. intros [-> _]%cut_byte_Some. rewrite all_bytes_app, andb_true_iff. tauto. Qed.

(** A service name is no IPv4 selector. *)
Lemma alias_not_ipv4 n : all_bytes alias_byte n = true -> normalizeFirewallIPv4Selector n = Ok None.
Proof.
  intros Hn. unfold normalizeFirewallIPv4Selector.
  assert (Ha : forall b, alias_byte b = true -> plain_byte b = true).
  { intros b H. apply domain_byte_plain. unfold domain_byte, domain_rune. unfold alias_byte in H. by rewrite H. }
  rewrite plain_TrimSpace by (by eapply all_bytes_impl).
  unfold parseIPv4 at 1, parseIPv4CIDR, ParseCIDR.
  rewrite (no_separator_not_ipv4 alias_byte) by done.
  rewrite (proj2 (cut_byte_None n "/"%char) (all_bytes_no_byte alias_byte n "/"%char Hn eq_refl)).
  unfold looksLikeIPv4Range. destruct (cut_byte n "-"%char) as [[a b]|] eqn:E; [|done].
  pose proof (cut_byte_all alias_byte _ _ _ _ E Hn) as Hal.
  rewrite (plain_TrimSpace a) by (by eapply all_bytes_impl).
  destruct (bool_decide (a = "") || _); [done|].
  unfold parseIPv4 at 1. by rewrite (no_separator_not_ipv4 alias_byte a Hal).
Qed.

Lemma normalizeFirewallTargetService_some v reg n :
  normalizeFirewallTargetService v reg = Some n ->
  n = canonicalFirewallTargetAlias v /\ n <> "" /\ is_Some (reg !! n).
Proof.
  unfold normalizeFirewallTargetService. case_bool_decide; [done|].
  case_bool_decide; [|done]. by intros [= <-].
Qed.

(** ** Mixed target selectors *)

(** Every name of the registry is in normal form. *)
Definition registry_names_ok (registry : Catalog) : Prop :=
  forall n, is_Some (registry !! n) -> valid_alias n.

Section Targets.
  Context (registry : Catalog).

(** The invariant of the parsing loop. *)
Definition targets_ok (t : FirewallTargets) : Prop :=
  (NoDup (FirewallTargets.Services t) /\
   forall n, n ∈ FirewallTargets.Services t ->
     canonicalFirewallTargetAlias n = n /\ n <> "" /\ is_Some (registry !! n)) /\
  (NoDup (FirewallTargets.CIDRs t) /\
   forall c, c ∈ FirewallTargets.CIDRs t -> ipv4_selector c /\ TrimSpace c = c /\ c <> "") /\
  (NoDup (FirewallTargets.Domains t) /\
   forall d, d ∈ FirewallTargets.Domains t -> valid_domain d = true).

Lemma push_unique_ok (P : string -> Prop) l x :
  NoDup l /\ (forall y, y ∈ l -> P y) -> P x ->
  NoDup (push_unique l x) /\ (forall y, y ∈ push_unique l x -> P y).
Proof.
  intros [Hnd Hl] Hx. split.
  - rewrite <- (list_fmap_id (push_unique _ _)). apply push_unique_by_nodup. by rewrite list_fmap_id.
  - intros y [?| ->]%push_unique_by_elem; auto.
Qed.

Lemma targets_ok_cidr t s n :
  targets_ok t -> TrimSpace s <> "" -> normalizeFirewallIPv4Selector (TrimSpace s) = Ok (Some n) ->
  targets_ok (t <| FirewallTargets.CIDRs ::= fun l => push_unique l n |>).
Proof.
  intros (Hs & Hc & Hd) Hne Hn. apply normalizeFirewallIPv4Selector_some in Hn as [-> Hn].
  rewrite TrimSpace_idemp in *. split; [done|]. split; [|done].
  apply push_unique_ok; [done|]. by rewrite TrimSpace_idemp.
Qed.

Lemma targets_ok_service t s n :
  targets_ok t -> normalizeFirewallTargetService s registry = Some n ->
  targets_ok (t <| FirewallTargets.Services ::= fun l => push_unique l n |>).
Proof.
  intros (Hs & Hc & Hd) Hn. apply normalizeFirewallTargetService_some in Hn as (-> & Hne & Hr).
  split; [|done]. apply push_unique_ok; [done|]. by rewrite canonicalFirewallTargetAlias_idemp.
Qed.

Lemma targets_ok_domain t s n :
  targets_ok t -> normalizeFirewallDomain s = Ok n ->
  targets_ok (t <| FirewallTargets.Domains ::= fun l => push_unique l n |>).
Proof.
  intros (Hs & Hc & Hd) Hn%normalizeFirewallDomain_valid.
  split; [done|]. split; [done|]. by apply push_unique_ok.
Qed.

Lemma parse_target_ok t s t' : targets_ok t -> parse_target registry t s = Ok t' -> targets_ok t'.
Proof.
  intros Ht. unfold parse_target. case_bool_decide; [congruence|].
  intros ([n|] & Hn & H0)%result_bind_ok.
  - injection H0 as <-. by apply (targets_ok_cidr _ s).
  - destruct (normalizeFirewallTargetService _ _) eqn:Es.
    + injection H0 as <-. by eapply targets_ok_service.
    + case_match; [done|]. apply result_bind_ok in H0 as (d & Hd & [= <-]). by eapply targets_ok_domain.
Qed.

Lemma targets_ok_zero : targets_ok FirewallTargets.zero.
Proof.
  assert (H : forall P : string -> Prop, NoDup (@nil string) /\ forall x, x ∈ [] -> P x).
  { intros P. split; [apply NoDup_nil_2|]. by intros x Hx%not_elem_of_nil. }
  split; [|split]; apply H.
Qed.

(** A round of the loop that adds [x] to the list [field]. *)
Lemma fold_target_append (field : FirewallTargets -> list string) `{!Setter field}
    (f : FirewallTargets -> string -> result FirewallError FirewallTargets) t l :
  (forall t x, x ∈ l -> f t x = Ok (t <| field ::= fun l => push_unique l x |>)) ->
  (forall t g, field (t <| field ::= g |>) = g (field t)) ->
  (forall t g h, (t <| field ::= g |>) <| field ::= h |> = t <| field ::= fun l => h (g l) |>) ->
  (forall t, t <| field ::= fun l => l |> = t) ->
  (forall t g h, g (field t) = h (field t) -> t <| field ::= g |> = t <| field ::= h |>) ->
  NoDup (field t ++ l) ->
  fold_result f t l = Ok (t <| field ::= fun k => k ++ l |>).
Proof.
  intros Hf Hget Hset Hid Hext. revert t; induction l as [|x l IH]; intros t Hnd; cbn [fold_result].
  - f_equal. rewrite <- (Hid t) at 1. apply Hext. by rewrite app_nil_r.
  - rewrite Hf by apply list_elem_of_here. cbn [result_bind].
    assert (Hx : push_unique (field t) x = field t ++ [x]).
    { apply push_unique_by_new. rewrite list_fmap_id. apply NoDup_app in Hnd as (_ & Hd & _).
      intros Hin. apply (Hd _ Hin), list_elem_of_here. }
    rewrite IH.
    + rewrite Hset. f_equal. apply Hext. by rewrite Hx, <- app_assoc.
    + intros; apply Hf; by apply list_elem_of_further.
    + by rewrite Hget, Hx, <- app_assoc.
Qed.

End Targets.

Lemma registry_names_plain registry n :
  registry_names_ok registry -> is_Some (registry !! n) ->
  all_bytes alias_byte n = true /\ canonicalFirewallTargetAlias n = n /\ n <> "".
Proof.
  intros H Hn. destruct (normalizeFirewallTargetAlias_valid n n (H n Hn)) as (Hc & _ & Hne & Hb).
  split; [exact Hb|]. split; [symmetry; exact Hc|exact Hne].
Qed.

Lemma alias_visible n : all_bytes alias_byte n = true -> TrimSpace n = n.
Proof.
  intros H. apply plain_TrimSpace. eapply all_bytes_impl; [|exact H].
  intros b Hb. apply domain_byte_plain. unfold domain_byte, domain_rune. unfold alias_byte in Hb. by rewrite Hb.
Qed.

Lemma parse_target_service registry t n :
  registry_names_ok registry -> is_Some (registry !! n) ->
  parse_target registry t n = Ok (t <| FirewallTargets.Services ::= fun l => push_unique l n |>).
Proof.
  intros Hreg Hn. destruct (registry_names_plain _ _ Hreg Hn) as (Hb & Hc & Hne).
  unfold parse_target. rewrite (alias_visible n Hb), bool_decide_eq_false_2 by done.
  rewrite (alias_not_ipv4 n Hb). cbn [result_bind].
  unfold normalizeFirewallTargetService. rewrite Hc.
  by rewrite bool_decide_eq_false_2, bool_decide_eq_true_2.
Qed.

Lemma parse_target_cidr registry t c :
  ipv4_selector c -> TrimSpace c = c -> c <> "" ->
  parse_target registry t c = Ok (t <| FirewallTargets.CIDRs ::= fun l => push_unique l c |>).
Proof. intros H1 H2 H3. unfold parse_target. by rewrite H2, bool_decide_eq_false_2, H1. Qed.

Lemma valid_domain_dot d : valid_domain d = true -> has_byte d "."%char = true /\ d <> "".
Proof.
  intros [H _]%andb_true_iff. split; [|by intros ->].
  pose proof (count_byte_has d "."%char) as Hc. apply Nat.ltb_lt in H.
  rewrite (proj2 (Nat.eqb_neq _ _)) in Hc by lia. destruct (has_byte d "."); [done|discriminate Hc].
Qed.

Lemma parse_target_domain registry t d :
  registry_names_ok registry -> valid_domain d = true -> normalizeFirewallIPv4Selector d = Ok None ->
  parse_target registry t d = Ok (t <| FirewallTargets.Domains ::= fun l => push_unique l d |>).
Proof.
  intros Hreg Hd Hip. pose proof (valid_domain_plain d Hd) as Hp.
  destruct (valid_domain_dot d Hd) as [Hdot Hne].
  assert (Hcan' : canonicalFirewallTargetAlias d = d).
  { unfold canonicalFirewallTargetAlias. rewrite (plain_ToLower d Hp), (plain_TrimSpace d Hp).
    destruct (deprecatedFirewallTargetAliases !! d) as [w|] eqn:E; [|done].
    by apply deprecated_fixed in E as [-> _]. }
  unfold parse_target. rewrite (plain_TrimSpace d Hp), bool_decide_eq_false_2, Hip by done.
  cbn [result_bind]. unfold normalizeFirewallTargetService. rewrite Hcan', bool_decide_eq_false_2 by done.
  rewrite bool_decide_eq_false_2.
  - assert (Contains d "." = true) as ->.
    { apply Contains_spec. destruct (cut_byte d "."%char) as [[a b]|] eqn:E.
      - apply cut_byte_Some in E as [-> _]. by exists a, b.
      - apply cut_byte_None in E. congruence. }
    rewrite andb_false_r, (valid_domain_fixed d Hd). done.
  - intros Hn. apply (registry_names_plain _ _ Hreg) in Hn as [Hb _].
    rewrite (all_bytes_no_byte alias_byte) in Hdot; done.
Qed.


(** Parsed targets are duplicate-free; the services are known names in
    normal form, the addresses IPv4 selectors and the domains normal forms.
    With a registry of valid names, and unless a domain reads as an IPv4
    selector, parsing the three lists again gives the same targets. *)
Theorem ParseFirewallTargets_sound selectors custom t :
  ParseFirewallTargets selectors custom = Ok t ->
  targets_ok (mergeFirewallTargetRegistry custom) t /\
  (registry_names_ok (mergeFirewallTargetRegistry custom) ->
   (forall d, d ∈ FirewallTargets.Domains t -> normalizeFirewallIPv4Selector d = Ok None) ->
   ParseFirewallTargets
     (FirewallTargets.Services t ++ FirewallTargets.CIDRs t ++ FirewallTargets.Domains t) custom = Ok t).
Proof.
  unfold ParseFirewallTargets. intros H.
  assert (Hok : targets_ok (mergeFirewallTargetRegistry custom) t).
  { eapply (fold_result_inv _ (targets_ok _)); [apply targets_ok_zero| |exact H].
    intros; by eapply parse_target_ok. }
  split; [done|]. intros Hreg Hdom. destruct Hok as ((Hs & Ps) & (Hc & Pc) & (Hd & Pd)).
  rewrite fold_result_app, (fold_target_append FirewallTargets.Services); try done.
  2:{ intros t0 x Hx. apply parse_target_service; [done|]. by apply Ps. }
  2:{ by intros []. }
  2:{ intros [] g h E. cbv in E |- *. by rewrite E. }
  cbn [result_bind]. rewrite fold_result_app, (fold_target_append FirewallTargets.CIDRs); try done.
  2:{ intros t0 x Hx. apply parse_target_cidr; by apply Pc. }
  2:{ by intros []. }
  2:{ intros [] g h E. cbv in E |- *. by rewrite E. }
  cbn [result_bind]. rewrite (fold_target_append FirewallTargets.Domains); try done.
  - by destruct t.
  - intros t0 x Hx. apply parse_target_domain; auto.
  - by intros [].
  - intros [] g h E. cbv in E |- *. by rewrite E.
Qed.

Lemma ParseFirewallTargets_witness :
  let t := FirewallTargets.mk ["youtube"] ["1.2.3.4"] ["example.org"] in
  ParseFirewallTargets ["YouTube"; " 1.2.3.4"; "Example.ORG."] ∅ = Ok t /\
  ParseFirewallTargets ["youtube"; "1.2.3.4"; "example.org"] ∅ = Ok t.
Proof.
  intros t.
  assert (H : ParseFirewallTargets ["YouTube"; " 1.2.3.4"; "Example.ORG."] ∅ = Ok t)
    by (vm_compute; reflexivity).
  split; [exact H|].
  apply (ParseFirewallTargets_sound _ _ _ H).
  - intros n Hn.
    assert (Hall : map_Forall (fun k _ => normalizeFirewallTargetAlias k = Ok k)
      (mergeFirewallTargetRegistry ∅)) by (apply (bool_decide_unpack _); vm_compute; exact I).
    destruct Hn as [d Hd]. exact (Hall n d Hd).
  - intros d Hd. apply list_elem_of_singleton in Hd as ->. vm_compute. reflexivity.
Defined.

(** A final dot turns an address, and even a reversed range, into a domain
    selector. *)
Lemma trailing_dot_address_is_domain :
  ParseFirewallTargets ["1.2.3.4."; "10.0.0.9-10.0.0.1."] ∅ =
    Ok (FirewallTargets.mk [] [] ["1.2.3.4"; "10.0.0.9-10.0.0.1"]) /\
  ParseFirewallTargets ["10.0.0.9-10.0.0.1"] ∅ = Err (InvalidIPv4Range "10.0.0.9-10.0.0.1").
Proof. split; vm_compute; reflexivity. Qed.
