(* ===== verification/FirewallGraph.v ===== *)
(** * Target services as a graph

    A user-defined service refers to others.  The depth-first validation of
    [Firewall] accepts a catalog exactly when every reference is known and no
    service reaches itself, whatever the order in which Go ranges over the
    map; expanding a service yields exactly the entries of the services it
    reaches. *)
From S2P Require Import Prelude GoRunes GoStrings NetIP Firewall FirewallFacts.

Local Open Scope list_scope.

(** ** Well-founded catalogs *)

Section Catalog.
  Context (catalog : Catalog).

(** One reference to a user-defined service. *)
Definition refers (a b : string) : Prop :=
  exists d, catalog !! a = Some d /\ b ∈ FirewallTargetDefinition.Services d /\
    isBuiltinFirewallTargetService b = false.

(** Every chain of references from [name] is known and ends. *)
Inductive well_founded_service (name : string) : Prop :=
| wf_service d :
    catalog !! name = Some d ->
    name ∉ FirewallTargetDefinition.Services d ->
    (forall dep, refers name dep -> well_founded_service dep) ->
    well_founded_service name.

Lemma well_founded_known n : well_founded_service n -> is_Some (catalog !! n).
Proof. destruct 1; eauto. Qed.

Lemma well_founded_tc n m : well_founded_service n -> tc refers n m -> well_founded_service m.
Proof. intros Hn Ht. induction Ht as [a b H|a b c H _ IH]; [|apply IH]; destruct Hn; auto. Qed.

Lemma well_founded_no_cycle n : well_founded_service n -> ~ tc refers n n.
Proof.
  induction 1 as [n d Hd Hself _ IH]. intros Ht.
  inversion Ht as [? ? H|? b ? H Hb]; subst.
  - destruct H as (d' & Hd' & Hin & _). congruence.
  - apply (IH b H). by eapply tc_r.
Qed.

(** ** The validation is sound *)

Lemma validate_deps_sound (rec : gset string -> string -> result FirewallError (gset string))
    name deps visited visited' :
  (forall v dep v', rec v dep = Ok v' -> set_Forall well_founded_service v ->
     v ⊆ v' /\ dep ∈ v' /\ set_Forall well_founded_service v') ->
  set_Forall well_founded_service visited ->
  fold_result (fun visited dependency =>
      if bool_decide (dependency = name) then Err (SelfReference name)
      else if isBuiltinFirewallTargetService dependency then Ok visited
      else if bool_decide (catalog !! dependency = None)
      then Err (UnknownDependency name dependency)
      else rec visited dependency) visited deps = Ok visited' ->
  visited ⊆ visited' /\ set_Forall well_founded_service visited' /\ (name ∉ deps) /\
  forall dep, dep ∈ deps -> isBuiltinFirewallTargetService dep = false -> dep ∈ visited'.
Proof.
  intros Hrec. revert visited; induction deps as [|dep deps IH]; intros visited Hv; cbn.
  { intros [= <-]. repeat split; auto; try apply not_elem_of_nil. by intros ? ?%not_elem_of_nil. }
  case_bool_decide as Hself; [done|].
  destruct (isBuiltinFirewallTargetService dep) eqn:Eb.
  - cbn. intros H. destruct (IH _ Hv H) as (H1 & H2 & H3 & H4).
    rewrite not_elem_of_cons. repeat split; auto.
    intros dep' [->|Hd]%elem_of_cons Hb; [congruence|auto].
  - case_bool_decide; [done|]. intros (v1 & Hv1 & Hrest)%result_bind_ok.
    destruct (Hrec _ _ _ Hv1 Hv) as (Hsub & Hin & Hall).
    destruct (IH _ Hall Hrest) as (H1 & H2 & H3 & H4).
    rewrite not_elem_of_cons. split; [by etrans|]. repeat split; auto.
    intros dep' [->|Hd]%elem_of_cons Hb; [by apply H1|by apply H4].
Qed.

Lemma validate_dependencies_sound fuel visiting visited name visited' :
  validateFirewallTargetDependencies fuel catalog visiting visited name = Ok visited' ->
  set_Forall well_founded_service visited ->
  visited ⊆ visited' /\ name ∈ visited' /\ set_Forall well_founded_service visited'.
Proof.
  revert visiting visited name visited'; induction fuel as [|fuel IH];
    intros visiting visited name visited'; cbn [validateFirewallTargetDependencies]; [done|].
  case_bool_decide as Hin; [by intros [= <-]|].
  case_bool_decide; [done|]. destruct (catalog !! name) as [d|] eqn:Ed; [|done].
  intros (v1 & Hv1 & [= <-])%result_bind_ok Hv.
  apply validate_deps_sound in Hv1 as (H1 & H2 & H3 & H4); [|eauto|done].
  split; [by apply union_subseteq_r'|]. split; [apply elem_of_union_l, elem_of_singleton; done|].
  intros n [Hn%elem_of_singleton|Hn]%elem_of_union; [subst n|by apply H2].
  apply (wf_service name d Ed H3). intros dep (d' & Hd' & Hdep & Hb).
  simplify_eq. apply H2, H4; done.
Qed.

(** ** The validation is complete, and its fuel is enough *)

Lemma validate_deps_complete (rec : gset string -> string -> result FirewallError (gset string))
    name deps visited :
  name ∉ deps ->
  (forall dep, dep ∈ deps -> isBuiltinFirewallTargetService dep = false ->
     is_Some (catalog !! dep) /\ forall v, exists v', rec v dep = Ok v') ->
  exists visited', fold_result (fun visited dependency =>
      if bool_decide (dependency = name) then Err (SelfReference name)
      else if isBuiltinFirewallTargetService dependency then Ok visited
      else if bool_decide (catalog !! dependency = None)
      then Err (UnknownDependency name dependency)
      else rec visited dependency) visited deps = Ok visited'.
Proof.
  revert visited; induction deps as [|dep deps IH]; intros visited Hself Hrec; cbn; [eauto|].
  apply not_elem_of_cons in Hself as [Hne Hself].
  rewrite bool_decide_eq_false_2 by congruence.
  assert (Hrec' : forall dep, dep ∈ deps -> isBuiltinFirewallTargetService dep = false ->
     is_Some (catalog !! dep) /\ forall v, exists v', rec v dep = Ok v')
    by (intros; apply Hrec; [by apply list_elem_of_further|done]).
  destruct (isBuiltinFirewallTargetService dep) eqn:Eb; cbn; [by apply IH|].
  destruct (Hrec dep (list_elem_of_here _ _) Eb) as [[d Hd] Hv].
  rewrite bool_decide_eq_false_2 by congruence.
  destruct (Hv visited) as [v' ->]. cbn. by apply IH.
Qed.

Lemma visiting_grows (keys visiting : gset string) name :
  name ∈ keys -> name ∉ visiting ->
  size (keys ∖ ({[name]} ∪ visiting)) < size (keys ∖ visiting).
Proof. intros. apply subset_size. set_solver. Qed.

Lemma validate_dependencies_complete name :
  well_founded_service name -> forall fuel visiting visited,
  (forall v, v ∈ visiting -> tc refers v name) ->
  size (dom catalog ∖ visiting) < fuel ->
  exists visited',
    validateFirewallTargetDependencies fuel catalog visiting visited name = Ok visited'.
Proof.
  induction 1 as [name d Hd Hself Hdeps IH]. intros [|fuel] visiting visited Hvis Hfuel; [lia|].
  cbn [validateFirewallTargetDependencies]. case_bool_decide; [eauto|].
  case_bool_decide as Hvis'.
  { exfalso. apply (well_founded_no_cycle name); [by econstructor|]. by apply Hvis. }
  rewrite Hd.
  destruct (validate_deps_complete
    (fun v dep => validateFirewallTargetDependencies fuel catalog ({[name]} ∪ visiting) v dep)
    name (FirewallTargetDefinition.Services d) visited) as [v' Hv'].
  - done.
  - intros dep Hdep Hb. assert (Hr : refers name dep) by (exists d; auto).
    split; [by apply well_founded_known, Hdeps|]. intros v. apply IH; [done| |].
    + intros w [->%elem_of_singleton|Hw]%elem_of_union; [by apply tc_once|].
      eapply tc_r; [by apply Hvis|done].
    + pose proof (visiting_grows _ _ _ (elem_of_dom_2 _ _ _ Hd) Hvis'). lia.
  - rewrite Hv'. cbn. eauto.
Qed.

End Catalog.

(** The walk stops before its fuel does, on every catalog. *)
Lemma fold_result_no_err {E A S} (f : S -> A -> result E S) e acc l :
  (forall acc a, a ∈ l -> f acc a <> Err e) -> fold_result f acc l <> Err e.
Proof.
  revert acc; induction l as [|x l IH]; intros acc Hf; cbn; [done|].
  pose proof (Hf acc x (list_elem_of_here _ _)) as Hx.
  destruct (f acc x) as [a|]; cbn; [|congruence].
  apply IH. intros; apply Hf. by apply list_elem_of_further.
Qed.

Lemma validate_dependencies_fuel catalog fuel visiting visited name :
  size (dom catalog ∖ visiting) < fuel ->
  validateFirewallTargetDependencies fuel catalog visiting visited name <> Err OutOfFuel.
Proof.
  revert visiting visited name; induction fuel as [|fuel IH]; intros visiting visited name Hf; [lia|].
  cbn [validateFirewallTargetDependencies]. case_bool_decide; [done|].
  case_bool_decide as Hvis; [done|]. destruct (catalog !! name) as [d|] eqn:Ed; [|done].
  intros [Hfold|(? & _ & Hok)]%result_bind_err; [|done]. revert Hfold.
  apply fold_result_no_err. intros v dep _.
  case_bool_decide; [done|]. case_match; [done|]. case_bool_decide; [done|]. apply IH.
  pose proof (visiting_grows _ _ _ (elem_of_dom_2 _ _ _ Ed) Hvis). lia.
Qed.

Lemma catalog_fuel_enough catalog : size (dom catalog ∖ ∅) < catalog_fuel catalog.
Proof.
  assert (Hs : size (dom catalog) = size catalog) by apply size_dom.
  rewrite difference_empty_L. unfold catalog_fuel. lia.
Qed.

(** Every service of the catalog is well founded. *)
Definition valid_catalog (catalog : Catalog) : Prop :=
  forall n, is_Some (catalog !! n) -> well_founded_service catalog n.

(** C33: whatever the order of the map iteration, the validation accepts a
    catalog exactly when every reference is known, no service includes itself
    and no chain of references returns to its start; its fuel never runs out. *)
Theorem validateFirewallTargetCatalog_correct names catalog :
  names ≡ₚ (map_to_list catalog).*1 ->
  (is_ok (validateFirewallTargetCatalog names catalog) = true <-> valid_catalog catalog) /\
  validateFirewallTargetCatalog names catalog <> Err OutOfFuel.
Proof.
  intros Hnames.
  assert (Hin : forall n, n ∈ names <-> is_Some (catalog !! n)).
  { intros n. rewrite Hnames, list_elem_of_fmap. split.
    - intros ([k d] & -> & H%elem_of_map_to_list). by exists d.
    - intros [d Hd]. exists (n, d). split; [done|]. by apply elem_of_map_to_list. }
  unfold validateFirewallTargetCatalog. split.
  2:{ apply fold_result_no_err. intros v n _. apply validate_dependencies_fuel, catalog_fuel_enough. }
  rewrite is_ok_true. split.
  - intros [v Hv] n Hn%Hin. revert Hn Hv.
    enough (Hgen : forall names acc, set_Forall (well_founded_service catalog) acc ->
      fold_result (fun visited name => validateFirewallTargetDependencies (catalog_fuel catalog)
        catalog ∅ visited name) acc names = Ok v ->
      acc ⊆ v /\ set_Forall (well_founded_service catalog) v /\ forall n, n ∈ names -> n ∈ v).
    { intros Hn Hv. apply Hgen in Hv as (_ & Hall & Hsub); [|done]. by apply Hall, Hsub. }
    clear. induction names as [|m names IH]; intros acc Hacc; cbn [fold_result].
    { intros [= <-]. repeat split; auto. by intros ? ?%not_elem_of_nil. }
    intros (a & Ha & Hrest)%result_bind_ok.
    apply validate_dependencies_sound in Ha as (H1 & H2 & H3); [|done].
    destruct (IH a H3 Hrest) as (H4 & H5 & H6). split; [by etrans|]. split; [done|].
    intros n [->|Hn]%elem_of_cons; [by apply H4|by apply H6].
  - intros Hall. assert (Hwf : forall n, n ∈ names -> well_founded_service catalog n) by naive_solver.
    clear Hin Hnames Hall. generalize (∅ : gset string) at 2 as acc.
    induction names as [|m names IH]; intros acc; cbn [fold_result]; [eauto|].
    destruct (validate_dependencies_complete catalog m (Hwf m (list_elem_of_here _ _))
      (catalog_fuel catalog) ∅ acc) as [a ->]; [by intros ? ?%not_elem_of_empty|apply catalog_fuel_enough|].
    apply IH. intros; apply Hwf. by apply list_elem_of_further.
Qed.

Definition cyclic_catalog : Catalog := {[
  "a" := FirewallTargetDefinition.mk ["b"] [] [];
  "b" := FirewallTargetDefinition.mk ["youtube"; "c"] [] [];
  "c" := FirewallTargetDefinition.mk ["a"] [] [] ]}.

Lemma validateFirewallTargetCatalog_witness :
  validateFirewallTargetCatalog ["b"; "c"; "a"] cyclic_catalog = Err (ServiceCycle "b") /\
  ~ valid_catalog cyclic_catalog.
Proof.
  assert (H : validateFirewallTargetCatalog ["b"; "c"; "a"] cyclic_catalog = Err (ServiceCycle "b"))
    by (vm_compute; reflexivity).
  split; [exact H|]. intros Hv.
  apply (validateFirewallTargetCatalog_correct ["b"; "c"; "a"] cyclic_catalog) in Hv.
  - rewrite H in Hv. discriminate Hv.
  - apply (bool_decide_unpack _). vm_compute. exact I.
Defined.

(** Chains of references that return to their start make a catalog invalid. *)
Lemma valid_catalog_acyclic catalog n :
  valid_catalog catalog -> is_Some (catalog !! n) -> ~ tc (refers catalog) n n.
Proof. intros H Hn. by apply well_founded_no_cycle, H. Qed.

Lemma valid_catalog_closed catalog n d dep :
  valid_catalog catalog -> catalog !! n = Some d -> dep ∈ FirewallTargetDefinition.Services d ->
  dep <> n /\ (isBuiltinFirewallTargetService dep = true \/ is_Some (catalog !! dep)).
Proof.
  intros H Hd Hdep. destruct (H n (mk_is_Some _ _ Hd)) as [d' Hd' Hself Hdeps]. simplify_eq.
  split; [congruence|]. destruct (isBuiltinFirewallTargetService dep) eqn:Eb; [by left|right].
  eapply well_founded_known, Hdeps. exists d. auto.
Qed.

(** ** Defining a service *)

Lemma parse_definition_selector_ok name registry t s t' :
  targets_ok registry t /\ name ∉ FirewallTargets.Services t ->
  parse_definition_selector name registry t s = Ok t' ->
  targets_ok registry t' /\ name ∉ FirewallTargets.Services t'.
Proof.
  intros [Ht Hname]. unfold parse_definition_selector. case_bool_decide; [intros [= <-]; done|].
  intros ([n|] & Hn & Hr)%result_bind_ok.
  { injection Hr as <-. split; [by apply (targets_ok_cidr _ _ s)|done]. }
  destruct (normalizeFirewallTargetService _ _) eqn:Es.
  { case_bool_decide; [done|]. injection Hr as <-. split; [by eapply targets_ok_service|].
    intros [?|?]%push_unique_by_elem; congruence. }
  assert (Hd : (let* normalized := normalizeFirewallDomain (TrimSpace s) in
    Ok (t <| FirewallTargets.Domains ::= fun l => push_unique l normalized |>)) = Ok t').
  { destruct (normalizeFirewallTargetAlias _); [|done].
    destruct (negb _); [|done]. case_bool_decide; discriminate Hr. }
  apply result_bind_ok in Hd as (d & Hd & [= <-]). split; [by eapply targets_ok_domain|done].
Qed.

(** A parsed definition has a valid name that no built-in preset owns, holds
    well-formed entries (at least one) and not itself, and adding it to the
    catalog leaves a valid catalog. *)
Theorem ParseFirewallTargetDefinition_sound range_order name selectors catalog n d :
  (forall c : Catalog, range_order c ≡ₚ (map_to_list c).*1) ->
  ParseFirewallTargetDefinition range_order name selectors catalog = Ok (n, d) ->
  valid_alias n /\ isBuiltinFirewallTargetService n = false /\
  targets_ok (mergeFirewallTargetRegistry catalog)
    (FirewallTargets.mk (FirewallTargetDefinition.Services d) (FirewallTargetDefinition.CIDRs d)
       (FirewallTargetDefinition.Domains d)) /\
  (n ∉ FirewallTargetDefinition.Services d) /\ d <> FirewallTargetDefinition.zero /\
  valid_catalog (<[n := d]> catalog).
Proof.
  intros Horder. unfold ParseFirewallTargetDefinition. rewrite CloneFirewallTargetCatalog_id.
  intros (name' & Hname & H)%result_bind_ok. destruct (isBuiltinFirewallTargetService name') eqn:Eb; [done|].
  apply result_bind_ok in H as (t & Ht & H).
  destruct (bool_decide _ && bool_decide _ && bool_decide _) eqn:Ez; [done|].
  apply result_bind_ok in H as (v & Hv & [= <- <-]). cbn [FirewallTargetDefinition.Services
    FirewallTargetDefinition.CIDRs FirewallTargetDefinition.Domains].
  destruct (normalizeFirewallTargetAlias_valid _ _ Hname) as (_ & Hvalid & _).
  assert (Hinv : targets_ok (mergeFirewallTargetRegistry catalog) t /\ name' ∉ FirewallTargets.Services t).
  { eapply (fold_result_inv _ (fun t => targets_ok (mergeFirewallTargetRegistry catalog) t /\
      name' ∉ FirewallTargets.Services t)); [| |exact Ht].
    - split; [apply targets_ok_zero|apply not_elem_of_nil].
    - intros; by eapply parse_definition_selector_ok. }
  destruct Hinv as [Hok Hself]. split; [exact Hvalid|]. split; [exact Eb|].
  split; [destruct t; exact Hok|]. split; [exact Hself|]. split.
  - unfold FirewallTargetDefinition.zero. intros E. injection E as E1 E2 E3.
    cbn in Ez. rewrite E1, E2, E3 in Ez. discriminate Ez.
  - apply (validateFirewallTargetCatalog_correct _ _ (Horder _)). rewrite Hv. reflexivity.
Qed.

Lemma ParseFirewallTargetDefinition_witness :
  let order := fun c : Catalog => (map_to_list c).*1 in
  let d := FirewallTargetDefinition.mk ["youtube"] ["example.org"] ["1.2.3.4"] in
  ParseFirewallTargetDefinition order "Work" ["YouTube"; "1.2.3.4"; "example.org"] ∅ = Ok ("work", d) /\
  valid_catalog (<["work" := d]> ∅).
Proof.
  intros order d.
  assert (H : ParseFirewallTargetDefinition order "Work" ["YouTube"; "1.2.3.4"; "example.org"] ∅
    = Ok ("work", d)) by (vm_compute; reflexivity).
  split; [exact H|].
  apply (ParseFirewallTargetDefinition_sound order "Work" ["YouTube"; "1.2.3.4"; "example.org"] ∅ "work" d).
  - intros c. reflexivity.
  - exact H.
Defined.

(** ** Expansion *)

Section Expand.
  Context (registry : Catalog).

(** [t] is [s] or included by it, directly or through other services. *)
Inductive reaches : string -> string -> Prop :=
| reaches_here s : is_Some (registry !! s) -> reaches s s
| reaches_step s d i t :
    registry !! s = Some d -> i ∈ FirewallTargetDefinition.Services d ->
    reaches (canonicalFirewallTargetAlias i) t -> reaches s t.

(** The same without meeting [V] or a service twice: the walk of the source. *)
Inductive reaches_avoiding : gset string -> string -> string -> Prop :=
| avoiding_here (V : gset string) s :
    s ∉ V -> is_Some (registry !! s) -> reaches_avoiding V s s
| avoiding_step (V : gset string) s d i t :
    s ∉ V -> registry !! s = Some d -> i ∈ FirewallTargetDefinition.Services d ->
    reaches_avoiding ({[ s ]} ∪ V) (canonicalFirewallTargetAlias i) t -> reaches_avoiding V s t.

Lemma avoiding_weaken V W s t : W ⊆ V -> reaches_avoiding V s t -> reaches_avoiding W s t.
Proof.
  intros HW H; revert W HW; induction H as [V s Hs Hd|V s d i t Hs Hd Hi _ IH]; intros W HW.
  - apply avoiding_here; [by intros ?%HW|done].
  - apply (avoiding_step W s d i); [by intros ?%HW|done|done|]. apply IH. by apply union_mono_l.
Qed.

(** A walk either misses [s] or can be started at [s]. *)
Lemma avoiding_cut V u t s :
  reaches_avoiding V u t -> s ∉ V -> reaches_avoiding ({[ s ]} ∪ V) u t \/ reaches_avoiding V s t.
Proof.
  assert (Hin : forall (V : gset string) u s, u ∉ V -> u <> s -> u ∉ ({[ s ]} ∪ V : gset string)).
  { intros V' u' s' H1 H2 [->%elem_of_singleton|?]%elem_of_union; done. }
  induction 1 as [V u Hu Hd|V u d i t Hu Hd Hi Hw IH]; intros Hs;
    destruct (decide (u = s)) as [->|Hne].
  - right. by apply avoiding_here.
  - left. apply avoiding_here; auto.
  - right. by apply (avoiding_step V s d i).
  - destruct IH as [IH|IH]; [by apply Hin; [|congruence]| |].
    + left. apply (avoiding_step _ u d i); [by apply Hin|done|done|].
      eapply avoiding_weaken; [|exact IH].
      rewrite !(assoc_L (∪)), (comm_L (∪) {[u]}). done.
    + right. eapply avoiding_weaken; [|exact IH]. apply union_subseteq_r.
Qed.

Lemma reaches_avoiding_spec s t : reaches s t <-> reaches_avoiding ∅ s t.
Proof.
  split.
  - induction 1 as [s Hs|s d i t Hd Hi _ IH]; [apply avoiding_here; [apply not_elem_of_empty|done]|].
    destruct (avoiding_cut ∅ _ t s IH (not_elem_of_empty _)) as [H|H]; [|done].
    apply (avoiding_step ∅ s d i); [apply not_elem_of_empty|done|done|done].
  - induction 1; [by apply reaches_here|by eapply reaches_step].
Qed.

Context (entries : FirewallTargetDefinition -> list string).

(** What the walk from [service] outside [V] finds. *)
Definition provides (V : gset string) (service x : string) : Prop :=
  exists t d, reaches_avoiding V service t /\ registry !! t = Some d /\ x ∈ entries d.

Lemma provides_unfold V s d x :
  registry !! s = Some d -> s ∉ V ->
  provides V s x <->
  x ∈ entries d \/ exists i, i ∈ FirewallTargetDefinition.Services d /\
    provides ({[ s ]} ∪ V) (canonicalFirewallTargetAlias i) x.
Proof.
  intros Hd Hs. split.
  - intros (t & d' & Hr & Hd' & Hx). inversion Hr as [? ? _ _|? ? d1 i ? _ Hd1 Hi Hw]; subst.
    + left. congruence.
    + right. simplify_eq. exists i. split; [done|]. by exists t, d'.
  - intros [Hx|(i & Hi & t & d' & Hr & Hd' & Hx)].
    + exists s, d. split; [|done]. by apply avoiding_here.
    + exists t, d'. split; [|done]. by apply (avoiding_step V s d i).
Qed.

Lemma foldl_elem_spec {A} (f : list string -> A -> list string) (P : A -> string -> Prop) out l :
  (forall out a x, a ∈ l -> x ∈ f out a <-> x ∈ out \/ P a x) ->
  forall x, x ∈ foldl f out l <-> x ∈ out \/ exists a, a ∈ l /\ P a x.
Proof.
  revert out; induction l as [|a l IH]; intros out Hf x; cbn [foldl].
  - split; [by left|]. intros [?|(? & Hn & _)]; [done|]. by apply not_elem_of_nil in Hn.
  - rewrite IH by (intros; apply Hf; by apply list_elem_of_further).
    rewrite Hf by apply list_elem_of_here. split.
    + intros [[?|?]|(b & Hb & Hp)]; [by left|right|right].
      * exists a. split; [apply list_elem_of_here|done].
      * exists b. split; [by apply list_elem_of_further|done].
    + intros [?|(b & [->|Hb]%elem_of_cons & Hp)]; [by left; left|by left; right|right; by exists b].
Qed.

Lemma foldl_nodup {A} (f : list string -> A -> list string) out l :
  (forall out a, NoDup out -> NoDup (f out a)) -> NoDup out -> NoDup (foldl f out l).
Proof. intros Hf. revert out; induction l; cbn; auto. Qed.

Lemma appendFirewallService_nodup fuel out service V :
  NoDup out -> NoDup (appendFirewallService entries fuel registry out service V).
Proof.
  revert out service V; induction fuel as [|fuel IH]; intros out service V Hnd; [done|].
  cbn [appendFirewallService]. destruct (registry !! _) as [d|]; [|done].
  case_bool_decide; [done|]. apply foldl_push_unique_nodup. apply foldl_nodup; auto.
Qed.

Lemma appendFirewallService_elem fuel out service V x :
  size (dom registry ∖ V) < fuel ->
  x ∈ appendFirewallService entries fuel registry out service V <->
  x ∈ out \/ provides V (canonicalFirewallTargetAlias service) x.
Proof.
  revert out service V x; induction fuel as [|fuel IH]; intros out service V x Hf; [lia|].
  cbn [appendFirewallService]. set (s := canonicalFirewallTargetAlias service).
  destruct (registry !! s) as [d|] eqn:Ed.
  2:{ split; [by left|]. intros [?|(t & d & Hr & _)]; [done|].
      inversion Hr as [? ? _ [? ?]|]; subst; congruence. }
  case_bool_decide as Hs.
  { split; [by left|]. intros [?|(t & d' & Hr & _)]; [done|]. inversion Hr; done. }
  rewrite foldl_push_unique_elem, (foldl_elem_spec _
    (fun i x => provides ({[ s ]} ∪ V) (canonicalFirewallTargetAlias i) x)).
  - rewrite (provides_unfold V s d x Ed Hs). tauto.
  - intros out' i y _. apply IH.
    pose proof (visiting_grows _ _ _ (elem_of_dom_2 _ _ _ Ed) Hs). lia.
Qed.

(** [x] is an entry of a service that [service] reaches. *)
Definition service_entry_of (service x : string) : Prop :=
  exists t d, reaches (canonicalFirewallTargetAlias service) t /\ registry !! t = Some d /\ x ∈ entries d.

Lemma append_registry_elem out service x :
  x ∈ appendFirewallService entries (registry_fuel registry) registry out service ∅ <->
  x ∈ out \/ service_entry_of service x.
Proof.
  rewrite appendFirewallService_elem.
  - unfold provides, service_entry_of. by setoid_rewrite reaches_avoiding_spec.
  - assert (Hs : size (dom registry) = size registry) by apply size_dom.
    rewrite difference_empty_L. unfold registry_fuel. lia.
Qed.

End Expand.

Lemma expand_services_elem registry entries services out x :
  x ∈ foldl (fun out s => appendFirewallService entries (registry_fuel registry) registry out s ∅)
        out services <->
  x ∈ out \/ exists s, s ∈ services /\ service_entry_of registry entries s x.
Proof.
  apply (foldl_elem_spec (fun out s => appendFirewallService entries (registry_fuel registry)
    registry out s ∅) (service_entry_of registry entries)).
  intros; apply append_registry_elem.
Qed.

(** The domains one configured domain stands for. *)
Definition domain_expands (registry : Catalog) (domain x : string) : Prop :=
  let domain := TrimSpace (ToLower domain) in
  domain <> "" /\
  match firewallTargetDomainFamilies !! domain with
  | Some service => service_entry_of registry FirewallTargetDefinition.Domains service x
  | None => x = domain
  end.

Lemma expand_domain_elem registry out domain x :
  x ∈ expand_domain registry out domain <-> x ∈ out \/ domain_expands registry domain x.
Proof.
  unfold expand_domain, domain_expands. case_bool_decide as Hb.
  { split; [by left|]. intros [?|[? _]]; done. }
  destruct (firewallTargetDomainFamilies !! _) as [service|].
  - unfold appendFirewallServiceDomains. rewrite append_registry_elem. tauto.
  - pose proof (push_unique_by_key id out (TrimSpace (ToLower domain)) x) as Hk.
    rewrite !list_fmap_id in Hk. rewrite Hk. unfold id. tauto.
Qed.

Lemma push_unique_nodup (l : list string) x : NoDup l -> NoDup (push_unique l x).
Proof.
  intros. rewrite <- (list_fmap_id (push_unique _ _)). apply push_unique_by_nodup.
  by rewrite list_fmap_id.
Qed.

(** The expanded domains have no duplicate and are exactly the domains of
    the services reached from a configured service or from the family of a
    configured domain, and the other configured domains in lower case; the
    fuel of the walk always suffices. *)
Theorem ExpandFirewallTargetDomains_spec custom services domains :
  let registry := mergeFirewallTargetRegistry custom in
  NoDup (ExpandFirewallTargetDomains custom services domains) /\
  forall x, x ∈ ExpandFirewallTargetDomains custom services domains <->
    (exists s, s ∈ services /\ service_entry_of registry FirewallTargetDefinition.Domains s x) \/
    (exists d, d ∈ domains /\ domain_expands registry d x).
Proof.
  intros registry. unfold ExpandFirewallTargetDomains. split.
  - apply foldl_nodup.
    + intros out d Hnd. unfold expand_domain. case_bool_decide; [done|].
      case_match; [by apply appendFirewallService_nodup|by apply push_unique_nodup].
    + apply foldl_nodup; [|constructor]. intros; by apply appendFirewallService_nodup.
  - intros x. rewrite (foldl_elem_spec _ (domain_expands registry)) by (intros; apply expand_domain_elem).
    unfold appendFirewallServiceDomains. rewrite expand_services_elem. split.
    + intros [[Hn|?]|?]; [by apply not_elem_of_nil in Hn|by left|by right].
    + intros [?|?]; [by left; right|by right].
Qed.

(** The expanded addresses have no duplicate and are exactly the addresses
    of the services reached from a configured service and the non-blank
    configured ones, trimmed. *)
Theorem ExpandFirewallTargetCIDRs_spec custom services cidrs :
  let registry := mergeFirewallTargetRegistry custom in
  NoDup (ExpandFirewallTargetCIDRs custom services cidrs) /\
  forall x, x ∈ ExpandFirewallTargetCIDRs custom services cidrs <->
    (exists s, s ∈ services /\ service_entry_of registry FirewallTargetDefinition.CIDRs s x) \/
    (x <> "" /\ exists c, c ∈ cidrs /\ TrimSpace c = x).
Proof.
  intros registry. unfold ExpandFirewallTargetCIDRs. split.
  - apply foldl_nodup.
    + intros out c Hnd. unfold expand_cidr. case_bool_decide; [done|by apply push_unique_nodup].
    + apply foldl_nodup; [|constructor]. intros; by apply appendFirewallService_nodup.
  - intros x. rewrite (foldl_elem_spec _ (fun c x => x <> "" /\ TrimSpace c = x)).
    + unfold appendFirewallServiceCIDRs. rewrite expand_services_elem. split.
      * intros [[Hn|?]|(c & Hc & Hne & Hx)]; [by apply not_elem_of_nil in Hn|by left|right].
        split; [done|]. by exists c.
      * intros [?|(Hne & c & Hc & Hx)]; [by left; right|right; by exists c].
    + intros out c y _. unfold expand_cidr. case_bool_decide as Hb.
      * split; [by left|]. intros [?|[H1 H2]]; [done|congruence].
      * pose proof (push_unique_by_key id out (TrimSpace c) y) as Hk.
        rewrite !list_fmap_id in Hk. rewrite Hk. unfold id.
        split; (intros [H|H]; [by left|right]); [by subst|by destruct H].
Qed.

(** ** Built-in presets *)

Lemma builtin_shadows_custom custom n d :
  firewallTargetServicePresets !! n = Some d -> mergeFirewallTargetRegistry custom !! n = Some d.
Proof.
  intros Hd. unfold mergeFirewallTargetRegistry. apply lookup_union_Some_l.
  rewrite lookup_fmap, Hd. cbn. by rewrite cloneFirewallTargetDefinition_id.
Qed.

Lemma presets_have_no_services n d :
  firewallTargetServicePresets !! n = Some d ->
  FirewallTargetDefinition.Services d = [] /\ canonicalFirewallTargetAlias n = n.
Proof.
  assert (Hall : map_Forall (fun n d => FirewallTargetDefinition.Services d = [] /\
    canonicalFirewallTargetAlias n = n) firewallTargetServicePresets)
    by (apply (bool_decide_unpack _); vm_compute; exact I).
  apply Hall.
Qed.

(** No user catalog changes what a built-in service expands to: its entries
    are those of its preset, and a lookup returns the preset. *)
Theorem builtin_service_fixed custom n d x :
  firewallTargetServicePresets !! n = Some d ->
  (service_entry_of (mergeFirewallTargetRegistry custom) FirewallTargetDefinition.Domains n x <->
     x ∈ FirewallTargetDefinition.Domains d) /\
  (service_entry_of (mergeFirewallTargetRegistry custom) FirewallTargetDefinition.CIDRs n x <->
     x ∈ FirewallTargetDefinition.CIDRs d) /\
  mergeFirewallTargetRegistry custom !! n = Some d.
Proof.
  intros Hd. pose proof (builtin_shadows_custom custom n d Hd) as Hm.
  destruct (presets_have_no_services n d Hd) as [Hs Hc].
  assert (Hgen : forall entries, service_entry_of (mergeFirewallTargetRegistry custom) entries n x
    <-> x ∈ entries d).
  { intros entries. unfold service_entry_of. rewrite Hc. split.
    - intros (t & d' & Hr & Hd' & Hx). inversion Hr as [|? d1 i ? Hd1 Hi]; subst; [congruence|].
      simplify_eq. rewrite Hs in Hi. by apply not_elem_of_nil in Hi.
    - intros Hx. exists n, d. split; [by apply reaches_here|done]. }
  split; [apply Hgen|]. split; [apply Hgen|exact Hm].
Qed.

Lemma builtin_service_fixed_witness :
  mergeFirewallTargetRegistry {[ "twitter" := FirewallTargetDefinition.mk [] ["evil.example"] [] ]}
    !! "twitter" = Some (FirewallTargetDefinition.mk [] ["x.com"; "twitter.com"; "t.co"; "twimg.com"] []).
Proof.
  apply (builtin_service_fixed _ "twitter"
    (FirewallTargetDefinition.mk [] ["x.com"; "twitter.com"; "t.co"; "twimg.com"] []) "x.com").
  vm_compute. reflexivity.
Defined.
