(* ===== verification/FirewallSettings.v ===== *)
(** * Firewall settings

    The firewall part of [domain/settings.go]: modes, selector drafts, deep
    copies that normalise service names, and the inference of the effective
    mode for partial or legacy settings. *)
From S2P Require Import Prelude GoRunes GoStrings Domain Firewall FirewallFacts.

Local Open Scope Z_scope.
Local Open Scope list_scope.

Definition FirewallModeDisabled := "disabled".
Definition FirewallModeHosts := "hosts".
Definition FirewallModeTargets := "targets".
Definition FirewallModeSplit := "split".

Definition FirewallDefaultActionDirect := "direct".
Definition FirewallDefaultActionProxy := "proxy".

Definition FirewallTargetModeProxy := "proxy".
Definition FirewallTargetModeBypass := "bypass".

Module FirewallSplitSettings.
Record FirewallSplitSettings : Type := mk {
  Proxy : FirewallSelectorSet;
  Bypass : FirewallSelectorSet;
  ExcludedSources : list string;
  DefaultAction : string
}.
End FirewallSplitSettings.
Abbreviation FirewallSplitSettings := FirewallSplitSettings.FirewallSplitSettings.

Module FirewallModeDraft.
Record FirewallModeDraft : Type := mk {
  TargetServices : list string;
  TargetCIDRs : list string;
  TargetDomains : list string;
  SourceCIDRs : list string
}.
Definition zero : FirewallModeDraft := mk [] [] [] [].
End FirewallModeDraft.
Abbreviation FirewallModeDraft := FirewallModeDraft.FirewallModeDraft.

Module FirewallSplitDraft.
Record FirewallSplitDraft : Type := mk {
  Proxy : FirewallSelectorSet;
  Bypass : FirewallSelectorSet;
  ExcludedSources : list string
}.
Definition zero : FirewallSplitDraft := mk FirewallSelectorSet.zero FirewallSelectorSet.zero [].
End FirewallSplitDraft.
Abbreviation FirewallSplitDraft := FirewallSplitDraft.FirewallSplitDraft.

Module FirewallModeDrafts.
Record FirewallModeDrafts : Type := mk {
  Hosts : FirewallModeDraft;
  Targets : FirewallModeDraft;
  Split : FirewallSplitDraft
}.
Definition zero : FirewallModeDrafts :=
  mk FirewallModeDraft.zero FirewallModeDraft.zero FirewallSplitDraft.zero.
End FirewallModeDrafts.
Abbreviation FirewallModeDrafts := FirewallModeDrafts.FirewallModeDrafts.

Module FirewallSettings.
Record FirewallSettings : Type := mk {
  Enabled : bool;
  TransparentPort : Z;
  Mode : string;
  DisableIPv6 : bool;
  Hosts : list string;
  Targets : FirewallSelectorSet;
  Split : FirewallSplitSettings;
  TargetServiceCatalog : Catalog;
  ModeDrafts : FirewallModeDrafts;
  BlockQUIC : bool
}.
Definition eta (s : FirewallSettings) : FirewallSettings :=
  mk (Enabled s) (TransparentPort s) (Mode s) (DisableIPv6 s) (Hosts s) (Targets s) (Split s)
     (TargetServiceCatalog s) (ModeDrafts s) (BlockQUIC s).
#[export] Instance set_Enabled : Setter Enabled := ltac:(mk_setter eta Enabled).
#[export] Instance set_TransparentPort : Setter TransparentPort := ltac:(mk_setter eta TransparentPort).
#[export] Instance set_Mode : Setter Mode := ltac:(mk_setter eta Mode).
#[export] Instance set_DisableIPv6 : Setter DisableIPv6 := ltac:(mk_setter eta DisableIPv6).
#[export] Instance set_Hosts : Setter Hosts := ltac:(mk_setter eta Hosts).
#[export] Instance set_Targets : Setter Targets := ltac:(mk_setter eta Targets).
#[export] Instance set_Split : Setter Split := ltac:(mk_setter eta Split).
#[export] Instance set_TargetServiceCatalog : Setter TargetServiceCatalog :=
  ltac:(mk_setter eta TargetServiceCatalog).
#[export] Instance set_ModeDrafts : Setter ModeDrafts := ltac:(mk_setter eta ModeDrafts).
#[export] Instance set_BlockQUIC : Setter BlockQUIC := ltac:(mk_setter eta BlockQUIC).
End FirewallSettings.
Export (hints) FirewallSettings.
Abbreviation FirewallSettings := FirewallSettings.FirewallSettings.

Definition DefaultFirewallSplitSettings : FirewallSplitSettings :=
  FirewallSplitSettings.mk FirewallSelectorSet.zero FirewallSelectorSet.zero []
    FirewallDefaultActionDirect.

(** ** Normalising enumerations *)

Definition NormalizeFirewallMode (mode : string) : string :=
  if bool_decide (mode = FirewallModeHosts) || bool_decide (mode = FirewallModeTargets)
     || bool_decide (mode = FirewallModeSplit)
  then mode else FirewallModeDisabled.

Definition NormalizeFirewallDefaultAction (action : string) : string :=
  if bool_decide (action = FirewallDefaultActionProxy) then FirewallDefaultActionProxy
  else FirewallDefaultActionDirect.

Definition NormalizeFirewallTargetMode (mode : string) : string :=
  if bool_decide (mode = FirewallTargetModeBypass) then FirewallTargetModeBypass
  else FirewallTargetModeProxy.

(** ** QUIC *)

Definition nodeRequiresTransparentQUICBlock (node : option Node) : bool :=
  match node with
  | None => false
  | Some node =>
    if negb (EqualFold (TrimSpace (Node.Transport node)) "tcp") then false
    else if negb (bool_decide (Node.Protocol node = ProtocolVLESS)) then false
    else if EqualFold (TrimSpace (Node.Flow node)) "xtls-rprx-vision" then true
    else EqualFold (TrimSpace (Node.Security node)) "reality"
  end.

Definition EffectiveTransparentBlockQUIC (settings : FirewallSettings) (node : option Node) : bool :=
  if FirewallSettings.BlockQUIC settings then true else nodeRequiresTransparentQUICBlock node.

(** ** Deep copies *)

Definition canonical_service (out : list string) (value : string) : list string :=
  let normalized := canonicalFirewallTargetAlias value in
  if bool_decide (normalized = "") then out else push_unique out normalized.

Definition canonicalFirewallTargetServices (values : list string) : list string :=
  foldl canonical_service [] values.

Definition CloneFirewallSelectorSet (value : FirewallSelectorSet) : FirewallSelectorSet :=
  FirewallSelectorSet.mk (canonicalFirewallTargetServices (FirewallSelectorSet.Services value))
    (FirewallSelectorSet.Domains value) (FirewallSelectorSet.CIDRs value).

Definition CloneFirewallSplitSettings (value : FirewallSplitSettings) : FirewallSplitSettings :=
  FirewallSplitSettings.mk (CloneFirewallSelectorSet (FirewallSplitSettings.Proxy value))
    (CloneFirewallSelectorSet (FirewallSplitSettings.Bypass value))
    (FirewallSplitSettings.ExcludedSources value)
    (NormalizeFirewallDefaultAction (FirewallSplitSettings.DefaultAction value)).

Definition CloneFirewallModeDraft (draft : FirewallModeDraft) : FirewallModeDraft :=
  FirewallModeDraft.mk (canonicalFirewallTargetServices (FirewallModeDraft.TargetServices draft))
    (FirewallModeDraft.TargetCIDRs draft) (FirewallModeDraft.TargetDomains draft)
    (FirewallModeDraft.SourceCIDRs draft).

Definition CloneFirewallSplitDraft (draft : FirewallSplitDraft) : FirewallSplitDraft :=
  FirewallSplitDraft.mk (CloneFirewallSelectorSet (FirewallSplitDraft.Proxy draft))
    (CloneFirewallSelectorSet (FirewallSplitDraft.Bypass draft))
    (FirewallSplitDraft.ExcludedSources draft).

Definition CloneFirewallModeDrafts (drafts : FirewallModeDrafts) : FirewallModeDrafts :=
  FirewallModeDrafts.mk (CloneFirewallModeDraft (FirewallModeDrafts.Hosts drafts))
    (CloneFirewallModeDraft (FirewallModeDrafts.Targets drafts))
    (CloneFirewallSplitDraft (FirewallModeDrafts.Split drafts)).

Definition FirewallSelectorSetFromTargets (targets : FirewallTargets) : FirewallSelectorSet :=
  FirewallSelectorSet.mk (FirewallTargets.Services targets) (FirewallTargets.Domains targets)
    (FirewallTargets.CIDRs targets).

Definition FirewallSelectorSetHasEntries (value : FirewallSelectorSet) : bool :=
  (0 <? length (FirewallSelectorSet.Services value))%nat
  || (0 <? length (FirewallSelectorSet.Domains value))%nat
  || (0 <? length (FirewallSelectorSet.CIDRs value))%nat.

(** ** The effective mode *)

Definition split_routes (split : FirewallSplitSettings) : bool :=
  FirewallSelectorSetHasEntries (FirewallSplitSettings.Proxy split)
  || FirewallSelectorSetHasEntries (FirewallSplitSettings.Bypass split)
  || bool_decide (NormalizeFirewallDefaultAction (FirewallSplitSettings.DefaultAction split)
                  = FirewallDefaultActionProxy).

Definition FirewallRoutingEnabled (settings : FirewallSettings) : bool :=
  if negb (FirewallSettings.Enabled settings) then false
  else
    let mode := NormalizeFirewallMode (FirewallSettings.Mode settings) in
    if bool_decide (mode = FirewallModeHosts) then (0 <? length (FirewallSettings.Hosts settings))%nat
    else if bool_decide (mode = FirewallModeTargets)
    then FirewallSelectorSetHasEntries (FirewallSettings.Targets settings)
    else if bool_decide (mode = FirewallModeSplit) then split_routes (FirewallSettings.Split settings)
    else false.

Definition CanonicalFirewallMode (settings : FirewallSettings) : string :=
  if negb (FirewallSettings.Enabled settings) then FirewallModeDisabled
  else
    let mode := NormalizeFirewallMode (FirewallSettings.Mode settings) in
    let hosts := (0 <? length (FirewallSettings.Hosts settings))%nat in
    let targets := FirewallSelectorSetHasEntries (FirewallSettings.Targets settings) in
    let split := split_routes (FirewallSettings.Split settings) in
    if bool_decide (mode = FirewallModeHosts) && hosts then FirewallModeHosts
    else if bool_decide (mode = FirewallModeTargets) && targets then FirewallModeTargets
    else if bool_decide (mode = FirewallModeSplit) && split then FirewallModeSplit
    else if hosts then FirewallModeHosts
    else if targets then FirewallModeTargets
    else if split then FirewallModeSplit
    else FirewallModeDisabled.

Definition CanonicalFirewallSettings (settings : FirewallSettings) : FirewallSettings :=
  let settings := settings <| FirewallSettings.Mode := CanonicalFirewallMode settings |> in
  let settings := settings <| FirewallSettings.Targets ::= CloneFirewallSelectorSet |> in
  let settings := settings <| FirewallSettings.Split ::= CloneFirewallSplitSettings |> in
  let settings := settings <| FirewallSettings.ModeDrafts ::= CloneFirewallModeDrafts |> in
  settings <| FirewallSettings.TargetServiceCatalog ::= CloneFirewallTargetCatalog |>.

(** ** Theorems *)

(** A list of service names in normal form: known spelling, no blank, no
    duplicate. *)
Definition canonical_services (l : list string) : Prop :=
  NoDup l /\ forall x, x ∈ l -> canonicalFirewallTargetAlias x = x /\ x <> "".

Lemma canonical_services_from out values :
  canonical_services out -> canonical_services (foldl canonical_service out values).
Proof.
  revert out; induction values as [|v values IH]; intros out Hout; cbn [foldl]; [done|].
  apply IH. unfold canonical_service. case_bool_decide as Hb; [done|].
  apply push_unique_ok; [done|]. split; [apply canonicalFirewallTargetAlias_idemp|done].
Qed.

Lemma canonicalFirewallTargetServices_canonical values :
  canonical_services (canonicalFirewallTargetServices values).
Proof.
  apply canonical_services_from. split; [constructor|]. by intros ? ?%not_elem_of_nil.
Qed.

Lemma canonical_services_fixed out l :
  canonical_services (out ++ l) -> foldl canonical_service out l = out ++ l.
Proof.
  revert out; induction l as [|x l IH]; intros out Hl; cbn [foldl]; [by rewrite app_nil_r|].
  destruct Hl as [Hnd Hx]. destruct (Hx x) as [Hc Hne]; [apply elem_of_app; right; apply list_elem_of_here|].
  unfold canonical_service at 2. rewrite Hc, bool_decide_eq_false_2 by done.
  rewrite push_unique_by_new.
  - rewrite IH; [by rewrite <- app_assoc|]. split; rewrite <- app_assoc; done.
  - rewrite list_fmap_id. apply NoDup_app in Hnd as (_ & Hd & _). intros Hin.
    apply (Hd _ Hin), list_elem_of_here.
Qed.

Lemma canonicalFirewallTargetServices_fixed l :
  canonical_services l -> canonicalFirewallTargetServices l = l.
Proof. intros H. by apply (canonical_services_fixed []). Qed.

(** Normalising a service list keeps exactly the canonical names of its
    non-blank entries, once each, and is idempotent. *)
Theorem canonicalFirewallTargetServices_spec values :
  canonical_services (canonicalFirewallTargetServices values) /\
  (forall x, x ∈ canonicalFirewallTargetServices values <->
     x <> "" /\ exists v, v ∈ values /\ canonicalFirewallTargetAlias v = x) /\
  canonicalFirewallTargetServices (canonicalFirewallTargetServices values)
    = canonicalFirewallTargetServices values.
Proof.
  split; [apply canonicalFirewallTargetServices_canonical|]. split.
  2:{ apply canonicalFirewallTargetServices_fixed, canonicalFirewallTargetServices_canonical. }
  intros x. unfold canonicalFirewallTargetServices.
  enough (Hgen : forall out, x ∈ foldl canonical_service out values <->
    x ∈ out \/ (x <> "" /\ exists v, v ∈ values /\ canonicalFirewallTargetAlias v = x)).
  { rewrite Hgen. split; [intros [Hn|?]; [by apply not_elem_of_nil in Hn|done]|by right]. }
  induction values as [|v values IH]; intros out; cbn [foldl].
  - split; [by left|]. intros [?|(_ & ? & Hn & _)]; [done|]. by apply not_elem_of_nil in Hn.
  - rewrite IH. setoid_rewrite elem_of_cons. unfold canonical_service. case_bool_decide as Hb.
    + split.
      * intros [?|(? & w & ? & ?)]; [by left|right; eauto].
      * intros [?|(? & w & [->|?] & Hw)]; [by left|congruence|right; eauto].
    + pose proof (push_unique_by_key id out (canonicalFirewallTargetAlias v) x) as Hk.
      rewrite !list_fmap_id in Hk. rewrite Hk. unfold id. split.
      * intros [[?|Hx]|(? & w & ? & ?)]; [by left|right|right; eauto]. rewrite Hx. eauto.
      * intros [?|(? & w & [->|?] & Hw)]; [by left; left|left; right; by symmetry|right; eauto].
Qed.

Lemma NormalizeFirewallMode_cases mode :
  NormalizeFirewallMode mode = FirewallModeHosts \/ NormalizeFirewallMode mode = FirewallModeTargets \/
  NormalizeFirewallMode mode = FirewallModeSplit \/ NormalizeFirewallMode mode = FirewallModeDisabled.
Proof.
  unfold NormalizeFirewallMode. destruct (_ || _) eqn:E; [|by auto].
  rewrite !orb_true_iff, !bool_decide_eq_true in E. tauto.
Qed.

(** The inferred mode depends on the mode and on four flags only. *)
Ltac mode_cases settings :=
  destruct settings as [en port mode ipv6 hosts targets split catalog drafts quic];
  unfold FirewallRoutingEnabled, CanonicalFirewallMode, upd, FirewallSettings.set_Mode;
  cbn [FirewallSettings.Enabled FirewallSettings.Mode FirewallSettings.Hosts
       FirewallSettings.Targets FirewallSettings.Split];
  generalize (0 <? length hosts)%nat; generalize (FirewallSelectorSetHasEntries targets);
  generalize (split_routes split); intros [] [] []; destruct en;
  destruct (NormalizeFirewallMode_cases mode) as [-> | [-> | [-> | ->]]].

(** Settings that route keep their mode. *)
Lemma routing_keeps_mode settings :
  FirewallRoutingEnabled settings = true ->
  CanonicalFirewallMode settings = NormalizeFirewallMode (FirewallSettings.Mode settings).
Proof. mode_cases settings; vm_compute; congruence. Qed.

Lemma routing_modes settings :
  FirewallRoutingEnabled settings = true ->
  NormalizeFirewallMode (FirewallSettings.Mode settings) = FirewallModeHosts \/
  NormalizeFirewallMode (FirewallSettings.Mode settings) = FirewallModeTargets \/
  NormalizeFirewallMode (FirewallSettings.Mode settings) = FirewallModeSplit.
Proof. mode_cases settings; vm_compute; auto; discriminate. Qed.

(** The inferred mode routes traffic unless it is the disabled one, and
    settings that already route keep their mode. *)
Theorem CanonicalFirewallMode_routes settings :
  FirewallRoutingEnabled (settings <| FirewallSettings.Mode := CanonicalFirewallMode settings |>)
    = negb (bool_decide (CanonicalFirewallMode settings = FirewallModeDisabled)) /\
  (FirewallRoutingEnabled settings = true ->
   CanonicalFirewallMode settings = NormalizeFirewallMode (FirewallSettings.Mode settings)).
Proof.
  mode_cases settings; vm_compute; split; congruence.
Qed.

(** No service entry of the set is blank. *)
Definition no_blank_services (set : FirewallSelectorSet) : Prop :=
  forall x, x ∈ FirewallSelectorSet.Services set -> canonicalFirewallTargetAlias x <> "".

Lemma CloneFirewallSelectorSet_idemp set :
  CloneFirewallSelectorSet (CloneFirewallSelectorSet set) = CloneFirewallSelectorSet set.
Proof.
  unfold CloneFirewallSelectorSet; cbn. by rewrite canonicalFirewallTargetServices_fixed
    by apply canonicalFirewallTargetServices_canonical.
Qed.

Lemma NormalizeFirewallDefaultAction_idemp a :
  NormalizeFirewallDefaultAction (NormalizeFirewallDefaultAction a) = NormalizeFirewallDefaultAction a.
Proof. unfold NormalizeFirewallDefaultAction at 2 3. by case_bool_decide. Qed.

Lemma CloneFirewallSplitSettings_idemp v :
  CloneFirewallSplitSettings (CloneFirewallSplitSettings v) = CloneFirewallSplitSettings v.
Proof.
  unfold CloneFirewallSplitSettings; cbn.
  by rewrite !CloneFirewallSelectorSet_idemp, NormalizeFirewallDefaultAction_idemp.
Qed.

Lemma CloneFirewallModeDraft_idemp v :
  CloneFirewallModeDraft (CloneFirewallModeDraft v) = CloneFirewallModeDraft v.
Proof.
  unfold CloneFirewallModeDraft; cbn. by rewrite canonicalFirewallTargetServices_fixed
    by apply canonicalFirewallTargetServices_canonical.
Qed.

Lemma CloneFirewallModeDrafts_idemp v :
  CloneFirewallModeDrafts (CloneFirewallModeDrafts v) = CloneFirewallModeDrafts v.
Proof.
  unfold CloneFirewallModeDrafts, CloneFirewallSplitDraft; cbn.
  by rewrite !CloneFirewallModeDraft_idemp, !CloneFirewallSelectorSet_idemp.
Qed.

Lemma HasEntries_clone set :
  no_blank_services set ->
  FirewallSelectorSetHasEntries (CloneFirewallSelectorSet set) = FirewallSelectorSetHasEntries set.
Proof.
  intros H. unfold FirewallSelectorSetHasEntries, CloneFirewallSelectorSet. cbn [FirewallSelectorSet.Services
    FirewallSelectorSet.Domains FirewallSelectorSet.CIDRs].
  do 2 f_equal. destruct (FirewallSelectorSet.Services set) as [|s l] eqn:E; [done|].
  destruct (canonicalFirewallTargetServices (s :: l)) as [|x k] eqn:Ec; [exfalso|done].
  assert (Hin : canonicalFirewallTargetAlias s ∈ canonicalFirewallTargetServices (s :: l)).
  { apply canonicalFirewallTargetServices_spec. split; [apply H; rewrite E; apply list_elem_of_here|].
    exists s. split; [apply list_elem_of_here|done]. }
  rewrite Ec in Hin. by apply not_elem_of_nil in Hin.
Qed.

(** The mode inferred for settings whose mode was inferred. *)
Lemma CanonicalFirewallMode_idemp settings :
  CanonicalFirewallMode (settings <| FirewallSettings.Mode := CanonicalFirewallMode settings |>)
    = CanonicalFirewallMode settings.
Proof.
  mode_cases settings; vm_compute; reflexivity.
Qed.

Lemma split_routes_clone split :
  no_blank_services (FirewallSplitSettings.Proxy split) ->
  no_blank_services (FirewallSplitSettings.Bypass split) ->
  split_routes (CloneFirewallSplitSettings split) = split_routes split.
Proof.
  intros H1 H2. unfold split_routes, CloneFirewallSplitSettings.
  cbn [FirewallSplitSettings.Proxy FirewallSplitSettings.Bypass FirewallSplitSettings.DefaultAction].
  by rewrite !HasEntries_clone, NormalizeFirewallDefaultAction_idemp.
Qed.

(** The mode depends on the entries, not on their spelling. *)
Lemma CanonicalFirewallMode_ext s1 s2 :
  FirewallSettings.Enabled s1 = FirewallSettings.Enabled s2 ->
  FirewallSettings.Mode s1 = FirewallSettings.Mode s2 ->
  FirewallSettings.Hosts s1 = FirewallSettings.Hosts s2 ->
  FirewallSelectorSetHasEntries (FirewallSettings.Targets s1)
    = FirewallSelectorSetHasEntries (FirewallSettings.Targets s2) ->
  split_routes (FirewallSettings.Split s1) = split_routes (FirewallSettings.Split s2) ->
  CanonicalFirewallMode s1 = CanonicalFirewallMode s2.
Proof. intros H1 H2 H3 H4 H5. unfold CanonicalFirewallMode. by rewrite H1, H2, H3, H4, H5. Qed.

Lemma CanonicalFirewallSettings_fields s :
  CanonicalFirewallSettings s =
  FirewallSettings.mk (FirewallSettings.Enabled s) (FirewallSettings.TransparentPort s)
    (CanonicalFirewallMode s) (FirewallSettings.DisableIPv6 s) (FirewallSettings.Hosts s)
    (CloneFirewallSelectorSet (FirewallSettings.Targets s))
    (CloneFirewallSplitSettings (FirewallSettings.Split s))
    (FirewallSettings.TargetServiceCatalog s)
    (CloneFirewallModeDrafts (FirewallSettings.ModeDrafts s)) (FirewallSettings.BlockQUIC s).
Proof.
  unfold CanonicalFirewallSettings. cbn zeta. unfold upd.
  cbv [FirewallSettings.set_Mode FirewallSettings.set_Targets FirewallSettings.set_Split
       FirewallSettings.set_ModeDrafts FirewallSettings.set_TargetServiceCatalog].
  cbn [FirewallSettings.Enabled FirewallSettings.TransparentPort FirewallSettings.Mode
       FirewallSettings.DisableIPv6 FirewallSettings.Hosts FirewallSettings.Targets
       FirewallSettings.Split FirewallSettings.TargetServiceCatalog FirewallSettings.ModeDrafts
       FirewallSettings.BlockQUIC].
  by rewrite CloneFirewallTargetCatalog_id.
Qed.

(** Canonical settings are a fixed point of the canonicalisation when no
    active selector list holds a blank service. *)
Theorem CanonicalFirewallSettings_idemp s :
  no_blank_services (FirewallSettings.Targets s) ->
  no_blank_services (FirewallSplitSettings.Proxy (FirewallSettings.Split s)) ->
  no_blank_services (FirewallSplitSettings.Bypass (FirewallSettings.Split s)) ->
  CanonicalFirewallSettings (CanonicalFirewallSettings s) = CanonicalFirewallSettings s.
Proof.
  intros H1 H2 H3. rewrite (CanonicalFirewallSettings_fields (CanonicalFirewallSettings s)).
  rewrite (CanonicalFirewallSettings_fields s) at 1 2 4 5 6 7 8 9 10 11.
  cbn [FirewallSettings.Enabled FirewallSettings.TransparentPort FirewallSettings.Mode
       FirewallSettings.DisableIPv6 FirewallSettings.Hosts FirewallSettings.Targets
       FirewallSettings.Split FirewallSettings.TargetServiceCatalog FirewallSettings.ModeDrafts
       FirewallSettings.BlockQUIC].
  rewrite CloneFirewallSelectorSet_idemp, CloneFirewallSplitSettings_idemp, CloneFirewallModeDrafts_idemp.
  f_equal. rewrite <- (CanonicalFirewallMode_idemp s).
  apply CanonicalFirewallMode_ext; rewrite (CanonicalFirewallSettings_fields s); try reflexivity.
  - by apply HasEntries_clone.
  - by apply split_routes_clone.
Qed.

Definition sample_firewall (services : list string) : FirewallSettings :=
  FirewallSettings.mk true 12345 "targets" false [] (FirewallSelectorSet.mk services [] [])
    DefaultFirewallSplitSettings ∅ FirewallModeDrafts.zero false.

Lemma CanonicalFirewallSettings_idemp_witness :
  FirewallSettings.Mode (CanonicalFirewallSettings (sample_firewall [" YouTube"])) = FirewallModeTargets /\
  CanonicalFirewallSettings (CanonicalFirewallSettings (sample_firewall [" YouTube"]))
    = CanonicalFirewallSettings (sample_firewall [" YouTube"]).
Proof.
  split; [vm_compute; reflexivity|].
  apply (CanonicalFirewallSettings_idemp (sample_firewall [" YouTube"])).
  - intros x Hx. apply list_elem_of_singleton in Hx as ->. vm_compute. discriminate.
  - intros x Hx. exfalso. by apply not_elem_of_nil in Hx.
  - intros x Hx. exfalso. by apply not_elem_of_nil in Hx.
Defined.

(** The hypothesis is needed: the mode is inferred before blank services are
    dropped, so a second pass disables what the first one kept enabled. *)
Lemma CanonicalFirewallSettings_blank_service :
  FirewallSettings.Mode (CanonicalFirewallSettings (sample_firewall [" "])) = FirewallModeTargets /\
  FirewallRoutingEnabled (CanonicalFirewallSettings (sample_firewall [" "])) = false /\
  FirewallSettings.Mode (CanonicalFirewallSettings (CanonicalFirewallSettings (sample_firewall [" "])))
    = FirewallModeDisabled.
Proof. vm_compute. auto. Qed.
