(* ===== verification/NFTables.v ===== *)
(** * The firewall policy and its nftables rules

    [resolveFirewallPolicy] and [BuildNFTablesRules] of
    [platform/openwrt/firewall.go].  The rules are modelled twice: as the text the
    code writes, and as a structured ruleset whose rendering is that text
    ([NFTablesFacts]), so that theorems can speak of what the rules do to a packet. *)
From S2P Require Import Prelude GoRunes GoStrings GoNum NetIP Domain GoConv IPv4Range Firewall FirewallSettings.

Local Open Scope list_scope.

(** ** Constants *)

Definition udpTProxyMark := "0x1".
Definition udpTProxyMarkMask := "0x1".
Definition udpTProxyTable := "100".
Definition udpTProxyPriority := "1000".
Definition probeBypassMark := "0x100".
Definition awgBypassMark := "0x10000".

Definition allLANSourceCIDRs : list string := ["10.0.0.0/8"; "172.16.0.0/12"; "192.168.0.0/16"].

Definition bypassDestinationCIDRs : list string := [
  "0.0.0.0/8"; "10.0.0.0/8"; "100.64.0.0/10"; "127.0.0.0/8"; "169.254.0.0/16"; "172.16.0.0/12";
  "192.168.0.0/16"; "224.0.0.0/4"; "240.0.0.0/4"].

(** ** Targets and sources *)

Definition isAllFirewallSource (value : string) : bool :=
  let value := TrimSpace value in EqualFold value "all" || bool_decide (value = "*").

Definition normalizeFirewallTarget (target : string) : result TargetError (list string) :=
  if parseIPv4 target || parseIPv4CIDR target then Ok [target]
  else if Contains target "-" then expandIPv4Range target
  else Err (IPv4Range.UnsupportedTarget target).

Definition normalize_target (out : list string) (target : string) : result TargetError (list string) :=
  let target := TrimSpace target in
  if bool_decide (target = "") then Ok out
  else let* normalized := normalizeFirewallTarget target in Ok (foldl push_unique out normalized).

Definition normalizeFirewallTargets (targets : list string) : result TargetError (list string) :=
  let* out := fold_result normalize_target [] targets in Ok (sort_strings out).

Definition normalizeFirewallSources (sources : list string) : result TargetError (list string) :=
  if existsb isAllFirewallSource sources then normalizeFirewallTargets allLANSourceCIDRs
  else normalizeFirewallTargets sources.

(** ** The policy *)

Module firewallPolicy.
Record firewallPolicy : Type := mk {
  Mode : string;
  DefaultAction : string;
  SelectiveCapture : bool;
  CaptureSources : list string;
  ExcludedSources : list string;
  ProxyCIDRs : list string;
  ProxyDomains : list string;
  BypassCIDRs : list string;
  BypassDomains : list string
}.
End firewallPolicy.
Abbreviation firewallPolicy := firewallPolicy.firewallPolicy.

Inductive PolicyError : Type :=
| BadTarget (e : TargetError)
| NoSourceHost
| NoProxyTarget
| NoSplitTarget
| NothingRouted.

Definition targets_or {A} (r : result TargetError A) : result PolicyError A :=
  match r with Ok a => Ok a | Err e => Err (BadTarget e) end.

Definition is_nil {A} (l : list A) : bool := match l with [] => true | _ => false end.

Definition resolveFirewallPolicy (settings : FirewallSettings) : result PolicyError firewallPolicy :=
  let settings := CanonicalFirewallSettings settings in
  let catalog := FirewallSettings.TargetServiceCatalog settings in
  let mode := NormalizeFirewallMode (FirewallSettings.Mode settings) in
  if bool_decide (mode = FirewallModeHosts)
  then
    let* sources := targets_or (normalizeFirewallSources (FirewallSettings.Hosts settings)) in
    if is_nil sources then Err NoSourceHost
    else Ok (firewallPolicy.mk mode FirewallDefaultActionProxy false sources [] [] [] [] [])
  else if bool_decide (mode = FirewallModeTargets)
  then
    let* proxyCIDRs := targets_or (normalizeFirewallTargets
      (ExpandFirewallSelectorSetCIDRs catalog (FirewallSettings.Targets settings))) in
    let proxyDomains := ExpandFirewallSelectorSetDomains catalog (FirewallSettings.Targets settings) in
    let* captureSources := targets_or (normalizeFirewallTargets allLANSourceCIDRs) in
    if is_nil proxyCIDRs && is_nil proxyDomains then Err NoProxyTarget
    else Ok (firewallPolicy.mk mode FirewallDefaultActionDirect true captureSources [] proxyCIDRs proxyDomains [] [])
  else if bool_decide (mode = FirewallModeSplit)
  then
    let split := FirewallSettings.Split settings in
    let* proxyCIDRs := targets_or (normalizeFirewallTargets
      (ExpandFirewallSelectorSetCIDRs catalog (FirewallSplitSettings.Proxy split))) in
    let proxyDomains := ExpandFirewallSelectorSetDomains catalog (FirewallSplitSettings.Proxy split) in
    let* bypassCIDRs := targets_or (normalizeFirewallTargets
      (ExpandFirewallSelectorSetCIDRs catalog (FirewallSplitSettings.Bypass split))) in
    let bypassDomains := ExpandFirewallSelectorSetDomains catalog (FirewallSplitSettings.Bypass split) in
    let* excludedSources := targets_or (normalizeFirewallSources (FirewallSplitSettings.ExcludedSources split)) in
    let defaultAction := NormalizeFirewallDefaultAction (FirewallSplitSettings.DefaultAction split) in
    if is_nil proxyCIDRs && is_nil proxyDomains && is_nil bypassCIDRs && is_nil bypassDomains
       && negb (bool_decide (defaultAction = FirewallDefaultActionProxy))
    then Err NoSplitTarget
    else
      let* captureSources := targets_or (normalizeFirewallTargets allLANSourceCIDRs) in
      Ok (firewallPolicy.mk mode defaultAction (bool_decide (defaultAction = FirewallDefaultActionDirect))
            captureSources excludedSources proxyCIDRs proxyDomains bypassCIDRs bypassDomains)
  else Err NothingRouted.

Section Policy.
  Context (p : firewallPolicy).

Definition hasProxyOutput : bool :=
  negb (is_nil (firewallPolicy.ProxyCIDRs p)) || negb (is_nil (firewallPolicy.ProxyDomains p)).

Definition hasBypassOutput : bool :=
  negb (is_nil (firewallPolicy.BypassCIDRs p)) || negb (is_nil (firewallPolicy.BypassDomains p)).

Definition needsDNSMasqNFTSet : bool :=
  if negb (is_nil (firewallPolicy.ProxyDomains p)) then true
  else negb (is_nil (firewallPolicy.BypassDomains p))
       && (hasProxyOutput || bool_decide (firewallPolicy.DefaultAction p = FirewallDefaultActionProxy)).

Definition ProxyDomainsForDNSMasq : list string :=
  if negb needsDNSMasqNFTSet then [] else firewallPolicy.ProxyDomains p.

Definition BypassDomainsForDNSMasq : list string :=
  if negb needsDNSMasqNFTSet then [] else firewallPolicy.BypassDomains p.

End Policy.

Definition needsUDPPolicyRouting (settings : FirewallSettings) : bool :=
  if negb (FirewallSettings.Enabled settings) then false
  else match resolveFirewallPolicy settings with
       | Ok policy => negb (is_nil (firewallPolicy.CaptureSources policy))
       | Err _ => false
       end.

(** ** The text of the rules *)

Definition transparentUDPSelector (settings : FirewallSettings) : string :=
  if FirewallSettings.BlockQUIC settings then "udp dport 443" else "meta l4proto udp".

Definition transparent_port (settings : FirewallSettings) : Z :=
  if (FirewallSettings.TransparentPort settings <=? 0)%Z then 12345%Z else FirewallSettings.TransparentPort settings.

(** The writes of a [strings.Builder]. *)
Definition writes (l : list string) : string := String.concat "" l.

Definition lines (l : list string) : string := writes ((fun s => s +:+ newline) <$> l).

Definition set_header (name : string) : list string := ["  set " +:+ name +:+ " {"; "    type ipv4_addr"; "    flags interval"].

Definition elements_line (l : list string) : string := "    elements = { " +:+ Join l ", " +:+ " }".

Definition guard_lines (p : firewallPolicy) : string :=
  lines ((if is_nil (firewallPolicy.ExcludedSources p) then [] else ["    ip saddr @excluded_source_v4 return"])
    ++ ["    ip daddr @local_bypass_v4 return"]
    ++ (if hasBypassOutput p then ["    ip daddr @direct_target_v4 return"] else [])).

Definition capture_line (p : firewallPolicy) (action : string) : string :=
  if firewallPolicy.SelectiveCapture p
  then if hasProxyOutput p then lines ["    ip saddr @source_v4 ip daddr @proxy_target_v4 " +:+ action] else ""
  else lines ["    ip saddr @source_v4 " +:+ action].

Definition redirect_text (port : Z) : string :=
  "tcp dport != " +:+ Itoa port +:+ " redirect to :" +:+ Itoa port.

Definition tproxy_text (udpSelector : string) (port : Z) : string :=
  udpSelector +:+ " meta mark set " +:+ udpTProxyMark +:+ " tproxy ip to :" +:+ Itoa port +:+ " accept".

Definition sets_text (p : firewallPolicy) : string :=
  writes [
    if hasProxyOutput p
    then lines (set_header "proxy_target_v4"
                ++ (if is_nil (firewallPolicy.ProxyCIDRs p) then [] else [elements_line (firewallPolicy.ProxyCIDRs p)])
                ++ ["  }"; ""])
    else "";
    if hasBypassOutput p
    then lines (set_header "direct_target_v4"
                ++ (if is_nil (firewallPolicy.BypassCIDRs p) then [] else [elements_line (firewallPolicy.BypassCIDRs p)])
                ++ ["  }"; ""])
    else "";
    if is_nil (firewallPolicy.CaptureSources p) then ""
    else lines (set_header "source_v4" ++ [elements_line (firewallPolicy.CaptureSources p)] ++ ["  }"; ""])
         +:+ lines (set_header "local_bypass_v4" ++ [elements_line bypassDestinationCIDRs] ++ ["  }"; ""]);
    if is_nil (firewallPolicy.ExcludedSources p) then ""
    else lines (set_header "excluded_source_v4" ++ [elements_line (firewallPolicy.ExcludedSources p)] ++ ["  }"; ""])
  ].

Definition chains_text (p : firewallPolicy) (udpSelector : string) (port : Z) : string :=
  writes [
    lines ["  chain prerouting {"; "    type nat hook prerouting priority dstnat; policy accept;"];
    if is_nil (firewallPolicy.CaptureSources p) then "" else guard_lines p +:+ capture_line p (redirect_text port);
    lines ["  }"];
    if is_nil (firewallPolicy.CaptureSources p) then ""
    else writes [
      lines [""; "  chain prerouting_mangle {"; "    type filter hook prerouting priority mangle; policy accept;"];
      guard_lines p;
      capture_line p (tproxy_text udpSelector port);
      lines ["  }"]];
    if hasProxyOutput p
    then lines ([""; "  chain output {"; "    type nat hook output priority -100; policy accept;";
                 "    meta mark " +:+ probeBypassMark +:+ " return"; "    meta mark " +:+ awgBypassMark +:+ " return"]
                ++ (if hasBypassOutput p then ["    ip daddr @direct_target_v4 return"] else [])
                ++ ["    ip daddr @proxy_target_v4 " +:+ redirect_text port; "  }"])
    else ""
  ].

Definition BuildNFTablesRules (settings : FirewallSettings) : result PolicyError string :=
  let* policy := resolveFirewallPolicy settings in
  Ok (writes [
    lines ["table inet fastlane {"];
    sets_text policy;
    chains_text policy (transparentUDPSelector settings) (transparent_port settings);
    lines ["}"]]).
