(* ===== verification/NFTablesFacts.v ===== *)
(** * What the nftables rules do

    A ruleset as data, its rendering, and what its chains do to a packet: the
    first rule whose conditions hold decides, as nftables documents.  The text of
    [BuildNFTablesRules] is the rendering of [policy_table], so the theorems about
    [policy_table] speak of the generated file. *)
From S2P Require Import Prelude GoRunes GoStrings GoNum NetIP Domain GoConv GoConvFacts IPv4Range Firewall FirewallSettings NFTables.

Local Open Scope list_scope.

(** ** Rulesets *)

Inductive Condition : Type :=
| SourceIn (set : string)
| DestinationIn (set : string)
| MarkIs (mark : string)
| TCPPortIsNot (port : Z)
| IsUDP
| UDPPort443.

Inductive Statement : Type :=
| Return
| Redirect (port : Z)
| TransparentProxy (mark : string) (port : Z).

Record Rule : Type := { conditions : list Condition; statement : Statement }.
Record Chain : Type := { chain_name : string; hook : string; rules : list Rule }.
Record AddressSet : Type := { set_name : string; elements : list string }.
Record Table : Type := { sets : list AddressSet; chains : list Chain }.

Definition condition_text (c : Condition) : string :=
  match c with
  | SourceIn set => "ip saddr @" +:+ set
  | DestinationIn set => "ip daddr @" +:+ set
  | MarkIs mark => "meta mark " +:+ mark
  | TCPPortIsNot port => "tcp dport != " +:+ Itoa port
  | IsUDP => "meta l4proto udp"
  | UDPPort443 => "udp dport 443"
  end.

Definition statement_text (s : Statement) : string :=
  match s with
  | Return => "return"
  | Redirect port => "redirect to :" +:+ Itoa port
  | TransparentProxy mark port => "meta mark set " +:+ mark +:+ " tproxy ip to :" +:+ Itoa port +:+ " accept"
  end.

Definition rule_line (r : Rule) : string :=
  "    " +:+ writes ((fun c => condition_text c +:+ " ") <$> conditions r) +:+ statement_text (statement r).

Definition chain_lines (c : Chain) : list string :=
  ["  chain " +:+ chain_name c +:+ " {"; "    type " +:+ hook c +:+ "; policy accept;"] ++ (rule_line <$> rules c) ++ ["  }"].

Definition set_lines (s : AddressSet) : list string :=
  set_header (set_name s) ++ (if is_nil (elements s) then [] else [elements_line (elements s)]) ++ ["  }"; ""].

(** Chains are separated by blank lines. *)
Fixpoint separated (l : list (list string)) : list string :=
  match l with
  | [] => []
  | [c] => c
  | c :: l => c ++ [""] ++ separated l
  end.

Definition table_text (t : Table) : string :=
  lines (["table inet fastlane {"] ++ concat (set_lines <$> sets t) ++ separated (chain_lines <$> chains t) ++ ["}"]).

(** ** The ruleset of a policy *)

Section Ruleset.
  Context (p : firewallPolicy) (block_quic : bool) (port : Z).

Definition captures : bool := negb (is_nil (firewallPolicy.CaptureSources p)).
Definition excludes : bool := negb (is_nil (firewallPolicy.ExcludedSources p)).

Definition given {A} (b : bool) (a : A) : list A := if b then [a] else [].

Definition policy_sets : list AddressSet :=
  given (hasProxyOutput p) {| set_name := "proxy_target_v4"; elements := firewallPolicy.ProxyCIDRs p |}
  ++ given (hasBypassOutput p) {| set_name := "direct_target_v4"; elements := firewallPolicy.BypassCIDRs p |}
  ++ given captures {| set_name := "source_v4"; elements := firewallPolicy.CaptureSources p |}
  ++ given captures {| set_name := "local_bypass_v4"; elements := bypassDestinationCIDRs |}
  ++ given excludes {| set_name := "excluded_source_v4"; elements := firewallPolicy.ExcludedSources p |}.

Definition returns (c : Condition) : Rule := {| conditions := [c]; statement := Return |}.

Definition guards : list Rule :=
  given excludes (returns (SourceIn "excluded_source_v4"))
  ++ [returns (DestinationIn "local_bypass_v4")]
  ++ given (hasBypassOutput p) (returns (DestinationIn "direct_target_v4")).

Definition capture_rules (extra : Condition) (s : Statement) : list Rule :=
  if firewallPolicy.SelectiveCapture p
  then given (hasProxyOutput p) {| conditions := [SourceIn "source_v4"; DestinationIn "proxy_target_v4"; extra]; statement := s |}
  else [{| conditions := [SourceIn "source_v4"; extra]; statement := s |}].

Definition prerouting : Chain := {|
  chain_name := "prerouting"; hook := "nat hook prerouting priority dstnat";
  rules := if captures then guards ++ capture_rules (TCPPortIsNot port) (Redirect port) else [] |}.

Definition prerouting_mangle : Chain := {|
  chain_name := "prerouting_mangle"; hook := "filter hook prerouting priority mangle";
  rules := guards ++ capture_rules (if block_quic then UDPPort443 else IsUDP) (TransparentProxy udpTProxyMark port) |}.

Definition output : Chain := {|
  chain_name := "output"; hook := "nat hook output priority -100";
  rules := [returns (MarkIs probeBypassMark); returns (MarkIs awgBypassMark)]
    ++ given (hasBypassOutput p) (returns (DestinationIn "direct_target_v4"))
    ++ [{| conditions := [DestinationIn "proxy_target_v4"; TCPPortIsNot port]; statement := Redirect port |}] |}.

Definition policy_chains : list Chain :=
  [prerouting] ++ given captures prerouting_mangle ++ given (hasProxyOutput p) output.

Definition policy_table : Table := {| sets := policy_sets; chains := policy_chains |}.

End Ruleset.

(** ** The text is the rendering *)

Lemma writes_nil : writes [] = "".
Proof. reflexivity. Qed.

Lemma writes_cons s l : writes (s :: l) = s +:+ writes l.
Proof. destruct l as [|t l]; [symmetry; apply append_nil_r|reflexivity]. Qed.

Lemma writes_app l1 l2 : writes (l1 ++ l2) = writes l1 +:+ writes l2.
Proof. induction l1 as [|s l1 IH]; [done|]. cbn [app]. by rewrite !writes_cons, IH, append_assoc. Qed.

Lemma lines_app l1 l2 : lines (l1 ++ l2) = lines l1 +:+ lines l2.
Proof. unfold lines. by rewrite fmap_app, writes_app. Qed.

Lemma lines_if (b : bool) l1 l2 : lines (if b then l1 else l2) = if b then lines l1 else lines l2.
Proof. by destruct b. Qed.

Lemma guard_lines_rules p : lines (rule_line <$> guards p) = guard_lines p.
Proof. unfold guards, guard_lines, excludes. by destruct (is_nil (firewallPolicy.ExcludedSources p)), (hasBypassOutput p). Qed.

Lemma capture_line_rules p c s :
  lines (rule_line <$> capture_rules p c s) = capture_line p (condition_text c +:+ " " +:+ statement_text s).
Proof.
  unfold capture_rules, capture_line. destruct (firewallPolicy.SelectiveCapture p), (hasProxyOutput p); cbn -[String.append]; try done;
    unfold rule_line; cbn [conditions statement fmap list_fmap writes String.concat condition_text]; by rewrite ?append_assoc.
Qed.

Lemma concat_sets_text p : lines (concat (set_lines <$> policy_sets p)) = sets_text p.
Proof.
  unfold policy_sets, sets_text, captures, excludes, set_lines. rewrite !fmap_app, !concat_app, !lines_app, !writes_cons, writes_nil, append_nil_r.
  destruct (is_nil (firewallPolicy.CaptureSources p)) eqn:E1, (is_nil (firewallPolicy.ExcludedSources p)) eqn:E2, (hasProxyOutput p), (hasBypassOutput p);
    cbn [given negb fmap list_fmap concat elements set_name]; change (is_nil bypassDestinationCIDRs) with false;
    rewrite ?E1, ?E2, ?app_nil_r, ?lines_app, ?append_assoc, ?append_nil_r; reflexivity.
Qed.

Lemma chain_text_lines c : lines (chain_lines c) =
  lines ["  chain " +:+ chain_name c +:+ " {"; "    type " +:+ hook c +:+ "; policy accept;"] +:+ lines (rule_line <$> rules c) +:+ lines ["  }"].
Proof. unfold chain_lines. by rewrite !lines_app. Qed.

Definition after_blank (c : list string) : string := lines ([""] ++ c).

Lemma separated_text c l : lines (separated (c :: l)) = lines c +:+ writes (after_blank <$> l).
Proof.
  unfold after_blank.
  revert c. induction l as [|d l IH]; intros c; [cbn [separated fmap list_fmap]; by rewrite writes_nil, append_nil_r|].
  change (separated (c :: d :: l)) with (c ++ [""] ++ separated (d :: l)). cbn [fmap list_fmap].
  by rewrite writes_cons, !lines_app, IH, !append_assoc.
Qed.

Lemma chains_text_lines p block_quic port :
  lines (separated (chain_lines <$> policy_chains p block_quic port)) =
  chains_text p (if block_quic then "udp dport 443" else "meta l4proto udp") port.
Proof.
  assert (Hu : condition_text (if block_quic then UDPPort443 else IsUDP) = if block_quic then "udp dport 443" else "meta l4proto udp")
    by by destruct block_quic.
  assert (Hp : lines (chain_lines (prerouting p port)) =
    lines ["  chain prerouting {"; "    type nat hook prerouting priority dstnat; policy accept;"]
    +:+ (if is_nil (firewallPolicy.CaptureSources p) then "" else guard_lines p +:+ capture_line p (redirect_text port)) +:+ lines ["  }"]).
  { rewrite chain_text_lines. unfold prerouting, captures. cbn [rules chain_name hook]. destruct (is_nil (firewallPolicy.CaptureSources p)); [done|].
    cbn [negb]. by rewrite fmap_app, lines_app, guard_lines_rules, capture_line_rules, !append_assoc. }
  assert (Hm : after_blank (chain_lines (prerouting_mangle p block_quic port)) = writes [
      lines [""; "  chain prerouting_mangle {"; "    type filter hook prerouting priority mangle; policy accept;"];
      guard_lines p;
      capture_line p (tproxy_text (if block_quic then "udp dport 443" else "meta l4proto udp") port);
      lines ["  }"]]).
  { unfold after_blank. rewrite lines_app, chain_text_lines. unfold prerouting_mangle. cbn [rules chain_name hook].
    by rewrite fmap_app, lines_app, guard_lines_rules, capture_line_rules, Hu, !writes_cons, writes_nil, append_nil_r, !append_assoc. }
  assert (Ho : after_blank (chain_lines (output p port)) = lines ([""; "  chain output {"; "    type nat hook output priority -100; policy accept;";
                 "    meta mark " +:+ probeBypassMark +:+ " return"; "    meta mark " +:+ awgBypassMark +:+ " return"]
                ++ (if hasBypassOutput p then ["    ip daddr @direct_target_v4 return"] else [])
                ++ ["    ip daddr @proxy_target_v4 " +:+ redirect_text port; "  }"])).
  { unfold after_blank. f_equal. unfold output, chain_lines. cbn [rules chain_name hook]. destruct (hasBypassOutput p);
      cbn [given app fmap list_fmap rule_line conditions statement returns]; unfold rule_line, redirect_text;
      cbn [conditions statement returns fmap list_fmap writes String.concat condition_text statement_text];
      rewrite ?append_assoc; reflexivity. }
  unfold policy_chains, chains_text. rewrite fmap_app. cbn [fmap list_fmap app]. rewrite separated_text, Hp, !writes_cons, writes_nil. unfold captures.
  destruct (is_nil (firewallPolicy.CaptureSources p)), (hasProxyOutput p); cbn [negb given app fmap list_fmap];
    rewrite ?writes_cons, ?writes_nil, ?Hm, ?Ho, ?writes_cons, ?writes_nil, ?append_assoc, ?append_nil_r; reflexivity.
Qed.

Lemma table_text_rules p block_quic port :
  table_text (policy_table p block_quic port) =
  writes [lines ["table inet fastlane {"]; sets_text p; chains_text p (if block_quic then "udp dport 443" else "meta l4proto udp") port; lines ["}"]].
Proof.
  unfold table_text, policy_table. cbn [sets chains]. rewrite !lines_app, concat_sets_text, chains_text_lines.
  by rewrite !writes_cons, writes_nil, append_nil_r.
Qed.

(** ** What a ruleset does to a packet *)

Inductive Transport : Type := TCP (dport : Z) | UDP (dport : Z) | OtherProtocol.

Record Packet : Type := { source_address : Z; destination_address : Z; transport : Transport; mark : Z }.

Section Meaning.
  (** The addresses an element stands for, and those that dnsmasq has added. *)
  Context (denotes : string -> Z -> bool) (learned_proxy learned_direct : Z -> bool).

Definition listed (l : list string) (a : Z) : bool := existsb (fun e => denotes e a) l.

Definition learned (set : string) (a : Z) : bool :=
  if bool_decide (set = "proxy_target_v4") then learned_proxy a
  else if bool_decide (set = "direct_target_v4") then learned_direct a else false.

Definition in_set (t : Table) (set : string) (a : Z) : bool :=
  existsb (fun s => bool_decide (set_name s = set) && (listed (elements s) a || learned set a)) (sets t).

Definition mark_value (text : string) : Z := default 0%Z (ParseUint text 0 32).

Definition condition_holds (t : Table) (k : Packet) (c : Condition) : bool :=
  match c with
  | SourceIn set => in_set t set (source_address k)
  | DestinationIn set => in_set t set (destination_address k)
  | MarkIs m => (mark k =? mark_value m)%Z
  | TCPPortIsNot port => match transport k with TCP d => negb (d =? port)%Z | _ => false end
  | IsUDP => match transport k with UDP _ => true | _ => false end
  | UDPPort443 => match transport k with UDP d => (d =? 443)%Z | _ => false end
  end.

Fixpoint first_match (t : Table) (k : Packet) (l : list Rule) : option Statement :=
  match l with
  | [] => None
  | r :: l => if forallb (condition_holds t k) (conditions r) then Some (statement r) else first_match t k l
  end.

(** [None]: the packet goes on as it is. *)
Definition decision (t : Table) (chain : string) (k : Packet) : option Statement :=
  match List.find (fun c => bool_decide (chain_name c = chain)) (chains t) with
  | None => None
  | Some c => match first_match t k (rules c) with Some Return => None | s => s end
  end.

(** ** What the policy says *)

Section Intent.
  Context (p : firewallPolicy).

Definition proxied (a : Z) : bool := hasProxyOutput p && (listed (firewallPolicy.ProxyCIDRs p) a || learned_proxy a).
Definition direct (a : Z) : bool := hasBypassOutput p && (listed (firewallPolicy.BypassCIDRs p) a || learned_direct a).

Definition intercepted (k : Packet) : bool :=
  listed (firewallPolicy.CaptureSources p) (source_address k)
  && negb (listed (firewallPolicy.ExcludedSources p) (source_address k))
  && negb (listed bypassDestinationCIDRs (destination_address k))
  && negb (direct (destination_address k))
  && (negb (firewallPolicy.SelectiveCapture p) || proxied (destination_address k)).

Definition tcp_intent (port : Z) (k : Packet) : option Statement :=
  match transport k with
  | TCP d => if intercepted k && negb (d =? port)%Z then Some (Redirect port) else None
  | _ => None
  end.

Definition udp_intent (block_quic : bool) (port : Z) (k : Packet) : option Statement :=
  match transport k with
  | UDP d => if intercepted k && (negb block_quic || (d =? 443)%Z) then Some (TransparentProxy udpTProxyMark port) else None
  | _ => None
  end.

(** The router's own traffic; probes and tunnels carry marks. *)
Definition router_intent (port : Z) (k : Packet) : option Statement :=
  match transport k with
  | TCP d =>
    if negb (mark k =? 256)%Z && negb (mark k =? 65536)%Z && negb (direct (destination_address k))
       && proxied (destination_address k) && negb (d =? port)%Z
    then Some (Redirect port) else None
  | _ => None
  end.

End Intent.

(** ** Membership in the sets of a policy *)

Section Sets.
  Context (p : firewallPolicy) (block_quic : bool) (port : Z).

Lemma in_policy_sets set a : in_set (policy_table p block_quic port) set a =
  existsb (fun s => bool_decide (set_name s = set) && (listed (elements s) a || learned set a)) (policy_sets p).
Proof. reflexivity. Qed.

Ltac set_cases :=
  rewrite in_policy_sets; unfold policy_sets, captures, excludes; rewrite !existsb_app;
  destruct (is_nil (firewallPolicy.CaptureSources p)) eqn:E1, (is_nil (firewallPolicy.ExcludedSources p)) eqn:E2;
  unfold proxied, direct; destruct (hasProxyOutput p), (hasBypassOutput p);
  cbn -[listed bypassDestinationCIDRs]; rewrite ?orb_false_r.

Lemma nil_listed l a : is_nil l = true -> listed l a = false.
Proof. by destruct l. Qed.

Lemma in_proxy a : in_set (policy_table p block_quic port) "proxy_target_v4" a = proxied p a.
Proof. by set_cases. Qed.

Lemma in_direct a : in_set (policy_table p block_quic port) "direct_target_v4" a = direct p a.
Proof. by set_cases. Qed.

Lemma in_source a : in_set (policy_table p block_quic port) "source_v4" a = listed (firewallPolicy.CaptureSources p) a.
Proof. set_cases; try done; symmetry; by apply nil_listed. Qed.

Lemma in_excluded a : in_set (policy_table p block_quic port) "excluded_source_v4" a = listed (firewallPolicy.ExcludedSources p) a.
Proof. set_cases; try done; symmetry; by apply nil_listed. Qed.

Lemma in_local a : in_set (policy_table p block_quic port) "local_bypass_v4" a = captures p && listed bypassDestinationCIDRs a.
Proof. set_cases; done. Qed.

End Sets.

(** ** The rules do what the policy says *)

Lemma first_match_app t k l1 l2 :
  first_match t k (l1 ++ l2) = match first_match t k l1 with Some s => Some s | None => first_match t k l2 end.
Proof. induction l1 as [|r l1 IH]; [done|]. cbn [app first_match]. by destruct (forallb _ _). Qed.

Lemma guards_match p block_quic port k :
  first_match (policy_table p block_quic port) k (guards p) =
  if listed (firewallPolicy.ExcludedSources p) (source_address k)
     || (captures p && listed bypassDestinationCIDRs (destination_address k)) || direct p (destination_address k)
  then Some Return else None.
Proof.
  unfold guards. rewrite !first_match_app. unfold excludes.
  pose proof (in_excluded p block_quic port (source_address k)) as He. pose proof (in_local p block_quic port (destination_address k)) as Hl.
  pose proof (in_direct p block_quic port (destination_address k)) as Hd.
  destruct (is_nil (firewallPolicy.ExcludedSources p)) eqn:E; [rewrite (nil_listed _ (source_address k) E) in He |- *|];
    (destruct (hasBypassOutput p) eqn:Eb; [|assert (Hn : direct p (destination_address k) = false) by (unfold direct; by rewrite Eb); rewrite Hn in * ]);
    cbn -[in_set policy_table listed bypassDestinationCIDRs]; rewrite ?He, ?Hl, ?Hd;
    destruct (captures p && _); try destruct (direct p _); try destruct (listed _ _); reflexivity.
Qed.

Lemma capture_match p block_quic port k extra s :
  first_match (policy_table p block_quic port) k (capture_rules p extra s) =
  if listed (firewallPolicy.CaptureSources p) (source_address k)
     && (negb (firewallPolicy.SelectiveCapture p) || proxied p (destination_address k))
     && condition_holds (policy_table p block_quic port) k extra
  then Some s else None.
Proof.
  unfold capture_rules. pose proof (in_source p block_quic port (source_address k)) as Hs.
  pose proof (in_proxy p block_quic port (destination_address k)) as Hp.
  destruct (firewallPolicy.SelectiveCapture p); [destruct (hasProxyOutput p) eqn:Eh|].
  - cbn -[in_set policy_table]. rewrite Hs, Hp, andb_true_r. by destruct (listed _ _), (proxied _ _), (condition_holds _ _ _).
  - unfold proxied. rewrite Eh. cbn. by rewrite andb_false_r.
  - cbn -[in_set policy_table]. rewrite Hs, !andb_true_r. by destruct (listed _ _), (condition_holds _ _ _).
Qed.

(** The guards and the capturing rule of a chain together. *)
Lemma captured p block_quic port k extra s : s <> Return -> captures p = true ->
  match first_match (policy_table p block_quic port) k (guards p ++ capture_rules p extra s) with Some Return => None | r => r end =
  if intercepted p k && condition_holds (policy_table p block_quic port) k extra then Some s else None.
Proof.
  intros Hs Hc. rewrite first_match_app, guards_match, capture_match, Hc. unfold intercepted. cbn [andb].
  destruct (listed (firewallPolicy.ExcludedSources p) _), (listed bypassDestinationCIDRs _), (direct p _), (listed (firewallPolicy.CaptureSources p) _),
    (negb _ || _), (condition_holds _ _ _); cbn; try reflexivity; by destruct s.
Qed.

Lemma not_captured p k : captures p = false -> intercepted p k = false.
Proof. unfold captures, intercepted. intros Hc%negb_false_iff. by rewrite (nil_listed _ _ Hc). Qed.

Lemma prerouting_decides p block_quic port k :
  decision (policy_table p block_quic port) "prerouting" k = tcp_intent p port k.
Proof.
  transitivity (match first_match (policy_table p block_quic port) k (rules (prerouting p port)) with Some Return => None | r => r end); [reflexivity|].
  unfold prerouting. cbn [rules].
  unfold tcp_intent. destruct (captures p) eqn:Hc.
  - rewrite captured by done. cbn [condition_holds]. by destruct (transport k); rewrite ?andb_false_r.
  - cbn. rewrite (not_captured _ _ Hc). by destruct (transport k).
Qed.

Lemma mangle_decides p block_quic port k :
  decision (policy_table p block_quic port) "prerouting_mangle" k = udp_intent p block_quic port k.
Proof.
  unfold udp_intent. destruct (captures p) eqn:Hc.
  - transitivity (match first_match (policy_table p block_quic port) k (rules (prerouting_mangle p block_quic port)) with Some Return => None | r => r end).
    { unfold decision, policy_table, policy_chains. rewrite Hc. reflexivity. }
    unfold prerouting_mangle. cbn [rules]. rewrite captured by done.
    destruct block_quic; cbn [condition_holds negb orb]; by destruct (transport k); rewrite ?andb_false_r.
  - rewrite (not_captured _ _ Hc). unfold decision, policy_table, policy_chains. rewrite Hc. destruct (hasProxyOutput p); by destruct (transport k).
Qed.

Lemma output_decides p block_quic port k :
  decision (policy_table p block_quic port) "output" k = router_intent p port k.
Proof.
  unfold router_intent. destruct (hasProxyOutput p) eqn:Ho.
  - transitivity (match first_match (policy_table p block_quic port) k (rules (output p port)) with Some Return => None | r => r end).
    { unfold decision, policy_table, policy_chains. rewrite Ho. by destruct (captures p). }
    pose proof (in_proxy p block_quic port (destination_address k)) as Hp. pose proof (in_direct p block_quic port (destination_address k)) as Hd.
    set (t := policy_table p block_quic port) in *. unfold output. cbn [rules]. rewrite !first_match_app.
    change (mark_value probeBypassMark) with 256%Z. cbn -[in_set mark_value]. change (mark_value probeBypassMark) with 256%Z.
    change (mark_value awgBypassMark) with 65536%Z. rewrite Hp.
    destruct (mark k =? 256)%Z; [by destruct (transport k)|]. destruct (mark k =? 65536)%Z; [by destruct (transport k)|].
    destruct (hasBypassOutput p) eqn:Eb.
    + cbn -[in_set]. rewrite Hd. destruct (direct p _); [by destruct (transport k)|]. destruct (proxied p _); [|by destruct (transport k)].
      destruct (transport k); [|done..]. by destruct (_ =? _)%Z.
    + assert (Hn : direct p (destination_address k) = false) by (unfold direct; by rewrite Eb). rewrite Hn. cbn -[in_set].
      destruct (proxied p _); [|by destruct (transport k)]. destruct (transport k); [|done..]. by destruct (_ =? _)%Z.
  - assert (Hn : proxied p (destination_address k) = false) by (unfold proxied; by rewrite Ho).
    rewrite Hn. unfold decision, policy_table, policy_chains. rewrite Ho. destruct (captures p); destruct (transport k); cbn; rewrite ?andb_false_r; done.
Qed.

End Meaning.

(** ** Well-formed rulesets *)

Definition names_declared (t : Table) (c : Condition) : Prop :=
  match c with SourceIn set | DestinationIn set => set ∈ set_name <$> sets t | _ => True end.

(** nft refuses a ruleset that names an undeclared set. *)
Definition well_formed (t : Table) : Prop :=
  NoDup (set_name <$> sets t) /\ NoDup (chain_name <$> chains t) /\
  Forall (fun c => Forall (fun r => Forall (names_declared t) (conditions r)) (rules c)) (chains t).

Definition names_declared_bool (t : Table) (c : Condition) : bool :=
  match c with SourceIn set | DestinationIn set => bool_decide (set ∈ set_name <$> sets t) | _ => true end.

Definition well_formed_bool (t : Table) : bool :=
  bool_decide (NoDup (set_name <$> sets t)) && bool_decide (NoDup (chain_name <$> chains t)) &&
  forallb (fun c => forallb (fun r => forallb (names_declared_bool t) (conditions r)) (rules c)) (chains t).

Lemma well_formed_sound t : well_formed_bool t = true -> well_formed t.
Proof.
  unfold well_formed_bool. rewrite !andb_true_iff, !bool_decide_eq_true. intros [[H1 H2] H3]. split_and!; [done|done|].
  rewrite forallb_forall in H3. apply List.Forall_forall. intros c Hc. specialize (H3 _ Hc). rewrite forallb_forall in H3.
  apply List.Forall_forall. intros r Hr. specialize (H3 _ Hr). rewrite forallb_forall in H3. apply List.Forall_forall.
  intros d Hd. specialize (H3 _ Hd). destruct d; try exact I; by apply bool_decide_eq_true in H3.
Qed.

(** Only the shape of the policy matters. *)
Lemma policy_table_well_formed p block_quic port : well_formed (policy_table p block_quic port).
Proof.
  apply well_formed_sound. unfold well_formed_bool, policy_table, policy_sets, policy_chains, prerouting, prerouting_mangle, guards, capture_rules.
  destruct (captures p), (excludes p), (firewallPolicy.SelectiveCapture p), block_quic; unfold output;
    destruct (hasProxyOutput p), (hasBypassOutput p); vm_compute; reflexivity.
Qed.

(** C9: the generated rules do what the policy says.  The text is the rendering of a
    ruleset whose rules name declared sets only; of that ruleset the first chain
    redirects the TCP connections of captured sources, the second hands their UDP to
    the transparent proxy, and the third redirects the router's own connections to
    proxied addresses, except those of probes and tunnels. *)
Theorem rules_implement_policy settings p :
  resolveFirewallPolicy settings = Ok p ->
  let port := transparent_port settings in
  let t := policy_table p (FirewallSettings.BlockQUIC settings) port in
  BuildNFTablesRules settings = Ok (table_text t) /\ well_formed t /\
  forall denotes learned_proxy learned_direct k,
    let decides := decision denotes learned_proxy learned_direct t in
    decides "prerouting" k = tcp_intent denotes learned_proxy learned_direct p port k /\
    decides "prerouting_mangle" k = udp_intent denotes learned_proxy learned_direct p (FirewallSettings.BlockQUIC settings) port k /\
    decides "output" k = router_intent denotes learned_proxy learned_direct p port k.
Proof.
  intros Hp port t. split_and!.
  - unfold BuildNFTablesRules. rewrite Hp. cbn [result_bind]. unfold t. rewrite table_text_rules. reflexivity.
  - apply policy_table_well_formed.
  - intros denotes learned_proxy learned_direct k decides. split_and!; [apply prerouting_decides|apply mangle_decides|apply output_decides].
Qed.

Definition sample_settings : FirewallSettings :=
  FirewallSettings.mk true 12345 FirewallModeSplit false [] FirewallSelectorSet.zero
    (FirewallSplitSettings.mk (FirewallSelectorSet.mk [] ["example.org"] ["203.0.113.0/24"])
       (FirewallSelectorSet.mk [] [] ["203.0.113.7"]) ["192.168.1.9"] FirewallDefaultActionDirect)
    ∅ FirewallModeDrafts.zero false.

Definition sample_policy : firewallPolicy :=
  firewallPolicy.mk FirewallModeSplit FirewallDefaultActionDirect true allLANSourceCIDRs ["192.168.1.9"]
    ["203.0.113.0/24"] ["example.org"] ["203.0.113.7"] [].

(** Elements in dotted form, read as addresses or prefixes. *)
Definition element_addresses (e : string) (a : Z) : bool :=
  match cut_byte e "/"%char with
  | None => match ParseAddr e with Some (Addr4 ip) => (a =? be_value ip)%Z | _ => false end
  | Some (addr, bits) =>
    match ParseAddr addr, dtoi (to_bytes bits) with
    | Some (Addr4 ip), Some n => (a / 2 ^ (32 - n) =? be_value ip / 2 ^ (32 - n))%Z
    | _, _ => false
    end
  end.

(** 192.168.1.10 to port 443 of 203.0.113.8, and of the excepted 203.0.113.7. *)
Lemma rules_implement_policy_witness :
  let t := policy_table sample_policy false 12345 in
  resolveFirewallPolicy sample_settings = Ok sample_policy /\
  decision element_addresses (fun _ => false) (fun _ => false) t "prerouting"
    {| source_address := 3232235786; destination_address := 3405803784; transport := TCP 443; mark := 0 |} = Some (Redirect 12345) /\
  decision element_addresses (fun _ => false) (fun _ => false) t "prerouting"
    {| source_address := 3232235786; destination_address := 3405803783; transport := TCP 443; mark := 0 |} = None.
Proof.
  intros t. assert (Hp : resolveFirewallPolicy sample_settings = Ok sample_policy) by (vm_compute; reflexivity).
  destruct (rules_implement_policy sample_settings sample_policy Hp) as (_ & _ & Hd). split; [exact Hp|]. split.
  - destruct (Hd element_addresses (fun _ => false) (fun _ => false)
      {| source_address := 3232235786; destination_address := 3405803784; transport := TCP 443; mark := 0 |}) as (H1 & _ & _).
    exact (eq_trans H1 ltac:(vm_compute; reflexivity)).
  - destruct (Hd element_addresses (fun _ => false) (fun _ => false)
      {| source_address := 3232235786; destination_address := 3405803783; transport := TCP 443; mark := 0 |}) as (H1 & _ & _).
    exact (eq_trans H1 ltac:(vm_compute; reflexivity)).
Defined.
