(* ===== verification/TargetAddresses.v ===== *)
(** * The addresses of the configured targets

    What [normalizeFirewallTargets] of [platform/openwrt/firewall.go] writes into a
    set stands for exactly the addresses of the configured targets, ranges
    included, as long as no target is written in the notation of IPv6; a target
    that maps an IPv4 address into IPv6 is accepted as well, and reaches the rules
    in a form that a set of IPv4 addresses does not have. *)
From S2P Require Import Prelude GoRunes GoStrings GoNum NetIP Domain GoConv GoConvFacts IPv4Range Firewall FirewallSettings NFTables NFTablesFacts.

Local Open Scope Z_scope.
Local Open Scope list_scope.

(** ** Dotted addresses *)

Definition dotted (e : string) : Prop :=
  match cut_byte e "/"%char with
  | None => exists ip, ParseAddr e = Some (Addr4 ip)
  | Some (addr, bits) => exists ip n, ParseAddr addr = Some (Addr4 ip) /\ dtoi (to_bytes bits) = Some n /\ 0 <= n <= 32
  end.

Definition address_byte (b : Z) : Prop := digit_byte b \/ b = 46.

Lemma parse_octet_digits l v : parse_octet l = Some v -> Forall address_byte l.
Proof.
  unfold parse_octet. destruct (forallb is_digit l) eqn:E; [|done]. intros _. rewrite forallb_forall in E.
  apply List.Forall_forall. intros c Hc. apply E in Hc. unfold is_digit in Hc. apply andb_true_iff in Hc as [?%Z.leb_le ?%Z.leb_le]. left. lia.
Qed.

Lemma parse_ipv4_bytes l q : parse_ipv4 l = Some q -> Forall address_byte l.
Proof.
  unfold parse_ipv4. destruct (cut_at 46 l) as [[a r1]|] eqn:E1; [|done]. destruct (cut_at 46 r1) as [[b r2]|] eqn:E2; [|done].
  destruct (cut_at 46 r2) as [[c d]|] eqn:E3; [|done]. apply cut_at_Some in E1 as [-> _], E2 as [-> _], E3 as [-> _].
  destruct (parse_octet a) eqn:Ea; [|done]. destruct (parse_octet b) eqn:Eb; [|done]. destruct (parse_octet c) eqn:Ec; [|done].
  destruct (parse_octet d) eqn:Ed; [|done]. intros _. apply parse_octet_digits in Ea, Eb, Ec, Ed.
  assert (Hdot : address_byte 46) by by right. repeat (apply Forall_app; split; [done|]; constructor; [done|]). done.
Qed.

Lemma ParseAddr_4 e ip : ParseAddr e = Some (Addr4 ip) -> parse_ipv4 (to_bytes e) = Some ip.
Proof.
  unfold ParseAddr. generalize (to_bytes e) at 1 as l. intros l. induction l as [|c l IH]; [done|]. cbn [ParseAddr_from].
  destruct (c =? 46); [|destruct (c =? 58); [|by destruct (c =? 37)]].
  - by destruct (parse_ipv4 (to_bytes e)) as [q|]; [intros [= <-]|].
  - intros (b & zone & [=] & _)%parse_ipv6_zone.
Qed.

Lemma four_no_byte e ip c : ParseAddr e = Some (Addr4 ip) -> ~ address_byte (byte_of c) -> has_byte e c = false.
Proof.
  intros He%ParseAddr_4%parse_ipv4_bytes Hc. rewrite has_byte_bytes. apply bool_decide_eq_false. intros Hin.
  rewrite Forall_forall in He. by apply He in Hin.
Qed.

Lemma four_no_slash e ip : ParseAddr e = Some (Addr4 ip) -> cut_byte e "/"%char = None.
Proof. intros He. apply cut_byte_None, (four_no_byte _ ip); [done|]. change (byte_of "/"%char) with 47. unfold address_byte. lia. Qed.

(** Without a colon an address has four bytes. *)
Lemma no_colon_four e a : has_byte e ":"%char = false -> ParseAddr e = Some a -> exists ip, a = Addr4 ip.
Proof.
  rewrite has_byte_bytes. intros Hc%bool_decide_eq_false. change (byte_of ":"%char) with 58 in Hc. unfold ParseAddr.
  revert Hc. generalize (to_bytes e) at 1 2 as l. intros l. induction l as [|c l IH]; [done|]. cbn [ParseAddr_from]. intros Hc.
  apply not_elem_of_cons in Hc as [Hne Hc]. destruct (c =? 46); [|destruct (Z.eqb_spec c 58); [congruence|destruct (c =? 37); [done|by apply IH]]].
  intros (ip & _ & ->)%fmap_Some. by exists ip.
Qed.

(** ** The text of a block *)

Lemma parse_octet_text v : 0 <= v <= 255 -> parse_octet (to_bytes (Itoa v)) = Some v.
Proof.
  intros Hv. destruct (Itoa_digits v ltac:(lia)) as (Hd & Hval & Hne & Hz). unfold parse_octet. rewrite Hval.
  assert (Hdig : forallb is_digit (to_bytes (Itoa v)) = true).
  { apply forallb_forall. intros c Hc. rewrite List.Forall_forall in Hd. apply Hd in Hc. unfold is_digit. apply andb_true_iff. lia. }
  assert (Hlen : (length (to_bytes (Itoa v)) <= 3)%nat).
  { assert (Hall : forallb (fun v => (length (to_bytes (Itoa (Z.of_nat v))) <=? 3)%nat) (seq 0 256) = true) by (vm_compute; reflexivity).
    rewrite forallb_forall in Hall. specialize (Hall (Z.to_nat v)). rewrite Z2Nat.id in Hall by lia. apply Nat.leb_le, Hall, in_seq. lia. }
  destruct (to_bytes (Itoa v)) as [|b t] eqn:E; [done|].
  assert (Hlead : ((1 <? length (b :: t))%nat && bool_decide (head (b :: t) = Some 48)) = false).
  { destruct (decide (v = 0)) as [->|Hnz]; [by injection E as <- <-|]. destruct (Hz Hnz) as (b' & t' & [= <- <-] & Hb).
    rewrite bool_decide_eq_false_2; [apply andb_false_r|]. cbn. congruence. }
  rewrite Hdig, Hlead, (proj2 (Nat.leb_le _ _) Hlen), (proj2 (Z.leb_le v 255)) by lia. reflexivity.
Qed.

Lemma Itoa_no_dot v : 0 <= v -> 46 ∉ to_bytes (Itoa v).
Proof. intros Hv Hin. destruct (Itoa_digits v Hv) as (Hd & _). rewrite Forall_forall in Hd. apply Hd in Hin. lia. Qed.

Lemma text4_parses b : byte_list b -> length b = 4%nat -> parse_ipv4 (text4 b) = Some b.
Proof.
  intros Hb Hl. destruct b as [|w [|x [|y [|z []]]]]; try done. unfold byte_list in Hb. rewrite !Forall_cons in Hb. destruct Hb as (Hw & Hx & Hy & Hz & _).
  assert (E : text4 [w; x; y; z] = to_bytes (Itoa w) ++ 46 :: to_bytes (Itoa x) ++ 46 :: to_bytes (Itoa y) ++ 46 :: to_bytes (Itoa z)).
  { unfold text4, join_bytes. cbn [fmap list_fmap concat]. by rewrite app_nil_r. }
  unfold parse_ipv4. rewrite E. rewrite !cut_at_first by (apply Itoa_no_dot; lia). by rewrite !parse_octet_text by lia.
Qed.

Lemma ParseAddr_from_dotted l whole b :
  46 ∈ l -> Forall address_byte l -> parse_ipv4 whole = Some b -> ParseAddr_from l whole = Some (Addr4 b).
Proof.
  intros Hdot Hbytes Hp. induction Hbytes as [|c l Hc _ IH]; [by apply not_elem_of_nil in Hdot|]. cbn [ParseAddr_from].
  destruct (Z.eqb_spec c 46) as [|Hne]; [by rewrite Hp|]. destruct Hc as [Hc|Hc]; [|done].
  rewrite (proj2 (Z.eqb_neq c 58)), (proj2 (Z.eqb_neq c 37)) by lia. apply IH. by apply elem_of_cons in Hdot as [|].
Qed.

Lemma text4_bytes b : byte_list b -> to_bytes (of_bytes (text4 b)) = text4 b.
Proof. intros Hb. apply to_of_bytes. eapply Forall_impl; [by apply text4_line|]. by intros c [? _]. Qed.

Lemma ParseAddr_text4 b : byte_list b -> length b = 4%nat -> ParseAddr (of_bytes (text4 b)) = Some (Addr4 b).
Proof.
  intros Hb Hl. pose proof (text4_parses b Hb Hl) as Hp. unfold ParseAddr. rewrite text4_bytes by done.
  apply ParseAddr_from_dotted; [|by apply parse_ipv4_bytes in Hp|done].
  destruct b as [|w [|x b]]; [done..|]. unfold text4, join_bytes. cbn [fmap list_fmap concat]. apply elem_of_app. right. apply elem_of_app. left. by left.
Qed.

Lemma uint32_bytes s : 0 <= s < 2 ^ 32 -> byte_list (uint32ToIPv4 s) /\ be_value (uint32ToIPv4 s) = s.
Proof.
  intros Hs. unfold uint32ToIPv4, byte_list, be_value. rewrite !Forall_cons. cbn [foldl].
  change (2 ^ 24) with 16777216. change (2 ^ 16) with 65536. change (2 ^ 8) with 256. change (2 ^ 32) with 4294967296 in Hs.
  pose proof (Z.div_mod s 16777216 ltac:(lia)). pose proof (Z.mod_pos_bound s 16777216 ltac:(lia)).
  split; [split_and!; try (apply Forall_nil; exact I); Z.to_euclidean_division_equations; lia|]. Z.to_euclidean_division_equations. lia.
Qed.

Lemma dtoi_prefix n : 0 <= n <= 32 -> dtoi (to_bytes (Itoa n)) = Some n.
Proof.
  intros Hn. assert (Hall : forallb (fun k => bool_decide (dtoi (to_bytes (Itoa (Z.of_nat k))) = Some (Z.of_nat k))) (seq 0 33) = true)
    by (vm_compute; reflexivity).
  rewrite forallb_forall in Hall. specialize (Hall (Z.to_nat n)). rewrite Z2Nat.id in Hall by lia.
  apply bool_decide_eq_true in Hall; [done|]. apply in_seq. lia.
Qed.

Lemma cidr_text_addresses s n : 0 <= s < 2 ^ 32 -> 0 <= n <= 32 ->
  dotted (cidr_text (s, n)) /\ forall a, element_addresses (cidr_text (s, n)) a = (a / 2 ^ (32 - n) =? s / 2 ^ (32 - n)).
Proof.
  intros Hs Hn. destruct (uint32_bytes s Hs) as [Hb Hv]. pose proof (ParseAddr_text4 (uint32ToIPv4 s) Hb eq_refl) as Hp.
  assert (Hc : cut_byte (cidr_text (s, n)) "/"%char = Some (of_bytes (text4 (uint32ToIPv4 s)), Itoa n)).
  { apply cut_byte_app, (four_no_byte _ _ _ Hp). change (byte_of "/"%char) with 47. unfold address_byte. lia. }
  unfold dotted, element_addresses. rewrite Hc, Hp, (dtoi_prefix n Hn). split; [by exists (uint32ToIPv4 s), n|]. by rewrite Hv.
Qed.

(** ** Ranges *)

Lemma in_block_prefix a s n : 0 <= n <= 32 -> (block_size n | s) -> in_block a (s, n) <-> a / 2 ^ (32 - n) = s / 2 ^ (32 - n).
Proof.
  intros Hn [k ->]. unfold in_block, block_size. cbn [fst snd]. set (m := 2 ^ (32 - n)).
  assert (Hm : 0 < m) by (apply Z.pow_pos_nonneg; lia). rewrite Z.div_mul by lia.
  pose proof (Z.div_mod a m ltac:(lia)). pose proof (Z.mod_pos_bound a m Hm). split; [intros Ha; symmetry; apply (Z.div_unique a m k (a - k * m)); lia|].
  intros E. rewrite E in *. lia.
Qed.

Lemma tiles_blocks blocks : forall start stop, 0 <= start -> tiles blocks start stop ->
  Forall (fun b => 0 <= b.1 < stop /\ 0 <= b.2 <= 32 /\ (block_size b.2 | b.1)) blocks.
Proof.
  induction blocks as [|[b n] blocks IH]; intros start stop Hs; [constructor|]. intros (-> & Hn & Hd & Ht).
  pose proof (block_size_pos n ltac:(lia)). pose proof (tiles_le _ _ _ Ht). constructor; [cbn; split_and!; (done || lia)|].
  eapply IH; [|exact Ht]. lia.
Qed.

Definition range_addresses (t : string) (a : Z) : bool :=
  match cut_byte t "-"%char with
  | Some (x, y) =>
    match ParseIP (TrimSpace x) ≫= To4, ParseIP (TrimSpace y) ≫= To4 with
    | Some s, Some e => (be_value s <=? a) && (a <=? be_value e)
    | _, _ => false
    end
  | None => false
  end.

Lemma four_bytes_value s ip : ParseIP s ≫= To4 = Some ip -> 0 <= be_value ip < 2 ^ 32.
Proof.
  intros (b & Hb & Hip)%bind_Some. apply ParseIP_bytes in Hb as [Hb _].
  apply (To4_bytes _ _ Hb) in Hip as [? ?]; by apply be_value_range.
Qed.

Lemma range_elements t out : expandIPv4Range t = Ok out ->
  Forall dotted out /\ forall a, listed element_addresses out a = range_addresses t a.
Proof.
  unfold expandIPv4Range, range_addresses. destruct (cut_byte t "-"%char) as [[x y]|]; [|done].
  destruct (ParseIP (TrimSpace x) ≫= To4) as [s|] eqn:Es; [|done]. destruct (ParseIP (TrimSpace y) ≫= To4) as [e|] eqn:Ee; [|done].
  apply four_bytes_value in Es, Ee. cbv zeta. destruct (Z.ltb_spec (be_value e) (be_value s)) as [|Hle]; [done|].
  destruct (decide (be_value e = last_address)) as [El|El].
  { rewrite El, (top_panics range_fuel 0 (be_value s)); [done|lia|unfold range_fuel; lia|lia|apply Z.divide_1_l]. }
  unfold last_address in El. destruct (tiled_growing range_fuel 0 (be_value s) (be_value e)) as (blocks & Hb & Ht & _);
    try (unfold range_fuel; lia); [apply Z.divide_1_l|].
  rewrite Hb. intros [= <-]. pose proof (tiles_blocks _ _ _ (proj1 Es) Ht) as Hf. rewrite Forall_forall in Hf. split.
  - apply Forall_fmap, Forall_forall. intros [b n] Hin. destruct (Hf _ Hin) as (Hr & Hn & _). cbn in Hr, Hn. apply cidr_text_addresses; lia.
  - intros a. apply eq_true_iff_eq. unfold listed. rewrite existsb_exists, andb_true_iff, !Z.leb_le.
    pose proof (tiles_cover _ _ _ a Ht) as Hcover. split.
    + intros (text & Hin & Ha). apply in_map_iff in Hin as ([b n] & <- & Hin%list_elem_of_In). destruct (Hf _ Hin) as (Hr & Hn & Hd). cbn in Hr, Hn, Hd.
      rewrite (proj2 (cidr_text_addresses b n ltac:(lia) Hn)) in Ha. apply Z.eqb_eq in Ha.
      assert (be_value s <= a < be_value e + 1); [|lia]. apply Hcover. split; [done|]. apply Exists_exists. exists (b, n). split; [done|].
      by apply in_block_prefix.
    + intros Ha. assert (be_value s <= a < be_value e + 1) as [_ He]%Hcover by lia. apply Exists_exists in He as ([b n] & Hin & Hblock).
      destruct (Hf _ Hin) as (Hr & Hn & Hd). cbn in Hr, Hn, Hd. exists (cidr_text (b, n)). split; [apply in_map_iff; exists (b, n); by rewrite <- list_elem_of_In|].
      rewrite (proj2 (cidr_text_addresses b n ltac:(lia) Hn)). by apply Z.eqb_eq, in_block_prefix.
Qed.

(** ** Targets *)

Lemma dtoi_nonneg l n : dtoi l = Some n -> 0 <= n.
Proof.
  unfold dtoi. destruct l as [|c l]; [done|]. generalize (c :: l). clear c l.
  assert (H : forall l acc, 0 <= acc -> dtoi_from acc l = Some n -> 0 <= n).
  { induction l as [|c l IH]; intros acc Ha; cbn [dtoi_from]; [by intros [= <-]|]. destruct (is_digit c) eqn:Ed; [|done].
    unfold is_digit in Ed. apply andb_true_iff in Ed as [?%Z.leb_le ?%Z.leb_le]. cbv zeta. destruct (_ <=? _); [done|]. apply IH. lia. }
  intros l. by apply H.
Qed.

Definition plain_target (t : string) : bool := parseIPv4 t || parseIPv4CIDR t.

Lemma plain_dotted t : has_byte t ":"%char = false -> plain_target t = true -> dotted t.
Proof.
  intros Hc. unfold plain_target, parseIPv4, parseIPv4CIDR, ParseIP, ParseCIDR, dotted. intros [H|H]%orb_true_iff.
  - destruct (ParseAddr t) as [a|] eqn:Ea; [|done]. destruct (no_colon_four _ _ Hc Ea) as [ip ->]. rewrite (four_no_slash _ _ Ea). by exists ip.
  - destruct (cut_byte t "/"%char) as [[addr bits]|] eqn:Ec; [|done]. destruct (ParseAddr addr) as [a|] eqn:Ea; [|done].
    destruct (dtoi (to_bytes bits)) as [n|] eqn:En; [|done].
    assert (Hca : has_byte addr ":"%char = false).
    { apply cut_byte_Some in Ec as [-> _]. rewrite has_byte_app in Hc. by apply orb_false_iff in Hc as [? _]. }
    destruct (no_colon_four _ _ Hca Ea) as [ip ->]. cbn [no_zone andb BitLen] in H. exists ip, n. split_and!; [done|done|by eapply dtoi_nonneg|].
    by destruct (Z.leb_spec n 32).
Qed.

(** The addresses that a trimmed target names. *)
Definition target_addresses (t : string) (a : Z) : bool :=
  if plain_target t then element_addresses t a else range_addresses t a.

Lemma target_elements t out : has_byte t ":"%char = false -> normalizeFirewallTarget t = Ok out ->
  Forall dotted out /\ forall a, listed element_addresses out a = target_addresses t a.
Proof.
  intros Hc. unfold normalizeFirewallTarget, target_addresses. fold (plain_target t). destruct (plain_target t) eqn:Ep.
  - intros [= <-]. split; [by repeat constructor; apply plain_dotted|]. intros a. unfold listed. cbn. apply orb_false_r.
  - destruct (Contains t "-"); [|done]. apply range_elements.
Qed.

Section Listed.
  Context (denotes : string -> Z -> bool).

Lemma listed_iff l a : listed denotes l a = true <-> exists e, e ∈ l /\ denotes e a = true.
Proof. unfold listed. rewrite existsb_exists. by setoid_rewrite <- list_elem_of_In. Qed.

Lemma listed_ext l1 l2 a : (forall e, e ∈ l1 <-> e ∈ l2) -> listed denotes l1 a = listed denotes l2 a.
Proof. intros He. apply eq_true_iff_eq. rewrite !listed_iff. by setoid_rewrite He. Qed.

Lemma listed_app l1 l2 a : listed denotes (l1 ++ l2) a = listed denotes l1 a || listed denotes l2 a.
Proof. apply existsb_app. Qed.

End Listed.

Definition no_colon (t : string) : Prop := has_byte (TrimSpace t) ":"%char = false.

(** Blank targets name nothing. *)
Definition entry_addresses (a : Z) (t : string) : bool := negb (bool_decide (TrimSpace t = "")) && target_addresses (TrimSpace t) a.

Lemma entries_elements targets : forall out out', Forall no_colon targets -> Forall dotted out -> fold_result normalize_target out targets = Ok out' ->
  Forall dotted out' /\ forall a, listed element_addresses out' a = listed element_addresses out a || existsb (entry_addresses a) targets.
Proof.
  induction targets as [|t targets IH]; intros out out' Hc Hout; cbn [fold_result existsb].
  - intros [= <-]. split; [done|]. intros a. by rewrite orb_false_r.
  - apply Forall_cons in Hc as [Ht Hc]. intros (mid & Hstep & Hrest)%result_bind_ok. unfold normalize_target in Hstep. cbv zeta in Hstep.
    unfold entry_addresses at 1. case_bool_decide as Hb.
    + injection Hstep as <-. cbn [negb andb orb]. by apply IH.
    + apply result_bind_ok in Hstep as (normalized & Hn & [= <-]). destruct (target_elements _ _ Ht Hn) as [Hd Hl].
      assert (Hmem : forall e, e ∈ foldl push_unique out normalized <-> e ∈ out ++ normalized) by (intros e; rewrite foldl_push_unique_elem; symmetry; apply elem_of_app).
      destruct (IH (foldl push_unique out normalized) out' Hc) as [Hd' Hl']; [|exact Hrest|].
      { apply Forall_forall. intros e [He|He]%Hmem%elem_of_app; [by eapply Forall_forall in Hout|by eapply Forall_forall in Hd]. }
      split; [done|]. intros a. rewrite Hl', (listed_ext _ _ _ a Hmem), listed_app, Hl. cbn [negb andb]. by rewrite orb_assoc.
Qed.

Lemma targets_elements targets out : Forall no_colon targets -> normalizeFirewallTargets targets = Ok out ->
  Forall dotted out /\ forall a, listed element_addresses out a = existsb (entry_addresses a) targets.
Proof.
  intros Hc (mid & Hm & [= <-])%result_bind_ok. destruct (entries_elements _ [] mid Hc (List.Forall_nil _) Hm) as [Hd Hl]. split.
  - apply Forall_forall. intros e He. rewrite sort_strings_elem in He. by eapply Forall_forall in Hd.
  - intros a. rewrite (listed_ext _ _ mid); [apply Hl|]. intros e. apply sort_strings_elem.
Qed.

Lemma listed_dotted denotes l a : (forall e a, dotted e -> denotes e a = element_addresses e a) -> Forall dotted l ->
  listed denotes l a = listed element_addresses l a.
Proof.
  intros Hd Hl. unfold listed. induction Hl as [|e l He _ IH]; [done|]. cbn. by rewrite IH, Hd.
Qed.

(** A set holds the addresses of the configured targets.  For targets without
    colons, when [denotes] reads dotted addresses and prefixes as nft does, every
    element is dotted and an address is in the set exactly when some target names
    it: an address itself, a prefix those it covers, a range those between its ends. *)
Theorem targets_hold_their_addresses (denotes : string -> Z -> bool) targets out :
  (forall e a, dotted e -> denotes e a = element_addresses e a) ->
  Forall no_colon targets -> normalizeFirewallTargets targets = Ok out ->
  Forall dotted out /\ forall a, listed denotes out a = existsb (entry_addresses a) targets.
Proof.
  intros Hd Hc Hn. destruct (targets_elements _ _ Hc Hn) as [Hdot Hl]. split; [done|]. intros a. by rewrite listed_dotted, Hl.
Qed.

Lemma targets_hold_their_addresses_witness :
  let out := ["203.0.113.0/30"; "203.0.113.4/31"; "203.0.113.6/32"; "8.8.8.8"] in
  normalizeFirewallTargets [" 8.8.8.8"; ""; "203.0.113.0-203.0.113.6"; "8.8.8.8"] = Ok out /\
  listed element_addresses out 3405803782 = true.
Proof.
  intros out. assert (E : normalizeFirewallTargets [" 8.8.8.8"; ""; "203.0.113.0-203.0.113.6"; "8.8.8.8"] = Ok out) by (vm_compute; reflexivity).
  split; [exact E|]. destruct (targets_hold_their_addresses element_addresses [" 8.8.8.8"; ""; "203.0.113.0-203.0.113.6"; "8.8.8.8"] out) as [_ Hl].
  - reflexivity.
  - repeat constructor.
  - exact E.
  - exact (eq_trans (Hl 3405803782) ltac:(vm_compute; reflexivity)).
Defined.

(** An IPv4 address written in the notation of IPv6 is accepted.  The
    configuration takes such a target, and the rules list it as it is, although it
    is not a dotted address and the sets are declared to hold IPv4 addresses. *)
Theorem mapped_target_is_listed t :
  TrimSpace t = t -> t <> "" -> parseIPv4 t = true -> has_byte t ":"%char = true -> has_byte t "/"%char = false ->
  normalizeFirewallIPv4Selector t = Ok (Some t) /\ normalizeFirewallTargets [t] = Ok [t] /\ ~ dotted t.
Proof.
  intros Ht Hne Hp Hc Hs. split_and!.
  - unfold normalizeFirewallIPv4Selector. by rewrite Ht, Hp.
  - unfold normalizeFirewallTargets. cbn [fold_result]. unfold normalize_target, normalizeFirewallTarget. rewrite Ht, Hp. by case_bool_decide.
  - unfold dotted. rewrite (proj2 (cut_byte_None _ _) Hs). intros [ip Ha]. rewrite (four_no_byte _ _ ":"%char Ha) in Hc; [done|].
    change (byte_of ":"%char) with 58. unfold address_byte. lia.
Qed.

Lemma mapped_target_is_listed_witness :
  normalizeFirewallTargets ["::ffff:203.0.113.9"] = Ok ["::ffff:203.0.113.9"] /\ ~ dotted "::ffff:203.0.113.9".
Proof.
  destruct (mapped_target_is_listed "::ffff:203.0.113.9" ltac:(vm_compute; reflexivity) ltac:(discriminate)
    ltac:(vm_compute; reflexivity) ltac:(vm_compute; reflexivity) ltac:(vm_compute; reflexivity)) as (_ & Hl & Hd).
  split; [exact Hl|exact Hd].
Defined.
