(* ===== verification/Zapret.v ===== *)
(** * Zapret fallback

    [domain/zapret.go]: transport modes, settings and selectors of the
    fallback transport. *)
From S2P Require Import Prelude GoRunes GoStrings NetIP Domain Firewall FirewallFacts.
From S2P Require Import FirewallGraph FirewallSettings.

Local Open Scope Z_scope.
Local Open Scope list_scope.

Definition TransportModeProxy := "proxy".
Definition TransportModeZapret := "zapret".
Definition TransportModeDirect := "direct".

Module ZapretSettings.
Record ZapretSettings : Type := mk {
  Enabled : bool;
  Selectors : FirewallSelectorSet;
  FailbackSuccessThreshold : Z
}.
Definition eta (s : ZapretSettings) : ZapretSettings :=
  mk (Enabled s) (Selectors s) (FailbackSuccessThreshold s).
#[export] Instance set_Enabled : Setter Enabled := ltac:(mk_setter eta Enabled).
#[export] Instance set_Selectors : Setter Selectors := ltac:(mk_setter eta Selectors).
#[export] Instance set_FailbackSuccessThreshold : Setter FailbackSuccessThreshold :=
  ltac:(mk_setter eta FailbackSuccessThreshold).
End ZapretSettings.
Export (hints) ZapretSettings.
Abbreviation ZapretSettings := ZapretSettings.ZapretSettings.

Module ZapretStatus.
Record ZapretStatus : Type := mk {
  Installed : bool;
  Managed : bool;
  Active : bool;
  ServiceActive : bool;
  TestActive : bool;
  ServiceState : string;
  LastReason : string
}.
End ZapretStatus.

Definition DefaultZapretSettings : ZapretSettings :=
  ZapretSettings.mk false FirewallSelectorSet.zero 3.

Definition NormalizeTransportMode (mode : string) : string :=
  if bool_decide (mode = TransportModeProxy) || bool_decide (mode = TransportModeZapret)
  then mode else TransportModeDirect.

Definition NormalizeZapretSettings (settings : ZapretSettings) : ZapretSettings :=
  let settings := settings <| ZapretSettings.Selectors ::= CloneFirewallSelectorSet |> in
  if ZapretSettings.FailbackSuccessThreshold settings <? 1
  then settings <| ZapretSettings.FailbackSuccessThreshold :=
         ZapretSettings.FailbackSuccessThreshold DefaultZapretSettings |>
  else settings.

Definition ExpandZapretSelectorDomains (customCatalog : Catalog) (selectors : FirewallSelectorSet)
    : list string :=
  ExpandFirewallTargetDomains customCatalog (FirewallSelectorSet.Services selectors)
    (FirewallSelectorSet.Domains selectors).

Definition ExpandZapretSelectorCIDRs (customCatalog : Catalog) (selectors : FirewallSelectorSet)
    : list string :=
  ExpandFirewallTargetCIDRs customCatalog (FirewallSelectorSet.Services selectors)
    (FirewallSelectorSet.CIDRs selectors).

Definition ZapretSelectorSetHasEntries (value : FirewallSelectorSet) : bool :=
  (0 <? length (FirewallSelectorSet.Services value))%nat
  || (0 <? length (FirewallSelectorSet.Domains value))%nat
  || (0 <? length (FirewallSelectorSet.CIDRs value))%nat.

(** The loop of [normalizeZapretList] before the sort. *)
Definition clean_value (cleaned : list string) (value : string) : list string :=
  let value := TrimSpace (ToLower value) in
  if bool_decide (value = "") then cleaned else push_unique cleaned value.

Definition normalizeZapretList (values : list string) : list string :=
  sort_strings (foldl clean_value [] values).

Definition NormalizeZapretDomainList (domains : list string) : list string :=
  normalizeZapretList domains.

Definition NormalizeZapretCIDRList (cidrs : list string) : list string :=
  normalizeZapretList cidrs.

(** Domains are expanded from the normalised selectors, then addresses from
    the services that are still there. *)
Definition CanonicalZapretSettingsWithCatalog (settings : ZapretSettings) (customCatalog : Catalog)
    : ZapretSettings :=
  let settings := NormalizeZapretSettings settings in
  let sel := ZapretSettings.Selectors settings in
  let sel := FirewallSelectorSet.mk (FirewallSelectorSet.Services sel)
    (NormalizeZapretDomainList (ExpandZapretSelectorDomains customCatalog sel))
    (FirewallSelectorSet.CIDRs sel) in
  let sel := FirewallSelectorSet.mk (FirewallSelectorSet.Services sel)
    (FirewallSelectorSet.Domains sel)
    (NormalizeZapretCIDRList (ExpandZapretSelectorCIDRs customCatalog sel)) in
  let sel := FirewallSelectorSet.mk
    (canonicalFirewallTargetServices (FirewallSelectorSet.Services sel))
    (FirewallSelectorSet.Domains sel) (FirewallSelectorSet.CIDRs sel) in
  settings <| ZapretSettings.Selectors := sel |>.

Inductive ZapretError : Type :=
| InvalidSelector (e : FirewallError)
| UnsupportedZapretSelector (value : string).

(** The same checks as [normalizeFirewallDomain], with messages of its own. *)
Definition normalizeZapretDomain (value : string) : result ZapretError string :=
  let value := TrimSuffix (TrimSpace (ToLower value)) "." in
  if bool_decide (value = "") then Err (UnsupportedZapretSelector value)
  else if Contains value "://" then Err (UnsupportedZapretSelector value)
  else if ContainsAny value "/:@" then Err (UnsupportedZapretSelector value)
  else if Contains value "*" then Err (UnsupportedZapretSelector value)
  else if (count_byte value "."%char =? 0)%nat then Err (UnsupportedZapretSelector value)
  else if forallb domain_label (split_byte value "."%char) then Ok value
  else Err (UnsupportedZapretSelector value).

Definition set_services (f : list string -> list string) (s : FirewallSelectorSet) : FirewallSelectorSet :=
  FirewallSelectorSet.mk (f (FirewallSelectorSet.Services s)) (FirewallSelectorSet.Domains s)
    (FirewallSelectorSet.CIDRs s).
Definition set_domains (f : list string -> list string) (s : FirewallSelectorSet) : FirewallSelectorSet :=
  FirewallSelectorSet.mk (FirewallSelectorSet.Services s) (f (FirewallSelectorSet.Domains s))
    (FirewallSelectorSet.CIDRs s).
Definition set_cidrs (f : list string -> list string) (s : FirewallSelectorSet) : FirewallSelectorSet :=
  FirewallSelectorSet.mk (FirewallSelectorSet.Services s) (FirewallSelectorSet.Domains s)
    (f (FirewallSelectorSet.CIDRs s)).

(** One round of the loop of [ParseZapretSelectors]. *)
Definition parse_zapret_selector (customCatalog : Catalog) (acc : FirewallSelectorSet)
    (selector : string) : result ZapretError FirewallSelectorSet :=
  let selector := TrimSpace selector in
  if bool_decide (selector = "") then Ok acc
  else match normalizeFirewallIPv4Selector selector with
  | Err e => Err (InvalidSelector e)
  | Ok (Some normalized) => Ok (set_cidrs (fun l => push_unique l normalized) acc)
  | Ok None =>
    match LookupFirewallTargetService customCatalog selector with
    | Some service =>
      Ok (set_services (fun l => push_unique l (FirewallTargetService.Name service)) acc)
    | None =>
      if negb (Contains selector ".")
      then Err (UnsupportedZapretSelector (TrimSpace (ToLower selector)))
      else
        let* normalized := normalizeZapretDomain selector in
        Ok (set_domains (fun l => push_unique l normalized) acc)
    end
  end.

Definition ParseZapretSelectors (selectors : list string) (customCatalog : Catalog)
    : result ZapretError FirewallSelectorSet :=
  fold_result (parse_zapret_selector customCatalog) FirewallSelectorSet.zero selectors.

(** ** Lists *)

Lemma clean_value_elem out v x :
  x ∈ clean_value out v <-> x ∈ out \/ (x <> "" /\ TrimSpace (ToLower v) = x).
Proof.
  unfold clean_value. case_bool_decide as Hb.
  - split; [by left|]. intros [?|[H1 H2]]; [done|congruence].
  - pose proof (push_unique_by_key id out (TrimSpace (ToLower v)) x) as Hk.
    rewrite !list_fmap_id in Hk. rewrite Hk. unfold id.
    split; (intros [H|H]; [by left|right]); [by subst|by destruct H].
Qed.

Lemma normalizeZapretList_elem values x :
  x ∈ normalizeZapretList values <-> x <> "" /\ exists v, v ∈ values /\ TrimSpace (ToLower v) = x.
Proof.
  unfold normalizeZapretList. rewrite sort_strings_elem.
  rewrite (foldl_elem_spec clean_value (fun v x => x <> "" /\ TrimSpace (ToLower v) = x))
    by (intros; apply clean_value_elem).
  split.
  - intros [Hn|(v & Hv & Hne & Hx)]; [by apply not_elem_of_nil in Hn|]. split; [done|by exists v].
  - intros (Hne & v & Hv & Hx). right. by exists v.
Qed.

Lemma normalizeZapretList_nodup values : NoDup (normalizeZapretList values).
Proof.
  apply sort_strings_nodup, foldl_nodup; [|constructor].
  intros out v Hnd. unfold clean_value. case_bool_decide; [done|by apply push_unique_nodup].
Qed.

(** Two lists without duplicates and with the same elements sort alike. *)
Lemma sort_strings_ext l k :
  NoDup l -> NoDup k -> (forall x, x ∈ l <-> x ∈ k) -> sort_strings l = sort_strings k.
Proof. intros Hl Hk H. apply sort_strings_unique. by apply NoDup_Permutation. Qed.

(** The normalised list is sorted, has no duplicate, holds exactly the
    non-blank values in lower case, depends on them alone and is a fixed
    point. *)
Theorem normalizeZapretList_spec values :
  StronglySorted String.le (normalizeZapretList values) /\
  NoDup (normalizeZapretList values) /\
  (forall x, x ∈ normalizeZapretList values <->
     x <> "" /\ exists v, v ∈ values /\ TrimSpace (ToLower v) = x) /\
  normalizeZapretList (normalizeZapretList values) = normalizeZapretList values.
Proof.
  split; [apply sort_strings_sorted|]. split; [apply normalizeZapretList_nodup|].
  split; [apply normalizeZapretList_elem|].
  rewrite <- (sort_strings_id (normalizeZapretList values)) at 2 by apply sort_strings_sorted.
  assert (Hid : normalizeZapretList (normalizeZapretList values) =
    sort_strings (normalizeZapretList (normalizeZapretList values)))
    by (symmetry; apply sort_strings_id, sort_strings_sorted).
  rewrite Hid. apply sort_strings_ext; try apply normalizeZapretList_nodup.
  intros x. rewrite (normalizeZapretList_elem (normalizeZapretList values)).
  split.
  - intros (Hne & v & Hv & Hx). pose proof Hv as (_ & w & _ & Hw)%normalizeZapretList_elem.
    rewrite <- Hw, trim_lower_idemp, Hw in Hx. by subst.
  - intros Hx. pose proof Hx as (Hne & w & _ & Hw)%normalizeZapretList_elem. split; [done|].
    exists x. split; [done|]. by rewrite <- Hw, trim_lower_idemp.
Qed.

(** ** Selectors *)

Lemma normalizeZapretDomain_firewall v d :
  normalizeZapretDomain v = Ok d <-> normalizeFirewallDomain v = Ok d.
Proof.
  unfold normalizeZapretDomain, normalizeFirewallDomain.
  destruct (bool_decide _); [done|]. destruct (Contains _ "://"); [done|].
  destruct (ContainsAny _ _); [done|]. destruct (Contains _ "*"); [done|].
  destruct (count_byte _ _ =? 0)%nat; [done|]. destruct (forallb _ _); [|done].
  split; by intros [= ->].
Qed.

Lemma LookupFirewallTargetService_name catalog v s :
  LookupFirewallTargetService catalog v = Some s ->
  normalizeFirewallTargetAlias v = Ok (FirewallTargetService.Name s) /\
  is_Some (mergeFirewallTargetRegistry catalog !! FirewallTargetService.Name s).
Proof.
  unfold LookupFirewallTargetService. destruct (normalizeFirewallTargetAlias v) as [n|]; [|done].
  destruct (firewallTargetServicePresets !! n) as [d|] eqn:E.
  - intros [= <-]. split; [done|]. cbn. rewrite (builtin_shadows_custom catalog n d E). eauto.
  - intros (d & Hd & ->)%fmap_Some. split; [done|]. cbn. unfold mergeFirewallTargetRegistry.
    rewrite lookup_union_r by by rewrite lookup_fmap, E. rewrite lookup_fmap, Hd. eauto.
Qed.

(** Parsed selectors: duplicate-free lists of known valid service names, of
    IPv4 selectors and of domains in normal form. *)
Definition zapret_selectors_ok (catalog : Catalog) (s : FirewallSelectorSet) : Prop :=
  (NoDup (FirewallSelectorSet.Services s) /\
   forall n, n ∈ FirewallSelectorSet.Services s ->
     valid_alias n /\ is_Some (mergeFirewallTargetRegistry catalog !! n)) /\
  (NoDup (FirewallSelectorSet.CIDRs s) /\ forall c, c ∈ FirewallSelectorSet.CIDRs s -> ipv4_selector c) /\
  (NoDup (FirewallSelectorSet.Domains s) /\
   forall d, d ∈ FirewallSelectorSet.Domains s -> valid_domain d = true).

Lemma parse_zapret_selector_ok catalog acc s acc' :
  zapret_selectors_ok catalog acc -> parse_zapret_selector catalog acc s = Ok acc' ->
  zapret_selectors_ok catalog acc'.
Proof.
  intros (Hs & Hc & Hd). unfold parse_zapret_selector. case_bool_decide; [by intros [= <-]|].
  destruct (normalizeFirewallIPv4Selector _) as [[n|]|e] eqn:En; [| |done].
  - intros [= <-]. apply normalizeFirewallIPv4Selector_some in En as [_ Hn].
    split; [done|]. split; [by apply push_unique_ok|done].
  - destruct (LookupFirewallTargetService _ _) as [service|] eqn:El.
    + intros [= <-]. apply LookupFirewallTargetService_name in El as [Hn Hr].
      apply normalizeFirewallTargetAlias_valid in Hn as (_ & Hv & _).
      split; [|done]. by apply push_unique_ok.
    + destruct (negb _); [done|]. intros (d & Hdom & [= <-])%result_bind_ok.
      apply normalizeZapretDomain_firewall, normalizeFirewallDomain_valid in Hdom.
      split; [done|]. split; [done|]. by apply push_unique_ok.
Qed.

(** Selectors accepted for the fallback are duplicate-free; services are
    valid names of the catalog, addresses IPv4 selectors, domains normal
    forms. *)
Theorem ParseZapretSelectors_sound selectors catalog s :
  ParseZapretSelectors selectors catalog = Ok s -> zapret_selectors_ok catalog s.
Proof.
  intros H. eapply (fold_result_inv _ (zapret_selectors_ok catalog)); [| |exact H].
  - assert (Hz : forall P : string -> Prop, NoDup (@nil string) /\ forall x, x ∈ [] -> P x).
    { intros P. split; [constructor|]. by intros x Hx%not_elem_of_nil. }
    split; [|split]; apply Hz.
  - intros; by eapply parse_zapret_selector_ok.
Qed.

Lemma ParseZapretSelectors_witness :
  let s := FirewallSelectorSet.mk ["youtube"] ["example.org"] ["1.2.3.4/24"] in
  ParseZapretSelectors ["YouTube"; "1.2.3.4/24"; "Example.org"; "example.org."] ∅ = Ok s /\
  zapret_selectors_ok ∅ s.
Proof.
  intros s.
  assert (H : ParseZapretSelectors ["YouTube"; "1.2.3.4/24"; "Example.org"; "example.org."] ∅ = Ok s)
    by (vm_compute; reflexivity).
  split; [exact H|]. exact (ParseZapretSelectors_sound _ _ _ H).
Defined.

(** ** Canonical settings *)

(** The canonical lists are sorted and the threshold positive, but a second
    pass can add domains: a family root that came from a custom service is
    expanded only when it is found among the domains. *)
Lemma CanonicalZapretSettings_grows :
  let catalog := {[ "mine" := FirewallTargetDefinition.mk [] ["x.com"] [] ]} in
  let once := CanonicalZapretSettingsWithCatalog
    (ZapretSettings.mk true (FirewallSelectorSet.mk ["mine"] [] []) 0) catalog in
  FirewallSelectorSet.Domains (ZapretSettings.Selectors once) = ["x.com"] /\
  FirewallSelectorSet.Domains (ZapretSettings.Selectors
    (CanonicalZapretSettingsWithCatalog once catalog)) = ["t.co"; "twimg.com"; "twitter.com"; "x.com"].
Proof. vm_compute. auto. Qed.
