(* ===== verification/Settings.v ===== *)
(** * Application settings

    The rest of [domain/settings.go]: the settings record and its defaults,
    automatic selection policies, DNS modes, and the two ways of hiding nodes
    from automatic selection (explicit exclusions and keywords). *)
From S2P Require Import Prelude GoRunes GoStrings GoNum Domain Firewall FirewallFacts.
From S2P Require Import FirewallGraph FirewallSettings Zapret.

Local Open Scope Z_scope.
Local Open Scope list_scope.

Definition SelectionModeManual := "manual".
Definition SelectionModeAuto := "auto".
Definition SelectionModeDisconnected := "disconnected".

Definition AutoProfileGames := "games".
Definition AutoProfileStreaming := "streaming".
Definition AutoProfileBalanced := "balanced".
Definition AutoProfileCustom := "custom".

Definition DNSModeSystem := "system".
Definition DNSModeRemote := "remote".
Definition DNSModeSplit := "split".
Definition DNSModeDisabled := "disabled".

Definition DNSTransportPlain := "plain".
Definition DNSTransportDoH := "doh".
Definition DNSTransportDoT := "dot".

Module AutoPolicy.
Record AutoPolicy : Type := mk {
  AllowOptimization : bool;
  CurrentLatencyCeiling : Duration;
  LatencyImprovement : Duration;
  RelativeImprovement : f64;
  RequiredCandidateWins : Z;
  Cooldown : Duration;
  FailureThreshold : Z
}.
End AutoPolicy.
Abbreviation AutoPolicy := AutoPolicy.AutoPolicy.

Module DNSSettings.
Record DNSSettings : Type := mk {
  Mode : string;
  Transport : string;
  Servers : list string;
  Bootstrap : list string;
  DirectDomains : list string
}.
End DNSSettings.
Abbreviation DNSSettings := DNSSettings.DNSSettings.

Module DNSRuntimeStatus.
Record DNSRuntimeStatus : Type := mk {
  Available : bool;
  Active : bool;
  LocalDNSListen : string;
  LocalDNSPort : Z;
  DNSMasqSnippetPath : string;
  DNSMasqSnippetFound : bool;
  ResolvFile : string;
  SystemResolvers : list string;
  DegradedReason : string;
  Error : string
}.
End DNSRuntimeStatus.

Module Settings.
Record Settings : Type := mk {
  SchemaVersion : Z;
  RefreshInterval : Duration;
  HealthCheckInterval : Duration;
  URLTestURL : string;
  URLTestFallbackURL : string;
  URLTestTimeout : Duration;
  SwitchCooldown : Duration;
  LatencyThreshold : Duration;
  AutoProfile : string;
  CustomAutoPolicy : AutoPolicy;
  AutoExcludedNodes : list string;
  AutoHideKeywords : list string;
  DNS : DNSSettings;
  Firewall : FirewallSettings;
  Zapret : ZapretSettings;
  AutoMode : bool;
  Mode : string;
  LogLevel : string;
  StrictEgressCheck : bool;
  CountryRouting : CountryRouting
}.
Definition eta (s : Settings) : Settings :=
  mk (SchemaVersion s) (RefreshInterval s) (HealthCheckInterval s) (URLTestURL s)
     (URLTestFallbackURL s) (URLTestTimeout s) (SwitchCooldown s) (LatencyThreshold s)
     (AutoProfile s) (CustomAutoPolicy s) (AutoExcludedNodes s) (AutoHideKeywords s) (DNS s)
     (Firewall s) (Zapret s) (AutoMode s) (Mode s) (LogLevel s) (StrictEgressCheck s)
     (CountryRouting s).
#[export] Instance set_SchemaVersion : Setter SchemaVersion := ltac:(mk_setter eta SchemaVersion).
#[export] Instance set_RefreshInterval : Setter RefreshInterval := ltac:(mk_setter eta RefreshInterval).
#[export] Instance set_HealthCheckInterval : Setter HealthCheckInterval :=
  ltac:(mk_setter eta HealthCheckInterval).
#[export] Instance set_URLTestURL : Setter URLTestURL := ltac:(mk_setter eta URLTestURL).
#[export] Instance set_URLTestFallbackURL : Setter URLTestFallbackURL :=
  ltac:(mk_setter eta URLTestFallbackURL).
#[export] Instance set_URLTestTimeout : Setter URLTestTimeout := ltac:(mk_setter eta URLTestTimeout).
#[export] Instance set_SwitchCooldown : Setter SwitchCooldown := ltac:(mk_setter eta SwitchCooldown).
#[export] Instance set_LatencyThreshold : Setter LatencyThreshold := ltac:(mk_setter eta LatencyThreshold).
#[export] Instance set_AutoProfile : Setter AutoProfile := ltac:(mk_setter eta AutoProfile).
#[export] Instance set_CustomAutoPolicy : Setter CustomAutoPolicy := ltac:(mk_setter eta CustomAutoPolicy).
#[export] Instance set_AutoExcludedNodes : Setter AutoExcludedNodes := ltac:(mk_setter eta AutoExcludedNodes).
#[export] Instance set_AutoHideKeywords : Setter AutoHideKeywords := ltac:(mk_setter eta AutoHideKeywords).
#[export] Instance set_DNS : Setter DNS := ltac:(mk_setter eta DNS).
#[export] Instance set_Firewall : Setter Firewall := ltac:(mk_setter eta Firewall).
#[export] Instance set_Zapret : Setter Zapret := ltac:(mk_setter eta Zapret).
#[export] Instance set_AutoMode : Setter AutoMode := ltac:(mk_setter eta AutoMode).
#[export] Instance set_Mode : Setter Mode := ltac:(mk_setter eta Mode).
#[export] Instance set_LogLevel : Setter LogLevel := ltac:(mk_setter eta LogLevel).
#[export] Instance set_StrictEgressCheck : Setter StrictEgressCheck := ltac:(mk_setter eta StrictEgressCheck).
#[export] Instance set_CountryRouting : Setter CountryRouting := ltac:(mk_setter eta CountryRouting).
End Settings.
Export (hints) Settings.
Abbreviation Settings := Settings.Settings.

(** ** Policies and defaults *)

Definition PresetAutoPolicy (profile : string) : AutoPolicy :=
  if bool_decide (profile = AutoProfileGames)
  then AutoPolicy.mk false 0 0 (S754_zero false) 0 0 3
  else if bool_decide (profile = AutoProfileStreaming)
  then AutoPolicy.mk true (250 * Millisecond) (70 * Millisecond) (f64_const 35 100) 4 (20 * Minute) 2
  else AutoPolicy.mk true 0 (70 * Millisecond) (f64_const 35 100) 4 (20 * Minute) 2.

Definition EffectiveAutoPolicy (s : Settings) : AutoPolicy :=
  if bool_decide (Settings.AutoProfile s = AutoProfileCustom) then Settings.CustomAutoPolicy s
  else PresetAutoPolicy (Settings.AutoProfile s).

Definition DefaultDNSSettings : DNSSettings :=
  DNSSettings.mk DNSModeSplit DNSTransportDoH ["1.1.1.1"; "1.0.0.1"] []
    ["domain:lan"; "full:router.lan"].

Definition DefaultSettings : Settings :=
  Settings.mk 12 Hour (30 * Minute) "https://www.gstatic.com/generate_204"
    "https://cp.cloudflare.com/generate_204" (5 * Second) (20 * Minute) (70 * Millisecond)
    AutoProfileBalanced (PresetAutoPolicy AutoProfileBalanced) [] [] DefaultDNSSettings
    (FirewallSettings.mk true 12345 FirewallModeSplit false [] FirewallSelectorSet.zero
       (FirewallSplitSettings.mk FirewallSelectorSet.zero FirewallSelectorSet.zero []
          FirewallDefaultActionProxy)
       ∅ FirewallModeDrafts.zero false)
    DefaultZapretSettings false SelectionModeManual "info" true CountryRouting.zero.

Definition CanonicalZapretSettings (settings : ZapretSettings) : ZapretSettings :=
  NormalizeZapretSettings settings.

(** ** DNS *)

Inductive SettingsError : Type :=
| UnsupportedDNSMode (raw : string)
| UnsupportedDNSTransport (raw : string).

Definition ParseDNSMode (raw : string) : result SettingsError string :=
  let v := ToLower (TrimSpace raw) in
  if bool_decide (v = "") then Ok DNSModeSystem
  else if bool_decide (v = DNSModeSystem) || bool_decide (v = DNSModeRemote)
          || bool_decide (v = DNSModeSplit) || bool_decide (v = DNSModeDisabled)
  then Ok v else Err (UnsupportedDNSMode raw).

Definition ParseDNSTransport (raw : string) : result SettingsError string :=
  let v := ToLower (TrimSpace raw) in
  if bool_decide (v = "") then Ok DNSTransportPlain
  else if bool_decide (v = DNSTransportPlain) || bool_decide (v = DNSTransportDoH)
          || bool_decide (v = DNSTransportDoT)
  then Ok v else Err (UnsupportedDNSTransport raw).

(** ** Exclusions *)

Definition AutoExcludedNodeKey (subscriptionID nodeID : string) : string :=
  let subscriptionID := TrimSpace subscriptionID in
  let nodeID := TrimSpace nodeID in
  if bool_decide (subscriptionID = "") || bool_decide (nodeID = "") then ""
  else subscriptionID +:+ "/" +:+ nodeID.

Definition SplitAutoExcludedNodeKey (raw : string) : option (string * string) :=
  match cut_byte (TrimSpace raw) "/"%char with
  | None => None
  | Some (a, b) =>
    if bool_decide (a = "") || bool_decide (b = "") then None
    else
      let subscriptionID := TrimSpace a in
      let nodeID := TrimSpace b in
      if bool_decide (subscriptionID = "") || bool_decide (nodeID = "") then None
      else Some (subscriptionID, nodeID)
  end.

Definition push_excluded (out : list string) (value : string) : list string :=
  match SplitAutoExcludedNodeKey value with
  | None => out
  | Some (subscriptionID, nodeID) =>
    let key := AutoExcludedNodeKey subscriptionID nodeID in
    if bool_decide (key = "") then out else push_unique out key
  end.

Definition NormalizeAutoExcludedNodes (values : list string) : list string :=
  sort_strings (foldl push_excluded [] values).

Definition excludes (target value : string) : bool :=
  bool_decide (TrimSpace value = target) ||
  match SplitAutoExcludedNodeKey value with
  | Some (s, n) => bool_decide (AutoExcludedNodeKey s n = target)
  | None => false
  end.

Definition IsAutoExcludedNode (values : list string) (subscriptionID nodeID : string) : bool :=
  let target := AutoExcludedNodeKey subscriptionID nodeID in
  if bool_decide (target = "") then false else existsb (excludes target) values.

(** ** Keywords *)

Definition push_keyword (out : list string) (value : string) : list string :=
  let value := Join (Fields value) " " in
  if bool_decide (ToLower value = "") then out else push_unique_by ToLower out value.

Definition NormalizeAutoHideKeywords (values : list string) : list string :=
  foldl push_keyword [] values.

(** The empty string stands for no match, as in the source. *)
Definition MatchingAutoHideKeyword (values : list string) (node : Node) : string :=
  let haystack := ToLower (Join (Fields (Node.Name node +:+ " " +:+ Node.Remark node)) " ") in
  if bool_decide (haystack = "") then ""
  else default ""
    (List.find (fun value => Contains haystack (ToLower value)) (NormalizeAutoHideKeywords values)).

Definition IsNodeExcludedFromAuto (settings : Settings) (subscriptionID : string) (node : Node) : bool :=
  IsAutoExcludedNode (Settings.AutoExcludedNodes settings) subscriptionID (Node.ID node)
  || negb (bool_decide (MatchingAutoHideKeyword (Settings.AutoHideKeywords settings) node = "")).

Example exclusion_ex : NormalizeAutoExcludedNodes [" b / n "; "a/x/y"; "/n"; "b/n"; "c/"] = ["a/x/y"; "b/n"].
Proof. vm_compute. reflexivity. Qed.

Example keyword_ex : MatchingAutoHideKeyword ["  free   TRIAL "]
  (Node.zero <| Node.Name := "NL Free" |> <| Node.Remark := "trial 1" |>) = "free TRIAL".
Proof. vm_compute. reflexivity. Qed.

(** ** Exclusion keys *)

Lemma trimmed_app s m t :
  TrimSpace s = s -> s <> "" -> TrimSpace t = t -> t <> "" ->
  rune_start (to_bytes (m +:+ t)) -> decode (to_bytes (m +:+ t)) = decode (to_bytes m) ++ decode (to_bytes t) ->
  TrimSpace (s +:+ m +:+ t) = s +:+ m +:+ t.
Proof.
  intros Hs Hs0 Ht Ht0 Hr Hd. apply TrimSpace_fixed. rewrite to_bytes_app, decode_app, Hd by done.
  apply TrimSpace_fixed in Hs as [Hh _], Ht as [_ Hl].
  assert (Hne : forall u, u <> "" -> decode (to_bytes u) <> []).
  { intros u Hu E. apply Hu, to_bytes_nil. by rewrite <- (chunk_bytes_decode (to_bytes u)), E. }
  split.
  - intros c. specialize (Hne s Hs0). destruct (decode (to_bytes s)) as [|x cs]; [done|]. apply Hh.
  - intros c. rewrite !last_app. specialize (Hne t Ht0).
    destruct (last (decode (to_bytes t))) as [x|] eqn:E; [|by apply last_None in E].
    intros [= <-]. by apply Hl.
Qed.

Lemma exclusion_key_trimmed s n :
  TrimSpace s = s -> s <> "" -> TrimSpace n = n -> n <> "" ->
  TrimSpace (s +:+ "/" +:+ n) = s +:+ "/" +:+ n.
Proof.
  intros Hs Hs0 Hn Hn0. by apply trimmed_app.
Qed.

Lemma has_byte_infix a t b c : has_byte (a +:+ t +:+ b) c = false -> has_byte t c = false.
Proof. rewrite !has_byte_app, !orb_false_iff. tauto. Qed.

Lemma TrimSpace_infix s : exists a b, s = a +:+ TrimSpace s +:+ b.
Proof.
  destruct (trim_chunks_infix (decode (to_bytes s))) as (a & b & E).
  exists (of_bytes (chunk_bytes a)), (of_bytes (chunk_bytes b)).
  rewrite <- (of_to_bytes s) at 1. rewrite <- (chunk_bytes_decode (to_bytes s)), E at 1.
  by rewrite !chunk_bytes_app, !of_bytes_app.
Qed.

Lemma TrimSpace_no_byte s c : has_byte s c = false -> has_byte (TrimSpace s) c = false.
Proof. destruct (TrimSpace_infix s) as (a & b & E). rewrite E at 1. apply has_byte_infix. Qed.

(** What a successful split yields. *)
Definition exclusion_parts (s n : string) : Prop :=
  TrimSpace s = s /\ s <> "" /\ TrimSpace n = n /\ n <> "" /\ has_byte s "/"%char = false.

Lemma SplitAutoExcludedNodeKey_parts v s n :
  SplitAutoExcludedNodeKey v = Some (s, n) -> exclusion_parts s n.
Proof.
  unfold SplitAutoExcludedNodeKey. destruct (cut_byte _ _) as [[a b]|] eqn:E; [|done].
  destruct (_ || _); [done|]. destruct (_ || _) eqn:E2; [done|]. intros [= <- <-].
  apply orb_false_iff in E2 as [H1%bool_decide_eq_false H2%bool_decide_eq_false].
  apply cut_byte_Some in E as [_ Ha]. unfold exclusion_parts. rewrite !TrimSpace_idemp.
  split; [done|]. split; [done|]. split; [done|]. split; [done|]. by apply TrimSpace_no_byte.
Qed.

Lemma AutoExcludedNodeKey_parts s n :
  exclusion_parts s n -> AutoExcludedNodeKey s n = s +:+ "/" +:+ n.
Proof.
  intros (Hs & Hs0 & Hn & Hn0 & _). unfold AutoExcludedNodeKey.
  by rewrite Hs, Hn, !bool_decide_eq_false_2.
Qed.

Lemma SplitAutoExcludedNodeKey_key s n :
  exclusion_parts s n -> SplitAutoExcludedNodeKey (s +:+ "/" +:+ n) = Some (s, n).
Proof.
  intros (Hs & Hs0 & Hn & Hn0 & Hslash). unfold SplitAutoExcludedNodeKey.
  rewrite exclusion_key_trimmed by done.
  change ("/" +:+ n) with (String "/" n). rewrite cut_byte_app by done.
  rewrite Hs, Hn, !bool_decide_eq_false_2 by done. done.
Qed.

(** The persisted key of a node splits into the trimmed subscription and
    node IDs it was built from, when the subscription ID has no slash. *)
Theorem AutoExcludedNodeKey_roundtrip sub node :
  TrimSpace sub <> "" -> TrimSpace node <> "" -> has_byte sub "/"%char = false ->
  SplitAutoExcludedNodeKey (AutoExcludedNodeKey sub node) = Some (TrimSpace sub, TrimSpace node).
Proof.
  intros Hs Hn Hslash.
  assert (Hp : exclusion_parts (TrimSpace sub) (TrimSpace node)).
  { unfold exclusion_parts. rewrite !TrimSpace_idemp. split; [done|]. split; [done|].
    split; [done|]. split; [done|]. by apply TrimSpace_no_byte. }
  rewrite <- (SplitAutoExcludedNodeKey_key _ _ Hp). f_equal.
  unfold AutoExcludedNodeKey. by rewrite !bool_decide_eq_false_2.
Qed.

Lemma AutoExcludedNodeKey_roundtrip_witness :
  SplitAutoExcludedNodeKey (AutoExcludedNodeKey " sub-1" "node/2 ") = Some ("sub-1", "node/2").
Proof.
  exact (AutoExcludedNodeKey_roundtrip " sub-1" "node/2 " ltac:(vm_compute; discriminate)
    ltac:(vm_compute; discriminate) eq_refl).
Defined.

Lemma push_excluded_elem out v x :
  x ∈ push_excluded out v <->
  x ∈ out \/ exists s n, SplitAutoExcludedNodeKey v = Some (s, n) /\ x = AutoExcludedNodeKey s n.
Proof.
  unfold push_excluded. destruct (SplitAutoExcludedNodeKey v) as [[s n]|] eqn:E.
  - pose proof (SplitAutoExcludedNodeKey_parts _ _ _ E) as Hp.
    rewrite bool_decide_eq_false_2.
    + pose proof (push_unique_by_key id out (AutoExcludedNodeKey s n) x) as Hk.
      rewrite !list_fmap_id in Hk. rewrite Hk. unfold id. split.
      * intros [?|Hx]; [by left|right; by exists s, n].
      * intros [?|(s' & n' & [= <- <-] & Hx)]; [by left|by right].
    + rewrite AutoExcludedNodeKey_parts by done. destruct Hp as (_ & Hs & _).
      destruct s; [done|]. discriminate.
  - split; [by left|]. intros [?|(? & ? & ? & _)]; done.
Qed.

Lemma NormalizeAutoExcludedNodes_elem values x :
  x ∈ NormalizeAutoExcludedNodes values <->
  exists v s n, v ∈ values /\ SplitAutoExcludedNodeKey v = Some (s, n) /\ x = AutoExcludedNodeKey s n.
Proof.
  unfold NormalizeAutoExcludedNodes. rewrite sort_strings_elem.
  rewrite (foldl_elem_spec push_excluded (fun v x => exists s n,
    SplitAutoExcludedNodeKey v = Some (s, n) /\ x = AutoExcludedNodeKey s n))
    by (intros; apply push_excluded_elem).
  split.
  - intros [Hn|(v & Hv & s & n & ?)]; [by apply not_elem_of_nil in Hn|by exists v, s, n].
  - intros (v & s & n & Hv & ?). right. exists v. split; [done|by exists s, n].
Qed.

Lemma NormalizeAutoExcludedNodes_nodup values : NoDup (NormalizeAutoExcludedNodes values).
Proof.
  apply sort_strings_nodup, foldl_nodup; [|constructor].
  intros out v Hnd. unfold push_excluded. destruct (SplitAutoExcludedNodeKey v) as [[s n]|]; [|done].
  case_bool_decide; [done|by apply push_unique_nodup].
Qed.

Lemma normal_exclusion_split values x :
  x ∈ NormalizeAutoExcludedNodes values ->
  exists s n, SplitAutoExcludedNodeKey x = Some (s, n) /\ x = AutoExcludedNodeKey s n.
Proof.
  intros (v & s & n & _ & Hs & ->)%NormalizeAutoExcludedNodes_elem. exists s, n.
  pose proof (SplitAutoExcludedNodeKey_parts _ _ _ Hs) as Hp. split; [|done].
  by rewrite (AutoExcludedNodeKey_parts s n Hp), (SplitAutoExcludedNodeKey_key s n Hp).
Qed.

Lemma NormalizeAutoExcludedNodes_idemp values :
  NormalizeAutoExcludedNodes (NormalizeAutoExcludedNodes values) = NormalizeAutoExcludedNodes values.
Proof.
  rewrite <- (sort_strings_id (NormalizeAutoExcludedNodes values)) at 2 by apply sort_strings_sorted.
  rewrite <- (sort_strings_id (NormalizeAutoExcludedNodes (NormalizeAutoExcludedNodes values)))
    by apply sort_strings_sorted.
  apply sort_strings_ext; try apply NormalizeAutoExcludedNodes_nodup.
  intros x. rewrite (NormalizeAutoExcludedNodes_elem (NormalizeAutoExcludedNodes values)). split.
  - intros (v & s & n & Hv & Hs & ->). destruct (normal_exclusion_split _ _ Hv) as (s' & n' & Hs' & E).
    rewrite Hs in Hs'. injection Hs' as <- <-. by rewrite <- E.
  - intros Hx. destruct (normal_exclusion_split _ _ Hx) as (s & n & Hs & E). by exists x, s, n.
Qed.

(** The normalised exclusions are sorted, without duplicate, exactly the
    keys of the entries that split, and a fixed point. *)
Theorem NormalizeAutoExcludedNodes_spec values :
  StronglySorted String.le (NormalizeAutoExcludedNodes values) /\
  NoDup (NormalizeAutoExcludedNodes values) /\
  (forall x, x ∈ NormalizeAutoExcludedNodes values <-> exists v s n, v ∈ values /\
     SplitAutoExcludedNodeKey v = Some (s, n) /\ x = AutoExcludedNodeKey s n) /\
  NormalizeAutoExcludedNodes (NormalizeAutoExcludedNodes values) = NormalizeAutoExcludedNodes values.
Proof.
  split; [apply sort_strings_sorted|]. split; [apply NormalizeAutoExcludedNodes_nodup|].
  split; [apply NormalizeAutoExcludedNodes_elem|].
  apply NormalizeAutoExcludedNodes_idemp.
Qed.

(** A node is excluded exactly when its key is among the normalised
    exclusions, so normalising the persisted list never changes which nodes
    are hidden (subscription IDs carry no slash). *)
Theorem IsAutoExcludedNode_normalized values sub node :
  has_byte sub "/"%char = false ->
  (IsAutoExcludedNode values sub node = true <->
     AutoExcludedNodeKey sub node <> "" /\
     AutoExcludedNodeKey sub node ∈ NormalizeAutoExcludedNodes values) /\
  IsAutoExcludedNode (NormalizeAutoExcludedNodes values) sub node = IsAutoExcludedNode values sub node.
Proof.
  intros Hslash.
  assert (Hspec : forall vs, IsAutoExcludedNode vs sub node = true <->
     AutoExcludedNodeKey sub node <> "" /\ AutoExcludedNodeKey sub node ∈ NormalizeAutoExcludedNodes vs).
  { intros vs. unfold IsAutoExcludedNode. case_bool_decide as Hk; [naive_solver|].
    rewrite existsb_exists, NormalizeAutoExcludedNodes_elem. split.
    - intros (v & Hv%list_elem_of_In & He). split; [done|]. unfold excludes in He.
      apply orb_true_iff in He as [Ht%bool_decide_eq_true|He].
      + assert (Hs : SplitAutoExcludedNodeKey v = Some (TrimSpace sub, TrimSpace node)).
        { rewrite <- (AutoExcludedNodeKey_roundtrip sub node); [| | |done].
          - unfold SplitAutoExcludedNodeKey. by rewrite <- Ht, TrimSpace_idemp.
          - intros E. apply Hk. unfold AutoExcludedNodeKey. by rewrite E.
          - intros E. apply Hk. unfold AutoExcludedNodeKey. by rewrite E, orb_comm. }
        exists v, (TrimSpace sub), (TrimSpace node). split; [done|]. split; [done|].
        unfold AutoExcludedNodeKey. by rewrite !TrimSpace_idemp.
      + destruct (SplitAutoExcludedNodeKey v) as [[s n]|] eqn:E; [|done].
        apply bool_decide_eq_true in He. by exists v, s, n.
    - intros (_ & v & s & n & Hv & Hs & E). exists v. split; [by apply list_elem_of_In|].
      unfold excludes. rewrite Hs, E.
      rewrite (bool_decide_eq_true_2 (AutoExcludedNodeKey s n = _)) by done. apply orb_true_r. }
  split; [apply Hspec|]. apply eq_true_iff_eq.
  rewrite (Hspec (NormalizeAutoExcludedNodes values)), (Hspec values).
  by rewrite (proj2 (proj2 (proj2 (NormalizeAutoExcludedNodes_spec values)))).
Qed.

Lemma IsAutoExcludedNode_normalized_witness :
  IsAutoExcludedNode ["b / n "; "a/x"] "b" " n" = true /\
  IsAutoExcludedNode (NormalizeAutoExcludedNodes ["b / n "; "a/x"]) "b" " n"
    = IsAutoExcludedNode ["b / n "; "a/x"] "b" " n".
Proof.
  split; [vm_compute; reflexivity|].
  apply (IsAutoExcludedNode_normalized ["b / n "; "a/x"] "b" " n"). reflexivity.
Defined.

(** ** Keywords *)

(** A keyword list in normal form. *)
Definition normal_keywords (l : list string) : Prop :=
  NoDup (ToLower <$> l) /\
  forall x, x ∈ l -> Join (Fields x) " " = x /\ ToLower x <> "".

Lemma normal_keywords_from out values :
  normal_keywords out -> normal_keywords (foldl push_keyword out values).
Proof.
  revert out; induction values as [|v values IH]; intros out Hout; cbn [foldl]; [done|].
  apply IH. unfold push_keyword. case_bool_decide as Hb; [done|]. destruct Hout as [Hnd Hx]. split.
  - by apply push_unique_by_nodup.
  - intros x [?| ->]%push_unique_by_elem; [by apply Hx|]. split; [|done].
    by rewrite Fields_join_idemp.
Qed.

Lemma normal_keywords_fixed out l :
  normal_keywords (out ++ l) -> foldl push_keyword out l = out ++ l.
Proof.
  revert out; induction l as [|x l IH]; intros out Hl; cbn [foldl]; [by rewrite app_nil_r|].
  destruct Hl as [Hnd Hx]. destruct (Hx x) as [Hj Hne]; [apply elem_of_app; right; apply list_elem_of_here|].
  unfold push_keyword at 2. rewrite Hj, bool_decide_eq_false_2 by done.
  rewrite push_unique_by_new.
  - rewrite IH; [by rewrite <- app_assoc|]. split; rewrite <- app_assoc; done.
  - rewrite fmap_app in Hnd. apply NoDup_app in Hnd as (_ & Hd & _). intros Hin.
    apply (Hd _ Hin), list_elem_of_here.
Qed.

Lemma NormalizeAutoHideKeywords_normal values : normal_keywords (NormalizeAutoHideKeywords values).
Proof.
  apply normal_keywords_from. split; [constructor|]. by intros ? ?%not_elem_of_nil.
Qed.

Lemma NormalizeAutoHideKeywords_idemp values :
  NormalizeAutoHideKeywords (NormalizeAutoHideKeywords values) = NormalizeAutoHideKeywords values.
Proof. apply (normal_keywords_fixed []), NormalizeAutoHideKeywords_normal. Qed.

(** The node's text as the keywords see it. *)
Definition keyword_haystack (node : Node) : string :=
  ToLower (Join (Fields (Node.Name node +:+ " " +:+ Node.Remark node)) " ").

Lemma MatchingAutoHideKeyword_empty values node :
  MatchingAutoHideKeyword values node = "" <->
  keyword_haystack node = "" \/ forall k, k ∈ NormalizeAutoHideKeywords values ->
    Contains (keyword_haystack node) (ToLower k) = false.
Proof.
  unfold MatchingAutoHideKeyword. fold (keyword_haystack node). case_bool_decide as Hb; [by split; [left|]|].
  destruct (List.find _ _) as [k|] eqn:E; cbn.
  - apply find_some in E as [Hk%list_elem_of_In Hc].
    destruct (NormalizeAutoHideKeywords_normal values) as [_ Hn]. destruct (Hn k Hk) as [_ Hne].
    split; [intros ->; done|]. intros [?|H]; [done|]. specialize (H k Hk). congruence.
  - split; [|done]. intros _. right. intros k Hk%list_elem_of_In. by apply (find_none _ _ E).
Qed.

Lemma MatchingAutoHideKeyword_nil node : MatchingAutoHideKeyword [] node = "".
Proof. apply MatchingAutoHideKeyword_empty. right. by intros k ?%not_elem_of_nil. Qed.

(** Normalised keywords are distinct up to case and single-spaced, and
    normalising is idempotent and does not change which keyword matches; a
    node matches exactly when its text contains some keyword, whatever the
    case, and the reported keyword is such a one. *)
Theorem MatchingAutoHideKeyword_spec values node :
  normal_keywords (NormalizeAutoHideKeywords values) /\
  NormalizeAutoHideKeywords (NormalizeAutoHideKeywords values) = NormalizeAutoHideKeywords values /\
  MatchingAutoHideKeyword (NormalizeAutoHideKeywords values) node = MatchingAutoHideKeyword values node /\
  (MatchingAutoHideKeyword values node <> "" ->
     MatchingAutoHideKeyword values node ∈ NormalizeAutoHideKeywords values /\
     Contains (keyword_haystack node) (ToLower (MatchingAutoHideKeyword values node)) = true) /\
  (MatchingAutoHideKeyword values node = "" ->
     keyword_haystack node = "" \/ forall k, k ∈ NormalizeAutoHideKeywords values ->
       Contains (keyword_haystack node) (ToLower k) = false).
Proof.
  assert (Hid : NormalizeAutoHideKeywords (NormalizeAutoHideKeywords values)
    = NormalizeAutoHideKeywords values).
  { apply (normal_keywords_fixed []), NormalizeAutoHideKeywords_normal. }
  split; [apply NormalizeAutoHideKeywords_normal|]. split; [exact Hid|].
  split; [unfold MatchingAutoHideKeyword; by rewrite Hid|]. split.
  - unfold MatchingAutoHideKeyword. fold (keyword_haystack node). case_bool_decide; [done|].
    destruct (List.find _ _) as [k|] eqn:E; cbn; [|done].
    apply find_some in E as [Hk%list_elem_of_In Hc]. done.
  - apply MatchingAutoHideKeyword_empty.
Qed.

(** ** DNS modes *)

Definition dns_modes : list string := [DNSModeSystem; DNSModeRemote; DNSModeSplit; DNSModeDisabled].
Definition dns_transports : list string := [DNSTransportPlain; DNSTransportDoH; DNSTransportDoT].

Lemma ParseDNSMode_mode raw m :
  ParseDNSMode raw = Ok m -> m ∈ dns_modes /\ ParseDNSMode m = Ok m.
Proof.
  assert (Hall : Forall (fun m => ParseDNSMode m = Ok m) dns_modes)
    by (repeat constructor; vm_compute; reflexivity).
  rewrite Forall_forall in Hall. intros H. enough (m ∈ dns_modes) by auto.
  unfold ParseDNSMode in H. case_bool_decide; [injection H as <-; apply list_elem_of_here|].
  case_match eqn:E; [|done]. injection H as <-.
  rewrite !orb_true_iff, !bool_decide_eq_true in E. unfold dns_modes. rewrite !elem_of_cons. tauto.
Qed.

Lemma ParseDNSTransport_transport raw t :
  ParseDNSTransport raw = Ok t -> t ∈ dns_transports /\ ParseDNSTransport t = Ok t.
Proof.
  assert (Hall : Forall (fun m => ParseDNSTransport m = Ok m) dns_transports)
    by (repeat constructor; vm_compute; reflexivity).
  rewrite Forall_forall in Hall. intros H. enough (t ∈ dns_transports) by auto.
  unfold ParseDNSTransport in H. case_bool_decide; [injection H as <-; apply list_elem_of_here|].
  case_match eqn:E; [|done]. injection H as <-.
  rewrite !orb_true_iff, !bool_decide_eq_true in E. unfold dns_transports. rewrite !elem_of_cons. tauto.
Qed.
