(* ===== verification/Connection.v ===== *)
(** * Runtime state

    [domain/connection.go]: what the service persists about the running
    connection.  A pointer is an option; a nil and an empty map are the same
    finite map. *)
From S2P Require Import Prelude GoNum Domain Zapret Settings.

Local Open Scope Z_scope.

Definition OperationalModeVPN := "vpn".
Definition OperationalModeDirect := "direct".
Definition OperationalModeRecovering := "recovering".

Module RuntimeOperation.
Record RuntimeOperation : Type := mk {
  Kind : string;
  From : string;
  To : string;
  StartedAt : Time
}.
End RuntimeOperation.
Abbreviation RuntimeOperation := RuntimeOperation.RuntimeOperation.

Module RuntimeOutboundState.
Record RuntimeOutboundState : Type := mk {
  Tag : string;
  SubscriptionID : string;
  NodeID : string;
  Role : string;
  VerifiedAt : Time;
  Score : f64;
  Samples : Z;
  SelectionReason : string;
  PromotionWins : Z;
  RetireAfter : Time;
  RemoveBy : Time
}.
Definition eta (s : RuntimeOutboundState) : RuntimeOutboundState :=
  mk (Tag s) (SubscriptionID s) (NodeID s) (Role s) (VerifiedAt s) (Score s) (Samples s)
     (SelectionReason s) (PromotionWins s) (RetireAfter s) (RemoveBy s).
#[export] Instance set_Tag : Setter Tag := ltac:(mk_setter eta Tag).
#[export] Instance set_SubscriptionID : Setter SubscriptionID :=
  ltac:(mk_setter eta SubscriptionID).
#[export] Instance set_NodeID : Setter NodeID := ltac:(mk_setter eta NodeID).
#[export] Instance set_Role : Setter Role := ltac:(mk_setter eta Role).
#[export] Instance set_VerifiedAt : Setter VerifiedAt := ltac:(mk_setter eta VerifiedAt).
#[export] Instance set_Score : Setter Score := ltac:(mk_setter eta Score).
#[export] Instance set_Samples : Setter Samples := ltac:(mk_setter eta Samples).
#[export] Instance set_SelectionReason : Setter SelectionReason :=
  ltac:(mk_setter eta SelectionReason).
#[export] Instance set_PromotionWins : Setter PromotionWins := ltac:(mk_setter eta PromotionWins).
#[export] Instance set_RetireAfter : Setter RetireAfter := ltac:(mk_setter eta RetireAfter).
#[export] Instance set_RemoveBy : Setter RemoveBy := ltac:(mk_setter eta RemoveBy).
End RuntimeOutboundState.
Export (hints) RuntimeOutboundState.
Abbreviation RuntimeOutboundState := RuntimeOutboundState.RuntimeOutboundState.

Module CandidateBackoffState.
Record CandidateBackoffState : Type := mk {
  Tag : string;
  ConsecutiveFailures : Z;
  RetryAfter : Time
}.
Definition zero : CandidateBackoffState := mk "" 0 zero_time.
Definition eta (s : CandidateBackoffState) : CandidateBackoffState :=
  mk (Tag s) (ConsecutiveFailures s) (RetryAfter s).
#[export] Instance set_Tag : Setter Tag := ltac:(mk_setter eta Tag).
#[export] Instance set_ConsecutiveFailures : Setter ConsecutiveFailures :=
  ltac:(mk_setter eta ConsecutiveFailures).
#[export] Instance set_RetryAfter : Setter RetryAfter := ltac:(mk_setter eta RetryAfter).
End CandidateBackoffState.
Export (hints) CandidateBackoffState.
Abbreviation CandidateBackoffState := CandidateBackoffState.CandidateBackoffState.

Module AWGProbeState.
Record AWGProbeState : Type := mk {
  Success : bool;
  CheckedAt : Time;
  LatencyMS : f64;
  EgressIP : string;
  CountryCode : string;
  Error : string
}.
End AWGProbeState.
Abbreviation AWGProbeState := AWGProbeState.AWGProbeState.

Module ActiveConnection.
Record ActiveConnection : Type := mk {
  SubscriptionID : string;
  NodeID : string;
  ConnectedAt : Time;
  Mode : string
}.
End ActiveConnection.
Abbreviation ActiveConnection := ActiveConnection.ActiveConnection.

Module ZapretTestRestoreState.
Record ZapretTestRestoreState : Type := mk {
  ActiveSubscriptionID : string;
  ActiveNodeID : string;
  Mode : string;
  Connected : bool;
  ActiveTransport : string
}.
Definition zero : ZapretTestRestoreState := mk "" "" "" false "".
End ZapretTestRestoreState.
Abbreviation ZapretTestRestoreState := ZapretTestRestoreState.ZapretTestRestoreState.

Module ZapretTestState.
Record ZapretTestState : Type := mk {
  Active : bool;
  Restore : ZapretTestRestoreState
}.
Definition zero : ZapretTestState := mk false ZapretTestRestoreState.zero.
End ZapretTestState.
Abbreviation ZapretTestState := ZapretTestState.ZapretTestState.

Module ResumeConnection.
Record ResumeConnection : Type := mk {
  SubscriptionID : string;
  NodeID : string;
  Mode : string;
  AutoScope : string;
  AWGProfileID : string
}.
End ResumeConnection.
Abbreviation ResumeConnection := ResumeConnection.ResumeConnection.

Module RuntimeState.
Record RuntimeState : Type := mk {
  ResumeConnection : option ResumeConnection;
  SchemaVersion : Z;
  OperationalMode : string;
  SelectedOutboundTag : string;
  RuntimeConfigGeneration : Z;
  RuntimeConfigVersion : string;
  CurrentOperation : option RuntimeOperation;
  RuntimeOutbounds : list RuntimeOutboundState;
  CandidateBackoff : gmap string CandidateBackoffState;
  AutoScope : string;
  ActiveSubscriptionID : string;
  ActiveNodeID : string;
  ActiveNodeName : string;
  Mode : string;
  Connected : bool;
  ActiveTransport : string;
  LastRefreshAt : gmap string Time;
  Health : gmap string NodeHealth;
  LastSwitchAt : Time;
  LastSwitchReason : string;
  OptimizationCandidateID : string;
  OptimizationCandidateWins : Z;
  LastTransportSwitchAt : Time;
  LastSuccessAt : Time;
  LastFailureReason : string;
  LastTransportFailureReason : string;
  ZapretTest : ZapretTestState;
  ActiveConnectionKind : string;
  AWGProfileName : string;
  AWGLastProbe : option AWGProbeState;
  ActiveAWGProfileID : string;
  PreparedAWGProfileID : string;
  AWGProfileProbes : gmap string AWGProbeState
}.
Definition eta (s : RuntimeState) : RuntimeState :=
  mk (ResumeConnection s) (SchemaVersion s) (OperationalMode s) (SelectedOutboundTag s)
     (RuntimeConfigGeneration s) (RuntimeConfigVersion s) (CurrentOperation s)
     (RuntimeOutbounds s) (CandidateBackoff s) (AutoScope s) (ActiveSubscriptionID s)
     (ActiveNodeID s) (ActiveNodeName s) (Mode s) (Connected s) (ActiveTransport s)
     (LastRefreshAt s) (Health s) (LastSwitchAt s) (LastSwitchReason s)
     (OptimizationCandidateID s) (OptimizationCandidateWins s) (LastTransportSwitchAt s)
     (LastSuccessAt s) (LastFailureReason s) (LastTransportFailureReason s) (ZapretTest s)
     (ActiveConnectionKind s) (AWGProfileName s) (AWGLastProbe s) (ActiveAWGProfileID s)
     (PreparedAWGProfileID s) (AWGProfileProbes s).
#[export] Instance set_ResumeConnection : Setter ResumeConnection :=
  ltac:(mk_setter eta ResumeConnection).
#[export] Instance set_SchemaVersion : Setter SchemaVersion := ltac:(mk_setter eta SchemaVersion).
#[export] Instance set_OperationalMode : Setter OperationalMode :=
  ltac:(mk_setter eta OperationalMode).
#[export] Instance set_SelectedOutboundTag : Setter SelectedOutboundTag :=
  ltac:(mk_setter eta SelectedOutboundTag).
#[export] Instance set_RuntimeConfigGeneration : Setter RuntimeConfigGeneration :=
  ltac:(mk_setter eta RuntimeConfigGeneration).
#[export] Instance set_RuntimeConfigVersion : Setter RuntimeConfigVersion :=
  ltac:(mk_setter eta RuntimeConfigVersion).
#[export] Instance set_CurrentOperation : Setter CurrentOperation :=
  ltac:(mk_setter eta CurrentOperation).
#[export] Instance set_RuntimeOutbounds : Setter RuntimeOutbounds :=
  ltac:(mk_setter eta RuntimeOutbounds).
#[export] Instance set_CandidateBackoff : Setter CandidateBackoff :=
  ltac:(mk_setter eta CandidateBackoff).
#[export] Instance set_AutoScope : Setter AutoScope := ltac:(mk_setter eta AutoScope).
#[export] Instance set_ActiveSubscriptionID : Setter ActiveSubscriptionID :=
  ltac:(mk_setter eta ActiveSubscriptionID).
#[export] Instance set_ActiveNodeID : Setter ActiveNodeID := ltac:(mk_setter eta ActiveNodeID).
#[export] Instance set_ActiveNodeName : Setter ActiveNodeName :=
  ltac:(mk_setter eta ActiveNodeName).
#[export] Instance set_Mode : Setter Mode := ltac:(mk_setter eta Mode).
#[export] Instance set_Connected : Setter Connected := ltac:(mk_setter eta Connected).
#[export] Instance set_ActiveTransport : Setter ActiveTransport :=
  ltac:(mk_setter eta ActiveTransport).
#[export] Instance set_LastRefreshAt : Setter LastRefreshAt := ltac:(mk_setter eta LastRefreshAt).
#[export] Instance set_Health : Setter Health := ltac:(mk_setter eta Health).
#[export] Instance set_LastSwitchAt : Setter LastSwitchAt := ltac:(mk_setter eta LastSwitchAt).
#[export] Instance set_LastSwitchReason : Setter LastSwitchReason :=
  ltac:(mk_setter eta LastSwitchReason).
#[export] Instance set_OptimizationCandidateID : Setter OptimizationCandidateID :=
  ltac:(mk_setter eta OptimizationCandidateID).
#[export] Instance set_OptimizationCandidateWins : Setter OptimizationCandidateWins :=
  ltac:(mk_setter eta OptimizationCandidateWins).
#[export] Instance set_LastTransportSwitchAt : Setter LastTransportSwitchAt :=
  ltac:(mk_setter eta LastTransportSwitchAt).
#[export] Instance set_LastSuccessAt : Setter LastSuccessAt := ltac:(mk_setter eta LastSuccessAt).
#[export] Instance set_LastFailureReason : Setter LastFailureReason :=
  ltac:(mk_setter eta LastFailureReason).
#[export] Instance set_LastTransportFailureReason : Setter LastTransportFailureReason :=
  ltac:(mk_setter eta LastTransportFailureReason).
#[export] Instance set_ZapretTest : Setter ZapretTest := ltac:(mk_setter eta ZapretTest).
#[export] Instance set_ActiveConnectionKind : Setter ActiveConnectionKind :=
  ltac:(mk_setter eta ActiveConnectionKind).
#[export] Instance set_AWGProfileName : Setter AWGProfileName :=
  ltac:(mk_setter eta AWGProfileName).
#[export] Instance set_AWGLastProbe : Setter AWGLastProbe := ltac:(mk_setter eta AWGLastProbe).
#[export] Instance set_ActiveAWGProfileID : Setter ActiveAWGProfileID :=
  ltac:(mk_setter eta ActiveAWGProfileID).
#[export] Instance set_PreparedAWGProfileID : Setter PreparedAWGProfileID :=
  ltac:(mk_setter eta PreparedAWGProfileID).
#[export] Instance set_AWGProfileProbes : Setter AWGProfileProbes :=
  ltac:(mk_setter eta AWGProfileProbes).
End RuntimeState.
Export (hints) RuntimeState.
Abbreviation RuntimeState := RuntimeState.RuntimeState.

Definition DefaultRuntimeState : RuntimeState :=
  RuntimeState.mk
    (* ResumeConnection *) None 5 OperationalModeDirect "" 0 "" None [] ∅ "" "" "" ""
    SelectionModeDisconnected false TransportModeDirect
    (* LastRefreshAt *) ∅ ∅ zero_time "" "" 0 zero_time zero_time "" "" ZapretTestState.zero
    (* ActiveConnectionKind *) "" "" None "" "" ∅.

Definition NormalizeOperationalMode (mode : string) : string :=
  if bool_decide (mode = OperationalModeVPN) || bool_decide (mode = OperationalModeRecovering)
  then mode else OperationalModeDirect.

Definition LegacyOperationalMode (connected : bool) (transport : string) : string :=
  if connected && bool_decide (NormalizeTransportMode transport = TransportModeProxy)
  then OperationalModeVPN else OperationalModeDirect.
