(* ===== verification/GoDuration.v ===== *)
(** * Durations as text

    [time.Duration.String] and [time.ParseDuration] of the Go standard library, which
    the application uses in messages, in requests and in the settings file. *)
From S2P Require Import Prelude GoRunes GoStrings GoNum NetIP Domain GoConv.

Local Open Scope Z_scope.

(** [n] digits of [v], without trailing zeros, as [fmtFrac] writes them:
    [stop] says that a non-zero digit was already seen. *)
Fixpoint frac_digits (n : nat) (v : Z) (seen : bool) (acc : string) : string * Z :=
  match n with
  | O => (if seen then "." +:+ acc else acc, v)
  | S n =>
    let digit := v mod 10 in
    let seen := seen || negb (digit =? 0) in
    frac_digits n (v / 10) seen (if seen then Itoa digit +:+ acc else acc)
  end.

(** The integer part of [v / 10^n] and its fraction. *)
Definition fmt_frac (n : nat) (v : Z) : string :=
  let '(frac, whole) := frac_digits n v false "" in Itoa whole +:+ frac.

Definition Duration_String (d : Z) : string :=
  let u := Z.abs d in
  let text :=
    if u =? 0 then "0s"
    else if u <? Microsecond then Itoa u +:+ "ns"
    else if u <? Millisecond then fmt_frac 3 u +:+ "µs"
    else if u <? Second then fmt_frac 6 u +:+ "ms"
    else
      let '(frac, seconds) := frac_digits 9 u false "" in
      let s := Itoa (seconds mod 60) +:+ frac +:+ "s" in
      let minutes := seconds / 60 in
      if minutes =? 0 then s
      else
        let s := Itoa (minutes mod 60) +:+ "m" +:+ s in
        let hours := minutes / 60 in
        if hours =? 0 then s else Itoa hours +:+ "h" +:+ s in
  if d <? 0 then "-" +:+ text else text.

Example duration_strings : Duration_String <$>
  [0; 105 * Millisecond; 1500; - Hour; 90 * Minute + 1; 5 * Second; 2500 * Millisecond; 1100 * Microsecond]
  = ["0s"; "105ms"; "1.5µs"; "-1h0m0s"; "1h30m0.000000001s"; "5s"; "2.5s"; "1.1ms"].
Proof. vm_compute. reflexivity. Qed.

(** ** Reading durations

    [time.ParseDuration] of the Go standard library and [ParseDurationValue] of
    [domain/settings.go].  A value is a sequence of decimal numbers with units;
    the fraction goes through [float64], integers are [uint64]. *)

Local Open Scope list_scope.

Definition two63 : Z := 2 ^ 63.

(** [leadingInt]: the digits at the front, or [None] when they overflow. *)
Fixpoint leadingInt (x : Z) (l : list Z) : option (Z * list Z) :=
  match l with
  | c :: t =>
    if is_digit c
    then if two63 / 10 <? x then None
         else let x := wrap_u64 (x * 10 + c - 48) in if two63 <? x then None else leadingInt x t
    else Some (x, l)
  | [] => Some (x, [])
  end.

(** [leadingFraction]: digits that do not fit are dropped. *)
Fixpoint leadingFraction (x : Z) (scale : f64) (overflow : bool) (l : list Z) : Z * f64 * list Z :=
  match l with
  | c :: t =>
    if is_digit c
    then
      if overflow then leadingFraction x scale true t
      else if (two63 - 1) / 10 <? x then leadingFraction x scale true t
      else let y := wrap_u64 (x * 10 + c - 48) in
        if two63 <? y then leadingFraction x scale true t
        else leadingFraction y (f64_mul scale (f64_of_Z 10)) false t
    else (x, scale, l)
  | [] => (x, scale, [])
  end.

(** The bytes up to the next number. *)
Fixpoint unit_text (l : list Z) : list Z * list Z :=
  match l with
  | c :: t => if (c =? 46) || is_digit c then ([], l) else let '(u, rest) := unit_text t in (c :: u, rest)
  | [] => ([], [])
  end.

(** [unitMap]; both signs for micro are there. *)
Definition unit_of (u : string) : option Z :=
  if bool_decide (u = "ns") then Some Nanosecond
  else if bool_decide (u = "us") || bool_decide (u = "µs") || bool_decide (u = "μs") then Some Microsecond
  else if bool_decide (u = "ms") then Some Millisecond
  else if bool_decide (u = "s") then Some Second
  else if bool_decide (u = "m") then Some Minute
  else if bool_decide (u = "h") then Some Hour
  else None.

(** One number with its unit: the value and the rest. *)
Definition duration_part (l : list Z) : option (Z * list Z) :=
  if negb match l with c :: _ => (c =? 46) || is_digit c | [] => false end then None
  else
    '(v, rest) ← leadingInt 0 l;
    let pre := negb (length rest =? length l)%nat in
    let '(f, scale, rest, post) :=
      match rest with
      | c :: t =>
        if c =? 46
        then let '(f, scale, rest) := leadingFraction 0 (f64_of_Z 1) false t in (f, scale, rest, negb (length rest =? length t)%nat)
        else (0, f64_of_Z 1, rest, false)
      | [] => (0, f64_of_Z 1, rest, false)
      end in
    if negb pre && negb post then None
    else
      let '(u, rest) := unit_text rest in
      if bool_decide (u = []) then None
      else
        unit ← unit_of (of_bytes u);
        if two63 / unit <? v then None
        else
          let v := v * unit in
          if 0 <? f
          then let v := wrap_u64 (v + f64_to_int64 (f64_mul (f64_of_Z f) (f64_div (f64_of_Z unit) scale))) in
               if two63 <? v then None else Some (v, rest)
          else Some (v, rest).

(** Every part takes at least one byte: the length of the text is fuel enough. *)
Fixpoint duration_parts (fuel : nat) (d : Z) (l : list Z) : option Z :=
  match l, fuel with
  | [], _ => Some d
  | _, O => None
  | _, S fuel =>
    '(v, rest) ← duration_part l;
    let d := wrap_u64 (d + v) in
    if two63 <? d then None else duration_parts fuel d rest
  end.

Definition ParseDuration (s : string) : option Z :=
  let bytes := to_bytes s in
  let '(neg, rest) :=
    match bytes with
    | c :: t => if (c =? 45) || (c =? 43) then (c =? 45, t) else (false, bytes)
    | [] => (false, bytes)
    end in
  if bool_decide (rest = [48]) then Some 0
  else if bool_decide (rest = []) then None
  else
    d ← duration_parts (length rest) 0 rest;
    if neg then Some (wrap64 (- wrap64 d))
    else if two63 - 1 <? d then None
    else Some d.

(** A duration, or a number of nanoseconds. *)
Definition ParseDurationValue (raw : string) : option Duration :=
  match ParseDuration raw with
  | Some d => Some d
  | None => Atoi raw
  end.

Example durations_read : ParseDurationValue <$>
  ["1h30m"; "1.5s"; "-2.5ms"; "+.5h"; "0"; "90"; "-90"; "1.0000000001s"; "1h 2m"; ""; "s"; "1.s"; ".s"; "9223372036854775808ns";
   "-9223372036854775808ns"; "9223372036854775807"; "3µs"]
  = [Some (90 * Minute); Some 1500000000; Some (-2500000); Some (30 * Minute); Some 0; Some 90; Some (-90); Some Second; None; None;
     None; Some Second; None; None; Some (- 2 ^ 63); Some (2 ^ 63 - 1); Some 3000].
Proof. vm_compute. reflexivity. Qed.

(** What was consumed is gone. *)
Lemma leadingInt_rest l : forall x v rest, leadingInt x l = Some (v, rest) -> (length rest <= length l)%nat.
Proof.
  induction l as [|c t IH]; intros x v rest; cbn [leadingInt]; [by intros [= _ <-]|].
  destruct (is_digit c); [|by intros [= _ <-]]. destruct (_ <? x); [done|]. cbv zeta. destruct (two63 <? _); [done|]. intros ?%IH. cbn. lia.
Qed.

Lemma leadingFraction_rest l : forall x scale o, (length (leadingFraction x scale o l).2 <= length l)%nat.
Proof.
  induction l as [|c t IH]; intros x scale o; cbn [leadingFraction]; [done|]. destruct (is_digit c); [|done].
  destruct o; [etransitivity; [apply IH|cbn; lia]|]. destruct (_ <? x); [etransitivity; [apply IH|cbn; lia]|]. cbv zeta.
  destruct (two63 <? _); (etransitivity; [apply IH|cbn; lia]).
Qed.

Lemma unit_text_rest l : (length (unit_text l).2 + length (unit_text l).1 = length l)%nat.
Proof. induction l as [|c t IH]; cbn [unit_text]; [done|]. destruct (_ || _); [done|]. destruct (unit_text t) as [u rest]. cbn in *. lia. Qed.

Lemma duration_part_rest l v rest : duration_part l = Some (v, rest) -> (length rest < length l)%nat.
Proof.
  unfold duration_part. destruct (negb _); [done|]. intros ([v0 r0] & Hi & Hk)%bind_Some. apply leadingInt_rest in Hi. cbv zeta in Hk.
  match type of Hk with context [match ?q with (_, _) => _ end] => assert (Hq : (length q.1.2 <= length r0)%nat); [|destruct q as [[[f scale] r1] post]] end.
  { destruct r0 as [|c t]; [done|]. destruct (c =? 46); [|done].
    pose proof (leadingFraction_rest t 0 (f64_of_Z 1) false) as Hf. destruct (leadingFraction _ _ _ t) as [[f scale] r]. cbn in *. lia. }
  cbn [fst snd] in Hq. destruct (negb _ && negb _); [done|]. pose proof (unit_text_rest r1) as Hu. destruct (unit_text r1) as [u r2]. cbn [fst snd] in Hu.
  case_bool_decide as Hn; [done|]. apply bind_Some in Hk as (unit & _ & Hk). destruct (_ <? v0); [done|].
  assert (0 < length u)%nat by (destruct u; [done|cbn; lia]).
  destruct (0 <? f); [destruct (two63 <? _); [done|]|]; injection Hk as _ <-; lia.
Qed.

(** More fuel than bytes changes nothing: the loop ends by itself. *)
Lemma duration_parts_fuel n : forall m d l, (length l <= n)%nat -> (length l <= m)%nat -> duration_parts n d l = duration_parts m d l.
Proof.
  induction n as [|n IH]; intros m d l Hn Hm; [destruct l; [|cbn in Hn; lia]; by destruct m|].
  destruct l as [|c t]; [by destruct m|]. destruct m as [|m]; [cbn in Hm; lia|]. cbn [duration_parts].
  destruct (duration_part (c :: t)) as [[v rest]|] eqn:E; cbn [mbind option_bind]; [|done].
  apply duration_part_rest in E. destruct (two63 <? _); [done|]. apply IH; cbn in *; lia.
Qed.

Lemma duration_parts_bound fuel : forall d l r, 0 <= d <= two63 -> duration_parts fuel d l = Some r -> 0 <= r <= two63.
Proof.
  induction fuel as [|fuel IH]; intros d l r Hd; destruct l as [|c t]; cbn [duration_parts]; try (by intros [= <-]).
  intros ([v rest] & _ & Hk)%bind_Some. cbv zeta in Hk. destruct (two63 <? _) eqn:E; [done|]. apply Z.ltb_ge in E.
  eapply IH; [|exact Hk]. split; [apply Z.mod_pos_bound; lia|done].
Qed.

(** A duration that is read fits its type. *)
Lemma ParseDurationValue_int64 raw d : ParseDurationValue raw = Some d -> in_int64 d.
Proof.
  unfold ParseDurationValue. destruct (ParseDuration raw) as [d'|] eqn:E.
  - intros [= ->]. unfold ParseDuration in E. cbv zeta in E. match type of E with context [match ?x with (_, _) => _ end] => destruct x as [neg rest] end.
    case_bool_decide; [injection E as <-; by split|]. case_bool_decide; [done|]. apply bind_Some in E as (n & Hn & E).
    apply duration_parts_bound in Hn; [|by unfold two63]. destruct neg; [injection E as <-; unfold wrap64, in_int64; pose proof (Z.mod_pos_bound (- ((n + 2 ^ 63) mod 2 ^ 64 - 2 ^ 63) + 2 ^ 63) (2 ^ 64)); lia|].
    destruct (_ <? n) eqn:El; [done|]. injection E as <-. apply Z.ltb_ge in El. unfold in_int64, two63 in *. lia.
  - unfold Atoi. cbv zeta. match goal with |- context [match ?x with (_, _) => _ end] => destruct x as [sign digits] end. destruct (_ || _); [done|]. cbv zeta.
    destruct (_ && _) eqn:Eb; [|done]. intros [= <-]. apply andb_true_iff in Eb as [H1%Z.leb_le H2%Z.leb_le].
    unfold in_int64, min_int64, max_int64 in *. lia.
Qed.
