(* ===== verification/Probe.v ===== *)
(** * Probe telemetry: health folding, ranking and switching

    [probe/health.go], [probe/selector.go], [probe/anti_flap.go] and the
    result record of [probe/checker.go].  [int] and [time.Duration] arithmetic
    wraps at 64 bits, [float64] arithmetic rounds to binary64. *)
From S2P Require Import Prelude GoNum Domain Settings.

Local Open Scope Z_scope.
Local Open Scope list_scope.

(** ** checker.go *)

Module Result.
Record Result : Type := mk {
  NodeID : string;
  Latency : Duration;
  Healthy : bool;
  Checked : Time;
  Err : option string;
  Score : ScoreResult.ScoreResult;
  Health : NodeHealth;
  EgressIP : string;
  CountryCode : string;
  Selected : bool
}.
End Result.

(** ** health.go *)

Definition instabilityPenaltyPerFailure : Z := 3.
Definition maxInstabilityPenalty : Z := 20.

Definition succ64 (z : Z) : Z := wrap64 (z + 1).

(** The average and the variation after a successful measurement. *)
Definition fold_latency (updated : NodeHealth) (latency : Duration) : NodeHealth :=
  let previousAverage := NodeHealth.AverageLatency updated in
  if previousAverage =? 0
  then updated <| NodeHealth.AverageLatency := latency |>
  else
    let deviation := wrap64 (latency - previousAverage) in
    let deviation := if deviation <? 0 then wrap64 (- deviation) else deviation in
    let variation := NodeHealth.LatencyVariation updated in
    let variation :=
      if variation =? 0 then deviation
      else quot64 (wrap64 (wrap64 (variation * 4) + deviation)) 5 in
    updated <| NodeHealth.LatencyVariation := variation |>
            <| NodeHealth.AverageLatency :=
                 quot64 (wrap64 (wrap64 (previousAverage * 4) + latency)) 5 |>.

Definition UpdateHealth (previous : NodeHealth) (success : bool) (latency : Duration)
    (checkedAt : Time) (failureReason : string) (failureThreshold : Z) : NodeHealth :=
  let updated := previous <| NodeHealth.LastCheckedAt := checkedAt |>
                          <| NodeHealth.LastLatency := latency |> in
  let failureThreshold := if failureThreshold <? 1 then 1 else failureThreshold in
  if success
  then
    let updated := updated <| NodeHealth.Healthy := true |>
                           <| NodeHealth.SuccessCount ::= succ64 |>
                           <| NodeHealth.ConsecutiveSuccesses ::= succ64 |>
                           <| NodeHealth.ConsecutiveFailures := 0 |>
                           <| NodeHealth.InstabilityPenalty ::=
                                fun p => if 0 <? p then p - 1 else p |>
                           <| NodeHealth.LastFailureReason := "" |> in
    fold_latency updated latency
  else
    let updated := updated <| NodeHealth.Healthy := false |>
                           <| NodeHealth.FailureCount ::= succ64 |>
                           <| NodeHealth.ConsecutiveFailures ::= succ64 |>
                           <| NodeHealth.ConsecutiveSuccesses := 0 |>
                           <| NodeHealth.InstabilityPenalty ::=
                                fun p => Z.min (wrap64 (p + instabilityPenaltyPerFailure))
                                               maxInstabilityPenalty |>
                           <| NodeHealth.LastFailureReason := failureReason |> in
    let updated :=
      if NodeHealth.AverageLatency updated =? 0
      then updated <| NodeHealth.AverageLatency := latency |> else updated in
    if (0 <? NodeHealth.SuccessCount updated)
       && (NodeHealth.ConsecutiveFailures updated <? failureThreshold)
    then updated <| NodeHealth.Healthy := true |>
    else updated.

(** ** selector.go *)

Definition defaultHealthyLatencyCeiling : Duration := 300 * Millisecond.

Module ScoreConfig.
Record ScoreConfig : Type := mk {
  HealthyBonus : f64;
  UnhealthyPenalty : f64;
  HealthyLatencyCeiling : Duration;
  FreshLatencyWeight : f64;
  AverageLatencyWeight : f64;
  LatencyVariationPenaltyWeight : f64;
  FailureRatePenalty : Duration;
  MinimumConfidenceSuccesses : Z;
  MissingSuccessPenalty : Duration;
  ConsecutiveFailurePenalty : Duration;
  InstabilityUnitPenalty : Duration;
  MaxLatencyBaseline : Duration
}.
End ScoreConfig.
Abbreviation ScoreConfig := ScoreConfig.ScoreConfig.

Definition DefaultScoreConfig : ScoreConfig :=
  ScoreConfig.mk (f64_of_Z 10000) (f64_of_Z 10000) defaultHealthyLatencyCeiling
    (f64_const 2 10) (f64_const 8 10) (f64_const 15 10) (2500 * Millisecond) 4
    (15 * Millisecond) (3 * Second) (500 * Millisecond) (2 * Second).

Definition f64_zero : f64 := S754_zero false.

Definition weightedLatency (fresh average : Duration) (freshWeight averageWeight : f64) : Duration :=
  if fresh <=? 0 then average
  else if average <=? 0 then fresh
  else
    let totalWeight := f64_add freshWeight averageWeight in
    if f64_leb totalWeight f64_zero then fresh
    else f64_to_int64
           (f64_div (f64_add (f64_mul (f64_of_Z fresh) freshWeight)
                             (f64_mul (f64_of_Z average) averageWeight)) totalWeight).

Definition selectionLatency (health : NodeHealth) : Duration :=
  if 0 <? NodeHealth.LastLatency health then NodeHealth.LastLatency health
  else NodeHealth.AverageLatency health.

(** The five penalties are added in the order of the source. *)
Definition effectiveSelectionLatency (health : NodeHealth) (cfg : ScoreConfig) : Duration :=
  let latency := weightedLatency (NodeHealth.LastLatency health) (NodeHealth.AverageLatency health)
    (ScoreConfig.FreshLatencyWeight cfg) (ScoreConfig.AverageLatencyWeight cfg) in
  let variation := NodeHealth.LatencyVariation health in
  let latency :=
    if (0 <? variation) && f64_ltb f64_zero (ScoreConfig.LatencyVariationPenaltyWeight cfg)
    then wrap64 (latency + f64_to_int64
           (f64_mul (f64_of_Z variation) (ScoreConfig.LatencyVariationPenaltyWeight cfg)))
    else latency in
  let successes := NodeHealth.SuccessCount health in
  let latency :=
    if NodeHealth.Healthy health && (0 <? successes)
       && (successes <? ScoreConfig.MinimumConfidenceSuccesses cfg)
       && (0 <? ScoreConfig.MissingSuccessPenalty cfg)
    then wrap64 (latency + wrap64 (wrap64 (ScoreConfig.MinimumConfidenceSuccesses cfg - successes)
                                   * ScoreConfig.MissingSuccessPenalty cfg))
    else latency in
  let attempts := wrap64 (successes + NodeHealth.FailureCount health) in
  let latency :=
    if (0 <? attempts) && (0 <? ScoreConfig.FailureRatePenalty cfg)
    then
      let failureRate := f64_div (f64_of_Z (NodeHealth.FailureCount health)) (f64_of_Z attempts) in
      let recoveryFactor :=
        f64_add (f64_of_Z 1) (f64_of_Z (Z.max (NodeHealth.ConsecutiveSuccesses health) 0)) in
      wrap64 (latency + f64_to_int64
        (f64_div (f64_mul failureRate (f64_of_Z (ScoreConfig.FailureRatePenalty cfg))) recoveryFactor))
    else latency in
  let latency :=
    if (0 <? NodeHealth.ConsecutiveFailures health) && (0 <? ScoreConfig.ConsecutiveFailurePenalty cfg)
    then wrap64 (latency + wrap64 (NodeHealth.ConsecutiveFailures health
                                   * ScoreConfig.ConsecutiveFailurePenalty cfg))
    else latency in
  if (0 <? NodeHealth.InstabilityPenalty health) && (0 <? ScoreConfig.InstabilityUnitPenalty cfg)
  then wrap64 (latency + wrap64 (NodeHealth.InstabilityPenalty health
                                 * ScoreConfig.InstabilityUnitPenalty cfg))
  else latency.

Definition CalculateScore (health : NodeHealth) (cfg : ScoreConfig) : ScoreResult.ScoreResult :=
  let latency := effectiveSelectionLatency health cfg in
  let latency := if latency <=? 0 then ScoreConfig.MaxLatencyBaseline cfg else latency in
  let cost := f64_mul (Seconds latency) (f64_of_Z 1000) in
  if NodeHealth.Healthy health
  then ScoreResult.mk (NodeHealth.NodeID health) true
         (f64_sub (f64_add f64_zero (ScoreConfig.HealthyBonus cfg)) cost) "healthy" false
  else ScoreResult.mk (NodeHealth.NodeID health) false
         (f64_sub (f64_sub f64_zero (ScoreConfig.UnhealthyPenalty cfg)) cost) "unhealthy" false.

(** [health[id]]: the zero record for an unknown node. *)
Definition health_of (health : gmap string NodeHealth) (id : string) : NodeHealth :=
  default NodeHealth.zero (health !! id).

(** The comparison [SelectBestNode] sorts with. *)
Definition candidate_less (health : gmap string NodeHealth) (cfg : ScoreConfig)
    (a b : Node * ScoreResult.ScoreResult) : bool :=
  if negb (Bool.eqb (ScoreResult.Healthy a.2) (ScoreResult.Healthy b.2))
  then ScoreResult.Healthy a.2
  else
    let left := effectiveSelectionLatency (health_of health (Node.ID a.1)) cfg in
    let right := effectiveSelectionLatency (health_of health (Node.ID b.1)) cfg in
    let ceiling := ScoreConfig.HealthyLatencyCeiling cfg in
    let leftAcceptable := (0 <? ceiling) && (0 <? left) && (left <=? ceiling) in
    let rightAcceptable := (0 <? ceiling) && (0 <? right) && (right <=? ceiling) in
    if negb (Bool.eqb leftAcceptable rightAcceptable) then leftAcceptable
    else if (0 <? left) && (right <=? 0) then true
    else if (left <=? 0) && (0 <? right) then false
    else if (0 <? left) && (0 <? right) && negb (left =? right) then left <? right
    else f64_ltb (ScoreResult.Score b.2) (ScoreResult.Score a.2).

Inductive ProbeError : Type :=
| NoNodes.

Definition ranked (health : gmap string NodeHealth) (cfg : ScoreConfig) (node : Node)
    : Node * ScoreResult.ScoreResult :=
  (node, CalculateScore ((health_of health (Node.ID node)) <| NodeHealth.NodeID := Node.ID node |>) cfg).

Definition select (r : ScoreResult.ScoreResult) : ScoreResult.ScoreResult :=
  ScoreResult.mk (ScoreResult.NodeID r) (ScoreResult.Healthy r) (ScoreResult.Score r)
    (ScoreResult.Reason r) true.

Definition SelectBestNode (nodes : list Node) (health : gmap string NodeHealth) (cfg : ScoreConfig)
    : result ProbeError (Node * ScoreResult.ScoreResult) :=
  match stable_sort (candidate_less health cfg) (ranked health cfg <$> nodes) with
  | [] => Err NoNodes
  | best :: _ => Ok (best.1, select best.2)
  end.

(** ** anti_flap.go *)

Module SwitchPolicy.
Record SwitchPolicy : Type := mk {
  AllowOptimization : bool;
  CurrentLatencyCeiling : Duration;
  Cooldown : Duration;
  LatencyImprovement : Duration;
  RelativeImprovement : f64;
  RequiredLatencyWins : Z;
  FailureThreshold : Z;
  HealthyLatencyCeiling : Duration
}.
End SwitchPolicy.
Abbreviation SwitchPolicy := SwitchPolicy.SwitchPolicy.

Definition DefaultSwitchPolicy : SwitchPolicy :=
  SwitchPolicy.mk true 0 (20 * Minute) (70 * Millisecond) (f64_const 35 100) 4 2
    defaultHealthyLatencyCeiling.

(** The second result of [ShouldSwitch]. *)
Inductive SwitchReason : Type :=
| NoReason
| NoCurrentNode
| CurrentUnhealthy
| OptimizationDisabled
| WithinLatencyCeiling
| CooldownActive
| NotConfirmed
| RelativeBelowThreshold
| ImprovementBelowThreshold
| QualityImproved (gain : Duration)
| CurrentAcceptable.

(** [float64(current-candidate) / float64(current)]. *)
Definition relative_gain (currentLatency candidateLatency : Duration) : f64 :=
  f64_div (f64_of_Z (wrap64 (currentLatency - candidateLatency))) (f64_of_Z currentLatency).

Definition ShouldSwitchWithWins (current candidate : NodeHealth) (now lastSwitch : Time)
    (policy : SwitchPolicy) (confirmedWins : Z) : bool * SwitchReason :=
  if bool_decide (NodeHealth.NodeID candidate = "") || negb (NodeHealth.Healthy candidate)
  then (false, NoReason)
  else if bool_decide (NodeHealth.NodeID current = "") then (true, NoCurrentNode)
  else if negb (NodeHealth.Healthy current)
          || (SwitchPolicy.FailureThreshold policy <=? NodeHealth.ConsecutiveFailures current)
  then (true, CurrentUnhealthy)
  else if negb (SwitchPolicy.AllowOptimization policy) then (false, OptimizationDisabled)
  else if (0 <? SwitchPolicy.CurrentLatencyCeiling policy)
          && (NodeHealth.AverageLatency current <=? SwitchPolicy.CurrentLatencyCeiling policy)
  then (false, WithinLatencyCeiling)
  else
    let currentLatency := effectiveSelectionLatency current DefaultScoreConfig in
    let candidateLatency := effectiveSelectionLatency candidate DefaultScoreConfig in
    let gain := wrap64 (currentLatency - candidateLatency) in
    if Sub now lastSwitch <? SwitchPolicy.Cooldown policy then (false, CooldownActive)
    else if (0 <? SwitchPolicy.RequiredLatencyWins policy)
            && (confirmedWins <? SwitchPolicy.RequiredLatencyWins policy)
    then (false, NotConfirmed)
    else if (0 <? currentLatency) && (0 <? candidateLatency)
            && f64_ltb f64_zero (SwitchPolicy.RelativeImprovement policy)
            && f64_ltb (relative_gain currentLatency candidateLatency)
                       (SwitchPolicy.RelativeImprovement policy)
    then (false, RelativeBelowThreshold)
    else if (0 <? currentLatency)
            && (currentLatency <=? SwitchPolicy.HealthyLatencyCeiling policy)
            && (gain <? SwitchPolicy.LatencyImprovement policy)
    then (false, ImprovementBelowThreshold)
    else if (0 <? candidateLatency) && (SwitchPolicy.LatencyImprovement policy <=? gain)
    then (true, QualityImproved gain)
    else (false, CurrentAcceptable).

Definition ShouldSwitch (current candidate : NodeHealth) (now lastSwitch : Time)
    (policy : SwitchPolicy) : bool * SwitchReason :=
  ShouldSwitchWithWins current candidate now lastSwitch policy
    (NodeHealth.ConsecutiveSuccesses candidate).

Definition IsOptimizationCandidate (current candidate : NodeHealth) (policy : SwitchPolicy) : bool :=
  if negb (SwitchPolicy.AllowOptimization policy) || negb (NodeHealth.Healthy current)
     || negb (NodeHealth.Healthy candidate)
     || bool_decide (NodeHealth.NodeID current = NodeHealth.NodeID candidate)
  then false
  else if (0 <? SwitchPolicy.CurrentLatencyCeiling policy)
          && (NodeHealth.AverageLatency current <=? SwitchPolicy.CurrentLatencyCeiling policy)
  then false
  else
    let currentLatency := effectiveSelectionLatency current DefaultScoreConfig in
    let candidateLatency := effectiveSelectionLatency candidate DefaultScoreConfig in
    if (currentLatency <=? 0) || (candidateLatency <=? 0)
       || (wrap64 (currentLatency - candidateLatency) <? SwitchPolicy.LatencyImprovement policy)
    then false
    else if f64_ltb f64_zero (SwitchPolicy.RelativeImprovement policy)
            && f64_ltb (relative_gain currentLatency candidateLatency)
                       (SwitchPolicy.RelativeImprovement policy)
    then false else true.

Definition sample_health (id : string) (ms wins : Z) : NodeHealth :=
  NodeHealth.zero <| NodeHealth.NodeID := id |> <| NodeHealth.Healthy := true |>
    <| NodeHealth.AverageLatency := ms * Millisecond |> <| NodeHealth.ConsecutiveSuccesses := wins |>.

(** The cases of [TestShouldSwitchRequiresFourWinsAndThirtyFivePercentImprovement]. *)
Example switch_test :
  (fun c => ShouldSwitch (sample_health "current" 300 0) c Hour 0 DefaultSwitchPolicy) <$>
    [sample_health "candidate" 180 3; sample_health "candidate" 210 4; sample_health "candidate" 195 4]
  = [(false, NotConfirmed); (false, RelativeBelowThreshold); (true, QualityImproved (105 * Millisecond))].
Proof. vm_compute. reflexivity. Qed.
