(* ===== verification/ProbeFacts.v ===== *)
(** * Properties of the probe telemetry

    What [UpdateHealth] computes over a whole trace of probes, which node
    [SelectBestNode] returns, and exactly when [ShouldSwitchWithWins] leaves
    the current node. *)
From S2P Require Import Prelude GoNum Domain Settings Probe.

Local Open Scope Z_scope.
Local Open Scope list_scope.

(** ** Health over a trace of probes *)

Module Event.
Record Event : Type := mk {
  Success : bool;
  Latency : Duration;
  CheckedAt : Time;
  Reason : string
}.
End Event.
Abbreviation Event := Event.Event.

Definition run_probes (threshold : Z) (evs : list Event) : NodeHealth :=
  foldl (fun h e => UpdateHealth h (Event.Success e) (Event.Latency e) (Event.CheckedAt e)
                      (Event.Reason e) threshold) NodeHealth.zero evs.

(** The number of events with the given outcome, and of those at the end. *)
Definition count_outcome (b : bool) (evs : list Event) : Z :=
  Z.of_nat (length (List.filter (fun e => Bool.eqb (Event.Success e) b) evs)).

Fixpoint leading (b : bool) (evs : list Event) : Z :=
  match evs with
  | e :: t => if Bool.eqb (Event.Success e) b then 1 + leading b t else 0
  | [] => 0
  end.

Definition trailing (b : bool) (evs : list Event) : Z := leading b (reverse evs).

Lemma trailing_snoc b evs e :
  trailing b (evs ++ [e]) = if Bool.eqb (Event.Success e) b then 1 + trailing b evs else 0.
Proof. unfold trailing. by rewrite reverse_snoc. Qed.

Lemma count_outcome_snoc b evs e :
  count_outcome b (evs ++ [e]) =
    count_outcome b evs + if Bool.eqb (Event.Success e) b then 1 else 0.
Proof.
  unfold count_outcome. rewrite List.filter_app, length_app. cbn.
  destruct (Bool.eqb _ _); cbn; lia.
Qed.

Lemma count_outcome_le b evs : 0 <= count_outcome b evs <= Z.of_nat (length evs).
Proof. unfold count_outcome. pose proof (List.filter_length_le (fun e => Bool.eqb (Event.Success e) b) evs). lia. Qed.

Lemma leading_le b evs : 0 <= leading b evs <= Z.of_nat (length evs).
Proof. induction evs as [|e evs IH]; cbn -[Z.of_nat]; [lia|]. destruct (Bool.eqb _ _); lia. Qed.

Lemma trailing_le b evs : 0 <= trailing b evs <= Z.of_nat (length evs).
Proof. unfold trailing. pose proof (leading_le b (reverse evs)). by rewrite length_reverse in H. Qed.

Lemma succ64_small z n : 0 <= z <= n -> n < 2 ^ 63 - 1 -> succ64 z = z + 1.
Proof. intros H1 H2. unfold succ64. apply wrap64_id. unfold in_int64. lia. Qed.

Lemma succ64_counts b evs :
  Z.of_nat (length evs) < 2 ^ 63 - 1 ->
  succ64 (count_outcome b evs) = count_outcome b evs + 1 /\
  succ64 (trailing b evs) = 1 + trailing b evs.
Proof.
  intros H. rewrite (Z.add_comm 1).
  split; (eapply succ64_small; [|exact H]); [apply count_outcome_le|apply trailing_le].
Qed.

(** The counters of a health record after the trace [evs]. *)
Definition counters_of (threshold : Z) (evs : list Event) (h : NodeHealth) : Prop :=
  NodeHealth.SuccessCount h = count_outcome true evs /\
  NodeHealth.FailureCount h = count_outcome false evs /\
  NodeHealth.ConsecutiveSuccesses h = trailing true evs /\
  NodeHealth.ConsecutiveFailures h = trailing false evs /\
  0 <= NodeHealth.InstabilityPenalty h <= maxInstabilityPenalty /\
  NodeHealth.Healthy h =
    (0 <? count_outcome true evs) && (trailing false evs <? Z.max 1 threshold).

Lemma fold_latency_counters h l :
  let h' := fold_latency h l in
  NodeHealth.SuccessCount h' = NodeHealth.SuccessCount h /\
  NodeHealth.FailureCount h' = NodeHealth.FailureCount h /\
  NodeHealth.ConsecutiveSuccesses h' = NodeHealth.ConsecutiveSuccesses h /\
  NodeHealth.ConsecutiveFailures h' = NodeHealth.ConsecutiveFailures h /\
  NodeHealth.InstabilityPenalty h' = NodeHealth.InstabilityPenalty h /\
  NodeHealth.Healthy h' = NodeHealth.Healthy h.
Proof. unfold fold_latency. destruct (_ =? 0); repeat split. Qed.

Lemma max_threshold threshold : (if threshold <? 1 then 1 else threshold) = Z.max 1 threshold.
Proof. destruct (Z.ltb_spec threshold 1); lia. Qed.

Lemma UpdateHealth_counters threshold evs e h :
  Z.of_nat (length evs) < 2 ^ 63 - 1 ->
  counters_of threshold evs h ->
  counters_of threshold (evs ++ [e])
    (UpdateHealth h (Event.Success e) (Event.Latency e) (Event.CheckedAt e) (Event.Reason e) threshold).
Proof.
  intros Hlen (Hs & Hf & Hcs & Hcf & Hp & _). unfold counters_of, UpdateHealth.
  rewrite !count_outcome_snoc, !trailing_snoc, max_threshold.
  pose proof (count_outcome_le true evs). pose proof (count_outcome_le false evs).
  pose proof (trailing_le true evs). pose proof (trailing_le false evs).
  destruct e as [ok lat at_ reason]; cbn [Event.Success Event.Latency Event.CheckedAt Event.Reason].
  destruct (succ64_counts true evs Hlen) as [T1 T2], (succ64_counts false evs Hlen) as [F1 F2].
  unfold maxInstabilityPenalty, instabilityPenaltyPerFailure in *.
  destruct ok; cbn [Bool.eqb].
  - match goal with |- context [fold_latency ?x ?l] =>
      destruct (fold_latency_counters x l) as (-> & -> & -> & -> & -> & ->) end.
    unfold upd; cbn. rewrite Hs, Hf, Hcs, T1, T2.
    repeat split; try lia; try (destruct (Z.ltb_spec 0 (NodeHealth.InstabilityPenalty h)); lia).
  - assert (Hw : wrap64 (NodeHealth.InstabilityPenalty h + 3) = NodeHealth.InstabilityPenalty h + 3)
      by (apply wrap64_id; unfold in_int64; lia).
    unfold upd; cbn.
    destruct (NodeHealth.AverageLatency h =? 0); cbn; rewrite Hs, Hcf, F2, !Z.add_0_r;
      destruct ((0 <? count_outcome true evs) && _); cbn; rewrite ?Hs, ?Hf, ?Hcf, ?Hw, ?F1, ?F2;
      repeat split; try done; lia.
Qed.

Lemma run_probes_snoc threshold evs e :
  run_probes threshold (evs ++ [e]) =
    UpdateHealth (run_probes threshold evs) (Event.Success e) (Event.Latency e)
      (Event.CheckedAt e) (Event.Reason e) threshold.
Proof. unfold run_probes. by rewrite foldl_app. Qed.

(** After any trace of probes the counters are the numbers of successes and
    failures and the lengths of the final runs, the instability penalty lies
    in 0..20, and the node is healthy exactly when it has succeeded once and
    its final run of failures is shorter than the threshold. *)
Theorem UpdateHealth_trace threshold evs :
  Z.of_nat (length evs) < 2 ^ 63 ->
  counters_of threshold evs (run_probes threshold evs).
Proof.
  induction evs as [|e evs IH] using rev_ind; intros Hlen.
  - repeat split; unfold maxInstabilityPenalty; cbn; lia.
  - rewrite length_app in Hlen; cbn in Hlen. rewrite run_probes_snoc.
    apply UpdateHealth_counters; [lia|]. apply IH. lia.
Qed.

Definition ok_event (ms : Z) : Event := Event.mk true (ms * Millisecond) zero_time "".
Definition fail_event : Event := Event.mk false (5 * Second) zero_time "timeout".

Lemma UpdateHealth_trace_witness :
  NodeHealth.Healthy (run_probes 2 [ok_event 80; fail_event]) = true /\
  counters_of 2 [ok_event 80; fail_event; fail_event]
    (run_probes 2 [ok_event 80; fail_event; fail_event]) /\
  NodeHealth.Healthy (run_probes 2 [ok_event 80; fail_event; fail_event]) = false.
Proof.
  split; [vm_compute; reflexivity|]. split; [|vm_compute; reflexivity].
  apply (UpdateHealth_trace 2 [ok_event 80; fail_event; fail_event]). reflexivity.
Defined.

(** ** Latency averages *)

Section Latency.
  Context (lo hi : Z).
  Hypothesis lo_pos : 0 < lo.
  Hypothesis lo_hi : lo <= hi.
  Hypothesis hi_small : hi <= 2 ^ 60.

Definition average_ok (h : NodeHealth) : Prop :=
  lo <= NodeHealth.AverageLatency h <= hi /\ 0 <= NodeHealth.LatencyVariation h <= hi - lo.

Lemma blend_bound a b l h :
  0 <= l -> h <= 2 ^ 60 -> l <= a <= h -> l <= b <= h ->
  l <= quot64 (wrap64 (wrap64 (a * 4) + b)) 5 <= h.
Proof.
  intros Hl Hh Ha Hb. assert (2 ^ 63 = 8 * 2 ^ 60) by reflexivity.
  rewrite (wrap64_id (a * 4)) by (unfold in_int64; lia).
  rewrite (wrap64_id (a * 4 + b)) by (unfold in_int64; lia).
  unfold quot64. rewrite Z.quot_div_nonneg by lia.
  assert (l <= (a * 4 + b) / 5 <= h).
  { split; [apply Z.div_le_lower_bound; lia|apply Z.div_le_upper_bound; lia]. }
  rewrite wrap64_id by (unfold in_int64; lia). lia.
Qed.

Lemma fold_latency_average h l :
  average_ok h -> lo <= l <= hi -> average_ok (fold_latency h l).
Proof.
  intros [Ha Hv] Hl. unfold fold_latency. rewrite (proj2 (Z.eqb_neq _ _)) by lia.
  unfold average_ok, upd; cbn.
  split; [by apply blend_bound; [lia| | |]|].
  assert (Hw : wrap64 (l - NodeHealth.AverageLatency h) = l - NodeHealth.AverageLatency h).
  { apply wrap64_id. unfold in_int64. assert (2 ^ 63 = 8 * 2 ^ 60) by reflexivity. lia. }
  rewrite Hw. set (d := l - _).
  assert (Hd : 0 <= (if d <? 0 then wrap64 (- d) else d) <= hi - lo).
  { destruct (Z.ltb_spec d 0); [rewrite wrap64_id|]; unfold d in *; try lia.
    unfold in_int64. assert (2 ^ 63 = 8 * 2 ^ 60) by reflexivity. lia. }
  destruct (NodeHealth.LatencyVariation h =? 0); [done|].
  apply blend_bound; lia.
Qed.

Lemma fold_latency_first h l :
  NodeHealth.AverageLatency h = 0 -> NodeHealth.LatencyVariation h = 0 -> lo <= l <= hi ->
  average_ok (fold_latency h l).
Proof. intros Ha Hv Hl. unfold fold_latency. rewrite Ha; cbn. unfold average_ok, upd; cbn. lia. Qed.

Lemma UpdateHealth_average h ok l at_ reason threshold :
  average_ok h \/ (NodeHealth.AverageLatency h = 0 /\ NodeHealth.LatencyVariation h = 0) ->
  lo <= l <= hi -> average_ok (UpdateHealth h ok l at_ reason threshold).
Proof.
  intros Hh Hl. unfold UpdateHealth. destruct ok.
  - destruct Hh as [Hh|[Ha Hv]]; [by apply fold_latency_average|by apply fold_latency_first].
  - assert (Hgen : forall u, NodeHealth.AverageLatency u = NodeHealth.AverageLatency h ->
      NodeHealth.LatencyVariation u = NodeHealth.LatencyVariation h ->
      average_ok (if NodeHealth.AverageLatency u =? 0 then u <| NodeHealth.AverageLatency := l |> else u)).
    { intros u Eu Ev. unfold average_ok in *. destruct (Z.eqb_spec (NodeHealth.AverageLatency u) 0);
        unfold upd; cbn; rewrite ?Eu, ?Ev in *; lia. }
    match goal with |- context [if NodeHealth.AverageLatency ?u =? 0 then _ else _] =>
      specialize (Hgen u eq_refl eq_refl) end.
    destruct (_ && _); [|exact Hgen]. exact Hgen.
Qed.

Lemma run_probes_average threshold evs :
  evs <> [] -> Forall (fun e => lo <= Event.Latency e <= hi) evs ->
  average_ok (run_probes threshold evs).
Proof.
  induction evs as [|e evs IH] using rev_ind; intros Hne Hall; [done|].
  apply Forall_app in Hall as [Hall He]. apply Forall_inv in He.
  rewrite run_probes_snoc. apply UpdateHealth_average; [|done].
  destruct evs as [|e' evs]; [by right|left]. by apply IH.
Qed.

End Latency.

(** The rolling average stays within the measured latencies and the
    variation within their spread. *)
Theorem UpdateHealth_latency_bounds threshold evs lo hi :
  0 < lo -> hi <= 2 ^ 60 -> evs <> [] ->
  Forall (fun e => lo <= Event.Latency e <= hi) evs ->
  lo <= NodeHealth.AverageLatency (run_probes threshold evs) <= hi /\
  0 <= NodeHealth.LatencyVariation (run_probes threshold evs) <= hi - lo.
Proof.
  intros Hlo Hhi Hne Hall. apply run_probes_average; try done.
  destruct Hall; [done|lia].
Qed.

Lemma UpdateHealth_latency_bounds_witness :
  let h := run_probes 2 [ok_event 80; ok_event 120; ok_event 100] in
  NodeHealth.AverageLatency h = 90400000 /\ NodeHealth.LatencyVariation h = 34400000 /\
  80 * Millisecond <= NodeHealth.AverageLatency h <= 120 * Millisecond.
Proof.
  intros h. split; [vm_compute; reflexivity|]. split; [vm_compute; reflexivity|].
  apply (UpdateHealth_latency_bounds 2 [ok_event 80; ok_event 120; ok_event 100]
    (80 * Millisecond) (120 * Millisecond)).
  - reflexivity.
  - vm_compute. discriminate.
  - discriminate.
  - repeat constructor; vm_compute; discriminate.
Defined.

(** ** Selection *)

Section Select.
  Context (health : gmap string NodeHealth) (cfg : ScoreConfig).

Definition node_healthy (n : Node) : bool := NodeHealth.Healthy (health_of health (Node.ID n)).
Definition node_latency (n : Node) : Duration :=
  effectiveSelectionLatency (health_of health (Node.ID n)) cfg.

(** Healthy first, then a measured latency, then the lower one. *)
Definition better (a b : Node) : bool :=
  if node_healthy a && negb (node_healthy b) then true
  else if negb (node_healthy a) && node_healthy b then false
  else (0 <? node_latency a) && ((node_latency b <=? 0) || (node_latency a <? node_latency b)).

Lemma better_spec a b :
  better a b = true <->
  (node_healthy a = true /\ node_healthy b = false) \/
  (node_healthy a = node_healthy b /\ 0 < node_latency a /\
   (node_latency b <= 0 \/ node_latency a < node_latency b)).
Proof.
  unfold better. destruct (node_healthy a), (node_healthy b); cbn;
    rewrite ?andb_true_iff, ?orb_true_iff, ?Z.ltb_lt, ?Z.leb_le; naive_solver.
Qed.

Lemma better_irrefl a : better a a = false.
Proof. apply not_true_iff_false. rewrite better_spec. intros [[? ?]|?]; [congruence|lia]. Qed.

Lemma better_trans a b c : better a b = true -> better b c = true -> better a c = true.
Proof.
  rewrite !better_spec. destruct (node_healthy a), (node_healthy b), (node_healthy c);
    intros [[? ?]|(? & ? & ?)] [[? ?]|(? & ? & ?)]; try discriminate; auto; right; (split; [done|lia]).
Qed.

Lemma better_cotrans a b c : better a c = true -> better a b = true \/ better b c = true.
Proof.
  rewrite !better_spec. destruct (node_healthy a), (node_healthy b), (node_healthy c);
    intros [[? ?]|(? & ? & ?)]; try discriminate; auto;
    destruct (Z.ltb_spec 0 (node_latency b));
    destruct (Z.ltb_spec (node_latency a) (node_latency b));
    intuition lia.
Qed.

(** With equal health and latency the scores are equal too: the last
    tie-break of the source never decides. *)
Lemma CalculateScore_ext h1 h2 :
  NodeHealth.Healthy h1 = NodeHealth.Healthy h2 ->
  (effectiveSelectionLatency h1 cfg = effectiveSelectionLatency h2 cfg \/
   (effectiveSelectionLatency h1 cfg <= 0 /\ effectiveSelectionLatency h2 cfg <= 0)) ->
  ScoreResult.Score (CalculateScore h1 cfg) = ScoreResult.Score (CalculateScore h2 cfg).
Proof.
  intros Hh Hl. unfold CalculateScore. rewrite Hh. destruct Hl as [->|[H1 H2]].
  - by destruct (NodeHealth.Healthy h2).
  - apply Z.leb_le in H1, H2. rewrite H1, H2. by destruct (NodeHealth.Healthy h2).
Qed.

Lemma candidate_less_better a b :
  candidate_less health cfg (ranked health cfg a) (ranked health cfg b) = better a b.
Proof.
  unfold candidate_less, ranked; cbn [fst snd].
  assert (Hr : forall n, ScoreResult.Healthy (CalculateScore
    ((health_of health (Node.ID n)) <| NodeHealth.NodeID := Node.ID n |>) cfg) = node_healthy n).
  { intros n. unfold CalculateScore, node_healthy.
    change (NodeHealth.Healthy ((health_of health (Node.ID n)) <| NodeHealth.NodeID := Node.ID n |>))
      with (NodeHealth.Healthy (health_of health (Node.ID n))).
    by destruct (NodeHealth.Healthy (health_of health (Node.ID n))). }
  rewrite !Hr. unfold better. fold (node_latency a) (node_latency b).
  destruct (node_healthy a) eqn:Ea, (node_healthy b) eqn:Eb; cbn [Bool.eqb negb andb]; try done.
  all: pose proof (CalculateScore_ext
    ((health_of health (Node.ID b)) <| NodeHealth.NodeID := Node.ID b |>)
    ((health_of health (Node.ID a)) <| NodeHealth.NodeID := Node.ID a |>)) as Hs.
  all: change (effectiveSelectionLatency ((health_of health (Node.ID a)) <| NodeHealth.NodeID := Node.ID a |>) cfg)
    with (node_latency a) in Hs.
  all: change (effectiveSelectionLatency ((health_of health (Node.ID b)) <| NodeHealth.NodeID := Node.ID b |>) cfg)
    with (node_latency b) in Hs.
  all: specialize (Hs (eq_trans Eb (eq_sym Ea))).
  all: set (c := ScoreConfig.HealthyLatencyCeiling cfg).
  all: set (sa := ScoreResult.Score (CalculateScore
    ((health_of health (Node.ID a)) <| NodeHealth.NodeID := Node.ID a |>) cfg)) in *.
  all: set (sb := ScoreResult.Score (CalculateScore
    ((health_of health (Node.ID b)) <| NodeHealth.NodeID := Node.ID b |>) cfg)) in *.
  all: clearbody sa sb c; generalize dependent (node_latency a); generalize dependent (node_latency b).
  all: clear Hr Ea Eb; intros lb la Hs.
  all: assert (Hab : lb = la \/ (lb <= 0 /\ la <= 0) -> f64_ltb sb sa = false)
    by (intros H; rewrite (Hs H); apply f64_ltb_irrefl); clear Hs.
  all: destruct (Z.ltb_spec 0 c), (Z.ltb_spec 0 la), (Z.ltb_spec 0 lb), (Z.leb_spec la c), (Z.leb_spec lb c),
    (Z.leb_spec la 0), (Z.leb_spec lb 0), (Z.eqb_spec la lb), (Z.ltb_spec la lb); cbn [andb orb negb Bool.eqb];
    try lia; try done; apply Hab; lia.
Qed.

End Select.

Lemma SelectBestNode_sorted nodes health cfg :
  SelectBestNode nodes health cfg =
    match stable_sort (better health cfg) nodes with
    | [] => Err NoNodes
    | best :: _ => Ok (best, select (ranked health cfg best).2)
    end.
Proof.
  unfold SelectBestNode.
  rewrite (stable_sort_fmap _ (better health cfg)) by (intros; apply candidate_less_better).
  by destruct (stable_sort (better health cfg) nodes).
Qed.

Lemma select_best_spec nodes health cfg :
  nodes <> [] ->
  exists best pre post,
    SelectBestNode nodes health cfg = Ok (best, select (ranked health cfg best).2) /\
    nodes = pre ++ best :: post /\
    (forall n, n ∈ pre -> better health cfg best n = true) /\
    (forall n, n ∈ nodes -> node_healthy health n = true -> node_healthy health best = true) /\
    (forall n, n ∈ nodes -> node_healthy health n = node_healthy health best ->
       0 < node_latency health cfg n ->
       0 < node_latency health cfg best <= node_latency health cfg n).
Proof.
  intros Hne. rewrite SelectBestNode_sorted.
  destruct (stable_sort (better health cfg) nodes) as [|best rest] eqn:E.
  { exfalso. apply Hne. pose proof (stable_sort_length (better health cfg) nodes) as Hl.
    rewrite E in Hl. by destruct nodes. }
  destruct (stable_sort_head_first _ _ _ _ E) as (pre & post & -> & Hpre).
  destruct (stable_sort_head _ (better_irrefl health cfg) (better_trans health cfg)
    (better_cotrans health cfg) _ _ _ E) as [_ Hmin].
  exists best, pre, post. split; [done|]. split; [done|]. split; [done|]. split.
  - intros n Hn Hh. specialize (Hmin n Hn). apply not_true_iff_false in Hmin.
    rewrite better_spec in Hmin. destruct (node_healthy health best); [done|]. exfalso. auto.
  - intros n Hn Hh Hl. specialize (Hmin n Hn). apply not_true_iff_false in Hmin.
    rewrite better_spec in Hmin.
    destruct (Z.ltb_spec 0 (node_latency health cfg best));
      destruct (Z.ltb_spec (node_latency health cfg n) (node_latency health cfg best));
      try lia; exfalso; apply Hmin; right; (split; [done|lia]).
Qed.

(** Selection succeeds on every non-empty list; the selected node comes from
    it, is healthy if any is, has the lowest positive effective latency among
    the nodes of its health, and is the first of the equally good ones. *)
Theorem SelectBestNode_best nodes health cfg :
  nodes <> [] ->
  exists best pre post,
    SelectBestNode nodes health cfg = Ok (best, select (ranked health cfg best).2) /\
    nodes = pre ++ best :: post /\
    (forall n, n ∈ pre -> better health cfg best n = true) /\
    (forall n, n ∈ nodes -> node_healthy health n = true -> node_healthy health best = true) /\
    (forall n, n ∈ nodes -> node_healthy health n = node_healthy health best ->
       0 < node_latency health cfg n ->
       0 < node_latency health cfg best <= node_latency health cfg n).
Proof. apply select_best_spec. Qed.

Definition named_node (id : string) : Node := Node.zero <| Node.ID := id |>.

Lemma SelectBestNode_best_witness :
  let health := {[ "a" := sample_health "a" 300 4; "b" := sample_health "b" 90 4;
                   "c" := sample_health "c" 90 4 ]} in
  let nodes := named_node <$> ["a"; "b"; "c"; "d"] in
  (fun r => match r with Ok p => Node.ID p.1 | Err _ => "" end)
    (SelectBestNode nodes health DefaultScoreConfig) = "b" /\
  exists best, (exists r, SelectBestNode nodes health DefaultScoreConfig = Ok (best, r)) /\ best ∈ nodes.
Proof.
  intros health nodes. split; [vm_compute; reflexivity|].
  destruct (SelectBestNode_best nodes health DefaultScoreConfig) as (best & pre & post & H & Hn & _);
    [discriminate|].
  exists best. split; [eexists; exact H|]. rewrite Hn. apply elem_of_app. right. apply list_elem_of_here.
Defined.

(** ** Switching *)

(** The current node is failing: unhealthy or out of patience. *)
Definition current_failing (current : NodeHealth) (policy : SwitchPolicy) : Prop :=
  NodeHealth.Healthy current = false \/
  SwitchPolicy.FailureThreshold policy <= NodeHealth.ConsecutiveFailures current.

(** What an optimisation of a working node needs. *)
Definition optimization_due (current candidate : NodeHealth) (now lastSwitch : Time)
    (policy : SwitchPolicy) (wins : Z) : Prop :=
  let cur := effectiveSelectionLatency current DefaultScoreConfig in
  let cand := effectiveSelectionLatency candidate DefaultScoreConfig in
  SwitchPolicy.AllowOptimization policy = true /\
  ~ (0 < SwitchPolicy.CurrentLatencyCeiling policy /\
     NodeHealth.AverageLatency current <= SwitchPolicy.CurrentLatencyCeiling policy) /\
  SwitchPolicy.Cooldown policy <= Sub now lastSwitch /\
  (SwitchPolicy.RequiredLatencyWins policy <= 0 \/ SwitchPolicy.RequiredLatencyWins policy <= wins) /\
  0 < cand /\
  SwitchPolicy.LatencyImprovement policy <= wrap64 (cur - cand) /\
  ~ (0 < cur /\ f64_ltb f64_zero (SwitchPolicy.RelativeImprovement policy) = true /\
     f64_ltb (relative_gain cur cand) (SwitchPolicy.RelativeImprovement policy) = true).

Lemma should_switch_spec current candidate now lastSwitch policy wins :
  (ShouldSwitchWithWins current candidate now lastSwitch policy wins).1 = true <->
  (NodeHealth.NodeID candidate <> "" /\ NodeHealth.Healthy candidate = true) /\
  (NodeHealth.NodeID current = "" \/
   current_failing current policy \/
   optimization_due current candidate now lastSwitch policy wins).
Proof.
  unfold ShouldSwitchWithWins, current_failing, optimization_due.
  destruct (bool_decide (NodeHealth.NodeID candidate = "")) eqn:E1; cbn [orb].
  { apply bool_decide_eq_true in E1. cbn. naive_solver. }
  apply bool_decide_eq_false in E1.
  destruct (NodeHealth.Healthy candidate); cbn [negb]; [|cbn; naive_solver].
  destruct (bool_decide (NodeHealth.NodeID current = "")) eqn:E2.
  { apply bool_decide_eq_true in E2. cbn. naive_solver. }
  apply bool_decide_eq_false in E2.
  destruct (NodeHealth.Healthy current); cbn [negb orb]; [|cbn; naive_solver].
  destruct (Z.leb_spec (SwitchPolicy.FailureThreshold policy) (NodeHealth.ConsecutiveFailures current));
    [cbn; naive_solver|].
  assert (Hfail : ~ (true = false \/ SwitchPolicy.FailureThreshold policy <=
    NodeHealth.ConsecutiveFailures current)) by (intros [?|?]; [done|lia]).
  destruct (SwitchPolicy.AllowOptimization policy); cbn [negb]; [|cbn; naive_solver].
  set (cur := effectiveSelectionLatency current DefaultScoreConfig).
  set (cand := effectiveSelectionLatency candidate DefaultScoreConfig).
  set (gain := wrap64 (cur - cand)). generalize (relative_gain cur cand) as rel.
  clearbody gain cand cur. intros rel.
  generalize (f64_ltb rel (SwitchPolicy.RelativeImprovement policy)) as below.
  generalize (f64_ltb f64_zero (SwitchPolicy.RelativeImprovement policy)) as relative.
  generalize (Sub now lastSwitch) as elapsed. intros elapsed relative below.
  destruct (Z.ltb_spec 0 (SwitchPolicy.CurrentLatencyCeiling policy)),
    (Z.leb_spec (NodeHealth.AverageLatency current) (SwitchPolicy.CurrentLatencyCeiling policy)); cbn [andb];
    try (cbn; split; [done|intros [_ [?|[?|(_ & H3 & _)]]]; [done|tauto|]; exfalso; apply H3; lia]).
  all: destruct (Z.ltb_spec elapsed (SwitchPolicy.Cooldown policy));
    [cbn; split; [done|intros [_ [?|[?|?]]]; [done|tauto|lia]]|].
  all: destruct (Z.ltb_spec 0 (SwitchPolicy.RequiredLatencyWins policy)),
    (Z.ltb_spec wins (SwitchPolicy.RequiredLatencyWins policy)); cbn [andb];
    try (cbn; split; [done|intros [_ [?|[?|?]]]; [done|tauto|lia]]).
  all: destruct (Z.ltb_spec 0 cur), (Z.ltb_spec 0 cand), relative, below,
    (Z.leb_spec cur (SwitchPolicy.HealthyLatencyCeiling policy)),
    (Z.ltb_spec gain (SwitchPolicy.LatencyImprovement policy)),
    (Z.leb_spec (SwitchPolicy.LatencyImprovement policy) gain); cbn [andb fst]; try lia;
    split; try done; try (intros [_ [?|[?|?]]]; [done|tauto|intuition lia]);
    intros _; (split; [done|right; right; repeat split; try lia; intuition (lia || discriminate)]).
Qed.

(** A switch is decided exactly when the candidate is a healthy node and
    either there is no current node, or the current one is failing (whatever
    the cooldown), or an optimisation is allowed, cooled down, confirmed and
    worth the configured improvement; the healthy-latency ceiling of the
    policy never changes the decision. *)
Theorem ShouldSwitch_iff current candidate now lastSwitch policy wins :
  (ShouldSwitchWithWins current candidate now lastSwitch policy wins).1 = true <->
  (NodeHealth.NodeID candidate <> "" /\ NodeHealth.Healthy candidate = true) /\
  (NodeHealth.NodeID current = "" \/
   current_failing current policy \/
   optimization_due current candidate now lastSwitch policy wins).
Proof. apply should_switch_spec. Qed.

(** A switch away from a working node only ever goes to a node that counts
    as an optimisation candidate. *)
Theorem switch_is_optimization_candidate current candidate now lastSwitch policy wins :
  (ShouldSwitchWithWins current candidate now lastSwitch policy wins).1 = true ->
  NodeHealth.NodeID current <> "" -> ~ current_failing current policy ->
  NodeHealth.NodeID current <> NodeHealth.NodeID candidate ->
  0 < effectiveSelectionLatency current DefaultScoreConfig ->
  IsOptimizationCandidate current candidate policy = true.
Proof.
  rewrite should_switch_spec. intros ((_ & Hh) & [?|[?|Hopt]]) Hid Hfail Hne Hcur; [done|done|].
  destruct Hopt as (Ha & Hceil & _ & _ & Hcand & Hgain & Hrel).
  unfold IsOptimizationCandidate. rewrite Ha, Hh. rewrite bool_decide_eq_false_2 by done.
  destruct (NodeHealth.Healthy current) eqn:Ec; [|exfalso; apply Hfail; by left]. cbn [negb orb].
  destruct ((0 <? _) && _) eqn:E.
  { exfalso. apply Hceil. apply andb_true_iff in E. rewrite Z.ltb_lt, Z.leb_le in E. done. }
  rewrite (proj2 (Z.leb_gt _ _)), (proj2 (Z.leb_gt _ _)), (proj2 (Z.ltb_ge _ _)) by lia. cbn [orb].
  destruct (f64_ltb f64_zero _ && f64_ltb _ _) eqn:Er; [|done].
  exfalso. apply Hrel. apply andb_true_iff in Er as [? ?]. done.
Qed.

Lemma switch_is_optimization_candidate_witness :
  IsOptimizationCandidate (sample_health "current" 300 0) (sample_health "candidate" 195 4)
    DefaultSwitchPolicy = true.
Proof.
  apply (switch_is_optimization_candidate (sample_health "current" 300 0)
    (sample_health "candidate" 195 4) Hour 0 DefaultSwitchPolicy 4).
  - vm_compute. reflexivity.
  - vm_compute. discriminate.
  - intros [H|H]; [vm_compute in H; discriminate H|vm_compute in H; by apply H].
  - vm_compute. discriminate.
  - vm_compute. reflexivity.
Defined.
