(* ===== verification/Migrations.v ===== *)
(** * Persisted settings and state

    [store/migrations.go], [store/settings.go] and [store/state.go].  A raw
    record holds the fields [encoding/json] finds in a file: [None] for a
    missing or null field.  [decode_settings_raw] and [decode_state_raw] are
    what the two decoders do after a successful [json.Unmarshal]. *)
From S2P Require Import Prelude GoRunes GoStrings GoNum Domain Firewall FirewallFacts.
From S2P Require Import FirewallGraph FirewallSettings Zapret Settings Connection.

Local Open Scope Z_scope.
Local Open Scope list_scope.

(** ** Raw settings *)

Module RawDNSSettings.
Record RawDNSSettings : Type := mk {
  Mode : option string;
  Transport : option string;
  Servers : option (list string);
  Bootstrap : option (list string);
  DirectDomains : option (list string)
}.
End RawDNSSettings.

Module RawFirewallSelectorSet.
Record RawFirewallSelectorSet : Type := mk {
  Services : option (list string);
  Domains : option (list string);
  CIDRs : option (list string)
}.
End RawFirewallSelectorSet.

Module RawFirewallSplitSettings.
Record RawFirewallSplitSettings : Type := mk {
  Proxy : option RawFirewallSelectorSet.RawFirewallSelectorSet;
  Bypass : option RawFirewallSelectorSet.RawFirewallSelectorSet;
  ExcludedSources : option (list string);
  DefaultAction : option string
}.
End RawFirewallSplitSettings.

Module RawFirewallModeDraft.
Record RawFirewallModeDraft : Type := mk {
  TargetServices : option (list string);
  TargetCIDRs : option (list string);
  TargetDomains : option (list string);
  SourceCIDRs : option (list string)
}.
End RawFirewallModeDraft.

Module RawFirewallSplitDraft.
Record RawFirewallSplitDraft : Type := mk {
  Proxy : option RawFirewallSelectorSet.RawFirewallSelectorSet;
  Bypass : option RawFirewallSelectorSet.RawFirewallSelectorSet;
  ExcludedSources : option (list string)
}.
End RawFirewallSplitDraft.

Module RawFirewallModeDrafts.
Record RawFirewallModeDrafts : Type := mk {
  Hosts : option RawFirewallModeDraft.RawFirewallModeDraft;
  Targets : option RawFirewallModeDraft.RawFirewallModeDraft;
  Split : option RawFirewallSplitDraft.RawFirewallSplitDraft;
  AntiTarget : option RawFirewallModeDraft.RawFirewallModeDraft
}.
End RawFirewallModeDrafts.

Module RawFirewallSettings.
Record RawFirewallSettings : Type := mk {
  Enabled : option bool;
  TransparentPort : option Z;
  Mode : option string;
  DisableIPv6 : option bool;
  Hosts : option (list string);
  Targets : option RawFirewallSelectorSet.RawFirewallSelectorSet;
  Split : option RawFirewallSplitSettings.RawFirewallSplitSettings;
  TargetServiceCatalog : option (gmap string FirewallTargetDefinition);
  ModeDrafts : option RawFirewallModeDrafts.RawFirewallModeDrafts;
  BlockQUIC : option bool;
  LegacyTargetMode : option string;
  LegacyTargetServices : option (list string);
  LegacyTargetCIDRs : option (list string);
  LegacyTargetDomains : option (list string);
  LegacySourceCIDRs : option (list string)
}.
End RawFirewallSettings.

Module RawZapretSettings.
Record RawZapretSettings : Type := mk {
  Enabled : option bool;
  Selectors : option RawFirewallSelectorSet.RawFirewallSelectorSet;
  FailbackSuccessThreshold : option Z
}.
End RawZapretSettings.

Module RawCountryRouting.
Record RawCountryRouting : Type := mk {
  Enabled : option bool;
  CountryCode : option string
}.
End RawCountryRouting.

Module RawSettings.
Record RawSettings : Type := mk {
  SchemaVersion : option Z;
  RefreshInterval : option Duration;
  HealthCheckInterval : option Duration;
  URLTestURL : option string;
  URLTestFallbackURL : option string;
  URLTestTimeout : option Duration;
  SwitchCooldown : option Duration;
  LatencyThreshold : option Duration;
  AutoProfile : option string;
  CustomAutoPolicy : option AutoPolicy;
  AutoExcludedNodes : option (list string);
  AutoHideKeywords : option (list string);
  DNS : option RawDNSSettings.RawDNSSettings;
  Firewall : option RawFirewallSettings.RawFirewallSettings;
  Zapret : option RawZapretSettings.RawZapretSettings;
  AutoMode : option bool;
  Mode : option string;
  LogLevel : option string;
  StrictEgressCheck : option bool;
  CountryRouting : option RawCountryRouting.RawCountryRouting;
  RussiaDirect : option bool
}.
End RawSettings.

(** ** Raw state *)

Module RawRuntimeOperation.
Record RawRuntimeOperation : Type := mk {
  Kind : option string;
  From : option string;
  To : option string;
  StartedAt : option Time
}.
End RawRuntimeOperation.

Module RawZapretTestRestoreState.
Record RawZapretTestRestoreState : Type := mk {
  ActiveSubscriptionID : option string;
  ActiveNodeID : option string;
  Mode : option string;
  Connected : option bool;
  ActiveTransport : option string
}.
End RawZapretTestRestoreState.

Module RawZapretTestState.
Record RawZapretTestState : Type := mk {
  Active : option bool;
  Restore : option RawZapretTestRestoreState.RawZapretTestRestoreState
}.
End RawZapretTestState.

Module RawState.
Record RawState : Type := mk {
  SchemaVersion : option Z;
  OperationalMode : option string;
  SelectedOutboundTag : option string;
  RuntimeConfigGeneration : option Z;
  RuntimeConfigVersion : option string;
  CurrentOperation : option RawRuntimeOperation.RawRuntimeOperation;
  RuntimeOutbounds : option (list RuntimeOutboundState);
  CandidateBackoff : option (gmap string CandidateBackoffState);
  AutoScope : option string;
  ActiveSubscriptionID : option string;
  ActiveNodeID : option string;
  ActiveNodeName : option string;
  Mode : option string;
  Connected : option bool;
  ActiveTransport : option string;
  LastRefreshAt : option (gmap string Time);
  Health : option (gmap string NodeHealth);
  LastSwitchAt : option Time;
  LastSwitchReason : option string;
  LastTransportSwitchAt : option Time;
  LastSuccessAt : option Time;
  LastFailureReason : option string;
  LastTransportFailureReason : option string;
  ZapretTest : option RawZapretTestState.RawZapretTestState;
  ActiveConnectionKind : option string;
  AWGProfileName : option string;
  AWGLastProbe : option AWGProbeState;
  ActiveAWGProfileID : option string;
  PreparedAWGProfileID : option string;
  AWGProfileProbes : option (gmap string AWGProbeState)
}.
End RawState.

Inductive StoreError : Type :=
| ErrUnsupportedSettingsSchema (version : Z)
| ErrUnsupportedStateSchema (version : Z)
| ErrCountryRouting (e : CountryError).

(** [if raw.X != nil { dst = *raw.X }]. *)
Definition or_keep {A} (raw : option A) (dst : A) : A := default dst raw.
Arguments or_keep {A} !raw dst /.

(** [raw.X.Y] for a pointer [raw.X]. *)
Definition field {R A} (raw : option R) (f : R -> option A) : option A := raw ≫= f.

(** ** Decoding settings *)

Definition decode_timings (raw : RawSettings.RawSettings) (s : Settings) : Settings :=
  s <| Settings.RefreshInterval ::= or_keep (RawSettings.RefreshInterval raw) |>
    <| Settings.HealthCheckInterval ::= or_keep (RawSettings.HealthCheckInterval raw) |>
    <| Settings.URLTestURL ::= or_keep (RawSettings.URLTestURL raw) |>
    <| Settings.URLTestFallbackURL ::= or_keep (RawSettings.URLTestFallbackURL raw) |>
    <| Settings.URLTestTimeout ::= or_keep (RawSettings.URLTestTimeout raw) |>
    <| Settings.SwitchCooldown ::= or_keep (RawSettings.SwitchCooldown raw) |>
    <| Settings.LatencyThreshold ::= or_keep (RawSettings.LatencyThreshold raw) |>.

(** Files without a profile keep their own tuning as the custom policy. *)
Definition legacy_policy (s : Settings) : AutoPolicy :=
  let p := PresetAutoPolicy AutoProfileBalanced in
  AutoPolicy.mk (AutoPolicy.AllowOptimization p) (AutoPolicy.CurrentLatencyCeiling p)
    (Settings.LatencyThreshold s) (AutoPolicy.RelativeImprovement p)
    (AutoPolicy.RequiredCandidateWins p) (Settings.SwitchCooldown s) (AutoPolicy.FailureThreshold p).

Definition decode_profile (raw : RawSettings.RawSettings) (s : Settings) : Settings :=
  match RawSettings.AutoProfile raw with
  | Some profile =>
    s <| Settings.AutoProfile := profile |>
      <| Settings.CustomAutoPolicy ::= or_keep (RawSettings.CustomAutoPolicy raw) |>
  | None =>
    s <| Settings.AutoProfile := AutoProfileCustom |>
      <| Settings.CustomAutoPolicy := legacy_policy s |>
  end.

Definition decode_country (raw : RawSettings.RawSettings) (c : CountryRouting) : CountryRouting :=
  match RawSettings.CountryRouting raw with
  | Some rc =>
    CountryRouting.mk (or_keep (RawCountryRouting.Enabled rc) (CountryRouting.Enabled c))
      (or_keep (RawCountryRouting.CountryCode rc) (CountryRouting.CountryCode c))
  | None =>
    match RawSettings.RussiaDirect raw with
    | Some direct => CountryRouting.mk direct "RU"
    | None => c
    end
  end.

Definition decode_misc (raw : RawSettings.RawSettings) (s : Settings) : Settings :=
  s <| Settings.AutoExcludedNodes ::= or_keep (RawSettings.AutoExcludedNodes raw) |>
    <| Settings.AutoHideKeywords ::= or_keep (RawSettings.AutoHideKeywords raw) |>
    <| Settings.AutoMode ::= or_keep (RawSettings.AutoMode raw) |>
    <| Settings.Mode ::= or_keep (RawSettings.Mode raw) |>
    <| Settings.LogLevel ::= or_keep (RawSettings.LogLevel raw) |>
    <| Settings.StrictEgressCheck ::= or_keep (RawSettings.StrictEgressCheck raw) |>
    <| Settings.CountryRouting ::= decode_country raw |>.

Definition decode_dns (raw : option RawDNSSettings.RawDNSSettings) (d : DNSSettings) : DNSSettings :=
  DNSSettings.mk (or_keep (field raw RawDNSSettings.Mode) (DNSSettings.Mode d))
    (or_keep (field raw RawDNSSettings.Transport) (DNSSettings.Transport d))
    (or_keep (field raw RawDNSSettings.Servers) (DNSSettings.Servers d))
    (or_keep (field raw RawDNSSettings.Bootstrap) (DNSSettings.Bootstrap d))
    (or_keep (field raw RawDNSSettings.DirectDomains) (DNSSettings.DirectDomains d)).

Definition decodeSelectorSet (raw : option RawFirewallSelectorSet.RawFirewallSelectorSet)
    (dst : FirewallSelectorSet) : FirewallSelectorSet :=
  FirewallSelectorSet.mk
    (or_keep (field raw RawFirewallSelectorSet.Services) (FirewallSelectorSet.Services dst))
    (or_keep (field raw RawFirewallSelectorSet.Domains) (FirewallSelectorSet.Domains dst))
    (or_keep (field raw RawFirewallSelectorSet.CIDRs) (FirewallSelectorSet.CIDRs dst)).

Definition decode_split (raw : option RawFirewallSplitSettings.RawFirewallSplitSettings)
    (dst : FirewallSplitSettings) : FirewallSplitSettings :=
  FirewallSplitSettings.mk
    (decodeSelectorSet (field raw RawFirewallSplitSettings.Proxy) (FirewallSplitSettings.Proxy dst))
    (decodeSelectorSet (field raw RawFirewallSplitSettings.Bypass) (FirewallSplitSettings.Bypass dst))
    (or_keep (field raw RawFirewallSplitSettings.ExcludedSources)
       (FirewallSplitSettings.ExcludedSources dst))
    (or_keep (NormalizeFirewallDefaultAction <$> field raw RawFirewallSplitSettings.DefaultAction)
       (FirewallSplitSettings.DefaultAction dst)).

Definition decode_draft (raw : option RawFirewallModeDraft.RawFirewallModeDraft)
    (dst : FirewallModeDraft) : FirewallModeDraft :=
  FirewallModeDraft.mk
    (or_keep (field raw RawFirewallModeDraft.TargetServices) (FirewallModeDraft.TargetServices dst))
    (or_keep (field raw RawFirewallModeDraft.TargetCIDRs) (FirewallModeDraft.TargetCIDRs dst))
    (or_keep (field raw RawFirewallModeDraft.TargetDomains) (FirewallModeDraft.TargetDomains dst))
    (or_keep (field raw RawFirewallModeDraft.SourceCIDRs) (FirewallModeDraft.SourceCIDRs dst)).

(** The split draft, or the older "anti target" draft as its bypass list. *)
Definition decode_split_draft (raw : RawFirewallModeDrafts.RawFirewallModeDrafts)
    (dst : FirewallSplitDraft) : FirewallSplitDraft :=
  match RawFirewallModeDrafts.Split raw with
  | Some sp =>
    FirewallSplitDraft.mk
      (decodeSelectorSet (RawFirewallSplitDraft.Proxy sp) (FirewallSplitDraft.Proxy dst))
      (decodeSelectorSet (RawFirewallSplitDraft.Bypass sp) (FirewallSplitDraft.Bypass dst))
      (or_keep (RawFirewallSplitDraft.ExcludedSources sp) (FirewallSplitDraft.ExcludedSources dst))
  | None =>
    let anti := RawFirewallModeDrafts.AntiTarget raw in
    let bypass := FirewallSplitDraft.Bypass dst in
    FirewallSplitDraft.mk (FirewallSplitDraft.Proxy dst)
      (FirewallSelectorSet.mk
        (or_keep (field anti RawFirewallModeDraft.TargetServices) (FirewallSelectorSet.Services bypass))
        (or_keep (field anti RawFirewallModeDraft.TargetDomains) (FirewallSelectorSet.Domains bypass))
        (or_keep (field anti RawFirewallModeDraft.TargetCIDRs) (FirewallSelectorSet.CIDRs bypass)))
      (FirewallSplitDraft.ExcludedSources dst)
  end.

Definition decode_drafts (raw : option RawFirewallModeDrafts.RawFirewallModeDrafts)
    (dst : FirewallModeDrafts) : FirewallModeDrafts :=
  match raw with
  | None => dst
  | Some raw =>
    FirewallModeDrafts.mk
      (decode_draft (RawFirewallModeDrafts.Hosts raw) (FirewallModeDrafts.Hosts dst))
      (decode_draft (RawFirewallModeDrafts.Targets raw) (FirewallModeDrafts.Targets dst))
      (decode_split_draft raw (FirewallModeDrafts.Split dst))
  end.

(** Files written before the mode existed: the mode follows from the legacy
    selectors. *)
Definition decode_legacy_mode (raw : RawFirewallSettings.RawFirewallSettings) (fw : FirewallSettings)
    : FirewallSettings :=
  let legacyTargets := FirewallSelectorSet.mk
    (or_keep (RawFirewallSettings.LegacyTargetServices raw) [])
    (or_keep (RawFirewallSettings.LegacyTargetDomains raw) [])
    (or_keep (RawFirewallSettings.LegacyTargetCIDRs raw) []) in
  let fw := fw <| FirewallSettings.Hosts ::= or_keep (RawFirewallSettings.LegacySourceCIDRs raw) |> in
  if (0 <? length (FirewallSettings.Hosts fw))%nat
  then fw <| FirewallSettings.Mode := FirewallModeHosts |>
  else if FirewallSelectorSetHasEntries legacyTargets
  then
    if bool_decide (RawFirewallSettings.LegacyTargetMode raw = Some FirewallTargetModeBypass)
    then
      fw <| FirewallSettings.Mode := FirewallModeSplit |>
         <| FirewallSettings.Split :=
              FirewallSplitSettings.mk (FirewallSplitSettings.Proxy DefaultFirewallSplitSettings)
                legacyTargets (FirewallSplitSettings.ExcludedSources DefaultFirewallSplitSettings)
                FirewallDefaultActionProxy |>
    else
      fw <| FirewallSettings.Mode := FirewallModeTargets |>
         <| FirewallSettings.Targets := legacyTargets |>
  else fw <| FirewallSettings.Mode := FirewallModeDisabled |>.

Definition decode_firewall (schemaVersion : Z)
    (raw : option RawFirewallSettings.RawFirewallSettings) (fw : FirewallSettings)
    : FirewallSettings :=
  match raw with
  | None => fw
  | Some raw =>
    let fw :=
      fw <| FirewallSettings.Enabled ::= or_keep (RawFirewallSettings.Enabled raw) |>
         <| FirewallSettings.TransparentPort ::= or_keep (RawFirewallSettings.TransparentPort raw) |>
         <| FirewallSettings.Mode ::=
              or_keep (NormalizeFirewallMode <$> RawFirewallSettings.Mode raw) |>
         <| FirewallSettings.DisableIPv6 ::= or_keep (RawFirewallSettings.DisableIPv6 raw) |>
         <| FirewallSettings.Hosts ::= or_keep (RawFirewallSettings.Hosts raw) |>
         <| FirewallSettings.Targets ::= decodeSelectorSet (RawFirewallSettings.Targets raw) |>
         <| FirewallSettings.Split ::= decode_split (RawFirewallSettings.Split raw) |>
         <| FirewallSettings.TargetServiceCatalog ::=
              or_keep (CloneFirewallTargetCatalog <$> RawFirewallSettings.TargetServiceCatalog raw) |>
         <| FirewallSettings.ModeDrafts ::= decode_drafts (RawFirewallSettings.ModeDrafts raw) |> in
    let fw :=
      match RawFirewallSettings.Mode raw with
      | None => decode_legacy_mode raw fw
      | Some _ => fw
      end in
    match RawFirewallSettings.BlockQUIC raw with
    | Some block => if 7 <=? schemaVersion then fw <| FirewallSettings.BlockQUIC := block |> else fw
    | None => fw
    end
  end.

Definition decode_zapret (raw : option RawZapretSettings.RawZapretSettings) (z : ZapretSettings)
    : ZapretSettings :=
  match raw with
  | None => z
  | Some raw =>
    let z := z <| ZapretSettings.Enabled ::= or_keep (RawZapretSettings.Enabled raw) |> in
    let z :=
      match RawZapretSettings.Selectors raw with
      | Some sel =>
        z <| ZapretSettings.Selectors ::=
               fun dst => set_cidrs (fun _ => []) (decodeSelectorSet (Some sel) dst) |>
      | None => z
      end in
    let z := z <| ZapretSettings.FailbackSuccessThreshold ::=
                    or_keep (RawZapretSettings.FailbackSuccessThreshold raw) |> in
    CanonicalZapretSettings z
  end.

(** The last lines of the decoder: normal forms and the current schema. *)
Definition finish_settings (settings : Settings) : result StoreError Settings :=
  let settings := settings <| Settings.AutoExcludedNodes ::= NormalizeAutoExcludedNodes |>
                           <| Settings.AutoHideKeywords ::= NormalizeAutoHideKeywords |> in
  match CanonicalCountryRouting (Settings.CountryRouting settings) with
  | Err e => Err (ErrCountryRouting e)
  | Ok country =>
    Ok (settings <| Settings.CountryRouting := country |>
                 <| Settings.SchemaVersion := Settings.SchemaVersion DefaultSettings |>)
  end.

(** A legacy file that only says [auto_mode]. *)
Definition decode_auto_mode (raw : RawSettings.RawSettings) (settings : Settings) : Settings :=
  if bool_decide (RawSettings.AutoMode raw = Some true) && bool_decide (RawSettings.Mode raw = None)
  then settings <| Settings.Mode := SelectionModeAuto |> else settings.

Definition decode_fields (schemaVersion : Z) (raw : RawSettings.RawSettings) (settings : Settings)
    : Settings :=
  let settings := decode_misc raw (decode_profile raw (decode_timings raw settings)) in
  let settings := settings <| Settings.DNS ::= decode_dns (RawSettings.DNS raw) |> in
  let settings := settings <| Settings.Firewall ::=
                    decode_firewall schemaVersion (RawSettings.Firewall raw) |> in
  let settings := settings <| Settings.Zapret ::= decode_zapret (RawSettings.Zapret raw) |> in
  decode_auto_mode raw settings.

Definition decode_settings_raw (raw : RawSettings.RawSettings) : result StoreError Settings :=
  let schemaVersion := or_keep (RawSettings.SchemaVersion raw) 0 in
  if Settings.SchemaVersion DefaultSettings <? schemaVersion
  then Err (ErrUnsupportedSettingsSchema schemaVersion)
  else finish_settings (decode_fields schemaVersion raw DefaultSettings).

(** ** Decoding state *)

Definition decode_operation (raw : RawRuntimeOperation.RawRuntimeOperation)
    : RuntimeOperation :=
  RuntimeOperation.mk (or_keep (RawRuntimeOperation.Kind raw) "")
    (or_keep (RawRuntimeOperation.From raw) "") (or_keep (RawRuntimeOperation.To raw) "")
    (or_keep (RawRuntimeOperation.StartedAt raw) zero_time).

Definition decode_restore (raw : option RawZapretTestRestoreState.RawZapretTestRestoreState)
    (dst : ZapretTestRestoreState) : ZapretTestRestoreState :=
  ZapretTestRestoreState.mk
    (or_keep (field raw RawZapretTestRestoreState.ActiveSubscriptionID)
       (ZapretTestRestoreState.ActiveSubscriptionID dst))
    (or_keep (field raw RawZapretTestRestoreState.ActiveNodeID)
       (ZapretTestRestoreState.ActiveNodeID dst))
    (or_keep (field raw RawZapretTestRestoreState.Mode) (ZapretTestRestoreState.Mode dst))
    (or_keep (field raw RawZapretTestRestoreState.Connected) (ZapretTestRestoreState.Connected dst))
    (or_keep (NormalizeTransportMode <$> field raw RawZapretTestRestoreState.ActiveTransport)
       (ZapretTestRestoreState.ActiveTransport dst)).

Definition decode_zapret_test (raw : option RawZapretTestState.RawZapretTestState)
    (dst : ZapretTestState) : ZapretTestState :=
  ZapretTestState.mk
    (or_keep (field raw RawZapretTestState.Active) (ZapretTestState.Active dst))
    (decode_restore (field raw RawZapretTestState.Restore) (ZapretTestState.Restore dst)).

(** The fields that are copied when present. *)
Definition decode_state_fields (raw : RawState.RawState) (s : RuntimeState) : RuntimeState :=
  s <| RuntimeState.ActiveSubscriptionID ::= or_keep (RawState.ActiveSubscriptionID raw) |>
    <| RuntimeState.AutoScope ::= or_keep (RawState.AutoScope raw) |>
    <| RuntimeState.ActiveNodeID ::= or_keep (RawState.ActiveNodeID raw) |>
    <| RuntimeState.ActiveNodeName ::= or_keep (RawState.ActiveNodeName raw) |>
    <| RuntimeState.Mode ::= or_keep (RawState.Mode raw) |>
    <| RuntimeState.Connected ::= or_keep (RawState.Connected raw) |>
    <| RuntimeState.ActiveTransport ::=
         or_keep (NormalizeTransportMode <$> RawState.ActiveTransport raw) |>
    <| RuntimeState.SelectedOutboundTag ::= or_keep (RawState.SelectedOutboundTag raw) |>
    <| RuntimeState.RuntimeConfigGeneration ::= or_keep (RawState.RuntimeConfigGeneration raw) |>
    <| RuntimeState.RuntimeConfigVersion ::= or_keep (RawState.RuntimeConfigVersion raw) |>
    <| RuntimeState.CurrentOperation ::=
         or_keep (Some ∘ decode_operation <$> RawState.CurrentOperation raw) |>
    <| RuntimeState.RuntimeOutbounds ::= or_keep (RawState.RuntimeOutbounds raw) |>
    <| RuntimeState.CandidateBackoff ::= or_keep (RawState.CandidateBackoff raw) |>
    <| RuntimeState.LastRefreshAt ::= or_keep (RawState.LastRefreshAt raw) |>
    <| RuntimeState.Health ::= or_keep (RawState.Health raw) |>
    <| RuntimeState.LastSwitchAt ::= or_keep (RawState.LastSwitchAt raw) |>
    <| RuntimeState.LastSwitchReason ::= or_keep (RawState.LastSwitchReason raw) |>
    <| RuntimeState.LastTransportSwitchAt ::= or_keep (RawState.LastTransportSwitchAt raw) |>
    <| RuntimeState.LastSuccessAt ::= or_keep (RawState.LastSuccessAt raw) |>
    <| RuntimeState.LastFailureReason ::= or_keep (RawState.LastFailureReason raw) |>
    <| RuntimeState.LastTransportFailureReason ::=
         or_keep (RawState.LastTransportFailureReason raw) |>
    <| RuntimeState.ActiveConnectionKind ::= or_keep (RawState.ActiveConnectionKind raw) |>
    <| RuntimeState.AWGProfileName ::= or_keep (RawState.AWGProfileName raw) |>
    <| RuntimeState.AWGLastProbe ::= or_keep (Some <$> RawState.AWGLastProbe raw) |>
    <| RuntimeState.ActiveAWGProfileID ::= or_keep (RawState.ActiveAWGProfileID raw) |>
    <| RuntimeState.PreparedAWGProfileID ::= or_keep (RawState.PreparedAWGProfileID raw) |>
    <| RuntimeState.AWGProfileProbes ::= or_keep (RawState.AWGProfileProbes raw) |>
    <| RuntimeState.ZapretTest ::= decode_zapret_test (RawState.ZapretTest raw) |>.

Definition decode_state_raw (raw : RawState.RawState) : result StoreError RuntimeState :=
  let state := DefaultRuntimeState in
  let schemaVersion := or_keep (RawState.SchemaVersion raw) 0 in
  if RuntimeState.SchemaVersion state <? schemaVersion
  then Err (ErrUnsupportedStateSchema schemaVersion)
  else
    let state := decode_state_fields raw state in
    let state :=
      match RawState.ActiveTransport raw with
      | None =>
        state <| RuntimeState.ActiveTransport :=
                   if RuntimeState.Connected state then TransportModeProxy else TransportModeDirect |>
      | Some _ => state
      end in
    let state := state <| RuntimeState.ActiveTransport ::= NormalizeTransportMode |> in
    let state :=
      state <| RuntimeState.OperationalMode :=
        match RawState.OperationalMode raw with
        | Some mode => NormalizeOperationalMode mode
        | None => LegacyOperationalMode (RuntimeState.Connected state)
                    (RuntimeState.ActiveTransport state)
        end |> in
    Ok (state <| RuntimeState.SchemaVersion := RuntimeState.SchemaVersion DefaultRuntimeState |>).

(** ** Saving and loading

    [store/settings.go] and [store/state.go] on top of [Migrations].
    [raw_of_settings] and [raw_of_state] are the fields [json.Marshal] writes,
    as the decoder of the same package reads them back: [omitempty] drops an
    empty string or slice, and a slice without elements is written as [null]
    or as [[]] according to whether it is nil, which the model leaves to the
    parameter [is_nil] (a predicate on the path of the field).  Strings are
    UTF-8, numbers finite and years have four digits, so that each JSON value
    reads back as it was written. *)

Definition omit_empty (s : string) : option string := if bool_decide (s = "") then None else Some s.

Section Save.
  Context (is_nil : string -> bool).

Definition json_strings (path : string) (l : list string) : option (list string) :=
  match l with
  | [] => if is_nil path then None else Some []
  | _ => Some l
  end.

(** ** Settings *)

Definition raw_of_selectors (path : string) (s : FirewallSelectorSet)
    : RawFirewallSelectorSet.RawFirewallSelectorSet :=
  RawFirewallSelectorSet.mk (json_strings (path +:+ ".services") (FirewallSelectorSet.Services s))
    (json_strings (path +:+ ".domains") (FirewallSelectorSet.Domains s))
    (json_strings (path +:+ ".cidrs") (FirewallSelectorSet.CIDRs s)).

Definition raw_of_draft (path : string) (d : FirewallModeDraft)
    : RawFirewallModeDraft.RawFirewallModeDraft :=
  RawFirewallModeDraft.mk
    (json_strings (path +:+ ".target_services") (FirewallModeDraft.TargetServices d))
    (json_strings (path +:+ ".target_cidrs") (FirewallModeDraft.TargetCIDRs d))
    (json_strings (path +:+ ".target_domains") (FirewallModeDraft.TargetDomains d))
    (json_strings (path +:+ ".source_cidrs") (FirewallModeDraft.SourceCIDRs d)).

Definition raw_of_split_draft (path : string) (d : FirewallSplitDraft)
    : RawFirewallSplitDraft.RawFirewallSplitDraft :=
  RawFirewallSplitDraft.mk
    (Some (raw_of_selectors (path +:+ ".proxy") (FirewallSplitDraft.Proxy d)))
    (Some (raw_of_selectors (path +:+ ".bypass") (FirewallSplitDraft.Bypass d)))
    (json_strings (path +:+ ".excluded_sources") (FirewallSplitDraft.ExcludedSources d)).

Definition raw_of_drafts (d : FirewallModeDrafts) : RawFirewallModeDrafts.RawFirewallModeDrafts :=
  RawFirewallModeDrafts.mk
    (Some (raw_of_draft "firewall.mode_drafts.hosts" (FirewallModeDrafts.Hosts d)))
    (Some (raw_of_draft "firewall.mode_drafts.targets" (FirewallModeDrafts.Targets d)))
    (Some (raw_of_split_draft "firewall.mode_drafts.split" (FirewallModeDrafts.Split d))) None.

Definition raw_of_split (s : FirewallSplitSettings)
    : RawFirewallSplitSettings.RawFirewallSplitSettings :=
  RawFirewallSplitSettings.mk
    (Some (raw_of_selectors "firewall.split.proxy" (FirewallSplitSettings.Proxy s)))
    (Some (raw_of_selectors "firewall.split.bypass" (FirewallSplitSettings.Bypass s)))
    (json_strings "firewall.split.excluded_sources" (FirewallSplitSettings.ExcludedSources s))
    (Some (FirewallSplitSettings.DefaultAction s)).

(** A nil catalog is written as [null]; both decode to no services. *)
Definition json_catalog (c : Catalog) : option Catalog :=
  if bool_decide (c = ∅) then if is_nil "firewall.target_service_catalog" then None else Some ∅
  else Some c.

Definition raw_of_firewall (f : FirewallSettings) : RawFirewallSettings.RawFirewallSettings :=
  RawFirewallSettings.mk (Some (FirewallSettings.Enabled f))
    (Some (FirewallSettings.TransparentPort f)) (Some (FirewallSettings.Mode f))
    (Some (FirewallSettings.DisableIPv6 f))
    (json_strings "firewall.hosts" (FirewallSettings.Hosts f))
    (Some (raw_of_selectors "firewall.targets" (FirewallSettings.Targets f)))
    (Some (raw_of_split (FirewallSettings.Split f)))
    (json_catalog (FirewallSettings.TargetServiceCatalog f))
    (Some (raw_of_drafts (FirewallSettings.ModeDrafts f)))
    (Some (FirewallSettings.BlockQUIC f)) None None None None None.

Definition raw_of_dns (d : DNSSettings) : RawDNSSettings.RawDNSSettings :=
  RawDNSSettings.mk (Some (DNSSettings.Mode d)) (Some (DNSSettings.Transport d))
    (json_strings "dns.servers" (DNSSettings.Servers d))
    (json_strings "dns.bootstrap" (DNSSettings.Bootstrap d))
    (json_strings "dns.direct_domains" (DNSSettings.DirectDomains d)).

Definition raw_of_zapret (z : ZapretSettings) : RawZapretSettings.RawZapretSettings :=
  RawZapretSettings.mk (Some (ZapretSettings.Enabled z))
    (Some (raw_of_selectors "zapret.selectors" (ZapretSettings.Selectors z)))
    (Some (ZapretSettings.FailbackSuccessThreshold z)).

Definition raw_of_country (c : CountryRouting) : RawCountryRouting.RawCountryRouting :=
  RawCountryRouting.mk (Some (CountryRouting.Enabled c)) (omit_empty (CountryRouting.CountryCode c)).

Definition raw_of_settings (s : Settings) : RawSettings.RawSettings :=
  RawSettings.mk (Some (Settings.SchemaVersion s)) (Some (Settings.RefreshInterval s))
    (Some (Settings.HealthCheckInterval s)) (Some (Settings.URLTestURL s))
    (Some (Settings.URLTestFallbackURL s)) (Some (Settings.URLTestTimeout s))
    (Some (Settings.SwitchCooldown s)) (Some (Settings.LatencyThreshold s))
    (Some (Settings.AutoProfile s)) (Some (Settings.CustomAutoPolicy s))
    (json_strings "auto_excluded_nodes" (Settings.AutoExcludedNodes s))
    (json_strings "auto_hide_keywords" (Settings.AutoHideKeywords s))
    (Some (raw_of_dns (Settings.DNS s))) (Some (raw_of_firewall (Settings.Firewall s)))
    (Some (raw_of_zapret (Settings.Zapret s))) (Some (Settings.AutoMode s))
    (Some (Settings.Mode s)) (Some (Settings.LogLevel s)) (Some (Settings.StrictEgressCheck s))
    (Some (raw_of_country (Settings.CountryRouting s))) None.

Definition SaveSettings (s : Settings) : RawSettings.RawSettings :=
  raw_of_settings (s <| Settings.SchemaVersion := Settings.SchemaVersion DefaultSettings |>).

(** [None] is a missing file. *)
Definition LoadSettings (file : option RawSettings.RawSettings) : result StoreError Settings :=
  match file with
  | None => Ok DefaultSettings
  | Some raw => decode_settings_raw raw
  end.

(** ** State *)

Definition raw_of_operation (o : RuntimeOperation) : RawRuntimeOperation.RawRuntimeOperation :=
  RawRuntimeOperation.mk (Some (RuntimeOperation.Kind o)) (omit_empty (RuntimeOperation.From o))
    (omit_empty (RuntimeOperation.To o)) (Some (RuntimeOperation.StartedAt o)).

Definition raw_of_restore (r : ZapretTestRestoreState)
    : RawZapretTestRestoreState.RawZapretTestRestoreState :=
  RawZapretTestRestoreState.mk (omit_empty (ZapretTestRestoreState.ActiveSubscriptionID r))
    (omit_empty (ZapretTestRestoreState.ActiveNodeID r)) (omit_empty (ZapretTestRestoreState.Mode r))
    (Some (ZapretTestRestoreState.Connected r))
    (omit_empty (ZapretTestRestoreState.ActiveTransport r)).

(** A structure is never empty for [omitempty]. *)
Definition raw_of_zapret_test (t : ZapretTestState) : RawZapretTestState.RawZapretTestState :=
  RawZapretTestState.mk (Some (ZapretTestState.Active t))
    (Some (raw_of_restore (ZapretTestState.Restore t))).

Definition omit_empty_list {A} (l : list A) : option (list A) :=
  match l with [] => None | _ => Some l end.

Definition omit_empty_map {A} (m : gmap string A) : option (gmap string A) :=
  if bool_decide (size m = 0%nat) then None else Some m.

(** [last_refresh_at] and [health] have no [omitempty]: a nil map is [null]. *)
Definition json_map {A} (path : string) (m : gmap string A) : option (gmap string A) :=
  if bool_decide (size m = 0%nat) then if is_nil path then None else Some ∅ else Some m.

(** [resume_connection], [optimization_candidate_id] and
    [optimization_candidate_wins] are written too, under names that the
    decoder does not read. *)
Definition raw_of_state (s : RuntimeState) : RawState.RawState :=
  RawState.mk (Some (RuntimeState.SchemaVersion s)) (Some (RuntimeState.OperationalMode s))
    (omit_empty (RuntimeState.SelectedOutboundTag s))
    (Some (RuntimeState.RuntimeConfigGeneration s))
    (omit_empty (RuntimeState.RuntimeConfigVersion s))
    (raw_of_operation <$> RuntimeState.CurrentOperation s)
    (omit_empty_list (RuntimeState.RuntimeOutbounds s))
    (omit_empty_map (RuntimeState.CandidateBackoff s)) (omit_empty (RuntimeState.AutoScope s))
    (Some (RuntimeState.ActiveSubscriptionID s)) (Some (RuntimeState.ActiveNodeID s))
    (omit_empty (RuntimeState.ActiveNodeName s)) (Some (RuntimeState.Mode s))
    (Some (RuntimeState.Connected s)) (Some (RuntimeState.ActiveTransport s))
    (json_map "last_refresh_at" (RuntimeState.LastRefreshAt s))
    (json_map "health" (RuntimeState.Health s)) (Some (RuntimeState.LastSwitchAt s))
    (omit_empty (RuntimeState.LastSwitchReason s)) (Some (RuntimeState.LastTransportSwitchAt s))
    (Some (RuntimeState.LastSuccessAt s)) (Some (RuntimeState.LastFailureReason s))
    (Some (RuntimeState.LastTransportFailureReason s))
    (Some (raw_of_zapret_test (RuntimeState.ZapretTest s)))
    (omit_empty (RuntimeState.ActiveConnectionKind s)) (omit_empty (RuntimeState.AWGProfileName s))
    (RuntimeState.AWGLastProbe s) (omit_empty (RuntimeState.ActiveAWGProfileID s))
    (omit_empty (RuntimeState.PreparedAWGProfileID s))
    (omit_empty_map (RuntimeState.AWGProfileProbes s)).

Definition SaveState (s : RuntimeState) : RawState.RawState :=
  raw_of_state (s <| RuntimeState.SchemaVersion := RuntimeState.SchemaVersion DefaultRuntimeState |>).

Definition LoadState (file : option RawState.RawState) : result StoreError RuntimeState :=
  match file with
  | None => Ok DefaultRuntimeState
  | Some raw => decode_state_raw raw
  end.

End Save.

Arguments omit_empty : simpl never.
Arguments json_strings : simpl never.
Arguments json_catalog : simpl never.
Arguments omit_empty_list : simpl never.
Arguments omit_empty_map : simpl never.
Arguments json_map : simpl never.
