(* ===== verification/PersistFacts.v ===== *)
(** * What survives a save and a load

    Round trips of settings and state, the invariant of loaded settings, and
    what is lost on the way. *)
From S2P Require Import Prelude GoStrings GoNum Domain Firewall FirewallFacts FirewallGraph.
From S2P Require Import FirewallSettings Zapret Settings Connection Migrations.

Local Open Scope Z_scope.
Local Open Scope list_scope.

Lemma or_keep_omit s : or_keep (omit_empty s) "" = s.
Proof. unfold omit_empty, or_keep. by case_bool_decide. Qed.

Section Facts.
  Context (is_nil : string -> bool).

Lemma or_keep_strings path l : or_keep (json_strings is_nil path l) [] = l.
Proof. unfold json_strings, or_keep. destruct l; [by destruct (is_nil path)|done]. Qed.

Lemma or_keep_catalog c : or_keep (CloneFirewallTargetCatalog <$> json_catalog is_nil c) ∅ = c.
Proof.
  unfold json_catalog. case_bool_decide as E.
  - subst. by destruct (is_nil _).
  - cbn. apply CloneFirewallTargetCatalog_id.
Qed.

Lemma or_keep_omit_map {A} (m : gmap string A) : or_keep (omit_empty_map m) ∅ = m.
Proof.
  unfold omit_empty_map. case_bool_decide as E; [|done]. symmetry. by apply map_size_empty_inv.
Qed.

Lemma or_keep_json_map {A} path (m : gmap string A) : or_keep (json_map is_nil path m) ∅ = m.
Proof.
  unfold json_map. case_bool_decide as E; [|done]. apply map_size_empty_inv in E as ->.
  by destruct (is_nil path).
Qed.

(** ** Settings, part by part *)

Lemma decode_selectors_saved path s :
  decodeSelectorSet (Some (raw_of_selectors is_nil path s)) FirewallSelectorSet.zero = s.
Proof. unfold decodeSelectorSet; cbn. rewrite !or_keep_strings. by destruct s. Qed.

Lemma decode_draft_saved path d :
  decode_draft (Some (raw_of_draft is_nil path d)) FirewallModeDraft.zero = d.
Proof. unfold decode_draft; cbn. rewrite !or_keep_strings. by destruct d. Qed.

Lemma decode_drafts_saved d :
  decode_drafts (Some (raw_of_drafts is_nil d)) FirewallModeDrafts.zero = d.
Proof.
  unfold decode_drafts, decode_split_draft; cbn -[decode_draft decodeSelectorSet json_strings].
  rewrite !decode_draft_saved, !decode_selectors_saved, or_keep_strings.
  by destruct d as [? ? [? ? ?]].
Qed.

(** The firewall part of the defaults that a file is decoded onto. *)
Definition DefaultFirewall : FirewallSettings := Settings.Firewall DefaultSettings.

Definition reload_split (s : FirewallSplitSettings) : FirewallSplitSettings :=
  FirewallSplitSettings.mk (FirewallSplitSettings.Proxy s) (FirewallSplitSettings.Bypass s)
    (FirewallSplitSettings.ExcludedSources s)
    (NormalizeFirewallDefaultAction (FirewallSplitSettings.DefaultAction s)).

Definition reload_firewall (f : FirewallSettings) : FirewallSettings :=
  f <| FirewallSettings.Mode ::= NormalizeFirewallMode |>
    <| FirewallSettings.Split ::= reload_split |>.

Lemma decode_split_saved s :
  decode_split (Some (raw_of_split is_nil s)) (FirewallSettings.Split DefaultFirewall) = reload_split s.
Proof.
  unfold decode_split, reload_split; cbn -[decodeSelectorSet json_strings].
  by rewrite !decode_selectors_saved, or_keep_strings.
Qed.

Lemma decode_firewall_saved f :
  decode_firewall 12 (Some (raw_of_firewall is_nil f)) DefaultFirewall = reload_firewall f.
Proof.
  unfold decode_firewall, reload_firewall, upd. cbv zeta. record_eq FirewallSettings.eta.
  cbn -[decodeSelectorSet json_strings decode_split decode_drafts json_catalog raw_of_drafts
      raw_of_split raw_of_selectors CloneFirewallTargetCatalog].
  change (FirewallSplitSettings.mk FirewallSelectorSet.zero FirewallSelectorSet.zero []
          FirewallDefaultActionProxy) with (FirewallSettings.Split DefaultFirewall).
  by rewrite decode_split_saved, decode_drafts_saved, decode_selectors_saved, or_keep_strings,
    or_keep_catalog.
Qed.

Definition reload_zapret (z : ZapretSettings) : ZapretSettings :=
  CanonicalZapretSettings (z <| ZapretSettings.Selectors ::= set_cidrs (fun _ => []) |>).

Lemma decode_zapret_saved z :
  decode_zapret (Some (raw_of_zapret is_nil z)) DefaultZapretSettings = reload_zapret z.
Proof.
  unfold decode_zapret, reload_zapret. cbn [field RawZapretSettings.Selectors raw_of_zapret]. f_equal.
  unfold upd. record_eq ZapretSettings.eta. cbn -[decodeSelectorSet raw_of_selectors].
  by rewrite decode_selectors_saved.
Qed.

Lemma decode_country_saved raw c :
  RawSettings.CountryRouting raw = Some (raw_of_country c) ->
  decode_country raw CountryRouting.zero = c.
Proof.
  intros H. unfold decode_country. rewrite H; cbn. rewrite or_keep_omit. by destruct c.
Qed.

(** An emptied list of DNS servers or direct domains that is nil in memory is
    read back as the default list. *)
Definition reload_dns (d : DNSSettings) : DNSSettings :=
  DNSSettings.mk (DNSSettings.Mode d) (DNSSettings.Transport d)
    (or_keep (json_strings is_nil "dns.servers" (DNSSettings.Servers d))
       (DNSSettings.Servers DefaultDNSSettings))
    (DNSSettings.Bootstrap d)
    (or_keep (json_strings is_nil "dns.direct_domains" (DNSSettings.DirectDomains d))
       (DNSSettings.DirectDomains DefaultDNSSettings)).

Lemma decode_dns_saved d :
  decode_dns (Some (raw_of_dns is_nil d)) DefaultDNSSettings = reload_dns d.
Proof.
  unfold decode_dns, reload_dns; cbn -[json_strings]. by rewrite or_keep_strings.
Qed.

Definition reload_settings (country : CountryRouting) (s : Settings) : Settings :=
  s <| Settings.AutoExcludedNodes ::= NormalizeAutoExcludedNodes |>
    <| Settings.AutoHideKeywords ::= NormalizeAutoHideKeywords |>
    <| Settings.DNS ::= reload_dns |> <| Settings.Firewall ::= reload_firewall |>
    <| Settings.Zapret ::= reload_zapret |> <| Settings.CountryRouting := country |>
    <| Settings.SchemaVersion := Settings.SchemaVersion DefaultSettings |>.

(** The part of the settings that is copied before DNS, firewall and fallback
    are decoded. *)
Lemma decode_base_saved s :
  let raw := SaveSettings is_nil s in
  decode_misc raw (decode_profile raw (decode_timings raw DefaultSettings)) =
  s <| Settings.SchemaVersion := 12 |> <| Settings.DNS := DefaultDNSSettings |>
    <| Settings.Firewall := DefaultFirewall |> <| Settings.Zapret := DefaultZapretSettings |>.
Proof.
  intros raw. unfold decode_misc, decode_profile, decode_timings, upd. record_eq Settings.eta.
  cbn -[decode_country]. rewrite !or_keep_strings.
  by rewrite (decode_country_saved raw (Settings.CountryRouting s)).
Qed.

Lemma LoadSettings_saved s :
  LoadSettings (Some (SaveSettings is_nil s)) =
    match CanonicalCountryRouting (Settings.CountryRouting s) with
    | Err e => Err (ErrCountryRouting e)
    | Ok country => Ok (reload_settings country s)
    end.
Proof.
  cbn [LoadSettings]. unfold decode_settings_raw. cbv zeta.
  change (or_keep (RawSettings.SchemaVersion (SaveSettings is_nil s)) 0) with 12.
  change (Settings.SchemaVersion DefaultSettings <? 12) with false. cbv iota.
  unfold decode_fields. rewrite decode_base_saved. unfold decode_auto_mode.
  rewrite bool_decide_eq_false_2 with (P := RawSettings.Mode _ = None) by done.
  rewrite andb_false_r. unfold finish_settings. cbv zeta.
  match goal with |- match CanonicalCountryRouting ?c with _ => _ end = _ =>
    change c with (Settings.CountryRouting s) end.
  destruct (CanonicalCountryRouting _) as [country|e]; [|done]. f_equal.
  unfold reload_settings, upd. record_eq Settings.eta.
  cbn -[decode_dns decode_firewall decode_zapret raw_of_dns raw_of_firewall raw_of_zapret
    NormalizeAutoExcludedNodes NormalizeAutoHideKeywords DefaultDNSSettings reload_dns reload_firewall
    reload_zapret].
  by rewrite decode_dns_saved, decode_zapret_saved, decode_firewall_saved.
Qed.

(** ** State *)

Definition reload_restore (r : ZapretTestRestoreState) : ZapretTestRestoreState :=
  ZapretTestRestoreState.mk (ZapretTestRestoreState.ActiveSubscriptionID r)
    (ZapretTestRestoreState.ActiveNodeID r) (ZapretTestRestoreState.Mode r)
    (ZapretTestRestoreState.Connected r)
    (if bool_decide (ZapretTestRestoreState.ActiveTransport r = "") then ""
     else NormalizeTransportMode (ZapretTestRestoreState.ActiveTransport r)).

(** What a saved state becomes: normal modes, and three fields forgotten. *)
Definition reload_state (s : RuntimeState) : RuntimeState :=
  s <| RuntimeState.SchemaVersion := RuntimeState.SchemaVersion DefaultRuntimeState |>
    <| RuntimeState.ActiveTransport ::= NormalizeTransportMode |>
    <| RuntimeState.OperationalMode ::= NormalizeOperationalMode |>
    <| RuntimeState.ZapretTest ::=
         fun t => ZapretTestState.mk (ZapretTestState.Active t) (reload_restore (ZapretTestState.Restore t)) |>
    <| RuntimeState.ResumeConnection := None |>
    <| RuntimeState.OptimizationCandidateID := "" |>
    <| RuntimeState.OptimizationCandidateWins := 0 |>.

Lemma NormalizeTransportMode_idemp m :
  NormalizeTransportMode (NormalizeTransportMode m) = NormalizeTransportMode m.
Proof.
  unfold NormalizeTransportMode at 2 3.
  destruct (bool_decide (m = TransportModeProxy) || bool_decide (m = TransportModeZapret)) eqn:E; [|done].
  unfold NormalizeTransportMode. by rewrite E.
Qed.

Lemma decode_zapret_test_saved t :
  decode_zapret_test (Some (raw_of_zapret_test t)) ZapretTestState.zero =
  ZapretTestState.mk (ZapretTestState.Active t) (reload_restore (ZapretTestState.Restore t)).
Proof.
  unfold decode_zapret_test, decode_restore, reload_restore. cbn -[NormalizeTransportMode].
  rewrite !or_keep_omit. do 2 f_equal. unfold omit_empty. by case_bool_decide.
Qed.

Lemma decode_operation_saved o :
  or_keep (Some ∘ decode_operation <$> (raw_of_operation <$> o)) None = o.
Proof.
  destruct o as [[k f t a]|]; [|done]. cbn. unfold decode_operation; cbn. by rewrite !or_keep_omit.
Qed.

Lemma or_keep_omit_list {A} (l : list A) : or_keep (omit_empty_list l) [] = l.
Proof. by destruct l. Qed.

Lemma or_keep_probe (p : option AWGProbeState) : or_keep (Some <$> p) None = p.
Proof. by destruct p. Qed.

(** The saved state is decoded field by field. *)
Lemma decode_state_fields_saved s :
  decode_state_fields (SaveState is_nil s) DefaultRuntimeState =
  reload_state s <| RuntimeState.OperationalMode := OperationalModeDirect |>.
Proof.
  unfold decode_state_fields, reload_state, upd. record_eq RuntimeState.eta.
  cbn -[NormalizeTransportMode decode_zapret_test raw_of_zapret_test raw_of_operation decode_operation].
  rewrite !or_keep_omit, decode_zapret_test_saved, decode_operation_saved, !or_keep_omit_map,
    !or_keep_json_map, or_keep_probe, or_keep_omit_list.
  done.
Qed.

Lemma load_saved_state s :
  LoadState (Some (SaveState is_nil s)) = Ok (reload_state s).
Proof.
  cbn [LoadState]. unfold decode_state_raw. rewrite decode_state_fields_saved.
  change (or_keep (RawState.SchemaVersion (SaveState is_nil s)) 0) with 5.
  change (RuntimeState.SchemaVersion DefaultRuntimeState <? 5) with false. cbv iota zeta.
  change (RawState.ActiveTransport (SaveState is_nil s)) with (Some (RuntimeState.ActiveTransport s)).
  change (RawState.OperationalMode (SaveState is_nil s)) with (Some (RuntimeState.OperationalMode s)).
  cbv iota. f_equal. unfold reload_state, upd. record_eq RuntimeState.eta.
  cbn -[NormalizeTransportMode NormalizeOperationalMode reload_restore].
  by rewrite NormalizeTransportMode_idemp.
Qed.

(** C34: saving and loading a state succeeds and gives back every field with the
    two modes in normal form, except the connection to resume and the
    optimisation candidate with its wins, which are forgotten. *)
Theorem LoadState_SaveState s :
  LoadState (Some (SaveState is_nil s)) = Ok (reload_state s).
Proof. apply load_saved_state. Qed.

End Facts.

(** ** Loaded settings *)

(** The form of every loaded value: the schema is current, the firewall modes
    are known, the fallback is canonical without addresses, the exclusions,
    the keywords and the country are in normal form. *)
Definition settled (s : Settings) : Prop :=
  Settings.SchemaVersion s = 12 /\
  reload_firewall (Settings.Firewall s) = Settings.Firewall s /\
  reload_zapret (Settings.Zapret s) = Settings.Zapret s /\
  NormalizeAutoExcludedNodes (Settings.AutoExcludedNodes s) = Settings.AutoExcludedNodes s /\
  NormalizeAutoHideKeywords (Settings.AutoHideKeywords s) = Settings.AutoHideKeywords s /\
  CanonicalCountryRouting (Settings.CountryRouting s) = Ok (Settings.CountryRouting s).

Lemma NormalizeFirewallMode_idemp m :
  NormalizeFirewallMode (NormalizeFirewallMode m) = NormalizeFirewallMode m.
Proof.
  unfold NormalizeFirewallMode at 2 3.
  destruct (bool_decide (m = FirewallModeHosts) || bool_decide (m = FirewallModeTargets)
    || bool_decide (m = FirewallModeSplit)) eqn:E; [|done].
  unfold NormalizeFirewallMode. by rewrite E.
Qed.

(** Known modes and default actions. *)
Definition known_firewall (f : FirewallSettings) : Prop :=
  NormalizeFirewallMode (FirewallSettings.Mode f) = FirewallSettings.Mode f /\
  NormalizeFirewallDefaultAction (FirewallSplitSettings.DefaultAction (FirewallSettings.Split f)) =
    FirewallSplitSettings.DefaultAction (FirewallSettings.Split f).

Lemma known_firewall_reload f : known_firewall f -> reload_firewall f = f.
Proof.
  intros [Hm Ha]. destruct f as [? ? ? ? ? ? [] ? ? ?]. unfold reload_firewall, upd.
  record_eq FirewallSettings.eta. cbn in *. unfold reload_split; cbn. by rewrite Hm, Ha.
Qed.

Lemma decode_split_known raw d :
  NormalizeFirewallDefaultAction (FirewallSplitSettings.DefaultAction d) =
    FirewallSplitSettings.DefaultAction d ->
  let a := FirewallSplitSettings.DefaultAction (decode_split raw d) in
  NormalizeFirewallDefaultAction a = a.
Proof.
  intros H. cbn. destruct (field raw _) as [a|]; cbn; [|exact H].
  apply NormalizeFirewallDefaultAction_idemp.
Qed.

Lemma decode_legacy_mode_known raw f : known_firewall f -> known_firewall (decode_legacy_mode raw f).
Proof.
  intros [Hm Ha]. unfold decode_legacy_mode. cbv zeta.
  repeat case_match; split; solve [reflexivity | exact Ha].
Qed.

Lemma decode_firewall_known v raw f : known_firewall f -> known_firewall (decode_firewall v raw f).
Proof.
  intros [Hm Ha]. destruct raw as [raw|]; [|done]. unfold decode_firewall. cbv zeta.
  match goal with |- context [match RawFirewallSettings.Mode raw with Some _ => ?f1 | None => _ end] =>
    set (fw := f1) end.
  assert (Hfw : known_firewall fw).
  { split; [|by apply decode_split_known].
    change (FirewallSettings.Mode fw) with
      (or_keep (NormalizeFirewallMode <$> RawFirewallSettings.Mode raw) (FirewallSettings.Mode f)).
    destruct (RawFirewallSettings.Mode raw); [apply NormalizeFirewallMode_idemp|exact Hm]. }
  clearbody fw.
  assert (Hl : known_firewall
    (match RawFirewallSettings.Mode raw with Some _ => fw | None => decode_legacy_mode raw fw end))
    by (destruct (RawFirewallSettings.Mode raw); [done|by apply decode_legacy_mode_known]).
  destruct (RawFirewallSettings.BlockQUIC raw); [|exact Hl].
  destruct (7 <=? v); [|exact Hl]. destruct Hl. by split.
Qed.

(** A canonical fallback without addresses. *)
Definition known_zapret (z : ZapretSettings) : Prop :=
  CanonicalZapretSettings z = z /\ FirewallSelectorSet.CIDRs (ZapretSettings.Selectors z) = [].

Lemma known_zapret_reload z : known_zapret z -> reload_zapret z = z.
Proof.
  intros [Hc Hn]. unfold reload_zapret. rewrite <- Hc at 2. f_equal.
  destruct z as [e [a b c] t]. cbn in Hn. subst. reflexivity.
Qed.

Lemma NormalizeZapretSettings_fields z :
  NormalizeZapretSettings z =
  ZapretSettings.mk (ZapretSettings.Enabled z) (CloneFirewallSelectorSet (ZapretSettings.Selectors z))
    (if ZapretSettings.FailbackSuccessThreshold z <? 1 then 3
     else ZapretSettings.FailbackSuccessThreshold z).
Proof.
  unfold NormalizeZapretSettings. cbv zeta.
  change (ZapretSettings.FailbackSuccessThreshold (z <| ZapretSettings.Selectors ::= _ |>)) with
    (ZapretSettings.FailbackSuccessThreshold z).
  by destruct (ZapretSettings.FailbackSuccessThreshold z <? 1).
Qed.

Lemma NormalizeZapretSettings_idemp z :
  NormalizeZapretSettings (NormalizeZapretSettings z) = NormalizeZapretSettings z.
Proof.
  rewrite !NormalizeZapretSettings_fields. cbn [ZapretSettings.Enabled ZapretSettings.Selectors
    ZapretSettings.FailbackSuccessThreshold]. rewrite CloneFirewallSelectorSet_idemp. f_equal.
  destruct (ZapretSettings.FailbackSuccessThreshold z <? 1) eqn:E; [done|by rewrite E].
Qed.

Lemma NormalizeZapretSettings_cidrs z :
  FirewallSelectorSet.CIDRs (ZapretSettings.Selectors (NormalizeZapretSettings z)) =
  FirewallSelectorSet.CIDRs (ZapretSettings.Selectors z).
Proof. unfold NormalizeZapretSettings. by case_match. Qed.

Lemma decode_zapret_known raw z : known_zapret z -> known_zapret (decode_zapret raw z).
Proof.
  intros [Hc Hn]. destruct raw as [raw|]; [|done]. unfold decode_zapret. cbv zeta.
  split; [apply NormalizeZapretSettings_idemp|].
  unfold CanonicalZapretSettings. rewrite NormalizeZapretSettings_cidrs.
  destruct (RawZapretSettings.Selectors raw); [done|exact Hn].
Qed.

Lemma DefaultSettings_settled : settled DefaultSettings.
Proof. repeat split. Qed.

Lemma finish_settings_settled s s' :
  known_firewall (Settings.Firewall s) -> known_zapret (Settings.Zapret s) ->
  finish_settings s = Ok s' -> settled s'.
Proof.
  intros Hf Hz. unfold finish_settings. cbv zeta.
  change (Settings.CountryRouting (_ <| Settings.AutoHideKeywords ::= _ |>))
    with (Settings.CountryRouting s).
  destruct (CanonicalCountryRouting _) as [country|] eqn:Ec; [|done]. intros [= <-].
  apply CanonicalCountryRouting_fixed in Ec as [_ Ec].
  apply known_firewall_reload in Hf. apply known_zapret_reload in Hz.
  split; [reflexivity|]. split; [exact Hf|]. split; [exact Hz|].
  split; [apply NormalizeAutoExcludedNodes_idemp|]. split; [apply NormalizeAutoHideKeywords_idemp|].
  exact Ec.
Qed.

Lemma settings_base raw :
  let base := decode_misc raw (decode_profile raw (decode_timings raw DefaultSettings)) in
  Settings.Firewall base = DefaultFirewall /\ Settings.Zapret base = DefaultZapretSettings.
Proof. unfold decode_profile. by destruct (RawSettings.AutoProfile raw). Qed.

Lemma decode_auto_mode_parts raw s :
  Settings.Firewall (decode_auto_mode raw s) = Settings.Firewall s /\
  Settings.Zapret (decode_auto_mode raw s) = Settings.Zapret s.
Proof. unfold decode_auto_mode. by destruct (_ && _). Qed.

Lemma settings_parts base d f z :
  let s := base <| Settings.DNS ::= d |> <| Settings.Firewall ::= f |> <| Settings.Zapret ::= z |> in
  Settings.Firewall s = f (Settings.Firewall base) /\ Settings.Zapret s = z (Settings.Zapret base).
Proof. done. Qed.

Lemma decode_fields_parts v raw :
  let s := decode_fields v raw DefaultSettings in
  Settings.Firewall s = decode_firewall v (RawSettings.Firewall raw) DefaultFirewall /\
  Settings.Zapret s = decode_zapret (RawSettings.Zapret raw) DefaultZapretSettings.
Proof.
  unfold decode_fields. destruct (settings_base raw) as [<- <-].
  generalize (decode_misc raw (decode_profile raw (decode_timings raw DefaultSettings))) as base.
  intros base. cbv zeta. rewrite (proj1 (decode_auto_mode_parts raw _)).
  rewrite (proj2 (decode_auto_mode_parts raw _)). apply settings_parts.
Qed.

Lemma loaded_settled file s : LoadSettings file = Ok s -> settled s.
Proof.
  destruct file as [raw|]; [|intros [= <-]; apply DefaultSettings_settled].
  cbn [LoadSettings]. unfold decode_settings_raw. cbv zeta. destruct (_ <? _); [done|].
  apply finish_settings_settled;
    [rewrite (proj1 (decode_fields_parts _ raw)); apply decode_firewall_known
    |rewrite (proj2 (decode_fields_parts _ raw)); apply decode_zapret_known]; by split.
Qed.

(** Whatever a settings file holds, loaded settings are in normal form:
    current schema, known firewall modes, canonical fallback, normal
    exclusions, keywords and country. *)
Theorem LoadSettings_settled file s : LoadSettings file = Ok s -> settled s.
Proof. apply loaded_settled. Qed.

Lemma LoadSettings_settled_witness :
  let raw := SaveSettings (fun _ => true) (DefaultSettings <| Settings.AutoExcludedNodes := ["/"; "b/n"] |>) in
  LoadSettings (Some raw) = Ok (DefaultSettings <| Settings.AutoExcludedNodes := ["b/n"] |>) /\
  settled (DefaultSettings <| Settings.AutoExcludedNodes := ["b/n"] |>).
Proof.
  intros raw.
  assert (H : LoadSettings (Some raw) = Ok (DefaultSettings <| Settings.AutoExcludedNodes := ["b/n"] |>))
    by (unfold raw; vm_compute; reflexivity).
  split; [exact H|]. exact (LoadSettings_settled _ _ H).
Defined.

(** A list of DNS names that survives a save: not empty, or written as [[]]. *)
Definition dns_list_kept (is_nil : string -> bool) (path : string) (l : list string) : Prop :=
  l <> [] \/ is_nil path = false.

Lemma dns_list_reload is_nil path l d :
  dns_list_kept is_nil path l -> or_keep (json_strings is_nil path l) d = l.
Proof.
  unfold dns_list_kept, json_strings. destruct l; [|done]. intros [H|H]; [done|by rewrite H].
Qed.

Lemma settled_reload is_nil s :
  settled s ->
  dns_list_kept is_nil "dns.servers" (DNSSettings.Servers (Settings.DNS s)) ->
  dns_list_kept is_nil "dns.direct_domains" (DNSSettings.DirectDomains (Settings.DNS s)) ->
  reload_settings is_nil (Settings.CountryRouting s) s = s.
Proof.
  intros (Hv & Hf & Hz & He & Hk & _) Hs Hd. unfold reload_settings, upd.
  record_eq Settings.eta. cbn -[reload_dns reload_firewall reload_zapret NormalizeAutoExcludedNodes
    NormalizeAutoHideKeywords]. rewrite Hf, Hz, He, Hk, Hv. do 2 f_equal.
  unfold reload_dns. rewrite !dns_list_reload by done. by destruct (Settings.DNS s).
Qed.

(** Loaded settings are stable: saving them and loading again gives the
    same value, as long as the DNS lists are not nil slices. *)
Theorem LoadSettings_SaveSettings file is_nil s :
  LoadSettings file = Ok s ->
  dns_list_kept is_nil "dns.servers" (DNSSettings.Servers (Settings.DNS s)) ->
  dns_list_kept is_nil "dns.direct_domains" (DNSSettings.DirectDomains (Settings.DNS s)) ->
  LoadSettings (Some (SaveSettings is_nil s)) = Ok s.
Proof.
  intros Hst%loaded_settled Hs Hd.
  rewrite LoadSettings_saved. pose proof Hst as (_ & _ & _ & _ & _ & ->).
  by rewrite settled_reload.
Qed.

Lemma LoadSettings_SaveSettings_witness :
  let s := DefaultSettings <| Settings.AutoHideKeywords := ["trial"] |> in
  LoadSettings (Some (SaveSettings (fun _ => true) s)) = Ok s.
Proof.
  intros s.
  assert (H : LoadSettings (Some (SaveSettings (fun _ => false) s)) = Ok s) by (vm_compute; reflexivity).
  apply (LoadSettings_SaveSettings _ _ _ H); left; discriminate.
Defined.

(** An emptied DNS list does not stay empty.  Written as [[]] it is loaded
    empty, but as a nil slice; the next save of any other setting writes
    [null], and the load after it brings the default list back. *)
Theorem emptied_dns_lists_return s :
  settled s ->
  let empty := s <| Settings.DNS ::= fun d => DNSSettings.mk (DNSSettings.Mode d)
                      (DNSSettings.Transport d) [] (DNSSettings.Bootstrap d) [] |> in
  LoadSettings (Some (SaveSettings (fun _ => false) empty)) = Ok empty /\
  LoadSettings (Some (SaveSettings (fun _ => true) empty)) =
    Ok (empty <| Settings.DNS ::= fun d => DNSSettings.mk (DNSSettings.Mode d)
          (DNSSettings.Transport d) (DNSSettings.Servers DefaultDNSSettings) (DNSSettings.Bootstrap d)
          (DNSSettings.DirectDomains DefaultDNSSettings) |>).
Proof.
  intros Hst empty. assert (He : settled empty) by exact Hst.
  rewrite !LoadSettings_saved. pose proof He as (Hv & Hf & Hz & Hx & Hk & Hc). rewrite Hc.
  split; [by rewrite settled_reload by (done || by right)|]. f_equal.
  unfold reload_settings, upd. record_eq Settings.eta.
  cbn -[reload_firewall reload_zapret NormalizeAutoExcludedNodes NormalizeAutoHideKeywords empty].
  rewrite Hf, Hz, Hx, Hk, Hv. reflexivity.
Qed.

Lemma emptied_dns_lists_return_witness :
  settled DefaultSettings /\
  let empty := DefaultSettings <| Settings.DNS := DNSSettings.mk DNSModeSplit DNSTransportDoH [] [] [] |> in
  LoadSettings (Some (SaveSettings (fun _ => false) empty)) = Ok empty /\
  LoadSettings (Some (SaveSettings (fun _ => true) empty)) = Ok DefaultSettings.
Proof. split; [apply DefaultSettings_settled|]. exact (emptied_dns_lists_return _ DefaultSettings_settled). Defined.

Lemma loaded_state_modes raw s :
  LoadState raw = Ok s ->
  RuntimeState.ResumeConnection s = None /\ RuntimeState.OptimizationCandidateID s = "" /\
  RuntimeState.OptimizationCandidateWins s = 0.
Proof.
  destruct raw as [raw|]; [|by intros [= <-]]. cbn [LoadState]. unfold decode_state_raw. cbv zeta.
  destruct (_ <? _); [done|]. intros [= <-].
  by destruct (RawState.ActiveTransport raw).
Qed.
