(* ===== verification/AutoState.v ===== *)
(** * The health cache of automatic mode

    [app/auto_state.go] and [mergeProbeHealth] of [app/auto_prepare.go].  The
    service keeps the health of the last automatic check in memory beside the
    state file, so that most checks need not write the file.  A [Service]
    here is that pair: the file as the last save left it and the cache. *)
From S2P Require Import Prelude GoStrings GoNum Domain Zapret Settings Connection Migrations.
From S2P Require Import PersistFacts.

Local Open Scope Z_scope.
Local Open Scope list_scope.

Definition autoHealthStatePersistInterval : Z := 5 * Minute.
Definition autoScopeAll := "all".

(** The transport in use: a connected selection without a recorded transport
    counts as the proxy. *)
Definition effectiveActiveTransport (state : RuntimeState) : string :=
  let transport := NormalizeTransportMode (RuntimeState.ActiveTransport state) in
  if bool_decide (transport = TransportModeDirect) && RuntimeState.Connected state
     && negb (bool_decide (TrimSpace (RuntimeState.ActiveSubscriptionID state) = ""))
     && negb (bool_decide (TrimSpace (RuntimeState.ActiveNodeID state) = ""))
     && negb (bool_decide (RuntimeState.Mode state = SelectionModeDisconnected))
  then TransportModeProxy else transport.

(** ** Merging observations *)

(** The observation kept for one node, from the one in [merged], if any, and
    the one in [current]. *)
Definition merge_observation (failed : bool) (merged : option NodeHealth) (health : NodeHealth)
    : NodeHealth :=
  let observed := default NodeHealth.zero merged in
  if failed || bool_decide (merged = None)
     || After (NodeHealth.LastCheckedAt health) (NodeHealth.LastCheckedAt observed)
  then
    if bool_decide (NodeHealth.CountryCode health = "")
       && negb (bool_decide (NodeHealth.CountryCode observed = ""))
    then health <| NodeHealth.CountryCode := NodeHealth.CountryCode observed |>
                <| NodeHealth.EgressIP := NodeHealth.EgressIP observed |>
    else health
  else
    if bool_decide (NodeHealth.CountryCode observed = "")
       && negb (bool_decide (NodeHealth.CountryCode health = ""))
    then observed <| NodeHealth.CountryCode := NodeHealth.CountryCode health |>
                  <| NodeHealth.EgressIP := NodeHealth.EgressIP health |>
    else observed.

Definition merge_entry (failedNodeID : string) (merged : gmap string NodeHealth)
    (entry : string * NodeHealth) : gmap string NodeHealth :=
  <[entry.1 := merge_observation (bool_decide (entry.1 = failedNodeID)) (merged !! entry.1) entry.2]> merged.

(** [current] is given as the sequence in which the loop meets its entries. *)
Definition mergeProbeHealth (current : list (string * NodeHealth)) (probed : gmap string NodeHealth)
    (failedNodeID : string) : gmap string NodeHealth :=
  foldl (merge_entry failedNodeID) probed current.

(** ** The cache *)

Module autoHealthStateKey.
Record autoHealthStateKey : Type := mk {
  AutoScope : string;
  ActiveSubscriptionID : string;
  ActiveNodeID : string;
  Mode : string;
  Connected : bool;
  ActiveTransport : string;
  ZapretTestActive : bool;
  LastSwitchAt : Time;
  LastTransportSwitchAt : Time
}.
End autoHealthStateKey.
Abbreviation autoHealthStateKey := autoHealthStateKey.autoHealthStateKey.

#[export] Instance autoHealthStateKey_eq_dec : EqDecision autoHealthStateKey.
Proof. solve_decision. Defined.

Definition autoHealthStateKeyFromState (state : RuntimeState) : autoHealthStateKey :=
  autoHealthStateKey.mk (RuntimeState.AutoScope state) (RuntimeState.ActiveSubscriptionID state)
    (RuntimeState.ActiveNodeID state) (RuntimeState.Mode state) (RuntimeState.Connected state)
    (effectiveActiveTransport state) (ZapretTestState.Active (RuntimeState.ZapretTest state))
    (RuntimeState.LastSwitchAt state) (RuntimeState.LastTransportSwitchAt state).

Definition key_matches (k : autoHealthStateKey) (state : RuntimeState) : bool :=
  bool_decide (k = autoHealthStateKeyFromState state).

Module autoHealthStateCache.
Record autoHealthStateCache : Type := mk {
  key : autoHealthStateKey;
  health : gmap string NodeHealth;
  lastFailureReason : string;
  lastPersistAt : Time
}.
End autoHealthStateCache.
Abbreviation autoHealthStateCache := autoHealthStateCache.autoHealthStateCache.

(** The two parts of the service this file is about. *)
Module Service.
Record Service : Type := mk {
  stateFile : option RawState.RawState;
  autoHealthState : option autoHealthStateCache
}.
End Service.
Abbreviation Service := Service.Service.

Definition mergeAutoHealthState (cache : option autoHealthStateCache) (state : RuntimeState)
    : RuntimeState :=
  match cache with
  | Some c =>
    if key_matches (autoHealthStateCache.key c) state
    then state <| RuntimeState.Health :=
                    mergeProbeHealth (map_to_list (RuntimeState.Health state))
                      (autoHealthStateCache.health c) "" |>
               <| RuntimeState.LastFailureReason := autoHealthStateCache.lastFailureReason c |>
    else state
  | None => state
  end.

Definition loadStateWithAutoHealthCache (s : Service) : result StoreError RuntimeState :=
  let* state := LoadState (Service.stateFile s) in
  Ok (mergeAutoHealthState (Service.autoHealthState s) state).

Definition rememberAutoHealthState (now : Time) (cache : option autoHealthStateCache)
    (state : RuntimeState) (persisted : bool) : option autoHealthStateCache :=
  if negb (bool_decide (RuntimeState.Mode state = SelectionModeAuto))
     || bool_decide (RuntimeState.ActiveSubscriptionID state = "")
     || ZapretTestState.Active (RuntimeState.ZapretTest state)
  then None
  else
    let lastPersistAt :=
      match cache with Some c => autoHealthStateCache.lastPersistAt c | None => zero_time end in
    let lastPersistAt := if persisted then now else lastPersistAt in
    Some (autoHealthStateCache.mk (autoHealthStateKeyFromState state) (RuntimeState.Health state)
            (RuntimeState.LastFailureReason state) lastPersistAt).

(** The mode that [saveState] writes. *)
Definition settle_operational_mode (state : RuntimeState) : RuntimeState :=
  if bool_decide (RuntimeState.OperationalMode state = OperationalModeRecovering) then state
  else state <| RuntimeState.OperationalMode :=
         LegacyOperationalMode (RuntimeState.Connected state) (RuntimeState.ActiveTransport state) |>.

(** A successful [saveState]; a failing write changes neither part. *)
Definition saveState (is_nil : string -> bool) (now : Time) (s : Service) (state : RuntimeState)
    : Service :=
  let state := settle_operational_mode state in
  Service.mk (Some (SaveState is_nil state))
    (rememberAutoHealthState now (Service.autoHealthState s) state true).

Definition shouldPersistAutoHealthState (now : Time) (cache : option autoHealthStateCache)
    (persistedState nextState : RuntimeState) : bool :=
  match cache with
  | None => true
  | Some c =>
    if negb (key_matches (autoHealthStateCache.key c) persistedState) then true
    else if negb (bool_decide (RuntimeState.LastFailureReason persistedState =
                               RuntimeState.LastFailureReason nextState)) then true
    else if IsZero (autoHealthStateCache.lastPersistAt c) then true
    else autoHealthStatePersistInterval <=? Sub now (autoHealthStateCache.lastPersistAt c)
  end.

(** The end of a check that keeps the route: write the file, or only remember
    the result. *)
Definition recordAutoHealth (is_nil : string -> bool) (now : Time) (s : Service)
    (persistedState state : RuntimeState) : Service :=
  if shouldPersistAutoHealthState now (Service.autoHealthState s) persistedState state
  then saveState is_nil now s state
  else Service.mk (Service.stateFile s)
         (rememberAutoHealthState now (Service.autoHealthState s) state false).

(** ** Merging *)

Lemma merge_entry_lookup failed m e id :
  merge_entry failed m e !! id =
  if bool_decide (id = e.1) then Some (merge_observation (bool_decide (id = failed)) (m !! id) e.2)
  else m !! id.
Proof.
  unfold merge_entry. destruct (decide (id = e.1)) as [->|E].
  - by rewrite lookup_insert_eq, (bool_decide_eq_true_2 (e.1 = e.1)).
  - by rewrite lookup_insert_ne, (bool_decide_eq_false_2 (id = e.1)).
Qed.

Lemma mergeProbeHealth_list order probed failed id :
  NoDup order.*1 ->
  mergeProbeHealth order probed failed !! id =
  match (list_to_map order : gmap string NodeHealth) !! id with
  | Some h => Some (merge_observation (bool_decide (id = failed)) (probed !! id) h)
  | None => probed !! id
  end.
Proof.
  unfold mergeProbeHealth. revert probed.
  induction order as [|[k h] order IH]; intros probed Hnd; cbn [foldl]; [done|].
  apply NoDup_cons in Hnd as [Hk Hnd]. rewrite IH by done. rewrite !merge_entry_lookup.
  cbn [fst snd list_to_map foldr uncurry]. destruct (decide (id = k)) as [->|Hne].
  - rewrite (bool_decide_eq_true_2 (k = k)), lookup_insert_eq by done.
    assert (Hnone : (list_to_map order : gmap string NodeHealth) !! k = None)
      by (by apply not_elem_of_list_to_map_1). by rewrite Hnone.
  - rewrite (bool_decide_eq_false_2 (id = k)), lookup_insert_ne by done. done.
Qed.

Lemma mergeProbeHealth_lookup current order probed failed id :
  order ≡ₚ map_to_list current ->
  mergeProbeHealth order probed failed !! id =
  match current !! id with
  | Some h => Some (merge_observation (bool_decide (id = failed)) (probed !! id) h)
  | None => probed !! id
  end.
Proof.
  intros Hp. assert (Hnd : NoDup order.*1) by (rewrite Hp; apply NoDup_fst_map_to_list).
  rewrite mergeProbeHealth_list by done.
  by rewrite (list_to_map_proper order (map_to_list current)), list_to_map_to_list by done.
Qed.

Lemma merge_observation_same b h : merge_observation b (Some h) h = h.
Proof.
  unfold merge_observation. change (default NodeHealth.zero (Some h)) with h. cbv zeta.
  rewrite (bool_decide_eq_false_2 (Some h = None)) by done.
  destruct (bool_decide (NodeHealth.CountryCode h = "")) eqn:E; cbn [negb andb];
    by repeat case_match.
Qed.

Lemma mergeProbeHealth_same h failed : mergeProbeHealth (map_to_list h) h failed = h.
Proof.
  apply map_eq. intros id. rewrite (mergeProbeHealth_lookup h) by done.
  destruct (h !! id) as [o|] eqn:E; [|done]. by rewrite merge_observation_same.
Qed.

(** Two observations that differ at most in the place seen from outside. *)
Definition same_probe (a b : NodeHealth) : Prop :=
  a <| NodeHealth.CountryCode := "" |> <| NodeHealth.EgressIP := "" |> =
  b <| NodeHealth.CountryCode := "" |> <| NodeHealth.EgressIP := "" |>.

Lemma merge_observation_newest h o :
  let m := merge_observation false (Some o) h in
  same_probe m (if After (NodeHealth.LastCheckedAt h) (NodeHealth.LastCheckedAt o) then h else o) /\
  NodeHealth.LastCheckedAt m = Z.max (NodeHealth.LastCheckedAt h) (NodeHealth.LastCheckedAt o) /\
  (NodeHealth.CountryCode m = "" <-> NodeHealth.CountryCode h = "" /\ NodeHealth.CountryCode o = "").
Proof.
  unfold merge_observation, same_probe, After. change (default NodeHealth.zero (Some o)) with o.
  cbv zeta. rewrite (bool_decide_eq_false_2 (Some o = None)) by done. cbn [orb].
  destruct (Z.ltb_spec (NodeHealth.LastCheckedAt o) (NodeHealth.LastCheckedAt h));
    destruct (bool_decide_reflect (NodeHealth.CountryCode h = ""));
    destruct (bool_decide_reflect (NodeHealth.CountryCode o = "")); cbn [negb andb];
    (split; [reflexivity|]); unfold upd; cbn; (split; [lia|]); tauto.
Qed.

(** Merging health keeps every node of both maps, whatever order the loop
    meets them in; a node known to both keeps the newer observation (the
    cached one on a tie), except that a known country is never forgotten, and
    the node named as failed keeps the current observation. *)
Theorem mergeProbeHealth_newest current order probed failed :
  order ≡ₚ map_to_list current ->
  let merged := mergeProbeHealth order probed failed in
  dom merged = dom current ∪ dom probed /\
  (forall id, current !! id = None -> merged !! id = probed !! id) /\
  (forall id h, current !! id = Some h -> probed !! id = None -> merged !! id = Some h) /\
  (forall id h o, current !! id = Some h -> probed !! id = Some o ->
     exists m, merged !! id = Some m /\
       same_probe m (if bool_decide (id = failed) ||
         After (NodeHealth.LastCheckedAt h) (NodeHealth.LastCheckedAt o) then h else o) /\
       (id <> failed ->
          NodeHealth.LastCheckedAt m = Z.max (NodeHealth.LastCheckedAt h) (NodeHealth.LastCheckedAt o)) /\
       (NodeHealth.CountryCode m = "" <->
          NodeHealth.CountryCode h = "" /\ NodeHealth.CountryCode o = "")).
Proof.
  intros Hp merged.
  assert (Hl : forall id, merged !! id = match current !! id with
    | Some h => Some (merge_observation (bool_decide (id = failed)) (probed !! id) h)
    | None => probed !! id end) by (intros; by apply mergeProbeHealth_lookup).
  split.
  { apply set_eq. intros id. rewrite elem_of_union, !elem_of_dom, Hl.
    destruct (current !! id); split; eauto. intros [[? ?]|]; done. }
  split; [intros id E; by rewrite Hl, E|].
  split.
  { intros id h E Ep. rewrite Hl, E, Ep. f_equal. unfold merge_observation; cbn.
    rewrite orb_true_r, andb_false_r. done. }
  intros id h o E Ep. rewrite Hl, E, Ep. eexists. split; [done|].
  destruct (bool_decide (id = failed)) eqn:Ef; cbn [orb].
  - split; [|split; [intros Hne; apply bool_decide_eq_true in Ef; done|]];
      unfold merge_observation, same_probe; change (default NodeHealth.zero (Some o)) with o; cbn [orb];
      destruct (bool_decide_reflect (NodeHealth.CountryCode h = ""));
      destruct (bool_decide_reflect (NodeHealth.CountryCode o = "")); cbn [negb andb];
      try reflexivity;
      unfold upd; cbn; tauto.
  - destruct (merge_observation_newest h o) as (H1 & H2 & H3). split; [exact H1|]. by split.
Qed.

Lemma mergeProbeHealth_newest_witness :
  let h := NodeHealth.zero <| NodeHealth.NodeID := "a" |> <| NodeHealth.LastCheckedAt := 5 |> in
  let o := NodeHealth.zero <| NodeHealth.NodeID := "a" |> <| NodeHealth.LastCheckedAt := 3 |>
             <| NodeHealth.CountryCode := "NL" |> in
  let current : gmap string NodeHealth := {[ "a" := h ]} in
  exists m, mergeProbeHealth (map_to_list current) {[ "a" := o ]} "" !! "a" = Some m /\
    NodeHealth.LastCheckedAt m = 5 /\ NodeHealth.CountryCode m <> "".
Proof.
  intros h o current.
  destruct (mergeProbeHealth_newest current (map_to_list current) {[ "a" := o ]} "" (reflexivity _))
    as (_ & _ & _ & H).
  destruct (H "a" h o eq_refl eq_refl) as (m & Hm & _ & Ht & Hc). exists m.
  split; [exact Hm|]. split; [rewrite Ht by discriminate; reflexivity|].
  intros E. apply Hc in E as [_ E]. discriminate E.
Defined.

(** ** Saving and loading *)

Lemma mergeAutoHealthState_same cache state :
  (forall c, cache = Some c -> autoHealthStateCache.health c = RuntimeState.Health state /\
     autoHealthStateCache.lastFailureReason c = RuntimeState.LastFailureReason state) ->
  mergeAutoHealthState cache state = state.
Proof.
  destruct cache as [c|]; [|done]. intros H. destruct (H c eq_refl) as [Hh Hr].
  unfold mergeAutoHealthState. destruct (key_matches _ _); [|done].
  rewrite Hh, Hr, mergeProbeHealth_same. unfold upd. record_eq RuntimeState.eta. reflexivity.
Qed.

(** What a successful save wrote is what the service sees next: the cache
    and the file agree, so loading through the cache gives the saved state. *)
Theorem saveState_load is_nil now s state :
  loadStateWithAutoHealthCache (saveState is_nil now s state) =
  Ok (reload_state (settle_operational_mode state)).
Proof.
  unfold loadStateWithAutoHealthCache, saveState. cbn [Service.stateFile Service.autoHealthState].
  rewrite load_saved_state. cbn [result_bind]. f_equal. apply mergeAutoHealthState_same.
  intros c Hc. unfold rememberAutoHealthState in Hc. destruct (_ || _); [done|].
  injection Hc as <-. done.
Qed.

(** The file lags behind the cache by less than five minutes: after a check
    at [now], either the cache is empty (the mode is not automatic), or the
    last write is recent; and a skipped write still remembers the result. *)
Theorem recordAutoHealth_fresh is_nil now s persistedState state :
  let s' := recordAutoHealth is_nil now s persistedState state in
  0 < now ->
  (forall c, Service.autoHealthState s' = Some c ->
     Sub now (autoHealthStateCache.lastPersistAt c) < autoHealthStatePersistInterval /\
     autoHealthStateCache.lastPersistAt c <> zero_time /\
     autoHealthStateCache.health c = RuntimeState.Health state) /\
  (Service.stateFile s' = Service.stateFile s \/
   LoadState (Service.stateFile s') = Ok (reload_state (settle_operational_mode state))).
Proof.
  intros s' Hnow. unfold s', recordAutoHealth. destruct (shouldPersistAutoHealthState _ _ _ _) eqn:E.
  - split.
    + intros c Hc. cbn in Hc. unfold rememberAutoHealthState in Hc. destruct (_ || _); [done|].
      injection Hc as <-; cbn. split; [|split; [unfold zero_time; lia|]].
      * unfold Sub, autoHealthStatePersistInterval, min_int64, max_int64. rewrite Z.sub_diag. done.
      * unfold settle_operational_mode. by case_bool_decide.
    + right. apply load_saved_state.
  - split; [|by left]. intros c Hc. cbn in Hc. unfold rememberAutoHealthState in Hc.
    destruct (_ || _); [done|]. injection Hc as <-; cbn.
    unfold shouldPersistAutoHealthState in E. destruct (Service.autoHealthState s) as [c0|]; [|done].
    destruct (negb (key_matches _ _)); [done|]. destruct (negb _); [done|].
    destruct (IsZero _) eqn:Ez; [done|]. apply Z.leb_gt in E. apply Z.eqb_neq in Ez. done.
Qed.

Lemma recordAutoHealth_fresh_witness :
  let auto := DefaultRuntimeState <| RuntimeState.Mode := SelectionModeAuto |>
                <| RuntimeState.ActiveSubscriptionID := "s" |> in
  let s := saveState (fun _ => true) Hour (Service.mk None None) auto in
  let s' := recordAutoHealth (fun _ => true) (Hour + Minute) s auto
              (auto <| RuntimeState.Health := {[ "n" := NodeHealth.zero ]} |>) in
  Service.stateFile s' = Service.stateFile s /\
  (forall c, Service.autoHealthState s' = Some c ->
     Sub (Hour + Minute) (autoHealthStateCache.lastPersistAt c) < autoHealthStatePersistInterval).
Proof.
  intros auto s s'. split; [vm_compute; reflexivity|]. intros c Hc.
  destruct (recordAutoHealth_fresh (fun _ => true) (Hour + Minute) s auto
    (auto <| RuntimeState.Health := {[ "n" := NodeHealth.zero ]} |>) eq_refl) as [H _].
  apply (H c Hc).
Defined.
