(* ===== verification/AutoSelect.v ===== *)
(** * Automatic selection

    [app/auto.go] with the helpers it uses from [app/service.go]: from the
    stored state, the settings and the subscriptions to a decision which node
    to use, and from a decision to the next state.

    What happens outside is a parameter: [now] and [wall] are the readings of
    the service clock and of [time.Now] during one evaluation, [completions]
    the results of a round of probes in the order they complete (each with the
    index of its node), [egress] the outcome of [ensureBackendEgress] for a
    node, an error being its reason. *)
From S2P Require Import Prelude GoRunes GoStrings GoNum GoDuration Domain Zapret Settings.
From S2P Require Import Connection Probe AutoState.

Local Open Scope Z_scope.
Local Open Scope list_scope.

(** ** Reasons *)

(** The texts of [ShouldSwitchWithWins]. *)
Definition switch_reason_text (r : SwitchReason) : string :=
  match r with
  | NoReason => ""
  | NoCurrentNode => "no current node"
  | CurrentUnhealthy => "current node unhealthy"
  | OptimizationDisabled => "optimization disabled"
  | WithinLatencyCeiling => "current node is within profile latency ceiling"
  | CooldownActive => "cooldown active"
  | NotConfirmed => "latency improvement is not confirmed"
  | RelativeBelowThreshold => "relative improvement below threshold"
  | ImprovementBelowThreshold => "improvement below threshold"
  | QualityImproved gain => "stability-adjusted quality improved by " +:+ Duration_String gain
  | CurrentAcceptable => "current node acceptable"
  end.

Module autoSelectionDecision.
Record autoSelectionDecision : Type := mk {
  CurrentNodeID : string;
  CandidateNode : Node;
  CandidateScore : ScoreResult.ScoreResult;
  SelectedNode : Node;
  Health : gmap string NodeHealth;
  HasHealthyCandidate : bool;
  Switch : bool;
  Reconnect : bool;
  Reason : string;
  OptimizationCandidateID : string;
  OptimizationCandidateWins : Z
}.
End autoSelectionDecision.
Abbreviation autoSelectionDecision := autoSelectionDecision.autoSelectionDecision.

Definition zero_score : ScoreResult.ScoreResult := ScoreResult.mk "" false (S754_zero false) "" false.

(** ** Policies and health *)

Definition switchPolicyFromSettings (settings : Settings) : SwitchPolicy :=
  let configured := EffectiveAutoPolicy settings in
  let policy := DefaultSwitchPolicy in
  SwitchPolicy.mk (AutoPolicy.AllowOptimization configured)
    (AutoPolicy.CurrentLatencyCeiling configured) (AutoPolicy.Cooldown configured)
    (AutoPolicy.LatencyImprovement configured) (AutoPolicy.RelativeImprovement configured)
    (AutoPolicy.RequiredCandidateWins configured) (AutoPolicy.FailureThreshold configured)
    (SwitchPolicy.HealthyLatencyCeiling policy).

Definition optimizationCandidateWins (state : RuntimeState) (current candidate : NodeHealth)
    (policy : SwitchPolicy) (runProbes : bool) : string * Z :=
  if negb runProbes || negb (IsOptimizationCandidate current candidate policy) then ("", 0)
  else if bool_decide (RuntimeState.OptimizationCandidateID state = NodeHealth.NodeID candidate)
  then (NodeHealth.NodeID candidate, wrap64 (RuntimeState.OptimizationCandidateWins state + 1))
  else (NodeHealth.NodeID candidate, 1).

(** [updated.Score = probe.CalculateScore(...).Score]. *)
Definition rescore (h : NodeHealth) : NodeHealth :=
  h <| NodeHealth.Score := ScoreResult.Score (CalculateScore h DefaultScoreConfig) |>.

(** The record of a node declared failed, from its previous one. *)
Definition forced_failure (previous : NodeHealth) (nodeID reason : string) (checkedAt : Time)
    (failureThreshold : Z) : NodeHealth :=
  let failureThreshold := if failureThreshold <? 1 then 1 else failureThreshold in
  let updated := previous <| NodeHealth.NodeID := nodeID |> in
  let updated := UpdateHealth updated false (NodeHealth.LastLatency updated) checkedAt reason 1 in
  let updated :=
    if NodeHealth.ConsecutiveFailures updated <? failureThreshold
    then updated <| NodeHealth.ConsecutiveFailures := failureThreshold |> else updated in
  rescore updated.

Definition forceHealthFailure (health : gmap string NodeHealth) (nodeID reason : string)
    (checkedAt : Time) (failureThreshold : Z) : gmap string NodeHealth :=
  if bool_decide (nodeID = "") then health
  else <[nodeID := forced_failure (health_of health nodeID) nodeID reason checkedAt failureThreshold]>
         health.

Definition healthForSubscriptions (health : gmap string NodeHealth)
    (subscriptions : list Subscription) : gmap string NodeHealth :=
  filter (fun e => e.1 ∈ subscriptions ≫= fun sub => Node.ID <$> Subscription.Nodes sub) health.

(** ** Probing *)

Definition xrayProbeNodes (nodes : list Node) : list Node :=
  filter (fun n => Node.Protocol n <> ProtocolAmneziaWG) nodes.

(** The first line of an error, at most 240 runes long. *)
Definition compactProbeFailure (err : option string) : string :=
  match err with
  | None => ""
  | Some err =>
    let reason := TrimSpace err in
    let reason := match cut_byte reason "010"%char with
                  | Some (line, _) => TrimSpace line
                  | None => reason
                  end in
    let rs := runes reason in
    if (240 <? length rs)%nat then of_bytes (encode (take 239 rs)) +:+ "…" else reason
  end.

(** The record of a node after one completed probe. *)
Definition probed_health (node : Node) (failureThreshold : Z) (previous : NodeHealth)
    (result : Result.Result) : NodeHealth :=
  let updated := UpdateHealth previous (Result.Healthy result) (Result.Latency result)
    (Result.Checked result) (compactProbeFailure (Result.Err result)) failureThreshold in
  let updated := rescore (updated <| NodeHealth.NodeID := Node.ID node |>) in
  if Result.Healthy result && negb (bool_decide (Result.CountryCode result = ""))
  then updated <| NodeHealth.EgressIP := Result.EgressIP result |>
               <| NodeHealth.CountryCode := Result.CountryCode result |>
  else updated.

Definition fold_completion (nodes : list Node) (failureThreshold : Z)
    (health : gmap string NodeHealth) (completed : nat * Result.Result) : gmap string NodeHealth :=
  match nodes !! completed.1 with
  | None => health
  | Some node =>
    <[Node.ID node := probed_health node failureThreshold (health_of health (Node.ID node)) completed.2]>
      health
  end.

Definition probeSubscription (nodes : list Node) (health : gmap string NodeHealth)
    (failureThreshold : Z) (completions : list (nat * Result.Result)) : gmap string NodeHealth :=
  foldl (fold_completion nodes failureThreshold) health completions.

(** The variables of the loop over the subscriptions; an empty subscription
    stands for none. *)
Module AllScan.
Record AllScan : Type := mk {
  health : gmap string NodeHealth;
  fallbackSub : Subscription;
  currentSub : Subscription;
  candidates : list Node;
  nodeSubscriptions : gmap string Subscription
}.
End AllScan.
Abbreviation AllScan := AllScan.AllScan.

(** ** Candidates *)

Section Evaluate.
  Context (now wall : Time).
  Context (completions : list Node -> list (nat * Result.Result)).
  Context (egress : string -> option string).

Definition autoSelectableNodes (sub : Subscription) (settings : Settings) : list Node :=
  if IsExpired sub wall then []
  else if bool_decide (Settings.AutoExcludedNodes settings = []) &&
          bool_decide (Settings.AutoHideKeywords settings = [])
  then Subscription.Nodes sub
  else filter (fun node => IsNodeExcludedFromAuto settings (Subscription.ID sub) node = false)
         (Subscription.Nodes sub).

Definition autoNodeExcluded (sub : Subscription) (nodeID : string) (settings : Settings) : bool :=
  if bool_decide (nodeID = "") then false
  else IsNodeExcludedFromAuto settings (Subscription.ID sub)
         (default (Node.zero <| Node.ID := nodeID |>) (NodeByID sub nodeID)).

(** The egress check of a current node that the probes found healthy. *)
Definition check_current_egress (runProbes connected : bool) (activeTransport currentNodeID : string)
    (failureThreshold : Z) (health : gmap string NodeHealth) : gmap string NodeHealth :=
  if runProbes && connected && bool_decide (activeTransport = TransportModeProxy)
     && negb (bool_decide (currentNodeID = ""))
     && NodeHealth.Healthy (health_of health currentNodeID)
  then match egress currentNodeID with
       | Some reason => forceHealthFailure health currentNodeID reason now failureThreshold
       | None => health
       end
  else health.

(** ** One subscription *)

Definition excluded_reason := "current node is excluded from auto mode".
Definition all_excluded_reason := "all nodes are excluded from auto mode".

(** The health map on which the candidates are compared. *)
Definition evaluated_health (sub : Subscription) (settings : Settings) (state : RuntimeState)
    (runProbes : bool) (activeTransport currentNodeID : string) (candidateNodes : list Node)
    : gmap string NodeHealth :=
  let failureThreshold := SwitchPolicy.FailureThreshold (switchPolicyFromSettings settings) in
  let health := RuntimeState.Health state in
  let health := if autoNodeExcluded sub currentNodeID settings
    then forceHealthFailure health currentNodeID excluded_reason now failureThreshold
    else health in
  let health := if runProbes
    then probeSubscription (xrayProbeNodes candidateNodes) health failureThreshold
           (completions (xrayProbeNodes candidateNodes))
    else health in
  check_current_egress runProbes (RuntimeState.Connected state) activeTransport currentNodeID
    failureThreshold health.

(** The decision once the best candidate is known. *)
Definition decide_candidate (sub : Subscription) (settings : Settings) (state : RuntimeState)
    (runProbes : bool) (currentNodeID : string) (health : gmap string NodeHealth)
    (candidateNode : Node) (candidateScore : ScoreResult.ScoreResult) : autoSelectionDecision :=
  let candidateHealth := health_of health (Node.ID candidateNode) in
  if negb (NodeHealth.Healthy candidateHealth)
  then autoSelectionDecision.mk currentNodeID candidateNode candidateScore Node.zero health false
         false false "no healthy nodes available" "" 0
  else if negb (RuntimeState.Connected state)
  then autoSelectionDecision.mk currentNodeID candidateNode candidateScore candidateNode health true
         (negb (bool_decide (Node.ID candidateNode = currentNodeID))) true
         "recover disconnected auto mode" "" 0
  else
    let currentHealth := health_of health currentNodeID in
    let policy := switchPolicyFromSettings settings in
    let '(trackerID, trackerWins) :=
      optimizationCandidateWins state currentHealth candidateHealth policy runProbes in
    let '(shouldSwitch, reason) :=
      ShouldSwitchWithWins currentHealth candidateHealth wall (RuntimeState.LastSwitchAt state)
        policy trackerWins in
    let reason := switch_reason_text reason in
    let '(selectedNode, shouldSwitch, reason) :=
      if negb shouldSwitch && negb (bool_decide (currentNodeID = ""))
      then match NodeByID sub currentNodeID with
           | Some activeNode => (activeNode, shouldSwitch, reason)
           | None => (candidateNode, true, "current node missing")
           end
      else (candidateNode, shouldSwitch, reason) in
    let reason := if shouldSwitch && bool_decide (reason = "") then "candidate selected" else reason in
    autoSelectionDecision.mk currentNodeID candidateNode candidateScore selectedNode health true
      (negb (bool_decide (Node.ID selectedNode = currentNodeID))) false reason trackerID trackerWins.

Definition evaluateAutoSelection (sub : Subscription) (settings : Settings) (state : RuntimeState)
    (runProbes : bool) : result ProbeError autoSelectionDecision :=
  let activeTransport := effectiveActiveTransport state in
  let currentNodeID :=
    if bool_decide (RuntimeState.ActiveSubscriptionID state = Subscription.ID sub)
       && bool_decide (activeTransport = TransportModeProxy)
    then RuntimeState.ActiveNodeID state else "" in
  let candidateNodes := autoSelectableNodes sub settings in
  if bool_decide (candidateNodes = [])
  then Ok (autoSelectionDecision.mk currentNodeID Node.zero zero_score Node.zero
             (RuntimeState.Health state) false false false all_excluded_reason "" 0)
  else
    let health := evaluated_health sub settings state runProbes activeTransport currentNodeID
      candidateNodes in
    let* best := SelectBestNode candidateNodes health DefaultScoreConfig in
    Ok (decide_candidate sub settings state runProbes currentNodeID health best.1 best.2).

(** ** All subscriptions *)

Definition expired_reason := "active subscription expired".

Definition add_owner (sub : Subscription) (owners : gmap string Subscription) (node : Node)
    : gmap string Subscription :=
  match owners !! Node.ID node with
  | Some _ => owners
  | None => <[Node.ID node := sub]> owners
  end.

Definition scan_subscription (settings : Settings) (state : RuntimeState) (currentNodeID : string)
    (failureThreshold : Z) (acc : AllScan) (sub : Subscription) : AllScan :=
  let active := bool_decide (Subscription.ID sub = RuntimeState.ActiveSubscriptionID state) in
  if IsExpired sub now
  then
    if active && negb (bool_decide (currentNodeID = ""))
    then AllScan.mk
           (forceHealthFailure (AllScan.health acc) currentNodeID expired_reason now failureThreshold)
           (AllScan.fallbackSub acc) (AllScan.currentSub acc) (AllScan.candidates acc)
           (AllScan.nodeSubscriptions acc)
    else acc
  else
    let fallbackSub :=
      if bool_decide (Subscription.ID (AllScan.fallbackSub acc) = "")
         && (0 <? length (Subscription.Nodes sub))%nat
      then sub else AllScan.fallbackSub acc in
    let '(currentSub, fallbackSub) :=
      if active then (sub, sub) else (AllScan.currentSub acc, fallbackSub) in
    let selectable := autoSelectableNodes sub settings in
    let health :=
      if autoNodeExcluded sub currentNodeID settings && active
      then forceHealthFailure (AllScan.health acc) currentNodeID excluded_reason now failureThreshold
      else AllScan.health acc in
    AllScan.mk health fallbackSub currentSub (AllScan.candidates acc ++ selectable)
      (foldl (add_owner sub) (AllScan.nodeSubscriptions acc) selectable).

Definition scan_subscriptions (settings : Settings) (state : RuntimeState) (currentNodeID : string)
    (failureThreshold : Z) (health : gmap string NodeHealth) (subscriptions : list Subscription)
    : AllScan :=
  foldl (scan_subscription settings state currentNodeID failureThreshold)
    (AllScan.mk health Subscription.zero Subscription.zero [] ∅) subscriptions.

(** The decision and the subscription of the selected node. *)
Definition decide_candidate_all (owners : gmap string Subscription) (currentSub : Subscription)
    (settings : Settings) (state : RuntimeState) (runProbes : bool) (currentNodeID : string)
    (health : gmap string NodeHealth) (candidateNode : Node)
    (candidateScore : ScoreResult.ScoreResult) : autoSelectionDecision * Subscription :=
  let selectedSub := default Subscription.zero (owners !! Node.ID candidateNode) in
  let candidateHealth := health_of health (Node.ID candidateNode) in
  let moved node sub :=
    negb (bool_decide (Node.ID node = currentNodeID))
    || negb (bool_decide (Subscription.ID sub = RuntimeState.ActiveSubscriptionID state)) in
  if negb (NodeHealth.Healthy candidateHealth)
  then (autoSelectionDecision.mk currentNodeID candidateNode candidateScore Node.zero health false
          false false "no healthy nodes available" "" 0, selectedSub)
  else if negb (RuntimeState.Connected state)
  then (autoSelectionDecision.mk currentNodeID candidateNode candidateScore candidateNode health true
          (moved candidateNode selectedSub) true "recover disconnected global auto mode" "" 0,
        selectedSub)
  else
    let currentHealth := health_of health currentNodeID in
    let policy := switchPolicyFromSettings settings in
    let '(trackerID, trackerWins) :=
      optimizationCandidateWins state currentHealth candidateHealth policy runProbes in
    let '(shouldSwitch, reason) :=
      ShouldSwitchWithWins currentHealth candidateHealth now (RuntimeState.LastSwitchAt state)
        policy trackerWins in
    let reason := switch_reason_text reason in
    let '(selectedNode, selectedSub, shouldSwitch, reason) :=
      if negb shouldSwitch && negb (bool_decide (currentNodeID = ""))
      then match NodeByID currentSub currentNodeID with
           | Some activeNode => (activeNode, currentSub, shouldSwitch, reason)
           | None => (candidateNode, selectedSub, true, "current node missing")
           end
      else (candidateNode, selectedSub, shouldSwitch, reason) in
    let reason := if shouldSwitch && bool_decide (reason = "") then "candidate selected" else reason in
    (autoSelectionDecision.mk currentNodeID candidateNode candidateScore selectedNode health true
       (moved selectedNode selectedSub) false reason trackerID trackerWins, selectedSub).

(** The decision, the subscription of the selected node and the subscription
    to fall back on. *)
Definition evaluateAutoSelectionAll (subscriptions : list Subscription) (settings : Settings)
    (state : RuntimeState) (runProbes : bool)
    : result ProbeError (autoSelectionDecision * Subscription * Subscription) :=
  let health := healthForSubscriptions (RuntimeState.Health state) subscriptions in
  let failureThreshold := SwitchPolicy.FailureThreshold (switchPolicyFromSettings settings) in
  let activeTransport := effectiveActiveTransport state in
  let currentNodeID :=
    if bool_decide (activeTransport = TransportModeProxy) then RuntimeState.ActiveNodeID state
    else "" in
  let scan := scan_subscriptions settings state currentNodeID failureThreshold health subscriptions in
  let candidates := AllScan.candidates scan in
  if bool_decide (candidates = [])
  then Ok (autoSelectionDecision.mk currentNodeID Node.zero zero_score Node.zero (AllScan.health scan)
             false false false all_excluded_reason "" 0, Subscription.zero, AllScan.fallbackSub scan)
  else
    let health := if runProbes
      then probeSubscription (xrayProbeNodes candidates) (AllScan.health scan) failureThreshold
             (completions (xrayProbeNodes candidates))
      else AllScan.health scan in
    let health := check_current_egress runProbes (RuntimeState.Connected state) activeTransport
      currentNodeID failureThreshold health in
    let* best := SelectBestNode candidates health DefaultScoreConfig in
    let '(decision, selectedSub) :=
      decide_candidate_all (AllScan.nodeSubscriptions scan) (AllScan.currentSub scan) settings state
        runProbes currentNodeID health best.1 best.2 in
    Ok (decision, selectedSub, AllScan.fallbackSub scan).

End Evaluate.

(** ** Preparing *)

Module autoSelectionSnapshot.
Record autoSelectionSnapshot : Type := mk {
  subscriptions : list Subscription;
  settings : Settings;
  persistedState : RuntimeState;
  state : RuntimeState
}.
End autoSelectionSnapshot.
Abbreviation autoSelectionSnapshot := autoSelectionSnapshot.autoSelectionSnapshot.

Module preparedAutoSelection.
Record preparedAutoSelection : Type := mk {
  snapshot : autoSelectionSnapshot;
  all : bool;
  sub : Subscription;
  decision : autoSelectionDecision;
  selectedSub : Subscription;
  fallbackSub : Subscription
}.
End preparedAutoSelection.
Abbreviation preparedAutoSelection := preparedAutoSelection.preparedAutoSelection.

Inductive PrepareError : Type :=
| SelectFailed (e : ProbeError)
| SubscriptionExpired (id : string)
| SubscriptionNotFound (id : string).

Definition lift_probe {A} (r : result ProbeError A) : result PrepareError A :=
  match r with Ok a => Ok a | Err e => Err (SelectFailed e) end.

Definition prepareAutoSelectionWithProbes (now wall : Time)
    (completions : list Node -> list (nat * Result.Result)) (egress : string -> option string)
    (subscriptionID : string) (snapshot : autoSelectionSnapshot) (runProbes : bool)
    : result PrepareError preparedAutoSelection :=
  let settings := autoSelectionSnapshot.settings snapshot in
  let state := autoSelectionSnapshot.state snapshot in
  let subscriptions := autoSelectionSnapshot.subscriptions snapshot in
  let all := bool_decide (TrimSpace subscriptionID = "")
             || EqualFold (TrimSpace subscriptionID) autoScopeAll in
  if all
  then
    let* (decision, selectedSub, fallbackSub) :=
      lift_probe (evaluateAutoSelectionAll now wall completions egress subscriptions settings state
        runProbes) in
    Ok (preparedAutoSelection.mk snapshot true Subscription.zero decision selectedSub fallbackSub)
  else
    match List.find (fun s => bool_decide (Subscription.ID s = subscriptionID)) subscriptions with
    | None => Err (SubscriptionNotFound subscriptionID)
    | Some sub =>
      if IsExpired sub now then Err (SubscriptionExpired subscriptionID)
      else
        let* decision :=
          lift_probe (evaluateAutoSelection now wall completions egress sub settings state runProbes) in
        Ok (preparedAutoSelection.mk snapshot false sub decision sub sub)
    end.
