(* ===== verification/AutoSelectFacts.v ===== *)
(** * Automatic selection: what a decision guarantees

    Probing is independent of the completion order, a decision only ever
    moves to a healthy selectable node, an excluded or failing current node is
    left, and the confirmation counter of the optimiser is lost with every
    load of the state. *)
From S2P Require Import Prelude GoRunes GoStrings GoNum GoDuration Domain Zapret Settings.
From S2P Require Import Connection Migrations PersistFacts Probe ProbeFacts AutoState.

From S2P Require Import AutoSelect.

Local Open Scope Z_scope.
Local Open Scope list_scope.

(** ** Forced failures *)

Lemma health_of_insert health id h : health_of (<[id := h]> health) id = h.
Proof. unfold health_of. by rewrite lookup_insert_eq. Qed.

Lemma health_of_insert_ne health id id' h :
  id' <> id -> health_of (<[id := h]> health) id' = health_of health id'.
Proof. intros Hne. unfold health_of. by rewrite lookup_insert_ne. Qed.

Lemma forceHealthFailure_other health id reason at_ threshold other :
  other <> id -> health_of (forceHealthFailure health id reason at_ threshold) other = health_of health other.
Proof.
  intros Hne. unfold forceHealthFailure. case_bool_decide; [done|].
  unfold health_of. by rewrite lookup_insert_ne.
Qed.

(** Two records that agree on what decides a switch. *)
Definition same_verdict (a b : NodeHealth) : Prop :=
  NodeHealth.NodeID a = NodeHealth.NodeID b /\ NodeHealth.Healthy a = NodeHealth.Healthy b /\
  NodeHealth.ConsecutiveFailures a = NodeHealth.ConsecutiveFailures b /\
  NodeHealth.LastFailureReason a = NodeHealth.LastFailureReason b /\
  NodeHealth.LastCheckedAt a = NodeHealth.LastCheckedAt b.

Lemma same_verdict_average h d : same_verdict (h <| NodeHealth.AverageLatency := d |>) h.
Proof. by repeat split. Qed.

Lemma same_verdict_rescore h : same_verdict (rescore h) h.
Proof. unfold rescore. generalize (ScoreResult.Score (CalculateScore h DefaultScoreConfig)). by repeat split. Qed.

(** The record that says: node [id] failed [n] times, last at [at_]. *)
Definition failing (h : NodeHealth) (id : string) (n : Z) (reason : string) (at_ : Time) : Prop :=
  NodeHealth.NodeID h = id /\ NodeHealth.Healthy h = false /\ NodeHealth.ConsecutiveFailures h = n /\
  NodeHealth.LastFailureReason h = reason /\ NodeHealth.LastCheckedAt h = at_.

Lemma failing_same a b id n reason at_ :
  same_verdict a b -> failing b id n reason at_ -> failing a id n reason at_.
Proof. intros (H1 & H2 & H3 & H4 & H5). unfold failing. by rewrite H1, H2, H3, H4, H5. Qed.

Lemma failing_set_failures h id n n' reason at_ :
  failing h id n reason at_ ->
  failing (h <| NodeHealth.ConsecutiveFailures := n' |>) id n' reason at_.
Proof. intros (H1 & H2 & H3 & H4 & H5). by repeat split. Qed.

Lemma failing_counted h l at_ reason f g p :
  failing (h <| NodeHealth.LastCheckedAt := at_ |> <| NodeHealth.LastLatency := l |>
    <| NodeHealth.Healthy := false |> <| NodeHealth.FailureCount ::= f |>
    <| NodeHealth.ConsecutiveFailures ::= g |> <| NodeHealth.ConsecutiveSuccesses := 0 |>
    <| NodeHealth.InstabilityPenalty ::= p |> <| NodeHealth.LastFailureReason := reason |>)
    (NodeHealth.NodeID h) (g (NodeHealth.ConsecutiveFailures h)) reason at_.
Proof. unfold failing, upd. cbn. by repeat split. Qed.

Lemma failing_average h l id n reason at_ :
  failing h id n reason at_ ->
  failing (if NodeHealth.AverageLatency h =? 0 then h <| NodeHealth.AverageLatency := l |> else h)
    id n reason at_.
Proof.
  intros H. destruct (_ =? 0); [|done]. eapply failing_same; [apply same_verdict_average|done].
Qed.

Lemma failing_confirmed h id n reason at_ b :
  1 <= n -> failing h id n reason at_ ->
  failing (if b && (NodeHealth.ConsecutiveFailures h <? 1) then h <| NodeHealth.Healthy := true |> else h)
    id n reason at_.
Proof.
  intros Hn H. pose proof H as (_ & _ & Hc & _). rewrite Hc, (proj2 (Z.ltb_ge n 1)), andb_false_r by lia.
  exact H.
Qed.

(** A failure with threshold one. *)
Lemma UpdateHealth_failed h l at_ reason :
  0 <= NodeHealth.ConsecutiveFailures h < 2 ^ 63 - 1 ->
  failing (UpdateHealth h false l at_ reason 1) (NodeHealth.NodeID h)
    (NodeHealth.ConsecutiveFailures h + 1) reason at_.
Proof.
  intros Hcf. assert (Hs : succ64 (NodeHealth.ConsecutiveFailures h) = NodeHealth.ConsecutiveFailures h + 1)
    by (eapply succ64_small; [split; [lia|apply Z.le_refl]|lia]).
  apply failing_confirmed; [lia|]. apply failing_average. rewrite <- Hs. apply failing_counted.
Qed.

Lemma UpdateHealth_NodeID h ok l at_ reason threshold :
  NodeHealth.NodeID (UpdateHealth h ok l at_ reason threshold) = NodeHealth.NodeID h.
Proof.
  unfold UpdateHealth. cbv zeta. destruct ok.
  - unfold fold_latency. by destruct (_ =? 0).
  - destruct (_ && _); by destruct (_ =? 0).
Qed.

Lemma forced_failure_NodeID h id reason at_ threshold :
  NodeHealth.NodeID (forced_failure h id reason at_ threshold) = id.
Proof.
  unfold forced_failure. cbv zeta. rewrite (proj1 (same_verdict_rescore _)).
  assert (Hid : forall (b : bool) u n, NodeHealth.NodeID
    (if b then u <| NodeHealth.ConsecutiveFailures := n |> else u) = NodeHealth.NodeID u)
    by (by intros []).
  by rewrite Hid, UpdateHealth_NodeID.
Qed.

(** The node counts as failing, whatever its history: with a threshold of one
    a failed observation is unhealthy as soon as its failures count. *)
Lemma forced_failure_failing h id reason at_ threshold :
  0 <= NodeHealth.ConsecutiveFailures h < 2 ^ 63 - 1 ->
  exists n, Z.max 1 threshold <= n /\ failing (forced_failure h id reason at_ threshold) id n reason at_.
Proof.
  intros Hcf. unfold forced_failure.
  assert (Hb : exists base, base = h <| NodeHealth.NodeID := id |> /\ NodeHealth.NodeID base = id /\
    0 <= NodeHealth.ConsecutiveFailures base < 2 ^ 63 - 1) by (by eexists).
  destruct Hb as (base & <- & Hbi & Hb).
  pose proof (UpdateHealth_failed base (NodeHealth.LastLatency base) at_ reason Hb) as Hu.
  rewrite Hbi in Hu. revert Hu. cbv zeta.
  generalize (UpdateHealth base false (NodeHealth.LastLatency base) at_ reason 1) as u. intros u Hu.
  assert (Ht : (if threshold <? 1 then 1 else threshold) = Z.max 1 threshold)
    by (destruct (Z.ltb_spec threshold 1); lia).
  rewrite Ht. pose proof Hu as (_ & _ & Hc & _).
  destruct (Z.ltb_spec (NodeHealth.ConsecutiveFailures u) (Z.max 1 threshold)).
  - exists (Z.max 1 threshold). split; [lia|]. eapply failing_same; [apply same_verdict_rescore|].
    by eapply failing_set_failures.
  - exists (NodeHealth.ConsecutiveFailures base + 1). split; [lia|].
    eapply failing_same; [apply same_verdict_rescore|exact Hu].
Qed.

(** ** Probing *)

Section Probing.
  Context (nodes : list Node) (threshold : Z).
  Hypothesis distinct : NoDup (Node.ID <$> nodes).

Lemma node_index_unique i j n m :
  nodes !! i = Some n -> nodes !! j = Some m -> Node.ID n = Node.ID m -> i = j.
Proof.
  intros Hi Hj E. eapply (NoDup_lookup (Node.ID <$> nodes)); [done| |].
  - by rewrite list_lookup_fmap, Hi.
  - by rewrite list_lookup_fmap, Hj, E.
Qed.

Lemma fold_completion_other health c id :
  (forall n, nodes !! c.1 = Some n -> Node.ID n <> id) ->
  fold_completion nodes threshold health c !! id = health !! id.
Proof.
  intros H. unfold fold_completion. destruct (nodes !! c.1) as [n|]; [|done].
  rewrite lookup_insert_ne; [done|]. by apply H.
Qed.

(** What the fold leaves for one node: the folded record if its probe
    completed, the old one otherwise. *)
Lemma probe_other health cs id :
  (forall c n, c ∈ cs -> nodes !! c.1 = Some n -> Node.ID n <> id) ->
  probeSubscription nodes health threshold cs !! id = health !! id.
Proof.
  unfold probeSubscription. revert health; induction cs as [|c cs IH]; intros health H; [done|].
  cbn [foldl]. rewrite IH; [|intros; eapply H; eauto using list_elem_of_further].
  apply fold_completion_other. intros n Hn. eapply H; [apply list_elem_of_here|done].
Qed.

Lemma probe_completed health cs i r n :
  NoDup cs.*1 -> (i, r) ∈ cs -> nodes !! i = Some n ->
  probeSubscription nodes health threshold cs !! Node.ID n =
    Some (probed_health n threshold (health_of health (Node.ID n)) r).
Proof.
  unfold probeSubscription. revert health; induction cs as [|[j r'] cs IH]; intros health Hnd Hin Hn;
    [by apply not_elem_of_nil in Hin|].
  rewrite fmap_cons in Hnd. apply NoDup_cons in Hnd as [Hj Hnd]. cbn [foldl].
  apply elem_of_cons in Hin as [E|Hin].
  - injection E as <- <-. fold (probeSubscription nodes (fold_completion nodes threshold health (i, r))
      threshold cs).
    rewrite probe_other.
    + unfold fold_completion; cbn [fst snd]. by rewrite Hn, lookup_insert_eq.
    + intros [j' r''] m Hc Hm E. cbn in Hm, Hj. apply Hj.
      rewrite (node_index_unique _ _ _ _ Hn Hm (eq_sym E)). apply list_elem_of_fmap. by exists (j', r'').
  - rewrite IH by done. do 2 f_equal. unfold health_of. rewrite fold_completion_other; [done|].
    intros m Hm E. cbn [fst] in Hm. rewrite (node_index_unique _ _ _ _ Hm Hn E) in Hj.
    apply Hj, list_elem_of_fmap. by exists (i, r).
Qed.

End Probing.

(** A round of probes gives the same health in whatever order the probes
    complete: each probed node is folded once into its own record, the others
    keep theirs (the nodes carry distinct IDs). *)
Theorem probeSubscription_order nodes health threshold cs cs' :
  NoDup (Node.ID <$> nodes) -> NoDup cs.*1 -> cs ≡ₚ cs' ->
  probeSubscription nodes health threshold cs = probeSubscription nodes health threshold cs' /\
  (forall i r n, (i, r) ∈ cs -> nodes !! i = Some n ->
     probeSubscription nodes health threshold cs !! Node.ID n =
       Some (probed_health n threshold (health_of health (Node.ID n)) r)) /\
  (forall id, id ∉ Node.ID <$> nodes ->
     probeSubscription nodes health threshold cs !! id = health !! id).
Proof.
  intros Hn Hc Hp. assert (Hc' : NoDup cs'.*1) by (by rewrite <- Hp).
  split; [|split].
  - apply map_eq. intros id.
    destruct (decide (Some id ∈ (fun c => Node.ID <$> nodes !! c.1) <$> cs)) as [Hyes|Hno].
    + apply list_elem_of_fmap in Hyes as ([i r] & E & Hin). symmetry in E.
      apply fmap_Some in E as (n & Hi & ->).
      rewrite (probe_completed nodes threshold Hn health cs i r n) by done.
      symmetry. apply (probe_completed nodes threshold Hn health cs' i r n); [done| |done].
      by rewrite <- Hp.
    + rewrite !probe_other; [done| |].
      * intros c n Hin Hi E. apply Hno, list_elem_of_fmap. exists c. by rewrite Hi, Hp, <- E.
      * intros c n Hin Hi E. apply Hno, list_elem_of_fmap. exists c. by rewrite Hi, <- E.
  - intros. by apply (probe_completed nodes threshold Hn health cs i).
  - intros id Hid. apply probe_other. intros c n _ Hi E. apply Hid. rewrite <- E.
    apply list_elem_of_fmap. exists n. split; [done|]. by eapply list_elem_of_lookup_2.
Qed.

Lemma probeSubscription_order_witness :
  let nodes := named_node <$> ["a"; "b"] in
  let ok ms := Result.mk "" (ms * Millisecond) true Hour None zero_score NodeHealth.zero "" "" false in
  let health := probeSubscription nodes ∅ 2 [(0%nat, ok 80); (1%nat, ok 90)] in
  health = probeSubscription nodes ∅ 2 [(1%nat, ok 90); (0%nat, ok 80)] /\
  (fun h => (NodeHealth.Healthy h, NodeHealth.LastLatency h)) <$> (health !! "b") = Some (true, 90 * Millisecond).
Proof.
  intros nodes ok health. split; [|vm_compute; reflexivity].
  refine (proj1 (probeSubscription_order nodes ∅ 2 _ _ _ _ _)).
  - apply (bool_decide_unpack _). vm_compute. exact I.
  - apply (bool_decide_unpack _). vm_compute. exact I.
  - apply Permutation_swap.
Defined.

(** ** Candidates *)

Lemma autoSelectableNodes_elem wall sub settings n :
  n ∈ autoSelectableNodes wall sub settings <->
  IsExpired sub wall = false /\ n ∈ Subscription.Nodes sub /\
  IsNodeExcludedFromAuto settings (Subscription.ID sub) n = false.
Proof.
  unfold autoSelectableNodes. destruct (IsExpired sub wall).
  { split; [by intros ?%not_elem_of_nil|by intros [? _]]. }
  destruct (bool_decide (Settings.AutoExcludedNodes settings = [])
    && bool_decide (Settings.AutoHideKeywords settings = [])) eqn:E.
  - apply andb_true_iff in E as [E1%bool_decide_eq_true E2%bool_decide_eq_true].
    assert (Hn : IsNodeExcludedFromAuto settings (Subscription.ID sub) n = false).
    { unfold IsNodeExcludedFromAuto, IsAutoExcludedNode. rewrite E1, E2. cbn [existsb].
      rewrite MatchingAutoHideKeyword_nil. by destruct (bool_decide _). }
    tauto.
  - rewrite list_elem_of_filter. tauto.
Qed.

Lemma NodeByID_elem sub id n : NodeByID sub id = Some n -> n ∈ Subscription.Nodes sub /\ Node.ID n = id.
Proof. apply find_node_Some. Qed.

(** ** Well-keyed health *)

(** Every record is stored under the ID it carries. *)
Definition well_keyed (health : gmap string NodeHealth) : Prop :=
  map_Forall (fun id h => NodeHealth.NodeID h = id) health.

Lemma forceHealthFailure_keyed health id reason at_ threshold :
  well_keyed health -> well_keyed (forceHealthFailure health id reason at_ threshold).
Proof.
  intros H. unfold forceHealthFailure. case_bool_decide; [done|].
  apply map_Forall_insert_2; [apply forced_failure_NodeID|done].
Qed.

Lemma fold_completion_keyed nodes threshold health c :
  well_keyed health -> well_keyed (fold_completion nodes threshold health c).
Proof.
  intros H. unfold fold_completion. destruct (nodes !! c.1) as [n|]; [|done].
  apply map_Forall_insert_2; [|done]. unfold probed_health. cbv zeta.
  assert (Hid : forall (b : bool) u ip cc, NodeHealth.NodeID
    (if b then u <| NodeHealth.EgressIP := ip |> <| NodeHealth.CountryCode := cc |> else u) =
    NodeHealth.NodeID u) by (by intros []).
  by rewrite Hid, (proj1 (same_verdict_rescore _)).
Qed.

Lemma probeSubscription_keyed nodes threshold cs health :
  well_keyed health -> well_keyed (probeSubscription nodes health threshold cs).
Proof.
  unfold probeSubscription. revert health; induction cs as [|c cs IH]; intros health H; [done|].
  cbn [foldl]. by apply IH, fold_completion_keyed.
Qed.

Lemma check_current_egress_keyed now egress probes connected transport id threshold health :
  well_keyed health ->
  well_keyed (check_current_egress now egress probes connected transport id threshold health).
Proof.
  intros H. unfold check_current_egress. destruct (_ && _); [|done].
  destruct (egress id); [by apply forceHealthFailure_keyed|done].
Qed.

Lemma well_keyed_health_of health id :
  well_keyed health -> NodeHealth.Healthy (health_of health id) = true ->
  NodeHealth.NodeID (health_of health id) = id.
Proof.
  unfold health_of. intros H. destruct (health !! id) as [h|] eqn:E; [|done]. intros _. by apply (H id h).
Qed.

(** ** Decisions for one subscription *)

Lemma select_best_ok nodes health cfg :
  nodes <> [] ->
  exists best score, SelectBestNode nodes health cfg = Ok (best, score) /\ best ∈ nodes /\
    (forall n, n ∈ nodes -> node_healthy health n = true -> node_healthy health best = true).
Proof.
  intros Hne. destruct (select_best_spec nodes health cfg Hne) as (best & pre & post & H & Hn & _ & Hh & _).
  exists best, (select (ranked health cfg best).2). split; [done|]. split; [|done].
  rewrite Hn. apply elem_of_app. right. apply list_elem_of_here.
Qed.

(** What a decision about [sub] may say, [selectable] being the nodes it may
    choose from. *)
Record sound_decision (selectable : list Node) (connected : bool) (d : autoSelectionDecision) : Prop := {
  sd_unhealthy : autoSelectionDecision.HasHealthyCandidate d = false ->
    autoSelectionDecision.Switch d = false /\ autoSelectionDecision.Reconnect d = false /\
    forall n, n ∈ selectable -> node_healthy (autoSelectionDecision.Health d) n = false;
  sd_candidate : autoSelectionDecision.HasHealthyCandidate d = true ->
    autoSelectionDecision.CandidateNode d ∈ selectable /\
    node_healthy (autoSelectionDecision.Health d) (autoSelectionDecision.CandidateNode d) = true;
  sd_reconnect : autoSelectionDecision.Reconnect d =
    autoSelectionDecision.HasHealthyCandidate d && negb connected;
  sd_moves : autoSelectionDecision.Switch d = true \/ autoSelectionDecision.Reconnect d = true ->
    autoSelectionDecision.SelectedNode d = autoSelectionDecision.CandidateNode d;
  sd_switch : autoSelectionDecision.Switch d = true ->
    Node.ID (autoSelectionDecision.SelectedNode d) <> autoSelectionDecision.CurrentNodeID d;
  sd_stay : autoSelectionDecision.HasHealthyCandidate d = true ->
    autoSelectionDecision.Switch d = false ->
    Node.ID (autoSelectionDecision.SelectedNode d) = autoSelectionDecision.CurrentNodeID d
}.

Lemma decide_candidate_sound wall sub settings state probes cur health selectable best score :
  best ∈ selectable ->
  (forall n, n ∈ selectable -> node_healthy health n = true -> node_healthy health best = true) ->
  sound_decision selectable (RuntimeState.Connected state)
    (decide_candidate wall sub settings state probes cur health best score).
Proof.
  intros Hin Hbest. unfold decide_candidate. cbv zeta. fold (node_healthy health best).
  destruct (node_healthy health best) eqn:Eh; cbn [negb].
  2:{ split; cbn; try done.
      - intros _. split; [done|]. split; [done|]. intros n Hn.
        apply not_true_iff_false. intros Ht. specialize (Hbest n Hn Ht). congruence.
      - by intros [?|?]. }
  destruct (RuntimeState.Connected state); cbn [negb].
  2:{ split; cbn; try done.
      - by intros ?%negb_true_iff%bool_decide_eq_false.
      - by intros _ ?%negb_false_iff%bool_decide_eq_true. }
  destruct (optimizationCandidateWins _ _ _ _ _) as [tid twins].
  destruct (ShouldSwitchWithWins _ _ _ _ _ _) as [sw reason].
  destruct (negb sw && negb (bool_decide (cur = ""))) eqn:Es.
  - destruct (NodeByID sub cur) as [active|] eqn:Ea.
    + apply NodeByID_elem in Ea as [_ Ea]. split; cbn; try done.
      * rewrite Ea, bool_decide_eq_true_2 by done. by intros [?|?].
      * by rewrite Ea, bool_decide_eq_true_2 by done.
    + split; cbn; try done.
      * by intros ?%negb_true_iff%bool_decide_eq_false.
      * by intros _ ?%negb_false_iff%bool_decide_eq_true.
  - split; cbn; try done.
    + by intros ?%negb_true_iff%bool_decide_eq_false.
    + by intros _ ?%negb_false_iff%bool_decide_eq_true.
Qed.

(** C30: evaluating one subscription always gives a decision, and the decision is
    safe: it moves only to its candidate, a healthy, selectable (listed, not
    excluded, not expired) node other than the current one; it asks for a
    reconnection exactly when disconnected with a healthy candidate; without
    one no selectable node is healthy; and a decision to stay names the
    current node. *)
Theorem evaluateAutoSelection_sound now wall completions egress sub settings state probes :
  exists d, evaluateAutoSelection now wall completions egress sub settings state probes = Ok d /\
  sound_decision (autoSelectableNodes wall sub settings) (RuntimeState.Connected state) d.
Proof.
  unfold evaluateAutoSelection. cbv zeta.
  destruct (bool_decide (autoSelectableNodes wall sub settings = [])) eqn:En.
  { apply bool_decide_eq_true in En. eexists. split; [done|]. rewrite En.
    split; cbn; try done.
    intros _. split; [done|]. split; [done|]. by intros n ?%not_elem_of_nil. }
  apply bool_decide_eq_false in En.
  match goal with |- context [SelectBestNode _ ?h _] =>
    destruct (select_best_ok (autoSelectableNodes wall sub settings) h DefaultScoreConfig En)
      as (best & score & -> & Hin & Hb) end.
  eexists. split; [reflexivity|]. by apply decide_candidate_sound.
Qed.

(** ** Decisions over all subscriptions *)

Section Scan.
  Context (now wall : Time) (settings : Settings) (state : RuntimeState) (cur : string) (threshold : Z).

(** A node with the given ID may be chosen from [sub]. *)
Definition offers (sub : Subscription) (id : string) : Prop :=
  IsExpired sub now = false /\ exists n, n ∈ autoSelectableNodes wall sub settings /\ Node.ID n = id.

Record scan_ok (subs : list Subscription) (acc : AllScan) : Prop := {
  so_candidates : forall n, n ∈ AllScan.candidates acc ->
    exists s, s ∈ subs /\ IsExpired s now = false /\ n ∈ autoSelectableNodes wall s settings;
  so_complete : forall s n, s ∈ subs -> IsExpired s now = false ->
    n ∈ autoSelectableNodes wall s settings -> n ∈ AllScan.candidates acc;
  so_owned : forall n, n ∈ AllScan.candidates acc ->
    is_Some (AllScan.nodeSubscriptions acc !! Node.ID n);
  so_owners : forall id s, AllScan.nodeSubscriptions acc !! id = Some s -> s ∈ subs /\ offers s id;
  so_current : forall n, n ∈ Subscription.Nodes (AllScan.currentSub acc) ->
    AllScan.currentSub acc ∈ subs /\
    Subscription.ID (AllScan.currentSub acc) = RuntimeState.ActiveSubscriptionID state /\
    IsExpired (AllScan.currentSub acc) now = false
}.

Lemma add_owner_lookup sub owners n id :
  add_owner sub owners n !! id =
  match owners !! id with
  | Some s => Some s
  | None => if bool_decide (Node.ID n = id) then Some sub else None
  end.
Proof.
  unfold add_owner. destruct (decide (Node.ID n = id)) as [<-|Hne].
  - rewrite bool_decide_eq_true_2 by done. destruct (owners !! Node.ID n) eqn:E; [done|].
    by rewrite lookup_insert_eq.
  - rewrite bool_decide_eq_false_2 by done.
    destruct (owners !! Node.ID n) eqn:E; [by destruct (owners !! id)|].
    rewrite lookup_insert_ne by done. by destruct (owners !! id).
Qed.

Lemma add_owners_lookup sub owners nodes id :
  foldl (add_owner sub) owners nodes !! id =
  match owners !! id with
  | Some s => Some s
  | None => if bool_decide (id ∈ Node.ID <$> nodes) then Some sub else None
  end.
Proof.
  revert owners; induction nodes as [|n nodes IH]; intros owners; cbn [foldl].
  - by destruct (owners !! id).
  - rewrite IH, add_owner_lookup. destruct (owners !! id); [done|].
    rewrite fmap_cons. destruct (decide (Node.ID n = id)) as [<-|Hne].
    + by rewrite (bool_decide_eq_true_2 (Node.ID n = Node.ID n)), bool_decide_eq_true_2 by
        (done || apply list_elem_of_here).
    + rewrite (bool_decide_eq_false_2 (Node.ID n = id)) by done.
      rewrite (bool_decide_ext (id ∈ Node.ID n :: (Node.ID <$> nodes)) (id ∈ Node.ID <$> nodes)); [done|].
      rewrite elem_of_cons. naive_solver.
Qed.

Lemma scan_subscription_ok subs acc sub :
  scan_ok subs acc ->
  scan_ok (subs ++ [sub]) (scan_subscription now wall settings state cur threshold acc sub).
Proof.
  intros [Hc Hall Ho Hs Hcur].
  assert (Hin : forall s, s ∈ subs -> s ∈ subs ++ [sub]) by (intros; apply elem_of_app; by left).
  assert (Hnew : sub ∈ subs ++ [sub]) by (apply elem_of_app; right; apply list_elem_of_here).
  unfold scan_subscription. cbv zeta. destruct (IsExpired sub now) eqn:Ee.
  { assert (Hkeep : scan_ok (subs ++ [sub]) acc).
    { split.
      - intros n Hn. destruct (Hc n Hn) as (s & H1 & H2 & H3). exists s. auto.
      - intros s n [Hm| ->%list_elem_of_singleton]%elem_of_app Hx; [by apply Hall|congruence].
      - exact Ho.
      - intros id s Hl. destruct (Hs id s Hl). auto.
      - intros n Hn. destruct (Hcur n Hn) as (? & ? & ?). auto. }
    destruct (_ && _); [|done]. by destruct Hkeep. }
  set (active := bool_decide (Subscription.ID sub = _)).
  assert (Hparts : exists cs fb, (if active then (sub, sub) else (AllScan.currentSub acc,
      if bool_decide (Subscription.ID (AllScan.fallbackSub acc) = "") &&
         (0 <? length (Subscription.Nodes sub))%nat then sub else AllScan.fallbackSub acc)) = (cs, fb) /\
    (cs = AllScan.currentSub acc \/
     (cs = sub /\ Subscription.ID sub = RuntimeState.ActiveSubscriptionID state))).
  { subst active. destruct (bool_decide _) eqn:E; do 2 eexists; split; [done| |done|by left].
    right. split; [done|]. by apply bool_decide_eq_true in E. }
  destruct Hparts as (cs & fb & -> & Hcs).
  split; cbn [AllScan.candidates AllScan.nodeSubscriptions AllScan.currentSub].
  - intros n [Hn|Hn]%elem_of_app; [|by exists sub].
    destruct (Hc n Hn) as (s & ? & ? & ?). exists s. auto.
  - intros s n [Hm| ->%list_elem_of_singleton]%elem_of_app Hx Hn; apply elem_of_app; [|by right].
    left. by apply (Hall s).
  - intros n [Hn|Hn]%elem_of_app; rewrite add_owners_lookup.
    + destruct (Ho n Hn) as [s ->]. eauto.
    + destruct (_ !! _); [eauto|]. rewrite bool_decide_eq_true_2; [eauto|].
      apply list_elem_of_fmap. eauto.
  - intros id s. rewrite add_owners_lookup. destruct (AllScan.nodeSubscriptions acc !! id) as [s'|] eqn:E.
    + intros [= <-]. destruct (Hs id s' E). auto.
    + case_bool_decide as Hi; [|done]. intros [= <-]. split; [done|]. split; [done|].
      apply list_elem_of_fmap in Hi as (n & -> & Hn). eauto.
  - intros n Hn. destruct Hcs as [->|[-> E]]; [|done]. destruct (Hcur n Hn) as (? & ? & ?). auto.
Qed.

Lemma scan_subscriptions_ok health subs :
  scan_ok subs (scan_subscriptions now wall settings state cur threshold health subs).
Proof.
  unfold scan_subscriptions. induction subs as [|sub subs IH] using rev_ind.
  - split; cbn; try (by intros ? ?%not_elem_of_nil); first [by intros ? ? ?%not_elem_of_nil | by intros ? ? ?].
  - rewrite foldl_app. cbn [foldl]. by apply scan_subscription_ok.
Qed.

End Scan.

(** A global decision: what it may select, and from which subscription. *)
Record sound_global (offers : Subscription -> string -> Prop) (subs : list Subscription)
    (state : RuntimeState) (d : autoSelectionDecision) (selectedSub : Subscription) : Prop := {
  sg_unhealthy : autoSelectionDecision.HasHealthyCandidate d = false ->
    autoSelectionDecision.Switch d = false /\ autoSelectionDecision.Reconnect d = false /\
    forall s n, s ∈ subs -> offers s (Node.ID n) ->
      node_healthy (autoSelectionDecision.Health d) n = false;
  sg_candidate : autoSelectionDecision.HasHealthyCandidate d = true ->
    node_healthy (autoSelectionDecision.Health d) (autoSelectionDecision.CandidateNode d) = true;
  sg_reconnect : autoSelectionDecision.Reconnect d =
    autoSelectionDecision.HasHealthyCandidate d && negb (RuntimeState.Connected state);
  sg_moves : autoSelectionDecision.Switch d = true \/ autoSelectionDecision.Reconnect d = true ->
    (autoSelectionDecision.SelectedNode d = autoSelectionDecision.CandidateNode d /\
     selectedSub ∈ subs /\ offers selectedSub (Node.ID (autoSelectionDecision.SelectedNode d)));
  sg_stay : autoSelectionDecision.HasHealthyCandidate d = true ->
    autoSelectionDecision.Switch d = false ->
    Node.ID (autoSelectionDecision.SelectedNode d) = autoSelectionDecision.CurrentNodeID d /\
    Subscription.ID selectedSub = RuntimeState.ActiveSubscriptionID state
}.

Lemma decide_candidate_all_sound now wall settings state probes cur subs acc health best score :
  let offer := offers now wall settings in
  scan_ok now wall settings state subs acc ->
  best ∈ AllScan.candidates acc ->
  (forall n, n ∈ AllScan.candidates acc -> node_healthy health n = true -> node_healthy health best = true) ->
  let r := decide_candidate_all now (AllScan.nodeSubscriptions acc) (AllScan.currentSub acc) settings state
    probes cur health best score in
  sound_global offer subs state r.1 r.2.
Proof.
  intros offer [Hc Hall Ho Hs Hcur] Hin Hbest. unfold decide_candidate_all. cbv zeta.
  fold (node_healthy health best).
  destruct (Ho best Hin) as [owner Eo]. destruct (Hs _ _ Eo) as [Hos Hoff]. rewrite Eo. cbn [default].
  change (default Subscription.zero (Some owner)) with owner.
  set (moved := fun node sub => negb (bool_decide (Node.ID node = cur)) ||
    negb (bool_decide (Subscription.ID sub = RuntimeState.ActiveSubscriptionID state))).
  assert (Hstay : forall n s, negb (bool_decide (Node.ID n = cur)) ||
    negb (bool_decide (Subscription.ID s = RuntimeState.ActiveSubscriptionID state)) = false ->
    Node.ID n = cur /\ Subscription.ID s = RuntimeState.ActiveSubscriptionID state).
  { intros n s [H1 H2]%orb_false_iff. apply negb_false_iff, bool_decide_eq_true in H1, H2. done. }
  destruct (node_healthy health best) eqn:Eh; cbn [negb].
  2:{ split; cbn; try done.
      - intros _. split; [done|]. split; [done|]. intros s n Hsub [Hexp (m & Hm & Em)].
        apply not_true_iff_false. unfold node_healthy. rewrite <- Em. intros Ht.
        specialize (Hbest m (Hall s m Hsub Hexp Hm) Ht). congruence.
      - by intros [?|?]. }
  destruct (RuntimeState.Connected state) eqn:Econn; cbn [negb].
  2:{ split; cbn; rewrite ?Econn; try done. intros _ H. by apply Hstay in H. }
  destruct (optimizationCandidateWins _ _ _ _ _) as [tid twins].
  destruct (ShouldSwitchWithWins _ _ _ _ _ _) as [sw reason].
  destruct (negb sw && negb (bool_decide (cur = ""))) eqn:Es.
  - destruct (NodeByID (AllScan.currentSub acc) cur) as [active|] eqn:Ea.
    + apply NodeByID_elem in Ea as [Ein Ea]. destruct (Hcur active Ein) as (_ & Eid & _).
      split; cbn; rewrite ?Econn; try done.
      rewrite Ea, Eid, !bool_decide_eq_true_2 by done. by intros [?|?].
    + split; cbn; rewrite ?Econn; try done. intros _ H. by apply Hstay in H.
  - split; cbn; rewrite ?Econn; try done. intros _ H. by apply Hstay in H.
Qed.

(** Evaluating all subscriptions always gives a decision; it moves only to
    its candidate, a healthy node that the returned subscription offers (it is
    stored, not expired, and lists the node, not excluded); a decision to stay
    names the current node and subscription; without a healthy candidate
    nothing on offer is healthy. *)
Theorem evaluateAutoSelectionAll_sound now wall completions egress subs settings state probes :
  exists d sel fallback,
    evaluateAutoSelectionAll now wall completions egress subs settings state probes = Ok (d, sel, fallback) /\
    sound_global (offers now wall settings) subs state d sel.
Proof.
  unfold evaluateAutoSelectionAll. cbv zeta.
  match goal with |- context [scan_subscriptions now wall settings state ?c ?t ?h subs] =>
    pose proof (scan_subscriptions_ok now wall settings state c t h subs) as Hscan;
    set (scan := scan_subscriptions now wall settings state c t h subs) in * end.
  clearbody scan.
  destruct (bool_decide (AllScan.candidates scan = [])) eqn:En.
  { apply bool_decide_eq_true in En. do 3 eexists. split; [done|].
    destruct Hscan as [_ Hall _ _ _]. split; cbn; try done; [|by intros [?|?]].
    intros _. split; [done|]. split; [done|]. intros s n Hs [Hexp (m & Hm & _)].
    specialize (Hall s m Hs Hexp Hm). rewrite En in Hall. by apply not_elem_of_nil in Hall. }
  apply bool_decide_eq_false in En.
  match goal with |- context [SelectBestNode _ ?h _] =>
    destruct (select_best_ok (AllScan.candidates scan) h DefaultScoreConfig En)
      as (best & score & -> & Hin & Hb); revert Hb; generalize h end.
  intros health Hb. cbn [result_bind fst snd].
  match goal with |- context [decide_candidate_all now ?o ?c settings state probes ?k health best score] =>
    pose proof (decide_candidate_all_sound now wall settings state probes k subs scan health best score
      Hscan Hin Hb) as H; destruct (decide_candidate_all now o c settings state probes k health best score)
      as [d sel] end.
  do 3 eexists. split; [done|exact H].
Qed.

(** ** Leaving an excluded node *)

Lemma NodeByID_listed sub n :
  NoDup (Node.ID <$> Subscription.Nodes sub) -> n ∈ Subscription.Nodes sub ->
  NodeByID sub (Node.ID n) = Some n.
Proof.
  intros Hnd Hn. destruct (NodeByID sub (Node.ID n)) as [m|] eqn:Em.
  - apply NodeByID_elem in Em as [Hm Em]. apply list_elem_of_lookup in Hn as [i Hi], Hm as [j Hj].
    rewrite (node_index_unique _ Hnd _ _ _ _ Hi Hj) in Hi by done. congruence.
  - exfalso. by apply (proj1 (find_node_None _ _) Em n).
Qed.

Lemma autoNodeExcluded_listed sub n settings :
  NoDup (Node.ID <$> Subscription.Nodes sub) -> n ∈ Subscription.Nodes sub -> Node.ID n <> "" ->
  autoNodeExcluded sub (Node.ID n) settings = IsNodeExcludedFromAuto settings (Subscription.ID sub) n.
Proof.
  intros Hnd Hn Hid. unfold autoNodeExcluded.
  by rewrite bool_decide_eq_false_2, (NodeByID_listed sub n Hnd Hn) by done.
Qed.

Lemma excluded_not_selectable wall sub settings cur n :
  NoDup (Node.ID <$> Subscription.Nodes sub) -> cur <> "" ->
  autoNodeExcluded sub cur settings = true -> n ∈ autoSelectableNodes wall sub settings ->
  Node.ID n <> cur.
Proof.
  intros Hnd Hcur Hex (_ & Hn & Hsel)%autoSelectableNodes_elem E. subst cur.
  rewrite autoNodeExcluded_listed in Hex by done. congruence.
Qed.

Lemma evaluated_health_keyed now completions egress sub settings state probes transport cur nodes :
  well_keyed (RuntimeState.Health state) ->
  well_keyed (evaluated_health now completions egress sub settings state probes transport cur nodes).
Proof.
  intros H. unfold evaluated_health. cbv zeta. apply check_current_egress_keyed.
  assert (H1 : well_keyed (if autoNodeExcluded sub cur settings
    then forceHealthFailure (RuntimeState.Health state) cur excluded_reason now
      (SwitchPolicy.FailureThreshold (switchPolicyFromSettings settings))
    else RuntimeState.Health state))
    by (destruct (autoNodeExcluded _ _ _); [by apply forceHealthFailure_keyed|done]).
  destruct probes; [by apply probeSubscription_keyed|done].
Qed.

Lemma xrayProbeNodes_elem nodes n :
  n ∈ xrayProbeNodes nodes <-> Node.Protocol n <> ProtocolAmneziaWG /\ n ∈ nodes.
Proof. unfold xrayProbeNodes. by rewrite list_elem_of_filter. Qed.

Lemma evaluated_health_excluded now completions egress sub settings state probes transport cur nodes :
  cur <> "" -> autoNodeExcluded sub cur settings = true ->
  (forall n, n ∈ nodes -> Node.ID n <> cur) ->
  0 <= NodeHealth.ConsecutiveFailures (health_of (RuntimeState.Health state) cur) < 2 ^ 63 - 1 ->
  exists n, 1 <= n /\
    failing (health_of (evaluated_health now completions egress sub settings state probes transport cur nodes)
      cur) cur n excluded_reason now.
Proof.
  intros Hcur Hex Hnodes Hcf. unfold evaluated_health. cbv zeta. rewrite Hex.
  set (t := SwitchPolicy.FailureThreshold (switchPolicyFromSettings settings)).
  destruct (forced_failure_failing _ cur excluded_reason now t Hcf) as (n & Hn & Hf).
  exists n. split; [lia|].
  assert (Hh : forall h, health_of h cur = forced_failure (health_of (RuntimeState.Health state) cur) cur
      excluded_reason now t ->
    health_of (check_current_egress now egress probes (RuntimeState.Connected state) transport cur t h) cur
      = forced_failure (health_of (RuntimeState.Health state) cur) cur excluded_reason now t).
  { intros h E. unfold check_current_egress. rewrite E. pose proof Hf as (_ & -> & _).
    rewrite andb_false_r. exact E. }
  rewrite Hh; [done|].
  assert (Hbase : health_of (forceHealthFailure (RuntimeState.Health state) cur excluded_reason now t) cur
    = forced_failure (health_of (RuntimeState.Health state) cur) cur excluded_reason now t)
    by (unfold forceHealthFailure; rewrite bool_decide_eq_false_2 by done; apply health_of_insert).
  destruct probes; [|done]. rewrite <- Hbase. unfold health_of at 1. rewrite probe_other; [done|].
  intros c m _ Hm E. apply list_elem_of_lookup_2, xrayProbeNodes_elem in Hm as [_ Hm].
  by apply (Hnodes m Hm).
Qed.

(** A failing current node is left for a healthy candidate. *)
Lemma decide_candidate_leaves wall sub settings state probes cur health best score :
  RuntimeState.Connected state = true -> node_healthy health best = true ->
  NodeHealth.NodeID (health_of health (Node.ID best)) <> "" -> Node.ID best <> cur ->
  NodeHealth.Healthy (health_of health cur) = false ->
  autoSelectionDecision.Switch
    (decide_candidate wall sub settings state probes cur health best score) = true.
Proof.
  intros Hconn Hh Hid Hne Hcur. unfold decide_candidate. cbv zeta. fold (node_healthy health best).
  rewrite Hh, Hconn. cbn [negb].
  destruct (optimizationCandidateWins _ _ _ _ _) as [tid twins].
  destruct (ShouldSwitchWithWins _ _ _ _ _ _) as [sw reason] eqn:E.
  assert (Hsw : sw = true).
  { change sw with (sw, reason).1. rewrite <- E. apply should_switch_spec.
    split; [done|]. right. left. by left. }
  subst sw. cbn [negb andb]. cbn. by rewrite bool_decide_eq_false_2.
Qed.

(** An excluded node is never kept: while connected through a node that the
    settings exclude, a check that finds any healthy selectable node decides
    to switch to such a node. *)
Theorem excluded_node_is_left now wall completions egress sub settings state probes cur d :
  RuntimeState.Connected state = true ->
  RuntimeState.ActiveSubscriptionID state = Subscription.ID sub ->
  effectiveActiveTransport state = TransportModeProxy ->
  RuntimeState.ActiveNodeID state = cur -> cur <> "" ->
  NoDup (Node.ID <$> Subscription.Nodes sub) -> "" ∉ Node.ID <$> Subscription.Nodes sub ->
  well_keyed (RuntimeState.Health state) ->
  0 <= NodeHealth.ConsecutiveFailures (health_of (RuntimeState.Health state) cur) < 2 ^ 63 - 1 ->
  autoNodeExcluded sub cur settings = true ->
  evaluateAutoSelection now wall completions egress sub settings state probes = Ok d ->
  autoSelectionDecision.HasHealthyCandidate d = true ->
  autoSelectionDecision.Switch d = true /\
  autoSelectionDecision.SelectedNode d ∈ autoSelectableNodes wall sub settings /\
  autoNodeExcluded sub (Node.ID (autoSelectionDecision.SelectedNode d)) settings = false.
Proof.
  intros Hconn Hsub Htr Hcur Hne Hnd Hids Hkeyed Hcf Hex Hd Hhealthy.
  assert (Hsel : forall n, n ∈ autoSelectableNodes wall sub settings ->
    autoNodeExcluded sub (Node.ID n) settings = false).
  { intros n (_ & Hin & Hok)%autoSelectableNodes_elem. rewrite autoNodeExcluded_listed; [done|done|done|].
    intros E. apply Hids. rewrite <- E. apply list_elem_of_fmap. by exists n. }
  unfold evaluateAutoSelection in Hd. rewrite Hsub, Htr in Hd.
  rewrite (bool_decide_eq_true_2 (Subscription.ID sub = Subscription.ID sub)),
    (bool_decide_eq_true_2 (TransportModeProxy = TransportModeProxy)) in Hd by done. cbn [andb] in Hd. cbv zeta in Hd. rewrite Hcur in Hd.
  destruct (bool_decide (autoSelectableNodes wall sub settings = [])) eqn:En;
    [injection Hd as <-; discriminate Hhealthy|].
  apply bool_decide_eq_false in En.
  set (nodes := autoSelectableNodes wall sub settings) in *.
  assert (Hnodes : forall n, n ∈ nodes -> Node.ID n <> cur)
    by (intros n; by apply excluded_not_selectable).
  destruct (evaluated_health_excluded now completions egress sub settings state probes TransportModeProxy
    cur nodes Hne Hex Hnodes Hcf) as (k & _ & Hf).
  pose proof (evaluated_health_keyed now completions egress sub settings state probes TransportModeProxy
    cur nodes Hkeyed) as Hk.
  revert Hd Hf Hk. generalize (evaluated_health now completions egress sub settings state probes
    TransportModeProxy cur nodes) as health. intros health Hd Hf Hk.
  destruct (select_best_ok nodes health DefaultScoreConfig En) as (best & score & Es & Hin & Hb).
  rewrite Es in Hd. cbn [result_bind fst snd] in Hd. injection Hd as <-.
  pose proof (decide_candidate_sound wall sub settings state probes cur health nodes best score Hin Hb)
    as [_ Hc _ Hm _ _].
  assert (Hbest : node_healthy health best = true).
  { destruct (node_healthy health best) eqn:E; [done|]. exfalso. revert Hhealthy.
    unfold decide_candidate. cbv zeta. fold (node_healthy health best). by rewrite E. }
  assert (Hsw : autoSelectionDecision.Switch
    (decide_candidate wall sub settings state probes cur health best score) = true).
  { apply decide_candidate_leaves; [done|done| |by apply Hnodes|by destruct Hf as (_ & ? & _)].
    rewrite well_keyed_health_of by done. intros E. apply Hids. rewrite <- E.
    apply list_elem_of_fmap. exists best. split; [done|].
    exact (proj1 (proj2 (proj1 (autoSelectableNodes_elem _ _ _ _) Hin))). }
  split; [exact Hsw|]. rewrite (Hm (or_introl Hsw)). destruct (Hc Hhealthy) as [Hcand _].
  split; [exact Hcand|]. by apply Hsel.
Qed.

Definition node_in (protocol id : string) : Node :=
  Node.zero <| Node.ID := id |> <| Node.Protocol := protocol |>.

Definition sample_subscription (id : string) (nodes : list Node) : Subscription :=
  Subscription.mk id SourceTypeURL "" "" "" "" "" "" zero_time None None 0 "" "" nodes.

Definition sample_auto_state (sub node : string) (health : gmap string NodeHealth) : RuntimeState :=
  DefaultRuntimeState <| RuntimeState.Mode := SelectionModeAuto |>
    <| RuntimeState.ActiveSubscriptionID := sub |> <| RuntimeState.ActiveNodeID := node |>
    <| RuntimeState.Connected := true |> <| RuntimeState.ActiveTransport := TransportModeProxy |>
    <| RuntimeState.Health := health |>.

Definition evaluated (r : result ProbeError autoSelectionDecision) : autoSelectionDecision :=
  match r with
  | Ok d => d
  | Err _ => autoSelectionDecision.mk "" Node.zero zero_score Node.zero ∅ false false false "" "" 0
  end.

Lemma excluded_node_is_left_witness :
  let sub := sample_subscription "s" (node_in ProtocolVLESS <$> ["a"; "b"]) in
  let settings := DefaultSettings <| Settings.AutoExcludedNodes := ["s/a"] |> in
  let state := sample_auto_state "s" "a" {[ "a" := sample_health "a" 50 4; "b" := sample_health "b" 300 4 ]} in
  let d := evaluated (evaluateAutoSelection Hour Hour (fun _ => []) (fun _ => None) sub settings state false) in
  autoSelectionDecision.Switch d = true /\ Node.ID (autoSelectionDecision.SelectedNode d) = "b".
Proof.
  intros sub settings state d. split; [|vm_compute; reflexivity].
  refine (proj1 (excluded_node_is_left Hour Hour (fun _ => []) (fun _ => None) sub settings state false "a" d
    _ _ _ _ _ _ _ _ _ _ _ _)); try (vm_compute; reflexivity); try discriminate.
  - apply (bool_decide_unpack _). vm_compute. exact I.
  - apply (bool_decide_unpack _). vm_compute. exact I.
  - apply (bool_decide_unpack _). vm_compute. exact I.
  - split; vm_compute; [discriminate|reflexivity].
Defined.

(** ** Optimisation of a working route *)

Lemma decide_candidate_stays wall sub settings state probes cur health best score :
  RuntimeState.Connected state = true -> cur <> "" -> is_Some (NodeByID sub cur) ->
  RuntimeState.OptimizationCandidateID state = "" -> RuntimeState.OptimizationCandidateWins state = 0 ->
  2 <= SwitchPolicy.RequiredLatencyWins (switchPolicyFromSettings settings) ->
  NodeHealth.NodeID (health_of health cur) <> "" ->
  ~ current_failing (health_of health cur) (switchPolicyFromSettings settings) ->
  let d := decide_candidate wall sub settings state probes cur health best score in
  autoSelectionDecision.Switch d = false /\ autoSelectionDecision.OptimizationCandidateWins d <= 1.
Proof.
  intros Hconn Hcur [active Ha] Hid Hwins Hreq Hnode Hfail. unfold decide_candidate. cbv zeta.
  destruct (NodeHealth.Healthy (health_of health (Node.ID best))); cbn [negb]; [|by split].
  rewrite Hconn. cbn [negb].
  destruct (optimizationCandidateWins _ _ _ _ _) as [tid twins] eqn:Et.
  assert (Htwins : twins <= 1).
  { unfold optimizationCandidateWins in Et. rewrite Hid, Hwins in Et.
    destruct (negb probes || _); [injection Et as <- <-; lia|].
    destruct (bool_decide _); injection Et as <- <-; [|lia]. done. }
  destruct (ShouldSwitchWithWins _ _ _ _ _ _) as [sw reason] eqn:Es.
  assert (Hsw : sw = false).
  { apply not_true_iff_false. intros ->.
    assert (H : (ShouldSwitchWithWins (health_of health cur) (health_of health (Node.ID best)) wall
      (RuntimeState.LastSwitchAt state) (switchPolicyFromSettings settings) twins).1 = true) by (by rewrite Es).
    apply should_switch_spec in H as [_ [?|[?|(_ & _ & _ & [?|?] & _)]]]; (done || lia). }
  rewrite Hsw, Ha. cbn [negb andb]. rewrite (bool_decide_eq_false_2 (cur = "")) by done. cbn [negb].
  apply NodeByID_elem in Ha as [_ Ha]. cbn. rewrite bool_decide_eq_true_2 by done. by split.
Qed.

Lemma loaded_state_forgets svc state :
  loadStateWithAutoHealthCache svc = Ok state ->
  RuntimeState.OptimizationCandidateID state = "" /\ RuntimeState.OptimizationCandidateWins state = 0.
Proof.
  unfold loadStateWithAutoHealthCache. intros (p & Hp & [= <-])%result_bind_ok.
  destruct (loaded_state_modes _ _ Hp) as (_ & Hid & Hw). revert Hid Hw.
  unfold mergeAutoHealthState. destruct (Service.autoHealthState svc) as [c|]; [|by intros].
  destruct (key_matches _ _); [|by intros]. by intros.
Qed.

(** Because loading the state forgets the candidate and its wins, a check
    never counts more than one win: whenever a policy asks for two or more (the
    default asks for four), automatic optimisation never leaves a working
    current node, however much better the candidate is. *)
Theorem optimization_never_confirmed svc state now wall completions egress sub settings probes d :
  loadStateWithAutoHealthCache svc = Ok state ->
  2 <= SwitchPolicy.RequiredLatencyWins (switchPolicyFromSettings settings) ->
  RuntimeState.Connected state = true ->
  evaluateAutoSelection now wall completions egress sub settings state probes = Ok d ->
  autoSelectionDecision.CurrentNodeID d <> "" ->
  is_Some (NodeByID sub (autoSelectionDecision.CurrentNodeID d)) ->
  let current := health_of (autoSelectionDecision.Health d) (autoSelectionDecision.CurrentNodeID d) in
  NodeHealth.NodeID current <> "" ->
  ~ current_failing current (switchPolicyFromSettings settings) ->
  autoSelectionDecision.Switch d = false /\ autoSelectionDecision.OptimizationCandidateWins d <= 1.
Proof.
  intros Hload Hreq Hconn Hd. destruct (loaded_state_forgets _ _ Hload) as [Hid Hwins].
  unfold evaluateAutoSelection in Hd. cbv zeta in Hd.
  destruct (bool_decide (autoSelectableNodes wall sub settings = [])); [injection Hd as <-; by split|].
  apply result_bind_ok in Hd as ([best score] & _ & [= <-]).
  match goal with |- context [decide_candidate wall sub settings state probes ?c ?h best score] =>
    generalize h; generalize c end.
  intros cur health.
  assert (Hf : forall d, d = decide_candidate wall sub settings state probes cur health best score ->
    autoSelectionDecision.CurrentNodeID d = cur /\ autoSelectionDecision.Health d = health).
  { intros d ->. unfold decide_candidate. cbv zeta. destruct (negb _); [done|]. destruct (negb _); [done|].
    destruct (optimizationCandidateWins _ _ _ _ _), (ShouldSwitchWithWins _ _ _ _ _ _).
    destruct (_ && _); [|done]. by destruct (NodeByID sub cur). }
  destruct (Hf _ eq_refl) as [-> ->]. intros Hcur Hnode Hnid Hfail.
  by apply decide_candidate_stays.
Qed.

(** A route through "a" whose optimiser has already seen "b" win nine times. *)
Definition confirmed_state : RuntimeState :=
  (sample_auto_state "s" "a" {[ "a" := sample_health "a" 900 4; "b" := sample_health "b" 50 4 ]})
    <| RuntimeState.OptimizationCandidateID := "b" |> <| RuntimeState.OptimizationCandidateWins := 9 |>.

Lemma optimization_never_confirmed_witness :
  let sub := sample_subscription "s" (node_in ProtocolVLESS <$> ["a"; "b"]) in
  let svc := saveState (fun _ => true) Hour (Service.mk None None) confirmed_state in
  let loaded := reload_state (settle_operational_mode confirmed_state) in
  let d := evaluated (evaluateAutoSelection (2 * Hour) (2 * Hour) (fun _ => []) (fun _ => None) sub
    DefaultSettings loaded true) in
  Node.ID (autoSelectionDecision.CandidateNode d) = "b" /\
  autoSelectionDecision.OptimizationCandidateWins d = 1 /\ autoSelectionDecision.Switch d = false.
Proof.
  intros sub svc loaded d.
  split; [vm_compute; reflexivity|]. split; [vm_compute; reflexivity|].
  refine (proj1 (optimization_never_confirmed svc loaded (2 * Hour) (2 * Hour) (fun _ => []) (fun _ => None) sub
    DefaultSettings true d _ _ _ _ _ _ _ _)).
  - vm_compute. reflexivity.
  - vm_compute. discriminate.
  - vm_compute. reflexivity.
  - vm_compute. reflexivity.
  - vm_compute. discriminate.
  - vm_compute. eauto.
  - vm_compute. discriminate.
  - intros [E|E]; vm_compute in E; [discriminate E|by apply E].
Defined.
