(* ===== verification/Reserves.v ===== *)
(** * Managed reserves

    [app/managed_reserve_ranking.go] and the pure parts of
    [app/managed_reserves.go]: which nodes are kept ready as reserves of the
    active route, in which order they are probed, and how a reserve is
    replaced.  A Go slice expression out of range panics; the model gives
    [None].  [sort.Slice] is not stable, but candidates that compare equal
    have the same subscription, node and tag. *)
From S2P Require Import Prelude GoStrings GoNum Domain Zapret Settings Connection Probe AutoState.
From S2P Require Import AutoSelect.

Local Open Scope Z_scope.
Local Open Scope list_scope.

(** ** Node identity *)

(** [StableNodeID] of [domain/node.go]: the first twelve digits of a SHA-1
    sum, [sha1_hex]; [json_extras] is the JSON text of the extras and
    [drop_tag] the raw outbound written back as JSON without its tag (unchanged
    when it is not an object). *)
Section Identity.
  Context (sha1_hex : string -> string) (json_extras : gmap string string -> string)
          (drop_tag : string -> string).

Definition node_key (node : Node) : string :=
  Join [Node.Protocol node; Node.Address node; Itoa (Node.Port node); Node.UUID node;
        Node.Password node; Node.Name node; Node.Encryption node; Node.Security node;
        Node.ServerName node; Join (Node.ALPN node) ","; Node.Fingerprint node; Node.PublicKey node;
        Node.ShortID node; Node.SpiderX node; Node.Flow node; Node.Transport node; Node.Path node;
        Node.Host node; Node.RawQuery node; Node.RawOutbound node] "|"
  +:+ "|" +:+ json_extras (Node.Extras node).

Definition StableNodeID (node : Node) : string := sha1_hex (node_key node).

(** The same connection under another name is the same reserve. *)
Definition managedReserveConnectionFingerprint (node : Node) : string :=
  StableNodeID (Node.mk "" "" "" "" (Node.Protocol node) (Node.Address node) (Node.Port node)
    (Node.UUID node) (Node.Password node) (Node.Encryption node) (Node.Security node)
    (Node.ServerName node) (Node.ALPN node) (Node.Fingerprint node) (Node.PublicKey node)
    (Node.ShortID node) (Node.SpiderX node) (Node.Flow node) (Node.Transport node) (Node.Path node)
    (Node.Host node) "" (Node.RawQuery node) (Node.Extras node)
    (if bool_decide (Node.RawOutbound node = "") then "" else drop_tag (Node.RawOutbound node))).

End Identity.

(** ** Candidates *)

Definition managedReserveLimit : nat := 2.
Definition managedReserveProbeLimit : nat := 2.
Definition managedReserveHealthyConfirmations : Z := 2.
Definition managedReserveScoreEquivalence : f64 := f64_of_Z 100.
Definition managedReservePromotionAbsolute : f64 := f64_of_Z 50.
Definition managedReservePromotionRelative : f64 := f64_const 20 100.
Definition managedReservePromotionConfirmations : Z := 2.

Module managedReserveCandidate.
Record managedReserveCandidate : Type := mk {
  sub : Subscription;
  node : Node;
  tag : string;
  verifiedAt : Time
}.
End managedReserveCandidate.
Abbreviation managedReserveCandidate := managedReserveCandidate.managedReserveCandidate.
Abbreviation candidate_sub := managedReserveCandidate.sub.
Abbreviation candidate_node := managedReserveCandidate.node.
Abbreviation candidate_tag := managedReserveCandidate.tag.

Definition candidate_id (c : managedReserveCandidate) : string := Node.ID (candidate_node c).

Section Collect.
  Context (fingerprint : Node -> string).

(** Candidates with the fingerprints seen so far. *)
Definition collect_node (settings : Settings) (state : RuntimeState) (sub : Subscription)
    (acc : list managedReserveCandidate * list string) (node : Node)
    : list managedReserveCandidate * list string :=
  let '(candidates, seen) := acc in
  if negb (bool_decide (RuntimeState.OperationalMode state = OperationalModeDirect))
     && bool_decide (Subscription.ID sub = RuntimeState.ActiveSubscriptionID state)
     && bool_decide (Node.ID node = RuntimeState.ActiveNodeID state)
  then acc
  else if IsNodeExcludedFromAuto settings (Subscription.ID sub) node then acc
  else if bool_decide (fingerprint node ∈ seen) then acc
  else (candidates ++ [managedReserveCandidate.mk sub node "" zero_time], fingerprint node :: seen).

Definition collect_subscription (settings : Settings) (state : RuntimeState) (now : Time)
    (acc : list managedReserveCandidate * list string) (sub : Subscription)
    : list managedReserveCandidate * list string :=
  if IsExpired sub now then acc
  else foldl (collect_node settings state sub) acc (Subscription.Nodes sub).

Definition collectManagedReserveCandidates (subscriptions : list Subscription) (settings : Settings)
    (state : RuntimeState) (now : Time) : list managedReserveCandidate :=
  (foldl (collect_subscription settings state now) ([], []) subscriptions).1.

End Collect.

(** ** Ranking *)

Module managedReserveRankedCandidate.
Record managedReserveRankedCandidate : Type := mk {
  candidate : managedReserveCandidate;
  score : ScoreResult.ScoreResult;
  hasHistory : bool
}.
End managedReserveRankedCandidate.
Abbreviation managedReserveRankedCandidate := managedReserveRankedCandidate.managedReserveRankedCandidate.
Abbreviation ranked_candidate := managedReserveRankedCandidate.candidate.
Abbreviation ranked_score := managedReserveRankedCandidate.score.

Definition managedReserveHealthTier (c : managedReserveRankedCandidate) : Z :=
  if managedReserveRankedCandidate.hasHistory c && ScoreResult.Healthy (ranked_score c) then 0
  else if negb (managedReserveRankedCandidate.hasHistory c) then 1
  else 2.

Definition managedReserveScore (health : gmap string NodeHealth) (c : managedReserveCandidate)
    : ScoreResult.ScoreResult :=
  CalculateScore ((health_of health (candidate_id c)) <| NodeHealth.NodeID := candidate_id c |>)
    DefaultScoreConfig.

Definition rank_candidate (health : gmap string NodeHealth) (c : managedReserveCandidate)
    : managedReserveRankedCandidate :=
  managedReserveRankedCandidate.mk c (managedReserveScore health c)
    (bool_decide (is_Some (health !! candidate_id c))).

Definition string_ltb (a b : string) : bool := negb (bool_decide (a = b)) && bool_decide (String.le a b).

Definition reserve_less (left right : managedReserveRankedCandidate) : bool :=
  let l := ranked_candidate left in
  let r := ranked_candidate right in
  let ls := ScoreResult.Score (ranked_score left) in
  let rs := ScoreResult.Score (ranked_score right) in
  if negb (managedReserveHealthTier left =? managedReserveHealthTier right)
  then managedReserveHealthTier left <? managedReserveHealthTier right
  else if negb (f64_eqb ls rs) then f64_ltb rs ls
  else if negb (bool_decide (Subscription.ID (candidate_sub l) = Subscription.ID (candidate_sub r)))
  then string_ltb (Subscription.ID (candidate_sub l)) (Subscription.ID (candidate_sub r))
  else if negb (bool_decide (candidate_id l = candidate_id r))
  then string_ltb (candidate_id l) (candidate_id r)
  else string_ltb (candidate_tag l) (candidate_tag r).

(** The loop of [preferEquivalentDifferentSubscription] over the positions from
    the third on: [skipped] are the positions passed so far. *)
Fixpoint diverse_second (first : string) (tier : Z) (minimum : f64)
    (skipped rest : list managedReserveRankedCandidate)
    : option (managedReserveRankedCandidate * list managedReserveRankedCandidate) :=
  match rest with
  | [] => None
  | c :: rest =>
    if negb (managedReserveHealthTier c =? tier) then None
    else if f64_ltb (ScoreResult.Score (ranked_score c)) minimum then None
    else if bool_decide (Subscription.ID (candidate_sub (ranked_candidate c)) = first)
    then diverse_second first tier minimum (skipped ++ [c]) rest
    else Some (c, skipped ++ rest)
  end.

Definition preferEquivalentDifferentSubscription (ranked : list managedReserveRankedCandidate)
    : list managedReserveRankedCandidate :=
  match ranked with
  | first :: second :: third :: rest =>
    let sub c := Subscription.ID (candidate_sub (ranked_candidate c)) in
    if negb (bool_decide (sub first = sub second)) then ranked
    else
      match diverse_second (sub first) (managedReserveHealthTier second)
              (f64_sub (ScoreResult.Score (ranked_score second)) managedReserveScoreEquivalence)
              [] (third :: rest) with
      | Some (c, others) => first :: c :: second :: others
      | None => ranked
      end
  | _ => ranked
  end.

Definition rankManagedReserveCandidates (candidates : list managedReserveCandidate)
    (health : gmap string NodeHealth) : list managedReserveCandidate :=
  ranked_candidate <$>
    preferEquivalentDifferentSubscription
      (stable_sort reserve_less (rank_candidate health <$> candidates)).

(** ** Retained candidates and the order of probes *)

Definition role_active := "active".
Definition role_reserve := "reserve".
Definition role_candidate := "candidate".
Definition role_draining := "draining".

Definition candidate_key (c : managedReserveCandidate) : string :=
  AutoExcludedNodeKey (Subscription.ID (candidate_sub c)) (candidate_id c).

(** [byNode[key]]: the last eligible candidate with the key. *)
Definition by_node (eligible : list managedReserveCandidate) (key : string)
    : option managedReserveCandidate :=
  List.find (fun c => bool_decide (candidate_key c = key)) (reverse eligible).

Definition managed_role (o : RuntimeOutboundState) : bool :=
  bool_decide (RuntimeOutboundState.Role o = role_reserve)
  || bool_decide (RuntimeOutboundState.Role o = role_candidate).

Definition keep_existing (eligible : list managedReserveCandidate)
    (acc : list managedReserveCandidate * list string) (outbound : RuntimeOutboundState)
    : list managedReserveCandidate * list string :=
  let '(existing, seen) := acc in
  if negb (managed_role outbound) then acc
  else
    let key := AutoExcludedNodeKey (RuntimeOutboundState.SubscriptionID outbound)
                 (RuntimeOutboundState.NodeID outbound) in
    match by_node eligible key with
    | None => acc
    | Some c =>
      if bool_decide (key ∈ seen) then acc
      else (existing ++ [managedReserveCandidate.mk (candidate_sub c) (candidate_node c)
                           (RuntimeOutboundState.Tag outbound) (RuntimeOutboundState.VerifiedAt outbound)],
            key :: seen)
    end.

Definition existingManagedReserveCandidates (outbounds : list RuntimeOutboundState)
    (eligible : list managedReserveCandidate) : list managedReserveCandidate :=
  (foldl (keep_existing eligible) ([], []) outbounds).1.

Definition runtimeOutboundTags (outbounds : list RuntimeOutboundState) : gset string :=
  list_to_set (filter (fun t => t <> "") (RuntimeOutboundState.Tag <$> outbounds)).

Definition containsManagedCandidate (candidates : list managedReserveCandidate) (tag : string) : bool :=
  existsb (fun c => bool_decide (candidate_tag c = tag)) candidates.

(** [l[:n]] of a slice. *)
Definition slice_to {A} (l : list A) (n : Z) : option (list A) :=
  if (0 <=? n) && (n <=? Z.of_nat (length l)) then Some (take (Z.to_nat n) l) else None.

(** The first unknown candidate moves on by one every minute; a clock before
    1970 gives a negative offset. *)
Definition rotate_unknown (now : Time) (unknown : list managedReserveCandidate)
    : option (list managedReserveCandidate) :=
  if (length unknown =? 0)%nat then Some []
  else
    let offset := Z.rem (Z.quot (Unix now) 60) (Z.of_nat (length unknown)) in
    if offset <? 0 then None
    else Some (drop (Z.to_nat offset) unknown ++ take (Z.to_nat offset) unknown).

Definition measured_slots (existing measured unknown : list managedReserveCandidate) : Z :=
  let slots := Z.of_nat managedReserveProbeLimit - Z.of_nat (length existing) in
  let slots := if (0 <? length unknown)%nat && (0 <? slots) then slots - 1 else slots in
  if Z.of_nat (length measured) <? slots then Z.of_nat (length measured) else slots.

Definition managedReserveProbeOrder (existing ranked : list managedReserveCandidate)
    (health : gmap string NodeHealth) (now : Time) : option (list managedReserveCandidate) :=
  let fresh := filter (fun c => containsManagedCandidate existing (candidate_tag c) = false) ranked in
  let measured := filter (fun c => is_Some (health !! candidate_id c)) fresh in
  let unknown := filter (fun c => health !! candidate_id c = None) fresh in
  let slots := measured_slots existing measured unknown in
  head ← slice_to measured slots;
  rotated ← rotate_unknown now unknown;
  Some (existing ++ head ++ rotated ++ drop (Z.to_nat slots) measured).

(** ** Choosing the reserves *)

Definition managedReserveWithinDiversityWindow (health : gmap string NodeHealth)
    (challenger incumbent : managedReserveCandidate) : bool :=
  let c := managedReserveScore health challenger in
  let i := managedReserveScore health incumbent in
  ScoreResult.Healthy c && ScoreResult.Healthy i &&
  f64_leb (f64_sub (ScoreResult.Score i) managedReserveScoreEquivalence) (ScoreResult.Score c).

Definition managedReserveMeaningfullyBetter (health : gmap string NodeHealth)
    (challenger incumbent : managedReserveCandidate) : bool :=
  let c := managedReserveScore health challenger in
  let i := managedReserveScore health incumbent in
  if negb (ScoreResult.Healthy c) || negb (ScoreResult.Healthy i)
  then ScoreResult.Healthy c && negb (ScoreResult.Healthy i)
  else
    let improvement := f64_sub (ScoreResult.Score c) (ScoreResult.Score i) in
    let incumbentCost := f64_sub (ScoreConfig.HealthyBonus DefaultScoreConfig) (ScoreResult.Score i) in
    f64_leb managedReservePromotionAbsolute improvement && f64_ltb f64_zero incumbentCost
    && f64_leb managedReservePromotionRelative (f64_div improvement incumbentCost).

Definition managedReserveState (health : gmap string NodeHealth) (c : managedReserveCandidate)
    (score : f64) (role reason : string) (wins : Z) (now : Time) : RuntimeOutboundState :=
  let h := health_of health (candidate_id c) in
  RuntimeOutboundState.mk (candidate_tag c) (Subscription.ID (candidate_sub c)) (candidate_id c) role now
    score (wrap64 (NodeHealth.SuccessCount h + NodeHealth.FailureCount h)) reason wins zero_time zero_time.

(** [byTag[tag]] and [oldByTag[tag]]: the last entry with the tag. *)
Definition by_tag (candidates : list managedReserveCandidate) (tag : string)
    : option managedReserveCandidate :=
  List.find (fun c => bool_decide (candidate_tag c = tag)) (reverse candidates).

Definition old_wins (previous : list RuntimeOutboundState) (tag : string) : Z :=
  match List.find (fun o => bool_decide (RuntimeOutboundState.Tag o = tag)) (reverse previous) with
  | Some o => RuntimeOutboundState.PromotionWins o
  | None => 0
  end.

(** The reserves of the previous round that succeeded again. *)
Definition keep_reserve (confirmed : list managedReserveCandidate) (reserves : list managedReserveCandidate)
    (outbound : RuntimeOutboundState) : list managedReserveCandidate :=
  if bool_decide (RuntimeOutboundState.Role outbound = role_reserve)
  then match by_tag confirmed (RuntimeOutboundState.Tag outbound) with
       | Some c => if (length reserves <? managedReserveLimit)%nat then reserves ++ [c] else reserves
       | None => reserves
       end
  else reserves.

(** The best others fill the free places. *)
Definition fill_reserve (reserves : list managedReserveCandidate) (c : managedReserveCandidate)
    : list managedReserveCandidate :=
  if (managedReserveLimit <=? length reserves)%nat then reserves
  else if containsManagedCandidate reserves (candidate_tag c) then reserves
  else reserves ++ [c].

(** The challenger that is better than the weakest reserve, or as good from
    another subscription than the two reserves share. *)
Definition is_upgrade (health : gmap string NodeHealth) (r0 r1 weakest challenger : managedReserveCandidate)
    : bool :=
  negb (containsManagedCandidate [r0; r1] (candidate_tag challenger)) &&
  (managedReserveMeaningfullyBetter health challenger weakest
   || (bool_decide (Subscription.ID (candidate_sub r0) = Subscription.ID (candidate_sub r1))
       && negb (bool_decide (Subscription.ID (candidate_sub challenger) = Subscription.ID (candidate_sub r0)))
       && managedReserveWithinDiversityWindow health challenger weakest)).

(** The reserves after a promotion, and the challenger that still has to win
    once more. *)
Definition challenge (health : gmap string NodeHealth) (previous : list RuntimeOutboundState)
    (ranked reserves : list managedReserveCandidate)
    : list managedReserveCandidate * option managedReserveCandidate :=
  match reserves with
  | [r0; r1] =>
    let weak1 := f64_ltb (ScoreResult.Score (managedReserveScore health r1))
                         (ScoreResult.Score (managedReserveScore health r0)) in
    let weakest := if weak1 then r1 else r0 in
    match List.find (is_upgrade health r0 r1 weakest) ranked with
    | Some challenger =>
      if managedReservePromotionConfirmations <=? wrap64 (old_wins previous (candidate_tag challenger) + 1)
      then ((if weak1 then [r0; challenger] else [challenger; r1]), None)
      else (reserves, Some challenger)
    | None => (reserves, None)
    end
  | _ => (reserves, None)
  end.

Definition reason_best := "best reliability and latency score".
Definition reason_diverse := "provider diversity within 100 ms score".
Definition reason_pending := "awaiting second promotion confirmation".

Definition reserve_states (health : gmap string NodeHealth) (now : Time)
    (ordered : list managedReserveCandidate) : list RuntimeOutboundState :=
  imap (fun index c =>
    let reason :=
      if (index =? 1)%nat &&
         negb (bool_decide (Some (Subscription.ID (candidate_sub c)) =
                            (fun f => Subscription.ID (candidate_sub f)) <$> head ordered))
      then reason_diverse else reason_best in
    managedReserveState health c (ScoreResult.Score (managedReserveScore health c)) role_reserve reason 0 now)
    ordered.

Definition confirmed_candidates (health : gmap string NodeHealth)
    (successful : list managedReserveCandidate) : list managedReserveCandidate :=
  filter (fun c => managedReserveHealthyConfirmations <=
    NodeHealth.ConsecutiveSuccesses (health_of health (candidate_id c))) successful.

Definition selectManagedReserveStates (successful : list managedReserveCandidate)
    (health : gmap string NodeHealth) (previous : list RuntimeOutboundState) (now : Time)
    : list RuntimeOutboundState :=
  let confirmed := confirmed_candidates health successful in
  if bool_decide (confirmed = []) then []
  else
    let ranked := rankManagedReserveCandidates confirmed health in
    let reserves := foldl fill_reserve (foldl (keep_reserve confirmed) [] previous) ranked in
    let '(reserves, pending) := challenge health previous ranked reserves in
    reserve_states health now (rankManagedReserveCandidates reserves health) ++
    match pending with
    | None => []
    | Some c =>
      [managedReserveState health c (ScoreResult.Score (managedReserveScore health c)) role_candidate
         reason_pending (wrap64 (old_wins previous (candidate_tag c) + 1)) now]
    end.

(** ** Backoff and the set of outbounds *)

Definition managedCandidateBackoff (failures : Z) : Z :=
  if failures =? 1 then 5 * Minute
  else if failures =? 2 then 10 * Minute
  else if failures =? 3 then 20 * Minute
  else 30 * Minute.

(** [updateRuntimeOutbound] of [app/service.go]. *)
Definition inherit_outbound (old next : RuntimeOutboundState) : RuntimeOutboundState :=
  let next := if bool_decide (RuntimeOutboundState.SubscriptionID next = "")
    then next <| RuntimeOutboundState.SubscriptionID := RuntimeOutboundState.SubscriptionID old |> else next in
  let next := if bool_decide (RuntimeOutboundState.NodeID next = "")
    then next <| RuntimeOutboundState.NodeID := RuntimeOutboundState.NodeID old |> else next in
  if IsZero (RuntimeOutboundState.VerifiedAt next)
  then next <| RuntimeOutboundState.VerifiedAt := RuntimeOutboundState.VerifiedAt old |> else next.

Fixpoint updateRuntimeOutbound (outbounds : list RuntimeOutboundState) (next : RuntimeOutboundState)
    : list RuntimeOutboundState :=
  match outbounds with
  | [] => [next]
  | o :: rest =>
    if bool_decide (RuntimeOutboundState.Tag o = RuntimeOutboundState.Tag next)
    then inherit_outbound o next :: rest
    else o :: updateRuntimeOutbound rest next
  end.
