(* ===== verification/ReservesFacts.v ===== *)
(** * Managed reserves: theorems

    Who may become a reserve, in which order candidates are probed and when
    that order does not exist, and what a round of probes leaves. *)
From S2P Require Import Prelude GoStrings GoNum Domain Zapret Settings Connection Probe AutoState.
From S2P Require Import AutoSelect Reserves.

Local Open Scope Z_scope.
Local Open Scope list_scope.

(** ** Collecting *)

Section Collect.
  Context (fingerprint : Node -> string) (settings : Settings) (state : RuntimeState) (now : Time).

(** The node of [sub] may become a reserve. *)
Definition may_reserve (sub : Subscription) (node : Node) : Prop :=
  IsExpired sub now = false /\ node ∈ Subscription.Nodes sub /\
  IsNodeExcludedFromAuto settings (Subscription.ID sub) node = false /\
  (RuntimeState.OperationalMode state = OperationalModeDirect \/
   Subscription.ID sub <> RuntimeState.ActiveSubscriptionID state \/
   Node.ID node <> RuntimeState.ActiveNodeID state).

Definition candidate_fingerprint (c : managedReserveCandidate) : string := fingerprint (candidate_node c).

(** [candidates] with the set [seen] of their fingerprints, once the pairs
    [done] have been visited. *)
Record collected (visited : Subscription -> Node -> Prop)
    (acc : list managedReserveCandidate * list string) : Prop := {
  col_sound : forall c, c ∈ acc.1 ->
    visited (candidate_sub c) (candidate_node c) /\ may_reserve (candidate_sub c) (candidate_node c) /\
    candidate_tag c = "";
  col_seen : forall f, f ∈ acc.2 <-> f ∈ candidate_fingerprint <$> acc.1;
  col_distinct : NoDup (candidate_fingerprint <$> acc.1);
  col_complete : forall sub node, visited sub node -> may_reserve sub node ->
    fingerprint node ∈ candidate_fingerprint <$> acc.1
}.

Definition visit (visited : Subscription -> Node -> Prop) (sub : Subscription) (node : Node)
    : Subscription -> Node -> Prop :=
  fun s n => visited s n \/ (s = sub /\ n = node).

Lemma collect_node_ok visited acc sub node :
  IsExpired sub now = false -> node ∈ Subscription.Nodes sub ->
  collected visited acc ->
  collected (visit visited sub node) (collect_node fingerprint settings state sub acc node).
Proof.
  intros Hexp Hin [Hs Hseen Hnd Hc]. destruct acc as [cs seen]. cbn [fst snd] in *.
  assert (Hskip : (~ may_reserve sub node \/ fingerprint node ∈ candidate_fingerprint <$> cs) ->
    collected (visit visited sub node) (cs, seen)).
  { intros Hno. split; cbn [fst snd]; [|done|done|].
    - intros c Hin'. destruct (Hs c Hin') as (? & ? & ?). split; [by left|done].
    - intros s n [Hv|[-> ->]] Hm; [by eapply Hc|]. by destruct Hno. }
  unfold collect_node.
  destruct (negb (bool_decide (RuntimeState.OperationalMode state = OperationalModeDirect)) &&
    bool_decide (Subscription.ID sub = RuntimeState.ActiveSubscriptionID state) &&
    bool_decide (Node.ID node = RuntimeState.ActiveNodeID state)) eqn:Ea.
  { apply Hskip. left. intros (_ & _ & _ & Hm).
    apply andb_true_iff in Ea as [[E1%negb_true_iff%bool_decide_eq_false E2%bool_decide_eq_true]%andb_true_iff
      E3%bool_decide_eq_true]. tauto. }
  destruct (IsNodeExcludedFromAuto settings (Subscription.ID sub) node) eqn:Ee.
  { apply Hskip. left. intros (_ & _ & Hm & _). congruence. }
  destruct (bool_decide_reflect (fingerprint node ∈ seen)) as [Hf|Hf];
    [apply Hskip; right; exact (proj1 (Hseen _) Hf)|].
  assert (Hmay : may_reserve sub node).
  { split; [done|]. split; [done|]. split; [done|].
    destruct (decide (RuntimeState.OperationalMode state = OperationalModeDirect)) as [|H1]; [by left|].
    destruct (decide (Subscription.ID sub = RuntimeState.ActiveSubscriptionID state)) as [H2|];
      [|right; by left]. right. right. intros H3.
    rewrite (bool_decide_eq_false_2 (RuntimeState.OperationalMode state = OperationalModeDirect)),
      (bool_decide_eq_true_2 (Subscription.ID sub = _)), (bool_decide_eq_true_2 (Node.ID node = _)) in Ea
      by done.
    discriminate Ea. }
  split; cbn [fst snd].
  - intros c [Hin'| ->%list_elem_of_singleton]%elem_of_app.
    + destruct (Hs c Hin') as (? & ? & ?). split; [by left|done].
    + cbn. split; [by right|done].
  - intros f. rewrite fmap_app, elem_of_app, elem_of_cons, Hseen. cbn. rewrite list_elem_of_singleton. tauto.
  - rewrite fmap_app. apply NoDup_app. split; [done|]. split; [|apply NoDup_singleton].
    intros f Hf1 Hf2%list_elem_of_singleton. subst f. apply Hf, Hseen. exact Hf1.
  - intros s n Hv Hm. rewrite fmap_app, elem_of_app. destruct Hv as [Hv|[-> ->]]; [left; by eapply Hc|].
    right. apply list_elem_of_here.
Qed.

Lemma collected_ext (P Q : Subscription -> Node -> Prop) acc :
  (forall s n, P s n -> Q s n) -> (forall s n, Q s n -> may_reserve s n -> P s n) ->
  collected P acc -> collected Q acc.
Proof.
  intros H1 H2 [Hs Hseen Hnd Hc]. split; [|done|done|].
  - intros c Hin. destruct (Hs c Hin) as (? & ? & ?). auto.
  - intros s n Hq Hm. eapply Hc; [by apply H2|done].
Qed.

Lemma collect_nodes_ok visited acc sub nodes :
  IsExpired sub now = false -> (forall n, n ∈ nodes -> n ∈ Subscription.Nodes sub) ->
  collected visited acc ->
  collected (fun s n => visited s n \/ (s = sub /\ n ∈ nodes))
    (foldl (collect_node fingerprint settings state sub) acc nodes).
Proof.
  intros Hexp. revert visited acc. induction nodes as [|node nodes IH]; intros visited acc Hin Hacc; cbn [foldl].
  - eapply collected_ext; [| |exact Hacc]; [by left|].
    intros s n [H|[_ H%not_elem_of_nil]] _; done.
  - eapply collected_ext; [| |apply (IH (visit visited sub node))].
    + intros s n [[H|[-> ->]]|[-> H]]; [by left|right; split; [done|apply list_elem_of_here]|
        right; split; [done|by apply list_elem_of_further]].
    + intros s n [H|[-> [->|H]%elem_of_cons]] _; [left; by left|left; by right|by right].
    + intros n Hn. by apply Hin, list_elem_of_further.
    + apply collect_node_ok; [done|apply Hin, list_elem_of_here|done].
Qed.

Lemma collect_subscriptions_ok visited acc subs :
  collected visited acc ->
  collected (fun s n => visited s n \/ (s ∈ subs /\ n ∈ Subscription.Nodes s))
    (foldl (collect_subscription fingerprint settings state now) acc subs).
Proof.
  revert visited acc. induction subs as [|sub subs IH]; intros visited acc Hacc; cbn [foldl].
  - eapply collected_ext; [| |exact Hacc]; [by left|].
    intros s n [H|[H%not_elem_of_nil _]] _; done.
  - set (visited' := fun s n => visited s n \/ (s = sub /\ n ∈ Subscription.Nodes sub)).
    assert (Hstep : collected visited' (collect_subscription fingerprint settings state now acc sub)).
    { unfold collect_subscription. destruct (IsExpired sub now) eqn:Ee.
      - eapply collected_ext; [| |exact Hacc]; [by left|].
        intros s n [H|[-> _]] (Hx & _); [done|congruence].
      - by apply collect_nodes_ok. }
    eapply collected_ext; [| |apply (IH visited'), Hstep].
    + intros s n [[H|[-> H]]|[H1 H2]]; [by left|right; split; [apply list_elem_of_here|done]|
        right; split; [by apply list_elem_of_further|done]].
    + intros s n [H|[[->|H1]%elem_of_cons H2]] _; [left; by left|left; by right|by right].
Qed.

End Collect.

(** The reserve candidates are exactly the usable connections: each comes
    from an unexpired subscription, is not excluded and is not the active route
    (unless traffic is direct); no connection occurs twice, whatever its name,
    and every usable node is represented. *)
Theorem collectManagedReserveCandidates_spec fingerprint subs settings state now :
  let cs := collectManagedReserveCandidates fingerprint subs settings state now in
  (forall c, c ∈ cs -> candidate_sub c ∈ subs /\
     may_reserve settings state now (candidate_sub c) (candidate_node c)) /\
  NoDup (candidate_fingerprint fingerprint <$> cs) /\
  (forall sub node, sub ∈ subs -> may_reserve settings state now sub node ->
     exists c, c ∈ cs /\ fingerprint (candidate_node c) = fingerprint node).
Proof.
  intros cs.
  assert (H0 : collected fingerprint settings state now (fun _ _ => False) ([], [])).
  { split; cbn; [by intros c ?%not_elem_of_nil|done|constructor|done]. }
  pose proof (collect_subscriptions_ok fingerprint settings state now _ _ subs H0) as [Hs _ Hnd Hc].
  fold (collectManagedReserveCandidates fingerprint subs settings state now) in *. fold cs in Hs, Hnd, Hc.
  split; [|split; [done|]].
  - intros c Hin. destruct (Hs c Hin) as ([[]|[H1 H2]] & H & _). done.
  - intros sub node Hsub Hm. pose proof Hm as (_ & Hn & _).
    assert (Hf : fingerprint node ∈ candidate_fingerprint fingerprint <$> cs) by (eapply Hc; [by right|done]).
    apply list_elem_of_fmap in Hf as (c & E & Hin). by exists c.
Qed.

(** ** The order of probes *)

Lemma slice_to_some {A} (l : list A) n : 0 <= n <= Z.of_nat (length l) -> slice_to l n = Some (take (Z.to_nat n) l).
Proof.
  intros H. unfold slice_to. by rewrite (proj2 (Z.leb_le 0 n)), (proj2 (Z.leb_le n _)) by lia.
Qed.

Lemma slice_to_negative {A} (l : list A) n : n < 0 -> slice_to l n = None.
Proof. intros H. unfold slice_to. by rewrite (proj2 (Z.leb_gt 0 n)) by lia. Qed.

Lemma rotate_unknown_some now unknown :
  0 <= Unix now ->
  exists k, (unknown <> [] -> Z.of_nat k = (Unix now / 60) mod Z.of_nat (length unknown)) /\
    rotate_unknown now unknown = Some (drop k unknown ++ take k unknown).
Proof.
  intros Hnow. unfold rotate_unknown. destruct (Nat.eqb_spec (length unknown) 0) as [E|E].
  { apply nil_length_inv in E as ->. by exists 0%nat. }
  assert (Hrem : Z.rem (Z.quot (Unix now) 60) (Z.of_nat (length unknown)) =
    (Unix now / 60) mod Z.of_nat (length unknown)).
  { rewrite Z.quot_div_nonneg by lia. apply Z.rem_mod_nonneg; [|lia]. apply Z.div_pos; lia. }
  rewrite Hrem. pose proof (Z.mod_pos_bound (Unix now / 60) (Z.of_nat (length unknown)) ltac:(lia)).
  rewrite (proj2 (Z.ltb_ge _ 0)) by lia. eexists. split; [|done]. intros _. lia.
Qed.

Lemma measured_slots_range existing measured unknown :
  (length existing <= managedReserveProbeLimit)%nat ->
  0 <= measured_slots existing measured unknown <= Z.of_nat (length measured) /\
  (unknown <> [] -> (length existing < managedReserveProbeLimit)%nat ->
   Z.of_nat (length existing) + measured_slots existing measured unknown < Z.of_nat managedReserveProbeLimit).
Proof.
  intros H. unfold measured_slots. destruct unknown as [|u unknown]; cbn [length Nat.ltb Nat.leb andb].
  - destruct (Z.ltb_spec (Z.of_nat (length measured))
      (Z.of_nat managedReserveProbeLimit - Z.of_nat (length existing))); split; (done || lia).
  - destruct (Z.ltb_spec 0 (Z.of_nat managedReserveProbeLimit - Z.of_nat (length existing)));
      match goal with |- context [?a <? ?b] => destruct (Z.ltb_spec a b) end; split; lia.
Qed.

Lemma measured_slots_negative existing measured unknown :
  (managedReserveProbeLimit < length existing)%nat -> measured_slots existing measured unknown < 0.
Proof.
  intros H. unfold measured_slots.
  rewrite (proj2 (Z.ltb_ge 0 (Z.of_nat managedReserveProbeLimit - Z.of_nat (length existing)))) by lia.
  rewrite andb_false_r.
  rewrite (proj2 (Z.ltb_ge (Z.of_nat (length measured)) _)) by lia. lia.
Qed.

(** The candidates the retained ones leave. *)
Definition fresh_candidates (existing ranked : list managedReserveCandidate) : list managedReserveCandidate :=
  filter (fun c => containsManagedCandidate existing (candidate_tag c) = false) ranked.

Definition unknown_candidates (health : gmap string NodeHealth)
    (existing ranked : list managedReserveCandidate) : list managedReserveCandidate :=
  filter (fun c => health !! candidate_id c = None) (fresh_candidates existing ranked).

Definition measured_candidates (health : gmap string NodeHealth)
    (existing ranked : list managedReserveCandidate) : list managedReserveCandidate :=
  filter (fun c => is_Some (health !! candidate_id c)) (fresh_candidates existing ranked).

Lemma split_known_perm (health : gmap string NodeHealth) (l : list managedReserveCandidate) :
  filter (fun c => is_Some (health !! candidate_id c)) l ++
  filter (fun c => health !! candidate_id c = None) l ≡ₚ l.
Proof.
  induction l as [|c l IH]; [done|]. rewrite !filter_cons.
  destruct (health !! candidate_id c) as [h|] eqn:E.
  - rewrite decide_True by eauto. rewrite decide_False by done. cbn. by rewrite IH.
  - rewrite decide_False by (by intros [? ?]). rewrite decide_True by done.
    by rewrite <- Permutation_middle, IH.
Qed.

(** The order of probes exists exactly while at most two outbounds are
    retained: with three the slice bound is negative and the program panics.
    Otherwise every candidate is in the order once, the retained ones first,
    and while at most one is retained each never-measured candidate gets one of
    the first two places in its minute. *)
Theorem managedReserveProbeOrder_spec existing ranked health now :
  0 <= Unix now ->
  (managedReserveProbeOrder existing ranked health now = None <->
     (managedReserveProbeLimit < length existing)%nat) /\
  (forall order, managedReserveProbeOrder existing ranked health now = Some order ->
     take (length existing) order = existing /\
     order ≡ₚ existing ++ fresh_candidates existing ranked /\
     ((length existing < managedReserveProbeLimit)%nat ->
      forall k c, unknown_candidates health existing ranked !! k = Some c ->
        Z.of_nat k = (Unix now / 60) mod Z.of_nat (length (unknown_candidates health existing ranked)) ->
        c ∈ take managedReserveProbeLimit order)).
Proof.
  intros Hnow. unfold managedReserveProbeOrder. cbv zeta.
  fold (fresh_candidates existing ranked).
  fold (measured_candidates health existing ranked) (unknown_candidates health existing ranked).
  pose proof (split_known_perm health (fresh_candidates existing ranked)) as Hperm.
  fold (measured_candidates health existing ranked) in Hperm.
  fold (unknown_candidates health existing ranked) in Hperm.
  generalize dependent (measured_candidates health existing ranked). intros measured Hperm.
  generalize dependent (unknown_candidates health existing ranked). intros unknown Hperm.
  destruct (decide (managedReserveProbeLimit < length existing)%nat) as [Hlen|Hlen].
  { rewrite (slice_to_negative _ _ (measured_slots_negative existing measured unknown Hlen)). by split. }
  destruct (measured_slots_range existing measured unknown ltac:(lia)) as [Hslots Hfirst].
  rewrite (slice_to_some _ _ Hslots). cbn [mbind option_bind].
  destruct (rotate_unknown_some now unknown Hnow) as (k & Hk & ->). cbn [mbind option_bind].
  set (n := Z.to_nat (measured_slots existing measured unknown)).
  split; [split; [done|lia]|]. intros order [= <-]. split; [apply take_app_length|]. split.
  - apply Permutation_app_head. rewrite <- Hperm, (Permutation_app_comm (drop k unknown)), take_drop.
    rewrite (Permutation_app_comm unknown), (assoc_L (++)), take_drop. done.
  - intros Hlt j c Hj Ej. destruct (decide (unknown = [])) as [->|Hne]; [done|].
    specialize (Hk Hne). specialize (Hfirst Hne Hlt). assert (j = k) as -> by lia.
    pose proof (lookup_lt_Some _ _ _ Hj) as Hkl.
    apply (list_elem_of_lookup_2 _ (length existing + length (take n measured))%nat).
    rewrite lookup_take_lt by (rewrite length_take; subst n; lia).
    rewrite lookup_app_r by lia. replace (length existing + length (take n measured) - length existing)%nat
      with (length (take n measured) + 0)%nat by lia.
    rewrite lookup_app_r by lia. replace (length (take n measured) + 0 - length (take n measured))%nat
      with 0%nat by lia.
    rewrite lookup_app_l by (rewrite length_app, length_drop; lia).
    rewrite lookup_app_l by (rewrite length_drop; lia). by rewrite lookup_drop, Nat.add_0_r.
Qed.

Lemma managedReserveProbeOrder_witness :
  let c tag := managedReserveCandidate.mk Subscription.zero (Node.zero <| Node.ID := tag |>) tag zero_time in
  managedReserveProbeOrder [c "a"; c "b"; c "x"] [] ∅ (63000000000 * Second) = None /\
  managedReserveProbeOrder [c "a"] [c "b"; c "x"] ∅ (63000000000 * Second) <> None.
Proof.
  intros c. split.
  - destruct (managedReserveProbeOrder_spec [c "a"; c "b"; c "x"] [] ∅ (63000000000 * Second)
      ltac:(vm_compute; discriminate)) as [[_ H] _]. apply H, Nat.ltb_lt. reflexivity.
  - destruct (managedReserveProbeOrder_spec [c "a"] [c "b"; c "x"] ∅ (63000000000 * Second)
      ltac:(vm_compute; discriminate)) as [[H _] _]. intros E. apply H, Nat.ltb_lt in E. discriminate E.
Defined.

(** ** Ranking permutes *)

Lemma diverse_second_perm first tier minimum skipped rest c others :
  diverse_second first tier minimum skipped rest = Some (c, others) -> c :: others ≡ₚ skipped ++ rest.
Proof.
  revert skipped. induction rest as [|x rest IH]; intros skipped H; [done|]. cbn in H.
  destruct (negb _); [done|]. destruct (f64_ltb _ _); [done|]. case_bool_decide.
  - rewrite (IH _ H), <- (assoc_L (++)). done.
  - injection H as <- <-. by rewrite <- Permutation_middle.
Qed.

Lemma prefer_perm ranked : preferEquivalentDifferentSubscription ranked ≡ₚ ranked.
Proof.
  unfold preferEquivalentDifferentSubscription.
  destruct ranked as [|a [|b [|c rest]]]; [done..|]. cbv zeta. destruct (negb _); [done|].
  destruct (diverse_second _ _ _ [] (c :: rest)) as [[x others]|] eqn:E; [|done].
  apply diverse_second_perm in E. cbn [app] in E. apply perm_skip.
  rewrite Permutation_swap. by apply perm_skip.
Qed.

Lemma rank_perm candidates health : rankManagedReserveCandidates candidates health ≡ₚ candidates.
Proof.
  unfold rankManagedReserveCandidates. rewrite prefer_perm, stable_sort_perm, <- list_fmap_compose.
  by rewrite (list_fmap_ext _ id) by done; rewrite list_fmap_id.
Qed.

(** ** Choosing *)

Definition candidate_tags (l : list managedReserveCandidate) : list string := candidate_tag <$> l.

Lemma contains_spec l tag : containsManagedCandidate l tag = true <-> tag ∈ candidate_tags l.
Proof.
  unfold containsManagedCandidate, candidate_tags. rewrite existsb_exists, list_elem_of_fmap.
  split; intros (c & H1 & H2); exists c.
  - split; [by apply bool_decide_eq_true in H2|by apply list_elem_of_In].
  - subst. split; [by apply list_elem_of_In|]. by apply bool_decide_eq_true_2.
Qed.

Lemma by_tag_Some candidates tag c :
  by_tag candidates tag = Some c -> c ∈ candidates /\ candidate_tag c = tag.
Proof.
  unfold by_tag. intros [Hin H]%find_some. apply list_elem_of_In in Hin. rewrite elem_of_reverse in Hin.
  cbn beta in H. apply bool_decide_eq_true in H. done.
Qed.

(** A choice of at most two of the confirmed candidates. *)
Record chosen (confirmed reserves : list managedReserveCandidate) : Prop := {
  ch_from : forall c, c ∈ reserves -> c ∈ confirmed;
  ch_limit : (length reserves <= managedReserveLimit)%nat
}.

Lemma chosen_nil confirmed : chosen confirmed [].
Proof. split; [intros c []%elem_of_nil|cbn; lia]. Qed.

Lemma chosen_snoc confirmed reserves c :
  chosen confirmed reserves -> c ∈ confirmed -> (length reserves < managedReserveLimit)%nat ->
  chosen confirmed (reserves ++ [c]).
Proof.
  intros [H1 H2] Hc Hl. split.
  - intros x [Hx|Hx]%elem_of_app; [by apply H1|]. by apply list_elem_of_singleton in Hx as ->.
  - rewrite length_app. cbn. lia.
Qed.

Lemma keep_reserve_chosen confirmed reserves outbound :
  chosen confirmed reserves -> chosen confirmed (keep_reserve confirmed reserves outbound).
Proof.
  intros H. unfold keep_reserve. case_bool_decide; [|done].
  destruct (by_tag _ _) as [c|] eqn:E; [|done]. apply by_tag_Some in E as [Hc _].
  destruct (Nat.ltb_spec (length reserves) managedReserveLimit); [|done]. by apply chosen_snoc.
Qed.

Lemma fill_reserve_chosen confirmed reserves c :
  chosen confirmed reserves -> c ∈ confirmed -> chosen confirmed (fill_reserve reserves c).
Proof.
  intros H Hc. unfold fill_reserve. destruct (Nat.leb_spec managedReserveLimit (length reserves)); [done|].
  destruct (containsManagedCandidate _ _); [done|]. by apply chosen_snoc.
Qed.

Lemma foldl_inv {A B} (P : A -> Prop) (f : A -> B -> A) l :
  forall a, (forall a b, b ∈ l -> P a -> P (f a b)) -> P a -> P (foldl f a l).
Proof.
  induction l as [|b l IH]; intros a Hf Ha; [done|]. cbn. apply IH.
  - intros a' b' Hb. apply Hf. by right.
  - apply Hf; [by left|done].
Qed.

(** The reserves before the challenge. *)
Definition settled_reserves (health : gmap string NodeHealth) (confirmed : list managedReserveCandidate)
    (previous : list RuntimeOutboundState) : list managedReserveCandidate :=
  foldl fill_reserve (foldl (keep_reserve confirmed) [] previous)
    (rankManagedReserveCandidates confirmed health).

Lemma settled_reserves_chosen health confirmed previous :
  chosen confirmed (settled_reserves health confirmed previous).
Proof.
  unfold settled_reserves. apply foldl_inv.
  - intros a b Hb Ha. rewrite rank_perm in Hb. by apply fill_reserve_chosen.
  - apply foldl_inv; [|apply chosen_nil]. intros a b _. apply keep_reserve_chosen.
Qed.

Lemma challenge_chosen health previous confirmed reserves :
  chosen confirmed reserves ->
  let res := challenge health previous (rankManagedReserveCandidates confirmed health) reserves in
  chosen confirmed res.1 /\ length res.1 = length reserves /\ (forall c, res.2 = Some c -> c ∈ confirmed).
Proof.
  intros [H1 H2]. destruct reserves as [|r0 [|r1 [|]]]; [done..| |done]. cbn [challenge].
  cbv zeta. destruct (List.find _ _) as [c|] eqn:E; [|done].
  apply find_some in E as [Hin _]. apply list_elem_of_In in Hin. rewrite rank_perm in Hin.
  destruct (_ <=? _); cbn [fst snd].
  - destruct (f64_ltb _ _); (split; [split; [|done]|done]); intros x Hx; set_solver.
  - split; [done|]. split; [done|]. by intros ? [= ->].
Qed.

(** What is known of an outbound written after a round at [now]. *)
Definition confirmed_outbound (successful : list managedReserveCandidate) (health : gmap string NodeHealth)
    (now : Time) (o : RuntimeOutboundState) : Prop :=
  exists c, c ∈ successful /\
    managedReserveHealthyConfirmations <= NodeHealth.ConsecutiveSuccesses (health_of health (candidate_id c)) /\
    RuntimeOutboundState.Tag o = candidate_tag c /\
    RuntimeOutboundState.SubscriptionID o = Subscription.ID (candidate_sub c) /\
    RuntimeOutboundState.NodeID o = candidate_id c /\ RuntimeOutboundState.VerifiedAt o = now.

Lemma confirmed_elem health successful c :
  c ∈ confirmed_candidates health successful <->
  managedReserveHealthyConfirmations <= NodeHealth.ConsecutiveSuccesses (health_of health (candidate_id c)) /\
  c ∈ successful.
Proof. unfold confirmed_candidates. by rewrite list_elem_of_filter. Qed.

Lemma reserve_states_elem health now ordered o :
  o ∈ reserve_states health now ordered ->
  RuntimeOutboundState.Role o = role_reserve /\ RuntimeOutboundState.VerifiedAt o = now /\
  exists c, c ∈ ordered /\ RuntimeOutboundState.Tag o = candidate_tag c /\
    RuntimeOutboundState.SubscriptionID o = Subscription.ID (candidate_sub c) /\
    RuntimeOutboundState.NodeID o = candidate_id c.
Proof.
  unfold reserve_states. intros (i & c & -> & Hc)%elem_of_lookup_imap.
  split; [done|]. split; [done|]. exists c. split; [by eapply list_elem_of_lookup_2|done].
Qed.

Lemma reserve_states_tags health now ordered :
  RuntimeOutboundState.Tag <$> reserve_states health now ordered = candidate_tags ordered.
Proof.
  unfold reserve_states, candidate_tags. rewrite fmap_imap.
  apply list_eq. intros i. rewrite list_lookup_imap, list_lookup_fmap. by destruct (ordered !! i).
Qed.

Lemma reserve_states_length health now ordered : length (reserve_states health now ordered) = length ordered.
Proof. unfold reserve_states. by rewrite length_imap. Qed.

(** With at most two distinct confirmed candidates the choice is forced. *)
Lemma fill_covers reserves ranked tag :
  tag ∈ candidate_tags ranked ->
  let filled := foldl fill_reserve reserves ranked in
  tag ∈ candidate_tags filled \/ (managedReserveLimit <= length filled)%nat.
Proof.
  assert (Hkeep : forall l r t, t ∈ candidate_tags r \/ (managedReserveLimit <= length r)%nat ->
    t ∈ candidate_tags (foldl fill_reserve r l) \/ (managedReserveLimit <= length (foldl fill_reserve r l))%nat).
  { intros l r t H. apply foldl_inv; [|exact H]. intros a c _ Ha. unfold fill_reserve.
    destruct (Nat.leb_spec managedReserveLimit (length a)); [done|]. destruct (containsManagedCandidate _ _); [done|].
    left. destruct Ha as [Ha|Ha]; [|lia]. unfold candidate_tags. rewrite fmap_app. set_solver. }
  intros Hin. revert reserves. induction ranked as [|c ranked IH]; intros reserves; [set_solver|]. cbn.
  unfold candidate_tags in Hin. rewrite fmap_cons in Hin. apply elem_of_cons in Hin as [->|Hin]; [|by apply IH].
  apply Hkeep. unfold fill_reserve. destruct (Nat.leb_spec managedReserveLimit (length reserves)); [by right|].
  destruct (containsManagedCandidate reserves (candidate_tag c)) eqn:E; [left; by apply contains_spec|].
  left. unfold candidate_tags. rewrite fmap_app. set_solver.
Qed.

Lemma fill_nodup l reserves :
  NoDup (candidate_tags reserves) -> NoDup (candidate_tags (foldl fill_reserve reserves l)).
Proof.
  intros H. apply foldl_inv; [|done]. intros a c _ Ha. unfold fill_reserve.
  destruct (_ <=? _)%nat; [done|]. destruct (containsManagedCandidate a (candidate_tag c)) eqn:E; [done|].
  unfold candidate_tags. rewrite fmap_app. apply NoDup_app. split; [done|]. split; [|apply NoDup_singleton].
  intros t Ht Hc. apply list_elem_of_singleton in Hc as ->. apply contains_spec in Ht. congruence.
Qed.

Lemma keep_nodup confirmed previous reserves :
  NoDup (RuntimeOutboundState.Tag <$> previous) -> NoDup (candidate_tags reserves) ->
  (forall t, t ∈ candidate_tags reserves -> t ∉ RuntimeOutboundState.Tag <$> previous) ->
  NoDup (candidate_tags (foldl (keep_reserve confirmed) reserves previous)).
Proof.
  revert reserves. induction previous as [|o previous IH]; intros reserves Hp Hr Hd; [done|]. cbn.
  apply NoDup_cons in Hp as [Ho Hp].
  assert (Hskip : NoDup (candidate_tags (foldl (keep_reserve confirmed) reserves previous))).
  { apply IH; [done..|]. intros t Ht Hin. apply (Hd t Ht). by right. }
  unfold keep_reserve at 2. case_bool_decide; [|done]. destruct (by_tag confirmed _) as [c|] eqn:E; [|done].
  destruct (_ <? _)%nat; [|done]. apply by_tag_Some in E as [_ E].
  apply IH; [done| |]; unfold candidate_tags; rewrite fmap_app.
  - apply NoDup_app. split; [done|]. split; [|apply NoDup_singleton].
    intros t Ht Hc. apply list_elem_of_singleton in Hc as ->. apply (Hd _ Ht). rewrite E. by left.
  - intros t [Ht|Ht]%elem_of_app Hin; [apply (Hd t Ht); by right|].
    apply list_elem_of_singleton in Ht as ->. by rewrite E in Hin.
Qed.

Lemma settled_reserves_forced health confirmed previous :
  NoDup (RuntimeOutboundState.Tag <$> previous) ->
  (length confirmed <= managedReserveLimit)%nat -> NoDup (candidate_tags confirmed) ->
  candidate_tags (settled_reserves health confirmed previous) ≡ₚ candidate_tags confirmed.
Proof.
  intros Hp Hl Hnd. pose proof (settled_reserves_chosen health confirmed previous) as [Hfrom _].
  assert (Hrn : NoDup (candidate_tags (settled_reserves health confirmed previous))).
  { apply fill_nodup, keep_nodup; [done|apply NoDup_nil_2|]. intros t Ht. by apply elem_of_nil in Ht. }
  assert (Hsub : forall t, t ∈ candidate_tags (settled_reserves health confirmed previous) ->
    t ∈ candidate_tags confirmed).
  { intros t (c & -> & Hc)%list_elem_of_fmap. apply list_elem_of_fmap_2. by apply Hfrom. }
  destruct (decide (managedReserveLimit <= length (settled_reserves health confirmed previous))%nat) as [Hf|Hf].
  - apply submseteq_length_Permutation; [by apply NoDup_submseteq|]. unfold candidate_tags.
    rewrite !length_fmap. lia.
  - apply NoDup_Permutation; [done..|]. intros t. split; [apply Hsub|]. intros Ht.
    destruct (fill_covers (foldl (keep_reserve confirmed) [] previous)
      (rankManagedReserveCandidates confirmed health) t) as [H|H]; [|exact H|done].
    unfold candidate_tags. by rewrite rank_perm.
Qed.

Lemma challenge_none health previous ranked reserves :
  (forall c, c ∈ ranked -> candidate_tag c ∈ candidate_tags reserves) ->
  challenge health previous ranked reserves = (reserves, None).
Proof.
  intros H. destruct reserves as [|r0 [|r1 [|]]]; [done..| |done]. cbn [challenge]. cbv zeta.
  destruct (List.find _ _) as [c|] eqn:E; [|done]. apply find_some in E as [Hin Hup].
  apply list_elem_of_In, H, contains_spec in Hin. unfold is_upgrade in Hup. by rewrite Hin in Hup.
Qed.

(** The reserves and the pending challenger of a round. *)
Definition round_choice (health : gmap string NodeHealth) (confirmed : list managedReserveCandidate)
    (previous : list RuntimeOutboundState) : list managedReserveCandidate * option managedReserveCandidate :=
  challenge health previous (rankManagedReserveCandidates confirmed health)
    (settled_reserves health confirmed previous).

Lemma select_unfold successful health previous now :
  let confirmed := confirmed_candidates health successful in
  let choice := round_choice health confirmed previous in
  selectManagedReserveStates successful health previous now =
  if bool_decide (confirmed = []) then [] else
    reserve_states health now (rankManagedReserveCandidates choice.1 health) ++
    match choice.2 with
    | None => []
    | Some c => [managedReserveState health c (ScoreResult.Score (managedReserveScore health c))
        role_candidate reason_pending (wrap64 (old_wins previous (candidate_tag c) + 1)) now]
    end.
Proof.
  intros confirmed choice. unfold selectManagedReserveStates. fold confirmed. cbv zeta.
  unfold choice, round_choice, settled_reserves. by destruct (challenge _ _ _ _).
Qed.

Lemma round_choice_ok health confirmed previous :
  let choice := round_choice health confirmed previous in
  chosen confirmed choice.1 /\ (confirmed <> [] -> choice.1 <> []) /\
  (forall c, choice.2 = Some c -> c ∈ confirmed).
Proof.
  intros choice. destruct (challenge_chosen health previous confirmed _
    (settled_reserves_chosen health confirmed previous)) as (H1 & H2 & H3).
  split; [exact H1|]. split; [|exact H3]. intros Hne E. fold (round_choice health confirmed previous) in H2.
  fold choice in H2. rewrite E in H2. destruct confirmed as [|c confirmed]; [done|].
  destruct (fill_covers (foldl (keep_reserve (c :: confirmed)) [] previous)
    (rankManagedReserveCandidates (c :: confirmed) health) (candidate_tag c)) as [H|H].
  - unfold candidate_tags. rewrite rank_perm. by left.
  - fold (settled_reserves health (c :: confirmed) previous) in H.
    destruct (settled_reserves health (c :: confirmed) previous); [by apply elem_of_nil in H|done].
  - fold (settled_reserves health (c :: confirmed) previous) in H. rewrite <- H2 in H. cbn in H.
    unfold managedReserveLimit in H. lia.
Qed.

Lemma managedReserveState_confirmed successful health c score role reason wins now :
  c ∈ confirmed_candidates health successful ->
  confirmed_outbound successful health now (managedReserveState health c score role reason wins now).
Proof. intros [Hc Hin]%confirmed_elem. by exists c. Qed.

Lemma reserve_states_confirmed successful health now ordered o :
  (forall c, c ∈ ordered -> c ∈ confirmed_candidates health successful) ->
  o ∈ reserve_states health now ordered ->
  confirmed_outbound successful health now o /\ RuntimeOutboundState.Role o = role_reserve.
Proof.
  intros H Ho. apply reserve_states_elem in Ho as (Hr & Hv & c & Hc & Ht & Hs & Hn).
  split; [|done]. apply H, confirmed_elem in Hc as [H1 H2]. by exists c.
Qed.

Lemma selected_reserves successful health previous now :
  let confirmed := confirmed_candidates health successful in
  exists reserves challenger,
    selectManagedReserveStates successful health previous now = reserves ++ challenger /\
    (length reserves <= managedReserveLimit)%nat /\ (length challenger <= 1)%nat /\
    Forall (fun o => confirmed_outbound successful health now o /\
      RuntimeOutboundState.Role o = role_reserve) reserves /\
    Forall (fun o => confirmed_outbound successful health now o /\
      RuntimeOutboundState.Role o = role_candidate) challenger /\
    (reserves = [] <-> confirmed = []) /\
    (NoDup (RuntimeOutboundState.Tag <$> previous) -> NoDup (candidate_tags successful) ->
     (length successful <= managedReserveProbeLimit)%nat ->
     challenger = [] /\ RuntimeOutboundState.Tag <$> reserves ≡ₚ candidate_tags confirmed).
Proof.
  intros confirmed. rewrite select_unfold. fold confirmed. cbv zeta.
  destruct (bool_decide_reflect (confirmed = [])) as [E|E].
  { exists [], []. rewrite E. cbn. repeat split; (lia || done || constructor). }
  destruct (round_choice_ok health confirmed previous) as ([Hfrom Hlim] & Hne & Hch).
  eexists _, _. split; [reflexivity|]. split.
  { by rewrite reserve_states_length, rank_perm. }
  split; [by destruct (round_choice _ _ _).2; cbn; lia|]. split.
  { apply Forall_forall. intros o. apply reserve_states_confirmed. intros c. rewrite rank_perm. apply Hfrom. }
  split.
  { destruct (round_choice _ _ _).2 as [c|]; [|constructor]. apply Forall_singleton. split; [|done].
    apply managedReserveState_confirmed. by apply Hch. }
  split.
  { split; [|done]. intros Hnil. exfalso. apply (Hne E), nil_length_inv.
    by rewrite <- (rank_perm _ health), <- (reserve_states_length health now), Hnil. }
  intros Hp Hnd Hl.
  assert (Hcl : (length confirmed <= managedReserveLimit)%nat).
  { etrans; [apply length_filter|exact Hl]. }
  assert (Hcn : NoDup (candidate_tags confirmed)).
  { eapply sublist_NoDup; [exact Hnd|]. apply fmap_sublist, sublist_filter. }
  pose proof (settled_reserves_forced health confirmed previous Hp Hcl Hcn) as Hf.
  unfold round_choice. rewrite challenge_none; cbn [fst snd].
  - split; [done|]. rewrite reserve_states_tags. unfold candidate_tags at 1. by rewrite rank_perm.
  - intros c Hc. rewrite Hf. rewrite rank_perm in Hc. by apply list_elem_of_fmap_2.
Qed.

(** After a round every retained outbound is a candidate that answered in
    this round and has two successes in a row; at most two of them are
    reserves, followed by at most one challenger, and there is one as soon as
    some candidate is confirmed.  When at most two candidates are confirmed
    they all become reserves and no challenger is ever kept: a round probes two
    candidates, so the promotion of challengers is never reached. *)
Theorem selectManagedReserveStates_spec successful health previous now :
  let confirmed := confirmed_candidates health successful in
  exists reserves challenger,
    selectManagedReserveStates successful health previous now = reserves ++ challenger /\
    (length reserves <= managedReserveLimit)%nat /\ (length challenger <= 1)%nat /\
    Forall (fun o => confirmed_outbound successful health now o /\
      RuntimeOutboundState.Role o = role_reserve) reserves /\
    Forall (fun o => confirmed_outbound successful health now o /\
      RuntimeOutboundState.Role o = role_candidate) challenger /\
    (reserves = [] <-> confirmed = []) /\
    (NoDup (RuntimeOutboundState.Tag <$> previous) -> NoDup (candidate_tags successful) ->
     (length successful <= managedReserveProbeLimit)%nat ->
     challenger = [] /\ RuntimeOutboundState.Tag <$> reserves ≡ₚ candidate_tags confirmed).
Proof. intros confirmed. apply selected_reserves. Qed.
