(* ===== verification/XrayConfig.v ===== *)
(** * The Xray configuration

    [backend/backend.go], [backend/xray/config.go] and
    [backend/xray/generator.go]: from a request to the configuration of the
    Xray process.  The model ends at the value given to [json.MarshalIndent].

    Parameters stand for the standard library's JSON text, digests and URLs:
    [marshal] and [unmarshal_object] ([encoding/json]; decoding [null] into a
    map succeeds and gives the nil map), [sha256_hex16] (the first eight bytes
    of SHA-256 in hexadecimal), [query_get] ([url.ParseQuery] and [Values.Get])
    and [url_hostname] ([url.Parse] and [URL.Hostname]). *)
From S2P Require Import Prelude GoRunes GoStrings GoNum NetIP GoConv Domain Firewall.
From S2P Require Import FirewallSettings.
From S2P Require Import Zapret Settings.

Local Open Scope Z_scope.
Local Open Scope list_scope.

(** ** JSON values *)

(** Values of type [any]; a nil value is [JNull], a map the list of its
    entries in any order. *)
Inductive Json : Type :=
| JNull
| JBool (b : bool)
| JNum (n : Z)
| JFloat (x : f64)
| JStr (s : string)
| JArr (l : list Json)
| JObj (fields : list (string * Json)).

Definition JStrs (l : list string) : Json := JArr (JStr <$> l).

Fixpoint obj_get (fields : list (string * Json)) (key : string) : option Json :=
  match fields with
  | [] => None
  | (k, v) :: rest => if bool_decide (k = key) then Some v else obj_get rest key
  end.

(** [m[key] = v]. *)
Fixpoint obj_set (fields : list (string * Json)) (key : string) (v : Json) : list (string * Json) :=
  match fields with
  | [] => [(key, v)]
  | (k, w) :: rest => if bool_decide (k = key) then (k, v) :: rest else (k, w) :: obj_set rest key v
  end.

(** [m[key].(map[string]any)], the nil map when it is not one. *)
Definition obj_map (fields : list (string * Json)) (key : string) : list (string * Json) :=
  match obj_get fields key with Some (JObj l) => l | _ => [] end.

Definition obj_string (fields : list (string * Json)) (key : string) : string :=
  match obj_get fields key with Some (JStr s) => s | _ => "" end.

(** ** The request *)

Module ConfigRequest.
Record ConfigRequest : Type := mk {
  Mode : string;
  Nodes : list Node;
  SelectedNodeID : string;
  LogLevel : string;
  DNS : DNSSettings;
  SOCKSPort : Z;
  HTTPPort : Z;
  LocalDNSEnabled : bool;
  LocalDNSListen : string;
  LocalDNSPort : Z;
  TransparentProxy : bool;
  TransparentSelectiveCapture : bool;
  TransparentBlockQUIC : bool;
  TransparentPort : Z;
  TransparentDefaultAction : string;
  TransparentProxyDomains : list string;
  TransparentProxyCIDRs : list string;
  TransparentBypassDomains : list string;
  TransparentBypassCIDRs : list string;
  TransparentCountryRouting : CountryRouting;
  OutboundMark : Z;
  StartDirect : bool
}.
Definition eta (r : ConfigRequest) : ConfigRequest :=
  mk (Mode r) (Nodes r) (SelectedNodeID r) (LogLevel r) (DNS r) (SOCKSPort r) (HTTPPort r)
     (LocalDNSEnabled r) (LocalDNSListen r) (LocalDNSPort r) (TransparentProxy r)
     (TransparentSelectiveCapture r) (TransparentBlockQUIC r) (TransparentPort r)
     (TransparentDefaultAction r) (TransparentProxyDomains r) (TransparentProxyCIDRs r)
     (TransparentBypassDomains r) (TransparentBypassCIDRs r) (TransparentCountryRouting r)
     (OutboundMark r) (StartDirect r).
#[export] Instance set_TransparentCountryRouting : Setter TransparentCountryRouting :=
  ltac:(mk_setter eta TransparentCountryRouting).
#[export] Instance set_StartDirect : Setter StartDirect := ltac:(mk_setter eta StartDirect).
End ConfigRequest.
Export (hints) ConfigRequest.
Abbreviation ConfigRequest := ConfigRequest.ConfigRequest.

(** ** The configuration *)

Module xrayInbound.
Record xrayInbound : Type := mk {
  Tag : string; Listen : string; Port : Z; Protocol : string;
  Settings : Json; Sniffing : Json; StreamSettings : Json
}.
End xrayInbound.
Abbreviation xrayInbound := xrayInbound.xrayInbound.

Module xrayBalancer.
Record xrayBalancer : Type := mk { Tag : string; Selector : list string; FallbackTag : string }.
End xrayBalancer.
Abbreviation xrayBalancer := xrayBalancer.xrayBalancer.

Module xrayRouteRule.
Record xrayRouteRule : Type := mk {
  Type_ : string; RuleTag : string; OutboundTag : string; BalancerTag : string;
  InboundTag : list string; Network : string; Domain : list string; IP : list string
}.
End xrayRouteRule.
Abbreviation xrayRouteRule := xrayRouteRule.xrayRouteRule.

Module xrayCommonOutbound.
Record xrayCommonOutbound : Type := mk {
  Tag : string; Protocol : string; Settings : Json; StreamSettings : Json; Mux : Json
}.
End xrayCommonOutbound.
Abbreviation xrayCommonOutbound := xrayCommonOutbound.xrayCommonOutbound.

(** An outbound of the list [[]any]: the struct, or a preserved map. *)
Inductive Outbound : Type :=
| CommonOutbound (o : xrayCommonOutbound)
| MapOutbound (fields : list (string * Json)).

Definition outbound_tag (o : Outbound) : string :=
  match o with
  | CommonOutbound o => xrayCommonOutbound.Tag o
  | MapOutbound fields => obj_string fields "tag"
  end.

Inductive DNSServer : Type :=
| PlainServer (address : string)
| xrayDNSServer (address : string) (domains : list string) (skipFallback : bool).

Module xrayConfig.
Record xrayConfig : Type := mk {
  LogLevel : string;
  APITag : string;
  APIServices : list string;
  DNS : option (list DNSServer);
  Inbounds : list xrayInbound;
  Outbounds : list Outbound;
  DomainStrategy : string;
  Rules : list xrayRouteRule;
  Balancers : list xrayBalancer;
  ObservatorySelector : list string;
  ObservatoryProbeURL : string;
  ObservatoryProbeInterval : string
}.
End xrayConfig.
Abbreviation xrayConfig := xrayConfig.xrayConfig.

Definition transparentTCPInboundTag := "transparent-in".
Definition transparentUDPInboundTag := "transparent-udp-in".
Definition localDNSInboundTag := "dns-in".
Definition managedAPIAddress := "127.0.0.1:10085".
Definition managedAPITag := "fastlane-api".
Definition managedBalancerTag := "fastlane-main".
Definition managedOutboundPrefix := "fastlane-node-".
Definition managedDirectTag := "fastlane-direct".
Definition probeHTTPPortBase : Z := 10810.

Inductive GenError : Type :=
| CountryRoutingInvalid (e : CountryError)
| SelectedNodeNotFound (id : string)
| PreservedOutboundInvalid
| PreservedOutboundNoProtocol
| XhttpQueryInvalid
| XhttpExtraInvalid
| XhttpConcurrencyInvalid
| UnsupportedProtocol (protocol : string)
| InvalidInterfaceName (name : string)
| InvalidInterfaceAddress (address : string)
| DNSSettingInvalid (e : SettingsError)
| DNSTransportUnsupported (transport : string)
| DNSServersRequired (mode : string)
| Panic (** an assignment to an entry of the nil map *).

Definition lift_dns {A} (r : result SettingsError A) : result GenError A :=
  match r with Ok a => Ok a | Err e => Err (DNSSettingInvalid e) end.

(** ** Small helpers *)

Definition fallbackPort (got fallback : Z) : Z := if 0 <? got then got else fallback.

Definition firstNonEmpty (value fallback : string) : string :=
  if bool_decide (value = "") then fallback else value.

Definition cleanStringList (values : list string) : list string :=
  filter (fun v => v <> "") (TrimSpace <$> values).

Definition hasScheme (value : string) : bool := Contains value "://".

Fixpoint selectedNode (nodes : list Node) (selectedID : string) : result GenError Node :=
  match nodes with
  | [] => Err (SelectedNodeNotFound selectedID)
  | node :: nodes =>
    if bool_decide (Node.ID node = selectedID) then Ok node else selectedNode nodes selectedID
  end.

(** ** Routing rules *)

Definition transparentInboundTagsForNetwork (network : string) : list string :=
  if bool_decide (network = "udp") then [transparentUDPInboundTag] else [transparentTCPInboundTag].

Definition transparentRouteRule (network outboundTag : string) (domains cidrs : list string)
    : xrayRouteRule :=
  xrayRouteRule.mk "field" "" outboundTag "" (transparentInboundTagsForNetwork network) network domains cidrs.

Definition transparentProxiedUDPOutbound (blockQUIC : bool) : string :=
  if blockQUIC then "block" else "selected".

Definition transparentUDPOutboundForTCPOutbound (tcpOutbound : string) (blockQUIC : bool) : string :=
  if bool_decide (tcpOutbound = "direct") then "direct" else transparentProxiedUDPOutbound blockQUIC.

Definition routeDomainMatchers (domains : list string) : list string :=
  (fun d => "domain:" +:+ d) <$> cleanStringList domains.

Definition transparentDomainRules (tcpOutbound : string) (domains : list string) (blockQUIC : bool)
    : list xrayRouteRule :=
  let matchers := routeDomainMatchers domains in
  if bool_decide (matchers = []) then []
  else [transparentRouteRule "tcp" tcpOutbound matchers [];
        transparentRouteRule "udp" (transparentUDPOutboundForTCPOutbound tcpOutbound blockQUIC) matchers []].

Definition transparentIPRules (tcpOutbound : string) (cidrs : list string) (blockQUIC : bool)
    : list xrayRouteRule :=
  let cleaned := cleanStringList cidrs in
  if bool_decide (cleaned = []) then []
  else [transparentRouteRule "tcp" tcpOutbound [] cleaned;
        transparentRouteRule "udp" (transparentUDPOutboundForTCPOutbound tcpOutbound blockQUIC) [] cleaned].

Definition transparentFallbackRules (defaultAction : string) (blockQUIC : bool) : list xrayRouteRule :=
  let '(tcpOutbound, udpOutbound) :=
    if bool_decide (defaultAction = FirewallDefaultActionProxy)
    then ("selected", transparentProxiedUDPOutbound blockQUIC) else ("direct", "direct") in
  [transparentRouteRule "tcp" tcpOutbound [] []; transparentRouteRule "udp" udpOutbound [] []].

Definition geosite_matchers (code : string) : list string :=
  if bool_decide (code = "RU") then ["geosite:category-ru"]
  else if bool_decide (code = "CN") then ["geosite:cn"] else [].

Definition countryDirectRules (countryCode : string) : list xrayRouteRule :=
  match NormalizeCountryCode countryCode with
  | Err _ => []
  | Ok code =>
    let domainMatchers := geosite_matchers code in
    let geoIP := ["geoip:" +:+ ToLower code] in
    (if bool_decide (domainMatchers = []) then []
     else [transparentRouteRule "tcp" "direct" domainMatchers [];
           transparentRouteRule "udp" "direct" domainMatchers []]) ++
    [transparentRouteRule "tcp" "direct" [] geoIP; transparentRouteRule "udp" "direct" [] geoIP]
  end.

Definition country_rules (req : ConfigRequest) : list xrayRouteRule :=
  let routing := ConfigRequest.TransparentCountryRouting req in
  if CountryRouting.Enabled routing then countryDirectRules (CountryRouting.CountryCode routing) else [].

Definition transparentSelectiveRoutingRules (req : ConfigRequest) : list xrayRouteRule :=
  let blockQUIC := ConfigRequest.TransparentBlockQUIC req in
  country_rules req
  ++ (if bool_decide (ConfigRequest.TransparentBypassDomains req = []) then []
      else transparentDomainRules "direct" (ConfigRequest.TransparentBypassDomains req) blockQUIC)
  ++ (if bool_decide (ConfigRequest.TransparentBypassCIDRs req = []) then []
      else transparentIPRules "direct" (ConfigRequest.TransparentBypassCIDRs req) blockQUIC)
  ++ [transparentRouteRule "tcp" "selected" [] [];
      transparentRouteRule "udp" (transparentProxiedUDPOutbound blockQUIC) [] []].

Definition transparentRoutingRules (req : ConfigRequest) : list xrayRouteRule :=
  if negb (ConfigRequest.TransparentProxy req) then []
  else if ConfigRequest.TransparentSelectiveCapture req then transparentSelectiveRoutingRules req
  else
    let blockQUIC := ConfigRequest.TransparentBlockQUIC req in
    let configured := ConfigRequest.TransparentDefaultAction req in
    let defaultAction :=
      if bool_decide (configured = "") then FirewallDefaultActionProxy
      else NormalizeFirewallDefaultAction configured in
    let proxyDomains := ConfigRequest.TransparentProxyDomains req in
    let proxyCIDRs := ConfigRequest.TransparentProxyCIDRs req in
    let bypassDomains := ConfigRequest.TransparentBypassDomains req in
    let bypassCIDRs := ConfigRequest.TransparentBypassCIDRs req in
    let hasSelectors := (0 <? length proxyDomains)%nat || (0 <? length proxyCIDRs)%nat
                        || (0 <? length bypassDomains)%nat || (0 <? length bypassCIDRs)%nat in
    country_rules req
    ++ (if (0 <? length bypassDomains)%nat
        then transparentDomainRules "direct" bypassDomains blockQUIC else [])
    ++ (if (0 <? length bypassCIDRs)%nat then transparentIPRules "direct" bypassCIDRs blockQUIC else [])
    ++ (if (0 <? length proxyDomains)%nat
        then transparentDomainRules "selected" proxyDomains blockQUIC else [])
    ++ (if (0 <? length proxyCIDRs)%nat then transparentIPRules "selected" proxyCIDRs blockQUIC else [])
    ++ (if hasSelectors then transparentFallbackRules defaultAction blockQUIC
        else if bool_decide (defaultAction = FirewallDefaultActionDirect)
        then [transparentRouteRule "tcp" "direct" [] []; transparentRouteRule "udp" "direct" [] []]
        else [transparentRouteRule "tcp" "selected" [] [];
              transparentRouteRule "udp" (transparentProxiedUDPOutbound blockQUIC) [] []]).

(** The outbound ["selected"] of these rules is the managed balancer. *)
Definition balance_selected (rule : xrayRouteRule) : xrayRouteRule :=
  if bool_decide (xrayRouteRule.OutboundTag rule = "selected")
  then xrayRouteRule.mk (xrayRouteRule.Type_ rule) (xrayRouteRule.RuleTag rule) "" managedBalancerTag
         (xrayRouteRule.InboundTag rule) (xrayRouteRule.Network rule) (xrayRouteRule.Domain rule)
         (xrayRouteRule.IP rule)
  else rule.

(** ** Inbounds *)

Definition transparentInbound (tag : string) (port : Z) (network tproxyMode : string) : xrayInbound :=
  xrayInbound.mk tag "0.0.0.0" port "dokodemo-door"
    (JObj [("followRedirect", JBool true); ("network", JStr network)])
    (JObj [("enabled", JBool true); ("destOverride", JStrs ["http"; "tls"; "quic"])])
    (JObj [("sockopt", JObj [("tproxy", JStr tproxyMode)])]).

Definition localDNSInbound (listen : string) (port : Z) : xrayInbound :=
  xrayInbound.mk localDNSInboundTag (firstNonEmpty listen "127.0.0.1") (fallbackPort port 1053)
    "dokodemo-door" (JObj [("address", JStr "1.1.1.1"); ("port", JNum 53); ("network", JStr "tcp,udp")])
    JNull JNull.

Definition probe_inbound_tag (slot : Z) : string := "fastlane-probe-in-" +:+ Itoa slot.

Definition probeHTTPInbound (slot : Z) : xrayInbound :=
  xrayInbound.mk (probe_inbound_tag slot) "127.0.0.1" (probeHTTPPortBase + slot) "http" (JObj []) JNull JNull.

(** ** Outbounds *)

Section Generator.
  Context (marshal : Json -> string) (unmarshal_object : string -> option (option (list (string * Json)))).
  Context (sha256_hex16 : string -> string).
  Context (query_get : string -> option (string -> string)) (url_hostname : string -> option string).

Definition tls_settings (node : Node) : list (string * Json) :=
  (if bool_decide (Node.ServerName node = "") then [] else [("serverName", JStr (Node.ServerName node))]) ++
  (if bool_decide (Node.ALPN node = []) then [] else [("alpn", JStrs (Node.ALPN node))]) ++
  (if bool_decide (Node.Fingerprint node = "") then [] else [("fingerprint", JStr (Node.Fingerprint node))]).

Definition reality_settings (node : Node) : list (string * Json) :=
  [("fingerprint", JStr (Node.Fingerprint node)); ("publicKey", JStr (Node.PublicKey node));
   ("serverName", JStr (Node.ServerName node)); ("shortId", JStr (Node.ShortID node))] ++
  (if bool_decide (Node.SpiderX node = "") then [] else [("spiderX", JStr (Node.SpiderX node))]).

Definition security_stream (node : Node) (stream : list (string * Json)) : list (string * Json) :=
  if bool_decide (Node.Security node = "tls")
  then match tls_settings node with
       | [] => stream
       | tls => obj_set stream "tlsSettings" (JObj tls)
       end
  else if bool_decide (Node.Security node = "reality")
  then obj_set stream "realitySettings" (JObj (reality_settings node))
  else stream.

(** The map [xhttpExtra]; [None] is the nil map that decoding [null] leaves. *)
Definition xhttp_extra (query : string -> string) : result GenError (option (list (string * Json))) :=
  let extra := TrimSpace (query "extra") in
  let* decoded :=
    (if bool_decide (extra = "") then Ok (Some [])
     else match unmarshal_object extra with
          | None => Err XhttpExtraInvalid
          | Some fields => Ok fields
          end) in
  let concurrency := TrimSpace (query "concurrency") in
  if bool_decide (concurrency = "") then Ok decoded
  else match Atoi concurrency with
       | None => Err XhttpConcurrencyInvalid
       | Some value =>
         if 0 <? value
         then match decoded with
              | None => Err Panic
              | Some fields => Ok (Some (obj_set fields "xmux" (JObj [("maxConcurrency", JNum value)])))
              end
         else Ok decoded
       end.

Definition xhttp_settings (node : Node) : result GenError (list (string * Json)) :=
  match query_get (Node.RawQuery node) with
  | None => Err XhttpQueryInvalid
  | Some query =>
    let mode := TrimSpace (query "mode") in
    let* extra := xhttp_extra query in
    Ok ([("path", JStr (Node.Path node)); ("host", JStr (Node.Host node))] ++
        (if bool_decide (mode = "") then [] else [("mode", JStr mode)]) ++
        (match extra with Some (x :: l) => [("extra", JObj (x :: l))] | _ => [] end))
  end.

Definition transport_stream (node : Node) (stream : list (string * Json))
    : result GenError (list (string * Json)) :=
  if bool_decide (Node.Transport node = "ws")
  then Ok (obj_set stream "wsSettings"
         (JObj [("headers", JObj [("Host", JStr (Node.Host node))]); ("path", JStr (Node.Path node))]))
  else if bool_decide (Node.Transport node = "grpc")
  then Ok (obj_set stream "grpcSettings" (JObj [("serviceName", JStr (Node.Path node))]))
  else if bool_decide (Node.Transport node = "xhttp")
  then
    let* settings := xhttp_settings node in
    Ok (obj_set stream "xhttpSettings" (JObj settings))
  else Ok stream.

Definition node_stream (node : Node) : result GenError (list (string * Json)) :=
  transport_stream node (security_stream node
    ((if bool_decide (Node.Transport node = "") then [] else [("network", JStr (Node.Transport node))]) ++
     (if bool_decide (Node.Security node = "") then [] else [("security", JStr (Node.Security node))]))).

Definition vnext (node : Node) (user : list (string * Json)) : Json :=
  JObj [("vnext", JArr [JObj [("address", JStr (Node.Address node)); ("port", JNum (Node.Port node));
                              ("users", JArr [JObj user])]])].

Definition server (node : Node) (rest : list (string * Json)) : Json :=
  JObj [("servers", JArr [JObj ([("address", JStr (Node.Address node)); ("port", JNum (Node.Port node))]
                                ++ rest)])].

Definition extra_of (node : Node) (key : string) : string := default "" (Node.Extras node !! key).

Definition hysteria_stream (node : Node) (hysteria : list (string * Json)) : Json :=
  let alpn := match Node.ALPN node with [] => ["h3"] | alpn => alpn end in
  let insecure := bool_decide (extra_of node "insecure" = "1") || bool_decide (extra_of node "insecure" = "true")
                  || bool_decide (extra_of node "allowInsecure" = "true") in
  JObj [("network", JStr "hysteria"); ("security", JStr "tls");
        ("tlsSettings", JObj [("serverName", JStr (Node.ServerName node)); ("alpn", JStrs alpn);
                              ("allowInsecure", JBool insecure)]);
        ("hysteriaSettings", JObj hysteria)].

Definition hysteria_auth (node : Node) : string := firstNonEmpty (Node.Password node) (Node.UUID node).

Definition common (protocol : string) (settings stream : Json) : xrayCommonOutbound :=
  xrayCommonOutbound.mk "" protocol settings stream JNull.

Definition hysteria2_settings (node : Node) : Json :=
  let obfs := extra_of node "obfs" in
  JObj ([("version", JNum 2); ("address", JStr (Node.Address node)); ("port", JNum (Node.Port node))] ++
    (if bool_decide (obfs = "") || bool_decide (obfs = "none") then []
     else [("udpmasks", JArr [JObj [("type", JStr obfs);
             ("settings", JObj [("password", JStr (extra_of node "obfs-password"))])]])])).

Definition outboundForNode (node : Node) : result GenError xrayCommonOutbound :=
  let* stream := node_stream node in
  if bool_decide (Node.Protocol node = ProtocolVLESS)
  then Ok (common "vless" (vnext node
         [("id", JStr (Node.UUID node)); ("encryption", JStr (firstNonEmpty (Node.Encryption node) "none"));
          ("flow", JStr (Node.Flow node))]) (JObj stream))
  else if bool_decide (Node.Protocol node = ProtocolVMess)
  then Ok (common "vmess" (vnext node
         [("id", JStr (Node.UUID node)); ("security", JStr (firstNonEmpty (Node.Encryption node) "auto"));
          ("alterId", JNum 0)]) (JObj stream))
  else if bool_decide (Node.Protocol node = ProtocolTrojan)
  then Ok (common "trojan" (server node [("password", JStr (Node.Password node))]) (JObj stream))
  else if bool_decide (Node.Protocol node = ProtocolShadowsocks)
  then Ok (common "shadowsocks" (server node [("method", JStr (Node.Encryption node));
         ("password", JStr (Node.Password node))]) JNull)
  else if bool_decide (Node.Protocol node = ProtocolSocks)
  then Ok (common "socks" (server node [("users", JArr
         (if bool_decide (Node.UUID node = "") then []
          else [JObj [("user", JStr (Node.UUID node)); ("pass", JStr (Node.Password node))]]))]) JNull)
  else if bool_decide (Node.Protocol node = ProtocolHysteria)
  then Ok (common "hysteria" (JObj [("address", JStr (Node.Address node)); ("port", JNum (Node.Port node));
         ("auth", JStr (hysteria_auth node))]) (hysteria_stream node [("auth", JStr (hysteria_auth node))]))
  else if bool_decide (Node.Protocol node = ProtocolHysteria2)
  then Ok (common "hysteria" (hysteria2_settings node)
         (hysteria_stream node [("version", JNum 2); ("auth", JStr (hysteria_auth node))]))
  else Err (UnsupportedProtocol (Node.Protocol node)).

Definition set_tag (o : Outbound) (tag : string) : Outbound :=
  match o with
  | CommonOutbound o => CommonOutbound (xrayCommonOutbound.mk tag (xrayCommonOutbound.Protocol o)
      (xrayCommonOutbound.Settings o) (xrayCommonOutbound.StreamSettings o) (xrayCommonOutbound.Mux o))
  | MapOutbound fields => MapOutbound (obj_set fields "tag" (JStr tag))
  end.

Definition selectedOutboundForNode (node : Node) : result GenError Outbound :=
  if bool_decide (Node.RawOutbound node = "")
  then let* o := outboundForNode node in Ok (set_tag (CommonOutbound o) "selected")
  else match unmarshal_object (Node.RawOutbound node) with
       | None => Err PreservedOutboundInvalid
       | Some fields =>
         let fields := default [] fields in
         if bool_decide (TrimSpace (obj_string fields "protocol") = "") then Err PreservedOutboundNoProtocol
         else Ok (set_tag (MapOutbound fields) "selected")
       end.

(** The mark in the socket options of a stream. *)
Definition stream_with_mark (stream : list (string * Json)) (mark : Z) : Json :=
  JObj (obj_set stream "sockopt" (JObj (obj_set (obj_map stream "sockopt") "mark" (JNum mark)))).

Definition outboundWithMark (o : Outbound) (mark : Z) : Outbound :=
  if mark <=? 0 then o
  else match o with
  | CommonOutbound o =>
    let stream := match xrayCommonOutbound.StreamSettings o with JObj l => l | _ => [] end in
    CommonOutbound (xrayCommonOutbound.mk (xrayCommonOutbound.Tag o) (xrayCommonOutbound.Protocol o)
      (xrayCommonOutbound.Settings o) (stream_with_mark stream mark) (xrayCommonOutbound.Mux o))
  | MapOutbound fields =>
    MapOutbound (obj_set fields "streamSettings" (stream_with_mark (obj_map fields "streamSettings") mark))
  end.

(** The value [json.Marshal] is given for an outbound; empty fields are
    omitted. *)
Definition outbound_json (o : Outbound) : Json :=
  match o with
  | CommonOutbound o =>
    let optional key v := match v with JNull => [] | _ => [(key, v)] end in
    JObj ([("tag", JStr (xrayCommonOutbound.Tag o)); ("protocol", JStr (xrayCommonOutbound.Protocol o))] ++
          optional "settings" (xrayCommonOutbound.Settings o) ++
          optional "streamSettings" (xrayCommonOutbound.StreamSettings o) ++
          optional "mux" (xrayCommonOutbound.Mux o))
  | MapOutbound fields => JObj fields
  end.

(** The outbound with the tag that its content determines. *)
Definition managedOutboundForNode (node : Node) (mark : Z) : result GenError (Outbound * string) :=
  let* selected := selectedOutboundForNode node in
  let outbound := outboundWithMark selected mark in
  let tag := managedOutboundPrefix +:+ sha256_hex16 (marshal (outbound_json outbound)) in
  Ok (set_tag outbound tag, tag).

Definition interface_char (r : Z) : bool :=
  ((97 <=? r) && (r <=? 122)) || ((65 <=? r) && (r <=? 90)) || ((48 <=? r) && (r <=? 57))
  || (r =? 95) || (r =? 45).

(** [netip.ParseAddr], the address as text and the two predicates are those of
    the library; [usable_address] gives the canonical text of an address that
    is neither unspecified nor loopback. *)
Definition managedInterfaceOutbound (usable_address : string -> option string)
    (interfaceName sourceAddress : string) (mark : Z) : result GenError (Outbound * string) :=
  let name := TrimSpace interfaceName in
  if bool_decide (name = "") || (15 <? String.length name)%nat || negb (forallb interface_char (runes name))
  then Err (InvalidInterfaceName name)
  else match usable_address (TrimSpace sourceAddress) with
  | None => Err (InvalidInterfaceAddress sourceAddress)
  | Some address =>
    let sockopt := [("interface", JStr name)] ++ (if 0 <? mark then [("mark", JNum mark)] else []) in
    let outbound :=
      [("protocol", JStr "freedom"); ("sendThrough", JStr address);
       ("settings", JObj [("domainStrategy", JStr "UseIP")]);
       ("streamSettings", JObj [("sockopt", JObj sockopt)])] in
    let tag := managedOutboundPrefix +:+ "awg-" +:+ sha256_hex16 (marshal (JObj outbound)) in
    Ok (MapOutbound (obj_set outbound "tag" (JStr tag)), tag)
  end.

(** ** DNS *)

Definition formatDoHServer (server : string) : string :=
  let server := TrimSpace server in
  if bool_decide (server = "") then ""
  else if Contains server "/" then "https://" +:+ TrimPrefix server "https://"
  else "https://" +:+ server +:+ "/dns-query".

Definition format_server (transport server : string) : result GenError string :=
  if hasScheme server then Ok server
  else if bool_decide (transport = DNSTransportPlain) then Ok server
  else if bool_decide (transport = DNSTransportDoH) then Ok (formatDoHServer server)
  else Err (DNSTransportUnsupported transport).

Definition formatDNSServers (servers : list string) (transport : string) : result GenError (list string) :=
  fold_result (fun out server => let* s := format_server transport server in Ok (out ++ [s])) []
    (cleanStringList servers).

(** The host of a server; the empty text when there is none. *)
Definition dnsServerHostname (server : string) : string :=
  match (if hasScheme server then url_hostname server else None) with
  | Some host => host
  | None => default "" (url_hostname ("//" +:+ server))
  end.

Definition is_address (host : string) : bool :=
  match ParseAddr host with Some _ => true | None => false end.

Definition full_domain (host : string) : string := "full:" +:+ host.

Definition push_bootstrap (out : list string) (server : string) : list string :=
  let host := dnsServerHostname server in
  if bool_decide (host = "") then out
  else if is_address host then out
  else push_unique out (full_domain host).

Definition dnsBootstrapDomains (servers : list string) : list string := foldl push_bootstrap [] servers.

Definition push_destination (out : list string * list string) (server : string)
    : list string * list string :=
  let host := dnsServerHostname server in
  if bool_decide (host = "") then out
  else if is_address host then (push_unique out.1 host, out.2)
  else (out.1, push_unique out.2 (full_domain host)).

Definition directDNSDestinations (servers : list string) : list string * list string :=
  foldl push_destination ([], []) servers.

Definition resolves_itself (mode : string) : bool :=
  bool_decide (mode = DNSModeSystem) || bool_decide (mode = DNSModeDisabled).

Definition buildDNSConfig (settings : DNSSettings) : result GenError (option (list DNSServer)) :=
  let* mode := lift_dns (ParseDNSMode (DNSSettings.Mode settings)) in
  if resolves_itself mode then Ok None
  else
    let* transport := lift_dns (ParseDNSTransport (DNSSettings.Transport settings)) in
    let* servers := formatDNSServers (DNSSettings.Servers settings) transport in
    if bool_decide (servers = []) then Err (DNSServersRequired mode)
    else
      let directDomains := cleanStringList (DNSSettings.DirectDomains settings) in
      let direct :=
        if bool_decide (mode = DNSModeSplit) && negb (bool_decide (directDomains = []))
        then [xrayDNSServer "localhost" directDomains true] else [] in
      let bootstrapDomains := dnsBootstrapDomains servers in
      let* bootstrap :=
        (if bool_decide (bootstrapDomains = []) then Ok []
         else
           let* bootstrapServers := formatDNSServers (DNSSettings.Bootstrap settings) DNSTransportPlain in
           Ok ((fun s => xrayDNSServer s bootstrapDomains true) <$> bootstrapServers)) in
      Ok (Some (direct ++ bootstrap ++ (PlainServer <$> servers))).

Definition direct_rule (domains ips : list string) : xrayRouteRule :=
  xrayRouteRule.mk "field" "" "direct" "" [] "" domains ips.

Definition directDNSRouteRules (settings : DNSSettings) : result GenError (list xrayRouteRule) :=
  let* mode := lift_dns (ParseDNSMode (DNSSettings.Mode settings)) in
  if resolves_itself mode then Ok []
  else
    let* transport := lift_dns (ParseDNSTransport (DNSSettings.Transport settings)) in
    let* servers := formatDNSServers (DNSSettings.Servers settings) transport in
    let* bootstrapServers := formatDNSServers (DNSSettings.Bootstrap settings) DNSTransportPlain in
    let '(ips, domains) := directDNSDestinations (servers ++ bootstrapServers) in
    Ok ((if bool_decide (domains = []) then [] else [direct_rule domains []]) ++
        (if bool_decide (ips = []) then [] else [direct_rule [] ips])).

(** ** Generate *)

Definition freedom (tag : string) (mark : Z) : Outbound :=
  CommonOutbound (xrayCommonOutbound.mk tag "freedom" JNull
    (if 0 <? mark then JObj [("sockopt", JObj [("mark", JNum mark)])] else JNull) JNull).

Definition blackhole : Outbound := CommonOutbound (xrayCommonOutbound.mk "block" "blackhole" JNull JNull JNull).

Definition dns_outbound : Outbound :=
  CommonOutbound (xrayCommonOutbound.mk "dns-out" "dns" (JObj [("nonIPQuery", JStr "skip")]) JNull JNull).

Definition probe_balancer_tag (slot : Z) : string := "fastlane-probe-" +:+ Itoa slot.

Definition managed_balancers : list xrayBalancer :=
  [xrayBalancer.mk managedBalancerTag [managedOutboundPrefix] managedDirectTag;
   xrayBalancer.mk (probe_balancer_tag 0) [managedOutboundPrefix] "block";
   xrayBalancer.mk (probe_balancer_tag 1) [managedOutboundPrefix] "block"].

(** The rules after the transparent ones. *)
Definition local_rules : list xrayRouteRule :=
  [xrayRouteRule.mk "field" "" "" managedBalancerTag ["socks-in"; "http-in"] "tcp,udp" [] [];
   xrayRouteRule.mk "field" "" managedAPITag "" ["fastlane-api-in"] "" [] [];
   xrayRouteRule.mk "field" "" "" (probe_balancer_tag 0) [probe_inbound_tag 0] "tcp,udp" [] [];
   xrayRouteRule.mk "field" "" "" (probe_balancer_tag 1) [probe_inbound_tag 1] "tcp,udp" [] []].

Definition dns_in_rules (req : ConfigRequest) : list xrayRouteRule :=
  if ConfigRequest.LocalDNSEnabled req
  then [xrayRouteRule.mk "field" "" "dns-out" "" [localDNSInboundTag] "" [] []] else [].

Definition config_rules (req : ConfigRequest) (dnsRules : list xrayRouteRule) : list xrayRouteRule :=
  dns_in_rules req ++ dnsRules ++ (balance_selected <$> transparentRoutingRules req) ++ local_rules.

Definition config_inbounds (req : ConfigRequest) : list xrayInbound :=
  let port := fallbackPort (ConfigRequest.TransparentPort req) 12345 in
  [xrayInbound.mk "socks-in" "127.0.0.1" (fallbackPort (ConfigRequest.SOCKSPort req) 10808) "socks"
     (JObj [("udp", JBool true)]) JNull JNull;
   xrayInbound.mk "http-in" "127.0.0.1" (fallbackPort (ConfigRequest.HTTPPort req) 10809) "http"
     (JObj []) JNull JNull]
  ++ (if ConfigRequest.LocalDNSEnabled req
      then [localDNSInbound (ConfigRequest.LocalDNSListen req) (ConfigRequest.LocalDNSPort req)] else [])
  ++ (if ConfigRequest.TransparentProxy req
      then [transparentInbound transparentTCPInboundTag port "tcp" "redirect";
            transparentInbound transparentUDPInboundTag port "udp" "tproxy"] else [])
  ++ [xrayInbound.mk "fastlane-api-in" "127.0.0.1" 10085 "dokodemo-door"
        (JObj [("address", JStr "127.0.0.1")]) JNull JNull;
      probeHTTPInbound 0; probeHTTPInbound 1].

Definition selected_outbound (req : ConfigRequest) : result GenError (list Outbound) :=
  if ConfigRequest.StartDirect req then Ok []
  else
    let* selected := selectedNode (ConfigRequest.Nodes req) (ConfigRequest.SelectedNodeID req) in
    let* (outbound, tag) := managedOutboundForNode selected (ConfigRequest.OutboundMark req) in
    Ok [outbound].

Definition config_outbounds (req : ConfigRequest) (selected : list Outbound) : list Outbound :=
  let mark := ConfigRequest.OutboundMark req in
  selected ++ [freedom "direct" mark; blackhole; freedom managedDirectTag mark]
  ++ (if ConfigRequest.LocalDNSEnabled req then [dns_outbound] else []).

Definition canonical_country (req : ConfigRequest) : result GenError ConfigRequest :=
  if CountryRouting.Enabled (ConfigRequest.TransparentCountryRouting req)
  then match CanonicalCountryRouting (ConfigRequest.TransparentCountryRouting req) with
       | Err e => Err (CountryRoutingInvalid e)
       | Ok r => Ok (req <| ConfigRequest.TransparentCountryRouting := r |>)
       end
  else Ok req.

Definition Generate (req : ConfigRequest) : result GenError xrayConfig :=
  let* req := canonical_country req in
  let* selected := selected_outbound req in
  let* dns := buildDNSConfig (ConfigRequest.DNS req) in
  let* dnsRules := directDNSRouteRules (ConfigRequest.DNS req) in
  Ok (xrayConfig.mk (firstNonEmpty (ConfigRequest.LogLevel req) "warning") managedAPITag
        ["HandlerService"; "RoutingService"] dns (config_inbounds req) (config_outbounds req selected)
        "IPIfNonMatch" (config_rules req dnsRules) managed_balancers ["fastlane-observe-none-"]
        "https://www.gstatic.com/generate_204" "24h").

End Generator.
