(* ===== verification/XrayRouting.v ===== *)
(** * What the generated configuration does to traffic

    The routing rules of [Generate] against a policy over the request.  How
    Xray applies rules is an interface: [XrayRouting] is the process, its law
    [route_cons] the documented behaviour (the first rule all of whose
    conditions hold decides; a condition with several values holds when one of
    them does). *)
From S2P Require Import Prelude GoRunes GoStrings GoNum NetIP Domain Firewall FirewallSettings.
From S2P Require Import Zapret Settings XrayConfig.
From Stdlib Require Import Btauto.

Local Open Scope Z_scope.
Local Open Scope list_scope.

(** ** The process *)

Class XrayRouting (Traffic : Type) := {
  inbound_of : Traffic -> string;
  network_of : Traffic -> string;
  domain_match : string -> Traffic -> bool;   (** a matcher such as ["domain:example.org"] *)
  ip_match : string -> Traffic -> bool;       (** an address, a prefix or ["geoip:ru"] *)
  route : list xrayRouteRule -> Traffic -> option xrayRouteRule
}.

(** A condition of a rule: no values, or one that holds. *)
Definition condition {A} (values : list A) (holds : A -> bool) : bool :=
  match values with [] => true | _ => existsb holds values end.

Definition rule_applies `{XrayRouting Traffic} (r : xrayRouteRule) (t : Traffic) : bool :=
  condition (xrayRouteRule.InboundTag r) (fun tag => bool_decide (tag = inbound_of t))
  && (bool_decide (xrayRouteRule.Network r = "")
      || bool_decide (network_of t ∈ split_byte (xrayRouteRule.Network r) ","%char))
  && condition (xrayRouteRule.Domain r) (fun d => domain_match d t)
  && condition (xrayRouteRule.IP r) (fun ip => ip_match ip t).

Class XrayRoutingLaws (Traffic : Type) `{XrayRouting Traffic} : Prop := {
  route_nil : forall t, route [] t = None;
  route_cons : forall r rules t, route (r :: rules) t = if rule_applies r t then Some r else route rules t
}.

(** Where a rule sends traffic. *)
Inductive Target : Type :=
| ToOutbound (tag : string)
| ToBalancer (tag : string).

#[export] Instance Target_eq_dec : EqDecision Target.
Proof. solve_decision. Defined.

Definition rule_target (r : xrayRouteRule) : Target :=
  if bool_decide (xrayRouteRule.BalancerTag r = "") then ToOutbound (xrayRouteRule.OutboundTag r)
  else ToBalancer (xrayRouteRule.BalancerTag r).

Definition route_target `{XrayRouting Traffic} (rules : list xrayRouteRule) (t : Traffic) : option Target :=
  rule_target <$> route rules t.

(** ** The policy *)

Section Policy.
  Context `{XrayRouting Traffic}.

(** Traffic that the router redirected to Xray. *)
Definition redirected (t : Traffic) : Prop :=
  (inbound_of t = transparentTCPInboundTag /\ network_of t = "tcp") \/
  (inbound_of t = transparentUDPInboundTag /\ network_of t = "udp").

Definition any_domain (matchers : list string) (t : Traffic) : bool :=
  existsb (fun d => domain_match d t) matchers.
Definition any_ip (prefixes : list string) (t : Traffic) : bool := existsb (fun p => ip_match p t) prefixes.

(** A destination in the country that is served directly. *)
Definition in_country (req : ConfigRequest) (t : Traffic) : bool :=
  let routing := ConfigRequest.TransparentCountryRouting req in
  CountryRouting.Enabled routing &&
  match NormalizeCountryCode (CountryRouting.CountryCode routing) with
  | Err _ => false
  | Ok code => any_domain (geosite_matchers code) t || ip_match ("geoip:" +:+ ToLower code) t
  end.

Definition in_selectors (domains cidrs : list string) (t : Traffic) : bool :=
  any_domain (routeDomainMatchers domains) t || any_ip (cleanStringList cidrs) t.

(** Proxied traffic goes to the selected node; its UDP is dropped when QUIC is
    blocked. *)
Definition proxied (req : ConfigRequest) (t : Traffic) : Target :=
  if ConfigRequest.TransparentBlockQUIC req && bool_decide (network_of t = "udp")
  then ToOutbound "block" else ToBalancer managedBalancerTag.

Definition default_direct (req : ConfigRequest) : bool :=
  negb (ConfigRequest.TransparentSelectiveCapture req)
  && negb (bool_decide (ConfigRequest.TransparentDefaultAction req = ""))
  && negb (bool_decide (ConfigRequest.TransparentDefaultAction req = FirewallDefaultActionProxy)).

Definition transparent_policy (req : ConfigRequest) (t : Traffic) : Target :=
  if in_country req t then ToOutbound "direct"
  else if in_selectors (ConfigRequest.TransparentBypassDomains req)
            (ConfigRequest.TransparentBypassCIDRs req) t then ToOutbound "direct"
  else if negb (ConfigRequest.TransparentSelectiveCapture req)
          && in_selectors (ConfigRequest.TransparentProxyDomains req)
               (ConfigRequest.TransparentProxyCIDRs req) t then proxied req t
  else if default_direct req then ToOutbound "direct" else proxied req t.

End Policy.

(** ** Rules one by one *)

Section Rules.
  Context `{XrayRoutingLaws Traffic}.

Lemma route_app rules1 rules2 t :
  route (rules1 ++ rules2) t = match route rules1 t with Some r => Some r | None => route rules2 t end.
Proof.
  induction rules1 as [|r rules1 IH]; cbn [app]; [by rewrite route_nil|].
  rewrite !route_cons, IH. by destruct (rule_applies r t).
Qed.

Lemma route_target_app rules1 rules2 t :
  route_target (rules1 ++ rules2) t =
  match route_target rules1 t with Some x => Some x | None => route_target rules2 t end.
Proof. unfold route_target. rewrite route_app. by destruct (route rules1 t). Qed.

Lemma route_target_nil t : route_target [] t = None.
Proof. unfold route_target. by rewrite route_nil. Qed.

Lemma route_target_cons r rules t :
  route_target (r :: rules) t = if rule_applies r t then Some (rule_target r) else route_target rules t.
Proof. unfold route_target. rewrite route_cons. by destruct (rule_applies r t). Qed.

(** The target that a tag of a transparent rule stands for. *)
Definition tag_target (tag : string) : Target :=
  if bool_decide (tag = "selected") then ToBalancer managedBalancerTag else ToOutbound tag.

Lemma balance_target net tag domains ips :
  rule_target (balance_selected (transparentRouteRule net tag domains ips)) = tag_target tag.
Proof. unfold balance_selected, tag_target. cbn. by destruct (bool_decide (tag = "selected")). Qed.

Lemma balance_applies net tag domains ips t :
  redirected t -> net = "tcp" \/ net = "udp" ->
  rule_applies (balance_selected (transparentRouteRule net tag domains ips)) t =
  bool_decide (network_of t = net)
  && condition domains (fun d => domain_match d t) && condition ips (fun ip => ip_match ip t).
Proof.
  intros Ht Hnet.
  assert (E : rule_applies (balance_selected (transparentRouteRule net tag domains ips)) t =
    rule_applies (transparentRouteRule net tag domains ips) t).
  { unfold balance_selected. by destruct (bool_decide _). }
  rewrite E. unfold rule_applies, condition at 1. cbn [transparentRouteRule xrayRouteRule.InboundTag
    xrayRouteRule.Network xrayRouteRule.Domain xrayRouteRule.IP].
  f_equal. f_equal. destruct Ht as [[-> ->]|[-> ->]], Hnet as [-> | ->]; reflexivity.
Qed.

(** A pair of rules, for TCP and for UDP, with the same conditions. *)
Lemma route_pair tcp_tag udp_tag domains ips t :
  redirected t ->
  route_target (balance_selected <$> [transparentRouteRule "tcp" tcp_tag domains ips;
                                      transparentRouteRule "udp" udp_tag domains ips]) t =
  if condition domains (fun d => domain_match d t) && condition ips (fun ip => ip_match ip t)
  then Some (tag_target (if bool_decide (network_of t = "udp") then udp_tag else tcp_tag)) else None.
Proof.
  intros Ht. cbn [fmap list_fmap]. rewrite !route_target_cons, route_target_nil, !balance_target.
  rewrite !balance_applies by auto.
  destruct (condition domains _ && condition ips _) eqn:E;
    destruct Ht as [[_ ->]|[_ ->]]; rewrite <- !andb_assoc, E; reflexivity.
Qed.

Lemma condition_values {A} (l : list A) holds : l <> [] -> condition l holds = existsb holds l.
Proof. by destruct l. Qed.

Lemma udp_target block t :
  tag_target (if bool_decide (network_of t = "udp") then transparentProxiedUDPOutbound block else "selected") =
  if block && bool_decide (network_of t = "udp") then ToOutbound "block" else ToBalancer managedBalancerTag.
Proof. by destruct block, (bool_decide _). Qed.

Lemma direct_target t :
  tag_target (if bool_decide (network_of t = "udp") then "direct" else "direct") = ToOutbound "direct".
Proof. by destruct (bool_decide _). Qed.

(** The target of a block of rules for the outbound [tag]. *)
Definition block_target (tag : string) (block : bool) (t : Traffic) : Target :=
  tag_target (if bool_decide (network_of t = "udp")
              then transparentUDPOutboundForTCPOutbound tag block else tag).

Lemma route_domain_rules tag domains block t :
  redirected t ->
  route_target (balance_selected <$> transparentDomainRules tag domains block) t =
  if any_domain (routeDomainMatchers domains) t then Some (block_target tag block t) else None.
Proof.
  intros Ht. unfold transparentDomainRules. destruct (bool_decide_reflect (routeDomainMatchers domains = [])) as [->|E].
  - apply route_target_nil.
  - rewrite route_pair, condition_values, andb_true_r by done. done.
Qed.

Lemma route_ip_rules tag cidrs block t :
  redirected t ->
  route_target (balance_selected <$> transparentIPRules tag cidrs block) t =
  if any_ip (cleanStringList cidrs) t then Some (block_target tag block t) else None.
Proof.
  intros Ht. unfold transparentIPRules. destruct (bool_decide_reflect (cleanStringList cidrs = [])) as [->|E].
  - apply route_target_nil.
  - rewrite route_pair, (condition_values (cleanStringList cidrs)) by done. done.
Qed.

Lemma route_if (b : bool) rules t (r : option Target) :
  (b = true -> route_target (balance_selected <$> rules) t = r) -> (b = false -> r = None) ->
  route_target (balance_selected <$> if b then rules else []) t = r.
Proof. destruct b; intros H1 H2; [by apply H1|]. rewrite route_target_nil. by rewrite H2. Qed.

Lemma nonempty_selectors {A} (l : list A) : (0 <? length l)%nat = false -> l = [].
Proof. by destruct l. Qed.

Lemma route_country req t :
  redirected t ->
  route_target (balance_selected <$> country_rules req) t =
  if in_country req t then Some (ToOutbound "direct") else None.
Proof.
  intros Ht. unfold country_rules, in_country. destruct (CountryRouting.Enabled _); [|apply route_target_nil].
  unfold countryDirectRules. destruct (NormalizeCountryCode _) as [code|]; [|apply route_target_nil].
  cbv zeta. rewrite fmap_app, route_target_app, (route_pair "direct" "direct" []) by done.
  rewrite direct_target. cbn [condition existsb andb]. rewrite orb_false_r.
  destruct (bool_decide_reflect (geosite_matchers code = [])) as [->|E].
  - rewrite route_target_nil. reflexivity.
  - rewrite route_pair, direct_target, condition_values, andb_true_r by done.
    unfold any_domain. by destruct (existsb _ _).
Qed.

(** Two optional blocks with the same target. *)
Lemma route_selectors tag domains cidrs block t :
  redirected t ->
  route_target (balance_selected <$>
    ((if (0 <? length domains)%nat then transparentDomainRules tag domains block else []) ++
     (if (0 <? length cidrs)%nat then transparentIPRules tag cidrs block else []))) t =
  if in_selectors domains cidrs t then Some (block_target tag block t) else None.
Proof.
  intros Ht. rewrite fmap_app, route_target_app.
  rewrite (route_if _ _ t (if any_domain (routeDomainMatchers domains) t
    then Some (block_target tag block t) else None)).
  - rewrite (route_if _ _ t (if any_ip (cleanStringList cidrs) t then Some (block_target tag block t) else None)).
    + unfold in_selectors. by destruct (any_domain _ _).
    + intros _. by apply route_ip_rules.
    + intros E%nonempty_selectors. by subst.
  - intros _. by apply route_domain_rules.
  - intros E%nonempty_selectors. by subst.
Qed.

Lemma empty_or_not {A} `{EqDecision A} (l : list A) (x y : list xrayRouteRule) :
  (if bool_decide (l = []) then x else y) = (if (0 <? length l)%nat then y else x).
Proof. by destruct l. Qed.

Lemma block_direct block t : block_target "direct" block t = ToOutbound "direct".
Proof. unfold block_target. change (transparentUDPOutboundForTCPOutbound "direct" block) with "direct". apply direct_target. Qed.

Lemma block_selected req t :
  block_target "selected" (ConfigRequest.TransparentBlockQUIC req) t = proxied req t.
Proof.
  unfold block_target, proxied.
  change (transparentUDPOutboundForTCPOutbound "selected" (ConfigRequest.TransparentBlockQUIC req))
    with (transparentProxiedUDPOutbound (ConfigRequest.TransparentBlockQUIC req)). apply udp_target.
Qed.

(** The rule that ends the list. *)
Lemma route_last tcp udp t :
  redirected t ->
  route_target (balance_selected <$> [transparentRouteRule "tcp" tcp [] []; transparentRouteRule "udp" udp [] []]) t
  = Some (tag_target (if bool_decide (network_of t = "udp") then udp else tcp)).
Proof. intros Ht. by rewrite route_pair. Qed.

Lemma route_transparent_selective req t :
  redirected t -> ConfigRequest.TransparentProxy req = true ->
  ConfigRequest.TransparentSelectiveCapture req = true ->
  route_target (balance_selected <$> transparentRoutingRules req) t = Some (transparent_policy req t).
Proof.
  intros Ht Hp Hs. unfold transparentRoutingRules, transparentSelectiveRoutingRules. rewrite Hp, Hs.
  cbn [negb]. rewrite !empty_or_not, fmap_app, route_target_app, route_country by done.
  rewrite (assoc_L (++)), fmap_app, route_target_app, route_selectors, block_direct, route_last by done.
  rewrite udp_target. fold (proxied req t). unfold transparent_policy, default_direct. rewrite Hs. cbn [negb andb].
  destruct (in_country req t); [done|].
  by destruct (in_selectors (ConfigRequest.TransparentBypassDomains req) (ConfigRequest.TransparentBypassCIDRs req) t).
Qed.

Lemma default_action req :
  bool_decide ((if bool_decide (ConfigRequest.TransparentDefaultAction req = "") then FirewallDefaultActionProxy
    else NormalizeFirewallDefaultAction (ConfigRequest.TransparentDefaultAction req)) = FirewallDefaultActionProxy) =
  bool_decide (ConfigRequest.TransparentDefaultAction req = "")
  || bool_decide (ConfigRequest.TransparentDefaultAction req = FirewallDefaultActionProxy).
Proof.
  unfold NormalizeFirewallDefaultAction. destruct (bool_decide (ConfigRequest.TransparentDefaultAction req = "")); [done|].
  by destruct (bool_decide (ConfigRequest.TransparentDefaultAction req = FirewallDefaultActionProxy)).
Qed.

Lemma route_transparent_full req t :
  redirected t -> ConfigRequest.TransparentProxy req = true ->
  ConfigRequest.TransparentSelectiveCapture req = false ->
  route_target (balance_selected <$> transparentRoutingRules req) t = Some (transparent_policy req t).
Proof.
  intros Ht Hp Hs. unfold transparentRoutingRules. rewrite Hp, Hs. cbn [negb]. cbv zeta.
  rewrite fmap_app, route_target_app, route_country by done.
  rewrite (assoc_L (++)), fmap_app, route_target_app, route_selectors, block_direct by done.
  rewrite (assoc_L (++)), fmap_app, route_target_app, route_selectors, block_selected by done.
  unfold transparent_policy, default_direct. rewrite Hs. cbn [negb andb].
  destruct (in_country req t); [done|].
  destruct (in_selectors (ConfigRequest.TransparentBypassDomains req) (ConfigRequest.TransparentBypassCIDRs req) t);
    [done|].
  destruct (in_selectors (ConfigRequest.TransparentProxyDomains req) (ConfigRequest.TransparentProxyCIDRs req) t);
    [done|].
  set (act := if bool_decide (ConfigRequest.TransparentDefaultAction req = "") then _ else _).
  assert (Hact : bool_decide (act = FirewallDefaultActionProxy) =
    negb (negb (bool_decide (ConfigRequest.TransparentDefaultAction req = ""))
      && negb (bool_decide (ConfigRequest.TransparentDefaultAction req = FirewallDefaultActionProxy)))).
  { unfold act. rewrite default_action. by destruct (bool_decide _), (bool_decide _). }
  assert (Hdir : bool_decide (act = FirewallDefaultActionDirect) = negb (bool_decide (act = FirewallDefaultActionProxy))).
  { unfold act, NormalizeFirewallDefaultAction.
    destruct (bool_decide (ConfigRequest.TransparentDefaultAction req = "")); [done|].
    by destruct (bool_decide (ConfigRequest.TransparentDefaultAction req = FirewallDefaultActionProxy)). }
  clearbody act. unfold transparentFallbackRules. rewrite Hdir, Hact.
  destruct (negb (bool_decide _) && negb (bool_decide _)); cbn [negb].
  - destruct (_ || _); rewrite route_last, direct_target by done; done.
  - destruct (_ || _); rewrite route_last, udp_target by done; done.
Qed.

(** Rules on destinations only. *)
Lemma route_direct_rule domains ips t :
  route_target [direct_rule domains ips] t =
  if condition domains (fun d => domain_match d t) && condition ips (fun ip => ip_match ip t)
  then Some (ToOutbound "direct") else None.
Proof.
  rewrite route_target_cons, route_target_nil. unfold rule_applies. cbn [direct_rule xrayRouteRule.InboundTag
    xrayRouteRule.Network xrayRouteRule.Domain xrayRouteRule.IP]. reflexivity.
Qed.

Lemma route_other_inbound r rules t :
  xrayRouteRule.InboundTag r <> [] -> inbound_of t ∉ xrayRouteRule.InboundTag r ->
  route_target (r :: rules) t = route_target rules t.
Proof.
  intros Hne Hin. rewrite route_target_cons. unfold rule_applies.
  assert (E : condition (xrayRouteRule.InboundTag r) (fun tag => bool_decide (tag = inbound_of t)) = false).
  { destruct (xrayRouteRule.InboundTag r) as [|a l] eqn:El; [done|]. cbn [condition]. apply not_true_iff_false.
    rewrite existsb_exists. intros (x & Hx & Ex). apply bool_decide_eq_true in Ex as ->.
    by apply Hin, list_elem_of_In. }
  by rewrite E.
Qed.

End Rules.

(** ** DNS servers *)

Section DNS.
  Context (url_hostname : string -> option string).

(** The servers whose traffic never enters a tunnel. *)
Definition direct_dns_servers (settings : DNSSettings) : result GenError (list string) :=
  let* mode := lift_dns (ParseDNSMode (DNSSettings.Mode settings)) in
  if resolves_itself mode then Ok []
  else
    let* transport := lift_dns (ParseDNSTransport (DNSSettings.Transport settings)) in
    let* servers := formatDNSServers (DNSSettings.Servers settings) transport in
    let* bootstrapServers := formatDNSServers (DNSSettings.Bootstrap settings) DNSTransportPlain in
    Ok (servers ++ bootstrapServers).

Definition is_server `{XrayRouting Traffic} (t : Traffic) (server : string) : bool :=
  let host := dnsServerHostname url_hostname server in
  negb (bool_decide (host = "")) &&
  (if is_address host then ip_match host t else domain_match (full_domain host) t).

Definition to_dns_server `{XrayRouting Traffic} (servers : list string) (t : Traffic) : bool :=
  existsb (is_server t) servers.

Lemma existsb_push_unique (f : string -> bool) l x : existsb f (push_unique l x) = existsb f l || f x.
Proof.
  unfold push_unique_by. case_bool_decide as Hin.
  - rewrite list_fmap_id in Hin. destruct (f x) eqn:E; [|by rewrite orb_false_r]. rewrite orb_true_r.
    apply existsb_exists. exists x. split; [by apply list_elem_of_In|done].
  - by rewrite existsb_app; cbn; rewrite orb_false_r.
Qed.

Lemma destinations_match `{XrayRouting Traffic} (t : Traffic) servers acc :
  let out := foldl (push_destination url_hostname) acc servers in
  any_ip out.1 t || any_domain out.2 t =
  any_ip acc.1 t || any_domain acc.2 t || to_dns_server servers t.
Proof.
  revert acc. induction servers as [|s servers IH]; intros acc out; unfold out; cbn [foldl];
    [by rewrite orb_false_r|].
  rewrite IH. unfold to_dns_server. cbn [existsb]. rewrite !orb_assoc. f_equal.
  unfold push_destination, is_server, any_ip, any_domain.
  destruct (bool_decide (dnsServerHostname url_hostname s = "")); cbn [negb andb]; [by rewrite orb_false_r|].
  destruct (is_address (dnsServerHostname url_hostname s)); cbn [fst snd]; rewrite existsb_push_unique; btauto.
Qed.

Lemma route_dns_rules `{XrayRoutingLaws Traffic} (t : Traffic) settings rules :
  directDNSRouteRules url_hostname settings = Ok rules ->
  exists servers, direct_dns_servers settings = Ok servers /\
    route_target rules t = (if to_dns_server servers t then Some (ToOutbound "direct") else None).
Proof.
  unfold directDNSRouteRules, direct_dns_servers. intros (mode & -> & E)%result_bind_ok. cbn [result_bind].
  destruct (resolves_itself mode).
  { injection E as <-. exists []. split; [done|]. apply route_target_nil. }
  revert E. intros (transport & -> & (servers & E1 & (bootstrap & E2 & E)%result_bind_ok)%result_bind_ok)%result_bind_ok.
  cbn [result_bind]. rewrite E1. cbn [result_bind]. rewrite E2. cbn [result_bind].
  exists (servers ++ bootstrap). split; [done|]. unfold directDNSDestinations in E.
  pose proof (destinations_match t (servers ++ bootstrap) ([], [])) as Hd.
  destruct (foldl (push_destination url_hostname) ([], []) (servers ++ bootstrap)) as [ips domains].
  injection E as <-. change (any_ip ips t || any_domain domains t = to_dns_server (servers ++ bootstrap) t) in Hd.
  rewrite <- Hd.
  rewrite route_target_app.
  assert (Hdom : route_target (if bool_decide (domains = []) then [] else [direct_rule domains []]) t =
    if any_domain domains t then Some (ToOutbound "direct") else None).
  { destruct domains as [|d l]; cbn [bool_decide]; [apply route_target_nil|].
    rewrite bool_decide_eq_false_2, route_direct_rule by done. cbn [condition]. by rewrite andb_true_r. }
  assert (Hips : route_target (if bool_decide (ips = []) then [] else [direct_rule [] ips]) t =
    if any_ip ips t then Some (ToOutbound "direct") else None).
  { destruct ips as [|d l]; [apply route_target_nil|].
    by rewrite bool_decide_eq_false_2, route_direct_rule by done. }
  rewrite Hdom, Hips. by destruct (any_domain domains t), (any_ip ips t).
Qed.

End DNS.

(** ** The configuration *)

Section Generate.
  Context (marshal : Json -> string) (unmarshal_object : string -> option (option (list (string * Json)))).
  Context (sha256_hex16 : string -> string).
  Context (query_get : string -> option (string -> string)) (url_hostname : string -> option string).

Definition generated (req : ConfigRequest) : result GenError xrayConfig :=
  Generate marshal unmarshal_object sha256_hex16 query_get url_hostname req.

(** The parts of a generated configuration. *)
Lemma Generate_ok req cfg :
  generated req = Ok cfg ->
  exists req' selected dnsRules,
    canonical_country req = Ok req' /\
    selected_outbound marshal unmarshal_object sha256_hex16 query_get req' = Ok selected /\
    directDNSRouteRules url_hostname (ConfigRequest.DNS req') = Ok dnsRules /\
    xrayConfig.Rules cfg = config_rules req' dnsRules /\
    xrayConfig.Outbounds cfg = config_outbounds req' selected /\
    xrayConfig.Inbounds cfg = config_inbounds req' /\
    xrayConfig.Balancers cfg = managed_balancers /\ xrayConfig.APITag cfg = managedAPITag.
Proof.
  unfold generated, Generate.
  intros (req' & Hc & (selected & Hs & (dns & _ & (rules & Hr & [= <-])%result_bind_ok)%result_bind_ok)%result_bind_ok)%result_bind_ok.
  by exists req', selected, rules.
Qed.

(** Canonicalising the country changes no other field and no decision. *)
Lemma canonical_country_fields req req' :
  canonical_country req = Ok req' ->
  exists r, req' = req <| ConfigRequest.TransparentCountryRouting := r |> /\
    CountryRouting.Enabled r = CountryRouting.Enabled (ConfigRequest.TransparentCountryRouting req) /\
    (CountryRouting.Enabled r = true ->
     NormalizeCountryCode (CountryRouting.CountryCode r) =
     NormalizeCountryCode (CountryRouting.CountryCode (ConfigRequest.TransparentCountryRouting req))).
Proof.
  unfold canonical_country. destruct (CountryRouting.Enabled _) eqn:E.
  - destruct (CanonicalCountryRouting _) as [r|e] eqn:Er; [|done]. intros [= <-]. exists r. split; [done|].
    pose proof (CanonicalCountryRouting_enabled _ _ Er) as En. split; [by rewrite En|]. intros _.
    revert Er. unfold CanonicalCountryRouting. case_bool_decide; [by rewrite E|].
    intros (code & Hn & [= <-])%result_bind_ok. rewrite Hn. cbn.
    by apply supported_normal, (NormalizeCountryCode_supported _ _ Hn).
  - intros [= <-]. exists (ConfigRequest.TransparentCountryRouting req). split; [|by rewrite E].
    unfold upd. by destruct req.
Qed.

Lemma canonical_policy `{XrayRouting Traffic} req req' (t : Traffic) :
  canonical_country req = Ok req' -> transparent_policy req' t = transparent_policy req t.
Proof.
  intros (r & -> & He & Hn)%canonical_country_fields.
  assert (E : in_country (req <| ConfigRequest.TransparentCountryRouting := r |>) t = in_country req t).
  { unfold in_country. unfold upd at 1 2. cbn [ConfigRequest.set_TransparentCountryRouting
      ConfigRequest.TransparentCountryRouting]. rewrite He.
    destruct (CountryRouting.Enabled (ConfigRequest.TransparentCountryRouting req)) eqn:E; [|done].
    cbn [andb]. by rewrite Hn by congruence. }
  unfold transparent_policy. rewrite E. reflexivity.
Qed.

(** The decision of the generated rules. *)
Lemma generated_routes `{XrayRoutingLaws Traffic} req cfg (t : Traffic) :
  generated req = Ok cfg ->
  ConfigRequest.TransparentProxy req = true ->
  redirected t ->
  exists servers,
    direct_dns_servers (ConfigRequest.DNS req) = Ok servers /\
    route_target (xrayConfig.Rules cfg) t =
      Some (if to_dns_server url_hostname servers t then ToOutbound "direct" else transparent_policy req t).
Proof.
  intros Hg Hp Ht. apply Generate_ok in Hg as (req' & selected & rules & Hc & _ & Hr & -> & _).
  pose proof (canonical_policy req req' t Hc) as Epol.
  apply canonical_country_fields in Hc as (r & -> & _).
  destruct (route_dns_rules url_hostname t _ _ Hr) as (servers & Hs & Er).
  exists servers. split; [exact Hs|]. unfold config_rules, dns_in_rules.
  assert (Htr : route_target (balance_selected <$> transparentRoutingRules
    (req <| ConfigRequest.TransparentCountryRouting := r |>)) t = Some (transparent_policy req t)).
  { rewrite <- Epol. destruct (ConfigRequest.TransparentSelectiveCapture req) eqn:Ec.
    - by apply route_transparent_selective.
    - by apply route_transparent_full. }
  assert (Hrest : route_target (rules ++ (balance_selected <$> transparentRoutingRules
      (req <| ConfigRequest.TransparentCountryRouting := r |>)) ++ local_rules) t =
    Some (if to_dns_server url_hostname servers t then ToOutbound "direct" else transparent_policy req t)).
  { rewrite !route_target_app, Er, Htr. by destruct (to_dns_server _ _ _). }
  destruct (ConfigRequest.LocalDNSEnabled _); [|exact Hrest].
  cbn [app]. rewrite route_other_inbound; [exact Hrest|done|].
  intros Hin. apply list_elem_of_singleton in Hin. destruct Ht as [[E _]|[E _]]; rewrite E in Hin; done.
Qed.

(** C2: redirected traffic goes where the request says, whatever Xray's matchers
    are: destinations that are DNS servers and the country's go out directly,
    then the bypass selectors, then (unless only selected traffic is captured)
    the proxy selectors, then the default; proxied traffic goes to the managed
    balancer, except that UDP is dropped when QUIC is blocked.  Every redirected
    connection is decided. *)
Theorem Generate_routes_by_policy `{XrayRoutingLaws Traffic} req cfg (t : Traffic) :
  generated req = Ok cfg ->
  ConfigRequest.TransparentProxy req = true ->
  redirected t ->
  exists servers,
    direct_dns_servers (ConfigRequest.DNS req) = Ok servers /\
    route_target (xrayConfig.Rules cfg) t =
      Some (if to_dns_server url_hostname servers t then ToOutbound "direct" else transparent_policy req t).
Proof. apply generated_routes. Qed.

(** ** The other inbounds *)

Definition transparent_rule (r : xrayRouteRule) : Prop :=
  exists net tag domains ips, r = transparentRouteRule net tag domains ips /\
    (tag = "direct" \/ tag = "block" \/ tag = "selected").

Lemma pair_transparent tag tag' domains ips :
  (tag = "direct" \/ tag = "block" \/ tag = "selected") ->
  (tag' = "direct" \/ tag' = "block" \/ tag' = "selected") ->
  Forall transparent_rule [transparentRouteRule "tcp" tag domains ips; transparentRouteRule "udp" tag' domains ips].
Proof. intros H H'. repeat constructor; by eexists _, _, _, _. Qed.

Lemma proxied_tag block :
  transparentProxiedUDPOutbound block = "direct" \/ transparentProxiedUDPOutbound block = "block" \/
  transparentProxiedUDPOutbound block = "selected".
Proof. destruct block; auto. Qed.

Lemma udp_tag tag block :
  let u := transparentUDPOutboundForTCPOutbound tag block in u = "direct" \/ u = "block" \/ u = "selected".
Proof. unfold transparentUDPOutboundForTCPOutbound. destruct (bool_decide _); [auto|]. apply proxied_tag. Qed.

Lemma domain_rules_transparent tag domains block :
  (tag = "direct" \/ tag = "block" \/ tag = "selected") ->
  Forall transparent_rule (transparentDomainRules tag domains block).
Proof.
  intros H. unfold transparentDomainRules. destruct (bool_decide _); [constructor|].
  apply pair_transparent; [done|apply udp_tag].
Qed.

Lemma ip_rules_transparent tag cidrs block :
  (tag = "direct" \/ tag = "block" \/ tag = "selected") ->
  Forall transparent_rule (transparentIPRules tag cidrs block).
Proof.
  intros H. unfold transparentIPRules. destruct (bool_decide _); [constructor|].
  apply pair_transparent; [done|apply udp_tag].
Qed.

Lemma country_rules_transparent req : Forall transparent_rule (country_rules req).
Proof.
  unfold country_rules, countryDirectRules. destruct (CountryRouting.Enabled _); [|constructor].
  destruct (NormalizeCountryCode _); [|constructor]. cbv zeta. apply Forall_app. split.
  - destruct (bool_decide _); [constructor|]. apply pair_transparent; auto.
  - apply pair_transparent; auto.
Qed.

Lemma fallback_transparent action block : Forall transparent_rule (transparentFallbackRules action block).
Proof.
  unfold transparentFallbackRules. destruct (bool_decide _); apply pair_transparent; auto using proxied_tag.
Qed.

#[local] Hint Resolve domain_rules_transparent ip_rules_transparent country_rules_transparent
  fallback_transparent pair_transparent proxied_tag : core.

Lemma routing_rules_transparent req : Forall transparent_rule (transparentRoutingRules req).
Proof.
  unfold transparentRoutingRules, transparentSelectiveRoutingRules.
  destruct (negb _); [constructor|]. destruct (ConfigRequest.TransparentSelectiveCapture req); cbv zeta;
    rewrite !Forall_app; repeat split; auto;
    repeat match goal with |- Forall _ (if ?b then _ else _) => destruct b end; auto.
Qed.

Lemma balanced_inbound r :
  transparent_rule r ->
  xrayRouteRule.InboundTag (balance_selected r) = [transparentTCPInboundTag] \/
  xrayRouteRule.InboundTag (balance_selected r) = [transparentUDPInboundTag].
Proof.
  intros (net & tag & d & i & -> & _). unfold balance_selected.
  destruct (bool_decide _); cbn; unfold transparentInboundTagsForNetwork; destruct (bool_decide _); auto.
Qed.

(** Traffic of no redirecting inbound passes the transparent rules. *)
Lemma route_passes_transparent `{XrayRoutingLaws Traffic} req rules (t : Traffic) :
  inbound_of t <> transparentTCPInboundTag -> inbound_of t <> transparentUDPInboundTag ->
  route_target ((balance_selected <$> transparentRoutingRules req) ++ rules) t = route_target rules t.
Proof.
  intros H1 H2. induction (routing_rules_transparent req) as [|r l Hr _ IH]; [done|].
  cbn [fmap list_fmap app]. rewrite route_other_inbound; [exact IH| |];
    destruct (balanced_inbound r Hr) as [-> | ->]; [done..| |]; set_solver.
Qed.

(** Which traffic a local inbound carries and where it belongs. *)
Definition local_target (inbound network : string) : option Target :=
  if bool_decide (inbound = "socks-in") || bool_decide (inbound = "http-in")
  then if bool_decide (network = "tcp") || bool_decide (network = "udp")
       then Some (ToBalancer managedBalancerTag) else None
  else if bool_decide (inbound = "fastlane-api-in") then Some (ToOutbound managedAPITag)
  else if bool_decide (inbound = "fastlane-probe-in-0") && bool_decide (network = "tcp")
  then Some (ToBalancer "fastlane-probe-0")
  else if bool_decide (inbound = "fastlane-probe-in-1") && bool_decide (network = "tcp")
  then Some (ToBalancer "fastlane-probe-1")
  else None.

Lemma route_local `{XrayRoutingLaws Traffic} (t : Traffic) target :
  local_target (inbound_of t) (network_of t) = Some target -> route_target local_rules t = Some target.
Proof.
  unfold local_target, local_rules. rewrite !route_target_cons, route_target_nil. unfold rule_applies.
  generalize (network_of t) as net. generalize (inbound_of t) as inb. intros inb net.
  destruct (bool_decide_reflect (inb = "socks-in")) as [->|H1].
  { destruct (bool_decide_reflect (net = "tcp")) as [->|]; [by intros [= <-]|].
    destruct (bool_decide_reflect (net = "udp")) as [->|]; [by intros [= <-]|done]. }
  destruct (bool_decide_reflect (inb = "http-in")) as [->|H2].
  { destruct (bool_decide_reflect (net = "tcp")) as [->|]; [by intros [= <-]|].
    destruct (bool_decide_reflect (net = "udp")) as [->|]; [by intros [= <-]|done]. }
  cbn [orb]. destruct (bool_decide_reflect (inb = "fastlane-api-in")) as [->|H3]; [by intros [= <-]|].
  destruct (bool_decide_reflect (inb = "fastlane-probe-in-0")) as [->|H4].
  { destruct (bool_decide_reflect (net = "tcp")) as [->|]; [by intros [= <-]|done]. }
  destruct (bool_decide_reflect (inb = "fastlane-probe-in-1")) as [->|H5]; [|done].
  destruct (bool_decide_reflect (net = "tcp")) as [->|]; [by intros [= <-]|done].
Qed.

Lemma local_not_transparent inb net target :
  local_target inb net = Some target ->
  inb <> transparentTCPInboundTag /\ inb <> transparentUDPInboundTag /\ inb <> localDNSInboundTag.
Proof.
  intros Hl. assert (inb = "socks-in" \/ inb = "http-in" \/ inb = "fastlane-api-in" \/
    inb = "fastlane-probe-in-0" \/ inb = "fastlane-probe-in-1") as Hin.
  { unfold local_target in Hl.
    destruct (bool_decide_reflect (inb = "socks-in")); [auto|].
    destruct (bool_decide_reflect (inb = "http-in")); [auto|].
    destruct (bool_decide_reflect (inb = "fastlane-api-in")); [auto|].
    destruct (bool_decide_reflect (inb = "fastlane-probe-in-0")); [auto|].
    destruct (bool_decide_reflect (inb = "fastlane-probe-in-1")); [auto|]. done. }
  by destruct Hin as [->|[->|[->|[->| ->]]]].
Qed.

(** The local inbounds keep to their purpose: the proxy ports use the managed
    balancer, each probe port the balancer of its slot, the management port the
    API and the DNS port the DNS outbound.  Only traffic to a configured DNS
    server leaves this order, on every port but the DNS port: a DNS server on
    the loopback address takes the management port's own traffic with it. *)
Theorem Generate_routes_local `{XrayRoutingLaws Traffic} req cfg (t : Traffic) :
  generated req = Ok cfg ->
  exists servers,
    direct_dns_servers (ConfigRequest.DNS req) = Ok servers /\
    (forall target, local_target (inbound_of t) (network_of t) = Some target ->
       route_target (xrayConfig.Rules cfg) t =
         Some (if to_dns_server url_hostname servers t then ToOutbound "direct" else target)) /\
    (inbound_of t = localDNSInboundTag -> ConfigRequest.LocalDNSEnabled req = true ->
       route_target (xrayConfig.Rules cfg) t = Some (ToOutbound "dns-out")).
Proof.
  intros Hg. apply Generate_ok in Hg as (req' & selected & rules & Hc & _ & Hr & -> & _).
  apply canonical_country_fields in Hc as (r & -> & _).
  destruct (route_dns_rules url_hostname t _ _ Hr) as (servers & Hs & Er).
  exists servers. split; [exact Hs|]. split.
  - intros target Hl. destruct (local_not_transparent _ _ _ Hl) as (H1 & H2 & H3).
    assert (Hrest : route_target (rules ++ (balance_selected <$> transparentRoutingRules
        (req <| ConfigRequest.TransparentCountryRouting := r |>)) ++ local_rules) t =
      Some (if to_dns_server url_hostname servers t then ToOutbound "direct" else target)).
    { rewrite route_target_app, Er, route_passes_transparent, (route_local t target Hl) by done.
      by destruct (to_dns_server _ _ _). }
    unfold config_rules, dns_in_rules. destruct (ConfigRequest.LocalDNSEnabled _); [|exact Hrest].
    cbn [app]. rewrite route_other_inbound; [exact Hrest|done|]. intros Hin.
    apply list_elem_of_singleton in Hin. done.
  - intros Hin Hl. unfold config_rules, dns_in_rules.
    change (ConfigRequest.LocalDNSEnabled (req <| ConfigRequest.TransparentCountryRouting := r |>))
      with (ConfigRequest.LocalDNSEnabled req). rewrite Hl. cbn [app].
    rewrite route_target_cons. unfold rule_applies. cbn [xrayRouteRule.InboundTag xrayRouteRule.Network
      xrayRouteRule.Domain xrayRouteRule.IP condition existsb]. by rewrite Hin.
Qed.

End Generate.
