(* ===== verification/XrayFacts.v ===== *)
(** * The generated configuration: shape, errors, examples

    References inside a configuration, the only way the generator panics, and a
    concrete process on which the routing theorems are instantiated. *)
From S2P Require Import Prelude GoRunes GoStrings GoNum NetIP GoConv Domain Firewall.
From S2P Require Import FirewallSettings.
From S2P Require Import Zapret Settings XrayConfig XrayRouting.

Local Open Scope Z_scope.
Local Open Scope list_scope.

(** ** Objects *)

Lemma obj_set_get fields key v : obj_get (obj_set fields key v) key = Some v.
Proof.
  induction fields as [|[k w] fields IH]; cbn; [by rewrite bool_decide_eq_true_2|].
  case_bool_decide as E; cbn; [by rewrite bool_decide_eq_true_2|]. by rewrite bool_decide_eq_false_2.
Qed.

Lemma obj_set_other fields key v k : k <> key -> obj_get (obj_set fields key v) k = obj_get fields k.
Proof.
  intros H. induction fields as [|[k' w] fields IH]; cbn.
  - by rewrite bool_decide_eq_false_2 by congruence.
  - case_bool_decide as E; cbn; [|by rewrite IH]. subst. by rewrite !(bool_decide_eq_false_2 (key = k)) by congruence.
Qed.

Lemma set_tag_tag o tag : outbound_tag (set_tag o tag) = tag.
Proof. destruct o as [o|fields]; cbn; [done|]. unfold obj_string. by rewrite obj_set_get. Qed.

(** ** Shape *)

Definition declared_outbound (cfg : xrayConfig) (tag : string) : Prop :=
  tag ∈ outbound_tag <$> xrayConfig.Outbounds cfg \/ tag = xrayConfig.APITag cfg.

(** A rule has one target, which the configuration declares, and only inbounds
    that it declares. *)
Record rule_ok (cfg : xrayConfig) (r : xrayRouteRule) : Prop := {
  rule_one_target :
    (xrayRouteRule.BalancerTag r = "" /\ declared_outbound cfg (xrayRouteRule.OutboundTag r)) \/
    (xrayRouteRule.OutboundTag r = "" /\
     xrayRouteRule.BalancerTag r ∈ xrayBalancer.Tag <$> xrayConfig.Balancers cfg);
  rule_inbounds :
    forall tag, tag ∈ xrayRouteRule.InboundTag r -> tag ∈ xrayInbound.Tag <$> xrayConfig.Inbounds cfg
}.

Record config_ok (cfg : xrayConfig) : Prop := {
  config_inbounds_distinct : NoDup (xrayInbound.Tag <$> xrayConfig.Inbounds cfg);
  config_outbounds_distinct : NoDup (outbound_tag <$> xrayConfig.Outbounds cfg);
  config_rules_ok : Forall (rule_ok cfg) (xrayConfig.Rules cfg);
  config_fallbacks : Forall (fun b => declared_outbound cfg (xrayBalancer.FallbackTag b))
    (xrayConfig.Balancers cfg)
}.

Lemma prefix_app p s : String.prefix p (p +:+ s) = true.
Proof.
  induction p as [|c p IH]; [by destruct s|].
  change (String.prefix (String c p) (String c (p +:+ s)) = true).
  simpl. destruct (ascii_dec c c); [exact IH|done].
Qed.

Section Shape.
  Context (marshal : Json -> string) (unmarshal_object : string -> option (option (list (string * Json)))).
  Context (sha256_hex16 : string -> string).
  Context (query_get : string -> option (string -> string)) (url_hostname : string -> option string).

Lemma managed_tag node mark o tag :
  managedOutboundForNode marshal unmarshal_object sha256_hex16 query_get node mark = Ok (o, tag) ->
  outbound_tag o = tag /\ HasPrefix tag managedOutboundPrefix = true.
Proof.
  unfold managedOutboundForNode. intros (sel & _ & [= <- <-])%result_bind_ok. split; [apply set_tag_tag|].
  apply prefix_app.
Qed.

(** At most one outbound is selected; it is one that the balancers see. *)
Lemma selected_outbound_tag req selected :
  selected_outbound marshal unmarshal_object sha256_hex16 query_get req = Ok selected ->
  selected = [] \/ exists o, selected = [o] /\ HasPrefix (outbound_tag o) managedOutboundPrefix = true.
Proof.
  unfold selected_outbound. destruct (ConfigRequest.StartDirect req); [intros [= <-]; by left|].
  intros (node & _ & ([o tag] & Hm & [= <-])%result_bind_ok)%result_bind_ok. right. exists o. split; [done|].
  apply managed_tag in Hm as [-> H]. exact H.
Qed.

Lemma fixed_tag_not_managed tag :
  tag ∈ ["direct"; "block"; managedDirectTag; "dns-out"; managedAPITag] ->
  HasPrefix tag managedOutboundPrefix = false.
Proof. intros H. repeat (apply elem_of_cons in H as [-> |H]; [done|]). by apply elem_of_nil in H. Qed.

Lemma outbound_tags req selected :
  outbound_tag <$> config_outbounds req selected =
  (outbound_tag <$> selected) ++ ["direct"; "block"; managedDirectTag] ++
  (if ConfigRequest.LocalDNSEnabled req then ["dns-out"] else []).
Proof. unfold config_outbounds. rewrite fmap_app. cbn. by destruct (ConfigRequest.LocalDNSEnabled req). Qed.

Lemma outbound_tags_distinct req selected :
  selected = [] \/ (exists o, selected = [o] /\ HasPrefix (outbound_tag o) managedOutboundPrefix = true) ->
  NoDup (outbound_tag <$> config_outbounds req selected).
Proof.
  intros Hsel. rewrite outbound_tags.
  assert (Hfixed : NoDup (["direct"; "block"; managedDirectTag] ++
    (if ConfigRequest.LocalDNSEnabled req then ["dns-out"] else []))).
  { destruct (ConfigRequest.LocalDNSEnabled req); apply (bool_decide_unpack _); vm_compute; exact I. }
  destruct Hsel as [->|(o & -> & Ho)]; [exact Hfixed|]. cbn [fmap list_fmap]. apply NoDup_cons. split; [|exact Hfixed].
  intros Hin. assert (Hin' : outbound_tag o ∈ ["direct"; "block"; managedDirectTag; "dns-out"; managedAPITag]).
  { destruct (ConfigRequest.LocalDNSEnabled req); cbn in Hin; set_solver. }
  apply fixed_tag_not_managed in Hin'. congruence.
Qed.

Lemma inbound_tags req :
  xrayInbound.Tag <$> config_inbounds req =
  ["socks-in"; "http-in"] ++ (if ConfigRequest.LocalDNSEnabled req then [localDNSInboundTag] else []) ++
  (if ConfigRequest.TransparentProxy req then [transparentTCPInboundTag; transparentUDPInboundTag] else []) ++
  ["fastlane-api-in"; "fastlane-probe-in-0"; "fastlane-probe-in-1"].
Proof.
  unfold config_inbounds. by destruct (ConfigRequest.LocalDNSEnabled req), (ConfigRequest.TransparentProxy req).
Qed.

Lemma dns_rules_direct settings rules :
  directDNSRouteRules url_hostname settings = Ok rules ->
  Forall (fun r => xrayRouteRule.OutboundTag r = "direct" /\ xrayRouteRule.BalancerTag r = "" /\
    xrayRouteRule.InboundTag r = []) rules.
Proof.
  unfold directDNSRouteRules. intros (mode & _ & E)%result_bind_ok. destruct (resolves_itself mode).
  { injection E as <-. constructor. }
  revert E. intros (transport & _ & (servers & _ & (bootstrap & _ & E)%result_bind_ok)%result_bind_ok)%result_bind_ok.
  destruct (directDNSDestinations _ _) as [ips domains]. injection E as <-.
  apply Forall_app. split; destruct (bool_decide _); by repeat constructor.
Qed.

(** C39: a generated configuration is closed: every rule has exactly one target, an
    outbound, the management API or a balancer that the configuration declares,
    and names only inbounds it declares; tags are unique; and the balancers fall
    back on declared outbounds. *)
Theorem Generate_well_formed req cfg :
  generated marshal unmarshal_object sha256_hex16 query_get url_hostname req = Ok cfg ->
  config_ok cfg.
Proof.
  intros Hg. apply Generate_ok in Hg as (req' & selected & dnsRules & _ & Hsel & Hdns & Er & Eo & Ei & Eb & Ea).
  apply selected_outbound_tag in Hsel. apply dns_rules_direct in Hdns.
  assert (Hout : forall tag, tag ∈ ["direct"; "block"; managedDirectTag] -> declared_outbound cfg tag).
  { intros tag H. left. rewrite Eo, outbound_tags. set_solver. }
  split.
  - rewrite Ei, inbound_tags. apply (bool_decide_unpack _).
    destruct (ConfigRequest.LocalDNSEnabled req'), (ConfigRequest.TransparentProxy req'); vm_compute; exact I.
  - rewrite Eo. by apply outbound_tags_distinct.
  - rewrite Er. unfold config_rules. rewrite !Forall_app. split; [|split; [|split]].
    + unfold dns_in_rules. destruct (ConfigRequest.LocalDNSEnabled req') eqn:El; [|constructor].
      apply Forall_singleton. split.
      * left. split; [done|]. left. rewrite Eo, outbound_tags, El. set_solver.
      * intros tag Hin. rewrite Ei, inbound_tags, El. set_solver.
    + eapply Forall_impl; [exact Hdns|]. intros r (E1 & E2 & E3). split.
      * left. split; [done|]. rewrite E1. apply Hout. set_solver.
      * rewrite E3. intros tag Hin. by apply elem_of_nil in Hin.
    + apply Forall_fmap. destruct (ConfigRequest.TransparentProxy req') eqn:Ep; cycle 1.
      { unfold transparentRoutingRules. rewrite Ep. constructor. }
      eapply Forall_impl; [apply routing_rules_transparent|]. intros r Hr. split.
      * destruct Hr as (net & tag & d & i & -> & Htag). unfold balance_selected. cbn.
        destruct Htag as [->|[->| ->]]; cbn; [left; split; [done|apply Hout; set_solver]..|].
        right. rewrite Eb. split; [done|]. set_solver.
      * intros tag Hin. rewrite Ei, inbound_tags, Ep.
        destruct (balanced_inbound r Hr) as [E|E]; cbn in Hin; rewrite E in Hin; set_solver.
    + unfold local_rules. repeat (apply Forall_cons; split); [..|constructor].
      all: split; [|intros tag Hin; rewrite Ei, inbound_tags; cbn in Hin; set_solver].
      2: left; split; [done|]; right; by rewrite Ea.
      all: right; split; [done|]; rewrite Eb; cbn; set_solver.
  - rewrite Eb. repeat (apply Forall_cons; split); [..|constructor]; apply Hout; cbn; set_solver.
Qed.

End Shape.

(** ** Errors *)

Section Errors.
  Context (unmarshal_object : string -> option (option (list (string * Json)))).
  Context (query_get : string -> option (string -> string)).

(** The query of an xhttp node whose extra settings are the JSON text [null]
    and that also asks for a positive concurrency. *)
Definition nil_extra_query (query : string -> string) : Prop :=
  TrimSpace (query "extra") <> "" /\
  unmarshal_object (TrimSpace (query "extra")) = Some None /\
  exists value, TrimSpace (query "concurrency") <> "" /\
    Atoi (TrimSpace (query "concurrency")) = Some value /\ 0 < value.

Lemma xhttp_extra_panics query :
  xhttp_extra unmarshal_object query = Err Panic <-> nil_extra_query query.
Proof.
  unfold xhttp_extra, nil_extra_query.
  destruct (bool_decide_reflect (TrimSpace (query "extra") = "")) as [E|E]; cbn [result_bind].
  { split; [|tauto]. repeat case_match; done. }
  destruct (unmarshal_object (TrimSpace (query "extra"))) as [[fields|]|] eqn:Eu; cbn [result_bind].
  - split; [repeat case_match; done|]. by intros (_ & ? & _).
  - destruct (bool_decide_reflect (TrimSpace (query "concurrency") = "")) as [Ec|Ec].
    { split; [done|]. intros (_ & _ & v & ? & _). done. }
    destruct (Atoi (TrimSpace (query "concurrency"))) as [v|] eqn:Ea.
    + destruct (Z.ltb_spec 0 v).
      * split; [|done]. intros _. split; [done|]. split; [done|]. by exists v.
      * split; [done|]. intros (_ & _ & w & _ & [= ->] & Hw). lia.
    + split; [done|]. by intros (_ & _ & w & _ & ? & _).
  - split; [done|]. by intros (_ & ? & _).
Qed.

(** Building an outbound panics in exactly one case: an xhttp node whose
    share link sets [extra] to the JSON [null] and a positive [concurrency]; the
    decoded map is nil and the program assigns into it.  Every other node gives
    an outbound or an error value. *)
Theorem outboundForNode_panics node :
  outboundForNode unmarshal_object query_get node = Err Panic <->
  Node.Transport node = "xhttp" /\
  exists query, query_get (Node.RawQuery node) = Some query /\ nil_extra_query query.
Proof.
  assert (Hp : outboundForNode unmarshal_object query_get node = Err Panic <->
    node_stream unmarshal_object query_get node = Err Panic).
  { unfold outboundForNode. destruct (node_stream _ _ node) as [stream|e]; cbn [result_bind].
    - split; [|done]. repeat case_match; done.
    - split; by intros [= ->]. }
  rewrite Hp. unfold node_stream, transport_stream.
  destruct (bool_decide_reflect (Node.Transport node = "ws")) as [->|]; [split; [done|by intros [? _]]|].
  destruct (bool_decide_reflect (Node.Transport node = "grpc")) as [->|]; [split; [done|by intros [? _]]|].
  destruct (bool_decide_reflect (Node.Transport node = "xhttp")) as [Ex|]; [|split; [done|by intros [? _]]].
  unfold xhttp_settings. destruct (query_get (Node.RawQuery node)) as [query|] eqn:Eq; cbn [result_bind].
  - pose proof (xhttp_extra_panics query) as Hx. destruct (xhttp_extra _ query) as [extra|e]; cbn [result_bind].
    + split; [done|]. intros (_ & q & [= <-] & Hq). apply Hx in Hq. done.
    + split.
      * intros [= ->]. split; [done|]. exists query. split; [done|]. by apply Hx.
      * intros (_ & q & [= <-] & Hq). apply Hx in Hq. by injection Hq as ->.
  - split; [done|]. by intros (_ & q & ? & _).
Qed.

End Errors.

(** ** A concrete process *)

(** Traffic given by its inbound, its network and the matchers that hold for its
    destination. *)
Record Packet : Type := {
  packet_inbound : string;
  packet_network : string;
  packet_matchers : list string
}.

#[export] Instance packet_routing : XrayRouting Packet := {
  inbound_of := packet_inbound;
  network_of := packet_network;
  domain_match d t := bool_decide (d ∈ packet_matchers t);
  ip_match ip t := bool_decide (ip ∈ packet_matchers t);
  route rules t := List.find (fun r =>
    condition (xrayRouteRule.InboundTag r) (fun tag => bool_decide (tag = packet_inbound t))
    && (bool_decide (xrayRouteRule.Network r = "")
        || bool_decide (packet_network t ∈ split_byte (xrayRouteRule.Network r) ","%char))
    && condition (xrayRouteRule.Domain r) (fun d => bool_decide (d ∈ packet_matchers t))
    && condition (xrayRouteRule.IP r) (fun ip => bool_decide (ip ∈ packet_matchers t))) rules
}.

#[export] Instance packet_laws : XrayRoutingLaws Packet.
Proof. split; [done|]. intros r rules t. reflexivity. Qed.

Definition sample_request (servers : list string) : ConfigRequest :=
  ConfigRequest.mk "auto"
    [Node.mk "n1" "s1" "edge" "" ProtocolTrojan "edge.example" 443 "" "secret" "" "tls" "edge.example" [] "" ""
       "" "" "" "tcp" "" "" "" "" ∅ ""]
    "n1" "" (DNSSettings.mk DNSModeRemote DNSTransportPlain servers [] []) 0 0 true "" 0 true false true 0
    "" ["openai.com"] [] ["example.org"] ["10.0.0.0/8"] (CountryRouting.mk true "ru") 0 false.

Definition sample_config (servers : list string) : result GenError xrayConfig :=
  generated (fun _ => "") (fun _ => None) (fun _ => "0123456789abcdef") (fun _ => Some (fun _ => ""))
    (fun url => Some (TrimPrefix url "//")) (sample_request servers).

Definition config_rules_of (r : result GenError xrayConfig) : list xrayRouteRule :=
  match r with Ok cfg => xrayConfig.Rules cfg | Err _ => [] end.

Lemma sample_ok servers : servers = ["8.8.8.8"] \/ servers = ["127.0.0.1"] ->
  exists cfg, sample_config servers = Ok cfg.
Proof. intros [-> | ->]; eexists; vm_compute; reflexivity. Qed.

Lemma Generate_routes_by_policy_witness :
  exists servers cfg, sample_config ["8.8.8.8"] = Ok cfg /\
    direct_dns_servers (ConfigRequest.DNS (sample_request ["8.8.8.8"])) = Ok servers /\
    let t := Build_Packet transparentUDPInboundTag "udp" ["domain:openai.com"] in
    route_target (xrayConfig.Rules cfg) t =
    Some (if to_dns_server (fun url => Some (TrimPrefix url "//")) servers t then ToOutbound "direct"
          else transparent_policy (sample_request ["8.8.8.8"]) t).
Proof.
  destruct (sample_ok ["8.8.8.8"] (or_introl eq_refl)) as [cfg Hcfg].
  assert (Ht : redirected (Build_Packet transparentUDPInboundTag "udp" ["domain:openai.com"]))
    by (right; split; reflexivity).
  destruct (Generate_routes_by_policy (fun _ => "") (fun _ => None) (fun _ => "0123456789abcdef")
    (fun _ => Some (fun _ => "")) (fun url => Some (TrimPrefix url "//")) (sample_request ["8.8.8.8"]) cfg
    (Build_Packet transparentUDPInboundTag "udp" ["domain:openai.com"]) Hcfg eq_refl Ht) as (servers & Hs & Hr).
  exists servers, cfg. split; [exact Hcfg|]. split; [exact Hs|exact Hr].
Defined.

(** UDP to a proxied destination is dropped, TCP to a bypassed one goes out
    directly. *)
Example sample_routes :
  let rules := config_rules_of (sample_config ["8.8.8.8"]) in
  route_target rules (Build_Packet transparentUDPInboundTag "udp" ["domain:openai.com"]) = Some (ToOutbound "block") /\
  route_target rules (Build_Packet transparentTCPInboundTag "tcp" ["domain:example.org"]) = Some (ToOutbound "direct") /\
  route_target rules (Build_Packet transparentTCPInboundTag "tcp" ["geoip:ru"]) = Some (ToOutbound "direct") /\
  route_target rules (Build_Packet transparentTCPInboundTag "tcp" []) = Some (ToBalancer managedBalancerTag).
Proof. vm_compute. repeat split. Qed.

(** With a DNS server on the loopback address the management port no longer
    reaches the API. *)
Lemma Generate_routes_local_witness :
  exists cfg, sample_config ["127.0.0.1"] = Ok cfg /\
    route_target (xrayConfig.Rules cfg) (Build_Packet "fastlane-api-in" "tcp" ["127.0.0.1"]) =
    Some (ToOutbound "direct").
Proof.
  destruct (sample_ok ["127.0.0.1"] (or_intror eq_refl)) as [cfg Hcfg]. exists cfg. split; [exact Hcfg|].
  destruct (Generate_routes_local (fun _ => "") (fun _ => None) (fun _ => "0123456789abcdef")
    (fun _ => Some (fun _ => "")) (fun url => Some (TrimPrefix url "//")) (sample_request ["127.0.0.1"]) cfg
    (Build_Packet "fastlane-api-in" "tcp" ["127.0.0.1"]) Hcfg) as (servers & Hs & Hr & _).
  rewrite (Hr (ToOutbound managedAPITag)) by (vm_compute; reflexivity).
  assert (E : direct_dns_servers (ConfigRequest.DNS (sample_request ["127.0.0.1"])) = Ok ["127.0.0.1"])
    by (vm_compute; reflexivity).
  rewrite E in Hs. injection Hs as <-. vm_compute. reflexivity.
Defined.

Lemma Generate_well_formed_witness :
  exists cfg, sample_config ["8.8.8.8"] = Ok cfg /\ config_ok cfg.
Proof.
  destruct (sample_ok ["8.8.8.8"] (or_introl eq_refl)) as [cfg Hcfg]. exists cfg. split; [exact Hcfg|].
  exact (Generate_well_formed (fun _ => "") (fun _ => None) (fun _ => "0123456789abcdef")
    (fun _ => Some (fun _ => "")) (fun url => Some (TrimPrefix url "//")) (sample_request ["8.8.8.8"]) cfg Hcfg).
Defined.

(** A share link with [type=xhttp&extra=null&concurrency=1]. *)
Example null_extra_panics :
  outboundForNode (fun text => if bool_decide (text = "null") then Some None else None)
    (fun _ => Some (fun key => if bool_decide (key = "extra") then "null"
                               else if bool_decide (key = "concurrency") then "1" else ""))
    (Node.mk "n" "s" "edge" "" ProtocolVLESS "edge.example" 443 "id" "" "none" "tls" "" [] "" "" "" "" ""
       "xhttp" "/" "" "" "type=xhttp&extra=null&concurrency=1" ∅ "") = Err Panic.
Proof. vm_compute. reflexivity. Qed.
