(* ===== verification/BackendRequest.v ===== *)
(** * From the settings to a backend request

    [backendConfigRequest] of [app/service.go] and the helpers that feed it.
    The theorem composes it with the generator: what the generated rules do to
    redirected traffic, in terms of the settings.

    [url_host] stands for [url.Parse] with the host of its result and
    [URL.Hostname]; it gives [None] for an error. *)
From S2P Require Import Prelude GoRunes GoStrings GoNum NetIP Domain Firewall FirewallSettings.
From S2P Require Import Zapret Settings XrayConfig XrayRouting XrayFacts.

Local Open Scope Z_scope.
Local Open Scope list_scope.

Definition localDNSListen := "127.0.0.1".
Definition localDNSPort : Z := 1053.
Definition probeOutboundMark : Z := 256.

(** [None]: the subscriptions cannot be loaded. *)
Definition managedTransparentBlockQUIC (subscriptions : option (list Subscription)) (settings : FirewallSettings)
    : bool :=
  if FirewallSettings.BlockQUIC settings then true
  else match subscriptions with
  | None => false
  | Some subs =>
    existsb (fun sub => existsb (fun node => EffectiveTransparentBlockQUIC settings (Some node))
                          (Subscription.Nodes sub)) subs
  end.

Definition localDNSRuntimeEnabled (settings : DNSSettings) : bool :=
  match ParseDNSMode (DNSSettings.Mode settings) with
  | Err _ => false
  | Ok mode => bool_decide (mode = DNSModeRemote) || bool_decide (mode = DNSModeSplit)
  end.

Definition transparentSelectiveCapture (settings : FirewallSettings) : bool :=
  let mode := CanonicalFirewallMode settings in
  if bool_decide (mode = FirewallModeTargets) then true
  else if bool_decide (mode = FirewallModeSplit)
  then bool_decide (NormalizeFirewallDefaultAction (FirewallSplitSettings.DefaultAction (FirewallSettings.Split settings))
                    = FirewallDefaultActionDirect)
  else false.

Definition firewallEnabled (settings : FirewallSettings) : bool := FirewallRoutingEnabled settings.

(** The default action and the selectors that the mode gives the request. *)
Definition request_selectors (settings : FirewallSettings)
    : string * (list string * list string) * (list string * list string) :=
  let catalog := FirewallSettings.TargetServiceCatalog settings in
  let expand set := (ExpandFirewallSelectorSetDomains catalog set, ExpandFirewallSelectorSetCIDRs catalog set) in
  let mode := NormalizeFirewallMode (FirewallSettings.Mode settings) in
  let split := FirewallSettings.Split settings in
  if bool_decide (mode = FirewallModeTargets)
  then (FirewallDefaultActionDirect, expand (FirewallSettings.Targets settings), ([], []))
  else if bool_decide (mode = FirewallModeSplit)
  then (NormalizeFirewallDefaultAction (FirewallSplitSettings.DefaultAction split),
        expand (FirewallSplitSettings.Proxy split), expand (FirewallSplitSettings.Bypass split))
  else (FirewallDefaultActionProxy, ([], []), ([], [])).

Definition backendConfigRequest (subscriptions : option (list Subscription)) (settings : Settings) (node : Node)
    (mode : string) (socksPort httpPort : Z) (transparent localDNS : bool) : ConfigRequest :=
  let firewall := Settings.Firewall settings in
  let '(default, (proxyDomains, proxyCIDRs), (bypassDomains, bypassCIDRs)) := request_selectors firewall in
  ConfigRequest.mk mode [node] (Node.ID node) (Settings.LogLevel settings) (Settings.DNS settings)
    socksPort httpPort localDNS localDNSListen localDNSPort transparent (transparentSelectiveCapture firewall)
    (managedTransparentBlockQUIC subscriptions firewall) (FirewallSettings.TransparentPort firewall)
    default proxyDomains proxyCIDRs bypassDomains bypassCIDRs (Settings.CountryRouting settings) 0 false.

(** ** The DNS servers at run time *)

Section DNS.
  Context (url_host : string -> option (string * string)).

Definition dnsServerHost (server : string) : string :=
  let server := TrimSpace server in
  if bool_decide (server = "") then ""
  else
    let second := match url_host ("//" +:+ server) with Some (_, hostname) => hostname | None => "" end in
    match url_host server with
    | Some (host, hostname) => if bool_decide (host = "") then second else hostname
    | None => second
    end.

Definition named_server (server : string) : bool :=
  let host := dnsServerHost server in
  negb (bool_decide (host = "")) && match ParseIP host with Some _ => false | None => true end.

Definition dnsSettingsNeedSystemBootstrap (settings : DNSSettings) : bool :=
  if bool_decide (DNSSettings.Bootstrap settings <> []) then false
  else match ParseDNSTransport (DNSSettings.Transport settings) with
  | Err _ => false
  | Ok transport =>
    bool_decide (transport = DNSTransportDoH) && existsb named_server (DNSSettings.Servers settings)
  end.

(** [resolvers]: [None] without a DNS manager, or what it reports. *)
Definition prepareRuntimeDNSSettings (resolvers : option (result string (list string))) (settings : Settings)
    : result string Settings :=
  match resolvers with
  | None => Ok settings
  | Some answer =>
    let dns := Settings.DNS settings in
    if negb (localDNSRuntimeEnabled dns) || negb (dnsSettingsNeedSystemBootstrap dns) then Ok settings
    else match answer with
    | Err e => Err ("detect system dns resolvers: " +:+ e)
    | Ok [] => Err "detect system dns resolvers: no upstream resolvers found"
    | Ok resolvers =>
      Ok (settings <| Settings.DNS := DNSSettings.mk (DNSSettings.Mode dns) (DNSSettings.Transport dns)
            (DNSSettings.Servers dns) resolvers (DNSSettings.DirectDomains dns) |>)
    end
  end.

End DNS.

(** ** Theorems *)

Lemma backend_request_fields subscriptions settings node mode socks http transparent localDNS :
  let req := backendConfigRequest subscriptions settings node mode socks http transparent localDNS in
  ConfigRequest.DNS req = Settings.DNS settings /\ ConfigRequest.TransparentProxy req = transparent /\ ConfigRequest.Nodes req = [node] /\ ConfigRequest.SelectedNodeID req = Node.ID node.
Proof.
  unfold backendConfigRequest.
  by destruct (request_selectors (Settings.Firewall settings)) as [[default [pd pc]] [bd bc]].
Qed.

Section Policy.
  Context `{XrayRouting Traffic}.

(** Where the settings send redirected traffic: the country and, in split mode,
    the bypass selectors go out directly; everything else is proxied. *)
Definition served_by_country (routing : CountryRouting) (t : Traffic) : bool :=
  CountryRouting.Enabled routing &&
  match NormalizeCountryCode (CountryRouting.CountryCode routing) with
  | Err _ => false
  | Ok code => any_domain (geosite_matchers code) t || ip_match ("geoip:" +:+ ToLower code) t
  end.

Definition bypassed (firewall : FirewallSettings) (t : Traffic) : bool :=
  let catalog := FirewallSettings.TargetServiceCatalog firewall in
  let bypass := FirewallSplitSettings.Bypass (FirewallSettings.Split firewall) in
  bool_decide (NormalizeFirewallMode (FirewallSettings.Mode firewall) = FirewallModeSplit)
  && in_selectors (ExpandFirewallSelectorSetDomains catalog bypass) (ExpandFirewallSelectorSetCIDRs catalog bypass) t.

Definition settings_policy (subscriptions : option (list Subscription)) (settings : Settings) (t : Traffic) : Target :=
  let firewall := Settings.Firewall settings in
  if served_by_country (Settings.CountryRouting settings) t then ToOutbound "direct"
  else if bypassed firewall t then ToOutbound "direct"
  else if managedTransparentBlockQUIC subscriptions firewall && bool_decide (network_of t = "udp")
  then ToOutbound "block" else ToBalancer managedBalancerTag.

Lemma NormalizeFirewallDefaultAction_cases action :
  NormalizeFirewallDefaultAction action = FirewallDefaultActionProxy \/
  NormalizeFirewallDefaultAction action = FirewallDefaultActionDirect.
Proof. unfold NormalizeFirewallDefaultAction. case_bool_decide; auto. Qed.

Lemma request_policy subscriptions settings node mode socks http localDNS t :
  FirewallRoutingEnabled (Settings.Firewall settings) = true ->
  transparent_policy (backendConfigRequest subscriptions settings node mode socks http
    (firewallEnabled (Settings.Firewall settings)) localDNS) t = settings_policy subscriptions settings t.
Proof.
  intros Hen. unfold settings_policy, backendConfigRequest, bypassed.
  pose proof (routing_keeps_mode _ Hen) as Hcan. pose proof (routing_modes _ Hen) as Hmodes.
  unfold transparentSelectiveCapture. rewrite Hcan. clear Hcan.
  assert (Hs : request_selectors (Settings.Firewall settings) = request_selectors (Settings.Firewall settings)) by done.
  unfold request_selectors at 2 in Hs.
  destruct Hmodes as [Hm | [Hm | Hm]]; rewrite Hm in Hs |- *.
  - rewrite Hs. unfold transparent_policy. change (in_country _ t) with (served_by_country (Settings.CountryRouting settings) t).
    by destruct (served_by_country _ t).
  - rewrite Hs. unfold transparent_policy. change (in_country _ t) with (served_by_country (Settings.CountryRouting settings) t).
    by destruct (served_by_country _ t).
  - cbn -[NormalizeFirewallDefaultAction ExpandFirewallSelectorSetDomains ExpandFirewallSelectorSetCIDRs] in Hs.
    rewrite Hs. unfold transparent_policy, default_direct. cbn [ConfigRequest.TransparentBypassDomains
      ConfigRequest.TransparentBypassCIDRs ConfigRequest.TransparentProxyDomains ConfigRequest.TransparentProxyCIDRs
      ConfigRequest.TransparentSelectiveCapture ConfigRequest.TransparentDefaultAction].
    change (in_country _ t) with (served_by_country (Settings.CountryRouting settings) t).
    destruct (served_by_country _ t); [done|]. change (bool_decide (FirewallModeSplit = FirewallModeSplit)) with true. cbn [andb].
    destruct (in_selectors _ _ t); [done|]. clear Hs Hm.
    change (bool_decide (FirewallModeSplit = FirewallModeTargets)) with false. cbv iota.
    destruct (NormalizeFirewallDefaultAction_cases
      (FirewallSplitSettings.DefaultAction (FirewallSettings.Split (Settings.Firewall settings)))) as [-> | ->]; [|done].
    cbn [andb negb]. by destruct (_ && in_selectors _ _ t).
Qed.

End Policy.

Section Routes.
  Context (marshal : Json -> string) (unmarshal_object : string -> option (option (list (string * Json)))).
  Context (sha256_hex16 : string -> string).
  Context (query_get : string -> option (string -> string)) (url_hostname : string -> option string).

(** C31: the settings decide what happens to redirected traffic, whatever node is
    selected: DNS servers, the country and, in split mode, the bypass selectors
    are reached directly, and everything else that the router redirects is
    proxied, in every mode and with either default action; UDP to a proxied
    destination is dropped when QUIC is blocked, by the settings or because some
    stored node cannot carry it. *)
Theorem settings_decide_routes `{XrayRoutingLaws Traffic} subscriptions settings node mode socks http localDNS cfg (t : Traffic) :
  FirewallRoutingEnabled (Settings.Firewall settings) = true ->
  generated marshal unmarshal_object sha256_hex16 query_get url_hostname
    (backendConfigRequest subscriptions settings node mode socks http
       (firewallEnabled (Settings.Firewall settings)) localDNS) = Ok cfg ->
  redirected t ->
  exists servers,
    direct_dns_servers (Settings.DNS settings) = Ok servers /\
    route_target (xrayConfig.Rules cfg) t =
      Some (if to_dns_server url_hostname servers t then ToOutbound "direct" else settings_policy subscriptions settings t).
Proof.
  intros Hen Hg Ht. rewrite <- (request_policy subscriptions settings node mode socks http localDNS t Hen).
  pose proof (backend_request_fields subscriptions settings node mode socks http
    (firewallEnabled (Settings.Firewall settings)) localDNS) as (Hdns & Htr & _).
  rewrite <- Hdns. eapply generated_routes; [exact _|exact Hg|rewrite Htr; exact Hen|exact Ht].
Qed.

End Routes.

(** Split tunnelling of everything but one domain; UDP to other destinations is
    dropped because a stored node carries no QUIC. *)
Definition split_settings : Settings :=
  DefaultSettings
    <| Settings.Firewall := (sample_firewall []) <| FirewallSettings.Mode := "split" |>
         <| FirewallSettings.Split := FirewallSplitSettings.mk FirewallSelectorSet.zero
              (FirewallSelectorSet.mk [] ["example.org"] []) [] FirewallDefaultActionProxy |> |>
    <| Settings.DNS := DNSSettings.mk DNSModeRemote DNSTransportPlain ["8.8.8.8"] [] [] |>.

Definition vision_node : Node :=
  Node.mk "n1" "s1" "edge" "" ProtocolVLESS "edge.example" 443 "id" "" "" "reality" "edge.example" [] "" ""
    "" "" "xtls-rprx-vision" "tcp" "" "" "" "" ∅ "".

Definition stored_subscriptions : option (list Subscription) :=
  Some [Subscription.mk "s1" SourceTypeURL "" "" "" "" "" "" zero_time None None 0 "" "" [vision_node]].

Definition split_config : result GenError xrayConfig :=
  generated (fun _ => "") (fun _ => None) (fun _ => "0123456789abcdef") (fun _ => Some (fun _ => ""))
    (fun url => Some (TrimPrefix url "//"))
    (backendConfigRequest stored_subscriptions split_settings vision_node "auto" 10808 10809
       (firewallEnabled (Settings.Firewall split_settings)) true).

Lemma settings_decide_routes_witness :
  exists cfg, split_config = Ok cfg /\
    route_target (xrayConfig.Rules cfg) (Build_Packet transparentTCPInboundTag "tcp" ["domain:example.org"]) =
      Some (ToOutbound "direct") /\
    route_target (xrayConfig.Rules cfg) (Build_Packet transparentUDPInboundTag "udp" []) = Some (ToOutbound "block").
Proof.
  destruct split_config as [cfg|e] eqn:E; [|exfalso; vm_compute in E; discriminate E].
  exists cfg. split; [reflexivity|].
  assert (Hs : direct_dns_servers (Settings.DNS split_settings) = Ok ["8.8.8.8"]) by (vm_compute; reflexivity).
  split.
  - destruct (settings_decide_routes (fun _ => "") (fun _ => None) (fun _ => "0123456789abcdef")
      (fun _ => Some (fun _ => "")) (fun url => Some (TrimPrefix url "//")) stored_subscriptions split_settings vision_node
      "auto" 10808 10809 true cfg (Build_Packet transparentTCPInboundTag "tcp" ["domain:example.org"])
      eq_refl E ltac:(left; split; reflexivity)) as (servers & Hd & Hr).
    rewrite Hr. rewrite Hs in Hd. injection Hd as <-. vm_compute. reflexivity.
  - destruct (settings_decide_routes (fun _ => "") (fun _ => None) (fun _ => "0123456789abcdef")
      (fun _ => Some (fun _ => "")) (fun url => Some (TrimPrefix url "//")) stored_subscriptions split_settings vision_node
      "auto" 10808 10809 true cfg (Build_Packet transparentUDPInboundTag "udp" [])
      eq_refl E ltac:(right; split; reflexivity)) as (servers & Hd & Hr).
    rewrite Hr. rewrite Hs in Hd. injection Hd as <-. vm_compute. reflexivity.
Defined.
