(* ===== verification/ManagedBackend.v ===== *)
(** * The managed backend

    The interface [ManagedBackend] of [backend/backend.go] with the laws its
    clients rely on, and the implementation of [backend/xray/managed.go] over
    the management API of a running Xray process.

    A state of the world is a [W].  The process is a parameter: [api] answers a
    command with decoded JSON, or an error text.  An operation takes the world
    and gives its result ([None] or [Ok] when it succeeds) with the next one. *)
From S2P Require Import Prelude GoStrings GoNum Domain Zapret Settings XrayConfig XrayFacts.

Local Open Scope Z_scope.
Local Open Scope list_scope.

(** ** The interface *)

Class ManagedBackend (W : Type) := {
  PrepareOutbound : Node -> Z -> W -> result string string * W;
  RemoveOutbound : string -> W -> option string * W;
  SelectOutbound : string -> W -> option string * W;
  SelectedOutbound : W -> result string string * W;
  SetProbeOutbound : Z -> string -> W -> option string * W
}.

Definition SelectDirect `{ManagedBackend W} (w : W) : option string * W := SelectOutbound managedDirectTag w.

(** The route in use, as the backend reports it. *)
Definition selected `{ManagedBackend W} (w : W) : option string :=
  match (SelectedOutbound w).1 with Ok tag => Some tag | Err _ => None end.

(** Reading changes nothing; a successful selection is the one reported; a
    failed one leaves the old route or the requested one; no other operation
    moves the route. *)
Class ManagedBackendLaws (W : Type) `{ManagedBackend W} : Prop := {
  select_ok : forall tag w w', SelectOutbound tag w = (None, w') -> selected w' = Some tag;
  select_pure : forall w, selected (SelectedOutbound w).2 = selected w;
  prepare_keeps : forall node mark w, selected (PrepareOutbound node mark w).2 = selected w;
  remove_keeps : forall tag w, selected (RemoveOutbound tag w).2 = selected w;
  probe_keeps : forall slot tag w, selected (SetProbeOutbound slot tag w).2 = selected w
}.

(** ** managed.go *)

Inductive ApiCommand : Type :=
| Ado (payload : Outbound)                 (** add an outbound *)
| Rmo (tag : string)                       (** remove one *)
| Lso                                      (** list them *)
| Bi (balancer : string)                   (** a balancer's override *)
| Bo (balancer tag : string).              (** set it *)

(** The two fields of the answers that are read. *)
Record ApiReply : Type := { reply_target : string; reply_tags : list string }.

Definition HasManagedTag (tag : string) (allowBlock : bool) : bool :=
  (allowBlock && bool_decide (tag = "block"))
  || bool_decide (tag = managedDirectTag) || HasPrefix tag managedOutboundPrefix.

Definition validateManagedTag (tag : string) (allowBlock : bool) : option string :=
  if HasManagedTag tag allowBlock then None else Some "invalid managed outbound tag".

Definition ProbeHTTPPort (slot : Z) : result string Z :=
  if (slot <? 0) || (1 <? slot) then Err "probe slot must be 0 or 1" else Ok (probeHTTPPortBase + slot).

Section Managed.
  Context {W : Type} (api : ApiCommand -> W -> result string ApiReply * W).
  (** [managedOutboundForNode] with its parameters. *)
  Context (outbound_for_node : Node -> Z -> result GenError (Outbound * string)).
  Context (gen_error_text : GenError -> string).

Definition outboundPresent (tag : string) (w : W) : result string bool * W :=
  match api Lso w with
  | (Err e, w) => (Err e, w)
  | (Ok reply, w) => (Ok (bool_decide (tag ∈ reply_tags reply)), w)
  end.

Definition selectedBalancerTarget (balancer : string) (w : W) : result string string * W :=
  match api (Bi balancer) w with
  | (Err e, w) => (Err e, w)
  | (Ok reply, w) =>
    if bool_decide (TrimSpace (reply_target reply) = "") then (Err "xray balancer has no selected override", w)
    else (Ok (reply_target reply), w)
  end.

(** The answer to the command is judged by reading the target back. *)
Definition selectBalancerTarget (balancer tag : string) (w : W) : option string * W :=
  let '(switched, w) := api (Bo balancer tag) w in
  let '(actual, w) := selectedBalancerTarget balancer w in
  match actual with
  | Ok a =>
    if bool_decide (a = tag) then (None, w)
    else match switched with
         | Err e => (Some (e +:+ "; actual target is " +:+ a), w)
         | Ok _ => (Some "xray balancer target mismatch", w)
         end
  | Err readErr =>
    match switched with
    | Err e => (Some (e +:+ "; read actual target: " +:+ readErr), w)
    | Ok _ => (Some readErr, w)
    end
  end.

Definition xray_SelectOutbound (tag : string) (w : W) : option string * W :=
  match validateManagedTag tag false with
  | Some e => (Some e, w)
  | None => selectBalancerTarget managedBalancerTag tag w
  end.

Definition xray_SetProbeOutbound (slot : Z) (tag : string) (w : W) : option string * W :=
  match ProbeHTTPPort slot with
  | Err e => (Some e, w)
  | Ok _ =>
    match validateManagedTag tag true with
    | Some e => (Some e, w)
    | None => selectBalancerTarget (probe_balancer_tag slot) tag w
    end
  end.

Definition ClearProbeOutbound (slot : Z) (w : W) : option string * W := xray_SetProbeOutbound slot "block" w.

(** An added outbound counts once the process lists it; an error of the command
    is forgiven when it does. *)
Definition add_outbound (outbound : Outbound) (tag : string) (w : W) : result string string * W :=
  let '(present, w) := outboundPresent tag w in
  match present with
  | Ok true => (Ok tag, w)
  | _ =>
    let '(added, w) := api (Ado outbound) w in
    let '(failure, w) :=
      match added with
      | Ok _ => (None, w)
      | Err e => let '(present, w) := outboundPresent tag w in
                 match present with Ok true => (None, w) | _ => (Some e, w) end
      end in
    match failure with
    | Some e => (Err e, w)
    | None =>
      let '(present, w) := outboundPresent tag w in
      match present with
      | Err e => (Err e, w)
      | Ok true => (Ok tag, w)
      | Ok false => (Err "xray did not expose prepared outbound", w)
      end
    end
  end.

Definition xray_PrepareOutbound (node : Node) (mark : Z) (w : W) : result string string * W :=
  match outbound_for_node node mark with
  | Err e => (Err (gen_error_text e), w)
  | Ok (outbound, tag) => add_outbound outbound tag w
  end.

Definition xray_RemoveOutbound (tag : string) (w : W) : option string * W :=
  match validateManagedTag tag true with
  | Some e => (Some e, w)
  | None =>
    let '(removed, w) := api (Rmo tag) w in
    let '(present, w) := outboundPresent tag w in
    match present, removed with
    | Ok false, _ => (None, w)
    | _, Err e => (Some e, w)
    | Err e, _ => (Some e, w)
    | Ok true, Ok _ => (Some "xray still exposes removed outbound", w)
    end
  end.

#[local] Instance XrayBackend : ManagedBackend W := {
  PrepareOutbound := xray_PrepareOutbound;
  RemoveOutbound := xray_RemoveOutbound;
  SelectOutbound := xray_SelectOutbound;
  SelectedOutbound := selectedBalancerTarget managedBalancerTag;
  SetProbeOutbound := xray_SetProbeOutbound
}.

(** ** What the process is relied on for *)

(** A question answers the same again and changes nothing that can be asked;
    adding and removing outbounds, and the other balancers, leave the main
    balancer's override alone. *)
Record process_ok : Prop := {
  ask_twice : forall cmd w, cmd = Lso \/ (exists b, cmd = Bi b) ->
    forall q, q = Lso \/ (exists b, q = Bi b) -> (api q (api cmd w).2).1 = (api q w).1;
  override_kept : forall cmd w,
    (exists o, cmd = Ado o) \/ (exists tag, cmd = Rmo tag) \/
    (exists b tag, cmd = Bo b tag /\ b <> managedBalancerTag) ->
    (api (Bi managedBalancerTag) (api cmd w).2).1 = (api (Bi managedBalancerTag) w).1
}.

Context (process : process_ok).

Definition main_target (w : W) : result string ApiReply := (api (Bi managedBalancerTag) w).1.

Lemma selected_main w w' : main_target w' = main_target w -> selected w' = selected w.
Proof.
  unfold main_target, selected, SelectedOutbound, XrayBackend, selectedBalancerTarget. intros E.
  destruct (api (Bi managedBalancerTag) w') as [r1 w1], (api (Bi managedBalancerTag) w) as [r2 w2].
  cbn [fst] in E. subst r1. destruct r2 as [reply|e]; [|done]. by destruct (bool_decide _).
Qed.

Lemma present_main tag w : main_target (outboundPresent tag w).2 = main_target w.
Proof.
  unfold outboundPresent. pose proof (ask_twice process Lso w (or_introl eq_refl) (Bi managedBalancerTag)
    (or_intror (ex_intro _ _ eq_refl))) as H. unfold main_target.
  destruct (api Lso w) as [[reply|e] w1]; exact H.
Qed.

Lemma target_main b w : main_target (selectedBalancerTarget b w).2 = main_target w.
Proof.
  unfold selectedBalancerTarget. pose proof (ask_twice process (Bi b) w (or_intror (ex_intro _ _ eq_refl))
    (Bi managedBalancerTag) (or_intror (ex_intro _ _ eq_refl))) as H. unfold main_target.
  destruct (api (Bi b) w) as [[reply|e] w1]; [|exact H]. by destruct (bool_decide _).
Qed.

Lemma select_reads b tag w w' :
  selectBalancerTarget b tag w = (None, w') ->
  exists w1, w1 = (api (Bo b tag) w).2 /\ selectedBalancerTarget b w1 = (Ok tag, w').
Proof.
  unfold selectBalancerTarget. destruct (api (Bo b tag) w) as [switched w1]. cbn [snd].
  destruct (selectedBalancerTarget b w1) as [[a|e] w2] eqn:E.
  - destruct (bool_decide_reflect (a = tag)) as [->|]; [|by destruct switched].
    intros [= <-]. by exists w1.
  - by destruct switched.
Qed.

Lemma present_twice tag q w :
  (outboundPresent tag (outboundPresent q w).2).1 = (outboundPresent tag w).1.
Proof.
  unfold outboundPresent. pose proof (ask_twice process Lso w (or_introl eq_refl) Lso (or_introl eq_refl)) as H.
  destruct (api Lso w) as [[r|e] w1]; cbn [snd fst] in *.
  all: by destruct (api Lso w1) as [[r1|e1] w2]; cbn [fst] in *; simplify_eq.
Qed.

Lemma add_outbound_present o tag w t w' :
  add_outbound o tag w = (Ok t, w') -> t = tag /\ (outboundPresent tag w').1 = Ok true.
Proof.
  unfold add_outbound. destruct (outboundPresent tag w) as [p w1] eqn:E1.
  assert (Hp : (outboundPresent tag w1).1 = p).
  { pose proof (present_twice tag tag w) as H. by rewrite E1 in H. }
  assert (Hlast : forall w2, match outboundPresent tag w2 with
      | (Ok true, w3) => (Ok tag, w3)
      | (Ok false, w3) => (Err "xray did not expose prepared outbound", w3)
      | (Err e, w3) => (Err e, w3) end = (Ok t, w') ->
    t = tag /\ (outboundPresent tag w').1 = Ok true).
  { intros w2 H. pose proof (present_twice tag tag w2) as Ht.
    destruct (outboundPresent tag w2) as [[[|]|e] w3]; simplify_eq. by split. }
  destruct p as [[|]|e].
  1: intros [= <- <-]; by split.
  all: destruct (api (Ado o) w1) as [[r|e'] w2]; cbv iota zeta; [apply Hlast|].
  all: destruct (outboundPresent tag w2) as [[[|]|e''] w3]; cbv iota zeta; [apply Hlast|done|done].
Qed.

Lemma remove_absent tag w w' :
  xray_RemoveOutbound tag w = (None, w') -> (outboundPresent tag w').1 = Ok false.
Proof.
  unfold xray_RemoveOutbound. destruct (validateManagedTag tag true); [done|].
  destruct (api (Rmo tag) w) as [removed w1]. pose proof (present_twice tag tag w1) as H.
  destruct (outboundPresent tag w1) as [[[|]|e] w2]; cbn [fst snd] in H.
  - by destruct removed.
  - by intros [= <-].
  - by destruct removed.
Qed.

Lemma select_selected tag w w' :
  xray_SelectOutbound tag w = (None, w') -> selected w' = Some tag /\ HasManagedTag tag false = true.
Proof.
  unfold xray_SelectOutbound, validateManagedTag. destruct (HasManagedTag tag false) eqn:Ev; [|done].
  intros (w1 & _ & Hr)%select_reads. split; [|done].
  pose proof (target_main managedBalancerTag w1) as Hm. rewrite Hr in Hm. cbn [snd] in Hm.
  rewrite (selected_main _ _ Hm). unfold selected, SelectedOutbound, XrayBackend. by rewrite Hr.
Qed.

Lemma override_main cmd w :
  (exists o, cmd = Ado o) \/ (exists tag, cmd = Rmo tag) \/
  (exists b tag, cmd = Bo b tag /\ b <> managedBalancerTag) ->
  main_target (api cmd w).2 = main_target w.
Proof. apply (override_kept process). Qed.

Lemma add_outbound_main o tag w : main_target (add_outbound o tag w).2 = main_target w.
Proof.
  unfold add_outbound. pose proof (present_main tag w) as H1.
  destruct (outboundPresent tag w) as [p w1]. cbn [snd] in H1. rewrite <- H1.
  assert (Hlast : forall w2, main_target (match outboundPresent tag w2 with
      | (Ok true, w3) => (Ok tag, w3)
      | (Ok false, w3) => (Err "xray did not expose prepared outbound", w3)
      | (Err e, w3) => (Err e, w3) end).2 = main_target w2).
  { intros w2. pose proof (present_main tag w2) as H. by destruct (outboundPresent tag w2) as [[[|]|e] w3]. }
  destruct p as [[|]|e]; [done|..].
  all: pose proof (override_main (Ado o) w1 (or_introl (ex_intro _ o eq_refl))) as H2.
  all: destruct (api (Ado o) w1) as [[r|e'] w2]; cbn [snd] in H2; rewrite <- H2; cbv iota zeta; [apply Hlast|].
  all: pose proof (present_main tag w2) as H3; destruct (outboundPresent tag w2) as [[[|]|e''] w3];
    cbn [snd] in H3; rewrite <- H3; cbv iota zeta; [apply Hlast|done|done].
Qed.

Lemma remove_main tag w : main_target (xray_RemoveOutbound tag w).2 = main_target w.
Proof.
  unfold xray_RemoveOutbound. destruct (validateManagedTag tag true); [done|].
  pose proof (override_main (Rmo tag) w (or_intror (or_introl (ex_intro _ tag eq_refl)))) as H.
  destruct (api (Rmo tag) w) as [removed w1]. cbn [snd] in H. rewrite <- H.
  pose proof (present_main tag w1) as H2. destruct (outboundPresent tag w1) as [[[|]|e] w2]; destruct removed; exact H2.
Qed.

Lemma probe_balancer_other slot : ProbeHTTPPort slot <> Err "probe slot must be 0 or 1" ->
  probe_balancer_tag slot <> managedBalancerTag.
Proof.
  unfold ProbeHTTPPort. destruct (Z.ltb_spec slot 0); [done|]. destruct (Z.ltb_spec 1 slot); [done|]. intros _.
  assert (slot = 0 \/ slot = 1) as [-> | ->] by lia; done.
Qed.

Lemma set_probe_main slot tag w : main_target (xray_SetProbeOutbound slot tag w).2 = main_target w.
Proof.
  unfold xray_SetProbeOutbound. destruct (ProbeHTTPPort slot) as [port|e] eqn:Ep; [|done].
  destruct (validateManagedTag tag true); [done|].
  assert (Hb : probe_balancer_tag slot <> managedBalancerTag) by (apply probe_balancer_other; by rewrite Ep).
  unfold selectBalancerTarget.
  pose proof (override_main (Bo (probe_balancer_tag slot) tag) w
    (or_intror (or_intror (ex_intro _ _ (ex_intro _ _ (conj eq_refl Hb)))))) as H.
  destruct (api (Bo (probe_balancer_tag slot) tag) w) as [switched w1]. cbn [snd] in H. rewrite <- H.
  pose proof (target_main (probe_balancer_tag slot) w1) as H2.
  destruct (selectedBalancerTarget (probe_balancer_tag slot) w1) as [[a|e] w2]; cbn [snd] in H2; rewrite <- H2.
  - destruct (bool_decide (a = tag)); [done|]. by destruct switched.
  - by destruct switched.
Qed.

(** The implementation keeps the promises of the interface. *)
Lemma xray_laws : ManagedBackendLaws W.
Proof.
  split.
  - intros tag w w' H. by apply select_selected in H as [H _].
  - intros w. apply selected_main. apply target_main.
  - intros node mark w. apply selected_main. unfold PrepareOutbound, XrayBackend, xray_PrepareOutbound.
    destruct (outbound_for_node node mark) as [[o tag]|e]; [|done]. apply add_outbound_main.
  - intros tag w. apply selected_main, remove_main.
  - intros slot tag w. apply selected_main, set_probe_main.
Qed.

End Managed.

(** ** The theorem *)

(** The live operations report success only for what the process confirms
    when it is asked again: a prepared outbound is listed, a removed one is not,
    a selected one is the override of the main balancer (and a managed tag);
    and between questions only a selection moves the route, so the backend keeps
    every law that its clients use. *)
Theorem xray_backend_confirms {W} (api : ApiCommand -> W -> result string ApiReply * W)
    (outbound_for_node : Node -> Z -> result GenError (Outbound * string)) (gen_error_text : GenError -> string) :
  process_ok api ->
  ManagedBackendLaws W (H := XrayBackend api outbound_for_node gen_error_text) /\
  (forall node mark w tag w',
     xray_PrepareOutbound api outbound_for_node gen_error_text node mark w = (Ok tag, w') ->
     (outboundPresent api tag w').1 = Ok true) /\
  (forall tag w w', xray_RemoveOutbound api tag w = (None, w') -> (outboundPresent api tag w').1 = Ok false) /\
  (forall tag w w', xray_SelectOutbound api tag w = (None, w') ->
     (selectedBalancerTarget api managedBalancerTag w').1 = Ok tag /\ HasManagedTag tag false = true).
Proof.
  intros Hp. split; [by apply xray_laws|]. split; [|split].
  - intros node mark w tag w'. unfold xray_PrepareOutbound.
    destruct (outbound_for_node node mark) as [[o t]|e]; [|done]. intros H.
    destruct (add_outbound_present api Hp o t w tag w' H) as [-> E]. exact E.
  - intros tag w w'. by apply remove_absent.
  - intros tag w w' H.
    apply (select_selected api outbound_for_node gen_error_text Hp) in H as [H Hm]. split; [|exact Hm].
    unfold selected, SelectedOutbound, XrayBackend in H.
    destruct (selectedBalancerTarget api managedBalancerTag w').1; [|done]. by injection H as ->.
Qed.

(** A process that keeps its outbounds and overrides in memory. *)
Record Memory : Type := { memory_outbounds : list string; memory_targets : gmap string string }.

Definition memory_api (cmd : ApiCommand) (m : Memory) : result string ApiReply * Memory :=
  match cmd with
  | Ado o => (Ok (Build_ApiReply "" []),
      Build_Memory (outbound_tag o :: memory_outbounds m) (memory_targets m))
  | Rmo tag => (Ok (Build_ApiReply "" []),
      Build_Memory (filter (fun t => t <> tag) (memory_outbounds m)) (memory_targets m))
  | Lso => (Ok (Build_ApiReply "" (memory_outbounds m)), m)
  | Bi b => (Ok (Build_ApiReply (default "" (memory_targets m !! b)) []), m)
  | Bo b tag => (Ok (Build_ApiReply "" []),
      Build_Memory (memory_outbounds m) (<[b := tag]> (memory_targets m)))
  end.

Lemma memory_ok : process_ok memory_api.
Proof.
  split.
  - by intros cmd w [->|[b ->]] q _.
  - intros cmd w [[o ->]|[[tag ->]|(b & tag & -> & Hb)]]; [done|done|]. cbn.
    by rewrite lookup_insert_ne.
Qed.

Definition memory_node (node : Node) (mark : Z) : result GenError (Outbound * string) :=
  let tag := managedOutboundPrefix +:+ Node.ID node in
  Ok (MapOutbound [("tag", JStr tag)], tag).

Lemma xray_backend_confirms_witness :
  (selectedBalancerTarget memory_api managedBalancerTag
     (xray_SelectOutbound memory_api "fastlane-node-1" (Build_Memory ["fastlane-node-1"] ∅)).2).1
  = Ok "fastlane-node-1".
Proof.
  destruct (xray_backend_confirms memory_api memory_node (fun _ => "") memory_ok) as (_ & _ & _ & H).
  apply (H "fastlane-node-1" (Build_Memory ["fastlane-node-1"] ∅)). vm_compute. reflexivity.
Defined.
