(* ===== verification/Scheduler.v ===== *)
(** * The scheduler

    [app/scheduler.go]: one round of the connection watch with its
    confirmation counter, the scan for subscriptions that are due, and the
    waits of the three loops.

    A round of the watch asks the service and the clock several times; the
    answers it gets are the fields of a [WatchRound], in the order of the
    questions.  The locks are the Go runtime's: a round that does not get
    [healthMu] leaves after the maintenance steps. *)
From S2P Require Import Prelude GoStrings GoNum Domain Zapret Settings Connection Probe.

Local Open Scope Z_scope.
Local Open Scope list_scope.

Definition maxRefreshConfigPollInterval : Duration := Second.
Definition maxHealthConfigPollInterval : Duration := Second.
Definition connectionWatchInterval : Duration := 30 * Second.
Definition managedReserveCheckInterval : Duration := 10 * Minute.
Definition managedReserveCheckMaxJitter : Duration := 30 * Second.
Definition activeGETFailureReasonPrefix := "active GET failed: ".

Module Scheduler.
Record Scheduler : Type := mk {
  tick : Duration;
  lastRecoveryAt : Time;
  recoveryFailures : Z;
  recoveryRouteKey : string;
  recoveryFailureClass : string;
  lastOutboundCleanupAt : Time;
  lastReserveCheckAt : Time;
  reserveCheckJitter : Duration;
  recoveryRetryEvery : Duration;
  refreshConfigPollEvery : Duration;
  healthConfigPollEvery : Duration
}.
Definition eta (s : Scheduler) : Scheduler :=
  mk (tick s) (lastRecoveryAt s) (recoveryFailures s) (recoveryRouteKey s) (recoveryFailureClass s)
     (lastOutboundCleanupAt s) (lastReserveCheckAt s) (reserveCheckJitter s) (recoveryRetryEvery s)
     (refreshConfigPollEvery s) (healthConfigPollEvery s).
#[export] Instance set_tick : Setter tick := ltac:(mk_setter eta tick).
#[export] Instance set_lastRecoveryAt : Setter lastRecoveryAt := ltac:(mk_setter eta lastRecoveryAt).
#[export] Instance set_recoveryFailures : Setter recoveryFailures :=
  ltac:(mk_setter eta recoveryFailures).
#[export] Instance set_recoveryRouteKey : Setter recoveryRouteKey :=
  ltac:(mk_setter eta recoveryRouteKey).
#[export] Instance set_recoveryFailureClass : Setter recoveryFailureClass :=
  ltac:(mk_setter eta recoveryFailureClass).
#[export] Instance set_lastOutboundCleanupAt : Setter lastOutboundCleanupAt :=
  ltac:(mk_setter eta lastOutboundCleanupAt).
#[export] Instance set_lastReserveCheckAt : Setter lastReserveCheckAt :=
  ltac:(mk_setter eta lastReserveCheckAt).
End Scheduler.
Export (hints) Scheduler.
Abbreviation Scheduler := Scheduler.Scheduler.

(** [NewScheduler] at the clock reading [now], [unixNano] its nanoseconds since
    1970; the jitter is at most thirty seconds. *)
Definition NewScheduler (now : Time) (unixNano : Z) : Scheduler :=
  Scheduler.mk Minute zero_time 0 "" "" zero_time now
    (Z.rem unixNano (managedReserveCheckMaxJitter + 1)) 0 0 0.

Definition SetTick (s : Scheduler) (tick : Duration) : Scheduler :=
  if 0 <? tick then s <| Scheduler.tick := tick |> else s.

(** ** One round of the watch *)

Module WatchRound.
Record WatchRound : Type := mk {
  hasService : bool;
  cleanupAt : Time;          (** the clock before and after the cleanup *)
  cleanupDone : Time;
  reserveAt : Time;          (** the clock before and after the reserve check *)
  reserveDone : Time;
  lockFree : bool;           (** [healthMu.TryLock] *)
  checkedRoute : string;     (** the route key before the check *)
  check : result string (bool * string);
  cancelled : bool;          (** [ctx.Err() != nil] after the check *)
  routeAfter : string;       (** the route key after the check *)
  routeKey : string;         (** and the one that is counted *)
  now : Time;
  retryInterval : Duration;  (** [recoveryRetryInterval] *)
  failover : option (option string)  (** [None]: no failover step; its error *)
}.
End WatchRound.
Abbreviation WatchRound := WatchRound.WatchRound.

Inductive WatchAction : Type :=
| CleanupManagedOutbounds
| MaintainManagedReserves
| StartFailover (reason : string).

Definition failureClassOf (reason : string) : string :=
  if HasPrefix reason activeGETFailureReasonPrefix then "egress" else "runtime".

Definition failureThresholdOf (class : string) : Z := if bool_decide (class = "egress") then 4 else 2.

Definition managedReserveCheckDue (s : Scheduler) (now : Time) : bool :=
  negb (Before now (Add (Scheduler.lastReserveCheckAt s)
                      (wrap64 (managedReserveCheckInterval + Scheduler.reserveCheckJitter s)))).

Definition cleanup_due (s : Scheduler) (r : WatchRound) : bool :=
  WatchRound.hasService r &&
  (IsZero (Scheduler.lastOutboundCleanupAt s)
   || negb (Before (WatchRound.cleanupAt r) (Add (Scheduler.lastOutboundCleanupAt s) Minute))).

(** The maintenance at the head of the round. *)
Definition watch_maintenance (s : Scheduler) (r : WatchRound) : Scheduler * list WatchAction :=
  let '(s, cleanup) :=
    if cleanup_due s r
    then (s <| Scheduler.lastOutboundCleanupAt := WatchRound.cleanupDone r |>, [CleanupManagedOutbounds])
    else (s, []) in
  if WatchRound.hasService r && managedReserveCheckDue s (WatchRound.reserveAt r)
  then (s <| Scheduler.lastReserveCheckAt := WatchRound.reserveDone r |>,
        cleanup ++ [MaintainManagedReserves])
  else (s, cleanup).

Definition forget_failures (s : Scheduler) : Scheduler :=
  s <| Scheduler.recoveryFailures := 0 |> <| Scheduler.recoveryFailureClass := "" |>.

Definition forget_route (s : Scheduler) : Scheduler :=
  s <| Scheduler.recoveryFailures := 0 |> <| Scheduler.recoveryRouteKey := "" |>.

(** The counter after one more failure of a route. *)
Definition count_failure (s : Scheduler) (routeKey failureClass : string) : Scheduler :=
  let s :=
    if negb (bool_decide (routeKey = Scheduler.recoveryRouteKey s))
       || negb (bool_decide (failureClass = Scheduler.recoveryFailureClass s))
    then s <| Scheduler.recoveryRouteKey := routeKey |>
           <| Scheduler.recoveryFailureClass := failureClass |>
           <| Scheduler.recoveryFailures := 0 |>
    else s in
  s <| Scheduler.recoveryFailures ::= succ64 |>.

(** The failure is confirmed and no recent attempt holds the next one back. *)
Definition failover_due (s : Scheduler) (r : WatchRound) (class : string) : bool :=
  negb (Scheduler.recoveryFailures s <? failureThresholdOf class)
  && negb (negb (IsZero (Scheduler.lastRecoveryAt s))
           && Before (WatchRound.now r) (Add (Scheduler.lastRecoveryAt s) (WatchRound.retryInterval r))).

(** The round under the lock. *)
Definition watch_check (s : Scheduler) (r : WatchRound) : Scheduler * list WatchAction :=
  match WatchRound.check r with
  | Err _ => (forget_failures s, [])
  | Ok (needed, reason) =>
    if WatchRound.cancelled r then (forget_failures s, [])
    else if negb (bool_decide (WatchRound.checkedRoute r = WatchRound.routeAfter r))
    then (forget_route s, [])
    else if negb needed then (forget_route (s <| Scheduler.lastRecoveryAt := zero_time |>), [])
    else
      let class := failureClassOf reason in
      let s := count_failure s (WatchRound.routeKey r) class in
      if failover_due s r class
      then
        let s := s <| Scheduler.lastRecoveryAt := WatchRound.now r |> in
        match WatchRound.failover r with
        | None => (s, [])
        | Some (Some _) => (s, [StartFailover reason])
        | Some None => (forget_route (s <| Scheduler.lastRecoveryAt := zero_time |>), [StartFailover reason])
        end
      else (s, [])
  end.

Definition runConnectionWatchOnce (s : Scheduler) (r : WatchRound) : Scheduler * list WatchAction :=
  let '(s, maintenance) := watch_maintenance s r in
  if WatchRound.lockFree r
  then let '(s, actions) := watch_check s r in (s, maintenance ++ actions)
  else (s, maintenance).

(** [recoveryRouteKey]; [rfc3339] prints the time of the last switch. *)
Definition recoveryRouteKey (rfc3339 : Time -> string) (state : RuntimeState) : string :=
  Join [RuntimeState.Mode state; RuntimeState.ActiveSubscriptionID state;
        RuntimeState.ActiveNodeID state; RuntimeState.ActiveTransport state;
        rfc3339 (RuntimeState.LastSwitchAt state);
        Itoa (RuntimeState.RuntimeConfigGeneration state)] "|".

(** [recoveryRetryInterval]: [status] and [settings] are [None] when they cannot
    be read. *)
Definition recoveryRetryInterval (s : Scheduler) (hasStore : bool) (status : option RuntimeState)
    (settings : option Settings) : Duration :=
  if 0 <? Scheduler.recoveryRetryEvery s then Scheduler.recoveryRetryEvery s
  else if negb hasStore then Minute
  else if match status with
          | Some state => bool_decide (RuntimeState.OperationalMode state = OperationalModeDirect)
          | None => false
          end then Minute
  else match settings with
       | None => Minute
       | Some settings => Z.max Minute (Settings.SwitchCooldown settings)
       end.

(** ** The refresh scan *)

Inductive RefreshAction : Type :=
| TouchRefreshAttempt (subscriptionID : string) (at_ : Time)
| RefreshAndReconnect (subscriptionID : string)
| RefreshSubscription (subscriptionID : string).

Definition last_attempt (lastRefreshAt : gmap string Time) (sub : Subscription) : Time :=
  match lastRefreshAt !! Subscription.ID sub with
  | Some refreshedAt => if IsZero refreshedAt then Subscription.LastUpdatedAt sub else refreshedAt
  | None => Subscription.LastUpdatedAt sub
  end.

(** What the scan does for one subscription; the clock is read for the expiry
    and once more for the interval. *)
Definition refresh_subscription (interval : Duration) (activeSubscriptionID : string) (connected : bool)
    (lastRefreshAt : gmap string Time) (expiryClock now : Time) (sub : Subscription)
    : list RefreshAction :=
  if IsExpired sub expiryClock then []
  else if Sub now (last_attempt lastRefreshAt sub) <? interval then []
  else
    TouchRefreshAttempt (Subscription.ID sub) now ::
    (if connected && bool_decide (Subscription.ID sub = activeSubscriptionID)
     then [RefreshAndReconnect (Subscription.ID sub)]
     else [RefreshSubscription (Subscription.ID sub)]).

(** [runOnce]: [clock i] are the two readings at the [i]-th subscription; a
    failing action is logged and the scan goes on. *)
Definition runOnce (settings : result string Settings)
    (subscriptions : result string (list Subscription)) (status : option RuntimeState)
    (clock : nat -> Time * Time) : list RefreshAction :=
  match settings with
  | Err _ => []
  | Ok settings =>
    let interval := Settings.RefreshInterval settings in
    if interval <=? 0 then []
    else match subscriptions with
    | Err _ => []
    | Ok subscriptions =>
      let active := match status with Some st => RuntimeState.ActiveSubscriptionID st | None => "" end in
      let connected := match status with Some st => RuntimeState.Connected st | None => false end in
      let last := match status with Some st => RuntimeState.LastRefreshAt st | None => ∅ end in
      mjoin (imap (fun i sub =>
        refresh_subscription interval active connected last (clock i).1 (clock i).2 sub) subscriptions)
    end
  end.

(** ** Waits of the loops *)

Definition healthConfigPollInterval (s : Scheduler) : Duration :=
  if 0 <? Scheduler.healthConfigPollEvery s then Scheduler.healthConfigPollEvery s
  else if (0 <? Scheduler.tick s) && (Scheduler.tick s <? maxHealthConfigPollInterval)
  then Scheduler.tick s else maxHealthConfigPollInterval.

Definition refreshConfigPollInterval (s : Scheduler) : Duration :=
  if 0 <? Scheduler.refreshConfigPollEvery s then Scheduler.refreshConfigPollEvery s
  else if (0 <? Scheduler.tick s) && (Scheduler.tick s <? maxRefreshConfigPollInterval)
  then Scheduler.tick s else maxRefreshConfigPollInterval.

Definition refreshScanInterval (s : Scheduler) (interval : Duration) : Duration :=
  if interval <=? 0 then Minute
  else if (0 <? Scheduler.tick s) && (Scheduler.tick s <? interval) then Scheduler.tick s else interval.

(** The settings as the loops see them; [None]: no store, or it cannot be
    read. *)
Definition refreshLoopConfig (settings : option Settings) : Duration * bool :=
  match settings with
  | None => (Minute, false)
  | Some settings => (Settings.RefreshInterval settings, 0 <? Settings.RefreshInterval settings)
  end.

Definition healthLoopConfig (s : Scheduler) (hasStore : bool) (settings : option Settings)
    : Duration * bool :=
  if negb hasStore then (Minute, false)
  else match settings with
  | None => (Minute, false)
  | Some settings =>
    if 0 <? Settings.HealthCheckInterval settings then (Settings.HealthCheckInterval settings, true)
    else if 0 <? Scheduler.tick s then (Scheduler.tick s, false) else (Minute, false)
  end.

(** The time for which [wait] sets its timer. *)
Definition wait_for (d : Duration) : Duration := if d <=? 0 then Minute else d.

(** The wait before the next look at the settings, never past the moment
    something is due. *)
Definition until (poll : Duration) (due : bool) (untilDue : Duration) : Duration :=
  if due && (0 <? untilDue) && (untilDue <? poll) then untilDue else poll.

(** One turn of [runRefreshLoop] after its wait: whether it scans, and the
    configuration remembered. *)
Module RefreshLoop.
Record RefreshLoop : Type := mk { lastScanAt : Time; lastInterval : Duration; enabled : bool }.
End RefreshLoop.
Abbreviation RefreshLoop := RefreshLoop.RefreshLoop.

Definition refresh_wait (s : Scheduler) (l : RefreshLoop) (now : Time) : Duration :=
  until (refreshConfigPollInterval s) (RefreshLoop.enabled l)
    (Sub (Add (RefreshLoop.lastScanAt l) (refreshScanInterval s (RefreshLoop.lastInterval l))) now).

Definition refresh_turn (s : Scheduler) (l : RefreshLoop) (config : Duration * bool) (now done_ : Time)
    : RefreshLoop * bool :=
  let '(interval, currentlyEnabled) := config in
  let configChanged := negb (interval =? RefreshLoop.lastInterval l)
                       || negb (Bool.eqb currentlyEnabled (RefreshLoop.enabled l)) in
  let scan := currentlyEnabled &&
    (configChanged || negb (Before now (Add (RefreshLoop.lastScanAt l) (refreshScanInterval s interval)))) in
  (RefreshLoop.mk (if scan then done_ else RefreshLoop.lastScanAt l) interval currentlyEnabled, scan).

(** One turn of [runHealthLoop]: a triggered pass, a periodic pass, or a wait. *)
Inductive HealthTurn : Type :=
| RunTriggered (scope : string)
| RunPeriodic
| WaitFor (d : Duration).

Definition health_turn (s : Scheduler) (trigger : option string) (config : Duration * bool)
    (lastRunAt now : Time) : HealthTurn :=
  match trigger with
  | Some scope => RunTriggered scope
  | None =>
    let '(interval, enabled) := config in
    if enabled && negb (Before now (Add lastRunAt interval)) then RunPeriodic
    else WaitFor (until (healthConfigPollInterval s) enabled (Sub (Add lastRunAt interval) now))
  end.
