(* ===== verification/SchedulerFacts.v ===== *)
(** * The scheduler: theorems

    The confirmation counter refines a specification over the history of
    rounds: a failover starts exactly when the last rounds confirm the failure
    of one route for one reason class and the retry interval has passed. *)
From S2P Require Import Prelude GoStrings GoNum Domain Zapret Settings Connection Probe Scheduler.

Local Open Scope Z_scope.
Local Open Scope list_scope.

(** ** The specification *)

(** A round as an observer sees it, with whether it started a failover. *)
Record Observed : Type := { round : WatchRound; started : bool }.

(** What a round says about the active route. *)
Inductive Verdict : Type :=
| NoVerdict                                (** another health pass holds the lock *)
| Inconclusive                             (** the check failed, was cancelled, or the route moved *)
| Usable
| Failing (routeKey class : string).

Definition verdict (r : WatchRound) : Verdict :=
  if negb (WatchRound.lockFree r) then NoVerdict
  else match WatchRound.check r with
  | Err _ => Inconclusive
  | Ok (needed, reason) =>
    if WatchRound.cancelled r then Inconclusive
    else if negb (bool_decide (WatchRound.checkedRoute r = WatchRound.routeAfter r)) then Inconclusive
    else if negb needed then Usable
    else Failing (WatchRound.routeKey r) (failureClassOf reason)
  end.

Definition reason_of (r : WatchRound) : string :=
  match WatchRound.check r with Ok (_, reason) => reason | Err _ => "" end.

(** The failover of a round succeeded. *)
Definition repaired (o : Observed) : bool :=
  started o && bool_decide (WatchRound.failover (round o) = Some None).

(** How many rounds in a row, the newest first, failed on this route for this
    class; rounds without a verdict do not count and do not interrupt. *)
Fixpoint consecutive (routeKey class : string) (history : list Observed) : Z :=
  match history with
  | [] => 0
  | o :: older =>
    match verdict (round o) with
    | NoVerdict => consecutive routeKey class older
    | Inconclusive | Usable => 0
    | Failing key c =>
      if repaired o then 0
      else if bool_decide (key = routeKey) && bool_decide (c = class)
      then 1 + consecutive routeKey class older
      else 0
    end
  end.

(** The moment of the last failed attempt that still holds the next one back;
    the zero time when there is none. *)
Fixpoint last_failed_attempt (history : list Observed) : Time :=
  match history with
  | [] => zero_time
  | o :: older =>
    match verdict (round o) with
    | NoVerdict | Inconclusive => last_failed_attempt older
    | Usable => zero_time
    | Failing _ _ =>
      if repaired o then zero_time
      else if started o then WatchRound.now (round o) else last_failed_attempt older
    end
  end.

Definition held_back (attempt : Time) (r : WatchRound) : bool :=
  negb (IsZero attempt) && Before (WatchRound.now r) (Add attempt (WatchRound.retryInterval r)).

(** The decision of a round after [history]. *)
Definition spec_starts (history : list Observed) (r : WatchRound) : bool :=
  match verdict r with
  | Failing key class =>
    (failureThresholdOf class <=? 1 + consecutive key class history)
    && negb (held_back (last_failed_attempt history) r)
  | _ => false
  end.

(** ** The program *)

Definition failovers (actions : list WatchAction) : list string :=
  actions ≫= fun a => match a with StartFailover reason => [reason] | _ => [] end.

Definition watch_round (s : Scheduler) (history : list Observed) (r : WatchRound)
    : Scheduler * list Observed :=
  let '(s', actions) := runConnectionWatchOnce s r in
  (s', {| round := r; started := negb (bool_decide (failovers actions = [])) |} :: history).

(** The rounds of the loop, oldest first. *)
Fixpoint watch_rounds (s : Scheduler) (history : list Observed) (rounds : list WatchRound)
    : Scheduler * list Observed :=
  match rounds with
  | [] => (s, history)
  | r :: rounds => let '(s, history) := watch_round s history r in watch_rounds s history rounds
  end.

(** The specification run over the same rounds. *)
Fixpoint spec_rounds (history : list Observed) (rounds : list WatchRound) : list Observed :=
  match rounds with
  | [] => history
  | r :: rounds => spec_rounds ({| round := r; started := spec_starts history r |} :: history) rounds
  end.

(** The counter and the time in the state are those of the history. *)
Record refines (s : Scheduler) (history : list Observed) : Prop := {
  ref_failures : forall key class, class = "egress" \/ class = "runtime" ->
    consecutive key class history =
    if bool_decide (key = Scheduler.recoveryRouteKey s) && bool_decide (class = Scheduler.recoveryFailureClass s)
    then Scheduler.recoveryFailures s else 0;
  ref_attempt : last_failed_attempt history = Scheduler.lastRecoveryAt s
}.

Lemma consecutive_bounds key class history :
  0 <= consecutive key class history <= Z.of_nat (length history).
Proof.
  induction history as [|o history IH]; cbn [consecutive length]; [lia|].
  destruct (verdict _); try lia. destruct (repaired o); [lia|]. destruct (_ && _); lia.
Qed.

Lemma failureClassOf_cases reason : failureClassOf reason = "egress" \/ failureClassOf reason = "runtime".
Proof. unfold failureClassOf. destruct (HasPrefix _ _); auto. Qed.

(** The maintenance leaves the counter alone. *)
Lemma watch_maintenance_counter s r :
  let s' := (watch_maintenance s r).1 in
  Scheduler.recoveryFailures s' = Scheduler.recoveryFailures s /\
  Scheduler.recoveryRouteKey s' = Scheduler.recoveryRouteKey s /\
  Scheduler.recoveryFailureClass s' = Scheduler.recoveryFailureClass s /\
  Scheduler.lastRecoveryAt s' = Scheduler.lastRecoveryAt s /\
  failovers (watch_maintenance s r).2 = [].
Proof. unfold watch_maintenance. destruct (cleanup_due s r), (_ && _); done. Qed.

Lemma refines_maintenance s r history : refines s history -> refines (watch_maintenance s r).1 history.
Proof.
  intros [H1 H2]. destruct (watch_maintenance_counter s r) as (E1 & E2 & E3 & E4 & _).
  split; [|by rewrite E4]. intros key class Hc. rewrite E1, E2, E3. by apply H1.
Qed.

Lemma count_failure_fields s k c :
  let s' := count_failure s k c in
  Scheduler.recoveryRouteKey s' = k /\ Scheduler.recoveryFailureClass s' = c /\
  Scheduler.lastRecoveryAt s' = Scheduler.lastRecoveryAt s /\
  Scheduler.recoveryFailures s' = succ64
    (if bool_decide (k = Scheduler.recoveryRouteKey s) && bool_decide (c = Scheduler.recoveryFailureClass s)
     then Scheduler.recoveryFailures s else 0).
Proof.
  unfold count_failure. destruct (bool_decide_reflect (k = Scheduler.recoveryRouteKey s)) as [->|];
    destruct (bool_decide_reflect (c = Scheduler.recoveryFailureClass s)) as [->|]; done.
Qed.

Definition small (history : list Observed) : Prop := Z.of_nat (length history) < max_int64.

Lemma succ64_consecutive k c history :
  small history -> succ64 (consecutive k c history) = 1 + consecutive k c history.
Proof.
  unfold small, max_int64. intros Hs. pose proof (consecutive_bounds k c history).
  unfold succ64. rewrite wrap64_id; [lia|]. unfold in_int64. lia.
Qed.

Lemma failover_due_counted s history r k c :
  refines s history -> small history -> c = "egress" \/ c = "runtime" ->
  failover_due (count_failure s k c) r c =
  (failureThresholdOf c <=? 1 + consecutive k c history) && negb (held_back (last_failed_attempt history) r) /\
  Scheduler.recoveryFailures (count_failure s k c) = 1 + consecutive k c history.
Proof.
  intros [H1 H2] Hs Hc. destruct (count_failure_fields s k c) as (_ & _ & E3 & E4).
  rewrite <- (H1 k c Hc), succ64_consecutive in E4 by done. split; [|done].
  unfold failover_due, held_back. rewrite E3, E4, H2. f_equal. by rewrite Z.leb_antisym.
Qed.

Lemma class_empty c : c = "egress" \/ c = "runtime" -> bool_decide (c = "") = false.
Proof. by intros [-> | ->]. Qed.

(** The three ways a round forgets the run of failures. *)
Lemma refines_forget s s' o history :
  Scheduler.recoveryFailures s' = 0 ->
  (forall key class, consecutive key class (o :: history) = 0) ->
  last_failed_attempt (o :: history) = Scheduler.lastRecoveryAt s' ->
  refines s history -> refines s' (o :: history).
Proof.
  intros Hf Hc Ha _. split; [|exact Ha]. intros key class _. rewrite Hc, Hf. by destruct (_ && _).
Qed.

(** A round that counts its failure. *)
Lemma refines_count s s' o history k c :
  verdict (round o) = Failing k c -> repaired o = false -> c = "egress" \/ c = "runtime" ->
  refines s history -> small history ->
  Scheduler.recoveryFailures s' = 1 + consecutive k c history ->
  Scheduler.recoveryRouteKey s' = k -> Scheduler.recoveryFailureClass s' = c ->
  Scheduler.lastRecoveryAt s' =
    (if started o then WatchRound.now (round o) else Scheduler.lastRecoveryAt s) ->
  refines s' (o :: history).
Proof.
  intros Hv Hr Hc [H1 H2] Hs Hf Hk Hcl Ha. split; cbn [consecutive last_failed_attempt]; rewrite Hv, Hr.
  - intros key class _. rewrite Hf, Hk, Hcl.
    destruct (bool_decide_reflect (k = key)) as [->|Hne]; destruct (bool_decide_reflect (c = class)) as [->|Hne'];
      cbn [andb]; try (rewrite (bool_decide_eq_true_2 (key = key)) by done);
      try (rewrite (bool_decide_eq_true_2 (class = class)) by done); try done.
    + by rewrite (bool_decide_eq_false_2 (class = c)) by congruence.
    + by rewrite (bool_decide_eq_false_2 (key = k)) by congruence.
    + by rewrite (bool_decide_eq_false_2 (key = k)) by congruence.
  - rewrite H2, Ha. done.
Qed.

(** The round under the lock decides as the specification does. *)
Lemma watch_check_refines s history r :
  WatchRound.lockFree r = true -> is_Some (WatchRound.failover r) -> refines s history -> small history ->
  failovers (watch_check s r).2 = (if spec_starts history r then [reason_of r] else []) /\
  refines (watch_check s r).1 ({| round := r; started := spec_starts history r |} :: history).
Proof.
  intros Hl [f Ef] Href Hs.
  assert (Hv : verdict r = match WatchRound.check r with
    | Err _ => Inconclusive
    | Ok (needed, reason) =>
      if WatchRound.cancelled r then Inconclusive
      else if negb (bool_decide (WatchRound.checkedRoute r = WatchRound.routeAfter r)) then Inconclusive
      else if negb needed then Usable else Failing (WatchRound.routeKey r) (failureClassOf reason) end)
    by (unfold verdict; by rewrite Hl).
  unfold watch_check, spec_starts, reason_of.
  destruct (WatchRound.check r) as [[needed reason]|e] eqn:Ec; cycle 1.
  { rewrite Hv. split; [done|]. eapply refines_forget; [done|by intros; cbn; rewrite Hv| |exact Href].
    cbn. rewrite Hv. apply Href. }
  destruct (WatchRound.cancelled r).
  { rewrite Hv. split; [done|]. eapply refines_forget; [done|by intros; cbn; rewrite Hv| |exact Href].
    cbn. rewrite Hv. apply Href. }
  destruct (negb (bool_decide (WatchRound.checkedRoute r = WatchRound.routeAfter r))).
  { rewrite Hv. split; [done|]. eapply refines_forget; [done|by intros; cbn; rewrite Hv| |exact Href].
    cbn. rewrite Hv. apply Href. }
  destruct (negb needed).
  { rewrite Hv. split; [done|]. eapply refines_forget; [done|by intros; cbn; rewrite Hv| |exact Href].
    cbn. by rewrite Hv. }
  rewrite Hv. cbv zeta. set (k := WatchRound.routeKey r). set (c := failureClassOf reason).
  assert (Hc : c = "egress" \/ c = "runtime") by apply failureClassOf_cases.
  destruct (failover_due_counted s history r k c Href Hs Hc) as [Hd Hn]. rewrite Hd.
  destruct (count_failure_fields s k c) as (Ek & Ecl & Ea & _).
  destruct (_ && negb (held_back _ _)).
  - rewrite Ef. destruct f as [e|]; (split; [done|]).
    + eapply refines_count; [exact Hv| |exact Hc|exact Href|exact Hs|done..].
      unfold repaired. cbn. by rewrite Ef.
    + assert (Hrep : repaired {| round := r; started := true |} = true) by (unfold repaired; cbn; by rewrite Ef).
      eapply refines_forget; [done| | |exact Href].
      * intros. cbn [consecutive round]. by rewrite Hv, Hrep.
      * cbn [last_failed_attempt round]. by rewrite Hv, Hrep.
  - split; [done|]. eapply refines_count; [exact Hv|done|exact Hc|exact Href|exact Hs|done..].
Qed.

Lemma watch_round_refines s history r :
  is_Some (WatchRound.failover r) -> refines s history -> small history ->
  failovers (runConnectionWatchOnce s r).2 = (if spec_starts history r then [reason_of r] else []) /\
  refines (runConnectionWatchOnce s r).1 ({| round := r; started := spec_starts history r |} :: history).
Proof.
  intros Hf Href Hs. unfold runConnectionWatchOnce.
  pose proof (refines_maintenance s r history Href) as Href'.
  destruct (watch_maintenance_counter s r) as (_ & _ & _ & _ & Em).
  destruct (watch_maintenance s r) as [s0 maintenance]. cbn [fst snd] in *.
  destruct (WatchRound.lockFree r) eqn:El.
  - destruct (watch_check_refines s0 history r El Hf Href' Hs) as [H1 H2].
    destruct (watch_check s0 r) as [s1 actions]. cbn [fst snd] in *. split; [|exact H2].
    unfold failovers in *. by rewrite bind_app, Em, H1.
  - assert (Hv : verdict r = NoVerdict) by (unfold verdict; by rewrite El).
    unfold spec_starts. rewrite Hv. split; [exact Em|]. destruct Href' as [H1 H2].
    split; cbn; rewrite Hv; [exact H1|exact H2].
Qed.

Lemma watch_rounds_refines s history rounds :
  Forall (fun r => is_Some (WatchRound.failover r)) rounds -> refines s history ->
  Z.of_nat (length history + length rounds) < max_int64 ->
  (watch_rounds s history rounds).2 = spec_rounds history rounds /\
  refines (watch_rounds s history rounds).1 (spec_rounds history rounds).
Proof.
  intros Hf. revert s history. induction Hf as [|r rounds Hr _ IH]; intros s history Href Hs; [done|].
  cbn [length] in Hs. cbn [watch_rounds spec_rounds]. unfold watch_round.
  destruct (watch_round_refines s history r Hr Href ltac:(unfold small; lia)) as [H1 H2].
  destruct (runConnectionWatchOnce s r) as [s' actions]. cbn [fst snd] in *.
  assert (Hst : negb (bool_decide (failovers actions = [])) = spec_starts history r).
  { rewrite H1. by destruct (spec_starts history r). }
  rewrite Hst. apply IH; [exact H2|]. cbn [length]. lia.
Qed.

(** ** The theorems *)

Lemma fresh_refines now unixNano : refines (NewScheduler now unixNano) [].
Proof. split; [|done]. intros key class [-> | ->]; cbn; by destruct (_ && _). Qed.

Lemma fresh_rounds now unixNano rounds :
  Forall (fun r => is_Some (WatchRound.failover r)) rounds -> Z.of_nat (length rounds) < max_int64 ->
  (watch_rounds (NewScheduler now unixNano) [] rounds).2 = spec_rounds [] rounds.
Proof.
  intros Hf Hl. by apply (watch_rounds_refines (NewScheduler now unixNano) [] rounds Hf
    (fresh_refines now unixNano) Hl).
Qed.

(** C32: a round of the watch starts a failover exactly when the history says so:
    the route failed in the required number of consecutive rounds for the same
    reason class, and the last failed attempt is older than the retry interval;
    the counter, the remembered route and the remembered attempt in the
    scheduler represent nothing else.  This holds from a new scheduler for every
    sequence of rounds in which a failover step is configured. *)
Theorem watch_refines_history now unixNano rounds :
  Forall (fun r => is_Some (WatchRound.failover r)) rounds ->
  Z.of_nat (length rounds) < max_int64 ->
  (watch_rounds (NewScheduler now unixNano) [] rounds).2 = spec_rounds [] rounds.
Proof. apply fresh_rounds. Qed.

(** A round with a failing check, of the route ["a"]. *)
Definition failing_round (reason : string) (at_ : Time) (res : option string) : WatchRound :=
  WatchRound.mk false at_ at_ at_ at_ true "a" (Ok (true, reason)) false "a" "a" at_ Minute (Some res).

Definition hour_one : list WatchRound :=
  [failing_round "backend is not running" (1 * Hour) None;
   failing_round "backend is not running" (1 * Hour + 30 * Second) (Some "no healthy nodes available");
   failing_round "backend is not running" (1 * Hour + 60 * Second) None;
   failing_round "backend is not running" (1 * Hour + 90 * Second) None].

(** The second failure starts a failover; it fails and holds the third round
    back; the fourth tries again. *)
Lemma watch_refines_history_witness :
  started <$> (watch_rounds (NewScheduler Hour 5) [] hour_one).2 = [true; false; true; false].
Proof.
  rewrite (watch_refines_history Hour 5 hour_one).
  - vm_compute. reflexivity.
  - repeat constructor; by eexists.
  - vm_compute. reflexivity.
Defined.

Lemma spec_rounds_app history rounds1 rounds2 :
  spec_rounds history (rounds1 ++ rounds2) = spec_rounds (spec_rounds history rounds1) rounds2.
Proof. revert history. induction rounds1 as [|r rounds1 IH]; intros history; [done|]. cbn. apply IH. Qed.

(** The verdicts of the history, newest first, without the rounds that have
    none. *)
Definition verdicts (history : list Observed) : list Verdict :=
  history ≫= fun o => match verdict (round o) with NoVerdict => [] | v => [v] end.

Lemma consecutive_verdicts key class history (n : nat) :
  (Z.of_nat n <= consecutive key class history) -> take n (verdicts history) = replicate n (Failing key class).
Proof.
  revert n. induction history as [|o history IH]; intros n; cbn [consecutive].
  { intros H. by assert (n = 0%nat) as -> by lia. }
  unfold verdicts. rewrite bind_cons. fold (verdicts history). destruct (verdict (round o)) as [| | |k c].
  - apply IH.
  - intros H. by assert (n = 0%nat) as -> by lia.
  - intros H. by assert (n = 0%nat) as -> by lia.
  - destruct (negb (repaired o) && (bool_decide (k = key) && bool_decide (c = class))) eqn:E; cycle 1.
    { intros H. assert (n = 0%nat) as ->; [|done].
      destruct (repaired o); cbn [negb andb] in E; [lia|]. rewrite E in H. lia. }
    apply andb_true_iff in E as [Er%negb_true_iff [Ek Ec]%andb_true_iff]. rewrite Er, Ek, Ec.
    apply bool_decide_eq_true in Ek as ->. apply bool_decide_eq_true in Ec as ->. cbn [andb].
    intros H. destruct n as [|n]; [done|]. cbn. f_equal. apply IH. lia.
Qed.

(** No failover without confirmation: when a round starts one, it and the
    rounds before it, four in all for failed requests and two for a failed
    runtime, each reported the same route as failing for the same class; no
    usable, inconclusive or otherwise failing round lies between them. *)
Theorem failover_is_confirmed now unixNano rounds r :
  Forall (fun r => is_Some (WatchRound.failover r)) (rounds ++ [r]) ->
  Z.of_nat (length (rounds ++ [r])) < max_int64 ->
  let history := (watch_rounds (NewScheduler now unixNano) [] (rounds ++ [r])).2 in
  (started <$> head history) = Some true ->
  exists key class,
    (class = "egress" \/ class = "runtime") /\
    let n := Z.to_nat (failureThresholdOf class) in
    take n (verdicts history) = replicate n (Failing key class).
Proof.
  intros Hf Hl history. unfold history. rewrite fresh_rounds by done. rewrite spec_rounds_app.
  cbn [spec_rounds]. set (h := spec_rounds [] rounds). cbn [head fmap option_fmap option_map started].
  intros [= Hst]. unfold spec_starts in Hst. destruct (verdict r) as [| | |key class] eqn:Ev; [done..|].
  exists key, class.
  assert (Hc : class = "egress" \/ class = "runtime").
  { unfold verdict in Ev. repeat case_match; try done. injection Ev as _ <-. apply failureClassOf_cases. }
  split; [exact Hc|]. apply andb_true_iff in Hst as [Hst _]. apply Z.leb_le in Hst.
  unfold verdicts. rewrite bind_cons. fold (verdicts h). cbn [round]. rewrite Ev. cbn [app].
  destruct (Z.to_nat (failureThresholdOf class)) as [|n] eqn:En; [done|].
  cbn. f_equal. apply consecutive_verdicts. lia.
Qed.

Lemma failover_is_confirmed_witness :
  exists key class, (class = "egress" \/ class = "runtime") /\
    let n := Z.to_nat (failureThresholdOf class) in
    take n (verdicts (watch_rounds (NewScheduler Hour 5) [] (take 1 hour_one ++ [failing_round "backend is not running" Hour None])).2)
    = replicate n (Failing key class).
Proof.
  apply (failover_is_confirmed Hour 5 (take 1 hour_one) (failing_round "backend is not running" Hour None)).
  - repeat constructor; by eexists.
  - vm_compute. reflexivity.
  - vm_compute. reflexivity.
Defined.

Lemma spec_rounds_suffix rounds history :
  exists pre, spec_rounds history rounds = pre ++ history /\ length pre = length rounds.
Proof.
  revert history. induction rounds as [|x rounds IH]; intros h; [by exists []|]. cbn.
  destruct (IH ({| round := x; started := spec_starts h x |} :: h)) as (pre & -> & Hp).
  exists (pre ++ [{| round := x; started := spec_starts h x |}]). rewrite <- (assoc_L (++)).
  split; [done|]. rewrite length_app. cbn. lia.
Qed.

Lemma failing_run key class failing history :
  Forall (fun r => verdict r = Failing key class) failing ->
  let after := spec_rounds history failing in
  Exists (fun o => started o = true) (take (length failing) after) \/
  (consecutive key class after = Z.of_nat (length failing) + consecutive key class history /\
   last_failed_attempt after = last_failed_attempt history).
Proof.
  intros Hf. revert history. induction Hf as [|r failing Hr Hf IH]; intros history after; [by right|].
  unfold after. cbn [spec_rounds length]. set (o := {| round := r; started := spec_starts history r |}).
  destruct (started o) eqn:Es.
  { left. destruct (spec_rounds_suffix failing (o :: history)) as (pre & -> & Hp).
    rewrite take_app_ge by lia. apply Exists_app. right.
    rewrite Hp, Nat.sub_succ_l, Nat.sub_diag by lia. cbn. by left. }
  destruct (IH (o :: history)) as [H|[H1 H2]].
  - left. apply Exists_exists in H as (x & Hx & Hs). apply Exists_exists. exists x. split; [|done].
    eapply elem_of_take in Hx as (i & Hi & Hl). apply elem_of_take. exists i. split; [done|lia].
  - right. rewrite H1, H2. cbn [consecutive last_failed_attempt]. unfold repaired.
    change (round o) with r. rewrite Es, Hr. cbn [andb].
    rewrite (bool_decide_eq_true_2 (key = key)), (bool_decide_eq_true_2 (class = class)) by done.
    cbn [andb]. split; [lia|done].
Qed.

(** C40: a failing route does not go unnoticed: after the required number of
    consecutive failing rounds, whatever came before, one of them has started a
    failover, unless the last failed attempt is too recent for the retry
    interval of the last round. *)
Theorem failure_starts_failover now unixNano before failing key class last :
  Forall (fun r => is_Some (WatchRound.failover r)) (before ++ failing ++ [last]) ->
  Z.of_nat (length (before ++ failing ++ [last])) < max_int64 ->
  Forall (fun r => verdict r = Failing key class) (failing ++ [last]) ->
  failureThresholdOf class <= Z.of_nat (length (failing ++ [last])) ->
  let history := (watch_rounds (NewScheduler now unixNano) [] (before ++ failing ++ [last])).2 in
  Exists (fun o => started o = true) (take (length (failing ++ [last])) history) \/
  held_back (last_failed_attempt (watch_rounds (NewScheduler now unixNano) [] (before ++ failing)).2) last = true.
Proof.
  intros Hf Hl Hv Hn history. unfold history. rewrite fresh_rounds by done.
  assert (Hf' : Forall (fun r => is_Some (WatchRound.failover r)) (before ++ failing)).
  { rewrite (assoc_L (++)) in Hf. by apply Forall_app in Hf as [? _]. }
  rewrite (fresh_rounds now unixNano (before ++ failing)) by (done || (rewrite !length_app in *; lia)).
  rewrite (assoc_L (++)), !(spec_rounds_app _ (before ++ failing)), spec_rounds_app.
  set (h := spec_rounds [] before). apply Forall_app in Hv as [Hv Hlast].
  rewrite Forall_singleton in Hlast. cbn [spec_rounds]. rewrite length_app in *. cbn [length] in *.
  set (o := {| round := last; started := spec_starts (spec_rounds h failing) last |}).
  rewrite Nat.add_1_r. cbn [take]. destruct (failing_run key class failing h Hv) as [H|[H1 H2]].
  - left. by right.
  - destruct (held_back (last_failed_attempt (spec_rounds h failing)) last) eqn:Eh; [by right|left].
    left. cbn [started]. unfold o, spec_starts. cbn [started]. rewrite Hlast, Eh, H1.
    apply andb_true_iff. split; [|done]. apply Z.leb_le.
    pose proof (consecutive_bounds key class h). lia.
Qed.

Lemma failure_starts_failover_witness :
  Exists (fun o => started o = true)
    (take 2 (watch_rounds (NewScheduler Hour 5) [] (take 2 hour_one)).2).
Proof.
  destruct (failure_starts_failover Hour 5 [] (take 1 hour_one) "a" "runtime"
    (failing_round "backend is not running" (1 * Hour + 30 * Second) (Some "no healthy nodes available")))
    as [H|H].
  - repeat constructor; by eexists.
  - vm_compute. reflexivity.
  - repeat constructor; reflexivity.
  - vm_compute. discriminate.
  - exact H.
  - exfalso. vm_compute in H. discriminate H.
Defined.

(** ** The loops make progress *)

Lemma health_poll_positive s : 0 < healthConfigPollInterval s.
Proof.
  unfold healthConfigPollInterval. destruct (Z.ltb_spec 0 (Scheduler.healthConfigPollEvery s)); [done|].
  destruct (Z.ltb_spec 0 (Scheduler.tick s)); [|done]. cbn [andb]. by destruct (_ <? _).
Qed.

Lemma refresh_poll_positive s : 0 < refreshConfigPollInterval s.
Proof.
  unfold refreshConfigPollInterval. destruct (Z.ltb_spec 0 (Scheduler.refreshConfigPollEvery s)); [done|].
  destruct (Z.ltb_spec 0 (Scheduler.tick s)); [|done]. cbn [andb]. by destruct (_ <? _).
Qed.

(** A wait is positive, at most the poll interval, and ends before what is due. *)
Lemma until_bounds poll untilDue :
  0 < poll -> let d := until poll true untilDue in
  0 < d <= poll /\ wait_for d = d /\ (0 < untilDue -> d <= untilDue) /\
  (untilDue <= 0 \/ poll <= untilDue -> d = poll).
Proof.
  intros Hp d. unfold d, until, wait_for. cbn [andb].
  destruct (Z.ltb_spec 0 untilDue); destruct (Z.ltb_spec untilDue poll); cbn [andb];
    match goal with |- context [?a <=? 0] => destruct (Z.leb_spec a 0) end; lia.
Qed.

Definition periodic (s : Scheduler) (interval lastRunAt now : Time) : HealthTurn :=
  health_turn s None (interval, true) lastRunAt now.

Lemma periodic_cases s interval lastRunAt now :
  healthConfigPollInterval s <= max_int64 ->
  (lastRunAt + interval <= now /\ periodic s interval lastRunAt now = RunPeriodic) \/
  (now < lastRunAt + interval /\ exists d, periodic s interval lastRunAt now = WaitFor d /\
     0 < d <= healthConfigPollInterval s /\ wait_for d = d /\ now + d <= lastRunAt + interval /\
     (d = healthConfigPollInterval s \/ now + d = lastRunAt + interval)).
Proof.
  intros Hm. unfold periodic, health_turn, Before, Add. cbn [andb].
  destruct (Z.ltb_spec now (lastRunAt + interval)) as [Hlt|Hge]; cbn [negb]; [right|by left].
  split; [done|]. eexists. split; [reflexivity|].
  pose proof (health_poll_positive s) as Hp.
  destruct (until_bounds (healthConfigPollInterval s) (Sub (lastRunAt + interval) now) Hp)
    as (H1 & H2 & H3 & H4).
  split; [exact H1|]. split; [exact H2|].
  assert (Hsub : 0 < Sub (lastRunAt + interval) now <= lastRunAt + interval - now /\
    (Sub (lastRunAt + interval) now = lastRunAt + interval - now \/
     Sub (lastRunAt + interval) now = max_int64)).
  { unfold Sub, min_int64, max_int64. lia. }
  destruct Hsub as [Hs Hc]. specialize (H3 (proj1 Hs)). split; [lia|].
  unfold until in *. destruct (_ && _) eqn:E; [|by left]. right. destruct Hc as [->| Hc]; [lia|].
  apply andb_true_iff in E as [_ E%Z.ltb_lt]. lia.
Qed.

(** The health loop reaches its next pass.  While the interval is set, no
    trigger arrives and each timer fires no earlier than asked, the loop waits a
    bounded number of times, one per poll interval, then runs the pass; no
    wait is zero or longer than the poll interval, and none is set past the
    moment the pass is due. *)
Theorem health_loop_terminates s interval lastRunAt (clock : nat -> Time) :
  healthConfigPollInterval s <= max_int64 ->
  (forall i d, periodic s interval lastRunAt (clock i) = WaitFor d ->
     clock i + wait_for d <= clock (S i)) ->
  exists i,
    Z.of_nat i <= Z.max 0 (lastRunAt + interval - clock 0%nat) / healthConfigPollInterval s + 1 /\
    periodic s interval lastRunAt (clock i) = RunPeriodic /\
    forall j, (j < i)%nat -> exists d, periodic s interval lastRunAt (clock j) = WaitFor d /\
      0 < d <= healthConfigPollInterval s /\ clock j + d <= lastRunAt + interval.
Proof.
  intros Hm Hclock. set (due := lastRunAt + interval). pose proof (health_poll_positive s) as Hp.
  set (poll := healthConfigPollInterval s) in *.
  assert (Hrun : forall n base, due - clock base < Z.of_nat n * poll + poll ->
    exists k, (k <= n + 1)%nat /\ periodic s interval lastRunAt (clock (base + k)%nat) = RunPeriodic /\
      forall j, (j < k)%nat -> exists d, periodic s interval lastRunAt (clock (base + j)%nat) = WaitFor d /\
        0 < d <= poll /\ clock (base + j)%nat + d <= due).
  { induction n as [|n IH]; intros base Hb.
    all: destruct (periodic_cases s interval lastRunAt (clock base) Hm) as
      [[_ E]|(Hlt & d & E & Hd & Hw & Hle & Hor)];
      [exists 0%nat; rewrite Nat.add_0_r; split; [lia|]; split; [done|lia]|].
    all: pose proof (Hclock base d E) as Hnext; rewrite Hw in Hnext; fold due poll in Hle, Hor, Hlt.
    - destruct (periodic_cases s interval lastRunAt (clock (S base)) Hm) as [[_ E']|(Hlt' & _)].
      + exists 1%nat. replace (base + 1)%nat with (S base) by lia. split; [lia|]. split; [done|]. intros j Hj.
        assert (j = 0%nat) as -> by lia. rewrite Nat.add_0_r. by exists d.
      + fold due in Hlt'. lia.
    - destruct (IH (S base)) as (k & Hk & Er & Hj); [lia|]. exists (S k). split; [lia|].
      rewrite Nat.add_succ_r, <- Nat.add_succ_l. split; [done|]. intros [|j] Hj'.
      + rewrite Nat.add_0_r. by exists d.
      + rewrite Nat.add_succ_r, <- Nat.add_succ_l. apply Hj. lia. }
  destruct (Hrun (Z.to_nat (Z.max 0 (due - clock 0%nat) / poll)) 0%nat) as (k & Hk & Er & Hj).
  - rewrite Z2Nat.id by (apply Z.div_pos; lia).
    pose proof (Z.mul_succ_div_gt (Z.max 0 (due - clock 0%nat)) poll Hp). lia.
  - exists k. split; [|by split]. pose proof (Z.div_pos (Z.max 0 (due - clock 0%nat)) poll). lia.
Qed.

Lemma health_loop_terminates_witness :
  exists i : nat, Z.of_nat i <= 4 /\
    periodic (NewScheduler 0 0) (3 * Second) 0 (Z.of_nat i * Second) = RunPeriodic.
Proof.
  destruct (health_loop_terminates (NewScheduler 0 0) (3 * Second) 0 (fun i => Z.of_nat i * Second))
    as (i & Hi & Hr & _).
  - vm_compute. discriminate.
  - intros i d E. destruct (periodic_cases (NewScheduler 0 0) (3 * Second) 0 (Z.of_nat i * Second))
      as [[_ E']|(_ & d' & E' & Hd & Hw & _)]; [vm_compute; discriminate|congruence|].
    assert (d = d') as -> by congruence. rewrite Hw.
    change (healthConfigPollInterval (NewScheduler 0 0)) with Second in Hd. lia.
  - exists i. split; [|exact Hr].
    change (Z.max 0 (0 + 3 * Second - Z.of_nat 0 * Second) / healthConfigPollInterval (NewScheduler 0 0) + 1)
      with 4 in Hi. exact Hi.
Defined.
