(* ===== verification/Effects.v ===== *)
(** * Programs with effects

    The service's methods as programs over a state of the world [W]: a result
    or an error, and the next world.  An error does not undo what was done
    before it.  [triple P p Q X]: from a world in [P] the program ends in [Q] with
    its result, or in [X] with its error. *)
From S2P Require Import Prelude.

Definition Prog (W E A : Type) : Type := W -> result E A * W.

#[export] Instance prog_ret W E : MRet (Prog W E) := fun A a w => (Ok a, w).

#[export] Instance prog_bind W E : MBind (Prog W E) := fun A B k p w =>
  match p w with
  | (Ok a, w) => k a w
  | (Err e, w) => (Err e, w)
  end.

Section Combinators.
  Context {W E : Type}.

Definition raise {A} (e : E) : Prog W E A := fun w => (Err e, w).

(** The outcome as a value; this program never fails. *)
Definition attempt {A} (p : Prog W E A) : Prog W E (result E A) := fun w => let '(r, w) := p w in (Ok r, w).

(** [_ = p]. *)
Definition ignore {A} (p : Prog W E A) : Prog W E unit := fun w => (Ok tt, (p w).2).

(** A reading that changes nothing. *)
Definition reads {A} (f : W -> A) : Prog W E A := fun w => (Ok (f w), w).

(** An operation whose outcome is a value, errors included. *)
Definition outcome {A} (f : W -> A * W) : Prog W E A := fun w => let '(a, w) := f w in (Ok a, w).

Definition of_result {A} (r : result E A) : Prog W E A := fun w => (r, w).

(** An operation that reports only an error; [wrap] adds its context. *)
Definition act {X} (wrap : X -> E) (f : W -> option X * W) : Prog W E unit := fun w =>
  match f w with
  | (None, w) => (Ok tt, w)
  | (Some e, w) => (Err (wrap e), w)
  end.

Definition map_error {E'} {A} (f : E -> E') (p : Prog W E A) : Prog W E' A := fun w =>
  match p w with
  | (Ok a, w) => (Ok a, w)
  | (Err e, w) => (Err (f e), w)
  end.

Definition when (b : bool) (p : Prog W E unit) : Prog W E unit := if b then p else mret tt.

(** ** Runs that succeed *)

Lemma run_eq {A} (x : A * W) a : x.1 = a -> x = (a, x.2).
Proof. destruct x. cbn. by intros ->. Qed.

Lemma bind_ok {A B} (p : Prog W E A) (k : A -> Prog W E B) w b w' :
  (p ≫= k) w = (Ok b, w') -> exists a w1, p w = (Ok a, w1) /\ k a w1 = (Ok b, w').
Proof. unfold mbind, prog_bind. destruct (p w) as [[a|e] w1]; [|done]. intros Hk. by exists a, w1. Qed.

Lemma act_ok {X} (wrap : X -> E) f w u w' : act wrap f w = (Ok u, w') -> f w = (None, w').
Proof. unfold act. destruct (f w) as [[e|] w1]; [done|]. by intros [= _ ->]. Qed.

Lemma attempt_ok {A} (p : Prog W E A) w r w' : attempt p w = (Ok r, w') -> p w = (r, w').
Proof. unfold attempt. destruct (p w) as [r' w1]. by intros [= -> ->]. Qed.

Lemma map_error_ok {E'} {A} (f : E -> E') (p : Prog W E A) w a w' : map_error f p w = (Ok a, w') -> p w = (Ok a, w').
Proof. unfold map_error. destruct (p w) as [[b|e] v]; [|done]. by intros [= -> ->]. Qed.

Lemma reads_ok {A} (f : W -> A) w a w' : @reads A f w = (Ok a, w') -> a = f w /\ w' = w.
Proof. by intros [= <- <-]. Qed.

Lemma outcome_ok {A} (f : W -> A * W) w a w' : outcome f w = (Ok a, w') -> f w = (a, w').
Proof. unfold outcome. destruct (f w) as [a' w1]. by intros [= -> ->]. Qed.

Lemma raise_ok {A} (e : E) w (a : A) w' : raise e w = (Ok a, w') -> False.
Proof. done. Qed.

(** ** Triples *)

Definition triple {A} (P : W -> Prop) (p : Prog W E A) (Q : A -> W -> Prop) (X : E -> W -> Prop) : Prop :=
  forall w, P w -> match p w with (Ok a, w') => Q a w' | (Err e, w') => X e w' end.

Lemma triple_ok {A} P (p : Prog W E A) Q X w a w' : triple P p Q X -> P w -> p w = (Ok a, w') -> Q a w'.
Proof. intros H Hw E'. specialize (H w Hw). by rewrite E' in H. Qed.

Lemma triple_err {A} P (p : Prog W E A) Q X w e w' : triple P p Q X -> P w -> p w = (Err e, w') -> X e w'.
Proof. intros H Hw E'. specialize (H w Hw). by rewrite E' in H. Qed.

Lemma triple_ret {A} (a : A) Q X : triple (Q a) (mret a) Q X.
Proof. by intros w. Qed.

Lemma triple_raise {A} (e : E) (Q : A -> W -> Prop) X : triple (X e) (raise e) Q X.
Proof. by intros w. Qed.

Lemma triple_bind {A B} (p : Prog W E A) (k : A -> Prog W E B) P R Q X :
  triple P p R X -> (forall a, triple (R a) (k a) Q X) -> triple P (p ≫= k) Q X.
Proof.
  intros Hp Hk w Hw. unfold mbind, prog_bind. specialize (Hp w Hw).
  destruct (p w) as [[a|e] w1]; [|exact Hp]. by apply Hk.
Qed.

Lemma triple_conseq {A} (p : Prog W E A) (P P' : W -> Prop) (Q Q' : A -> W -> Prop) (X X' : E -> W -> Prop) :
  triple P' p Q' X' -> (forall w, P w -> P' w) -> (forall a w, Q' a w -> Q a w) -> (forall e w, X' e w -> X e w) ->
  triple P p Q X.
Proof.
  intros H HP HQ HX w Hw. specialize (H w (HP w Hw)). destruct (p w) as [[a|e] w1]; auto.
Qed.

Lemma triple_pre {A} (p : Prog W E A) (P P' : W -> Prop) Q X :
  triple P' p Q X -> (forall w, P w -> P' w) -> triple P p Q X.
Proof. intros H HP w Hw. apply H, HP, Hw. Qed.

Lemma triple_reads {A} (f : W -> A) (P : W -> Prop) X : triple P (reads f) (fun a w => P w /\ a = f w) X.
Proof. by intros w Hw. Qed.

Lemma triple_of_result {A} (r : result E A) (P : W -> Prop) :
  triple P (of_result r) (fun a w => P w /\ r = Ok a) (fun e w => P w /\ r = Err e).
Proof. intros w Hw. unfold of_result. by destruct r. Qed.

Lemma triple_act {Y} (wrap : Y -> E) f (P Q : W -> Prop) (X : E -> W -> Prop) :
  (forall w w', P w -> f w = (None, w') -> Q w') ->
  (forall w e w', P w -> f w = (Some e, w') -> X (wrap e) w') ->
  triple P (act wrap f) (fun _ => Q) X.
Proof.
  intros HQ HX w Hw. unfold act. destruct (f w) as [[e|] w'] eqn:Ef; [by eapply HX|by eapply HQ].
Qed.

Lemma triple_attempt {A} (p : Prog W E A) P Q X Y :
  triple P p Q X ->
  triple P (attempt p) (fun r w => match r with Ok a => Q a w | Err e => X e w end) Y.
Proof. intros H w Hw. unfold attempt. specialize (H w Hw). by destruct (p w) as [[a|e] w1]. Qed.

Lemma triple_ignore {A} (p : Prog W E A) P (R : W -> Prop) X :
  triple P p (fun _ => R) (fun _ => R) -> triple P (ignore p) (fun _ => R) X.
Proof. intros H w Hw. unfold ignore. specialize (H w Hw). by destruct (p w) as [[a|e] w1]. Qed.

Lemma triple_when b (p : Prog W E unit) P Q X :
  triple P p (fun _ => Q) X -> (b = false -> forall w, P w -> Q w) -> triple P (when b p) (fun _ => Q) X.
Proof. intros H Hf. destruct b; [exact H|]. intros w Hw. by apply Hf. Qed.

End Combinators.

Create HintDb triples.
#[export] Hint Resolve triple_ret triple_raise triple_reads : triples.

(** ** What a program does not touch *)

Section Untouched.
  Context {W T : Type} (f : W -> T).

Definition untouched {E A} (p : Prog W E A) : Prop := forall w, f (p w).2 = f w.

Context {E A : Type}.

Lemma untouched_eq (p : Prog W E A) w r w' : untouched p -> p w = (r, w') -> f w' = f w.
Proof. intros Hp Ep. specialize (Hp w). by rewrite Ep in Hp. Qed.

Lemma untouched_ret (a : A) : untouched (E := E) (mret a).
Proof. by intros w. Qed.

Lemma untouched_raise (e : E) : untouched (A := A) (raise e).
Proof. by intros w. Qed.

Lemma untouched_of_result (r : result E A) : untouched (of_result r).
Proof. by intros w. Qed.

Lemma untouched_reads (g : W -> A) : untouched (E := E) (reads g).
Proof. by intros w. Qed.

Lemma untouched_bind {B} (p : Prog W E B) (k : B -> Prog W E A) :
  untouched p -> (forall b, untouched (k b)) -> untouched (p ≫= k).
Proof.
  intros Hp Hk w. unfold mbind, prog_bind. pose proof (Hp w) as Hw. destruct (p w) as [[b|e] w1]; [|done]. cbn in Hw. by rewrite (Hk b w1).
Qed.

Lemma untouched_attempt (p : Prog W E A) : untouched p -> untouched (E := E) (attempt p).
Proof. intros Hp w. unfold attempt. pose proof (Hp w). by destruct (p w). Qed.

Lemma untouched_ignore (p : Prog W E A) : untouched p -> untouched (E := E) (ignore p).
Proof. intros Hp w. apply Hp. Qed.

Lemma untouched_map_error {E'} (g : E -> E') (p : Prog W E A) : untouched p -> untouched (map_error g p).
Proof. intros Hp w. unfold map_error. pose proof (Hp w). by destruct (p w) as [[|]]. Qed.

Lemma untouched_when b (p : Prog W E unit) : untouched p -> untouched (when b p).
Proof. by destruct b. Qed.

Lemma untouched_outcome (g : W -> A * W) : (forall w, f (g w).2 = f w) -> untouched (E := E) (outcome g).
Proof. intros Hg w. unfold outcome. pose proof (Hg w). by destruct (g w). Qed.

Lemma untouched_act {X} (wrap : X -> E) (g : W -> option X * W) : (forall w, f (g w).2 = f w) -> untouched (act wrap g).
Proof. intros Hg w. unfold act. pose proof (Hg w). by destruct (g w) as [[|]]. Qed.

End Untouched.

Create HintDb untouched.
#[export] Hint Resolve untouched_ret untouched_raise untouched_of_result untouched_reads untouched_attempt untouched_ignore
  untouched_map_error untouched_when untouched_outcome untouched_act : untouched.

(** Goes through the steps of a program; what it calls is in the database. *)
Ltac untouched_steps :=
  repeat first
    [ solve [eauto with untouched]
    | match goal with
      | |- untouched _ (mbind _ _) => apply untouched_bind; [|intros ?]
      | |- untouched _ (map_error _ _) => apply untouched_map_error
      | |- untouched _ (attempt _) => apply untouched_attempt
      | |- untouched _ (ignore _) => apply untouched_ignore
      | |- untouched _ (when _ _) => apply untouched_when
      end
    | case_match ].
