(* ===== verification/ManagedSwitch.v ===== *)
(** * Switching the live route

    [tryManagedNodeSelection] of [app/service.go] and what [applyNodeSelection]
    records when it fails, [activateManagedDirect] and [shouldFailOpenDirect] of
    [app/auto.go], and [CleanupManagedOutbounds].

    The program runs against the interface [ManagedBackend] and a [Router]: the
    state file and the checks of the service.  [settled_world] says what each
    of them leaves alone. *)
From S2P Require Import Prelude GoStrings GoNum Domain Zapret Settings Connection Migrations.

From S2P Require Import PersistFacts AutoState AutoSelect Reserves XrayConfig XrayFacts.
From S2P Require Import ManagedBackend Scheduler.

Local Open Scope Z_scope.
Local Open Scope list_scope.

Class Router (W : Type) := {
  save_state : RuntimeState -> W -> option string * W;      (** [saveState] *)
  load_state : W -> result string RuntimeState;             (** [store.LoadState] *)
  verify : Z -> string -> W -> option string * W;           (** [probeManagedOutbound] *)
  confirmation_delay : W -> option string * W;              (** [sleepWithContext] *)
  egress : W -> option string * W;                          (** [ensureBackendEgress] *)
  persist_config : ConfigRequest -> W -> option string * W  (** [PersistConfig] *)
}.

(** Only selections move the route, and only saves change the state file; a
    saved state is read back as [saveState] writes it. *)
Class RouterLaws (W : Type) `{ManagedBackend W, Router W} : Prop := {
  router_backend :: ManagedBackendLaws W;
  save_keeps_route : forall s w, selected (save_state s w).2 = selected w;
  verify_keeps_route : forall slot tag w, selected (verify slot tag w).2 = selected w;
  delay_keeps_route : forall w, selected (confirmation_delay w).2 = selected w;
  egress_keeps_route : forall w, selected (egress w).2 = selected w;
  persist_keeps_route : forall r w, selected (persist_config r w).2 = selected w;
  saved_is_loaded : forall s w w', save_state s w = (None, w') ->
    load_state w' = Ok (reload_state (settle_operational_mode s));
  select_keeps_file : forall tag w, load_state (SelectOutbound tag w).2 = load_state w;
  egress_keeps_file : forall w, load_state (egress w).2 = load_state w;
  persist_keeps_file : forall r w, load_state (persist_config r w).2 = load_state w
}.

(** Why a switch ended, in the order of the steps. *)
Inductive SwitchError : Type :=
| PinFailed (e : string)
| CandidateNotPrepared (e : string)
| RetryPaused (until_ : Time)
| CandidateNotVerified (e : string)
| ConfirmationInterrupted (e : string)
| CandidateNotConfirmed (e : string)
| IntentNotSaved (e : string)
| SwitchFailed (e : string)
| EgressFailed (e : string)
| EgressRollbackFailed (e rollback : string)
| ConfigNotPersisted (e : string)
| ConfigRollbackFailed (e rollback : string)
| ResultNotSaved (e : string)
| RenameNotPersisted (e : string).

Module SwitchInput.
Record SwitchInput : Type := mk {
  state : RuntimeState;
  subscription : string;          (** of the candidate *)
  candidate : Node;
  current : option Node;          (** the resolved active node, when its subscription lists it *)
  subscriptionKnown : bool;       (** the active subscription can be loaded *)
  resolvable : bool;              (** and the active node's address resolves *)
  skipProbe : bool;
  request : ConfigRequest;        (** [backendConfigRequest] for the candidate *)
  checkedAt : Time;               (** the clock at the backoff check *)
  now : Time;
  failedAt : Time                 (** the clock when a failed check is recorded *)
}.
End SwitchInput.
Abbreviation SwitchInput := SwitchInput.SwitchInput.

Definition direct_recovery (state : RuntimeState) : bool :=
  bool_decide (RuntimeState.OperationalMode state = OperationalModeDirect)
  && negb (bool_decide (RuntimeState.ActiveSubscriptionID state = ""))
  && negb (bool_decide (RuntimeState.ActiveNodeID state = "")).

Section Switch.
  Context `{ManagedBackend W, Router W}.

(** The tag the state names, when the backend reports it too. *)
Definition agreed_tag (state : RuntimeState) (w : W) : option string * W :=
  let tag := TrimSpace (RuntimeState.SelectedOutboundTag state) in
  let '(actual, w) := SelectedOutbound w in
  match actual with
  | Ok a => if negb (bool_decide (tag = "")) && bool_decide (a = tag) then (Some tag, w) else (None, w)
  | Err _ => (None, w)
  end.

(** The tag of the route in use, pinned in the balancer.  [Ok None]: the switch
    is not handled here. *)
Definition pin (tag : string) (w : W) : result SwitchError (option string) * W :=
  match SelectOutbound tag w with
  | (None, w) => (Ok (Some tag), w)
  | (Some e, w) => (Err (PinFailed e), w)
  end.

Definition current_route (i : SwitchInput) (w : W) : result SwitchError (option string) * W :=
  let state := SwitchInput.state i in
  if direct_recovery state
  then match SelectDirect w with
       | (None, w) => (Ok (Some managedDirectTag), w)
       | (Some _, w) => (Ok None, w)
       end
  else if bool_decide (RuntimeState.ActiveConnectionKind state = "amneziawg")
  then let '(tag, w) := agreed_tag state w in (Ok tag, w)
  else if negb (SwitchInput.subscriptionKnown i) then (Ok None, w)
  else match SwitchInput.current i with
  | None =>
    let '(tag, w) := agreed_tag state w in
    match tag with None => (Ok None, w) | Some tag => pin tag w end
  | Some node =>
    if negb (SwitchInput.resolvable i) then (Ok None, w)
    else match PrepareOutbound node 0 w with
    | (Err _, w) => (Ok None, w)
    | (Ok tag, w) => pin tag w
    end
  end.

(** The backoff of a candidate after one more failure. *)
Definition backoff_failure (backoff : gmap string CandidateBackoffState) (tag : string) (now : Time)
    : gmap string CandidateBackoffState :=
  let entry := default CandidateBackoffState.zero (backoff !! tag) in
  let failures := wrap64 (CandidateBackoffState.ConsecutiveFailures entry + 1) in
  <[tag := CandidateBackoffState.mk tag failures (Add now (managedCandidateBackoff failures))]> backoff.

Definition recordManagedCandidateFailure (now : Time) (tag : string) (w : W) : W :=
  match load_state w with
  | Err _ => w
  | Ok state => (save_state (state <| RuntimeState.CandidateBackoff ::= fun b => backoff_failure b tag now |>) w).2
  end.

(** One check of the candidate; a failure backs it off and removes it. *)
Definition check_candidate (now : Time) (tag : string) (failed : string -> SwitchError)
    (w : W) : option SwitchError * W :=
  match verify 0 tag w with
  | (None, w) => (None, w)
  | (Some e, w) =>
    let w := recordManagedCandidateFailure now tag w in
    let '(_, w) := RemoveOutbound tag w in
    (Some (failed e), w)
  end.

(** The checks before anything moves: one, and in a recovery from the direct
    route a second one after a delay. *)
Definition check_before (i : SwitchInput) (tag : string) (w : W)
    : option SwitchError * W :=
  let recovery := direct_recovery (SwitchInput.state i) in
  let '(first, w) :=
    if negb (SwitchInput.skipProbe i) || recovery
    then check_candidate (SwitchInput.failedAt i) tag CandidateNotVerified w else (None, w) in
  match first with
  | Some e => (Some e, w)
  | None =>
    if recovery
    then match confirmation_delay w with
         | (Some e, w) => (Some (ConfirmationInterrupted e), w)
         | (None, w) => check_candidate (SwitchInput.failedAt i) tag CandidateNotConfirmed w
         end
    else (None, w)
  end.

Definition outbound_entry (tag subscription node role : string) (verifiedAt retireAfter removeBy : Time)
    : RuntimeOutboundState :=
  RuntimeOutboundState.mk tag subscription node role verifiedAt (S754_zero false) 0 "" 0 retireAfter removeBy.

(** The state saved before the route moves. *)
Definition switch_intent (i : SwitchInput) (from to : string) : RuntimeState :=
  let state := SwitchInput.state i in
  let outbounds := RuntimeState.RuntimeOutbounds state in
  let outbounds :=
    if bool_decide (from = managedDirectTag) then outbounds
    else updateRuntimeOutbound outbounds
           (outbound_entry from (RuntimeState.ActiveSubscriptionID state) (RuntimeState.ActiveNodeID state)
              role_active zero_time zero_time zero_time) in
  let outbounds := updateRuntimeOutbound outbounds
    (outbound_entry to (SwitchInput.subscription i) (Node.ID (SwitchInput.candidate i)) role_reserve
       (SwitchInput.now i) zero_time zero_time) in
  state <| RuntimeState.CandidateBackoff ::= delete to |>
        <| RuntimeState.RuntimeOutbounds := outbounds |>
        <| RuntimeState.OperationalMode := OperationalModeRecovering |>
        <| RuntimeState.RuntimeConfigGeneration ::= fun g => wrap64 (g + 1) |>
        <| RuntimeState.CurrentOperation := Some (RuntimeOperation.mk "switch_outbound" from to (SwitchInput.now i)) |>.

(** The state saved after it. *)
Definition switch_result (i : SwitchInput) (from to : string) : RuntimeState :=
  let state := SwitchInput.state i in
  let now := SwitchInput.now i in
  let intent := switch_intent i from to in
  let outbounds := RuntimeState.RuntimeOutbounds intent in
  let outbounds :=
    if bool_decide (from = managedDirectTag) then outbounds
    else updateRuntimeOutbound outbounds
           (outbound_entry from (RuntimeState.ActiveSubscriptionID state) (RuntimeState.ActiveNodeID state)
              role_draining zero_time (Add now (5 * Minute)) (Add now (30 * Minute))) in
  intent <| RuntimeState.RuntimeOutbounds :=
    updateRuntimeOutbound outbounds
      (outbound_entry to (SwitchInput.subscription i) (Node.ID (SwitchInput.candidate i)) role_active
         now zero_time zero_time) |>.

(** The steps from the saved intent to the saved result. *)
Definition move_route (i : SwitchInput) (from to : string) (w : W) : option SwitchError * W :=
  match save_state (switch_intent i from to) w with
  | (Some e, w) => (Some (IntentNotSaved e), w)
  | (None, w) =>
    match SelectOutbound to w with
    | (Some e, w) => (Some (SwitchFailed e), w)
    | (None, w) =>
      match egress w with
      | (Some e, w) =>
        match SelectOutbound from w with
        | (Some r, w) => (Some (EgressRollbackFailed e r), w)
        | (None, w) => (Some (EgressFailed e), w)
        end
      | (None, w) =>
        match persist_config (SwitchInput.request i) w with
        | (Some e, w) =>
          match SelectOutbound from w with
          | (Some r, w) => (Some (ConfigRollbackFailed e r), w)
          | (None, w) => (Some (ConfigNotPersisted e), w)
          end
        | (None, w) =>
          match save_state (switch_result i from to) w with
          | (Some e, w) => let '(_, w) := SelectOutbound from w in (Some (ResultNotSaved e), w)
          | (None, w) => (None, w)
          end
        end
      end
    end
  end.

(** Whether the switch was handled here, and how it ended. *)
Definition tryManagedNodeSelection (i : SwitchInput) (w : W)
    : bool * option SwitchError * W :=
  let state := SwitchInput.state i in
  if (negb (RuntimeState.Connected state) && negb (direct_recovery state))
     || bool_decide (RuntimeState.ActiveSubscriptionID state = "")
     || bool_decide (RuntimeState.ActiveNodeID state = "")
  then (false, None, w)
  else
    match current_route i w with
    | (Err e, w) => (true, Some e, w)
    | (Ok None, w) => (false, None, w)
    | (Ok (Some from), w) =>
      match PrepareOutbound (SwitchInput.candidate i) 0 w with
      | (Err e, w) => (true, Some (CandidateNotPrepared e), w)
      | (Ok to, w) =>
        let paused :=
          match RuntimeState.CandidateBackoff state !! to with
          | Some b => Before (SwitchInput.checkedAt i) (CandidateBackoffState.RetryAfter b)
          | None => false
          end in
        if paused
        then (true, Some (RetryPaused (match RuntimeState.CandidateBackoff state !! to with
               | Some b => CandidateBackoffState.RetryAfter b | None => zero_time end)), w)
        else if bool_decide (to = from)
        then match persist_config (SwitchInput.request i) w with
             | (Some e, w) => (true, Some (RenameNotPersisted e), w)
             | (None, w) => (true, None, w)
             end
        else match check_before i to w with
             | (Some e, w) => (true, Some e, w)
             | (None, w) => let '(r, w) := move_route i from to w in (true, r, w)
             end
      end
    end.

End Switch.

(** ** What a failure leaves *)

(** [applyNodeSelection] after a handled failure: the state it preserves and the
    one that [persistPreservedConnection] saves, when the route is complete. *)
Definition preserved_state (state latest : RuntimeState) : RuntimeState :=
  latest <| RuntimeState.ActiveSubscriptionID := RuntimeState.ActiveSubscriptionID state |>
         <| RuntimeState.ActiveNodeID := RuntimeState.ActiveNodeID state |>
         <| RuntimeState.ActiveNodeName := RuntimeState.ActiveNodeName state |>
         <| RuntimeState.Mode := RuntimeState.Mode state |>
         <| RuntimeState.ActiveTransport := RuntimeState.ActiveTransport state |>
         <| RuntimeState.CurrentOperation := None |>
         <| RuntimeState.OperationalMode := OperationalModeVPN |>.

Definition incomplete (state : RuntimeState) : bool :=
  bool_decide (TrimSpace (RuntimeState.ActiveSubscriptionID state) = "")
  || bool_decide (TrimSpace (RuntimeState.ActiveNodeID state) = "").

Definition preserved_connection (state : RuntimeState) (reason : string) : RuntimeState :=
  state <| RuntimeState.Connected := true |> <| RuntimeState.LastFailureReason := reason |>.

Definition persistPreservedConnection (state : RuntimeState) (reason : string) : option RuntimeState :=
  if incomplete state then None else Some (settle_operational_mode (preserved_connection state reason)).

(** The state file after [applyNodeSelection] failed with a handled error:
    [state] is the one it loaded at the start, [latest] the one on file now. *)
Definition failed_selection_state (state latest : RuntimeState) (reason : string) : option RuntimeState :=
  let state := state <| RuntimeState.ActiveTransport := effectiveActiveTransport state |> in
  persistPreservedConnection (preserved_state state latest) reason.

(** ** The direct route *)

Definition shouldFailOpenDirect (state : RuntimeState) (failureReason : string) : bool :=
  negb (RuntimeState.Connected state
        && bool_decide (RuntimeState.OperationalMode state = OperationalModeVPN)
        && HasPrefix failureReason activeGETFailureReasonPrefix).

Definition retire_active (now : Time) (o : RuntimeOutboundState) : RuntimeOutboundState :=
  if bool_decide (RuntimeOutboundState.Role o = role_active)
  then o <| RuntimeOutboundState.Role := role_draining |>
         <| RuntimeOutboundState.RetireAfter := Add now (5 * Minute) |>
         <| RuntimeOutboundState.RemoveBy := Add now (30 * Minute) |>
  else o.

Definition default_reason (reason : string) : string :=
  if bool_decide (reason = "") then "no healthy VPN server is available" else reason.

(** The intent and the final state of [activateManagedDirect]; what its errors say
    about the step that failed is left out. *)
Definition direct_intent (state : RuntimeState) (startedAt : Time) : RuntimeState :=
  state <| RuntimeState.OperationalMode := OperationalModeRecovering |>
        <| RuntimeState.RuntimeConfigGeneration ::= fun g => wrap64 (g + 1) |>
        <| RuntimeState.CurrentOperation := Some (RuntimeOperation.mk "fail_open"
             (RuntimeState.SelectedOutboundTag state) "fastlane-direct" startedAt) |>.

Definition direct_state (state : RuntimeState) (reason : string) (now : Time) : RuntimeState :=
  state <| RuntimeState.OperationalMode := OperationalModeDirect |>
        <| RuntimeState.SelectedOutboundTag := "fastlane-direct" |>
        <| RuntimeState.CurrentOperation := None |>
        <| RuntimeState.RuntimeConfigGeneration ::= fun g => wrap64 (g + 1) |>
        <| RuntimeState.RuntimeOutbounds ::= fun l => retire_active now <$> l |>
        <| RuntimeState.Connected := false |>
        <| RuntimeState.ActiveTransport := TransportModeDirect |>
        <| RuntimeState.LastTransportSwitchAt := now |>
        <| RuntimeState.LastTransportFailureReason := default_reason reason |>
        <| RuntimeState.LastFailureReason := default_reason reason |>
        <| RuntimeState.LastSwitchAt := now |>
        <| RuntimeState.LastSwitchReason := "VPN unavailable; switched to direct" |>.

Section Direct.
  Context `{ManagedBackend W, Router W}.

(** [persistManagedDirectConfig] is [persist_config] of a request that starts
    direct; [request] is an error when it cannot be built. *)
Definition activateManagedDirect (request : result string ConfigRequest) (state : RuntimeState)
    (reason : string) (startedAt now : Time) (w : W) : option string * W :=
  let from := RuntimeState.SelectedOutboundTag state in
  let unset := state <| RuntimeState.CurrentOperation := None |> in
  match save_state (direct_intent state startedAt) w with
  | (Some e, w) => (Some e, w)
  | (None, w) =>
    match SelectDirect w with
    | (Some e, w) => let '(_, w) := save_state unset w in (Some e, w)
    | (None, w) =>
      let '(persisted, w) :=
        match request with
        | Err e => (Some e, w)
        | Ok r => persist_config (r <| ConfigRequest.StartDirect := true |>) w
        end in
      match persisted with
      | Some e =>
        let w := if bool_decide (from = "") then w else (SelectOutbound from w).2 in
        let '(_, w) := save_state unset w in (Some e, w)
      | None => save_state (direct_state state reason now) w
      end
    end
  end.

(** ** Cleaning up *)

Definition cleanup_protected (state : RuntimeState) (selected tag : string) : bool :=
  bool_decide (tag = selected) ||
  match RuntimeState.CurrentOperation state with
  | Some op => bool_decide (tag = RuntimeOperation.From op) || bool_decide (tag = RuntimeOperation.To op)
  | None => false
  end.

Definition cleanup_outbound (state : RuntimeState) (selected : string) (now : Time)
    (acc : list RuntimeOutboundState * bool * W) (o : RuntimeOutboundState)
    : list RuntimeOutboundState * bool * W :=
  let '(kept, changed, w) := acc in
  if negb (bool_decide (RuntimeOutboundState.Role o = role_draining))
     || IsZero (RuntimeOutboundState.RetireAfter o)
     || Before now (RuntimeOutboundState.RetireAfter o)
     || cleanup_protected state selected (RuntimeOutboundState.Tag o)
  then (kept ++ [o], changed, w)
  else match RemoveOutbound (RuntimeOutboundState.Tag o) w with
       | (Some _, w) => (kept ++ [o], changed, w)
       | (None, w) => (kept, true, w)
       end.

Definition CleanupManagedOutbounds (now : Time) (w : W) : option string * W :=
  match load_state w with
  | Err e => (Some e, w)
  | Ok state =>
    match SelectedOutbound w with
    | (Err _, w) => (None, w)
    | (Ok selected, w) =>
      let '(kept, changed, w) :=
        foldl (cleanup_outbound state selected now) ([], false, w) (RuntimeState.RuntimeOutbounds state) in
      if changed then save_state (state <| RuntimeState.RuntimeOutbounds := kept |>) w else (None, w)
    end
  end.

End Direct.
