(* ===== verification/ManagedSwitchFacts.v ===== *)
(** * Switching the live route: theorems

    A handled switch ends on the candidate or back on the route it started
    from, unless the backend refuses a selection; what it leaves in the state file when it fails; and what the
    program believes after a failed attempt to leave the direct route. *)
From S2P Require Import Prelude GoStrings GoNum Domain Zapret Settings Connection Migrations.

From S2P Require Import PersistFacts Probe AutoState AutoSelect Reserves ReservesFacts XrayConfig.
From S2P Require Import XrayFacts ManagedBackend Scheduler.
From S2P Require Import ManagedSwitch.

Local Open Scope Z_scope.
Local Open Scope list_scope.

(** The error leaves the route where the switch found it. *)
Definition route_restored (e : SwitchError) : bool :=
  match e with
  | PinFailed _ | SwitchFailed _ | EgressRollbackFailed _ _ | ConfigRollbackFailed _ _ | ResultNotSaved _ => false
  | _ => true
  end.

(** The error came after the intent was saved. *)
Definition after_intent (e : SwitchError) : bool :=
  match e with
  | SwitchFailed _ | EgressFailed _ | EgressRollbackFailed _ _ | ConfigNotPersisted _ | ConfigRollbackFailed _ _ => true
  | _ => false
  end.

Section Switch.
  Context `{RouterLaws W}.

(** The last thing that happened was a selection that the backend refused. *)
Definition selection_refused (w : W) : Prop := exists tag w0 x, SelectOutbound tag w0 = (Some x, w).

Lemma selected_read w a w' : SelectedOutbound w = (Ok a, w') -> selected w' = Some a.
Proof.
  intros E. pose proof (select_pure w) as Hp. rewrite E in Hp. cbn [snd] in Hp. rewrite Hp.
  unfold selected. by rewrite E.
Qed.

Lemma agreed_tag_selected state w tag w' : agreed_tag state w = (Some tag, w') -> selected w' = Some tag.
Proof.
  unfold agreed_tag. destruct (SelectedOutbound w) as [[a|e] w1] eqn:E; [|done].
  destruct (negb _); [|done]. cbn [andb].
  destruct (bool_decide_reflect (a = TrimSpace (RuntimeState.SelectedOutboundTag state))) as [->|]; [|done].
  intros [= <- <-]. by apply selected_read in E.
Qed.

Lemma pin_selected tag w t w' : pin tag w = (Ok (Some t), w') -> selected w' = Some t.
Proof.
  unfold pin. destruct (SelectOutbound tag w) as [[e|] w1] eqn:E; [done|]. intros [= <- <-].
  by apply select_ok in E.
Qed.

Lemma current_route_selected i w from w' :
  current_route i w = (Ok (Some from), w') -> selected w' = Some from.
Proof.
  unfold current_route. destruct (direct_recovery _).
  { unfold SelectDirect. destruct (SelectOutbound managedDirectTag w) as [[e|] w1] eqn:E; [done|].
    intros [= <- <-]. by apply select_ok in E. }
  destruct (bool_decide _).
  { destruct (agreed_tag _ w) as [t w1] eqn:E. intros [= -> ->]. by apply agreed_tag_selected in E. }
  destruct (negb _); [done|]. destruct (SwitchInput.current i) as [node|].
  - destruct (negb _); [done|]. destruct (PrepareOutbound node 0 w) as [[t|e] w1]; [|done]. apply pin_selected.
  - destruct (agreed_tag _ w) as [[t|] w1]; [|done]. apply pin_selected.
Qed.

(** Errors of the first steps. *)
Lemma pin_error tag w e w' : pin tag w = (Err e, w') -> exists x, e = PinFailed x.
Proof. unfold pin. destruct (SelectOutbound tag w) as [[x|] w1]; [|done]. intros [= <- _]. by exists x. Qed.

Lemma pin_refused tag w e w' : pin tag w = (Err e, w') -> selection_refused w'.
Proof. unfold pin. destruct (SelectOutbound tag w) as [[x|] w1] eqn:E; [|done]. intros [= _ <-]. by exists tag, w, x. Qed.

Lemma current_route_refused i w e w' : current_route i w = (Err e, w') -> selection_refused w'.
Proof.
  unfold current_route. destruct (direct_recovery _); [by destruct (SelectDirect w) as [[?|] ?]|].
  destruct (bool_decide _); [by destruct (agreed_tag _ w)|].
  destruct (negb _); [done|]. destruct (SwitchInput.current i) as [node|].
  - destruct (negb _); [done|]. destruct (PrepareOutbound node 0 w) as [[t|x] w1]; [|done]. apply pin_refused.
  - destruct (agreed_tag _ w) as [[t|] w1]; [|done]. apply pin_refused.
Qed.

Lemma current_route_error i w e w' : current_route i w = (Err e, w') -> exists x, e = PinFailed x.
Proof.
  unfold current_route. destruct (direct_recovery _); [by destruct (SelectDirect w) as [[?|] ?]|].
  destruct (bool_decide _); [by destruct (agreed_tag _ w)|].
  destruct (negb _); [done|]. destruct (SwitchInput.current i) as [node|].
  - destruct (negb _); [done|]. destruct (PrepareOutbound node 0 w) as [[t|x] w1]; [|done]. apply pin_error.
  - destruct (agreed_tag _ w) as [[t|] w1]; [|done]. apply pin_error.
Qed.

Lemma record_failure_route now tag w : selected (recordManagedCandidateFailure now tag w) = selected w.
Proof. unfold recordManagedCandidateFailure. destruct (load_state w); [apply save_keeps_route|done]. Qed.

(** A check leaves the route alone, and passes only on a good answer. *)
Lemma check_candidate_route now tag failed w r w' :
  check_candidate now tag failed w = (r, w') ->
  selected w' = selected w /\ (r = None -> (verify 0 tag w).1 = None) /\ (forall e, r = Some e -> exists x, e = failed x).
Proof.
  unfold check_candidate. pose proof (verify_keeps_route 0 tag w) as Hv.
  destruct (verify 0 tag w) as [[x|] w1]; cbn [snd] in Hv.
  - pose proof (remove_keeps tag (recordManagedCandidateFailure now tag w1)) as Hr.
    destruct (RemoveOutbound tag _) as [y w2]. cbn [snd] in Hr. intros [= <- <-].
    rewrite Hr, record_failure_route, Hv. split; [done|]. split; [done|]. intros e [= <-]. by exists x.
  - intros [= <- <-]. done.
Qed.

Lemma check_before_route i tag w r w' :
  check_before i tag w = (r, w') ->
  selected w' = selected w /\
  (forall e, r = Some e -> route_restored e = true /\ after_intent e = false) /\
  (r = None -> SwitchInput.skipProbe i = false \/ direct_recovery (SwitchInput.state i) = true ->
   exists w1, (verify 0 tag w1).1 = None) /\
  (r = None -> direct_recovery (SwitchInput.state i) = true ->
   exists w1 w2 w3, verify 0 tag w1 = (None, w2) /\ confirmation_delay w2 = (None, w3) /\ (verify 0 tag w3).1 = None).
Proof.
  unfold check_before. cbv zeta.
  set (first := if negb (SwitchInput.skipProbe i) || direct_recovery (SwitchInput.state i)
    then check_candidate (SwitchInput.failedAt i) tag CandidateNotVerified w else (None, w)).
  assert (Hf : selected first.2 = selected w /\
    (forall e, first.1 = Some e -> route_restored e = true /\ after_intent e = false) /\
    (first.1 = None -> SwitchInput.skipProbe i = false \/ direct_recovery (SwitchInput.state i) = true ->
      verify 0 tag w = (None, first.2))).
  { unfold first. destruct (negb _ || _) eqn:Eb; cbn [fst snd].
    - destruct (check_candidate _ tag CandidateNotVerified w) as [x w1] eqn:E. cbn [fst snd].
      pose proof (check_candidate_route _ _ _ _ _ _ E) as (K1 & K2 & K3). split; [done|]. split.
      + intros e ->. destruct (K3 e eq_refl) as [y ->]. done.
      + intros -> _. unfold check_candidate in E. destruct (verify 0 tag w) as [[y|] w2].
        * by destruct (RemoveOutbound _ _).
        * by injection E as ->.
    - split; [done|]. split; [done|]. intros _ [Hs|Hd].
      + by rewrite Hs in Eb.
      + rewrite Hd, orb_true_r in Eb. done. }
  destruct first as [[e|] w1]; cbn [fst snd] in Hf; destruct Hf as (K1 & K2 & K3).
  { intros [= <- <-]. split; [done|]. split; [|done]. intros e' [= <-]. by apply K2. }
  destruct (direct_recovery (SwitchInput.state i)) eqn:Ed.
  - pose proof (K3 eq_refl (or_intror eq_refl)) as Hv. pose proof (delay_keeps_route w1) as Hd.
    destruct (confirmation_delay w1) as [[e|] w2] eqn:Ec; cbn [snd] in Hd.
    + intros [= <- <-]. rewrite Hd. split; [done|]. split; [|done]. by intros e' [= <-].
    + intros E. pose proof (check_candidate_route _ _ _ _ _ _ E) as (G1 & G2 & G3). rewrite G1, Hd.
      split; [done|]. split; [intros e He; destruct (G3 e He) as [y ->]; done|].
      split; [intros _ _; exists w; by rewrite Hv|]. intros Hr _. exists w, w1, w2. split; [done|]. split; [done|]. by apply G2.
  - intros [= <- <-]. split; [done|]. split; [done|]. split; [|done].
    intros _ Hs. exists w. by rewrite (K3 eq_refl Hs).
Qed.

(** The file as a save of [s] leaves it. *)
Definition on_file (w : W) (s : RuntimeState) : Prop :=
  load_state w = Ok (reload_state (settle_operational_mode s)).

Lemma on_file_select w s tag w' x : on_file w s -> SelectOutbound tag w = (x, w') -> on_file w' s.
Proof.
  unfold on_file. intros Hf E. pose proof (select_keeps_file tag w) as Hk. rewrite E in Hk. cbn [snd] in Hk.
  by rewrite Hk.
Qed.

(** The steps from the intent on: where the route ends, and what is on file. *)
Lemma move_route_spec i from to w r w' :
  selected w = Some from -> move_route i from to w = (r, w') ->
  match r with
  | None => selected w' = Some to /\ on_file w' (switch_result i from to)
  | Some e =>
    (route_restored e = true -> selected w' = Some from) /\
    (after_intent e = true -> on_file w' (switch_intent i from to))
  end.
Proof.
  intros Hsel. unfold move_route.
  destruct (save_state (switch_intent i from to) w) as [[e|] w1] eqn:E1.
  { intros [= <- <-]. pose proof (save_keeps_route (switch_intent i from to) w) as Hk. rewrite E1 in Hk.
    cbn [snd] in Hk. by rewrite Hk. }
  assert (F1 : on_file w1 (switch_intent i from to)) by (by apply saved_is_loaded in E1).
  destruct (SelectOutbound to w1) as [[e|] w2] eqn:E2.
  { intros [= <- <-]. split; [done|]. intros _. by eapply on_file_select. }
  pose proof (select_ok _ _ _ E2) as S2. pose proof (on_file_select _ _ _ _ _ F1 E2) as F2.
  pose proof (egress_keeps_route w2) as Ke. pose proof (egress_keeps_file w2) as Kf.
  destruct (egress w2) as [[e|] w3]; cbn [snd] in Ke, Kf.
  { assert (F3 : on_file w3 (switch_intent i from to)) by (unfold on_file; by rewrite Kf).
    destruct (SelectOutbound from w3) as [[r0|] w4] eqn:E4; intros [= <- <-]; (split; [|intros _; by eapply on_file_select]).
    - done.
    - intros _. by apply select_ok in E4. }
  assert (F3 : on_file w3 (switch_intent i from to)) by (unfold on_file; by rewrite Kf).
  pose proof (persist_keeps_route (SwitchInput.request i) w3) as Kp.
  pose proof (persist_keeps_file (SwitchInput.request i) w3) as Kpf.
  destruct (persist_config (SwitchInput.request i) w3) as [[e|] w4]; cbn [snd] in Kp, Kpf.
  { assert (F4 : on_file w4 (switch_intent i from to)) by (unfold on_file; by rewrite Kpf).
    destruct (SelectOutbound from w4) as [[r0|] w5] eqn:E5; intros [= <- <-]; (split; [|intros _; by eapply on_file_select]).
    - done.
    - intros _. by apply select_ok in E5. }
  destruct (save_state (switch_result i from to) w4) as [[e|] w5] eqn:E5.
  { destruct (SelectOutbound from w5) as [y w6]. intros [= <- <-]. done. }
  intros [= <- <-]. split; [|by apply saved_is_loaded in E5].
  pose proof (save_keeps_route (switch_result i from to) w4) as Ks. rewrite E5 in Ks. cbn [snd] in Ks.
  by rewrite Ks, Kp, Ke.
Qed.

(** A move that fails ends on the route it left, unless the backend refused the
    last selection: the one of the candidate or the one back. *)
Lemma move_route_failed i from to w e w' :
  selected w = Some from -> move_route i from to w = (Some e, w') ->
  selected w' = Some from \/ selection_refused w'.
Proof.
  intros Hsel. unfold move_route.
  destruct (save_state (switch_intent i from to) w) as [[x|] w1] eqn:E1.
  { intros [= _ <-]. left. pose proof (save_keeps_route (switch_intent i from to) w) as Hk. by rewrite E1, Hsel in Hk. }
  destruct (SelectOutbound to w1) as [[x|] w2] eqn:E2; [intros [= _ <-]; right; by exists to, w1, x|].
  assert (Hback : forall w3 r w4, SelectOutbound from w3 = (r, w4) -> selected w4 = Some from \/ selection_refused w4).
  { intros w3 [x|] w4 E; [right; by exists from, w3, x|left; by apply select_ok in E]. }
  destruct (egress w2) as [[x|] w3].
  { destruct (SelectOutbound from w3) as [[r|] w4] eqn:E; intros [= _ <-]; by eapply Hback. }
  destruct (persist_config _ w3) as [[x|] w4].
  { destruct (SelectOutbound from w4) as [[r|] w5] eqn:E; intros [= _ <-]; by eapply Hback. }
  destruct (save_state _ w4) as [[x|] w5]; [|done].
  destruct (SelectOutbound from w5) as [r w6] eqn:E. intros [= _ <-]. by eapply Hback.
Qed.

(** How a handled switch went. *)
Record switch_outcome (i : SwitchInput) (from to : string) (w' : W) (err : option SwitchError) : Prop := {
  out_success : err = None -> selected w' = Some to;
  out_failure : forall e, err = Some e -> route_restored e = true -> selected w' = Some from;
  out_refused : err <> None -> selected w' = Some from \/ selection_refused w';
  out_verified : err = None -> to <> from ->
    SwitchInput.skipProbe i = false \/ direct_recovery (SwitchInput.state i) = true ->
    exists w1, (verify 0 to w1).1 = None;
  out_confirmed : err = None -> to <> from -> direct_recovery (SwitchInput.state i) = true ->
    exists w1 w2 w3, verify 0 to w1 = (None, w2) /\ confirmation_delay w2 = (None, w3) /\ (verify 0 to w3).1 = None;
  out_result : err = None -> to <> from -> on_file w' (switch_result i from to);
  out_intent : forall e, err = Some e -> after_intent e = true -> on_file w' (switch_intent i from to)
}.

Lemma tryManaged_outcome i w err w' :
  tryManagedNodeSelection i w = (true, err, w') ->
  (exists e, err = Some (PinFailed e) /\ selection_refused w') \/
  (exists from w1, current_route i w = (Ok (Some from), w1) /\
    ((exists e, err = Some (CandidateNotPrepared e) /\ selected w' = Some from) \/
     (exists to, (exists w2, PrepareOutbound (SwitchInput.candidate i) 0 w1 = (Ok to, w2)) /\
        switch_outcome i from to w' err))).
Proof.
  unfold tryManagedNodeSelection. destruct (_ || _ || _); [done|].
  destruct (current_route i w) as [[[from|]|e] w1] eqn:Ec; [|done|].
  2: { intros [= <- <-]. left. pose proof (current_route_refused _ _ _ _ Ec) as Hr.
     apply current_route_error in Ec as [x ->]. by exists x. }
  intros Hrun. right. exists from, w1. split; [done|].
  pose proof (current_route_selected _ _ _ _ Ec) as Hsel.
  pose proof (prepare_keeps (SwitchInput.candidate i) 0 w1) as Hp.
  destruct (PrepareOutbound (SwitchInput.candidate i) 0 w1) as [[to|e] w2] eqn:Ep; cbn [snd] in Hp.
  2: { injection Hrun as <- <-. left. exists e. by rewrite Hp. }
  right. exists to. split; [by exists w2|]. cbv zeta in Hrun.
  match type of Hrun with context [if ?b then _ else _] => destruct b end.
  { injection Hrun as <- <-. split; try done; [intros e [= <-]; by rewrite Hp|intros _; left; by rewrite Hp|intros e [= <-]; done]. }
  destruct (bool_decide_reflect (to = from)) as [->|Hne].
  { pose proof (persist_keeps_route (SwitchInput.request i) w2) as Kp.
    destruct (persist_config (SwitchInput.request i) w2) as [[e|] w3]; cbn [snd] in Kp; injection Hrun as <- <-;
      split; try done; [intros e' [= <-] _|intros _; left|intros e' [= <-]|intros _]; by rewrite ?Kp, ?Hp. }
  destruct (check_before i to w2) as [[e|] w3] eqn:Eb.
  { injection Hrun as <- <-. apply check_before_route in Eb as (K1 & K2 & _ & _).
    split; try done.
    - intros e' [= <-] _. by rewrite K1, Hp.
    - intros _. left. by rewrite K1, Hp.
    - intros e' [= <-]. by rewrite (proj2 (K2 e eq_refl)). }
  apply check_before_route in Eb as (K1 & _ & K3 & K4).
  destruct (move_route i from to w3) as [r w4] eqn:Em. injection Hrun as <- <-.
  assert (Hw3 : selected w3 = Some from) by (by rewrite K1, Hp).
  assert (Hback : r <> None -> selected w4 = Some from \/ selection_refused w4).
  { destruct r as [e|]; [intros _; by eapply move_route_failed|done]. }
  apply move_route_spec in Em; [|done]. split.
  - intros ->. apply Em.
  - intros e ->. apply Em.
  - exact Hback.
  - intros -> _. by apply K3.
  - intros -> _. by apply K4.
  - intros -> _. apply Em.
  - intros e ->. apply Em.
Qed.


End Switch.

(** ** What a failed switch leaves on file *)

Lemma update_new l next :
  RuntimeOutboundState.Tag next ∉ RuntimeOutboundState.Tag <$> l -> updateRuntimeOutbound l next = l ++ [next].
Proof.
  induction l as [|o l IH]; intros Hn; [done|]. cbn. rewrite fmap_cons, not_elem_of_cons in Hn.
  destruct Hn as [Ho Hn]. rewrite bool_decide_eq_false_2 by congruence. cbn. by rewrite IH.
Qed.

Lemma inherit_role old next : RuntimeOutboundState.Role (inherit_outbound old next) = RuntimeOutboundState.Role next.
Proof.
  unfold inherit_outbound. destruct (bool_decide _); destruct (bool_decide _); destruct (IsZero _); done.
Qed.

Lemma inherit_tag old next : RuntimeOutboundState.Tag (inherit_outbound old next) = RuntimeOutboundState.Tag next.
Proof.
  unfold inherit_outbound. destruct (bool_decide _); destruct (bool_decide _); destruct (IsZero _); done.
Qed.

Definition managed (l : list RuntimeOutboundState) : list RuntimeOutboundState :=
  filter (fun o => managed_role o = true) l.

Lemma managed_inherit old next : managed_role (inherit_outbound old next) = managed_role next.
Proof. unfold managed_role. by rewrite inherit_role. Qed.

Lemma managed_update l next :
  managed_role next = false ->
  (forall o, o ∈ l -> RuntimeOutboundState.Tag o = RuntimeOutboundState.Tag next -> managed_role o = false) ->
  managed (updateRuntimeOutbound l next) = managed l.
Proof.
  intros Hn. induction l as [|o l IH]; intros Hl; cbn [updateRuntimeOutbound]; unfold managed in *.
  - rewrite filter_cons, Hn. by rewrite decide_False.
  - destruct (bool_decide_reflect (RuntimeOutboundState.Tag o = RuntimeOutboundState.Tag next)) as [E|E].
    + rewrite !filter_cons, managed_inherit, Hn, (Hl o) by (done || by left). done.
    + rewrite !filter_cons, IH by (intros o' Ho'; apply Hl; by right). done.
Qed.

Lemma update_tags l next t :
  t ∈ RuntimeOutboundState.Tag <$> updateRuntimeOutbound l next ->
  t ∈ RuntimeOutboundState.Tag <$> l \/ t = RuntimeOutboundState.Tag next.
Proof.
  induction l as [|o l IH]; cbn; [set_solver|].
  destruct (bool_decide_reflect (RuntimeOutboundState.Tag o = RuntimeOutboundState.Tag next)) as [E|E]; cbn.
  - rewrite inherit_tag. set_solver.
  - rewrite !elem_of_cons. intros [->|Ht]; [auto|]. destruct (IH Ht); auto.
Qed.

Lemma intent_managed i from to :
  to <> from ->
  to ∉ RuntimeOutboundState.Tag <$> RuntimeState.RuntimeOutbounds (SwitchInput.state i) ->
  (forall o, o ∈ RuntimeState.RuntimeOutbounds (SwitchInput.state i) ->
     RuntimeOutboundState.Tag o = from -> managed_role o = false) ->
  managed (RuntimeState.RuntimeOutbounds (switch_intent i from to)) =
  managed (RuntimeState.RuntimeOutbounds (SwitchInput.state i)) ++
    [outbound_entry to (SwitchInput.subscription i) (Node.ID (SwitchInput.candidate i)) role_reserve
       (SwitchInput.now i) zero_time zero_time].
Proof.
  intros Hne Hto Hfrom. unfold switch_intent. unfold upd at 1 2 3 4 5. cbn [RuntimeState.RuntimeOutbounds
    RuntimeState.set_CurrentOperation RuntimeState.set_RuntimeConfigGeneration RuntimeState.set_OperationalMode
    RuntimeState.set_RuntimeOutbounds].
  assert (Happ : forall l, managed (l ++ [outbound_entry to (SwitchInput.subscription i)
      (Node.ID (SwitchInput.candidate i)) role_reserve (SwitchInput.now i) zero_time zero_time]) =
    managed l ++ [outbound_entry to (SwitchInput.subscription i)
      (Node.ID (SwitchInput.candidate i)) role_reserve (SwitchInput.now i) zero_time zero_time]).
  { intros l. unfold managed. rewrite filter_app. f_equal. }
  destruct (bool_decide (from = managedDirectTag)).
  - by rewrite update_new, Happ.
  - rewrite update_new; [rewrite Happ, managed_update; [done|done|exact Hfrom]|].
    cbn [RuntimeOutboundState.Tag outbound_entry]. intros [Hin|Hin]%update_tags; [by apply Hto|by apply Hne].
Qed.

(** A switch that fails after its intent was saved leaves the untried
    candidate in the state file as one more reserve: with two reserves before
    there are three after, one more than the order of probes can take. *)
Theorem failed_switch_adds_reserve `{RouterLaws W} i w e w' :
  tryManagedNodeSelection i w = (true, Some e, w') ->
  after_intent e = true ->
  exists from to w1 w2 state',
    current_route i w = (Ok (Some from), w1) /\
    PrepareOutbound (SwitchInput.candidate i) 0 w1 = (Ok to, w2) /\
    load_state w' = Ok state' /\
    (to <> from ->
     to ∉ RuntimeOutboundState.Tag <$> RuntimeState.RuntimeOutbounds (SwitchInput.state i) ->
     (forall o, o ∈ RuntimeState.RuntimeOutbounds (SwitchInput.state i) ->
        RuntimeOutboundState.Tag o = from -> managed_role o = false) ->
     length (managed (RuntimeState.RuntimeOutbounds state')) =
       S (length (managed (RuntimeState.RuntimeOutbounds (SwitchInput.state i))))).
Proof.
  intros Hrun He. destruct (tryManaged_outcome _ _ _ _ Hrun) as [(x & [= ->] & _)|(from & w1 & Hc & Hrest)]; [done|].
  destruct Hrest as [(x & [= ->] & _)|(to & (w2 & Hp) & O)]; [done|].
  pose proof (out_intent _ _ _ _ _ O e eq_refl He) as Hf.
  exists from, to, w1, w2. eexists. split; [exact Hc|]. split; [exact Hp|]. split; [exact Hf|].
  intros Hne Hto Hfrom.
  assert (E : RuntimeState.RuntimeOutbounds (reload_state (settle_operational_mode (switch_intent i from to))) =
    RuntimeState.RuntimeOutbounds (switch_intent i from to)) by reflexivity.
  rewrite E, intent_managed by done. rewrite length_app. cbn. lia.
Qed.
