(* ===== verification/MemoryWorld.v ===== *)
(** * A world in memory

    An Xray process that keeps its outbounds and overrides in memory, a state
    file, and checks whose answers are given: a concrete instance of
    [ManagedBackend] and [Router], on which the theorems about the live route
    are applied and the failing runs are evaluated. *)
From S2P Require Import Prelude GoStrings GoNum Domain Zapret Settings Connection Migrations.

From S2P Require Import PersistFacts Probe AutoState AutoSelect AutoSelectFacts Reserves.
From S2P Require Import ReservesFacts XrayConfig XrayFacts ManagedBackend Scheduler.
From S2P Require Import ManagedSwitch ManagedSwitchFacts.

Local Open Scope Z_scope.
Local Open Scope list_scope.

Record MemoryWorld : Type := {
  world_process : Memory;
  world_file : option RawState.RawState;
  world_verify : option string;           (** the answer of every check *)
  world_egress : option string;
  world_persist : option string
}.

Definition on_process {A} (f : Memory -> A * Memory) (w : MemoryWorld) : A * MemoryWorld :=
  let '(a, p) := f (world_process w) in
  (a, Build_MemoryWorld p (world_file w) (world_verify w) (world_egress w) (world_persist w)).

Definition world_api (cmd : ApiCommand) : MemoryWorld -> result string ApiReply * MemoryWorld :=
  on_process (memory_api cmd).

Lemma world_ok : process_ok world_api.
Proof.
  split.
  - by intros cmd w [->|[b ->]] q [->|[b' ->]].
  - intros cmd w [[o ->]|[[tag ->]|(b & tag & -> & Hb)]]; [done|done|]. cbn. by rewrite lookup_insert_ne.
Qed.

Definition stored (s : RuntimeState) : RawState.RawState :=
  SaveState (fun _ => true) (settle_operational_mode s).

#[export] Instance world_backend : ManagedBackend MemoryWorld :=
  XrayBackend world_api memory_node (fun _ => "cannot build the outbound").

#[export] Instance world_router : Router MemoryWorld := {
  save_state s w := (None, Build_MemoryWorld (world_process w) (Some (stored s))
    (world_verify w) (world_egress w) (world_persist w));
  load_state w := match LoadState (world_file w) with Ok s => Ok s | Err _ => Err "read state" end;
  verify _ _ w := (world_verify w, w);
  confirmation_delay w := (None, w);
  egress w := (world_egress w, w);
  persist_config _ w := (world_persist w, w)
}.

Lemma world_laws : RouterLaws MemoryWorld.
Proof.
  split; try (intros; reflexivity).
  - apply xray_laws, world_ok.
  - intros s w. by apply selected_main.
  - intros s w w' E. injection E as <-. cbn [load_state world_router world_file]. unfold stored.
    by rewrite load_saved_state.
  - intros tag w. cbn. unfold xray_SelectOutbound. destruct (validateManagedTag tag false); [done|]. cbn.
    destruct (bool_decide _); cbn; [done|]. by destruct (bool_decide _).
Qed.

Lemma world_prepared node mark w tag w' :
  PrepareOutbound node mark w = (Ok tag, w') -> tag = managedOutboundPrefix +:+ Node.ID node.
Proof.
  change (xray_PrepareOutbound world_api memory_node (fun _ => "cannot build the outbound") node mark w = (Ok tag, w') ->
    tag = managedOutboundPrefix +:+ Node.ID node).
  unfold xray_PrepareOutbound, memory_node. by intros [-> _]%(add_outbound_present world_api world_ok).
Qed.

(** A connection over node [a] with two reserves; [c] is the candidate. *)
Definition world_outbound (node role : string) : RuntimeOutboundState :=
  outbound_entry (managedOutboundPrefix +:+ node) "s" node role zero_time zero_time zero_time.

Definition world_state (mode : string) : RuntimeState :=
  DefaultRuntimeState <| RuntimeState.Mode := SelectionModeAuto |>
    <| RuntimeState.OperationalMode := mode |>
    <| RuntimeState.ActiveSubscriptionID := "s" |> <| RuntimeState.ActiveNodeID := "a" |>
    <| RuntimeState.Connected := bool_decide (mode = OperationalModeVPN) |>
    <| RuntimeState.ActiveTransport :=
         (if bool_decide (mode = OperationalModeVPN) then TransportModeProxy else TransportModeDirect) |>
    <| RuntimeState.SelectedOutboundTag :=
         (if bool_decide (mode = OperationalModeVPN) then managedOutboundPrefix +:+ "a" else managedDirectTag) |>
    <| RuntimeState.RuntimeOutbounds :=
         [world_outbound "a" role_active; world_outbound "b" role_reserve; world_outbound "d" role_reserve] |>.

Definition world_node (id : string) : Node := Node.zero <| Node.ID := id |>.

Definition world_request : ConfigRequest := sample_request ["8.8.8.8"].

Definition world_input (mode : string) : SwitchInput :=
  SwitchInput.mk (world_state mode) "s" (world_node "c") (Some (world_node "a")) true true false world_request
    zero_time zero_time zero_time.

Definition world_at (mode : string) (verify egress : option string) : MemoryWorld :=
  Build_MemoryWorld (Build_Memory [] {[ managedBalancerTag := managedOutboundPrefix +:+ "a" ]})
    (Some (stored (world_state mode))) verify egress None.

(** ** The theorems on this world *)


(** The candidate passes its check but the route has no egress afterwards: the
    switch is rolled back, and the candidate stays in the file as a third
    reserve. *)
Definition world_after_failure : MemoryWorld :=
  (tryManagedNodeSelection (world_input OperationalModeVPN)
     (world_at OperationalModeVPN None (Some "no egress"))).2.

Definition file_managed (w : MemoryWorld) : list RuntimeOutboundState :=
  match load_state w with Ok s => managed (RuntimeState.RuntimeOutbounds s) | Err _ => [] end.

Lemma failed_switch_adds_reserve_witness :
  (tryManagedNodeSelection (world_input OperationalModeVPN)
     (world_at OperationalModeVPN None (Some "no egress"))).1 = (true, Some (EgressFailed "no egress")) /\
  length (file_managed world_after_failure) = 3%nat.
Proof.
  assert (E1 : (tryManagedNodeSelection (world_input OperationalModeVPN)
     (world_at OperationalModeVPN None (Some "no egress"))).1 = (true, Some (EgressFailed "no egress")))
    by (vm_compute; reflexivity).
  split; [exact E1|].
  assert (E : tryManagedNodeSelection (world_input OperationalModeVPN)
     (world_at OperationalModeVPN None (Some "no egress")) =
     (true, Some (EgressFailed "no egress"), world_after_failure)).
  { unfold world_after_failure. by rewrite <- E1, <- surjective_pairing. }
  destruct (failed_switch_adds_reserve (H1 := world_laws) _ _ (EgressFailed "no egress") _ E eq_refl)
    as (from & to & w1 & w2 & state' & Hc & Hp & Hf & Hlen).
  assert (Ec : current_route (world_input OperationalModeVPN)
     (world_at OperationalModeVPN None (Some "no egress")) =
     (Ok (Some (managedOutboundPrefix +:+ "a")), w1)).
  { assert (Hr : (current_route (world_input OperationalModeVPN)
       (world_at OperationalModeVPN None (Some "no egress"))).1 = Ok (Some (managedOutboundPrefix +:+ "a")))
      by (vm_compute; reflexivity).
    rewrite Hc in Hr. cbn [fst] in Hr. injection Hr as ->. exact Hc. }
  rewrite Hc in Ec. injection Ec as ->.
  assert (Et : to = managedOutboundPrefix +:+ "c").
  { exact (world_prepared _ _ _ _ _ Hp). }
  subst to. unfold file_managed. rewrite Hf, Hlen; [reflexivity|discriminate| |].
  - apply (bool_decide_unpack _). vm_compute. exact I.
  - assert (Hall : Forall (fun o => RuntimeOutboundState.Tag o = managedOutboundPrefix +:+ "a" -> managed_role o = false)
      (RuntimeState.RuntimeOutbounds (world_state OperationalModeVPN)))
      by (apply (bool_decide_unpack _); vm_compute; exact I).
    intros o Ho. exact (proj1 (Forall_forall _ _) Hall o Ho).
Defined.

(** The next round of maintenance then panics: the three retained outbounds
    are listed by the subscription, and the slice bound is negative. *)
Example three_reserves_panic :
  let sub := sample_subscription "s" (world_node <$> ["a"; "b"; "c"; "d"]) in
  let eligible := collectManagedReserveCandidates Node.ID [sub] DefaultSettings (world_state OperationalModeVPN) zero_time in
  let existing := existingManagedReserveCandidates (file_managed world_after_failure) eligible in
  length existing = 3%nat /\ managedReserveProbeOrder existing eligible ∅ (63000000000 * Second) = None.
Proof. vm_compute. split; reflexivity. Qed.
