(* ===== verification/NodeSelection.v ===== *)
(** * Selecting a node

    [applyNodeSelection] of [app/service.go] with the failure paths it ends in,
    as a program over the interfaces of the backend, the state file and the
    managers of the router.  The backend is the managed one, and the managers of
    DNS, the firewall, IPv6 and the fallback are present.

    Readings that change nothing ([resolve], the settings, the subscriptions)
    are functions of the world; the three clock readings of a switch are taken
    when it begins. *)
From S2P Require Import Prelude GoRunes GoStrings GoNum NetIP Domain Firewall FirewallSettings.
From S2P Require Import Zapret Settings.
From S2P Require Import Connection Migrations PersistFacts Probe AutoState AutoSelect.

From S2P Require Import Reserves.
From S2P Require Import XrayConfig XrayFacts BackendRequest ManagedBackend Scheduler.
From S2P Require Import ManagedSwitch Effects.

Local Open Scope Z_scope.
Local Open Scope list_scope.

(** ** Errors *)

(** An error: its text, and whether the candidate alone is to blame. *)
Record Fault : Type := { fault_text : string; fault_retryable : bool }.

Definition fault (text : string) : Fault := Build_Fault text false.
Definition markRetryableCandidateError (e : Fault) : Fault := Build_Fault (fault_text e) true.
Definition wrap (context e : string) : Fault := fault (context +:+ ": " +:+ e).
Definition wrap_fault (context : string) (e : Fault) : Fault :=
  Build_Fault (context +:+ ": " +:+ fault_text e) (fault_retryable e).

Definition egress_reason (e : string) : string := "backend egress probe failed: " +:+ e.
Definition egress_fault (e : string) : Fault :=
  markRetryableCandidateError (fault ("check backend egress: " +:+ e)).

Definition switch_fault (rfc3339 : Time -> string) (e : SwitchError) : Fault :=
  match e with
  | PinFailed e => wrap "pin current xray outbound" e
  | CandidateNotPrepared e => wrap "prepare candidate outbound" e
  | RetryPaused t => fault ("candidate retry is paused until " +:+ rfc3339 t)
  | CandidateNotVerified e => wrap "candidate verify failed" e
  | ConfirmationInterrupted e => wrap "wait for VPN recovery confirmation" e
  | CandidateNotConfirmed e => wrap "candidate recovery confirmation failed" e
  | IntentNotSaved e => wrap "save outbound switch intent" e
  | SwitchFailed e => wrap "switch xray outbound" e
  | EgressFailed e => egress_fault e
  | EgressRollbackFailed e r => fault (egress_reason e +:+ "; rollback target: " +:+ r)
  | ConfigNotPersisted e => wrap "persist switched xray config" e
  | ConfigRollbackFailed e r => fault ("persist switched xray config: " +:+ e +:+ "; rollback target: " +:+ r)
  | ResultNotSaved e => wrap "save switched outbound state" e
  | RenameNotPersisted e => fault e
  end.

(** ** The managers *)

Module RollbackSnapshot.
Record RollbackSnapshot : Type := mk { Available : bool; Config : string }.
End RollbackSnapshot.
Abbreviation RollbackSnapshot := RollbackSnapshot.RollbackSnapshot.

Class Runtime (W : Type) := {
  load_settings : W -> result string Settings;
  load_subscriptions : W -> option (list Subscription);
  load_cached_state : W -> result string RuntimeState;     (** [loadStateWithAutoHealthCache] *)
  clock : W -> Time * W;
  switch_clock : W -> Time * Time * Time;
  system_resolvers : W -> result string (list string);
  resolve : Node -> W -> Node;                             (** [resolveNodeAddress] *)
  apply_ipv6 : W -> option string * W;
  apply_config : ConfigRequest -> W -> option string * W;
  capture_rollback : W -> result string RollbackSnapshot;
  rollback_config : RollbackSnapshot -> W -> option string * W;
  check_running : W -> option (string * string) * W;       (** [ensureBackendRunning]: reason and error *)
  stop_backend : W -> option string * W;
  dns_apply : DNSSettings -> W -> option string * W;
  dns_disable : W -> option string * W;
  firewall_apply : FirewallSettings -> W -> option string * W;
  firewall_disable : W -> option string * W;
  zapret_apply : list string -> W -> (ZapretStatus.ZapretStatus * option string) * W;
  zapret_disable : W -> option string * W;
  store_settings : Settings -> W -> option string * W
}.

Module SelectionOptions.
Record SelectionOptions : Type := mk {
  persistFailure : bool;
  rollbackOnVerificationFail : bool;
  forceStaticReload : bool;
  skipManagedProbe : bool;
  preservedState : RuntimeState
}.
End SelectionOptions.
Abbreviation SelectionOptions := SelectionOptions.SelectionOptions.

Definition selectionOptionsForState (state : RuntimeState) : SelectionOptions :=
  if RuntimeState.Connected state && negb (incomplete state)
  then SelectionOptions.mk true true false false state
  else SelectionOptions.mk true false false false DefaultRuntimeState.

(** An exact identifier, or the only one that it begins. *)
Definition subscriptionByID (subscriptions : option (list Subscription)) (id : string) : option Subscription :=
  match subscriptions with
  | None => None
  | Some subs =>
    let id := TrimSpace id in
    match List.find (fun sub => bool_decide (Subscription.ID sub = id)) subs with
    | Some sub => Some sub
    | None =>
      match filter (fun sub => HasPrefix (Subscription.ID sub) id = true) subs with
      | [sub] => Some sub
      | _ => None
      end
    end
  end.

Definition clearZapretTestState (state : RuntimeState) : RuntimeState :=
  state <| RuntimeState.ZapretTest := ZapretTestState.zero |>.

Section Selection.
  Context `{ManagedBackend W, Router W, Runtime W}.
  Context (rfc3339 : Time -> string) (url_host : string -> option (string * string)).

Abbreviation App := (Prog W Fault).

(** ** Steps *)

Definition load_state_as (context : string) : App RuntimeState := fun w =>
  match load_state w with
  | Ok s => (Ok s, w)
  | Err e => (Err (wrap context e), w)
  end.

Definition load_settings_as (context : string) : App Settings := fun w =>
  match load_settings w with
  | Ok s => (Ok s, w)
  | Err e => (Err (wrap context e), w)
  end.

Definition save_as (context : string) (state : RuntimeState) : App unit :=
  act (wrap context) (save_state state).

Definition currentTime : App Time := fun w => let '(t, w) := clock w in (Ok t, w).

Definition ensureManagedIPv6State (settings : Settings) : App unit :=
  when (FirewallSettings.DisableIPv6 (Settings.Firewall settings)) (act (wrap "apply ipv6 setting") apply_ipv6).

Definition stopProxyTransport : App unit :=
  _ ← act (wrap "disable firewall") firewall_disable;
  _ ← act (wrap "disable dns runtime") dns_disable;
  act (wrap "stop backend") stop_backend.

(** The state once a connection is marked failed. *)
Definition failed_connection (state : RuntimeState) (subscriptionID nodeID mode reason : string) (now : Time)
    : RuntimeState :=
  let transport := effectiveActiveTransport state in
  let state := state <| RuntimeState.ActiveSubscriptionID := subscriptionID |>
                     <| RuntimeState.ActiveNodeID := nodeID |>
                     <| RuntimeState.Mode := mode |>
                     <| RuntimeState.Connected := false |> in
  let state := if bool_decide (transport = TransportModeDirect) then state
               else state <| RuntimeState.LastTransportSwitchAt := now |> in
  clearZapretTestState
    (state <| RuntimeState.ActiveTransport := TransportModeDirect |>
           <| RuntimeState.LastFailureReason := reason |>
           <| RuntimeState.LastTransportFailureReason := reason |>).

Definition markConnectionFailed (subscriptionID nodeID mode reason : string) : App unit :=
  _ ← map_error (wrap_fault "disable proxy transport after backend failure") stopProxyTransport;
  _ ← act (wrap "disable zapret after backend failure") zapret_disable;
  state ← load_state_as "load state after backend failure";
  now ← currentTime;
  save_as "save state after backend failure" (failed_connection state subscriptionID nodeID mode reason now).

Definition save_preserved (state : RuntimeState) (reason : string) : App unit :=
  if incomplete state then raise (fault "preserved runtime state is incomplete")
  else save_as "save preserved state" (preserved_connection state reason).

(** These end in an error. *)
Definition handleNodeSelectionFailure {A} (sub : Subscription) (node : Node) (mode : string)
    (opts : SelectionOptions) (reason : string) (err : Fault) : App A :=
  if negb (SelectionOptions.persistFailure opts) then raise err
  else
    marked ← attempt (markConnectionFailed (Subscription.ID sub) (Node.ID node) mode reason);
    match marked with
    | Err e => raise (wrap_fault reason e)
    | Ok _ => raise err
    end.

Definition healthFailureThreshold (w : W) : Z :=
  match load_settings w with
  | Err _ => SwitchPolicy.FailureThreshold DefaultSwitchPolicy
  | Ok settings => SwitchPolicy.FailureThreshold (switchPolicyFromSettings settings)
  end.

Definition persistVerificationFailureHealth (nodeID reason : string) (threshold : Z) : App unit :=
  if bool_decide (TrimSpace nodeID = "") then mret tt
  else
    state ← (fun w => match load_cached_state w with
                      | Ok s => (Ok s, w)
                      | Err e => (Err (wrap "load state for verification failure" e), w)
                      end);
    now ← currentTime;
    save_as "save state for verification failure"
      (state <| RuntimeState.Health ::= fun h => forceHealthFailure h nodeID reason now threshold |>).

(** The health of the failed node is recorded before the connection is marked. *)
Definition verification_failed {A} (sub : Subscription) (node : Node) (mode : string) (opts : SelectionOptions)
    (threshold : Z) (reason : string) (err : Fault) : App A :=
  recorded ← attempt (persistVerificationFailureHealth (Node.ID node) reason threshold);
  match recorded with
  | Err e => raise (wrap_fault reason e)
  | Ok _ => handleNodeSelectionFailure sub node mode opts reason err
  end.

Definition handlePostApplyVerificationFailure {A} (sub : Subscription) (node : Node) (mode : string)
    (opts : SelectionOptions) (snapshot : option RollbackSnapshot) (reason : string) (err : Fault) : App A :=
  threshold ← reads healthFailureThreshold;
  match (if SelectionOptions.rollbackOnVerificationFail opts then snapshot else None) with
  | None => verification_failed sub node mode opts threshold reason err
  | Some snapshot =>
    let recovered := "candidate verify failed: " +:+ reason in
    restored ← attempt (act fault (rollback_config snapshot));
    match restored with
    | Ok _ =>
      now ← currentTime;
      let preserved := (SelectionOptions.preservedState opts)
        <| RuntimeState.Health ::= fun h => forceHealthFailure h (Node.ID node) recovered now threshold |> in
      saved ← attempt (save_preserved preserved recovered);
      match saved with
      | Err e => raise (wrap_fault recovered e)
      | Ok _ => raise (Build_Fault recovered (fault_retryable err))
      end
    | Err e =>
      let reason := recovered +:+ "; rollback failed: " +:+ fault_text e in
      verification_failed sub node mode opts threshold reason (fault reason)
    end
  end.

(** ** The live switch *)

Definition switch_input (state : RuntimeState) (sub : Subscription) (candidate : Node) (skipProbe : bool)
    (request : ConfigRequest) (w : W) : SwitchInput :=
  let active := subscriptionByID (load_subscriptions w) (RuntimeState.ActiveSubscriptionID state) in
  let '(checkedAt, now, failedAt) := switch_clock w in
  SwitchInput.mk state (Subscription.ID sub) candidate
    (active ← active; node ← NodeByID active (RuntimeState.ActiveNodeID state); Some (resolve node w))
    (bool_decide (is_Some active)) true skipProbe request checkedAt now failedAt.

Definition run_switch (i : SwitchInput) : App (bool * option SwitchError) := fun w =>
  let '(handled, err, w) := tryManagedNodeSelection i w in (Ok (handled, err), w).

(** A handled failure keeps the route and saves it as connected. *)
Definition preserve_route {A} (state : RuntimeState) (e : Fault) : App A :=
  latest ← reads load_state;
  let latest := match latest with Ok l => l | Err _ => state end in
  saved ← attempt (save_preserved (preserved_state state latest) (fault_text e));
  match saved with
  | Err p => raise (Build_Fault (fault_text e +:+ "; preserve active route: " +:+ fault_text p) (fault_retryable p))
  | Ok _ => raise e
  end.

(** Whether the switch was done live. *)
Definition managed_selection (state : RuntimeState) (sub : Subscription) (resolved : Node)
    (opts : SelectionOptions) (request : ConfigRequest) : App bool :=
  if SelectionOptions.forceStaticReload opts then mret false
  else
    i ← reads (switch_input state sub resolved (SelectionOptions.skipManagedProbe opts) request);
    outcome ← run_switch i;
    match outcome with
    | (false, _) => mret false
    | (true, None) => mret true
    | (true, Some e) => preserve_route state (switch_fault rfc3339 e)
    end.

(** ** The reload *)

Definition captured (opts : SelectionOptions) (w : W) : option RollbackSnapshot :=
  if SelectionOptions.rollbackOnVerificationFail opts
  then match capture_rollback w with
       | Ok s => if RollbackSnapshot.Available s then Some s else None
       | Err _ => None
       end
  else None.

Definition static_reload (sub : Subscription) (node resolved : Node) (mode : string) (opts : SelectionOptions)
    (request : ConfigRequest) : App unit :=
  snapshot ← reads (captured opts);
  applied ← attempt (act (wrap "apply backend config") (apply_config request));
  match applied with
  | Err e => handleNodeSelectionFailure sub node mode opts (fault_text e) e
  | Ok _ =>
    running ← (fun w => let '(r, w) := check_running w in (Ok r, w));
    match running with
    | Some (reason, e) => handlePostApplyVerificationFailure sub node mode opts snapshot reason (fault e)
    | None =>
      reached ← (fun w => let '(r, w) := egress w in (Ok r, w));
      match reached with
      | Some e => handlePostApplyVerificationFailure sub node mode opts snapshot (egress_reason e) (egress_fault e)
      | None =>
        prepared ← (fun w => let '(r, w) := PrepareOutbound resolved 0 w in (Ok r, w));
        match prepared with
        | Err e => handlePostApplyVerificationFailure sub node mode opts snapshot e (fault e)
        | Ok tag =>
          pinned ← attempt (act fault (SelectOutbound tag));
          match pinned with
          | Err e => handlePostApplyVerificationFailure sub node mode opts snapshot (fault_text e) e
          | Ok _ => mret tt
          end
        end
      end
    end
  end.

(** A manager's step; its failure marks the connection failed. *)
Definition manager_step (sub : Subscription) (node : Node) (mode : string) (opts : SelectionOptions)
    (context : string) (f : W -> option string * W) : App unit :=
  done ← attempt (act (wrap context) f);
  match done with
  | Err e => handleNodeSelectionFailure sub node mode opts (fault_text e) e
  | Ok _ => mret tt
  end.

Definition apply_dns (settings : Settings) (sub : Subscription) (node : Node) (mode : string)
    (opts : SelectionOptions) : App unit :=
  if localDNSRuntimeEnabled (Settings.DNS settings)
  then manager_step sub node mode opts "apply dns runtime" (dns_apply (Settings.DNS settings))
  else manager_step sub node mode opts "disable dns runtime" dns_disable.

(** The firewall gets the canonical settings with the effective QUIC block. *)
Definition apply_firewall (settings : Settings) (sub : Subscription) (node : Node) (mode : string)
    (opts : SelectionOptions) : App unit :=
  let firewall := Settings.Firewall settings in
  subscriptions ← reads load_subscriptions;
  if FirewallRoutingEnabled firewall
  then manager_step sub node mode opts "apply firewall"
         (firewall_apply ((CanonicalFirewallSettings firewall)
            <| FirewallSettings.BlockQUIC := managedTransparentBlockQUIC subscriptions firewall |>))
  else manager_step sub node mode opts "disable firewall" firewall_disable.

(** ** The result *)

Definition selected_fields (state : RuntimeState) (sub : Subscription) (node : Node) (mode : string)
    : RuntimeState :=
  let state := state <| RuntimeState.ActiveSubscriptionID := Subscription.ID sub |>
                     <| RuntimeState.ActiveConnectionKind := "xray" |>
                     <| RuntimeState.ActiveNodeID := Node.ID node |>
                     <| RuntimeState.ActiveNodeName := DisplayName node |>
                     <| RuntimeState.Mode := mode |> in
  let state := if bool_decide (mode = SelectionModeAuto) then state
               else state <| RuntimeState.AutoScope := "" |> in
  state <| RuntimeState.Connected := true |>
        <| RuntimeState.OperationalMode := OperationalModeVPN |>
        <| RuntimeState.CurrentOperation := None |>.

(** After a live switch the generation and the outbounds come from the file. *)
Definition with_intent (managedApplied : bool) (intent : result string RuntimeState) (state : RuntimeState)
    : RuntimeState :=
  match managedApplied, intent with
  | true, Ok i =>
    state <| RuntimeState.RuntimeConfigGeneration := RuntimeState.RuntimeConfigGeneration i |>
          <| RuntimeState.RuntimeOutbounds := RuntimeState.RuntimeOutbounds i |>
  | _, _ => state
  end.

Definition with_selected (managedApplied : bool) (sub : Subscription) (node : Node) (now : Time)
    (selected : result string string) (state : RuntimeState) : RuntimeState :=
  match selected with
  | Err _ => state
  | Ok tag =>
    let state :=
      if negb managedApplied && (RuntimeState.RuntimeConfigGeneration state =? 0)
      then state <| RuntimeState.RuntimeConfigGeneration := 1 |> else state in
    state <| RuntimeState.SelectedOutboundTag := tag |>
          <| RuntimeState.RuntimeConfigVersion := tag |>
          <| RuntimeState.RuntimeOutbounds ::= fun l =>
               updateRuntimeOutbound l (outbound_entry tag (Subscription.ID sub) (Node.ID node) role_active now
                 zero_time zero_time) |>
  end.

Definition settled_selection (transport : string) (switchedAt now : Time) (state : RuntimeState) : RuntimeState :=
  let state := if bool_decide (transport = TransportModeProxy) then state
               else state <| RuntimeState.LastTransportSwitchAt := switchedAt |> in
  clearZapretTestState
    (state <| RuntimeState.ActiveTransport := TransportModeProxy |>
           <| RuntimeState.LastSuccessAt := now |>
           <| RuntimeState.LastFailureReason := "" |>
           <| RuntimeState.LastTransportFailureReason := "" |>).

Definition finish_selection (state : RuntimeState) (sub : Subscription) (node : Node) (mode : string)
    (managedApplied : bool) : App unit :=
  intent ← reads load_state;
  selected ← (fun w => let '(r, w) := SelectedOutbound w in (Ok r, w));
  verifiedAt ← currentTime;
  switchedAt ← currentTime;
  now ← currentTime;
  save_as "save state"
    (settled_selection (RuntimeState.ActiveTransport state) switchedAt now
       (with_selected managedApplied sub node verifiedAt selected
          (with_intent managedApplied intent (selected_fields state sub node mode)))).

Definition applyNodeSelection (sub : Subscription) (node : Node) (mode : string) (opts : SelectionOptions)
    : App unit :=
  settings ← load_settings_as "load settings";
  state ← load_state_as "load state";
  let state := state <| RuntimeState.ActiveTransport := effectiveActiveTransport state |> in
  _ ← ensureManagedIPv6State settings;
  resolvers ← reads system_resolvers;
  runtimeSettings ← of_result
    match prepareRuntimeDNSSettings url_host (Some resolvers) settings with
    | Ok s => Ok s
    | Err e => Err (wrap "prepare runtime dns settings" e)
    end;
  _ ← when (bool_decide (RuntimeState.ActiveTransport state = TransportModeZapret))
        (act (wrap "disable zapret") zapret_disable);
  resolved ← reads (resolve node);
  subscriptions ← reads load_subscriptions;
  let request := backendConfigRequest subscriptions runtimeSettings resolved mode 10808 10809
    (firewallEnabled (Settings.Firewall settings)) (localDNSRuntimeEnabled (Settings.DNS settings)) in
  managedApplied ← managed_selection state sub resolved opts request;
  _ ← when (negb managedApplied) (static_reload sub node resolved mode opts request);
  _ ← when (negb managedApplied) (apply_dns settings sub node mode opts);
  _ ← when (negb managedApplied) (apply_firewall settings sub node mode opts);
  finish_selection state sub node mode managedApplied.

End Selection.
