(* ===== verification/NodeSelectionFacts.v ===== *)
(** * Selecting a node: theorems

    A successful selection routes to the node and the state file says so. *)
From S2P Require Import Prelude GoRunes GoStrings GoNum NetIP Domain Firewall FirewallSettings.
From S2P Require Import Zapret Settings.
From S2P Require Import Connection Migrations PersistFacts Probe AutoState AutoSelect.

From S2P Require Import AutoSelectFacts Reserves.
From S2P Require Import XrayConfig XrayFacts BackendRequest ManagedBackend Scheduler.
From S2P Require Import ManagedSwitch ManagedSwitchFacts.
From S2P Require Import Effects MemoryWorld NodeSelection.

Local Open Scope Z_scope.
Local Open Scope list_scope.

(** The managers and the clock leave the route alone. *)
Class RuntimeLaws (W : Type) `{ManagedBackend W, Router W, Runtime W} : Prop := {
  runtime_router :: RouterLaws W;
  clock_keeps_route : forall w, selected (clock w).2 = selected w;
  dns_apply_keeps_route : forall s w, selected (dns_apply s w).2 = selected w;
  dns_disable_keeps_route : forall w, selected (dns_disable w).2 = selected w;
  firewall_apply_keeps_route : forall s w, selected (firewall_apply s w).2 = selected w;
  firewall_disable_keeps_route : forall w, selected (firewall_disable w).2 = selected w
}.

Section Selection.
  Context `{RuntimeLaws W}.
  Context (rfc3339 : Time -> string) (url_host : string -> option (string * string)).

Lemma failure_never_ok {A} sub node mode opts reason err w (a : A) w' :
  handleNodeSelectionFailure sub node mode opts reason err w = (Ok a, w') -> False.
Proof.
  unfold handleNodeSelectionFailure. destruct (negb _); [apply raise_ok|].
  intros (r & w1 & _ & Hk)%bind_ok. destruct r; by apply raise_ok in Hk.
Qed.

Lemma verification_never_ok {A} sub node mode opts threshold reason err w (a : A) w' :
  verification_failed sub node mode opts threshold reason err w = (Ok a, w') -> False.
Proof.
  unfold verification_failed. intros (r & w1 & _ & Hk)%bind_ok. destruct r; [by apply failure_never_ok in Hk|by apply raise_ok in Hk].
Qed.

Lemma post_apply_never_ok {A} sub node mode opts snapshot reason err w (a : A) w' :
  handlePostApplyVerificationFailure sub node mode opts snapshot reason err w = (Ok a, w') -> False.
Proof.
  unfold handlePostApplyVerificationFailure. intros (threshold & w1 & _ & Hk)%bind_ok.
  destruct (if SelectionOptions.rollbackOnVerificationFail opts then snapshot else None) as [s|];
    [|by apply verification_never_ok in Hk].
  apply bind_ok in Hk as (r & w2 & _ & Hk). destruct r; [|by apply verification_never_ok in Hk].
  apply bind_ok in Hk as (now & w3 & _ & Hk). apply bind_ok in Hk as (r & w4 & _ & Hk).
  destruct r; by apply raise_ok in Hk.
Qed.

Lemma preserve_never_ok {A} state e w (a : A) w' : preserve_route state e w = (Ok a, w') -> False.
Proof.
  unfold preserve_route. intros (latest & w1 & _ & Hk)%bind_ok. apply bind_ok in Hk as (r & w2 & _ & Hk).
  destruct r; by apply raise_ok in Hk.
Qed.

(** The node's outbound is the route in use. *)
Definition routed (resolved : Node) (w : W) : Prop :=
  exists tag w1 w2, PrepareOutbound resolved 0 w1 = (Ok tag, w2) /\ selected w = Some tag.

Lemma managed_selection_ok state sub resolved opts request w w' :
  managed_selection rfc3339 state sub resolved opts request w = (Ok true, w') -> routed resolved w'.
Proof.
  unfold managed_selection. destruct (SelectionOptions.forceStaticReload opts); [done|].
  intros (i & w1 & [-> ->]%reads_ok & Hk)%bind_ok. apply bind_ok in Hk as ([handled err] & w2 & Hrun & Hk).
  destruct handled; [|done]. destruct err as [e|]; [by apply preserve_never_ok in Hk|].
  injection Hk as <-. unfold run_switch in Hrun.
  destruct (tryManagedNodeSelection _ w) as [[h e] w3] eqn:Et. injection Hrun as -> -> ->.
  destruct (tryManaged_outcome _ _ _ _ Et) as [(e & He & _)|(from & w4 & _ & Hrest)]; [done|].
  destruct Hrest as [(e & He & _)|(to & (w5 & Hp) & O)]; [done|].
  exists to, w4, w5. split; [|by apply (out_success _ _ _ _ _ O)].
  unfold switch_input in Hp. by destruct (switch_clock w) as [[? ?] ?].
Qed.

Lemma static_reload_ok sub node resolved mode opts request w u w' :
  static_reload sub node resolved mode opts request w = (Ok u, w') -> routed resolved w'.
Proof.
  unfold static_reload. intros (snapshot & w1 & _ & Hk)%bind_ok. apply bind_ok in Hk as (applied & w2 & _ & Hk).
  destruct applied; [|by apply failure_never_ok in Hk]. apply bind_ok in Hk as (running & w3 & _ & Hk).
  destruct running as [[reason e]|]; [by apply post_apply_never_ok in Hk|].
  apply bind_ok in Hk as (reached & w4 & _ & Hk). destruct reached; [by apply post_apply_never_ok in Hk|].
  apply bind_ok in Hk as (prepared & w5 & Hp & Hk).
  destruct prepared as [tag|e]; [|by apply post_apply_never_ok in Hk].
  apply bind_ok in Hk as (pinned & w6 & Hs%attempt_ok & Hk).
  destruct pinned; [|by apply post_apply_never_ok in Hk]. injection Hk as _ <-.
  apply act_ok, select_ok in Hs. destruct (PrepareOutbound resolved 0 w4) as [r w7] eqn:Ep.
  injection Hp as -> ->. by exists tag, w4, w5.
Qed.

Lemma manager_step_route sub node mode opts context f w u w' :
  (forall w, selected (f w).2 = selected w) ->
  manager_step sub node mode opts context f w = (Ok u, w') -> selected w' = selected w.
Proof.
  unfold manager_step. intros Hf (done_ & w1 & Hd%attempt_ok & Hk)%bind_ok. destruct done_; [|by apply failure_never_ok in Hk].
  injection Hk as _ <-. apply act_ok in Hd. rewrite <- (Hf w). by rewrite Hd.
Qed.

Lemma apply_dns_route settings sub node mode opts w u w' :
  apply_dns settings sub node mode opts w = (Ok u, w') -> selected w' = selected w.
Proof.
  unfold apply_dns. destruct (localDNSRuntimeEnabled _); apply manager_step_route;
    [apply dns_apply_keeps_route|apply dns_disable_keeps_route].
Qed.

Lemma apply_firewall_route settings sub node mode opts w u w' :
  apply_firewall settings sub node mode opts w = (Ok u, w') -> selected w' = selected w.
Proof.
  unfold apply_firewall. intros (subs & w1 & [_ ->]%reads_ok & Hk)%bind_ok. revert Hk. destruct (FirewallRoutingEnabled _);
    apply manager_step_route; [apply firewall_apply_keeps_route|apply firewall_disable_keeps_route].
Qed.

Lemma currentTime_route w t w' : currentTime w = (Ok t, w') -> selected w' = selected w.
Proof.
  unfold currentTime. pose proof (clock_keeps_route w) as Hc. destruct (clock w) as [a w1]. by intros [= <- <-].
Qed.

Lemma when_route b (p : Prog W Fault unit) w u w' :
  (p w = (Ok u, w') -> selected w' = selected w) -> when b p w = (Ok u, w') -> selected w' = selected w.
Proof. destruct b; [auto|]. by intros _ [= _ <-]. Qed.

(** What a selection records. *)
Record selection_recorded (state : RuntimeState) (sub : Subscription) (node : Node) (mode : string)
    (tag : string) (st : RuntimeState) : Prop := {
  rec_connected : RuntimeState.Connected st = true;
  rec_mode : RuntimeState.OperationalMode st = OperationalModeVPN;
  rec_transport : RuntimeState.ActiveTransport st = TransportModeProxy;
  rec_subscription : RuntimeState.ActiveSubscriptionID st = Subscription.ID sub;
  rec_node : RuntimeState.ActiveNodeID st = Node.ID node;
  rec_selection : RuntimeState.Mode st = mode;
  rec_idle : RuntimeState.CurrentOperation st = None;
  rec_tag : RuntimeState.SelectedOutboundTag st = tag;
  rec_outbound : exists o, o ∈ RuntimeState.RuntimeOutbounds st /\ RuntimeOutboundState.Tag o = tag /\
    RuntimeOutboundState.Role o = role_active;
  rec_backoff : RuntimeState.CandidateBackoff st = RuntimeState.CandidateBackoff state;
  rec_test : ZapretTestState.Active (RuntimeState.ZapretTest st) = false
}.

Lemma update_contains l next :
  exists o, o ∈ updateRuntimeOutbound l next /\ RuntimeOutboundState.Tag o = RuntimeOutboundState.Tag next /\
    RuntimeOutboundState.Role o = RuntimeOutboundState.Role next.
Proof.
  induction l as [|o l (x & Hx & Ht & Hr)]; cbn.
  - exists next. by rewrite list_elem_of_singleton.
  - destruct (bool_decide _).
    + exists (inherit_outbound o next). rewrite inherit_tag, inherit_role. split; [by left|done].
    + exists x. split; [by right|done].
Qed.

(** The saved state, field by field. *)
Definition recorded_state (state : RuntimeState) (sub : Subscription) (node : Node) (mode : string) (managedApplied : bool)
    (intent : result string RuntimeState) (verifiedAt switchedAt now : Time) (tag : string) : RuntimeState :=
  settled_selection (RuntimeState.ActiveTransport state) switchedAt now
    (with_selected managedApplied sub node verifiedAt (Ok tag)
       (with_intent managedApplied intent (selected_fields state sub node mode))).

Lemma settled_selection_fields transport switchedAt now s :
  let f := settled_selection transport switchedAt now s in
  RuntimeState.ActiveTransport f = TransportModeProxy /\
  RuntimeState.Connected f = RuntimeState.Connected s /\
  RuntimeState.OperationalMode f = RuntimeState.OperationalMode s /\
  RuntimeState.ActiveSubscriptionID f = RuntimeState.ActiveSubscriptionID s /\
  RuntimeState.ActiveNodeID f = RuntimeState.ActiveNodeID s /\
  RuntimeState.Mode f = RuntimeState.Mode s /\
  RuntimeState.CurrentOperation f = RuntimeState.CurrentOperation s /\
  RuntimeState.SelectedOutboundTag f = RuntimeState.SelectedOutboundTag s /\
  RuntimeState.RuntimeOutbounds f = RuntimeState.RuntimeOutbounds s /\
  RuntimeState.CandidateBackoff f = RuntimeState.CandidateBackoff s.
Proof. unfold settled_selection. destruct (bool_decide _); by split_and!. Qed.

Lemma with_selected_fields m sub node at_ tag s :
  let f := with_selected m sub node at_ (Ok tag) s in
  RuntimeState.Connected f = RuntimeState.Connected s /\
  RuntimeState.OperationalMode f = RuntimeState.OperationalMode s /\
  RuntimeState.ActiveSubscriptionID f = RuntimeState.ActiveSubscriptionID s /\
  RuntimeState.ActiveNodeID f = RuntimeState.ActiveNodeID s /\
  RuntimeState.Mode f = RuntimeState.Mode s /\
  RuntimeState.CurrentOperation f = RuntimeState.CurrentOperation s /\
  RuntimeState.SelectedOutboundTag f = tag /\
  RuntimeState.RuntimeOutbounds f = updateRuntimeOutbound (RuntimeState.RuntimeOutbounds s)
    (outbound_entry tag (Subscription.ID sub) (Node.ID node) role_active at_ zero_time zero_time) /\
  RuntimeState.CandidateBackoff f = RuntimeState.CandidateBackoff s.
Proof. unfold with_selected. destruct (negb m && _); by split_and!. Qed.

Lemma with_intent_fields m intent s :
  let f := with_intent m intent s in
  RuntimeState.Connected f = RuntimeState.Connected s /\
  RuntimeState.OperationalMode f = RuntimeState.OperationalMode s /\
  RuntimeState.ActiveSubscriptionID f = RuntimeState.ActiveSubscriptionID s /\
  RuntimeState.ActiveNodeID f = RuntimeState.ActiveNodeID s /\
  RuntimeState.Mode f = RuntimeState.Mode s /\
  RuntimeState.CurrentOperation f = RuntimeState.CurrentOperation s /\
  RuntimeState.CandidateBackoff f = RuntimeState.CandidateBackoff s.
Proof. unfold with_intent. destruct m, intent; by split_and!. Qed.

Lemma selected_fields_fields state sub node mode :
  let f := selected_fields state sub node mode in
  RuntimeState.Connected f = true /\ RuntimeState.OperationalMode f = OperationalModeVPN /\
  RuntimeState.ActiveSubscriptionID f = Subscription.ID sub /\ RuntimeState.ActiveNodeID f = Node.ID node /\
  RuntimeState.Mode f = mode /\ RuntimeState.CurrentOperation f = None /\
  RuntimeState.CandidateBackoff f = RuntimeState.CandidateBackoff state.
Proof. unfold selected_fields. destruct (bool_decide _); by split_and!. Qed.

Lemma recorded_state_test state sub node mode m intent t1 t2 t3 tag :
  ZapretTestState.Active (RuntimeState.ZapretTest
    (reload_state (settle_operational_mode (recorded_state state sub node mode m intent t1 t2 t3 tag)))) = false.
Proof. unfold recorded_state, settled_selection, settle_operational_mode. destruct (bool_decide (_ = OperationalModeRecovering)); reflexivity. Qed.

Lemma recorded_state_ok state sub node mode m intent t1 t2 t3 tag :
  selection_recorded state sub node mode tag
    (reload_state (settle_operational_mode (recorded_state state sub node mode m intent t1 t2 t3 tag))).
Proof.
  pose proof (recorded_state_test state sub node mode m intent t1 t2 t3 tag) as Htest. revert Htest. unfold recorded_state.
  destruct (selected_fields_fields state sub node mode) as (F1 & F2 & F3 & F4 & F5 & F6 & F7).
  destruct (with_intent_fields m intent (selected_fields state sub node mode)) as (I1 & I2 & I3 & I4 & I5 & I6 & I7).
  revert I1 I2 I3 I4 I5 I6 I7. generalize (with_intent m intent (selected_fields state sub node mode)) as s1. intros s1 I1 I2 I3 I4 I5 I6 I7.
  destruct (with_selected_fields m sub node t1 tag s1) as (S1 & S2 & S3 & S4 & S5 & S6 & S7 & S8 & S9).
  revert S1 S2 S3 S4 S5 S6 S7 S8 S9. generalize (with_selected m sub node t1 (Ok tag) s1) as s2. intros s2 S1 S2 S3 S4 S5 S6 S7 S8 S9.
  destruct (settled_selection_fields (RuntimeState.ActiveTransport state) t2 t3 s2)
    as (T0 & T1 & T2 & T3 & T4 & T5 & T6 & T7 & T8 & T9).
  revert T0 T1 T2 T3 T4 T5 T6 T7 T8 T9. generalize (settled_selection (RuntimeState.ActiveTransport state) t2 t3 s2) as s3.
  intros s3 T0 T1 T2 T3 T4 T5 T6 T7 T8 T9 Htest.
  assert (Emode : RuntimeState.OperationalMode s3 = OperationalModeVPN) by congruence.
  unfold settle_operational_mode. rewrite Emode. cbn [bool_decide]. rewrite bool_decide_eq_false_2 by done.
  assert (Ec : RuntimeState.Connected s3 = true) by congruence.
  split.
  - exact Ec.
  - change (NormalizeOperationalMode (LegacyOperationalMode (RuntimeState.Connected s3) (RuntimeState.ActiveTransport s3)) =
      OperationalModeVPN). by rewrite Ec, T0.
  - change (NormalizeTransportMode (RuntimeState.ActiveTransport s3) = TransportModeProxy). by rewrite T0.
  - transitivity (RuntimeState.ActiveSubscriptionID s3); [reflexivity|congruence].
  - transitivity (RuntimeState.ActiveNodeID s3); [reflexivity|congruence].
  - transitivity (RuntimeState.Mode s3); [reflexivity|congruence].
  - transitivity (RuntimeState.CurrentOperation s3); [reflexivity|congruence].
  - transitivity (RuntimeState.SelectedOutboundTag s3); [reflexivity|congruence].
  - change (exists o, o ∈ RuntimeState.RuntimeOutbounds s3 /\ RuntimeOutboundState.Tag o = tag /\
      RuntimeOutboundState.Role o = role_active).
    rewrite T8, S8. destruct (update_contains (RuntimeState.RuntimeOutbounds s1)
      (outbound_entry tag (Subscription.ID sub) (Node.ID node) role_active t1 zero_time zero_time)) as (o & Ho & Ht & Hr).
    exists o. by split_and!.
  - transitivity (RuntimeState.CandidateBackoff s3); [reflexivity|congruence].
  - unfold settle_operational_mode in Htest. rewrite Emode, bool_decide_eq_false_2 in Htest by done. exact Htest.
Qed.

Lemma finish_recorded state sub node mode m w u w' tag :
  selected w = Some tag -> finish_selection state sub node mode m w = (Ok u, w') ->
  selected w' = Some tag /\ exists st, load_state w' = Ok st /\ selection_recorded state sub node mode tag st.
Proof.
  intros Hsel. unfold finish_selection. intros (intent & w1 & [-> ->]%reads_ok & Hk)%bind_ok.
  apply bind_ok in Hk as (sel & w2 & Hs & Hk). pose proof (select_pure w) as Hp.
  unfold selected in Hsel. destruct (SelectedOutbound w) as [r w3] eqn:Es. injection Hs as -> ->.
  cbn [fst] in Hsel. destruct sel as [tag'|]; [|done]. injection Hsel as ->.
  apply bind_ok in Hk as (t1 & w3 & G1%currentTime_route & Hk).
  apply bind_ok in Hk as (t2 & w4 & G2%currentTime_route & Hk).
  apply bind_ok in Hk as (t3 & w5 & G3%currentTime_route & Hk).
  apply act_ok in Hk. pose proof (save_keeps_route (recorded_state state sub node mode m (load_state w) t1 t2 t3 tag) w5) as Hr.
  unfold recorded_state in Hr. rewrite Hk in Hr. cbn [snd] in Hr, Hp. split.
  - rewrite Hr, G3, G2, G1, Hp. unfold selected. by rewrite Es.
  - apply saved_is_loaded in Hk. eexists. split; [exact Hk|]. apply recorded_state_ok.
Qed.

Lemma managed_part_routed state sub node resolved mode opts request settings w m w1 w2 w3 w4 u2 u3 u4 :
  managed_selection rfc3339 state sub resolved opts request w = (Ok m, w1) ->
  when (negb m) (static_reload sub node resolved mode opts request) w1 = (Ok u2, w2) ->
  when (negb m) (apply_dns settings sub node mode opts) w2 = (Ok u3, w3) ->
  when (negb m) (apply_firewall settings sub node mode opts) w3 = (Ok u4, w4) ->
  routed resolved w4.
Proof.
  intros Hm Hr Hd Hf. destruct m; cbn [negb when] in *.
  - injection Hr as _ <-. injection Hd as _ <-. injection Hf as _ <-. by apply managed_selection_ok in Hm.
  - apply static_reload_ok in Hr as (tag & v1 & v2 & Hp & Hs). apply apply_dns_route in Hd. apply apply_firewall_route in Hf.
    exists tag, v1, v2. split; [exact Hp|]. by rewrite Hf, Hd.
Qed.

Lemma applied_recorded sub node mode opts w w' :
  applyNodeSelection rfc3339 url_host sub node mode opts w = (Ok tt, w') ->
  exists state st tag v w1 w2,
    load_state w = Ok state /\
    PrepareOutbound (resolve node v) 0 w1 = (Ok tag, w2) /\ selected w' = Some tag /\
    load_state w' = Ok st /\ selection_recorded state sub node mode tag st.
Proof.
  unfold applyNodeSelection. intros (settings & v1 & Hset & Hk)%bind_ok.
  apply bind_ok in Hk as (state & v2 & Hst & Hk).
  assert (Es : load_state w = Ok state).
  { unfold load_settings_as in Hset. destruct (load_settings w); [|done]. injection Hset as _ <-.
    unfold load_state_as in Hst. destruct (load_state w); [|done]. by injection Hst as -> _. }
  apply bind_ok in Hk as (u3 & v3 & _ & Hk). apply bind_ok in Hk as (resolvers & v4 & _ & Hk).
  apply bind_ok in Hk as (runtime & v5 & _ & Hk). apply bind_ok in Hk as (u6 & v6 & _ & Hk).
  apply bind_ok in Hk as (resolved & v7 & [-> ->]%reads_ok & Hk). apply bind_ok in Hk as (subs & v8 & _ & Hk).
  apply bind_ok in Hk as (m & v9 & Hm & Hk). apply bind_ok in Hk as (u10 & v10 & Hr & Hk).
  apply bind_ok in Hk as (u11 & v11 & Hd & Hk). apply bind_ok in Hk as (u12 & v12 & Hf & Hk).
  destruct (managed_part_routed _ _ _ _ _ _ _ _ _ _ _ _ _ _ _ _ _ Hm Hr Hd Hf) as (tag & w1 & w2 & Hp & Hsel).
  destruct (finish_recorded _ _ _ _ _ _ _ _ _ Hsel Hk) as (Hs & st & Hl & Hrec).
  exists state, st, tag, v6, w1, w2. split_and!; try done.
  destruct Hrec as [R1 R2 R3 R4 R5 R6 R7 R8 R9 R10]. by split.
Qed.

(** C3: a selection that succeeds has routed the traffic to the node, live or by a
    reload, and the state file says so: connected in VPN mode over the proxy,
    with the identifiers of the node, the tag of its outbound, an active entry
    for it, and no operation pending.  The backoff on file is still the one it
    started from: what the switch itself forgot of the candidate's failures is
    written back. *)
Theorem applyNodeSelection_recorded sub node mode opts w w' :
  applyNodeSelection rfc3339 url_host sub node mode opts w = (Ok tt, w') ->
  exists state st tag v w1 w2,
    load_state w = Ok state /\
    PrepareOutbound (resolve node v) 0 w1 = (Ok tag, w2) /\ selected w' = Some tag /\
    load_state w' = Ok st /\ selection_recorded state sub node mode tag st.
Proof. intros Hrun. apply (applied_recorded _ _ _ _ _ _ Hrun). Qed.

End Selection.

(** ** On the world in memory *)

#[export] Instance world_runtime : Runtime MemoryWorld := {
  load_settings _ := Ok DefaultSettings;
  load_subscriptions _ := Some [sample_subscription "s" (world_node <$> ["a"; "b"; "c"; "d"])];
  load_cached_state := load_state;
  clock w := (6 * Minute, w);
  switch_clock _ := (6 * Minute, 6 * Minute, 6 * Minute);
  system_resolvers _ := Ok [];
  resolve node _ := node;
  apply_ipv6 w := (None, w);
  apply_config _ w := (None, w);
  capture_rollback _ := Ok (RollbackSnapshot.mk false "");
  rollback_config _ w := (None, w);
  check_running w := (None, w);
  stop_backend w := (None, Build_MemoryWorld (Build_Memory [] ∅) (world_file w) (world_verify w) (world_egress w)
    (world_persist w));
  dns_apply _ w := (None, w);
  dns_disable w := (None, w);
  firewall_apply _ w := (None, w);
  firewall_disable w := (None, w);
  zapret_apply _ w := ((ZapretStatus.mk true true true true false "" "", None), w);
  zapret_disable w := (None, w);
  store_settings _ w := (None, w)
}.

Lemma world_runtime_laws : RuntimeLaws MemoryWorld.
Proof. split; try (intros; reflexivity). exact world_laws. Qed.

(** The candidate failed once; its pause is over. *)
Definition backed_off_state : RuntimeState :=
  (world_state OperationalModeVPN)
    <| RuntimeState.CandidateBackoff := {[ managedOutboundPrefix +:+ "c" :=
         CandidateBackoffState.mk (managedOutboundPrefix +:+ "c") 1 (5 * Minute) ]} |>.

Definition backed_off_world : MemoryWorld :=
  Build_MemoryWorld (Build_Memory [] {[ managedBalancerTag := managedOutboundPrefix +:+ "a" ]})
    (Some (stored backed_off_state)) None None None.

Abbreviation select_c :=
  (applyNodeSelection (fun _ => "") (fun _ => None) (sample_subscription "s" (world_node <$> ["a"; "b"; "c"; "d"]))
    (world_node "c") SelectionModeAuto (selectionOptionsForState backed_off_state) backed_off_world).

Definition failures_of (tag : string) (r : result string RuntimeState) : option Z :=
  match r with
  | Ok st => CandidateBackoffState.ConsecutiveFailures <$> (RuntimeState.CandidateBackoff st !! tag)
  | Err _ => None
  end.

Lemma applyNodeSelection_recorded_witness :
  select_c.1 = Ok tt /\ selected select_c.2 = Some (managedOutboundPrefix +:+ "c") /\
  failures_of (managedOutboundPrefix +:+ "c") (load_state select_c.2) = Some 1.
Proof.
  assert (E1 : select_c.1 = Ok tt) by (vm_compute; reflexivity). split; [exact E1|].
  assert (El : failures_of (managedOutboundPrefix +:+ "c") (load_state backed_off_world) = Some 1)
    by (vm_compute; reflexivity).
  destruct (applyNodeSelection_recorded (H2 := world_runtime_laws) _ _ _ _ _ _ _ _ (run_eq select_c (Ok tt) E1))
    as (state & st & tag & v & w1 & w2 & Hl & Hp & Hs & Hst & Hrec).
  apply rec_backoff in Hrec. rewrite (world_prepared _ _ _ _ _ Hp) in Hs. split; [exact Hs|].
  rewrite Hst. rewrite Hl in El. cbn [failures_of] in *. by rewrite Hrec.
Defined.
