(* ===== verification/ReserveRound.v ===== *)
(** * A round of reserve maintenance

    [MaintainManagedReserves], [safeRemoveManagedOutbound] and
    [tryManagedReserveFailover] of [app/managed_reserves.go] and the snapshots
    of [app/auto_prepare.go].

    The probes of a round run concurrently; [probe_batch] gives their outcomes
    in the order in which they arrive.  The store lock is not modelled: between
    the snapshot and the check that it is still current anything may have
    happened to the world. *)
From S2P Require Import Prelude GoRunes GoStrings GoNum NetIP Domain Firewall FirewallSettings.
From S2P Require Import Zapret Settings.
From S2P Require Import Connection Migrations PersistFacts Probe AutoState AutoSelect.

From S2P Require Import Reserves.
From S2P Require Import XrayConfig XrayFacts BackendRequest ManagedBackend Scheduler.
From S2P Require Import ManagedSwitch Effects NodeSelection.

Local Open Scope Z_scope.
Local Open Scope list_scope.

Class AutoRuntime (W : Type) := {
  snapshot_subscriptions : W -> result string (list Subscription);  (** stored ones and AmneziaWG profiles *)
  deep_equal : autoSelectionSnapshot -> autoSelectionSnapshot -> bool;
  probe_batch : list string -> W -> list (nat * option string * Duration) * W;
  connect_awg : string -> string -> string -> W -> option string * W;
  remember_health : RuntimeState -> W -> W;                         (** [rememberAutoHealthState(state, false)] *)
  should_persist : RuntimeState -> RuntimeState -> W -> bool;       (** [shouldPersistAutoHealthState] *)
  cancelled : W -> option string;                                   (** [ctx.Err()] *)
  wall_clock : W -> Time                                            (** [time.Now()] *)
}.

(** [switchReason], [nodeLabel] and [activeNodeLabel] of [app/auto.go]. *)
Definition nodeLabel (node : Node) : string :=
  let name := TrimSpace (Node.Name node) in
  let id := TrimSpace (Node.ID node) in
  if bool_decide (name = "") then (if bool_decide (id = "") then "unknown" else id)
  else if bool_decide (id = "") || bool_decide (id = name) then name
  else name +:+ " [" +:+ id +:+ "]".

Definition switchReason (kind previousID : string) (next : Node) (details : string) : string :=
  let previous := TrimSpace previousID in
  let previous := if bool_decide (previous = "") then "none" else previous in
  kind +:+ ": " +:+ previous +:+ " -> " +:+ nodeLabel next +:+ "; " +:+
  replace_byte "013" " " (replace_byte "010" " " (TrimSpace details)).

Fixpoint activeNodeLabel (subscriptions : list Subscription) (state : RuntimeState) : string :=
  match subscriptions with
  | [] => RuntimeState.ActiveNodeID state
  | sub :: rest =>
    if bool_decide (Subscription.ID sub = RuntimeState.ActiveSubscriptionID state)
    then match NodeByID sub (RuntimeState.ActiveNodeID state) with
         | Some node => nodeLabel node
         | None => activeNodeLabel rest state
         end
    else activeNodeLabel rest state
  end.

(** ** What the outcomes change *)

Module RoundState.
Record RoundState : Type := mk {
  backoff : gmap string CandidateBackoffState;
  health : gmap string NodeHealth;
  successful : list managedReserveCandidate
}.
End RoundState.
Abbreviation RoundState := RoundState.RoundState.

Definition record_probe (candidates : list managedReserveCandidate) (now : Time) (r : RoundState)
    (item : nat * option string * Duration) : RoundState :=
  let '(index, err, latency) := item in
  match candidates !! index with
  | None => r
  | Some c =>
    let id := candidate_id c in
    let previous := (health_of (RoundState.health r) id) <| NodeHealth.NodeID := id |> in
    match err with
    | None =>
      RoundState.mk (delete (candidate_tag c) (RoundState.backoff r))
        (<[id := UpdateHealth previous true latency now "" 2]> (RoundState.health r))
        (RoundState.successful r ++ [c])
    | Some e =>
      RoundState.mk (backoff_failure (RoundState.backoff r) (candidate_tag c) now)
        (<[id := UpdateHealth previous false latency now e 2]> (RoundState.health r))
        (RoundState.successful r)
    end
  end.

(** The outbounds after the round, and the managed ones that are dropped. *)
Definition round_outbounds (outbounds nextManaged : list RuntimeOutboundState) : list RuntimeOutboundState :=
  filter (fun o => managed_role o = false) outbounds ++ nextManaged.

Definition obsolete_tags (outbounds nextManaged : list RuntimeOutboundState) : list string :=
  remove_dups (RuntimeOutboundState.Tag <$>
    filter (fun o => managed_role o = true /\ RuntimeOutboundState.Tag o ∉ RuntimeOutboundState.Tag <$> nextManaged)
      outbounds).

(** What the picking of the candidates collects. *)
Module Picked.
Record Picked : Type := mk {
  candidates : list managedReserveCandidate;
  seenNodes : list string;
  seenTags : list string;
  preparedNew : list string
}.
End Picked.
Abbreviation Picked := Picked.Picked.

Section Round.
  Context `{ManagedBackend W, Router W, Runtime W, AutoRuntime W}.
  Context (fingerprint : Node -> string).
  Context (rfc3339 : Time -> string) (url_host : string -> option (string * string)).

Abbreviation App := (Prog W Fault).

(** ** Snapshots *)

Definition captureAutoSelectionSnapshot : App autoSelectionSnapshot := fun w =>
  match snapshot_subscriptions w with
  | Err e => (Err (fault e), w)
  | Ok subscriptions =>
    match load_settings w with
    | Err e => (Err (wrap "load settings" e), w)
    | Ok settings =>
      match load_state w with
      | Err e => (Err (wrap "load state" e), w)
      | Ok persisted =>
        let state := match load_cached_state w with Ok s => s | Err _ => persisted end in
        (Ok (autoSelectionSnapshot.mk subscriptions settings persisted state), w)
      end
    end
  end.

Definition snapshot_current (snapshot : autoSelectionSnapshot) : App bool :=
  current ← captureAutoSelectionSnapshot;
  mret (deep_equal current snapshot).

(** ** Removing *)

Definition lists_tag (tag : string) (state : RuntimeState) : bool :=
  existsb (fun o => bool_decide (RuntimeOutboundState.Tag o = tag)) (RuntimeState.RuntimeOutbounds state).

(** A selected or listed outbound stays; one that cannot be removed is listed
    as draining. *)
Definition safeRemoveManagedOutbound (tag : string) : App unit :=
  selected ← outcome (SelectedOutbound);
  if match selected with Ok s => bool_decide (s = tag) | Err _ => false end then mret tt
  else
    current ← reads load_state;
    if match current with Ok state => lists_tag tag state | Err _ => false end then mret tt
    else
      removed ← attempt (act fault (RemoveOutbound tag));
      match removed with
      | Ok _ => mret tt
      | Err e =>
        state ← load_state_as ("remove outbound " +:+ tag +:+ ": " +:+ fault_text e +:+ "; load cleanup state");
        now ← currentTime;
        _ ← save_as ("remove outbound " +:+ tag +:+ ": " +:+ fault_text e +:+ "; save cleanup state")
              (state <| RuntimeState.RuntimeOutbounds ::= fun l =>
                 updateRuntimeOutbound l (RuntimeOutboundState.mk tag "" "" role_draining zero_time (S754_zero false) 0
                   "" 0 now (Add now (30 * Minute))) |>);
        raise e
      end.

(** The removals are all tried; one of their errors is reported. *)
Fixpoint remove_all (tags : list string) (failed : option Fault) : App unit :=
  match tags with
  | [] => match failed with None => mret tt | Some e => raise e end
  | tag :: tags =>
    r ← attempt (safeRemoveManagedOutbound tag);
    remove_all tags match r with Ok _ => failed | Err e => Some e end
  end.

(** ** Picking *)

(** The candidate with its tag; [None] when its outbound cannot be prepared. *)
Definition tagged (c : managedReserveCandidate) : App (option managedReserveCandidate) :=
  if bool_decide (candidate_tag c = "")
  then
    resolved ← reads (resolve (candidate_node c));
    prepared ← outcome (PrepareOutbound resolved 0);
    mret match prepared with
         | Ok tag => Some (managedReserveCandidate.mk (candidate_sub c) (candidate_node c) tag
                             (managedReserveCandidate.verifiedAt c))
         | Err _ => None
         end
  else mret (Some c).

Definition backed_off (state : RuntimeState) (now : Time) (tag : string) : bool :=
  match RuntimeState.CandidateBackoff state !! tag with
  | Some b => Before now (CandidateBackoffState.RetryAfter b)
  | None => false
  end.

Definition pick_candidate (state : RuntimeState) (now : Time) (p : Picked) (c : managedReserveCandidate) : App Picked :=
  if (managedReserveProbeLimit <=? length (Picked.candidates p))%nat then mret p
  else if bool_decide (candidate_key c ∈ Picked.seenNodes p) then mret p
  else
    let seenNodes := candidate_key c :: Picked.seenNodes p in
    tagged_ ← tagged c;
    match tagged_ with
    | None => mret (Picked.mk (Picked.candidates p) seenNodes (Picked.seenTags p) (Picked.preparedNew p))
    | Some c' =>
      let tag := candidate_tag c' in
      let preparedNew :=
        if bool_decide (candidate_tag c = "")
           && negb (bool_decide (tag ∈ runtimeOutboundTags (RuntimeState.RuntimeOutbounds state)))
        then tag :: Picked.preparedNew p else Picked.preparedNew p in
      if bool_decide (tag ∈ Picked.seenTags p)
      then mret (Picked.mk (Picked.candidates p) seenNodes (Picked.seenTags p) preparedNew)
      else if backed_off state now tag
      then mret (Picked.mk (Picked.candidates p) seenNodes (tag :: Picked.seenTags p) preparedNew)
      else mret (Picked.mk (Picked.candidates p ++ [c']) seenNodes (tag :: Picked.seenTags p) preparedNew)
    end.

Fixpoint pick_candidates (state : RuntimeState) (now : Time) (p : Picked) (ordered : list managedReserveCandidate)
    : App Picked :=
  match ordered with
  | [] => mret p
  | c :: ordered => p ← pick_candidate state now p c; pick_candidates state now p ordered
  end.

(** ** The round *)

Definition panic : Fault := fault "runtime error: slice bounds out of range".

Definition finish_round (snapshot : autoSelectionSnapshot) (p : Picked) (state : RuntimeState)
    (nextManaged obsoleteFrom : list RuntimeOutboundState) : App unit :=
  current ← snapshot_current snapshot;
  if negb current then remove_all (remove_dups (Picked.preparedNew p)) None
  else
    saved ← attempt (act fault (save_state state));
    match saved with
    | Err e => _ ← attempt (remove_all (remove_dups (Picked.preparedNew p)) None); raise e
    | Ok _ =>
      let keptTags := RuntimeOutboundState.Tag <$> nextManaged in
      remove_all
        (filter (fun tag => HasPrefix (TrimSpace tag) managedOutboundPrefix = true) (obsolete_tags obsoleteFrom nextManaged)
         ++ filter (fun tag => tag ∉ keptTags) (remove_dups (Picked.preparedNew p))) None
    end.

Definition MaintainManagedReserves : App unit :=
  snapshot ← captureAutoSelectionSnapshot;
  let state := autoSelectionSnapshot.state snapshot in
  if negb (bool_decide (RuntimeState.Mode state = SelectionModeAuto))
     && negb (bool_decide (RuntimeState.Mode state = SelectionModeManual))
  then mret tt
  else
    selected ← outcome (SelectedOutbound);
    match selected with
    | Err _ => mret tt
    | Ok selected =>
      now ← currentTime;
      let eligible := collectManagedReserveCandidates fingerprint (autoSelectionSnapshot.subscriptions snapshot)
        (autoSelectionSnapshot.settings snapshot) state now in
      match managedReserveProbeOrder (existingManagedReserveCandidates (RuntimeState.RuntimeOutbounds state) eligible)
              (rankManagedReserveCandidates eligible (RuntimeState.Health state)) (RuntimeState.Health state) now with
      | None => raise panic
      | Some ordered =>
        p ← pick_candidates state now (Picked.mk [] [] [selected] []) ordered;
        results ← outcome (probe_batch (candidate_tag <$> Picked.candidates p));
        let r := foldl (record_probe (Picked.candidates p) now)
          (RoundState.mk (RuntimeState.CandidateBackoff state) (RuntimeState.Health state) []) results in
        let nextManaged := selectManagedReserveStates (RoundState.successful r) (RoundState.health r)
          (RuntimeState.RuntimeOutbounds state) now in
        let state' := state <| RuntimeState.CandidateBackoff := RoundState.backoff r |>
          <| RuntimeState.Health := RoundState.health r |>
          <| RuntimeState.RuntimeOutbounds := round_outbounds (RuntimeState.RuntimeOutbounds state) nextManaged |> in
        finish_round snapshot p state' nextManaged (RuntimeState.RuntimeOutbounds state)
      end
    end.

(** ** Failover to a reserve *)

Definition usable_reserve (eligible : list managedReserveCandidate) (state : RuntimeState) (now : Time)
    (outbound : RuntimeOutboundState) : option managedReserveCandidate :=
  if negb (bool_decide (RuntimeOutboundState.Role outbound = role_reserve)) then None
  else
    c ← by_node eligible (AutoExcludedNodeKey (RuntimeOutboundState.SubscriptionID outbound)
                            (RuntimeOutboundState.NodeID outbound));
    if backed_off state now (RuntimeOutboundState.Tag outbound) then None
    else Some (managedReserveCandidate.mk (candidate_sub c) (candidate_node c) (RuntimeOutboundState.Tag outbound)
                 (RuntimeOutboundState.VerifiedAt outbound)).

(** A reserve verified within the last minute is not checked again. *)
Definition reserve_options (state : RuntimeState) (verifiedAt checkedAt : Time) : SelectionOptions :=
  let options := selectionOptionsForState state in
  let age := Sub checkedAt verifiedAt in
  SelectionOptions.mk (SelectionOptions.persistFailure options) (SelectionOptions.rollbackOnVerificationFail options)
    (SelectionOptions.forceStaticReload options)
    (negb (bool_decide (RuntimeState.OperationalMode state = OperationalModeDirect))
     && negb (IsZero verifiedAt) && (0 <=? age) && (age <=? Minute))
    (SelectionOptions.preservedState options).

Definition failover_state (updated : RuntimeState) (mode reason failureReason : string) (now : Time) : RuntimeState :=
  let updated := updated <| RuntimeState.Mode := mode |> in
  let updated := if bool_decide (mode = SelectionModeManual)
                 then updated <| RuntimeState.AutoScope := "" |> else updated in
  updated <| RuntimeState.LastSwitchAt := now |>
          <| RuntimeState.LastSwitchReason := reason |>
          <| RuntimeState.LastFailureReason := failureReason |>.

(** Whether one of the reserves took over; [last] is the error of the one before. *)
Fixpoint try_reserves (snapshot : autoSelectionSnapshot) (mode failureReason : string)
    (reserves : list managedReserveCandidate) (last : option Fault) : App bool :=
  match reserves with
  | [] => match last with None => mret false | Some e => raise e end
  | reserve :: reserves =>
    checkedAt ← currentTime;
    applied ← attempt (applyNodeSelection rfc3339 url_host (candidate_sub reserve) (candidate_node reserve) mode
      (reserve_options (autoSelectionSnapshot.state snapshot) (managedReserveCandidate.verifiedAt reserve) checkedAt));
    match applied with
    | Err e => try_reserves snapshot mode failureReason reserves (Some e)
    | Ok _ =>
      updated ← load_state_as "load state";
      now ← currentTime;
      _ ← act fault (save_state (failover_state updated mode
            (switchReason "emergency failover"
               (activeNodeLabel (autoSelectionSnapshot.subscriptions snapshot) (autoSelectionSnapshot.state snapshot))
               (candidate_node reserve) ("verified reserve HTTPS GET; " +:+ failureReason)) failureReason now));
      mret true
    end
  end.

Definition errAutoSelectionSnapshotChanged : Fault := fault "auto selection inputs changed while probes were running".

(** Whether a reserve took over, and whether one was tried at all. *)
Definition tryManagedReserveFailover (snapshot : autoSelectionSnapshot) (mode failureReason : string)
    : App (bool * bool * option Fault) :=
  now ← currentTime;
  let state := autoSelectionSnapshot.state snapshot in
  let eligible := collectManagedReserveCandidates fingerprint (autoSelectionSnapshot.subscriptions snapshot)
    (autoSelectionSnapshot.settings snapshot) state now in
  let reserves := rankManagedReserveCandidates
    (omap (usable_reserve eligible state now) (RuntimeState.RuntimeOutbounds state)) (RuntimeState.Health state) in
  if bool_decide (reserves = []) then mret (false, false, None)
  else
    current ← attempt (snapshot_current snapshot);
    match current with
    | Err e => mret (false, false, Some e)
    | Ok false => mret (false, false, Some errAutoSelectionSnapshotChanged)
    | Ok true =>
      r ← attempt (try_reserves snapshot mode failureReason reserves None);
      mret match r with
           | Ok switched => (switched, true, None)
           | Err e => (false, true, Some e)
           end
    end.

End Round.
