(* ===== verification/ReserveRoundFacts.v ===== *)
(** * Reserve maintenance: theorems

    A round of maintenance never moves the route, and what it removes is
    neither the route nor listed in the state file. *)
From S2P Require Import Prelude GoRunes GoStrings GoNum NetIP Domain Firewall FirewallSettings.
From S2P Require Import Zapret Settings Connection Migrations PersistFacts Probe.

From S2P Require Import AutoState AutoSelect AutoSelectFacts Reserves ReservesFacts XrayConfig.
From S2P Require Import XrayFacts BackendRequest ManagedBackend Scheduler ManagedSwitch.
From S2P Require Import ManagedSwitchFacts Effects MemoryWorld NodeSelection NodeSelectionFacts.
From S2P Require Import ReserveRound.

Local Open Scope Z_scope.
Local Open Scope list_scope.

(** The probes go through inbounds of their own; the cached state is the one on
    file with the observations of a cache merged into it. *)
Class AutoRuntimeLaws (W : Type) `{ManagedBackend W, Router W, Runtime W, AutoRuntime W} : Prop := {
  auto_runtime :: RuntimeLaws W;
  probes_keep_route : forall tags w, selected (probe_batch tags w).2 = selected w;
  remember_keeps_route : forall s w, selected (remember_health s w) = selected w;
  remember_keeps_file : forall s w, load_state (remember_health s w) = load_state w;
  clock_keeps_file : forall w, load_state (clock w).2 = load_state w;
  read_keeps_file : forall w, load_state (SelectedOutbound w).2 = load_state w;
  prepare_keeps_file : forall node mark w, load_state (PrepareOutbound node mark w).2 = load_state w;
  remove_keeps_file : forall tag w, load_state (RemoveOutbound tag w).2 = load_state w;
  probes_keep_file : forall tags w, load_state (probe_batch tags w).2 = load_state w;
  cached_is_merged : forall w persisted, load_state w = Ok persisted ->
    exists cache, load_cached_state w = Ok (mergeAutoHealthState cache persisted)
}.

(** ** Programs that leave a part of the world alone *)

Section Keeping.
  Context {W B : Type} (view : W -> B).

Definition keeps {E A} (p : Prog W E A) : Prop := forall w, view (p w).2 = view w.

Lemma keeps_ret {E A} (a : A) : keeps (E := E) (mret a).
Proof. done. Qed.

Lemma keeps_raise {E A} (e : E) : keeps (A := A) (raise e).
Proof. done. Qed.

Lemma keeps_reads {E A} (f : W -> A) : keeps (E := E) (reads f).
Proof. done. Qed.

Lemma keeps_bind {E A A'} (p : Prog W E A) (k : A -> Prog W E A') :
  keeps p -> (forall a, keeps (k a)) -> keeps (p ≫= k).
Proof.
  intros Hp Hk w. specialize (Hp w). unfold mbind, prog_bind. destruct (p w) as [[a|e] w1]; cbn [snd] in *; [|done].
  by rewrite Hk.
Qed.

Lemma keeps_attempt {E A} (p : Prog W E A) : keeps p -> keeps (attempt p).
Proof. intros Hp w. specialize (Hp w). unfold attempt. by destruct (p w). Qed.

Lemma keeps_outcome {E A} (f : W -> A * W) : (forall w, view (f w).2 = view w) -> keeps (E := E) (outcome f).
Proof. intros Hf w. specialize (Hf w). unfold outcome. by destruct (f w). Qed.

Lemma keeps_act {E X} (wrap : X -> E) (f : W -> option X * W) :
  (forall w, view (f w).2 = view w) -> keeps (act wrap f).
Proof. intros Hf w. specialize (Hf w). unfold act. by destruct (f w) as [[e|] w1]. Qed.

Lemma keeps_when {E} b (p : Prog W E unit) : keeps p -> keeps (when b p).
Proof. by destruct b. Qed.

End Keeping.

Create HintDb views.
#[export] Hint Resolve keeps_ret keeps_raise keeps_reads keeps_attempt keeps_outcome keeps_act keeps_when : views.

(** One step of a program: the rule of its head, then the cases it goes through. *)
Ltac keep_step :=
  match goal with
  | |- keeps _ (mbind _ _) => apply keeps_bind; [|intros]
  | |- keeps _ (if ?b then _ else _) => destruct b
  | |- keeps _ (match ?x with _ => _ end) => destruct x
  | |- keeps _ (attempt _) => apply keeps_attempt
  | |- _ => solve [eauto with views]
  end.

(** A view that looking around and probing leave alone. *)
Record quiet `{ManagedBackend W, Router W, Runtime W, AutoRuntime W} {B} (view : W -> B) : Prop := {
  quiet_clock : forall w, view (clock w).2 = view w;
  quiet_read : forall w, view (SelectedOutbound w).2 = view w;
  quiet_prepare : forall node mark w, view (PrepareOutbound node mark w).2 = view w;
  quiet_probes : forall tags w, view (probe_batch tags w).2 = view w
}.

Section Quiet.
  Context `{ManagedBackend W, Router W, Runtime W, AutoRuntime W} {B} (view : W -> B) (Q : quiet view).

Lemma keeps_capture : keeps view captureAutoSelectionSnapshot.
Proof.
  intros w. unfold captureAutoSelectionSnapshot.
  by destruct (snapshot_subscriptions w), (load_settings w), (load_state w).
Qed.

Lemma keeps_time : keeps view currentTime.
Proof. intros w. pose proof (quiet_clock view Q w) as Hc. unfold currentTime. by destruct (clock w). Qed.

Lemma keeps_load context : keeps view (load_state_as context).
Proof. intros w. unfold load_state_as. by destruct (load_state w). Qed.

Lemma keeps_read : keeps (E := Fault) view (outcome SelectedOutbound).
Proof. apply keeps_outcome, Q. Qed.

Lemma keeps_prepare node : keeps (E := Fault) view (outcome (PrepareOutbound node 0)).
Proof. apply keeps_outcome, (quiet_prepare view Q). Qed.

Lemma keeps_probes tags : keeps (E := Fault) view (outcome (probe_batch tags)).
Proof. apply keeps_outcome, (quiet_probes view Q). Qed.

#[local] Hint Resolve keeps_capture keeps_prepare : views.

Lemma keeps_current snapshot : keeps view (snapshot_current snapshot).
Proof. unfold snapshot_current. repeat keep_step. Qed.

Lemma keeps_pick state now ordered : forall p, keeps view (pick_candidates state now p ordered).
Proof.
  induction ordered as [|c ordered IH]; intros p; cbn [pick_candidates]; [auto with views|].
  apply keeps_bind; [|intros; apply IH]. unfold pick_candidate, tagged. repeat keep_step.
Qed.

End Quiet.

#[export] Hint Resolve keeps_capture keeps_time keeps_load keeps_read keeps_prepare keeps_probes keeps_current keeps_pick : views.

(** ** What the outcomes of the probes say *)

(** The probe of the candidate came back without an error. *)
Definition answered (candidates : list managedReserveCandidate) (results : list (nat * option string * Duration))
    (c : managedReserveCandidate) : Prop :=
  exists index latency, (index, None, latency) ∈ results /\ candidates !! index = Some c.

(** The outcomes that concern the candidates with a given key, in the order in
    which they arrived. *)
Definition outcomes_of (key : managedReserveCandidate -> string) (k : string)
    (candidates : list managedReserveCandidate) (results : list (nat * option string * Duration))
    : list (option string * Duration) :=
  omap (fun item => c ← candidates !! item.1.1; if bool_decide (key c = k) then Some (item.1.2, item.2) else None) results.

(** The health of one node after an outcome, and after a history of them. *)
Definition outcome_health (id : string) (now : Time) (h : NodeHealth) (o : option string * Duration) : NodeHealth :=
  UpdateHealth (h <| NodeHealth.NodeID := id |>) (match o.1 with None => true | Some _ => false end) o.2 now
    (default "" o.1) 2.

Definition node_history (id : string) (now : Time) : NodeHealth -> list (option string * Duration) -> NodeHealth :=
  foldl (outcome_health id now).

Definition probed_health (candidates : list managedReserveCandidate) (results : list (nat * option string * Duration))
    (now : Time) (old : gmap string NodeHealth) (id : string) : option NodeHealth :=
  match outcomes_of candidate_id id candidates results with
  | [] => old !! id
  | outcomes => Some (node_history id now (health_of old id) outcomes)
  end.

(** The backoff ends with an answer and is renewed by an error. *)
Definition probed_backoff (candidates : list managedReserveCandidate) (results : list (nat * option string * Duration))
    (old : gmap string CandidateBackoffState) (tag : string) (new : option CandidateBackoffState) : Prop :=
  match last (outcomes_of candidate_tag tag candidates results) with
  | None => new = old !! tag
  | Some (None, _) => new = None
  | Some (Some _, _) => is_Some new
  end.

Lemma recorded_outcome candidates now r index err latency :
  RoundState.health (record_probe candidates now r (index, err, latency)) =
  match candidates !! index with
  | None => RoundState.health r
  | Some c => <[candidate_id c :=
      outcome_health (candidate_id c) now (health_of (RoundState.health r) (candidate_id c)) (err, latency)]>
      (RoundState.health r)
  end.
Proof. unfold outcome_health. cbn [record_probe fst snd]. destruct (candidates !! index); [destruct err|]; reflexivity. Qed.

Lemma recorded_health candidates now id results : forall r,
  RoundState.health (foldl (record_probe candidates now) r results) !! id =
  probed_health candidates results now (RoundState.health r) id.
Proof.
  induction results as [|[[index err] latency] results IH]; intros r; [done|].
  cbn [foldl]. rewrite IH, recorded_outcome. clear IH. unfold probed_health, outcomes_of. cbn [omap list_omap fst snd].
  destruct (candidates !! index) as [c|] eqn:E; cbn [mbind option_bind]; [|done].
  match goal with |- context [omap ?f results] => generalize (omap f results) as tail end. intros tail.
  unfold node_history, health_of. destruct (bool_decide_reflect (candidate_id c = id)) as [<-|Hid].
  - cbn [foldl]. generalize (outcome_health (candidate_id c) now) as step. intros step.
    destruct tail; rewrite lookup_insert_eq; reflexivity.
  - destruct tail; by rewrite lookup_insert_ne.
Qed.

Lemma recorded_backoff candidates now tag results : forall r,
  probed_backoff candidates results (RoundState.backoff r) tag
    (RoundState.backoff (foldl (record_probe candidates now) r results) !! tag).
Proof.
  induction results as [|[[index err] latency] results IH] using rev_ind; intros r; [done|].
  rewrite foldl_app. cbn [foldl]. unfold probed_backoff, outcomes_of. rewrite omap_app, last_app.
  cbn [omap list_omap fst snd]. specialize (IH r). unfold probed_backoff, outcomes_of in IH. cbn [record_probe].
  destruct (candidates !! index) as [c|] eqn:E; cbn [mbind option_bind]; [|exact IH].
  case_bool_decide as Ht; cbn [last].
  - rewrite <- Ht. destruct err; cbn [RoundState.backoff]; unfold backoff_failure; [rewrite lookup_insert_eq|rewrite lookup_delete_eq]; by eauto.
  - destruct err; cbn [RoundState.backoff]; unfold backoff_failure; [rewrite lookup_insert_ne by done|rewrite lookup_delete_ne by done]; exact IH.
Qed.

Lemma recorded_successes candidates now c results : forall r,
  c ∈ RoundState.successful (foldl (record_probe candidates now) r results) <->
  c ∈ RoundState.successful r \/ answered candidates results c.
Proof.
  unfold answered. induction results as [|[[index err] latency] results IH]; intros r; cbn [foldl].
  { split; [by left|]. intros [?|(? & ? & []%not_elem_of_nil & _)]; done. }
  rewrite IH. clear IH. cbn [record_probe]. setoid_rewrite elem_of_cons.
  destruct (candidates !! index) as [c'|] eqn:E; [destruct err; cbn [RoundState.successful]; [|rewrite elem_of_app, list_elem_of_singleton]|];
    naive_solver.
Qed.

(** ** What is picked *)

(** What holds of the candidates picked so far. *)
Record picked_ok (route : string) (state : RuntimeState) (now : Time) (p : Picked) : Prop := {
  picked_few : (length (Picked.candidates p) <= managedReserveProbeLimit)%nat;
  picked_once : NoDup (candidate_tag <$> Picked.candidates p);
  picked_ready : Forall (fun c => candidate_tag c <> route /\ backed_off state now (candidate_tag c) = false) (Picked.candidates p);
  picked_seen : route ∈ Picked.seenTags p /\ (forall c, c ∈ Picked.candidates p -> candidate_tag c ∈ Picked.seenTags p)
}.

Lemma nothing_picked route state now : picked_ok route state now (Picked.mk [] [] [route] []).
Proof. split; cbn; try constructor; try lia; set_solver. Qed.

Section Picking.
  Context `{ManagedBackend W, Router W, Runtime W, AutoRuntime W}.

Lemma time_read (w : W) now w' : currentTime w = (Ok now, w') -> (clock w).1 = now.
Proof. unfold currentTime. destruct (clock w). by intros [= <- _]. Qed.

Lemma picked_more route state now p c (w : W) p' w' :
  picked_ok route state now p -> pick_candidate state now p c w = (Ok p', w') -> picked_ok route state now p'.
Proof.
  intros Hp. unfold pick_candidate. destruct (_ <=? _)%nat eqn:El; [by intros [= <- _]|].
  destruct (bool_decide (candidate_key c ∈ _)); [by intros [= <- _]|]. intros (t & w1 & _ & Hk)%bind_ok. revert Hk.
  destruct Hp as [Hfew Honce Hready [Hroute Hseen]].
  destruct t as [c'|]; [|by intros [= <- _]]. destruct (bool_decide_reflect (candidate_tag c' ∈ Picked.seenTags p)) as [E|E];
    [by intros [= <- _]|]. destruct (backed_off state now (candidate_tag c')) eqn:Eb; intros [= <- _].
  - split; cbn; try done. set_solver.
  - apply Nat.leb_gt in El. split; cbn.
    + rewrite length_app. cbn. lia.
    + rewrite fmap_app, NoDup_app. split; [done|]. split; [|apply NoDup_singleton].
      intros x (y & -> & Hy)%list_elem_of_fmap Hx. cbn in Hx. apply list_elem_of_singleton in Hx.
      apply E. rewrite <- Hx. by apply Hseen.
    + apply Forall_app. split; [done|]. apply Forall_singleton. split; [congruence|done].
    + set_solver.
Qed.

Lemma picked_candidates route state now ordered : forall p (w : W) p' w',
  pick_candidates state now p ordered w = (Ok p', w') -> picked_ok route state now p -> picked_ok route state now p'.
Proof.
  induction ordered as [|c ordered IH]; intros p w p' w'; cbn [pick_candidates]; [by intros [= <- _]|].
  intros (p1 & w1 & Hstep & Hk)%bind_ok Hp. eapply IH; [exact Hk|]. by eapply picked_more.
Qed.

End Picking.

Section Maintenance.
  Context `{AutoRuntimeLaws W}.
  Context (fingerprint : Node -> string).

Lemma selected_quiet : quiet selected.
Proof. split; intros; [apply clock_keeps_route|apply select_pure|apply prepare_keeps|apply probes_keep_route]. Qed.

Lemma file_quiet : quiet load_state.
Proof. split; intros; [apply clock_keeps_file|apply read_keeps_file|apply prepare_keeps_file|apply probes_keep_file]. Qed.

#[local] Hint Resolve selected_quiet file_quiet : views.

Lemma keeps_save context state : keeps selected (save_as context state).
Proof. unfold save_as. apply keeps_act. intros w. apply save_keeps_route. Qed.

Lemma keeps_store state : keeps selected (act fault (save_state state)).
Proof. apply keeps_act. intros w. apply save_keeps_route. Qed.

Lemma keeps_remove tag : keeps selected (act fault (RemoveOutbound tag)).
Proof. apply keeps_act. intros w. apply remove_keeps. Qed.

#[local] Hint Resolve keeps_save keeps_store keeps_remove : views.

Lemma keeps_safe_remove tag : keeps selected (safeRemoveManagedOutbound tag).
Proof. unfold safeRemoveManagedOutbound. repeat keep_step. Qed.

#[local] Hint Resolve keeps_safe_remove : views.

Lemma keeps_remove_all tags : forall failed, keeps selected (remove_all tags failed).
Proof. induction tags as [|tag tags IH]; intros failed; cbn [remove_all]; repeat keep_step. Qed.

#[local] Hint Resolve keeps_remove_all : views.

Lemma keeps_finish snapshot p state l l' : keeps selected (finish_round snapshot p state l l').
Proof. unfold finish_round. repeat keep_step. Qed.

#[local] Hint Resolve keeps_finish : views.

Lemma maintenance_keeps : keeps selected (MaintainManagedReserves fingerprint).
Proof. unfold MaintainManagedReserves. repeat keep_step. Qed.

(** ** What a completed round leaves on file *)

Lemma keeps_use {B A E} (view : W -> B) (p : Prog W E A) w r w' : keeps view p -> p w = (r, w') -> view w' = view w.
Proof. intros Hp E'. specialize (Hp w). by rewrite E' in Hp. Qed.

Lemma removed_keeps_file tag w w' : safeRemoveManagedOutbound tag w = (Ok tt, w') -> load_state w' = load_state w.
Proof.
  unfold safeRemoveManagedOutbound. intros (s & w1 & G1 & Hk)%bind_ok.
  apply (keeps_use load_state _ _ _ _ (keeps_read _ file_quiet)) in G1. rewrite <- G1. clear G1. revert Hk.
  destruct (match s with Ok s => bool_decide (s = tag) | Err _ => false end); [by intros [= <-]|].
  intros (c & w2 & [_ ->]%reads_ok & Hk)%bind_ok. revert Hk.
  destruct (match c with Ok st => lists_tag tag st | Err _ => false end); [by intros [= <-]|].
  intros (r & w3 & Hr%attempt_ok & Hk)%bind_ok. destruct r as [u|e].
  - injection Hk as <-. apply act_ok in Hr. rewrite <- (remove_keeps_file tag w1). by rewrite Hr.
  - apply bind_ok in Hk as (st & w4 & _ & Hk). apply bind_ok in Hk as (t & w5 & _ & Hk).
    apply bind_ok in Hk as (u & w6 & _ & Hk). by apply raise_ok in Hk.
Qed.

Lemma all_removed_keeps_file tags : forall failed w w',
  remove_all tags failed w = (Ok tt, w') -> failed = None /\ load_state w' = load_state w.
Proof.
  induction tags as [|tag tags IH]; intros failed w w'; cbn [remove_all].
  - destruct failed; [by intros ?%raise_ok|]. by intros [= <-].
  - intros (r & w1 & Hr%attempt_ok & Hk)%bind_ok. apply IH in Hk as [Hf Hk].
    destruct r as [[]|e]; [|done]. split; [done|]. rewrite Hk. by apply removed_keeps_file in Hr.
Qed.

Lemma finished_round_file snapshot p state l l' w w' :
  finish_round snapshot p state l l' w = (Ok tt, w') ->
  load_state w' = load_state w \/ load_state w' = Ok (reload_state (settle_operational_mode state)).
Proof.
  unfold finish_round. intros (current & w1 & Hc & Hk)%bind_ok.
  apply (keeps_use load_state _ _ _ _ (keeps_current _ _)) in Hc. destruct current; cbn [negb] in Hk.
  - apply bind_ok in Hk as (saved & w2 & Hs%attempt_ok & Hk). destruct saved as [u|e].
    + apply act_ok, saved_is_loaded in Hs. apply all_removed_keeps_file in Hk as [_ Hk]. right. by rewrite Hk.
    + apply bind_ok in Hk as (r & w3 & _ & Hk). by apply raise_ok in Hk.
  - apply all_removed_keeps_file in Hk as [_ Hk]. left. by rewrite Hk.
Qed.

(** The state of a round: the one on file, merged with a cache of observations. *)
Definition round_start (w : W) (old : RuntimeState) : Prop :=
  exists persisted cache, load_state w = Ok persisted /\ old = mergeAutoHealthState cache persisted.

Lemma captured_state w snapshot w' :
  captureAutoSelectionSnapshot w = (Ok snapshot, w') ->
  w' = w /\ round_start w (autoSelectionSnapshot.state snapshot).
Proof.
  unfold captureAutoSelectionSnapshot, round_start. destruct (snapshot_subscriptions w), (load_settings w); try done.
  destruct (load_state w) as [persisted|] eqn:E; [|done]. destruct (cached_is_merged w _ E) as [cache ->].
  intros [= <- <-]. split; [done|]. by exists persisted, cache.
Qed.

(** The probes of a round: what was asked at [now] in a world with the route and
    the file of the start, and the outcomes that arrived. The candidates have
    different outbounds; none is the route or backed off. *)
Definition probed (w : W) (old : RuntimeState) (candidates : list managedReserveCandidate) (now : Time)
    (results : list (nat * option string * Duration)) : Prop :=
  exists route w1 w2,
    (SelectedOutbound w).1 = Ok route /\ (clock (SelectedOutbound w).2).1 = now /\
    selected w1 = selected w /\ load_state w1 = load_state w /\
    probe_batch (candidate_tag <$> candidates) w1 = (results, w2) /\
    (length candidates <= managedReserveProbeLimit)%nat /\ NoDup (candidate_tag <$> candidates) /\
    Forall (fun c => candidate_tag c <> route /\ backed_off old now (candidate_tag c) = false) candidates.

(** The state file after a round from [old] with these probes: the confirmed
    outbounds belong to candidates that answered, and the health of a node and
    the backoff of an outbound are the old ones continued by the outcomes of
    their own probes. *)
Definition round_saved (old : RuntimeState) (candidates : list managedReserveCandidate) (now : Time)
    (results : list (nat * option string * Duration)) (st : RuntimeState) : Prop :=
  exists backoff health successful reserves challenger,
    st = reload_state (settle_operational_mode
      (old <| RuntimeState.CandidateBackoff := backoff |> <| RuntimeState.Health := health |>
           <| RuntimeState.RuntimeOutbounds :=
                filter (fun o => managed_role o = false) (RuntimeState.RuntimeOutbounds old) ++ reserves ++ challenger |>)) /\
    (length reserves <= managedReserveLimit)%nat /\ (length challenger <= 1)%nat /\
    Forall (fun o => confirmed_outbound successful health now o /\ RuntimeOutboundState.Role o = role_reserve) reserves /\
    Forall (fun o => confirmed_outbound successful health now o /\ RuntimeOutboundState.Role o = role_candidate) challenger /\
    Forall (fun o => managed_role o = true) (reserves ++ challenger) /\
    (forall c, c ∈ successful <-> answered candidates results c) /\
    (forall id, health !! id = probed_health candidates results now (RuntimeState.Health old) id) /\
    (forall tag, probed_backoff candidates results (RuntimeState.CandidateBackoff old) tag (backoff !! tag)).

Lemma selected_saved old candidates now results :
  let r := foldl (record_probe candidates now)
             (RoundState.mk (RuntimeState.CandidateBackoff old) (RuntimeState.Health old) []) results in
  round_saved old candidates now results (reload_state (settle_operational_mode
    (old <| RuntimeState.CandidateBackoff := RoundState.backoff r |> <| RuntimeState.Health := RoundState.health r |>
         <| RuntimeState.RuntimeOutbounds := round_outbounds (RuntimeState.RuntimeOutbounds old)
              (selectManagedReserveStates (RoundState.successful r) (RoundState.health r)
                 (RuntimeState.RuntimeOutbounds old) now) |>))).
Proof.
  intros r.
  destruct (selected_reserves (RoundState.successful r) (RoundState.health r) (RuntimeState.RuntimeOutbounds old) now)
    as (reserves & challenger & -> & Hr & Hc & Fr & Fc & _).
  exists (RoundState.backoff r), (RoundState.health r), (RoundState.successful r), reserves, challenger. split_and!; try done.
  - apply Forall_app. split; [eapply Forall_impl; [exact Fr|]|eapply Forall_impl; [exact Fc|]];
      intros o [_ Ho]; unfold managed_role; by rewrite Ho.
  - intros c. unfold r. rewrite recorded_successes. set_solver.
  - intros id. apply recorded_health.
  - intros tag. apply recorded_backoff.
Qed.

Lemma maintained_file w w' :
  MaintainManagedReserves fingerprint w = (Ok tt, w') ->
  load_state w' = load_state w \/
  exists old candidates now results st, round_start w old /\ probed w old candidates now results /\
    load_state w' = Ok st /\ round_saved old candidates now results st.
Proof.
  unfold MaintainManagedReserves. intros (snapshot & w1 & Hsnap & Hk)%bind_ok.
  apply captured_state in Hsnap as [-> Hold]. revert Hk.
  destruct (_ && _); [by intros [= <-]; left|]. intros (s & w2 & Hs%outcome_ok & Hk)%bind_ok.
  pose proof (read_keeps_file w) as Hf. pose proof (select_pure w) as Hp. rewrite Hs in Hf, Hp. cbn [snd] in Hf, Hp.
  destruct s as [s|e]; [|injection Hk as <-; by left]. apply bind_ok in Hk as (now & w3 & Hn & Hk).
  pose proof (keeps_use load_state _ _ _ _ (keeps_time _ file_quiet) Hn) as Hf'.
  pose proof (keeps_use selected _ _ _ _ (keeps_time _ selected_quiet) Hn) as Hp'.
  apply time_read in Hn. destruct (managedReserveProbeOrder _ _ _ _) as [ordered|]; [|by apply raise_ok in Hk].
  apply bind_ok in Hk as (p & w4 & Hpick & Hk).
  pose proof (keeps_use load_state _ _ _ _ (keeps_pick _ file_quiet _ _ _ _) Hpick) as Hf''.
  pose proof (keeps_use selected _ _ _ _ (keeps_pick _ selected_quiet _ _ _ _) Hpick) as Hp''.
  apply (picked_candidates s) in Hpick as [Hlen Hdup Hin Hnew]; [|apply nothing_picked].
  apply bind_ok in Hk as (results & w5 & Hr & Hk).
  pose proof (keeps_use load_state _ _ _ _ (keeps_probes _ file_quiet _) Hr) as Hf3. apply outcome_ok in Hr.
  apply finished_round_file in Hk as [Hk|Hk]; [left; congruence|]. right.
  eexists _, (Picked.candidates p), now, results, _. split; [exact Hold|]. split; [|split; [exact Hk|apply selected_saved]].
  exists s, w4, w5. rewrite Hs. split_and!; try done; congruence.
Qed.

(** C4: a round of maintenance never moves the route, whether it succeeds or fails.
    A round without an error either leaves the state file as it was, or starts
    from the state on file (merged with the cached observations) and saves it with
    only the backoff, the health and the managed outbounds changed: the unmanaged
    outbounds stay in place, followed by at most two reserves and one challenger.
    Each of those belongs to a candidate whose probe in this round came back
    without an error, which is neither the route nor backed off, and has two
    successes in a row; the health of every node is its old health continued by
    the outcomes of its own probes. Of a round that ends in an error only the
    route is claimed. *)
Theorem maintenance_keeps_route w :
  selected (MaintainManagedReserves fingerprint w).2 = selected w /\
  (forall w', MaintainManagedReserves fingerprint w = (Ok tt, w') ->
     load_state w' = load_state w \/
     exists old candidates now results st, round_start w old /\ probed w old candidates now results /\
       load_state w' = Ok st /\ round_saved old candidates now results st).
Proof. split; [apply maintenance_keeps|apply maintained_file]. Qed.

End Maintenance.

(** ** On the world in memory *)

#[export] Instance world_auto : AutoRuntime MemoryWorld := {
  snapshot_subscriptions _ := Ok [sample_subscription "s" (world_node <$> ["a"; "b"; "c"; "d"])];
  deep_equal _ _ := true;
  probe_batch tags w := (imap (fun i _ => (i, None, 50)) tags, w);
  connect_awg _ _ _ w := (None, w);
  remember_health _ w := w;
  should_persist _ _ _ := true;
  cancelled _ := None;
  wall_clock _ := 6 * Minute
}.

(** The process never touches the state file. *)
Lemma world_api_file cmd w r w' : world_api cmd w = (r, w') -> load_state w' = load_state w.
Proof.
  unfold world_api, on_process. destruct (memory_api cmd (world_process w)). by intros [= _ <-].
Qed.

Ltac world_calls :=
  repeat match goal with
  | |- context [world_api ?c ?w] => destruct (world_api c w) as [[?|?] ?] eqn:?
  | |- context [bool_decide ?P] => destruct (bool_decide P)
  end; cbn [snd]; repeat match goal with E : world_api _ _ = _ |- _ => apply world_api_file in E end; congruence.

Lemma world_read_file w : load_state (SelectedOutbound w).2 = load_state w.
Proof.
  change (SelectedOutbound w) with (selectedBalancerTarget world_api managedBalancerTag w).
  unfold selectedBalancerTarget. world_calls.
Qed.

Lemma world_remove_file tag w : load_state (RemoveOutbound tag w).2 = load_state w.
Proof.
  change (RemoveOutbound tag w) with (xray_RemoveOutbound world_api tag w).
  unfold xray_RemoveOutbound, outboundPresent. destruct (validateManagedTag tag true); [done|]. world_calls.
Qed.

Lemma world_prepare_file node mark w : load_state (PrepareOutbound node mark w).2 = load_state w.
Proof.
  change (PrepareOutbound node mark w) with
    (xray_PrepareOutbound world_api memory_node (fun _ => "cannot build the outbound") node mark w).
  unfold xray_PrepareOutbound, memory_node, add_outbound, outboundPresent. world_calls.
Qed.

Lemma world_auto_laws : AutoRuntimeLaws MemoryWorld.
Proof.
  split; try (intros; reflexivity).
  - exact world_runtime_laws.
  - exact world_read_file.
  - exact world_prepare_file.
  - exact world_remove_file.
  - intros w persisted E. by exists None.
Qed.

(** Node [b] is a reserve; [d] was retired and its outbound is still listed. *)
Definition retired_d : RuntimeOutboundState :=
  RuntimeOutboundState.mk (managedOutboundPrefix +:+ "d") "s" "d" role_draining zero_time (S754_zero false) 0 "" 0
    (5 * Minute) (30 * Minute).

Definition one_success (id : string) : NodeHealth :=
  UpdateHealth (NodeHealth.zero <| NodeHealth.NodeID := id |>) true 50 Minute "" 2.

Definition retired_state : RuntimeState :=
  (world_state OperationalModeVPN)
    <| RuntimeState.Health := {[ "b" := one_success "b"; "d" := one_success "d";
         "c" := UpdateHealth (NodeHealth.zero <| NodeHealth.NodeID := "c" |>) false 50 Minute "timeout" 2 ]} |>
    <| RuntimeState.RuntimeOutbounds := [world_outbound "a" role_active; world_outbound "b" role_reserve; retired_d] |>.

Definition retired_world : MemoryWorld :=
  Build_MemoryWorld
    (Build_Memory ((fun id => managedOutboundPrefix +:+ id) <$> ["a"; "b"; "d"])
       {[ managedBalancerTag := managedOutboundPrefix +:+ "a" ]})
    (Some (stored retired_state)) None None None.

Abbreviation round := (MaintainManagedReserves Node.ID).
Definition listed (r : result string RuntimeState) : list (string * string) :=
  match r with
  | Ok st => (fun o => (RuntimeOutboundState.NodeID o, RuntimeOutboundState.Role o)) <$> RuntimeState.RuntimeOutbounds st
  | Err _ => []
  end.

Lemma maintenance_keeps_route_witness :
  (round retired_world).1 = Ok tt /\
  selected (round retired_world).2 = Some (managedOutboundPrefix +:+ "a") /\
  exists old candidates now results st, probed retired_world old candidates now results /\
    load_state (round retired_world).2 = Ok st /\ round_saved old candidates now results st.
Proof.
  assert (E : (round retired_world).1 = Ok tt) by (vm_compute; reflexivity). split; [exact E|].
  destruct (maintenance_keeps_route (H3 := world_auto_laws) Node.ID retired_world) as [Hs Hf].
  split; [rewrite Hs; vm_compute; reflexivity|].
  destruct (Hf _ (run_eq (round retired_world) (Ok tt) E)) 
    as [Hk|(old & candidates & now & results & st & _ & Hp & Hst & Hr)];
    [|exists old, candidates, now, results, st; split; [exact Hp|split; [exact Hst|exact Hr]]].
  exfalso. apply (f_equal (fun r => length (listed r))) in Hk. vm_compute in Hk. discriminate Hk.
Defined.

(** A retired outbound that is chosen again is listed twice, and the cleanup of
    retired outbounds then takes it away from the reserve. *)
Example retired_reserve_is_removed :
  let w := (round retired_world).2 in
  let w' := (CleanupManagedOutbounds (7 * Minute) w).2 in
  listed (load_state w) = [("a", "active"); ("d", "draining"); ("b", "reserve"); ("d", "reserve")] /\
  listed (load_state w') = [("a", "active"); ("b", "reserve"); ("d", "reserve")] /\
  memory_outbounds (world_process w') = (fun id => managedOutboundPrefix +:+ id) <$> ["a"; "b"].
Proof. vm_compute. by split_and!. Qed.
