(* ===== verification/AutoCommit.v ===== *)
(** * Committing an automatic selection

    [commitAutoSelection] and the health checks of [app/auto.go], the attempts
    of [commitPreparedAutoSelection], the zapret fallback and the disconnection
    of [app/service.go].

    The store lock, held throughout a commit, and the log are not modelled. *)
From S2P Require Import Prelude GoRunes GoStrings GoNum NetIP Domain Firewall FirewallSettings.
From S2P Require Import Zapret Settings Connection Probe Migrations PersistFacts AutoState.
From S2P Require Import AutoSelect AutoSelectFacts Reserves XrayConfig XrayFacts BackendRequest.
From S2P Require Import ManagedBackend Scheduler Effects ManagedSwitch ManagedSwitchFacts.
From S2P Require Import MemoryWorld NodeSelection NodeSelectionFacts ReserveRound.
From S2P Require Import ReserveRoundFacts.

Local Open Scope Z_scope.
Local Open Scope list_scope.

Definition maxAutoCandidateApplyAttempts : nat := 3.

(** [firstNonEmpty] of [app/service.go], which trims. *)
Definition first_given (values : list string) : string :=
  match filter (fun v => TrimSpace v <> "") values with
  | v :: _ => TrimSpace v
  | [] => ""
  end.

(** ** States *)

(** What the settings say of the mode. *)
Definition auto_settings (settings : Settings) : Settings :=
  settings <| Settings.AutoMode := true |> <| Settings.Mode := SelectionModeAuto |>.

Definition committed_state (sub : Subscription) (decision : autoSelectionDecision) (state : RuntimeState)
    : RuntimeState :=
  state <| RuntimeState.Health := autoSelectionDecision.Health decision |>
        <| RuntimeState.OptimizationCandidateID := "" |>
        <| RuntimeState.OptimizationCandidateWins := 0 |>
        <| RuntimeState.Mode := SelectionModeAuto |>
        <| RuntimeState.Connected := true |>
        <| RuntimeState.ActiveSubscriptionID := Subscription.ID sub |>
        <| RuntimeState.ActiveNodeID := Node.ID (autoSelectionDecision.SelectedNode decision) |>.

Definition auto_failed_state (sub : Subscription) (decision : autoSelectionDecision) (state : RuntimeState)
    : RuntimeState :=
  let state := state <| RuntimeState.Health := autoSelectionDecision.Health decision |>
                     <| RuntimeState.Mode := SelectionModeAuto |>
                     <| RuntimeState.Connected := false |> in
  let state := if bool_decide (RuntimeState.ActiveSubscriptionID state = "")
               then state <| RuntimeState.ActiveSubscriptionID := Subscription.ID sub |> else state in
  let state := if bool_decide (RuntimeState.ActiveNodeID state = "")
               then state <| RuntimeState.ActiveNodeID := autoSelectionDecision.CurrentNodeID decision |> else state in
  state <| RuntimeState.LastFailureReason := autoSelectionDecision.Reason decision |>.

Definition zapretExpandedTargets (settings : Settings) : result string (list string) :=
  let normalized := CanonicalZapretSettingsWithCatalog (Settings.Zapret settings)
    (FirewallSettings.TargetServiceCatalog (Settings.Firewall settings)) in
  let domains := FirewallSelectorSet.Domains (ZapretSettings.Selectors normalized) in
  if bool_decide (domains = []) then Err "zapret selectors are empty" else Ok domains.

(** Why zapret is not active after [Apply]. *)
Definition zapretActivationError (status : ZapretStatus.ZapretStatus) (err : option string) (inactiveDetail : string)
    : option string :=
  match err with
  | Some e => Some (first_given [ZapretStatus.LastReason status; e])
  | None =>
    if negb (ZapretStatus.Installed status) then Some "zapret package is not installed"
    else if negb (ZapretStatus.Managed status)
    then Some (first_given [ZapretStatus.LastReason status; "external/unmanaged zapret is active"])
    else if negb (ZapretStatus.Active status)
    then Some (first_given [ZapretStatus.LastReason status; inactiveDetail])
    else None
  end.

Definition transport_direct_state (state : RuntimeState) (subscriptionID nodeID mode reason transportFailure : string)
    (now : Time) : RuntimeState :=
  let state := state <| RuntimeState.ActiveSubscriptionID := subscriptionID |> in
  let state := if bool_decide (TrimSpace nodeID = "") then state
               else state <| RuntimeState.ActiveNodeID := nodeID |> in
  let state := state <| RuntimeState.Mode := mode |> <| RuntimeState.Connected := false |> in
  let state := if bool_decide (RuntimeState.ActiveTransport state = TransportModeDirect) then state
               else state <| RuntimeState.LastTransportSwitchAt := now |> in
  clearZapretTestState
    (state <| RuntimeState.ActiveTransport := TransportModeDirect |>
           <| RuntimeState.LastFailureReason := first_given [reason; transportFailure] |>
           <| RuntimeState.LastTransportFailureReason := first_given [transportFailure; reason] |>).

Definition zapret_state (state : RuntimeState) (sub : Subscription) (reason : string) (now : Time) : RuntimeState :=
  let state := if bool_decide (RuntimeState.ActiveTransport state = TransportModeZapret) then state
               else state <| RuntimeState.LastTransportSwitchAt := now |> in
  clearZapretTestState
    (state <| RuntimeState.ActiveTransport := TransportModeZapret |>
           <| RuntimeState.ActiveSubscriptionID := Subscription.ID sub |>
           <| RuntimeState.Mode := SelectionModeAuto |>
           <| RuntimeState.Connected := true |>
           <| RuntimeState.LastSuccessAt := now |>
           <| RuntimeState.LastFailureReason := reason |>
           <| RuntimeState.LastTransportFailureReason := "" |>).

(** What a disconnection remembers and what it clears. *)
Definition with_resume (previous state : RuntimeState) : RuntimeState :=
  if RuntimeState.Connected previous
  then state <| RuntimeState.ResumeConnection := Some (ResumeConnection.mk
         (RuntimeState.ActiveSubscriptionID previous) (RuntimeState.ActiveNodeID previous)
         (RuntimeState.Mode previous) (RuntimeState.AutoScope previous) (RuntimeState.ActiveAWGProfileID previous)) |>
  else state.

Definition detached (state : RuntimeState) : RuntimeState :=
  state <| RuntimeState.ActiveNodeID := "" |>
        <| RuntimeState.ActiveSubscriptionID := "" |>
        <| RuntimeState.ActiveNodeName := "" |>
        <| RuntimeState.AutoScope := "" |>
        <| RuntimeState.Mode := SelectionModeDisconnected |>
        <| RuntimeState.Connected := false |>.

(** The loop variables of the attempts. *)
Module Attempts.
Record Attempts : Type := mk {
  decision : autoSelectionDecision;
  selectedSub : Subscription;
  fallbackSub : Subscription;
  selectedNode : Node;
  lastApplyErr : option Fault
}.
End Attempts.
Abbreviation Attempts := Attempts.Attempts.

Definition exclude_candidate (settings : Settings) (sub : Subscription) (node : Node) : Settings :=
  settings <| Settings.AutoExcludedNodes ::= fun l =>
    NormalizeAutoExcludedNodes (l ++ [AutoExcludedNodeKey (Subscription.ID sub) (Node.ID node)]) |>.

(** The state a candidate's successor is chosen on. *)
Definition state_after_failure (decision : autoSelectionDecision) (state : RuntimeState) : RuntimeState :=
  state <| RuntimeState.Health ::= fun h => mergeProbeHealth (map_to_list h) (autoSelectionDecision.Health decision)
             (Node.ID (autoSelectionDecision.SelectedNode decision)) |>.

Section Commit.
  Context `{ManagedBackend W, Router W, Runtime W, AutoRuntime W}.
  Context (rfc3339 : Time -> string) (url_host : string -> option (string * string)).

Abbreviation App := (Prog W Fault).

Definition load_cached_as (context : string) : App RuntimeState := fun w =>
  match load_cached_state w with
  | Ok s => (Ok s, w)
  | Err e => (Err (wrap context e), w)
  end.

(** [ctx.Err()]. *)
Definition check_context : App unit :=
  err ← reads cancelled; match err with Some e => raise (fault e) | None => mret tt end.

(** [state.X = s.currentTime()] under a condition. *)
Definition stamp (b : bool) (set : Time -> RuntimeState -> RuntimeState) (state : RuntimeState) : App RuntimeState :=
  if b then now ← currentTime; mret (set now state) else mret state.

(** [_ = s.store.SaveSettings(settings)]. *)
Definition save_settings (settings : Settings) : App unit := ignore (act fault (store_settings settings)).

(** ** One candidate *)

Definition apply_candidate (sub : Subscription) (currentState : RuntimeState) (node : Node) : App unit :=
  if bool_decide (Node.Protocol node = ProtocolAmneziaWG)
  then map_error markRetryableCandidateError
         (act fault (connect_awg (Node.ID node) SelectionModeAuto (RuntimeState.AutoScope currentState)))
  else applyNodeSelection rfc3339 url_host sub node SelectionModeAuto (selectionOptionsForState currentState).

Definition commitAutoSelection (sub : Subscription) (currentState : RuntimeState) (decision : autoSelectionDecision)
    : App Node :=
  let node := autoSelectionDecision.SelectedNode decision in
  _ ← apply_candidate sub currentState node;
  state ← load_state_as "load state";
  state ← stamp (negb (bool_decide (effectiveActiveTransport currentState = TransportModeProxy)))
    (fun now s => s <| RuntimeState.LastTransportSwitchAt := now |>) (committed_state sub decision state);
  let state := state <| RuntimeState.ActiveTransport := TransportModeProxy |>
                     <| RuntimeState.LastTransportFailureReason := "" |> in
  let previous := match NodeByID sub (RuntimeState.ActiveNodeID currentState) with
                  | Some n => nodeLabel n
                  | None => RuntimeState.ActiveNodeID currentState
                  end in
  state ← stamp (autoSelectionDecision.Switch decision)
    (fun now s => s <| RuntimeState.LastSwitchAt := now |>
                    <| RuntimeState.LastSwitchReason :=
                         switchReason "automatic optimization" previous node (autoSelectionDecision.Reason decision) |>)
    state;
  _ ← save_as "save state" state;
  mret node.

Definition persistAutoScope (scope : string) : App unit :=
  state ← load_state_as "load state";
  save_as "save state" (state <| RuntimeState.AutoScope := scope |>).

(** ** Failing *)

Definition persistAutoFailure (sub : Subscription) (state : RuntimeState) (decision : autoSelectionDecision) : App unit :=
  let cur := autoSelectionDecision.CurrentNodeID decision in
  let failedNodeID := if bool_decide (cur = "") then RuntimeState.ActiveNodeID state else cur in
  state ← (if RuntimeState.Connected state
           then _ ← markConnectionFailed (Subscription.ID sub) failedNodeID SelectionModeAuto
                      (autoSelectionDecision.Reason decision);
                load_state_as "load state"
           else mret state);
  save_as "save state" (auto_failed_state sub decision state).

Definition persistGlobalAutoFailure (sub : Subscription) (state : RuntimeState) (decision : autoSelectionDecision)
    : App unit :=
  _ ← persistAutoFailure sub (state <| RuntimeState.AutoScope := autoScopeAll |>) decision;
  persistAutoScope autoScopeAll.

(** This ends in an error. *)
Definition markTransportDirect (state : RuntimeState) (subscriptionID nodeID mode reason transportFailure : string)
    : App unit :=
  _ ← map_error (wrap_fault "disable proxy transport") stopProxyTransport;
  _ ← act (wrap "disable zapret") zapret_disable;
  now ← currentTime;
  let state := transport_direct_state state subscriptionID nodeID mode reason transportFailure now in
  _ ← save_as "save state" state;
  raise (fault (RuntimeState.LastTransportFailureReason state)).

Definition activateZapretFallback (sub : Subscription) (state : RuntimeState) (settings : Settings) (reason : string)
    : App unit :=
  let state := state <| RuntimeState.ActiveTransport := effectiveActiveTransport state |> in
  let direct := markTransportDirect state (Subscription.ID sub) (RuntimeState.ActiveNodeID state) SelectionModeAuto reason in
  if negb (ZapretSettings.Enabled (Settings.Zapret settings)) then direct "zapret fallback is disabled"
  else
    match zapretExpandedTargets settings with
    | Err e => direct e
    | Ok domains =>
      _ ← when (negb (bool_decide (RuntimeState.ActiveTransport state = TransportModeZapret)))
            (map_error (wrap_fault "disable proxy transport before zapret fallback") stopProxyTransport);
      applied ← outcome (zapret_apply domains);
      match zapretActivationError applied.1 applied.2 "zapret fallback did not become active" with
      | Some detail => direct detail
      | None =>
        now ← currentTime;
        save_as "save state" (zapret_state state sub reason now)
      end
    end.

(** ** The health check *)

(** Saved when it is due, remembered in the cache otherwise. *)
Definition persist_or_remember (context : string -> Fault) (persistedState state : RuntimeState) : App unit :=
  due ← reads (should_persist persistedState state);
  if (due : bool) then act context (save_state state) else outcome (fun w => (tt, remember_health state w)).

(** Whether a candidate is good enough, for long enough, to leave zapret. *)
Definition canFailbackFromZapret (settings : Settings) (state : RuntimeState) (decision : autoSelectionDecision) : App bool :=
  let id := Node.ID (autoSelectionDecision.CandidateNode decision) in
  let threshold := ZapretSettings.FailbackSuccessThreshold (CanonicalZapretSettings (Settings.Zapret settings)) in
  let threshold := if threshold <? 1 then ZapretSettings.FailbackSuccessThreshold DefaultZapretSettings else threshold in
  let cooldown := Settings.SwitchCooldown settings in
  if negb (autoSelectionDecision.HasHealthyCandidate decision) || bool_decide (TrimSpace id = "") then mret false
  else if NodeHealth.ConsecutiveSuccesses (health_of (autoSelectionDecision.Health decision) id) <? threshold
  then mret false
  else if (cooldown <=? 0) || IsZero (RuntimeState.LastTransportSwitchAt state) then mret true
  else now ← currentTime; mret (cooldown <=? Sub now (RuntimeState.LastTransportSwitchAt state)).

Definition zapret_health_state (sub : Subscription) (decision : autoSelectionDecision) (state : RuntimeState) : RuntimeState :=
  let state := state <| RuntimeState.ActiveTransport := TransportModeZapret |>
                     <| RuntimeState.Mode := SelectionModeAuto |>
                     <| RuntimeState.ActiveSubscriptionID := Subscription.ID sub |>
                     <| RuntimeState.Connected := true |>
                     <| RuntimeState.Health := autoSelectionDecision.Health decision |> in
  if bool_decide (RuntimeState.LastFailureReason state = "")
  then state <| RuntimeState.LastFailureReason := autoSelectionDecision.Reason decision |> else state.

Definition handleZapretAutoHealthDecision (sub : Subscription) (settings : Settings)
    (persistedState state : RuntimeState) (decision : autoSelectionDecision) : App unit :=
  let state := zapret_health_state sub decision state in
  back ← canFailbackFromZapret settings state decision;
  if (back : bool) then _ ← commitAutoSelection sub state decision; mret tt
  else persist_or_remember (wrap "save state") persistedState state.

(** The state of a route that stays. *)
Definition kept_state (decision : autoSelectionDecision) (state : RuntimeState) : RuntimeState :=
  state <| RuntimeState.Health := autoSelectionDecision.Health decision |>
        <| RuntimeState.OptimizationCandidateID := autoSelectionDecision.OptimizationCandidateID decision |>
        <| RuntimeState.OptimizationCandidateWins := autoSelectionDecision.OptimizationCandidateWins decision |>
        <| RuntimeState.LastFailureReason := "" |>.

Definition commitPreparedAutoHealthCheckAll (prepared : preparedAutoSelection) : App unit :=
  let snapshot := preparedAutoSelection.snapshot prepared in
  let settings := autoSelectionSnapshot.settings snapshot in
  let persistedState := autoSelectionSnapshot.persistedState snapshot in
  let state := autoSelectionSnapshot.state snapshot in
  let decision := preparedAutoSelection.decision prepared in
  let selectedSub := preparedAutoSelection.selectedSub prepared in
  let fallbackSub := preparedAutoSelection.fallbackSub prepared in
  if bool_decide (effectiveActiveTransport state = TransportModeZapret)
  then
    let selectedSub := if bool_decide (Subscription.ID selectedSub = "") then fallbackSub else selectedSub in
    _ ← handleZapretAutoHealthDecision selectedSub settings persistedState state decision;
    persistAutoScope autoScopeAll
  else if negb (autoSelectionDecision.HasHealthyCandidate decision)
  then
    if ZapretSettings.Enabled (Settings.Zapret settings) && negb (bool_decide (Subscription.ID fallbackSub = ""))
    then
      _ ← activateZapretFallback fallbackSub state settings (autoSelectionDecision.Reason decision);
      persistAutoScope autoScopeAll
    else if bool_decide (Subscription.ID fallbackSub = "")
    then act fault (save_state (state
           <| RuntimeState.Health := autoSelectionDecision.Health decision |>
           <| RuntimeState.Connected := false |>
           <| RuntimeState.LastFailureReason := autoSelectionDecision.Reason decision |>))
    else persistGlobalAutoFailure fallbackSub state decision
  else if negb (autoSelectionDecision.Reconnect decision) && negb (autoSelectionDecision.Switch decision)
  then persist_or_remember fault persistedState ((kept_state decision state) <| RuntimeState.AutoScope := autoScopeAll |>)
  else
    _ ← commitAutoSelection selectedSub state decision;
    persistAutoScope autoScopeAll.

Definition commitPreparedAutoHealthCheck (prepared : preparedAutoSelection) : App unit :=
  let snapshot := preparedAutoSelection.snapshot prepared in
  let settings := autoSelectionSnapshot.settings snapshot in
  let persistedState := autoSelectionSnapshot.persistedState snapshot in
  let state := autoSelectionSnapshot.state snapshot in
  let decision := preparedAutoSelection.decision prepared in
  let sub := preparedAutoSelection.sub prepared in
  if preparedAutoSelection.all prepared then commitPreparedAutoHealthCheckAll prepared
  else if bool_decide (effectiveActiveTransport state = TransportModeZapret)
  then handleZapretAutoHealthDecision sub settings persistedState state decision
  else if negb (autoSelectionDecision.HasHealthyCandidate decision)
  then
    if ZapretSettings.Enabled (Settings.Zapret settings)
    then activateZapretFallback sub state settings (autoSelectionDecision.Reason decision)
    else persistAutoFailure sub state decision
  else if negb (autoSelectionDecision.Reconnect decision) && negb (autoSelectionDecision.Switch decision)
  then persist_or_remember (wrap "save state") persistedState (kept_state decision state)
  else _ ← commitAutoSelection sub state decision; mret tt.

(** ** Several candidates *)

(** No probe runs while candidates are tried. *)
Definition reevaluate (sub : Subscription) (settings : Settings) (state : RuntimeState) : App autoSelectionDecision :=
  now ← currentTime;
  wall ← reads wall_clock;
  of_result match evaluateAutoSelection now wall (fun _ => []) (fun _ => None) sub settings state false with
            | Ok d => Ok d
            | Err NoNodes => Err (fault "no nodes to select from")
            end.

Definition reevaluate_all (subscriptions : list Subscription) (settings : Settings) (state : RuntimeState)
    : App (autoSelectionDecision * Subscription * Subscription) :=
  now ← currentTime;
  wall ← reads wall_clock;
  of_result match evaluateAutoSelectionAll now wall (fun _ => []) (fun _ => None) subscriptions settings state false with
            | Ok d => Ok d
            | Err NoNodes => Err (fault "no nodes to select from")
            end.

(** The loop over the candidates.  Each attempt is made with the state of the
    snapshot, [state]: the one that is loaded after a failure only serves to
    choose the next candidate. *)
Fixpoint try_candidates (attempts : nat) (sub : Subscription) (state : RuntimeState) (settings : Settings) (a : Attempts)
    : App Attempts :=
  match attempts with
  | O => mret a
  | S attempts =>
    _ ← check_context;
    let decision := Attempts.decision a in
    if negb (autoSelectionDecision.HasHealthyCandidate decision) then mret a
    else
      applied ← attempt (commitAutoSelection sub state decision);
      match applied with
      | Ok node => mret (Attempts.mk decision sub sub node None)
      | Err e =>
        _ ← check_context;
        if negb (fault_retryable e) then raise e
        else
          let settings := exclude_candidate settings sub (autoSelectionDecision.SelectedNode decision) in
          fresh ← load_cached_as "load state after failed candidate";
          decision ← reevaluate sub settings (state_after_failure decision fresh);
          try_candidates attempts sub state settings (Attempts.mk decision sub sub Node.zero (Some e))
      end
  end.

Fixpoint try_candidates_all (attempts : nat) (subscriptions : list Subscription) (state : RuntimeState)
    (settings : Settings) (a : Attempts) : App Attempts :=
  match attempts with
  | O => mret a
  | S attempts =>
    _ ← check_context;
    let decision := Attempts.decision a in
    let sub := Attempts.selectedSub a in
    if negb (autoSelectionDecision.HasHealthyCandidate decision) then mret a
    else
      applied ← attempt (commitAutoSelection sub state decision);
      match applied with
      | Ok node => mret (Attempts.mk decision sub (Attempts.fallbackSub a) node None)
      | Err e =>
        _ ← check_context;
        if negb (fault_retryable e) then raise e
        else
          let settings := exclude_candidate settings sub (autoSelectionDecision.SelectedNode decision) in
          fresh ← load_cached_as "load state after failed global candidate";
          next ← reevaluate_all subscriptions settings
            (state_after_failure decision (fresh <| RuntimeState.AutoScope := autoScopeAll |>));
          try_candidates_all attempts subscriptions state settings
            (Attempts.mk next.1.1 next.1.2 next.2 Node.zero (Some e))
      end
  end.

(** The last error, when a healthy candidate was left but the attempts were used up. *)
Definition exhausted (a : Attempts) : option Fault :=
  match Attempts.lastApplyErr a with
  | Some e => if bool_decide (Node.ID (Attempts.selectedNode a) = "")
                 && autoSelectionDecision.HasHealthyCandidate (Attempts.decision a)
              then Some e else None
  | None => None
  end.

Definition no_candidate_state (decision : autoSelectionDecision) (state : RuntimeState) : RuntimeState :=
  state <| RuntimeState.Health := autoSelectionDecision.Health decision |>
        <| RuntimeState.Mode := SelectionModeAuto |>
        <| RuntimeState.LastFailureReason := autoSelectionDecision.Reason decision |>.

Definition commitPreparedAutoSelectionSingle (prepared : preparedAutoSelection) : App Node :=
  let snapshot := preparedAutoSelection.snapshot prepared in
  let settings := autoSelectionSnapshot.settings snapshot in
  let state := autoSelectionSnapshot.state snapshot in
  let sub := preparedAutoSelection.sub prepared in
  wall ← reads wall_clock;
  let maxAttempts := min maxAutoCandidateApplyAttempts (length (autoSelectableNodes wall sub settings)) in
  a ← try_candidates maxAttempts sub state settings
    (Attempts.mk (preparedAutoSelection.decision prepared) sub sub Node.zero None);
  let decision := Attempts.decision a in
  match exhausted a with
  | Some e => raise (wrap_fault ("auto candidate verification stopped after " +:+ Itoa (Z.of_nat maxAttempts)
                                 +:+ " attempts") e)
  | None =>
    if negb (autoSelectionDecision.HasHealthyCandidate decision)
    then
      let state := (no_candidate_state decision state) <| RuntimeState.ActiveSubscriptionID := Subscription.ID sub |> in
      if ZapretSettings.Enabled (Settings.Zapret settings)
      then
        _ ← activateZapretFallback sub state settings (autoSelectionDecision.Reason decision);
        _ ← save_settings (auto_settings settings);
        mret Node.zero
      else
        _ ← save_as "save state" state;
        raise (fault (autoSelectionDecision.Reason decision))
    else
      match Attempts.lastApplyErr a with
      | None =>
        updated ← reads load_state;
        _ ← match updated with
            | Ok s => ignore (act fault (save_state (s <| RuntimeState.AutoScope := Subscription.ID sub |>)))
            | Err _ => mret tt
            end;
        _ ← save_settings (auto_settings settings);
        mret (Attempts.selectedNode a)
      | Some _ => mret (Attempts.selectedNode a)
      end
  end.

Definition commitPreparedAutoSelectionAll (prepared : preparedAutoSelection) : App Node :=
  let snapshot := preparedAutoSelection.snapshot prepared in
  let subscriptions := autoSelectionSnapshot.subscriptions snapshot in
  let settings := autoSelectionSnapshot.settings snapshot in
  let state := (autoSelectionSnapshot.state snapshot) <| RuntimeState.AutoScope := autoScopeAll |> in
  wall ← reads wall_clock;
  let maxAttempts := min maxAutoCandidateApplyAttempts
    (sum_list (length <$> ((fun sub => autoSelectableNodes wall sub settings) <$> subscriptions))) in
  a ← try_candidates_all maxAttempts subscriptions state settings
    (Attempts.mk (preparedAutoSelection.decision prepared) (preparedAutoSelection.selectedSub prepared)
       (preparedAutoSelection.fallbackSub prepared) Node.zero None);
  let decision := Attempts.decision a in
  let fallbackSub := Attempts.fallbackSub a in
  let fallback := negb (bool_decide (Subscription.ID fallbackSub = "")) in
  match exhausted a with
  | Some e => raise (wrap_fault ("global auto candidate verification stopped after " +:+ Itoa (Z.of_nat maxAttempts)
                                 +:+ " attempts") e)
  | None =>
    if negb (autoSelectionDecision.HasHealthyCandidate decision)
    then
      let state := (no_candidate_state decision state) <| RuntimeState.AutoScope := autoScopeAll |> in
      let state := if fallback then state <| RuntimeState.ActiveSubscriptionID := Subscription.ID fallbackSub |>
                   else state in
      if ZapretSettings.Enabled (Settings.Zapret settings) && fallback
      then
        _ ← activateZapretFallback fallbackSub state settings (autoSelectionDecision.Reason decision);
        _ ← ignore (persistAutoScope autoScopeAll);
        _ ← save_settings (auto_settings settings);
        mret Node.zero
      else
        _ ← save_as "save state" state;
        raise (fault (autoSelectionDecision.Reason decision))
    else
      _ ← persistAutoScope autoScopeAll;
      _ ← save_settings (auto_settings settings);
      mret (Attempts.selectedNode a)
  end.

Definition commitPreparedAutoSelection (prepared : preparedAutoSelection) : App Node :=
  if preparedAutoSelection.all prepared then commitPreparedAutoSelectionAll prepared
  else commitPreparedAutoSelectionSingle prepared.

(** ** Disconnecting *)

Definition disconnectRuntime : App unit :=
  _ ← stopProxyTransport;
  act (wrap "disable zapret") zapret_disable.

Definition disconnect : App unit :=
  previous ← load_state_as "load state";
  _ ← disconnectRuntime;
  state ← load_state_as "load state";
  state ← stamp (negb (bool_decide (effectiveActiveTransport (detached state) = TransportModeDirect)))
    (fun now s => s <| RuntimeState.LastTransportSwitchAt := now |>) (detached (with_resume previous state));
  _ ← save_as "save state" (clearZapretTestState
    (state <| RuntimeState.ActiveTransport := TransportModeDirect |>
           <| RuntimeState.LastTransportFailureReason := "" |>));
  settings ← reads load_settings;
  match settings with
  | Ok s => save_settings (s <| Settings.AutoMode := false |> <| Settings.Mode := SelectionModeDisconnected |>)
  | Err _ => mret tt
  end.

End Commit.

(** ** Commits: theorems

    What a health check may change, and what is left on file when no candidate
    could be applied. *)

(** ** What a state says of the connection *)

Definition connection (st : RuntimeState) : bool * string * string * string * string :=
  (RuntimeState.Connected st, RuntimeState.ActiveTransport st, RuntimeState.ActiveSubscriptionID st,
   RuntimeState.ActiveNodeID st, RuntimeState.Mode st).

Lemma connection_saved st : connection (reload_state (settle_operational_mode st)) =
  (RuntimeState.Connected st, NormalizeTransportMode (RuntimeState.ActiveTransport st),
   RuntimeState.ActiveSubscriptionID st, RuntimeState.ActiveNodeID st, RuntimeState.Mode st).
Proof. unfold settle_operational_mode. by destruct (bool_decide _). Qed.

Section Commit.
  Context `{AutoRuntimeLaws W}.
  Context (rfc3339 : Time -> string) (url_host : string -> option (string * string)).

(** The loop that tries the candidates of a prepared selection. *)
Definition attempts_of (prepared : preparedAutoSelection) (w : W) : result Fault Attempts * W :=
  let settings := autoSelectionSnapshot.settings (preparedAutoSelection.snapshot prepared) in
  let sub := preparedAutoSelection.sub prepared in
  try_candidates rfc3339 url_host
    (min maxAutoCandidateApplyAttempts (length (autoSelectableNodes (wall_clock w) sub settings))) sub
    (autoSelectionSnapshot.state (preparedAutoSelection.snapshot prepared)) settings
    (Attempts.mk (preparedAutoSelection.decision prepared) sub sub Node.zero None) w.

(** The state that is saved when no candidate is left. *)
Definition abandoned_state (prepared : preparedAutoSelection) (a : Attempts) : RuntimeState :=
  (no_candidate_state (Attempts.decision a) (autoSelectionSnapshot.state (preparedAutoSelection.snapshot prepared)))
    <| RuntimeState.ActiveSubscriptionID := Subscription.ID (preparedAutoSelection.sub prepared) |>.

(** When no candidate could be applied, the state that was captured before the
    attempts is written over whatever they saved.  The file says again that the
    connection is up, over the same route and with the same outbounds and backoff,
    if it said so before: also when a failed attempt has stopped the proxy, taken
    the interception away and recorded the connection as down. *)
Theorem abandoned_commit_restores_snapshot prepared w a v w' :
  let snapshot := preparedAutoSelection.snapshot prepared in
  let state := autoSelectionSnapshot.state snapshot in
  preparedAutoSelection.all prepared = false ->
  ZapretSettings.Enabled (Settings.Zapret (autoSelectionSnapshot.settings snapshot)) = false ->
  attempts_of prepared w = (Ok a, v) ->
  autoSelectionDecision.HasHealthyCandidate (Attempts.decision a) = false ->
  save_state (abandoned_state prepared a) v = (None, w') ->
  commitPreparedAutoSelection rfc3339 url_host prepared w = (Err (fault (autoSelectionDecision.Reason (Attempts.decision a))), w') /\
  selected w' = selected v /\
  exists st, load_state w' = Ok st /\
    RuntimeState.Connected st = RuntimeState.Connected state /\
    RuntimeState.ActiveNodeID st = RuntimeState.ActiveNodeID state /\
    RuntimeState.SelectedOutboundTag st = RuntimeState.SelectedOutboundTag state /\
    RuntimeState.RuntimeOutbounds st = RuntimeState.RuntimeOutbounds state /\
    RuntimeState.CandidateBackoff st = RuntimeState.CandidateBackoff state.
Proof.
  intros snapshot state Hall Hz Ha Hh Hs. split; [|split].
  - unfold commitPreparedAutoSelection, commitPreparedAutoSelectionSingle. rewrite Hall.
    unfold mbind, prog_bind, reads. cbv zeta. unfold attempts_of in Ha. rewrite Ha.
    assert (E : exhausted a = None) by (unfold exhausted; rewrite Hh, andb_false_r; by destruct (Attempts.lastApplyErr a)).
    rewrite E, Hh. fold snapshot. rewrite Hz. cbn [negb]. unfold save_as, act, raise.
    match goal with |- context [save_state ?x v] => change x with (abandoned_state prepared a) end. by rewrite Hs.
  - pose proof (save_keeps_route (abandoned_state prepared a) v) as Hr. by rewrite Hs in Hr.
  - apply saved_is_loaded in Hs. eexists. split; [exact Hs|]. unfold settle_operational_mode.
    by destruct (bool_decide _).
Qed.

(** ** A route that stays *)

Lemma persisted_or_remembered (context : string -> Fault) persistedState state w r w' :
  persist_or_remember context persistedState state w = (r, w') ->
  selected w' = selected w /\
  (r = Ok tt -> load_state w' = load_state w \/ load_state w' = Ok (reload_state (settle_operational_mode state))).
Proof.
  unfold persist_or_remember, mbind, prog_bind, reads. destruct (should_persist persistedState state w).
  - unfold act. pose proof (save_keeps_route state w) as Hr. destruct (save_state state w) as [[e|] w1] eqn:E;
      intros [= <- <-]; (split; [exact Hr|]); [done|]. intros _. right. by apply saved_is_loaded in E.
  - intros [= <- <-]. split; [apply remember_keeps_route|]. intros _. left. apply remember_keeps_file.
Qed.

(** C38: a health check that finds the current node good enough leaves the connection
    alone.  The route does not move.  A check without an error leaves the state file
    as it was, or writes a state with the connection of the snapshot, the measured
    health and no failure. *)
Theorem health_check_keeps_route prepared w r w' :
  let snapshot := preparedAutoSelection.snapshot prepared in
  let state := autoSelectionSnapshot.state snapshot in
  let decision := preparedAutoSelection.decision prepared in
  effectiveActiveTransport state <> TransportModeZapret ->
  autoSelectionDecision.HasHealthyCandidate decision = true ->
  autoSelectionDecision.Reconnect decision = false -> autoSelectionDecision.Switch decision = false ->
  commitPreparedAutoHealthCheck rfc3339 url_host prepared w = (r, w') ->
  selected w' = selected w /\
  (r = Ok tt -> load_state w' = load_state w \/
     exists st, load_state w' = Ok st /\ connection st = connection (reload_state (settle_operational_mode state)) /\
       RuntimeState.Health st = autoSelectionDecision.Health decision /\ RuntimeState.LastFailureReason st = "").
Proof.
  intros snapshot state decision Ht Hh Hr Hs. unfold commitPreparedAutoHealthCheck, commitPreparedAutoHealthCheckAll.
  fold snapshot state decision. rewrite (bool_decide_eq_false_2 _ Ht), Hh, Hr, Hs. cbn [negb andb].
  destruct (preparedAutoSelection.all prepared); intros [Hsel Hf]%persisted_or_remembered; (split; [exact Hsel|]);
    intros Hok; (destruct (Hf Hok) as [Hl|Hl]; [by left|right]); eexists; (split; [exact Hl|]);
    rewrite !connection_saved; unfold settle_operational_mode; by destruct (bool_decide _).
Qed.

End Commit.

(** ** On the world in memory *)

(** The active subscription is gone, so the live switch does not apply, and the
    route answers nothing. *)
Definition orphan_state : RuntimeState :=
  (world_state OperationalModeVPN) <| RuntimeState.ActiveSubscriptionID := "gone" |>
    <| RuntimeState.Health := {[ "b" := one_success "b" ]} |>.

Definition orphan_world : MemoryWorld :=
  Build_MemoryWorld (Build_Memory [] {[ managedBalancerTag := managedOutboundPrefix +:+ "a" ]})
    (Some (stored orphan_state)) None (Some "no egress") None.

Definition orphan_sub : Subscription := sample_subscription "s" (world_node <$> ["b"; "d"]).

Definition orphan_prepared : preparedAutoSelection :=
  let snapshot := autoSelectionSnapshot.mk [orphan_sub] DefaultSettings orphan_state orphan_state in
  preparedAutoSelection.mk snapshot false orphan_sub
    match evaluateAutoSelection (6 * Minute) (6 * Minute) (fun _ => []) (fun _ => None) orphan_sub DefaultSettings orphan_state false with
    | Ok d => d
    | Err _ => autoSelectionDecision.mk "" Node.zero zero_score Node.zero ∅ false false false "" "" 0
    end orphan_sub orphan_sub.

Abbreviation orphan_attempts := (attempts_of (fun _ => "") (fun _ => None) orphan_prepared orphan_world).

Definition says_connected (r : result string RuntimeState) : bool :=
  match r with Ok st => RuntimeState.Connected st | Err _ => false end.

(** The only healthy candidate fails behind the reload: the process is stopped and
    the file says so, until the commit ends and says that the connection is up. *)
Lemma abandoned_commit_restores_snapshot_witness :
  let w := orphan_attempts.2 in
  memory_outbounds (world_process w) = [] /\ says_connected (load_state w) = false /\
  exists w', selected w' = None /\ says_connected (load_state w') = true.
Proof.
  intros w. split; [vm_compute; reflexivity|]. split; [vm_compute; reflexivity|].
  destruct (orphan_attempts.1) as [a|e] eqn:E1; [|vm_compute in E1; discriminate E1].
  assert (Eh : match orphan_attempts.1 with
               | Ok a => autoSelectionDecision.HasHealthyCandidate (Attempts.decision a)
               | Err _ => true
               end = false) by (vm_compute; reflexivity).
  rewrite E1 in Eh.
  destruct (abandoned_commit_restores_snapshot (H3 := world_auto_laws) (fun _ => "") (fun _ => None) orphan_prepared orphan_world
    a w (Build_MemoryWorld (world_process w) (Some (stored (abandoned_state orphan_prepared a)))
           (world_verify w) (world_egress w) (world_persist w))
    eq_refl eq_refl (run_eq orphan_attempts (Ok a) E1) Eh eq_refl) as (_ & Hs & st & Hl & Hc & _).
  eexists. split; [rewrite Hs; vm_compute; reflexivity|]. rewrite Hl. cbn [says_connected]. rewrite Hc. reflexivity.
Defined.

(** Node [b], in use, is the only one that was measured. *)
Definition steady_state : RuntimeState :=
  (world_state OperationalModeVPN) <| RuntimeState.ActiveNodeID := "b" |>
    <| RuntimeState.Health := {[ "b" := one_success "b" ]} |>.

Definition steady_world : MemoryWorld :=
  Build_MemoryWorld (Build_Memory [] {[ managedBalancerTag := managedOutboundPrefix +:+ "b" ]})
    (Some (stored steady_state)) None None None.

Definition steady_prepared : preparedAutoSelection :=
  let snapshot := autoSelectionSnapshot.mk [orphan_sub] DefaultSettings steady_state steady_state in
  preparedAutoSelection.mk snapshot false orphan_sub
    match evaluateAutoSelection (6 * Minute) (6 * Minute) (fun _ => []) (fun _ => None) orphan_sub DefaultSettings steady_state false with
    | Ok d => d
    | Err _ => autoSelectionDecision.mk "" Node.zero zero_score Node.zero ∅ false false false "" "" 0
    end orphan_sub orphan_sub.

Abbreviation steady_check := (commitPreparedAutoHealthCheck (fun _ => "") (fun _ => None) steady_prepared steady_world).

Lemma health_check_keeps_route_witness :
  steady_check.1 = Ok tt /\ selected steady_check.2 = Some (managedOutboundPrefix +:+ "b").
Proof.
  assert (E : steady_check.1 = Ok tt) by (vm_compute; reflexivity). split; [exact E|].
  destruct (health_check_keeps_route (H3 := world_auto_laws) (fun _ => "") (fun _ => None) steady_prepared steady_world
    (Ok tt) steady_check.2 ltac:(vm_compute; discriminate) ltac:(vm_compute; reflexivity) ltac:(vm_compute; reflexivity)
    ltac:(vm_compute; reflexivity) (run_eq steady_check (Ok tt) E)) as [Hs _].
  rewrite Hs. vm_compute. reflexivity.
Defined.
