(* ===== verification/Failover.v ===== *)
(** * Health checks and failover

    [RunAutoHealthCheck], [RunAutoFailover] and [RunConnectionFailover] of
    [app/auto.go], and [prepareAutoSelectionWithProbes] of
    [app/auto_prepare.go] as a program.

    The clock is read once where the loop over the subscriptions reads it for
    the active one. *)
From S2P Require Import Prelude GoRunes GoStrings GoNum NetIP Domain Firewall FirewallSettings.
From S2P Require Import Zapret Settings Connection Migrations PersistFacts Probe.

From S2P Require Import AutoState AutoSelect Reserves XrayConfig XrayFacts BackendRequest.
From S2P Require Import ManagedBackend Scheduler ManagedSwitch Effects NodeSelection ReserveRound.
From S2P Require Import AutoCommit.

Local Open Scope Z_scope.
Local Open Scope list_scope.

(** The outcomes of a round of probes and of the egress checks of its end. *)
Definition Probing : Type := (list Node -> list (nat * Result.Result)) * (string -> option string).

Definition no_probing : Probing := (fun _ => [], fun _ => None).

Class FailoverRuntime (W : Type) := {
  probe_round : W -> Probing * W;
  probe_awg_profiles : string -> W -> unit * W;     (** [probeAWGProfilesForAuto] *)
  check_awg : W -> option string * W;               (** [CheckAWG] *)
  connect_active_awg : W -> option string * W       (** [ConnectAWG] *)
}.

(** [%q] of a text that needs no escapes. *)
Definition quoted (s : string) : string := String "034" (s +:+ String "034" EmptyString).

Definition prepare_error_text (e : PrepareError) : string :=
  match e with
  | SelectFailed NoNodes => "no nodes to select from"
  | SubscriptionExpired id => "subscription " +:+ quoted id +:+ " expired; its servers are view-only"
  | SubscriptionNotFound id => "subscription " +:+ quoted id +:+ " not found"
  end.

(** The scope that is searched: everything when the active subscription has expired. *)
Definition auto_scope (snapshot : autoSelectionSnapshot) (now : Time) : string :=
  let state := autoSelectionSnapshot.state snapshot in
  if existsb (fun sub => bool_decide (Subscription.ID sub = RuntimeState.ActiveSubscriptionID state) && IsExpired sub now)
       (autoSelectionSnapshot.subscriptions snapshot)
     || bool_decide (RuntimeState.AutoScope state = autoScopeAll)
  then autoScopeAll else RuntimeState.ActiveSubscriptionID state.

(** Automatic mode with something to work on, outside of a zapret test. *)
Definition auto_active (state : RuntimeState) : bool :=
  negb (ZapretTestState.Active (RuntimeState.ZapretTest state))
  && bool_decide (RuntimeState.Mode state = SelectionModeAuto)
  && negb (bool_decide (RuntimeState.ActiveSubscriptionID state = "")).

Definition manual_active (state : RuntimeState) : bool :=
  negb (ZapretTestState.Active (RuntimeState.ZapretTest state))
  && bool_decide (RuntimeState.Mode state = SelectionModeManual)
  && negb (bool_decide (RuntimeState.ActiveSubscriptionID state = ""))
  && negb (bool_decide (RuntimeState.ActiveNodeID state = "")).

Definition with_state (snapshot : autoSelectionSnapshot) (state : RuntimeState) : autoSelectionSnapshot :=
  autoSelectionSnapshot.mk (autoSelectionSnapshot.subscriptions snapshot) (autoSelectionSnapshot.settings snapshot)
    (autoSelectionSnapshot.persistedState snapshot) state.

(** The active node is not a manual fallback of itself. *)
Definition without_active (snapshot : autoSelectionSnapshot) : autoSelectionSnapshot :=
  let state := autoSelectionSnapshot.state snapshot in
  autoSelectionSnapshot.mk (autoSelectionSnapshot.subscriptions snapshot)
    ((autoSelectionSnapshot.settings snapshot) <| Settings.AutoExcludedNodes ::= fun l =>
       NormalizeAutoExcludedNodes (l ++ [AutoExcludedNodeKey (RuntimeState.ActiveSubscriptionID state)
                                           (RuntimeState.ActiveNodeID state)]) |>)
    (autoSelectionSnapshot.persistedState snapshot) state.

Definition direct_mode (state : RuntimeState) : bool :=
  bool_decide (RuntimeState.OperationalMode state = OperationalModeDirect).

(** A prepared selection that selects nothing. *)
Definition selects_nothing (prepared : preparedAutoSelection) : bool :=
  let decision := preparedAutoSelection.decision prepared in
  negb (autoSelectionDecision.HasHealthyCandidate decision)
  || bool_decide (Node.ID (autoSelectionDecision.SelectedNode decision) = "").

Definition selects_active (prepared : preparedAutoSelection) (state : RuntimeState) : bool :=
  bool_decide (Node.ID (autoSelectionDecision.SelectedNode (preparedAutoSelection.decision prepared))
               = RuntimeState.ActiveNodeID state)
  && bool_decide (Subscription.ID (preparedAutoSelection.selectedSub prepared) = RuntimeState.ActiveSubscriptionID state).

Definition given_reason (reason default : string) : string := if bool_decide (reason = "") then default else reason.

Section Failover.
  Context `{ManagedBackend W, Router W, Runtime W, AutoRuntime W, FailoverRuntime W}.
  Context (fingerprint : Node -> string).
  Context (rfc3339 : Time -> string) (url_host : string -> option (string * string)).

Abbreviation App := (Prog W Fault).

(** ** Preparing *)

Definition prepare (subscriptionID : string) (snapshot : autoSelectionSnapshot) (runProbes : bool)
    : App preparedAutoSelection :=
  now ← currentTime;
  wall ← reads wall_clock;
  probing ← (if runProbes then outcome probe_round else mret no_probing);
  of_result match prepareAutoSelectionWithProbes now wall probing.1 probing.2 subscriptionID snapshot runProbes with
            | Ok p => Ok p
            | Err e => Err (fault (prepare_error_text e))
            end.

(** The rest runs only while the snapshot is still current. *)
Definition when_current {A} (snapshot : autoSelectionSnapshot) (changed : App A) (p : App A) : App A :=
  current ← snapshot_current snapshot;
  if (current : bool) then p else changed.

Definition RunAutoHealthCheck : App unit :=
  initial ← (fun w => match load_state w with Ok s => (Ok s, w) | Err e => (Err (fault e), w) end);
  if negb (auto_active initial) then mret tt
  else
    _ ← outcome (probe_awg_profiles (if bool_decide (RuntimeState.AutoScope initial = autoScopeAll) then autoScopeAll
                                     else RuntimeState.ActiveSubscriptionID initial));
    snapshot ← captureAutoSelectionSnapshot;
    if negb (auto_active (autoSelectionSnapshot.state snapshot)) then mret tt
    else
      now ← currentTime;
      prepared ← prepare (auto_scope snapshot now) snapshot true;
      when_current snapshot (mret tt) (commitPreparedAutoHealthCheck rfc3339 url_host prepared).

(** ** Failover *)

(** The failure of the active route, recorded unless the route is already direct. *)
Definition record_active_failure (snapshot : autoSelectionSnapshot) (failureReason : string) : App RuntimeState :=
  let state := autoSelectionSnapshot.state snapshot in
  if direct_mode state then mret state
  else
    now ← currentTime;
    mret (state <| RuntimeState.Health ::= fun h =>
      forceHealthFailure h (RuntimeState.ActiveNodeID state) failureReason now
        (SwitchPolicy.FailureThreshold (switchPolicyFromSettings (autoSelectionSnapshot.settings snapshot))) |>).

(** The reserves come first; a failed attempt has changed the state. *)
Definition reserves_first (snapshot : autoSelectionSnapshot) (mode failureReason : string)
    (next : autoSelectionSnapshot -> App unit) : App unit :=
  tried ← tryManagedReserveFailover fingerprint rfc3339 url_host snapshot mode failureReason;
  let '(switched, attempted, _) := tried in
  if (switched : bool) then mret tt
  else if (attempted : bool)
  then
    fresh ← captureAutoSelectionSnapshot;
    if negb (bool_decide (RuntimeState.Mode (autoSelectionSnapshot.state fresh) = mode))
    then raise errAutoSelectionSnapshotChanged else next fresh
  else next snapshot.

Definition auto_search (failureReason : string) (snapshot : autoSelectionSnapshot) : App unit :=
  let failureReason := given_reason failureReason "active auto route failed" in
  state ← record_active_failure snapshot failureReason;
  now ← currentTime;
  prepared ← prepare (auto_scope snapshot now) (with_state snapshot state) false;
  if selects_nothing prepared then raise (fault "no previously healthy auto candidate is available")
  else if negb (direct_mode state) && selects_active prepared state
  then raise (fault "no different previously healthy auto candidate is available")
  else when_current snapshot (raise errAutoSelectionSnapshotChanged)
         (_ ← commitPreparedAutoSelection rfc3339 url_host prepared; mret tt).

Definition runAutoFailoverWithSnapshot (failureReason : string) (snapshot : autoSelectionSnapshot) : App unit :=
  if negb (auto_active (autoSelectionSnapshot.state snapshot)) then mret tt
  else reserves_first snapshot SelectionModeAuto failureReason (auto_search failureReason).

(** What a manual failover records on top of the selection. *)
Definition manual_failover_state (decision : autoSelectionDecision) (reason failureReason : string) (now : Time)
    (updated : RuntimeState) : RuntimeState :=
  updated <| RuntimeState.Health := autoSelectionDecision.Health decision |>
          <| RuntimeState.Mode := SelectionModeManual |>
          <| RuntimeState.AutoScope := "" |>
          <| RuntimeState.LastSwitchAt := now |>
          <| RuntimeState.LastSwitchReason := reason |>
          <| RuntimeState.LastFailureReason := failureReason |>.

Definition commit_manual (snapshot : autoSelectionSnapshot) (prepared : preparedAutoSelection) (failureReason : string)
    : App unit :=
  let decision := preparedAutoSelection.decision prepared in
  let node := autoSelectionDecision.SelectedNode decision in
  _ ← applyNodeSelection rfc3339 url_host (preparedAutoSelection.selectedSub prepared) node SelectionModeManual
        (selectionOptionsForState (autoSelectionSnapshot.state snapshot));
  updated ← load_state_as "load manual failover state";
  now ← currentTime;
  save_as "save manual failover state"
    (manual_failover_state decision
       (switchReason "manual emergency failover"
          (activeNodeLabel (autoSelectionSnapshot.subscriptions snapshot) (autoSelectionSnapshot.state snapshot))
          node ("verified HTTPS GET; " +:+ failureReason)) failureReason now updated).

(** A search without probes, and one with probes when it finds nothing. *)
Definition manual_search (failureReason : string) (snapshot : autoSelectionSnapshot) : App unit :=
  let failureReason := given_reason failureReason "active manual route failed" in
  state ← record_active_failure snapshot failureReason;
  let direct := direct_mode state in
  let failoverSnapshot := with_state snapshot state in
  let failoverSnapshot := if direct then failoverSnapshot else without_active failoverSnapshot in
  prepared ← prepare autoScopeAll failoverSnapshot false;
  prepared ← (if selects_nothing prepared then prepare autoScopeAll failoverSnapshot true else mret prepared);
  if selects_nothing prepared || bool_decide (Subscription.ID (preparedAutoSelection.selectedSub prepared) = "")
  then raise (fault "no healthy manual fallback is available")
  else if negb direct && selects_active prepared state
  then raise (fault "no different healthy manual fallback is available")
  else when_current snapshot (raise errAutoSelectionSnapshotChanged) (commit_manual snapshot prepared failureReason).

Definition runManualFailoverWithSnapshot (failureReason : string) (snapshot : autoSelectionSnapshot) : App unit :=
  if negb (manual_active (autoSelectionSnapshot.state snapshot)) then mret tt
  else reserves_first snapshot SelectionModeManual failureReason (manual_search failureReason).

Definition RunAutoFailover (failureReason : string) : App unit :=
  snapshot ← captureAutoSelectionSnapshot;
  if negb (bool_decide (RuntimeState.Mode (autoSelectionSnapshot.state snapshot) = SelectionModeAuto)) then mret tt
  else runAutoFailoverWithSnapshot failureReason snapshot.

(** ** The direct route *)

(** The request [persistManagedDirectConfig] persists. *)
Definition direct_request (state : RuntimeState) (w : W) : result string ConfigRequest :=
  match load_settings w with
  | Err e => Err ("load settings for direct startup config: " +:+ e)
  | Ok settings =>
    match prepareRuntimeDNSSettings url_host (Some (system_resolvers w)) settings with
    | Err e => Err ("prepare DNS for direct startup config: " +:+ e)
    | Ok runtimeSettings =>
      let active := sub ← subscriptionByID (load_subscriptions w) (RuntimeState.ActiveSubscriptionID state);
                    NodeByID sub (RuntimeState.ActiveNodeID state) in
      let node := match active with Some node => resolve node w | None => Node.zero end in
      Ok ((backendConfigRequest (load_subscriptions w) runtimeSettings node (RuntimeState.Mode state) 10808 10809
            (firewallEnabled (Settings.Firewall settings)) (localDNSRuntimeEnabled (Settings.DNS settings)))
          <| ConfigRequest.StartDirect := true |>)
    end
  end.

Definition fail_open (state : RuntimeState) (reason : string) : App unit :=
  request ← reads (direct_request state);
  times ← reads switch_clock;
  act fault (activateManagedDirect request state reason times.1.1 times.1.2).

(** A direct AmneziaWG connection that answers twice is taken up again. *)
Definition resume_awg : App bool :=
  current ← reads load_state;
  match current with
  | Ok st =>
    if bool_decide (RuntimeState.ActiveConnectionKind st = "amneziawg") && direct_mode st
    then
      checked ← outcome check_awg;
      match checked with
      | Some _ => mret false
      | None =>
        waited ← outcome confirmation_delay;
        match waited with
        | Some _ => mret false
        | None =>
          confirmed ← outcome check_awg;
          match confirmed with
          | Some _ => mret false
          | None =>
            connected ← outcome connect_active_awg;
            mret match connected with None => true | Some _ => false end
          end
        end
      end
    else mret false
  | Err _ => mret false
  end.

Definition is_changed (e : Fault) : bool := bool_decide (fault_text e = fault_text errAutoSelectionSnapshotChanged).

Definition mode_failover (failureReason : string) (snapshot : autoSelectionSnapshot) : App unit :=
  if bool_decide (RuntimeState.Mode (autoSelectionSnapshot.state snapshot) = SelectionModeAuto)
  then runAutoFailoverWithSnapshot failureReason snapshot
  else runManualFailoverWithSnapshot failureReason snapshot.

(** When no replacement is found, and the failure warrants it, the traffic goes
    out directly. *)
Definition direct_fallback (failureReason : string) (err : Fault) : App unit :=
  captured ← attempt captureAutoSelectionSnapshot;
  match captured with
  | Err e => raise (wrap_fault (fault_text err +:+ "; refresh direct fallback state") e)
  | Ok fallback =>
    opened ← attempt (when_current fallback (raise errAutoSelectionSnapshotChanged)
                        (fail_open (autoSelectionSnapshot.state fallback) failureReason));
    match opened with
    | Err e => raise (wrap_fault (fault_text err +:+ "; activate direct fallback") e)
    | Ok _ => mret tt
    end
  end.

Definition runConnectionFailoverForRoute (failureReason expectedRoute : string) : App unit :=
  resumed ← resume_awg;
  if (resumed : bool) then mret tt
  else
    snapshot ← captureAutoSelectionSnapshot;
    let state := autoSelectionSnapshot.state snapshot in
    if negb (bool_decide (expectedRoute = "")) && negb (bool_decide (expectedRoute = recoveryRouteKey rfc3339 state))
    then mret tt
    else if negb (bool_decide (RuntimeState.Mode state = SelectionModeAuto))
            && negb (bool_decide (RuntimeState.Mode state = SelectionModeManual))
    then mret tt
    else
      failed ← attempt (mode_failover failureReason snapshot);
      match failed with
      | Ok _ => mret tt
      | Err e =>
        if is_changed e || negb (shouldFailOpenDirect (autoSelectionSnapshot.persistedState snapshot) failureReason)
        then raise e
        else direct_fallback failureReason e
      end.

Definition RunConnectionFailover (failureReason : string) : App unit := runConnectionFailoverForRoute failureReason "".

End Failover.
