(* ===== verification/FailoverFacts.v ===== *)
(** * Failover: theorems

    How a commit, and a failover that reports success, end. *)
From S2P Require Import Prelude GoRunes GoStrings GoNum NetIP Domain Firewall FirewallSettings.
From S2P Require Import Zapret Settings Connection Migrations PersistFacts Probe.

From S2P Require Import AutoState AutoSelect AutoSelectFacts Reserves XrayConfig XrayFacts.
From S2P Require Import BackendRequest ManagedBackend Scheduler ManagedSwitch ManagedSwitchFacts.
From S2P Require Import Effects MemoryWorld NodeSelection NodeSelectionFacts ReserveRound.
From S2P Require Import ReserveRoundFacts AutoCommit Failover.

Local Open Scope Z_scope.
Local Open Scope list_scope.

(** Saving the settings touches neither the route nor the state file; a state
    that cannot be written leaves the file as it was: files are replaced by
    renaming a finished one. *)
Class FailoverLaws (W : Type) `{ManagedBackend W, Router W, Runtime W, AutoRuntime W} : Prop := {
  failover_auto :: AutoRuntimeLaws W;
  settings_keep_route : forall s w, selected (store_settings s w).2 = selected w;
  settings_keep_file : forall s w, load_state (store_settings s w).2 = load_state w;
  failed_save_keeps_file : forall s w e w', save_state s w = (Some e, w') -> load_state w' = load_state w
}.

(** ** A prepared selection has nodes to try *)

Definition selectable_count (prepared : preparedAutoSelection) (wall : Time) : nat :=
  let settings := autoSelectionSnapshot.settings (preparedAutoSelection.snapshot prepared) in
  if preparedAutoSelection.all prepared
  then sum_list (length <$> ((fun sub => autoSelectableNodes wall sub settings) <$>
         autoSelectionSnapshot.subscriptions (preparedAutoSelection.snapshot prepared)))
  else length (autoSelectableNodes wall (preparedAutoSelection.sub prepared) settings).

Lemma sum_list_in n l : n ∈ l -> (n <= sum_list l)%nat.
Proof. induction 1; cbn; lia. Qed.

Lemma prepared_selectable now wall completions egress id snapshot probes prepared :
  prepareAutoSelectionWithProbes now wall completions egress id snapshot probes = Ok prepared ->
  autoSelectionDecision.HasHealthyCandidate (preparedAutoSelection.decision prepared) = true ->
  (0 < selectable_count prepared wall)%nat.
Proof.
  unfold prepareAutoSelectionWithProbes, selectable_count. cbv zeta. destruct (_ || _).
  - unfold lift_probe. destruct (evaluateAutoSelectionAll _ _ _ _ _ _ _ _) as [[[d s] f]|e] eqn:E; [|done].
    intros [= <-] Hh. cbn. revert E. unfold evaluateAutoSelectionAll. cbv zeta.
    set (scan := scan_subscriptions _ _ _ _ _ _ _ _). destruct (bool_decide_reflect (AllScan.candidates scan = [])) as [Hn|Hn].
    { intros [= <- _ _]. discriminate Hh. }
    intros _. destruct (AllScan.candidates scan) as [|n l] eqn:Ec; [done|].
    destruct (scan_subscriptions_ok now wall (autoSelectionSnapshot.settings snapshot) (autoSelectionSnapshot.state snapshot)
      (if bool_decide (effectiveActiveTransport (autoSelectionSnapshot.state snapshot) = TransportModeProxy)
       then RuntimeState.ActiveNodeID (autoSelectionSnapshot.state snapshot) else "")
      (SwitchPolicy.FailureThreshold (switchPolicyFromSettings (autoSelectionSnapshot.settings snapshot)))
      (healthForSubscriptions (RuntimeState.Health (autoSelectionSnapshot.state snapshot)) (autoSelectionSnapshot.subscriptions snapshot))
      (autoSelectionSnapshot.subscriptions snapshot)) as [Hc _ _ _ _].
    fold scan in Hc. rewrite Ec in Hc. destruct (Hc n (list_elem_of_here _ _)) as (sub & Hsub & _ & Hin).
    assert (Hl : (length (autoSelectableNodes wall sub (autoSelectionSnapshot.settings snapshot)) <=
      sum_list (length <$> ((fun sub => autoSelectableNodes wall sub (autoSelectionSnapshot.settings snapshot)) <$>
        autoSelectionSnapshot.subscriptions snapshot)))%nat).
    { apply sum_list_in, list_elem_of_fmap. eexists. split; [reflexivity|]. apply list_elem_of_fmap. by exists sub. }
    destruct (autoSelectableNodes wall sub _); [by apply elem_of_nil in Hin|]. cbn in Hl. lia.
  - destruct (List.find _ _) as [sub|]; [|done]. destruct (IsExpired sub now); [done|].
    unfold lift_probe. destruct (evaluateAutoSelection _ _ _ _ _ _ _ _) as [d|e] eqn:E; [|done].
    intros [= <-] Hh. cbn. revert E. unfold evaluateAutoSelection. cbv zeta.
    destruct (bool_decide_reflect (autoSelectableNodes wall sub (autoSelectionSnapshot.settings snapshot) = [])) as [Hn|Hn].
    { intros [= <-]. discriminate Hh. }
    intros _. destruct (autoSelectableNodes _ _ _); [done|]. cbn. lia.
Qed.

Section Outcome.
  Context `{FailoverLaws W}.
  Context (fingerprint : Node -> string).
  Context (rfc3339 : Time -> string) (url_host : string -> option (string * string)).

(** The state file records this connection. *)
Definition recorded (c : bool * string * string * string * string) (w : W) : Prop :=
  exists st, load_state w = Ok st /\ connection st = c.

Abbreviation proxy_to sub node mode := (true, TransportModeProxy, Subscription.ID sub, Node.ID node, mode).

Inductive ended (mode : string) (w : W) : Prop :=
| ended_on_node sub node v :
    routed (resolve node v) w -> recorded (proxy_to sub node mode) w -> ended mode w
| ended_on_awg sub node :
    Node.Protocol node = ProtocolAmneziaWG -> recorded (proxy_to sub node mode) w -> ended mode w
| ended_on_zapret sub node :
    recorded (true, TransportModeZapret, Subscription.ID sub, node, mode) w -> ended mode w.

Definition kept (w w' : W) : Prop := selected w' = selected w /\ load_state w' = load_state w.

Lemma kept_refl w : kept w w.
Proof. done. Qed.

Lemma kept_trans w1 w2 w3 : kept w1 w2 -> kept w2 w3 -> kept w1 w3.
Proof. intros [A B] [C D]. split; congruence. Qed.

Lemma kept_ended mode w w' : kept w w' -> ended mode w -> ended mode w'.
Proof.
  intros [Hs Hl] [sub node v (tag & w1 & w2 & Hp & Ht) (st & Hst & Hc)|sub node Ha (st & Hst & Hc)|sub node (st & Hst & Hc)].
  - apply (ended_on_node _ _ sub node v); [exists tag, w1, w2; split; [done|congruence]|exists st; split; [congruence|done]].
  - apply (ended_on_awg _ _ sub node); [done|]. exists st. split; [congruence|done].
  - apply (ended_on_zapret _ _ sub node). exists st. split; [congruence|done].
Qed.

(** ** Steps *)

Lemma saved_effect (wrap_ : string -> Fault) s w u w' :
  act wrap_ (save_state s) w = (Ok u, w') ->
  selected w' = selected w /\ load_state w' = Ok (reload_state (settle_operational_mode s)).
Proof.
  intros E%act_ok. pose proof (save_keeps_route s w) as Hr. rewrite E in Hr. split; [exact Hr|by apply saved_is_loaded in E].
Qed.

Lemma time_kept w t w' : currentTime w = (Ok t, w') -> kept w w'.
Proof. intros E. split; [exact (keeps_use _ _ _ _ _ (keeps_time _ selected_quiet) E)|exact (keeps_use _ _ _ _ _ (keeps_time _ file_quiet) E)]. Qed.

Lemma stamp_ok b set s w s' w' :
  stamp b set s w = (Ok s', w') -> kept w w' /\ (s' = s \/ exists now, s' = set now s).
Proof.
  unfold stamp. destruct b; [|by intros [= <- <-]; split; [|left]].
  intros (now & w1 & Ht & Hk)%bind_ok. injection Hk as <- <-. split; [by apply time_kept in Ht|]. right. by exists now.
Qed.

Lemma load_as_ok context w s w' : load_state_as context w = (Ok s, w') -> w' = w /\ load_state w = Ok s.
Proof. unfold load_state_as. destruct (load_state w) eqn:E; [|done]. by intros [= <- <-]. Qed.

Lemma capture_same w r w' : captureAutoSelectionSnapshot w = (r, w') -> w' = w.
Proof.
  unfold captureAutoSelectionSnapshot.
  destruct (snapshot_subscriptions w), (load_settings w), (load_state w); by intros [= _ <-].
Qed.

Lemma current_same snapshot w r w' : snapshot_current snapshot w = (r, w') -> w' = w.
Proof.
  unfold snapshot_current, mbind, prog_bind. destruct (captureAutoSelectionSnapshot w) as [[s|e] w1] eqn:E;
    apply capture_same in E; subst w1; by intros [= _ <-].
Qed.

Lemma settings_kept s w u w' : save_settings s w = (Ok u, w') -> kept w w'.
Proof.
  unfold save_settings, ignore, act. intros [= _ <-]. pose proof (settings_keep_route s w). pose proof (settings_keep_file s w).
  unfold kept. by destruct (store_settings s w) as [[e|] w1].
Qed.

(** What is recorded is still recorded when the state is written back with other
    fields changed. *)
Lemma resaved_recorded c next w st (wrap_ : string -> Fault) u w' :
  recorded c w -> load_state w = Ok st -> connection next = connection st ->
  act wrap_ (save_state next) w = (Ok u, w') ->
  NormalizeTransportMode c.1.1.1.2 = c.1.1.1.2 -> selected w' = selected w /\ recorded c w'.
Proof.
  intros (st' & Hl & Hc) Hst Hf [Hs Hw]%saved_effect Hn. rewrite Hst in Hl. injection Hl as <-. split; [exact Hs|].
  eexists. split; [exact Hw|]. rewrite connection_saved. rewrite Hc in Hf. destruct c as [[[[c1 c2] c3] c4] c5].
  unfold connection in Hf. injection Hf as -> -> -> -> ->. cbn in Hn. by rewrite Hn.
Qed.

Lemma resaved_ended mode next w st (wrap_ : string -> Fault) u w' :
  ended mode w -> load_state w = Ok st -> connection next = connection st ->
  act wrap_ (save_state next) w = (Ok u, w') -> ended mode w'.
Proof.
  intros [sub node v (tag & w1 & w2 & Hp & Ht) Hc|sub node Ha Hc|sub node Hc] Hst Hf Hw;
    destruct (resaved_recorded _ _ _ _ _ _ _ Hc Hst Hf Hw eq_refl) as [Hs Hr].
  - apply (ended_on_node _ _ sub node v); [|done]. exists tag, w1, w2. split; [done|congruence].
  - by apply (ended_on_awg _ _ sub node).
  - by apply (ended_on_zapret _ _ sub node).
Qed.

Lemma scope_ended mode scope w u w' : ended mode w -> persistAutoScope scope w = (Ok u, w') -> ended mode w'.
Proof.
  unfold persistAutoScope. intros He (st & w1 & [-> Hst]%load_as_ok & Hk)%bind_ok.
  refine (resaved_ended mode _ w st _ _ _ He Hst _ Hk). reflexivity.
Qed.

(** ** A commit *)

Lemma applied_routed sub node mode opts w u w' :
  applyNodeSelection rfc3339 url_host sub node mode opts w = (Ok u, w') ->
  exists v, routed (resolve node v) w' /\ recorded (proxy_to sub node mode) w'.
Proof.
  destruct u. intros Hrun. destruct (applied_recorded _ _ _ _ _ _ _ _ Hrun)
    as (state & st & tag & v & w1 & w2 & _ & Hp & Hs & Hl & [R1 R2 R3 R4 R5 R6 _ _ _ _]).
  exists v. split; [by exists tag, w1, w2|]. exists st. split; [exact Hl|]. unfold connection. congruence.
Qed.

Lemma committed_connection sub decision s :
  connection (committed_state sub decision s) =
    (true, RuntimeState.ActiveTransport s, Subscription.ID sub, Node.ID (autoSelectionDecision.SelectedNode decision), SelectionModeAuto).
Proof. done. Qed.

Lemma commit_ended sub cur decision w n w' :
  commitAutoSelection rfc3339 url_host sub cur decision w = (Ok n, w') ->
  n = autoSelectionDecision.SelectedNode decision /\ ended SelectionModeAuto w'.
Proof.
  unfold commitAutoSelection. intros (u & w1 & Ha & Hk)%bind_ok.
  apply bind_ok in Hk as (st & w2 & [-> _]%load_as_ok & Hk).
  apply bind_ok in Hk as (s1 & w3 & [K1 E1]%stamp_ok & Hk).
  apply bind_ok in Hk as (s2 & w4 & [K2 E2]%stamp_ok & Hk).
  apply bind_ok in Hk as (u' & w5 & [Hs Hl]%saved_effect & Hk). injection Hk as <- <-. split; [done|].
  assert (Hc : connection (reload_state (settle_operational_mode s2)) =
    (proxy_to sub (autoSelectionDecision.SelectedNode decision) SelectionModeAuto)).
  { rewrite connection_saved. destruct E2 as [->|[t2 ->]], E1 as [->|[t1 ->]]; reflexivity. }
  assert (Hr : recorded (proxy_to sub (autoSelectionDecision.SelectedNode decision) SelectionModeAuto) w5)
    by (eexists; by split).
  unfold apply_candidate in Ha. case_bool_decide as Hp; [by apply (ended_on_awg _ _ sub _ Hp)|].
  apply applied_routed in Ha as (v & (tag & v1 & v2 & Hpr & Ht) & _).
  refine (ended_on_node _ _ sub _ v _ Hr). exists tag, v1, v2. split; [exact Hpr|].
  rewrite Hs, (proj1 K2), (proj1 K1). exact Ht.
Qed.

Lemma zapret_ended sub state settings reason w u w' :
  activateZapretFallback sub state settings reason w = (Ok u, w') -> ended SelectionModeAuto w'.
Proof.
  assert (Hdirect : forall a b c d e f v (x : unit) v', markTransportDirect a b c d e f v = (Ok x, v') -> False).
  { intros a b c d e f v x v'. unfold markTransportDirect. intros (? & ? & _ & Hk)%bind_ok.
    apply bind_ok in Hk as (? & ? & _ & Hk). apply bind_ok in Hk as (? & ? & _ & Hk).
    apply bind_ok in Hk as (? & ? & _ & Hk). by apply raise_ok in Hk. }
  unfold activateZapretFallback. destruct (negb _); [by intros ?%Hdirect|].
  destruct (zapretExpandedTargets settings) as [domains|e]; [|by intros ?%Hdirect].
  intros (? & w1 & _ & Hk)%bind_ok. apply bind_ok in Hk as (applied & w2 & _ & Hk).
  destruct (zapretActivationError _ _ _); [by apply Hdirect in Hk|].
  apply bind_ok in Hk as (now & w3 & _ & Hk). apply saved_effect in Hk as [_ Hl].
  apply (ended_on_zapret _ _ sub (RuntimeState.ActiveNodeID state)). eexists. split; [exact Hl|].
  rewrite connection_saved. unfold zapret_state. by destruct (bool_decide _).
Qed.

(** The attempts end on a candidate that was committed, or without one. *)
Definition attempts_end (n : nat) (a a' : Attempts) (w' : W) : Prop :=
  (Attempts.lastApplyErr a' = None /\ ended SelectionModeAuto w') \/
  (a' = a /\ (n = 0%nat \/ autoSelectionDecision.HasHealthyCandidate (Attempts.decision a) = false)) \/
  (is_Some (Attempts.lastApplyErr a') /\ Attempts.selectedNode a' = Node.zero).

Lemma next_attempts n m a a1 a' w' :
  is_Some (Attempts.lastApplyErr a1) -> Attempts.selectedNode a1 = Node.zero ->
  attempts_end n a1 a' w' -> attempts_end m a a' w'.
Proof. intros He Hz [A|[[-> _]|A]]; [by left|right; right|by right; right]. by split. Qed.

Lemma tried_end n sub state : forall settings a w a' w',
  try_candidates rfc3339 url_host n sub state settings a w = (Ok a', w') -> attempts_end n a a' w'.
Proof.
  induction n as [|n IH]; intros settings a w a' w'; cbn [try_candidates].
  { intros [= <- _]. right. left. split; [done|by left]. }
  intros (? & w1 & _ & Hk)%bind_ok. destruct (autoSelectionDecision.HasHealthyCandidate _) eqn:Eh; cbn [negb] in Hk.
  2: { injection Hk as <- _. right. left. split; [done|by right]. }
  apply bind_ok in Hk as (applied & w2 & Ha%attempt_ok & Hk). destruct applied as [node|e].
  { injection Hk as <- <-. left. split; [done|]. by apply commit_ended in Ha as [_ Ha]. }
  apply bind_ok in Hk as (? & w3 & _ & Hk). destruct (negb (fault_retryable e)); [by apply raise_ok in Hk|].
  apply bind_ok in Hk as (fresh & w4 & _ & Hk). apply bind_ok in Hk as (d & w5 & _ & Hk).
  apply IH in Hk. revert Hk. by apply next_attempts.
Qed.

Lemma tried_all_end n subs state : forall settings a w a' w',
  try_candidates_all rfc3339 url_host n subs state settings a w = (Ok a', w') -> attempts_end n a a' w'.
Proof.
  induction n as [|n IH]; intros settings a w a' w'; cbn [try_candidates_all].
  { intros [= <- _]. right. left. split; [done|by left]. }
  intros (? & w1 & _ & Hk)%bind_ok. destruct (autoSelectionDecision.HasHealthyCandidate _) eqn:Eh; cbn [negb] in Hk.
  2: { injection Hk as <- _. right. left. split; [done|by right]. }
  apply bind_ok in Hk as (applied & w2 & Ha%attempt_ok & Hk). destruct applied as [node|e].
  { injection Hk as <- <-. left. split; [done|]. by apply commit_ended in Ha as [_ Ha]. }
  apply bind_ok in Hk as (? & w3 & _ & Hk). destruct (negb (fault_retryable e)); [by apply raise_ok in Hk|].
  apply bind_ok in Hk as (fresh & w4 & _ & Hk). apply bind_ok in Hk as (d & w5 & _ & Hk).
  apply IH in Hk. revert Hk. by apply next_attempts.
Qed.

(** ** A prepared commit *)

(** The subscriptions do not expire while the program runs. *)
Definition steady : Prop := forall (v v' : W) sub, IsExpired sub (wall_clock v) = IsExpired sub (wall_clock v').

Lemma steady_count (S : steady) prepared v v' :
  selectable_count prepared (wall_clock v) = selectable_count prepared (wall_clock v').
Proof.
  assert (E : forall sub settings, autoSelectableNodes (wall_clock v) sub settings = autoSelectableNodes (wall_clock v') sub settings).
  { intros sub settings. unfold autoSelectableNodes. by rewrite (S v v'). }
  unfold selectable_count. rewrite E. destruct (preparedAutoSelection.all prepared); [|done].
  f_equal. f_equal. apply list_fmap_ext. by intros.
Qed.

(** Writing the state back keeps what it records, whether or not it succeeds. *)
Lemma rewritten_ended mode next w st :
  ended mode w -> load_state w = Ok st -> connection next = connection st -> ended mode (save_state next w).2.
Proof.
  intros He Hst Hf. destruct (save_state next w) as [[e|] w'] eqn:E; cbn [snd].
  - apply (kept_ended mode w); [|done]. split; [|exact (failed_save_keeps_file _ _ _ _ E)].
    pose proof (save_keeps_route next w) as Hr. by rewrite E in Hr.
  - apply (resaved_ended mode next w st fault tt w' He Hst Hf). unfold act. by rewrite E.
Qed.

Lemma ignored_kept {A} (p : Prog W Fault A) w u w' : ignore p w = (Ok u, w') -> w' = (p w).2.
Proof. by intros [= _ <-]. Qed.

(** [ignore] of a write. *)
Lemma ignored_write mode next w st u w' :
  ended mode w -> load_state w = Ok st -> connection next = connection st ->
  ignore (act fault (save_state next)) w = (Ok u, w') -> ended mode w'.
Proof.
  intros He Hst Hf E. pose proof (rewritten_ended mode next w st He Hst Hf) as Hr. revert E. unfold ignore, act.
  destruct (save_state next w) as [[e|] v]; intros [= _ <-]; exact Hr.
Qed.

Lemma ignored_scope mode scope w u w' : ended mode w -> ignore (persistAutoScope scope) w = (Ok u, w') -> ended mode w'.
Proof.
  intros He ->%ignored_kept. unfold persistAutoScope, load_state_as, mbind, prog_bind.
  destruct (load_state w) as [st|e] eqn:Hst; cbn [snd]; [|done].
  unfold save_as, act.
  match goal with |- context [save_state ?x w] => pose proof (rewritten_ended mode x w st He Hst eq_refl) as Hr end.
  by destruct (save_state _ w) as [[e|] v].
Qed.

Lemma exhausted_healthy a e :
  Attempts.lastApplyErr a = Some e -> Attempts.selectedNode a = Node.zero ->
  autoSelectionDecision.HasHealthyCandidate (Attempts.decision a) = true -> exhausted a = Some e.
Proof. intros He Hz Hh. unfold exhausted. by rewrite He, Hz, Hh. Qed.

Lemma some_attempt k : (0 < k)%nat -> min maxAutoCandidateApplyAttempts k <> 0%nat.
Proof. destruct k; [lia|done]. Qed.

Lemma single_ended prepared w n w' :
  preparedAutoSelection.all prepared = false ->
  autoSelectionDecision.HasHealthyCandidate (preparedAutoSelection.decision prepared) = true ->
  (0 < selectable_count prepared (wall_clock w))%nat ->
  commitPreparedAutoSelectionSingle rfc3339 url_host prepared w = (Ok n, w') -> ended SelectionModeAuto w'.
Proof.
  unfold selectable_count, commitPreparedAutoSelectionSingle. intros Hall Hh Hn. rewrite Hall in Hn.
  intros (wall & w1 & [-> ->]%reads_ok & Hk)%bind_ok. apply bind_ok in Hk as (a & w2 & Ht%tried_end & Hk).
  destruct (exhausted a) as [e|] eqn:Ee; [by apply raise_ok in Hk|].
  destruct (autoSelectionDecision.HasHealthyCandidate (Attempts.decision a)) eqn:Eh; cbn [negb] in Hk.
  - destruct Ht as [[Hnone He]|[[-> Hz]|[[e He] Hz]]].
    + rewrite Hnone in Hk. apply bind_ok in Hk as (updated & w3 & [-> ->]%reads_ok & Hk).
      apply bind_ok in Hk as (u & w4 & Hs & Hk). apply bind_ok in Hk as (u' & w5 & Hset%settings_kept & Hk).
      injection Hk as _ <-. apply (kept_ended _ w4); [done|]. destruct (load_state w2) as [st|e] eqn:Hst.
      * refine (ignored_write _ _ w2 st u w4 He Hst _ Hs). reflexivity.
      * by injection Hs as _ <-.
    + cbn in Hz, Eh. destruct Hz as [Hz|Hz]; [|congruence].
      by apply (some_attempt _ Hn) in Hz.
    + by rewrite (exhausted_healthy a e) in Ee.
  - destruct (ZapretSettings.Enabled _).
    + apply bind_ok in Hk as (u & w3 & Hz%zapret_ended & Hk). apply bind_ok in Hk as (u' & w4 & Hset%settings_kept & Hk).
      injection Hk as _ <-. by apply (kept_ended _ w3).
    + apply bind_ok in Hk as (u & w3 & _ & Hk). by apply raise_ok in Hk.
Qed.

Lemma all_ended prepared w n w' :
  preparedAutoSelection.all prepared = true ->
  autoSelectionDecision.HasHealthyCandidate (preparedAutoSelection.decision prepared) = true ->
  (0 < selectable_count prepared (wall_clock w))%nat ->
  commitPreparedAutoSelectionAll rfc3339 url_host prepared w = (Ok n, w') -> ended SelectionModeAuto w'.
Proof.
  unfold selectable_count, commitPreparedAutoSelectionAll. intros Hall Hh Hn. rewrite Hall in Hn.
  intros (wall & w1 & [-> ->]%reads_ok & Hk)%bind_ok. apply bind_ok in Hk as (a & w2 & Ht%tried_all_end & Hk).
  destruct (exhausted a) as [e|] eqn:Ee; [by apply raise_ok in Hk|].
  destruct (autoSelectionDecision.HasHealthyCandidate (Attempts.decision a)) eqn:Eh; cbn [negb] in Hk.
  - apply bind_ok in Hk as (u & w3 & Hs & Hk). apply bind_ok in Hk as (u' & w4 & Hset%settings_kept & Hk).
    injection Hk as _ <-. apply (kept_ended _ w3); [done|]. refine (scope_ended _ _ w2 _ _ _ Hs).
    destruct Ht as [[_ He]|[[-> Hz]|[[e He] Hz]]]; [done| |by rewrite (exhausted_healthy a e) in Ee].
    cbn in Hz, Eh. destruct Hz as [Hz|Hz]; [|congruence]. by apply (some_attempt _ Hn) in Hz.
  - destruct (_ && _).
    + apply bind_ok in Hk as (u & w3 & Hz%zapret_ended & Hk). apply bind_ok in Hk as (u1 & w4 & Hs & Hk).
      apply bind_ok in Hk as (u2 & w5 & Hset%settings_kept & Hk). injection Hk as _ <-.
      apply (kept_ended _ w4); [done|]. exact (ignored_scope _ _ _ _ _ Hz Hs).
    + apply bind_ok in Hk as (u & w3 & _ & Hk). by apply raise_ok in Hk.
Qed.

(** ** The failover *)

Lemma commit_prepared_ended prepared w n w' :
  autoSelectionDecision.HasHealthyCandidate (preparedAutoSelection.decision prepared) = true ->
  (0 < selectable_count prepared (wall_clock w))%nat ->
  commitPreparedAutoSelection rfc3339 url_host prepared w = (Ok n, w') -> ended SelectionModeAuto w'.
Proof.
  unfold commitPreparedAutoSelection. destruct (preparedAutoSelection.all prepared) eqn:E; [by apply all_ended|by apply single_ended].
Qed.

(** A node that was selected stays recorded when the same mode is written over it. *)
Lemma selected_ended sub node mode opts w u w1 updated next (wrap_ : string -> Fault) u' w' v :
  applyNodeSelection rfc3339 url_host sub node mode opts w = (Ok u, w1) ->
  load_state w1 = Ok updated -> kept w1 v ->
  connection next = ((connection updated).1, mode) ->
  act wrap_ (save_state next) v = (Ok u', w') -> ended mode w'.
Proof.
  intros (v' & Hr & Hc)%applied_routed Hl Hk Hf Hs.
  assert (He : ended mode v) by (apply (kept_ended _ w1); [done|]; exact (ended_on_node _ _ sub node v' Hr Hc)).
  refine (resaved_ended mode next v updated wrap_ u' w' He _ _ Hs); [by rewrite (proj2 Hk)|].
  rewrite Hf. destruct Hc as (st & Hst & Hc). rewrite Hl in Hst. injection Hst as <-. by rewrite Hc.
Qed.

Lemma reserves_ended snapshot mode reason reserves : forall last w w',
  try_reserves rfc3339 url_host snapshot mode reason reserves last w = (Ok true, w') -> ended mode w'.
Proof.
  induction reserves as [|c reserves IH]; intros last w w'; cbn [try_reserves]; [by destruct last|].
  intros (checkedAt & w1 & _ & Hk)%bind_ok. apply bind_ok in Hk as (applied & w2 & Ha%attempt_ok & Hk).
  destruct applied as [u|e]; [|by apply IH in Hk].
  apply bind_ok in Hk as (updated & w3 & [-> Hl]%load_as_ok & Hk). apply bind_ok in Hk as (now & w4 & Ht%time_kept & Hk).
  apply bind_ok in Hk as (u' & w5 & Hs & Hk). injection Hk as <-.
  refine (selected_ended _ _ _ _ _ _ _ updated _ _ _ _ _ Ha Hl Ht _ Hs).
  unfold failover_state. by destruct (bool_decide _).
Qed.

Lemma manual_committed snapshot prepared reason w u w' :
  commit_manual rfc3339 url_host snapshot prepared reason w = (Ok u, w') -> ended SelectionModeManual w'.
Proof.
  unfold commit_manual. intros (u1 & w1 & Ha & Hk)%bind_ok. apply bind_ok in Hk as (updated & w2 & [-> Hl]%load_as_ok & Hk).
  apply bind_ok in Hk as (now & w3 & Ht%time_kept & Hs).
  refine (selected_ended _ _ _ _ _ _ _ updated _ _ _ _ _ Ha Hl Ht _ Hs). reflexivity.
Qed.

End Outcome.

Section Search.
  Context `{FailoverLaws W, FailoverRuntime W}.
  Context (fingerprint : Node -> string).
  Context (rfc3339 : Time -> string) (url_host : string -> option (string * string)).

Lemma prepare_ok id snapshot probes w prepared w' :
  prepare id snapshot probes w = (Ok prepared, w') ->
  exists now v egress completions,
    prepareAutoSelectionWithProbes now (wall_clock v) completions egress id snapshot probes = Ok prepared.
Proof.
  unfold prepare. intros (now & w1 & _ & Hk)%bind_ok. apply bind_ok in Hk as (wall & w2 & [-> ->]%reads_ok & Hk).
  apply bind_ok in Hk as (probing & w3 & _ & Hk). unfold of_result in Hk.
  destruct (prepareAutoSelectionWithProbes _ _ _ _ _ _ _) as [p|e] eqn:E; [|done]. injection Hk as <- _. by repeat eexists.
Qed.


Lemma when_current_ok {A} snapshot (changed p : Prog W Fault A) w r w' :
  when_current snapshot changed p w = (Ok r, w') -> p w = (Ok r, w') \/ changed w = (Ok r, w').
Proof.
  unfold when_current. intros (c & w1 & Hc%current_same & Hk)%bind_ok. subst w1. destruct c; [by left|by right].
Qed.

Lemma nothing_false prepared :
  selects_nothing prepared = false -> autoSelectionDecision.HasHealthyCandidate (preparedAutoSelection.decision prepared) = true.
Proof. unfold selects_nothing. by destruct (autoSelectionDecision.HasHealthyCandidate _). Qed.

Lemma auto_search_ended (S : steady (W := W)) reason snapshot w u w' :
  auto_search rfc3339 url_host reason snapshot w = (Ok u, w') -> ended SelectionModeAuto w'.
Proof.
  unfold auto_search. intros (st & w1 & _ & Hk)%bind_ok. apply bind_ok in Hk as (now & w2 & _ & Hk).
  apply bind_ok in Hk as (prepared & w3 & (now' & v & egress & completions & Hp)%prepare_ok & Hk).
  destruct (selects_nothing prepared) eqn:Es; [by apply raise_ok in Hk|].
  destruct (negb _ && _); [by apply raise_ok in Hk|].
  apply when_current_ok in Hk as [Hk|Hk]; [|by apply raise_ok in Hk].
  apply bind_ok in Hk as (n & w4 & Hc & Hk). injection Hk as _ <-. apply nothing_false in Es.
  apply (commit_prepared_ended rfc3339 url_host prepared w3 n w4 Es); [|exact Hc].
  rewrite (steady_count S prepared w3 v). exact (prepared_selectable _ _ _ _ _ _ _ _ Hp Es).
Qed.

Lemma manual_search_ended reason snapshot w u w' :
  manual_search rfc3339 url_host reason snapshot w = (Ok u, w') -> ended SelectionModeManual w'.
Proof.
  unfold manual_search. intros (st & w1 & _ & Hk)%bind_ok. apply bind_ok in Hk as (p1 & w2 & _ & Hk).
  apply bind_ok in Hk as (p2 & w3 & _ & Hk). destruct (_ || _); [by apply raise_ok in Hk|].
  destruct (negb _ && _); [by apply raise_ok in Hk|].
  apply when_current_ok in Hk as [Hk|Hk]; [by apply manual_committed in Hk|by apply raise_ok in Hk].
Qed.

Lemma reserve_failover_ended snapshot mode reason w r w' :
  tryManagedReserveFailover fingerprint rfc3339 url_host snapshot mode reason w = (Ok r, w') ->
  r.1.1 = true -> ended mode w'.
Proof.
  unfold tryManagedReserveFailover. intros (now & w1 & _ & Hk)%bind_ok. cbv zeta in Hk.
  case_bool_decide; [by injection Hk as <- _|]. apply bind_ok in Hk as (c & w2 & Hc%attempt_ok%current_same & Hk). subst w2.
  destruct c as [[]|e]; [|by injection Hk as <- _..]. apply bind_ok in Hk as (t & w3 & Ht%attempt_ok & Hk).
  injection Hk as <- <-. destruct t as [[]|e]; [|done..]. intros _. by apply reserves_ended in Ht.
Qed.

Lemma reserves_first_ended snapshot mode reason next w u w' :
  (forall s v x v', next s v = (Ok x, v') -> ended mode v') ->
  reserves_first fingerprint rfc3339 url_host snapshot mode reason next w = (Ok u, w') -> ended mode w'.
Proof.
  intros Hn. unfold reserves_first. intros ([[switched attempted] e] & w1 & Hr & Hk)%bind_ok.
  pose proof (reserve_failover_ended _ _ _ _ _ _ Hr) as He. destruct switched; [injection Hk as _ <-; by apply He|].
  destruct attempted; [|by apply Hn in Hk]. apply bind_ok in Hk as (fresh & w2 & _ & Hk).
  destruct (negb _); [by apply raise_ok in Hk|by apply Hn in Hk].
Qed.

Lemma mode_failover_ended (S : steady (W := W)) reason snapshot w u w' :
  let state := autoSelectionSnapshot.state snapshot in
  auto_active state || manual_active state = true ->
  mode_failover fingerprint rfc3339 url_host reason snapshot w = (Ok u, w') -> ended (RuntimeState.Mode state) w'.
Proof.
  intros state Hact. unfold mode_failover, runAutoFailoverWithSnapshot, runManualFailoverWithSnapshot. fold state.
  destruct (bool_decide_reflect (RuntimeState.Mode state = SelectionModeAuto)) as [Hm|Hm].
  - assert (Ha : auto_active state = true).
    { destruct (auto_active state); [done|]. unfold manual_active in Hact. by rewrite Hm, andb_false_r in Hact. }
    rewrite Ha, Hm. cbn [negb]. apply reserves_first_ended. intros s v x v'. by apply auto_search_ended.
  - assert (Ha : manual_active state = true).
    { unfold auto_active in Hact. by rewrite (bool_decide_eq_false_2 _ Hm), andb_false_r in Hact. }
    assert (E : RuntimeState.Mode state = SelectionModeManual).
    { unfold manual_active in Ha. destruct (bool_decide_reflect (RuntimeState.Mode state = SelectionModeManual)); [done|].
      by rewrite andb_false_r in Ha. }
    rewrite Ha, E. cbn [negb]. apply reserves_first_ended. intros s v x v'. by apply manual_search_ended.
Qed.

(** ** The direct route *)

Definition direct_recorded (w : W) : Prop :=
  selected w = Some managedDirectTag /\
  exists st, load_state w = Ok st /\ RuntimeState.Connected st = false /\
    RuntimeState.ActiveTransport st = TransportModeDirect /\ RuntimeState.OperationalMode st = OperationalModeDirect /\
    RuntimeState.SelectedOutboundTag st = managedDirectTag.

Lemma direct_activated request state reason t1 t2 w w' :
  activateManagedDirect request state reason t1 t2 w = (None, w') -> direct_recorded w'.
Proof.
  unfold activateManagedDirect. cbv zeta. destruct (save_state (direct_intent state t1) w) as [[e|] w1]; [done|].
  destruct (SelectDirect w1) as [[e|] w2] eqn:Es; [by destruct (save_state _ w2)|].
  destruct (match request with Err e => (Some e, w2) | Ok r => persist_config _ w2 end) as [[e|] w3] eqn:Ep;
    [by destruct (save_state _ _)|].
  intros Hw. pose proof (save_keeps_route (direct_state state reason t2) w3) as Hr. rewrite Hw in Hr. cbn [snd] in Hr.
  apply saved_is_loaded in Hw. unfold SelectDirect in Es. apply select_ok in Es. split.
  - rewrite Hr, <- Es. destruct request as [r|e]; [|done].
    pose proof (persist_keeps_route (r <| ConfigRequest.StartDirect := true |>) w2) as Hp. by rewrite Ep in Hp.
  - eexists. split; [exact Hw|]. by split_and!.
Qed.

Lemma fallback_recorded reason err w u w' :
  direct_fallback url_host reason err w = (Ok u, w') -> direct_recorded w'.
Proof.
  unfold direct_fallback. intros (captured & w1 & _ & Hk)%bind_ok. destruct captured as [fallback|e]; [|by apply raise_ok in Hk].
  apply bind_ok in Hk as (opened & w2 & Ho%attempt_ok & Hk). destruct opened as [x|e]; [|by apply raise_ok in Hk].
  injection Hk as _ <-. apply when_current_ok in Ho as [Ho|Ho]; [|by apply raise_ok in Ho].
  unfold fail_open in Ho. apply bind_ok in Ho as (request & w3 & _ & Ho). apply bind_ok in Ho as (times & w4 & _ & Ho).
  apply act_ok in Ho. by apply direct_activated in Ho.
Qed.

Lemma not_awg stored w :
  load_state w = Ok stored -> RuntimeState.ActiveConnectionKind stored <> "amneziawg" -> resume_awg w = (Ok false, w).
Proof. intros Hl Hk. unfold resume_awg, mbind, prog_bind, reads. by rewrite Hl, bool_decide_eq_false_2. Qed.


End Search.

(** ** On the world in memory *)

#[export] Instance world_failover : FailoverRuntime MemoryWorld := {
  probe_round w := (no_probing, w);
  probe_awg_profiles _ w := (tt, w);
  check_awg w := (None, w);
  connect_active_awg w := (None, w)
}.

Lemma world_failover_laws : FailoverLaws MemoryWorld.
Proof. split; try (intros; reflexivity); [exact world_auto_laws|done]. Qed.

Abbreviation failover_from w := (RunConnectionFailover Node.ID (fun _ => "") (fun _ => None) "runtime stopped" w).
Definition vpn_world : MemoryWorld := world_at OperationalModeVPN None None.
Definition no_reserve : MemoryWorld := world_at OperationalModeVPN (Some "no answer") None.

(** A captured snapshot and a property of it that can be computed. *)
Lemma captured_with (P : autoSelectionSnapshot -> bool) (w : MemoryWorld) :
  match (captureAutoSelectionSnapshot w).1 with Ok s => P s | Err _ => false end = true ->
  exists snapshot, captureAutoSelectionSnapshot w = (Ok snapshot, w) /\ P snapshot = true.
Proof.
  destruct (captureAutoSelectionSnapshot w) as [[s|e] v] eqn:E; cbn [fst]; [|done].
  pose proof (capture_same _ _ _ E) as ->. intros Hp. exists s. by split.
Qed.

Definition file_connected (r : result string RuntimeState) : bool :=
  match r with Ok st => RuntimeState.Connected st | Err _ => false end.

Lemma ended_connected mode (w : MemoryWorld) : ended mode w -> file_connected (load_state w) = true.
Proof.
  intros [sub node v _ (st & Hl & Hc)|sub node _ (st & Hl & Hc)|sub node (st & Hl & Hc)]; rewrite Hl; cbn;
    unfold connection in Hc; congruence.
Qed.

Lemma direct_disconnected (w : MemoryWorld) : direct_recorded w -> file_connected (load_state w) = false.
Proof. intros (_ & st & Hl & Hc & _). by rewrite Hl. Qed.

(** What has to be computed to apply the theorem. *)
Definition failover_ready (w : MemoryWorld) (mode : string) : bool :=
  match load_state w with
  | Ok st => negb (bool_decide (RuntimeState.ActiveConnectionKind st = "amneziawg"))
  | Err _ => false
  end &&
  match (captureAutoSelectionSnapshot w).1 with
  | Ok s => let st := autoSelectionSnapshot.state s in
            (auto_active st || manual_active st) && bool_decide (RuntimeState.Mode st = mode)
  | Err _ => false
  end.

