(* ===== verification/Connect.v ===== *)
(** * Connecting and resuming

    [connectManual], [ConnectAuto] and [disconnect] of [app/service.go] with
    [connectAutoUsingSnapshot] of [app/auto_prepare.go], and [ResumeConnection]
    of [app/resume.go]: the theorem says what resuming does after a
    disconnection. *)
From S2P Require Import Prelude GoRunes GoStrings GoNum NetIP Domain Firewall FirewallSettings.
From S2P Require Import Zapret Settings Connection Migrations PersistFacts Probe.

From S2P Require Import AutoState AutoSelect AutoSelectFacts Reserves XrayConfig XrayFacts.
From S2P Require Import BackendRequest ManagedBackend Scheduler ManagedSwitch ManagedSwitchFacts.
From S2P Require Import Effects MemoryWorld NodeSelection NodeSelectionFacts ReserveRound.
From S2P Require Import ReserveRoundFacts AutoCommit Failover FailoverFacts.

Local Open Scope Z_scope.
Local Open Scope list_scope.

Definition subscription_error (subscriptions : option (list Subscription)) (id : string) : Fault :=
  fault match subscriptions with
        | None => "load subscriptions"
        | Some _ => "subscription " +:+ quoted (TrimSpace id) +:+ " not found"
        end.

Definition expired_fault (id : string) : Fault :=
  fault ("subscription " +:+ quoted id +:+ " expired; its servers are view-only").

Section Connect.
  Context `{ManagedBackend W, Router W, Runtime W, AutoRuntime W, FailoverRuntime W}.
  Context (rfc3339 : Time -> string) (url_host : string -> option (string * string)).

Abbreviation App := (Prog W Fault).

(** [subscriptionByID] as a program; the text does not tell an ambiguous
    identifier from an unknown one. *)
Definition find_subscription (id : string) : App Subscription :=
  subscriptions ← reads load_subscriptions;
  of_result match subscriptionByID subscriptions id with
            | Some sub => Ok sub
            | None => Err (subscription_error subscriptions id)
            end.

Definition connectManual (subscriptionID nodeID : string) : App unit :=
  sub ← find_subscription subscriptionID;
  now ← currentTime;
  if IsExpired sub now then raise (expired_fault subscriptionID)
  else
    match NodeByID sub nodeID with
    | None => raise (fault ("node " +:+ quoted nodeID +:+ " not found in subscription " +:+ quoted subscriptionID))
    | Some node =>
      state ← load_state_as "load state";
      _ ← applyNodeSelection rfc3339 url_host sub node SelectionModeManual (selectionOptionsForState state);
      updated ← reads load_state;
      _ ← match updated with
          | Ok s =>
            now ← currentTime;
            ignore (act fault (save_state (s <| RuntimeState.LastSwitchAt := now |>
                                             <| RuntimeState.LastSwitchReason := "manual selection" |>)))
          | Err _ => mret tt
          end;
      settings ← reads load_settings;
      match settings with
      | Ok s => save_settings (s <| Settings.AutoMode := false |> <| Settings.Mode := SelectionModeManual |>)
      | Err _ => mret tt
      end
    end.

Definition connectAutoUsingSnapshot (subscriptionID : string) (snapshot : autoSelectionSnapshot) : App Node :=
  prepared ← prepare subscriptionID snapshot true;
  when_current snapshot (raise errAutoSelectionSnapshotChanged) (commitPreparedAutoSelection rfc3339 url_host prepared).

Definition ConnectAuto (subscriptionID : string) : App Node :=
  _ ← outcome (probe_awg_profiles (TrimSpace subscriptionID));
  snapshot ← captureAutoSelectionSnapshot;
  connectAutoUsingSnapshot subscriptionID snapshot.

(** The connection that was remembered is taken up again. *)
Definition resume_previous (state : RuntimeState) (resume : ResumeConnection) : App unit :=
  if negb (bool_decide (ResumeConnection.AWGProfileID resume = ""))
  then act fault (connect_awg (ResumeConnection.AWGProfileID resume) (ResumeConnection.Mode resume)
                    (ResumeConnection.AutoScope resume))
  else
    sub ← find_subscription (ResumeConnection.SubscriptionID resume);
    now ← currentTime;
    if IsExpired sub now then raise (expired_fault (Subscription.ID sub))
    else
      match NodeByID sub (ResumeConnection.NodeID resume) with
      | None => raise (fault "previous server is unavailable; choose a server from the list")
      | Some node =>
        settings ← (fun w => match load_settings w with Ok s => (Ok s, w) | Err e => (Err (fault e), w) end);
        let state := state <| RuntimeState.AutoScope := ResumeConnection.AutoScope resume |> in
        _ ← act fault (save_state state);
        _ ← applyNodeSelection rfc3339 url_host sub node (ResumeConnection.Mode resume) (selectionOptionsForState state);
        act fault (store_settings (settings
          <| Settings.Mode := ResumeConnection.Mode resume |>
          <| Settings.AutoMode := bool_decide (ResumeConnection.Mode resume = SelectionModeAuto) |>))
      end.

(** Without a remembered connection the whole pool is scanned in automatic mode. *)
Definition ResumeConnection : App unit :=
  state ← load_state_as "load state";
  if RuntimeState.Connected state then mret tt
  else
    match RuntimeState.ResumeConnection state with
    | None => _ ← ConnectAuto ""; mret tt
    | Some _ =>
      state ← load_state_as "load state";
      if RuntimeState.Connected state then mret tt
      else
        match RuntimeState.ResumeConnection state with
        | None => raise (fault "previous connection is unavailable; choose a server from the list")
        | Some resume => resume_previous state resume
        end
    end.

End Connect.

Section Resuming.
  Context `{FailoverLaws W, FailoverRuntime W}.
  Context (rfc3339 : Time -> string) (url_host : string -> option (string * string)).

Lemma disconnected_file w w' :
  disconnect w = (Ok tt, w') ->
  exists st, load_state w' = Ok st /\ RuntimeState.Connected st = false /\ RuntimeState.ResumeConnection st = None /\
    RuntimeState.Mode st = SelectionModeDisconnected /\ RuntimeState.ActiveNodeID st = "" /\
    RuntimeState.ActiveTransport st = TransportModeDirect.
Proof.
  unfold disconnect. intros (previous & w1 & _ & Hk)%bind_ok. apply bind_ok in Hk as (u & w2 & _ & Hk).
  apply bind_ok in Hk as (state & w3 & _ & Hk). apply bind_ok in Hk as (s & w4 & [_ Es]%stamp_ok & Hk).
  apply bind_ok in Hk as (u' & w5 & [_ Hl]%saved_effect & Hk).
  assert (K : load_state w' = load_state w5).
  { apply bind_ok in Hk as (settings & w6 & [-> ->]%reads_ok & Hk).
    destruct (load_settings w5); [by apply settings_kept in Hk as [_ ?]|]. by injection Hk as <-. }
  rewrite K. eexists. split; [exact Hl|]. unfold settle_operational_mode.
  destruct Es as [->|[now ->]]; destruct (bool_decide _); by split_and!.
Qed.

(** A disconnection is not remembered.  Whatever was connected before, the state
    that is read back has lost the connection to resume, so resuming never restores
    the previous server: it probes every subscription and connects in automatic
    mode. *)
Theorem resume_after_disconnect_rescans w w' :
  disconnect w = (Ok tt, w') ->
  ResumeConnection rfc3339 url_host w' = (_ ← ConnectAuto rfc3339 url_host ""; mret tt) w'.
Proof.
  intros (st & Hl & Hc & Hr & _)%disconnected_file. unfold ResumeConnection.
  unfold load_state_as, mbind at 1, prog_bind at 1. by rewrite Hl, Hc, Hr.
Qed.

End Resuming.

(** A manual connection over node [a], disconnected and resumed: the route leads
    to another node, and the mode is automatic. *)
Definition manual_state : RuntimeState :=
  (world_state OperationalModeVPN) <| RuntimeState.Mode := SelectionModeManual |>
    <| RuntimeState.Health := {[ "b" := one_success "b" ]} |>.

Definition manual_world : MemoryWorld :=
  Build_MemoryWorld (Build_Memory [managedOutboundPrefix +:+ "a"] {[ managedBalancerTag := managedOutboundPrefix +:+ "a" ]})
    (Some (stored manual_state)) None None None.

Abbreviation resume := (ResumeConnection (fun _ => "") (fun _ => None)).

Definition file_route (r : result string RuntimeState) : option (string * string * bool) :=
  match r with
  | Ok st => Some (RuntimeState.ActiveNodeID st, RuntimeState.Mode st, RuntimeState.Connected st)
  | Err _ => None
  end.

Lemma resume_after_disconnect_rescans_witness :
  (disconnect manual_world).1 = Ok tt /\
  let w := (disconnect manual_world).2 in
  resume w = (_ ← ConnectAuto (fun _ => "") (fun _ => None) ""; mret tt) w /\
  file_route (load_state manual_world) = Some ("a", SelectionModeManual, true) /\
  file_route (load_state (resume w).2) = Some ("b", SelectionModeAuto, true).
Proof.
  assert (E : (disconnect manual_world).1 = Ok tt) by (vm_compute; reflexivity). split; [exact E|]. intros w.
  split; [|split; vm_compute; reflexivity].
  exact (resume_after_disconnect_rescans (H3 := world_failover_laws) (fun _ => "") (fun _ => None) manual_world w
    (run_eq (disconnect manual_world) (Ok tt) E)).
Defined.
