(* ===== verification/AtomicFiles.v ===== *)
(** * Files that are replaced atomically

    [store/atomic.go]: a file is written beside its path, synchronised and
    renamed over it.  The system calls and their failures belong to the host;
    the theorem says that the path holds the old content or the new one
    whichever call fails, and also when the process stops between two calls.  The
    deferred removal, whose error the code drops, is taken to succeed. *)
From S2P Require Import Prelude GoStrings Effects.

Local Open Scope list_scope.

Abbreviation Files := (gmap string string).

(** The calls of [atomicWriteFile] before its deferred removal. *)
Inductive Call : Type := MakeDir | CreateTemp | WriteTemp | ChmodTemp | SyncTemp | CloseTemp | RenameTemp.

Definition call_context (c : Call) : string :=
  match c with
  | MakeDir => "create directory"
  | CreateTemp => "create temp file"
  | WriteTemp => "write temp file"
  | ChmodTemp => "chmod temp file"
  | SyncTemp => "sync temp file"
  | CloseTemp => "close temp file"
  | RenameTemp => "rename temp file"
  end.

(** The errors of the store name the call. *)
Definition call_error (c : Call) (e : string) : string := call_context c +:+ ": " +:+ e.

(** Those of [atomicWriteText] of [platform/openwrt] are bare. *)
Definition bare_error (c : Call) (e : string) : string := e.

Definition write_calls : list Call := [MakeDir; CreateTemp; WriteTemp; ChmodTemp; SyncTemp; CloseTemp; RenameTemp].

(** What a call that succeeds does to the files. *)
Definition call_effect (tmp path data : string) (c : Call) (f : Files) : Files :=
  match c with
  | CreateTemp => <[tmp := ""]> f
  | WriteTemp => <[tmp := data]> f
  | RenameTemp => match f !! tmp with Some content => <[path := content]> (delete tmp f) | None => f end
  | _ => f
  end.

(** A host: its files, the failures of its calls, and what a failing write leaves. *)
Class Host (W : Type) := {
  files : W -> Files;
  put_files : Files -> W -> W;
  call_fails : Call -> string -> W -> option string * W;
  written_part : string -> W -> string;
  random_suffix : W -> string
}.

(** [O_EXCL]: a temporary name is new. *)
Class HostLaws (W : Type) `{Host W} : Prop := {
  files_put : forall f w, files (put_files f w) = f;
  calls_keep_files : forall c p w, files (call_fails c p w).2 = files w;
  temp_is_new : forall path w, files w !! (path +:+ ".tmp-" +:+ random_suffix w) = None
}.

(** Reading and removing, with the one error that callers tell apart. *)
Inductive ReadError : Type := NotExist | ReadFailed (e : string).

Class FileHost (W : Type) `{Host W} := {
  read_file : string -> W -> result ReadError string;
  remove_file : string -> W -> option ReadError * W
}.

Class FileHostLaws (W : Type) `{FileHost W} : Prop := {
  file_host :: HostLaws W;
  read_some : forall p w d, read_file p w = Ok d -> files w !! p = Some d;
  read_none : forall p w, read_file p w = Err NotExist -> files w !! p = None;
  removed : forall p w w', remove_file p w = (None, w') -> files w' = delete p (files w);
  not_removed : forall p w e w', remove_file p w = (Some e, w') -> files w' = files w /\
    (e = NotExist -> files w !! p = None)
}.

Section Write.
  Context `{Host W}.

Definition modify (g : Files -> Files) : Prog W string unit := fun w => (Ok tt, put_files (g (files w)) w).

Definition make_call (wrap : Call -> string -> string) (tmp path data : string) (c : Call) : Prog W string unit := fun w =>
  match call_fails c path w with
  | (None, w) => modify (call_effect tmp path data c) w
  | (Some e, w) =>
    (Err (wrap c e),
     match c with WriteTemp => put_files (<[tmp := written_part data w]> (files w)) w | _ => w end)
  end.

Fixpoint make_calls (wrap : Call -> string -> string) (tmp path data : string) (calls : list Call) : Prog W string unit :=
  match calls with
  | [] => mret tt
  | c :: calls => _ ← make_call wrap tmp path data c; make_calls wrap tmp path data calls
  end.

Definition temp_name (path : string) (w : W) : string := path +:+ ".tmp-" +:+ random_suffix w.

(** The deferred removal runs on every way out. *)
Definition replace_file (wrap : Call -> string -> string) (path data : string) : Prog W string unit := fun w =>
  let tmp := temp_name path w in
  let '(r, w) := make_calls wrap tmp path data write_calls w in
  (r, put_files (delete tmp (files w)) w).

Definition atomicWriteFile (path data : string) : Prog W string unit := replace_file call_error path data.

Definition atomicWriteText (path data : string) : Prog W string unit := replace_file bare_error path data.

End Write.

Section Theorems.
  Context `{HostLaws W}.

Lemma temp_not_path path (w : W) : temp_name path w <> path.
Proof.
  unfold temp_name. intros E. apply (f_equal String.length) in E. rewrite !length_append in E. cbn in E. lia.
Qed.

(** *** Single calls *)

Lemma call_done wrap tmp path data c w w' :
  make_call wrap tmp path data c w = (Ok tt, w') -> files w' = call_effect tmp path data c (files w).
Proof.
  unfold make_call, modify. pose proof (calls_keep_files c path w) as Hk.
  destruct (call_fails c path w) as [[e|] v]; [done|]. cbn [snd] in Hk. intros [= <-]. rewrite files_put. by rewrite Hk.
Qed.

Lemma effect_beside tmp path data c (f : Files) :
  c <> RenameTemp -> delete tmp (call_effect tmp path data c f) = delete tmp f.
Proof. destruct c; intros Hc; cbn; try done; apply delete_insert_eq. Qed.

(** A call that fails, or is not the renaming, only touches the temporary file. *)
Lemma call_beside wrap tmp path data c w r w' :
  make_call wrap tmp path data c w = (r, w') -> r <> Ok tt \/ c <> RenameTemp -> delete tmp (files w') = delete tmp (files w).
Proof.
  unfold make_call, modify. pose proof (calls_keep_files c path w) as Hk.
  destruct (call_fails c path w) as [[e|] v]; cbn [snd] in Hk; intros [= <- <-] Hc.
  - rewrite <- Hk. destruct c; try done. rewrite files_put. apply delete_insert_eq.
  - rewrite files_put, <- Hk. destruct Hc as [Hc|Hc]; [done|by apply effect_beside].
Qed.

Lemma calls_beside wrap tmp path data calls : RenameTemp ∉ calls -> forall w,
  delete tmp (files (make_calls wrap tmp path data calls w).2) = delete tmp (files w).
Proof.
  induction calls as [|c calls IH]; intros Hn w; [done|]. apply not_elem_of_cons in Hn as [Hc Hn].
  cbn [make_calls]. unfold mbind, prog_bind. destruct (make_call wrap tmp path data c w) as [r v] eqn:E.
  pose proof (call_beside _ _ _ _ _ _ _ _ E (or_intror (not_eq_sym Hc))) as Hb. destruct r as [u|e]; cbn [snd]; [|done].
  by rewrite IH.
Qed.

Lemma make_calls_app wrap tmp path data l1 l2 w :
  make_calls wrap tmp path data (l1 ++ l2) w = (_ ← make_calls wrap tmp path data l1; make_calls wrap tmp path data l2) w.
Proof.
  revert w. induction l1 as [|c l1 IH]; intros w; [done|]. cbn [make_calls app]. unfold mbind, prog_bind in *.
  destruct (make_call wrap tmp path data c w) as [[u|e] v]; [apply IH|done].
Qed.

(** *** Every way out *)

Definition before_rename : list Call := [MakeDir; CreateTemp; WriteTemp; ChmodTemp; SyncTemp; CloseTemp].

Lemma prepared_temp wrap tmp path data w w' :
  make_calls wrap tmp path data before_rename w = (Ok tt, w') -> files w' = <[tmp := data]> (files w).
Proof.
  unfold before_rename. cbn [make_calls]. intros ([] & w1 & E1%call_done & Hk)%bind_ok.
  apply bind_ok in Hk as ([] & w2 & E2%call_done & Hk). apply bind_ok in Hk as ([] & w3 & E3%call_done & Hk).
  apply bind_ok in Hk as ([] & w4 & E4%call_done & Hk). apply bind_ok in Hk as ([] & w5 & E5%call_done & Hk).
  apply bind_ok in Hk as ([] & w6 & E6%call_done & Hk). injection Hk as <-. cbn in *.
  rewrite E6, E5, E4, E3, E2, E1. apply insert_insert_eq.
Qed.

Lemma written_or_not wrap tmp path data w r w' :
  files w !! tmp = None -> tmp <> path -> make_calls wrap tmp path data write_calls w = (r, w') ->
  (r = Ok tt /\ files w' = <[path := data]> (files w)) \/ ((exists e, r = Err e) /\ delete tmp (files w') = files w).
Proof.
  intros Hnew Hne. change write_calls with (before_rename ++ [RenameTemp]). rewrite make_calls_app.
  pose proof (calls_beside wrap tmp path data before_rename ltac:(unfold before_rename; set_solver) w) as Hb.
  unfold mbind, prog_bind. destruct (make_calls wrap tmp path data before_rename w) as [[[]|e] w1] eqn:E1; cbn [snd] in Hb.
  - apply prepared_temp in E1. cbn [make_calls]. unfold mbind, prog_bind.
    destruct (make_call wrap tmp path data RenameTemp w1) as [[[]|e] w2] eqn:E2; intros [= <- <-].
    + left. split; [done|]. rewrite (call_done _ _ _ _ _ _ _ E2), E1. cbn. rewrite lookup_insert_eq, delete_insert_eq.
      by rewrite delete_id.
    + right. split; [by eexists|]. rewrite (call_beside _ _ _ _ _ _ _ _ E2) by (by left). rewrite E1, delete_insert_eq. by apply delete_id.
  - intros [= <- <-]. right. split; [by eexists|]. rewrite Hb. by apply delete_id.
Qed.

Lemma replace_file_cases wrap path data (w : W) :
  (forall r w', replace_file wrap path data w = (r, w') ->
     (r = Ok tt /\ files w' = <[path := data]> (files w)) \/ ((exists e, r = Err e) /\ files w' = files w)) /\
  (forall stop, let f := files (make_calls wrap (temp_name path w) path data (take stop write_calls) w).2 in
     delete (temp_name path w) f = files w \/ delete (temp_name path w) f = <[path := data]> (files w)).
Proof.
  pose proof (temp_is_new path w) as Hnew. pose proof (temp_not_path path w) as Hne. fold (temp_name path w) in Hnew.
  split.
  - intros r w'. unfold replace_file. destruct (make_calls _ _ _ _ _ _) as [r1 w1] eqn:E. intros [= <- <-]. rewrite files_put.
    destruct (written_or_not _ _ _ _ _ _ _ Hnew Hne E) as [[-> Hf]|[He Hf]]; [left; split; [done|]|by right].
    rewrite Hf. apply delete_id. by rewrite lookup_insert_ne.
  - intros stop f. destruct (decide (stop <= 6)%nat) as [Hs|Hs].
    + left. unfold f. rewrite calls_beside; [by apply delete_id|].
      do 7 (destruct stop as [|stop]; [vm_compute; set_solver|]). lia.
    + assert (E : take stop write_calls = write_calls) by (apply take_ge; cbn; lia). unfold f. clear f. rewrite E.
      destruct (make_calls _ _ _ _ _ _) as [r1 w1] eqn:E1.
      destruct (written_or_not _ _ _ _ _ _ _ Hnew Hne E1) as [[-> Hf]|[_ Hf]]; cbn [snd]; [right|by left].
      rewrite Hf. apply delete_id. by rewrite lookup_insert_ne.
Qed.

(** C8: a file is replaced as a whole.  Writing either succeeds, and then exactly
    the path has the new content, or reports the call that failed, and then no file
    has changed; the temporary file is gone.  When the process stops between two
    calls, the files other than the temporary one are the old ones, or the old ones
    with the new content at the path. *)
Theorem atomicWriteFile_atomic path data (w : W) :
  (forall r w', atomicWriteFile path data w = (r, w') ->
     (r = Ok tt /\ files w' = <[path := data]> (files w)) \/ ((exists e, r = Err e) /\ files w' = files w)) /\
  (forall stop, let f := files (make_calls call_error (temp_name path w) path data (take stop write_calls) w).2 in
     delete (temp_name path w) f = files w \/ delete (temp_name path w) f = <[path := data]> (files w)).
Proof. split; [apply (proj1 (replace_file_cases call_error path data w))|apply (proj2 (replace_file_cases call_error path data w))]. Qed.

Lemma atomicWriteFile_cases path data (w : W) r w' : atomicWriteFile path data w = (r, w') ->
  (r = Ok tt /\ files w' = <[path := data]> (files w)) \/ ((exists e, r = Err e) /\ files w' = files w).
Proof. apply (proj1 (replace_file_cases call_error path data w)). Qed.

Lemma atomicWriteText_cases path data (w : W) r w' : atomicWriteText path data w = (r, w') ->
  (r = Ok tt /\ files w' = <[path := data]> (files w)) \/ ((exists e, r = Err e) /\ files w' = files w).
Proof. apply (proj1 (replace_file_cases bare_error path data w)). Qed.

End Theorems.

(** ** A host in memory *)

(** [failing] is the call that fails, if any; a failing write leaves nothing. *)
Record MemoryHost : Type := { host_files : Files; failing : option Call }.

#[export] Instance call_eq_dec : EqDecision Call.
Proof. solve_decision. Defined.

(** A name longer than every existing one. *)
Definition fresh_suffix (f : Files) : string :=
  foldr (fun name acc => name +:+ acc) "x" (map_to_list f).*1.

#[export] Instance memory_host : Host MemoryHost := {
  files := host_files;
  put_files f w := Build_MemoryHost f (failing w);
  call_fails c _ w := (if bool_decide (failing w = Some c) then Some "no space left" else None, w);
  written_part _ _ := "";
  random_suffix w := fresh_suffix (host_files w)
}.

Lemma fresh_suffix_longer (f : Files) name : is_Some (f !! name) -> (String.length name <= String.length (fresh_suffix f))%nat.
Proof.
  intros [content Hn%elem_of_map_to_list]. unfold fresh_suffix.
  assert (Hin : name ∈ (map_to_list f).*1) by (apply list_elem_of_fmap; by exists (name, content)).
  revert Hin. generalize (map_to_list f).*1 as l. clear f Hn. induction l as [|y l IH]; intros Hin; [by apply elem_of_nil in Hin|].
  cbn [foldr]. rewrite length_append. apply elem_of_cons in Hin as [->|Hin]; [lia|]. specialize (IH Hin). lia.
Qed.

Lemma memory_host_laws : HostLaws MemoryHost.
Proof.
  split; [done| |].
  - intros c p w. done.
  - intros path w. destruct (files w !! _) as [content|] eqn:E; [|done]. exfalso.
    pose proof (fresh_suffix_longer (host_files w) _ (ex_intro _ content E)) as Hl. cbn in Hl.
    rewrite !length_append in Hl. cbn in Hl. lia.
Qed.

#[export] Instance memory_file_host : FileHost MemoryHost := {
  read_file p w := match host_files w !! p with Some d => Ok d | None => Err NotExist end;
  remove_file p w := match host_files w !! p with
                     | Some _ => (None, Build_MemoryHost (delete p (host_files w)) (failing w))
                     | None => (Some NotExist, w)
                     end
}.

Lemma memory_file_laws : FileHostLaws MemoryHost.
Proof.
  split.
  - exact memory_host_laws.
  - intros p w d. cbn. by destruct (host_files w !! p); intros [= ->].
  - intros p w. cbn. by destruct (host_files w !! p).
  - intros p w w'. cbn. by destruct (host_files w !! p); intros [= <-].
  - intros p w e w'. cbn. destruct (host_files w !! p) eqn:E; [done|]. by intros [= <- <-].
Qed.

Lemma atomicWriteFile_atomic_witness :
  let w := Build_MemoryHost {[ "state.json" := "old" ]} (Some RenameTemp) in
  files (atomicWriteFile "state.json" "new" w).2 = {[ "state.json" := "old" ]}.
Proof.
  intros w. destruct (atomicWriteFile_atomic (H0 := memory_host_laws) "state.json" "new" w) as [Ha _].
  destruct (Ha _ _ (surjective_pairing (atomicWriteFile "state.json" "new" w))) as [[Hr _]|[_ Hf]]; [|exact Hf].
  exfalso. vm_compute in Hr. discriminate Hr.
Defined.
