(* ===== verification/AmneziaStore.v ===== *)
(** * The store of AmneziaWG profiles

    [store/amneziawg.go]: one file per profile and an index of the profiles.
    [marshal] and [unmarshal] stand for [encoding/json] on the index. *)
From S2P Require Import Prelude GoRunes GoStrings GoNum NetIP Domain GoConv GoConvFacts.
From S2P Require Import AmneziaProfile AmneziaRuntime AmneziaFacts Effects AtomicFiles.

Local Open Scope list_scope.

Module ProfileMetadata.
Record ProfileMetadata : Type := mk { ID : string; Name : string }.
End ProfileMetadata.
Abbreviation ProfileMetadata := ProfileMetadata.ProfileMetadata.

Module StorePaths.
Record StorePaths : Type := mk { AWGProfilesDir : string; AWGProfilesPath : string; AWGProfilePath : string }.
End StorePaths.
Abbreviation StorePaths := StorePaths.StorePaths.

(** ** Paths *)

Definition slash : ascii := "/".

Fixpoint drop_slashes (l : list Z) : list Z :=
  match l with c :: t => if (c =? 47)%Z then drop_slashes t else l | [] => [] end.

(** [filepath.Base] on a system whose separator is the slash. *)
Definition Base (path : string) : string :=
  if bool_decide (path = "") then "."
  else
    let stripped := of_bytes (rev (drop_slashes (rev (to_bytes path)))) in
    if bool_decide (stripped = "") then "/" else default "" (last (split_byte stripped slash)).

(** [filepath.Join] of a clean directory and one more element. *)
Definition join_path (dir element : string) : string := dir +:+ "/" +:+ TrimPrefix element "/".

Definition awgProfilePath (paths : StorePaths) (id : string) : string :=
  join_path (StorePaths.AWGProfilesDir paths) (Base (TrimSpace id) +:+ ".conf").

Definition less_metadata (a b : ProfileMetadata) : bool := String.ltb (ProfileMetadata.ID a) (ProfileMetadata.ID b).

Definition read_error (e : ReadError) : string :=
  match e with NotExist => "file does not exist" | ReadFailed e => e end.

Section Store.
  Context `{FileHost W}.
  Context (marshal : list ProfileMetadata -> string) (unmarshal : string -> result string (list ProfileMetadata)).
  Context (paths : StorePaths).

Abbreviation App := (Prog W string).

Definition ListAWGProfiles : App (list ProfileMetadata) :=
  data ← reads (read_file (StorePaths.AWGProfilesPath paths));
  match data with
  | Err NotExist => mret []
  | Err (ReadFailed e) => raise e
  | Ok data =>
    match unmarshal data with
    | Err e => raise ("unmarshal " +:+ StorePaths.AWGProfilesPath paths +:+ ": " +:+ e)
    | Ok profiles => mret profiles
    end
  end.

Definition save_index (profiles : list ProfileMetadata) : App unit :=
  map_error (fun e => "save AmneziaWG profile index: " +:+ e)
    (atomicWriteFile (StorePaths.AWGProfilesPath paths) (marshal profiles +:+ newline)).

Definition listed (id : string) (profiles : list ProfileMetadata) : bool :=
  existsb (fun p => bool_decide (ProfileMetadata.ID p = id)) profiles.

(** [true] when the profile is new. *)
Definition SaveAWGProfile (metadata : ProfileMetadata) (raw : string) : App bool :=
  let id := TrimSpace (ProfileMetadata.ID metadata) in
  let name := TrimSpace (ProfileMetadata.Name metadata) in
  if bool_decide (id = "") || ContainsAny id "/\" then raise "invalid AmneziaWG profile ID"
  else if bool_decide (raw = "") then raise "AmneziaWG profile is empty"
  else
    profiles ← ListAWGProfiles;
    if listed id profiles then mret false
    else
      _ ← act (fun e => "create AmneziaWG profile directory: " +:+ e) (call_fails MakeDir (StorePaths.AWGProfilesDir paths));
      let profilePath := awgProfilePath paths id in
      _ ← atomicWriteFile profilePath (raw +:+ newline);
      indexed ← attempt (save_index (stable_sort less_metadata (profiles ++ [ProfileMetadata.mk id name])));
      match indexed with
      | Ok _ => mret true
      | Err e => _ ← outcome (remove_file profilePath); raise e
      end.

Definition LoadAWGProfile (id : string) : Prog W ReadError string :=
  data ← reads (read_file (awgProfilePath paths id)); of_result data.

Definition RemoveAWGProfile (id : string) : App unit :=
  profiles ← ListAWGProfiles;
  let filtered := filter (fun p => ProfileMetadata.ID p <> id) profiles in
  if negb (listed id profiles) then mret tt
  else
    removed ← outcome (remove_file (awgProfilePath paths id));
    match removed with
    | Some (ReadFailed e) => raise e
    | _ => save_index filtered
    end.

Definition LoadLegacyAWGProfile : Prog W ReadError string :=
  data ← reads (read_file (StorePaths.AWGProfilePath paths)); of_result data.

Definition RemoveLegacyAWGProfile : App unit :=
  removed ← outcome (remove_file (StorePaths.AWGProfilePath paths));
  match removed with
  | Some (ReadFailed e) => raise e
  | _ => mret tt
  end.

End Store.

(** ** The store of AmneziaWG profiles: theorems

    Profile files stay in their directory, the index lists only profiles that
    can be loaded, and two profiles that differ only in the parameters of
    version 3.1 are taken for one. *)

(** ** Paths *)

Lemma last_piece_clean s c piece : last (split_byte s c) = Some piece -> has_byte piece c = false.
Proof. intros Hl%last_Some. destruct Hl as [l E]. apply (split_lines_clean s c piece). rewrite E. apply elem_of_app. right. by apply elem_of_cons; left. Qed.

Lemma Base_clean path : has_byte (Base path) slash = false \/ Base path = "/".
Proof.
  unfold Base. cbv zeta. case_bool_decide; [by left|]. case_bool_decide; [by right|]. left.
  destruct (last _) as [p|] eqn:E; [by eapply last_piece_clean|done].
Qed.

Lemma trim_slash element : has_byte element slash = false -> TrimPrefix element "/" = element.
Proof.
  intros He. unfold TrimPrefix. destruct (HasPrefix element "/") eqn:E; [|done]. apply HasPrefix_spec in E as [b ->].
  by rewrite has_byte_app in He.
Qed.

Lemma profile_path_inside paths id : exists name,
  awgProfilePath paths id = StorePaths.AWGProfilesDir paths +:+ "/" +:+ name +:+ ".conf" /\ has_byte name slash = false.
Proof.
  unfold awgProfilePath, join_path. destruct (Base_clean (TrimSpace id)) as [Hb| ->]; [|by exists ""].
  exists (Base (TrimSpace id)). split; [|done]. do 2 f_equal. apply trim_slash. by rewrite has_byte_app, Hb.
Qed.

(** *** An identifier that can be stored is its own file name *)

Definition storable (id : string) : Prop := TrimSpace id = id /\ id <> "" /\ ContainsAny id "/\" = false.

Lemma storable_no_slash id : storable id -> has_byte id slash = false.
Proof. intros (_ & _ & Hc). unfold ContainsAny in Hc. cbn in Hc. by apply orb_false_iff in Hc as [Hc _]. Qed.

Lemma drop_slashes_id l : head l <> Some 47%Z -> drop_slashes l = l.
Proof. destruct l as [|c t]; [done|]. cbn. intros Hc. destruct (Z.eqb_spec c 47); [subst; done|done]. Qed.

Lemma split_byte_single s c : has_byte s c = false -> split_byte s c = [s].
Proof. intros Hs. rewrite split_byte_cut. by rewrite (proj2 (cut_byte_None s c) Hs). Qed.

Lemma Base_storable id : storable id -> Base id = id.
Proof.
  intros Hid. pose proof (storable_no_slash _ Hid) as Hs. destruct Hid as (_ & Hne & _). unfold Base. cbv zeta.
  rewrite bool_decide_eq_false_2 by done. rewrite drop_slashes_id.
  - rewrite rev_involutive, of_to_bytes, bool_decide_eq_false_2 by done. by rewrite split_byte_single.
  - intros E. rewrite has_byte_bytes in Hs. apply bool_decide_eq_false in Hs. apply Hs. change (byte_of slash) with 47%Z.
    destruct (rev (to_bytes id)) as [|c t] eqn:Er; [done|]. injection E as ->. apply (f_equal (@rev Z)) in Er.
    rewrite rev_involutive in Er. rewrite Er. cbn. apply elem_of_app. right. by apply elem_of_cons; left.
Qed.

Lemma storable_path paths id : storable id -> awgProfilePath paths id = StorePaths.AWGProfilesDir paths +:+ "/" +:+ id +:+ ".conf".
Proof.
  intros Hid. unfold awgProfilePath, join_path. pose proof (storable_no_slash _ Hid) as Hs. rewrite (proj1 Hid), Base_storable by done.
  do 2 f_equal. apply trim_slash. by rewrite has_byte_app, Hs.
Qed.

Lemma path_inj paths id id' : storable id -> storable id' -> awgProfilePath paths id = awgProfilePath paths id' -> id = id'.
Proof.
  intros Hi Hi'. rewrite !storable_path by done. intros E. apply (f_equal to_bytes) in E. rewrite !to_bytes_app in E.
  apply app_inv_head in E. apply app_inv_head in E. apply app_inv_tail in E. by apply to_bytes_inj.
Qed.

(** ** Saving and removing *)

Section Store.
  Context `{FileHostLaws W}.
  Context (marshal : list ProfileMetadata -> string) (unmarshal : string -> result string (list ProfileMetadata)).
  Context (unmarshal_marshal : forall l, unmarshal (marshal l +:+ newline) = Ok l).
  Context (paths : StorePaths).
  Context (index_outside : forall id, awgProfilePath paths id <> StorePaths.AWGProfilesPath paths).

Abbreviation index := (StorePaths.AWGProfilesPath paths).
Abbreviation profile_path := (awgProfilePath paths).
Abbreviation save := (SaveAWGProfile marshal unmarshal paths).
Abbreviation list_profiles := (ListAWGProfiles unmarshal paths).

(** What the index file says. *)
Definition index_of (f : Files) : result string (list ProfileMetadata) :=
  match f !! index with None => Ok [] | Some data => unmarshal data end.

(** Every listed profile has a file of its own. *)
Definition loadable (f : Files) : Prop :=
  forall l, index_of f = Ok l -> Forall (fun p => storable (ProfileMetadata.ID p) /\ is_Some (f !! profile_path (ProfileMetadata.ID p))) l.

Lemma list_read w r w' : list_profiles w = (r, w') -> w' = w /\ forall l, r = Ok l -> index_of (files w) = Ok l.
Proof.
  unfold ListAWGProfiles, mbind, prog_bind, reads, index_of. destruct (read_file index w) as [d|[|e]] eqn:E.
  - apply read_some in E. rewrite E. destruct (unmarshal d); intros [= <- <-]; split; try done. 
  - apply read_none in E. rewrite E. intros [= <- <-]. by split.
  - intros [= <- <-]. by split.
Qed.

Lemma index_written w profiles r w' : save_index marshal paths profiles w = (r, w') ->
  (r = Ok tt /\ files w' = <[index := marshal profiles +:+ newline]> (files w)) \/ ((exists e, r = Err e) /\ files w' = files w).
Proof.
  unfold save_index, map_error. destruct (atomicWriteFile _ _ w) as [r1 w1] eqn:E.
  destruct (atomicWriteFile_cases index (marshal profiles +:+ newline) w _ _ E) as [[-> Hf]|[[e ->] Hf]]; intros [= <- <-].
  - by left.
  - right. by split; [eexists|].
Qed.

Lemma loadable_other f id : loadable f -> forall data, index_of (<[profile_path id := data]> f) = index_of f /\ loadable (<[profile_path id := data]> f).
Proof.
  intros Hl data. assert (E : index_of (<[profile_path id := data]> f) = index_of f).
  { unfold index_of. by rewrite lookup_insert_ne by apply index_outside. }
  split; [done|]. intros l Hi. rewrite E in Hi. eapply Forall_impl; [by apply Hl|]. intros p [Hs Hf]. split; [done|].
  destruct (decide (profile_path id = profile_path (ProfileMetadata.ID p))) as [->|Hne]; [by rewrite lookup_insert_eq|by rewrite lookup_insert_ne].
Qed.

Lemma listed_spec id l : listed id l = true <-> exists p, p ∈ l /\ ProfileMetadata.ID p = id.
Proof.
  unfold listed. rewrite existsb_exists. split; intros (p & Hin & Hp).
  - exists p. split; [by apply list_elem_of_In|]. by apply bool_decide_eq_true in Hp.
  - exists p. split; [by apply list_elem_of_In|]. by apply bool_decide_eq_true_2.
Qed.

(** One save, on every way out. *)
Lemma saved metadata raw w r w' :
  let id := TrimSpace (ProfileMetadata.ID metadata) in
  let new := ProfileMetadata.mk id (TrimSpace (ProfileMetadata.Name metadata)) in
  loadable (files w) -> save metadata raw w = (r, w') ->
  (r = Ok true /\ storable id /\ files w' !! profile_path id = Some (raw +:+ newline) /\ loadable (files w') /\
     exists l, index_of (files w) = Ok l /\ listed id l = false /\ index_of (files w') = Ok (stable_sort less_metadata (l ++ [new])) /\
       forall p, p ∈ l -> files w' !! profile_path (ProfileMetadata.ID p) = files w !! profile_path (ProfileMetadata.ID p)) \/
  (r = Ok false /\ w' = w /\ exists l, index_of (files w) = Ok l /\ listed id l = true) \/
  ((exists e, r = Err e) /\ loadable (files w') /\ index_of (files w') = index_of (files w) /\
     forall path, path <> profile_path id -> files w' !! path = files w !! path).
Proof.
  intros id new Hl. unfold SaveAWGProfile. fold id.
  assert (stays : forall e v, (Err e, v) = (r, w') -> files v = files w -> (exists e, r = Err e) /\ loadable (files w') /\
    index_of (files w') = index_of (files w) /\ forall path, path <> profile_path id -> files w' !! path = files w !! path).
  { intros e v [= <- <-] Hv. rewrite Hv. split_and!; try done. by exists e. }
  destruct (bool_decide (id = "") || ContainsAny id "/\") eqn:Eid; [intros E; right; right; refine (stays _ _ E _); done|].
  assert (Hid : storable id).
  { apply orb_false_iff in Eid as [Hne%bool_decide_eq_false Hc]. split_and!; [apply TrimSpace_idemp|done|done]. }
  destruct (bool_decide (raw = "")); [intros E; right; right; refine (stays _ _ E _); done|]. unfold mbind at 1, prog_bind at 1.
  destruct (list_profiles w) as [[l|e] w1] eqn:El; apply list_read in El as [-> Hi]; [|intros E; right; right; refine (stays _ _ E _); done].
  specialize (Hi l eq_refl). destruct (listed id l) eqn:Ed.
  { intros [= <- <-]. right. left. split_and!; [done|done|]. by exists l. }
  unfold mbind at 1, prog_bind at 1, act. pose proof (calls_keep_files MakeDir (StorePaths.AWGProfilesDir paths) w) as Hm.
  destruct (call_fails MakeDir _ w) as [[e|] w2]; cbn [snd] in Hm; [intros E; right; right; refine (stays _ _ E _); done|].
  cbv zeta. unfold mbind at 1, prog_bind at 1. destruct (atomicWriteFile (profile_path id) _ w2) as [r3 w3] eqn:E3.
  destruct (atomicWriteFile_cases _ _ w2 _ _ E3) as [[-> H3]|[[e ->] H3]]; rewrite Hm in H3; [|intros E; right; right; refine (stays _ _ E _); done].
  destruct (loadable_other _ id Hl (raw +:+ newline)) as [Hi3 Hl3]. rewrite <- H3 in Hi3, Hl3.
  assert (Ho : forall path, path <> profile_path id -> files w3 !! path = files w !! path)
    by (intros path Hp; by rewrite H3, lookup_insert_ne).
  unfold mbind at 1, prog_bind at 1, attempt. destruct (save_index _ _ _ w3) as [r4 w4] eqn:E4.
  destruct (index_written _ _ _ _ E4) as [[-> H4]|[[e ->] H4]].
  - intros [= <- <-]. left.
    assert (Hidx : index_of (files w4) = Ok (stable_sort less_metadata (l ++ [new])))
      by (unfold index_of; rewrite H4, lookup_insert_eq; apply unmarshal_marshal).
    assert (Hsame : forall i, files w4 !! profile_path i = files w3 !! profile_path i)
      by (intros i; rewrite H4, lookup_insert_ne; [done|apply not_eq_sym, index_outside]).
    assert (Hnew : files w4 !! profile_path id = Some (raw +:+ newline)) by (by rewrite Hsame, H3, lookup_insert_eq).
    split_and!; [done|done|done| |].
    + intros l' Hl'. rewrite Hidx in Hl'. apply Ok_inj in Hl' as <-. rewrite stable_sort_perm. apply Forall_app. split.
      * eapply Forall_impl; [apply (Hl3 l); by rewrite Hi3|]. intros p [Hs Hf]. by rewrite Hsame.
      * constructor; [|constructor]. split; [done|]. cbn [ProfileMetadata.ID new]. by rewrite Hnew.
    + exists l. split_and!; [done|done|done|]. intros p Hp. rewrite Hsame. apply Ho. intros E.
      apply path_inj in E; [|by eapply (proj1 (Forall_forall _ _) (Hl l Hi))|done].
      assert (listed id l = true) by (apply listed_spec; by exists p). congruence.
  - unfold mbind, prog_bind, outcome, raise. destruct (remove_file (profile_path id) w4) as [[e1|] w5] eqn:E5; intros [= <- <-]; right; right.
    + apply not_removed in E5 as [E5 _]. rewrite E5, H4. split_and!; [by eexists|done|done|done].
    + apply removed in E5. rewrite E5, H4, H3, delete_insert_eq. 
      assert (Hf : forall path, path <> profile_path id -> delete (profile_path id) (files w) !! path = files w !! path)
        by (intros path Hp; by rewrite lookup_delete_ne).
      assert (Hi' : index_of (delete (profile_path id) (files w)) = index_of (files w))
        by (unfold index_of; rewrite Hf; [done|apply not_eq_sym, index_outside]).
      split_and!; [by eexists| |done|done]. intros l' Hl'. rewrite Hi', Hi in Hl'. apply Ok_inj in Hl' as <-.
      pose proof (Hl l Hi) as Hll. rewrite Forall_forall in Hll |- *. intros p Hp. destruct (Hll p Hp) as [Hs Hff]. split; [done|].
      rewrite Hf; [done|]. intros E. apply path_inj in E; [|done|done]. assert (listed id l = true) by (apply listed_spec; by exists p). congruence.
Qed.

(** Every listed profile, except [id], has a file of its own. *)
Definition loadable_but (id : string) (f : Files) : Prop :=
  forall l, index_of f = Ok l ->
    Forall (fun p => storable (ProfileMetadata.ID p) /\ (ProfileMetadata.ID p <> id -> is_Some (f !! profile_path (ProfileMetadata.ID p)))) l.

Lemma loadable_loadable_but id f : loadable f -> loadable_but id f.
Proof. intros Hl l Hi. eapply Forall_impl; [by apply Hl|]. by intros p [Hs Hf]. Qed.

Lemma without_id id l : listed id (filter (fun p => ProfileMetadata.ID p <> id) l) = false.
Proof.
  destruct (listed id _) eqn:E; [|done]. apply listed_spec in E as (p & Hp & Hid).
  by apply list_elem_of_filter in Hp as [Hne _].
Qed.

Lemma not_listed_filter id l : listed id l = false -> filter (fun p => ProfileMetadata.ID p <> id) l = l.
Proof.
  induction l as [|p l IH]; [done|]. cbn [listed existsb]. intros [Hp%bool_decide_eq_false Hl]%orb_false_iff.
  rewrite filter_cons_True by done. f_equal. by apply IH.
Qed.

Lemma path_gone id id' (f : Files) : storable id -> storable id' -> id' <> id ->
  delete (profile_path id) f !! profile_path id' = f !! profile_path id'.
Proof. intros Hi Hi' Hne. apply lookup_delete_ne. intros E. by apply path_inj in E. Qed.

Lemma loadable_but_deleted id l f : storable id -> loadable f -> index_of f = Ok l ->
  Forall (fun p => storable (ProfileMetadata.ID p) /\
     (ProfileMetadata.ID p <> id -> is_Some (delete (profile_path id) f !! profile_path (ProfileMetadata.ID p)))) l.
Proof.
  intros Hid Hl Hi. eapply Forall_impl; [by apply Hl|]. intros p [Hs Hf]. split; [done|]. intros Hne. by rewrite path_gone.
Qed.

(** The index after the file of [id] has gone. *)
Definition without (id : string) (f : Files) (r : result string unit) (f' : Files) : Prop :=
  loadable_but id f' /\
  (forall id', storable id' -> id' <> id -> f' !! profile_path id' = f !! profile_path id') /\
  (r = Ok tt -> loadable f' /\ exists l, index_of f = Ok l /\
     index_of f' = Ok (filter (fun p => ProfileMetadata.ID p <> id) l)) /\
  (r <> Ok tt -> index_of f' = index_of f).

Lemma gone_saved id l w v r w' : storable id -> loadable (files w) -> index_of (files w) = Ok l ->
  files v = delete (profile_path id) (files w) ->
  save_index marshal paths (filter (fun p => ProfileMetadata.ID p <> id) l) v = (r, w') -> without id (files w) r (files w').
Proof.
  intros Hid Hl Hi Hv E. pose proof (loadable_but_deleted id l _ Hid Hl Hi) as Hd.
  assert (Hdi : index_of (delete (profile_path id) (files w)) = Ok l)
    by (unfold index_of; rewrite lookup_delete_ne; [done|apply index_outside]).
  destruct (index_written _ _ _ _ E) as [[-> H4]|[[e ->] H4]]; rewrite Hv in H4.
  - assert (Hidx : index_of (files w') = Ok (filter (fun p => ProfileMetadata.ID p <> id) l))
      by (unfold index_of; rewrite H4, lookup_insert_eq; apply unmarshal_marshal).
    assert (Hsame : forall i, files w' !! profile_path i = delete (profile_path id) (files w) !! profile_path i)
      by (intros i; rewrite H4, lookup_insert_ne; [done|apply not_eq_sym, index_outside]).
    assert (Hload : loadable (files w')).
    { intros l' Hl'. rewrite Hidx in Hl'. apply Ok_inj in Hl' as <-. apply Forall_forall. intros p [Hne Hp]%list_elem_of_filter.
      destruct (proj1 (Forall_forall _ _) Hd p Hp) as [Hs Hf]. split; [done|]. rewrite Hsame. by apply Hf. }
    split_and!; [by apply loadable_loadable_but| | |done].
    + intros id' Hi' Hne. rewrite Hsame. by apply path_gone.
    + intros _. split; [done|]. by exists l.
  - unfold without. rewrite H4. split_and!; [|intros id' Hi' Hne; by apply path_gone|done|intros _; by rewrite Hdi].
    intros l' Hl'. rewrite Hdi in Hl'. by apply Ok_inj in Hl' as <-.
Qed.

(** One removal, on every way out. *)
Lemma removed_profile id w r w' : loadable (files w) -> RemoveAWGProfile marshal unmarshal paths id w = (r, w') ->
  without id (files w) r (files w').
Proof.
  intros Hl. unfold RemoveAWGProfile, mbind at 1, prog_bind at 1.
  assert (stays : forall r1 v, files v = files w -> (r1, v) = (r, w') -> r1 <> Ok tt -> without id (files w) r (files w')).
  { intros r1 v Hv [= <- <-] Hr. rewrite Hv. split_and!; [by apply loadable_loadable_but|done|done|done]. }
  destruct (list_profiles w) as [[l|e] w1] eqn:El; apply list_read in El as [-> Hi]; [|intros E; by eapply stays].
  specialize (Hi l eq_refl). destruct (listed id l) eqn:Ed; cbn [negb].
  2: { intros [= <- <-]. split_and!; [by apply loadable_loadable_but|done| |done]. intros _. split; [done|]. exists l.
       by rewrite not_listed_filter. }
  assert (Hid : storable id).
  { apply listed_spec in Ed as (p & Hp & <-). exact (proj1 (proj1 (Forall_forall _ _) (Hl l Hi) p Hp)). }
  unfold mbind, prog_bind, outcome. destruct (remove_file (profile_path id) w) as [[e1|] w2] eqn:E2.
  - apply not_removed in E2 as [H2 Hn]. destruct e1 as [|e1]; [|intros E; by eapply stays].
    intros E. eapply (gone_saved id l w w2); try done. rewrite H2. symmetry. apply delete_id. by apply Hn.
  - apply removed in E2. intros E. by eapply (gone_saved id l w w2).
Qed.

(** *** Sequences of saves and removals *)

Inductive store_step : W -> W -> Prop :=
  | step_save metadata raw w r w' : save metadata raw w = (r, w') -> store_step w w'
  | step_remove id w w' : RemoveAWGProfile marshal unmarshal paths id w = (Ok tt, w') -> store_step w w'.

Lemma step_loadable w w' : store_step w w' -> loadable (files w) -> loadable (files w').
Proof.
  intros [metadata raw ? r ? E|id ? ? E] Hl.
  - destruct (saved _ _ _ _ _ Hl E) as [(_ & _ & _ & Hl' & _)|[(_ & -> & _)|(_ & Hl' & _)]]; done.
  - apply (removed_profile _ _ _ _ Hl E). done.
Qed.

(** The index only lists profiles that can be loaded.  Whatever sequence of saves
    (successful, repeated or failed at any system call) and successful removals,
    every listed profile has a file of its own and an identifier that names it; a
    removal that fails may lose the file of that profile, and no other profile's. *)
Theorem stored_profiles_load w w' : rtc store_step w w' -> loadable (files w) ->
  loadable (files w') /\
  forall id e w2, RemoveAWGProfile marshal unmarshal paths id w' = (Err e, w2) ->
    loadable_but id (files w2) /\ index_of (files w2) = index_of (files w') /\
    forall id', storable id' -> id' <> id -> files w2 !! profile_path id' = files w' !! profile_path id'.
Proof.
  intros Hs Hl. assert (Hl' : loadable (files w')).
  { revert Hl. induction Hs as [|w w1 w2 Hstep _ IH]; [done|]. intros Hl. by apply IH, (step_loadable w). }
  split; [done|]. intros id e w2 E. destruct (removed_profile _ _ _ _ Hl' E) as (Hb & Ho & _ & Hi). split_and!; [done| |done].
  by apply Hi.
Qed.

End Store.

(** ** An index in memory *)

#[export] Instance metadata_eq_dec : EqDecision ProfileMetadata.
Proof. solve_decision. Defined.

#[export] Instance metadata_countable : Countable ProfileMetadata :=
  inj_countable' (fun p => (ProfileMetadata.ID p, ProfileMetadata.Name p)) (fun '(i, n) => ProfileMetadata.mk i n) (fun '(ProfileMetadata.mk _ _) => eq_refl).

Fixpoint bits (p : positive) : string :=
  match p with xO p => String "0" (bits p) | xI p => String "1" (bits p) | xH => EmptyString end.

Fixpoint unbits (s : string) : positive :=
  match s with String "0" t => xO (unbits t) | String "1" t => xI (unbits t) | _ => xH end.

Lemma unbits_bits p : unbits (bits p +:+ newline) = p.
Proof. induction p as [p IH|p IH|]; [exact (f_equal xI IH)|exact (f_equal xO IH)|done]. Qed.

Definition index_text (l : list ProfileMetadata) : string := bits (countable.encode l).
Definition text_index (s : string) : result string (list ProfileMetadata) :=
  match countable.decode (unbits s) with Some l => Ok l | None => Err "malformed index" end.

Lemma text_index_text l : text_index (index_text l +:+ newline) = Ok l.
Proof. unfold text_index, index_text. by rewrite unbits_bits, countable.decode_encode. Qed.

Definition sample_paths : StorePaths :=
  StorePaths.mk "/etc/fastlane/awg" "/etc/fastlane/awg-profiles.json" "/etc/fastlane/awg-profile.conf".

Lemma sample_index_outside id : awgProfilePath sample_paths id <> StorePaths.AWGProfilesPath sample_paths.
Proof. done. Qed.

Definition no_files : MemoryHost := Build_MemoryHost ∅ None.

Lemma no_files_loadable : loadable text_index sample_paths (files no_files).
Proof. intros l [= <-]. constructor. Qed.

Lemma stored_profiles_load_witness :
  let '(r, w) := SaveAWGProfile index_text text_index sample_paths (ProfileMetadata.mk " awg-1 " "home") "[Interface]" no_files in
  r = Ok true /\ loadable text_index sample_paths (files w).
Proof.
  destruct (SaveAWGProfile _ _ _ _ _ _) as [r w] eqn:E. split.
  - apply (f_equal fst) in E. vm_compute in E. by rewrite <- E.
  - refine (proj1 (stored_profiles_load (H1 := memory_file_laws) index_text text_index text_index_text sample_paths sample_index_outside
      no_files w _ no_files_loadable)).
    apply rtc_once. by eapply step_save.
Defined.
