(* ===== verification/AmneziaService.v ===== *)
(** * Connections over AmneziaWG

    [app/amneziawg.go]: importing, checking, connecting, disconnecting and
    removing profiles, as programs over the profile store, the controller of
    the network interface, the managed backend and the router's managers.

    A cancelled context, the log and the progress reports of a check are not
    modelled.  A reading of the controller's status changes nothing.  The status
    that a failed check returns beside its error is dropped. *)
From S2P Require Import Prelude GoRunes GoStrings GoNum NetIP Domain Firewall FirewallSettings.
From S2P Require Import Zapret Settings.
From S2P Require Import Connection Migrations PersistFacts Probe AutoState AutoSelect.

From S2P Require Import Reserves.
From S2P Require Import GoConv AmneziaProfile AmneziaRuntime.
From S2P Require Import XrayConfig XrayFacts BackendRequest ManagedBackend Scheduler.
From S2P Require Import ManagedSwitch Effects NodeSelection ReserveRound AutoCommit Failover.
From S2P Require Import AtomicFiles AmneziaStore.

Local Open Scope Z_scope.
Local Open Scope list_scope.

Definition awgSubscriptionID := "server-list".
Definition legacyAWGNodeID := "profile".
Definition amneziawg_kind := "amneziawg".
Definition RouteMark : Z := 65536.

Module Compatibility.
Record Compatibility : Type := mk {
  Compatible : bool; Kernel : string; Module_ : string; Runtime : string; Tools : string; Netifd : bool; FailureReason : string
}.
End Compatibility.
Abbreviation Compatibility := Compatibility.Compatibility.

Module InterfaceStatus.
Record InterfaceStatus : Type := mk { Up : bool; Device : string; Address : string; LastHandshake : Z }.
Definition zero : InterfaceStatus := mk false "" "" 0.
End InterfaceStatus.
Abbreviation InterfaceStatus := InterfaceStatus.InterfaceStatus.

Module AWGStatus.
Record AWGStatus : Type := mk {
  ID : string; State : string; Name : string; Protocol : string; Profile : option RedactedStatus;
  Compatibility : option Compatibility; Interface : InterfaceStatus; LastProbe : option AWGProbeState;
  Active : bool; Message : string
}.
Definition eta (s : AWGStatus) : AWGStatus :=
  mk (ID s) (State s) (Name s) (Protocol s) (Profile s) (Compatibility s) (Interface s) (LastProbe s) (Active s) (Message s).
#[export] Instance set_State : Setter State := ltac:(mk_setter eta State).
#[export] Instance set_Name : Setter Name := ltac:(mk_setter eta Name).
#[export] Instance set_Protocol : Setter Protocol := ltac:(mk_setter eta Protocol).
#[export] Instance set_Profile : Setter Profile := ltac:(mk_setter eta Profile).
#[export] Instance set_Compatibility : Setter Compatibility := ltac:(mk_setter eta Compatibility).
#[export] Instance set_Interface : Setter Interface := ltac:(mk_setter eta Interface).
#[export] Instance set_LastProbe : Setter LastProbe := ltac:(mk_setter eta LastProbe).
#[export] Instance set_Active : Setter Active := ltac:(mk_setter eta Active).
#[export] Instance set_Message : Setter Message := ltac:(mk_setter eta Message).
End AWGStatus.
Export (hints) AWGStatus.
Abbreviation AWGStatus := AWGStatus.AWGStatus.

(** [managedProbeObservation] with the error of the probe. *)
Module Observation.
Record Observation : Type := mk { latency : Duration; egressIP : string; countryCode : string; error : option string }.
End Observation.
Abbreviation Observation := Observation.Observation.

(** ** Interfaces *)

(** [store.AWGProfileStore]. *)
Class ProfileStore (W : Type) := {
  list_profiles : W -> result string (list ProfileMetadata);
  load_profile : string -> W -> result ReadError string;
  save_profile : ProfileMetadata -> string -> W -> result string bool * W;
  remove_profile : string -> W -> option string * W;
  load_legacy : W -> result ReadError string;
  remove_legacy : W -> option string * W
}.

(** [amneziawg.Controller]; [controller] says that there is one, [isolates] that it
    is an [IsolatedProbeController], [has_policy_routes] that it has
    [EnsurePolicyRoutes].  [prepare_isolated] also says whether it returned a cleanup. *)
Class AWGController (W : Type) := {
  controller : bool;
  isolates : bool;
  has_policy_routes : bool;
  awg_preflight : W -> Compatibility * option string;
  awg_status : W -> result string InterfaceStatus;
  awg_prepare : Profile -> W -> option string * W;
  awg_connect : W -> result string InterfaceStatus * W;
  awg_disconnect : W -> option string * W;
  awg_remove : W -> option string * W;
  ensure_routes : InterfaceStatus -> W -> option string * W;
  prepare_isolated : Profile -> W -> (result string InterfaceStatus * bool) * W;
  isolated_cleanup : W -> option string * W
}.

(** [backend.InterfaceManagedBackend], its process, and a probe over one of its outbounds. *)
Class InterfaceBackend (W : Type) := {
  PrepareInterfaceOutbound : string -> string -> Z -> W -> result string string * W;
  backend_running : W -> bool;
  probe_interface : string -> W -> Observation * W
}.

(** ** Choosing a profile *)

Inductive ResolveError : Type :=
| ListFailed (e : string)
| NoProfiles                          (** [os.ErrNotExist] *)
| SeveralProfiles
| AmbiguousPrefix (value : string)
| ProfileNotFound (value : string).

Definition resolve_text (e : ResolveError) : string :=
  match e with
  | ListFailed e => e
  | NoProfiles => "file does not exist"
  | SeveralProfiles => "multiple AmneziaWG profiles are imported; specify --id"
  | AmbiguousPrefix value => "AmneziaWG profile ID prefix " +:+ quoted value +:+ " is ambiguous"
  | ProfileNotFound value => "AmneziaWG profile " +:+ quoted value +:+ " not found"
  end.

(** An exact identifier, or the only one with the prefix. *)
Fixpoint match_profile (profiles : list ProfileMetadata) (value found : string) : result ResolveError string :=
  match profiles with
  | [] => if bool_decide (found = "") then Err (ProfileNotFound value) else Ok found
  | profile :: profiles =>
    if bool_decide (ProfileMetadata.ID profile = value) then Ok (ProfileMetadata.ID profile)
    else if HasPrefix (ProfileMetadata.ID profile) value
    then if bool_decide (found = "") then match_profile profiles value (ProfileMetadata.ID profile)
         else Err (AmbiguousPrefix value)
    else match_profile profiles value found
  end.

Definition resolve_profile (listed : result string (list ProfileMetadata)) (state : result string RuntimeState)
    (value : string) : result ResolveError string :=
  match listed with
  | Err e => Err (ListFailed e)
  | Ok profiles =>
    let value := TrimSpace value in
    if negb (bool_decide (value = "")) then match_profile profiles value ""
    else
      let active := match state with
                    | Ok st => if bool_decide (RuntimeState.ActiveConnectionKind st = amneziawg_kind)
                               then RuntimeState.ActiveAWGProfileID st else ""
                    | Err _ => ""
                    end in
      if negb (bool_decide (active = "")) then match_profile profiles active ""
      else match profiles with
           | [profile] => Ok (ProfileMetadata.ID profile)
           | [] => Err NoProfiles
           | _ => Err SeveralProfiles
           end
  end.

Definition profile_metadata (listed : result string (list ProfileMetadata)) (id : string) : result string ProfileMetadata :=
  match listed with
  | Err e => Err e
  | Ok profiles =>
    match List.find (fun p => bool_decide (ProfileMetadata.ID p = id)) profiles with
    | Some p => Ok p
    | None => Err ("AmneziaWG profile " +:+ quoted id +:+ " not found")
    end
  end.

(** ** States *)

Definition awgProbeIsFresh (probe : AWGProbeState) (now : Time) (maxAge : Duration) : bool :=
  if negb (AWGProbeState.Success probe) || IsZero (AWGProbeState.CheckedAt probe) || (maxAge <=? 0) then false
  else let age := Sub now (AWGProbeState.CheckedAt probe) in (0 <=? age) && (age <=? maxAge).

(** Another profile carries the connection. *)
Definition other_active (state : RuntimeState) (id : string) : bool :=
  bool_decide (RuntimeState.ActiveConnectionKind state = amneziawg_kind) && RuntimeState.Connected state
  && negb (bool_decide (RuntimeState.ActiveAWGProfileID state = ""))
  && negb (bool_decide (RuntimeState.ActiveAWGProfileID state = id)).

(** This one does. *)
Definition is_active (state : RuntimeState) (id : string) : bool :=
  bool_decide (RuntimeState.ActiveConnectionKind state = amneziawg_kind) && RuntimeState.Connected state
  && bool_decide (RuntimeState.ActiveAWGProfileID state = id).

Definition usable (status : result string InterfaceStatus) : bool :=
  match status with
  | Ok i => InterfaceStatus.Up i && negb (bool_decide (InterfaceStatus.Device i = ""))
            && negb (bool_decide (InterfaceStatus.Address i = ""))
  | Err _ => false
  end.

Definition zero_probe : AWGProbeState := AWGProbeState.mk false zero_time (S754_zero false) "" "" "".

Definition milliseconds (latency : Duration) : f64 := f64_div (f64_of_Z latency) (f64_of_Z Millisecond).

Definition probe_state (o : Observation) (checkedAt : Time) : AWGProbeState :=
  match Observation.error o with
  | None => AWGProbeState.mk true checkedAt (milliseconds (Observation.latency o)) (Observation.egressIP o) (Observation.countryCode o) ""
  | Some e => AWGProbeState.mk false checkedAt (S754_zero false) (Observation.egressIP o) (Observation.countryCode o) e
  end.

(** The egress of the previous check stays when this one found none. *)
Definition with_egress (previous probe : AWGProbeState) : AWGProbeState :=
  if bool_decide (AWGProbeState.CountryCode probe = "")
  then AWGProbeState.mk (AWGProbeState.Success probe) (AWGProbeState.CheckedAt probe) (AWGProbeState.LatencyMS probe)
         (AWGProbeState.EgressIP previous) (AWGProbeState.CountryCode previous) (AWGProbeState.Error probe)
  else probe.

Definition probed_health (o : Observation) (checkedAt : Time) (threshold : Z) (id : string) (previous : NodeHealth) : NodeHealth :=
  let updated := UpdateHealth (previous <| NodeHealth.NodeID := id |>) (bool_decide (Observation.error o = None))
    (Observation.latency o) checkedAt (default "" (Observation.error o)) threshold in
  if bool_decide (Observation.error o = None) && negb (bool_decide (Observation.countryCode o = ""))
  then updated <| NodeHealth.EgressIP := Observation.egressIP o |> <| NodeHealth.CountryCode := Observation.countryCode o |>
  else updated.

Definition probed_state (o : Observation) (checkedAt : Time) (threshold : Z) (id : string) (state : RuntimeState) : RuntimeState :=
  let probe := with_egress (default zero_probe (RuntimeState.AWGProfileProbes state !! id)) (probe_state o checkedAt) in
  state <| RuntimeState.AWGProfileProbes ::= fun m => <[id := probe]> m |>
        <| RuntimeState.AWGLastProbe := Some probe |>
        <| RuntimeState.Health ::= fun h => <[id := probed_health o checkedAt threshold id (default NodeHealth.zero (h !! id))]> h |>.

(** Nothing is connected any more. *)
Definition without_connection (state : RuntimeState) : RuntimeState :=
  state <| RuntimeState.ActiveConnectionKind := "" |>
        <| RuntimeState.ActiveAWGProfileID := "" |>
        <| RuntimeState.ActiveSubscriptionID := "" |>
        <| RuntimeState.ActiveNodeID := "" |>
        <| RuntimeState.ActiveNodeName := "" |>
        <| RuntimeState.Mode := SelectionModeDisconnected |>
        <| RuntimeState.Connected := false |>
        <| RuntimeState.OperationalMode := OperationalModeDirect |>
        <| RuntimeState.ActiveTransport := TransportModeDirect |>
        <| RuntimeState.SelectedOutboundTag := managedDirectTag |>.

Definition idle (state : RuntimeState) : RuntimeState := state <| RuntimeState.CurrentOperation := None |>.

Definition awg_switch_intent (previousTag tag : string) (now : Time) (state : RuntimeState) : RuntimeState :=
  state <| RuntimeState.OperationalMode := OperationalModeRecovering |>
        <| RuntimeState.RuntimeConfigGeneration ::= fun g => wrap64 (g + 1) |>
        <| RuntimeState.CurrentOperation := Some (RuntimeOperation.mk "switch_to_amneziawg" previousTag tag now) |>.

Definition profile_name (metadata : result string ProfileMetadata) (state : RuntimeState) : RuntimeState :=
  match metadata with
  | Ok m =>
    let name := first_given [TrimSpace (ProfileMetadata.Name m); "AmneziaWG"] in
    state <| RuntimeState.ActiveNodeName := name |> <| RuntimeState.AWGProfileName := name |>
  | Err _ => state <| RuntimeState.ActiveNodeName := "AmneziaWG" |>
  end.

Definition profile_outbounds (id tag previousTag : string) (now : Time) (outbounds : list RuntimeOutboundState)
    : list RuntimeOutboundState :=
  let outbounds := updateRuntimeOutbound outbounds (outbound_entry tag awgSubscriptionID id role_active now zero_time zero_time) in
  if bool_decide (previousTag = managedDirectTag) || bool_decide (previousTag = tag) then outbounds
  else updateRuntimeOutbound outbounds
         (outbound_entry previousTag "" "" role_draining zero_time (Add now (5 * Minute)) (Add now (30 * Minute))).

Definition connected_profile (id tag previousTag mode autoScope : string) (now : Time) (metadata : result string ProfileMetadata)
    (intent : RuntimeState) : RuntimeState :=
  let auto := bool_decide (mode = SelectionModeAuto) in
  let state := intent <| RuntimeState.ActiveConnectionKind := amneziawg_kind |>
                      <| RuntimeState.ActiveAWGProfileID := id |>
                      <| RuntimeState.ActiveSubscriptionID := awgSubscriptionID |>
                      <| RuntimeState.ActiveNodeID := id |> in
  idle (profile_name metadata state
        <| RuntimeState.Mode := mode |>
        <| RuntimeState.AutoScope := (if auto then autoScope else "") |>
        <| RuntimeState.Connected := true |>
        <| RuntimeState.OperationalMode := OperationalModeVPN |>
        <| RuntimeState.ActiveTransport := TransportModeProxy |>
        <| RuntimeState.SelectedOutboundTag := tag |>
        <| RuntimeState.RuntimeConfigVersion := tag |>
        <| RuntimeState.RuntimeOutbounds ::= profile_outbounds id tag previousTag now |>
        <| RuntimeState.LastSuccessAt := now |>
        <| RuntimeState.LastSwitchAt := now |>
        <| RuntimeState.LastSwitchReason := (if auto then "automatic switch to AmneziaWG" else "manual switch to AmneziaWG") |>
        <| RuntimeState.LastFailureReason := "" |>
        <| RuntimeState.LastTransportFailureReason := "" |>).

Definition mode_settings (mode : string) (settings : Settings) : Settings :=
  settings <| Settings.AutoMode := bool_decide (mode = SelectionModeAuto) |> <| Settings.Mode := mode |>.

(** The request of a runtime without a node. *)
Definition without_node (r : ConfigRequest) : ConfigRequest :=
  ConfigRequest.mk (ConfigRequest.Mode r) [] "" (ConfigRequest.LogLevel r) (ConfigRequest.DNS r) (ConfigRequest.SOCKSPort r)
    (ConfigRequest.HTTPPort r) (ConfigRequest.LocalDNSEnabled r) (ConfigRequest.LocalDNSListen r) (ConfigRequest.LocalDNSPort r)
    (ConfigRequest.TransparentProxy r) (ConfigRequest.TransparentSelectiveCapture r) (ConfigRequest.TransparentBlockQUIC r)
    (ConfigRequest.TransparentPort r) (ConfigRequest.TransparentDefaultAction r) (ConfigRequest.TransparentProxyDomains r)
    (ConfigRequest.TransparentProxyCIDRs r) (ConfigRequest.TransparentBypassDomains r) (ConfigRequest.TransparentBypassCIDRs r)
    (ConfigRequest.TransparentCountryRouting r) (ConfigRequest.OutboundMark r) true.

Section Service.
  Context `{ManagedBackend W, Router W, Runtime W, ProfileStore W, AWGController W, InterfaceBackend W}.
  Context (url_host : string -> option (string * string)).
  Context (digest : StablePayload -> string) (profile_error_text : ProfileError -> string).

Abbreviation App := (Prog W Fault).

(** The error of a reading under a context. *)
Definition of_reading {A} (wrap_ : string -> Fault) (r : result string A) : App A :=
  of_result match r with Ok a => Ok a | Err e => Err (wrap_ e) end.

Definition parse_profile (raw : string) : App Profile :=
  of_result match Parse raw with Ok p => Ok p | Err e => Err (fault (profile_error_text e)) end.

Definition loadAWGProfile (id : string) : App Profile :=
  raw ← reads (load_profile id);
  raw ← of_result match raw with Ok raw => Ok raw | Err e => Err (wrap "load AmneziaWG profile" (read_error e)) end;
  parse_profile raw.

Definition awgProfileMetadataLocked (id : string) (w : W) : result string ProfileMetadata :=
  profile_metadata (list_profiles w) id.

Definition resolveAWGProfileIDLocked (value : string) : App string :=
  r ← reads (fun w => resolve_profile (list_profiles w) (load_state w) value);
  of_result match r with Ok id => Ok id | Err e => Err (fault (resolve_text e)) end.

(** ** The managed runtime *)

(** Whether a running runtime was ready, or could be made ready by a selection. *)
Definition runtime_ready : App bool :=
  running ← reads backend_running;
  if negb running then mret false
  else
    current ← outcome SelectedOutbound;
    match current with
    | Ok _ => mret true
    | Err _ =>
      state ← reads load_state;
      match state with
      | Err _ => mret false
      | Ok state =>
        let target := TrimSpace (RuntimeState.SelectedOutboundTag state) in
        pinned ← outcome (if bool_decide (target = "") || bool_decide (RuntimeState.OperationalMode state = OperationalModeDirect)
                               || negb (RuntimeState.Connected state)
                          then SelectDirect else SelectOutbound target);
        mret (bool_decide (pinned = None))
      end
    end.

Definition install_runtime : App unit :=
  settings ← load_settings_as "load settings";
  resolvers ← reads system_resolvers;
  runtimeSettings ← of_reading (wrap "prepare DNS") (prepareRuntimeDNSSettings url_host (Some resolvers) settings);
  subscriptions ← reads load_subscriptions;
  let localDNS := localDNSRuntimeEnabled (Settings.DNS settings) in
  let req := without_node (backendConfigRequest subscriptions runtimeSettings Node.zero SelectionModeManual 10808 10809
    (firewallEnabled (Settings.Firewall settings)) localDNS) in
  _ ← act (wrap "install Xray managed runtime") (apply_config req);
  running ← outcome check_running;
  _ ← match running with Some (reason, e) => raise (fault (reason +:+ ": " +:+ e)) | None => mret tt end;
  _ ← (if localDNS then act (wrap "apply DNS runtime") (dns_apply (Settings.DNS settings))
       else act (wrap "disable DNS runtime") dns_disable);
  let firewall := Settings.Firewall settings in
  if FirewallRoutingEnabled firewall
  then act (wrap "apply firewall") (firewall_apply ((CanonicalFirewallSettings firewall)
         <| FirewallSettings.BlockQUIC := managedTransparentBlockQUIC subscriptions firewall |>))
  else act (wrap "disable firewall") firewall_disable.

Definition ensureAWGManagedRuntimeWithReload (forceReload : bool) : App unit :=
  ready ← (if forceReload then mret false else runtime_ready);
  if ready : bool then mret tt else install_runtime.

Definition ensureAWGManagedRuntime : App unit := ensureAWGManagedRuntimeWithReload false.

(** ** Checking *)

(** The outbound over an interface is prepared and probed, and the result is recorded. *)
Definition measure_interface (id : string) (mark : Z) (iface : InterfaceStatus) : App (string * InterfaceStatus) :=
  _ ← ensureAWGManagedRuntime;
  tag ← outcome (PrepareInterfaceOutbound (InterfaceStatus.Device iface) (InterfaceStatus.Address iface) mark);
  observation ← match tag with
                | Ok tag => outcome (probe_interface tag)
                | Err e => mret (Observation.mk 0 "" "" (Some e))
                end;
  checkedAt ← currentTime;
  state ← reads load_state;
  threshold ← reads healthFailureThreshold;
  saved ← match state with
          | Ok state => attempt (act fault (save_state (probed_state observation checkedAt threshold id state)))
          | Err _ => mret (Ok tt)
          end;
  match Observation.error observation, saved, tag with
  | Some e, _, _ => raise (fault e)
  | None, Err e, _ => raise e
  | None, Ok _, Ok tag => mret (tag, iface)
  | None, Ok _, Err e => raise (fault e)
  end.

(** The permanent tunnel belongs to the profile afterwards. *)
Definition prepare_permanent (id : string) (profile : Profile) (stateBefore : RuntimeState) : App unit :=
  let activeProfile := is_active stateBefore id in
  prepared ← reads awg_status;
  if activeProfile && negb (usable prepared)
  then raise (fault "active AmneziaWG profile is unavailable; refusing to replace it during a check")
  else
    let replaced := negb (bool_decide (RuntimeState.PreparedAWGProfileID stateBefore = id)) && negb activeProfile in
    _ ← when replaced (act (wrap "remove prepared AmneziaWG profile") awg_remove);
    when (replaced || negb (usable prepared))
      (_ ← act fault (awg_prepare profile);
       act fault (save_state (stateBefore <| RuntimeState.PreparedAWGProfileID := id |>))).

Definition permanent_interface : App InterfaceStatus :=
  current ← reads awg_status;
  iface ← (if usable current then mret current else outcome awg_connect);
  iface ← of_reading fault iface;
  _ ← when has_policy_routes (act fault (ensure_routes iface));
  mret iface.

(** The tunnel of an isolated probe goes away on every way out. *)
Definition isolated_probe (id : string) (profile : Profile) : App (string * InterfaceStatus) :=
  '(started, cleanup) ← outcome (prepare_isolated profile);
  r ← attempt (iface ← of_reading fault started; measure_interface id 0 iface);
  _ ← when cleanup (ignore (act fault isolated_cleanup));
  of_result r.

Definition verifyAWGLocked (id : string) (prepare isolatedProbe : bool) : App (string * InterfaceStatus) :=
  profile ← loadAWGProfile id;
  if negb controller then raise (fault "AmneziaWG controller is not configured")
  else
    stateBefore ← load_state_as "load state";
    if other_active stateBefore id && negb (isolatedProbe && isolates)
    then raise (fault "disconnect the active AmneziaWG profile before checking another profile")
    else if prepare && negb (is_active stateBefore id) && isolatedProbe && isolates
    then isolated_probe id profile
    else
      _ ← when prepare (prepare_permanent id profile stateBefore);
      iface ← permanent_interface;
      measure_interface id RouteMark iface.

Definition checkAWGLocked (id : string) (prepare : bool) : App (string * InterfaceStatus) := verifyAWGLocked id prepare true.

(** ** Disconnecting and connecting *)

Definition disconnectAWGLocked : App unit :=
  state ← (fun w => of_reading fault (load_state w) w);
  let active := bool_decide (RuntimeState.ActiveConnectionKind state = amneziawg_kind) in
  _ ← when active (act (wrap "select direct route") SelectDirect);
  _ ← when controller (act fault awg_disconnect);
  if negb active then mret tt
  else
    now ← currentTime;
    _ ← act fault (save_state ((idle (without_connection state))
      <| RuntimeState.LastSwitchAt := now |> <| RuntimeState.LastSwitchReason := "AmneziaWG disconnected" |>));
    settings ← load_settings_as "load settings";
    act fault (store_settings (mode_settings SelectionModeDisconnected settings)).

(** The tag of a tunnel that was checked within the last minute, or nothing. *)
Definition reuse_prepared (id : string) (before : result string RuntimeState) : App string :=
  match before with
  | Err _ => mret ""
  | Ok state =>
    match RuntimeState.AWGProfileProbes state !! id with
    | None => mret ""
    | Some probe =>
      if negb (bool_decide (RuntimeState.PreparedAWGProfileID state = id)) then mret ""
      else
        now ← currentTime;
        if negb (awgProbeIsFresh probe now Minute) || negb controller then mret ""
        else
          current ← reads awg_status;
          match current with
          | Err _ => mret ""
          | Ok iface =>
            if negb (usable (Ok iface)) then mret ""
            else
              _ ← when has_policy_routes (act fault (ensure_routes iface));
              ready ← attempt ensureAWGManagedRuntime;
              match ready with
              | Err _ => mret ""
              | Ok _ =>
                tag ← outcome (PrepareInterfaceOutbound (InterfaceStatus.Device iface) (InterfaceStatus.Address iface) RouteMark);
                mret match tag with Ok tag => tag | Err _ => "" end
              end
          end
    end
  end.

(** The intent is taken back: the previous route, and the state without the operation. *)
Definition take_back (previousTag : string) (state : RuntimeState) : App unit :=
  _ ← ignore (act fault (SelectOutbound previousTag));
  ignore (act fault (save_state (idle state))).

Definition switch_to_profile (id tag mode autoScope : string) : App unit :=
  state ← load_state_as "load state";
  let previousTag := TrimSpace (RuntimeState.SelectedOutboundTag state) in
  let previousTag := if bool_decide (previousTag = "") then managedDirectTag else previousTag in
  now ← currentTime;
  let intent := awg_switch_intent previousTag tag now state in
  _ ← save_as "save AmneziaWG switch intent" intent;
  switched ← outcome (SelectOutbound tag);
  match switched with
  | Some e =>
    _ ← ignore (act fault (save_state (idle state)));
    raise (wrap "select AmneziaWG outbound" e)
  | None =>
    settings ← reads load_settings;
    match settings with
    | Err e => _ ← take_back previousTag state; raise (wrap "load settings" e)
    | Ok settings =>
      reached ← outcome egress;
      match reached with
      | Some e => _ ← take_back previousTag state; raise (wrap_fault (egress_reason e) (egress_fault e))
      | None =>
        metadata ← reads (awgProfileMetadataLocked id);
        saved ← outcome (save_state (connected_profile id tag previousTag mode autoScope now metadata intent));
        match saved with
        | Some e => _ ← take_back previousTag state; raise (wrap "save AmneziaWG state" e)
        | None => ignore (act fault (store_settings (mode_settings mode settings)))
        end
      end
    end
  end.

Definition connect_from (before : result string RuntimeState) (id mode autoScope : string) : App unit :=
  tag ← reuse_prepared id before;
  tag ← (if bool_decide (tag = "")
         then verified ← map_error (wrap_fault "verify AmneziaWG route") (verifyAWGLocked id true false); mret verified.1
         else mret tag);
  switch_to_profile id tag mode autoScope.

Definition restoreAWGConnectionLocked (original : RuntimeState) : App unit :=
  profile ← loadAWGProfile (RuntimeState.ActiveAWGProfileID original);
  _ ← act fault awg_remove;
  _ ← act fault (awg_prepare profile);
  iface ← outcome awg_connect;
  iface ← of_reading fault iface;
  _ ← ensureAWGManagedRuntime;
  tag ← outcome (PrepareInterfaceOutbound (InterfaceStatus.Device iface) (InterfaceStatus.Address iface) RouteMark);
  tag ← of_reading fault tag;
  _ ← act fault (SelectOutbound tag);
  settings ← reads load_settings;
  settings ← of_reading fault settings;
  reached ← outcome egress;
  _ ← match reached with Some e => raise (wrap_fault (egress_reason e) (egress_fault e)) | None => mret tt end;
  _ ← act fault (save_state (original <| RuntimeState.SelectedOutboundTag := tag |>
        <| RuntimeState.PreparedAWGProfileID := RuntimeState.ActiveAWGProfileID original |>));
  act fault (store_settings (mode_settings (RuntimeState.Mode original) settings)).

(** [errors.Join]. *)
Definition join_faults (e f : Fault) : Fault :=
  Build_Fault (fault_text e +:+ newline +:+ fault_text f) (fault_retryable e || fault_retryable f).

Definition or_restore (original : RuntimeState) (p : App unit) : App unit :=
  r ← attempt p;
  match r with
  | Ok _ => mret tt
  | Err e =>
    restored ← attempt (restoreAWGConnectionLocked original);
    match restored with
    | Ok _ => raise e
    | Err f => raise (join_faults e (wrap_fault "restore previous AmneziaWG connection" f))
    end
  end.

Definition connectAWGWithModeLocked (id mode autoScope : string) : App unit :=
  stateBefore ← (fun w => of_reading fault (load_state w) w);
  if other_active stateBefore id
  then
    _ ← when isolates (_ ← map_error (wrap_fault "verify AmneziaWG candidate") (checkAWGLocked id true); mret tt);
    or_restore stateBefore
      (_ ← map_error (wrap_fault "disconnect active AmneziaWG profile") disconnectAWGLocked;
       before ← reads load_state;
       connect_from before id mode autoScope)
  else connect_from (Ok stateBefore) id mode autoScope.

Definition connectAWGLocked (id : string) : App unit :=
  current ← reads load_state;
  match current with
  | Ok state =>
    if bool_decide (RuntimeState.Mode state = SelectionModeAuto)
    then connectAWGWithModeLocked id SelectionModeAuto (RuntimeState.AutoScope state)
    else connectAWGWithModeLocked id SelectionModeManual ""
  | Err _ => connectAWGWithModeLocked id SelectionModeManual ""
  end.

(** ** Removing *)

Definition without_profile (id : string) (active : bool) (state : RuntimeState) : RuntimeState :=
  let state := state <| RuntimeState.AWGProfileProbes ::= delete id |>
                     <| RuntimeState.PreparedAWGProfileID ::= fun p => if bool_decide (p = id) then "" else p |> in
  if active then without_connection (state <| RuntimeState.AWGProfileName := "" |> <| RuntimeState.AWGLastProbe := None |>)
  else state.

Definition settings_without (id : string) (active : bool) (settings : Settings) : Settings :=
  let settings := settings <| Settings.AutoExcludedNodes ::= fun l =>
    NormalizeAutoExcludedNodes (filter (fun value => value <> AutoExcludedNodeKey "server-list" id) l) |> in
  if active then mode_settings SelectionModeDisconnected settings else settings.

Definition remove_resolved (id : string) : App unit :=
  state ← (fun w => of_reading fault (load_state w) w);
  let active := bool_decide (RuntimeState.ActiveConnectionKind state = amneziawg_kind)
                && bool_decide (RuntimeState.ActiveAWGProfileID state = id) in
  let tag := if active then RuntimeState.SelectedOutboundTag state else "" in
  _ ← when active (act fault SelectDirect);
  _ ← when (controller && (active || bool_decide (RuntimeState.PreparedAWGProfileID state = id))) (act fault awg_remove);
  _ ← when (negb (bool_decide (tag = ""))) (ignore (act fault (RemoveOutbound tag)));
  _ ← act fault (remove_profile id);
  _ ← act fault (save_state (without_profile id active state));
  settings ← load_settings_as "load settings";
  act fault (store_settings (settings_without id active settings)).

(** ** The layout with a single profile *)

Definition migrated_state (id : string) (state : RuntimeState) : RuntimeState :=
  let state := match RuntimeState.AWGLastProbe state with
               | Some probe => state <| RuntimeState.AWGProfileProbes ::= fun m => <[id := probe]> m |>
               | None => state
               end in
  let state :=
    if bool_decide (RuntimeState.ActiveConnectionKind state = amneziawg_kind)
    then state <| RuntimeState.ActiveAWGProfileID := id |>
               <| RuntimeState.ActiveSubscriptionID := awgSubscriptionID |>
               <| RuntimeState.ActiveNodeID ::= fun node =>
                    if bool_decide (node = "") || bool_decide (node = legacyAWGNodeID) then id else node |>
    else state in
  state <| RuntimeState.PreparedAWGProfileID ::= fun p => if bool_decide (p = "") then id else p |>.

Definition migrateLegacyAWGProfileLocked : App unit :=
  raw ← reads load_legacy;
  match raw with
  | Err NotExist => mret tt
  | Err (ReadFailed e) => raise (wrap "load legacy AmneziaWG profile" e)
  | Ok raw =>
    profile ← map_error (wrap_fault "parse legacy AmneziaWG profile") (parse_profile raw);
    state ← load_state_as "load state for AmneziaWG migration";
    let id := StableID digest profile in
    let name := first_given [TrimSpace (RuntimeState.AWGProfileName state); Peer.Endpoint (Profile.Peer profile)] in
    saved ← outcome (save_profile (ProfileMetadata.mk id name) raw);
    _ ← of_reading (wrap "migrate legacy AmneziaWG profile") saved;
    _ ← save_as "save migrated AmneziaWG state" (migrated_state id state);
    act (wrap "remove legacy AmneziaWG profile") remove_legacy
  end.

(** ** The methods of the service *)

Definition protocol_name (version : string) : string :=
  if bool_decide (version = VersionLegacy) then "AmneziaWG Legacy"
  else if bool_decide (version = Version31) then "AmneziaWG 3.1" else "AmneziaWG 2.0".

(** What the state says of a profile. *)
Definition stored_status (id : string) (metadata : ProfileMetadata) (profile : Profile) (state : RuntimeState)
    (status : AWGStatus) : AWGStatus :=
  let is_kind := bool_decide (RuntimeState.ActiveConnectionKind state = amneziawg_kind)
                 && bool_decide (RuntimeState.ActiveAWGProfileID state = id) in
  let status := status
    <| AWGStatus.Profile := Some (Status profile) |>
    <| AWGStatus.Protocol := protocol_name (Profile.Version profile) |>
    <| AWGStatus.Name := first_given [TrimSpace (ProfileMetadata.Name metadata); Peer.Endpoint (Profile.Peer profile)] |>
    <| AWGStatus.LastProbe := match RuntimeState.AWGProfileProbes state !! id with
                              | Some probe => Some probe
                              | None => if bool_decide (RuntimeState.ActiveAWGProfileID state = id)
                                        then RuntimeState.AWGLastProbe state else None
                              end |>
    <| AWGStatus.Active := is_kind && RuntimeState.Connected state
         && bool_decide (RuntimeState.OperationalMode state = OperationalModeVPN) |>
    <| AWGStatus.State := "imported" |> in
  if is_kind && bool_decide (RuntimeState.OperationalMode state = OperationalModeDirect)
  then status <| AWGStatus.State := "direct" |> <| AWGStatus.Message := "VPN unavailable; internet is direct" |>
  else status.

(** What the controller adds to it. *)
Definition live_status (id : string) (state : RuntimeState) (preflight : Compatibility * option string)
    (iface : result string InterfaceStatus) (status : AWGStatus) : AWGStatus :=
  let status := status <| AWGStatus.Compatibility := Some preflight.1 |> in
  match preflight.2 with
  | Some e => status <| AWGStatus.State := "incompatible" |> <| AWGStatus.Message := e |>
  | None =>
    let status :=
      match iface with
      | Ok i =>
        if bool_decide (RuntimeState.PreparedAWGProfileID state = id)
        then let status := status <| AWGStatus.Interface := i |> in
             if InterfaceStatus.Up i then status <| AWGStatus.State := "prepared" |> else status
        else status
      | Err _ => status
      end in
    let status :=
      match AWGStatus.LastProbe status with
      | Some probe => if AWGProbeState.Success probe then status
                      else status <| AWGStatus.State := "probe_failed" |> <| AWGStatus.Message := AWGProbeState.Error probe |>
      | None => status
      end in
    if AWGStatus.Active status then status <| AWGStatus.State := "connected" |> <| AWGStatus.Message := "" |> else status
  end.

Definition empty_status (id : string) : AWGStatus :=
  AWGStatus.mk id "absent" "" "AmneziaWG" None None InterfaceStatus.zero None false "".

Definition awgStatusLocked (id : string) : App AWGStatus := fun w =>
  let result := empty_status id in
  match awgProfileMetadataLocked id w with
  | Err e => (Err (fault e), w)
  | Ok metadata =>
    match load_profile id w with
    | Err NotExist => (Ok result, w)
    | Err (ReadFailed e) => (Err (wrap "load AmneziaWG profile" e), w)
    | Ok raw =>
      match Parse raw with
      | Err e => (Ok (result <| AWGStatus.State := "invalid" |> <| AWGStatus.Message := profile_error_text e |>), w)
      | Ok profile =>
        match load_state w with
        | Err e => (Err (wrap "load state" e), w)
        | Ok state =>
          let status := stored_status id metadata profile state result in
          if negb controller
          then (Ok (status <| AWGStatus.Message := "AmneziaWG is available only on a compatible OpenWrt stand" |>), w)
          else (Ok (live_status id state (awg_preflight w) (awg_status w) status), w)
        end
      end
    end
  end.

Definition ImportAWGProfile (name raw : string) : App AWGStatus :=
  profile ← parse_profile raw;
  _ ← migrateLegacyAWGProfileLocked;
  let id := StableID digest profile in
  let name := if bool_decide (TrimSpace name = "") then Peer.Endpoint (Profile.Peer profile) else TrimSpace name in
  saved ← outcome (save_profile (ProfileMetadata.mk id name) raw);
  _ ← of_reading (wrap "save AmneziaWG profile") saved;
  awgStatusLocked id.

(** No profile at all is a status, not an error. *)
Definition GetAWGStatus : App AWGStatus :=
  _ ← migrateLegacyAWGProfileLocked;
  resolved ← reads (fun w => resolve_profile (list_profiles w) (load_state w) "");
  match resolved with
  | Err NoProfiles => mret (empty_status "")
  | Err e => raise (fault (resolve_text e))
  | Ok id => awgStatusLocked id
  end.

Definition GetAWGStatusByID (id : string) : App AWGStatus :=
  _ ← migrateLegacyAWGProfileLocked;
  resolved ← resolveAWGProfileIDLocked id;
  awgStatusLocked resolved.

Fixpoint each_status (profiles : list ProfileMetadata) : App (list AWGStatus) :=
  match profiles with
  | [] => mret []
  | metadata :: profiles =>
    status ← awgStatusLocked (ProfileMetadata.ID metadata);
    statuses ← each_status profiles;
    mret (status :: statuses)
  end.

Definition less_name (a b : AWGStatus) : bool := String.ltb (ToLower (AWGStatus.Name a)) (ToLower (AWGStatus.Name b)).

Definition ListAWGStatuses : App (list AWGStatus) :=
  _ ← migrateLegacyAWGProfileLocked;
  profiles ← reads list_profiles;
  profiles ← of_reading fault profiles;
  statuses ← each_status profiles;
  mret (stable_sort less_name statuses).

Definition CheckAWGProfile (id : string) : App AWGStatus :=
  _ ← migrateLegacyAWGProfileLocked;
  resolved ← resolveAWGProfileIDLocked id;
  checked ← attempt (checkAWGLocked resolved true);
  status ← attempt (awgStatusLocked resolved);
  match checked with
  | Err e => raise e
  | Ok _ => of_result status
  end.

Definition ConnectAWGProfile (id : string) : App unit :=
  _ ← migrateLegacyAWGProfileLocked;
  resolved ← resolveAWGProfileIDLocked id;
  connectAWGWithModeLocked resolved SelectionModeManual "".

Definition RemoveAWGProfile (id : string) : App unit :=
  _ ← migrateLegacyAWGProfileLocked;
  resolved ← resolveAWGProfileIDLocked id;
  remove_resolved resolved.

(** ** Profiles among the servers *)

Definition server_list : Subscription :=
  Subscription.mk awgSubscriptionID SourceTypeRaw "" "" "Server List" "" "Server List" "" zero_time None None 0 "" "ok" [].

Definition profile_node (metadata : ProfileMetadata) (raw : result ReadError string) : option Node :=
  match raw with
  | Err _ => None
  | Ok raw =>
    match Parse raw with
    | Err _ => None
    | Ok profile =>
      let endpoint := Peer.Endpoint (Profile.Peer profile) in
      Some (Node.mk (ProfileMetadata.ID metadata) awgSubscriptionID
              (first_given [TrimSpace (ProfileMetadata.Name metadata); endpoint]) "Server List" ProtocolAmneziaWG endpoint
              0 "" "" "" "" "" [] "" "" "" "" "" "" "" "" "" "" ∅ "")
    end
  end.

Definition append_nodes (nodes : list Node) (sub : Subscription) : Subscription :=
  Subscription.mk (Subscription.ID sub) (Subscription.SourceType sub) (Subscription.Source sub) (Subscription.FileName sub)
    (Subscription.ProviderName sub) (Subscription.ProviderNameSource sub) (Subscription.DisplayName sub) (Subscription.HWID sub)
    (Subscription.LastUpdatedAt sub) (Subscription.ExpiresAt sub) (Subscription.Traffic sub) (Subscription.RefreshInterval sub)
    (Subscription.LastError sub) (Subscription.ParserStatus sub) (Subscription.Nodes sub ++ nodes).

(** The first subscription with the identifier of the server list, or a new last one. *)
Fixpoint extend_server_list (nodes : list Node) (subscriptions : list Subscription) : list Subscription :=
  match subscriptions with
  | [] => [append_nodes nodes server_list]
  | sub :: subscriptions =>
    if bool_decide (Subscription.ID sub = awgSubscriptionID) then append_nodes nodes sub :: subscriptions
    else sub :: extend_server_list nodes subscriptions
  end.

Definition subscriptionsWithAWGProfiles (subscriptions : list Subscription) (w : W) : result string (list Subscription) :=
  match list_profiles w with
  | Err e => Err ("list AmneziaWG profiles: " +:+ e)
  | Ok [] => Ok subscriptions
  | Ok profiles =>
    Ok (extend_server_list (omap (fun m => profile_node m (load_profile (ProfileMetadata.ID m) w)) profiles) subscriptions)
  end.

(** A profile that a round of checks may touch. *)
Definition probed_in_auto (settings : Settings) (state : RuntimeState) (node : Node) : bool :=
  bool_decide (Node.Protocol node = ProtocolAmneziaWG)
  && negb (IsNodeExcludedFromAuto settings awgSubscriptionID node)
  && (isolates || negb (bool_decide (RuntimeState.ActiveConnectionKind state = amneziawg_kind)
                        && negb (bool_decide (RuntimeState.ActiveAWGProfileID state = ""))
                        && negb (bool_decide (RuntimeState.ActiveAWGProfileID state = Node.ID node)))).

(** [stopped] says that the context was cancelled. *)
Fixpoint check_each (stopped : W -> bool) (settings : Settings) (state : RuntimeState) (nodes : list Node) : App unit :=
  match nodes with
  | [] => mret tt
  | node :: nodes =>
    if negb (probed_in_auto settings state node) then check_each stopped settings state nodes
    else
      checked ← attempt (CheckAWGProfile (Node.ID node));
      stop ← reads stopped;
      match checked with
      | Err _ => if stop : bool then mret tt else check_each stopped settings state nodes
      | Ok _ => check_each stopped settings state nodes
      end
  end.

Definition probeAWGProfilesForAuto (stopped : W -> bool) (scope : string) : App unit :=
  if negb (bool_decide (scope ∈ [""; autoScopeAll; awgSubscriptionID])) then mret tt
  else
    settings ← reads load_settings;
    state ← reads load_state;
    subscriptions ← reads (subscriptionsWithAWGProfiles []);
    match settings, state, subscriptions with
    | Ok settings, Ok state, Ok subscriptions =>
      let nodes := match List.find (fun sub => bool_decide (Subscription.ID sub = awgSubscriptionID)) subscriptions with
                   | Some sub => Subscription.Nodes sub
                   | None => []
                   end in
      check_each stopped settings state nodes
    | _, _, _ => mret tt
    end.

End Service.

(** ** The profile store of files *)

Section FileProfiles.
  Context `{FileHost W}.
  Context (marshal : list ProfileMetadata -> string) (unmarshal : string -> result string (list ProfileMetadata)).
  Context (paths : StorePaths).

Definition plain {A} (p : Prog W A unit) (w : W) : option A * W :=
  match p w with (Ok _, w) => (None, w) | (Err e, w) => (Some e, w) end.

#[local] Instance file_profiles : ProfileStore W := {
  list_profiles w := (ListAWGProfiles unmarshal paths w).1;
  load_profile id w := (LoadAWGProfile paths id w).1;
  save_profile metadata raw w := SaveAWGProfile marshal unmarshal paths metadata raw w;
  remove_profile id w := plain (AmneziaStore.RemoveAWGProfile marshal unmarshal paths id) w;
  load_legacy w := (LoadLegacyAWGProfile paths w).1;
  remove_legacy w := plain (RemoveLegacyAWGProfile paths) w
}.

End FileProfiles.
