(* ===== verification/AmneziaServiceFacts.v ===== *)
(** * Connections over AmneziaWG: theorems

    The routes: a check never moves the route of a live connection; a connection
    that succeeds is the route in use and the one on file, and a change of profiles
    that fails brings the old route back or says that it could not; an identifier
    that is typed in resolves to one profile at most.  AmneziaTunnel adds which
    tunnel carries the traffic. *)
From S2P Require Import Prelude GoRunes GoStrings GoNum NetIP Domain Firewall FirewallSettings.
From S2P Require Import Zapret Settings.
From S2P Require Import Connection Migrations PersistFacts Probe AutoState AutoSelect.

From S2P Require Import AutoSelectFacts Reserves.
From S2P Require Import GoConv AmneziaProfile AmneziaRuntime AmneziaFacts.
From S2P Require Import XrayConfig XrayFacts BackendRequest ManagedBackend Scheduler.
From S2P Require Import ManagedSwitch ManagedSwitchFacts MemoryWorld Effects NodeSelection.
From S2P Require Import NodeSelectionFacts ReserveRound ReserveRoundFacts AutoCommit.
From S2P Require Import Failover.

From S2P Require Import AtomicFiles AmneziaStore AmneziaService.

Local Open Scope Z_scope.
Local Open Scope list_scope.

(** ** Choosing a profile *)

Definition with_prefix (value : string) (profiles : list ProfileMetadata) : list ProfileMetadata :=
  filter (fun p => HasPrefix (ProfileMetadata.ID p) value = true) profiles.

(** The specification: the profile with the identifier, or the only one that it begins. *)
Definition resolution (profiles : list ProfileMetadata) (value : string) : result ResolveError string :=
  if listed value profiles then Ok value
  else match with_prefix value profiles with
       | [] => Err (ProfileNotFound value)
       | [p] => Ok (ProfileMetadata.ID p)
       | _ => Err (AmbiguousPrefix value)
       end.

Lemma has_prefix_refl s : HasPrefix s s = true.
Proof. apply HasPrefix_spec. exists "". by rewrite append_nil_r. Qed.

Lemma match_spec value found profiles :
  Forall (fun p => ProfileMetadata.ID p <> "") profiles -> listed value profiles = false ->
  match_profile profiles value found =
    match with_prefix value profiles with
    | [] => if bool_decide (found = "") then Err (ProfileNotFound value) else Ok found
    | [p] => if bool_decide (found = "") then Ok (ProfileMetadata.ID p) else Err (AmbiguousPrefix value)
    | _ => Err (AmbiguousPrefix value)
    end.
Proof.
  intros Hne. revert found. induction Hne as [|p l Hp Hne IH]; intros found; [done|].
  cbn [listed existsb match_profile]. intros [Hd Hl]%orb_false_iff. rewrite Hd. unfold with_prefix in *.
  destruct (HasPrefix (ProfileMetadata.ID p) value) eqn:E.
  - rewrite filter_cons_True by done. destruct (bool_decide_reflect (found = "")).
    + rewrite IH by done. rewrite (bool_decide_eq_false_2 _ Hp). by destruct (filter _ l) as [|? []].
    + by destruct (filter _ l).
  - rewrite filter_cons_False by congruence. apply IH, Hl.
Qed.

Lemma match_listed value profiles :
  Forall (fun p => ProfileMetadata.ID p <> "") profiles -> forall found, listed value profiles = true ->
  (forall l1 p l2, profiles = l1 ++ p :: l2 -> ProfileMetadata.ID p = value ->
     Forall (fun q => HasPrefix (ProfileMetadata.ID q) value = false \/ ProfileMetadata.ID q = value) l1) ->
  match_profile profiles value found = Ok value.
Proof.
  induction 1 as [|p l Hp Hne IH]; intros found; [done|]. cbn [listed existsb match_profile]. intros Hl Hb.
  destruct (bool_decide_reflect (ProfileMetadata.ID p = value)) as [E|E]; [by rewrite E|]. cbn in Hl.
  assert (Hpre : HasPrefix (ProfileMetadata.ID p) value = false).
  { apply listed_spec in Hl as (q & [l1 [l2 ->]]%list_elem_of_split & Hq). specialize (Hb (p :: l1) q l2 eq_refl Hq).
    by apply Forall_inv in Hb as [?|?]. }
  rewrite Hpre. apply IH; [done|]. intros l1 q l2 -> Hq. specialize (Hb (p :: l1) q l2 eq_refl Hq). by apply Forall_inv_tail in Hb.
Qed.

Lemma compare_extension s c b : String.compare (s +:+ String c b) s = Gt.
Proof.
  induction s as [|a s IH]; [done|]. change (String.compare (String a (s +:+ String c b)) (String a s) = Gt). cbn [String.compare].
  unfold Ascii.compare. by rewrite N.compare_refl.
Qed.

Lemma extension_not_less a b : HasPrefix a b = true -> a <> b -> String.ltb a b = false.
Proof.
  intros [t ->]%HasPrefix_spec Hne. unfold String.ltb. destruct t as [|c t]; [by rewrite append_nil_r in Hne|]. by rewrite compare_extension.
Qed.

(** An identifier that is typed in resolves to one profile.  In an index sorted by
    identifier, as it is saved, the profile with exactly that identifier is taken,
    also when others begin with it; otherwise the only profile that begins with it;
    several of those are an error, and so is none. *)
Theorem match_profile_resolution profiles value :
  StronglySorted (fun p q => less_metadata p q = true) profiles ->
  Forall (fun p => ProfileMetadata.ID p <> "") profiles ->
  match_profile profiles value "" = resolution profiles value.
Proof.
  intros Hs Hne. unfold resolution. destruct (listed value profiles) eqn:El; [|by rewrite match_spec].
  apply match_listed; [done|done|]. intros l1 p l2 -> Hp. apply Forall_forall. intros q Hq.
  destruct (HasPrefix (ProfileMetadata.ID q) value) eqn:Eh; [right|by left].
  destruct (decide (ProfileMetadata.ID q = value)) as [|Hn]; [done|]. exfalso.
  assert (Hlt : less_metadata q p = true).
  { clear El Hne. induction l1 as [|x l1 IH]; [by apply elem_of_nil in Hq|]. cbn in Hs. apply StronglySorted_inv in Hs as [Hs Hx].
    apply elem_of_cons in Hq as [->|Hq]; [|by apply IH]. apply Forall_app in Hx as [_ Hx]. by apply Forall_inv in Hx. }
  unfold less_metadata in Hlt. rewrite Hp in Hlt. by rewrite (extension_not_less _ _ Eh Hn) in Hlt.
Qed.

Definition three_profiles : list ProfileMetadata :=
  [ProfileMetadata.mk "awg-1" "home"; ProfileMetadata.mk "awg-12" "work"; ProfileMetadata.mk "awg-20" "away"].

Lemma match_profile_resolution_witness :
  match_profile three_profiles "awg-1" "" = Ok "awg-1" /\ match_profile three_profiles "awg-2" "" = Ok "awg-20" /\
  match_profile three_profiles "awg" "" = Err (AmbiguousPrefix "awg").
Proof.
  assert (Hs : StronglySorted (fun p q => less_metadata p q = true) three_profiles) by (repeat constructor).
  assert (Hn : Forall (fun p => ProfileMetadata.ID p <> "") three_profiles) by (repeat constructor; discriminate).
  rewrite !(match_profile_resolution three_profiles _ Hs Hn). vm_compute. done.
Defined.

(** ** What the interfaces are relied on for *)

(** The route in use, whether Xray runs, and the state file. *)
Definition line `{ManagedBackend W, Router W, InterfaceBackend W} (w : W) : option string * bool * result string RuntimeState :=
  (selected w, backend_running w, load_state w).

(** Work on the tunnel's interface, probes and readings leave all three alone. *)
Class AWGLaws (W : Type) `{ManagedBackend W, Router W, Runtime W, ProfileStore W, AWGController W, InterfaceBackend W} : Prop := {
  awg_runtime :: RuntimeLaws W;
  awg_clock_quiet : forall w, line (clock w).2 = line w;
  awg_read_quiet : forall w, line (SelectedOutbound w).2 = line w;
  awg_prepare_quiet : forall p w, line (awg_prepare p w).2 = line w;
  awg_connect_quiet : forall w, line (awg_connect w).2 = line w;
  awg_disconnect_quiet : forall w, line (awg_disconnect w).2 = line w;
  awg_remove_quiet : forall w, line (awg_remove w).2 = line w;
  ensure_routes_quiet : forall i w, line (ensure_routes i w).2 = line w;
  prepare_isolated_quiet : forall p w, line (prepare_isolated p w).2 = line w;
  isolated_cleanup_quiet : forall w, line (isolated_cleanup w).2 = line w;
  interface_quiet : forall d a m w, line (PrepareInterfaceOutbound d a m w).2 = line w;
  probe_interface_quiet : forall t w, line (probe_interface t w).2 = line w;
  awg_settings_quiet : forall s w, line (store_settings s w).2 = line w;
  save_profile_quiet : forall m raw w, line (save_profile m raw w).2 = line w;
  remove_profile_quiet : forall id w, line (remove_profile id w).2 = line w;
  remove_legacy_quiet : forall w, line (remove_legacy w).2 = line w;
  save_keeps_running : forall s w, backend_running (save_state s w).2 = backend_running w;
  awg_failed_save : forall s w e w', save_state s w = (Some e, w') -> load_state w' = load_state w
}.

(** A program after which [I] still holds, however it ends, and whose result satisfies [R]. *)
Definition preserves {W E A} (I : W -> Prop) (R : A -> Prop) (p : Prog W E A) : Prop :=
  triple I p (fun a w => I w /\ R a) (fun _ => I).

Section Preserving.
  Context {W E : Type} (I : W -> Prop).

Lemma preserves_ret {A} (a : A) (R : A -> Prop) : R a -> preserves (E := E) I R (mret a).
Proof. by intros HR w Hw. Qed.

Lemma preserves_raise {A} (e : E) (R : A -> Prop) : preserves I R (raise e).
Proof. by intros w Hw. Qed.

Lemma preserves_of_result {A} (r : result E A) : preserves I (fun a => r = Ok a) (of_result r).
Proof. intros w Hw. unfold of_result. by destruct r. Qed.

Lemma preserves_bind {A B} (p : Prog W E A) (k : A -> Prog W E B) R Q :
  preserves I R p -> (forall a, R a -> preserves I Q (k a)) -> preserves I Q (p ≫= k).
Proof. intros Hp Hk. eapply triple_bind; [exact Hp|]. intros a w [Hw Ha]. by apply Hk. Qed.

Lemma preserves_weaken {A} (p : Prog W E A) (R R' : A -> Prop) : preserves I R p -> (forall a, R a -> R' a) -> preserves I R' p.
Proof. intros Hp HR. eapply triple_conseq; [exact Hp|done| |done]. intros a w [Hw Ha]. split; [done|by apply HR]. Qed.

Lemma preserves_any {A} (p : Prog W E A) R : preserves I R p -> preserves I (fun _ => True) p.
Proof. intros Hp. by eapply preserves_weaken. Qed.

Lemma preserves_attempt {A} (p : Prog W E A) R : preserves I R p -> preserves I (fun r => forall a, r = Ok a -> R a) (attempt p).
Proof. intros Hp w Hw. specialize (Hp w Hw). unfold attempt. destruct (p w) as [[a|e] w1]; [|by split]. destruct Hp as [Hi Ha]. split; [done|]. by intros b [= <-]. Qed.

Lemma preserves_ignore {A} (p : Prog W E A) R : preserves I R p -> preserves I (fun _ => True) (ignore p).
Proof. intros Hp w Hw. specialize (Hp w Hw). unfold ignore. destruct (p w) as [[a|e] w1]; cbn; [|done]. by destruct Hp. Qed.

Lemma preserves_when b (p : Prog W E unit) : preserves I (fun _ => True) p -> preserves I (fun _ => True) (when b p).
Proof. destruct b; [done|]. by intros _ w Hw. Qed.

Lemma preserves_outcome {A} (f : W -> A * W) : (forall w, I w -> I (f w).2) -> preserves (E := E) I (fun _ => True) (outcome f).
Proof. intros Hf w Hw. specialize (Hf w Hw). unfold outcome. by destruct (f w). Qed.

Lemma preserves_act {X} (wrap : X -> E) (f : W -> option X * W) : (forall w, I w -> I (f w).2) -> preserves I (fun _ => True) (act wrap f).
Proof. intros Hf w Hw. specialize (Hf w Hw). unfold act. by destruct (f w) as [[e|] w1]. Qed.

Lemma preserves_reads {A} (f : W -> A) (R : A -> Prop) : (forall w, I w -> R (f w)) -> preserves (E := E) I R (reads f).
Proof. intros Hf w Hw. by split; [|apply Hf]. Qed.

Lemma preserves_map_error {E'} {A} (g : E -> E') (p : Prog W E A) R : preserves I R p -> preserves I R (map_error g p).
Proof. intros Hp w Hw. specialize (Hp w Hw). unfold map_error. by destruct (p w) as [[a|e] w1]. Qed.

End Preserving.

(** Proves [preserves] for a program without facts about its readings. *)
Ltac preserve_step :=
  match goal with
  | |- preserves _ _ (mbind _ _) => eapply (preserves_bind _ _ _ (fun _ => True)); [|intros ? _]
  | |- preserves _ _ (when _ _) => apply preserves_when
  | |- preserves _ _ (ignore _) => eapply preserves_ignore
  | |- preserves _ _ (attempt _) => eapply preserves_any, preserves_attempt
  | |- preserves _ _ (reads _) => by apply preserves_reads
  | |- preserves _ _ (raise _) => by apply preserves_raise
  | |- preserves _ _ (mret _) => by apply preserves_ret
  | |- preserves _ _ (of_result _) => eapply preserves_any, preserves_of_result
  | |- preserves _ _ (if ?b then _ else _) => destruct b eqn:?
  | |- preserves _ _ (match ?x with _ => _ end) => destruct x eqn:?
  end.

(** ** Checking a profile while something is connected *)

Section Checking.
  Context `{AWGLaws W}.
  Context (url_host : string -> option (string * string)) (digest : StablePayload -> string) (profile_error_text : ProfileError -> string).
  Context (tag : string) (c : bool * string * string * string * string).
  Context (normal : NormalizeTransportMode c.1.1.1.2 = c.1.1.1.2).

(** Xray runs, its route is [tag], and the file records the connection [c]. *)
Definition live (w : W) : Prop :=
  selected w = Some tag /\ backend_running w = true /\ exists st, load_state w = Ok st /\ connection st = c.

(** The connection survives the program. *)
Abbreviation quietly p := (preserves (E := Fault) live (fun _ => True) p).

Lemma live_line w w' : line w' = line w -> live w -> live w'.
Proof. unfold line, live. intros [= -> -> ->]. done. Qed.

Lemma live_quiet {A} (f : W -> A * W) : (forall w, line (f w).2 = line w) -> forall w, live w -> live (f w).2.
Proof. intros Hf w. by apply live_line. Qed.

Lemma live_saved s w : connection s = c -> live w -> live (save_state s w).2.
Proof.
  intros Hs (Ht & Hr & st & Hl & Hst). pose proof (save_keeps_route s w) as Hk. pose proof (save_keeps_running s w) as Hb.
  destruct (save_state s w) as [[e|] w1] eqn:E; cbn [snd] in *.
  - split_and!; [congruence|congruence|]. exists st. split; [|done]. by rewrite (awg_failed_save _ _ _ _ E).
  - split_and!; [congruence|congruence|]. eexists. split; [by apply saved_is_loaded in E|]. rewrite connection_saved.
    subst c. unfold connection in normal. cbn in normal. unfold connection. by rewrite normal.
Qed.

Lemma preserves_save wrap_ s : connection s = c -> quietly (act wrap_ (save_state s)).
Proof. intros Hs. apply preserves_act. intros w. by apply live_saved. Qed.

Lemma loads_connection (w : W) st : live w -> load_state w = Ok st -> connection st = c.
Proof. intros (_ & _ & st' & Hl & Hst) E. rewrite Hl in E. by apply Ok_inj in E as <-. Qed.

Lemma preserves_time : quietly currentTime.
Proof. intros w Hw. pose proof (live_quiet clock awg_clock_quiet w Hw) as Hc. unfold currentTime. by destruct (clock w). Qed.

Lemma preserves_reading {A} wrap_ (r : result string A) : quietly (of_reading wrap_ r).
Proof. unfold of_reading. repeat preserve_step. Qed.

Lemma probed_connection o t threshold id st : connection (probed_state o t threshold id st) = connection st.
Proof. done. Qed.

Lemma preserves_runtime : quietly (ensureAWGManagedRuntime url_host).
Proof.
  intros w Hw. pose proof Hw as (Ht & Hr & _). unfold ensureAWGManagedRuntime, ensureAWGManagedRuntimeWithReload, runtime_ready, mbind, prog_bind, reads, outcome.
  rewrite Hr. cbn [negb]. pose proof (live_quiet _ awg_read_quiet w Hw) as Hq. unfold selected in Ht.
  destruct (SelectedOutbound w) as [[t|e] w1]; [|done]. by split.
Qed.

Lemma preserves_load id : quietly (loadAWGProfile profile_error_text id).
Proof. unfold loadAWGProfile, parse_profile. repeat preserve_step. Qed.

Lemma preserves_measure id mark iface : quietly (measure_interface url_host id mark iface).
Proof.
  unfold measure_interface. eapply preserves_bind; [apply preserves_runtime|]. intros _ _.
  eapply preserves_bind; [apply preserves_outcome, live_quiet, interface_quiet|]. intros t _.
  eapply (preserves_bind _ _ _ (fun _ => True)).
  { destruct t; [apply preserves_outcome, live_quiet, probe_interface_quiet|by apply preserves_ret]. }
  intros o _. eapply preserves_bind; [apply preserves_time|]. intros now _.
  eapply (preserves_bind _ _ _ (fun r => forall st, r = Ok st -> connection st = c)).
  { apply preserves_reads. intros w Hw st. by apply loads_connection. }
  intros st Hst. preserve_step; [preserve_step|]. eapply (preserves_bind _ _ _ (fun _ => True)); [|intros ? _; repeat preserve_step].
  destruct st as [st|]; [|by apply preserves_ret]. preserve_step. apply preserves_save. rewrite probed_connection. by apply Hst.
Qed.

Lemma preserves_permanent id profile st : connection st = c -> quietly (prepare_permanent id profile st).
Proof.
  intros Hst. unfold prepare_permanent. preserve_step; [preserve_step|]. preserve_step; [preserve_step|].
  preserve_step; [preserve_step; apply preserves_act, live_quiet, awg_remove_quiet|]. preserve_step.
  preserve_step; [apply preserves_act, live_quiet, awg_prepare_quiet|]. by apply preserves_save.
Qed.

Lemma preserves_interface : quietly permanent_interface.
Proof.
  unfold permanent_interface. preserve_step; [preserve_step|]. preserve_step.
  { preserve_step; [preserve_step|apply preserves_outcome, live_quiet, awg_connect_quiet]. }
  preserve_step; [apply preserves_reading|]. preserve_step; [|preserve_step].
  preserve_step. apply preserves_act, live_quiet, ensure_routes_quiet.
Qed.

Lemma preserves_isolated id profile : quietly (isolated_probe url_host id profile).
Proof.
  unfold isolated_probe. preserve_step; [apply preserves_outcome, live_quiet, prepare_isolated_quiet|]. preserve_step.
  preserve_step; [eapply preserves_any, preserves_attempt; preserve_step; [apply preserves_reading|apply preserves_measure]|].
  preserve_step; [|preserve_step]. preserve_step. eapply preserves_ignore, preserves_act, live_quiet, isolated_cleanup_quiet.
Qed.

Lemma preserves_verify id prepare isolatedProbe :
  quietly (verifyAWGLocked url_host profile_error_text id prepare isolatedProbe).
Proof.
  unfold verifyAWGLocked. preserve_step; [apply preserves_load|]. preserve_step; [preserve_step|].
  eapply (preserves_bind _ _ _ (fun st => connection st = c)).
  { intros w Hw. unfold load_state_as. destruct (load_state w) eqn:E; [|done]. split; [done|]. by eapply loads_connection. }
  intros st Hst. preserve_step; [preserve_step|]. preserve_step; [apply preserves_isolated|].
  preserve_step; [preserve_step; by apply preserves_permanent|]. preserve_step; [apply preserves_interface|apply preserves_measure].
Qed.

Lemma preserves_resolve value : quietly (resolveAWGProfileIDLocked value).
Proof. unfold resolveAWGProfileIDLocked. repeat preserve_step. Qed.

Lemma status_same id (w : W) : (awgStatusLocked profile_error_text id w).2 = w.
Proof.
  unfold awgStatusLocked. destruct (awgProfileMetadataLocked id w); [|done]. destruct (load_profile id w) as [raw|[]]; [|done|done].
  destruct (Parse raw); [|done]. by destruct (load_state w), (negb controller).
Qed.

Lemma preserves_status id : quietly (awgStatusLocked profile_error_text id).
Proof. intros w Hw. pose proof (status_same id w) as E. destruct (awgStatusLocked _ _ _) as [[?|?] ?]; cbn [snd] in E; by subst. Qed.

Lemma preserves_check id : quietly
  (resolved ← resolveAWGProfileIDLocked id;
   checked ← attempt (checkAWGLocked url_host profile_error_text resolved true);
   status ← attempt (awgStatusLocked profile_error_text resolved);
   match checked with Err e => raise e | Ok _ => of_result status end).
Proof.
  preserve_step; [apply preserves_resolve|]. preserve_step; [eapply preserves_any, preserves_attempt, preserves_verify|].
  preserve_step; [eapply preserves_any, preserves_attempt, preserves_status|]. repeat preserve_step.
Qed.

End Checking.

Section Checks.
  Context `{AWGLaws W}.
  Context (url_host : string -> option (string * string)) (digest : StablePayload -> string) (profile_error_text : ProfileError -> string).

(** Whatever profile is checked, over a tunnel of its own or the permanent one, and
    whether or not the check succeeds, Xray keeps running on the route it had, and
    the state file keeps the connection it recorded. *)
Lemma check_keeps_line id w r w' t st :
  load_legacy w = Err NotExist -> selected w = Some t -> backend_running w = true -> load_state w = Ok st ->
  NormalizeTransportMode (RuntimeState.ActiveTransport st) = RuntimeState.ActiveTransport st ->
  CheckAWGProfile url_host digest profile_error_text id w = (r, w') ->
  selected w' = Some t /\ backend_running w' = true /\ exists st', load_state w' = Ok st' /\ connection st' = connection st.
Proof.
  intros Hleg Ht Hr Hl Hn. unfold CheckAWGProfile, migrateLegacyAWGProfileLocked, mbind at 1, prog_bind at 1, mbind at 1, prog_bind at 1, reads.
  rewrite Hleg. cbn [mret prog_ret]. intros E.
  pose proof (preserves_check url_host profile_error_text t (connection st) Hn id w
    (conj Ht (conj Hr (ex_intro _ st (conj Hl eq_refl))))) as Hp.
  rewrite E in Hp. destruct r; [by destruct Hp|exact Hp].
Qed.

End Checks.

(** ** Connecting *)

Lemma reloaded_profile s :
  let st := reload_state (settle_operational_mode s) in
  RuntimeState.SelectedOutboundTag st = RuntimeState.SelectedOutboundTag s /\
  RuntimeState.ActiveConnectionKind st = RuntimeState.ActiveConnectionKind s /\
  RuntimeState.ActiveAWGProfileID st = RuntimeState.ActiveAWGProfileID s /\
  RuntimeState.CurrentOperation st = RuntimeState.CurrentOperation s.
Proof. unfold settle_operational_mode. by destruct (bool_decide _). Qed.

Lemma connected_fields id tag previousTag mode scope now m intent :
  let s := connected_profile id tag previousTag mode scope now m intent in
  RuntimeState.SelectedOutboundTag s = tag /\ RuntimeState.ActiveConnectionKind s = amneziawg_kind /\
  RuntimeState.ActiveAWGProfileID s = id /\
  (RuntimeState.Connected s, NormalizeTransportMode (RuntimeState.ActiveTransport s), RuntimeState.ActiveSubscriptionID s,
   RuntimeState.ActiveNodeID s, RuntimeState.Mode s) = (true, TransportModeProxy, awgSubscriptionID, id, mode).
Proof. by destruct m. Qed.

Section Connecting.
  Context `{AWGLaws W}.
  Context (url_host : string -> option (string * string)) (profile_error_text : ProfileError -> string).

Abbreviation connect := (connectAWGWithModeLocked url_host profile_error_text).
Abbreviation check := (checkAWGLocked url_host profile_error_text).
Abbreviation restore := (restoreAWGConnectionLocked url_host profile_error_text).

(** The route in use and the state file agree on a connection over the profile. *)
Definition on_profile (id : string) (c : bool * string * string * string * string) (w : W) : Prop :=
  exists tag st, selected w = Some tag /\ load_state w = Ok st /\ connection st = c /\
    RuntimeState.SelectedOutboundTag st = tag /\ RuntimeState.ActiveConnectionKind st = amneziawg_kind /\
    RuntimeState.ActiveAWGProfileID st = id.

Lemma on_profile_line id c w w' : line w' = line w -> on_profile id c w -> on_profile id c w'.
Proof. unfold line, on_profile. by intros [= -> _ ->]. Qed.

Lemma settings_stored id c s w : on_profile id c w -> on_profile id c (store_settings s w).2.
Proof. apply on_profile_line, awg_settings_quiet. Qed.

(** The state [s] is saved while its route is in use. *)
Lemma saved_on_profile s w w' : selected w = Some (RuntimeState.SelectedOutboundTag s) ->
  RuntimeState.ActiveConnectionKind s = amneziawg_kind -> save_state s w = (None, w') ->
  on_profile (RuntimeState.ActiveAWGProfileID s)
    (RuntimeState.Connected s, NormalizeTransportMode (RuntimeState.ActiveTransport s), RuntimeState.ActiveSubscriptionID s,
     RuntimeState.ActiveNodeID s, RuntimeState.Mode s) w'.
Proof.
  intros Ht Hk E. pose proof (save_keeps_route s w) as Hr. rewrite E in Hr. cbn [snd] in Hr.
  destruct (reloaded_profile s) as (Et & Ek & Ei & _). eexists _, _. split; [by rewrite Hr, Ht|].
  split; [by apply saved_is_loaded in E|]. by rewrite connection_saved, Et, Ek, Ei.
Qed.

Lemma reached_egress w r w' : egress w = (r, w') -> selected w' = selected w.
Proof. intros E. pose proof (egress_keeps_route w) as Hk. by rewrite E in Hk. Qed.

Lemma switched_profile id tag mode scope w w' :
  switch_to_profile id tag mode scope w = (Ok tt, w') ->
  on_profile id (true, TransportModeProxy, awgSubscriptionID, id, mode) w' /\ selected w' = Some tag.
Proof.
  unfold switch_to_profile. intros (state & w1 & _ & Hk)%bind_ok. apply bind_ok in Hk as (now & w2 & _ & Hk).
  apply bind_ok in Hk as (u & w3 & _ & Hk). apply bind_ok in Hk as (switched & w4 & Hs%outcome_ok & Hk).
  destruct switched as [e|]; [by apply bind_ok in Hk as (? & ? & _ & ?%raise_ok)|]. apply select_ok in Hs.
  apply bind_ok in Hk as (settings & w5 & [-> ->]%reads_ok & Hk).
  destruct (load_settings w4) as [settings|e]; [|by apply bind_ok in Hk as (? & ? & _ & ?%raise_ok)].
  apply bind_ok in Hk as (reached & w5 & He%outcome_ok%reached_egress & Hk).
  destruct reached as [e|]; [by apply bind_ok in Hk as (? & ? & _ & ?%raise_ok)|].
  apply bind_ok in Hk as (metadata & w6 & [-> ->]%reads_ok & Hk). apply bind_ok in Hk as (saved & w7 & Hsave%outcome_ok & Hk).
  destruct saved as [e|]; [by apply bind_ok in Hk as (? & ? & _ & ?%raise_ok)|].
  injection Hk as <-. unfold act. pose proof (settings_stored id (true, TransportModeProxy, awgSubscriptionID, id, mode)
    (mode_settings mode settings) w7) as Hq.
  assert (Hp : on_profile id (true, TransportModeProxy, awgSubscriptionID, id, mode) w7).
  { match type of Hsave with save_state (connected_profile _ _ ?pt _ _ _ ?m ?i) _ = _ =>
      destruct (connected_fields id tag pt mode scope now m i) as (Et & Ek & Ei & Ec) end.
    pose proof (saved_on_profile _ _ _ (eq_trans He (eq_trans Hs (f_equal Some (eq_sym Et)))) Ek Hsave) as Hp. by rewrite Ei, Ec in Hp. }
  assert (Ht : selected w7 = Some tag) by (match type of Hsave with save_state ?s _ = _ => pose proof (save_keeps_route s w5) as Hr end; rewrite Hsave in Hr; cbn [snd] in Hr; congruence).
  specialize (Hq Hp). pose proof (awg_settings_quiet (mode_settings mode settings) w7) as Hl. unfold line in Hl. injection Hl as Hl _ _.
  destruct (store_settings _ w7) as [[e|] w8]; cbn [snd] in *; (split; [done|congruence]).
Qed.

Lemma connected_from before id mode scope w w' :
  connect_from url_host profile_error_text before id mode scope w = (Ok tt, w') ->
  on_profile id (true, TransportModeProxy, awgSubscriptionID, id, mode) w'.
Proof. unfold connect_from. intros (t & w1 & _ & Hk)%bind_ok. apply bind_ok in Hk as (t' & w2 & _ & Hk). by apply switched_profile in Hk as [? _]. Qed.

(** The connection that [original] describes. *)
Definition same_connection (original : RuntimeState) : bool * string * string * string * string :=
  (RuntimeState.Connected original, NormalizeTransportMode (RuntimeState.ActiveTransport original),
   RuntimeState.ActiveSubscriptionID original, RuntimeState.ActiveNodeID original, RuntimeState.Mode original).

Lemma restored_profile original w w' : RuntimeState.ActiveConnectionKind original = amneziawg_kind ->
  restore original w = (Ok tt, w') -> on_profile (RuntimeState.ActiveAWGProfileID original) (same_connection original) w'.
Proof.
  intros Hkind. unfold restoreAWGConnectionLocked. intros (p & w1 & _ & Hk)%bind_ok. do 6 apply bind_ok in Hk as (? & ? & _ & Hk).
  apply bind_ok in Hk as (tag & w2 & _ & Hk). apply bind_ok in Hk as (u & w3 & Hs%act_ok%select_ok & Hk).
  apply bind_ok in Hk as (settings & w4 & [-> ->]%reads_ok & Hk). apply bind_ok in Hk as (s & w4 & Hset & Hk).
  assert (w4 = w3) as ->. { unfold of_reading, of_result in Hset. by injection Hset. }
  apply bind_ok in Hk as (reached & w5 & He%outcome_ok%reached_egress & Hk). apply bind_ok in Hk as (u1 & w6 & Hr & Hk).
  assert (w6 = w5) as ->. { destruct reached; [done|]. by injection Hr. }
  apply bind_ok in Hk as (u2 & w7 & Hsave%act_ok & Hk%act_ok).
  pose proof (settings_stored (RuntimeState.ActiveAWGProfileID original) (same_connection original) (mode_settings (RuntimeState.Mode original) s) w7) as Hq.
  rewrite Hk in Hq. apply Hq.
  exact (saved_on_profile (original <| RuntimeState.SelectedOutboundTag := tag |>
    <| RuntimeState.PreparedAWGProfileID := RuntimeState.ActiveAWGProfileID original |>) w5 w7 (eq_trans He Hs) Hkind Hsave).
Qed.

Lemma or_restored original p w r w' : RuntimeState.ActiveConnectionKind original = amneziawg_kind ->
  or_restore url_host profile_error_text original p w = (r, w') ->
  match r with
  | Ok _ => p w = (Ok tt, w')
  | Err e =>
    on_profile (RuntimeState.ActiveAWGProfileID original) (same_connection original) w' \/
    exists e0 f v, restore original v = (Err f, w') /\ e = join_faults e0 (wrap_fault "restore previous AmneziaWG connection" f)
  end.
Proof.
  intros Hkind. unfold or_restore, mbind, prog_bind, attempt. destruct (p w) as [[[]|e] w1]; [by intros [= <- <-]|].
  destruct (restore original w1) as [[[]|f] w2] eqn:Er; intros [= <- <-]; [left; by eapply restored_profile|right]. by exists e, f, w1.
Qed.

Lemma other_active_kind st id : other_active st id = true -> RuntimeState.ActiveConnectionKind st = amneziawg_kind.
Proof. unfold other_active. rewrite !andb_true_iff. by intros [[[Hk%bool_decide_eq_true _] _] _]. Qed.

(** When connecting succeeds, the route in use is the one that the state file
    records, for the profile and the mode that were asked for.  When it fails while
    another profile carried the connection, only the check of the candidate was done;
    or the old connection is back on the route and in the file; or the error says
    that it could not be restored. *)
Lemma connect_or_old_route id mode scope w r w' st :
  load_state w = Ok st -> connect id mode scope w = (r, w') ->
  match r with
  | Ok _ => on_profile id (true, TransportModeProxy, awgSubscriptionID, id, mode) w'
  | Err e =>
    other_active st id = true ->
    (isolates = true /\ exists e0, check id true w = (Err e0, w')) \/
    on_profile (RuntimeState.ActiveAWGProfileID st) (same_connection st) w' \/
    exists e0 f v, restore st v = (Err f, w') /\ e = join_faults e0 (wrap_fault "restore previous AmneziaWG connection" f)
  end.
Proof.
  intros Hl. unfold connectAWGWithModeLocked, mbind at 1, prog_bind at 1, of_reading at 1, of_result at 1. rewrite Hl.
  destruct (other_active st id) eqn:Eo.
  2: { intros E. destruct r as [[]|e]; [by apply connected_from in E|done]. }
  pose proof (other_active_kind _ _ Eo) as Hkind. unfold mbind at 1, prog_bind at 1.
  destruct (when isolates _ w) as [[u|e] w1] eqn:Ew.
  - intros E. pose proof (or_restored _ _ _ _ _ Hkind E) as Hr. destruct r as [[]|e]; [|intros _; by right].
    apply bind_ok in Hr as (? & w2 & _ & Hr). apply bind_ok in Hr as (before & w3 & _ & Hr). by apply connected_from in Hr.
  - intros [= <- <-] _. left. destruct isolates; [|done]. split; [done|]. cbn in Ew. unfold mbind, prog_bind, map_error in Ew.
    destruct (check id true w) as [[a|e0] w2]; [done|]. exists e0. by injection Ew as _ <-.
Qed.

End Connecting.

(** ** Disconnecting and removing *)

Section TakingDown.
  Context `{AWGLaws W}.

(** Nothing is connected: the direct route is in use, and the file says so. *)
Definition off (w : W) : Prop :=
  selected w = Some managedDirectTag /\
  exists st, load_state w = Ok st /\ connection st = (false, TransportModeDirect, "", "", SelectionModeDisconnected) /\
    RuntimeState.ActiveConnectionKind st = "" /\ RuntimeState.ActiveAWGProfileID st = "" /\
    RuntimeState.SelectedOutboundTag st = managedDirectTag.

Lemma off_line w w' : line w' = line w -> off w -> off w'.
Proof. unfold line, off. by intros [= -> _ ->]. Qed.

Lemma selected_line (w w' : W) : line w' = line w -> selected w' = selected w.
Proof. by intros [= -> _ _]. Qed.

Lemma stored_off s w w' : act fault (store_settings s) w = (Ok tt, w') -> off w -> off w'.
Proof. intros E%act_ok. pose proof (awg_settings_quiet s w) as Hq. rewrite E in Hq. by apply off_line. Qed.

Lemma quiet_act {X} (wrap_ : X -> Fault) f w u w' : (forall w, line (f w).2 = line w) -> act wrap_ f w = (Ok u, w') -> selected w' = selected w.
Proof. intros Hf E%act_ok. specialize (Hf w). rewrite E in Hf. by apply selected_line. Qed.

Lemma quiet_when {X} b (wrap_ : X -> Fault) f w u w' :
  (forall w, line (f w).2 = line w) -> when b (act wrap_ f) w = (Ok u, w') -> selected w' = selected w.
Proof. intros Hf. destruct b; [by apply quiet_act|]. by intros [= _ <-]. Qed.

Lemma saved_off s w u w' : selected w = Some managedDirectTag -> connection s = (false, TransportModeDirect, "", "", SelectionModeDisconnected) ->
  RuntimeState.ActiveConnectionKind s = "" -> RuntimeState.ActiveAWGProfileID s = "" ->
  RuntimeState.SelectedOutboundTag s = managedDirectTag -> act fault (save_state s) w = (Ok u, w') -> off w'.
Proof.
  intros Ht Hc Hk Hi Hs E%act_ok. pose proof (save_keeps_route s w) as Hr. rewrite E in Hr. cbn [snd] in Hr.
  destruct (reloaded_profile s) as (Et & Ek & Ei & _). split; [by rewrite Hr|]. eexists. split; [by apply saved_is_loaded in E|].
  rewrite connection_saved, Et, Ek, Ei. unfold connection in Hc. by injection Hc as -> -> -> -> ->.
Qed.

Lemma read_state (w w1 : W) st st' : load_state w = Ok st -> (fun w => of_reading fault (load_state w) w) w = (Ok st', w1) -> st' = st /\ w1 = w.
Proof. intros Hl. cbv beta. unfold of_reading, of_result. rewrite Hl. by intros [= <- <-]. Qed.

Lemma removed_outbound b tag w u w' : selected w = Some managedDirectTag ->
  when (E := Fault) b (ignore (act fault (RemoveOutbound tag))) w = (Ok u, w') -> selected w' = Some managedDirectTag.
Proof.
  intros Ht. destruct b; [|by intros [= _ <-]]. unfold when, ignore. intros [= _ <-]. unfold act.
  pose proof (remove_keeps tag w) as Hr. destruct (RemoveOutbound tag w) as [[e|] w1]; cbn [snd] in *; congruence.
Qed.

(** Taking a connection over a profile down leaves nothing connected.  When
    disconnecting it, or removing its profile, succeeds, the direct route is in use
    and the state file has no connection. *)
Theorem taken_down_is_direct w st w' : load_state w = Ok st -> RuntimeState.ActiveConnectionKind st = amneziawg_kind ->
  disconnectAWGLocked w = (Ok tt, w') \/ remove_resolved (RuntimeState.ActiveAWGProfileID st) w = (Ok tt, w') -> off w'.
Proof.
  intros Hl Hk [E|E].
  - unfold disconnectAWGLocked in E. apply bind_ok in E as (st' & w1 & [-> ->]%(read_state _ _ _ _ Hl) & E).
    rewrite Hk in E. cbn [negb bool_decide] in E. rewrite bool_decide_eq_true_2 in E by done.
    apply bind_ok in E as (u & w2 & Hs%act_ok%select_ok & E). apply bind_ok in E as (u2 & w3 & Hd & E).
    apply quiet_when in Hd; [|apply awg_disconnect_quiet]. apply bind_ok in E as (now & w4 & Ht & E).
    pose proof (awg_clock_quiet w3) as Hc. unfold currentTime in Ht. destruct (clock w3) as [t w5]. injection Ht as _ <-.
    apply selected_line in Hc. cbn [snd] in Hc. apply bind_ok in E as (u3 & w6 & Hsave & E).
    apply saved_off in Hsave; [|congruence|done|done|done|done]. apply bind_ok in E as (settings & w7 & Hset & E).
    apply stored_off in E; [done|]. unfold load_settings_as in Hset. destruct (load_settings w6); [|done]. by injection Hset as _ <-.
  - unfold remove_resolved in E. apply bind_ok in E as (st' & w1 & [-> ->]%(read_state _ _ _ _ Hl) & E).
    rewrite Hk in E. rewrite !bool_decide_eq_true_2 in E by done. cbn [andb orb] in E.
    apply bind_ok in E as (u & w2 & Hs%act_ok%select_ok & E). apply bind_ok in E as (u2 & w3 & Hd & E).
    apply quiet_when in Hd; [|apply awg_remove_quiet]. apply bind_ok in E as (u3 & w4 & Hr & E).
    apply removed_outbound in Hr; [|congruence]. apply bind_ok in E as (u4 & w5 & Hp & E).
    apply quiet_act in Hp; [|apply remove_profile_quiet]. apply bind_ok in E as (u5 & w6 & Hsave & E).
    apply saved_off in Hsave; [|congruence|done|done|done|done]. apply bind_ok in E as (settings & w7 & Hset & E).
    apply stored_off in E; [done|]. unfold load_settings_as in Hset. destruct (load_settings w6); [|done]. by injection Hset as _ <-.
Qed.

(** A disconnection that stops half way still claims the tunnel.  When the
    direct route is selected and the interface then cannot be taken down, an error is
    reported and the direct route stays in use, but the state file keeps recording a
    connection over the profile. *)
Theorem failed_disconnect_claims_tunnel w st v e v' :
  load_state w = Ok st -> RuntimeState.ActiveConnectionKind st = amneziawg_kind -> controller = true ->
  SelectDirect w = (None, v) -> awg_disconnect v = (Some e, v') ->
  disconnectAWGLocked w = (Err (fault e), v') /\ selected v' = Some managedDirectTag /\ load_state v' = Ok st.
Proof.
  intros Hl Hk Hc Hs Hd. pose proof (awg_disconnect_quiet v) as Hq. rewrite Hd in Hq. cbn [snd] in Hq. unfold line in Hq.
  injection Hq as Hsel _ Hload. unfold SelectDirect in Hs. pose proof (select_keeps_file managedDirectTag w) as Hf. rewrite Hs in Hf. cbn [snd] in Hf.
  split_and!; [|by rewrite Hsel; apply select_ok in Hs|congruence].
  unfold disconnectAWGLocked, mbind at 1, prog_bind at 1, of_reading at 1, of_result at 1. rewrite Hl, Hk. rewrite bool_decide_eq_true_2 by done.
  unfold mbind at 1, prog_bind at 1, when at 1, act at 1, SelectDirect. rewrite Hs. unfold mbind at 1, prog_bind at 1, when at 1. rewrite Hc.
  unfold act at 1. by rewrite Hd.
Qed.

End TakingDown.

(** ** Importing *)

(** An identifier in the index is not saved again. *)
Class ProfileStoreLaws (W : Type) `{ProfileStore W} : Prop := {
  save_known : forall m raw w l, storable (ProfileMetadata.ID m) -> raw <> "" -> list_profiles w = Ok l ->
    listed (ProfileMetadata.ID m) l = true -> save_profile m raw w = (Ok false, w)
}.

Lemma file_profiles_laws `{FileHostLaws W} marshal unmarshal paths :
  ProfileStoreLaws W (H := file_profiles marshal unmarshal paths).
Proof.
  split. intros m raw w l (Ht & Hne & Hc) Hr. cbn [list_profiles save_profile file_profiles]. intros Hl Hd.
  unfold SaveAWGProfile. rewrite Ht, (bool_decide_eq_false_2 _ Hne), Hc, (bool_decide_eq_false_2 _ Hr). cbn [orb].
  unfold mbind at 1, prog_bind at 1. destruct (ListAWGProfiles unmarshal paths w) as [r w1] eqn:E.
  destruct (list_read (H1 := H1) _ _ _ _ _ E) as [-> _]. cbn [fst] in Hl. rewrite Hl. by rewrite Hd.
Qed.

Section Importing.
  Context `{ManagedBackend W, Router W, Runtime W, ProfileStoreLaws W, AWGController W, InterfaceBackend W}.
  Context (url_host : string -> option (string * string)) (digest : StablePayload -> string) (profile_error_text : ProfileError -> string).

(** A changed profile can be taken for the stored one.  [StableID] leaves out the
    parameters of version 3.1, so when the index lists the identifier of [stored],
    importing a text whose profile differs from it in those parameters alone
    succeeds with the status of the stored profile and changes nothing: the new
    header protection key, padding and timers are dropped. *)
Theorem import_drops_v31_changes name raw profile stored profiles w :
  load_legacy w = Err NotExist -> list_profiles w = Ok profiles ->
  Parse raw = Ok profile -> raw <> "" -> storable (StableID digest stored) -> listed (StableID digest stored) profiles = true ->
  profile = Profile.mk (Profile.Version stored)
    (Interface.mk (Interface.PrivateKey (Profile.Interface stored)) (Interface.Addresses (Profile.Interface stored))
       (Interface.MTU (Profile.Interface stored)) (Interface.Obfuscation (Profile.Interface stored))
       (Interface.V31 (Profile.Interface profile)))
    (Profile.Peer stored) (Profile.IgnoredParameters stored) ->
  ImportAWGProfile digest profile_error_text name raw w = awgStatusLocked profile_error_text (StableID digest stored) w.
Proof.
  intros Hleg Hl Hp Hr Hid Hd E. unfold ImportAWGProfile, parse_profile, of_result, mbind at 1, prog_bind at 1. rewrite Hp.
  unfold migrateLegacyAWGProfileLocked, mbind at 1, prog_bind at 1, mbind at 1, prog_bind at 1, reads. rewrite Hleg.
  cbn [mret prog_ret]. assert (Hs : StableID digest profile = StableID digest stored) by (by rewrite E). cbv zeta. rewrite Hs.
  unfold mbind at 1, prog_bind at 1, outcome. rewrite (save_known _ _ _ profiles) by done. done.
Qed.

End Importing.

(** ** On the world in memory *)

Definition stored_text : string := sample_text (EncodeToString (sample_key 9)).
Definition changed_text : string := sample_text (EncodeToString (sample_key 10)).

(** Two profiles are listed, and the file of the second is missing. *)
#[export] Instance world_profiles : ProfileStore MemoryWorld := {
  list_profiles _ := Ok [ProfileMetadata.mk "awg-1" "home"; ProfileMetadata.mk "awg-2" "work"];
  load_profile id _ := if bool_decide (id = "awg-1") then Ok stored_text else Err NotExist;
  save_profile m _ w := (Ok (negb (bool_decide (ProfileMetadata.ID m ∈ ["awg-1"; "awg-2"]))), w);
  remove_profile _ w := (None, w);
  load_legacy _ := Err NotExist;
  remove_legacy w := (None, w)
}.

Definition world_tunnel : InterfaceStatus := InterfaceStatus.mk true "tunnel" "10.8.0.2" 0.

#[export] Instance world_controller : AWGController MemoryWorld := {
  controller := true; isolates := false; has_policy_routes := true;
  awg_preflight _ := (Compatibility.mk true "" "" "" "" true "", None);
  awg_status _ := Ok world_tunnel;
  awg_prepare _ w := (None, w); awg_connect w := (Ok world_tunnel, w); awg_disconnect w := (None, w);
  awg_remove w := (None, w); ensure_routes _ w := (None, w);
  prepare_isolated _ w := ((Err "no isolation", false), w); isolated_cleanup w := (None, w)
}.

#[export] Instance world_interface : InterfaceBackend MemoryWorld := {
  PrepareInterfaceOutbound device _ mark w := PrepareOutbound (world_node ("awg-" +:+ device)) mark w;
  backend_running _ := true;
  probe_interface _ w := (Observation.mk 40 "192.0.2.1" "NL" (world_verify w), w)
}.

(** The same controller, with an interface that cannot be taken down. *)
Definition stuck_controller : AWGController MemoryWorld := {|
  controller := true; isolates := false; has_policy_routes := true;
  awg_preflight := awg_preflight; awg_status := awg_status;
  awg_prepare := awg_prepare; awg_connect := awg_connect; awg_disconnect w := (Some "interface is busy", w);
  awg_remove := awg_remove; ensure_routes := ensure_routes;
  prepare_isolated := prepare_isolated; isolated_cleanup := isolated_cleanup
|}.

Ltac world_awg :=
  split; try (intros; reflexivity);
    [exact world_runtime_laws
    |intros w; unfold line; rewrite (read_keeps_file (AutoRuntimeLaws := world_auto_laws));
     by rewrite (select_pure (ManagedBackendLaws := router_backend (RouterLaws := world_laws)))
    |intros d a m w; unfold line; cbn [PrepareInterfaceOutbound world_interface];
     rewrite (prepare_keeps_file (AutoRuntimeLaws := world_auto_laws));
     by rewrite (prepare_keeps (ManagedBackendLaws := router_backend (RouterLaws := world_laws)))
    |done].

Lemma world_awg_laws : AWGLaws MemoryWorld.
Proof. world_awg. Qed.

Lemma stuck_awg_laws : AWGLaws MemoryWorld (H3 := stuck_controller).
Proof. world_awg. Qed.

Lemma world_profiles_laws : ProfileStoreLaws MemoryWorld.
Proof. split. intros m raw w l _ _ [= <-]. unfold listed. cbn. rewrite orb_false_r. intros Hd. do 2 f_equal. apply negb_false_iff, bool_decide_eq_true. set_unfold. apply orb_true_iff in Hd as [?%bool_decide_eq_true|?%bool_decide_eq_true]; [left|right; left]; done. Qed.

Abbreviation no_host := (fun _ : string => @None (string * string)).
Abbreviation some_error := (fun _ : ProfileError => "invalid profile").

Definition proxied_world : MemoryWorld := world_at OperationalModeVPN None None.

(** Profile [awg-1] is connected. *)
Definition on_awg_1 : MemoryWorld :=
  (connectAWGWithModeLocked no_host some_error "awg-1" SelectionModeManual "" proxied_world).2.
Lemma taken_down_is_direct_witness : off (disconnectAWGLocked on_awg_1).2 /\ off (remove_resolved "awg-1" on_awg_1).2.
Proof.
  assert (E1 : (disconnectAWGLocked on_awg_1).1 = Ok tt) by (vm_compute; reflexivity).
  assert (E2 : (remove_resolved "awg-1" on_awg_1).1 = Ok tt) by (vm_compute; reflexivity).
  destruct (load_state on_awg_1) as [st|e] eqn:E; [|vm_compute in E; discriminate E].
  assert (Hst : RuntimeState.ActiveConnectionKind st = amneziawg_kind /\ RuntimeState.ActiveAWGProfileID st = "awg-1")
    by (vm_compute in E; injection E as <-; split; reflexivity).
  destruct Hst as [Hk Hi].
  assert (R : remove_resolved (RuntimeState.ActiveAWGProfileID st) on_awg_1 = (Ok tt, (remove_resolved "awg-1" on_awg_1).2))
    by (rewrite Hi; exact (run_eq _ _ E2)).
  split.
  - exact (taken_down_is_direct (H5 := world_awg_laws) on_awg_1 st (disconnectAWGLocked on_awg_1).2 E Hk (or_introl (run_eq _ _ E1))).
  - exact (taken_down_is_direct (H5 := world_awg_laws) on_awg_1 st (remove_resolved "awg-1" on_awg_1).2 E Hk (or_intror R)).
Defined.

Lemma failed_disconnect_claims_tunnel_witness :
  let w' := (disconnectAWGLocked (H3 := stuck_controller) on_awg_1).2 in
  selected w' = Some managedDirectTag /\
  match load_state w' with Ok st => RuntimeState.Connected st | Err _ => false end = true.
Proof.
  destruct (load_state on_awg_1) as [st|e] eqn:E; [|vm_compute in E; discriminate E].
  assert (Hst : RuntimeState.ActiveConnectionKind st = amneziawg_kind /\ RuntimeState.Connected st = true)
    by (vm_compute in E; injection E as <-; split; reflexivity).
  destruct Hst as [Hk Hc].
  destruct (failed_disconnect_claims_tunnel (H3 := stuck_controller) (H5 := stuck_awg_laws) on_awg_1 st (SelectDirect on_awg_1).2
    "interface is busy" (SelectDirect on_awg_1).2 E Hk eq_refl (run_eq _ _ ltac:(vm_compute; reflexivity)) eq_refl) as (Hr & Hs & Hl).
  rewrite Hr. cbn [snd]. split; [exact Hs|]. by rewrite Hl.
Defined.

Lemma import_drops_v31_changes_witness :
  (ImportAWGProfile (fun _ => "1") some_error "home" changed_text proxied_world) =
    awgStatusLocked some_error "awg-1" proxied_world /\ Parse changed_text <> Parse stored_text.
Proof.
  split; [|intros E; vm_compute in E; discriminate E].
  destruct (Parse stored_text) as [stored|e] eqn:Es; [|vm_compute in Es; discriminate Es].
  destruct (Parse changed_text) as [changed|e] eqn:Ec; [|vm_compute in Ec; discriminate Ec].
  refine (import_drops_v31_changes (H3 := world_profiles_laws) (fun _ => "1") some_error "home" changed_text changed stored
    _ proxied_world eq_refl eq_refl Ec _ _ eq_refl _).
  - intros E. vm_compute in E. discriminate E.
  - split; [vm_compute; reflexivity|]. split; [intros E; vm_compute in E; discriminate E|vm_compute; reflexivity].
  - vm_compute in Es, Ec. injection Es as <-. injection Ec as <-. reflexivity.
Defined.
