(* ===== verification/AmneziaTunnel.v ===== *)
(** * Which tunnel carries the traffic

    The theorems of AmneziaServiceFacts about routes, completed with what can be
    seen of the permanent tunnel: a connection over a profile sends through the
    tunnel that was prepared with that profile, and a check does not touch
    the tunnel of a live connection. *)
From S2P Require Import Prelude GoRunes GoStrings GoNum NetIP Domain Firewall FirewallSettings.
From S2P Require Import Zapret Settings.
From S2P Require Import Connection Migrations PersistFacts Probe AutoState AutoSelect.

From S2P Require Import AutoSelectFacts Reserves.
From S2P Require Import GoConv AmneziaProfile AmneziaRuntime AmneziaFacts.
From S2P Require Import XrayConfig XrayFacts BackendRequest ManagedBackend Scheduler.
From S2P Require Import ManagedSwitch ManagedSwitchFacts MemoryWorld Effects NodeSelection.
From S2P Require Import NodeSelectionFacts ReserveRound ReserveRoundFacts AutoCommit.
From S2P Require Import Failover.

From S2P Require Import AtomicFiles AmneziaStore AmneziaService AmneziaServiceFacts.

Local Open Scope Z_scope.
Local Open Scope list_scope.

(** ** What can be seen of the tunnel *)

(** The profile that the permanent interface is configured with, the device on which
    it has come up, and the device that an outbound of Xray sends through. *)
Class Tunnel (W : Type) := {
  tunnel : W -> option Profile;
  tunnel_device : W -> option string;
  over : string -> W -> option string
}.

Section Views.
  Context `{Router W, ProfileStore W, Tunnel W}.

(** What only the controller's four operations on the interface may change. *)
Definition wire (w : W) : option Profile * option string := (tunnel w, tunnel_device w).

Definition bench (id : string) (w : W) : option Profile * option string * result ReadError string * result string RuntimeState :=
  (tunnel w, tunnel_device w, load_profile id w, load_state w).

(** The tunnel with the outbound [tag] over it. *)
Definition line_over (id tag : string) (w : W) : option Profile * option string * result ReadError string * option string :=
  (tunnel w, tunnel_device w, load_profile id w, over tag w).

(** The profile with the identifier, as the store has it. *)
Definition stored_profile (id : string) (w : W) : option Profile :=
  match load_profile id w with
  | Ok raw => match Parse raw with Ok p => Some p | Err _ => None end
  | Err _ => None
  end.

(** The outbound sends through the permanent tunnel, which was prepared with the
    stored profile. *)
Definition carries (id tag : string) (w : W) : Prop :=
  exists profile device, stored_profile id w = Some profile /\ tunnel w = Some profile /\
    tunnel_device w = Some device /\ over tag w = Some device.

End Views.

(** Preparing configures the interface, and bringing it up gives its device; an
    outbound over a device sends through it.  Nothing else changes the tunnel. *)
Class TunnelLaws (W : Type)
    `{ManagedBackend W, Router W, Runtime W, ProfileStore W, AWGController W, InterfaceBackend W, Tunnel W} : Prop := {
  tunnel_awg :: AWGLaws W;
  prepared_tunnel : forall p w w', awg_prepare p w = (None, w') -> tunnel w' = Some p;
  connected_device : forall i w w', awg_connect w = (Ok i, w') -> tunnel_device w' = Some (InterfaceStatus.Device i);
  status_device : forall i w, awg_status w = Ok i -> usable (Ok i) = true -> tunnel_device w = Some (InterfaceStatus.Device i);
  outbound_device : forall d a m t w w', PrepareInterfaceOutbound d a m w = (Ok t, w') -> over t w' = Some d;
  connect_tunnel : forall w, tunnel (awg_connect w).2 = tunnel w;
  disconnect_tunnel : forall w, tunnel (awg_disconnect w).2 = tunnel w;
  prepare_profiles : forall id p w, load_profile id (awg_prepare p w).2 = load_profile id w;
  connect_profiles : forall id w, load_profile id (awg_connect w).2 = load_profile id w;
  disconnect_profiles : forall id w, load_profile id (awg_disconnect w).2 = load_profile id w;
  remove_profiles : forall id w, load_profile id (awg_remove w).2 = load_profile id w;
  bench_read : forall id w, bench id (SelectedOutbound w).2 = bench id w;
  bench_clock : forall id w, bench id (clock w).2 = bench id w;
  bench_apply : forall id r w, bench id (apply_config r w).2 = bench id w;
  bench_running : forall id w, bench id (check_running w).2 = bench id w;
  bench_dns : forall id d w, bench id (dns_apply d w).2 = bench id w;
  bench_no_dns : forall id w, bench id (dns_disable w).2 = bench id w;
  bench_firewall : forall id f w, bench id (firewall_apply f w).2 = bench id w;
  bench_no_firewall : forall id w, bench id (firewall_disable w).2 = bench id w;
  bench_routes : forall id i w, bench id (ensure_routes i w).2 = bench id w;
  bench_isolated : forall id p w, bench id (prepare_isolated p w).2 = bench id w;
  bench_cleanup : forall id w, bench id (isolated_cleanup w).2 = bench id w;
  bench_interface : forall id d a m w, bench id (PrepareInterfaceOutbound d a m w).2 = bench id w;
  bench_probe : forall id t w, bench id (probe_interface t w).2 = bench id w;
  over_probe : forall tag t w, over tag (probe_interface t w).2 = over tag w;
  over_clock : forall tag w, over tag (clock w).2 = over tag w;
  line_select : forall id tag t w, line_over id tag (SelectOutbound t w).2 = line_over id tag w;
  line_save : forall id tag s w, line_over id tag (save_state s w).2 = line_over id tag w;
  line_egress : forall id tag w, line_over id tag (egress w).2 = line_over id tag w;
  line_settings : forall id tag s w, line_over id tag (store_settings s w).2 = line_over id tag w
}.

(** ** What the state file claims of the tunnel *)

Definition claim (st : RuntimeState) : string * string * bool * string :=
  (RuntimeState.PreparedAWGProfileID st, RuntimeState.ActiveConnectionKind st, RuntimeState.Connected st,
   RuntimeState.ActiveAWGProfileID st).

Lemma saved_claim s : claim (reload_state (settle_operational_mode s)) = claim s.
Proof. unfold settle_operational_mode. by destruct (bool_decide _). Qed.

(** The file says that the tunnel belongs to the profile. *)
Definition claimed (id : string) (st : RuntimeState) : Prop :=
  RuntimeState.PreparedAWGProfileID st = id \/ is_active st id = true.

Lemma claimed_same id st st' : claim st' = claim st -> claimed id st' -> claimed id st.
Proof. unfold claim, claimed, is_active. by intros [= -> -> -> ->]. Qed.

Section Tunnels.
  Context `{TunnelLaws W}.
  Context (url_host : string -> option (string * string)) (digest : StablePayload -> string) (profile_error_text : ProfileError -> string).

(** What the file says of the tunnel is true. *)
Definition tunnel_known (id : string) (w : W) : Prop :=
  forall st, load_state w = Ok st -> claimed id st -> exists p, stored_profile id w = Some p /\ tunnel w = Some p.

Definition claims (w : W) : option (string * string * bool * string) :=
  match load_state w with Ok st => Some (claim st) | Err _ => None end.

(** The part of the world that [tunnel_known] is about. *)
Definition known_part (id : string) (w : W) : option Profile * result ReadError string * option (string * string * bool * string) :=
  (tunnel w, load_profile id w, claims w).

Lemma known_same id w w' : known_part id w' = known_part id w -> tunnel_known id w -> tunnel_known id w'.
Proof.
  unfold known_part, claims, tunnel_known, stored_profile. intros [= -> -> E] Hk st' Hl' Hc. rewrite Hl' in E.
  destruct (load_state w) as [st|]; [|done]. injection E as E1 E2 E3 E4. apply (Hk st eq_refl), (claimed_same id st st'); [|done].
  unfold claim. congruence.
Qed.

Lemma bench_parts id w w' : bench id w' = bench id w ->
  wire w' = wire w /\ known_part id w' = known_part id w /\ load_state w' = load_state w.
Proof. unfold bench, wire, known_part, claims. by intros [= -> -> -> ->]. Qed.

Lemma line_parts id tag w w' : line_over id tag w' = line_over id tag w ->
  wire w' = wire w /\ load_profile id w' = load_profile id w /\ over tag w' = over tag w.
Proof. unfold line_over, wire. by intros [= -> -> -> ->]. Qed.

Lemma line_carries id tag w w' : line_over id tag w' = line_over id tag w -> carries id tag w -> carries id tag w'.
Proof. unfold line_over, carries, stored_profile. by intros [= -> -> -> ->]. Qed.

(** ** The steps that leave the tunnel alone *)

Lemma bench_select id t w : bench id (SelectOutbound t w).2 = bench id w.
Proof.
  pose proof (line_select id "" t w) as E. unfold line_over in E. injection E as E1 E2 E3 _. unfold bench.
  by rewrite E1, E2, E3, select_keeps_file.
Qed.

Lemma bench_time id : untouched (bench id) (currentTime (W := W)).
Proof. intros w. unfold currentTime. pose proof (bench_clock id w). by destruct (clock w). Qed.

Lemma bench_reading {A} id wrap_ (r : result string A) : untouched (bench id) (of_reading (W := W) wrap_ r).
Proof. unfold of_reading. apply untouched_of_result. Qed.

Lemma bench_load_settings id context : untouched (bench id) (load_settings_as (W := W) context).
Proof. intros w. unfold load_settings_as. by destruct (load_settings w). Qed.

Hint Resolve bench_read bench_apply bench_running bench_dns bench_no_dns bench_firewall bench_no_firewall bench_routes bench_isolated
  bench_cleanup bench_interface bench_probe bench_select bench_time bench_reading bench_load_settings : untouched.

Lemma bench_runtime id : untouched (bench id) (ensureAWGManagedRuntime (W := W) url_host).
Proof.
  unfold ensureAWGManagedRuntime, ensureAWGManagedRuntimeWithReload, runtime_ready, install_runtime, SelectDirect. cbn [negb].
  untouched_steps; apply untouched_outcome; intros w; case_match; apply bench_select.
Qed.

Hint Resolve bench_runtime : untouched.

(** ** Measuring *)

(** Views of the tunnel that saving keeps, too. *)
Lemma wire_bench {E A} (p : Prog W E A) : (forall id, untouched (bench id) p) -> untouched wire p.
Proof. intros Hp w. by destruct (bench_parts "" _ _ (Hp "" w)) as (? & _). Qed.

Lemma wire_save s w : wire (save_state s w).2 = wire w.
Proof. by destruct (line_parts "" "" _ _ (line_save "" "" s w)) as (? & _). Qed.

Lemma wire_measure id mark iface : untouched wire (measure_interface (W := W) url_host id mark iface).
Proof.
  unfold measure_interface. apply untouched_bind; [apply wire_bench; intros; apply bench_runtime|intros _].
  apply untouched_bind; [apply wire_bench; intros; apply untouched_outcome, bench_interface|intros t].
  apply untouched_bind; [apply wire_bench; intros; destruct t; [apply untouched_outcome, bench_probe|apply untouched_ret]|intros o].
  apply untouched_bind; [apply wire_bench; intros; apply bench_time|intros now].
  apply untouched_bind; [apply untouched_reads|intros st]. apply untouched_bind; [apply untouched_reads|intros threshold].
  apply untouched_bind.
  - destruct st; [|apply untouched_ret]. apply untouched_attempt, untouched_act, wire_save.
  - intros saved. untouched_steps.
Qed.

Lemma wire_isolated id profile : untouched wire (isolated_probe (W := W) url_host id profile).
Proof.
  unfold isolated_probe. apply untouched_bind; [apply wire_bench; intros; apply untouched_outcome, bench_isolated|intros [started cleanup]].
  apply untouched_bind; [apply untouched_attempt, untouched_bind; [apply untouched_of_result|intros; apply wire_measure]|intros r].
  apply untouched_bind; [apply untouched_when, untouched_ignore, wire_bench; intros; apply untouched_act, bench_cleanup|].
  intros _. apply untouched_of_result.
Qed.

(** After a measurement that succeeded, the outbound sends through the interface,
    and what the file says of the tunnel is what it said before. *)
Lemma measured id mark iface w tag i w' k :
  measure_interface url_host id mark iface w = (Ok (tag, i), w') ->
  over tag w' = Some (InterfaceStatus.Device iface) /\ wire w' = wire w /\ known_part k w' = known_part k w.
Proof.
  unfold measure_interface. intros (u & w1 & Ew1 & Hk)%bind_ok.
  apply (untouched_eq _ _ _ _ _ (bench_runtime k)), bench_parts in Ew1 as (W1 & K1 & _).
  apply bind_ok in Hk as (t & w2 & Ew2%outcome_ok & Hk). pose proof (bench_interface k (InterfaceStatus.Device iface) (InterfaceStatus.Address iface) mark w1) as B2.
  rewrite Ew2 in B2. cbn [snd] in B2. apply bench_parts in B2 as (W2 & K2 & _). apply bind_ok in Hk as (o & w3 & Eo & Hk).
  assert (B3 : bench k w3 = bench k w2 /\ forall tag, over tag w3 = over tag w2).
  { destruct t as [t|e]; [|by injection Eo as _ <-]. apply outcome_ok in Eo. pose proof (bench_probe k t w2). pose proof (fun tag => over_probe tag t w2) as Ho.
    rewrite Eo in *. by split. }
  destruct B3 as [(W3 & K3 & _)%bench_parts O3]. apply bind_ok in Hk as (now & w4 & Et & Hk).
  assert (O4 : forall tag, over tag w4 = over tag w3).
  { intros tg. unfold currentTime in Et. pose proof (over_clock tg w3) as Ho. destruct (clock w3) as [t' v]. by injection Et as _ <-. }
  apply (untouched_eq _ _ _ _ _ (bench_time k)), bench_parts in Et as (W4 & K4 & _).
  apply bind_ok in Hk as (st & w5 & [-> ->]%reads_ok & Hk). apply bind_ok in Hk as (threshold & w6 & [_ ->]%reads_ok & Hk).
  apply bind_ok in Hk as (saved & w7 & Es & Hk). destruct (Observation.error o); [by apply raise_ok in Hk|].
  destruct saved as [u7|]; [|by apply raise_ok in Hk]. destruct t as [t|]; [|by apply raise_ok in Hk]. injection Hk as -> _ ->.
  assert (S : wire w' = wire w4 /\ known_part k w' = known_part k w4 /\ over tag w' = over tag w4).
  { destruct (load_state w4) as [st|] eqn:El; [|by injection Es as _ <-]. apply attempt_ok, act_ok in Es. pose proof (saved_is_loaded _ _ _ Es) as Hl.
    set (s := probed_state _ _ _ _ _) in *. pose proof (line_save k tag s w4) as L. rewrite Es in L. cbn [snd] in L. apply line_parts in L as (Lw & Lp & Lo).
    split_and!; [done| |done]. unfold known_part, claims. rewrite Lp, El, Hl, saved_claim. unfold wire in Lw. by injection Lw as -> _. }
  destruct S as (S1 & S2 & S3). split_and!; [|congruence|congruence]. rewrite S3, O4, O3. by eapply outbound_device.
Qed.

(** ** Loading a profile *)

Lemma loaded_profile id w p w' : loadAWGProfile (W := W) profile_error_text id w = (Ok p, w') -> w' = w /\ stored_profile id w = Some p.
Proof.
  unfold loadAWGProfile. intros (raw & w1 & [-> ->]%reads_ok & Hk)%bind_ok. apply bind_ok in Hk as (raw' & w2 & Er & Hk).
  unfold of_result in Er. destruct (load_profile id w) as [raw0|] eqn:El; [|done]. injection Er as -> ->. unfold parse_profile, of_result in Hk.
  unfold stored_profile. rewrite El. destruct (Parse raw'); [|done]. by injection Hk as -> ->.
Qed.

Lemma load_same id w : (loadAWGProfile (W := W) profile_error_text id w).2 = w.
Proof.
  unfold loadAWGProfile, mbind, prog_bind, reads, of_result, parse_profile, of_result. destruct (load_profile id w) as [raw|]; [|done]. by destruct (Parse raw).
Qed.

(** ** The permanent tunnel *)

Lemma stored_same id w w' : load_profile id w' = load_profile id w -> stored_profile id w' = stored_profile id w.
Proof. unfold stored_profile. by intros ->. Qed.

Lemma permanent_prepared id profile st w w' :
  load_state w = Ok st -> tunnel_known id w -> stored_profile id w = Some profile ->
  prepare_permanent id profile st w = (Ok tt, w') -> tunnel w' = Some profile /\ load_profile id w' = load_profile id w.
Proof.
  intros Hl Hk Hp. unfold prepare_permanent. intros (prepared & w1 & [-> ->]%reads_ok & E)%bind_ok.
  assert (Hown : claimed id st -> tunnel w = Some profile) by (intros Hc; destruct (Hk st Hl Hc) as (p & Hs & Ht); congruence).
  destruct (is_active st id && negb (usable (awg_status w))) eqn:Eg; [by apply raise_ok in E|].
  apply bind_ok in E as (u & w1 & Er & E).
  assert (Hr : load_profile id w1 = load_profile id w).
  { destruct (_ && _) in Er; [|by injection Er as _ <-]. apply act_ok in Er. pose proof (remove_profiles id w) as R. by rewrite Er in R. }
  destruct (_ || _) eqn:Ep in E.
  - cbn [when] in E. apply bind_ok in E as (u2 & w2 & Ea%act_ok & Es%act_ok). pose proof (prepare_profiles id profile w1) as P. rewrite Ea in P. cbn [snd] in P.
    match type of Es with save_state ?s _ = _ => pose proof (line_save id "" s w2) as L end. rewrite Es in L. cbn [snd] in L.
    apply line_parts in L as (Lw & Lp & _). unfold wire in Lw. injection Lw as Lw _. apply prepared_tunnel in Ea. split; congruence.
  - cbn [when] in E. injection E as <-. apply orb_false_iff in Ep as [Ep _]. rewrite Ep in Er. cbn [when] in Er. injection Er as _ <-. split; [|done].
    apply Hown. apply andb_false_iff in Ep as [Ep|Ep]; [left|right]; [by apply negb_false_iff, bool_decide_eq_true in Ep|by apply negb_false_iff in Ep].
Qed.

Lemma permanent_up id w i w' : permanent_interface w = (Ok i, w') ->
  tunnel w' = tunnel w /\ load_profile id w' = load_profile id w /\ tunnel_device w' = Some (InterfaceStatus.Device i).
Proof.
  unfold permanent_interface. intros (current & w1 & [-> ->]%reads_ok & E)%bind_ok. apply bind_ok in E as (r & w1 & Er & E).
  apply bind_ok in E as (j & w2 & Ei & E). unfold of_reading, of_result in Ei. destruct r as [j'|]; [|done]. injection Ei as -> ->.
  apply bind_ok in E as (u & w3 & Ero & E). injection E as -> ->.
  assert (H3' : bench id w' = bench id w2).
  { destruct has_policy_routes; [|by injection Ero as _ <-]. cbn [when] in Ero. apply act_ok in Ero. pose proof (bench_routes id i w2) as B. by rewrite Ero in B. }
  unfold bench in H3'. injection H3' as -> -> -> _. destruct (usable (awg_status w)) eqn:Eu.
  - injection Er as Er <-. rewrite Er in Eu. split_and!; [done|done|by apply status_device].
  - apply outcome_ok in Er. pose proof (connect_tunnel w) as T. pose proof (connect_profiles id w) as P. rewrite Er in T, P.
    split_and!; [done|done|by eapply connected_device].
Qed.

(** What was verified for a connection is an outbound over the tunnel of the profile. *)
Lemma verified_carries id w tag i w' :
  tunnel_known id w -> verifyAWGLocked url_host profile_error_text id true false w = (Ok (tag, i), w') -> carries id tag w'.
Proof.
  intros Hk. unfold verifyAWGLocked. intros (profile & w1 & [-> Hp]%loaded_profile & E)%bind_ok. destruct (negb controller); [by apply raise_ok in E|].
  apply bind_ok in E as (st & w1 & Hst & E). unfold load_state_as in Hst. destruct (load_state w) as [st'|] eqn:Hl; [|done]. injection Hst as -> <-.
  destruct (_ && _) in E; [by apply raise_ok in E|]. rewrite andb_false_r in E. cbn [andb] in E.
  apply bind_ok in E as (u & w2 & Eper & E). cbn [when] in Eper. destruct u. apply (permanent_prepared _ _ _ _ _ Hl Hk Hp) in Eper as [T2 P2].
  apply bind_ok in E as (iface & w3 & (T3 & P3 & D3)%(permanent_up id) & E). apply (measured _ _ _ _ _ _ _ id) in E as (O4 & W4 & K4).
  unfold wire in W4. unfold known_part in K4. injection W4 as T4 D4. injection K4 as _ P4 _. exists profile, (InterfaceStatus.Device iface).
  split_and!; [|congruence|congruence|exact O4]. rewrite <- Hp. apply stored_same. congruence.
Qed.

(** A tunnel that is used again belongs to the profile as well. *)
Lemma reused id w tag w' :
  tunnel_known id w -> reuse_prepared url_host id (load_state w) w = (Ok tag, w') ->
  if bool_decide (tag = "") then tunnel_known id w' else carries id tag w'.
Proof.
  intros Hk. assert (Hnone : forall v, known_part id v = known_part id w -> (mret "" : Prog W Fault string) v = (Ok tag, w') ->
    if bool_decide (tag = "") then tunnel_known id w' else carries id tag w').
  { intros v Hv E. injection E as <- <-. rewrite bool_decide_eq_true_2 by done. by eapply known_same. }
  unfold reuse_prepared. destruct (load_state w) as [st|] eqn:Hl; [|by apply Hnone].
  destruct (RuntimeState.AWGProfileProbes st !! id); [|by apply Hnone].
  destruct (bool_decide_reflect (RuntimeState.PreparedAWGProfileID st = id)) as [Hid|]; cbn [negb]; [|by apply Hnone].
  intros (now & w1 & Et & E)%bind_ok. apply (untouched_eq _ _ _ _ _ (bench_time id)) in Et. pose proof (bench_parts _ _ _ Et) as (_ & K1 & _).
  destruct (_ || _); [by apply (Hnone w1)|]. apply bind_ok in E as (current & w1' & [-> ->]%reads_ok & E).
  destruct (awg_status w1) as [iface|] eqn:Es; [|by apply (Hnone w1)]. destruct (usable (Ok iface)) eqn:Eu; cbn [negb] in E; [|by apply (Hnone w1)].
  pose proof (status_device _ _ Es Eu) as Hd. apply bind_ok in E as (u & w2 & Ero & E).
  assert (B2 : bench id w2 = bench id w1).
  { destruct has_policy_routes; [|by injection Ero as _ <-]. cbn [when] in Ero. apply act_ok in Ero. pose proof (bench_routes id iface w1) as B. by rewrite Ero in B. }
  apply bind_ok in E as (ready & w3 & Er%attempt_ok & E). apply (untouched_eq _ _ _ _ _ (bench_runtime id)) in Er.
  pose proof (eq_trans Er B2) as B3. destruct ready as [u3|e]; [|apply (Hnone w3); [|exact E]; pose proof (bench_parts _ _ _ B3) as (_ & K3 & _); congruence].
  apply bind_ok in E as (t & w4 & Ep%outcome_ok & E).
  pose proof (bench_interface id (InterfaceStatus.Device iface) (InterfaceStatus.Address iface) RouteMark w3) as B4. rewrite Ep in B4. cbn [snd] in B4.
  pose proof (eq_trans B4 B3) as B. destruct t as [t|e]; [|apply (Hnone w4); [|exact E]; pose proof (bench_parts _ _ _ B) as (_ & K4 & _); congruence].
  injection E as <- <-. destruct (bool_decide_reflect (t = "")).
  { eapply known_same; [|exact Hk]. pose proof (bench_parts _ _ _ B) as (_ & K4 & _). congruence. }
  destruct (Hk st Hl (or_introl Hid)) as (p & Hs & Ht). pose proof (eq_trans B Et) as Ball. unfold bench in B, Ball. injection Ball as T _ P _. injection B as _ D _ _.
  exists p, (InterfaceStatus.Device iface). split_and!; [rewrite <- Hs; by apply stored_same|congruence|congruence|by eapply outbound_device].
Qed.

(** ** Switching over *)

Lemma line_time id tag : untouched (line_over id tag) (currentTime (W := W)).
Proof.
  intros w. unfold currentTime. pose proof (bench_clock id w) as B. pose proof (over_clock tag w) as O. destruct (clock w) as [t v].
  unfold bench in B. unfold line_over. cbn [snd] in *. injection B as -> -> -> _. by rewrite O.
Qed.

Hint Resolve line_select line_save line_egress line_settings line_time : untouched.

Lemma line_switch id t mode scope tag : untouched (line_over id tag) (switch_to_profile (W := W) t tag mode scope).
Proof.
  unfold switch_to_profile, take_back, save_as, load_state_as. untouched_steps.
  intros w. by destruct (load_state w).
Qed.

(** The route in use and the state file agree on a connection over the profile, and
    what the route sends goes through the tunnel that was prepared with it. *)
Definition over_profile (id : string) (c : bool * string * string * string * string) (w : W) : Prop :=
  on_profile id c w /\ exists tag, selected w = Some tag /\ carries id tag w.

Lemma connected_over id mode scope w w' : tunnel_known id w ->
  connect_from url_host profile_error_text (load_state w) id mode scope w = (Ok tt, w') ->
  over_profile id (true, TransportModeProxy, awgSubscriptionID, id, mode) w'.
Proof.
  intros Hk. unfold connect_from. intros (t & w1 & Er & E)%bind_ok. apply (reused _ _ _ _ Hk) in Er.
  apply bind_ok in E as (tag & w2 & Ev & E). assert (Hc : carries id tag w2).
  { destruct (bool_decide_reflect (t = "")); [|by injection Ev as <- <-].
    apply bind_ok in Ev as ([tag' i] & w3 & Ev%map_error_ok & Eret). injection Eret as <- <-. by eapply verified_carries. }
  pose proof (untouched_eq _ _ _ _ _ (line_switch id id mode scope tag) E) as L. apply switched_profile in E as [Hon Hs].
  split; [done|]. exists tag. split; [done|]. by eapply line_carries.
Qed.

Lemma restored_over original w w' : RuntimeState.ActiveConnectionKind original = amneziawg_kind ->
  restoreAWGConnectionLocked url_host profile_error_text original w = (Ok tt, w') ->
  over_profile (RuntimeState.ActiveAWGProfileID original) (same_connection original) w'.
Proof.
  intros Hkind E. split; [by eapply restored_profile|]. revert E. set (id := RuntimeState.ActiveAWGProfileID original).
  unfold restoreAWGConnectionLocked. intros (p & w1 & [-> Hp]%loaded_profile & E)%bind_ok.
  apply bind_ok in E as (u1 & w1 & Er%act_ok & E). pose proof (remove_profiles id w) as P1. rewrite Er in P1. cbn [snd] in P1.
  apply bind_ok in E as (u2 & w2 & Ea%act_ok & E). pose proof (prepare_profiles id p w1) as P2. rewrite Ea in P2. cbn [snd] in P2. apply prepared_tunnel in Ea.
  apply bind_ok in E as (r & w3 & Ec%outcome_ok & E). pose proof (connect_tunnel w2) as T3. pose proof (connect_profiles id w2) as P3. rewrite Ec in T3, P3. cbn [snd] in T3, P3.
  apply bind_ok in E as (iface & w3' & Ei & E). unfold of_reading, of_result in Ei. destruct r as [i|]; [|done]. injection Ei as -> <-. apply connected_device in Ec.
  apply bind_ok in E as (u3 & w4 & B4%(untouched_eq _ _ _ _ _ (bench_runtime id)) & E).
  apply bind_ok in E as (t & w5 & Ep%outcome_ok & E). pose proof (bench_interface id (InterfaceStatus.Device iface) (InterfaceStatus.Address iface) RouteMark w4) as B5.
  rewrite Ep in B5. cbn [snd] in B5. apply bind_ok in E as (tag & w5' & Et & E). unfold of_reading, of_result in Et. destruct t as [t|]; [|done]. injection Et as -> <-.
  apply outbound_device in Ep. assert (Hc : carries id tag w5).
  { pose proof (eq_trans B5 B4) as B. unfold bench in B. injection B as BT BD BP _. exists p, (InterfaceStatus.Device iface).
    split_and!; [|congruence|congruence|done]. fold id in Hp. rewrite <- Hp. apply stored_same. congruence. }
  apply bind_ok in E as (u4 & w6 & Hs%act_ok & E). pose proof (line_select id tag tag w5) as L6. rewrite Hs in L6. cbn [snd] in L6. apply select_ok in Hs.
  apply bind_ok in E as (settings & w6' & [-> ->]%reads_ok & E). apply bind_ok in E as (s & w6' & Hset & E).
  assert (w6' = w6) as -> by (unfold of_reading, of_result in Hset; by injection Hset).
  apply bind_ok in E as (reached & w7 & He%outcome_ok & E). pose proof (line_egress id tag w6) as L7. rewrite He in L7. cbn [snd] in L7. apply reached_egress in He.
  apply bind_ok in E as (u5 & w7' & Hr & E). assert (w7' = w7) as -> by (destruct reached; [done|]; by injection Hr).
  apply bind_ok in E as (u6 & w8 & Hsave%act_ok & Hst%act_ok).
  match type of Hsave with save_state ?x _ = _ => pose proof (line_save id tag x w7) as L8; pose proof (save_keeps_route x w7) as R8 end. rewrite Hsave in L8, R8. cbn [snd] in L8, R8.
  match type of Hst with store_settings ?x _ = _ => pose proof (line_settings id tag x w8) as L9; pose proof (awg_settings_quiet x w8) as R9 end.
  rewrite Hst in L9, R9. cbn [snd] in L9, R9. unfold line in R9. injection R9 as R9 _ _. exists tag. split; [congruence|].
  apply (line_carries _ _ w5); [congruence|done].
Qed.

(** ** Changing profiles *)

(** Another profile's connection is not the profile's own. *)
Lemma other_not_active st id : other_active st id = true -> is_active st id = false.
Proof. unfold other_active, is_active. intros [_ Hn%negb_true_iff]%andb_true_iff. by rewrite Hn, andb_false_r. Qed.

Lemma isolated_known id profile w r w' : isolated_probe url_host id profile w = (Ok r, w') -> known_part id w' = known_part id w.
Proof.
  unfold isolated_probe. intros ([started cleanup] & w1 & E1%outcome_ok & E)%bind_ok. pose proof (bench_isolated id profile w) as B1. rewrite E1 in B1. cbn [snd] in B1.
  apply bench_parts in B1 as (_ & K1 & _). apply bind_ok in E as (m & w2 & Em%attempt_ok & E). apply bind_ok in E as (u & w3 & Ec & E).
  assert (m = Ok r /\ w3 = w') as [-> ->] by (unfold of_result in E; destruct m; [by injection E as -> ->|done]).
  apply bind_ok in Em as (iface & w1' & Ei & Em). assert (w1' = w1) as -> by (unfold of_reading, of_result in Ei; destruct started; [by injection Ei|done]).
  destruct r as [tag i]. apply (measured _ _ _ _ _ _ _ id) in Em as (_ & _ & K2).
  assert (B3 : bench id w' = bench id w2).
  { refine (untouched_eq _ _ _ _ _ _ Ec). apply untouched_when, untouched_ignore, untouched_act, bench_cleanup. }
  apply bench_parts in B3 as (_ & K3 & _). congruence.
Qed.

(** With another profile connected, a check goes over a tunnel of its own. *)
Lemma check_aside id w st r w' : load_state w = Ok st -> other_active st id = true -> isolates = true ->
  checkAWGLocked url_host profile_error_text id true w = (r, w') ->
  wire w' = wire w /\ (is_ok r = true -> known_part id w' = known_part id w).
Proof.
  intros Hl Ho Hi. unfold checkAWGLocked, verifyAWGLocked, mbind at 1, prog_bind at 1.
  destruct (loadAWGProfile profile_error_text id w) as [[profile|e] v] eqn:El; pose proof (f_equal snd El) as Ev; rewrite load_same in Ev; cbn [snd] in Ev; subst v;
    [|by intros [= <- <-]].
  destruct (negb controller); [by intros [= <- <-]|]. unfold mbind at 1, prog_bind at 1, load_state_as. rewrite Hl, Ho, Hi, (other_not_active _ _ Ho). cbn [andb negb].
  intros E. split; [exact (untouched_eq _ _ _ _ _ (wire_isolated id profile) E)|]. destruct r; [|done]. intros _. by eapply isolated_known.
Qed.

Lemma disconnected_known id st w w' : load_state w = Ok st -> RuntimeState.ActiveConnectionKind st = amneziawg_kind ->
  tunnel_known id w -> disconnectAWGLocked w = (Ok tt, w') -> tunnel_known id w'.
Proof.
  intros Hl Hkind Hk. unfold disconnectAWGLocked. intros (st' & w1 & [-> ->]%(read_state _ _ _ _ Hl) & E)%bind_ok. rewrite Hkind in E. cbn [negb] in E.
  rewrite bool_decide_eq_true_2 in E by done. cbn [when] in E.
  apply bind_ok in E as (u & w1 & Es%act_ok & E). unfold SelectDirect in Es. pose proof (bench_select id managedDirectTag w) as B1. rewrite Es in B1. cbn [snd] in B1.
  unfold bench in B1. injection B1 as T1 _ P1 _. apply bind_ok in E as (u2 & w2 & Ed & E).
  assert (D : tunnel w2 = tunnel w1 /\ load_profile id w2 = load_profile id w1).
  { destruct controller; [|by injection Ed as _ <-]. cbn [when] in Ed. apply act_ok in Ed. pose proof (disconnect_tunnel w1). pose proof (disconnect_profiles id w1). by rewrite Ed in *. }
  destruct D as [T2 P2]. cbn [negb] in E. apply bind_ok in E as (now & w3 & Et & E). apply (untouched_eq _ _ _ _ _ (bench_time id)) in Et.
  unfold bench in Et. injection Et as T3 _ P3 _. apply bind_ok in E as (u3 & w4 & Esave%act_ok & E).
  match type of Esave with save_state ?x _ = _ => set (next := x) in * end.
  pose proof (line_save id "" next w3) as L4. rewrite Esave in L4. cbn [snd] in L4. unfold line_over in L4. injection L4 as T4 _ P4 _.
  apply saved_is_loaded in Esave. apply bind_ok in E as (settings & w4' & Eset & E).
  assert (w4' = w4) as -> by (unfold load_settings_as in Eset; destruct (load_settings w4); [by injection Eset|done]).
  apply act_ok in E. match type of E with store_settings ?x _ = _ => pose proof (line_settings id "" x w4) as L5; pose proof (awg_settings_quiet x w4) as R5 end.
  rewrite E in L5, R5. cbn [snd] in L5, R5. unfold line_over in L5. injection L5 as T5 _ P5 _. unfold line in R5. injection R5 as _ _ R5.
  intros s Hs Hc. rewrite R5, Esave in Hs. injection Hs as <-. assert (Hst : claimed id st).
  { left. apply (claimed_same id next _ (saved_claim next)) in Hc. destruct Hc as [Hc|Hc]; [exact Hc|discriminate Hc]. }
  destruct (Hk st Hl Hst) as (p & Hp & Ht). exists p. split; [|congruence]. rewrite <- Hp. apply stored_same. congruence.
Qed.

(** C26: connecting over a profile does it, or gives the old profile back.  In a
    world where the tunnel is the one that the state file says was prepared, if the
    file names the profile at all: when connecting succeeds, the route in use is the
    one that the file records, for the profile and the mode that were asked for,
    and it sends through the permanent tunnel, prepared with the stored profile.  When
    it fails while another profile carried the connection, only the check of the
    candidate was done, which did not touch the tunnel; or the old connection is
    back, on the route, in the file and on a tunnel prepared with the old profile; or
    the error says that it could not be restored. *)
Theorem connect_or_restore id mode scope w r w' st :
  load_state w = Ok st -> tunnel_known id w ->
  connectAWGWithModeLocked url_host profile_error_text id mode scope w = (r, w') ->
  match r with
  | Ok _ => over_profile id (true, TransportModeProxy, awgSubscriptionID, id, mode) w'
  | Err e =>
    other_active st id = true ->
    (isolates = true /\ wire w' = wire w /\ exists e0, checkAWGLocked url_host profile_error_text id true w = (Err e0, w')) \/
    over_profile (RuntimeState.ActiveAWGProfileID st) (same_connection st) w' \/
    exists e0 f v, restoreAWGConnectionLocked url_host profile_error_text st v = (Err f, w') /\
      e = join_faults e0 (wrap_fault "restore previous AmneziaWG connection" f)
  end.
Proof.
  intros Hl Hk. unfold connectAWGWithModeLocked, mbind at 1, prog_bind at 1, of_reading at 1, of_result at 1. rewrite Hl.
  destruct (other_active st id) eqn:Eo.
  2: { intros E. destruct r as [[]|e]; [|done]. rewrite <- Hl in E. by eapply connected_over. }
  pose proof (other_active_kind _ _ Eo) as Hkind. unfold mbind at 1, prog_bind at 1.
  destruct (when isolates _ w) as [[u|e] w1] eqn:Ew.
  - assert (K1 : known_part id w1 = known_part id w /\ exists st1, load_state w1 = Ok st1 /\ RuntimeState.ActiveConnectionKind st1 = amneziawg_kind).
    { destruct isolates eqn:Ei; cbn [when] in Ew; [|injection Ew as _ <-; by eauto].
      apply bind_ok in Ew as (x & w2 & Ec%map_error_ok & Eret). injection Eret as _ <-. destruct (check_aside _ _ _ _ _ Hl Eo Ei Ec) as [_ K].
      specialize (K eq_refl). split; [done|]. unfold known_part, claims in K. rewrite Hl in K. injection K as _ _ K. destruct (load_state w2) as [st1|]; [|done].
      exists st1. split; [done|]. unfold claim in K. by injection K as _ -> _ _. }
    destruct K1 as (K1 & st1 & Hl1 & Hkind1). unfold or_restore, mbind at 1, prog_bind at 1, attempt at 1.
    match goal with |- context [let '(_, _) := ?p w1 in _] => destruct (p w1) as [[[]|e] w2] eqn:Ep end.
    + intros [= <- <-]. apply bind_ok in Ep as ([] & w3 & Ed%map_error_ok & Ep). apply bind_ok in Ep as (before & w4 & [-> ->]%reads_ok & Ep).
      apply (connected_over _ _ _ _ _ (disconnected_known _ _ _ _ Hl1 Hkind1 (known_same _ _ _ K1 Hk) Ed) Ep).
    + unfold mbind, prog_bind, attempt. destruct (restoreAWGConnectionLocked _ _ st w2) as [[[]|f] w3] eqn:Er; intros [= <- <-] _; right;
        [left; by eapply restored_over|right; by exists e, f, w2].
  - intros [= <- <-] _. left. destruct isolates eqn:Ei; [|done]. cbn [when] in Ew. unfold mbind, prog_bind, map_error in Ew.
    destruct (checkAWGLocked _ _ id true w) as [[a|e0] w2] eqn:Ec; [done|]. injection Ew as _ <-. split; [done|].
    split; [by apply (check_aside _ _ _ _ _ Hl Eo Ei Ec)|]. by exists e0.
Qed.

(** ** Checking while a profile carries the connection *)

(** The tunnel of an active profile is not replaced during a check. *)
Lemma active_kept id profile st w : is_active st id = true ->
  (prepare_permanent id profile st w).2 = w /\
  (is_ok (prepare_permanent id profile st w).1 = true -> usable (awg_status w) = true).
Proof.
  intros Ha. unfold prepare_permanent, mbind, prog_bind, reads. rewrite Ha.
  destruct (usable (awg_status w)) eqn:Eu; cbn [andb negb]; [|done]. by rewrite andb_false_r.
Qed.

Lemma usable_wire w : usable (awg_status w) = true -> wire (permanent_interface (W := W) w).2 = wire w.
Proof.
  intros Hu. unfold permanent_interface, mbind at 1, prog_bind at 1, reads. rewrite Hu. unfold mbind at 1, prog_bind at 1, mret at 1, prog_ret at 1.
  revert w Hu. enough (Hk : forall r, untouched wire (iface ← of_reading fault r; _ ← when has_policy_routes (act fault (ensure_routes iface)); mret iface : Prog W Fault InterfaceStatus))
    by (intros w _; apply Hk).
  intros r. apply wire_bench. intros k. apply untouched_bind; [apply untouched_of_result|intros i]. apply untouched_bind; [|intros; apply untouched_ret].
  apply untouched_when, untouched_act, bench_routes.
Qed.

(** A check of the active profile reads the tunnel or refuses; one of another profile
    goes over a tunnel of its own or is refused. *)
Lemma active_check_wire id w st : load_state w = Ok st -> other_active st id || is_active st id = true ->
  wire (checkAWGLocked url_host profile_error_text id true w).2 = wire w.
Proof.
  intros Hl Ho. unfold checkAWGLocked, verifyAWGLocked, mbind at 1, prog_bind at 1.
  destruct (loadAWGProfile profile_error_text id w) as [[profile|e] v] eqn:El; pose proof (f_equal snd El) as Ev; rewrite load_same in Ev; cbn [snd] in Ev; subst v; [|done].
  destruct (negb controller); [done|]. unfold mbind at 1, prog_bind at 1, load_state_as. rewrite Hl.
  destruct (other_active st id) eqn:Eo.
  - rewrite (other_not_active _ _ Eo). cbn [andb negb]. destruct isolates; cbn [negb]; [apply wire_isolated|done].
  - cbn [orb] in Ho. rewrite Ho. cbn [andb negb when]. destruct (active_kept id profile st w Ho) as [Hsame Hu].
    unfold mbind at 1, prog_bind at 1. destruct (prepare_permanent id profile st w) as [[[]|e] w1]; cbn [fst snd is_ok] in *; subst w1; [|done].
    pose proof (usable_wire w (Hu eq_refl)) as Hw. unfold mbind at 1, prog_bind at 1.
    destruct (permanent_interface w) as [[iface|e] w1]; cbn [snd] in Hw; [|done]. by rewrite wire_measure.
Qed.

(** C27: a check never disturbs a live connection.  With no profile left in the
    layout of older versions, whatever profile is checked, over a
    tunnel of its own or the permanent one, and whether or not the check succeeds,
    Xray keeps running on the route it had, and the state file keeps the connection
    it recorded.  When that connection goes over a profile, the permanent tunnel is
    also left as it was, with its profile and its device. *)
Theorem check_keeps_connection id w r w' t st :
  load_legacy w = Err NotExist -> selected w = Some t -> backend_running w = true -> load_state w = Ok st ->
  NormalizeTransportMode (RuntimeState.ActiveTransport st) = RuntimeState.ActiveTransport st ->
  CheckAWGProfile url_host digest profile_error_text id w = (r, w') ->
  selected w' = Some t /\ backend_running w' = true /\ (exists st', load_state w' = Ok st' /\ connection st' = connection st) /\
  (RuntimeState.ActiveConnectionKind st = amneziawg_kind -> RuntimeState.Connected st = true ->
   RuntimeState.ActiveAWGProfileID st <> "" -> wire w' = wire w).
Proof.
  intros Hleg Ht Hr Hl Hn E. destruct (check_keeps_line url_host digest profile_error_text _ _ _ _ _ _ Hleg Ht Hr Hl Hn E) as (H1' & H2' & H3').
  split_and!; [done..|]. intros Hkind Hc Hid. revert E.
  unfold CheckAWGProfile, migrateLegacyAWGProfileLocked, mbind at 1, prog_bind at 1, mbind at 1, prog_bind at 1, reads at 1.
  rewrite Hleg. cbn [mret prog_ret]. unfold mbind at 1, prog_bind at 1, resolveAWGProfileIDLocked, mbind at 1, prog_bind at 1, reads at 1, of_result at 1.
  destruct (resolve_profile _ _ _) as [resolved|e]; [|by intros [= _ <-]].
  assert (Hmine : other_active st resolved || is_active st resolved = true).
  { unfold other_active, is_active. rewrite Hkind, Hc, !bool_decide_eq_true_2, (bool_decide_eq_false_2 _ Hid) by done. cbn [andb negb]. by destruct (bool_decide _). }
  pose proof (active_check_wire resolved w st Hl Hmine) as Hw. unfold mbind at 1, prog_bind at 1, attempt at 1.
  destruct (checkAWGLocked _ _ resolved true w) as [checked w1]. cbn [snd] in Hw. unfold mbind at 1, prog_bind at 1, attempt at 1.
  pose proof (status_same profile_error_text resolved w1) as Hs. destruct (awgStatusLocked _ resolved w1) as [status w2]. cbn [snd] in Hs. subst w2.
  destruct checked; [unfold of_result; destruct status|]; by intros [= _ <-].
Qed.

End Tunnels.

(** ** A world with a tunnel *)

(** The world in memory with the permanent interface: what it is configured with,
    whether it is up, and the devices of the outbounds. *)
Record TunnelWorld : Type := {
  under : MemoryWorld;
  configured : option Profile;
  is_up : bool;
  outbound_devices : list (string * string)
}.

Definition lower {A} (f : MemoryWorld -> A * MemoryWorld) (w : TunnelWorld) : A * TunnelWorld :=
  let '(a, u) := f (under w) in (a, Build_TunnelWorld u (configured w) (is_up w) (outbound_devices w)).

#[export] Instance tunnel_backend : ManagedBackend TunnelWorld := {
  PrepareOutbound node mark := lower (PrepareOutbound node mark);
  RemoveOutbound tag := lower (RemoveOutbound tag);
  SelectOutbound tag := lower (SelectOutbound tag);
  SelectedOutbound := lower SelectedOutbound;
  SetProbeOutbound slot tag := lower (SetProbeOutbound slot tag)
}.

#[export] Instance tunnel_router : Router TunnelWorld := {
  save_state s := lower (save_state s);
  load_state w := load_state (under w);
  verify slot tag := lower (verify slot tag);
  confirmation_delay := lower confirmation_delay;
  egress := lower egress;
  persist_config r := lower (persist_config r)
}.

#[export] Instance tunnel_runtime : Runtime TunnelWorld := {
  load_settings w := load_settings (under w);
  load_subscriptions w := load_subscriptions (under w);
  load_cached_state w := load_cached_state (under w);
  clock := lower clock;
  switch_clock w := switch_clock (under w);
  system_resolvers w := system_resolvers (under w);
  resolve node w := resolve node (under w);
  apply_ipv6 := lower apply_ipv6;
  apply_config r := lower (apply_config r);
  capture_rollback w := capture_rollback (under w);
  rollback_config s := lower (rollback_config s);
  check_running := lower check_running;
  stop_backend := lower stop_backend;
  dns_apply d := lower (dns_apply d);
  dns_disable := lower dns_disable;
  firewall_apply f := lower (firewall_apply f);
  firewall_disable := lower firewall_disable;
  zapret_apply l := lower (zapret_apply l);
  zapret_disable := lower zapret_disable;
  store_settings s := lower (store_settings s)
}.

#[export] Instance tunnel_profiles : ProfileStore TunnelWorld := {
  list_profiles w := list_profiles (under w);
  load_profile id w := load_profile id (under w);
  save_profile m raw := lower (save_profile m raw);
  remove_profile id := lower (remove_profile id);
  load_legacy w := load_legacy (under w);
  remove_legacy := lower remove_legacy
}.

#[export] Instance tunnel_controller : AWGController TunnelWorld := {
  controller := true; isolates := false; has_policy_routes := true;
  awg_preflight w := awg_preflight (under w);
  awg_status w := Ok (if is_up w then world_tunnel else InterfaceStatus.zero);
  awg_prepare p w := (None, Build_TunnelWorld (under w) (Some p) (is_up w) (outbound_devices w));
  awg_connect w :=
    match configured w with
    | Some _ => (Ok world_tunnel, Build_TunnelWorld (under w) (configured w) true (outbound_devices w))
    | None => (Err "no interface", w)
    end;
  awg_disconnect w := (None, Build_TunnelWorld (under w) (configured w) false (outbound_devices w));
  awg_remove w := (None, Build_TunnelWorld (under w) None false (outbound_devices w));
  ensure_routes _ w := (None, w);
  prepare_isolated _ w := ((Err "no isolation", false), w);
  isolated_cleanup w := (None, w)
}.

#[export] Instance tunnel_interface : InterfaceBackend TunnelWorld := {
  PrepareInterfaceOutbound device address mark w :=
    let '(r, w) := lower (PrepareInterfaceOutbound device address mark) w in
    (r, match r with
        | Ok tag => Build_TunnelWorld (under w) (configured w) (is_up w) ((tag, device) :: outbound_devices w)
        | Err _ => w
        end);
  backend_running w := backend_running (under w);
  probe_interface tag := lower (probe_interface tag)
}.

#[export] Instance tunnel_views : Tunnel TunnelWorld := {
  tunnel := configured;
  tunnel_device w := if is_up w then Some (InterfaceStatus.Device world_tunnel) else None;
  over tag w := snd <$> List.find (fun entry => bool_decide (entry.1 = tag)) (outbound_devices w)
}.

Lemma lower_under {A} (f : MemoryWorld -> A * MemoryWorld) w : under (lower f w).2 = (f (under w)).2 /\ (lower f w).1 = (f (under w)).1.
Proof. unfold lower. by destruct (f (under w)). Qed.

Lemma lower_rest {A} (f : MemoryWorld -> A * MemoryWorld) w :
  configured (lower f w).2 = configured w /\ is_up (lower f w).2 = is_up w /\ outbound_devices (lower f w).2 = outbound_devices w.
Proof. unfold lower. by destruct (f (under w)). Qed.

Lemma lower_line {A} (f : MemoryWorld -> A * MemoryWorld) w : line (f (under w)).2 = line (under w) -> line (lower f w).2 = line w.
Proof.
  assert (E : forall v : TunnelWorld, line v = line (under v)).
  { intros v. unfold line, selected. cbn [SelectedOutbound tunnel_backend backend_running load_state tunnel_interface tunnel_router].
    by rewrite (proj2 (lower_under SelectedOutbound v)). }
  intros Hf. by rewrite !E, (proj1 (lower_under f w)).
Qed.

Lemma lower_bench {A} id (f : MemoryWorld -> A * MemoryWorld) w :
  load_state (f (under w)).2 = load_state (under w) -> bench id (lower f w).2 = bench id w.
Proof.
  intros Hf. destruct (lower_rest f w) as (E1 & E2 & _). destruct (lower_under f w) as [E3 _]. unfold bench.
  cbn [tunnel tunnel_device load_profile load_state tunnel_views tunnel_profiles tunnel_router]. by rewrite E1, E2, E3, Hf.
Qed.

Lemma lower_over {A} id tag (f : MemoryWorld -> A * MemoryWorld) w : line_over id tag (lower f w).2 = line_over id tag w.
Proof.
  destruct (lower_rest f w) as (E1 & E2 & E3). unfold line_over. cbn [tunnel tunnel_device over load_profile tunnel_views tunnel_profiles]. by rewrite E1, E2, E3.
Qed.

Lemma selected_under (w : TunnelWorld) : selected w = selected (under w).
Proof. unfold selected. cbn [SelectedOutbound tunnel_backend]. by rewrite (proj2 (lower_under SelectedOutbound w)). Qed.

Lemma lower_selected {A} (f : MemoryWorld -> A * MemoryWorld) w : (forall v, selected (f v).2 = selected v) -> selected (lower f w).2 = selected w.
Proof. intros Hf. by rewrite !selected_under, (proj1 (lower_under f w)). Qed.

Lemma lower_ok {A} (f : MemoryWorld -> A * MemoryWorld) w a w' : lower f w = (a, w') -> f (under w) = (a, under w').
Proof. unfold lower. destruct (f (under w)). by intros [= -> <-]. Qed.

Lemma tunnel_world_router : RouterLaws TunnelWorld.
Proof.
  pose proof world_laws as L. pose proof (router_backend (RouterLaws := L)) as B. split.
  - split.
    + intros tag w w' E%lower_ok. rewrite selected_under. by apply select_ok in E.
    + intros w. apply lower_selected, select_pure.
    + intros node mark w. apply lower_selected, prepare_keeps.
    + intros tag w. apply lower_selected, remove_keeps.
    + intros slot tag w. apply lower_selected, probe_keeps.
  - intros s w. apply lower_selected, save_keeps_route.
  - intros slot tag w. apply lower_selected, verify_keeps_route.
  - intros w. apply lower_selected, delay_keeps_route.
  - intros w. apply lower_selected, egress_keeps_route.
  - intros r w. apply lower_selected, persist_keeps_route.
  - intros s w w' E%lower_ok. exact (saved_is_loaded s _ _ E).
  - intros tag w. change (load_state (under (lower (SelectOutbound tag) w).2) = load_state (under w)). rewrite (proj1 (lower_under _ w)). apply select_keeps_file.
  - intros w. change (load_state (under (lower egress w).2) = load_state (under w)). rewrite (proj1 (lower_under _ w)). apply egress_keeps_file.
  - intros r w. change (load_state (under (lower (persist_config r) w).2) = load_state (under w)). rewrite (proj1 (lower_under _ w)). apply persist_keeps_file.
Qed.

Lemma same_line (w w' : TunnelWorld) : under w' = under w -> line w' = line w.
Proof. intros E. unfold line. rewrite !selected_under. cbn [backend_running load_state tunnel_interface tunnel_router]. by rewrite E. Qed.

Lemma tunnel_world_runtime : RuntimeLaws TunnelWorld.
Proof.
  pose proof world_runtime_laws as L. split.
  - exact tunnel_world_router.
  - intros w. apply lower_selected, clock_keeps_route.
  - intros s w. apply lower_selected, dns_apply_keeps_route.
  - intros w. apply lower_selected, dns_disable_keeps_route.
  - intros s w. apply lower_selected, firewall_apply_keeps_route.
  - intros w. apply lower_selected, firewall_disable_keeps_route.
Qed.

Lemma tunnel_world_awg : AWGLaws TunnelWorld.
Proof.
  pose proof world_awg_laws as L. split.
  - exact tunnel_world_runtime.
  - intros w. apply lower_line, awg_clock_quiet.
  - intros w. apply lower_line, awg_read_quiet.
  - intros p w. by apply same_line.
  - intros w. apply same_line. cbn. by destruct (configured w).
  - intros w. by apply same_line.
  - intros w. by apply same_line.
  - intros i w. by apply same_line.
  - intros p w. by apply same_line.
  - intros w. by apply same_line.
  - intros d a m w. cbn [PrepareInterfaceOutbound tunnel_interface]. pose proof (lower_line (PrepareInterfaceOutbound d a m) w (interface_quiet d a m (under w))) as Hl.
    destruct (lower (PrepareInterfaceOutbound d a m) w) as [[t|e] v]; [|exact Hl]. cbn [snd] in *. rewrite <- Hl. by apply same_line.
  - intros t w. apply lower_line, probe_interface_quiet.
  - intros s w. apply lower_line, awg_settings_quiet.
  - intros m raw w. apply lower_line, save_profile_quiet.
  - intros id w. apply lower_line, remove_profile_quiet.
  - intros w. apply lower_line, remove_legacy_quiet.
  - reflexivity.
  - intros s w e w' E%lower_ok. exact (awg_failed_save s _ _ _ E).
Qed.

Lemma tunnel_world_laws : TunnelLaws TunnelWorld.
Proof.
  split.
  - exact tunnel_world_awg.
  - by intros p w w' [= <-].
  - intros i w w'. cbn. destruct (configured w); [|done]. by intros [= <- <-].
  - intros i w. cbn. destruct (is_up w); by intros [= <-].
  - intros d a m t w w'. cbn [PrepareInterfaceOutbound tunnel_interface]. destruct (lower _ w) as [[t'|e] v]; [|done]. intros [= -> <-].
    cbn. by rewrite bool_decide_eq_true_2.
  - intros w. cbn. by destruct (configured w) eqn:E.
  - reflexivity.
  - reflexivity.
  - reflexivity.
  - reflexivity.
  - reflexivity.
  - intros id w. apply lower_bench. exact (read_keeps_file (AutoRuntimeLaws := world_auto_laws) (under w)).
  - intros id w. by apply lower_bench.
  - intros id r w. by apply lower_bench.
  - intros id w. by apply lower_bench.
  - intros id d w. by apply lower_bench.
  - intros id w. by apply lower_bench.
  - intros id f w. by apply lower_bench.
  - intros id w. by apply lower_bench.
  - reflexivity.
  - reflexivity.
  - reflexivity.
  - intros id d a m w. cbn [PrepareInterfaceOutbound tunnel_interface].
    assert (Hb : bench id (lower (PrepareInterfaceOutbound d a m) w).2 = bench id w).
    { apply lower_bench. pose proof (interface_quiet (AWGLaws := world_awg_laws) d a m (under w)) as Hq. unfold line in Hq. by injection Hq. }
    destruct (lower (PrepareInterfaceOutbound d a m) w) as [[t|e] v]; exact Hb.
  - intros id t w. by apply lower_bench.
  - intros tag t w. apply (f_equal snd (lower_over "" tag (probe_interface t) w)).
  - intros tag w. apply (f_equal snd (lower_over "" tag clock w)).
  - intros. apply lower_over.
  - intros. apply lower_over.
  - intros. apply lower_over.
  - intros. apply lower_over.
Qed.

(** ** The theorems on this world *)

Abbreviation connect_there := (connectAWGWithModeLocked (W := TunnelWorld) no_host some_error).

Definition no_tunnel : TunnelWorld := Build_TunnelWorld proxied_world None false [].

(** Profile [awg-1] is connected; then [awg-2], whose file is missing, is tried. *)
Definition over_awg_1 : TunnelWorld := (connect_there "awg-1" SelectionModeManual "" no_tunnel).2.
Definition after_awg_2 : TunnelWorld := (connect_there "awg-2" SelectionModeManual "" over_awg_1).2.

Abbreviation stored_connection := (true, TransportModeProxy, awgSubscriptionID, "awg-1", SelectionModeManual).

Lemma unclaimed_known (id : string) (w : TunnelWorld) :
  match load_state w with
  | Ok st => bool_decide (RuntimeState.PreparedAWGProfileID st = id) || is_active st id
  | Err _ => false
  end = false -> tunnel_known id w.
Proof.
  intros E st Hl Hc. rewrite Hl in E. apply orb_false_iff in E as [E1 E2]. apply bool_decide_eq_false in E1. destruct Hc as [Hc|Hc]; [done|congruence].
Qed.

Lemma connect_or_restore_witness :
  over_profile "awg-1" stored_connection over_awg_1 /\
  (connect_there "awg-2" SelectionModeManual "" over_awg_1).1 =
    Err (fault "verify AmneziaWG route: load AmneziaWG profile: file does not exist") /\
  over_profile "awg-1" stored_connection after_awg_2.
Proof.
  assert (E1 : (connect_there "awg-1" SelectionModeManual "" no_tunnel).1 = Ok tt) by (vm_compute; reflexivity).
  assert (E2 : (connect_there "awg-2" SelectionModeManual "" over_awg_1).1 =
    Err (fault "verify AmneziaWG route: load AmneziaWG profile: file does not exist")) by (vm_compute; reflexivity).
  split; [|split; [exact E2|]].
  - destruct (load_state no_tunnel) as [st|e] eqn:E; [|vm_compute in E; discriminate E].
    exact (connect_or_restore (H6 := tunnel_world_laws) no_host some_error "awg-1" SelectionModeManual "" no_tunnel (Ok tt) over_awg_1 st E
      (unclaimed_known "awg-1" no_tunnel ltac:(vm_compute; reflexivity)) (run_eq _ _ E1)).
  - destruct (load_state over_awg_1) as [st|e] eqn:E; [|vm_compute in E; discriminate E].
    assert (Ho : other_active st "awg-2" = true /\ RuntimeState.ActiveAWGProfileID st = "awg-1" /\ same_connection st = stored_connection)
      by (vm_compute in E; injection E as <-; split_and!; vm_compute; reflexivity).
    destruct Ho as (Ho & Hi & Hc).
    destruct (connect_or_restore (H6 := tunnel_world_laws) no_host some_error "awg-2" SelectionModeManual "" over_awg_1 _ after_awg_2 st E
      (unclaimed_known "awg-2" over_awg_1 ltac:(vm_compute; reflexivity)) (run_eq _ _ E2) Ho)
      as [[Hf _]|[Hon|(e0 & f & v & _ & He)]]; [discriminate Hf|rewrite Hi, Hc in Hon; exact Hon|].
    exfalso. apply (f_equal (fun e => Contains (fault_text e) newline)) in He. unfold join_faults in He. cbn [fault_text] in He.
    assert (Hj : forall a b, Contains (a +:+ newline +:+ b) newline = true) by (intros a b; apply Contains_spec; by exists a, b).
    rewrite Hj in He. vm_compute in He. discriminate He.
Defined.

(** A check of the connected profile, which measures it again, and of the other one,
    which is refused. *)
Lemma check_keeps_connection_witness :
  is_Some (tunnel over_awg_1) /\
  wire (CheckAWGProfile no_host (fun _ => "1") some_error "awg-1" over_awg_1).2 = wire over_awg_1 /\
  wire (CheckAWGProfile no_host (fun _ => "1") some_error "awg-2" over_awg_1).2 = wire over_awg_1.
Proof.
  split; [vm_compute; by eexists|].
  destruct (load_state over_awg_1) as [st|e] eqn:E; [|vm_compute in E; discriminate E].
  assert (Hst : NormalizeTransportMode (RuntimeState.ActiveTransport st) = RuntimeState.ActiveTransport st /\
    RuntimeState.ActiveConnectionKind st = amneziawg_kind /\ RuntimeState.Connected st = true /\ RuntimeState.ActiveAWGProfileID st = "awg-1")
    by (vm_compute in E; injection E as <-; split_and!; vm_compute; reflexivity).
  destruct Hst as (Hn & Hk & Hc & Hi).
  assert (Hne : RuntimeState.ActiveAWGProfileID st <> "") by (rewrite Hi; discriminate).
  destruct (selected over_awg_1) as [t|] eqn:Et; [|vm_compute in Et; discriminate Et].
  assert (Hr : backend_running over_awg_1 = true) by reflexivity.
  assert (Hleg : load_legacy over_awg_1 = Err NotExist) by reflexivity.
  split.
  - exact (proj2 (proj2 (proj2 (check_keeps_connection (H6 := tunnel_world_laws) no_host (fun _ => "1") some_error "awg-1" over_awg_1 _ _ t st
      Hleg Et Hr E Hn (surjective_pairing _)))) Hk Hc Hne).
  - exact (proj2 (proj2 (proj2 (check_keeps_connection (H6 := tunnel_world_laws) no_host (fun _ => "1") some_error "awg-2" over_awg_1 _ _ t st
      Hleg Et Hr E Hn (surjective_pairing _)))) Hk Hc Hne).
Defined.
