(* ===== verification/OpenWrtHost.v ===== *)
(** * The router as a host

    What [platform/openwrt] uses of the system: environment, directories,
    commands and files; the paths of [paths.go]; lines of configuration files; and
    finding the directory that the running dnsmasq reads ([dnsmasq.go]).  Programs,
    the kernel and the file system are operations of interfaces with laws. *)
From S2P Require Import Prelude GoRunes GoStrings GoNum NetIP Domain GoConv Effects AtomicFiles.
From S2P Require Import AmneziaProfile AmneziaRuntime AmneziaStore.

Local Open Scope list_scope.

(** ** Paths *)

(** One element of [filepath.Clean]; the stack holds the elements kept so far,
    last first. *)
Definition clean_element (rooted : bool) (stack : list string) (element : string) : list string :=
  if bool_decide (element = "") || bool_decide (element = ".") then stack
  else if bool_decide (element = "..")
  then match stack with
       | [] => if rooted then [] else [".."]
       | top :: rest => if bool_decide (top = "..") then ".." :: stack else rest
       end
  else element :: stack.

Definition Clean (path : string) : string :=
  let rooted := HasPrefix path "/" in
  let text := (if rooted then "/" else "") +:+ Join (rev (foldl (clean_element rooted) [] (split_byte path slash))) "/" in
  if bool_decide (text = "") then "." else text.

Fixpoint path_join (elements : list string) : string :=
  match elements with
  | [] => ""
  | e :: rest => if bool_decide (e = "") then path_join rest else Clean (Join elements "/")
  end.

Example path_ex1 : path_join ["/tmp/dnsmasq.d/"; "fastlane.conf"] = "/tmp/dnsmasq.d/fastlane.conf".
Proof. reflexivity. Qed.
Example path_ex2 : Clean "a/./b/../../../c" = "../c".
Proof. reflexivity. Qed.

Fixpoint firstNonEmpty (values : list string) : string :=
  match values with
  | [] => ""
  | v :: rest => if bool_decide (TrimSpace v = "") then firstNonEmpty rest else TrimSpace v
  end.

Definition isNumeric (value : string) : bool :=
  negb (bool_decide (value = "")) && forallb (fun r => (48 <=? r)%Z && (r <=? 57)%Z) (runes value).

(** ** Lines of a file *)

Definition too_long (line : string) : bool := (65536 <=? Z.of_nat (String.length line))%Z.

(** [bufio.Scanner] with its default buffer: the lines, and whether it got to the
    end; it stops at a line that does not fit. *)
Fixpoint scan_pieces (pieces : list string) : list string * bool :=
  match pieces with
  | [] => ([], true)
  | p :: rest =>
    if bool_decide (p = "") && match rest with [] => true | _ => false end then ([], true)
    else if too_long p then ([], false)
    else let '(l, ended) := scan_pieces rest in (TrimSuffix p carriage_return :: l, ended)
  end.

Definition scan_lines (text : string) : list string * bool := scan_pieces (split_byte text line_feed).

(** ** The interface *)

Class OpenWrtHost (W : Type) `{FileHost W} := {
  getenv : string -> string;
  read_dir : string -> W -> result ReadError (list (string * bool)); (** names and whether each is a directory *)
  glob : string -> W -> result string (list string);
  stat_file : string -> W -> result ReadError bool;                  (** is it a directory *)
  write_value : string -> string -> W -> option string * W;          (** [os.WriteFile] *)
  temp_conf : W -> string;                                           (** [os.CreateTemp] in the directory for temporary files *)
  run_command : string -> list string -> W -> (option string * string) * W (** the error and what was printed *)
}.

Class OpenWrtHostLaws (W : Type) `{OpenWrtHost W} : Prop := {
  openwrt_files :: FileHostLaws W;
  commands_keep_files : forall path args w, files (run_command path args w).2 = files w;
  value_written : forall path d w w', write_value path d w = (None, w') -> files w' = <[path := d]> (files w);
  value_refused : forall path d w e w', write_value path d w = (Some e, w') -> delete path (files w') = delete path (files w);
  temp_conf_new : forall w, files w !! temp_conf w = None
}.

Section Paths.
  Context `{OpenWrtHost W}.

(** An environment variable overrides a default. *)
Definition env_or (name fallback : string) : string :=
  if bool_decide (getenv name = "") then fallback else getenv name.

Definition IsOpenWrt (w : W) : bool := is_ok (stat_file "/etc/openwrt_release" w).

Definition RootDir (w : W) : string :=
  env_or "FASTLANE_ROOT" (if IsOpenWrt w then "/etc/fastlane" else ".fastlane").

Definition XrayConfigPath (w : W) : string :=
  env_or "FASTLANE_XRAY_CONFIG" (if IsOpenWrt w then "/etc/xray/config.json" else path_join [RootDir w; "xray-config.json"]).

Definition XrayServicePath : string := env_or "FASTLANE_XRAY_SERVICE" "/etc/init.d/xray".
Definition ZapretServicePath : string := env_or "FASTLANE_ZAPRET_SERVICE" "/etc/init.d/zapret".
Definition ZapretConfigPath : string := env_or "FASTLANE_ZAPRET_CONFIG" "/opt/zapret/config".
Definition ZapretHostlistPath : string := env_or "FASTLANE_ZAPRET_HOSTLIST" "/opt/zapret/ipset/zapret-hosts-user.txt".
Definition ZapretHostlistBackupPath : string :=
  env_or "FASTLANE_ZAPRET_HOSTLIST_BAK" "/opt/zapret/ipset/zapret-hosts-user.txt.fastlane.bak".
Definition ZapretIPListPath : string := env_or "FASTLANE_ZAPRET_IPLIST" "/opt/zapret/ipset/zapret-ip-user.txt".
Definition ZapretIPListBackupPath : string :=
  env_or "FASTLANE_ZAPRET_IPLIST_BAK" "/opt/zapret/ipset/zapret-ip-user.txt.fastlane.bak".
Definition ZapretMarkerPath (w : W) : string := env_or "FASTLANE_ZAPRET_MARKER" (path_join [RootDir w; "zapret-managed.json"]).
Definition ZapretConfigBackupPath (w : W) : string :=
  env_or "FASTLANE_ZAPRET_CONFIG_BAK" (path_join [RootDir w; "zapret-config.fastlane.bak"]).

Definition FirewallRulesPath : string := env_or "FASTLANE_FIREWALL_RULES" "/tmp/fastlane-firewall.nft".
Definition dnsmasqBinaryPath : string := env_or "FASTLANE_DNSMASQ_BINARY" "/usr/sbin/dnsmasq".
Definition dnsmasqServicePath : string := env_or "FASTLANE_DNSMASQ_SERVICE" "/etc/init.d/dnsmasq".
Definition dnsmasqSnippetOverridePath : string := getenv "FASTLANE_DNSMASQ_SNIPPET".
Definition dnsRuntimeSnippetOverridePath : string := getenv "FASTLANE_DNSMASQ_DNS_SNIPPET".
Definition IPv6SysctlConfigPath : string := env_or "FASTLANE_IPV6_SYSCTL" "/etc/sysctl.d/99-fastlane-ipv6.conf".

End Paths.

(** ** Commands *)

Section Commands.
  Context `{OpenWrtHost W}.

Abbreviation App := (Prog W string).

Definition runCommand (path : string) (args : list string) : App unit := fun w =>
  match run_command path args w with
  | ((None, _), w) => (Ok tt, w)
  | ((Some e, printed), w) => (Err (path +:+ " " +:+ Join args " " +:+ ": " +:+ e +:+ ": " +:+ TrimSpace printed), w)
  end.

Definition restartDNSMasq (service_path : string) : App unit :=
  let script := firstNonEmpty [service_path; dnsmasqServicePath] in
  if bool_decide (script = "") then mret tt
  else map_error (fun e => "restart dnsmasq service: " +:+ e) (runCommand script ["restart"]).

(** [os.Remove] where a missing file is no error. *)
Definition remove_if_exists (context path : string) : App unit :=
  removed ← outcome (remove_file path);
  match removed with
  | Some (ReadFailed e) => raise (context +:+ ": " +:+ e)
  | _ => mret tt
  end.

Definition fileExists (path : string) (w : W) : bool :=
  match stat_file path w with Ok false => true | _ => false end.

End Commands.

(** [os.Stat] finds the regular files. *)
Class StatLaws (W : Type) `{OpenWrtHost W} : Prop := {
  stat_openwrt :: OpenWrtHostLaws W;
  stat_regular : forall p w, fileExists p w = bool_decide (is_Some (files w !! p))
}.

Section Configuration.
  Context `{OpenWrtHost W}.

Abbreviation App := (Prog W string).

(** ** The configuration of the running dnsmasq *)

Definition readNullSeparated (path : string) (w : W) : option (list string) :=
  match read_file path w with
  | Err _ => None
  | Ok data => Some (filter (fun p => p <> "") (TrimSpace <$> split_byte data "000"%char))
  end.

Definition parseConfDirSpec (value : string) : string :=
  let value := TrimSpace value in
  match cut_byte value ","%char with Some (a, _) => TrimSpace a | None => value end.

(** The first value that a line of the file gives to the option. *)
Fixpoint option_value (key : string) (l : list string) : option string :=
  match l with
  | [] => None
  | line :: rest =>
    let line := TrimSpace line in
    if HasPrefix line "#" then option_value key rest
    else if HasPrefix line key then Some (TrimSpace (TrimPrefix line key)) else option_value key rest
  end.

Definition config_option (key path : string) (w : W) : option string :=
  match read_file path w with Err _ => None | Ok data => option_value key (scan_lines data).1 end.

Definition dnsmasqConfDirFromConfig (path : string) (w : W) : string :=
  match config_option "conf-dir=" path w with Some v => parseConfDirSpec v | None => "" end.

(** [Ok dir] ends the loop over the arguments; [Err] is the file named last. *)
Fixpoint scan_conf_args (config : string) (args : list string) : result string string :=
  match args with
  | [] => Err config
  | arg :: rest =>
    if HasPrefix arg "--conf-dir=" then Ok (parseConfDirSpec (TrimPrefix arg "--conf-dir="))
    else match rest with
    | next :: _ =>
      if bool_decide (arg = "--conf-dir") then Ok (parseConfDirSpec next)
      else if HasPrefix arg "--conf-file=" then scan_conf_args (TrimPrefix arg "--conf-file=") rest
      else if bool_decide (arg = "--conf-file") || bool_decide (arg = "-C") then scan_conf_args next rest
      else scan_conf_args config rest
    | [] => if HasPrefix arg "--conf-file=" then Err (TrimPrefix arg "--conf-file=") else Err config
    end
  end.

Definition dnsmasqConfDirFromArgs (args : list string) (w : W) : string :=
  match scan_conf_args "" args with
  | Ok dir => dir
  | Err config => if bool_decide (config = "") then "" else dnsmasqConfDirFromConfig config w
  end.

(** The arguments of a process that may be dnsmasq. *)
Definition dnsmasq_args (procRoot : string) (entry : string * bool) (w : W) : option (list string) :=
  if negb entry.2 || negb (isNumeric entry.1) then None
  else
    let pidDir := path_join [procRoot; entry.1] in
    if match read_file (path_join [pidDir; "comm"]) w with Ok comm => negb (bool_decide (TrimSpace comm = "dnsmasq")) | Err _ => false end
    then None else readNullSeparated (path_join [pidDir; "cmdline"]) w.

Fixpoint first_conf_dir (procRoot : string) (entries : list (string * bool)) (w : W) : option string :=
  match entries with
  | [] => None
  | entry :: rest =>
    match dnsmasq_args procRoot entry w with
    | Some args =>
      let dir := dnsmasqConfDirFromArgs args w in
      if bool_decide (dir = "") then first_conf_dir procRoot rest w else Some dir
    | None => first_conf_dir procRoot rest w
    end
  end.

Definition runningDNSMasqConfDir (proc_root : string) (w : W) : result string string :=
  let procRoot := firstNonEmpty [proc_root; "/proc"] in
  match read_dir procRoot w with
  | Err e => Err ("read " +:+ procRoot +:+ ": " +:+ read_error e)
  | Ok entries =>
    match first_conf_dir procRoot entries w with
    | Some dir => Ok dir
    | None =>
      match glob "/tmp/dnsmasq*.d" w with
      | Ok matches =>
        match sort_strings matches with
        | first :: _ => Ok first
        | [] => Err "detect dnsmasq conf-dir: no running dnsmasq instance with conf-dir found"
        end
      | Err _ => Err "detect dnsmasq conf-dir: no running dnsmasq instance with conf-dir found"
      end
    end
  end.

Definition dnsmasqSnippetPath (snippet_path proc_root : string) (w : W) : result string string :=
  let path := firstNonEmpty [snippet_path; dnsmasqSnippetOverridePath] in
  if negb (bool_decide (path = "")) then Ok path
  else let* dir := runningDNSMasqConfDir proc_root w in Ok (path_join [dir; "fastlane.conf"]).

End Configuration.
