(* ===== verification/AmneziaController.v ===== *)
(** * Bringing an AmneziaWG interface up and down

    [OpenWrtController] of [amneziawg/controller_openwrt.go]: the check of the
    installed packages, the interface and its routes, and a second interface that
    measures a profile without touching the first.  Commands, files, the clock and the
    JSON of ubus are operations of a host; [sent] is the history of its commands.

    The loop that waits for the interface ends by the clock; here it also has a
    number of polls, which is proved to be enough. *)
From S2P Require Import Prelude GoRunes GoStrings GoNum NetIP Domain GoConv GoConvFacts.
From S2P Require Import AmneziaProfile AmneziaRuntime AmneziaFacts.
From S2P Require Import Failover ManagedBackend ManagedSwitch NodeSelection Effects.
From S2P Require Import AmneziaService OpenWrtHost.

Local Open Scope Z_scope.
Local Open Scope list_scope.

Definition ProbeInterfaceName : string := "flawg_probe".
Definition FastLaneAWGTool : string := "/usr/libexec/fastlane-amneziawg".
Definition FastLaneMwan3Helper : string := "/usr/libexec/fastlane-awg-mwan3".
Definition RouteTable : Z := 51821.
Definition ProbeRouteTable : Z := 51822.
Definition ProbeRulePriority : Z := 901.

Module OpenWrtController.
Record OpenWrtController : Type := mk { InterfaceName : string; SysRoot : string; WaitTimeout : Duration }.
End OpenWrtController.
Abbreviation OpenWrtController := OpenWrtController.OpenWrtController.

(** What ubus says about an interface. *)
Module UbusInterface.
Record UbusInterface : Type := mk { Up : bool; Device : string; IPv4 : list string; IPv6 : list string }.
End UbusInterface.
Abbreviation UbusInterface := UbusInterface.UbusInterface.

(** A command: its input, the program and its arguments. *)
Module Sent.
Record Sent : Type := mk { stdin : string; program : string; arguments : list string }.
End Sent.
Abbreviation Sent := Sent.Sent.

(** [stat_path]: whether it is a directory, if it is there.  [pause]: a tenth of a
    second, or the error of the context. *)
Class AWGHost (W : Type) := {
  run_with : Sent -> W -> (string * option string) * W;
  stat_path : string -> W -> option bool;
  read_text : string -> W -> option string;
  awg_clock : W -> Time * W;
  pause : W -> option string * W;
  decode_interface : string -> result string UbusInterface
}.

(** ** What is installed *)

Definition rooted (c : OpenWrtController) (path : string) : string :=
  path_join [if bool_decide (OpenWrtController.SysRoot c = "") then "/" else OpenWrtController.SysRoot c; path].

Definition waitTimeout (c : OpenWrtController) : Duration :=
  if OpenWrtController.WaitTimeout c <=? 0 then 8 * Second else OpenWrtController.WaitTimeout c.

Definition iface (c : OpenWrtController) : string := interfaceName (OpenWrtController.InterfaceName c).

Module CompatibilityFields.
Import Compatibility.
Definition eta (c : Compatibility) : Compatibility := mk (Compatible c) (Kernel c) (Module_ c) (Runtime c) (Tools c) (Netifd c) (FailureReason c).
#[export] Instance set_Compatible : Setter Compatible := ltac:(mk_setter eta Compatible).
#[export] Instance set_Module : Setter Module_ := ltac:(mk_setter eta Module_).
#[export] Instance set_Runtime : Setter Runtime := ltac:(mk_setter eta Runtime).
#[export] Instance set_Tools : Setter Tools := ltac:(mk_setter eta Tools).
#[export] Instance set_Netifd : Setter Netifd := ltac:(mk_setter eta Netifd).
#[export] Instance set_FailureReason : Setter FailureReason := ltac:(mk_setter eta FailureReason).
End CompatibilityFields.
Export (hints) CompatibilityFields.

Definition compact_spaces (s : string) : string := of_bytes (filter (fun c => negb ((c =? 9) || (c =? 32)) = true) (to_bytes s)).

(** [os.Stat] fails or finds a directory. *)
Definition no_file (kind : option bool) : bool := match kind with Some false => false | _ => true end.

Definition contains_text (text : option string) (part : string) : bool := match text with Some t => Contains t part | None => false end.

Section Controller.
  Context `{AWGHost W}.

Abbreviation App := (Prog W string).
Abbreviation Check := (Prog W (Compatibility * string)).

Definition run_awg (stdin program : string) (arguments : list string) {E} : Prog W E (string * option string) :=
  outcome (run_with (Sent.mk stdin program arguments)).

(** The error of a command is dropped. *)
Definition try_command (program : string) (arguments : list string) : App unit := _ ← run_awg "" program arguments; mret tt.

Definition command (context stdin program : string) (arguments : list string) : App unit :=
  ran ← run_awg stdin program arguments;
  match ran with
  | (_, None) => mret tt
  | (printed, Some e) => raise (context +:+ ": " +:+ e +:+ ": " +:+ TrimSpace printed)
  end.

Definition refuse_with {A} (result : Compatibility) (reason : string) : Check A := raise (result <| Compatibility.FailureReason := reason |>, reason).

Definition protoPath (c : OpenWrtController) : string := rooted c "lib/netifd/proto/amneziawg.sh".

(** The runtime in user space, or why there is none. *)
Definition userspaceAvailable (c : OpenWrtController) (compat : Compatibility) : Check (result string Compatibility) :=
  ran ← run_awg "" "amneziawg-go" ["--version"];
  match ran with
  | (_, Some _) => mret (Err "amneziawg-go is not installed")
  | (version, None) =>
    script ← reads (read_text (protoPath c));
    if negb (contains_text script "amneziawg-go") || negb (contains_text script FastLaneAWGTool)
    then mret (Err "installed AmneziaWG netifd protocol does not support amneziawg-go")
    else
      kind ← reads (stat_path (rooted c "dev/net/tun"));
      if no_file kind then mret (Err "Linux TUN device is not available")
      else mret (Ok (compat <| Compatibility.Runtime := TrimSpace version |> <| Compatibility.Compatible := true |>))
  end.

(** User space is tried once more before the kernel's module is given up. *)
Definition fall_back (c : OpenWrtController) (compat : Compatibility) (primary : string) : Check Compatibility :=
  available ← userspaceAvailable c compat;
  match available with
  | Ok compat => mret compat
  | Err why => refuse_with compat (primary +:+ "; userspace fallback unavailable: " +:+ why)
  end.

Definition kernel_runtime (compat : Compatibility) : Compatibility :=
  compat <| Compatibility.Runtime := "kernel" |> <| Compatibility.Compatible := true |>.

(** The dependency of the package on the kernel proves that the module fits. *)
Definition module_by_package (c : OpenWrtController) (compat : Compatibility) : Check Compatibility :=
  kind ← reads (stat_path (rooted c (path_join ["lib/modules"; Compatibility.Kernel compat; "amneziawg.ko"])));
  if no_file kind then fall_back c compat "AmneziaWG kernel module is not installed for the running kernel"
  else
    moduleStatus ← run_awg "" "opkg" ["status"; "kmod-amneziawg"];
    kernelStatus ← run_awg "" "opkg" ["status"; "kernel"];
    let moduleDepends := packageField moduleStatus.1 "Depends" in
    let kernelVersion := packageField kernelStatus.1 "Version" in
    let compactVersion := compact_spaces kernelVersion in
    if bool_decide (is_Some moduleStatus.2) || bool_decide (is_Some kernelStatus.2) || bool_decide (compactVersion = "")
       || negb (Contains (compact_spaces moduleDepends) ("kernel(=" +:+ compactVersion +:+ ")"))
    then fall_back c compat ("cannot confirm AmneziaWG module compatibility with the installed kernel ABI (dependency "
                             +:+ quoted moduleDepends +:+ ", kernel " +:+ quoted kernelVersion +:+ ")")
    else mret (kernel_runtime (compat <| Compatibility.Module_ := "kernel ABI " +:+ kernelVersion |>)).

Definition module_by_version (c : OpenWrtController) (compat : Compatibility) (vermagic : string) : Check Compatibility :=
  let compat := compat <| Compatibility.Module_ := TrimSpace vermagic |> in
  let kernel := Compatibility.Kernel compat in
  let built := Compatibility.Module_ compat in
  if bool_decide (built = "") || (negb (HasPrefix built (kernel +:+ " ")) && negb (bool_decide (built = kernel)))
  then fall_back c compat ("AmneziaWG module was built for a different kernel (running " +:+ kernel +:+ ")")
  else
    probed ← run_awg "" "modprobe" ["-n"; "amneziawg"];
    match probed.2 with
    | None => mret (kernel_runtime compat)
    | Some _ => fall_back c compat "AmneziaWG kernel module dependencies are incompatible"
    end.

Definition Preflight (c : OpenWrtController) : Check Compatibility :=
  kernel ← run_awg "" "uname" ["-r"];
  match kernel with
  | (_, Some e) => raise (Compatibility.mk false "" "" "" "" false "", "read running kernel: " +:+ e)
  | (release, None) =>
    let compat := Compatibility.mk false (TrimSpace release) "" "" "" false "" in
    kind ← reads (stat_path (protoPath c));
    if no_file kind then refuse_with compat "AmneziaWG netifd protocol is not installed"
    else
      let compat := compat <| Compatibility.Netifd := true |> in
      tools ← run_awg "" FastLaneAWGTool ["--version"];
      match tools with
      | (_, Some _) => refuse_with compat "Fast Lane AmneziaWG tools are not installed"
      | (tools, None) =>
        let compat := compat <| Compatibility.Tools := TrimSpace tools |> in
        available ← userspaceAvailable c compat;
        match available with
        | Ok compat => mret compat
        | Err _ =>
          vermagic ← run_awg "" "modinfo" ["-F"; "vermagic"; "amneziawg"];
          match vermagic with
          | (_, Some _) => module_by_package c compat
          | (vermagic, None) => module_by_version c compat vermagic
          end
        end
      end
  end.

(** ** Configuration *)

Definition v31_supported (c : OpenWrtController) (compat : Compatibility) : App unit :=
  if negb (Contains (Compatibility.Tools compat) "v3.1.") || bool_decide (Compatibility.Runtime compat = "")
  then raise "installed Fast Lane AmneziaWG runtime is incompatible with AWG 3.1"
  else
    proto ← reads (read_text (protoPath c));
    if negb (contains_text proto "awg_header_protection_key") || negb (contains_text proto "awg_random_trailers")
       || negb (contains_text proto "awg_force_userspace")
    then raise "installed AmneziaWG netifd protocol does not support AWG 3.1"
    else mret tt.

Definition Prepare (c : OpenWrtController) (profile : Profile) : App unit :=
  compat ← map_error snd (Preflight c);
  _ ← when (bool_decide (Profile.Version profile = Version31)) (v31_supported c compat);
  batch ← of_result (uciBatch (OpenWrtController.InterfaceName c) profile);
  _ ← command "stage AmneziaWG netifd config" batch "uci" ["-q"; "batch"];
  _ ← command "commit AmneziaWG netifd config" "" "uci" ["commit"; "network"];
  command "reload netifd configuration" "" "ubus" ["call"; "network"; "reload"].

(** The sections of an interface are deleted and the change is committed. *)
Definition delete_batch (name : string) : string := Join [render (DeleteSection name); render (DeleteSection ("amneziawg_" +:+ name))] newline +:+ newline.

Definition delete_sections (c : OpenWrtController) (context commit_context : string) : App unit :=
  _ ← command context (delete_batch (iface c)) "uci" ["-q"; "batch"];
  committed ← run_awg "" "uci" ["commit"; "network"];
  match committed.2 with Some e => raise (commit_context +:+ ": " +:+ e) | None => mret tt end.

(** ** State of the interface *)

Fixpoint latest_handshake (latest : Z) (fields : list string) : Z :=
  match fields with
  | [] => latest
  | field :: rest =>
    match Atoi field with
    | Some value => latest_handshake (if latest <? value then value else latest) rest
    | None => latest_handshake latest rest
    end
  end.

Definition first_address (u : UbusInterface) : string :=
  match UbusInterface.IPv4 u, UbusInterface.IPv6 u with
  | a :: _, _ => a
  | [], a :: _ => a
  | [], [] => ""
  end.

Definition Status (c : OpenWrtController) : App InterfaceStatus :=
  ran ← run_awg "" "ubus" ["call"; "network.interface." +:+ iface c; "status"];
  match ran with
  | (_, Some e) => raise e
  | (printed, None) =>
    match decode_interface printed with
    | Err e => raise ("decode AmneziaWG interface status: " +:+ e)
    | Ok u =>
      let status := InterfaceStatus.mk (UbusInterface.Up u) (UbusInterface.Device u) (first_address u) in
      if UbusInterface.Up u
      then
        handshakes ← run_awg "" FastLaneAWGTool ["show"; iface c; "latest-handshakes"];
        mret (status match handshakes with (printed, None) => latest_handshake 0 (Fields printed) | _ => 0 end)
      else mret (status 0)
    end
  end.

(** ** Routes *)

Definition route_family (address : Addr) : string := if Is6 address then "-6" else "-4".

Definition oif_rule (family verb device : string) (table : Z) (priority : string) : list string :=
  [family; "rule"; verb; "oif"; device; "table"; Itoa table; "priority"; priority].

Definition mark_rule (family mark : string) : list string :=
  [family; "rule"; "del"; "fwmark"; mark; "table"; Itoa RouteTable; "priority"; "10900"].

Definition default_route (family device : string) (table : Z) : list string :=
  [family; "route"; "replace"; "default"; "dev"; device; "table"; Itoa table].

Definition flush_table (family : string) (table : Z) : list string := [family; "route"; "flush"; "table"; Itoa table].

Definition installPolicyRoutes (status : InterfaceStatus) : App unit :=
  match ParseAddr (InterfaceStatus.Address status) with
  | None => raise ("invalid AmneziaWG runtime address " +:+ quoted (InterfaceStatus.Address status))
  | Some address =>
    let family := route_family address in
    let device := InterfaceStatus.Device status in
    _ ← command "install AmneziaWG route table" "" "ip" (default_route family device RouteTable);
    _ ← try_command "ip" (oif_rule family "del" device RouteTable "900");
    command "install AmneziaWG policy rule" "" "ip" (oif_rule family "add" device RouteTable "900")
  end.

Definition syncMwanEndpointRoute (c : OpenWrtController) : App unit :=
  kind ← reads (stat_path (rooted c (TrimPrefix FastLaneMwan3Helper "/")));
  match kind with
  | None => mret tt
  | Some _ => command "synchronize AmneziaWG endpoint with mwan3" "" FastLaneMwan3Helper ["--interface"; iface c]
  end.

Definition EnsurePolicyRoutes (c : OpenWrtController) (status : InterfaceStatus) : App unit :=
  _ ← syncMwanEndpointRoute c; installPolicyRoutes status.

(** ** Up and down *)

Definition ready (r : result string InterfaceStatus) : option InterfaceStatus :=
  match r with
  | Ok s => if InterfaceStatus.Up s && negb (bool_decide (InterfaceStatus.Device s = "")) && negb (bool_decide (InterfaceStatus.Address s = ""))
            then Some s else None
  | Err _ => None
  end.

Fixpoint wait_ready (c : OpenWrtController) (polls : nat) (deadline : Time) : App InterfaceStatus :=
  match polls with
  | O => raise "too few polls"
  | S polls =>
    status ← attempt (Status c);
    match ready status with
    | Some s => mret s
    | None =>
      now ← outcome awg_clock;
      if After now deadline then raise "AmneziaWG interface did not become ready"
      else _ ← act (fun e => e) pause; wait_ready c polls deadline
    end
  end.

(** The number of polls that the deadline allows, and two more. *)
Definition enough_polls (c : OpenWrtController) : nat := Z.to_nat (waitTimeout c / (100 * Millisecond) + 2).

Definition connectWithoutPolicy (c : OpenWrtController) : App InterfaceStatus :=
  _ ← command "bring up AmneziaWG interface" "" "ifup" [iface c];
  now ← outcome awg_clock;
  wait_ready c (enough_polls c) (Add now (waitTimeout c)).

Fixpoint try_commands (program : string) (l : list (list string)) : App unit :=
  match l with
  | [] => mret tt
  | arguments :: rest => _ ← try_command program arguments; try_commands program rest
  end.

(** Rules and routes of the connection, present ones and those of earlier releases. *)
Definition connection_rules (name : string) : list (list string) :=
  [oif_rule "-4" "del" name RouteTable "900"; mark_rule "-4" "0x200"; mark_rule "-4" "0x400";
   oif_rule "-6" "del" name RouteTable "900"; mark_rule "-6" "0x200"; mark_rule "-6" "0x400";
   mark_rule "-4" "0x10000"; mark_rule "-6" "0x10000"; flush_table "-4" RouteTable; flush_table "-6" RouteTable].

Definition Disconnect (c : OpenWrtController) : App unit :=
  _ ← try_commands "ip" (connection_rules (iface c));
  ran ← run_awg "" "ifdown" [iface c];
  match ran with
  | (printed, Some e) =>
    if Contains (ToLower printed) "not found" then mret tt
    else raise ("bring down AmneziaWG interface: " +:+ e +:+ ": " +:+ TrimSpace printed)
  | (_, None) => mret tt
  end.

Definition Connect (c : OpenWrtController) : App InterfaceStatus :=
  _ ← syncMwanEndpointRoute c;
  status ← connectWithoutPolicy c;
  routed ← attempt (installPolicyRoutes status);
  match routed with
  | Ok _ => mret status
  | Err e => _ ← ignore (Disconnect c); raise e
  end.

Definition Remove (c : OpenWrtController) : App unit :=
  _ ← Disconnect c; delete_sections c "remove AmneziaWG netifd config" "commit removed AmneziaWG config".

(** ** The isolated interface *)

Definition probe_of (c : OpenWrtController) : OpenWrtController :=
  OpenWrtController.mk ProbeInterfaceName (OpenWrtController.SysRoot c) (OpenWrtController.WaitTimeout c).

Definition probe_rules (name : string) : list (list string) :=
  [oif_rule "-4" "del" name ProbeRouteTable (Itoa ProbeRulePriority); flush_table "-4" ProbeRouteTable;
   oif_rule "-6" "del" name ProbeRouteTable (Itoa ProbeRulePriority); flush_table "-6" ProbeRouteTable].

(** The rule by source address that release 0.1.48 left. *)
Definition old_rules (address : string) : list (list string) :=
  if bool_decide (address = "") then []
  else
    let family := match ParseAddr address with Some a => route_family a | None => "-4" end in
    [[family; "rule"; "del"; "from"; address; "table"; Itoa ProbeRouteTable; "priority"; "10901"]; flush_table family ProbeRouteTable].

(** [c]: the controller of the isolated interface. *)
Definition removeIsolatedProbe (c : OpenWrtController) : App unit :=
  _ ← try_commands "ip" (probe_rules (iface c));
  status ← attempt (Status c);
  _ ← try_commands "ip" (old_rules match status with Ok s => InterfaceStatus.Address s | Err _ => "" end);
  _ ← try_command "ifdown" [iface c];
  delete_sections c "remove isolated AmneziaWG config" "commit removed isolated AmneziaWG config".

(** What fails after the interface is up takes it down again. *)
Definition or_clean {A} (c : OpenWrtController) (p : App A) : App A :=
  r ← attempt p;
  match r with
  | Ok a => mret a
  | Err e => _ ← ignore (removeIsolatedProbe c); raise e
  end.

Definition probe_route (status : InterfaceStatus) : App unit :=
  match ParseAddr (InterfaceStatus.Address status) with
  | None => raise ("invalid isolated AmneziaWG address " +:+ quoted (InterfaceStatus.Address status))
  | Some address =>
    let family := route_family address in
    let device := InterfaceStatus.Device status in
    _ ← command "install isolated AmneziaWG route" "" "ip" (default_route family device ProbeRouteTable);
    _ ← try_command "ip" (oif_rule family "del" device ProbeRouteTable (Itoa ProbeRulePriority));
    command "install isolated AmneziaWG source rule" "" "ip" (oif_rule family "add" device ProbeRouteTable (Itoa ProbeRulePriority))
  end.

Definition PrepareIsolatedProbe (c : OpenWrtController) (profile : Profile) : App InterfaceStatus :=
  let probe := probe_of c in
  _ ← removeIsolatedProbe probe;
  _ ← Prepare probe profile;
  or_clean probe (status ← connectWithoutPolicy probe; _ ← probe_route status; mret status).

End Controller.

(** ** The service's controller

    The service asks for the packages and the state without looking at what these
    commands leave behind. *)
Section Instance_.
  Context `{AWGHost W} (c : OpenWrtController).

Definition as_option {A} (r : result string A * W) : option string * W :=
  (match r.1 with Ok _ => None | Err e => Some e end, r.2).

#[local] Instance openwrt_controller : AWGController W := {
  controller := true; isolates := true; has_policy_routes := true;
  awg_preflight w := match (Preflight c w).1 with Ok compat => (compat, None) | Err (compat, e) => (compat, Some e) end;
  awg_status w := (Status c w).1;
  awg_prepare p w := as_option (Prepare c p w);
  awg_connect w := Connect c w;
  awg_disconnect w := as_option (Disconnect c w);
  awg_remove w := as_option (Remove c w);
  ensure_routes i w := as_option (EnsurePolicyRoutes c i w);
  prepare_isolated p w := let '(r, w) := PrepareIsolatedProbe c p w in ((r, true), w);
  isolated_cleanup w := as_option (removeIsolatedProbe (probe_of c) w)
}.

End Instance_.

(** ** Which commands are sent *)

Class AWGHostLaws (W : Type) `{AWGHost W} (sent : W -> list Sent) (instant : W -> Time) : Prop := {
  sent_run : forall s w, sent (run_with s w).2 = sent w ++ [s];
  sent_clock : forall w, sent (awg_clock w).2 = sent w;
  sent_pause : forall w, sent (pause w).2 = sent w;
  run_time : forall s w, instant w <= instant (run_with s w).2;
  clock_time : forall w, instant w <= (awg_clock w).1 /\ (awg_clock w).1 <= instant (awg_clock w).2;
  pause_time : forall w w', pause w = (None, w') -> instant w + 100 * Millisecond <= instant w'
}.

(** A command that changes nothing. *)
Definition only_reads (s : Sent) : bool :=
  bool_decide (Sent.program s ∈ ["uname"; "amneziawg-go"; FastLaneAWGTool; "modinfo"])
  || bool_decide (Sent.program s = "opkg" /\ head (Sent.arguments s) = Some "status")
  || bool_decide (Sent.program s = "modprobe" /\ head (Sent.arguments s) = Some "-n").

Definition section_of (c : Command) : string :=
  match c with DeleteSection s | NewSection s _ | SetOption s _ _ | AddList s _ _ => s end.

(** A batch of [uci] that edits only the sections of the interface. *)
Definition batch_of (name : string) (text : string) : Prop :=
  exists commands, text = Join (render <$> commands) newline +:+ newline /\
    Forall (fun c => section_of c = name \/ section_of c = "amneziawg_" +:+ name) commands.

(** A command that reads, or that concerns one interface and one table of routes. *)
Inductive confined (name : string) (table : Z) : Sent -> Prop :=
| ConfinedRoute before after : confined name table (Sent.mk "" "ip" (before ++ "table" :: Itoa table :: after))
| ConfinedUp : confined name table (Sent.mk "" "ifup" [name])
| ConfinedDown : confined name table (Sent.mk "" "ifdown" [name])
| ConfinedBatch text : batch_of name text -> confined name table (Sent.mk text "uci" ["-q"; "batch"])
| ConfinedCommit : confined name table (Sent.mk "" "uci" ["commit"; "network"])
| ConfinedReload : confined name table (Sent.mk "" "ubus" ["call"; "network"; "reload"])
| ConfinedStatus : confined name table (Sent.mk "" "ubus" ["call"; "network.interface." +:+ name; "status"])
| ConfinedMwan : confined name table (Sent.mk "" FastLaneMwan3Helper ["--interface"; name])
| ConfinedReading s : only_reads s = true -> confined name table s.

Section Sends.
  Context `{AWGHostLaws W sent instant}.

(** A program all of whose commands satisfy [ok], and that sends only these. *)
Definition sends {E A} (ok : Sent -> Prop) (p : Prog W E A) : Prop := forall w, exists l, sent (p w).2 = sent w ++ l /\ Forall ok l.

Section Rules.
  Context {E : Type} (ok : Sent -> Prop).

Lemma sends_quiet {A} (p : Prog W E A) : (forall w, sent (p w).2 = sent w) -> sends ok p.
Proof. intros Hp w. exists []. by rewrite app_nil_r. Qed.

Lemma sends_bind {A B} (p : Prog W E A) (k : A -> Prog W E B) : sends ok p -> (forall a, sends ok (k a)) -> sends ok (p ≫= k).
Proof.
  intros Hp Hk w. unfold mbind, prog_bind. destruct (Hp w) as (l & El & Hl). destruct (p w) as [[a|e] w1]; cbn in El |- *; [|by exists l].
  destruct (Hk a w1) as (l' & El' & Hl'). exists (l ++ l'). rewrite El', El, <- app_assoc. split; [done|]. by apply Forall_app.
Qed.

Lemma sends_bind_result {A B} (r : result E A) (k : A -> Prog W E B) : (forall a, r = Ok a -> sends ok (k a)) -> sends ok (of_result r ≫= k).
Proof. intros Hk. destruct r as [a|e]; [exact (Hk a eq_refl)|]. by apply sends_quiet. Qed.

Lemma sends_run stdin program arguments : ok (Sent.mk stdin program arguments) -> sends ok (run_awg (E := E) stdin program arguments).
Proof.
  intros Ho w. unfold run_awg, outcome. pose proof (sent_run (Sent.mk stdin program arguments) w) as Es.
  destruct (run_with _ w) as [r w']. cbn in Es |- *. exists [Sent.mk stdin program arguments]. split; [done|]. by apply Forall_singleton.
Qed.

Lemma sends_attempt {A} (p : Prog W E A) : sends ok p -> sends (E := E) ok (attempt p).
Proof. intros Hp w. destruct (Hp w) as (l & El & Hl). exists l. split; [|done]. rewrite <- El. unfold attempt. by destruct (p w). Qed.

Lemma sends_ignore {A} (p : Prog W E A) : sends ok p -> sends ok (ignore p).
Proof. exact (fun Hp => Hp). Qed.

Lemma sends_when b (p : Prog W E unit) : sends ok p -> sends ok (when b p).
Proof. destruct b; [done|]. intros _. by apply sends_quiet. Qed.

Lemma sends_map_error {E' A} (f : E' -> E) (p : Prog W E' A) : sends ok p -> sends ok (map_error f p).
Proof. intros Hp w. destruct (Hp w) as (l & El & Hl). exists l. split; [|done]. rewrite <- El. unfold map_error. by destruct (p w) as [[|]]. Qed.

Lemma sends_reads {A} (f : W -> A) : sends ok (reads (E := E) f).
Proof. by apply sends_quiet. Qed.

Lemma sends_ret {A} (a : A) : sends ok (mret (M := Prog W E) a).
Proof. by apply sends_quiet. Qed.

Lemma sends_raise {A} (e : E) : sends ok (raise (A := A) e).
Proof. by apply sends_quiet. Qed.

Lemma sends_of_result {A} (r : result E A) : sends ok (of_result r).
Proof. by apply sends_quiet. Qed.

Lemma sends_clock : sends ok (outcome (E := E) awg_clock).
Proof. apply sends_quiet. intros w. unfold outcome. pose proof (sent_clock w). by destruct (awg_clock w). Qed.

Lemma sends_pause (f : string -> E) : sends ok (act f pause).
Proof. apply sends_quiet. intros w. unfold act. pose proof (sent_pause w). by destruct (pause w) as [[|]]. Qed.

End Rules.

Lemma sends_weaken {E A} (ok ok' : Sent -> Prop) (p : Prog W E A) : (forall s, ok s -> ok' s) -> sends ok p -> sends ok' p.
Proof. intros Ho Hp w. destruct (Hp w) as (l & El & Hl). exists l. split; [done|]. eapply Forall_impl; [exact Hl|exact Ho]. Qed.

#[local] Hint Resolve sends_reads sends_ret sends_raise sends_of_result sends_clock sends_pause : sends.

(** Goes through the steps of a program; its commands are left. *)
Ltac sends_steps :=
  repeat first
    [ solve [eauto with sends]
    | match goal with
      | |- sends _ (mbind _ _) => apply sends_bind; [|intros ?]
      | |- sends _ (run_awg _ _ _) => apply sends_run
      | |- sends _ (attempt _) => apply sends_attempt
      | |- sends _ (ignore _) => apply sends_ignore
      | |- sends _ (when _ _) => apply sends_when
      | |- sends _ (map_error _ _) => apply sends_map_error
      | |- sends _ (refuse_with _ _) => apply sends_raise
      | |- sends _ (match ?x with _ => _ end) => destruct x
      end ].

Lemma sends_command ok context stdin program arguments : ok (Sent.mk stdin program arguments) -> sends ok (command context stdin program arguments).
Proof. intros Ho. unfold command. sends_steps. Qed.

Lemma sends_try ok program arguments : ok (Sent.mk "" program arguments) -> sends ok (try_command program arguments).
Proof. intros Ho. unfold try_command. sends_steps. Qed.

Lemma sends_tries ok program l : Forall (fun arguments => ok (Sent.mk "" program arguments)) l -> sends ok (try_commands program l).
Proof.
  induction 1 as [|arguments l Ha _ IH]; cbn [try_commands]; [apply sends_ret|]. apply sends_bind; [by apply sends_try|]. intros _. exact IH.
Qed.

(** *** Reading *)

Abbreviation reading_commands := (fun s => only_reads s = true).

Lemma sends_userspace c compat : sends reading_commands (userspaceAvailable c compat).
Proof. unfold userspaceAvailable. sends_steps. Qed.

#[local] Hint Resolve sends_userspace : sends.

Lemma sends_fall_back c compat primary : sends reading_commands (fall_back c compat primary).
Proof. unfold fall_back. sends_steps. Qed.

#[local] Hint Resolve sends_fall_back : sends.

Lemma sends_preflight c : sends reading_commands (Preflight c).
Proof. unfold Preflight, module_by_package, module_by_version. cbv zeta. sends_steps. Qed.

(** *** The sections of a batch *)

Section Sections.
  Context (P : Command -> Prop) (name : string) (Hs : forall key value, P (SetOption name key value)) (Ha : forall key value, P (AddList name key value)).

Lemma Forall_imap {A} (f : nat -> A -> Command) l : (forall i x, P (f i x)) -> Forall P (imap f l).
Proof. revert f. induction l as [|x l IH]; intros f Hf; [constructor|]. constructor; [apply Hf|]. apply IH. intros i y. apply Hf. Qed.

Lemma interface_sections version i : Forall P (interface_commands name version i).
Proof.
  unfold interface_commands. cbv zeta. repeat (apply Forall_app; split); try (by repeat constructor).
  - by destruct (0 <? _); repeat constructor.
  - apply Forall_fmap, Forall_true. intros a. apply Ha.
  - apply Forall_imap. intros. apply Hs.
  - apply Forall_imap. intros. apply Hs.
  - destruct (modern version); [|constructor]. generalize (Obfuscation.SpecialJunk (Interface.Obfuscation i)). intros l. apply Forall_concat.
    assert (G : forall (f : nat -> string -> list Command), (forall i x, Forall P (f i x)) -> Forall (Forall P) (imap f l)).
    { induction l as [|x l IH]; intros f Hf; [constructor|]. constructor; [apply Hf|]. apply IH. intros j y. apply Hf. }
    apply G. intros j x. destruct (bool_decide _); by repeat constructor.
Qed.

Lemma v31_sections v : Forall P (v31_commands name v).
Proof. unfold v31_commands. cbv zeta. destruct (PrivateKey.set _); cbn [app]; by repeat constructor. Qed.

Lemma peer_sections host port addresses peer : Forall P (peer_commands name host port addresses peer).
Proof.
  unfold peer_commands. cbv zeta. repeat (apply Forall_app; split); try (by repeat constructor); case_match; by repeat constructor.
Qed.

End Sections.

(** *** One interface and one table *)

Section Confined.
  Context (c : OpenWrtController) (table : Z).

Abbreviation here := (confined (iface c) table).

Lemma sends_status : sends here (Status c).
Proof.
  unfold Status. cbv zeta. sends_steps; try constructor; reflexivity.
Qed.

Lemma preflight_here : sends here (Preflight c).
Proof. eapply sends_weaken; [|apply sends_preflight]. intros s. apply ConfinedReading. Qed.

Lemma batch_here profile text : uciBatch (OpenWrtController.InterfaceName c) profile = Ok text -> batch_of (iface c) text.
Proof.
  unfold uciBatch. destruct (batch_commands _ profile) as [commands|] eqn:E; [|discriminate]. intros Et. injection Et as <-.
  exists commands. split; [done|]. unfold batch_commands in E. destruct (_ || _); [discriminate|].
  destruct (SplitHostPort _) as [[host port]|]; [|discriminate]. cbv zeta in E.
  assert (Hok : forall l l' : list Command, @Ok string _ l = Ok l' -> l = l') by congruence. apply Hok in E as <-.
  fold (iface c). apply Forall_app. split; [repeat (constructor; [by auto|]); constructor|].
  apply Forall_app. split; [apply interface_sections; by left|]. apply Forall_app. split.
  - destruct (bool_decide _); [|constructor]. apply v31_sections. by left.
  - apply Forall_app. split; [constructor; [by right|constructor]|]. apply peer_sections; by right.
Qed.

#[local] Hint Resolve sends_status preflight_here : sends.

Lemma sends_prepare profile : sends here (Prepare c profile).
Proof.
  unfold Prepare, v31_supported. apply sends_bind; [sends_steps|]. intros compat. apply sends_bind; [sends_steps|]. intros _.
  apply sends_bind_result. intros batch Hb. sends_steps; apply sends_command; constructor. by eapply batch_here.
Qed.

Lemma delete_here : batch_of (iface c) (delete_batch (iface c)).
Proof. eexists [_; _]. split; [reflexivity|]. apply Forall_cons_2; [by left|]. apply Forall_cons_2; [by right|apply Forall_nil_2]. Qed.

Lemma sends_delete context commit_context : sends here (delete_sections c context commit_context).
Proof.
  unfold delete_sections. sends_steps; [apply sends_command; constructor; apply delete_here|constructor].
Qed.

Lemma sends_wait polls deadline : sends here (wait_ready c polls deadline).
Proof. revert deadline. induction polls as [|polls IH]; intros deadline; cbn [wait_ready]; sends_steps. Qed.

#[local] Hint Resolve sends_wait sends_delete : sends.

Lemma sends_connect_without : sends here (connectWithoutPolicy c).
Proof. unfold connectWithoutPolicy. sends_steps. apply sends_command. constructor. Qed.

Lemma here_rule family verb device priority : here (Sent.mk "" "ip" (oif_rule family verb device table priority)).
Proof. exact (ConfinedRoute (iface c) table [family; "rule"; verb; "oif"; device] ["priority"; priority]). Qed.

Lemma here_route family device : here (Sent.mk "" "ip" (default_route family device table)).
Proof. exact (ConfinedRoute (iface c) table [family; "route"; "replace"; "default"; "dev"; device] []). Qed.

Lemma here_flush family : here (Sent.mk "" "ip" (flush_table family table)).
Proof. exact (ConfinedRoute (iface c) table [family; "route"; "flush"] []). Qed.

#[local] Hint Resolve sends_connect_without : sends.

End Confined.

#[local] Hint Resolve here_rule here_route here_flush sends_status sends_prepare sends_delete sends_connect_without : sends.

Lemma sends_policy c status : sends (confined (iface c) RouteTable) (installPolicyRoutes status).
Proof. unfold installPolicyRoutes. cbv zeta. sends_steps; (apply sends_command || apply sends_try); eauto with sends. Qed.

Lemma sends_mwan c table : sends (confined (iface c) table) (syncMwanEndpointRoute c).
Proof. unfold syncMwanEndpointRoute. sends_steps. apply sends_command. constructor. Qed.

Lemma sends_disconnect c : sends (confined (iface c) RouteTable) (Disconnect c).
Proof.
  unfold Disconnect. sends_steps; [|constructor]. apply sends_tries. unfold connection_rules.
  repeat apply Forall_cons_2; try apply Forall_nil_2; try apply here_rule; try apply here_flush;
    match goal with |- confined _ _ (Sent.mk _ _ (mark_rule ?f ?m)) => exact (ConfinedRoute _ RouteTable [f; "rule"; "del"; "fwmark"; m] ["priority"; "10900"]) end.
Qed.

#[local] Hint Resolve sends_policy sends_mwan sends_disconnect : sends.

Lemma sends_connect c : sends (confined (iface c) RouteTable) (Connect c).
Proof. unfold Connect. sends_steps. Qed.

Lemma sends_ensure c status : sends (confined (iface c) RouteTable) (EnsurePolicyRoutes c status).
Proof. unfold EnsurePolicyRoutes. sends_steps. Qed.

Lemma sends_remove c : sends (confined (iface c) RouteTable) (Remove c).
Proof. unfold Remove. sends_steps. Qed.

Lemma sends_remove_probe c : sends (confined (iface c) ProbeRouteTable) (removeIsolatedProbe c).
Proof.
  unfold removeIsolatedProbe. sends_steps; try (apply sends_tries); try (apply sends_try; constructor).
  - unfold probe_rules. repeat apply Forall_cons_2; try apply Forall_nil_2; first [apply here_rule|apply here_flush].
  - unfold old_rules. destruct (bool_decide _); [constructor|]. cbv zeta. repeat apply Forall_cons_2; [|apply here_flush|constructor].
    match goal with |- confined _ _ (Sent.mk _ _ [?f; _; _; _; ?a; _; _; _; _]) => exact (ConfinedRoute _ ProbeRouteTable [f; "rule"; "del"; "from"; a] ["priority"; "10901"]) end.
Qed.

#[local] Hint Resolve sends_remove_probe : sends.

Lemma sends_probe c profile : sends (confined ProbeInterfaceName ProbeRouteTable) (PrepareIsolatedProbe c profile).
Proof.
  change ProbeInterfaceName with (iface (probe_of c)). unfold PrepareIsolatedProbe, or_clean, probe_route. cbv zeta.
  sends_steps; (apply sends_command || apply sends_try); eauto with sends.
Qed.

(** ** What the controller guarantees *)

(** C25: measuring a profile cannot disturb the connection.  However it ends, setting up
    the isolated interface and removing it only read, edit the two sections of that
    interface, bring it up or down, and name its own table of routes; connecting,
    disconnecting and removing name the other table and the other interface. *)
Theorem probe_is_isolated c profile w : let probe := confined ProbeInterfaceName ProbeRouteTable in
  (exists l, sent (PrepareIsolatedProbe c profile w).2 = sent w ++ l /\ Forall probe l) /\
  (exists l, sent (removeIsolatedProbe (probe_of c) w).2 = sent w ++ l /\ Forall probe l) /\
  let own := confined (iface c) RouteTable in
  (exists l, sent (Prepare c profile w).2 = sent w ++ l /\ Forall own l) /\
  (exists l, sent (Connect c w).2 = sent w ++ l /\ Forall own l) /\
  (exists l, sent (Disconnect c w).2 = sent w ++ l /\ Forall own l) /\
  (exists l, sent (Remove c w).2 = sent w ++ l /\ Forall own l).
Proof.
  cbv zeta. split_and!; [apply sends_probe|apply (sends_remove_probe (probe_of c))|apply sends_prepare|apply sends_connect|apply sends_disconnect|apply sends_remove].
Qed.

(** The commands that put a batch into use, in their order. *)
Definition staging (batch : string) : list Sent :=
  [Sent.mk batch "uci" ["-q"; "batch"]; Sent.mk "" "uci" ["commit"; "network"]; Sent.mk "" "ubus" ["call"; "network"; "reload"]].

Lemma command_run context stdin program arguments w r w' : command context stdin program arguments w = (r, w') ->
  sent w' = sent w ++ [Sent.mk stdin program arguments].
Proof.
  unfold command, run_awg, mbind, prog_bind, outcome. pose proof (sent_run (Sent.mk stdin program arguments) w) as Es.
  destruct (run_with _ w) as [[printed [e|]] w1]; intros E; injection E as _ <-; exact Es.
Qed.

(** Nothing is staged before the packages fit and the batch exists, nothing is
    committed that was not staged, and nothing is reloaded that was not committed. *)
Theorem prepare_order c profile w r w' : Prepare c profile w = (r, w') ->
  exists l batch n, sent w' = sent w ++ l ++ take n (staging batch) /\ Forall (fun s => only_reads s = true) l /\
    (0 < n -> uciBatch (OpenWrtController.InterfaceName c) profile = Ok batch)%nat /\ (r = Ok tt -> n = 3%nat).
Proof.
  intros Hrun. destruct (uciBatch (OpenWrtController.InterfaceName c) profile) as [batch|e] eqn:Eb.
  - set (checks := compat ← map_error snd (Preflight c); when (bool_decide (Profile.Version profile = Version31)) (v31_supported c compat)).
    assert (Hc : sends (fun s => only_reads s = true) checks).
    { unfold checks, v31_supported. apply sends_bind; [apply sends_map_error, sends_preflight|]. intros compat. sends_steps. }
    assert (Hp : Prepare c profile w = (checks ≫= fun _ => _ ← command "stage AmneziaWG netifd config" batch "uci" ["-q"; "batch"];
              _ ← command "commit AmneziaWG netifd config" "" "uci" ["commit"; "network"];
              command "reload netifd configuration" "" "ubus" ["call"; "network"; "reload"]) w).
    { unfold Prepare, checks, mbind, prog_bind. rewrite Eb. cbn [of_result]. unfold of_result.
      destruct (map_error snd (Preflight c) w) as [[compat|] w1]; [|done]. by destruct (when _ _ w1) as [[|]]. }
    rewrite Hp in Hrun. destruct (Hc w) as (l & El & Hl). unfold mbind at 1, prog_bind at 1 in Hrun.
    destruct (checks w) as [[u|e] w1]; cbn in El; [|injection Hrun as <- <-; exists l, batch, 0%nat; rewrite app_nil_r; split_and!; [done|done|lia|done]].
    unfold mbind at 1, prog_bind at 1 in Hrun. destruct (command "stage AmneziaWG netifd config" _ _ _ w1) as [[u1|e1] w2] eqn:E1; apply command_run in E1.
    2: { injection Hrun as <- <-. exists l, batch, 1%nat. rewrite E1, El, <- app_assoc. by split_and!. }
    unfold mbind at 1, prog_bind at 1 in Hrun. destruct (command "commit AmneziaWG netifd config" _ _ _ w2) as [[u2|e2] w3] eqn:E2; apply command_run in E2.
    2: { injection Hrun as <- <-. exists l, batch, 2%nat. rewrite E2, E1, El, <- !app_assoc. by split_and!. }
    apply command_run in Hrun. exists l, batch, 3%nat. rewrite Hrun, E2, E1, El, <- !app_assoc. by split_and!.
  - unfold Prepare in Hrun. rewrite Eb in Hrun.
    assert (Hc : sends (fun s => only_reads s = true) (compat ← map_error snd (Preflight c);
        _ ← when (bool_decide (Profile.Version profile = Version31)) (v31_supported c compat);
        batch ← of_result (Err e : result string string);
        _ ← command "stage AmneziaWG netifd config" batch "uci" ["-q"; "batch"];
        _ ← command "commit AmneziaWG netifd config" "" "uci" ["commit"; "network"];
        command "reload netifd configuration" "" "ubus" ["call"; "network"; "reload"])).
    { unfold v31_supported. apply sends_bind; [apply sends_map_error, sends_preflight|]. intros compat. apply sends_bind; [sends_steps|]. intros _.
      by apply sends_bind_result. }
    destruct (Hc w) as (l & El & Hl). rewrite Hrun in El. exists l, "", 0%nat. rewrite app_nil_r. split_and!; [done|done|lia|].
    intros ->. exfalso. revert Hrun. intros (compat & w1 & _ & Hk)%bind_ok. apply bind_ok in Hk as (? & w2 & _ & Hk). by apply bind_ok in Hk as (? & w3 & Hk & _).
Qed.

(** *** Waiting *)

Lemma status_time c w : instant w <= instant (Status c w).2.
Proof.
  unfold Status, run_awg, mbind, prog_bind, outcome. pose proof (run_time (Sent.mk "" "ubus" ["call"; "network.interface." +:+ iface c; "status"]) w) as H1.
  destruct (run_with _ w) as [[printed [e|]] w1]; cbn in H1; [exact H1|]. destruct (decode_interface printed) as [u|]; [|exact H1]. cbv zeta.
  destruct (UbusInterface.Up u); [|exact H1]. pose proof (run_time (Sent.mk "" FastLaneAWGTool ["show"; iface c; "latest-handshakes"]) w1) as H2.
  destruct (run_with _ w1) as [[? ?] w2]. cbn in *. lia.
Qed.

Lemma wait_stable c more polls deadline : forall w, deadline < instant w + 100 * Millisecond * (Z.of_nat polls - 1) -> polls <> O ->
  wait_ready c (polls + more) deadline w = wait_ready c polls deadline w.
Proof.
  induction polls as [|polls IH]; intros w Hd Hn; [done|]. cbn [Nat.add wait_ready]. pose proof (status_time c w) as Ht.
  unfold mbind at 1 4, prog_bind at 1 4, attempt. destruct (Status c w) as [r w1]. cbn in Ht. destruct (ready r); [reflexivity|].
  unfold mbind at 1 3, prog_bind at 1 3, outcome. destruct (clock_time w1) as [Hc1 Hc2]. destruct (awg_clock w1) as [now w2]. cbn in Hc1, Hc2.
  destruct (After now deadline) eqn:Ea; [reflexivity|]. unfold After in Ea. apply Z.ltb_ge in Ea.
  unfold mbind, prog_bind, act. pose proof (pause_time w2) as Hp. destruct (pause w2) as [[e|] w3] eqn:Ep; [reflexivity|].
  specialize (Hp _ eq_refl). apply IH; [lia|]. intros ->. lia.
Qed.

(** C22: waiting for the interface ends.  The polls that the model allows are as many as
    the deadline allows when a pause lasts a tenth of a second, so that any larger
    number gives the same result, the same commands included. *)
Theorem waiting_ends c polls w : (enough_polls c <= polls)%nat ->
  wait_ready c polls (Add (instant w) (waitTimeout c)) w = wait_ready c (enough_polls c) (Add (instant w) (waitTimeout c)) w.
Proof.
  intros Hp. replace polls with (enough_polls c + (polls - enough_polls c))%nat by lia.
  assert (Hpos : 0 < waitTimeout c) by (unfold waitTimeout; destruct (Z.leb_spec (OpenWrtController.WaitTimeout c) 0); [reflexivity|done]).
  pose proof (Z.div_mod (waitTimeout c) (100 * Millisecond) ltac:(done)) as Hd. pose proof (Z.mod_pos_bound (waitTimeout c) (100 * Millisecond) ltac:(done)) as Hm.
  pose proof (Z.div_pos (waitTimeout c) (100 * Millisecond) ltac:(lia) ltac:(done)) as Hq.
  apply wait_stable; unfold enough_polls, Add; [rewrite Z2Nat.id by lia|]; lia.
Qed.

End Sends.

(** ** What the service relies on *)

Section Quiet.
  Context `{AWGHost W} {T : Type} (view : W -> T) (c : OpenWrtController).
  Context (quiet_run : forall s w, view (run_with s w).2 = view w) (quiet_clock : forall w, view (awg_clock w).2 = view w)
    (quiet_pause : forall w, view (pause w).2 = view w).

Lemma quiet_awg {E} stdin program arguments : untouched view (run_awg (E := E) stdin program arguments).
Proof. apply untouched_outcome. intros w. apply quiet_run. Qed.

#[local] Hint Resolve quiet_awg quiet_run quiet_clock quiet_pause : untouched.

Lemma quiet_refuse {A} compat reason : untouched view (refuse_with (A := A) compat reason).
Proof. apply untouched_raise. Qed.

Lemma quiet_command context stdin program arguments : untouched view (command context stdin program arguments).
Proof. unfold command. untouched_steps. Qed.

Lemma quiet_tries program l : untouched view (try_commands program l).
Proof. induction l as [|arguments l IH]; cbn [try_commands]; unfold try_command; untouched_steps. Qed.

#[local] Hint Resolve quiet_refuse quiet_command quiet_tries : untouched.

Lemma quiet_available compat c' : untouched view (userspaceAvailable c' compat).
Proof. unfold userspaceAvailable. untouched_steps. Qed.

#[local] Hint Resolve quiet_available : untouched.

Lemma quiet_back compat c' primary : untouched view (fall_back c' compat primary).
Proof. unfold fall_back. untouched_steps. Qed.

#[local] Hint Resolve quiet_back : untouched.

Lemma quiet_preflight c' : untouched view (Preflight c').
Proof. unfold Preflight, module_by_package, module_by_version. cbv zeta. untouched_steps. Qed.

Lemma quiet_status c' : untouched view (Status c').
Proof. unfold Status. cbv zeta. untouched_steps. Qed.

#[local] Hint Resolve quiet_preflight quiet_status : untouched.

Lemma quiet_prepare c' profile : untouched view (Prepare c' profile).
Proof. unfold Prepare, v31_supported. untouched_steps. Qed.

Lemma quiet_wait c' polls deadline : untouched view (wait_ready c' polls deadline).
Proof. revert deadline. induction polls as [|polls IH]; intros deadline; cbn [wait_ready]; untouched_steps. Qed.

#[local] Hint Resolve quiet_prepare quiet_wait : untouched.

Lemma quiet_without c' : untouched view (connectWithoutPolicy c').
Proof. unfold connectWithoutPolicy. untouched_steps. Qed.

Lemma quiet_policy status : untouched view (installPolicyRoutes status).
Proof. unfold installPolicyRoutes, try_command. cbv zeta. untouched_steps. Qed.

Lemma quiet_mwan c' : untouched view (syncMwanEndpointRoute c').
Proof. unfold syncMwanEndpointRoute. untouched_steps. Qed.

Lemma quiet_disconnect c' : untouched view (Disconnect c').
Proof. unfold Disconnect. untouched_steps. Qed.

Lemma quiet_delete c' context commit_context : untouched view (delete_sections c' context commit_context).
Proof. unfold delete_sections. untouched_steps. Qed.

#[local] Hint Resolve quiet_without quiet_policy quiet_mwan quiet_disconnect quiet_delete : untouched.

Lemma quiet_remove_probe c' : untouched view (removeIsolatedProbe c').
Proof. unfold removeIsolatedProbe, try_command. untouched_steps. Qed.

#[local] Hint Resolve quiet_remove_probe : untouched.

Lemma quiet_probe c' profile : untouched view (PrepareIsolatedProbe c' profile).
Proof. unfold PrepareIsolatedProbe, or_clean, probe_route, try_command. cbv zeta. untouched_steps. Qed.

Lemma quiet_connect c' : untouched view (Connect c').
Proof. unfold Connect. untouched_steps. Qed.

Lemma as_option_quiet {A} (p : Prog W string A) w : untouched view p -> view (as_option (p w)).2 = view w.
Proof. intros Hp. exact (Hp w). Qed.

#[local] Existing Instance openwrt_controller.

(** The controller discharges what the service asks of one: whatever the commands
    leave alone, such as the route of the running process and the files of the
    service, its operations leave alone. *)
Theorem controller_is_quiet :
  let C := openwrt_controller c in
  (forall p w, view (awg_prepare p w).2 = view w) /\ (forall w, view (awg_connect w).2 = view w) /\
  (forall w, view (awg_disconnect w).2 = view w) /\ (forall w, view (awg_remove w).2 = view w) /\
  (forall i w, view (ensure_routes i w).2 = view w) /\ (forall p w, view (prepare_isolated p w).2 = view w) /\
  (forall w, view (isolated_cleanup w).2 = view w).
Proof.
  cbv zeta. split_and!; intros.
  - apply as_option_quiet, quiet_prepare.
  - apply quiet_connect.
  - apply as_option_quiet, quiet_disconnect.
  - apply as_option_quiet. unfold Remove. untouched_steps.
  - apply as_option_quiet. unfold EnsurePolicyRoutes. untouched_steps.
  - cbn [prepare_isolated openwrt_controller]. pose proof (quiet_probe c p w) as Hp. by destruct (PrepareIsolatedProbe c p w).
  - apply as_option_quiet, quiet_remove_probe.
Qed.

End Quiet.

(** ** A router in memory *)

Record AWGMemory : Type := { history : list Sent; time_now : Time; up_interface : string }.

(** What the commands print: the programs are there, and an interface that was
    brought up has an address. *)
Definition printed_by (s : Sent) (w : AWGMemory) : string * option string :=
  if bool_decide (Sent.program s = "uname") then ("6.6.1" +:+ newline, None)
  else if bool_decide (Sent.arguments s = ["call"; "network"; "reload"]) then ("", None)
  else if bool_decide (Sent.program s = "ubus") then (up_interface w, if bool_decide (up_interface w = "") then Some "exit status 4" else None)
  else if bool_decide (Sent.program s = FastLaneAWGTool) then ("v3.1.2", None)
  else ("0", None).

#[export] Instance memory_awg : AWGHost AWGMemory := {
  run_with s w :=
    (printed_by s w,
     Build_AWGMemory (history w ++ [s]) (time_now w)
       (if bool_decide (Sent.program s = "ifup") then default "" (head (Sent.arguments s))
        else if bool_decide (Sent.program s = "ifdown") then "" else up_interface w));
  stat_path _ _ := Some false;
  read_text _ _ := Some ("amneziawg-go " +:+ FastLaneAWGTool +:+ " awg_header_protection_key awg_random_trailers awg_force_userspace");
  awg_clock w := (time_now w, w);
  pause w := (None, Build_AWGMemory (history w) (Add (time_now w) (100 * Millisecond)) (up_interface w));
  decode_interface text := Ok (UbusInterface.mk true text ["10.8.0.2"] [])
}.

Lemma memory_awg_laws : AWGHostLaws AWGMemory history time_now.
Proof.
  split; try reflexivity; cbn; try (intros; unfold Add; lia); try done. intros w w' E. injection E as <-. cbn. unfold Add. lia.
Qed.

Definition router : OpenWrtController := OpenWrtController.mk "" "" 0.
Definition idle_router : AWGMemory := Build_AWGMemory [] 0 "".

Definition stored_profile : Profile := match Parse (sample_text (EncodeToString (sample_key 9))) with Ok p => p | Err _ =>
  Profile.mk "" (Interface.mk (PrivateKey.mk [] false) [] 0 (Obfuscation.mk 0 0 0 [] [] []) V31Parameters.zero) (Peer.mk [] "" (Uint32Range.mk 0 0) (PresharedKey.mk [] false)) [] end.

Abbreviation probed_run := (PrepareIsolatedProbe router stored_profile idle_router).

Lemma probe_is_isolated_witness :
  probed_run.1 = Ok (InterfaceStatus.mk true ProbeInterfaceName "10.8.0.2" 0) /\
  Forall (confined ProbeInterfaceName ProbeRouteTable) (history probed_run.2).
Proof.
  split; [vm_compute; reflexivity|].
  destruct (proj1 (probe_is_isolated (H0 := memory_awg_laws) router stored_profile idle_router)) as (l & El & Hl).
  rewrite El. exact Hl.
Defined.

Lemma waiting_ends_witness :
  enough_polls router = 82%nat /\
  wait_ready router 200 (Add 0 (8 * Second)) idle_router = wait_ready router 82 (Add 0 (8 * Second)) idle_router.
Proof.
  split; [vm_compute; reflexivity|].
  exact (waiting_ends (H0 := memory_awg_laws) router 200 idle_router ltac:(vm_compute; lia)).
Defined.

Abbreviation prepared_run := (Prepare router stored_profile idle_router).

Lemma prepare_order_witness :
  prepared_run.1 = Ok tt /\
  exists l batch n, history prepared_run.2 = [] ++ l ++ take n (staging batch) /\ Forall (fun s => only_reads s = true) l /\
    (0 < n -> uciBatch "" stored_profile = Ok batch)%nat /\ (prepared_run.1 = Ok tt -> n = 3%nat).
Proof.
  split; [vm_compute; reflexivity|].
  exact (prepare_order (H0 := memory_awg_laws) router stored_profile idle_router prepared_run.1 prepared_run.2 (surjective_pairing _)).
Defined.

Lemma controller_is_quiet_witness :
  stat_path (W := AWGMemory) "/dev/net/tun" (Connect router idle_router).2 = Some false /\
  (forall p w, stat_path "/dev/net/tun" (awg_prepare (AWGController := openwrt_controller router) p w).2 = stat_path "/dev/net/tun" w).
Proof.
  split; [vm_compute; reflexivity|].
  exact (proj1 (controller_is_quiet (stat_path "/dev/net/tun") router (fun _ _ => eq_refl) (fun _ => eq_refl) (fun _ => eq_refl))).
Defined.
