(* ===== verification/OpenWrtFirewall.v ===== *)
(** * The firewall manager

    [FirewallManager] of [platform/openwrt/firewall.go] and [platform/openwrt/dnsmasq.go]:
    the connection tracking limit, loading and removing the rules, the routing of
    marked packets, and the snippet that makes dnsmasq fill the sets. *)
From S2P Require Import Prelude GoRunes GoStrings GoNum NetIP Domain GoConv IPv4Range Firewall FirewallSettings NFTables NFTablesFacts Effects AtomicFiles AmneziaStore OpenWrtHost.

Local Open Scope list_scope.

(** ** Connection tracking *)

Definition minConntrackMax : Z := 16384.
Definition maxConntrackMax : Z := 131072.

(** [bits.Len] of an unsigned 64-bit value. *)
Definition Len64 (x : Z) : Z := if (x =? 0)%Z then 0%Z else (Z.log2 x + 1)%Z.

Definition nextPowerOfTwo (value : Z) : Z :=
  if (value <=? 1)%Z then 1%Z else wrap64 (Z.shiftl 1 (Len64 (wrap_u64 (value - 1)))).

Definition conntrackTargetForMemTotalKiB (memTotalKiB : Z) : Z :=
  let base := quot64 memTotalKiB 4 in
  let base := if (base <? 1)%Z then 1%Z else base in
  let target := nextPowerOfTwo base in
  let target := if (target <? minConntrackMax)%Z then minConntrackMax else target in
  if (maxConntrackMax <? target)%Z then maxConntrackMax else target.

Example target_ex1 : conntrackTargetForMemTotalKiB 250000 = 65536%Z.
Proof. reflexivity. Qed.

Module FirewallManager.
Record FirewallManager : Type := mk {
  NFTPath : string;
  IPPath : string;
  RulesPath : string;
  DNSMasqPath : string;
  DNSMasqServicePath : string;
  DNSMasqSnippetPath : string;
  ProcRoot : string;
  MemInfoPath : string;
  ConntrackMaxPath : string;
  ConntrackCountPath : string
}.
End FirewallManager.
Abbreviation FirewallManager := FirewallManager.FirewallManager.

Module conntrackStats.
Record conntrackStats : Type := mk { Count : Z; Max : Z; Target : Z; Updated : bool; ShouldWarn : bool }.
End conntrackStats.
Abbreviation conntrackStats := conntrackStats.conntrackStats.

(** The number on the first line that begins with [MemTotal:]. *)
Fixpoint mem_total (path : string) (l : list string) : result string Z :=
  match l with
  | [] => Err ("parse " +:+ path +:+ ": MemTotal not found")
  | line :: rest =>
    let line := TrimSpace line in
    if negb (HasPrefix line "MemTotal:") then mem_total path rest
    else match Fields line with
         | _ :: value :: _ => match Atoi value with Some v => Ok v | None => Err ("parse " +:+ path +:+ ": invalid syntax") end
         | _ => Err ("parse " +:+ path +:+ ": malformed MemTotal line")
         end
  end.

Definition dnsmasq_refuses (output : string) : bool :=
  let normalized := ToLower output in
  Contains normalized "have_nftset" || Contains normalized "no-nftset" || Contains normalized "enable nftset directives"
  || Contains normalized "bad option" || Contains normalized "unknown option".

Definition probe_config : string := lines ["port=0"; "nftset=/fastlane-test.invalid/4#inet#fastlane#target_v4"].

Definition nftset_line (set domain : string) : string := "nftset=/" +:+ domain +:+ "/4#inet#fastlane#" +:+ set.

Definition buildDNSMasqNFTSetConfig (proxyDomains bypassDomains : list string) : string :=
  if is_nil proxyDomains && is_nil bypassDomains then ""
  else lines (["# Generated by Fast Lane. Matches domains and subdomains."]
              ++ (nftset_line "proxy_target_v4" <$> sort_strings proxyDomains)
              ++ (nftset_line "direct_target_v4" <$> sort_strings bypassDomains)).

Definition trimmed_domains (l : list string) : list string := filter (fun d => d <> "") (TrimSpace <$> l).

Section Manager.
  Context `{OpenWrtHost W}.
  Context (policy_error_text : PolicyError -> string).
  Context (m : FirewallManager).

Abbreviation App := (Prog W string).

Definition policy_or {A} (r : result PolicyError A) : App A :=
  of_result match r with Ok a => Ok a | Err e => Err (policy_error_text e) end.

Definition NewFirewallManager : FirewallManager :=
  FirewallManager.mk "/usr/sbin/nft" "/sbin/ip" FirewallRulesPath dnsmasqBinaryPath dnsmasqServicePath
    dnsmasqSnippetOverridePath "/proc" "" "" "".

Definition proc_root : string := firstNonEmpty [FirewallManager.ProcRoot m; "/proc"].
Definition memInfoPath : string := firstNonEmpty [FirewallManager.MemInfoPath m; path_join [proc_root; "meminfo"]].
Definition conntrackMaxPath : string :=
  firstNonEmpty [FirewallManager.ConntrackMaxPath m; path_join [proc_root; "sys"; "net"; "netfilter"; "nf_conntrack_max"]].
Definition conntrackCountPath : string :=
  firstNonEmpty [FirewallManager.ConntrackCountPath m; path_join [proc_root; "sys"; "net"; "netfilter"; "nf_conntrack_count"]].

Definition read_text (path : string) (w : W) : result string string :=
  match read_file path w with Ok d => Ok d | Err e => Err (read_error e) end.

Definition readMemTotalKiB (path : string) (w : W) : result string Z :=
  let* data := read_text path w in mem_total path (split_byte data line_feed).

Definition readIntFromFile (path : string) (w : W) : result string Z :=
  let* data := read_text path w in
  match Atoi (TrimSpace data) with Some v => Ok v | None => Err ("parse " +:+ path +:+ ": invalid syntax") end.

(** [a result that is read]. *)
Definition reading {A} (f : W -> result string A) : App A := r ← reads f; of_result r.

Definition usage_is_high (count max : Z) : bool :=
  (0 <? max)%Z && f64_leb (f64_const 85 100) (f64_div (f64_of_Z count) (f64_of_Z max)).

Definition autoTuneConntrack : App conntrackStats :=
  memTotalKiB ← reading (readMemTotalKiB memInfoPath);
  currentMax ← reading (readIntFromFile conntrackMaxPath);
  currentCount ← reading (readIntFromFile conntrackCountPath);
  let target := conntrackTargetForMemTotalKiB memTotalKiB in
  let updated := (currentMax <? target)%Z in
  _ ← when updated (act id (write_value conntrackMaxPath (Itoa target +:+ newline)));
  let max := if updated then target else currentMax in
  mret (conntrackStats.mk currentCount max target updated (usage_is_high currentCount max)).

(** It logs what it did and never fails. *)
Definition tuneConntrack : App unit := _ ← attempt autoTuneConntrack; mret tt.

(** ** dnsmasq *)

Definition probe_dnsmasq (tmp path : string) : App bool :=
  _ ← make_calls bare_error tmp tmp probe_config [CreateTemp; WriteTemp; CloseTemp];
  run ← outcome (run_command path ["--test"; "--conf-file=" +:+ tmp]);
  match run with
  | (None, _) => mret true
  | (Some e, output) => if dnsmasq_refuses output then mret false else raise (e +:+ ": " +:+ TrimSpace output)
  end.

(** The temporary file goes away on every way out; its removal, whose error the code
    drops, is taken to succeed. *)
Definition dnsmasqSupportsNFTSet (path : string) : App bool := fun w =>
  let '(r, w') := probe_dnsmasq (temp_conf w) path w in
  (r, put_files (delete (temp_conf w) (files w')) w').

Definition ensureDNSMasqNFTSetSupport : App unit :=
  supported ← (map_error (fun e : string => "inspect dnsmasq features: " +:+ e)
    (dnsmasqSupportsNFTSet (firstNonEmpty [FirewallManager.DNSMasqPath m; dnsmasqBinaryPath])) : App bool);
  if supported : bool then mret tt
  else raise "domain targets and service presets require dnsmasq with nftset support; install dnsmasq-full".

Definition snippet_path : W -> result string string :=
  dnsmasqSnippetPath (FirewallManager.DNSMasqSnippetPath m) (FirewallManager.ProcRoot m).

Definition write_snippet (snippetPath : string) (proxyDomains bypassDomains : list string) : App unit :=
  let proxy := trimmed_domains proxyDomains in
  let bypass := trimmed_domains bypassDomains in
  _ ← (if is_nil proxy && is_nil bypass
       then remove_if_exists "remove dnsmasq nftset snippet" snippetPath
       else map_error (fun e : string => "write dnsmasq nftset snippet: " +:+ e)
              (atomicWriteText snippetPath (buildDNSMasqNFTSetConfig proxy bypass)) : App unit);
  restartDNSMasq (FirewallManager.DNSMasqServicePath m).

Definition syncDNSMasqTargets (proxyDomains bypassDomains : list string) : App unit :=
  found ← reads snippet_path;
  match found with
  | Err e => if is_nil proxyDomains && is_nil bypassDomains then mret tt else raise e
  | Ok snippetPath => write_snippet snippetPath proxyDomains bypassDomains
  end.

(** ** Loading the rules *)

Definition run (args : list string) : App unit := runCommand (FirewallManager.NFTPath m) args.
Definition runIP (args : list string) : App unit := runCommand (FirewallManager.IPPath m) args.

Definition delete_table : App unit := run ["delete"; "table"; "inet"; "fastlane"].
Definition load_rules : App unit := run ["-f"; FirewallManager.RulesPath m].

Definition mark_selector : string := udpTProxyMark +:+ "/" +:+ udpTProxyMarkMask.
Definition route_args (verb : string) : list string := ["route"; verb; "local"; "0.0.0.0/0"; "dev"; "lo"; "table"; udpTProxyTable].
Definition rule_args (verb : string) : list string :=
  ["rule"; verb; "fwmark"; mark_selector; "table"; udpTProxyTable; "priority"; udpTProxyPriority].

Definition setupPolicyRouting : App unit :=
  _ ← map_error (fun e : string => "configure udp tproxy route: " +:+ e) (runIP (route_args "add"));
  added ← attempt (runIP (rule_args "add"));
  match added with
  | Ok _ => mret tt
  | Err e => _ ← ignore (runIP (route_args "del")); raise ("configure udp tproxy rule: " +:+ e)
  end.

Definition cleanupPolicyRouting : App unit :=
  _ ← ignore (runIP (rule_args "del")); ignore (runIP (route_args "del")).

Definition Validate (settings : FirewallSettings) : App unit :=
  policy ← policy_or (resolveFirewallPolicy settings);
  if negb (needsDNSMasqNFTSet policy) then mret tt
  else
    _ ← ensureDNSMasqNFTSetSupport;
    _ ← reading snippet_path;
    mret tt.

(** Rules and routing; a routing that cannot be set up takes the rules back. *)
Definition replace_rules (settings : FirewallSettings) : App unit :=
  _ ← cleanupPolicyRouting;
  _ ← ignore delete_table;
  _ ← map_error (fun e : string => "apply nftables rules: " +:+ e) load_rules;
  when (needsUDPPolicyRouting settings) (
    routed ← attempt setupPolicyRouting;
    match routed with
    | Ok _ => mret tt
    | Err e => _ ← ignore delete_table; _ ← cleanupPolicyRouting; raise e
    end).

Definition prepare (settings : FirewallSettings) : App firewallPolicy :=
  policy ← policy_or (resolveFirewallPolicy settings);
  _ ← Validate settings;
  _ ← tuneConntrack;
  rules ← policy_or (BuildNFTablesRules settings);
  _ ← map_error (fun e : string => "write firewall rules: " +:+ e) (atomicWriteText (FirewallManager.RulesPath m) rules);
  mret policy.

Definition Apply (settings : FirewallSettings) : App unit :=
  policy ← prepare settings;
  _ ← replace_rules settings;
  map_error (fun e : string => "sync dnsmasq targets: " +:+ e)
    (syncDNSMasqTargets (ProxyDomainsForDNSMasq policy) (BypassDomainsForDNSMasq policy)).

(** The rest of [Disable] once the table is gone. *)
Definition teardown : App unit :=
  _ ← cleanupPolicyRouting;
  _ ← tuneConntrack;
  _ ← outcome (remove_file (FirewallManager.RulesPath m));
  syncDNSMasqTargets [] [].

Definition Disable : App unit :=
  deleted ← attempt delete_table;
  match deleted with
  | Err e => if negb (Contains (ToLower e) "no such file or directory") then raise e else teardown
  | Ok _ => teardown
  end.

End Manager.

(** ** The firewall manager: theorems

    The limit of connection tracking stays within its bounds; applying leaves the
    new rules in force, or the old ones, or none; disabling leaves none.  [loaded]
    is the list of rulesets loaded into the table since it was last deleted. *)

(** ** The limit of connection tracking *)

Section Limit.
Local Open Scope Z_scope.

Definition conntrack_base (memTotalKiB : Z) : Z := Z.max 1 (Z.quot memTotalKiB 4).

Lemma nextPowerOfTwo_least v : 1 <= v < 2 ^ 62 -> exists k, 0 <= k /\ nextPowerOfTwo v = 2 ^ k /\ v <= 2 ^ k /\ forall j, 0 <= j -> v <= 2 ^ j -> k <= j.
Proof.
  intros Hv. unfold nextPowerOfTwo. destruct (Z.leb_spec v 1) as [H1|H1].
  - exists 0. split_and!; [lia|done|cbn; lia|lia].
  - assert (Hw : wrap_u64 (v - 1) = v - 1) by (apply Z.mod_small; lia). rewrite Hw. unfold Len64.
    destruct (Z.eqb_spec (v - 1) 0); [lia|]. pose proof (Z.log2_spec (v - 1) ltac:(lia)) as Hl. pose proof (Z.log2_nonneg (v - 1)).
    set (l := Z.log2 (v - 1)) in *. assert (l < 62) by (apply Z.log2_lt_pow2; lia).
    assert (2 ^ (l + 1) <= 2 ^ 62) by (apply Z.pow_le_mono_r; lia).
    assert (0 < 2 ^ (l + 1)) by (apply Z.pow_pos_nonneg; lia).
    exists (l + 1). rewrite Z.shiftl_1_l. split_and!; [lia| |lia|].
    + apply wrap64_id. unfold in_int64. lia.
    + intros j Hj Hle. assert (Hlj : 2 ^ l < 2 ^ j) by lia. apply Z.pow_lt_mono_r_iff in Hlj; lia.
Qed.

Lemma conntrack_target_power m : in_int64 m -> exists k,
  conntrackTargetForMemTotalKiB m = 2 ^ k /\ 14 <= k <= 17 /\
  (conntrack_base m <= 2 ^ k \/ k = 17) /\ (k = 14 \/ 2 ^ (k - 1) < conntrack_base m).
Proof.
  intros Hm. unfold conntrackTargetForMemTotalKiB, quot64. unfold in_int64 in Hm.
  assert (Hq : in_int64 (Z.quot m 4)) by (unfold in_int64; Z.to_euclidean_division_equations; lia). rewrite wrap64_id by done.
  assert (Hb : (if Z.quot m 4 <? 1 then 1 else Z.quot m 4) = conntrack_base m) by (unfold conntrack_base; destruct (Z.ltb_spec (Z.quot m 4) 1); lia).
  cbv zeta. rewrite Hb. assert (Hr : 1 <= conntrack_base m < 2 ^ 62) by (unfold conntrack_base; Z.to_euclidean_division_equations; lia).
  destruct (nextPowerOfTwo_least _ Hr) as (k & Hk & -> & Hge & Hleast).
  change minConntrackMax with (2 ^ 14). change maxConntrackMax with (2 ^ 17).
  destruct (Z.ltb_spec (2 ^ k) (2 ^ 14)) as [Hlow|Hlow].
  - change (2 ^ 17 <? 2 ^ 14) with false. exists 14. split_and!; [done|lia|lia|left; lia|by left].
  - apply Z.pow_le_mono_r_iff in Hlow; [|lia..]. destruct (Z.ltb_spec (2 ^ 17) (2 ^ k)) as [Hhigh|Hhigh].
    + exists 17. apply Z.pow_lt_mono_r_iff in Hhigh; [|lia..]. split_and!; [done|lia|lia|by right|right].
      destruct (Z.lt_ge_cases (2 ^ 16) (conntrack_base m)) as [|Hc]; [done|]. apply Hleast in Hc; lia.
    + apply Z.pow_le_mono_r_iff in Hhigh; [|lia..]. exists k. split_and!; [done|lia|lia|by left|].
      destruct (decide (k = 14)) as [|Hne]; [by left|right]. destruct (Z.lt_ge_cases (2 ^ (k - 1)) (conntrack_base m)) as [|Hc]; [done|].
      apply Hleast in Hc; lia.
Qed.

(** The limit of connection tracking is bounded.  For every 64-bit amount of
    memory it is a power of two from 16384 to 131072, no smaller than a quarter of
    the kibibytes unless it is the largest one allowed, and less than twice that
    unless it is the smallest one. *)
Theorem conntrack_target_bounds m : in_int64 m ->
  let target := conntrackTargetForMemTotalKiB m in
  (exists k, target = 2 ^ k) /\ 16384 <= target <= 131072 /\
  (conntrack_base m <= target \/ target = 131072) /\ (target = 16384 \/ target < 2 * conntrack_base m).
Proof.
  intros Hm target. destruct (conntrack_target_power m Hm) as (k & Ht & Hk & Hge & Hlt). unfold target. rewrite Ht.
  assert (H14 : 2 ^ 14 <= 2 ^ k) by (apply Z.pow_le_mono_r; lia). assert (H17 : 2 ^ k <= 2 ^ 17) by (apply Z.pow_le_mono_r; lia).
  change (2 ^ 14) with 16384 in H14. change (2 ^ 17) with 131072 in H17. split_and!; [by exists k|lia|lia| |].
  - destruct Hge as [|Hge]; [by left|right; by rewrite Hge].
  - destruct Hlt as [Hlt|Hlt]; [left; by rewrite Hlt|right]. replace k with (Z.succ (k - 1)) by lia. rewrite Z.pow_succ_r by lia. lia.
Qed.

Lemma conntrack_target_bounds_witness : in_int64 250000 /\ conntrackTargetForMemTotalKiB 250000 = 65536 /\ 65536 < 2 * conntrack_base 250000.
Proof.
  assert (H : in_int64 250000) by (unfold in_int64; lia). split; [exact H|].
  assert (E : conntrackTargetForMemTotalKiB 250000 = 65536) by reflexivity. split; [exact E|].
  destruct (conntrack_target_bounds 250000 H) as (_ & _ & _ & [H1|H1]); rewrite E in H1; [discriminate H1|exact H1].
Defined.

End Limit.

(** ** The table of the kernel *)

Abbreviation delete_args := ["delete"; "table"; "inet"; "fastlane"].
Abbreviation no_such_file := "no such file or directory".

(** What nft and the kernel do with the table: loading is all or nothing, on top
    of what is there; other programs leave it alone. *)
Class TableLaws (W : Type) `{OpenWrtHost W} (nft : string) (loaded : W -> list string) : Prop := {
  table_beside_files : forall f w, loaded (put_files f w) = loaded w;
  table_beside_calls : forall c p w, loaded (call_fails c p w).2 = loaded w;
  table_beside_removal : forall p w, loaded (remove_file p w).2 = loaded w;
  table_beside_values : forall p d w, loaded (write_value p d w).2 = loaded w;
  table_beside_commands : forall path args w, path <> nft -> loaded (run_command path args w).2 = loaded w;
  table_deleted : forall o w w', run_command nft delete_args w = ((None, o), w') -> loaded w' = [];
  table_not_deleted : forall e o w w', run_command nft delete_args w = ((Some e, o), w') -> loaded w' = loaded w;
  table_loaded : forall p o w w', run_command nft ["-f"; p] w = ((None, o), w') ->
    exists text, files w !! p = Some text /\ loaded w' = loaded w ++ [text];
  table_refused : forall p e o w w', run_command nft ["-f"; p] w = ((Some e, o), w') -> loaded w' = loaded w
}.

Section Apply.
  Context (W : Type) `{OpenWrtHostLaws W}.
  Context (policy_error_text : PolicyError -> string) (m : FirewallManager).
  Context (loaded : W -> list string) `{!TableLaws W (FirewallManager.NFTPath m) loaded}.
  Context (ip_is_not_nft : FirewallManager.IPPath m <> FirewallManager.NFTPath m).
  Context (dnsmasq_is_not_nft : firstNonEmpty [FirewallManager.DNSMasqPath m; dnsmasqBinaryPath] <> FirewallManager.NFTPath m).
  Context (service_is_not_nft : firstNonEmpty [FirewallManager.DNSMasqServicePath m; dnsmasqServicePath] <> FirewallManager.NFTPath m).

Abbreviation beside := (untouched loaded).

Lemma beside_command path args : path <> FirewallManager.NFTPath m -> beside (runCommand path args).
Proof.
  intros Hp w. unfold runCommand. pose proof (table_beside_commands path args w Hp) as Hk.
  by destruct (run_command path args w) as [[[e|] o] w'].
Qed.

Lemma beside_calls wrap tmp path data calls : beside (make_calls wrap tmp path data calls).
Proof.
  induction calls as [|c calls IH]; cbn [make_calls]; [apply untouched_ret|]. apply untouched_bind; [|intros; exact IH].
  intros w. unfold make_call, modify. pose proof (table_beside_calls c path w) as Hk. destruct (call_fails c path w) as [[e|] v]; cbn in *.
  - destruct c; by rewrite ?table_beside_files.
  - by rewrite table_beside_files.
Qed.

Lemma beside_replace wrap path data : beside (replace_file wrap path data).
Proof.
  intros w. unfold replace_file. pose proof (beside_calls wrap (temp_name path w) path data write_calls w) as Hk.
  destruct (make_calls _ _ _ _ _ w) as [r v]. cbn in *. by rewrite table_beside_files.
Qed.

Lemma beside_remove path : untouched (E := string) loaded (outcome (remove_file path)).
Proof. apply untouched_outcome, table_beside_removal. Qed.

Lemma beside_restart : beside (restartDNSMasq (FirewallManager.DNSMasqServicePath m)).
Proof.
  unfold restartDNSMasq. cbv zeta. case_bool_decide; [apply untouched_ret|]. apply untouched_map_error. by apply beside_command.
Qed.

Lemma beside_run_ip args : beside (runIP m args).
Proof. by apply beside_command. Qed.

Hint Resolve beside_command beside_replace beside_remove beside_restart beside_run_ip : untouched.

Lemma beside_cleanup : beside (cleanupPolicyRouting m).
Proof. unfold cleanupPolicyRouting. untouched_steps. Qed.

Lemma beside_setup : beside (setupPolicyRouting m).
Proof. unfold setupPolicyRouting. untouched_steps. Qed.

Lemma beside_reading {A} (f : W -> result string A) : beside (reading f).
Proof. unfold reading. untouched_steps. Qed.

Lemma beside_tune : beside (tuneConntrack m).
Proof.
  unfold tuneConntrack, autoTuneConntrack. pose proof @beside_reading. untouched_steps; try apply beside_reading.
  apply untouched_act. intros w. apply table_beside_values.
Qed.

Lemma beside_sync proxy bypass : beside (syncDNSMasqTargets m proxy bypass).
Proof. unfold syncDNSMasqTargets, write_snippet, remove_if_exists, atomicWriteText. untouched_steps. Qed.

Lemma beside_support path : path <> FirewallManager.NFTPath m -> beside (dnsmasqSupportsNFTSet path).
Proof.
  intros Hp w. assert (Ht : beside (probe_dnsmasq (temp_conf w) path)).
  { apply untouched_bind; [apply beside_calls|]. intros _. apply untouched_bind; [|intros [[e|] o]; [destruct (dnsmasq_refuses o)|]; auto with untouched].
    apply untouched_outcome. intros v. by apply table_beside_commands. }
  specialize (Ht w). unfold dnsmasqSupportsNFTSet. destruct (probe_dnsmasq _ _ w) as [r v]. cbn in *. by rewrite table_beside_files.
Qed.

Lemma beside_validate settings : beside (Validate policy_error_text m settings).
Proof.
  unfold Validate, ensureDNSMasqNFTSetSupport, policy_or. pose proof @beside_reading. pose proof beside_support. untouched_steps; apply beside_reading.
Qed.

Lemma beside_prepare settings : beside (prepare policy_error_text m settings).
Proof.
  unfold prepare, policy_or, atomicWriteText. pose proof beside_validate. pose proof beside_tune. untouched_steps.
Qed.

(** *** Applying *)

Lemma command_keeps_files path args : untouched files (runCommand path args).
Proof.
  intros w. unfold runCommand. pose proof (commands_keep_files path args w) as Hk. by destruct (run_command path args w) as [[[e|] o] w'].
Qed.

Hint Resolve command_keeps_files : untouched.

Lemma cleanup_keeps_files : untouched files (cleanupPolicyRouting m).
Proof. unfold cleanupPolicyRouting, runIP. untouched_steps. Qed.

Lemma policy_or_ok {A} (r : result PolicyError A) (w : W) a w' : policy_or policy_error_text r w = (Ok a, w') -> r = Ok a /\ w' = w.
Proof. unfold policy_or, of_result. destruct r; [|done]. by intros [= -> ->]. Qed.

Lemma prepared settings w policy w' : prepare policy_error_text m settings w = (Ok policy, w') ->
  resolveFirewallPolicy settings = Ok policy /\
  exists rules, BuildNFTablesRules settings = Ok rules /\ files w' !! FirewallManager.RulesPath m = Some rules.
Proof.
  unfold prepare. intros (p & w1 & [Hp ->]%policy_or_ok & Hk)%bind_ok. apply bind_ok in Hk as (u & w2 & _ & Hk).
  apply bind_ok in Hk as (u' & w3 & _ & Hk). apply bind_ok in Hk as (rules & w4 & [Hr ->]%policy_or_ok & Hk).
  apply bind_ok in Hk as (u'' & w5 & Hw%map_error_ok & Hk). injection Hk as <- <-. split; [done|]. exists rules. split; [done|].
  apply atomicWriteText_cases in Hw as [[_ ->]|[[e [=]] _]]. apply lookup_insert_eq.
Qed.

(** The old ruleset is gone, or could not be deleted. *)
Lemma table_after_delete w r w' : delete_table m w = (r, w') ->
  files w' = files w /\ (loaded w' = [] /\ r = Ok tt \/ loaded w' = loaded w /\ exists e, r = Err e).
Proof.
  intros Ed. split; [exact (untouched_eq files _ _ _ _ (command_keeps_files _ _) Ed)|]. unfold delete_table, run, runCommand in Ed.
  destruct (run_command _ delete_args w) as [[[e|] o] v] eqn:Ec; injection Ed as <- <-.
  - right. split; [by eapply table_not_deleted|by eexists].
  - left. split; [by eapply table_deleted|done].
Qed.

(** The deletion of the old table that a run from [w] asks for failed. *)
Definition deletion_refused (settings : FirewallSettings) (w : W) : Prop :=
  exists policy w1 w2 e, prepare policy_error_text m settings w = (Ok policy, w1) /\
    cleanupPolicyRouting m w1 = (Ok tt, w2) /\ (delete_table m w2).1 = Err e.

(** Beside the generated rules only the old ones, when nft refused to delete them. *)
Definition in_force (settings : FirewallSettings) (w : W) (rules : string) (l : list string) : Prop :=
  l = [rules] \/ l = loaded w ++ [rules] /\ deletion_refused settings w.

Lemma table_after_load rules w r w' : files w !! FirewallManager.RulesPath m = Some rules -> load_rules m w = (r, w') ->
  files w' = files w /\ (r = Ok tt /\ loaded w' = loaded w ++ [rules] \/ (exists e, r = Err e) /\ loaded w' = loaded w).
Proof.
  intros Hf El. split; [exact (untouched_eq files _ _ _ _ (command_keeps_files _ _) El)|]. unfold load_rules, run, runCommand in El.
  destruct (run_command _ _ w) as [[[e|] o] v] eqn:Ec; injection El as <- <-.
  - right. split; [by eexists|by eapply table_refused].
  - left. split; [done|]. apply table_loaded in Ec as (text & Ht & ->). congruence.
Qed.

Lemma rules_replaced settings rules w0 policy w r w' :
  prepare policy_error_text m settings w0 = (Ok policy, w) -> loaded w = loaded w0 ->
  files w !! FirewallManager.RulesPath m = Some rules -> replace_rules m settings w = (r, w') ->
  r = Ok tt /\ in_force settings w0 rules (loaded w') \/
  (exists e, r = Err e) /\ (loaded w' = [] \/ loaded w' = loaded w0 \/ in_force settings w0 rules (loaded w')).
Proof.
  intros E0 L0 Hf. unfold replace_rules. unfold mbind at 1, prog_bind at 1.
  pose proof (cleanup_keeps_files w) as F1. pose proof (beside_cleanup w) as L1.
  destruct (cleanupPolicyRouting m w) as [r1 w1] eqn:E1; cbn [snd] in F1, L1. assert (r1 = Ok tt) as -> by (unfold cleanupPolicyRouting, mbind, prog_bind, ignore in E1; by injection E1).
  unfold mbind at 1, prog_bind at 1, ignore at 1. destruct (delete_table m w1) as [r2 w2] eqn:E2. pose proof (table_after_delete _ _ _ E2) as [F2 L2]. cbn [snd].
  assert (Hold : loaded w2 = [] \/ loaded w2 = loaded w0 /\ deletion_refused settings w0).
  { destruct L2 as [[-> _]|[-> [e ->]]]; [by left|right]. split; [by rewrite L1|]. exists policy, w, w1, e. by rewrite E2. }
  unfold mbind at 1, prog_bind at 1, map_error at 1. destruct (load_rules m w2) as [r3 w3] eqn:E3.
  apply (table_after_load rules) in E3 as [F3 L3]; [|by rewrite F2, F1].
  destruct L3 as [[-> L3]|[[e ->] L3]].
  - assert (Hnew : in_force settings w0 rules (loaded w3)) by (rewrite L3; destruct Hold as [-> | [-> ?]]; [by left|by right]).
    unfold when. destruct (needsUDPPolicyRouting settings); [|by intros [= <- <-]; left].
    unfold mbind at 1, prog_bind at 1, attempt. pose proof (beside_setup w3) as L4. destruct (setupPolicyRouting m w3) as [[u|e] w4]; cbn [snd] in L4.
    + intros [= <- <-]. left. by rewrite L4.
    + unfold mbind at 1, prog_bind at 1, ignore at 1. destruct (delete_table m w4) as [r5 w5] eqn:E5. apply table_after_delete in E5 as [_ L5]. cbn [snd].
      unfold mbind at 1, prog_bind at 1. pose proof (beside_cleanup w5) as L6.
      destruct (cleanupPolicyRouting m w5) as [r6 w6] eqn:E6; cbn [snd] in L6. intros Hr.
      assert (Hlast : loaded w6 = [] \/ in_force settings w0 rules (loaded w6)).
      { rewrite L6. destruct L5 as [[-> _]|[-> _]]; [by left|right; by rewrite L4]. }
      destruct r6; injection Hr as <- <-; right; (split; [by eexists|]); destruct Hlast as [|]; auto.
  - intros [= <- <-]. right. split; [by eexists|]. rewrite L3. destruct Hold as [|[? _]]; auto.
Qed.

Lemma apply_cases settings w r w' : Apply policy_error_text m settings w = (r, w') ->
  (r = Ok tt /\ exists rules, BuildNFTablesRules settings = Ok rules /\ in_force settings w rules (loaded w')) \/
  ((exists e, r = Err e) /\ (loaded w' = loaded w \/ loaded w' = [] \/
     exists rules, BuildNFTablesRules settings = Ok rules /\ in_force settings w rules (loaded w'))).
Proof.
  unfold Apply. unfold mbind at 1, prog_bind at 1. pose proof (beside_prepare settings w) as L1.
  destruct (prepare policy_error_text m settings w) as [[policy|e] w1] eqn:E1; cbn [snd] in L1; [|intros [= <- <-]; right; split; [by eexists|by left]].
  pose proof (prepared _ _ _ _ E1) as (Hp & rules & Hb & Hf). unfold mbind at 1, prog_bind at 1.
  destruct (replace_rules m settings w1) as [r2 w2] eqn:E2. eapply rules_replaced in E2; [|exact E1|exact L1|exact Hf].
  destruct E2 as [[-> Hin]|[[e ->] Hin]].
  - unfold map_error. pose proof (beside_sync (ProxyDomainsForDNSMasq policy) (BypassDomainsForDNSMasq policy) w2) as L3.
    destruct (syncDNSMasqTargets _ _ _ w2) as [[[]|e] w3]; cbn [snd] in L3; intros [= <- <-].
    + left. split; [done|]. exists rules. split; [done|]. by rewrite L3.
    + right. split; [by eexists|]. right. right. exists rules. split; [done|]. by rewrite L3.
  - intros [= <- <-]. right. split; [by eexists|]. destruct Hin as [|[|]]; eauto.
Qed.

(** *** Disabling *)

Lemma beside_teardown : beside (teardown m).
Proof. unfold teardown. pose proof beside_cleanup. pose proof beside_tune. pose proof beside_sync. untouched_steps. Qed.

Lemma disable_cases w r w' : Disable m w = (r, w') ->
  (loaded w' = [] \/ loaded w' = loaded w /\ exists e, (delete_table m w).1 = Err e /\ Contains (ToLower e) no_such_file = true) \/
  (exists e, r = Err e /\ delete_table m w = (Err e, w') /\ loaded w' = loaded w /\ files w' = files w).
Proof.
  unfold Disable. unfold mbind at 1, prog_bind at 1, attempt. destruct (delete_table m w) as [r1 w1] eqn:E1.
  pose proof (table_after_delete _ _ _ E1) as [F1 L1]. destruct r1 as [[]|e].
  - destruct L1 as [[L1 _]|[_ [e [=]]]]. intros E2. left. left. by rewrite (untouched_eq loaded _ _ _ _ beside_teardown E2).
  - destruct L1 as [[_ [=]]|[L1 _]]. destruct (Contains (ToLower e) no_such_file) eqn:Ec; cbn [negb].
    + intros E2. left. right. split; [by rewrite (untouched_eq loaded _ _ _ _ beside_teardown E2)|]. by exists e.
    + intros [= <- <-]. right. by exists e.
Qed.

(** C10: applying leaves whole rulesets.  When it succeeds the generated rules are in
    force: alone, unless nft refused to delete the old table, whose rules then stay
    in front of them.  When it fails, the table is as it was, or gone, or holds the
    generated rules in the same sense.  Where there was no table, and where the
    deletion that the run asked for was not refused, a success leaves exactly the
    generated rules. *)
Theorem apply_leaves_whole_rulesets settings w r w' :
  Apply policy_error_text m settings w = (r, w') ->
  (r = Ok tt -> exists rules, BuildNFTablesRules settings = Ok rules /\ in_force settings w rules (loaded w') /\
     (loaded w = [] \/ ~ deletion_refused settings w -> loaded w' = [rules])) /\
  (loaded w' = loaded w \/ loaded w' = [] \/ exists rules, BuildNFTablesRules settings = Ok rules /\ in_force settings w rules (loaded w')).
Proof.
  intros [[-> (rules & Hb & Hin)]|[[e ->] Hin]]%apply_cases; (split; [|by eauto]); [|done].
  intros _. exists rules. split_and!; [done|done|]. intros Hn. destruct Hin as [Hin|[Hin Hd]]; [exact Hin|].
  destruct Hn as [Hn|Hn]; [by rewrite Hin, Hn|by destruct Hn].
Qed.

(** Disabling removes the rules or says that it did not.  When it reports success
    no ruleset is left, unless deleting the table failed with a text about a missing
    file: that text is taken for a missing table although a missing nft program
    gives it too, and then the old rules stay in force. *)
Theorem disable_removes_rules w r w' :
  Disable m w = (r, w') ->
  (r = Ok tt -> loaded w' = [] \/
     loaded w' = loaded w /\ exists e, (delete_table m w).1 = Err e /\ Contains (ToLower e) no_such_file = true) /\
  (forall e, (delete_table m w).1 = Err e -> Contains (ToLower e) no_such_file = true -> loaded w' = loaded w).
Proof.
  intros Hd. pose proof (disable_cases _ _ _ Hd) as Hcases. split.
  - intros ->. destruct Hcases as [Hc|(e & [=] & _)]. exact Hc.
  - intros e He Hc. unfold Disable, mbind at 1, prog_bind at 1, attempt in Hd. destruct (delete_table m w) as [r1 w1] eqn:E1. cbn in He. subst r1.
    pose proof (table_after_delete _ _ _ E1) as [_ [[_ [=]]|[L1 _]]]. rewrite Hc in Hd. cbn [negb] in Hd.
    by rewrite (untouched_eq loaded _ _ _ _ beside_teardown Hd).
Qed.

End Apply.

(** ** A router in memory *)

(** [nft_installed]: without the program its commands fail as [exec] does. *)
Record Router : Type := { disk : MemoryHost; table : list string; nft_installed : bool }.

Definition on_disk (g : MemoryHost -> MemoryHost) (w : Router) : Router := {| disk := g (disk w); table := table w; nft_installed := nft_installed w |}.
Definition with_table (l : list string) (w : Router) : Router := {| disk := disk w; table := l; nft_installed := nft_installed w |}.

#[export] Instance router_host : Host Router := {
  files w := files (disk w);
  put_files f := on_disk (put_files f);
  call_fails c p w := ((call_fails c p (disk w)).1, w);
  written_part d w := written_part d (disk w);
  random_suffix w := random_suffix (disk w)
}.

#[export] Instance router_file_host : FileHost Router := {
  read_file p w := read_file p (disk w);
  remove_file p w := ((remove_file p (disk w)).1, on_disk (fun d => (remove_file p d).2) w)
}.

Definition nft_path : string := "/usr/sbin/nft".

Definition router_command (path : string) (args : list string) (w : Router) : (option string * string) * Router :=
  if negb (bool_decide (path = nft_path)) then ((None, ""), w)
  else if negb (nft_installed w) then ((Some "fork/exec /usr/sbin/nft: no such file or directory", ""), w)
  else match args with
       | ["-f"; p] => match files w !! p with
                      | Some text => ((None, ""), with_table (table w ++ [text]) w)
                      | None => ((Some "exit status 1", "internal:0:0-0: Error: Could not open file"), w)
                      end
       | _ => match table w with
              | [] => ((Some "exit status 1", "Error: No such file or directory"), w)
              | _ => ((None, ""), with_table [] w)
              end
       end.

#[export] Instance router_openwrt : OpenWrtHost Router := {
  getenv _ := "";
  read_dir _ _ := Err NotExist;
  glob _ _ := Ok [];
  stat_file p w := match files w !! p with Some _ => Ok false | None => Err NotExist end;
  write_value p d w := (None, put_files (<[p := d]> (files w)) w);
  temp_conf w := "/tmp/fastlane-dnsmasq-" +:+ fresh_suffix (files w);
  run_command := router_command
}.

Lemma router_files_laws : FileHostLaws Router.
Proof.
  pose proof memory_file_laws as L. split.
  - split.
    + done.
    + done.
    + intros path w. apply (temp_is_new path (disk w)).
  - intros p w d. apply (read_some p (disk w)).
  - intros p w. apply (read_none p (disk w)).
  - intros p w w'. cbn. destruct (host_files (disk w) !! p) eqn:E; intros [= <-]. cbn. by rewrite E.
  - intros p w e w'. cbn. destruct (host_files (disk w) !! p) eqn:E; [done|]. intros [= <- <-]. cbn. by rewrite E.
Qed.

Lemma router_laws : OpenWrtHostLaws Router.
Proof.
  split.
  - exact router_files_laws.
  - intros path args w. cbn. unfold router_command. destruct (negb _); [done|]. destruct (negb _); [done|].
    repeat case_match; done.
  - intros p d w w'. by intros [= <-].
  - intros p d w e w'. done.
  - intros w. change (host_files (disk w) !! ("/tmp/fastlane-dnsmasq-" +:+ fresh_suffix (host_files (disk w))) = None).
    destruct (_ !! _) as [d|] eqn:E; [|done]. exfalso. apply (mk_is_Some), fresh_suffix_longer in E. rewrite length_append in E.
    change (String.length "/tmp/fastlane-dnsmasq-") with 22%nat in E. lia.
Qed.

Lemma router_table_laws : TableLaws Router nft_path table.
Proof.
  split; try done; intros *; cbn; unfold router_command.
  - intros Hp. by rewrite bool_decide_eq_false_2 by done.
  - cbn. destruct (nft_installed w); [|done]. cbn. destruct (table w); [done|]. by intros [= _ <-].
  - cbn. destruct (nft_installed w); cbn; [|by intros [= _ _ <-]]. destruct (table w) eqn:Et; [|done]. by intros [= _ _ <-].
  - cbn. destruct (nft_installed w); [|done]. cbn. destruct (host_files (disk w) !! p) as [text|] eqn:E; [|done]. intros [= _ <-]. by exists text.
  - cbn. destruct (nft_installed w); cbn; [|by intros [= _ _ <-]]. destruct (host_files (disk w) !! p); [done|]. by intros [= _ _ <-].
Qed.

Definition sample_manager : FirewallManager :=
  FirewallManager.mk nft_path "/sbin/ip" "/tmp/fastlane-firewall.nft" "/usr/sbin/dnsmasq" "/etc/init.d/dnsmasq" "/tmp/dnsmasq.d/fastlane.conf"
    "/proc" "" "" "".

Definition sample_router (rules : list string) (installed : bool) : Router :=
  {| disk := Build_MemoryHost ∅ None; table := rules; nft_installed := installed |}.

Abbreviation sample_run := (Apply (fun _ => "") sample_manager sample_settings (sample_router ["table of yesterday"] true)).

Lemma apply_leaves_whole_rulesets_witness : exists rules,
  BuildNFTablesRules sample_settings = Ok rules /\ table sample_run.2 = [rules].
Proof.
  assert (E : sample_run.1 = Ok tt) by (vm_compute; reflexivity).
  destruct (apply_leaves_whole_rulesets Router (H2 := router_laws) (fun _ => "") sample_manager table (TableLaws0 := router_table_laws)
    ltac:(discriminate) ltac:(vm_compute; discriminate) ltac:(vm_compute; discriminate)
    sample_settings (sample_router ["table of yesterday"] true) (Ok tt) sample_run.2 (run_eq _ _ E)) as [Hok _].
  destruct (Hok eq_refl) as (rules & Hb & _ & Halone). exists rules. split; [exact Hb|]. apply Halone. right.
  intros (policy & w1 & w2 & e & E1 & E2 & E3). apply (f_equal snd) in E1, E2. cbn [snd] in E1, E2.
  rewrite <- E2, <- E1 in E3. vm_compute in E3. discriminate E3.
Defined.

(** Without nft the rules of yesterday stay and the removal is reported as done. *)
Abbreviation missing_nft := (Disable sample_manager (sample_router ["table of yesterday"] false)).

Lemma disable_removes_rules_witness : missing_nft.1 = Ok tt /\ table missing_nft.2 = ["table of yesterday"].
Proof.
  assert (E : missing_nft.1 = Ok tt) by (vm_compute; reflexivity). split; [exact E|].
  destruct (disable_removes_rules Router (H2 := router_laws) sample_manager table (TableLaws0 := router_table_laws)
    ltac:(discriminate) ltac:(vm_compute; discriminate) (sample_router ["table of yesterday"] false) (Ok tt) missing_nft.2 (run_eq _ _ E)) as [_ Hstay].
  exact (Hstay "/usr/sbin/nft delete table inet fastlane: fork/exec /usr/sbin/nft: no such file or directory: " eq_refl eq_refl).
Defined.
