(* ===== verification/OpenWrtDNS.v ===== *)
(** * Forwarding DNS into the local runtime, and switching IPv6

    [DNSRuntimeManager] of [platform/openwrt/dns_runtime.go] and [IPv6Manager] of
    [platform/openwrt/ipv6.go], on the host of [OpenWrtHost]. *)
From S2P Require Import Prelude GoRunes GoStrings GoNum NetIP Domain GoConv Firewall.
From S2P Require Import FirewallSettings NFTables Settings Effects AtomicFiles AmneziaStore.
From S2P Require Import OpenWrtHost OpenWrtFirewall.

Local Open Scope list_scope.

Module dnsmasqRuntimeInfo.
Record dnsmasqRuntimeInfo : Type := mk { ConfDir : string; ConfigPath : string; ResolvFile : string }.
End dnsmasqRuntimeInfo.
Abbreviation dnsmasqRuntimeInfo := dnsmasqRuntimeInfo.dnsmasqRuntimeInfo.

Module dnsmasqRuntimeProcess.
Record dnsmasqRuntimeProcess : Type := mk { PID : Z; Info : dnsmasqRuntimeInfo }.
End dnsmasqRuntimeProcess.
Abbreviation dnsmasqRuntimeProcess := dnsmasqRuntimeProcess.dnsmasqRuntimeProcess.

Module DNSRuntimeManager.
Record DNSRuntimeManager : Type := mk {
  DNSMasqServicePath : string;
  DNSMasqSnippetPath : string;
  DNSMasqConfDirGlob : string;
  ProcRoot : string
}.
End DNSRuntimeManager.
Abbreviation DNSRuntimeManager := DNSRuntimeManager.DNSRuntimeManager.

Definition defaultDNSRuntimeSnippetName : string := "fastlane-dns.conf".

(** ** Arguments and files of dnsmasq *)

(** The value of the first argument [--name=value], [--name value] or [short value]. *)
Fixpoint argument_value (name : string) (short : option string) (args : list string) : string :=
  match args with
  | [] => ""
  | arg :: rest =>
    if HasPrefix arg (name +:+ "=") then TrimPrefix arg (name +:+ "=")
    else match rest with
         | next :: _ => if bool_decide (arg = name) || bool_decide (Some arg = short) then next else argument_value name short rest
         | [] => ""
         end
  end.

Definition dnsmasqConfigPathFromArgs (args : list string) : string := argument_value "--conf-file" (Some "-C") args.
Definition dnsmasqResolvFileFromArgs (args : list string) : string := argument_value "--resolv-file" None args.

(** One line of a resolv file. *)
Definition nameserver (out : list string) (line : string) : list string :=
  let line := TrimSpace line in
  if bool_decide (line = "") || HasPrefix line "#" then out
  else match Fields line with
       | key :: server :: _ =>
         let server := TrimSpace server in
         if negb (bool_decide (key = "nameserver")) || bool_decide (server = "") then out else push_unique out server
       | _ => out
       end.

Definition defaultPort (got fallback : Z) : Z := if (0 <? got)%Z then got else fallback.

Inductive DNSFault : Type :=
| BadMode (e : SettingsError)
| NoResolvers
| UnsupportedMatcher (raw : string)
| EmptyMatcher (raw : string).

(** [Ok None]: nothing to match. *)
Definition dnsmasqDirectDomainMatcher (raw : string) : result DNSFault (option string) :=
  let value := TrimSpace raw in
  if bool_decide (value = "") then Ok None
  else
    let rest :=
      if HasPrefix value "domain:" then Some (TrimSpace (TrimPrefix value "domain:"))
      else if HasPrefix value "full:" then Some (TrimSpace (TrimPrefix value "full:"))
      else if Contains value ":" then None else Some value in
    match rest with
    | None => Err (UnsupportedMatcher raw)
    | Some value => if bool_decide (value = "") then Err (EmptyMatcher raw) else Ok (Some value)
    end.

Definition direct_lines (systemResolvers : list string) (out : list string) (raw : string) : result DNSFault (list string) :=
  let* matcher := dnsmasqDirectDomainMatcher raw in
  match matcher with
  | None => Ok out
  | Some domain => Ok (out ++ ((fun resolver => "server=/" +:+ domain +:+ "/" +:+ resolver) <$> systemResolvers))
  end.

Definition parse_mode (settings : DNSSettings) : result DNSFault string :=
  match ParseDNSMode (DNSSettings.Mode settings) with Ok mode => Ok mode | Err e => Err (BadMode e) end.

Definition buildDNSMasqFastLaneDNSConfig (settings : DNSSettings) (systemResolvers : list string) (listen : string) (port : Z)
    : result DNSFault string :=
  if is_nil systemResolvers then Err NoResolvers
  else
    let head := ["# Generated by Fast Lane. Routes public DNS through the local Xray DNS runtime."; "no-resolv";
                 "server=" +:+ firstNonEmpty [listen; "127.0.0.1"] +:+ "#" +:+ Itoa (defaultPort port 1053)] in
    let* mode := parse_mode settings in
    if negb (bool_decide (mode = DNSModeSplit)) then Ok (lines head)
    else
      let* direct := fold_result (direct_lines systemResolvers) [] (DNSSettings.DirectDomains settings) in
      Ok (lines (head ++ direct)).

Section DNS.
  Context `{OpenWrtHost W}.
  Context (fault_text : DNSFault -> string).
  Context (m : DNSRuntimeManager).

Abbreviation App := (Prog W string).

Definition NewDNSRuntimeManager : DNSRuntimeManager :=
  DNSRuntimeManager.mk dnsmasqServicePath dnsRuntimeSnippetOverridePath "/tmp/dnsmasq*.d" "/proc".

Definition dnsmasqResolvFileFromConfig (path : string) (w : W) : string := default "" (config_option "resolv-file=" path w).

Definition readResolvNameservers (path : string) (w : W) : result string (list string) :=
  match read_file path w with
  | Err e => Err ("read dnsmasq resolv-file " +:+ path +:+ ": " +:+ read_error e)
  | Ok data =>
    let '(l, ended) := scan_lines data in
    if ended then Ok (foldl nameserver [] l) else Err ("scan dnsmasq resolv-file " +:+ path +:+ ": bufio.Scanner: token too long")
  end.

(** ** The running dnsmasq *)

Definition runtime_info (args : list string) (w : W) : dnsmasqRuntimeInfo :=
  let ConfDir := dnsmasqConfDirFromArgs args w in
  let ConfigPath := dnsmasqConfigPathFromArgs args in
  let ResolvFile := dnsmasqResolvFileFromArgs args in
  let given := negb (bool_decide (ConfigPath = "")) in
  dnsmasqRuntimeInfo.mk
    (if given && bool_decide (ConfDir = "") then dnsmasqConfDirFromConfig ConfigPath w else ConfDir)
    ConfigPath
    (if given && bool_decide (ResolvFile = "") then dnsmasqResolvFileFromConfig ConfigPath w else ResolvFile).

Definition runtime_process (procRoot : string) (w : W) (entry : string * bool) : option dnsmasqRuntimeProcess :=
  match Atoi entry.1, dnsmasq_args procRoot entry w with
  | Some pid, Some args =>
    let info := runtime_info args w in
    if bool_decide (dnsmasqRuntimeInfo.ConfDir info = "") || bool_decide (dnsmasqRuntimeInfo.ResolvFile info = "") then None
    else Some (dnsmasqRuntimeProcess.mk pid info)
  | _, _ => None
  end.

Definition runtimeProcesses (w : W) : result string (list dnsmasqRuntimeProcess) :=
  let procRoot := firstNonEmpty [DNSRuntimeManager.ProcRoot m; "/proc"] in
  match read_dir procRoot w with
  | Err e => Err ("read " +:+ procRoot +:+ ": " +:+ read_error e)
  | Ok entries =>
    match omap (runtime_process procRoot w) entries with
    | [] => Err "detect dnsmasq runtime: no running dnsmasq with conf-dir and resolv-file found"
    | processes => Ok processes
    end
  end.

Definition later_process (latest process : dnsmasqRuntimeProcess) : dnsmasqRuntimeProcess :=
  if (dnsmasqRuntimeProcess.PID latest <? dnsmasqRuntimeProcess.PID process)%Z then process else latest.

Definition runtimeInfo (w : W) : result string dnsmasqRuntimeInfo :=
  let* processes := runtimeProcesses w in
  match processes with
  | [] => Err ""
  | first :: rest => Ok (dnsmasqRuntimeProcess.Info (foldl later_process first rest))
  end.

Definition dns_override : string := firstNonEmpty [DNSRuntimeManager.DNSMasqSnippetPath m; dnsRuntimeSnippetOverridePath].

Definition dir_snippet (dir : string) : string := path_join [dir; defaultDNSRuntimeSnippetName].

Definition snippetPath (info : dnsmasqRuntimeInfo) : string :=
  if negb (bool_decide (dns_override = "")) then dns_override else dir_snippet (dnsmasqRuntimeInfo.ConfDir info).

Definition SystemResolvers (w : W) : result string (list string) :=
  let* info := runtimeInfo w in readResolvNameservers (dnsmasqRuntimeInfo.ResolvFile info) w.

(** ** Disabling *)

Definition dns_snippets (w : W) : result string (list string) :=
  if negb (bool_decide (dns_override = "")) then Ok [dns_override]
  else
    let processes := match runtimeProcesses w with Ok l => l | Err _ => [] end in
    let running := foldl push_unique [] ((fun p => snippetPath (dnsmasqRuntimeProcess.Info p)) <$> processes) in
    let pattern := TrimSpace (DNSRuntimeManager.DNSMasqConfDirGlob m) in
    if bool_decide (pattern = "") then Ok running
    else match glob pattern w with
         | Err e => Err ("find dnsmasq runtime directories: " +:+ e)
         | Ok matches => Ok (foldl push_unique running (dir_snippet <$> matches))
         end.

Fixpoint remove_all (paths : list string) : App unit :=
  match paths with
  | [] => mret tt
  | p :: rest => _ ← remove_if_exists "remove dnsmasq dns runtime snippet" p; remove_all rest
  end.

Definition Disable : App unit :=
  found ← reads dns_snippets;
  snippets ← of_result found;
  _ ← remove_all snippets;
  restartDNSMasq (DNSRuntimeManager.DNSMasqServicePath m).

(** ** Applying *)

Definition faulty {A} (r : result DNSFault A) : App A := of_result match r with Ok a => Ok a | Err e => Err (fault_text e) end.

Definition forward (settings : DNSSettings) (listen : string) (port : Z) : App unit :=
  found ← reads runtimeInfo;
  info ← of_result found;
  read ← reads (readResolvNameservers (dnsmasqRuntimeInfo.ResolvFile info));
  systemResolvers ← of_result read;
  if is_nil systemResolvers
  then raise ("detect system dns resolvers: no upstream resolvers found in " +:+ dnsmasqRuntimeInfo.ResolvFile info)
  else
    config ← faulty (buildDNSMasqFastLaneDNSConfig settings systemResolvers listen port);
    _ ← map_error (fun e : string => "write dnsmasq dns runtime snippet: " +:+ e) (atomicWriteText (snippetPath info) config);
    restartDNSMasq (DNSRuntimeManager.DNSMasqServicePath m).

Definition Apply (settings : DNSSettings) (listen : string) (port : Z) : App unit :=
  mode ← faulty (parse_mode settings);
  if bool_decide (mode = DNSModeSystem) || bool_decide (mode = DNSModeDisabled) then Disable else forward settings listen port.

(** The status and the error that comes with it. *)
Definition Status (w : W) : DNSRuntimeStatus.DNSRuntimeStatus * option string :=
  match runtimeInfo w with
  | Err e => (DNSRuntimeStatus.mk true false "127.0.0.1" 1053 "" false "" [] "" e, Some e)
  | Ok info =>
    let '(resolvers, degraded) :=
      match readResolvNameservers (dnsmasqRuntimeInfo.ResolvFile info) w with Ok l => (l, "") | Err e => ([], e) end in
    let '(found, degraded) :=
      match stat_file (snippetPath info) w with
      | Ok _ => (true, degraded)
      | Err NotExist => (false, degraded)
      | Err (ReadFailed e) => (false, e)
      end in
    (DNSRuntimeStatus.mk true found "127.0.0.1" 1053 (snippetPath info) found (dnsmasqRuntimeInfo.ResolvFile info) resolvers degraded "", None)
  end.

End DNS.

(** ** IPv6 *)

Module IPv6Manager.
Record IPv6Manager : Type := mk { ProcRoot : string; SysctlConfigPath : string }.
End IPv6Manager.
Abbreviation IPv6Manager := IPv6Manager.IPv6Manager.

Definition managedIPv6SysctlConfig (disabled : bool) : string :=
  let value := if disabled then "1" else "0" in
  Join ["# Managed by Fast Lane"; "net.ipv6.conf.all.disable_ipv6=" +:+ value; "net.ipv6.conf.default.disable_ipv6=" +:+ value; ""] newline.

Section IPv6.
  Context `{OpenWrtHost W}.
  Context (m : IPv6Manager).

Abbreviation App := (Prog W string).

Definition NewIPv6Manager : IPv6Manager := IPv6Manager.mk "/proc" IPv6SysctlConfigPath.

Definition procIPv6ConfDir : string := path_join [firstNonEmpty [IPv6Manager.ProcRoot m; "/proc"]; "sys"; "net"; "ipv6"; "conf"].
Definition sysctlConfigPath : string := firstNonEmpty [IPv6Manager.SysctlConfigPath m; IPv6SysctlConfigPath].
Definition disable_path (name : string) : string := path_join [procIPv6ConfDir; name; "disable_ipv6"].

Fixpoint write_values (value : string) (entries : list (string * bool)) : App unit :=
  match entries with
  | [] => mret tt
  | (name, is_dir) :: rest =>
    if negb is_dir then write_values value rest
    else
      _ ← act (fun e => "write ipv6 state for " +:+ name +:+ ": " +:+ e) (write_value (disable_path name) value);
      write_values value rest
  end.

Definition writeRuntimeDisableValue (disabled : bool) : App unit :=
  found ← reads (read_dir procIPv6ConfDir);
  match found with
  | Err NotExist => mret tt
  | Err (ReadFailed e) => raise ("read ipv6 proc state: " +:+ e)
  | Ok entries => write_values ((if disabled then "1" else "0") +:+ newline) entries
  end.

Definition switch_ipv6 (disabled : bool) : App unit :=
  _ ← (if disabled
       then map_error (fun e : string => "write ipv6 sysctl config: " +:+ e) (atomicWriteText sysctlConfigPath (managedIPv6SysctlConfig true))
       else remove_if_exists "remove ipv6 sysctl config" sysctlConfigPath : App unit);
  writeRuntimeDisableValue disabled.

(** The interfaces whose value is not [1]. *)
Fixpoint enabled_interfaces (entries : list (string * bool)) (w : W) : result string (list string) :=
  match entries with
  | [] => Ok []
  | (entry, is_dir) :: rest =>
    let name := TrimSpace entry in
    if negb is_dir || bool_decide (name = "") || bool_decide (name = "lo") then enabled_interfaces rest w
    else match read_file (disable_path name) w with
         | Err e => Err ("read ipv6 state for " +:+ name +:+ ": " +:+ read_error e)
         | Ok data =>
           let* others := enabled_interfaces rest w in
           Ok (if bool_decide (TrimSpace data = "1") then others else name :: others)
         end
  end.

Definition ipv6_status (w : W) : result string IPv6Status.IPv6Status :=
  let* persistent := match stat_file sysctlConfigPath w with
                     | Ok _ => Ok true
                     | Err NotExist => Ok false
                     | Err (ReadFailed e) => Err ("stat ipv6 sysctl config: " +:+ e)
                     end in
  match read_dir procIPv6ConfDir w with
  | Err NotExist => Ok (IPv6Status.mk true sysctlConfigPath persistent true [])
  | Err (ReadFailed e) => Err ("read ipv6 proc state: " +:+ e)
  | Ok entries =>
    let* enabled := enabled_interfaces entries w in
    let enabled := sort_strings enabled in
    Ok (IPv6Status.mk true sysctlConfigPath persistent (is_nil enabled) enabled)
  end.

End IPv6.

(** ** DNS forwarding and IPv6: theorems

    What applying and disabling leave on disk, which dnsmasq is configured, that
    no resolver can smuggle in a line, and that the status after switching IPv6 is
    the one asked for. *)

(** ** The process that counts *)

Lemma later_process_max l : forall first, let last := foldl later_process first l in
  (last = first \/ last ∈ l) /\ (dnsmasqRuntimeProcess.PID first <= dnsmasqRuntimeProcess.PID last)%Z /\
  forall p, p ∈ l -> (dnsmasqRuntimeProcess.PID p <= dnsmasqRuntimeProcess.PID last)%Z.
Proof.
  induction l as [|p l IH]; intros first; cbn [foldl].
  - split_and!; [by left|lia|]. by intros p []%elem_of_nil.
  - destruct (IH (later_process first p)) as (Hin & Hle & Hmax).
    assert (Hp : later_process first p = first \/ later_process first p = p) by (unfold later_process; case_match; auto).
    assert (Hf : (dnsmasqRuntimeProcess.PID first <= dnsmasqRuntimeProcess.PID (later_process first p))%Z /\
                 (dnsmasqRuntimeProcess.PID p <= dnsmasqRuntimeProcess.PID (later_process first p))%Z)
      by (unfold later_process; destruct (Z.ltb_spec (dnsmasqRuntimeProcess.PID first) (dnsmasqRuntimeProcess.PID p)); lia).
    split_and!; [|lia|].
    + destruct Hin as [->|Hin]; [|right; by apply elem_of_cons; right]. destruct Hp as [-> | ->]; [by left|right; by apply elem_of_cons; left].
    + intros q [->|Hq]%elem_of_cons; [lia|by apply Hmax].
Qed.

(** ** Resolvers *)

Lemma field_trimmed s : is_field s -> TrimSpace s = s.
Proof.
  intros [_ Hs]. apply TrimSpace_fixed. rewrite Forall_forall in Hs. split; intros c Hc; apply Hs.
  - destruct (decode _) as [|x l]; [done|]. injection Hc as ->. apply list_elem_of_here.
  - apply last_Some in Hc as [l ->]. apply elem_of_app. right. apply list_elem_of_here.
Qed.

Lemma nameservers_ok l : forall out, NoDup out -> Forall is_field out -> let all := foldl nameserver out l in NoDup all /\ Forall is_field all.
Proof.
  induction l as [|line l IH]; intros out Hn Hf; cbn [foldl]; [done|]. apply IH.
  - unfold nameserver. cbv zeta. case_match; [done|]. repeat case_match; try done. by apply (foldl_push_unique_nodup out [_]).
  - unfold nameserver. cbv zeta. case_match; [done|]. destruct (Fields (TrimSpace line)) as [|key [|server rest]] eqn:E; try done.
    case_match; [done|]. apply Forall_forall. intros x Hx. apply (foldl_push_unique_elem out [TrimSpace server]) in Hx as [Hx|Hx].
    + by eapply Forall_forall in Hf.
    + pose proof (Fields_fields (TrimSpace line)) as Hall. rewrite E, !Forall_cons in Hall. destruct Hall as (_ & Hs & _).
      apply elem_of_cons in Hx as [->|[]%elem_of_nil]. by rewrite field_trimmed.
Qed.

(** ** Snippets on disk *)

Section DNS.
  Context (W : Type) `{OpenWrtHostLaws W}.
  Context (fault_text : DNSFault -> string) (m : DNSRuntimeManager).

Lemma resolvers_ok path (w : W) l : readResolvNameservers path w = Ok l -> NoDup l /\ Forall is_field l.
Proof.
  unfold readResolvNameservers. destruct (read_file path w) as [d|e]; [|done]. destruct (scan_lines d) as [ls ended].
  destruct ended; [|done]. intros [= <-]. apply nameservers_ok; constructor.
Qed.

Lemma restart_keeps_files path : untouched files (restartDNSMasq (W := W) path).
Proof.
  unfold restartDNSMasq. cbv zeta. case_bool_decide; [apply untouched_ret|]. apply untouched_map_error. exact (command_keeps_files W _ _).
Qed.

Lemma remove_if_exists_files context p (w w' : W) : remove_if_exists context p w = (Ok tt, w') -> files w' = delete p (files w).
Proof.
  unfold remove_if_exists. intros (r & w1 & Hr%outcome_ok & Hk)%bind_ok. destruct r as [[|e]|]; [| |]; try (injection Hk as <-); try done.
  - apply not_removed in Hr as [-> Hn]. symmetry. apply delete_id. by apply Hn.
  - by apply removed in Hr.
Qed.

Lemma all_removed paths : forall (w w' : W), remove_all paths w = (Ok tt, w') ->
  forall p, files w' !! p = if decide (p ∈ paths) then None else files w !! p.
Proof.
  induction paths as [|x paths IH]; intros w w'; cbn [remove_all]; [by intros [= ->]|].
  intros ([] & w1 & E1%remove_if_exists_files & Hk)%bind_ok p. rewrite (IH _ _ Hk p), E1.
  destruct (decide (p = x)) as [->|Hne]; [rewrite lookup_delete_eq, (decide_True _ _ (P := x ∈ x :: paths)) by apply list_elem_of_here; by case_decide|].
  rewrite lookup_delete_ne by done. case_decide as Hd1; case_decide as Hd2; try done; rewrite elem_of_cons in Hd2; tauto.
Qed.

Lemma dns_disabled w w' : Disable m w = (Ok tt, w') -> exists snippets, dns_snippets m w = Ok snippets /\
  forall p, files w' !! p = if decide (p ∈ snippets) then None else files w !! p.
Proof.
  unfold Disable. intros (found & w1 & [-> ->]%reads_ok & Hk)%bind_ok. destruct (dns_snippets m w) as [snippets|e]; [|done].
  apply bind_ok in Hk as (l & w2 & El & Hk). injection El as <- <-. apply bind_ok in Hk as ([] & w3 & E3 & Hk).
  pose proof (untouched_eq files _ _ _ _ (restart_keeps_files _) Hk) as Hf. exists snippets. split; [done|].
  intros p. rewrite Hf. by apply all_removed.
Qed.

(** Every running instance and every generated directory is covered. *)
Lemma snippets_cover w snippets : dns_snippets m w = Ok snippets ->
  (dns_override m <> "" -> snippets = [dns_override m]) /\
  (dns_override m = "" ->
     (forall processes p, runtimeProcesses m w = Ok processes -> p ∈ processes -> snippetPath m (dnsmasqRuntimeProcess.Info p) ∈ snippets) /\
     (forall matches dir, TrimSpace (DNSRuntimeManager.DNSMasqConfDirGlob m) <> "" ->
        glob (TrimSpace (DNSRuntimeManager.DNSMasqConfDirGlob m)) w = Ok matches -> dir ∈ matches -> dir_snippet dir ∈ snippets)).
Proof.
  unfold dns_snippets. case_bool_decide as Ho; cbn [negb]; [|by intros [= <-]]. intros Hs. split; [done|]. intros _.
  assert (Hrun : forall processes p, runtimeProcesses m w = Ok processes -> p ∈ processes ->
    snippetPath m (dnsmasqRuntimeProcess.Info p) ∈ foldl push_unique [] ((fun p => snippetPath m (dnsmasqRuntimeProcess.Info p)) <$> processes)).
  { intros processes p _ Hp. apply foldl_push_unique_elem. right. apply list_elem_of_fmap. by exists p. }
  cbv zeta in Hs. case_bool_decide as Hg.
  - injection Hs as <-. split; [|done]. intros processes p Hr Hp. rewrite Hr. by eapply Hrun.
  - destruct (glob _ w) as [matches|e]; [|done]. injection Hs as <-. split.
    + intros processes p Hr Hp. rewrite Hr. apply foldl_push_unique_elem. left. by eapply Hrun.
    + intros matches' dir _ [= <-] Hd. apply foldl_push_unique_elem. right. apply list_elem_of_fmap. by exists dir.
Qed.

Lemma faulty_ok {A} (r : result DNSFault A) (w : W) a w' : faulty fault_text r w = (Ok a, w') -> r = Ok a /\ w' = w.
Proof. unfold faulty, of_result. destruct r; [|done]. by intros [= -> ->]. Qed.

(** What forwarding leaves: the snippet of the latest dnsmasq, or nothing new. *)
Definition forwarded settings listen port (w w' : W) : Prop := exists info resolvers config,
  runtimeInfo m w = Ok info /\ readResolvNameservers (dnsmasqRuntimeInfo.ResolvFile info) w = Ok resolvers /\ resolvers <> [] /\
  buildDNSMasqFastLaneDNSConfig settings resolvers listen port = Ok config /\
  files w' = <[snippetPath m info := config]> (files w).

Lemma forward_cases settings listen port w r w' : forward fault_text m settings listen port w = (r, w') ->
  forwarded settings listen port w w' \/ (exists e, r = Err e) /\ files w' = files w.
Proof.
  unfold forward, mbind, prog_bind, reads, of_result.
  destruct (runtimeInfo m w) as [info|e] eqn:Ei; [|intros [= <- <-]; right; split; [by eexists|done]].
  destruct (readResolvNameservers _ w) as [resolvers|e] eqn:Er; [|intros [= <- <-]; right; split; [by eexists|done]].
  destruct (is_nil resolvers) eqn:En; [intros [= <- <-]; right; split; [by eexists|done]|].
  unfold faulty, of_result. destruct (buildDNSMasqFastLaneDNSConfig _ _ _ _) as [config|e] eqn:Eb; [|intros [= <- <-]; right; split; [by eexists|done]].
  unfold map_error. destruct (atomicWriteText _ _ w) as [r1 w1] eqn:Ew. apply atomicWriteText_cases in Ew as [[-> Hf]|[[e ->] Hf]].
  - intros Hr. left. exists info, resolvers, config. split_and!; try done; [by intros ->|].
    by rewrite (untouched_eq files _ _ _ _ (restart_keeps_files _) Hr).
  - intros [= <- <-]. right. split; [by eexists|done].
Qed.

(** The DNS snippet follows the settings.  With DNS of the system, or none, a
    success leaves no snippet beside any running dnsmasq or in any generated
    directory and changes no other file.  With DNS of the tunnel, the snippet of the latest
    dnsmasq is the generated one, or nothing has changed and an error is reported. *)
Theorem dns_snippet_follows settings listen port w r w' :
  Apply fault_text m settings listen port w = (r, w') ->
  match ParseDNSMode (DNSSettings.Mode settings) with
  | Err _ => (exists e, r = Err e) /\ w' = w
  | Ok mode =>
    if decide (mode = DNSModeSystem \/ mode = DNSModeDisabled)
    then r = Ok tt -> exists snippets, dns_snippets m w = Ok snippets /\
           forall p, files w' !! p = if decide (p ∈ snippets) then None else files w !! p
    else forwarded settings listen port w w' \/ (exists e, r = Err e) /\ files w' = files w
  end.
Proof.
  unfold Apply, mbind at 1, prog_bind at 1, faulty at 1, of_result, parse_mode.
  destruct (ParseDNSMode (DNSSettings.Mode settings)) as [mode|e]; [|intros [= <- <-]; split; [by eexists|done]].
  case_decide as Hm.
  - assert (E : bool_decide (mode = DNSModeSystem) || bool_decide (mode = DNSModeDisabled) = true)
      by (destruct Hm as [-> | ->]; [done|apply orb_true_r]).
    rewrite E. intros Hd ->. by apply dns_disabled.
  - assert (E : bool_decide (mode = DNSModeSystem) || bool_decide (mode = DNSModeDisabled) = false)
      by (rewrite !bool_decide_eq_false_2 by tauto; done).
    rewrite E. apply forward_cases.
Qed.

End DNS.

(** ** IPv6 *)

Section IPv6.
  Context (W : Type) `{StatLaws W}.
  Context (m : IPv6Manager).
  (** No interface comes or goes. *)
  Context (interfaces : list (string * bool)) (interfaces_stay : forall w : W, read_dir (procIPv6ConfDir m) w = Ok interfaces).

Definition interface_value (entries : list (string * bool)) (p : string) : Prop := exists name, (name, true) ∈ entries /\ p = disable_path m name.

Lemma values_written value entries : forall (w w' : W), write_values m value entries w = (Ok tt, w') -> forall p,
  (interface_value entries p -> files w' !! p = Some value) /\ (~ interface_value entries p -> files w' !! p = files w !! p).
Proof.
  induction entries as [|[name []] entries IH]; intros w w'; cbn [write_values negb].
  - intros [= ->] p. split; [|done]. by intros (? & []%elem_of_nil & _).
  - intros ([] & w1 & Hw%act_ok & Hk)%bind_ok p. apply value_written in Hw. destruct (IH _ _ Hk p) as [Hin Hout].
    destruct (decide (p = disable_path m name)) as [->|Hne].
    + split; [|intros []; exists name; split; [by left|done]]. intros _.
      destruct (decide (Exists (fun e => e.2 = true /\ disable_path m e.1 = disable_path m name) entries)) as [He|He].
      * apply Hin. apply Exists_exists in He as ([name' ?] & Hi & [= ->] & Hp). by exists name'.
      * rewrite Hout, Hw; [apply lookup_insert_eq|]. intros (name' & Hi & Hp). apply He, Exists_exists. by exists (name', true).
    + split.
      * intros (name' & [[= <-]|Hi]%elem_of_cons & Hp); [done|]. apply Hin. by exists name'.
      * intros Hn. rewrite Hout, Hw; [by apply lookup_insert_ne|]. intros (name' & Hi & Hp). apply Hn. exists name'. split; [by right|done].
  - intros Hk p. destruct (IH _ _ Hk p) as [Hin Hout]. split.
    + intros (name' & [[= _]|Hi]%elem_of_cons & Hp). apply Hin. by exists name'.
    + intros Hn. apply Hout. intros (name' & Hi & Hp). apply Hn. exists name'. split; [by right|done].
Qed.

(** The directories that the status looks at. *)
Definition listed_interface (e : string * bool) : bool := e.2 && negb (bool_decide (e.1 = "")) && negb (bool_decide (e.1 = "lo")).
Definition listed_interfaces : list (string * bool) -> list string := omap (fun e => if listed_interface e then Some e.1 else None).

Lemma interfaces_after value entries (w : W) l :
  (forall p d, interface_value entries p -> read_file p w = Ok d -> d = value) ->
  Forall (fun e : string * bool => TrimSpace e.1 = e.1) entries -> enabled_interfaces m entries w = Ok l ->
  l = if decide (TrimSpace value = "1") then [] else listed_interfaces entries.
Proof.
  intros Hv Ht. revert l. induction Ht as [|[name is_dir] entries Hn Ht IH]; intros l; cbn [enabled_interfaces].
  - intros [= <-]. by case_decide.
  - cbn [fst] in Hn. rewrite Hn. change (listed_interfaces ((name, is_dir) :: entries)) with
      (match (if listed_interface (name, is_dir) then Some name else None) with Some y => y :: listed_interfaces entries | None => listed_interfaces entries end).
    unfold listed_interface. cbn [fst snd].
    assert (IH' : forall l, enabled_interfaces m entries w = Ok l ->
      l = if decide (TrimSpace value = "1") then [] else listed_interfaces entries).
    { intros l' Hl. apply IH; [|done]. intros p d (name' & Hi & Hp) Hr. apply (Hv p d); [|done]. exists name'. split; [by right|done]. }
    destruct is_dir; cbn [negb orb andb]; [|apply IH'].
    destruct (bool_decide (name = "")) eqn:E1, (bool_decide (name = "lo")) eqn:E2; cbn [negb orb andb]; try apply IH'.
    destruct (read_file _ w) as [d|] eqn:Er; [|done].
    apply Hv in Er as ->; [|exists name; split; [apply list_elem_of_here|done]].
    destruct (enabled_interfaces m entries w) as [others|] eqn:Eo; [|done].
    intros [= <-]. rewrite (IH' others eq_refl). case_decide as Hd; [by rewrite bool_decide_eq_true_2|by rewrite bool_decide_eq_false_2].
Qed.

Definition switch_value (disabled : bool) : string := (if disabled then "1" else "0") +:+ newline.

Lemma switched (disabled : bool) (w w' : W) : switch_ipv6 m disabled w = (Ok tt, w') ->
  (forall p, interface_value interfaces p -> files w' !! p = Some (switch_value disabled)) /\
  (~ interface_value interfaces (sysctlConfigPath m) ->
    files w' !! sysctlConfigPath m = if disabled then Some (managedIPv6SysctlConfig true) else None).
Proof.
  unfold switch_ipv6. intros ([] & w1 & Hc & Hk)%bind_ok. unfold writeRuntimeDisableValue in Hk.
  apply bind_ok in Hk as (found & w2 & Hfound & Hk). unfold reads in Hfound. injection Hfound as <- <-. rewrite interfaces_stay in Hk.
  pose proof (values_written _ _ _ _ Hk) as Hv. split; [intros p; apply Hv|]. intros Hn. rewrite (proj2 (Hv _) Hn). destruct disabled.
  - apply map_error_ok, atomicWriteText_cases in Hc as [[_ ->]|[[e [=]] _]]. apply lookup_insert_eq.
  - rewrite (remove_if_exists_files W (H2 := stat_openwrt) _ _ _ _ Hc). apply lookup_delete_eq.
Qed.

Lemma persistent_after (w : W) b text shown : files w !! sysctlConfigPath m = (if b : bool then Some text else None) ->
  stat_file (sysctlConfigPath m) w <> Ok true ->
  match stat_file (sysctlConfigPath m) w with
  | Ok _ => Ok true
  | Err NotExist => Ok false
  | Err (ReadFailed e) => Err ("stat ipv6 sysctl config: " +:+ e)
  end = Ok shown -> shown = b.
Proof.
  pose proof (stat_regular (sysctlConfigPath m) w) as Hs. unfold fileExists in Hs. intros Hf Hd. rewrite Hf in Hs.
  destruct (stat_file _ w) as [[]|[|e]]; try done; intros [= <-]; symmetry in Hs.
  - apply bool_decide_eq_true in Hs as [? Hb]. by destruct b.
  - apply bool_decide_eq_false in Hs. destruct b; [|done]. destruct Hs. by eexists.
Qed.

(** The status after switching IPv6 is the one asked for.  When switching
    succeeds and no interface, whose names have no spaces, comes or goes, a status that can be read reports the persistent switch as asked; if
    IPv6 was disabled it names no interface that still has it, and if it was
    enabled it names every interface but the loopback. *)
Theorem ipv6_switch_shows (disabled : bool) (w w' : W) status :
  switch_ipv6 m disabled w = (Ok tt, w') ->
  Forall (fun e : string * bool => TrimSpace e.1 = e.1) interfaces ->
  ~ interface_value interfaces (sysctlConfigPath m) -> stat_file (sysctlConfigPath m) w' <> Ok true ->
  ipv6_status m w' = Ok status ->
  let enabled := if disabled then [] else sort_strings (listed_interfaces interfaces) in
  status = IPv6Status.mk true (sysctlConfigPath m) disabled (is_nil enabled) enabled.
Proof.
  intros Hk Ht Hc Hs Hstatus. destruct (switched _ _ _ Hk) as [Hv Hp]. revert Hstatus. unfold ipv6_status.
  match goal with |- (let* _ := ?x in _) = _ -> _ => destruct x as [shown|] eqn:Esh end; [|done].
  apply (persistent_after _ _ _ _ (Hp Hc) Hs) in Esh as ->. rewrite interfaces_stay. destruct (enabled_interfaces m interfaces w') as [l|] eqn:El; [|done].
  apply interfaces_after with (value := switch_value disabled) in El; [|intros p d Hi%Hv Hr%read_some; congruence|done].
  intros [= <-]. rewrite El. by destruct disabled.
Qed.

End IPv6.

(** A host whose kernel has two interfaces and the loopback. *)
Definition sample_interfaces : list (string * bool) := [("lo", true); ("eth1", true); ("all", true); ("eth0", true); ("notes", false)].

#[local] Instance interfaces_openwrt : OpenWrtHost Router := {
  getenv _ := "";
  read_dir _ _ := Ok sample_interfaces;
  glob _ _ := Ok [];
  stat_file p w := match files w !! p with Some _ => Ok false | None => Err NotExist end;
  write_value p d w := (None, put_files (<[p := d]> (files w)) w);
  temp_conf w := temp_conf (OpenWrtHost := router_openwrt) w;
  run_command := router_command
}.

Lemma interfaces_laws : StatLaws Router (H1 := interfaces_openwrt).
Proof.
  pose proof router_laws as [L1 L2 L3 L4 L5]. split; [by split|]. intros p w. unfold fileExists.
  change (stat_file p w) with (match files w !! p with Some _ => Ok false | None => Err NotExist end : result ReadError bool).
  destruct (files w !! p); [by rewrite bool_decide_eq_true_2 by (by eexists)|]. rewrite bool_decide_eq_false_2; [done|]. by intros [? [=]].
Qed.

Definition sample_ipv6 : IPv6Manager := IPv6Manager.mk "/proc" "/etc/sysctl.d/99.conf".
Definition bare_router : Router := {| disk := Build_MemoryHost ∅ None; table := []; nft_installed := true |}.
Abbreviation ipv6_run b := (switch_ipv6 sample_ipv6 b bare_router).

Lemma ipv6_switch_shows_witness :
  ipv6_status sample_ipv6 (ipv6_run true).2 = Ok (IPv6Status.mk true "/etc/sysctl.d/99.conf" true true []) /\
  ipv6_status sample_ipv6 (ipv6_run false).2 = Ok (IPv6Status.mk true "/etc/sysctl.d/99.conf" false false ["all"; "eth0"; "eth1"]).
Proof.
  assert (T : forall b, (ipv6_run b).1 = Ok tt -> is_ok (ipv6_status sample_ipv6 (ipv6_run b).2) = true ->
    let enabled := if b then [] else sort_strings (listed_interfaces sample_interfaces) in
    ipv6_status sample_ipv6 (ipv6_run b).2 = Ok (IPv6Status.mk true "/etc/sysctl.d/99.conf" b (is_nil enabled) enabled)).
  { intros b E Es. destruct (ipv6_status sample_ipv6 _) as [st|e] eqn:E2; [|discriminate Es].
    rewrite (ipv6_switch_shows Router (H2 := interfaces_laws) sample_ipv6 sample_interfaces (fun _ => eq_refl) b bare_router _ st (run_eq _ _ E)); [done| | | |done].
    - by repeat constructor.
    - intros (name & Hn & Hp). repeat (apply elem_of_cons in Hn as [[= ->]|Hn]; [vm_compute in Hp; discriminate Hp|]). by apply elem_of_cons in Hn as [[=]|[]%elem_of_nil].
    - destruct b; vm_compute; discriminate. }
  split; [apply (T true); vm_compute; reflexivity|apply (T false); vm_compute; reflexivity].
Defined.


(** A router without a running dnsmasq, with a snippet from before. *)
Definition stale_router : Router := {| disk := Build_MemoryHost {[ "/tmp/dnsmasq.d/fastlane-dns.conf" := "no-resolv" ]} None; table := []; nft_installed := true |}.
Definition stale_manager : DNSRuntimeManager := DNSRuntimeManager.mk "" "/tmp/dnsmasq.d/fastlane-dns.conf" "" "/proc".
Definition system_dns : DNSSettings := DNSSettings.mk DNSModeSystem DNSTransportPlain [] [] [].
Abbreviation system_run := (Apply (fun _ => "") stale_manager system_dns "127.0.0.1" 1053 stale_router).

Lemma dns_snippet_follows_witness : files system_run.2 !! "/tmp/dnsmasq.d/fastlane-dns.conf" = None.
Proof.
  assert (E : system_run.1 = Ok tt) by (vm_compute; reflexivity).
  pose proof (dns_snippet_follows Router (H2 := router_laws) (fun _ => "") stale_manager system_dns "127.0.0.1" 1053 stale_router
    (Ok tt) system_run.2 (run_eq _ _ E)) as T.
  assert (Em : ParseDNSMode (DNSSettings.Mode system_dns) = Ok DNSModeSystem) by (vm_compute; reflexivity).
  rewrite Em in T. rewrite decide_True in T by (by left).
  destruct (T eq_refl) as (snippets & Hs & Hf). injection Hs as <-. exact (Hf "/tmp/dnsmasq.d/fastlane-dns.conf").
Defined.
