(* ===== verification/OpenWrtZapret.v ===== *)
(** * The zapret manager

    [ZapretManager] of [platform/openwrt/zapret.go]: it takes over the lists and the
    configuration of the zapret service, keeps the originals beside them, and puts
    them back when it is disabled.  [marker_text] stands for [encoding/json] on the
    marker. *)
From S2P Require Import Prelude GoRunes GoStrings GoNum NetIP Domain GoConv Firewall.
From S2P Require Import FirewallSettings Zapret NFTables.
From S2P Require Import Effects AtomicFiles AmneziaStore OpenWrtHost.

Local Open Scope list_scope.

Module zapretMarker.
Record zapretMarker : Type := mk { Domains : list string; CIDRs : list string; OriginalExists : bool }.
End zapretMarker.
Abbreviation zapretMarker := zapretMarker.zapretMarker.

Module ZapretManager.
Record ZapretManager : Type := mk {
  ServicePath : string;
  ConfigPath : string;
  ConfigBackupPath : string;
  HostlistPath : string;
  HostlistBackupPath : string;
  IPListPath : string;
  IPListBackupPath : string;
  MarkerPath : string
}.
End ZapretManager.
Abbreviation ZapretManager := ZapretManager.ZapretManager.

(** ** The managed part of the configuration *)

Definition zapretConfigManagedStart : string := "# Fast Lane managed start".
Definition zapretConfigManagedEnd : string := "# Fast Lane managed end".

Definition double_quote : string := String "034" EmptyString.

(** The text before and after the first occurrence. *)
Fixpoint cut_string (s sub : string) : option (string * string) :=
  if HasPrefix s sub then Some ("", TrimPrefix s sub)
  else match s with
       | EmptyString => None
       | String c t => match cut_string t sub with Some (a, b) => Some (String c a, b) | None => None end
       end.

Fixpoint trim_newlines (s : string) : string :=
  match s with
  | EmptyString => ""
  | String c t =>
    let t' := trim_newlines t in
    if bool_decide (t' = "") && bool_decide (c = line_feed) then "" else String c t'
  end.

(** Each round removes one block, so the length bounds the rounds. *)
Fixpoint strip_blocks (fuel : nat) (base : string) : string :=
  match fuel with
  | O => base
  | S fuel =>
    match cut_string base zapretConfigManagedStart with
    | None => base
    | Some (before, after) =>
      match cut_string (zapretConfigManagedStart +:+ after) zapretConfigManagedEnd with
      | None => before
      | Some (_, rest) => strip_blocks fuel (trim_newlines before +:+ TrimPrefix rest newline)
      end
    end
  end.

Definition stripManagedZapretConfig (base : string) : string := strip_blocks (S (String.length base)) base.

Definition desync_options : string :=
  "--new --comment=fastlane_ipset_http --filter-tcp=80 --ipset=$FASTLANE_ZAPRET_IPLIST --dpi-desync=fake --dpi-desync-repeats=6 --dpi-desync-fake-http=/opt/zapret/files/fake/http_iana_org.bin --new --comment=fastlane_ipset_tls --filter-tcp=443,5222 --ipset=$FASTLANE_ZAPRET_IPLIST --dpi-desync=fake --dpi-desync-repeats=8 --dpi-desync-fake-tls=/opt/zapret/files/fake/tls_clienthello_www_google_com.bin --dpi-desync-fake-tls-mod=rnd --new --comment=fastlane_ipset_udp --filter-udp=443 --ipset=$FASTLANE_ZAPRET_IPLIST --dpi-desync=fake --dpi-desync-repeats=6 --dpi-desync-fake-quic=/opt/zapret/files/fake/quic_initial_www_google_com.bin".

Definition in_quotes (s : string) : string := double_quote +:+ s +:+ double_quote.

Definition renderManagedZapretConfig (ipListPath : string) : string :=
  Join [
    zapretConfigManagedStart;
    "FASTLANE_ZAPRET_IPLIST=" +:+ in_quotes ipListPath;
    "if [ -s " +:+ in_quotes "$FASTLANE_ZAPRET_IPLIST" +:+ " ]; then";
    "  NFQWS_OPT=" +:+ in_quotes ("$NFQWS_OPT " +:+ desync_options);
    "fi";
    "unset FASTLANE_ZAPRET_IPLIST";
    zapretConfigManagedEnd;
    ""] newline.

Definition buildManagedZapretConfig (base ipListPath : string) (enableIPProfile : bool) : string :=
  let clean := trim_newlines (stripManagedZapretConfig base) in
  if negb enableIPProfile
  then if bool_decide (clean = "") then "" else clean +:+ newline
  else if bool_decide (clean = "") then renderManagedZapretConfig ipListPath
  else clean +:+ newline +:+ newline +:+ renderManagedZapretConfig ipListPath.

Definition buildZapretList (header : string) (values : list string) : string :=
  Join ([if bool_decide (header = "") then "# Managed by Fast Lane" else header; ""] ++ values ++ [""]) newline.

Definition statusOutputLooksRunning (output : string) : bool :=
  let normalized := ToLower (TrimSpace output) in
  if bool_decide (normalized = "") || bool_decide (normalized = "unknown") then false
  else if Contains normalized "no instances" then false
  else if Contains normalized "inactive" then false
  else if Contains normalized "not running" then false
  else if Contains normalized "stopped" then false
  else if Contains normalized "running" then true
  else Contains normalized "active".

Section Manager.
  Context `{OpenWrtHost W}.
  Context (marker_text : zapretMarker -> string).
  Context (m : ZapretManager).

Abbreviation App := (Prog W string).

Definition NewZapretManager (w : W) : ZapretManager :=
  ZapretManager.mk ZapretServicePath ZapretConfigPath (ZapretConfigBackupPath w) ZapretHostlistPath ZapretHostlistBackupPath
    ZapretIPListPath ZapretIPListBackupPath (ZapretMarkerPath w).

Definition servicePath : string := firstNonEmpty [ZapretManager.ServicePath m; ZapretServicePath].
Definition configPath : string := firstNonEmpty [ZapretManager.ConfigPath m; ZapretConfigPath].
Definition configBackupPath (w : W) : string := firstNonEmpty [ZapretManager.ConfigBackupPath m; ZapretConfigBackupPath w].
Definition hostlistPath : string := firstNonEmpty [ZapretManager.HostlistPath m; ZapretHostlistPath].
Definition hostlistBackupPath : string := firstNonEmpty [ZapretManager.HostlistBackupPath m; ZapretHostlistBackupPath].
Definition ipListPath : string := firstNonEmpty [ZapretManager.IPListPath m; ZapretIPListPath].
Definition ipListBackupPath : string := firstNonEmpty [ZapretManager.IPListBackupPath m; ZapretIPListBackupPath].
Definition markerPath (w : W) : string := firstNonEmpty [ZapretManager.MarkerPath m; ZapretMarkerPath w].

(** ** Status *)

(** An error of the status command counts only when the service runs. *)
Definition serviceStatus : App (string * bool * option string) :=
  printed ← outcome (run_command servicePath ["status"]);
  let state := TrimSpace printed.2 in
  let state := if bool_decide (state = "") then "unknown" else state in
  let active := statusOutputLooksRunning state in
  mret (state, active, if active then printed.1 else None).

(** The status and the error that comes with it. *)
Definition Status : App (ZapretStatus.ZapretStatus * option string) :=
  installed ← reads (fileExists servicePath);
  managed ← reads (fun w => fileExists (markerPath w) w);
  if negb installed then mret (ZapretStatus.mk false managed false false false "not-installed" "", None)
  else
    service ← serviceStatus;
    let '(state, active, err) := service in
    let reason := if active && negb managed then "zapret service is running outside Fast Lane" else "" in
    let reason := match err with Some e => if bool_decide (reason = "") then e else reason | None => reason end in
    mret (ZapretStatus.mk true managed (active && managed) active false (firstNonEmpty [state; "unknown"]) reason, err).

(** ** Taking over *)

Definition backupOriginalFile (path backupPath : string) : App unit :=
  taken ← reads (fun w => fileExists (markerPath w) w || fileExists backupPath w);
  if taken : bool then mret tt
  else
    data ← reads (read_file path);
    match data with
    | Err NotExist => mret tt
    | Err (ReadFailed e) => raise e
    | Ok data => atomicWriteText backupPath data
    end.

Definition syncConfig (cidrs : list string) : App unit :=
  backup ← reads configBackupPath;
  _ ← backupOriginalFile configPath backup;
  source ← reads (fun w => if fileExists backup w then backup else configPath);
  data ← reads (read_file source);
  match data with
  | Err e => raise (read_error e)
  | Ok data => atomicWriteText configPath (buildManagedZapretConfig data ipListPath (negb (is_nil cidrs)))
  end.

Definition within {A} (context : string) (p : App A) : App A := map_error (fun e => context +:+ ": " +:+ e) p.

Definition take_hostlist (domains cidrs : list string) : App unit :=
  _ ← within "backup zapret hostlist" (backupOriginalFile hostlistPath hostlistBackupPath);
  _ ← within "backup zapret ip list" (backupOriginalFile ipListPath ipListBackupPath);
  _ ← within "prepare zapret config" (syncConfig cidrs);
  within "write zapret hostlist" (atomicWriteText hostlistPath (buildZapretList "# Managed by Fast Lane" domains)).

Definition write_lists (domains cidrs : list string) : App unit :=
  _ ← take_hostlist domains cidrs;
  within "write zapret ip list" (atomicWriteText ipListPath (buildZapretList "# Managed by Fast Lane" cidrs)).

Definition write_marker (domains cidrs : list string) : App unit :=
  original ← reads (fun w => fileExists hostlistBackupPath w || fileExists ipListBackupPath w);
  marker ← reads markerPath;
  within "write zapret marker" (atomicWriteText marker (marker_text (zapretMarker.mk domains cidrs original) +:+ newline)).

Definition run_action (action : string) : App unit := fun w =>
  match run_command servicePath [action] w with
  | ((None, _), w) => (Ok tt, w)
  | ((Some e, printed), w) => (Err ("run " +:+ servicePath +:+ " " +:+ action +:+ ": " +:+ e +:+ ": " +:+ printed), w)
  end.

Abbreviation Reported := (Prog W (ZapretStatus.ZapretStatus * string)).

Definition with_status {A} (status : ZapretStatus.ZapretStatus) (p : App A) : Reported A := map_error (fun e => (status, e)) p.

Definition with_reason (status : ZapretStatus.ZapretStatus) (reason : string) : ZapretStatus.ZapretStatus :=
  ZapretStatus.mk (ZapretStatus.Installed status) (ZapretStatus.Managed status) (ZapretStatus.Active status)
    (ZapretStatus.ServiceActive status) (ZapretStatus.TestActive status) (ZapretStatus.ServiceState status) reason.

Definition refuse {A} (status : ZapretStatus.ZapretStatus) (reason : string) : Reported A := raise (with_reason status reason, reason).

Definition status_or_error : Reported ZapretStatus.ZapretStatus := fun w =>
  match Status w with
  | (Ok (status, None), w) => (Ok status, w)
  | (Ok (status, Some e), w) => (Err (status, e), w)
  | (Err e, w) => (Err (ZapretStatus.mk false false false false false "" "", e), w)
  end.

Definition managed_status (status : ZapretStatus.ZapretStatus) : ZapretStatus.ZapretStatus :=
  ZapretStatus.mk (ZapretStatus.Installed status) true (ZapretStatus.Active status)
    (ZapretStatus.ServiceActive status) (ZapretStatus.TestActive status) (ZapretStatus.ServiceState status) "".

Definition Apply (domains cidrs : list string) : Reported ZapretStatus.ZapretStatus :=
  status ← status_or_error;
  if negb (ZapretStatus.Installed status) then refuse status "zapret package is not installed"
  else
    let domains := NormalizeZapretDomainList domains in
    let cidrs := NormalizeZapretCIDRList cidrs in
    if is_nil domains && is_nil cidrs then refuse status "zapret selectors are empty"
    else
      _ ← with_status status (write_lists domains cidrs);
      _ ← with_status status (write_marker domains cidrs);
      _ ← with_status status (run_action (if ZapretStatus.ServiceActive status then "restart" else "start"));
      status ← status_or_error;
      if negb (ZapretStatus.Active status)
      then refuse status (firstNonEmpty [ZapretStatus.LastReason status; "zapret service is not running"])
      else mret (managed_status status).

(** ** Giving back *)

Definition restoreManagedFile (path backupPath : string) : App unit :=
  data ← reads (read_file backupPath);
  match data with
  | Err e => raise ("read backup " +:+ backupPath +:+ ": " +:+ read_error e)
  | Ok data => within ("restore " +:+ path) (atomicWriteText path data)
  end.

Definition restore_or_remove (name path backupPath : string) : App unit :=
  kept ← reads (fileExists backupPath);
  if kept : bool then within ("restore zapret " +:+ name) (restoreManagedFile path backupPath)
  else remove_if_exists ("remove zapret " +:+ name) path.

Definition stop_service : App unit :=
  stopped ← attempt (run_action "stop");
  match stopped with
  | Err e => if negb (Contains (ToLower e) "not running") then raise e else mret tt
  | Ok _ => mret tt
  end.

Definition give_back : App unit :=
  installed ← reads (fileExists servicePath);
  _ ← when installed stop_service;
  _ ← restore_or_remove "hostlist" hostlistPath hostlistBackupPath;
  _ ← restore_or_remove "ip list" ipListPath ipListBackupPath;
  configBackup ← reads configBackupPath;
  kept ← reads (fileExists configBackup);
  _ ← when kept (within "restore zapret config" (restoreManagedFile configPath configBackup));
  _ ← remove_if_exists "remove zapret hostlist backup" hostlistBackupPath;
  _ ← remove_if_exists "remove zapret ip list backup" ipListBackupPath;
  _ ← remove_if_exists "remove zapret config backup" configBackup;
  marker ← reads markerPath;
  remove_if_exists "remove zapret marker" marker.

Definition Disable : App unit :=
  managed ← reads (fun w => fileExists (markerPath w) w);
  if negb managed then mret tt else give_back.

End Manager.
