(* ===== verification/OpenWrtZapretFacts.v ===== *)
(** * The zapret manager: theorems

    What is cut out of the configuration; that the originals come back once zapret
    was taken over, whatever happens in between; and that a take-over that fails
    before its marker is written is never undone. *)
From S2P Require Import Prelude GoRunes GoStrings GoNum NetIP Domain GoConv Firewall.
From S2P Require Import FirewallSettings Zapret NFTables NFTablesFacts.
From S2P Require Import Effects AtomicFiles AmneziaStore OpenWrtHost OpenWrtZapret.

Local Open Scope list_scope.

(** ** Blocks in the configuration *)

Lemma cut_string_Some sub : forall s a b, cut_string s sub = Some (a, b) -> s = a +:+ sub +:+ b.
Proof.
  induction s as [|c t IH]; intros a b; cbn [cut_string].
  - destruct (HasPrefix "" sub) eqn:E; [|done]. intros [= <- <-]. apply HasPrefix_spec in E as [r E]. by destruct sub.
  - destruct (HasPrefix (String c t) sub) eqn:E.
    + intros [= <- <-]. apply HasPrefix_spec in E as [r E]. by rewrite E, TrimPrefix_app.
    + destruct (cut_string t sub) as [[x y]|]; [|done]. intros [= <- <-]. rewrite (IH _ _ eq_refl). reflexivity.
Qed.

Lemma cut_string_None sub : forall s, cut_string s sub = None -> Contains s sub = false.
Proof.
  induction s as [|c t IH]; cbn [cut_string].
  - destruct (HasPrefix "" sub) eqn:E; [done|]. intros _. destruct (Contains "" sub) eqn:Ec; [|done].
    apply Contains_spec in Ec as (x & y & Ex). destruct x; [|done]. destruct sub; [|done]. by rewrite (proj2 (HasPrefix_spec "" "")) in E by (by exists "").
  - rewrite Contains_cons. destruct (HasPrefix (String c t) sub) eqn:E; [done|]. destruct (cut_string t sub) as [[x y]|]; [done|].
    intros _. cbn [orb]. by apply IH.
Qed.

Lemma prefix_app_l a b sub : HasPrefix a sub = true -> HasPrefix (a +:+ b) sub = true.
Proof. rewrite !HasPrefix_spec. intros [r ->]. exists (r +:+ b). by rewrite append_assoc. Qed.

(** Nothing before the first occurrence contains another one. *)
Lemma cut_string_first sub : sub <> "" -> forall s a b, cut_string s sub = Some (a, b) -> Contains a sub = false.
Proof.
  intros Hne. assert (Hempty : Contains "" sub = false).
  { destruct (Contains "" sub) eqn:E; [|done]. apply Contains_spec in E as (x & y & E). by destruct x, sub. }
  induction s as [|c t IH]; intros a b; cbn [cut_string].
  - destruct (HasPrefix "" sub); [|done]. by intros [= <- _].
  - destruct (HasPrefix (String c t) sub) eqn:E; [by intros [= <- _]|]. destruct (cut_string t sub) as [[x y]|] eqn:Ec; [|done].
    intros [= <- <-]. rewrite Contains_cons, (IH _ _ eq_refl), orb_false_r. destruct (HasPrefix (String c x) sub) eqn:E2; [|done].
    apply cut_string_Some in Ec as ->. apply (prefix_app_l _ (sub +:+ y)) in E2. change (String c x +:+ (sub +:+ y)) with (String c (x +:+ sub +:+ y)) in E2. congruence.
Qed.

Lemma trim_newlines_length s : (String.length (trim_newlines s) <= String.length s)%nat.
Proof. induction s as [|c t IH]; cbn [trim_newlines]; [done|]. case_bool_decide; cbn; [case_bool_decide; cbn; lia|lia]. Qed.

Lemma TrimPrefix_length s p : (String.length (TrimPrefix s p) <= String.length s)%nat.
Proof.
  destruct (HasPrefix s p) eqn:E; [|unfold TrimPrefix; by rewrite E]. apply HasPrefix_spec in E as [r ->].
  rewrite TrimPrefix_app, length_append. lia.
Qed.

Lemma strip_blocks_clean fuel : forall base, (String.length base < fuel)%nat -> Contains (strip_blocks fuel base) zapretConfigManagedStart = false.
Proof.
  induction fuel as [|fuel IH]; intros base Hl; [lia|]. cbn [strip_blocks].
  destruct (cut_string base zapretConfigManagedStart) as [[before after]|] eqn:E; [|by apply cut_string_None].
  destruct (cut_string _ zapretConfigManagedEnd) as [[x rest]|] eqn:E2; [|eapply cut_string_first, E; done].
  apply IH. apply cut_string_Some in E, E2. apply (f_equal String.length) in E, E2. rewrite !length_append in *.
  change (String.length zapretConfigManagedStart) with 25%nat in *. change (String.length zapretConfigManagedEnd) with 23%nat in *.
  pose proof (trim_newlines_length before). pose proof (TrimPrefix_length rest newline). lia.
Qed.

(** The rounds end: no block is left. *)
Lemma stripped_clean base : Contains (stripManagedZapretConfig base) zapretConfigManagedStart = false.
Proof. apply strip_blocks_clean. lia. Qed.

(** *** One block *)

Lemma no_hash_cut s r sub : has_byte s "#" = false -> cut_string (s +:+ String "#" sub +:+ r) (String "#" sub) = Some (s, r).
Proof.
  induction s as [|c s IH]; intros Hs.
  - change ("" +:+ String "#" sub +:+ r) with (String "#" sub +:+ r). change (String "#" sub +:+ r) with (String "#" (sub +:+ r)) at 1. cbn [cut_string].
    change (String "#" (sub +:+ r)) with (String "#" sub +:+ r).
    assert (Hp : HasPrefix (String "#" sub +:+ r) (String "#" sub) = true) by (apply HasPrefix_spec; by exists r). rewrite Hp. by rewrite TrimPrefix_app.
  - cbn [has_byte] in Hs. apply orb_false_iff in Hs as [Hc Hs].
    change (String c s +:+ String "#" sub +:+ r) with (String c (s +:+ String "#" sub +:+ r)). cbn [cut_string].
    destruct (HasPrefix _ _) eqn:E; [|by rewrite IH]. apply HasPrefix_spec in E as [x [= -> _]]. vm_compute in Hc. discriminate Hc.
Qed.

Lemma no_hash_uncut s sub : has_byte s "#" = false -> cut_string s (String "#" sub) = None.
Proof.
  intros Hs. destruct (cut_string s (String "#" sub)) as [[a b]|] eqn:E; [|done]. apply cut_string_Some in E as ->.
  rewrite has_byte_app in Hs. cbn in Hs. by rewrite orb_true_r in Hs.
Qed.

Lemma trim_newlines_end a : trim_newlines (a +:+ newline) = trim_newlines a.
Proof.
  induction a as [|c a IH]; [reflexivity|]. change (String c a +:+ newline) with (String c (a +:+ newline)).
  cbn [trim_newlines]. by rewrite IH.
Qed.

Definition managed_block (settings : string) : string := zapretConfigManagedStart +:+ settings +:+ zapretConfigManagedEnd.

Lemma cut_managed_end settings r : has_byte settings "#" = false ->
  exists x, cut_string (zapretConfigManagedStart +:+ settings +:+ zapretConfigManagedEnd +:+ r) zapretConfigManagedEnd = Some (x, r).
Proof.
  intros Hs. set (tail := " Fast Lane managed start").
  change (zapretConfigManagedStart +:+ settings +:+ zapretConfigManagedEnd +:+ r)
    with (String "#" (tail +:+ settings +:+ zapretConfigManagedEnd +:+ r)).
  cbn [cut_string]. replace (HasPrefix _ zapretConfigManagedEnd) with false by reflexivity.
  rewrite <- append_assoc. unfold zapretConfigManagedEnd at 1 2. rewrite no_hash_cut; [by eexists|].
  by rewrite has_byte_app, Hs.
Qed.

Lemma trim_newlines_app a b : trim_newlines a = a -> trim_newlines (a +:+ b) = a +:+ trim_newlines b.
Proof.
  induction a as [|c a IH]; [done|]. cbn [trim_newlines]. intros Ha. change (String c a +:+ b) with (String c (a +:+ b)). cbn [trim_newlines].
  case_bool_decide as H1; cbn [andb] in Ha.
  - case_bool_decide; [done|]. injection Ha as Ha. rewrite (IH Ha). rewrite andb_false_r. reflexivity.
  - injection Ha as Ha. rewrite (IH Ha). rewrite bool_decide_eq_false_2; [reflexivity|]. rewrite Ha in H1. by destruct a.
Qed.

(** Taking a block out of the configuration joins the lines around it.  For a
    block in the middle of the file the line before it and the line after it become
    one line of the generated configuration. *)
Theorem stripping_joins_lines a settings b :
  has_byte a "#" = false -> has_byte settings "#" = false -> has_byte b "#" = false -> trim_newlines a = a -> a <> "" ->
  let base := a +:+ newline +:+ managed_block settings +:+ newline +:+ b in
  stripManagedZapretConfig base = a +:+ b /\ forall path, buildManagedZapretConfig base path false = a +:+ trim_newlines b +:+ newline.
Proof.
  intros Ha Hs Hb Htrim Hne base. assert (Hstrip : stripManagedZapretConfig base = a +:+ b).
  { unfold stripManagedZapretConfig. cbn [strip_blocks]. destruct (cut_managed_end settings (newline +:+ b) Hs) as [x Hx].
    assert (Hcut : cut_string base zapretConfigManagedStart = Some (a +:+ newline, settings +:+ zapretConfigManagedEnd +:+ newline +:+ b)).
    { assert (Hbase : base = (a +:+ newline) +:+ zapretConfigManagedStart +:+ settings +:+ zapretConfigManagedEnd +:+ newline +:+ b)
        by (unfold base, managed_block; by rewrite !append_assoc).
      rewrite Hbase. apply no_hash_cut. by rewrite has_byte_app, Ha. }
    rewrite Hcut, Hx, trim_newlines_end, Htrim, TrimPrefix_app.
    destruct (String.length base); [done|]. cbn [strip_blocks]. unfold zapretConfigManagedStart. rewrite no_hash_uncut; [done|]. by rewrite has_byte_app, Ha, Hb. }
  split; [done|]. intros path. unfold buildManagedZapretConfig. cbn [negb]. rewrite Hstrip, trim_newlines_app by done.
  rewrite bool_decide_eq_false_2 by (by destruct a). by rewrite append_assoc.
Qed.

Lemma stripping_joins_lines_witness :
  buildManagedZapretConfig ("MODE=nfqws" +:+ newline +:+ managed_block "X=1" +:+ newline +:+ "DISABLE_IPV6=1" +:+ newline) "" false
  = "MODE=nfqwsDISABLE_IPV6=1" +:+ newline.
Proof.
  destruct (stripping_joins_lines "MODE=nfqws" "X=1" ("DISABLE_IPV6=1" +:+ newline) eq_refl eq_refl eq_refl eq_refl ltac:(discriminate)) as [_ Hb].
  exact (eq_trans (Hb "") eq_refl).
Defined.

(** ** The originals *)

Section Originals.
  Context (W : Type) `{StatLaws W}.
  Context (marker_text : zapretMarker -> string) (m : ZapretManager) (marker config_backup : string).
  Context (marker_is : forall w : W, markerPath m w = marker) (config_backup_is : forall w : W, configBackupPath m w = config_backup).

Abbreviation host := (hostlistPath m).
Abbreviation host_backup := (hostlistBackupPath m).
Abbreviation ips := (ipListPath m).
Abbreviation ips_backup := (ipListBackupPath m).
Abbreviation config := (configPath m).

Definition owned : list string := [host; host_backup; ips; ips_backup; config; config_backup; marker].

Context (owned_distinct : NoDup owned).

(** What backups hold once zapret is taken over from the files [f0]. *)
Record kept_originals (f0 f : Files) : Prop := {
  kept_others : forall p, p ∉ owned -> f !! p = f0 !! p;
  kept_host : f !! host_backup = f0 !! host;
  kept_ips : f !! ips_backup = f0 !! ips;
  kept_config : f !! config_backup = f0 !! config;
  kept_config_present : is_Some (f0 !! config)
}.

Definition taken_over (f0 f : Files) : Prop := kept_originals f0 f /\ is_Some (f !! marker).

(** Nothing of an earlier take-over is left. *)
Definition untaken (f0 : Files) : Prop := f0 !! marker = None /\ f0 !! host_backup = None /\ f0 !! ips_backup = None /\ f0 !! config_backup = None.

Lemma action_keeps_files action : untouched files (run_action m action).
Proof.
  intros w. unfold run_action. pose proof (commands_keep_files (servicePath m) [action] w) as Hk.
  by destruct (run_command _ _ w) as [[[e|] o] v].
Qed.

Lemma status_keeps_files : untouched files (Status m).
Proof.
  unfold Status, serviceStatus. assert (Hr : untouched (E := string) files (outcome (run_command (servicePath m) ["status"]))).
  { apply untouched_outcome. intros w. apply commands_keep_files. }
  untouched_steps.
Qed.

Lemma status_or_error_keeps_files : untouched files (status_or_error m).
Proof.
  intros w. unfold status_or_error. pose proof (status_keeps_files w) as Hk. by destruct (Status m w) as [[[st [e|]]|e] v].
Qed.

(** Programs that keep a take-over, whatever they run into. *)
Abbreviation keeps f0 p := (triple (fun w : W => taken_over f0 (files w)) p (fun _ w => taken_over f0 (files w)) (fun _ w => taken_over f0 (files w))).

Lemma paths_distinct :
  (host <> host_backup /\ host <> ips /\ host <> ips_backup /\ host <> config /\ host <> config_backup /\ host <> marker) /\
  (host_backup <> ips /\ host_backup <> ips_backup /\ host_backup <> config /\ host_backup <> config_backup /\ host_backup <> marker) /\
  (ips <> ips_backup /\ ips <> config /\ ips <> config_backup /\ ips <> marker) /\
  (ips_backup <> config /\ ips_backup <> config_backup /\ ips_backup <> marker) /\
  (config <> config_backup /\ config <> marker) /\ config_backup <> marker.
Proof. pose proof owned_distinct as Hd. unfold owned in Hd. rewrite !NoDup_cons, !not_elem_of_cons in Hd. tauto. Qed.

Ltac distinct := pose proof paths_distinct as (?&?&?&?&?&?); destruct_and!; congruence.

Definition rewritten : list string := [host; ips; config; marker].

Lemma rewritten_owned p : p ∈ rewritten -> p ∈ owned /\ p <> host_backup /\ p <> ips_backup /\ p <> config_backup.
Proof.
  unfold rewritten, owned. rewrite !elem_of_cons. intros [->|[->|[->|[->|[]%elem_of_nil]]]]; (split; [tauto|]); split_and!; distinct.
Qed.

Lemma taken_insert f0 f p d : taken_over f0 f -> p ∈ rewritten -> taken_over f0 (<[p := d]> f).
Proof.
  intros [[Ho Hh Hi Hc Hp] Hm] (Hin & H1' & H2' & H3')%rewritten_owned. split; [split; [| | | |done]|].
  - intros q Hq. rewrite lookup_insert_ne; [by apply Ho|]. by intros ->.
  - by rewrite lookup_insert_ne.
  - by rewrite lookup_insert_ne.
  - by rewrite lookup_insert_ne.
  - destruct (decide (p = marker)) as [->|Hne]; [rewrite lookup_insert_eq; by eexists|by rewrite lookup_insert_ne].
Qed.

(** *** A take-over is kept *)

Lemma keeps_untouched {E A} f0 (p : Prog W E A) : untouched files p -> keeps f0 p.
Proof. intros Hp w Hw. specialize (Hp w). destruct (p w) as [[a|e] v]; cbn in Hp; by rewrite Hp. Qed.

Lemma keeps_both {E A B} f0 (p : Prog W E A) (k : A -> Prog W E B) : keeps f0 p -> (forall a, keeps f0 (k a)) -> keeps f0 (p ≫= k).
Proof. intros Hp Hk. eapply triple_bind; [exact Hp|exact Hk]. Qed.

Lemma keeps_map_error {E E' A} f0 (g : E -> E') (p : Prog W E A) : keeps f0 p -> keeps f0 (map_error g p).
Proof. intros Hp w Hw. unfold map_error. specialize (Hp w Hw). by destruct (p w) as [[a|e] v]. Qed.

Lemma keeps_files_written f0 p d : p ∈ rewritten -> keeps f0 (atomicWriteText p d).
Proof.
  intros Hp w Hw. destruct (atomicWriteText p d w) as [r v] eqn:E. apply atomicWriteText_cases in E as [[-> ->]|[[e ->] ->]]; [by apply taken_insert|done].
Qed.

Lemma keeps_backup f0 p bp : keeps f0 (backupOriginalFile m p bp).
Proof.
  intros w Hw. unfold backupOriginalFile, mbind, prog_bind, reads. rewrite marker_is, stat_regular.
  rewrite bool_decide_eq_true_2 by apply Hw. exact Hw.
Qed.

Lemma in_rewritten : host ∈ rewritten /\ ips ∈ rewritten /\ config ∈ rewritten /\ marker ∈ rewritten.
Proof. unfold rewritten. rewrite !elem_of_cons. tauto. Qed.

Lemma keeps_sync f0 cidrs : keeps f0 (syncConfig m cidrs).
Proof.
  unfold syncConfig. apply keeps_both; [apply keeps_untouched, untouched_reads|intros backup].
  apply keeps_both; [apply keeps_backup|intros _]. do 2 (apply keeps_both; [apply keeps_untouched, untouched_reads|intros ?]).
  case_match; [by apply keeps_files_written, in_rewritten|apply keeps_untouched, untouched_raise].
Qed.

Lemma keeps_lists f0 domains cidrs : keeps f0 (write_lists m domains cidrs).
Proof.
  unfold write_lists. apply keeps_both; [|intros _; unfold within; by apply keeps_map_error, keeps_files_written, in_rewritten].
  unfold take_hostlist, within. do 2 (apply keeps_both; [apply keeps_map_error, keeps_backup|intros _]).
  apply keeps_both; [apply keeps_map_error, keeps_sync|intros _].
  by apply keeps_map_error, keeps_files_written, in_rewritten.
Qed.

Lemma keeps_marker f0 domains cidrs : keeps f0 (write_marker marker_text m domains cidrs).
Proof.
  unfold write_marker, within. apply keeps_both; [apply keeps_untouched, untouched_reads|intros original].
  intros w Hw. unfold mbind, prog_bind, reads. rewrite marker_is. by apply keeps_map_error; [apply keeps_files_written, in_rewritten|].
Qed.

Lemma keeps_taken_over f0 domains cidrs : keeps f0 (Apply marker_text m domains cidrs).
Proof.
  unfold Apply, refuse, with_status. apply keeps_both; [apply keeps_untouched, status_or_error_keeps_files|intros status].
  case_match; [apply keeps_untouched, untouched_raise|]. case_match; [apply keeps_untouched, untouched_raise|].
  apply keeps_both; [apply keeps_map_error, keeps_lists|intros _]. apply keeps_both; [apply keeps_map_error, keeps_marker|intros _].
  apply keeps_both; [apply keeps_map_error, keeps_untouched, action_keeps_files|intros _].
  apply keeps_both; [apply keeps_untouched, status_or_error_keeps_files|intros last].
  case_match; apply keeps_untouched; [apply untouched_raise|apply untouched_ret].
Qed.

(** *** Taking over *)

Lemma backup_made p bp w w' : files w !! marker = None -> files w !! bp = None -> backupOriginalFile m p bp w = (Ok tt, w') ->
  files w' = match files w !! p with Some d => <[bp := d]> (files w) | None => files w end.
Proof.
  intros Hm Hb. unfold backupOriginalFile, mbind, prog_bind, reads. rewrite marker_is, !stat_regular, Hm, Hb. cbn.
  destruct (read_file p w) as [d|[|e]] eqn:E; [apply read_some in E; rewrite E| |done].
  - intros [[_ ->]|[[e [=]] _]]%atomicWriteText_cases. done.
  - intros [= <-]. apply read_none in E. by rewrite E.
Qed.

Lemma within_ok {A} context (p : Prog W string A) w a w' : within context p w = (Ok a, w') -> p w = (Ok a, w').
Proof. unfold within, map_error. destruct (p w) as [[b|e] v]; [|done]. by intros [= -> ->]. Qed.

Lemma written_ok p d (w : W) u w' : atomicWriteText p d w = (Ok u, w') -> files w' = <[p := d]> (files w).
Proof. by intros [[_ ->]|[[e [=]] _]]%atomicWriteText_cases. Qed.

(** A backup reads as the original, and the rest as before. *)
Lemma backup_lookup (f : Files) p bp q : f !! bp = None ->
  (match f !! p with Some d => <[bp := d]> f | None => f end) !! q = if decide (q = bp) then f !! p else f !! q.
Proof.
  intros Hb. destruct (f !! p) as [d|] eqn:E; case_decide as Hq; subst; rewrite ?lookup_insert_eq, ?lookup_insert_ne; congruence.
Qed.

Lemma synced cidrs w w' : files w !! marker = None -> files w !! config_backup = None -> syncConfig m cidrs w = (Ok tt, w') ->
  is_Some (files w !! config) /\
  forall q, q <> config -> files w' !! q = if decide (q = config_backup) then files w !! config else files w !! q.
Proof.
  intros Hm Hb. unfold syncConfig. intros (backup & w1 & [-> ->]%reads_ok & Hk)%bind_ok. rewrite config_backup_is in *.
  apply bind_ok in Hk as ([] & w2 & E2 & Hk). apply backup_made in E2; [|done..]. apply bind_ok in Hk as (source & w3 & [-> ->]%reads_ok & Hk).
  apply bind_ok in Hk as (data & w4 & [-> ->]%reads_ok & Hk).
  assert (Hl : forall q, files w2 !! q = if decide (q = config_backup) then files w !! config else files w !! q).
  { intros q. rewrite E2. by apply backup_lookup. }
  destruct (read_file _ w2) as [d|e] eqn:Er; [|done]. apply read_some in Er. apply written_ok in Hk. split.
  - destruct (files w !! config) as [c|] eqn:Ec; [by eexists|]. exfalso.
    pose proof (Hl config_backup) as Hcb. rewrite decide_True in Hcb by done. pose proof (Hl config) as Hcc. rewrite decide_False in Hcc by distinct.
    rewrite stat_regular, bool_decide_eq_false_2 in Er by (rewrite Hcb; by intros [? [=]]). congruence.
  - intros q Hq. rewrite Hk, lookup_insert_ne by done. apply Hl.
Qed.

(** What is on disk once the list of hosts is written. *)
Lemma hostlist_taken domains cidrs w w' : untaken (files w) -> take_hostlist m domains cidrs w = (Ok tt, w') ->
  files w' !! host = Some (buildZapretList "# Managed by Fast Lane" domains) /\ is_Some (files w !! config) /\
  forall q, q <> host -> q <> config -> files w' !! q =
    if decide (q = config_backup) then files w !! config else if decide (q = ips_backup) then files w !! ips
    else if decide (q = host_backup) then files w !! host else files w !! q.
Proof.
  intros (Hm & Hh & Hi & Hc). unfold take_hostlist. intros ([] & w1 & E1%within_ok & Hk)%bind_ok.
  apply backup_made in E1; [|done..].
  assert (L1 : forall q, files w1 !! q = if decide (q = host_backup) then files w !! host else files w !! q) by (intros q; rewrite E1; by apply backup_lookup).
  apply bind_ok in Hk as ([] & w2 & E2%within_ok & Hk). apply backup_made in E2; [|rewrite L1, decide_False by distinct; done..].
  assert (L2 : forall q, files w2 !! q = if decide (q = ips_backup) then files w !! ips else files w1 !! q).
  { intros q. rewrite E2, backup_lookup by (rewrite L1, decide_False by distinct; done). case_decide; [rewrite L1, decide_False by distinct; done|done]. }
  apply bind_ok in Hk as ([] & w3 & E3%within_ok & Hk). apply synced in E3; [|rewrite L2, decide_False, L1, decide_False by distinct; done..].
  destruct E3 as [Hconf L3]. rewrite L2, decide_False, L1, decide_False in Hconf, L3 by distinct.
  apply within_ok, written_ok in Hk. split_and!; [rewrite Hk; apply lookup_insert_eq|done|].
  intros q Hq1 Hq2. rewrite Hk, lookup_insert_ne, L3, L2, L1 by done. done.
Qed.

Lemma lists_written domains cidrs w w' : untaken (files w) -> write_lists m domains cidrs w = (Ok tt, w') ->
  kept_originals (files w) (files w').
Proof.
  intros Hu. unfold write_lists. intros ([] & w4 & E4 & Hk)%bind_ok. apply hostlist_taken in E4 as (_ & Hconf & L4); [|done].
  apply within_ok, written_ok in Hk.
  assert (L5 : forall q, q <> host -> q <> ips -> q <> config -> files w' !! q =
    if decide (q = config_backup) then files w !! config else if decide (q = ips_backup) then files w !! ips
    else if decide (q = host_backup) then files w !! host else files w !! q) by (intros q H1' H2' H3'; by rewrite Hk, lookup_insert_ne, L4).
  split; [| | | |done].
  - intros q Hq. unfold owned in Hq. rewrite !not_elem_of_cons in Hq. destruct_and!. by rewrite L5, !decide_False.
  - by rewrite L5, decide_False, decide_False, decide_True by distinct.
  - by rewrite L5, decide_False, decide_True by distinct.
  - by rewrite L5, decide_True by distinct.
Qed.

Lemma status_or_error_files w r w' : status_or_error m w = (r, w') -> files w' = files w.
Proof. intros E. exact (untouched_eq files _ _ _ _ status_or_error_keeps_files E). Qed.

Lemma with_status_ok {A} st (p : Prog W string A) w a w' : with_status st p w = (Ok a, w') -> p w = (Ok a, w').
Proof. unfold with_status, map_error. destruct (p w) as [[b|e] v]; [|done]. by intros [= -> ->]. Qed.

(** The first success takes zapret over. *)
Lemma applied_takes domains cidrs w st w' : untaken (files w) -> Apply marker_text m domains cidrs w = (Ok st, w') -> taken_over (files w) (files w').
Proof.
  intros Hu. unfold Apply, refuse. intros (s1 & w1 & E1%status_or_error_files & Hk)%bind_ok. cbv zeta in Hk.
  destruct (negb _); [done|]. destruct (is_nil _ && is_nil _); [done|].
  apply bind_ok in Hk as ([] & w2 & E2%with_status_ok & Hk). apply lists_written in E2; [|by rewrite E1]. rewrite E1 in E2.
  apply bind_ok in Hk as ([] & w3 & E3%with_status_ok & Hk). unfold write_marker in E3.
  apply bind_ok in E3 as (original & v & [_ ->]%reads_ok & E3). apply bind_ok in E3 as (mk & v' & [-> ->]%reads_ok & E3%within_ok%written_ok). rewrite marker_is in E3.
  assert (Ht : taken_over (files w) (files w3)).
  { rewrite E3. split; [|rewrite lookup_insert_eq; by eexists]. destruct E2 as [Ho Hh Hi Hc Hp]. split; [| | | |done].
    - intros q Hq. rewrite lookup_insert_ne; [by apply Ho|]. intros <-. apply Hq. unfold owned. rewrite !elem_of_cons. tauto.
    - by rewrite lookup_insert_ne by distinct.
    - by rewrite lookup_insert_ne by distinct.
    - by rewrite lookup_insert_ne by distinct. }
  apply bind_ok in Hk as ([] & w4 & E4%with_status_ok & Hk). pose proof (untouched_eq files _ _ _ _ (action_keeps_files _) E4) as F4.
  apply bind_ok in Hk as (s5 & w5 & E5%status_or_error_files & Hk). destruct (negb _); [done|]. injection Hk as <- <-.
  by rewrite E5, F4.
Qed.

(** *** Giving back *)

Lemma removed_lookup context p (w : W) w' q : remove_if_exists context p w = (Ok tt, w') -> files w' !! q = if decide (q = p) then None else files w !! q.
Proof.
  unfold remove_if_exists. intros (r & w1 & Hr%outcome_ok & Hk)%bind_ok. destruct r as [[|e]|]; [| |]; try (injection Hk as <-).
  - apply not_removed in Hr as [-> Hn]. case_decide; [subst; by apply Hn|done].
  - done.
  - apply removed in Hr as ->. case_decide; [subst; apply lookup_delete_eq|by rewrite lookup_delete_ne].
Qed.

Lemma restored_lookup p bp (w : W) w' q : restoreManagedFile p bp w = (Ok tt, w') ->
  is_Some (files w !! bp) /\ files w' !! q = if decide (q = p) then files w !! bp else files w !! q.
Proof.
  unfold restoreManagedFile. intros (data & w1 & [-> ->]%reads_ok & Hk)%bind_ok. destruct (read_file bp w) as [d|e] eqn:E; [|done].
  apply read_some in E. apply within_ok, written_ok in Hk. split; [by eexists|]. rewrite Hk, E.
  case_decide; [subst; apply lookup_insert_eq|by rewrite lookup_insert_ne].
Qed.

Lemma given_back name p bp w w' q : restore_or_remove name p bp w = (Ok tt, w') -> files w' !! q = if decide (q = p) then files w !! bp else files w !! q.
Proof.
  unfold restore_or_remove. intros (kept & w1 & [-> ->]%reads_ok & Hk)%bind_ok. rewrite stat_regular in Hk. case_bool_decide as Hb.
  - by apply within_ok, (restored_lookup _ _ _ _ q) in Hk as [_ ->].
  - rewrite (removed_lookup _ _ _ _ q Hk). case_decide; [|done]. symmetry. by apply eq_None_not_Some.
Qed.

Lemma stop_keeps_files : untouched files (stop_service m).
Proof. unfold stop_service. pose proof action_keeps_files. untouched_steps. Qed.

Lemma disabled_restores f0 w w' : untaken f0 -> taken_over f0 (files w) -> Disable m w = (Ok tt, w') -> files w' = f0.
Proof.
  intros (Hm0 & Hh0 & Hi0 & Hc0) [[Ho Hh Hi Hc Hp] Hm]. unfold Disable. intros (managed & w1 & [-> ->]%reads_ok & Hk)%bind_ok.
  rewrite marker_is, stat_regular, bool_decide_eq_true_2 in Hk by done. cbn [negb] in Hk. unfold give_back in Hk.
  apply bind_ok in Hk as (inst & v & [_ ->]%reads_ok & Hk). apply bind_ok in Hk as ([] & w2 & E2 & Hk).
  apply untouched_eq with (f := files) in E2; [|apply untouched_when, stop_keeps_files].
  apply bind_ok in Hk as ([] & w3 & E3 & Hk). apply bind_ok in Hk as ([] & w4 & E4 & Hk).
  apply bind_ok in Hk as (cb & v1 & [-> ->]%reads_ok & Hk). rewrite config_backup_is in Hk.
  apply bind_ok in Hk as (kept & v2 & [-> ->]%reads_ok & Hk). apply bind_ok in Hk as ([] & w5 & E5 & Hk).
  apply bind_ok in Hk as ([] & w6 & E6 & Hk). apply bind_ok in Hk as ([] & w7 & E7 & Hk). apply bind_ok in Hk as ([] & w8 & E8 & Hk).
  apply bind_ok in Hk as (mk & v3 & [-> ->]%reads_ok & E9). rewrite marker_is in E9.
  assert (L3 : forall q, files w3 !! q = if decide (q = host) then files w !! host_backup else files w !! q).
  { intros q. rewrite (given_back _ _ _ _ _ q E3). by rewrite E2. }
  assert (L4 : forall q, files w4 !! q = if decide (q = ips) then files w !! ips_backup else files w3 !! q).
  { intros q. rewrite (given_back _ _ _ _ _ q E4). case_decide; [rewrite L3, decide_False by distinct; done|done]. }
  assert (Lcb : files w4 !! config_backup = f0 !! config) by (rewrite L4, decide_False, L3, decide_False by distinct; done).
  assert (L5 : forall q, files w5 !! q = if decide (q = config) then f0 !! config else files w4 !! q).
  { intros q. rewrite stat_regular, Lcb, bool_decide_eq_true_2 in E5 by done. cbn [when] in E5.
    apply within_ok, (restored_lookup _ _ _ _ q) in E5 as [_ ->]. by rewrite Lcb. }
  assert (L9 : forall q, q <> marker -> q <> config_backup -> q <> ips_backup -> q <> host_backup -> files w' !! q = files w5 !! q).
  { intros q ? ? ? ?. by rewrite (removed_lookup _ _ _ _ q E9), (removed_lookup _ _ _ _ q E8), (removed_lookup _ _ _ _ q E7), (removed_lookup _ _ _ _ q E6), !decide_False. }
  apply map_eq. intros q. destruct (decide (q ∈ owned)) as [Hq|Hq].
  - unfold owned in Hq. rewrite !elem_of_cons in Hq. destruct Hq as [->|[->|[->|[->|[->|[->|[->|[]%elem_of_nil]]]]]]].
    + rewrite L9, L5, decide_False, L4, decide_False, L3, decide_True by distinct. done.
    + rewrite (removed_lookup _ _ _ _ _ E9), (removed_lookup _ _ _ _ _ E8), (removed_lookup _ _ _ _ _ E7), (removed_lookup _ _ _ _ _ E6).
      rewrite !decide_False by distinct. by rewrite decide_True.
    + rewrite L9, L5, decide_False, L4, decide_True by distinct. done.
    + rewrite (removed_lookup _ _ _ _ _ E9), (removed_lookup _ _ _ _ _ E8), (removed_lookup _ _ _ _ _ E7), !decide_False by distinct. by rewrite decide_True.
    + rewrite L9, L5, decide_True by distinct. done.
    + rewrite (removed_lookup _ _ _ _ _ E9), (removed_lookup _ _ _ _ _ E8), decide_False by distinct. by rewrite decide_True.
    + rewrite (removed_lookup _ _ _ _ _ E9), decide_True by done. done.
  - pose proof Hq as Hq'. unfold owned in Hq'. rewrite !not_elem_of_cons in Hq'. destruct_and!.
    rewrite L9, L5, decide_False, L4, decide_False, L3, decide_False by done. by apply Ho.
Qed.

Definition reapplied (w : W) (l : list (list string * list string)) : W :=
  foldl (fun w s => (Apply marker_text m s.1 s.2 w).2) w l.

Lemma reapplied_kept f0 l : forall w, taken_over f0 (files w) -> taken_over f0 (files (reapplied w l)).
Proof.
  induction l as [|[d c] l IH]; intros w Hw; [done|]. apply IH. pose proof (keeps_taken_over f0 d c w Hw) as Hk. cbn [fst snd].
  by destruct (Apply _ _ _ _ w) as [[s|e] v].
Qed.

(** C11: disabling gives the originals back.  When the first attempt to take over a
    router that was not taken over succeeds, then after any number of further
    attempts with other selectors, failed or not, a successful disabling leaves
    every file of the router as it was before the first. (A first attempt that
    fails is another matter: see [failed_take_over_stays].) *)
Theorem originals_come_back domains cidrs later w st w1 w2 :
  untaken (files w) -> Apply marker_text m domains cidrs w = (Ok st, w1) -> Disable m (reapplied w1 later) = (Ok tt, w2) ->
  files w2 = files w.
Proof.
  intros Hu Ha Hd. apply applied_takes in Ha; [|done]. by eapply disabled_restores, Hd; [|apply reapplied_kept].
Qed.

(** A take-over that fails before its marker is written is not undone.  When the
    list of addresses cannot be written, the attempt fails and the list of hosts
    stays replaced; disabling finds no marker, does nothing and reports success. *)
Theorem failed_take_over_stays domains cidrs w status w1 w2 e w3 :
  let domains' := NormalizeZapretDomainList domains in
  let cidrs' := NormalizeZapretCIDRList cidrs in
  untaken (files w) -> status_or_error m w = (Ok status, w1) -> ZapretStatus.Installed status = true ->
  is_nil domains' && is_nil cidrs' = false -> take_hostlist m domains' cidrs' w1 = (Ok tt, w2) ->
  atomicWriteText ips (buildZapretList "# Managed by Fast Lane" cidrs') w2 = (Err e, w3) ->
  Apply marker_text m domains cidrs w = (Err (status, "write zapret ip list: " +:+ e), w3) /\ Disable m w3 = (Ok tt, w3) /\
  files w3 !! host = Some (buildZapretList "# Managed by Fast Lane" domains').
Proof.
  intros domains' cidrs' Hu Es Hi Hn Et Ew. pose proof (status_or_error_files _ _ _ Es) as F1.
  pose proof (hostlist_taken _ _ _ _ ltac:(by rewrite F1) Et) as (Hhost & _ & L2). pose proof Hu as (Hm & _).
  assert (F3 : files w3 = files w2) by (by apply atomicWriteText_cases in Ew as [[[=] _]|[_ ->]]).
  assert (Hmark : files w3 !! marker = None) by (rewrite F3, L2, !decide_False, F1 by distinct; done).
  split_and!.
  - unfold Apply, mbind, prog_bind. rewrite Es, Hi. cbv zeta. cbn [negb]. fold domains' cidrs'. rewrite Hn.
    unfold with_status, map_error, write_lists, mbind, prog_bind, within, map_error. by rewrite Et, Ew.
  - unfold Disable, mbind, prog_bind, reads. rewrite marker_is, stat_regular, Hmark, bool_decide_eq_false_2; [done|]. by intros [? [=]].
  - by rewrite F3.
Qed.

End Originals.

(** ** A router with zapret *)

(** Renaming a file to a refused path fails. *)
Record ZapretHost : Type := { zapret_files : Files; refused : list string }.

#[export] Instance zapret_host : Host ZapretHost := {
  files := zapret_files;
  put_files f w := {| zapret_files := f; refused := refused w |};
  call_fails c p w := (match c with RenameTemp => if bool_decide (p ∈ refused w) then Some "read-only file system" else None | _ => None end, w);
  written_part _ _ := "";
  random_suffix w := fresh_suffix (zapret_files w)
}.

#[export] Instance zapret_file_host : FileHost ZapretHost := {
  read_file p w := match zapret_files w !! p with Some d => Ok d | None => Err NotExist end;
  remove_file p w := match zapret_files w !! p with
                     | Some _ => (None, {| zapret_files := delete p (zapret_files w); refused := refused w |})
                     | None => (Some NotExist, w)
                     end
}.

#[export] Instance zapret_openwrt : OpenWrtHost ZapretHost := {
  getenv _ := "";
  read_dir _ _ := Err NotExist;
  glob _ _ := Ok [];
  stat_file p w := match zapret_files w !! p with Some _ => Ok false | None => Err NotExist end;
  write_value p d w := (None, {| zapret_files := <[p := d]> (zapret_files w); refused := refused w |});
  temp_conf w := "x" +:+ fresh_suffix (zapret_files w);
  run_command _ _ w := ((None, "running"), w)
}.

Lemma zapret_stat_laws : StatLaws ZapretHost.
Proof.
  assert (Hfresh : forall (f : Files) prefix, prefix <> "" -> f !! (prefix +:+ fresh_suffix f) = None).
  { intros f prefix Hne. destruct (f !! _) as [d|] eqn:E; [|done]. exfalso. apply mk_is_Some, fresh_suffix_longer in E. rewrite length_append in E.
    destruct prefix; [done|]. cbn in E. lia. }
  split; [|intros p w; unfold fileExists; cbn; destruct (zapret_files w !! p) eqn:E; [by rewrite bool_decide_eq_true_2 by (by eexists)|]].
  - split; [split; [split| | | |]| | | |]; try done.
    + intros path w. cbn. rewrite <- append_assoc. apply Hfresh. by destruct path.
    + intros p w d. cbn. by destruct (zapret_files w !! p); intros [= ->].
    + intros p w. cbn. by destruct (zapret_files w !! p).
    + intros p w w'. cbn. by destruct (zapret_files w !! p); intros [= <-].
    + intros p w e w'. cbn. destruct (zapret_files w !! p) eqn:E; [done|]. by intros [= <- <-].
    + intros p d w w'. cbn. by intros [= <-].
    + intros w. cbn. by apply Hfresh.
  - rewrite bool_decide_eq_false_2; [done|]. by intros [? [=]].
Qed.

Definition sample_zapret : ZapretManager := ZapretManager.mk "/z/init" "/z/config" "/r/config.bak" "/z/hosts" "/z/hosts.bak" "/z/ips" "/z/ips.bak" "/r/marker".

Definition before_zapret : Files := {[ "/z/init" := "#!/bin/sh"; "/z/config" := "MODE=nfqws"; "/z/hosts" := "my.example" ]}.

Abbreviation zapret_run r := (Apply (fun _ => "{}") sample_zapret ["youtube.com"] [] {| zapret_files := before_zapret; refused := r |}).

Lemma sample_owned : NoDup (owned ZapretHost sample_zapret "/r/marker" "/r/config.bak").
Proof. apply (bool_decide_unpack _). vm_compute. exact I. Qed.

Lemma originals_come_back_witness :
  zapret_files (zapret_run []).2 <> before_zapret /\ zapret_files (Disable sample_zapret (zapret_run []).2).2 = before_zapret.
Proof.
  assert (E1 : is_ok (zapret_run []).1 = true) by (vm_compute; reflexivity).
  assert (E2 : (Disable sample_zapret (zapret_run []).2).1 = Ok tt) by (vm_compute; reflexivity).
  split.
  - intros E. apply (f_equal (fun f => f !! "/z/hosts")) in E. vm_compute in E. discriminate E.
  - destruct (zapret_run []) as [[st|e] w1] eqn:E; [|discriminate E1].
    exact (originals_come_back ZapretHost (H2 := zapret_stat_laws) (fun _ => "{}") sample_zapret "/r/marker" "/r/config.bak" (fun _ => eq_refl) (fun _ => eq_refl)
      sample_owned ["youtube.com"] [] [] {| zapret_files := before_zapret; refused := [] |} st w1 _
      (conj eq_refl (conj eq_refl (conj eq_refl eq_refl))) E (run_eq _ _ E2)).
Defined.

(** The list of addresses cannot be written: the list of hosts stays taken over. *)
Abbreviation broken_host := {| zapret_files := before_zapret; refused := ["/z/ips"] |}.
Abbreviation host_taken := (take_hostlist sample_zapret ["youtube.com"] [] broken_host).
Abbreviation list_refused := (atomicWriteText "/z/ips" (buildZapretList "# Managed by Fast Lane" []) host_taken.2).

Lemma failed_take_over_stays_witness :
  Disable sample_zapret list_refused.2 = (Ok tt, list_refused.2) /\
  files list_refused.2 !! "/z/hosts" = Some (buildZapretList "# Managed by Fast Lane" ["youtube.com"]).
Proof.
  set (status := ZapretStatus.mk true false false true false "running" "zapret service is running outside Fast Lane").
  assert (Es : status_or_error sample_zapret broken_host = (Ok status, broken_host)) by reflexivity.
  assert (E2 : host_taken.1 = Ok tt) by (vm_compute; reflexivity). assert (E3 : list_refused.1 = Err "read-only file system") by (vm_compute; reflexivity).
  destruct (failed_take_over_stays ZapretHost (H2 := zapret_stat_laws) (fun _ => "{}") sample_zapret "/r/marker" "/r/config.bak" (fun _ => eq_refl) (fun _ => eq_refl)
    sample_owned ["youtube.com"] [] broken_host status broken_host host_taken.2 "read-only file system" list_refused.2
    (conj eq_refl (conj eq_refl (conj eq_refl eq_refl))) Es eq_refl eq_refl (run_eq _ _ E2) (run_eq _ _ E3)) as (Ha & Hd & Hh).
  exact (conj Hd Hh).
Defined.
