(* ===== verification/XrayWriter.v ===== *)
(** * The configuration on disk

    [backend/xray/writer.go] and [PersistConfig] of [backend/xray/managed.go]:
    the configuration file and the last known good one.  A configuration is
    generated, tested, written, loaded by the service, and kept as the last
    known good one; when the service rejects it the last known good one comes
    back.

    The Xray binary, the init script and the JSON encoder are the host's:
    [render] gives the text of a configuration and [indent] the text that
    [json.MarshalIndent] makes of it. *)
From S2P Require Import Prelude GoRunes GoStrings Domain Settings XrayConfig XrayRouting.
From S2P Require Import XrayFacts Effects AtomicFiles.

Local Open Scope list_scope.

Class XrayHost (W : Type) `{FileHost W} := {
  candidate_name : string -> W -> string;         (** [os.CreateTemp] with [candidateConfigPattern] *)
  test_config : string -> W -> option string * W; (** [xray -test] on a file with this content *)
  start_service : W -> option string * W;
  stop_service : W -> option string * W;
  reload_service : W -> option string * W
}.

(** What the init script prints, read as a state. *)
Definition statusOutputLooksRunning (output : string) : bool :=
  let normalized := ToLower (TrimSpace output) in
  if bool_decide (normalized = "") || bool_decide (normalized = "unknown") then false
  else if Contains normalized "no instances" then false
  else if Contains normalized "inactive" then false
  else if Contains normalized "not running" then false
  else if Contains normalized "stopped" then false
  else Contains normalized "running" || Contains normalized "active".

(** The calls of [validateConfig] on its temporary file. *)
Definition candidate_calls : list Call := [MakeDir; CreateTemp; WriteTemp; ChmodTemp; CloseTemp].

Definition candidate_context (c : Call) : string :=
  match c with
  | MakeDir => "create xray config directory"
  | CreateTemp => "create xray candidate config"
  | WriteTemp => "write xray candidate config"
  | ChmodTemp => "chmod xray candidate config"
  | CloseTemp => "close xray candidate config"
  | c => call_context c
  end.

Definition candidate_error (c : Call) (e : string) : string := candidate_context c +:+ ": " +:+ e.

Section Writer.
  Context `{XrayHost W}.
  Context (render : xrayConfig -> string) (indent : string -> result string string).
  Context (generate : ConfigRequest -> result GenError xrayConfig) (gen_error_text : GenError -> string).
  Context (path : string).

Abbreviation App := (Prog W string).

Definition backupPath : string := path +:+ ".last-known-good".

Definition under {A} (context : string) (p : App A) : App A := map_error (fun e => context +:+ ": " +:+ e) p.

(** [AtomicWriteJSON] of raw JSON text, which is indented on the way. *)
Definition AtomicWriteJSON (p data : string) : App unit :=
  match indent data with
  | Err e => raise ("marshal json: " +:+ e)
  | Ok text => atomicWriteFile p (text +:+ String "010" EmptyString)
  end.

Definition write_config (data : string) : App unit := under "write xray config" (AtomicWriteJSON path data).

Definition writeRawConfig (p data : string) : App unit :=
  if bool_decide (p = "") then mret tt else under "write xray config" (AtomicWriteJSON p data).

Definition GenerateConfig (req : ConfigRequest) : App string :=
  of_result match generate req with Ok c => Ok (render c) | Err e => Err (gen_error_text e) end.

(** A configuration is tested beside the one in use; the temporary file goes
    away on every way out. *)
Definition validateConfig (rendered : string) : App unit := fun w =>
  let tmp := candidate_name path w in
  let tested : App unit :=
    _ ← make_calls candidate_error tmp path rendered candidate_calls;
    content ← reads (fun w => default "" (files w !! tmp));
    act (fun e => "test xray config: " +:+ e) (test_config content) in
  let '(r, w) := tested w in
  (r, put_files (delete tmp (files w)) w).

(** The last known good configuration, or the current one when there is none yet. *)
Definition rollbackData : App (option string) :=
  backup ← reads (read_file backupPath);
  match backup with
  | Ok data => mret (Some data)
  | Err (ReadFailed e) => raise ("read xray last-known-good config: " +:+ e)
  | Err NotExist =>
    current ← reads (read_file path);
    match current with
    | Ok data => mret (Some data)
    | Err (ReadFailed e) => raise ("read current xray config: " +:+ e)
    | Err NotExist => mret None
    end
  end.

Definition CaptureRollback : App (option string) := rollbackData.

Definition RollbackConfig (snapshot : option string) : App unit :=
  match snapshot with
  | None => raise "xray rollback snapshot is unavailable"
  | Some data =>
    _ ← under "restore xray config" (writeRawConfig path data);
    act (fun e => "reload xray service: " +:+ e) reload_service
  end.

Definition rollbackReload (data : option string) : App unit :=
  _ ← match data with
      | Some data => under "restore xray config" (writeRawConfig path data)
      | None =>
        removed ← outcome (remove_file path);
        match removed with
        | Some (ReadFailed e) => raise ("remove failed xray config: " +:+ e)
        | _ => mret tt
        end
      end;
  act id reload_service.

Definition save_known_good (data : string) : App unit :=
  under "write xray last-known-good config" (writeRawConfig backupPath data).

Definition ApplyConfig (req : ConfigRequest) : App unit :=
  rendered ← GenerateConfig req;
  _ ← validateConfig rendered;
  rollback ← rollbackData;
  _ ← match rollback with Some data => save_known_good data | None => mret tt end;
  _ ← write_config rendered;
  reloaded ← outcome reload_service;
  match reloaded with
  | None => save_known_good rendered
  | Some e =>
    back ← attempt (rollbackReload rollback);
    match back with
    | Ok _ => raise ("reload xray service: " +:+ e)
    | Err e' => raise ("reload xray service: " +:+ e +:+ "; rollback xray service reload: " +:+ e')
    end
  end.

Definition PersistConfig (req : ConfigRequest) : App unit :=
  rendered ← GenerateConfig req;
  _ ← validateConfig rendered;
  _ ← write_config rendered;
  save_known_good rendered.

End Writer.

(** ** The configuration on disk: theorems

    Only tested configurations reach the configuration file and its backup, and
    a configuration that the service rejects is taken back. *)

(** Reads report the files, and the service never writes them. *)
Class XrayHostLaws (W : Type) `{XrayHost W} : Prop := {
  host_laws :: FileHostLaws W;
  candidate_is_new : forall p w, files w !! candidate_name p w = None;
  test_keeps_files : forall c w, files (test_config c w).2 = files w;
  reload_keeps_files : forall w, files (reload_service w).2 = files w
}.

Section Facts.
  Context `{XrayHostLaws W}.
  Context (render : xrayConfig -> string) (indent : string -> result string string).
  Context (generate : ConfigRequest -> result GenError xrayConfig) (gen_error_text : GenError -> string).
  Context (path : string) (path_given : path <> "").

Abbreviation App := (Prog W string).
Abbreviation backup := (backupPath path).
Abbreviation newline := (String "010" EmptyString).

Lemma backup_not_path : backup <> path.
Proof.
  unfold backupPath. intros E. apply (f_equal String.length) in E. rewrite length_append in E. cbn in E. lia.
Qed.

(** ** Writing *)

Lemma written p data w r w' :
  AtomicWriteJSON indent p data w = (r, w') ->
  (exists text, indent data = Ok text /\ r = Ok tt /\ files w' = <[p := text +:+ newline]> (files w)) \/
  ((exists e, r = Err e) /\ files w' = files w).
Proof.
  unfold AtomicWriteJSON. destruct (indent data) as [text|e]; [|intros [= <- <-]; right; split; [by eexists|done]].
  intros E. destruct (atomicWriteFile_cases p (text +:+ newline) w _ _ E) as [[-> Hf]|He]; [left; by exists text|by right].
Qed.

Lemma under_ok {A} context (p : App A) w a w' : under context p w = (Ok a, w') -> p w = (Ok a, w').
Proof. unfold under, map_error. by destruct (p w) as [[x|e] v]. Qed.

Lemma under_run {A} context (p : App A) w r w' : under context p w = (r, w') -> exists r', p w = (r', w') /\ (forall a, r = Ok a <-> r' = Ok a).
Proof.
  unfold under, map_error. destruct (p w) as [[x|e] v]; intros [= <- <-].
  - by exists (Ok x).
  - exists (Err e). split; [done|]. by split.
Qed.

Lemma raw_written p data w r w' :
  p <> "" -> writeRawConfig indent p data w = (r, w') ->
  (exists text, indent data = Ok text /\ r = Ok tt /\ files w' = <[p := text +:+ newline]> (files w)) \/
  ((exists e, r = Err e) /\ files w' = files w).
Proof.
  intros Hp. unfold writeRawConfig. rewrite bool_decide_eq_false_2 by done. intros (r' & Hr & Hiff)%under_run.
  apply written in Hr as [(text & Ht & -> & Hf)|[[e ->] Hf]].
  - left. exists text. split; [done|]. split; [by apply Hiff|done].
  - right. split; [|done]. destruct r as [[]|x]; [|by exists x]. by pose proof (proj1 (Hiff tt) eq_refl).
Qed.

(** ** Testing *)

Lemma tested_calls tmp data w w' :
  make_calls candidate_error tmp path data candidate_calls w = (Ok tt, w') -> files w' = <[tmp := data]> (files w).
Proof.
  unfold candidate_calls. cbn [make_calls]. intros ([] & w1 & E1%call_done & Hk)%bind_ok.
  apply bind_ok in Hk as ([] & w2 & E2%call_done & Hk). apply bind_ok in Hk as ([] & w3 & E3%call_done & Hk).
  apply bind_ok in Hk as ([] & w4 & E4%call_done & Hk). apply bind_ok in Hk as ([] & w5 & E5%call_done & Hk).
  injection Hk as <-. cbn in *. rewrite E5, E4, E3, E2, E1. apply insert_insert_eq.
Qed.

(** The files are back as they were, and what passed the test was the given text. *)
Lemma validated rendered w r w' :
  validateConfig path rendered w = (r, w') ->
  files w' = files w /\ (r = Ok tt -> exists v v', test_config rendered v = (None, v')).
Proof.
  unfold validateConfig. cbv zeta. set (tmp := candidate_name path w). pose proof (candidate_is_new path w : files w !! tmp = None) as Hnew.
  unfold mbind, prog_bind, reads, act.
  pose proof (calls_beside candidate_error tmp path rendered candidate_calls ltac:(unfold candidate_calls; set_solver) w) as Hb.
  destruct (make_calls _ _ _ _ _ w) as [[[]|e] w1] eqn:E1; cbn [snd] in Hb.
  - apply tested_calls in E1. rewrite E1, lookup_insert_eq. cbn [default]. change (id rendered) with rendered.
    pose proof (test_keeps_files rendered w1) as Hk. destruct (test_config rendered w1) as [[e|] w2] eqn:E2; cbn [snd] in Hk;
      cbv beta iota; intros [= <- <-]; rewrite files_put, Hk, Hb, (delete_id _ _ Hnew); (split; [done|]); [done|]. intros _. by exists w1, w2.
  - intros [= <- <-]. rewrite files_put, Hb, (delete_id _ _ Hnew). by split.
Qed.

Lemma files_after_validation rendered w r w' : validateConfig path rendered w = (r, w') -> files w' = files w.
Proof. intros E. exact (proj1 (validated _ _ _ _ E)). Qed.

(** ** Only tested configurations *)

Section Sound.
  Context (valid : string -> Prop).
  Context (accepted_valid : forall c w w', test_config c w = (None, w') -> valid c).
  Context (indent_valid : forall d text, valid d -> indent d = Ok text -> valid (text +:+ newline)).

Definition sound (w : W) : Prop :=
  forall d, files w !! path = Some d \/ files w !! backup = Some d -> valid d.

Lemma sound_files w w' : files w' = files w -> sound w -> sound w'.
Proof. unfold sound. by intros ->. Qed.

Lemma sound_insert p d w w' : valid d -> files w' = <[p := d]> (files w) -> sound w -> sound w'.
Proof.
  intros Hd E Hs d'. rewrite E, !lookup_insert_Some. intros [[[_ <-]|[_ Hl]]|[[_ <-]|[_ Hl]]]; [done| |done|];
    apply Hs; [by left|by right].
Qed.

Lemma sound_delete p w w' : files w' = delete p (files w) -> sound w -> sound w'.
Proof. intros E Hs d. rewrite E, !lookup_delete_Some. intros [[_ Hl]|[_ Hl]]; apply Hs; [by left|by right]. Qed.

Abbreviation keeps p := (triple sound p (fun _ => sound) (fun _ => sound)).

Lemma keeps_run {A} (p : App A) w : keeps p -> sound w -> sound (p w).2.
Proof. intros Hp Hs. specialize (Hp w Hs). by destruct (p w) as [[]]. Qed.

Lemma keeps_raw p d : p <> "" -> valid d -> keeps (writeRawConfig indent p d).
Proof.
  intros Hp Hd w Hs. destruct (writeRawConfig indent p d w) as [r w'] eqn:E.
  destruct (raw_written _ _ _ _ _ Hp E) as [(text & Ht & -> & Hf)|[[e ->] Hf]]; [|by eapply sound_files].
  eapply sound_insert; [by eapply indent_valid|exact Hf|done].
Qed.

Lemma keeps_under {A} context (p : App A) : keeps p -> keeps (under context p).
Proof. intros Hp w Hs. specialize (Hp w Hs). unfold under, map_error. by destruct (p w) as [[a|e] v]. Qed.

Lemma keeps_write d : valid d -> keeps (write_config indent path d).
Proof.
  intros Hd. pose proof (keeps_raw path d path_given Hd) as Hk. unfold writeRawConfig in Hk.
  by rewrite bool_decide_eq_false_2 in Hk by done.
Qed.

Lemma backup_given : backup <> "".
Proof. unfold backupPath. by destruct path. Qed.

Lemma keeps_known_good d : valid d -> keeps (save_known_good indent path d).
Proof. intros Hd. apply keeps_under, keeps_raw; [apply backup_given|done]. Qed.

Lemma keeps_reload {X} (wrap : string -> X) : triple sound (act wrap reload_service) (fun _ => sound) (fun _ => sound).
Proof.
  apply triple_act; intros w; [intros w'|intros e w']; intros Hs E; pose proof (reload_keeps_files w) as Hk; rewrite E in Hk;
    by eapply sound_files.
Qed.

Lemma keeps_validate d : triple sound (validateConfig path d) (fun _ w => sound w /\ valid d) (fun _ => sound).
Proof.
  intros w Hs. destruct (validateConfig path d w) as [r w'] eqn:E. destruct (validated _ _ _ _ E) as [Hf Ht].
  pose proof (sound_files _ _ Hf Hs). destruct r as [[]|e]; [|done]. split; [done|]. destruct (Ht eq_refl) as (v & v' & Ev). by eapply accepted_valid.
Qed.

Lemma keeps_rollback_data :
  triple sound (rollbackData path) (fun data w => sound w /\ forall d, data = Some d -> valid d) (fun _ => sound).
Proof.
  intros w Hs. unfold rollbackData, mbind, prog_bind, reads.
  destruct (read_file backup w) as [d|[|e]] eqn:E1; [|destruct (read_file path w) as [d|[|e]] eqn:E2|]; cbn; try done; split; try done.
  - intros d' [= <-]. apply Hs. right. by apply read_some.
  - intros d' [= <-]. apply Hs. left. by apply read_some.
Qed.

Lemma keeps_rollback_reload data : (forall d, data = Some d -> valid d) -> keeps (rollbackReload indent path data).
Proof.
  intros Hd. unfold rollbackReload. eapply (triple_bind _ _ _ (fun _ => sound)); [|intros _; apply keeps_reload].
  destruct data as [d|]; [apply keeps_under, keeps_raw; [done|by apply Hd]|].
  intros w Hs. unfold mbind, prog_bind, outcome. destruct (remove_file path w) as [[e|] w'] eqn:E.
  - destruct (not_removed _ _ _ _ E) as [Hf _]. pose proof (sound_files _ _ Hf Hs). by destruct e.
  - apply removed in E. by eapply sound_delete.
Qed.

Lemma keeps_generate req : keeps (GenerateConfig render generate gen_error_text req).
Proof. intros w Hs. unfold GenerateConfig, of_result. by destruct (generate req). Qed.

Abbreviation apply := (ApplyConfig render indent generate gen_error_text path).
Abbreviation persist := (PersistConfig render indent generate gen_error_text path).

Lemma keeps_apply req : keeps (apply req).
Proof.
  unfold ApplyConfig. eapply triple_bind; [apply keeps_generate|]. intros rendered.
  eapply triple_bind; [apply keeps_validate|]. intros _ w [Hs Hv]. revert w Hs. change (keeps
    (rollback ← rollbackData path;
     _ ← match rollback with Some data => save_known_good indent path data | None => mret tt end;
     _ ← write_config indent path rendered;
     reloaded ← outcome reload_service;
     match reloaded with
     | None => save_known_good indent path rendered
     | Some e =>
       back ← attempt (rollbackReload indent path rollback);
       match back with
       | Ok _ => raise ("reload xray service: " +:+ e)
       | Err e' => raise ("reload xray service: " +:+ e +:+ "; rollback xray service reload: " +:+ e')
       end
     end)).
  eapply triple_bind; [apply keeps_rollback_data|]. intros rollback w [Hs Hd]. revert w Hs.
  eapply (triple_bind _ _ _ (fun _ => sound)); [destruct rollback; [by apply keeps_known_good, Hd|apply (triple_ret tt (fun _ => sound))]|]. intros _.
  eapply (triple_bind _ _ _ (fun _ => sound)); [by apply keeps_write|]. intros _.
  eapply (triple_bind _ _ _ (fun _ => sound)).
  - intros w Hs. unfold outcome. pose proof (reload_keeps_files w) as Hk. destruct (reload_service w) as [e w']. by eapply sound_files.
  - intros [e|]; [|by apply keeps_known_good]. eapply (triple_bind _ _ _ (fun _ => sound)).
    + eapply triple_conseq; [exact (triple_attempt _ _ _ _ (fun _ => sound) (keeps_rollback_reload rollback Hd))|done| |done]. by intros [].
    + intros [[]|e']; apply (triple_raise _ _ (fun _ => sound)).
Qed.

Lemma keeps_persist req : keeps (persist req).
Proof.
  unfold PersistConfig. eapply triple_bind; [apply keeps_generate|]. intros rendered.
  eapply triple_bind; [apply keeps_validate|]. intros _ w [Hs Hv]. revert w Hs.
  eapply (triple_bind _ _ _ (fun _ => sound)); [by apply keeps_write|]. intros _. by apply keeps_known_good.
Qed.

(** A rollback point taken before a switch is valid, so going back to it keeps the files valid. *)
Lemma keeps_captured (p : App unit) :
  keeps p -> keeps (snapshot ← CaptureRollback path; _ ← ignore p; RollbackConfig indent path snapshot).
Proof.
  intros Hp. unfold CaptureRollback. eapply triple_bind; [apply keeps_rollback_data|]. intros data w [Hs Hd]. revert w Hs.
  eapply (triple_bind _ _ _ (fun _ => sound)); [by apply triple_ignore|]. intros _.
  unfold RollbackConfig. destruct data as [d|]; [|apply (triple_raise _ _ (fun _ => sound))].
  eapply (triple_bind _ _ _ (fun _ => sound)); [apply keeps_under, keeps_raw; [done|by apply Hd]|]. intros _. apply keeps_reload.
Qed.

(** C6: a configuration that Xray rejects never reaches the disk.  If the
    configuration file and its backup hold only configurations that Xray accepts,
    they still do after applying a configuration, after storing one for the next
    start, and after going back to a captured rollback point, whatever fails on the
    way. *)
Theorem only_tested_configurations req w :
  sound w ->
  sound (apply req w).2 /\ sound (persist req w).2 /\
  sound ((snapshot ← CaptureRollback path; _ ← ignore (apply req); RollbackConfig indent path snapshot) w).2.
Proof.
  intros Hs. split; [by apply keeps_run, Hs; apply keeps_apply|].
  split; [by apply keeps_run, Hs; apply keeps_persist|by apply keeps_run, Hs; apply keeps_captured, keeps_apply].
Qed.

End Sound.

(** ** What applying leaves *)

(** The configuration in use is [d], and it is the last known good one. *)
Definition settled (d : string) (w : W) : Prop :=
  files w !! path = Some d /\ files w !! backup = Some d /\ exists text, indent d = Ok text /\ text +:+ newline = d.

Lemma settled_files d w w' : files w' = files w -> settled d w -> settled d w'.
Proof. unfold settled. by intros ->. Qed.

Lemma settled_rollback d w r w' : settled d w -> rollbackData path w = (r, w') -> w' = w /\ (r = Ok (Some d) \/ exists e, r = Err e).
Proof.
  intros (_ & Hb & _). unfold rollbackData, mbind, prog_bind, reads.
  destruct (read_file backup w) as [d'|[|e]] eqn:E.
  - intros [= <- <-]. apply read_some in E. split; [done|]. left. congruence.
  - apply read_none in E. congruence.
  - intros [= <- <-]. split; [done|]. right. by eexists.
Qed.

Lemma save_cases data w r w' :
  save_known_good indent path data w = (r, w') ->
  (exists text, indent data = Ok text /\ r = Ok tt /\ files w' = <[backup := text +:+ newline]> (files w)) \/
  ((exists e, r = Err ("write xray last-known-good config: " +:+ e)) /\ files w' = files w).
Proof.
  unfold save_known_good, under at 1, map_error. destruct (writeRawConfig indent backup data w) as [r1 w1] eqn:E.
  apply raw_written in E as [(text & Ht & -> & Hf)|[[e ->] Hf]]; [| |apply backup_given]; intros [= <- <-].
  - left. by exists text.
  - right. split; [by exists e|done].
Qed.

Lemma settled_save d w r w' : settled d w -> save_known_good indent path d w = (r, w') -> settled d w'.
Proof.
  intros Hs E. destruct (save_cases _ _ _ _ E) as [(t & Ht & _ & Hf)|[_ Hf]]; [|by eapply settled_files].
  destruct Hs as (Hp & Hb & text & Hi & Hd). rewrite Ht in Hi. injection Hi as <-. unfold settled.
  rewrite Hf, lookup_insert_eq, lookup_insert_ne by apply backup_not_path. rewrite Hd. split; [done|]. split; [done|by exists t].
Qed.

(** What is left when applying [rendered] over [d] fails. *)
Definition taken_back (d rendered e : string) (w : W) : Prop :=
  files w !! backup = Some d /\
  (files w !! path = Some d \/
   exists text, indent rendered = Ok text /\ files w !! path = Some (text +:+ newline) /\
     ((exists e', e = "write xray last-known-good config: " +:+ e') \/
      exists e1 e2, e = "reload xray service: " +:+ e1 +:+ "; rollback xray service reload: " +:+ e2)).

Lemma settled_taken_back d rendered e w : settled d w -> taken_back d rendered e w.
Proof. intros (Hp & Hb & _). split; [done|by left]. Qed.

Lemma restored d w r w' text :
  settled d w -> forall v, files v = <[path := text]> (files w) -> rollbackReload indent path (Some d) v = (r, w') ->
  files w' !! backup = Some d /\ (files w' !! path = Some d \/ (exists e, r = Err e) /\ files w' !! path = Some text).
Proof.
  intros (Hp & Hb & t & Hi & Hd) v Hv. unfold rollbackReload, mbind, prog_bind.
  destruct (under _ _ v) as [[[]|e] v1] eqn:E.
  - apply under_ok, raw_written in E as [(t' & Ht & _ & Hf)|[[e [=]] _]]; [|done].
    rewrite Ht in Hi. injection Hi as ->. unfold act, id. pose proof (reload_keeps_files v1) as Hk.
    destruct (reload_service v1) as [[e|] v2]; intros [= <- <-]; cbn [snd] in Hk;
      rewrite Hk, Hf, lookup_insert_eq, lookup_insert_ne, Hv, lookup_insert_ne, Hd by (apply not_eq_sym, backup_not_path); (split; [done|by left]).
  - intros [= <- <-]. apply under_run in E as (r' & E & _). apply raw_written in E as [(t' & Ht & -> & Hf)|[_ Hf]]; [| |done].
    + rewrite Ht in Hi. injection Hi as ->. rewrite Hf, lookup_insert_eq, lookup_insert_ne, Hv, lookup_insert_ne, Hd by (apply not_eq_sym, backup_not_path).
      split; [done|by left].
    + rewrite Hf, Hv, lookup_insert_eq, lookup_insert_ne by (apply not_eq_sym, backup_not_path).
      split; [done|]. right. split; [by eexists|done].
Qed.

Abbreviation apply := (ApplyConfig render indent generate gen_error_text path).

(** The service has been told to load the new configuration. *)
Lemma after_reload d rendered text v w r w' :
  settled d w -> indent rendered = Ok text -> files v = <[path := text +:+ newline]> (files w) ->
  (reloaded ← outcome reload_service;
   match reloaded with
   | None => save_known_good indent path rendered
   | Some e =>
     back ← attempt (rollbackReload indent path (Some d));
     match back with
     | Ok _ => raise ("reload xray service: " +:+ e)
     | Err e' => raise ("reload xray service: " +:+ e +:+ "; rollback xray service reload: " +:+ e')
     end
   end) v = (r, w') ->
  (r = Ok tt /\ files w' !! path = Some (text +:+ newline) /\ files w' !! backup = Some (text +:+ newline)) \/
  exists e, r = Err e /\ taken_back d rendered e w'.
Proof.
  intros Hs Ht Hv. pose proof Hs as (Hp & Hb & _). unfold mbind, prog_bind, outcome, attempt.
  pose proof (reload_keeps_files v) as Hk. destruct (reload_service v) as [[e|] v1]; cbn [snd] in Hk; rewrite Hv in Hk.
  - destruct (rollbackReload indent path (Some d) v1) as [r1 v2] eqn:E.
    destruct (restored _ _ _ _ _ Hs v1 Hk E) as [Hb' [Hp'|[[e' ->] Hp']]].
    + destruct r1 as [[]|e']; intros [= <- <-]; right; eexists; split; try done; split; try done; by left.
    + intros [= <- <-]. right. eexists. split; [done|]. split; [done|]. right. exists text. split; [done|]. split; [done|]. right. by eexists _, _.
  - intros E. destruct (save_cases _ _ _ _ E) as [(t & Ht' & -> & Hf)|[[e ->] Hf]].
    + left. rewrite Ht in Ht'. injection Ht' as <-. split; [done|]. rewrite Hf, Hk, lookup_insert_eq, lookup_insert_ne by apply backup_not_path.
      by rewrite lookup_insert_eq.
    + right. eexists. split; [done|]. rewrite <- Hf in Hk. unfold taken_back.
      rewrite Hk, lookup_insert_eq, lookup_insert_ne by (apply not_eq_sym, backup_not_path).
      split; [done|]. right. exists text. split; [done|]. split; [done|]. left. by eexists.
Qed.

Lemma applied req d w r w' :
  settled d w -> apply req w = (r, w') ->
  (exists c text, generate req = Ok c /\ indent (render c) = Ok text /\ r = Ok tt /\
     files w' !! path = Some (text +:+ newline) /\ files w' !! backup = Some (text +:+ newline)) \/
  exists e, r = Err e /\ ((forall c, generate req <> Ok c) /\ settled d w' \/
    exists c, generate req = Ok c /\ taken_back d (render c) e w').
Proof.
  intros Hs. unfold ApplyConfig, GenerateConfig. unfold mbind at 1, prog_bind at 1, of_result.
  destruct (generate req) as [c|e0] eqn:Eg; [|intros [= <- <-]; right; eexists; split; [done|]; by left].
  assert (failing : forall e v, settled d v -> (Err e, v) = (r, w') ->
    exists e, r = Err e /\ ((forall c', @Ok GenError _ c <> Ok c') /\ settled d w' \/ exists c', @Ok GenError _ c = Ok c' /\ taken_back d (render c') e w')).
  { intros e v Hv [= <- <-]. exists e. split; [done|]. right. exists c. split; [done|]. by apply settled_taken_back. }
  unfold mbind at 1, prog_bind at 1. destruct (validateConfig path (render c) w) as [[[]|e] w1] eqn:E1;
    apply files_after_validation in E1; pose proof (settled_files _ _ _ E1 Hs) as Hs1; [|intros E; right; by eapply failing].
  unfold mbind at 1, prog_bind at 1. destruct (rollbackData path w1) as [r2 w2] eqn:E2.
  destruct (settled_rollback _ _ _ _ Hs1 E2) as [-> [->|[e ->]]]; [|intros E; right; by eapply failing].
  unfold mbind at 1, prog_bind at 1. destruct (save_known_good indent path d w1) as [[[]|e] w3] eqn:E3;
    pose proof (settled_save _ _ _ _ Hs1 E3) as Hs3; [|intros E; right; by eapply failing].
  unfold mbind at 1, prog_bind at 1. destruct (write_config indent path (render c) w3) as [[[]|e] w4] eqn:E4.
  - apply under_ok, written in E4 as [(text & Ht & _ & Hf)|[[e [=]] _]]. intros E.
    destruct (after_reload _ _ _ _ _ _ _ Hs3 Ht Hf E) as [(-> & Hp & Hb)|(e & -> & Hb)]; [left; by exists c, text|].
    right. exists e. split; [done|]. right. by exists c.
  - apply under_run in E4 as (r4 & E4 & Hiff). apply written in E4 as [(text & Ht & -> & Hf)|[_ Hf]].
    + by pose proof (proj2 (Hiff tt) eq_refl).
    + intros E. right. eapply failing; [|exact E]. by eapply settled_files.
Qed.


End Facts.

(** ** The host in memory *)

(** Xray takes what looks like an object, and the service does not start on a busy port. *)
#[export] Instance memory_xray_host : XrayHost MemoryHost := {
  candidate_name p w := p +:+ ".candidate-" +:+ fresh_suffix (host_files w);
  test_config c w := (if HasPrefix c "{" then None else Some "exit status 23", w);
  start_service w := (None, w);
  stop_service w := (None, w);
  reload_service w :=
    (if existsb (fun d => HasPrefix d "{busy") (map_to_list (host_files w)).*2 then Some "exit status 1" else None, w)
}.

Lemma memory_xray_host_laws : XrayHostLaws MemoryHost.
Proof.
  split; try done.
  - exact memory_file_laws.
  - intros p w. destruct (files w !! _) as [content|] eqn:E; [|done]. exfalso.
    pose proof (fresh_suffix_longer (host_files w) _ (ex_intro _ content E)) as Hl. cbn in Hl.
    rewrite !length_append in Hl. cbn in Hl. lia.
Qed.

Abbreviation memory_files text := ({[ "xray.json" := text; "xray.json.last-known-good" := text ]} : Files).
Abbreviation old_config := ("{old}" +:+ String "010" EmptyString).
Abbreviation old_world := (Build_MemoryHost (memory_files old_config) None).
Abbreviation sample_generate := (fun _ : ConfigRequest => sample_config ["8.8.8.8"]).
Abbreviation no_request := (sample_request []).

Lemma object_line d : HasPrefix d "{" = true -> HasPrefix (d +:+ String "010" EmptyString) "{" = true.
Proof. intros [b ->]%HasPrefix_spec. apply HasPrefix_spec. exists (b +:+ String "010" EmptyString). reflexivity. Qed.

Lemma only_tested_configurations_witness :
  sound "xray.json" (fun d => HasPrefix d "{" = true)
    (ApplyConfig (fun _ => "rejected") Ok sample_generate (fun _ => "") "xray.json" no_request old_world).2.
Proof.
  refine (proj1 (only_tested_configurations (H2 := memory_xray_host_laws) (fun _ => "rejected") Ok sample_generate (fun _ => "")
    "xray.json" _ (fun d => HasPrefix d "{" = true) _ _ no_request old_world _)).
  - discriminate.
  - intros c w w'. cbn. destruct (HasPrefix c "{"); [reflexivity|discriminate].
  - intros d text Hd Ht. injection Ht as <-. exact (object_line d Hd).
  - intros d Hd. vm_compute in Hd. destruct Hd as [Hd|Hd]; injection Hd as <-; reflexivity.
Defined.

Abbreviation trimmed := (fun d : string => @Ok string string (TrimSpace d)).

