(* ===== verification/Recovery.v ===== *)
(** * Is recovery needed, and what a health check commits

    [connectionRecoveryNeeded] and the commits of [app/auto.go] with their
    helpers in [app/service.go], as decisions from what was observed.  The
    answers of the backend, the AmneziaWG controller and the egress probe are
    the fields of a [RouteCheck]. *)
From S2P Require Import Prelude GoRunes GoStrings GoNum Domain Zapret Settings Connection Probe.
From S2P Require Import Migrations PersistFacts AutoState AutoSelect Reserves XrayConfig.
From S2P Require Import ManagedBackend Scheduler ManagedSwitch ManagedSwitchFacts MemoryWorld.

Local Open Scope Z_scope.
Local Open Scope list_scope.

(** ** connectionRecoveryNeeded *)

Module RouteCheck.
Record RouteCheck : Type := mk {
  includeManual : bool;
  awgStatus : option (result string (bool * Z));   (** [None]: no controller; up and last handshake *)
  awgStatusAgain : result string Z;                (** the handshake after a failed probe *)
  awgProbe : option (option string);               (** [None]: no probe configured; its error *)
  backendRunning : option (result string bool);    (** [None]: no backend *)
  subscription : option Subscription;              (** the active one, when it can be loaded *)
  egressProbe : option (option string);
  now : Time;
  probedAt : Time
}.
End RouteCheck.
Abbreviation RouteCheck := RouteCheck.RouteCheck.

(** [time.Unix(seconds, 0)]. *)
Definition UnixTime (seconds : Z) : Time := (seconds + 62135596800) * Second.

Definition unneeded : result string (bool * string) := Ok (false, "").
Definition needed (reason : string) : result string (bool * string) := Ok (true, reason).

(** The answer while the backend runs, or there is none. *)
Definition with_backend (c : RouteCheck) (k : result string (bool * string)) : result string (bool * string) :=
  match RouteCheck.backendRunning c with
  | None => k
  | Some (Err e) => Err ("read backend status: " +:+ e)
  | Some (Ok running) => if running then k else needed "backend is not running"
  end.

Definition awg_probe_failed (c : RouteCheck) (handshake : Z) (e : string) : result string (bool * string) :=
  let fresh := match RouteCheck.awgStatusAgain c with Ok h => h | Err _ => handshake end in
  if (fresh =? 0) || (2 * Minute <? Sub (RouteCheck.probedAt c) (UnixTime fresh))
  then needed "AmneziaWG handshake is stale and egress is unavailable"
  else needed (activeGETFailureReasonPrefix +:+ e).

Definition awg_check (c : RouteCheck) : result string (bool * string) :=
  match RouteCheck.awgStatus c with
  | None => needed "AmneziaWG controller is unavailable"
  | Some (Err e) => Err ("read AmneziaWG status: " +:+ e)
  | Some (Ok (up, handshake)) =>
    if negb up || (handshake =? 0) then needed "AmneziaWG interface or handshake is unavailable"
    else with_backend c
      match RouteCheck.awgProbe c with
      | Some (Some e) => awg_probe_failed c handshake e
      | _ => unneeded
      end
  end.

Definition connectionRecoveryNeeded (state : RuntimeState) (c : RouteCheck) : result string (bool * string) :=
  let modeSupported := bool_decide (RuntimeState.Mode state = SelectionModeAuto)
    || (RouteCheck.includeManual c && bool_decide (RuntimeState.Mode state = SelectionModeManual)) in
  if negb modeSupported || ZapretTestState.Active (RuntimeState.ZapretTest state) then unneeded
  else if bool_decide (RuntimeState.OperationalMode state = OperationalModeRecovering)
          || negb (bool_decide (RuntimeState.CurrentOperation state = None)) then unneeded
  else if negb (RuntimeState.Connected state)
          || bool_decide (RuntimeState.ActiveSubscriptionID state = "")
          || bool_decide (RuntimeState.ActiveNodeID state = "")
  then needed "active route is disconnected"
  else if bool_decide (RuntimeState.ActiveConnectionKind state = "amneziawg") then awg_check c
  else match RouteCheck.subscription c with
  | None => needed "active subscription is missing"
  | Some sub =>
    if IsExpired sub (RouteCheck.now c) then needed "active subscription expired"
    else with_backend c
      match RouteCheck.egressProbe c with
      | Some (Some e) => needed (activeGETFailureReasonPrefix +:+ e)
      | _ => unneeded
      end
  end.

(** ** Recovery: theorems

    What the program believes after an attempt to leave the direct route has
    failed. *)

(** What a failed attempt saves says that the route is connected, whatever it
    said before. *)
Lemma failed_selection_connected state latest reason st :
  failed_selection_state state latest reason = Some st ->
  RuntimeState.Connected st = true /\
  RuntimeState.ActiveTransport st = effectiveActiveTransport state /\
  RuntimeState.ActiveSubscriptionID st = RuntimeState.ActiveSubscriptionID state /\
  RuntimeState.ActiveNodeID st = RuntimeState.ActiveNodeID state /\
  RuntimeState.Mode st = RuntimeState.Mode state /\
  RuntimeState.CurrentOperation st = None /\
  RuntimeState.OperationalMode st = LegacyOperationalMode true (effectiveActiveTransport state) /\
  RuntimeState.ZapretTest st = RuntimeState.ZapretTest latest /\
  TrimSpace (RuntimeState.ActiveSubscriptionID state) <> "" /\ TrimSpace (RuntimeState.ActiveNodeID state) <> "".
Proof.
  unfold failed_selection_state, persistPreservedConnection, incomplete, preserved_connection, preserved_state. unfold upd. cbn -[effectiveActiveTransport bool_decide TrimSpace LegacyOperationalMode].
  destruct (bool_decide_reflect (TrimSpace (RuntimeState.ActiveSubscriptionID state) = "")); [done|].
  destruct (bool_decide_reflect (TrimSpace (RuntimeState.ActiveNodeID state) = "")); [done|].
  intros [= <-]. unfold settle_operational_mode, upd. cbn -[effectiveActiveTransport bool_decide TrimSpace LegacyOperationalMode]. by split_and!.
Qed.

Lemma failed_selection_kind state latest reason st :
  failed_selection_state state latest reason = Some st ->
  RuntimeState.ActiveConnectionKind st = RuntimeState.ActiveConnectionKind latest.
Proof.
  unfold failed_selection_state, persistPreservedConnection, incomplete, preserved_connection, preserved_state. unfold upd.
  cbn -[effectiveActiveTransport bool_decide TrimSpace LegacyOperationalMode].
  destruct (_ || _); [done|]. intros [= <-]. reflexivity.
Qed.

(** The state as [activateManagedDirect] leaves it. *)
Record direct_route (state : RuntimeState) : Prop := {
  dr_connected : RuntimeState.Connected state = false;
  dr_transport : RuntimeState.ActiveTransport state = TransportModeDirect;
  dr_mode : RuntimeState.OperationalMode state = OperationalModeDirect;
  dr_auto : RuntimeState.Mode state = SelectionModeAuto;
  dr_idle : RuntimeState.CurrentOperation state = None;
  dr_test : ZapretTestState.Active (RuntimeState.ZapretTest state) = false
}.

Lemma direct_state_route state reason now :
  RuntimeState.Mode state = SelectionModeAuto -> ZapretTestState.Active (RuntimeState.ZapretTest state) = false ->
  direct_route (reload_state (settle_operational_mode (direct_state state reason now))).
Proof. intros Hm Hz. by split. Qed.

Lemma reconnect_disconnected now wall completions egress sub settings state probes d :
  evaluateAutoSelection now wall completions egress sub settings state probes = Ok d ->
  autoSelectionDecision.Reconnect d = true -> RuntimeState.Connected state = false.
Proof.
  unfold evaluateAutoSelection. cbv zeta. case_bool_decide as E; [by intros [= <-]|].
  destruct (SelectBestNode _ _ _) as [best|e]; [|done]. cbn [result_bind]. intros [= <-].
  unfold decide_candidate. cbv zeta. destruct (negb (NodeHealth.Healthy _)); [done|].
  destruct (RuntimeState.Connected state); [|done]. cbn [negb].
  destruct (optimizationCandidateWins _ _ _ _ _), (ShouldSwitchWithWins _ _ _ _ _ _).
  destruct (_ && _); [|done]. by destruct (NodeByID sub _).
Qed.

(** After a failed attempt to leave the direct route the program believes
    that the proxy route is connected, although nothing moved.  Before the
    attempt the watch asks for a recovery; the state that the attempt saves is
    connected (its mode is still direct), its effective transport is the proxy,
    the watch asks for nothing as long as the direct egress works, and no later
    health check reconnects. *)
Theorem failed_recovery_claims_connection state latest reason st :
  direct_route state ->
  ZapretTestState.Active (RuntimeState.ZapretTest latest) = false ->
  RuntimeState.ActiveConnectionKind latest <> "amneziawg" ->
  failed_selection_state state latest reason = Some st ->
  let st' := reload_state st in
  (forall c, connectionRecoveryNeeded state c = needed "active route is disconnected") /\
  RuntimeState.Connected st' = true /\
  RuntimeState.OperationalMode st' = OperationalModeDirect /\
  effectiveActiveTransport st' = TransportModeProxy /\
  (forall c sub, RouteCheck.subscription c = Some sub -> IsExpired sub (RouteCheck.now c) = false ->
     RouteCheck.backendRunning c = Some (Ok true) -> RouteCheck.egressProbe c = Some None ->
     connectionRecoveryNeeded st' c = unneeded) /\
  (forall now wall completions egress sub settings probes d,
     evaluateAutoSelection now wall completions egress sub settings st' probes = Ok d ->
     autoSelectionDecision.Reconnect d = false).
Proof.
  intros [D1 D2 D3 D4 D5 D6] Hz Hk Hf st'.
  pose proof (failed_selection_kind _ _ _ _ Hf) as Ekind.
  destruct (failed_selection_connected _ _ _ _ Hf) as (E1 & E2 & E3 & E4 & E5 & E6 & E7 & E8 & N1 & N2).
  assert (Et : effectiveActiveTransport state = TransportModeDirect).
  { unfold effectiveActiveTransport. rewrite D1, D2. done. }
  rewrite Et in E2, E7.
  assert (S1 : RuntimeState.Connected st' = true) by exact E1.
  assert (S2 : RuntimeState.ActiveTransport st' = TransportModeDirect).
  { change (NormalizeTransportMode (RuntimeState.ActiveTransport st) = TransportModeDirect). by rewrite E2. }
  assert (S3 : RuntimeState.OperationalMode st' = OperationalModeDirect).
  { change (NormalizeOperationalMode (RuntimeState.OperationalMode st) = OperationalModeDirect). by rewrite E7. }
  split.
  { intros c. unfold connectionRecoveryNeeded. rewrite D1, D3, D4, D5, D6. done. }
  split; [exact S1|]. split; [exact S3|]. split; [|split].
  - unfold effectiveActiveTransport. rewrite S1, S2.
    change (RuntimeState.ActiveSubscriptionID st') with (RuntimeState.ActiveSubscriptionID st).
    change (RuntimeState.ActiveNodeID st') with (RuntimeState.ActiveNodeID st).
    change (RuntimeState.Mode st') with (RuntimeState.Mode st). rewrite E3, E4, E5, D4.
    by rewrite (bool_decide_eq_false_2 _ N1), (bool_decide_eq_false_2 _ N2).
  - intros c sub Hs He Hb Hp. unfold connectionRecoveryNeeded.
    rewrite S1, S3.
    change (RuntimeState.ActiveSubscriptionID st') with (RuntimeState.ActiveSubscriptionID st).
    change (RuntimeState.ActiveNodeID st') with (RuntimeState.ActiveNodeID st).
    change (RuntimeState.Mode st') with (RuntimeState.Mode st).
    change (RuntimeState.CurrentOperation st') with (RuntimeState.CurrentOperation st).
    change (RuntimeState.ActiveConnectionKind st') with (RuntimeState.ActiveConnectionKind st).
    change (ZapretTestState.Active (RuntimeState.ZapretTest st')) with (ZapretTestState.Active (RuntimeState.ZapretTest st)).
    rewrite E3, E4, E5, E6, E8, D4, Hz, Ekind.
    rewrite (bool_decide_eq_false_2 (RuntimeState.ActiveSubscriptionID state = "")) by (intros E; by rewrite E in N1).
    rewrite (bool_decide_eq_false_2 (RuntimeState.ActiveNodeID state = "")) by (intros E; by rewrite E in N2).
    rewrite (bool_decide_eq_false_2 (_ = "amneziawg")) by done.
    rewrite Hs, He. unfold with_backend. rewrite Hb, Hp. done.
  - intros now wall completions egress sub settings probes d Hd.
    apply not_true_iff_false. intros Hr. pose proof (reconnect_disconnected _ _ _ _ _ _ _ _ _ Hd Hr) as E.
    by rewrite S1 in E.
Qed.

(** A backed-off candidate is enough: nothing is even tried. *)
Definition paused_state : RuntimeState :=
  (world_state OperationalModeDirect)
    <| RuntimeState.CandidateBackoff := {[ managedOutboundPrefix +:+ "c" :=
         CandidateBackoffState.mk (managedOutboundPrefix +:+ "c") 1 (5 * Minute) ]} |>.

Lemma failed_recovery_claims_connection_witness :
  exists st,
    failed_selection_state paused_state paused_state "candidate retry is paused" = Some st /\
    effectiveActiveTransport (reload_state st) = TransportModeProxy /\
    RuntimeState.OperationalMode (reload_state st) = OperationalModeDirect.
Proof.
  destruct (failed_selection_state paused_state paused_state "candidate retry is paused") as [st|] eqn:E.
  - exists st. split; [reflexivity|].
    destruct (failed_recovery_claims_connection paused_state paused_state "candidate retry is paused" st
      ltac:(split; vm_compute; reflexivity) ltac:(vm_compute; reflexivity) ltac:(vm_compute; discriminate) E)
      as (_ & _ & Hm & Ht & _). split; [exact Ht|exact Hm].
  - exfalso. vm_compute in E. discriminate E.
Defined.

(** The attempt on which this happens, evaluated. *)
Example paused_attempt :
  let i := SwitchInput.mk paused_state "s" (world_node "c") (Some (world_node "a")) true true false world_request
    zero_time zero_time zero_time in
  let w := world_at OperationalModeDirect None None in
  (tryManagedNodeSelection i w).1 = (true, Some (RetryPaused (5 * Minute))) /\
  selected (tryManagedNodeSelection i w).2 = Some managedDirectTag.
Proof. vm_compute. split; reflexivity. Qed.
