(* ===== verification/Reapply.v ===== *)
(** * Applying the recorded connection again

    The zapret test ([startZapretTest], [stopZapretTest]), [restoreRuntime] and
    [reapplyCurrentConnection] of [app/service.go]: how the service gets back from
    its state file to a running connection.

    The managers are present; the store lock and the log are not modelled. *)
From S2P Require Import Prelude GoRunes GoStrings GoNum NetIP Domain AmneziaProfile.
From S2P Require Import AmneziaRuntime Firewall FirewallSettings Zapret Settings Connection Probe.
From S2P Require Import Migrations PersistFacts AutoState AutoSelect AutoSelectFacts Reserves.
From S2P Require Import XrayConfig XrayFacts BackendRequest ManagedBackend Scheduler Effects.
From S2P Require Import ManagedSwitch ManagedSwitchFacts MemoryWorld NodeSelection.
From S2P Require Import NodeSelectionFacts ReserveRound ReserveRoundFacts AutoCommit Failover.
From S2P Require Import FailoverFacts Connect AmneziaService AmneziaServiceFacts.

Local Open Scope Z_scope.
Local Open Scope list_scope.

(** [zapret.Status]. *)
Class ZapretObserver (W : Type) := { zapret_status : W -> (ZapretStatus.ZapretStatus * option string) * W }.

Definition no_status : ZapretStatus.ZapretStatus := ZapretStatus.mk false false false false false "" "".

Definition with_test (active : bool) (status : ZapretStatus.ZapretStatus) : ZapretStatus.ZapretStatus :=
  ZapretStatus.mk (ZapretStatus.Installed status) (ZapretStatus.Managed status) (ZapretStatus.Active status)
    (ZapretStatus.ServiceActive status) active (ZapretStatus.ServiceState status) (ZapretStatus.LastReason status).

Definition with_last_reason (reason : string) (status : ZapretStatus.ZapretStatus) : ZapretStatus.ZapretStatus :=
  ZapretStatus.mk (ZapretStatus.Installed status) (ZapretStatus.Managed status) (ZapretStatus.Active status)
    (ZapretStatus.ServiceActive status) (ZapretStatus.TestActive status) (ZapretStatus.ServiceState status) reason.

(** ** States *)

Definition zapret_test_state (restore : ZapretTestRestoreState) (now : Time) (state : RuntimeState) : RuntimeState :=
  let state := if bool_decide (RuntimeState.ActiveTransport state = TransportModeZapret) then state
               else state <| RuntimeState.LastTransportSwitchAt := now |> in
  state <| RuntimeState.ActiveTransport := TransportModeZapret |>
        <| RuntimeState.Connected := true |>
        <| RuntimeState.LastSuccessAt := now |>
        <| RuntimeState.LastFailureReason := "zapret test mode active" |>
        <| RuntimeState.LastTransportFailureReason := "" |>
        <| RuntimeState.ZapretTest := ZapretTestState.mk true restore |>.

(** What the test goes back to. *)
Definition restore_point (state : RuntimeState) : ZapretTestRestoreState :=
  ZapretTestRestoreState.mk (RuntimeState.ActiveSubscriptionID state) (RuntimeState.ActiveNodeID state)
    (RuntimeState.Mode state) (RuntimeState.Connected state) (RuntimeState.ActiveTransport state).

(** A test that ends without a proxy to go back to. *)
Definition test_over (restore : ZapretTestRestoreState) (reason transportFailure : string) (now : Time) (state : RuntimeState)
    : RuntimeState :=
  let mode := ZapretTestRestoreState.Mode restore in
  let state := state <| RuntimeState.ActiveSubscriptionID := ZapretTestRestoreState.ActiveSubscriptionID restore |>
                     <| RuntimeState.ActiveNodeID := ZapretTestRestoreState.ActiveNodeID restore |>
                     <| RuntimeState.Mode := (if bool_decide (mode = "") then SelectionModeDisconnected else mode) |>
                     <| RuntimeState.Connected := false |> in
  let state := if bool_decide (RuntimeState.ActiveTransport state = TransportModeDirect) then state
               else state <| RuntimeState.LastTransportSwitchAt := now |> in
  clearZapretTestState
    (state <| RuntimeState.ActiveTransport := TransportModeDirect |>
           <| RuntimeState.LastFailureReason := reason |>
           <| RuntimeState.LastTransportFailureReason := transportFailure |>).

(** There was a proxy connection before the test. *)
Definition has_proxy (restore : ZapretTestRestoreState) : bool :=
  ZapretTestRestoreState.Connected restore
  && bool_decide (ZapretTestRestoreState.ActiveTransport restore = TransportModeProxy)
  && negb (bool_decide (TrimSpace (ZapretTestRestoreState.ActiveSubscriptionID restore) = ""))
  && negb (bool_decide (TrimSpace (ZapretTestRestoreState.ActiveNodeID restore) = "")).

(** [state.ActiveTransport = effectiveActiveTransport(state)]. *)
Definition settle_transport (state : RuntimeState) : RuntimeState :=
  state <| RuntimeState.ActiveTransport := effectiveActiveTransport state |>.

Definition restore_failed_state (reason : string) (state : RuntimeState) : RuntimeState :=
  clearZapretTestState
    (state <| RuntimeState.ActiveTransport := TransportModeDirect |>
           <| RuntimeState.LastFailureReason := reason |>
           <| RuntimeState.LastTransportFailureReason := reason |>).

(** The settings and whether they changed. *)
Definition syncSettingsToRuntime (settings : Settings) (state : RuntimeState) : Settings * bool :=
  if ZapretTestState.Active (RuntimeState.ZapretTest state) then (settings, false)
  else
    let expectedMode := if bool_decide (RuntimeState.Mode state = "") then SelectionModeDisconnected else RuntimeState.Mode state in
    let expectedAuto := bool_decide (expectedMode = SelectionModeAuto) in
    (settings <| Settings.Mode := expectedMode |> <| Settings.AutoMode := expectedAuto |>,
     negb (bool_decide (Settings.Mode settings = expectedMode)) || negb (bool_decide (Settings.AutoMode settings = expectedAuto))).

Section Reapply.
  Context `{ManagedBackend W, Router W, Runtime W, AutoRuntime W, ProfileStore W, AWGController W, InterfaceBackend W, ZapretObserver W}.
  Context (rfc3339 : Time -> string) (url_host : string -> option (string * string)).
  Context (digest : StablePayload -> string) (profile_error_text : ProfileError -> string).

Abbreviation App := (Prog W Fault).
(** A status that comes with the error, too. *)
Abbreviation Reported := (Prog W (ZapretStatus.ZapretStatus * Fault)).

Definition reporting {A} (status : ZapretStatus.ZapretStatus) (p : App A) : Reported A := map_error (fun e => (status, e)) p.

(** ** The zapret test *)

Definition GetZapretStatus : Reported ZapretStatus.ZapretStatus :=
  loaded ← reads load_state;
  let state := match loaded with Ok s => s | Err _ => DefaultRuntimeState end in
  answer ← outcome zapret_status;
  let status := answer.1 in
  let status := match answer.2 with
                | Some e => if bool_decide (TrimSpace (ZapretStatus.LastReason status) = "") then with_last_reason e status else status
                | None => status
                end in
  let status := with_test (ZapretTestState.Active (RuntimeState.ZapretTest state)) status in
  let status := if bool_decide (TrimSpace (ZapretStatus.LastReason status) = "")
                then with_last_reason (TrimSpace (RuntimeState.LastTransportFailureReason state)) status else status in
  match answer.2 with
  | Some e => raise (status, fault e)
  | None => mret status
  end.

Definition applyZapretTestMode (settings : Settings) (state : RuntimeState) (restore : ZapretTestRestoreState)
    : Reported ZapretStatus.ZapretStatus :=
  match zapretExpandedTargets settings with
  | Err e => raise (no_status, fault e)
  | Ok domains =>
    _ ← reporting no_status (map_error (wrap_fault "disable proxy transport before zapret test") stopProxyTransport);
    applied ← outcome (zapret_apply domains);
    match zapretActivationError applied.1 applied.2 "zapret test mode did not become active" with
    | Some detail => raise (with_test false applied.1, fault detail)
    | None =>
      now ← reporting no_status currentTime;
      _ ← reporting no_status (save_as "save state" (zapret_test_state restore now state));
      mret (with_test true applied.1)
    end
  end.

Definition restoreZapretTestSelection (restore : ZapretTestRestoreState) : App unit :=
  sub ← find_subscription (ZapretTestRestoreState.ActiveSubscriptionID restore);
  match NodeByID sub (ZapretTestRestoreState.ActiveNodeID restore) with
  | None => raise (fault ("node " +:+ quoted (ZapretTestRestoreState.ActiveNodeID restore) +:+ " not found in subscription "
              +:+ quoted (ZapretTestRestoreState.ActiveSubscriptionID restore)))
  | Some node =>
    let mode := ZapretTestRestoreState.Mode restore in
    applyNodeSelection rfc3339 url_host sub node (if bool_decide (mode = "") then SelectionModeManual else mode)
      (SelectionOptions.mk true false false false DefaultRuntimeState)
  end.

(** A start that failed is undone; this ends in an error. *)
Definition undo_start (state : RuntimeState) (restore : ZapretTestRestoreState) (status : ZapretStatus.ZapretStatus) (err : Fault)
    : Reported ZapretStatus.ZapretStatus :=
  if has_proxy restore
  then
    _ ← reporting status (map_error (wrap_fault (fault_text err +:+ "; restore previous route")) (restoreZapretTestSelection restore));
    raise (status, err)
  else
    _ ← ignore (act (fun _ => (status, err)) zapret_disable);
    now ← reporting status currentTime;
    _ ← reporting status (map_error (wrap_fault (fault_text err +:+ "; save state"))
          (act fault (save_state (test_over restore "zapret test start failed" (fault_text err) now state))));
    raise (status, err).

Definition startZapretTest : Reported ZapretStatus.ZapretStatus :=
  settings ← reporting no_status (load_settings_as "load settings");
  state ← reporting no_status (load_state_as "load state");
  let state := settle_transport state in
  if ZapretTestState.Active (RuntimeState.ZapretTest state) then GetZapretStatus
  else if bool_decide (RuntimeState.ActiveTransport state = TransportModeZapret)
  then
    seen ← attempt GetZapretStatus;
    let status := match seen with Ok status => status | Err (status, _) => status end in
    raise (status, fault "zapret is already active under automatic fallback")
  else
    let restore := restore_point state in
    started ← attempt (applyZapretTestMode settings state restore);
    match started with
    | Ok status => mret status
    | Err (status, err) => undo_start state restore status err
    end.

Definition stopZapretTest : Reported ZapretStatus.ZapretStatus :=
  state ← reporting no_status (load_state_as "load state");
  let state := settle_transport state in
  if negb (ZapretTestState.Active (RuntimeState.ZapretTest state)) then GetZapretStatus
  else
    let restore := ZapretTestState.Restore (RuntimeState.ZapretTest state) in
    if has_proxy restore
    then _ ← reporting no_status (restoreZapretTestSelection restore); GetZapretStatus
    else
      _ ← reporting no_status disconnectRuntime;
      now ← reporting no_status currentTime;
      _ ← reporting no_status (save_as "save state" (test_over restore "" "" now state));
      GetZapretStatus.

(** ** Applying again *)

Definition reapply_awg (forceStaticReload : bool) : App unit :=
  _ ← migrateLegacyAWGProfileLocked digest profile_error_text;
  state ← load_state_as "load migrated AmneziaWG state";
  _ ← when forceStaticReload (ensureAWGManagedRuntimeWithReload url_host true);
  connectAWGLocked url_host profile_error_text (RuntimeState.ActiveAWGProfileID state).

Definition reapply_node (state : RuntimeState) (forceStaticReload : bool) : App unit :=
  if bool_decide (RuntimeState.ActiveNodeID state = "") then raise (fault "node is not set for proxy transport")
  else
    sub ← find_subscription (RuntimeState.ActiveSubscriptionID state);
    match NodeByID sub (RuntimeState.ActiveNodeID state) with
    | None => raise (fault ("node " +:+ quoted (RuntimeState.ActiveNodeID state) +:+ " not found in subscription "
                +:+ quoted (RuntimeState.ActiveSubscriptionID state)))
    | Some node => applyNodeSelection rfc3339 url_host sub node (RuntimeState.Mode state)
                     (SelectionOptions.mk false false forceStaticReload false DefaultRuntimeState)
    end.

Definition reapplyCurrentConnectionWithOptions (forceStaticReload : bool) : App unit :=
  state ← load_state_as "load state";
  let state := settle_transport state in
  if bool_decide (RuntimeState.ActiveConnectionKind state = amneziawg_kind) && RuntimeState.Connected state
  then reapply_awg forceStaticReload
  else if negb (RuntimeState.Connected state) || bool_decide (RuntimeState.ActiveSubscriptionID state = "") then disconnectRuntime
  else if ZapretTestState.Active (RuntimeState.ZapretTest state)
  then
    settings ← load_settings_as "load settings";
    _ ← map_error snd (applyZapretTestMode settings state (ZapretTestState.Restore (RuntimeState.ZapretTest state)));
    mret tt
  else if bool_decide (RuntimeState.ActiveTransport state = TransportModeZapret)
  then
    settings ← load_settings_as "load settings";
    sub ← find_subscription (RuntimeState.ActiveSubscriptionID state);
    activateZapretFallback sub state settings (first_given [RuntimeState.LastFailureReason state; "restore zapret fallback"])
  else reapply_node state forceStaticReload.

Definition reapplyCurrentConnection : App unit := reapplyCurrentConnectionWithOptions false.
Definition reapplyCurrentConnectionWithReload : App unit := reapplyCurrentConnectionWithOptions true.

(** ** Restoring after a start of the daemon *)

Definition persistRestoreFailure (reason : string) : App unit :=
  _ ← map_error (wrap_fault "disable proxy transport after restore failure") stopProxyTransport;
  _ ← act (wrap "disable zapret after restore failure") zapret_disable;
  state ← load_state_as "load state after restore failure";
  let state := settle_transport state <| RuntimeState.Connected := false |> in
  state ← stamp (negb (bool_decide (RuntimeState.ActiveTransport state = TransportModeDirect)))
    (fun now s => s <| RuntimeState.LastTransportSwitchAt := now |>) state;
  save_as "save state after restore failure" (restore_failed_state reason state).

(** This ends in an error. *)
Definition restore_failed (reason : string) : App unit :=
  persisted ← attempt (persistRestoreFailure reason);
  match persisted with
  | Err e => raise (fault (reason +:+ ": " +:+ fault_text e))
  | Ok _ => raise (fault reason)
  end.

(** A connection over AmneziaWG falls back to the direct outbound. *)
Definition degrade (state : RuntimeState) (err : Fault) : App unit :=
  let reason := "restore runtime: " +:+ fault_text err in
  if bool_decide (RuntimeState.ActiveConnectionKind state = amneziawg_kind)
  then
    opened ← attempt (fail_open url_host state reason);
    match opened with
    | Ok _ => mret tt
    | Err e => restore_failed (reason +:+ "; managed direct fallback: " +:+ fault_text e)
    end
  else restore_failed reason.

(** A direct route that was recorded by the managed runtime is selected again. *)
Definition restore_direct (state : RuntimeState) : App unit :=
  running ← outcome check_running;
  _ ← match running with Some (_, e) => raise (fault e) | None => mret tt end;
  _ ← act (wrap "restore direct outbound") SelectDirect;
  act fault (save_state
    (state <| RuntimeState.Connected := false |>
           <| RuntimeState.ActiveTransport := TransportModeDirect |>
           <| RuntimeState.SelectedOutboundTag := managedDirectTag |>
           <| RuntimeState.CurrentOperation := None |>)).

Definition managed_direct_state (state : RuntimeState) : bool :=
  bool_decide (RuntimeState.OperationalMode state = OperationalModeDirect)
  && (bool_decide (RuntimeState.SelectedOutboundTag state = managedDirectTag) || (0 <? RuntimeState.RuntimeConfigGeneration state))
  && negb (bool_decide (RuntimeState.ActiveSubscriptionID state = "")).

Definition restoreRuntime : App unit :=
  state ← load_state_as "load state";
  let state := settle_transport state in
  loaded ← reads load_settings;
  _ ← match loaded with Ok settings => ensureManagedIPv6State settings | Err _ => mret tt end;
  if managed_direct_state state then restore_direct state
  else if negb (RuntimeState.Connected state) || bool_decide (RuntimeState.ActiveSubscriptionID state = "") then disconnectRuntime
  else
    applied ← attempt reapplyCurrentConnection;
    match applied with
    | Err e => degrade state e
    | Ok _ =>
      match loaded with
      | Ok settings =>
        let '(settings, changed) := syncSettingsToRuntime settings state in
        when changed (save_settings settings)
      | Err _ => mret tt
      end
    end.

End Reapply.

(** ** Applying the recorded connection again: theorems

    A zapret test over a proxy goes back to the node it came from; one over
    AmneziaWG cannot be stopped. *)

(** Reading the status of zapret changes no file. *)
Class ZapretObserverLaws (W : Type) `{Router W, ZapretObserver W} : Prop := {
  status_keeps_file : forall w, load_state (zapret_status w).2 = load_state w
}.

Section ZapretTest.
  Context (W : Type) `{FailoverLaws W, ZapretObserver W, !ZapretObserverLaws W}.
  Context (rfc3339 : Time -> string) (url_host : string -> option (string * string)).

Lemma status_file w r w' : GetZapretStatus w = (r, w') -> load_state w' = load_state w.
Proof.
  unfold GetZapretStatus, mbind, prog_bind, reads, outcome. pose proof (status_keeps_file w) as Hs.
  destruct (zapret_status w) as [[status err] w1]. cbn [fst snd] in *. destruct err; intros E; apply (f_equal snd) in E; cbn [snd] in E; subst w'; exact Hs.
Qed.

(** What a test that runs has recorded. *)
Lemma test_recorded settings state restore w status w' :
  applyZapretTestMode settings state restore w = (Ok status, w') ->
  exists now, load_state w' = Ok (reload_state (settle_operational_mode (zapret_test_state restore now state))).
Proof.
  unfold applyZapretTestMode. destruct (zapretExpandedTargets settings) as [domains|e]; [|done].
  intros (u & w1 & _ & Hk)%bind_ok. apply bind_ok in Hk as (applied & w2 & _ & Hk).
  destruct (zapretActivationError _ _ _); [done|]. apply bind_ok in Hk as (now & w3 & _ & Hk).
  apply bind_ok in Hk as (u' & w4 & Hs & Hk). injection Hk as _ <-. exists now.
  unfold reporting in Hs. apply map_error_ok in Hs. by apply saved_effect in Hs as [_ ->].
Qed.

Lemma test_reloaded restore now state :
  RuntimeState.ZapretTest (settle_transport (reload_state (settle_operational_mode (zapret_test_state restore now state)))) =
  ZapretTestState.mk true (reload_restore restore).
Proof. unfold settle_operational_mode. by destruct (bool_decide _). Qed.

Lemma started_test w st status w' :
  load_state w = Ok st -> ZapretTestState.Active (RuntimeState.ZapretTest st) = false ->
  startZapretTest rfc3339 url_host w = (Ok status, w') ->
  exists now, load_state w' = Ok (reload_state (settle_operational_mode
    (zapret_test_state (restore_point (settle_transport st)) now (settle_transport st)))).
Proof.
  intros Hl Ht. unfold startZapretTest. intros (settings & w1 & Hs%map_error_ok & Hk)%bind_ok.
  unfold load_settings_as in Hs. destruct (load_settings w); [|done]. injection Hs as -> <-.
  apply bind_ok in Hk as (s & w2 & Hs & Hk). apply map_error_ok in Hs. unfold load_state_as in Hs. rewrite Hl in Hs. injection Hs as <- <-.
  change (ZapretTestState.Active (RuntimeState.ZapretTest (settle_transport st))) with (ZapretTestState.Active (RuntimeState.ZapretTest st)) in Hk.
  rewrite Ht in Hk. destruct (bool_decide _) in Hk.
  - apply bind_ok in Hk as (seen & w3 & _ & Hk). by apply raise_ok in Hk.
  - apply bind_ok in Hk as (started & w3 & Ha%attempt_ok & Hk). destruct started as [s|[s e]].
    + injection Hk as _ <-. by apply test_recorded in Ha.
    + exfalso. revert Hk. unfold undo_start. destruct (has_proxy _).
      * intros (u & w4 & _ & Hk)%bind_ok. by apply raise_ok in Hk.
      * intros (u & w4 & _ & Hk)%bind_ok. apply bind_ok in Hk as (now & w5 & _ & Hk).
        apply bind_ok in Hk as (u' & w6 & _ & Hk). by apply raise_ok in Hk.
Qed.

Lemma proxy_survives restore : has_proxy (reload_restore restore) = has_proxy restore.
Proof.
  destruct restore as [s n m c t]. unfold has_proxy, reload_restore. cbn [ZapretTestRestoreState.Connected
    ZapretTestRestoreState.ActiveTransport ZapretTestRestoreState.ActiveSubscriptionID ZapretTestRestoreState.ActiveNodeID].
  do 3 f_equal. apply bool_decide_ext. unfold NormalizeTransportMode. repeat case_bool_decide; cbn [orb]; naive_solver.
Qed.

Lemma stop_selects w now st r w' :
  load_state w = Ok (reload_state (settle_operational_mode (zapret_test_state (restore_point st) now st))) ->
  has_proxy (restore_point st) = true -> stopZapretTest rfc3339 url_host w = (r, w') ->
  match restoreZapretTestSelection rfc3339 url_host (reload_restore (restore_point st)) w with
  | (Ok _, w1) => load_state w' = load_state w1
  | (Err e, w1) => r = Err (no_status, e) /\ w' = w1
  end.
Proof.
  intros Hl Hp. unfold stopZapretTest, mbind, prog_bind, reporting, map_error, load_state_as. rewrite Hl.
  cbv iota zeta. rewrite test_reloaded. cbn [ZapretTestState.Active negb ZapretTestState.Restore]. rewrite proxy_survives, Hp.
  destruct (restoreZapretTestSelection _ _ _ w) as [[u|e] w1]; [by intros ?%status_file|by intros [= <- <-]].
Qed.


(** A zapret test over AmneziaWG cannot be stopped.  A connection over
    AmneziaWG is recorded under a subscription identifier that no subscription has;
    when a test is started over it, stopping the test reports that the
    subscription is not found and changes nothing, however often it is tried. *)
Theorem zapret_test_over_amneziawg_stays w st status w1 :
  load_state w = Ok st -> ZapretTestState.Active (RuntimeState.ZapretTest st) = false ->
  RuntimeState.ActiveSubscriptionID st = awgSubscriptionID -> has_proxy (restore_point (settle_transport st)) = true ->
  startZapretTest rfc3339 url_host w = (Ok status, w1) ->
  subscriptionByID (load_subscriptions w1) awgSubscriptionID = None ->
  stopZapretTest rfc3339 url_host w1 = (Err (no_status, subscription_error (load_subscriptions w1) awgSubscriptionID), w1) /\
  exists st1, load_state w1 = Ok st1 /\ ZapretTestState.Active (RuntimeState.ZapretTest st1) = true.
Proof.
  intros Hl Ht Ha Hp Hstart Hn. destruct (started_test _ _ _ _ Hl Ht Hstart) as (now & Hf). split.
  - destruct (stopZapretTest rfc3339 url_host w1) as [r w2] eqn:E. pose proof (stop_selects _ _ _ _ _ Hf Hp E) as Hr.
    assert (Er : restoreZapretTestSelection rfc3339 url_host (reload_restore (restore_point (settle_transport st))) w1 =
      (Err (subscription_error (load_subscriptions w1) awgSubscriptionID), w1)).
    { unfold restoreZapretTestSelection, find_subscription, mbind, prog_bind, reads, of_result.
      cbn [reload_restore restore_point ZapretTestRestoreState.ActiveSubscriptionID].
      change (RuntimeState.ActiveSubscriptionID (settle_transport st)) with (RuntimeState.ActiveSubscriptionID st).
      rewrite Ha, Hn. reflexivity. }
    rewrite Er in Hr. by destruct Hr as [-> ->].
  - eexists. split; [exact Hf|]. unfold settle_operational_mode. by destruct (bool_decide _).
Qed.

End ZapretTest.

(** ** On the world in memory *)

#[export] Instance world_observer : ZapretObserver MemoryWorld := {
  zapret_status w := ((ZapretStatus.mk true true true true false "running" "", None), w)
}.

Definition zapret_settings : Settings :=
  DefaultSettings <| Settings.Zapret := ZapretSettings.mk true (FirewallSelectorSet.mk [] ["example.org"] []) 3 |>.

(** The runtime of the world with a domain for zapret. *)
Definition zapret_runtime : Runtime MemoryWorld := {|
  load_settings _ := Ok zapret_settings;
  load_subscriptions := load_subscriptions; load_cached_state := load_cached_state; clock := clock; switch_clock := switch_clock;
  system_resolvers := system_resolvers; resolve := resolve; apply_ipv6 := apply_ipv6; apply_config := apply_config;
  capture_rollback := capture_rollback; rollback_config := rollback_config; check_running := check_running;
  stop_backend := stop_backend; dns_apply := dns_apply; dns_disable := dns_disable; firewall_apply := firewall_apply;
  firewall_disable := firewall_disable; zapret_apply := zapret_apply; zapret_disable := zapret_disable;
  store_settings := store_settings
|}.

Lemma zapret_failover_laws : FailoverLaws MemoryWorld (H1 := zapret_runtime).
Proof. split; try (intros; reflexivity); [|done]. split; try (intros; reflexivity); [|apply world_auto_laws..]. split; try (intros; reflexivity). exact world_laws. Qed.

Lemma world_observer_laws : ZapretObserverLaws MemoryWorld.
Proof. by split. Qed.

Abbreviation start_test := (startZapretTest (H1 := zapret_runtime) (fun _ => "") (fun _ => None)).
Abbreviation stop_test := (stopZapretTest (H1 := zapret_runtime) (fun _ => "") (fun _ => None)).

(** The connection, its mode and whether a test runs. *)
Definition test_view (r : result string RuntimeState) : option (string * string * string * bool) :=
  match r with
  | Ok st => Some (RuntimeState.ActiveNodeID st, RuntimeState.Mode st, RuntimeState.ActiveTransport st,
               ZapretTestState.Active (RuntimeState.ZapretTest st))
  | Err _ => None
  end.


(** A connection over a profile. *)
Definition awg_world : MemoryWorld := Build_MemoryWorld (Build_Memory [managedOutboundPrefix +:+ "awg-1"] {[ managedBalancerTag := managedOutboundPrefix +:+ "awg-1" ]})
  (Some (stored ((world_state OperationalModeVPN) <| RuntimeState.ActiveConnectionKind := amneziawg_kind |>
    <| RuntimeState.ActiveAWGProfileID := "awg-1" |> <| RuntimeState.ActiveSubscriptionID := awgSubscriptionID |>
    <| RuntimeState.ActiveNodeID := "awg-1" |>))) None None None.

Lemma zapret_test_over_amneziawg_stays_witness :
  stop_test (start_test awg_world).2 =
    (Err (no_status, subscription_error (load_subscriptions (Runtime := zapret_runtime) (start_test awg_world).2) awgSubscriptionID), (start_test awg_world).2).
Proof.
  assert (E1 : is_ok (start_test awg_world).1 = true) by (vm_compute; reflexivity).
  destruct (load_state awg_world) as [st|e] eqn:E; [|vm_compute in E; discriminate E].
  assert (Hst : ZapretTestState.Active (RuntimeState.ZapretTest st) = false /\ RuntimeState.ActiveSubscriptionID st = awgSubscriptionID /\
    has_proxy (restore_point (settle_transport st)) = true)
    by (vm_compute in E; injection E as <-; split_and!; vm_compute; reflexivity).
  destruct Hst as (Ht & Hs & Hp). apply is_ok_true in E1 as [s1 E1].
  exact (proj1 (zapret_test_over_amneziawg_stays MemoryWorld (H1 := zapret_runtime) (H3 := zapret_failover_laws)
    (ZapretObserverLaws0 := world_observer_laws) (fun _ => "") (fun _ => None) awg_world st s1 (start_test awg_world).2
    E Ht Hs Hp (run_eq _ _ E1) ltac:(vm_compute; reflexivity))).
Defined.
