(* ===== verification/SettingsKept.v ===== *)
(** * Invariants of the settings file

    A property of the settings that saving keeps and that does not depend on the
    connection mode holds of the settings file through everything that applies a
    connection.  The laws say that the managers do not write the settings file and
    that storing leaves the old file or the new one. *)
From S2P Require Import Prelude GoRunes GoStrings GoNum NetIP Domain AmneziaProfile.
From S2P Require Import AmneziaRuntime Firewall FirewallSettings Zapret Settings Connection Probe.
From S2P Require Import Migrations PersistFacts AutoState AutoSelect AutoSelectFacts Reserves.
From S2P Require Import XrayConfig XrayFacts BackendRequest ManagedBackend Scheduler Effects.
From S2P Require Import ManagedSwitch ManagedSwitchFacts MemoryWorld NodeSelection.
From S2P Require Import NodeSelectionFacts ReserveRound ReserveRoundFacts AutoCommit Failover.
From S2P Require Import FailoverFacts Connect AmneziaService AmneziaServiceFacts Reapply.

Local Open Scope Z_scope.
Local Open Scope list_scope.

(** ** Predicates on the world *)

Section Keeps.
  Context {W E : Type} (I : W -> Prop).

Definition stays {A} (p : Prog W E A) : Prop := forall w, I w -> I (p w).2.

Lemma stays_at {A} (p : Prog W E A) w r w' : stays p -> I w -> p w = (r, w') -> I w'.
Proof. intros Hp Hw Ep. specialize (Hp w Hw). by rewrite Ep in Hp. Qed.

Lemma stays_ret {A} (a : A) : stays (mret a).
Proof. by intros w. Qed.

Lemma stays_raise {A} (e : E) : stays (A := A) (raise e).
Proof. by intros w. Qed.

Lemma stays_of_result {A} (r : result E A) : stays (of_result r).
Proof. by intros w. Qed.

Lemma stays_reads {A} (f : W -> A) : stays (reads f).
Proof. by intros w. Qed.

Lemma stays_bind {A B} (p : Prog W E B) (k : B -> Prog W E A) : stays p -> (forall b, stays (k b)) -> stays (p ≫= k).
Proof.
  intros Hp Hk w Hw. unfold mbind, prog_bind. specialize (Hp w Hw). destruct (p w) as [[b|e] w1]; [by apply Hk|done].
Qed.

Lemma stays_when b (p : Prog W E unit) : stays p -> stays (when b p).
Proof. intros Hp. destruct b; [exact Hp|apply stays_ret]. Qed.

Lemma stays_ignore {A} (p : Prog W E A) : stays p -> stays (ignore p).
Proof. intros Hp w Hw. by apply Hp. Qed.

Lemma stays_outcome {A} (f : W -> A * W) : (forall w, I w -> I (f w).2) -> stays (outcome f).
Proof. intros Hf w Hw. unfold outcome. specialize (Hf w Hw). by destruct (f w). Qed.

Lemma stays_act {X} (wrap : X -> E) (f : W -> option X * W) : (forall w, I w -> I (f w).2) -> stays (act wrap f).
Proof. intros Hf w Hw. unfold act. specialize (Hf w Hw). by destruct (f w) as [[|]]. Qed.

Lemma stays_attempt {A} (p : Prog W E A) : stays p -> stays (attempt p).
Proof. intros Hp w Hw. unfold attempt. specialize (Hp w Hw). by destruct (p w). Qed.

End Keeps.

Lemma stays_map_error {W E E'} (I : W -> Prop) {A} (g : E -> E') (p : Prog W E A) : stays I p -> stays I (map_error g p).
Proof. intros Hp w Hw. unfold map_error. specialize (Hp w Hw). by destruct (p w) as [[|]]. Qed.

(** ** The settings file *)

(** The outside of a program leaves the settings file alone. *)
Definition silent {W A} `{Runtime W} (f : W -> A * W) : Prop := forall w, load_settings (f w).2 = load_settings w.

(** A failed store left the old file or, when only the directory could not be
    flushed, the new one. *)
Class SettingsFileLaws (W : Type)
    `{ManagedBackend W, Router W, Runtime W, ProfileStore W, AWGController W, InterfaceBackend W, ZapretObserver W} : Prop := {
  stored_or_old : forall s e w w' s', store_settings s w = (e, w') -> load_settings w' = Ok s' ->
    load_settings w = Ok s' \/ exists is_nil, LoadSettings (Some (SaveSettings is_nil s)) = Ok s';
  stored_new : forall s w w' s', store_settings s w = (None, w') -> load_settings w' = Ok s' ->
    exists is_nil, LoadSettings (Some (SaveSettings is_nil s)) = Ok s';
  silent_prepare node mark : silent (PrepareOutbound node mark);
  silent_remove tag : silent (RemoveOutbound tag);
  silent_select tag : silent (SelectOutbound tag);
  silent_selected : silent SelectedOutbound;
  silent_save s : silent (save_state s);
  silent_verify slot tag : silent (verify slot tag);
  silent_delay : silent confirmation_delay;
  silent_egress : silent egress;
  silent_persist r : silent (persist_config r);
  silent_clock : silent clock;
  silent_ipv6 : silent apply_ipv6;
  silent_config r : silent (apply_config r);
  silent_rollback s : silent (rollback_config s);
  silent_running : silent check_running;
  silent_stop : silent stop_backend;
  silent_dns d : silent (dns_apply d);
  silent_dns_off : silent dns_disable;
  silent_firewall f : silent (firewall_apply f);
  silent_firewall_off : silent firewall_disable;
  silent_zapret l : silent (zapret_apply l);
  silent_zapret_off : silent zapret_disable;
  silent_save_profile m raw : silent (save_profile m raw);
  silent_remove_profile id : silent (remove_profile id);
  silent_remove_legacy : silent remove_legacy;
  silent_awg_prepare p : silent (awg_prepare p);
  silent_awg_connect : silent awg_connect;
  silent_awg_disconnect : silent awg_disconnect;
  silent_awg_remove : silent awg_remove;
  silent_routes i : silent (ensure_routes i);
  silent_isolated p : silent (prepare_isolated p);
  silent_cleanup : silent isolated_cleanup;
  silent_interface d a m : silent (PrepareInterfaceOutbound d a m);
  silent_probe tag : silent (probe_interface tag);
  silent_status : silent zapret_status
}.

Create HintDb silent.
Create HintDb stays.
#[export] Hint Resolve silent_prepare silent_remove silent_select silent_selected silent_save silent_verify silent_delay silent_egress
  silent_persist silent_clock silent_ipv6 silent_config silent_rollback silent_running silent_stop silent_dns silent_dns_off
  silent_firewall silent_firewall_off silent_zapret silent_zapret_off silent_save_profile silent_remove_profile
  silent_remove_legacy silent_awg_prepare silent_awg_connect silent_awg_disconnect silent_awg_remove silent_routes
  silent_isolated silent_cleanup silent_interface silent_probe silent_status : silent.

(** The last call of a branch. *)
Ltac silent_last :=
  match goal with |- load_settings (?f ?w).2 = _ =>
    transitivity (load_settings w); [refine ((_ : silent f) w); eauto with silent|congruence]
  end.

(** Goes through the calls of a function on worlds. *)
Ltac silent_steps :=
  repeat match goal with
    | |- context [match ?f ?w with (_, _) => _ end] =>
      let Q := fresh "Q" in
      assert (Q : load_settings (f w).2 = load_settings w) by (match goal with |- load_settings (?g ?v).2 = _ => refine ((_ : silent g) v) end; eauto with silent);
      destruct (f w) as [? ?]; cbn [snd] in Q
    | |- context [match ?x with _ => _ end] => destruct x
    end; cbn [snd]; first [congruence | silent_last].

Section Kept.
  Context {W : Type} `{SettingsFileLaws W, AutoRuntime W}.
  Context (P : Settings -> Prop).
  Hypothesis reloads : forall is_nil s s', P s -> LoadSettings (Some (SaveSettings is_nil s)) = Ok s' -> P s'.
  Hypothesis modes : forall mode auto s, P s -> P (s <| Settings.AutoMode := auto |> <| Settings.Mode := mode |>).

(** What the file holds has the property. *)
Definition kept (w : W) : Prop := forall s, load_settings w = Ok s -> P s.

Lemma kept_silent {A} (f : W -> A * W) w : silent f -> kept w -> kept (f w).2.
Proof. intros Hq Hw s. rewrite Hq. apply Hw. Qed.

Lemma kept_store s w : P s -> kept w -> kept (store_settings s w).2.
Proof.
  intros Hs Hw s' Hl. destruct (store_settings s w) as [e w'] eqn:E. destruct (stored_or_old _ _ _ _ _ E Hl) as [Ho|[n Hn]]; [by apply Hw|].
  by eapply reloads.
Qed.

Lemma stays_silent_act {X} (wrap : X -> Fault) (f : W -> option X * W) : silent f -> stays kept (act wrap f).
Proof. intros Hq. apply stays_act. intros w. by apply kept_silent. Qed.

Lemma stays_silent_outcome {A} (f : W -> A * W) : silent f -> stays (E := Fault) kept (outcome f).
Proof. intros Hq. apply stays_outcome. intros w. by apply kept_silent. Qed.

Lemma stays_store (wrap : string -> Fault) s : P s -> stays kept (act wrap (store_settings s)).
Proof. intros Hs. apply stays_act. intros w. by apply kept_store. Qed.

(** What is loaded has the property. *)
Lemma stays_load {A} context (k : Settings -> Prog W Fault A) :
  (forall s, P s -> stays kept (k s)) -> stays kept (load_settings_as context ≫= k).
Proof.
  intros Hk w Hw. unfold mbind, prog_bind, load_settings_as. destruct (load_settings w) as [s|e] eqn:E; [|done]. apply Hk; [by apply Hw|done].
Qed.

Lemma stays_read {A} (k : result string Settings -> Prog W Fault A) :
  (forall r, (forall s, r = Ok s -> P s) -> stays kept (k r)) -> stays kept (reads load_settings ≫= k).
Proof. intros Hk w Hw. unfold mbind, prog_bind, reads. by apply Hk. Qed.

(** ** Switching live *)

Lemma silent_agreed state : silent (agreed_tag state).
Proof. intros w. unfold agreed_tag. cbv zeta. silent_steps. Qed.

Lemma silent_pin tag : silent (pin tag).
Proof. intros w. unfold pin. silent_steps. Qed.

#[local] Hint Resolve silent_agreed silent_pin : silent.

Lemma silent_route i : silent (current_route i).
Proof. intros w. unfold current_route, SelectDirect. cbv zeta. silent_steps. Qed.

Lemma silent_failure now tag w : load_settings (recordManagedCandidateFailure now tag w) = load_settings w.
Proof. unfold recordManagedCandidateFailure. destruct (load_state w); [apply silent_save|done]. Qed.

Lemma silent_check now tag failed : silent (check_candidate now tag failed).
Proof.
  intros w. unfold check_candidate. pose proof (silent_verify 0 tag w) as Q. destruct (verify 0 tag w) as [[e|] w1]; [|exact Q].
  cbv zeta. pose proof (silent_failure now tag w1) as Q1. pose proof (silent_remove tag (recordManagedCandidateFailure now tag w1)) as Q2.
  destruct (RemoveOutbound _ _). cbn [snd] in *. congruence.
Qed.

#[local] Hint Resolve silent_route silent_check : silent.

Lemma silent_before i tag : silent (check_before i tag).
Proof.
  intros w. unfold check_before. cbv zeta. destruct (_ || _).
  - silent_steps.
  - destruct (direct_recovery _); [|done]. silent_steps.
Qed.

Lemma silent_move i from to : silent (move_route i from to).
Proof. intros w. unfold move_route. silent_steps. Qed.

#[local] Hint Resolve silent_before silent_move : silent.

Lemma silent_switch i : silent (tryManagedNodeSelection i).
Proof. intros w. unfold tryManagedNodeSelection. cbv zeta. silent_steps. Qed.

#[local] Hint Resolve silent_switch : silent.
#[local] Hint Resolve stays_ret stays_raise stays_of_result stays_reads : stays.

(** Goes through the steps of a program. *)
Ltac stays_steps :=
  repeat first
    [ solve [eauto with stays silent]
    | solve [apply stays_silent_act; eauto with silent]
    | solve [apply stays_silent_outcome; eauto with silent]
    | match goal with
      | |- stays _ (load_settings_as _ ≫= _) => apply stays_load; intros ? ?
      | |- stays _ (reads load_settings ≫= _) => apply stays_read; intros ? ?
      | |- stays _ (act _ (store_settings (mode_settings _ _))) => apply stays_store, modes; solve [eauto]
      | |- stays _ (mbind _ _) => apply stays_bind; [|intros ?]
      | |- stays _ (map_error _ _) => apply stays_map_error
      | |- stays _ (reporting _ _) => apply stays_map_error
      | |- stays _ (attempt _) => apply stays_attempt
      | |- stays _ (ignore _) => apply stays_ignore
      | |- stays _ (when _ _) => apply stays_when
      end
    | case_match ].

(** *** A node *)

Section Node.
  Context (rfc3339 : Time -> string) (url_host : string -> option (string * string)).

Lemma stays_time : stays kept currentTime.
Proof. intros w Hw. unfold currentTime. pose proof (kept_silent _ _ silent_clock Hw). by destruct (clock w). Qed.

Lemma stays_load_state context : stays kept (load_state_as context).
Proof. intros w Hw. unfold load_state_as. by destruct (load_state w). Qed.

#[local] Hint Resolve stays_time stays_load_state : stays.

Lemma stays_save context s : stays kept (save_as context s).
Proof. unfold save_as. stays_steps. Qed.

Lemma stays_stop : stays kept stopProxyTransport.
Proof. unfold stopProxyTransport. stays_steps. Qed.

#[local] Hint Resolve stays_save stays_stop : stays.

Lemma stays_failure {A} sub node mode opts reason err : stays (A := A) kept (handleNodeSelectionFailure sub node mode opts reason err).
Proof. unfold handleNodeSelectionFailure, markConnectionFailed. stays_steps. Qed.

Lemma stays_preserved state reason : stays kept (save_preserved state reason).
Proof. unfold save_preserved. stays_steps. Qed.

#[local] Hint Resolve stays_failure stays_preserved : stays.

Lemma stays_health id reason threshold : stays kept (persistVerificationFailureHealth id reason threshold).
Proof.
  unfold persistVerificationFailureHealth. case_match; [apply stays_ret|]. apply stays_bind; [|intros ?; stays_steps].
  intros w Hw. by destruct (load_cached_state w).
Qed.

#[local] Hint Resolve stays_health : stays.

Lemma stays_unverified {A} sub node mode opts snapshot reason err :
  stays (A := A) kept (handlePostApplyVerificationFailure sub node mode opts snapshot reason err).
Proof. unfold handlePostApplyVerificationFailure, verification_failed. stays_steps. Qed.

Lemma stays_call {A} (f : W -> A * W) : silent f -> stays (E := Fault) kept (fun w => let '(r, w) := f w in (Ok r, w)).
Proof. exact (stays_silent_outcome f). Qed.

Lemma stays_managed state sub node opts request : stays kept (managed_selection rfc3339 state sub node opts request).
Proof.
  unfold managed_selection, preserve_route. case_match; [apply stays_ret|]. apply stays_bind; [apply stays_reads|intros i].
  apply stays_bind; [|intros ?; stays_steps]. intros w Hw. unfold run_switch. pose proof (kept_silent _ _ (silent_switch i) Hw). by destruct (tryManagedNodeSelection i w) as [[]].
Qed.

#[local] Hint Resolve stays_unverified stays_managed : stays.
#[local] Hint Extern 1 (stays _ (fun w => let '(r, w) := _ w in (Ok r, w))) => apply stays_call; eauto with silent : stays.

Lemma stays_reload sub node resolved mode opts request : stays kept (static_reload sub node resolved mode opts request).
Proof. unfold static_reload. stays_steps. Qed.

Lemma stays_manager sub node mode opts context f : silent f -> stays kept (manager_step sub node mode opts context f).
Proof. intros Hf. unfold manager_step. stays_steps. Qed.

#[local] Hint Resolve stays_reload stays_manager : stays.

Lemma stays_applied sub node mode opts : stays kept (applyNodeSelection rfc3339 url_host sub node mode opts).
Proof.
  unfold applyNodeSelection, ensureManagedIPv6State, apply_dns, apply_firewall, finish_selection.
  apply stays_load. intros s _. stays_steps.
Qed.

#[local] Hint Resolve stays_applied : stays.

Lemma stays_find id : stays kept (find_subscription id).
Proof. unfold find_subscription. stays_steps. Qed.

Lemma stays_direct state id node mode reason failure : stays kept (markTransportDirect state id node mode reason failure).
Proof. unfold markTransportDirect. stays_steps. Qed.

#[local] Hint Resolve stays_find stays_direct : stays.

Lemma stays_fallback sub state settings reason : stays kept (activateZapretFallback sub state settings reason).
Proof. unfold activateZapretFallback. stays_steps. Qed.

Lemma stays_disconnected : stays kept disconnectRuntime.
Proof. unfold disconnectRuntime. stays_steps. Qed.

Lemma stays_reported {E A} (f : Fault -> E) (p : Prog W Fault A) : stays kept p -> stays kept (map_error f p).
Proof. apply stays_map_error. Qed.

Lemma stays_test settings state restore : stays kept (applyZapretTestMode settings state restore).
Proof.
  unfold applyZapretTestMode. destruct (zapretExpandedTargets settings); [|apply stays_raise].
  apply stays_bind; [apply stays_map_error; stays_steps|intros _]. apply stays_bind; [|intros answer].
  - apply stays_outcome. intros w. apply kept_silent, silent_zapret.
  - case_match; [apply stays_raise|]. apply stays_bind; [apply stays_map_error; stays_steps|intros now].
    apply stays_bind; [apply stays_map_error; stays_steps|intros _; apply stays_ret].
Qed.

#[local] Hint Resolve stays_fallback stays_disconnected stays_test : stays.

(** *** A profile *)

Context (digest : StablePayload -> string) (profile_error_text : ProfileError -> string).

Lemma stays_reading {A} wrap_ (r : result string A) : stays kept (of_reading wrap_ r).
Proof. unfold of_reading. case_match; stays_steps. Qed.

Lemma stays_given {A B} wrap_ (r : result string A) (k : A -> Prog W Fault B) :
  (forall a, r = Ok a -> stays kept (k a)) -> stays kept (of_reading wrap_ r ≫= k).
Proof. intros Hk w Hw. unfold of_reading. destruct r as [a|e]; [by apply Hk|done]. Qed.

Lemma stays_view {A} (f : W -> Prog W Fault A) : (forall w, stays kept (f w)) -> stays kept (fun w => f w w).
Proof. intros Hf w Hw. by apply Hf. Qed.

Lemma stays_profile raw : stays kept (parse_profile profile_error_text raw).
Proof. unfold parse_profile. case_match; stays_steps. Qed.

#[local] Hint Resolve stays_reading stays_profile : stays.

Lemma stays_file : stays kept (fun w => of_reading fault (load_state w) w).
Proof. apply (stays_view (fun w => of_reading fault (load_state w))). eauto with stays. Qed.

Lemma stays_load_profile id : stays kept (loadAWGProfile profile_error_text id).
Proof. unfold loadAWGProfile. stays_steps. Qed.

#[local] Hint Resolve stays_file stays_load_profile : stays.

Lemma stays_ready : stays kept runtime_ready.
Proof.
  unfold runtime_ready, SelectDirect. apply stays_bind; [apply stays_reads|intros running]. case_match; [apply stays_ret|].
  apply stays_bind; [stays_steps|intros current]. case_match; [apply stays_ret|].
  apply stays_bind; [apply stays_reads|intros state]. case_match; [|apply stays_ret].
  apply stays_bind; [case_match; stays_steps|intros pinned; apply stays_ret].
Qed.

Lemma stays_install : stays kept (install_runtime url_host).
Proof. unfold install_runtime. apply stays_load. intros s _. stays_steps. Qed.

#[local] Hint Resolve stays_ready stays_install : stays.

Lemma stays_ensure force : stays kept (ensureAWGManagedRuntimeWithReload url_host force).
Proof. unfold ensureAWGManagedRuntimeWithReload. stays_steps. Qed.

Lemma stays_ensured : stays kept (ensureAWGManagedRuntime url_host).
Proof. apply stays_ensure. Qed.

#[local] Hint Resolve stays_ensure stays_ensured : stays.

Lemma stays_measure id mark iface : stays kept (measure_interface url_host id mark iface).
Proof. unfold measure_interface. stays_steps. Qed.

Lemma stays_permanent id profile state : stays kept (prepare_permanent id profile state).
Proof. unfold prepare_permanent. stays_steps. Qed.

Lemma stays_interface : stays kept permanent_interface.
Proof. unfold permanent_interface. stays_steps. Qed.

#[local] Hint Resolve stays_measure stays_permanent stays_interface : stays.

Lemma stays_isolated id profile : stays kept (isolated_probe url_host id profile).
Proof. unfold isolated_probe. stays_steps. Qed.

#[local] Hint Resolve stays_isolated : stays.

Lemma stays_verified id prepare isolated : stays kept (verifyAWGLocked url_host profile_error_text id prepare isolated).
Proof. unfold verifyAWGLocked. stays_steps. Qed.

Lemma stays_off : stays kept disconnectAWGLocked.
Proof. unfold disconnectAWGLocked. stays_steps. Qed.

Lemma stays_reuse id before : stays kept (reuse_prepared url_host id before).
Proof. unfold reuse_prepared. stays_steps. Qed.

Lemma stays_back tag state : stays kept (take_back tag state).
Proof. unfold take_back. stays_steps. Qed.

#[local] Hint Resolve stays_verified stays_off stays_reuse stays_back : stays.

Lemma stays_switch id tag mode scope : stays kept (switch_to_profile id tag mode scope).
Proof. unfold switch_to_profile. stays_steps. Qed.

#[local] Hint Resolve stays_switch : stays.

Lemma stays_from before id mode scope : stays kept (connect_from url_host profile_error_text before id mode scope).
Proof. unfold connect_from. stays_steps. Qed.

Lemma stays_restored state : stays kept (restoreAWGConnectionLocked url_host profile_error_text state).
Proof.
  unfold restoreAWGConnectionLocked. do 8 (apply stays_bind; [stays_steps|intros ?]). apply stays_bind; [stays_steps|intros _].
  apply stays_read. intros r Hr. apply stays_given. intros s Hs. stays_steps.
Qed.

#[local] Hint Resolve stays_from stays_restored : stays.

Lemma stays_with_mode id mode scope : stays kept (connectAWGWithModeLocked url_host profile_error_text id mode scope).
Proof. unfold connectAWGWithModeLocked, or_restore, checkAWGLocked. stays_steps. Qed.

#[local] Hint Resolve stays_with_mode : stays.

Lemma stays_awg id : stays kept (connectAWGLocked url_host profile_error_text id).
Proof. unfold connectAWGLocked. stays_steps. Qed.

Lemma stays_migrated : stays kept (migrateLegacyAWGProfileLocked digest profile_error_text).
Proof. unfold migrateLegacyAWGProfileLocked. stays_steps. Qed.

#[local] Hint Resolve stays_awg stays_migrated : stays.

(** ** Applying again *)

Lemma stays_reapplied force : stays kept (reapplyCurrentConnectionWithOptions rfc3339 url_host digest profile_error_text force).
Proof.
  unfold reapplyCurrentConnectionWithOptions, reapply_awg, reapply_node. apply stays_bind; [stays_steps|intros state].
  cbv zeta. repeat (case_match; [stays_steps|]); stays_steps.
Qed.

End Node.

End Kept.

(** ** A world with a settings file

    The world in memory together with the settings file, written as [SaveSettings]
    does and read as [LoadSettings] does: an instance of every interface the
    handlers of the settings use, on which their theorems are applied. *)

Record SettingsWorld : Type := { memory : MemoryWorld; settings_file : option RawSettings.RawSettings }.

Definition on_memory {A} (f : MemoryWorld -> A * MemoryWorld) (w : SettingsWorld) : A * SettingsWorld :=
  let '(a, m) := f (memory w) in (a, Build_SettingsWorld m (settings_file w)).

#[export] Instance settings_backend : ManagedBackend SettingsWorld := {
  PrepareOutbound node mark := on_memory (PrepareOutbound node mark);
  RemoveOutbound tag := on_memory (RemoveOutbound tag);
  SelectOutbound tag := on_memory (SelectOutbound tag);
  SelectedOutbound := on_memory SelectedOutbound;
  SetProbeOutbound slot tag := on_memory (SetProbeOutbound slot tag)
}.

#[export] Instance settings_router : Router SettingsWorld := {
  save_state s := on_memory (save_state s);
  load_state w := load_state (memory w);
  verify slot tag := on_memory (verify slot tag);
  confirmation_delay := on_memory confirmation_delay;
  egress := on_memory egress;
  persist_config r := on_memory (persist_config r)
}.

Definition read_settings (file : option RawSettings.RawSettings) : result string Settings :=
  match LoadSettings file with Ok s => Ok s | Err _ => Err "read settings" end.

#[export] Instance settings_runtime : Runtime SettingsWorld := {
  load_settings w := read_settings (settings_file w);
  load_subscriptions w := load_subscriptions (memory w);
  load_cached_state w := load_cached_state (memory w);
  clock := on_memory clock;
  switch_clock w := switch_clock (memory w);
  system_resolvers w := system_resolvers (memory w);
  resolve node w := resolve node (memory w);
  apply_ipv6 := on_memory apply_ipv6;
  apply_config r := on_memory (apply_config r);
  capture_rollback w := capture_rollback (memory w);
  rollback_config s := on_memory (rollback_config s);
  check_running := on_memory check_running;
  stop_backend := on_memory stop_backend;
  dns_apply d := on_memory (dns_apply d);
  dns_disable := on_memory dns_disable;
  firewall_apply f := on_memory (firewall_apply f);
  firewall_disable := on_memory firewall_disable;
  zapret_apply l := on_memory (zapret_apply l);
  zapret_disable := on_memory zapret_disable;
  store_settings s w := (None, Build_SettingsWorld (memory w) (Some (SaveSettings (fun _ => true) s)))
}.

#[export] Instance settings_auto : AutoRuntime SettingsWorld := {
  snapshot_subscriptions w := snapshot_subscriptions (memory w);
  deep_equal := deep_equal;
  probe_batch tags := on_memory (probe_batch tags);
  connect_awg id mode scope := on_memory (connect_awg id mode scope);
  remember_health s w := Build_SettingsWorld (remember_health s (memory w)) (settings_file w);
  should_persist a b w := should_persist a b (memory w);
  cancelled w := cancelled (memory w);
  wall_clock w := wall_clock (memory w)
}.

#[export] Instance settings_profiles : ProfileStore SettingsWorld := {
  list_profiles w := list_profiles (memory w);
  load_profile id w := load_profile id (memory w);
  save_profile m raw := on_memory (save_profile m raw);
  remove_profile id := on_memory (remove_profile id);
  load_legacy w := load_legacy (memory w);
  remove_legacy := on_memory remove_legacy
}.

#[export] Instance settings_controller : AWGController SettingsWorld := {
  controller := true; isolates := false; has_policy_routes := true;
  awg_preflight w := awg_preflight (memory w);
  awg_status w := awg_status (memory w);
  awg_prepare p := on_memory (awg_prepare p);
  awg_connect := on_memory awg_connect;
  awg_disconnect := on_memory awg_disconnect;
  awg_remove := on_memory awg_remove;
  ensure_routes i := on_memory (ensure_routes i);
  prepare_isolated p := on_memory (prepare_isolated p);
  isolated_cleanup := on_memory isolated_cleanup
}.

#[export] Instance settings_interface : InterfaceBackend SettingsWorld := {
  PrepareInterfaceOutbound d a m := on_memory (PrepareInterfaceOutbound d a m);
  backend_running w := backend_running (memory w);
  probe_interface tag := on_memory (probe_interface tag)
}.

#[export] Instance settings_observer : ZapretObserver SettingsWorld := { zapret_status := on_memory zapret_status }.

#[export] Instance settings_failover : FailoverRuntime SettingsWorld := {
  probe_round := on_memory probe_round;
  probe_awg_profiles scope := on_memory (probe_awg_profiles scope);
  check_awg := on_memory check_awg;
  connect_active_awg := on_memory connect_active_awg
}.

Lemma on_memory_silent {A} (f : MemoryWorld -> A * MemoryWorld) : silent (on_memory f).
Proof. intros w. unfold on_memory. by destruct (f (memory w)). Qed.

Lemma settings_world_laws : SettingsFileLaws SettingsWorld.
Proof.
  assert (Hload : forall file s', read_settings file = Ok s' -> LoadSettings file = Ok s')
    by (intros file s'; unfold read_settings; destruct (LoadSettings file); by try intros [= ->]).
  split; try (intros; apply on_memory_silent).
  - intros s e w w' s' [= _ <-] Hl. right. exists (fun _ => true). exact (Hload _ _ Hl).
  - intros s w w' s' [= <-] Hl. exists (fun _ => true). exact (Hload _ _ Hl).
Qed.
