(* ===== verification/FirewallService.v ===== *)
(** * Changing the firewall

    The handlers of [app/service.go] that edit the routing policy: drafts of the
    panel, user-defined target services, the three modes, the port, QUIC, IPv6 and
    switching off.  An edit is a function on the settings; a handler loads,
    edits, validates, stores and applies the connection again.

    The texts of parsing errors and the order in which Go ranges over a catalog are
    parameters; the store lock is not modelled. *)
From S2P Require Import Prelude GoRunes GoStrings GoNum NetIP Domain Firewall FirewallSettings.
From S2P Require Import Zapret Settings Connection Probe AmneziaProfile AmneziaRuntime.
From S2P Require Import ManagedBackend.
From S2P Require Import ManagedSwitch Effects NodeSelection ReserveRound AutoCommit Failover.
From S2P Require Import AmneziaService Reapply.

Local Open Scope Z_scope.
Local Open Scope list_scope.

(** [firewall.Validate] and [ipv6Manager.Apply]. *)
Class FirewallControl (W : Type) := {
  firewall_validate : FirewallSettings -> W -> option string * W;
  ipv6_switch : bool -> W -> option string * W
}.

(** ** References between services *)

(** [targetServiceDependencyMatches]; [visiting] is restored by the deferred
    [delete] and is an argument. *)
Fixpoint targetServiceDependencyMatches (fuel : nat) (catalog : Catalog) (visiting : gset string) (target root : string) : bool :=
  bool_decide (root = target) ||
  match fuel with
  | O => false
  | S fuel' =>
    if bool_decide (root ∈ visiting) then false
    else match catalog !! root with
    | None => false
    | Some definition =>
      existsb (fun dependency =>
          let dependency := TrimSpace (ToLower dependency) in
          bool_decide (dependency = target)
          || targetServiceDependencyMatches fuel' catalog ({[root]} ∪ visiting) target dependency)
        (FirewallTargetDefinition.Services definition)
    end
  end.

Definition dependency_matches (catalog : Catalog) (target root : string) : bool :=
  targetServiceDependencyMatches (S (size catalog)) catalog ∅ target root.

Definition firewallTargetsReferenceService (roots : list string) (catalog : Catalog) (target : string) : bool :=
  existsb (fun root => dependency_matches catalog target (TrimSpace (ToLower root))) roots.

Definition firewallSelectorSetReferencesService (selectors : FirewallSelectorSet) (catalog : Catalog) (target : string) : bool :=
  firewallTargetsReferenceService (FirewallSelectorSet.Services selectors) catalog target.

Definition activeFirewallReferencesService (settings : FirewallSettings) (target : string) (catalog : Catalog) : bool :=
  let mode := CanonicalFirewallMode settings in
  if bool_decide (mode = FirewallModeTargets)
  then firewallSelectorSetReferencesService (FirewallSettings.Targets settings) catalog target
  else if bool_decide (mode = FirewallModeSplit)
  then firewallSelectorSetReferencesService (FirewallSplitSettings.Proxy (FirewallSettings.Split settings)) catalog target
       || firewallSelectorSetReferencesService (FirewallSplitSettings.Bypass (FirewallSettings.Split settings)) catalog target
  else false.

Fixpoint first_referrer (names : list string) (catalog : Catalog) (target : string) : option string :=
  match names with
  | [] => None
  | name :: rest =>
    let name := TrimSpace (ToLower name) in
    if bool_decide (name = target) then first_referrer rest catalog target
    else if dependency_matches catalog target name then Some name
    else first_referrer rest catalog target
  end.

(** [names]: the keys in the order of the loop. *)
Definition findReferencingTargetService (names : list string) (catalog : Catalog) (target : string) : option string :=
  first_referrer names catalog (TrimSpace (ToLower target)).

(** ** Edits *)

Definition targets_draft (targets : FirewallTargets) : FirewallModeDraft :=
  FirewallModeDraft.mk (FirewallTargets.Services targets) (FirewallTargets.CIDRs targets) (FirewallTargets.Domains targets) [].
Definition hosts_draft (sources : list string) : FirewallModeDraft := FirewallModeDraft.mk [] [] [] sources.

Definition with_hosts_draft (draft : FirewallModeDraft) (d : FirewallModeDrafts) : FirewallModeDrafts :=
  FirewallModeDrafts.mk draft (FirewallModeDrafts.Targets d) (FirewallModeDrafts.Split d).
Definition with_targets_draft (draft : FirewallModeDraft) (d : FirewallModeDrafts) : FirewallModeDrafts :=
  FirewallModeDrafts.mk (FirewallModeDrafts.Hosts d) draft (FirewallModeDrafts.Split d).
Definition with_split_draft (draft : FirewallSplitDraft) (d : FirewallModeDrafts) : FirewallModeDrafts :=
  FirewallModeDrafts.mk (FirewallModeDrafts.Hosts d) (FirewallModeDrafts.Targets d) draft.

Definition with_port (port : Z) (firewall : FirewallSettings) : FirewallSettings :=
  if 0 <? port then firewall <| FirewallSettings.TransparentPort := port |> else firewall.

Section Edits.
  Context (error_text : FirewallError -> string) (range_order : Catalog -> list string).

Definition parsed {A} (r : result FirewallError A) : result Fault A :=
  match r with Ok a => Ok a | Err e => Err (fault (error_text e)) end.

Definition edit_mode_draft (mode : string) (selectors : list string) (firewall : FirewallSettings) : result Fault FirewallSettings :=
  let mode := TrimSpace (ToLower mode) in
  if bool_decide (mode = "hosts")
  then let* sources := parsed (ParseFirewallSources selectors) in
       Ok (firewall <| FirewallSettings.ModeDrafts ::= with_hosts_draft (hosts_draft sources) |>)
  else if bool_decide (mode = "targets")
  then let* targets := parsed (ParseFirewallTargets selectors (FirewallSettings.TargetServiceCatalog firewall)) in
       Ok (firewall <| FirewallSettings.ModeDrafts ::= with_targets_draft (targets_draft targets) |>)
  else Err (fault ("unsupported firewall draft mode " +:+ quoted mode)).

Definition edit_split_draft (proxySelectors bypassSelectors excludedSources : list string) (firewall : FirewallSettings)
    : result Fault FirewallSettings :=
  let* proxy := parsed (ParseFirewallTargets proxySelectors (FirewallSettings.TargetServiceCatalog firewall)) in
  let* bypass := parsed (ParseFirewallTargets bypassSelectors (FirewallSettings.TargetServiceCatalog firewall)) in
  let* sources := parsed (ParseFirewallSources excludedSources) in
  Ok (firewall <| FirewallSettings.ModeDrafts ::=
        with_split_draft (FirewallSplitDraft.mk (FirewallSelectorSetFromTargets proxy) (FirewallSelectorSetFromTargets bypass) sources) |>).

Definition edit_cleared_draft (mode : string) (firewall : FirewallSettings) : result Fault FirewallSettings :=
  let mode := TrimSpace (ToLower mode) in
  if bool_decide (mode = "hosts")
  then Ok (firewall <| FirewallSettings.ModeDrafts ::= with_hosts_draft FirewallModeDraft.zero |>)
  else if bool_decide (mode = "targets")
  then Ok (firewall <| FirewallSettings.ModeDrafts ::= with_targets_draft FirewallModeDraft.zero |>)
  else if bool_decide (mode = "split") || bool_decide (mode = "bypass")
  then Ok (firewall <| FirewallSettings.ModeDrafts ::= with_split_draft FirewallSplitDraft.zero |>)
  else Err (fault ("unsupported firewall draft mode " +:+ quoted mode)).

Definition edit_targets (targets : list string) (enabled : bool) (port : Z) (firewall : FirewallSettings) : result Fault FirewallSettings :=
  let* parsedTargets := parsed (ParseFirewallTargets targets (FirewallSettings.TargetServiceCatalog firewall)) in
  Ok (with_port port (firewall
    <| FirewallSettings.Enabled := enabled |>
    <| FirewallSettings.Mode := FirewallModeTargets |>
    <| FirewallSettings.Hosts := [] |>
    <| FirewallSettings.Targets := FirewallSelectorSetFromTargets parsedTargets |>
    <| FirewallSettings.Split := DefaultFirewallSplitSettings |>
    <| FirewallSettings.ModeDrafts ::= with_targets_draft (targets_draft parsedTargets) |>)).

Definition edit_split (proxyTargets bypassTargets excludedSources : list string) (enabled : bool) (port : Z) (defaultAction : string)
    (firewall : FirewallSettings) : result Fault FirewallSettings :=
  let* proxy := parsed (ParseFirewallTargets proxyTargets (FirewallSettings.TargetServiceCatalog firewall)) in
  let* bypass := parsed (ParseFirewallTargets bypassTargets (FirewallSettings.TargetServiceCatalog firewall)) in
  let* sources := parsed (ParseFirewallSources excludedSources) in
  let split := FirewallSplitSettings.mk (FirewallSelectorSetFromTargets proxy) (FirewallSelectorSetFromTargets bypass) sources
                 (NormalizeFirewallDefaultAction defaultAction) in
  Ok (with_port port (firewall
    <| FirewallSettings.Enabled := enabled |>
    <| FirewallSettings.Mode := FirewallModeSplit |>
    <| FirewallSettings.Hosts := [] |>
    <| FirewallSettings.Targets := FirewallSelectorSet.zero |>
    <| FirewallSettings.Split := split |>
    <| FirewallSettings.ModeDrafts ::= with_split_draft
         (FirewallSplitDraft.mk (CloneFirewallSelectorSet (FirewallSplitSettings.Proxy split))
            (CloneFirewallSelectorSet (FirewallSplitSettings.Bypass split)) (FirewallSplitSettings.ExcludedSources split)) |>)).

Definition edit_hosts (sources : list string) (enabled : bool) (port : Z) (firewall : FirewallSettings) : result Fault FirewallSettings :=
  let* parsedSources := parsed (ParseFirewallSources sources) in
  Ok (with_port port (firewall
    <| FirewallSettings.Enabled := enabled |>
    <| FirewallSettings.Mode := FirewallModeHosts |>
    <| FirewallSettings.Hosts := parsedSources |>
    <| FirewallSettings.Targets := FirewallSelectorSet.zero |>
    <| FirewallSettings.Split := DefaultFirewallSplitSettings |>
    <| FirewallSettings.ModeDrafts ::= with_hosts_draft (hosts_draft parsedSources) |>)).

Definition edit_port (port : Z) (firewall : FirewallSettings) : result Fault FirewallSettings :=
  Ok (CanonicalFirewallSettings firewall <| FirewallSettings.TransparentPort := port |>).
Definition edit_block_quic (enabled : bool) (firewall : FirewallSettings) : result Fault FirewallSettings :=
  Ok (CanonicalFirewallSettings firewall <| FirewallSettings.BlockQUIC := enabled |>).
Definition edit_disable_ipv6 (disabled : bool) (firewall : FirewallSettings) : result Fault FirewallSettings :=
  Ok (CanonicalFirewallSettings firewall <| FirewallSettings.DisableIPv6 := disabled |>).
Definition edit_disabled (firewall : FirewallSettings) : result Fault FirewallSettings :=
  Ok (firewall
    <| FirewallSettings.Enabled := false |>
    <| FirewallSettings.Mode := FirewallModeDisabled |>
    <| FirewallSettings.Hosts := [] |>
    <| FirewallSettings.Targets := FirewallSelectorSet.zero |>
    <| FirewallSettings.Split := DefaultFirewallSplitSettings |>).

(** The settings with the service, its name, and whether active rules refer to it. *)
Definition edit_service (name : string) (selectors : list string) (firewall : FirewallSettings)
    : result Fault (FirewallSettings * string * bool) :=
  let catalog := FirewallSettings.TargetServiceCatalog firewall in
  let* (normalizedName, definition) := parsed (ParseFirewallTargetDefinition range_order name selectors catalog) in
  let shouldReapply := FirewallSettings.Enabled firewall
    && (activeFirewallReferencesService firewall name catalog || activeFirewallReferencesService firewall normalizedName catalog) in
  Ok (firewall <| FirewallSettings.TargetServiceCatalog ::= <[normalizedName := definition]> |>, normalizedName, shouldReapply).

(** Why a service is still needed. *)
Definition still_used (firewall : FirewallSettings) (name : string) : option string :=
  let catalog := FirewallSettings.TargetServiceCatalog firewall in
  let refers selectors := firewallSelectorSetReferencesService selectors catalog name in
  let drafts := FirewallSettings.ModeDrafts firewall in
  let service := "target service " +:+ quoted name in
  if refers (FirewallSettings.Targets firewall)
  then Some (service +:+ " is still used by firewall targets; remove it from firewall targets first")
  else if refers (FirewallSplitSettings.Proxy (FirewallSettings.Split firewall)) || refers (FirewallSplitSettings.Bypass (FirewallSettings.Split firewall))
  then Some (service +:+ " is still used by split tunnelling; remove it from split tunnelling first")
  else if firewallTargetsReferenceService (FirewallModeDraft.TargetServices (FirewallModeDrafts.Targets drafts)) catalog name
  then Some (service +:+ " is still referenced by the saved targets draft")
  else if refers (FirewallSplitDraft.Proxy (FirewallModeDrafts.Split drafts)) || refers (FirewallSplitDraft.Bypass (FirewallModeDrafts.Split drafts))
  then Some (service +:+ " is still referenced by the saved split draft")
  else match findReferencingTargetService (range_order catalog) catalog name with
       | Some referrer => Some (service +:+ " is still referenced by target service " +:+ quoted referrer)
       | None => None
       end.

Definition edit_service_deleted (name : string) (firewall : FirewallSettings) : result Fault (FirewallSettings * bool) :=
  let catalog := FirewallSettings.TargetServiceCatalog firewall in
  match LookupFirewallTargetService catalog name with
  | None => Err (fault ("target service " +:+ quoted name +:+ " not found"))
  | Some entry =>
    let entryName := FirewallTargetService.Name entry in
    if FirewallTargetService.ReadOnly entry
    then Err (fault ("target service " +:+ quoted entryName +:+ " is readonly and cannot be deleted"))
    else match still_used firewall entryName with
         | Some e => Err (fault e)
         | None =>
           Ok (firewall <| FirewallSettings.TargetServiceCatalog ::= delete entryName |>,
               FirewallSettings.Enabled firewall && activeFirewallReferencesService firewall entryName catalog)
         end
  end.

End Edits.

(** ** Handlers *)

Section Service.
  Context `{ManagedBackend W, Router W, Runtime W, AutoRuntime W, ProfileStore W, AWGController W, InterfaceBackend W}.
  Context `{ZapretObserver W, FirewallControl W}.
  Context (rfc3339 : Time -> string) (url_host : string -> option (string * string)).
  Context (digest : StablePayload -> string) (profile_error_text : ProfileError -> string).
  Context (error_text : FirewallError -> string) (range_order : Catalog -> list string).

Abbreviation App := (Prog W Fault).
Abbreviation reapply := (reapplyCurrentConnectionWithReload rfc3339 url_host digest profile_error_text).

Definition validateFirewall (firewall : FirewallSettings) : App unit :=
  act fault (firewall_validate (CanonicalFirewallSettings firewall)).

Definition save_settings_as (settings : Settings) : App unit := act (wrap "save settings") (store_settings settings).

(** Load, edit, check and store; the result of the edit besides the settings is
    handed on. *)
Definition change_firewall {A} (check : FirewallSettings -> App unit) (edit : FirewallSettings -> result Fault (FirewallSettings * A))
    : App (FirewallSettings * A) :=
  settings ← load_settings_as "load settings";
  edited ← of_result (edit (Settings.Firewall settings));
  _ ← check edited.1;
  _ ← save_settings_as (settings <| Settings.Firewall := edited.1 |>);
  mret edited.

Definition edit_only (edit : FirewallSettings -> result Fault FirewallSettings) (firewall : FirewallSettings)
    : result Fault (FirewallSettings * unit) :=
  let* edited := edit firewall in Ok (edited, tt).

Definition unchecked (firewall : FirewallSettings) : App unit := mret tt.

(** Drafts are stored without a check, and nothing is applied. *)
Definition store_draft (edit : FirewallSettings -> result Fault FirewallSettings) : App FirewallSettings :=
  edited ← change_firewall unchecked (edit_only edit);
  mret edited.1.

Definition store_and_apply (check : FirewallSettings -> App unit) (edit : FirewallSettings -> result Fault FirewallSettings)
    : App FirewallSettings :=
  edited ← change_firewall check (edit_only edit);
  _ ← reapply;
  mret edited.1.

Definition updateFirewallModeDraft (mode : string) (selectors : list string) : App FirewallSettings :=
  store_draft (edit_mode_draft error_text mode selectors).
Definition updateFirewallSplitDraft (proxySelectors bypassSelectors excludedSources : list string) : App FirewallSettings :=
  store_draft (edit_split_draft error_text proxySelectors bypassSelectors excludedSources).
Definition UpdateFirewallBypassDraft (bypassSelectors excludedSources : list string) : App FirewallSettings :=
  updateFirewallSplitDraft [] bypassSelectors excludedSources.
Definition clearFirewallModeDraft (mode : string) : App FirewallSettings := store_draft (edit_cleared_draft mode).

Definition configureFirewallTargets (targets : list string) (enabled : bool) (port : Z) : App FirewallSettings :=
  store_and_apply validateFirewall (edit_targets error_text targets enabled port).
Definition configureFirewallSplit (proxyTargets bypassTargets excludedSources : list string) (enabled : bool) (port : Z)
    (defaultAction : string) : App FirewallSettings :=
  store_and_apply validateFirewall (edit_split error_text proxyTargets bypassTargets excludedSources enabled port defaultAction).
Definition ConfigureFirewallBypass (targets excludedSources : list string) (enabled : bool) (port : Z) : App FirewallSettings :=
  configureFirewallSplit [] targets excludedSources enabled port FirewallDefaultActionProxy.
Definition ConfigureFirewallAntiTargets (targets : list string) (enabled : bool) (port : Z) : App FirewallSettings :=
  ConfigureFirewallBypass targets [] enabled port.
Definition ConfigureFirewallSplit (proxyTargets bypassTargets excludedSources : list string) (enabled : bool) (port : Z)
    : App FirewallSettings :=
  configureFirewallSplit proxyTargets bypassTargets excludedSources enabled port FirewallDefaultActionDirect.
Definition configureFirewallHosts (sources : list string) (enabled : bool) (port : Z) : App FirewallSettings :=
  store_and_apply validateFirewall (edit_hosts error_text sources enabled port).
Definition updateFirewallPort (port : Z) : App FirewallSettings :=
  if port <=? 0 then raise (fault "transparent port must be greater than zero")
  else store_and_apply validateFirewall (edit_port port).
Definition updateFirewallBlockQUIC (enabled : bool) : App FirewallSettings :=
  store_and_apply validateFirewall (edit_block_quic enabled).
Definition disableFirewall : App FirewallSettings := store_and_apply unchecked edit_disabled.

Definition updateFirewallDisableIPv6 (disabled : bool) : App FirewallSettings :=
  edited ← change_firewall unchecked (edit_only (edit_disable_ipv6 disabled));
  _ ← act (wrap "apply ipv6 setting") (ipv6_switch disabled);
  mret edited.1.

Definition setFirewallTargetService (name : string) (selectors : list string) : App FirewallTargetService :=
  edited ← change_firewall validateFirewall (fun firewall =>
    let* (firewall, normalizedName, shouldReapply) := edit_service error_text range_order name selectors firewall in
    Ok (firewall, (normalizedName, shouldReapply)));
  let '(firewall, (normalizedName, shouldReapply)) := edited in
  _ ← when shouldReapply reapply;
  match LookupFirewallTargetService (FirewallSettings.TargetServiceCatalog firewall) normalizedName with
  | Some entry => mret entry
  | None => raise (fault ("target service " +:+ quoted normalizedName +:+ " not found after save"))
  end.

Definition deleteFirewallTargetService (name : string) : App unit :=
  edited ← change_firewall validateFirewall (edit_service_deleted range_order name);
  when edited.2 reapply.

(** ** Readings *)

Definition GetFirewallSettings : App FirewallSettings :=
  settings ← load_settings_as "load settings"; mret (CanonicalFirewallSettings (Settings.Firewall settings)).

Definition ListFirewallTargetServices : App (list FirewallTargetService) :=
  settings ← load_settings_as "load settings";
  mret (FirewallTargetServices (FirewallSettings.TargetServiceCatalog (Settings.Firewall settings))).

Definition GetFirewallTargetService (name : string) : App FirewallTargetService :=
  settings ← load_settings_as "load settings";
  match LookupFirewallTargetService (FirewallSettings.TargetServiceCatalog (Settings.Firewall settings)) name with
  | Some entry => mret entry
  | None => raise (fault ("target service " +:+ quoted name +:+ " not found"))
  end.

End Service.
