(* ===== verification/FirewallServiceFacts.v ===== *)
(** * Changing the firewall: theorems

    The search for references is reachability, whatever the catalog; no change of
    the firewall leaves a reference to a service that is not known; and what a
    handler stores was checked before. *)
From S2P Require Import Prelude GoRunes GoStrings GoNum NetIP Domain Firewall FirewallFacts.
From S2P Require Import FirewallGraph FirewallSettings.
From S2P Require Import Zapret Settings Connection Probe Migrations PersistFacts AmneziaProfile.

From S2P Require Import AmneziaRuntime ManagedBackend.
From S2P Require Import ManagedSwitch Effects NodeSelection ReserveRound AutoCommit Failover.
From S2P Require Import AmneziaService Reapply FirewallService.

Local Open Scope Z_scope.
Local Open Scope list_scope.

(** ** References *)

Section References.
  Context (catalog : Catalog).

(** A definition names a service, in any spelling. *)
Definition names_service (a b : string) : Prop :=
  exists d dep, catalog !! a = Some d /\ dep ∈ FirewallTargetDefinition.Services d /\ TrimSpace (ToLower dep) = b.

(** A chain of references that does not touch [X]. *)
Inductive avoiding (X : gset string) : string -> string -> Prop :=
| avoiding_refl a : avoiding X a a
| avoiding_step a b c : a ∉ X -> names_service a b -> avoiding X b c -> avoiding X a c.

Lemma avoiding_rtc X a c : avoiding X a c -> rtc names_service a c.
Proof. induction 1; [apply rtc_refl|by eapply rtc_l]. Qed.

Lemma rtc_avoiding a c : rtc names_service a c -> avoiding ∅ a c.
Proof. induction 1; [apply avoiding_refl|]. by eapply avoiding_step; [apply not_elem_of_empty| |]. Qed.

(** A chain avoids [a], or what follows its last [a] does. *)
Lemma avoiding_more X a b c : avoiding X b c ->
  avoiding ({[a]} ∪ X) b c \/ c = a \/ exists b', names_service a b' /\ avoiding ({[a]} ∪ X) b' c.
Proof.
  induction 1 as [b|b b' c Hb Hn Hc IH]; [left; apply avoiding_refl|].
  destruct IH as [IH|[IH|IH]]; [|by right; left|by right; right].
  destruct (decide (b = a)) as [->|Hne]; [by right; right; exists b'|]. left.
  eapply avoiding_step; [|exact Hn|exact IH]. rewrite not_elem_of_union, not_elem_of_singleton. done.
Qed.

Lemma avoiding_first X a c : avoiding X a c -> a <> c ->
  a ∉ X /\ exists b, names_service a b /\ avoiding ({[a]} ∪ X) b c.
Proof.
  intros H Hne. inversion H as [|? b ? Ha Hn Hb]; subst; [done|]. split; [done|].
  destruct (avoiding_more X a b c Hb) as [IH|[IH|IH]]; [by exists b|congruence|done].
Qed.

Lemma search_sound fuel : forall visiting target root,
  targetServiceDependencyMatches fuel catalog visiting target root = true -> rtc names_service root target.
Proof.
  induction fuel as [|fuel IH]; intros visiting target root; cbn [targetServiceDependencyMatches];
    case_bool_decide as Ht; cbn [orb]; try (subst; intros _; apply rtc_refl); [done|].
  case_bool_decide; [done|]. destruct (catalog !! root) as [d|] eqn:Ed; [|done].
  intros (dep & Hin & Hd)%existsb_exists. apply list_elem_of_In in Hin.
  apply rtc_l with (TrimSpace (ToLower dep)); [by exists d, dep|].
  case_bool_decide as Hdt; [subst target; apply rtc_refl|by apply IH in Hd].
Qed.

Lemma search_complete fuel : forall visiting target root,
  (size (dom catalog ∖ visiting) < fuel)%nat -> avoiding visiting root target ->
  targetServiceDependencyMatches fuel catalog visiting target root = true.
Proof.
  induction fuel as [|fuel IH]; intros visiting target root Hf Hp; [lia|]. cbn [targetServiceDependencyMatches].
  case_bool_decide as Ht; [done|]. cbn [orb].
  apply avoiding_first in Hp as (Hv & b & (d & dep & Hd & Hin & Hb) & Hp); [|done].
  rewrite bool_decide_eq_false_2, Hd by done. apply existsb_exists. exists dep. split; [by apply list_elem_of_In|].
  rewrite Hb, (IH _ _ _) by (done || pose proof (visiting_grows _ _ _ (elem_of_dom_2 _ _ _ Hd) Hv); lia). apply orb_true_r.
Qed.

(** The search for references is reachability: its fuel is enough for every
    catalog, cyclic ones included. *)
Lemma dependency_matches_spec target root : dependency_matches catalog target root = true <-> rtc names_service root target.
Proof.
  split; [apply search_sound|]. intros Hp%rtc_avoiding. apply search_complete; [|done].
  rewrite difference_empty_L. pose proof (size_dom catalog) as Hs. change (size (dom catalog)) with (size (dom (D := gset string) catalog)) in Hs |- *. lia.
Qed.

Lemma references_spec roots target :
  firewallTargetsReferenceService roots catalog target = true <->
  exists root, root ∈ roots /\ rtc names_service (TrimSpace (ToLower root)) target.
Proof.
  unfold firewallTargetsReferenceService. rewrite existsb_exists. setoid_rewrite dependency_matches_spec.
  by setoid_rewrite list_elem_of_In.
Qed.

Lemma no_referrer names target :
  first_referrer names catalog target = None <->
  forall name, name ∈ names -> TrimSpace (ToLower name) <> target -> ~ rtc names_service (TrimSpace (ToLower name)) target.
Proof.
  induction names as [|n names IH]; cbn [first_referrer]; [by split; [intros _ ? ?%elem_of_nil|]|]. cbv zeta.
  setoid_rewrite elem_of_cons. case_bool_decide as Hn.
  - rewrite IH. split; [intros Hr name [->|Hin]; [done|by apply Hr]|intros Hr name Hin; apply Hr; by right].
  - destruct (dependency_matches catalog target _) eqn:E.
    + split; [done|]. intros Hr. destruct (Hr n (or_introl eq_refl) Hn). by apply dependency_matches_spec.
    + rewrite IH. split; [|intros Hr name Hin; apply Hr; by right]. intros Hr name [->|Hin]; [|by apply Hr].
      intros _ Hp%dependency_matches_spec. congruence.
Qed.

End References.

(** ** Known services *)

Definition known (catalog : Catalog) (s : string) : Prop :=
  valid_alias s /\ (is_Some (firewallTargetServicePresets !! s) \/ is_Some (catalog !! s)).

(** Every service that the settings, active or drafted, refer to. *)
Definition referenced (f : FirewallSettings) : list string :=
  FirewallSelectorSet.Services (FirewallSettings.Targets f)
  ++ FirewallSelectorSet.Services (FirewallSplitSettings.Proxy (FirewallSettings.Split f))
  ++ FirewallSelectorSet.Services (FirewallSplitSettings.Bypass (FirewallSettings.Split f))
  ++ FirewallModeDraft.TargetServices (FirewallModeDrafts.Targets (FirewallSettings.ModeDrafts f))
  ++ FirewallSelectorSet.Services (FirewallSplitDraft.Proxy (FirewallModeDrafts.Split (FirewallSettings.ModeDrafts f)))
  ++ FirewallSelectorSet.Services (FirewallSplitDraft.Bypass (FirewallModeDrafts.Split (FirewallSettings.ModeDrafts f))).

Record references_known (f : FirewallSettings) : Prop := {
  known_names : forall n, is_Some (FirewallSettings.TargetServiceCatalog f !! n) ->
    valid_alias n /\ firewallTargetServicePresets !! n = None;
  known_selectors : Forall (known (FirewallSettings.TargetServiceCatalog f)) (referenced f);
  known_definitions : forall n d, FirewallSettings.TargetServiceCatalog f !! n = Some d ->
    Forall (known (FirewallSettings.TargetServiceCatalog f)) (FirewallTargetDefinition.Services d)
}.

Lemma preset_names n : is_Some (firewallTargetServicePresets !! n) -> valid_alias n.
Proof.
  assert (Hall : map_Forall (fun k _ => normalizeFirewallTargetAlias k = Ok k) firewallTargetServicePresets)
    by (apply (bool_decide_unpack _); vm_compute; exact I).
  intros [d Hd]. exact (Hall n d Hd).
Qed.

Lemma valid_alias_canonical n : valid_alias n -> canonicalFirewallTargetAlias n = n /\ TrimSpace (ToLower n) = n /\ n <> "".
Proof.
  intros H. destruct (normalizeFirewallTargetAlias_valid n n H) as (Hc & _ & Hne & Hb). split; [done|]. split; [|done].
  assert (Hp : all_bytes plain_byte n = true).
  { eapply all_bytes_impl; [|exact Hb]. intros b Hbb. apply domain_byte_plain. unfold domain_byte, domain_rune. unfold alias_byte in Hbb. by rewrite Hbb. }
  by rewrite (plain_ToLower n Hp), (alias_visible n Hb).
Qed.

Lemma known_canonical catalog s : known catalog s -> canonicalFirewallTargetAlias s = s /\ TrimSpace (ToLower s) = s /\ s <> "".
Proof. intros [Hv _]. by apply valid_alias_canonical. Qed.

Lemma registry_known catalog s :
  (forall n, is_Some (catalog !! n) -> valid_alias n /\ firewallTargetServicePresets !! n = None) ->
  is_Some (mergeFirewallTargetRegistry catalog !! s) -> known catalog s.
Proof.
  intros Hn [d Hd]. apply lookup_union_Some_raw in Hd as [Hd|[_ Hd]]; rewrite lookup_fmap in Hd;
    apply fmap_Some in Hd as (d' & Hd & _); (split; [|by eauto]).
  - apply preset_names. by eexists.
  - apply Hn. by eexists.
Qed.

Lemma targets_known f targets t :
  references_known f -> ParseFirewallTargets targets (FirewallSettings.TargetServiceCatalog f) = Ok t ->
  Forall (known (FirewallSettings.TargetServiceCatalog f)) (FirewallTargets.Services t).
Proof.
  intros Hk H. assert (Hok : targets_ok (mergeFirewallTargetRegistry (FirewallSettings.TargetServiceCatalog f)) t).
  { eapply (fold_result_inv _ (targets_ok _)); [apply targets_ok_zero| |exact H]. intros; by eapply parse_target_ok. }
  destruct Hok as ((_ & Hs) & _). apply Forall_forall. intros s Hin. apply registry_known; [apply Hk|]. by apply Hs.
Qed.

Lemma canonical_known catalog l : Forall (known catalog) l -> Forall (known catalog) (canonicalFirewallTargetServices l).
Proof.
  rewrite !Forall_forall. intros Hl s Hs. destruct (canonicalFirewallTargetServices_spec l) as (_ & Hspec & _).
  apply Hspec in Hs as (_ & v & Hv & <-). pose proof (Hl v Hv) as Hk. by rewrite (proj1 (known_canonical _ _ Hk)).
Qed.

Lemma known_more catalog n d s : known catalog s -> known (<[n := d]> catalog) s.
Proof. intros [Hv [Hp|Hc]]; split; [done|by left|done|right]. destruct (decide (n = s)) as [->|Hne]; [rewrite lookup_insert_eq; eauto|by rewrite lookup_insert_ne]. Qed.

Lemma known_less catalog n s : known catalog s -> s <> n -> known (delete n catalog) s.
Proof. intros [Hv [Hp|Hc]] Hne; split; [done|by left|done|right]. by rewrite lookup_delete_ne. Qed.

(** The selectors of the settings, one list after the other. *)
Lemma referenced_known catalog f : Forall (known catalog) (referenced f) <->
  Forall (known catalog) (FirewallSelectorSet.Services (FirewallSettings.Targets f)) /\
  Forall (known catalog) (FirewallSelectorSet.Services (FirewallSplitSettings.Proxy (FirewallSettings.Split f))) /\
  Forall (known catalog) (FirewallSelectorSet.Services (FirewallSplitSettings.Bypass (FirewallSettings.Split f))) /\
  Forall (known catalog) (FirewallModeDraft.TargetServices (FirewallModeDrafts.Targets (FirewallSettings.ModeDrafts f))) /\
  Forall (known catalog) (FirewallSelectorSet.Services (FirewallSplitDraft.Proxy (FirewallModeDrafts.Split (FirewallSettings.ModeDrafts f)))) /\
  Forall (known catalog) (FirewallSelectorSet.Services (FirewallSplitDraft.Bypass (FirewallModeDrafts.Split (FirewallSettings.ModeDrafts f)))).
Proof. unfold referenced. by rewrite !Forall_app. Qed.

(** Another policy over the same catalog. *)
Lemma same_catalog f f' : references_known f -> FirewallSettings.TargetServiceCatalog f' = FirewallSettings.TargetServiceCatalog f ->
  Forall (known (FirewallSettings.TargetServiceCatalog f)) (referenced f') -> references_known f'.
Proof. intros [H1 H2 H3] E Hr. by split; rewrite E. Qed.

Ltac same_policy Hk :=
  apply (same_catalog _ _ Hk); [reflexivity|]; apply referenced_known; destruct (proj1 (referenced_known _ _) (known_selectors _ Hk)) as (? & ? & ? & ? & ? & ?);
  split_and!; try assumption; try apply Forall_nil_2; try (by eapply targets_known); try (by eapply canonical_known, targets_known); try by apply canonical_known.

Section Edits.
  Context (error_text : FirewallError -> string) (range_order : Catalog -> list string).

Lemma parsed_ok {A} (r : result FirewallError A) a : parsed error_text r = Ok a -> r = Ok a.
Proof. destruct r; [|done]. by intros [= ->]. Qed.

Lemma port_known port f : references_known f -> references_known (with_port port f).
Proof. intros Hk. unfold with_port. destruct (0 <? port); [|done]. same_policy Hk. Qed.

Lemma mode_draft_known mode selectors f f' : edit_mode_draft error_text mode selectors f = Ok f' -> references_known f -> references_known f'.
Proof.
  unfold edit_mode_draft. cbv zeta. case_bool_decide; [|case_bool_decide; [|done]]; intros (a & Ha%parsed_ok & [= <-])%result_bind_ok Hk; same_policy Hk.
Qed.

Lemma split_draft_known p b e f f' : edit_split_draft error_text p b e f = Ok f' -> references_known f -> references_known f'.
Proof.
  unfold edit_split_draft. intros (tp & Hp%parsed_ok & H)%result_bind_ok Hk. apply result_bind_ok in H as (tb & Hb%parsed_ok & H).
  apply result_bind_ok in H as (ts & _ & [= <-]). same_policy Hk.
Qed.

Lemma cleared_draft_known mode f f' : edit_cleared_draft mode f = Ok f' -> references_known f -> references_known f'.
Proof. unfold edit_cleared_draft. cbv zeta. repeat case_match; try done; intros [= <-] Hk; same_policy Hk. Qed.

Lemma targets_edit_known targets enabled port f f' : edit_targets error_text targets enabled port f = Ok f' -> references_known f -> references_known f'.
Proof. unfold edit_targets. intros (a & Ha%parsed_ok & [= <-])%result_bind_ok Hk. apply port_known. same_policy Hk. Qed.

Lemma split_edit_known p b e enabled port action f f' :
  edit_split error_text p b e enabled port action f = Ok f' -> references_known f -> references_known f'.
Proof.
  unfold edit_split. intros (tp & Hp%parsed_ok & H)%result_bind_ok Hk. apply result_bind_ok in H as (tb & Hb%parsed_ok & H).
  apply result_bind_ok in H as (ts & _ & [= <-]). apply port_known. same_policy Hk.
Qed.

Lemma hosts_edit_known sources enabled port f f' : edit_hosts error_text sources enabled port f = Ok f' -> references_known f -> references_known f'.
Proof. unfold edit_hosts. intros (a & _ & [= <-])%result_bind_ok Hk. apply port_known. same_policy Hk. Qed.

Lemma canonical_settings_known f : references_known f -> references_known (CanonicalFirewallSettings f).
Proof.
  intros Hk. assert (E : FirewallSettings.TargetServiceCatalog (CanonicalFirewallSettings f) = FirewallSettings.TargetServiceCatalog f)
    by apply CloneFirewallTargetCatalog_id.
  apply (same_catalog _ _ Hk E), referenced_known. destruct (proj1 (referenced_known _ _) (known_selectors _ Hk)) as (? & ? & ? & ? & ? & ?).
  split_and!; by apply canonical_known.
Qed.

Lemma flag_known f f' : references_known f -> FirewallSettings.TargetServiceCatalog f' = FirewallSettings.TargetServiceCatalog f ->
  referenced f' = referenced f -> references_known f'.
Proof. intros Hk E Er. apply (same_catalog _ _ Hk E). rewrite Er. apply Hk. Qed.

Lemma disabled_known f f' : edit_disabled f = Ok f' -> references_known f -> references_known f'.
Proof. intros [= <-] Hk. same_policy Hk. Qed.

(** ** Services *)

Lemma service_known name selectors f f' n b :
  (forall c : Catalog, range_order c ≡ₚ (map_to_list c).*1) ->
  edit_service error_text range_order name selectors f = Ok (f', n, b) -> references_known f -> references_known f'.
Proof.
  intros Horder. unfold edit_service. cbv zeta. intros ([m d] & Hp%parsed_ok & H)%result_bind_ok [K1 K2 K3]. injection H as <- <- <-.
  apply ParseFirewallTargetDefinition_sound in Hp as (Hv & Hb & ((_ & Hs) & _) & _ & _ & _); [|done].
  assert (Hm : firewallTargetServicePresets !! m = None).
  { unfold isBuiltinFirewallTargetService in Hb. rewrite (proj1 (valid_alias_canonical m Hv)) in Hb. apply bool_decide_eq_false in Hb.
    by apply eq_None_not_Some. }
  assert (Hd : Forall (known (FirewallSettings.TargetServiceCatalog f)) (FirewallTargetDefinition.Services d))
    by (apply Forall_forall; intros s Hin; apply registry_known; [done|by apply Hs]).
  assert (Hmore : forall l, Forall (known (FirewallSettings.TargetServiceCatalog f)) l ->
    Forall (known (<[m := d]> (FirewallSettings.TargetServiceCatalog f))) l)
    by (intros l Hl; eapply Forall_impl; [exact Hl|intros; by apply known_more]).
  match goal with |- references_known ?g => assert (E : FirewallSettings.TargetServiceCatalog g = <[m := d]> (FirewallSettings.TargetServiceCatalog f)) by reflexivity;
    assert (Er : referenced g = referenced f) by reflexivity; revert E Er; generalize g end. intros g E Er.
  split; rewrite E.
  - intros k [d' Hd']. destruct (decide (m = k)) as [<-|Hne]; [by split|]. rewrite lookup_insert_ne in Hd' by done. apply K1. by eexists.
  - rewrite Er. by apply Hmore.
  - intros k d' Hk. destruct (decide (m = k)) as [<-|Hne]; [rewrite lookup_insert_eq in Hk; injection Hk as <-; by apply Hmore|].
    rewrite lookup_insert_ne in Hk by done. by eapply Hmore, K3.
Qed.

(** A service is deleted when nothing reaches it. *)
Lemma unused f name :
  references_known f -> (forall c : Catalog, range_order c ≡ₚ (map_to_list c).*1) -> valid_alias name ->
  still_used range_order f name = None ->
  Forall (fun s => s <> name) (referenced f) /\
  forall n d, FirewallSettings.TargetServiceCatalog f !! n = Some d -> n <> name -> name ∉ FirewallTargetDefinition.Services d.
Proof.
  intros Hk Horder Hv. unfold still_used. cbv zeta.
  assert (Hlist : forall roots, Forall (known (FirewallSettings.TargetServiceCatalog f)) roots ->
    firewallTargetsReferenceService roots (FirewallSettings.TargetServiceCatalog f) name = false -> Forall (fun s => s <> name) roots).
  { intros roots Hr Hf. apply Forall_forall. intros s Hs ->. rewrite Forall_forall in Hr. destruct (known_canonical _ _ (Hr _ Hs)) as (_ & Hn & _).
    enough (Ht : firewallTargetsReferenceService roots (FirewallSettings.TargetServiceCatalog f) name = true) by congruence.
    apply references_spec. exists name. split; [done|]. rewrite Hn. apply rtc_refl. }
  pose proof (proj1 (referenced_known _ _) (known_selectors _ Hk)) as (R1 & R2 & R3 & R4 & R5 & R6).
  unfold firewallSelectorSetReferencesService.
  destruct (firewallTargetsReferenceService (FirewallSelectorSet.Services (FirewallSettings.Targets f)) _ _) eqn:E1; [done|].
  destruct (_ || _) eqn:E2; [done|]. apply orb_false_iff in E2 as [E2 E3].
  destruct (firewallTargetsReferenceService (FirewallModeDraft.TargetServices _) _ _) eqn:E4; [done|].
  destruct (firewallTargetsReferenceService _ _ _ || _) eqn:E5 in |- *; [done|]. apply orb_false_iff in E5 as [E5 E6].
  destruct (findReferencingTargetService _ _ _) eqn:E7; [done|]. intros _. split.
  - unfold referenced. rewrite !Forall_app. split_and!; by apply Hlist.
  - intros n d Hd Hne Hin. unfold findReferencingTargetService in E7. destruct (valid_alias_canonical _ Hv) as (_ & Hn & _). rewrite Hn in E7.
    destruct (known_names _ Hk n (mk_is_Some _ _ Hd)) as [Hvn _]. destruct (valid_alias_canonical _ Hvn) as (_ & Hnn & _).
    apply (proj1 (no_referrer _ _ _) E7 n); [|by rewrite Hnn|].
    + rewrite Horder, list_elem_of_fmap. exists (n, d). split; [done|]. by apply elem_of_map_to_list.
    + rewrite Hnn. apply rtc_once. by exists d, name.
Qed.

(** No chain of references from a selector, a draft or another service ends at
    the service. *)
Definition unneeded (f : FirewallSettings) (name : string) : Prop :=
  let catalog := FirewallSettings.TargetServiceCatalog f in
  (forall s, s ∈ referenced f -> ~ rtc (names_service catalog) (TrimSpace (ToLower s)) name) /\
  forall n, is_Some (catalog !! n) -> TrimSpace (ToLower n) <> name -> ~ rtc (names_service catalog) (TrimSpace (ToLower n)) name.

Lemma still_used_spec f name :
  (forall c : Catalog, range_order c ≡ₚ (map_to_list c).*1) -> valid_alias name ->
  still_used range_order f name = None <-> unneeded f name.
Proof.
  intros Horder Hv. unfold still_used, unneeded, firewallSelectorSetReferencesService. cbv zeta.
  set (catalog := FirewallSettings.TargetServiceCatalog f).
  assert (Hlist : forall roots, firewallTargetsReferenceService roots catalog name = false <->
    Forall (fun s => ~ rtc (names_service catalog) (TrimSpace (ToLower s)) name) roots).
  { intros roots. rewrite Forall_forall, <- not_true_iff_false, references_spec. naive_solver. }
  assert (Hdefs : findReferencingTargetService (range_order catalog) catalog name = None <->
    forall n, is_Some (catalog !! n) -> TrimSpace (ToLower n) <> name -> ~ rtc (names_service catalog) (TrimSpace (ToLower n)) name).
  { unfold findReferencingTargetService. destruct (valid_alias_canonical _ Hv) as (_ & -> & _). rewrite no_referrer.
    assert (Hin : forall n, n ∈ range_order catalog <-> is_Some (catalog !! n)).
    { intros n. rewrite Horder, list_elem_of_fmap. split.
      - intros ([k d] & -> & Hk). apply elem_of_map_to_list in Hk. by eexists.
      - intros [d Hd]. exists (n, d). split; [done|]. by apply elem_of_map_to_list. }
    by setoid_rewrite Hin. }
  rewrite <- Hdefs, <- Forall_forall. unfold referenced. rewrite !Forall_app, <- !Hlist.
  destruct (firewallTargetsReferenceService (FirewallSelectorSet.Services (FirewallSettings.Targets f)) _ _); [naive_solver|].
  destruct (firewallTargetsReferenceService (FirewallSelectorSet.Services (FirewallSplitSettings.Proxy (FirewallSettings.Split f))) _ _); [naive_solver|].
  destruct (firewallTargetsReferenceService (FirewallSelectorSet.Services (FirewallSplitSettings.Bypass (FirewallSettings.Split f))) _ _); [naive_solver|].
  destruct (firewallTargetsReferenceService (FirewallModeDraft.TargetServices _) _ _); [naive_solver|].
  destruct (firewallTargetsReferenceService (FirewallSelectorSet.Services (FirewallSplitDraft.Proxy _)) _ _); [naive_solver|].
  destruct (firewallTargetsReferenceService (FirewallSelectorSet.Services (FirewallSplitDraft.Bypass _)) _ _); [naive_solver|].
  cbn [orb]. destruct (findReferencingTargetService _ _ _); naive_solver.
Qed.

Lemma deleted_known name f f' b :
  (forall c : Catalog, range_order c ≡ₚ (map_to_list c).*1) ->
  edit_service_deleted range_order name f = Ok (f', b) -> references_known f -> references_known f'.
Proof.
  intros Horder. unfold edit_service_deleted, LookupFirewallTargetService. cbv zeta.
  destruct (normalizeFirewallTargetAlias name) as [n|] eqn:En; [|done]. apply normalizeFirewallTargetAlias_valid in En as (_ & Hv & _).
  destruct (firewallTargetServicePresets !! n) as [d|] eqn:Ep; [done|].
  destruct (FirewallSettings.TargetServiceCatalog f !! n) as [d|] eqn:Ed; [|done]. cbn [fmap option_fmap option_map].
  cbn [service_entry FirewallTargetService.Name FirewallTargetService.ReadOnly].
  destruct (still_used _ f n) eqn:Eu; [done|]. intros [= <- _] Hk. destruct (unused _ _ Hk Horder Hv Eu) as [Hsel Hdef]. destruct Hk as [K1 K2 K3].
  assert (Hless : forall l, Forall (known (FirewallSettings.TargetServiceCatalog f)) l -> Forall (fun s => s <> n) l ->
    Forall (known (delete n (FirewallSettings.TargetServiceCatalog f))) l).
  { intros l Hl Hn. rewrite !Forall_forall in *. intros s Hs. apply known_less; auto. }
  match goal with |- references_known ?g => assert (E : FirewallSettings.TargetServiceCatalog g = delete n (FirewallSettings.TargetServiceCatalog f)) by reflexivity;
    assert (Er : referenced g = referenced f) by reflexivity; revert E Er; generalize g end. intros g E Er.
  split; rewrite E.
  - intros k [d' Hd']. apply lookup_delete_Some in Hd' as [_ Hd']. apply K1. by eexists.
  - rewrite Er. by apply Hless.
  - intros k d' Hd'. apply lookup_delete_Some in Hd' as [Hne Hd']. apply Hless; [by eapply K3|].
    apply Forall_forall. intros s Hs ->. by eapply Hdef.
Qed.

End Edits.
