(* ===== verification/FirewallRuns.v ===== *)
(** * The firewall handlers: what they leave

    What a handler returns is what the settings file holds afterwards; whatever is
    asked, in whatever order and with whatever outcome, no reference to a service
    is left without the service; deleting a service does not look at zapret. *)
From S2P Require Import Prelude GoRunes GoStrings GoNum NetIP Domain Firewall FirewallFacts.
From S2P Require Import FirewallGraph FirewallSettings.
From S2P Require Import Zapret Settings Connection Migrations PersistFacts Probe.

From S2P Require Import AutoState AutoSelect AutoSelectFacts Reserves XrayConfig XrayFacts.
From S2P Require Import BackendRequest AmneziaProfile AmneziaRuntime.
From S2P Require Import ManagedBackend Scheduler ManagedSwitch ManagedSwitchFacts Effects.
From S2P Require Import MemoryWorld NodeSelection NodeSelectionFacts.
From S2P Require Import ReserveRound ReserveRoundFacts AutoCommit Failover FailoverFacts Connect.
From S2P Require Import AmneziaService AmneziaServiceFacts.
From S2P Require Import Reapply SettingsKept FirewallService.

From S2P Require Import FirewallServiceFacts.

Local Open Scope Z_scope.
Local Open Scope list_scope.

(** Checking the firewall and switching IPv6 do not write the settings. *)
Class FirewallControlLaws (W : Type) `{Runtime W, FirewallControl W} : Prop := {
  silent_validate f : silent (firewall_validate f);
  silent_switch_ipv6 b : silent (ipv6_switch b)
}.

(** A request to one of the handlers that change the firewall. *)
Inductive FirewallChange : Type :=
| ModeDraft (mode : string) (selectors : list string)
| SplitDraft (proxy bypass excluded : list string)
| ClearDraft (mode : string)
| Targets (targets : list string) (enabled : bool) (port : Z)
| Split (proxy bypass excluded : list string) (enabled : bool) (port : Z) (action : string)
| Hosts (sources : list string) (enabled : bool) (port : Z)
| Port (port : Z)
| BlockQUIC (enabled : bool)
| DisableIPv6 (disabled : bool)
| Disabled
| SetService (name : string) (selectors : list string)
| DeleteService (name : string).

Section Runs.
  Context (error_text : FirewallError -> string) (range_order : Catalog -> list string).

(** The edit of a request, as the handlers make it. *)
Definition requested (c : FirewallChange) (f : FirewallSettings) : result Fault FirewallSettings :=
  match c with
  | ModeDraft mode selectors => edit_mode_draft error_text mode selectors f
  | SplitDraft proxy bypass excluded => edit_split_draft error_text proxy bypass excluded f
  | ClearDraft mode => edit_cleared_draft mode f
  | Targets targets enabled port => edit_targets error_text targets enabled port f
  | Split proxy bypass excluded enabled port action => edit_split error_text proxy bypass excluded enabled port action f
  | Hosts sources enabled port => edit_hosts error_text sources enabled port f
  | Port port => if port <=? 0 then Err (fault "transparent port must be greater than zero") else edit_port port f
  | BlockQUIC enabled => edit_block_quic enabled f
  | DisableIPv6 disabled => edit_disable_ipv6 disabled f
  | Disabled => edit_disabled f
  | SetService name selectors =>
    match edit_service error_text range_order name selectors f with Ok (f, _, _) => Ok f | Err e => Err e end
  | DeleteService name => match edit_service_deleted range_order name f with Ok (f, _) => Ok f | Err e => Err e end
  end.

Lemma requested_known c f f' :
  (forall c : Catalog, range_order c ≡ₚ (map_to_list c).*1) ->
  requested c f = Ok f' -> references_known f -> references_known f'.
Proof.
  intros Ho. destruct c; cbn [requested].
  - apply mode_draft_known.
  - apply split_draft_known.
  - apply cleared_draft_known.
  - apply targets_edit_known.
  - apply split_edit_known.
  - apply hosts_edit_known.
  - destruct (_ <=? _); [done|]. intros [= <-] Hk. by apply (flag_known (CanonicalFirewallSettings f)), eq_refl; [apply canonical_settings_known|].
  - intros [= <-] Hk. by apply (flag_known (CanonicalFirewallSettings f)), eq_refl; [apply canonical_settings_known|].
  - intros [= <-] Hk. by apply (flag_known (CanonicalFirewallSettings f)), eq_refl; [apply canonical_settings_known|].
  - apply disabled_known.
  - destruct (edit_service _ _ _ _ _) as [[[g n] b]|] eqn:E; [|done]. intros [= <-]. by eapply service_known.
  - destruct (edit_service_deleted _ _ _) as [[g b]|] eqn:E; [|done]. intros [= <-]. by eapply deleted_known.
Qed.

(** ** What a request asks for

    The policy field by field, written without the edits of the handlers. *)

(** A positive port replaces the one in use. *)
Definition asked_port (f : FirewallSettings) (port : Z) : Z :=
  if 0 <? port then port else FirewallSettings.TransparentPort f.

Definition selectors_of (t : FirewallTargets) : FirewallSelectorSet :=
  FirewallSelectorSet.mk (FirewallTargets.Services t) (FirewallTargets.Domains t) (FirewallTargets.CIDRs t).

Definition no_selectors : FirewallSelectorSet := FirewallSelectorSet.mk [] [] [].
Definition no_split : FirewallSplitSettings := FirewallSplitSettings.mk no_selectors no_selectors [] "direct".
Definition no_draft : FirewallModeDraft := FirewallModeDraft.mk [] [] [] [].

(** The same firewall with other drafts, and with other services. *)
Definition with_drafts (f : FirewallSettings) (drafts : FirewallModeDrafts) : FirewallSettings :=
  FirewallSettings.mk (FirewallSettings.Enabled f) (FirewallSettings.TransparentPort f) (FirewallSettings.Mode f)
    (FirewallSettings.DisableIPv6 f) (FirewallSettings.Hosts f) (FirewallSettings.Targets f) (FirewallSettings.Split f)
    (FirewallSettings.TargetServiceCatalog f) drafts (FirewallSettings.BlockQUIC f).

Definition with_catalog (f : FirewallSettings) (catalog : Catalog) : FirewallSettings :=
  FirewallSettings.mk (FirewallSettings.Enabled f) (FirewallSettings.TransparentPort f) (FirewallSettings.Mode f)
    (FirewallSettings.DisableIPv6 f) (FirewallSettings.Hosts f) (FirewallSettings.Targets f) (FirewallSettings.Split f)
    catalog (FirewallSettings.ModeDrafts f) (FirewallSettings.BlockQUIC f).

(** The same firewall with another policy: the services, IPv6 and QUIC stay. *)
Definition with_policy (f : FirewallSettings) (enabled : bool) (port : Z) (mode : string) (hosts : list string)
    (targets : FirewallSelectorSet) (split : FirewallSplitSettings) (drafts : FirewallModeDrafts) : FirewallSettings :=
  FirewallSettings.mk enabled port mode (FirewallSettings.DisableIPv6 f) hosts targets split
    (FirewallSettings.TargetServiceCatalog f) drafts (FirewallSettings.BlockQUIC f).

Abbreviation hosts_draft_of f := (FirewallModeDrafts.Hosts (FirewallSettings.ModeDrafts f)).
Abbreviation targets_draft_of f := (FirewallModeDrafts.Targets (FirewallSettings.ModeDrafts f)).
Abbreviation split_draft_of f := (FirewallModeDrafts.Split (FirewallSettings.ModeDrafts f)).
Abbreviation parses f selectors t := (ParseFirewallTargets selectors (FirewallSettings.TargetServiceCatalog f) = Ok t).

(** From the firewall [f], a request asks for a firewall; it asks for none when its
    selectors cannot be parsed, its mode or service is unknown, its port is not
    positive, or the service to delete is a preset or still needed. *)
Inductive asks (f : FirewallSettings) : FirewallChange -> FirewallSettings -> Prop :=
| asks_hosts_draft mode selectors x :
    TrimSpace (ToLower mode) = "hosts" -> ParseFirewallSources selectors = Ok x ->
    asks f (ModeDraft mode selectors)
      (with_drafts f (FirewallModeDrafts.mk (FirewallModeDraft.mk [] [] [] x) (targets_draft_of f) (split_draft_of f)))
| asks_targets_draft mode selectors t :
    TrimSpace (ToLower mode) = "targets" -> parses f selectors t ->
    asks f (ModeDraft mode selectors)
      (with_drafts f (FirewallModeDrafts.mk (hosts_draft_of f)
         (FirewallModeDraft.mk (FirewallTargets.Services t) (FirewallTargets.CIDRs t) (FirewallTargets.Domains t) []) (split_draft_of f)))
| asks_split_draft proxy bypass excluded p b x :
    parses f proxy p -> parses f bypass b -> ParseFirewallSources excluded = Ok x ->
    asks f (SplitDraft proxy bypass excluded)
      (with_drafts f (FirewallModeDrafts.mk (hosts_draft_of f) (targets_draft_of f)
         (FirewallSplitDraft.mk (selectors_of p) (selectors_of b) x)))
| asks_no_hosts_draft mode : TrimSpace (ToLower mode) = "hosts" ->
    asks f (ClearDraft mode) (with_drafts f (FirewallModeDrafts.mk no_draft (targets_draft_of f) (split_draft_of f)))
| asks_no_targets_draft mode : TrimSpace (ToLower mode) = "targets" ->
    asks f (ClearDraft mode) (with_drafts f (FirewallModeDrafts.mk (hosts_draft_of f) no_draft (split_draft_of f)))
| asks_no_split_draft mode : TrimSpace (ToLower mode) ∈ ["split"; "bypass"] ->
    asks f (ClearDraft mode)
      (with_drafts f (FirewallModeDrafts.mk (hosts_draft_of f) (targets_draft_of f) (FirewallSplitDraft.mk no_selectors no_selectors [])))
| asks_targets targets enabled port t : parses f targets t ->
    asks f (Targets targets enabled port)
      (with_policy f enabled (asked_port f port) "targets" [] (selectors_of t) no_split
         (FirewallModeDrafts.mk (hosts_draft_of f)
            (FirewallModeDraft.mk (FirewallTargets.Services t) (FirewallTargets.CIDRs t) (FirewallTargets.Domains t) []) (split_draft_of f)))
| asks_split proxy bypass excluded enabled port action p b x :
    parses f proxy p -> parses f bypass b -> ParseFirewallSources excluded = Ok x ->
    asks f (Split proxy bypass excluded enabled port action)
      (with_policy f enabled (asked_port f port) "split" [] no_selectors
         (FirewallSplitSettings.mk (selectors_of p) (selectors_of b) x (NormalizeFirewallDefaultAction action))
         (FirewallModeDrafts.mk (hosts_draft_of f) (targets_draft_of f)
            (FirewallSplitDraft.mk (CloneFirewallSelectorSet (selectors_of p)) (CloneFirewallSelectorSet (selectors_of b)) x)))
| asks_hosts sources enabled port x : ParseFirewallSources sources = Ok x ->
    asks f (Hosts sources enabled port)
      (with_policy f enabled (asked_port f port) "hosts" x no_selectors no_split
         (FirewallModeDrafts.mk (FirewallModeDraft.mk [] [] [] x) (targets_draft_of f) (split_draft_of f)))
| asks_port port : 0 < port ->
    asks f (Port port) (let g := CanonicalFirewallSettings f in
      with_policy g (FirewallSettings.Enabled g) port (FirewallSettings.Mode g) (FirewallSettings.Hosts g)
        (FirewallSettings.Targets g) (FirewallSettings.Split g) (FirewallSettings.ModeDrafts g))
| asks_quic enabled :
    asks f (BlockQUIC enabled) (let g := CanonicalFirewallSettings f in
      FirewallSettings.mk (FirewallSettings.Enabled g) (FirewallSettings.TransparentPort g) (FirewallSettings.Mode g)
        (FirewallSettings.DisableIPv6 g) (FirewallSettings.Hosts g) (FirewallSettings.Targets g) (FirewallSettings.Split g)
        (FirewallSettings.TargetServiceCatalog g) (FirewallSettings.ModeDrafts g) enabled)
| asks_ipv6 disabled :
    asks f (DisableIPv6 disabled) (let g := CanonicalFirewallSettings f in
      FirewallSettings.mk (FirewallSettings.Enabled g) (FirewallSettings.TransparentPort g) (FirewallSettings.Mode g)
        disabled (FirewallSettings.Hosts g) (FirewallSettings.Targets g) (FirewallSettings.Split g)
        (FirewallSettings.TargetServiceCatalog g) (FirewallSettings.ModeDrafts g) (FirewallSettings.BlockQUIC g))
| asks_disabled :
    asks f Disabled
      (with_policy f false (FirewallSettings.TransparentPort f) "disabled" [] no_selectors no_split (FirewallSettings.ModeDrafts f))
| asks_service name selectors n d :
    ParseFirewallTargetDefinition range_order name selectors (FirewallSettings.TargetServiceCatalog f) = Ok (n, d) ->
    asks f (SetService name selectors) (with_catalog f (<[n := d]> (FirewallSettings.TargetServiceCatalog f)))
| asks_deleted name n :
    normalizeFirewallTargetAlias name = Ok n -> firewallTargetServicePresets !! n = None ->
    is_Some (FirewallSettings.TargetServiceCatalog f !! n) -> unneeded f n ->
    asks f (DeleteService name) (with_catalog f (delete n (FirewallSettings.TargetServiceCatalog f))).

Lemma with_port_asked port f : with_port port f =
  FirewallSettings.mk (FirewallSettings.Enabled f) (asked_port f port) (FirewallSettings.Mode f) (FirewallSettings.DisableIPv6 f)
    (FirewallSettings.Hosts f) (FirewallSettings.Targets f) (FirewallSettings.Split f) (FirewallSettings.TargetServiceCatalog f)
    (FirewallSettings.ModeDrafts f) (FirewallSettings.BlockQUIC f).
Proof. unfold with_port, asked_port. destruct f. by destruct (0 <? port). Qed.

(** The edits of the handlers give what is asked for. *)
Lemma asked_is_requested c f f' :
  (forall c : Catalog, range_order c ≡ₚ (map_to_list c).*1) -> asks f c f' -> requested c f = Ok f'.
Proof.
  intros Ho []; cbn [requested]; unfold edit_mode_draft, edit_split_draft, edit_cleared_draft, edit_targets, edit_split, edit_hosts,
    edit_port, edit_block_quic, edit_disable_ipv6, edit_disabled, edit_service, edit_service_deleted; cbv zeta;
    repeat match goal with E : _ = Ok _ |- _ => rewrite E; clear E | E : _ = "hosts" |- _ => rewrite E | E : _ = "targets" |- _ => rewrite E end;
    cbn [parsed result_bind]; rewrite ?with_port_asked; try reflexivity.
  - match goal with E : _ ∈ _ |- _ => rewrite elem_of_cons, list_elem_of_singleton in E; destruct E as [E|E]; rewrite E end; reflexivity.
  - by rewrite (proj2 (Z.leb_gt _ _)).
  - unfold LookupFirewallTargetService. match goal with E : normalizeFirewallTargetAlias _ = Ok ?n |- _ => rewrite E;
      pose proof (normalizeFirewallTargetAlias_valid _ _ E) as (_ & Hv & _) end.
    match goal with E : _ = None |- _ => rewrite E end. match goal with E : is_Some _ |- _ => destruct E as [d ->] end.
    cbn. by rewrite (proj2 (still_used_spec range_order f n Ho Hv)).
Qed.

Lemma asks_same c f g f' : asks f c g -> g = f' -> asks f c f'.
Proof. by intros Hg <-. Qed.

Lemma requested_is_asked c f f' :
  (forall c : Catalog, range_order c ≡ₚ (map_to_list c).*1) -> requested c f = Ok f' -> asks f c f'.
Proof.
  intros Ho. destruct c; cbn [requested]; unfold edit_mode_draft, edit_split_draft, edit_cleared_draft, edit_targets, edit_split, edit_hosts,
    edit_service, edit_service_deleted; cbv zeta.
  - case_bool_decide; [|case_bool_decide; [|done]]; intros (a & Ha%parsed_ok & [= <-])%result_bind_ok; [by apply asks_hosts_draft|by apply asks_targets_draft].
  - intros (tp & Hp%parsed_ok & H)%result_bind_ok. apply result_bind_ok in H as (tb & Hb%parsed_ok & H).
    apply result_bind_ok in H as (ts & Hs%parsed_ok & [= <-]). by apply asks_split_draft.
  - case_bool_decide; [intros [= <-]; by apply asks_no_hosts_draft|]. case_bool_decide; [intros [= <-]; by apply asks_no_targets_draft|].
    case_bool_decide; [intros [= <-]; apply asks_no_split_draft; set_solver|].
    case_bool_decide; [intros [= <-]; apply asks_no_split_draft; set_solver|done].
  - intros (a & Ha%parsed_ok & [= <-])%result_bind_ok. rewrite with_port_asked. eapply asks_same; [by apply asks_targets|reflexivity].
  - intros (tp & Hp%parsed_ok & H)%result_bind_ok. apply result_bind_ok in H as (tb & Hb%parsed_ok & H).
    apply result_bind_ok in H as (ts & Hs%parsed_ok & [= <-]). rewrite with_port_asked. eapply asks_same; [by apply asks_split|reflexivity].
  - intros (a & Ha%parsed_ok & [= <-])%result_bind_ok. rewrite with_port_asked. eapply asks_same; [by apply asks_hosts|reflexivity].
  - destruct (Z.leb_spec port 0); [done|]. intros [= <-]. by apply asks_port.
  - intros [= <-]. apply asks_quic.
  - intros [= <-]. apply asks_ipv6.
  - intros [= <-]. apply asks_disabled.
  - destruct (parsed _ _) as [[n d]|] eqn:E; [|done]. apply parsed_ok in E. cbn [result_bind]. intros [= <-]. by apply asks_service.
  - unfold LookupFirewallTargetService. destruct (normalizeFirewallTargetAlias name) as [n|] eqn:En; [|done].
    pose proof (normalizeFirewallTargetAlias_valid _ _ En) as (_ & Hv & _). destruct (firewallTargetServicePresets !! n) as [d|] eqn:Ep; [done|].
    destruct (FirewallSettings.TargetServiceCatalog f !! n) as [d|] eqn:Ed; [|done]. cbn [fmap option_fmap option_map].
    cbn [service_entry FirewallTargetService.Name FirewallTargetService.ReadOnly].
    destruct (still_used _ f n) eqn:Eu; [done|]. intros [= <-]. apply asks_deleted; [done|done|by rewrite Ed|].
    by apply (still_used_spec range_order f n Ho Hv).
Qed.

Context `{ManagedBackend W, Router W, Runtime W, AutoRuntime W, ProfileStore W, AWGController W, InterfaceBackend W}.
Context `{ZapretObserver W, FirewallControl W}.
Context (rfc3339 : Time -> string) (url_host : string -> option (string * string)).
Context (digest : StablePayload -> string) (profile_error_text : ProfileError -> string).

Abbreviation App := (Prog W Fault).

(** The result, in so far as it is settings. *)
Definition handle (c : FirewallChange) : App unit :=
  let _' (p : App FirewallSettings) : App unit := _ ← p; mret tt in
  match c with
  | ModeDraft mode selectors => _' (updateFirewallModeDraft error_text mode selectors)
  | SplitDraft proxy bypass excluded => _' (updateFirewallSplitDraft error_text proxy bypass excluded)
  | ClearDraft mode => _' (clearFirewallModeDraft mode)
  | Targets targets enabled port => _' (configureFirewallTargets rfc3339 url_host digest profile_error_text error_text targets enabled port)
  | Split proxy bypass excluded enabled port action =>
    _' (configureFirewallSplit rfc3339 url_host digest profile_error_text error_text proxy bypass excluded enabled port action)
  | Hosts sources enabled port => _' (configureFirewallHosts rfc3339 url_host digest profile_error_text error_text sources enabled port)
  | Port port => _' (updateFirewallPort rfc3339 url_host digest profile_error_text port)
  | BlockQUIC enabled => _' (updateFirewallBlockQUIC rfc3339 url_host digest profile_error_text enabled)
  | DisableIPv6 disabled => _' (updateFirewallDisableIPv6 disabled)
  | Disabled => _' (disableFirewall rfc3339 url_host digest profile_error_text)
  | SetService name selectors =>
    _ ← setFirewallTargetService rfc3339 url_host digest profile_error_text error_text range_order name selectors; mret tt
  | DeleteService name => deleteFirewallTargetService rfc3339 url_host digest profile_error_text range_order name
  end.

(** ** The shape of a handler *)

(** Load, edit, check, store, and then [after]. *)
Definition shaped (c : FirewallChange) (p : App unit) : Prop :=
  exists A check (edit : FirewallSettings -> result Fault (FirewallSettings * A)) after,
    (forall w, p w = (change_firewall check edit ≫= after) w) /\
    (forall f, requested c f = match edit f with Ok (f, _) => Ok f | Err e => Err e end) /\
    (forall f w, load_settings (check f w).2 = load_settings w) /\
    forall P, (forall is_nil s s', P s -> LoadSettings (Some (SaveSettings is_nil s)) = Ok s' -> P s') ->
      (forall mode auto s, P s -> P (s <| Settings.AutoMode := auto |> <| Settings.Mode := mode |>)) ->
      forall e, stays (kept P) (after e).

Lemma bind_assoc {A B C} (p : App A) (k : A -> App B) (l : B -> App C) w :
  ((p ≫= k) ≫= l) w = (p ≫= (fun a => k a ≫= l)) w.
Proof. unfold mbind, prog_bind. by destruct (p w) as [[]]. Qed.

Lemma edit_only_requested (edit : FirewallSettings -> result Fault FirewallSettings) f :
  edit f = match edit_only edit f with Ok (f, _) => Ok f | Err e => Err e end.
Proof. unfold edit_only. by destruct (edit f). Qed.

Context `{!SettingsFileLaws W, !FirewallControlLaws W}.

Lemma silent_check_firewall f w : load_settings (validateFirewall f w).2 = load_settings w.
Proof.
  unfold validateFirewall, act. pose proof (silent_validate (CanonicalFirewallSettings f) w). by destruct (firewall_validate _ w) as [[]].
Qed.

Lemma shaped_draft c (edit : FirewallSettings -> result Fault FirewallSettings) :
  (forall f, requested c f = edit f) -> shaped c (_ ← store_draft edit; mret tt).
Proof.
  intros He. exists unit, unchecked, (edit_only edit), (fun _ => mret tt). split_and!; try done.
  - intros w. apply bind_assoc.
  - intros f. rewrite He. apply edit_only_requested.
  - intros P _ _ e. apply stays_ret.
Qed.

Lemma shaped_apply c check (edit : FirewallSettings -> result Fault FirewallSettings) :
  (forall f w, load_settings (check f w).2 = load_settings w) -> (forall f, requested c f = edit f) ->
  shaped c (_ ← store_and_apply rfc3339 url_host digest profile_error_text check edit; mret tt).
Proof.
  intros Hc He. eexists unit, check, (edit_only edit), _. split_and!; [intros w; apply bind_assoc| |exact Hc|].
  - intros f. rewrite He. apply edit_only_requested.
  - intros P Hr Hm e. apply stays_bind; [|intros a; apply stays_ret]. apply stays_bind; [by apply stays_reapplied|intros _; apply stays_ret].
Qed.

(** The one request that is refused before the settings are read. *)
Definition bad_port (c : FirewallChange) : bool := match c with Port port => port <=? 0 | _ => false end.

Lemma bad_port_refused c : bad_port c = true ->
  exists e, (forall w, handle c w = (Err e, w)) /\ forall f, requested c f = Err e.
Proof. destruct c; try done. cbn [bad_port]. intros E. eexists. split; intros; cbn [handle requested]; unfold updateFirewallPort; by rewrite E. Qed.

Lemma handler_shape c : bad_port c = false ->
  shaped c (handle c).
Proof.
  intros Hport. destruct c; cbn [handle].
  - by apply shaped_draft.
  - by apply shaped_draft.
  - by apply shaped_draft.
  - apply shaped_apply; [apply silent_check_firewall|done].
  - apply shaped_apply; [apply silent_check_firewall|done].
  - apply shaped_apply; [apply silent_check_firewall|done].
  - cbn [bad_port] in Hport. unfold updateFirewallPort. rewrite Hport.
    apply shaped_apply; [apply silent_check_firewall|]. intros f. cbn [requested]. by rewrite Hport.
  - apply shaped_apply; [apply silent_check_firewall|done].
  - unfold updateFirewallDisableIPv6. eexists unit, unchecked, _, _. split_and!; [intros w; apply bind_assoc| |done|].
    + intros f. apply edit_only_requested.
    + intros P Hr Hm e. apply stays_bind; [|intros a; apply stays_ret]. apply stays_bind; [|intros a; apply stays_ret].
      apply stays_silent_act, silent_switch_ipv6.
  - by apply shaped_apply.
  - unfold setFirewallTargetService. eexists _, validateFirewall, _, _. split_and!; [intros w; apply bind_assoc| |apply silent_check_firewall|].
    + intros f. cbn [requested]. by destruct (edit_service _ _ _ _ f) as [[[g n] b]|].
    + intros P Hr Hm [g [n b]]. apply stays_bind; [|intros a; apply stays_ret]. apply stays_bind; [apply stays_when; by apply stays_reapplied|intros _].
      case_match; [apply stays_ret|apply stays_raise].
  - unfold deleteFirewallTargetService. eexists _, validateFirewall, _, _. split_and!; [done| |apply silent_check_firewall|].
    + intros f. done.
    + intros P Hr Hm e. apply stays_when. by apply stays_reapplied.
Qed.

(** ** What a handler leaves *)

Lemma changed_result {A} check (edit : FirewallSettings -> result Fault (FirewallSettings * A)) w s e w1 :
  load_settings w = Ok s -> (forall f w, load_settings (check f w).2 = load_settings w) ->
  change_firewall check edit w = (Ok e, w1) ->
  edit (Settings.Firewall s) = Ok e /\
  forall s1, load_settings w1 = Ok s1 -> exists is_nil, LoadSettings (Some (SaveSettings is_nil (s <| Settings.Firewall := e.1 |>))) = Ok s1.
Proof.
  intros Hl Hc. unfold change_firewall. intros (s0 & w2 & Hs & Hk)%bind_ok. unfold load_settings_as in Hs. rewrite Hl in Hs. injection Hs as <- <-.
  apply bind_ok in Hk as (e' & w2 & He & Hk). injection He as He <-. apply bind_ok in Hk as ([] & w3 & Ec & Hk).
  apply bind_ok in Hk as ([] & w4 & Es & Hk). injection Hk as -> <-. split; [done|]. intros s1 Hs1.
  apply act_ok in Es. by eapply stored_new.
Qed.

Lemma changed_kept {A} P check (edit : FirewallSettings -> result Fault (FirewallSettings * A)) :
  (forall is_nil s s', P s -> LoadSettings (Some (SaveSettings is_nil s)) = Ok s' -> P s') ->
  (forall f w, load_settings (check f w).2 = load_settings w) ->
  (forall s f a, P s -> edit (Settings.Firewall s) = Ok (f, a) -> P (s <| Settings.Firewall := f |>)) ->
  stays (kept P) (change_firewall check edit).
Proof.
  intros Hr Hc He. unfold change_firewall. apply stays_load. intros s Hs w Hw. unfold mbind, prog_bind, of_result.
  destruct (edit (Settings.Firewall s)) as [[f a]|err] eqn:Ee; [|done]. cbn [fst].
  assert (Hw1 : kept P (check f w).2) by (intros s1; rewrite Hc; apply Hw).
  destruct (check f w) as [[u|err] w1]; [|done]. cbn [snd] in Hw1. unfold save_settings_as, act.
  pose proof (kept_store P Hr (s <| Settings.Firewall := f |>) w1 (He _ _ _ Hs Ee) Hw1) as Hw2. by destruct (store_settings _ w1) as [[|]].
Qed.

Lemma reload_firewall_idemp f : reload_firewall (reload_firewall f) = reload_firewall f.
Proof.
  unfold reload_firewall, upd. record_eq FirewallSettings.eta. cbn. f_equal; [apply NormalizeFirewallMode_idemp|].
  unfold reload_split. cbn. f_equal. apply NormalizeFirewallDefaultAction_idemp.
Qed.

Lemma saved_firewall is_nil s s' : LoadSettings (Some (SaveSettings is_nil s)) = Ok s' ->
  Settings.Firewall s' = reload_firewall (Settings.Firewall s).
Proof. rewrite LoadSettings_saved. destruct (CanonicalCountryRouting _); [|done]. by intros [= <-]. Qed.

(** A refused request has done nothing; an accepted one leaves its edit. *)
Lemma handled c w s :
  load_settings w = Ok s ->
  match requested c (Settings.Firewall s) with
  | Err e => handle c w = (Err e, w)
  | Ok f => forall w' s', handle c w = (Ok tt, w') -> load_settings w' = Ok s' -> Settings.Firewall s' = reload_firewall f
  end.
Proof.
  intros Hl. destruct (bad_port c) eqn:Ep; [destruct (bad_port_refused c Ep) as (e & Hh & Hr); by rewrite Hr|].
  destruct (handler_shape c Ep) as (A & check & edit & after & Hh & Hr & Hc & Ha).
  rewrite (Hr (Settings.Firewall s)). destruct (edit (Settings.Firewall s)) as [[f a]|e] eqn:Ee.
  - intros w' s'. rewrite Hh. intros ([f' a'] & w1 & Hch & Hafter)%bind_ok Hl'. destruct (changed_result _ _ _ _ _ _ Hl Hc Hch) as [Ee' Hs].
    rewrite Ee in Ee'. injection Ee' as <- <-.
    refine (stays_at _ _ _ _ _ (Ha (fun s => Settings.Firewall s = reload_firewall f) _ _ _) _ Hafter s' Hl').
    + intros n t t' Ht E. by rewrite (saved_firewall _ _ _ E), Ht, reload_firewall_idemp.
    + done.
    + intros s1 Hs1. destruct (Hs s1 Hs1) as [n Hn]. by rewrite (saved_firewall _ _ _ Hn).
  - rewrite Hh. unfold change_firewall, mbind, prog_bind, load_settings_as, of_result. by rewrite Hl, Ee.
Qed.

(** The file holds the old firewall or the new one. *)
Definition old_or_new (old new : FirewallSettings) (s : Settings) : Prop :=
  reload_firewall (Settings.Firewall s) = reload_firewall old \/ reload_firewall (Settings.Firewall s) = reload_firewall new.

Lemma old_or_new_reloads old new is_nil s s' :
  old_or_new old new s -> LoadSettings (Some (SaveSettings is_nil s)) = Ok s' -> old_or_new old new s'.
Proof. intros Hs E. unfold old_or_new. by rewrite (saved_firewall _ _ _ E), reload_firewall_idemp. Qed.

Lemma changed_old_or_new {A} check (edit : FirewallSettings -> result Fault (FirewallSettings * A)) w s f a :
  load_settings w = Ok s -> edit (Settings.Firewall s) = Ok (f, a) -> (forall f w, load_settings (check f w).2 = load_settings w) ->
  kept (old_or_new (Settings.Firewall s) f) (change_firewall check edit w).2.
Proof.
  intros Hl He Hc. unfold change_firewall, mbind, prog_bind, load_settings_as, of_result. rewrite Hl, He. cbn [fst].
  assert (Hw1 : kept (old_or_new (Settings.Firewall s) f) (check f w).2) by (intros s1; rewrite Hc, Hl; intros [= <-]; by left).
  destruct (check f w) as [[u|err] w1]; [|done]. cbn [snd] in Hw1. unfold save_settings_as, act.
  pose proof (kept_store _ (old_or_new_reloads _ _) (s <| Settings.Firewall := f |>) w1 (or_intror eq_refl) Hw1) as Hw2.
  by destruct (store_settings _ w1) as [[|]].
Qed.

Lemma handled_old_or_new c w s f :
  load_settings w = Ok s -> requested c (Settings.Firewall s) = Ok f ->
  kept (old_or_new (Settings.Firewall s) f) (handle c w).2.
Proof.
  intros Hl Hq. destruct (bad_port c) eqn:Ep; [destruct (bad_port_refused c Ep) as (e & _ & Hr); by rewrite Hr in Hq|].
  destruct (handler_shape c Ep) as (A & check & edit & after & Hh & Hr & Hc & Ha).
  rewrite Hr in Hq. destruct (edit (Settings.Firewall s)) as [[f' a]|] eqn:Ee; [|done]. injection Hq as ->.
  pose proof (changed_old_or_new check edit w s f a Hl Ee Hc) as Hw1. rewrite Hh. unfold mbind, prog_bind.
  destruct (change_firewall check edit w) as [[e|err] w1]; [|exact Hw1].
  apply (Ha (old_or_new (Settings.Firewall s) f)); [apply old_or_new_reloads|done|exact Hw1].
Qed.

(** C12: a handler does what was asked for.  [asks] describes, field by field and
    without the edits of the handlers, the firewall that each of the twelve
    requests asks for.  A request that asks for none is refused, and nothing at all
    has happened.  Otherwise, when the handler succeeds, the settings file holds
    that firewall, in the normal form of the file, whatever the connection that
    is applied again afterwards did; and when it fails, because the firewall
    is not accepted, cannot be stored or cannot be applied, the file holds either the
    firewall of before or the one that was asked for. *)
Theorem firewall_request_refined c w s r w' :
  (forall c : Catalog, range_order c ≡ₚ (map_to_list c).*1) ->
  load_settings w = Ok s -> handle c w = (r, w') ->
  ((forall f, ~ asks (Settings.Firewall s) c f) /\ (exists e, r = Err e) /\ w' = w) \/
  (exists f, asks (Settings.Firewall s) c f /\
     (r = Ok tt -> forall s', load_settings w' = Ok s' -> Settings.Firewall s' = reload_firewall f) /\
     (forall s', load_settings w' = Ok s' -> old_or_new (Settings.Firewall s) f s')).
Proof.
  intros Ho Hl Hrun. destruct (requested c (Settings.Firewall s)) as [f|err] eqn:Er.
  - right. exists f. split; [by apply requested_is_asked|]. pose proof (handled c w s Hl) as Hh. rewrite Er in Hh. split.
    + intros -> s' Hs'. exact (Hh w' s' Hrun Hs').
    + replace w' with (handle c w).2 by (by rewrite Hrun). by apply handled_old_or_new.
  - left. pose proof (handled c w s Hl) as Hh. rewrite Er, Hrun in Hh. injection Hh as -> ->. split; [|split; [by eexists|done]].
    intros f Hf%asked_is_requested; [congruence|done].
Qed.

(** Requests one after the other, whatever their outcome. *)
Definition handle_all (cs : list FirewallChange) (w : W) : W := foldl (fun w c => (handle c w).2) w cs.

(** C13: no reference of the firewall dangles.  From settings in which every service
    that the firewall's policy, its drafts or another service refers to is a preset or
    listed, any sequence of requests, refused ones, ones that fail half-way and
    deletions of services included, leads to settings of this kind.  The selectors
    of the zapret fallback are not among these references: a deletion does not look
    at them, and [deleted_service_empties_zapret] shows one that dangles. *)
Theorem references_stay_known cs w :
  (forall c : Catalog, range_order c ≡ₚ (map_to_list c).*1) ->
  kept (fun s => references_known (Settings.Firewall s)) w ->
  kept (fun s => references_known (Settings.Firewall s)) (handle_all cs w).
Proof.
  intros Ho. revert w. induction cs as [|c cs IH]; intros w Hw; [done|]. apply IH. clear IH.
  destruct (bad_port c) eqn:Ep; [destruct (bad_port_refused c Ep) as (e & Hh & _); by rewrite Hh|].
  destruct (handler_shape c Ep) as (A & check & edit & after & Hh & Hr & Hc & Ha).
  rewrite Hh. revert Hw. apply stays_bind.
  - apply changed_kept; [|exact Hc|].
    + intros n t t' Ht E. rewrite (saved_firewall _ _ _ E). by apply (flag_known _ _ Ht).
    + intros s f a Hs Ee. apply (requested_known c (Settings.Firewall s)); [done| |done]. by rewrite Hr, Ee.
  - intros e. apply Ha; [|done]. intros n t t' Ht E. rewrite (saved_firewall _ _ _ E). by apply (flag_known _ _ Ht).
Qed.

End Runs.

(** ** Deleting a service that zapret uses *)

Section Deleted.
  Context (range_order : Catalog -> list string).

(** What a deletion takes away is nowhere else. *)
Lemma deleted_unregistered name n f f' b :
  edit_service_deleted range_order name f = Ok (f', b) -> normalizeFirewallTargetAlias name = Ok n ->
  valid_alias n /\ mergeFirewallTargetRegistry (FirewallSettings.TargetServiceCatalog f') !! n = None.
Proof.
  intros He Hn. unfold edit_service_deleted, LookupFirewallTargetService in He. cbv zeta in He. rewrite Hn in He.
  apply normalizeFirewallTargetAlias_valid in Hn as (_ & Hv & _). split; [done|].
  destruct (firewallTargetServicePresets !! n) as [d|] eqn:Ep; [done|].
  destruct (FirewallSettings.TargetServiceCatalog f !! n) as [d|] eqn:Ed; [|done]. cbn [fmap option_fmap option_map] in He.
  cbn [service_entry FirewallTargetService.Name FirewallTargetService.ReadOnly] in He.
  destruct (still_used _ f n); [done|]. injection He as <- _.
  change (mergeFirewallTargetRegistry (delete n (FirewallSettings.TargetServiceCatalog f)) !! n = None).
  unfold mergeFirewallTargetRegistry. by rewrite lookup_union_None, !lookup_fmap, Ep, lookup_delete_eq.
Qed.

Lemma append_unregistered entries fuel registry out n visiting :
  canonicalFirewallTargetAlias n = n -> registry !! n = None ->
  appendFirewallService entries fuel registry out n visiting = out.
Proof. intros Hc Hr. destruct fuel; cbn [appendFirewallService]; [done|]. cbv zeta. by rewrite Hc, Hr. Qed.

(** Deleting a service does not look at zapret.  A service that only the zapret
    fallback refers to can be deleted, although selectors of zapret may name custom
    services; when it was the only selector, the fallback has no targets
    afterwards, and every attempt to fall back to zapret goes to the direct route. *)
Theorem deleted_service_empties_zapret name n s f b :
  edit_service_deleted range_order name (Settings.Firewall s) = Ok (f, b) -> normalizeFirewallTargetAlias name = Ok n ->
  FirewallSelectorSet.Services (ZapretSettings.Selectors (Settings.Zapret s)) = [n] ->
  FirewallSelectorSet.Domains (ZapretSettings.Selectors (Settings.Zapret s)) = [] ->
  zapretExpandedTargets (s <| Settings.Firewall := f |>) = Err "zapret selectors are empty".
Proof.
  intros He Hn Hs Hd. destruct (deleted_unregistered _ _ _ _ _ He Hn) as [Hv Hr]. destruct (valid_alias_canonical n Hv) as (Hc & _ & Hne).
  unfold zapretExpandedTargets. cbv zeta.
  change (Settings.Zapret (s <| Settings.Firewall := f |>)) with (Settings.Zapret s).
  change (Settings.Firewall (s <| Settings.Firewall := f |>)) with f.
  assert (E : FirewallSelectorSet.Domains (ZapretSettings.Selectors
     (CanonicalZapretSettingsWithCatalog (Settings.Zapret s) (FirewallSettings.TargetServiceCatalog f))) = []); [|by rewrite E].
  unfold CanonicalZapretSettingsWithCatalog. cbv zeta.
  change (NormalizeZapretDomainList (ExpandZapretSelectorDomains (FirewallSettings.TargetServiceCatalog f)
    (ZapretSettings.Selectors (NormalizeZapretSettings (Settings.Zapret s)))) = []).
  assert (Ez : ZapretSettings.Selectors (NormalizeZapretSettings (Settings.Zapret s)) = CloneFirewallSelectorSet (ZapretSettings.Selectors (Settings.Zapret s)))
    by (unfold NormalizeZapretSettings; cbv zeta; by destruct (_ <? 1)).
  rewrite Ez. unfold ExpandZapretSelectorDomains, CloneFirewallSelectorSet. cbn [FirewallSelectorSet.Services FirewallSelectorSet.Domains].
  rewrite Hs, Hd. unfold canonicalFirewallTargetServices. cbn [foldl]. unfold canonical_service. rewrite Hc, bool_decide_eq_false_2 by done.
  change (push_unique [] n) with [n]. unfold ExpandFirewallTargetDomains. cbn [foldl]. unfold appendFirewallServiceDomains.
  rewrite append_unregistered by done. reflexivity.
Qed.

End Deleted.

(** ** On the world with a settings file *)

#[export] Instance settings_control : FirewallControl SettingsWorld := {
  firewall_validate _ w := (None, w);
  ipv6_switch _ w := (None, w)
}.

Lemma settings_control_laws : FirewallControlLaws SettingsWorld.
Proof. by split. Qed.

(** The keys of a catalog in the order of the map. *)
Definition map_order (c : Catalog) : list string := (map_to_list c).*1.

(** A custom service that only zapret uses. *)
Definition custom_service : FirewallTargetDefinition := FirewallTargetDefinition.mk [] ["example.org"] [].

Definition service_settings : Settings :=
  DefaultSettings
    <| Settings.Firewall ::= fun f => f <| FirewallSettings.TargetServiceCatalog := {[ "mine" := custom_service ]} |> |>
    <| Settings.Zapret := ZapretSettings.mk true (FirewallSelectorSet.mk ["mine"] [] []) 3 |>.

Lemma deleted_service_empties_zapret_witness :
  zapretExpandedTargets service_settings = Ok ["example.org"] /\
  exists f b, edit_service_deleted map_order "mine" (Settings.Firewall service_settings) = Ok (f, b) /\
    zapretExpandedTargets (service_settings <| Settings.Firewall := f |>) = Err "zapret selectors are empty".
Proof.
  split; [vm_compute; reflexivity|].
  destruct (edit_service_deleted map_order "mine" (Settings.Firewall service_settings)) as [[f b]|e] eqn:E; [|vm_compute in E; discriminate E].
  exists f, b. split; [reflexivity|].
  exact (deleted_service_empties_zapret map_order "mine" "mine" service_settings f b E ltac:(vm_compute; reflexivity) eq_refl eq_refl).
Defined.

Definition service_world : SettingsWorld := Build_SettingsWorld vpn_world (Some (SaveSettings (fun _ => true) service_settings)).

Abbreviation handle_there := (handle (fun _ => "invalid selector") map_order (fun _ => "") (fun _ => None) (fun _ => "") (fun _ => "")).
Abbreviation targets_request := (Targets ["mine"; "youtube"] true 1081).

Lemma service_world_loads : load_settings service_world = Ok service_settings.
Proof. vm_compute. reflexivity. Qed.

Lemma firewall_request_refined_witness :
  exists s', load_settings (handle_there targets_request service_world).2 = Ok s' /\
    FirewallSelectorSet.Services (FirewallSettings.Targets (Settings.Firewall s')) = ["mine"; "youtube"].
Proof.
  destruct (load_settings (handle_there targets_request service_world).2) as [s'|e] eqn:El; [|vm_compute in El; discriminate El].
  exists s'. split; [reflexivity|].
  assert (Hrun : (handle_there targets_request service_world).1 = Ok tt) by (vm_compute; reflexivity).
  destruct (firewall_request_refined (fun _ => "invalid selector") map_order (SettingsFileLaws0 := settings_world_laws)
    (FirewallControlLaws0 := settings_control_laws) (fun _ => "") (fun _ => None) (fun _ => "") (fun _ => "")
    targets_request service_world service_settings _ _ ltac:(reflexivity) service_world_loads (run_eq _ _ Hrun))
    as [(_ & (e & [=]) & _)|(f & Hf & Hok & _)].
  rewrite (Hok eq_refl s' El). apply (asked_is_requested (fun _ => "invalid selector") map_order) in Hf; [|reflexivity].
  vm_compute in Hf. injection Hf as <-. vm_compute. reflexivity.
Defined.

Lemma service_references : references_known (Settings.Firewall service_settings).
Proof.
  assert (Ec : FirewallSettings.TargetServiceCatalog (Settings.Firewall service_settings) = {[ "mine" := custom_service ]}) by reflexivity.
  split; rewrite Ec.
  - intros n [d [<- <-]%lookup_singleton_Some]. split; [vm_compute; reflexivity|vm_compute; reflexivity].
  - apply Forall_nil_2.
  - intros n d [<- <-]%lookup_singleton_Some. apply Forall_nil_2.
Qed.

(** A service is used, cannot be deleted then, and can be once it is not used any more. *)
Abbreviation service_requests :=
  [targets_request; DeleteService "mine"; SetService "other" ["mine"; "example.net"]; Disabled; ClearDraft "targets"; DeleteService "mine"; DeleteService "other"].

Abbreviation handle_all_there :=
  (handle_all (fun _ => "invalid selector") map_order (fun _ => "") (fun _ => None) (fun _ => "") (fun _ => "")).

Lemma references_stay_known_witness :
  kept (fun s => references_known (Settings.Firewall s)) (handle_all_there service_requests service_world) /\
  (handle_there (DeleteService "mine") (handle_there targets_request service_world).2).1 =
    Err (fault ("target service " +:+ quoted "mine" +:+ " is still used by firewall targets; remove it from firewall targets first")).
Proof.
  split; [|vm_compute; reflexivity].
  apply (references_stay_known (fun _ => "invalid selector") map_order (SettingsFileLaws0 := settings_world_laws)
    (FirewallControlLaws0 := settings_control_laws) (fun _ => "") (fun _ => None) (fun _ => "") (fun _ => "") service_requests service_world).
  - intros c. reflexivity.
  - intros s E. rewrite service_world_loads in E. injection E as <-. apply service_references.
Defined.
