(* ===== verification/SettingsService.v ===== *)
(** * Changing the settings

    [SetSetting], [PatchSettings], the DNS and zapret settings and reading the
    settings ([app/service.go]).  What a value does to the settings is a function;
    a handler loads, edits, stores and applies the connection again.

    [strconv.ParseFloat], [url.ParseRequestURI] and the texts of the errors are
    parameters.  A patch ranges over a Go map only to refuse unknown keys; the key
    that is named is the first in the order [patch_order].  The store lock is not
    modelled. *)
From S2P Require Import Prelude GoRunes GoStrings GoNum NetIP GoConv GoDuration Domain.

From S2P Require Import Firewall FirewallSettings.
From S2P Require Import Zapret Settings Connection Migrations PersistFacts Probe.

From S2P Require Import AutoState AutoSelect Reserves XrayConfig XrayFacts BackendRequest.
From S2P Require Import AmneziaProfile AmneziaRuntime.
From S2P Require Import ManagedBackend Scheduler ManagedSwitch Effects NodeSelection ReserveRound.
From S2P Require Import AutoCommit Failover Connect.
From S2P Require Import AmneziaService Reapply FirewallService.

Local Open Scope Z_scope.
Local Open Scope list_scope.

(** What [url.ParseRequestURI] gives, in so far as it is read. *)
Module RequestURI.
Record RequestURI : Type := mk { Scheme : string; Hostname : string; HasUser : bool }.
End RequestURI.
Abbreviation RequestURI := RequestURI.RequestURI.

(** Why a value is refused. *)
Inductive SettingError : Type :=
| UnsupportedPatchKey (key : string)
| UnsupportedSetting (key : string)
| InvalidDuration (raw : string)
| NotPositive (key : string)
| Negative (key : string)
| TooShort (key : string)
| InvalidProbeURL
| InvalidAutoProfile
| NotBoolean (key : string)
| InvalidRelativeImprovement
| InvalidWins
| InvalidFailureThreshold
| InvalidCountry (e : CountryError)
| InvalidDNS (e : SettingsError).

(** ** Values *)

Definition validateSettingDuration (key : string) (duration : Duration) (allowZero : bool) : option SettingError :=
  if (duration <? 0) || (negb allowZero && (duration =? 0))
  then Some (if allowZero then Negative key else NotPositive key)
  else if (0 <? duration) && (bool_decide (key = "refresh-interval") || bool_decide (key = "health-check-interval")) && (duration <? Second)
  then Some (TooShort key)
  else None.

Definition parseBooleanSetting (key value : string) : result SettingError bool :=
  let v := ToLower (TrimSpace value) in
  if bool_decide (v = "true") then Ok true
  else if bool_decide (v = "false") then Ok false
  else Err (NotBoolean key).

Definition normalizeStringList (values : list string) : list string :=
  filter (fun v => v <> "") (TrimSpace <$> values).

Definition parseStringList (raw : string) : list string := normalizeStringList (split_byte raw ","%char).

(** [strings.FieldsFunc] at commas and line ends. *)
Definition parseAutoHideKeywords (raw : string) : list string :=
  filter (fun v => v <> "") (split_byte (replace_byte "010" "," (replace_byte "013" "," raw)) ","%char).

(** What the country switch does to a firewall that is off. *)
Definition enable_country_firewall (settings : Settings) : Settings :=
  if CountryRouting.Enabled (Settings.CountryRouting settings) && negb (FirewallSettings.Enabled (Settings.Firewall settings))
  then settings <| Settings.Firewall ::= fun f => f
    <| FirewallSettings.Enabled := true |>
    <| FirewallSettings.Mode := FirewallModeSplit |>
    <| FirewallSettings.Hosts := [] |>
    <| FirewallSettings.Targets := FirewallSelectorSet.zero |>
    <| FirewallSettings.Split := FirewallSplitSettings.mk (FirewallSplitSettings.Proxy DefaultFirewallSplitSettings)
         (FirewallSplitSettings.Bypass DefaultFirewallSplitSettings) (FirewallSplitSettings.ExcludedSources DefaultFirewallSplitSettings)
         FirewallDefaultActionProxy |> |>
  else settings.

Definition of_country {A} (r : result CountryError A) : result SettingError A :=
  match r with Ok a => Ok a | Err e => Err (InvalidCountry e) end.
Definition of_dns {A} (r : result SettingsError A) : result SettingError A :=
  match r with Ok a => Ok a | Err e => Err (InvalidDNS e) end.

Definition canonical_routing (settings : Settings) : result SettingError Settings :=
  let* country := of_country (CanonicalCountryRouting (Settings.CountryRouting settings)) in
  Ok (settings <| Settings.CountryRouting := country |>).

Definition with_country_enabled (enabled : bool) (c : CountryRouting) : CountryRouting := CountryRouting.mk enabled (CountryRouting.CountryCode c).
Definition with_country_code (code : string) (c : CountryRouting) : CountryRouting := CountryRouting.mk (CountryRouting.Enabled c) code.

Definition with_policy (f : AutoPolicy -> AutoPolicy) (s : Settings) : Settings := s <| Settings.CustomAutoPolicy ::= f |>.

Definition with_dns (f : DNSSettings -> DNSSettings) (s : Settings) : Settings := s <| Settings.DNS ::= f |>.
Definition dns_mode (v : string) (d : DNSSettings) : DNSSettings :=
  DNSSettings.mk v (DNSSettings.Transport d) (DNSSettings.Servers d) (DNSSettings.Bootstrap d) (DNSSettings.DirectDomains d).
Definition dns_transport (v : string) (d : DNSSettings) : DNSSettings :=
  DNSSettings.mk (DNSSettings.Mode d) v (DNSSettings.Servers d) (DNSSettings.Bootstrap d) (DNSSettings.DirectDomains d).
Definition dns_servers (v : list string) (d : DNSSettings) : DNSSettings :=
  DNSSettings.mk (DNSSettings.Mode d) (DNSSettings.Transport d) v (DNSSettings.Bootstrap d) (DNSSettings.DirectDomains d).
Definition dns_bootstrap (v : list string) (d : DNSSettings) : DNSSettings :=
  DNSSettings.mk (DNSSettings.Mode d) (DNSSettings.Transport d) (DNSSettings.Servers d) v (DNSSettings.DirectDomains d).
Definition dns_domains (v : list string) (d : DNSSettings) : DNSSettings :=
  DNSSettings.mk (DNSSettings.Mode d) (DNSSettings.Transport d) (DNSSettings.Servers d) (DNSSettings.Bootstrap d) v.

Section Values.
  Context (parse_float : string -> option f64) (parse_uri : string -> option RequestURI).

Definition validateProbeURL (raw : string) : option SettingError :=
  match parse_uri (TrimSpace raw) with
  | None => Some InvalidProbeURL
  | Some u =>
    if negb (EqualFold (RequestURI.Scheme u) "https") || bool_decide (RequestURI.Hostname u = "") || RequestURI.HasUser u || has_byte raw "#"%char
    then Some InvalidProbeURL else None
  end.

(** A step reads one value and puts it into the settings. *)
Abbreviation Step := (string -> Settings -> result SettingError Settings).

Definition duration_step (key : string) (allowZero : bool) (put : Duration -> Settings -> Settings) : Step := fun raw s =>
  match ParseDurationValue raw with
  | None => Err (InvalidDuration raw)
  | Some d => match validateSettingDuration key d allowZero with
              | Some e => Err e
              | None => Ok (put d s)
              end
  end.

Definition boolean_step (key : string) (put : bool -> Settings -> Settings) : Step := fun raw s =>
  let* b := parseBooleanSetting key raw in Ok (put b s).

Definition url_step (put : string -> Settings -> Settings) : Step := fun raw s =>
  match validateProbeURL raw with Some e => Err e | None => Ok (put (TrimSpace raw) s) end.

Definition count_step (e : SettingError) (put : Z -> Settings -> Settings) : Step := fun raw s =>
  match Atoi (TrimSpace raw) with
  | Some v => if (v <? 1) || (20 <? v) then Err e else Ok (put v s)
  | None => Err e
  end.

Definition profile_step : Step := fun raw s =>
  let profile := TrimSpace raw in
  if negb (bool_decide (profile = AutoProfileGames)) && negb (bool_decide (profile = AutoProfileStreaming))
     && negb (bool_decide (profile = AutoProfileBalanced)) && negb (bool_decide (profile = AutoProfileCustom))
  then Err InvalidAutoProfile else Ok (s <| Settings.AutoProfile := profile |>).

Definition relative_step : Step := fun raw s =>
  match parse_float (TrimSpace raw) with
  | Some v =>
    if f64_ltb v (f64_of_Z 0) || f64_ltb (f64_of_Z 1) v then Err InvalidRelativeImprovement
    else Ok (with_policy (fun p => AutoPolicy.mk (AutoPolicy.AllowOptimization p) (AutoPolicy.CurrentLatencyCeiling p)
           (AutoPolicy.LatencyImprovement p) v (AutoPolicy.RequiredCandidateWins p) (AutoPolicy.Cooldown p) (AutoPolicy.FailureThreshold p)) s)
  | None => Err InvalidRelativeImprovement
  end.

Definition set_refresh_interval : Step := duration_step "refresh-interval" false (fun d s => s <| Settings.RefreshInterval := d |>).
Definition set_health_interval : Step := duration_step "health-check-interval" true (fun d s => s <| Settings.HealthCheckInterval := d |>).
Definition set_test_url : Step := url_step (fun u s => s <| Settings.URLTestURL := u |>).
Definition set_fallback_url : Step := url_step (fun u s => s <| Settings.URLTestFallbackURL := u |>).
Definition set_test_timeout : Step := duration_step "url-test-timeout" false (fun d s => s <| Settings.URLTestTimeout := d |>).
Definition set_cooldown : Step := duration_step "switch-cooldown" true (fun d s => s <| Settings.SwitchCooldown := d |>).
Definition set_threshold : Step := duration_step "latency-threshold" true (fun d s => s <| Settings.LatencyThreshold := d |>).
Definition set_strict_egress : Step := boolean_step "strict-egress-check" (fun b s => s <| Settings.StrictEgressCheck := b |>).
Definition set_country_enabled (key : string) : Step :=
  boolean_step key (fun b s => s <| Settings.CountryRouting ::= with_country_enabled b |>).
Definition set_country_code : Step := fun raw s =>
  let* code := of_country (NormalizeCountryCode raw) in Ok (s <| Settings.CountryRouting ::= with_country_code code |>).

(** The policy of the custom profile, in the patch only. *)
Definition set_allow_optimization : Step := boolean_step "auto.allow-optimization" (fun b => with_policy (fun p =>
  AutoPolicy.mk b (AutoPolicy.CurrentLatencyCeiling p) (AutoPolicy.LatencyImprovement p) (AutoPolicy.RelativeImprovement p)
    (AutoPolicy.RequiredCandidateWins p) (AutoPolicy.Cooldown p) (AutoPolicy.FailureThreshold p))).
Definition set_latency_ceiling : Step := duration_step "auto.current-latency-ceiling" true (fun d => with_policy (fun p =>
  AutoPolicy.mk (AutoPolicy.AllowOptimization p) d (AutoPolicy.LatencyImprovement p) (AutoPolicy.RelativeImprovement p)
    (AutoPolicy.RequiredCandidateWins p) (AutoPolicy.Cooldown p) (AutoPolicy.FailureThreshold p))).
Definition set_latency_improvement : Step := duration_step "auto.latency-improvement" true (fun d => with_policy (fun p =>
  AutoPolicy.mk (AutoPolicy.AllowOptimization p) (AutoPolicy.CurrentLatencyCeiling p) d (AutoPolicy.RelativeImprovement p)
    (AutoPolicy.RequiredCandidateWins p) (AutoPolicy.Cooldown p) (AutoPolicy.FailureThreshold p))).
Definition set_auto_cooldown : Step := duration_step "auto.cooldown" true (fun d => with_policy (fun p =>
  AutoPolicy.mk (AutoPolicy.AllowOptimization p) (AutoPolicy.CurrentLatencyCeiling p) (AutoPolicy.LatencyImprovement p)
    (AutoPolicy.RelativeImprovement p) (AutoPolicy.RequiredCandidateWins p) d (AutoPolicy.FailureThreshold p))).
Definition set_candidate_wins : Step := count_step InvalidWins (fun n => with_policy (fun p =>
  AutoPolicy.mk (AutoPolicy.AllowOptimization p) (AutoPolicy.CurrentLatencyCeiling p) (AutoPolicy.LatencyImprovement p)
    (AutoPolicy.RelativeImprovement p) n (AutoPolicy.Cooldown p) (AutoPolicy.FailureThreshold p))).
Definition set_failure_threshold : Step := count_step InvalidFailureThreshold (fun n => with_policy (fun p =>
  AutoPolicy.mk (AutoPolicy.AllowOptimization p) (AutoPolicy.CurrentLatencyCeiling p) (AutoPolicy.LatencyImprovement p)
    (AutoPolicy.RelativeImprovement p) (AutoPolicy.RequiredCandidateWins p) (AutoPolicy.Cooldown p) n)).

(** ** The patch *)

(** In the order of the source; the two probe addresses are read in either order. *)
Definition patch_steps : list (string * Step) :=
  [("refresh-interval", set_refresh_interval); ("health-check-interval", set_health_interval);
   ("url-test-url", set_test_url); ("url-test-fallback-url", set_fallback_url);
   ("url-test-timeout", set_test_timeout); ("switch-cooldown", set_cooldown); ("latency-threshold", set_threshold);
   ("auto-profile", profile_step); ("auto.allow-optimization", set_allow_optimization);
   ("auto.current-latency-ceiling", set_latency_ceiling); ("auto.latency-improvement", set_latency_improvement);
   ("auto.cooldown", set_auto_cooldown); ("auto.relative-improvement", relative_step);
   ("auto.required-candidate-wins", set_candidate_wins); ("auto.failure-threshold", set_failure_threshold);
   ("strict-egress-check", set_strict_egress); ("country-routing.enabled", set_country_enabled "country-routing.enabled");
   ("country-routing.country", set_country_code)].

Fixpoint run_steps (steps : list (string * Step)) (values : gmap string string) (s : Settings) : result SettingError Settings :=
  match steps with
  | [] => Ok s
  | (key, step) :: steps =>
    match values !! key with
    | None => run_steps steps values s
    | Some raw => let* s := step raw s in run_steps steps values s
    end
  end.

Definition patch_keys : list string := patch_steps.*1.

(** [keys]: the keys of the patch in the order in which the loop meets them. *)
Definition edit_patch (keys : list string) (values : gmap string string) (s : Settings) : result SettingError Settings :=
  match List.find (fun key => negb (bool_decide (key ∈ patch_keys))) keys with
  | Some key => Err (UnsupportedPatchKey key)
  | None =>
    let* s := run_steps patch_steps values s in
    let* s := canonical_routing s in
    Ok (enable_country_firewall s)
  end.

Definition patch_routes (values : gmap string string) : bool :=
  bool_decide (is_Some (values !! "country-routing.enabled")) || bool_decide (is_Some (values !! "country-routing.country")).

(** ** One setting *)

(** The settings, and whether the connection is applied again; [auto-mode] is apart. *)
Definition edit_setting (key value : string) (s : Settings) : result SettingError (Settings * bool) :=
  let quiet (r : result SettingError Settings) := let* s := r in Ok (s, false) in
  let routed (r : result SettingError Settings) := let* s := r in Ok (s, true) in
  if bool_decide (key = "refresh-interval") then quiet (set_refresh_interval value s)
  else if bool_decide (key = "health-check-interval") then quiet (set_health_interval value s)
  else if bool_decide (key = "url-test-url") then quiet (set_test_url value s)
  else if bool_decide (key = "url-test-fallback-url") then quiet (set_fallback_url value s)
  else if bool_decide (key = "url-test-timeout") then quiet (set_test_timeout value s)
  else if bool_decide (key = "switch-cooldown") then quiet (set_cooldown value s)
  else if bool_decide (key = "latency-threshold") then quiet (set_threshold value s)
  else if bool_decide (key = "strict-egress-check") then quiet (set_strict_egress value s)
  else if bool_decide (key = "russia-direct") || bool_decide (key = "country-routing.enabled") || bool_decide (key = "country-direct")
  then
    let* s := set_country_enabled key value s in
    let s := if bool_decide (key = "russia-direct") then s <| Settings.CountryRouting ::= with_country_code "RU" |> else s in
    let* s := canonical_routing s in
    Ok (enable_country_firewall s, true)
  else if bool_decide (key = "country-routing.country") || bool_decide (key = "direct-country")
  then let* s := set_country_code value s in Ok (s, CountryRouting.Enabled (Settings.CountryRouting s))
  else if bool_decide (key = "auto.excluded-nodes")
  then Ok (s <| Settings.AutoExcludedNodes := NormalizeAutoExcludedNodes (parseStringList value) |>, false)
  else if bool_decide (key = "auto.hide-keywords")
  then Ok (s <| Settings.AutoHideKeywords := NormalizeAutoHideKeywords (parseAutoHideKeywords value) |>, false)
  else if bool_decide (key = "log-level") then Ok (s <| Settings.LogLevel := value |>, true)
  else if bool_decide (key = "dns.mode") then routed (let* mode := of_dns (ParseDNSMode value) in Ok (with_dns (dns_mode mode) s))
  else if bool_decide (key = "dns.transport")
  then routed (let* transport := of_dns (ParseDNSTransport value) in Ok (with_dns (dns_transport transport) s))
  else if bool_decide (key = "dns.servers") then Ok (with_dns (dns_servers (parseStringList value)) s, true)
  else if bool_decide (key = "dns.bootstrap") then Ok (with_dns (dns_bootstrap (parseStringList value)) s, true)
  else if bool_decide (key = "dns.direct-domains") || bool_decide (key = "dns.domains")
  then Ok (with_dns (dns_domains (parseStringList value)) s, true)
  else Err (UnsupportedSetting key).

(** The keys whose change is taken back when it cannot be applied. *)
Definition country_key (key : string) : bool :=
  bool_decide (key ∈ ["russia-direct"; "country-routing.enabled"; "country-direct"; "country-routing.country"; "direct-country"]).

Definition edit_dns (dns : DNSSettings) (s : Settings) : result SettingError Settings :=
  let* mode := of_dns (ParseDNSMode (DNSSettings.Mode dns)) in
  let* transport := of_dns (ParseDNSTransport (DNSSettings.Transport dns)) in
  Ok (s <| Settings.DNS := DNSSettings.mk mode transport (normalizeStringList (DNSSettings.Servers dns))
             (normalizeStringList (DNSSettings.Bootstrap dns)) (normalizeStringList (DNSSettings.DirectDomains dns)) |>).

End Values.

(** ** Handlers *)

Section Service.
  Context `{ManagedBackend W, Router W, Runtime W, AutoRuntime W, FailoverRuntime W, ProfileStore W, AWGController W}.
  Context `{InterfaceBackend W, ZapretObserver W}.
  Context (rfc3339 : Time -> string) (url_host : string -> option (string * string)).
  Context (digest : StablePayload -> string) (profile_error_text : ProfileError -> string).
  Context (parse_float : string -> option f64) (parse_uri : string -> option RequestURI) (setting_text : SettingError -> string).
  Context (patch_order : gmap string string -> list string).

Abbreviation App := (Prog W Fault).
Abbreviation reapply := (reapplyCurrentConnectionWithReload rfc3339 url_host digest profile_error_text).

Definition valid {A} (r : result SettingError A) : App A :=
  of_result match r with Ok a => Ok a | Err e => Err (fault (setting_text e)) end.

Definition restoreSettingsRuntime (settings : Settings) : App unit :=
  _ ← act (wrap "save previous settings") (store_settings settings);
  map_error (wrap_fault "reapply previous runtime") reapply.

(** The previous settings come back when the new ones cannot be applied; the two
    callers add different contexts. *)
Definition apply_or_restore (failed restored : Fault -> Fault) (previous : Settings) : App unit :=
  applied ← attempt reapply;
  match applied with
  | Ok _ => mret tt
  | Err e =>
    back ← attempt (restoreSettingsRuntime previous);
    match back with
    | Err r => raise (Build_Fault (fault_text (failed e) +:+ "; restore previous setting: " +:+ fault_text r) (fault_retryable e))
    | Ok _ => raise (restored e)
    end
  end.

Definition PatchSettings (values : gmap string string) : App Settings :=
  previous ← load_settings_as "load settings";
  settings ← valid (edit_patch parse_float parse_uri (patch_order values) values previous);
  _ ← save_settings_as settings;
  _ ← when (patch_routes values)
        (apply_or_restore (wrap_fault "apply country routing") (wrap_fault "apply country routing") previous);
  mret settings.

Definition stored_settings_now : App Settings := fun w => of_reading fault (load_settings w) w.

(** [auto-mode]: switching off keeps the node that is connected. *)
Definition set_auto_mode (key value : string) : App Settings :=
  settings ← load_settings_as "load settings";
  enableAuto ← valid (parseBooleanSetting key value);
  loaded ← reads load_state;
  if (enableAuto : bool)
  then
    let settings := settings <| Settings.AutoMode := true |> <| Settings.Mode := SelectionModeAuto |> in
    _ ← save_settings_as settings; mret settings
  else
    let off (mode : string) : App Settings :=
      let settings := settings <| Settings.AutoMode := false |>
                               <| Settings.Mode := (if bool_decide (mode = SelectionModeAuto) then SelectionModeManual else mode) |> in
      _ ← save_settings_as settings; mret settings in
    match loaded with
    | Err _ => off (Settings.Mode settings)
    | Ok state =>
      if negb (RuntimeState.Connected state) then off (Settings.Mode settings)
      else if bool_decide (RuntimeState.Mode state = SelectionModeAuto)
              && negb (bool_decide (RuntimeState.ActiveSubscriptionID state = "")) && negb (bool_decide (RuntimeState.ActiveNodeID state = ""))
      then
        _ ← connectManual rfc3339 url_host (RuntimeState.ActiveSubscriptionID state) (RuntimeState.ActiveNodeID state);
        stored_settings_now
      else off (RuntimeState.Mode state)
    end.

Definition setSetting (key value : string) : App Settings :=
  if bool_decide (key = "auto-mode") then set_auto_mode key value
  else
    previous ← load_settings_as "load settings";
    edited ← valid (edit_setting parse_uri key value previous);
    _ ← save_settings_as edited.1;
    _ ← when edited.2
          (if country_key key then apply_or_restore (wrap_fault "apply country routing setting") id previous else reapply);
    mret edited.1.

Definition in_auto_mode (settings : Settings) : Settings :=
  settings <| Settings.AutoMode := true |> <| Settings.Mode := SelectionModeAuto |>.

(** What an exclusion list becomes, and the selection when it takes away the active node. *)
Definition setAutoExclusions (key value : string) : App Settings :=
  settings ← load_settings_as "load settings";
  settings ← valid
    (if bool_decide (key = "auto.excluded-nodes")
     then Ok (settings <| Settings.AutoExcludedNodes := NormalizeAutoExcludedNodes (parseStringList value) |>)
     else if bool_decide (key = "auto.hide-keywords")
     then Ok (settings <| Settings.AutoHideKeywords := NormalizeAutoHideKeywords (parseAutoHideKeywords value) |>)
     else Err (UnsupportedSetting key));
  _ ← save_settings_as settings;
  loaded ← reads load_state;
  match loaded with
  | Err _ => mret settings
  | Ok state =>
    if negb (RuntimeState.Connected state) || negb (bool_decide (RuntimeState.Mode state = SelectionModeAuto))
       || bool_decide (TrimSpace (RuntimeState.ActiveSubscriptionID state) = "")
    then mret settings
    else
      snapshot ← captureAutoSelectionSnapshot;
      let activeNode :=
        match List.find (fun sub => bool_decide (Subscription.ID sub = RuntimeState.ActiveSubscriptionID state))
                (autoSelectionSnapshot.subscriptions snapshot) with
        | Some sub => default (Node.zero <| Node.ID := RuntimeState.ActiveNodeID state |>) (NodeByID sub (RuntimeState.ActiveNodeID state))
        | None => Node.zero <| Node.ID := RuntimeState.ActiveNodeID state |>
        end in
      if negb (IsNodeExcludedFromAuto settings (RuntimeState.ActiveSubscriptionID state) activeNode) then mret settings
      else
        _ ← connectAutoUsingSnapshot rfc3339 url_host
              (if bool_decide (RuntimeState.AutoScope state = autoScopeAll) then autoScopeAll else RuntimeState.ActiveSubscriptionID state) snapshot;
        mret (in_auto_mode settings)
  end.

(** Switching automatic mode on connects when there is a connection. *)
Definition enable_auto_mode (key value : string) : App Settings :=
  snapshot ← captureAutoSelectionSnapshot;
  let state := autoSelectionSnapshot.state snapshot in
  if RuntimeState.Connected state && negb (bool_decide (RuntimeState.ActiveSubscriptionID state = ""))
  then
    _ ← connectAutoUsingSnapshot rfc3339 url_host
          (if bool_decide (RuntimeState.AutoScope state = autoScopeAll) then autoScopeAll else RuntimeState.ActiveSubscriptionID state) snapshot;
    mret (in_auto_mode (autoSelectionSnapshot.settings snapshot))
  else setSetting key value.

Definition SetSetting (key value : string) : App Settings :=
  if bool_decide (key = "auto-mode")
  then
    enableAuto ← valid (parseBooleanSetting key value);
    if (enableAuto : bool) then enable_auto_mode key value else setSetting key value
  else if bool_decide (key = "auto.excluded-nodes") || bool_decide (key = "auto.hide-keywords") then setAutoExclusions key value
  else setSetting key value.

(** ** DNS *)

Definition store_and_reapply (edit : Settings -> result SettingError Settings) : App Settings :=
  settings ← load_settings_as "load settings";
  settings ← valid (edit settings);
  _ ← save_settings_as settings;
  _ ← reapply;
  mret settings.

Definition applyDefaultDNS : App Settings := store_and_reapply (fun s => Ok (s <| Settings.DNS := DefaultDNSSettings |>)).
Definition updateDNS (dns : DNSSettings) : App Settings := store_and_reapply (edit_dns dns).

(** ** Reading *)

(** A running connection decides the mode. *)
Definition getSettings : App Settings :=
  settings ← load_settings_as "load settings";
  loaded ← reads load_state;
  match loaded with
  | Err _ => mret settings
  | Ok state =>
    if RuntimeState.Connected state
    then
      let '(settings, changed) := syncSettingsToRuntime settings state in
      _ ← when changed (save_settings_as settings);
      mret settings
    else mret settings
  end.

(** ** Zapret *)

Definition normalized_zapret (settings : Settings) : Settings :=
  settings <| Settings.Zapret := CanonicalZapretSettingsWithCatalog (Settings.Zapret settings)
                (FirewallSettings.TargetServiceCatalog (Settings.Firewall settings)) |>.

Definition with_zapret_enabled (enabled : bool) (z : ZapretSettings) : ZapretSettings :=
  ZapretSettings.mk enabled (ZapretSettings.Selectors z) (ZapretSettings.FailbackSuccessThreshold z).
Definition with_zapret_threshold (threshold : Z) (z : ZapretSettings) : ZapretSettings :=
  ZapretSettings.mk (ZapretSettings.Enabled z) (ZapretSettings.Selectors z) threshold.
Definition with_zapret_selectors (selectors : FirewallSelectorSet) (z : ZapretSettings) : ZapretSettings :=
  ZapretSettings.mk (ZapretSettings.Enabled z && ZapretSelectorSetHasEntries selectors) selectors (ZapretSettings.FailbackSuccessThreshold z).

(** Zapret carries no traffic any more. *)
Definition leave_zapret (state : RuntimeState) (reason : string) : App unit :=
  _ ← disconnectRuntime;
  let state := state <| RuntimeState.Connected := false |> in
  state ← stamp (negb (bool_decide (effectiveActiveTransport state = TransportModeDirect)))
    (fun now s => s <| RuntimeState.LastTransportSwitchAt := now |>) state;
  save_as "save state" (clearZapretTestState
    (state <| RuntimeState.ActiveTransport := TransportModeDirect |>
           <| RuntimeState.LastFailureReason := reason |>
           <| RuntimeState.LastTransportFailureReason := "" |>)).

Definition SetZapretEnabled (enabled : bool) : App ZapretSettings :=
  settings ← load_settings_as "load settings";
  let settings := normalized_zapret settings in
  if enabled && negb (ZapretSelectorSetHasEntries (ZapretSettings.Selectors (Settings.Zapret settings)))
  then raise (fault "zapret fallback needs at least one allowed preset or selector")
  else
    let settings := settings <| Settings.Zapret ::= with_zapret_enabled enabled |> in
    _ ← save_settings_as settings;
    _ ← when (negb enabled)
          (state ← load_state_as "load state";
           when (bool_decide (effectiveActiveTransport state = TransportModeZapret)) (leave_zapret state "zapret fallback disabled"));
    mret (Settings.Zapret settings).

(** Empty selectors switch the fallback off. *)
Definition SetZapretSelectors (zapret_text : ZapretError -> string) (selectors : list string) : App ZapretSettings :=
  settings ← load_settings_as "load settings";
  parsed ← of_result match ParseZapretSelectors selectors (FirewallSettings.TargetServiceCatalog (Settings.Firewall settings)) with
                     | Ok p => Ok p
                     | Err e => Err (fault (zapret_text e))
                     end;
  let settings := normalized_zapret settings <| Settings.Zapret ::= with_zapret_selectors parsed |> in
  _ ← save_settings_as settings;
  loaded ← reads load_state;
  _ ← match loaded with
      | Err _ => mret tt
      | Ok state =>
        if negb (bool_decide (effectiveActiveTransport state = TransportModeZapret)) then mret tt
        else if negb (ZapretSettings.Enabled (Settings.Zapret settings)) then leave_zapret state "zapret selectors are empty"
        else if ZapretTestState.Active (RuntimeState.ZapretTest state)
        then _ ← map_error snd (applyZapretTestMode settings state (ZapretTestState.Restore (RuntimeState.ZapretTest state))); mret tt
        else if negb (bool_decide (RuntimeState.ActiveSubscriptionID state = ""))
        then
          sub ← find_subscription (RuntimeState.ActiveSubscriptionID state);
          activateZapretFallback sub state settings (first_given [RuntimeState.LastFailureReason state; "zapret selectors updated"])
        else mret tt
      end;
  mret (Settings.Zapret settings).

Definition SetZapretFailbackSuccessThreshold (threshold : Z) : App ZapretSettings :=
  if threshold <? 1 then raise (fault "failback success threshold must be at least 1")
  else
    settings ← load_settings_as "load settings";
    let settings := normalized_zapret settings <| Settings.Zapret ::= with_zapret_threshold threshold |> in
    _ ← save_settings_as settings;
    mret (Settings.Zapret settings).

End Service.
