(* ===== verification/SettingsServiceFacts.v ===== *)
(** * Changing the settings: theorems

    A patch with an invalid value changes nothing; one setting in a patch is the
    same as the setting alone, except that a patch switches the firewall on again
    while country routing is on; a country setting that cannot be applied is taken
    back, other settings stay. *)
From S2P Require Import Prelude GoRunes GoStrings GoNum NetIP GoConv GoDuration Domain.

From S2P Require Import Firewall FirewallSettings.
From S2P Require Import Zapret Settings Connection Migrations PersistFacts Probe.

From S2P Require Import AutoState AutoSelect AutoSelectFacts Reserves XrayConfig XrayFacts.
From S2P Require Import BackendRequest AmneziaProfile AmneziaRuntime.
From S2P Require Import ManagedBackend Scheduler ManagedSwitch ManagedSwitchFacts Effects.
From S2P Require Import MemoryWorld NodeSelection NodeSelectionFacts.
From S2P Require Import ReserveRound ReserveRoundFacts AutoCommit Failover FailoverFacts Connect.
From S2P Require Import AmneziaService AmneziaServiceFacts.
From S2P Require Import Reapply SettingsKept FirewallService.

From S2P Require Import FirewallServiceFacts FirewallRuns SettingsService.

Local Open Scope Z_scope.
Local Open Scope list_scope.

(** ** What a save stays *)

(** An empty list of servers or domains may be read back as the default one. *)
Definition filled_dns (d : DNSSettings) : DNSSettings :=
  DNSSettings.mk (DNSSettings.Mode d) (DNSSettings.Transport d)
    (if bool_decide (DNSSettings.Servers d = []) then DNSSettings.Servers DefaultDNSSettings else DNSSettings.Servers d)
    (DNSSettings.Bootstrap d)
    (if bool_decide (DNSSettings.DirectDomains d = []) then DNSSettings.DirectDomains DefaultDNSSettings else DNSSettings.DirectDomains d).

(** The settings without the connection mode. *)
Definition rest (s : Settings) : Settings :=
  s <| Settings.DNS ::= filled_dns |> <| Settings.AutoMode := false |> <| Settings.Mode := "" |>.

Lemma reloaded_dns is_nil d : filled_dns (reload_dns is_nil d) = filled_dns d.
Proof.
  unfold filled_dns, reload_dns. cbn [DNSSettings.Mode DNSSettings.Transport DNSSettings.Servers DNSSettings.Bootstrap DNSSettings.DirectDomains].
  unfold json_strings. f_equal.
  - destruct (DNSSettings.Servers d); [|done]. by destruct (is_nil _).
  - destruct (DNSSettings.DirectDomains d); [|done]. by destruct (is_nil _).
Qed.

Lemma reloaded_rest is_nil s s' : settled s -> LoadSettings (Some (SaveSettings is_nil s)) = Ok s' -> rest s' = rest s.
Proof.
  intros (Hv & Hf & Hz & He & Hk & Hc). rewrite LoadSettings_saved, Hc. intros [= <-].
  unfold rest, reload_settings, upd. record_eq Settings.eta. cbn -[filled_dns reload_dns reload_firewall reload_zapret NormalizeAutoExcludedNodes NormalizeAutoHideKeywords].
  by rewrite Hf, Hz, He, Hk, Hv, reloaded_dns.
Qed.

(** Everything but the mode stays as it was loaded. *)
Definition holds (s : Settings) (s' : Settings) : Prop := settled s' /\ rest s' = rest s.

Lemma holds_reloads s is_nil t t' : holds s t -> LoadSettings (Some (SaveSettings is_nil t)) = Ok t' -> holds s t'.
Proof. intros [Ht Hr] E. split; [by apply loaded_settled in E|]. by rewrite (reloaded_rest _ _ _ Ht E). Qed.

Lemma holds_modes s mode auto t : holds s t -> holds s (t <| Settings.AutoMode := auto |> <| Settings.Mode := mode |>).
Proof. intros [Ht Hr]. split; [exact Ht|]. exact Hr. Qed.

(** ** Single values *)

Section Values.
  Context (parse_float : string -> option f64) (parse_uri : string -> option RequestURI).

Lemma run_none steps values s : (forall key, key ∈ steps.*1 -> values !! key = None) -> run_steps steps values s = Ok s.
Proof.
  induction steps as [|[key step] steps IH]; intros Hn; cbn [run_steps]; [done|].
  rewrite (Hn key) by (left; done). apply IH. intros k Hk. apply Hn. by right.
Qed.

(** A patch of one key runs its step. *)
Lemma run_one steps key step v s : NoDup steps.*1 -> (key, step) ∈ steps -> run_steps steps {[ key := v ]} s = step v s.
Proof.
  induction steps as [|[k f] steps IH]; intros Hnd Hin; [by apply not_elem_of_nil in Hin|]. cbn [run_steps fmap list_fmap] in *.
  apply NoDup_cons in Hnd as [Hk Hnd]. apply elem_of_cons in Hin as [[= <- <-]|Hin].
  - rewrite lookup_singleton_eq. destruct (step v s) as [t|e]; [|done]. cbn. apply run_none.
    intros k' Hk'. apply lookup_singleton_ne. intros <-. by apply Hk.
  - rewrite lookup_singleton_ne; [by apply IH|]. intros <-. apply Hk. apply list_elem_of_fmap. by exists (key, step).
Qed.

Lemma patch_keys_distinct : NoDup (patch_keys parse_float parse_uri).
Proof. apply (bool_decide_unpack _). vm_compute. exact I. Qed.

(** The keys that both [SetSetting] and [PatchSettings] take, apart from the
    country switch. *)
Definition shared_keys : list string :=
  ["refresh-interval"; "health-check-interval"; "url-test-url"; "url-test-fallback-url"; "url-test-timeout"; "switch-cooldown";
   "latency-threshold"; "strict-egress-check"].

(** A value is put into its place and the firewall is not looked at. *)
Lemma step_alone key v s : key ∈ shared_keys ->
  exists r : result SettingError Settings,
    edit_setting parse_uri key v s = (let* t := r in Ok (t, false)) /\
    run_steps (patch_steps parse_float parse_uri) {[ key := v ]} s = r /\
    forall t, r = Ok t -> Settings.CountryRouting t = Settings.CountryRouting s /\ Settings.Firewall t = Settings.Firewall s.
Proof.
  intros Hk. set_unfold in Hk.
  assert (Hduration : forall k z put r, duration_step k z put v s = Ok r -> (forall d, Settings.CountryRouting (put d s) = Settings.CountryRouting s /\
    Settings.Firewall (put d s) = Settings.Firewall s) -> Settings.CountryRouting r = Settings.CountryRouting s /\ Settings.Firewall r = Settings.Firewall s).
  { intros k z put r. unfold duration_step. destruct (ParseDurationValue v); [|done]. destruct (validateSettingDuration _ _ _); [done|].
    intros [= <-] Hp. apply Hp. }
  destruct Hk as [->|[->|[->|[->|[->|[->|[->|[->|[]]]]]]]]]; eexists;
    (split; [reflexivity|split; [apply run_one; [apply patch_keys_distinct|unfold patch_steps; repeat constructor]|]]); intros t.
  all: try (intros E; eapply Hduration; [exact E|]; by intros d).
  all: try (unfold set_test_url, set_fallback_url, url_step; destruct (validateProbeURL _ _); [done|]; by intros [= <-]).
  unfold set_strict_egress, boolean_step. intros (b & _ & [= <-])%result_bind_ok. done.
Qed.

Lemma listed_patch key v s : key ∈ patch_keys parse_float parse_uri ->
  edit_patch parse_float parse_uri [key] {[ key := v ]} s =
  (let* s := run_steps (patch_steps parse_float parse_uri) {[ key := v ]} s in
   let* s := canonical_routing s in Ok (enable_country_firewall s)).
Proof. intros Hk. unfold edit_patch. cbn [List.find]. by rewrite bool_decide_eq_true_2. Qed.

Lemma shared_listed key : key ∈ shared_keys -> key ∈ patch_keys parse_float parse_uri.
Proof. intros Hk. set_unfold in Hk. destruct Hk as [->|[->|[->|[->|[->|[->|[->|[->|[]]]]]]]]]; unfold patch_keys, patch_steps; cbn [fmap list_fmap fst]; repeat constructor. Qed.

(** Canonical country routing is stored as it is. *)
Lemma canonical_same s : CanonicalCountryRouting (Settings.CountryRouting s) = Ok (Settings.CountryRouting s) -> canonical_routing s = Ok s.
Proof. intros E. unfold canonical_routing, of_country. rewrite E. cbn. unfold upd. by destruct s. Qed.

Lemma enabled_again s : enable_country_firewall (enable_country_firewall s) = enable_country_firewall s.
Proof.
  destruct (CountryRouting.Enabled (Settings.CountryRouting s) && negb (FirewallSettings.Enabled (Settings.Firewall s))) eqn:E.
  - assert (E2 : FirewallSettings.Enabled (Settings.Firewall (enable_country_firewall s)) = true) by (unfold enable_country_firewall; by rewrite E).
    unfold enable_country_firewall at 1. by rewrite E2, andb_false_r.
  - assert (E2 : enable_country_firewall s = s) by (unfold enable_country_firewall; by rewrite E). by rewrite !E2.
Qed.

Lemma canonical_code enabled code : code ∈ supportedCountryCodes ->
  CanonicalCountryRouting (CountryRouting.mk enabled code) = Ok (CountryRouting.mk enabled code).
Proof.
  intros [Hc He]%supported_normal. unfold CanonicalCountryRouting. cbn [CountryRouting.CountryCode CountryRouting.Enabled].
  by rewrite bool_decide_eq_false_2, Hc.
Qed.

(** C36: one setting in a patch is the setting alone.  For the ten keys that both
    the command and the patch of the panel take, a patch of one key accepts the
    same values and gives the same settings as the command, except that
    the patch then switches a firewall that is off on again when country routing is on. *)
Theorem patch_matches_setting key v s :
  CanonicalCountryRouting (Settings.CountryRouting s) = Ok (Settings.CountryRouting s) ->
  key ∈ "country-routing.enabled" :: "country-routing.country" :: shared_keys ->
  edit_patch parse_float parse_uri [key] {[ key := v ]} s =
  (let* t := edit_setting parse_uri key v s in Ok (enable_country_firewall t.1)).
Proof.
  intros Hc Hk. rewrite !elem_of_cons in Hk. destruct Hk as [->|[->|Hk]].
  - rewrite listed_patch by (unfold patch_keys, patch_steps; cbn [fmap list_fmap fst]; repeat constructor).
    rewrite (run_one _ _ (set_country_enabled "country-routing.enabled"));
      [|apply patch_keys_distinct|unfold patch_steps; repeat constructor].
    change (edit_setting parse_uri "country-routing.enabled" v s) with
      (let* s := set_country_enabled "country-routing.enabled" v s in let* s := canonical_routing s in Ok (enable_country_firewall s, true)).
    destruct (set_country_enabled _ v s) as [t|e]; [|done]. cbn. destruct (canonical_routing t) as [u|e]; [|done]. cbn. by rewrite enabled_again.
  - rewrite listed_patch by (unfold patch_keys, patch_steps; cbn [fmap list_fmap fst]; repeat constructor).
    rewrite (run_one _ _ set_country_code); [|apply patch_keys_distinct|unfold patch_steps; repeat constructor].
    change (edit_setting parse_uri "country-routing.country" v s) with
      (let* s := set_country_code v s in Ok (s, CountryRouting.Enabled (Settings.CountryRouting s))).
    unfold set_country_code, of_country. destruct (NormalizeCountryCode v) as [code|e] eqn:En; [|done]. cbn.
    apply NormalizeCountryCode_supported in En. rewrite canonical_same; [done|].
    change (CanonicalCountryRouting (with_country_code code (Settings.CountryRouting s)) = Ok (with_country_code code (Settings.CountryRouting s))).
    by apply canonical_code.
  - rewrite listed_patch by by apply shared_listed. destruct (step_alone key v s Hk) as (r & -> & -> & Hr).
    destruct r as [t|e]; [|done]. cbn. destruct (Hr t eq_refl) as [Ht _]. by rewrite canonical_same by by rewrite Ht.
Qed.

End Values.

(** ** Handlers *)

Ltac end_world E := apply (f_equal snd) in E; cbn [snd] in E; subst.

Section Service.
  Context `{ManagedBackend W, Router W, Runtime W, AutoRuntime W, FailoverRuntime W, ProfileStore W, AWGController W}.
  Context `{InterfaceBackend W, ZapretObserver W, !SettingsFileLaws W}.
  Context (rfc3339 : Time -> string) (url_host : string -> option (string * string)).
  Context (digest : StablePayload -> string) (profile_error_text : ProfileError -> string).
  Context (parse_float : string -> option f64) (parse_uri : string -> option RequestURI) (setting_text : SettingError -> string).
  Context (patch_order : gmap string string -> list string).

Abbreviation App := (Prog W Fault).
Abbreviation reapply := (reapplyCurrentConnectionWithReload rfc3339 url_host digest profile_error_text).
Abbreviation apply_restoring := (apply_or_restore rfc3339 url_host digest profile_error_text).

Lemma reapply_holds s : stays (kept (holds s)) reapply.
Proof. apply stays_reapplied; [apply holds_reloads|apply holds_modes]. Qed.

(** What [s1] is, when the file of a successful store is read. *)
Definition saved_as (p s' : Settings) : Prop := exists is_nil s1, LoadSettings (Some (SaveSettings is_nil p)) = Ok s1 /\ rest s' = rest s1.

Lemma stored_saved p w w' : act (wrap "save settings") (store_settings p) w = (Ok tt, w') ->
  forall s', load_settings w' = Ok s' -> settled s' /\ saved_as p s'.
Proof.
  intros Hs%act_ok s' Hl. destruct (stored_new _ _ _ _ Hs Hl) as [n Hn]. split; [by apply loaded_settled in Hn|]. by exists n, s'.
Qed.

(** The connection that is applied afterwards changes nothing of it. *)
Lemma saved_kept p : forall w, (forall s', load_settings w = Ok s' -> settled s' /\ saved_as p s') ->
  forall s', load_settings (reapply w).2 = Ok s' -> settled s' /\ saved_as p s'.
Proof.
  apply (stays_reapplied (fun s' => settled s' /\ saved_as p s')).
  - intros n t t' (Ht & m & s1 & Hs1 & Hr) E. split; [by apply loaded_settled in E|]. exists m, s1. split; [done|]. by rewrite (reloaded_rest _ _ _ Ht E).
  - intros mode auto t (Ht & m & s1 & Hs1 & Hr). split; [exact Ht|]. by exists m, s1.
Qed.

(** When the connection cannot be applied, the previous settings come back. *)
Lemma taken_back f g s w e w' : settled s -> (forall s w, (store_settings s w).1 = None) ->
  apply_restoring f g s w = (Err e, w') -> kept (holds s) w'.
Proof.
  intros Hs Hstore. unfold apply_or_restore, mbind, prog_bind, attempt. destruct (reapply w) as [[u|a] w1]; [done|].
  unfold restoreSettingsRuntime, mbind, prog_bind, act. pose proof (Hstore s w1) as Hok.
  destruct (store_settings s w1) as [o w2] eqn:Es. cbn [fst] in Hok. subst o.
  assert (Hk : kept (holds s) w2).
  { intros s' Hl. destruct (stored_new _ _ _ _ Es Hl) as [n Hn]. split; [by apply loaded_settled in Hn|by eapply reloaded_rest]. }
  unfold map_error. pose proof (reapply_holds s w2 Hk) as Hk2. destruct (reapply w2) as [[u|b] w3]; cbn [snd] in Hk2; unfold raise; intros E; end_world E; exact Hk2.
Qed.

(** C14: a patch is applied as a whole or not at all.  With any value that is refused, or an
    unknown key, nothing has happened.  Otherwise, as long as the settings file can
    be written: on success the file holds exactly the patched settings, and
    on failure, when changed country routing could not be applied, it holds what it
    held before (up to the mode of the connection, which the connection decides). *)
Theorem patch_all_or_nothing values w s :
  load_settings w = Ok s -> settled s -> (forall s w, (store_settings s w).1 = None) ->
  match edit_patch parse_float parse_uri (patch_order values) values s with
  | Err e => PatchSettings rfc3339 url_host digest profile_error_text parse_float parse_uri setting_text patch_order values w
             = (Err (fault (setting_text e)), w)
  | Ok p => forall r w' s',
      PatchSettings rfc3339 url_host digest profile_error_text parse_float parse_uri setting_text patch_order values w = (r, w') ->
      load_settings w' = Ok s' ->
      match r with
      | Ok q => q = p /\ saved_as p s'
      | Err _ => rest s' = rest s
      end
  end.
Proof.
  intros Hl Hs Hstore. destruct (edit_patch _ _ _ _ s) as [p|e] eqn:Ep.
  2: { unfold PatchSettings, mbind, prog_bind, load_settings_as, valid, of_result. by rewrite Hl, Ep. }
  intros r w' s'. unfold PatchSettings, mbind, prog_bind, load_settings_as, valid, of_result. rewrite Hl, Ep.
  unfold save_settings_as. destruct (act _ (store_settings p) w) as [[[]|e] w1] eqn:Es.
  2: { unfold act in Es. pose proof (Hstore p w) as Hok. destruct (store_settings p w) as [[|]]; done. }
  pose proof (stored_saved _ _ _ Es) as Hst. destruct (patch_routes values); cbn [when].
  - destruct (apply_restoring _ _ s w1) as [[[]|e] w2] eqn:Ea.
    + intros E Hl'. injection E as <- <-. split; [done|]. revert Ea. unfold apply_or_restore, mbind, prog_bind, attempt.
      pose proof (saved_kept p w1 Hst) as Hafter. destruct (reapply w1) as [[[]|a] w3].
      * intros E. end_world E. by apply Hafter.
      * destruct (restoreSettingsRuntime _ _ _ _ _ w3) as [[|]]; done.
    + intros E Hl'. injection E as <- <-. pose proof (taken_back _ _ _ _ _ _ Hs Hstore Ea) as Hk. by apply Hk.
  - intros E Hl'. injection E as <- <-. split; [done|]. by apply Hst.
Qed.

(** C37: a setting that cannot be applied is taken back only when it is about country
    routing.  When a setting is valid and stored and the connection cannot be applied
    again, the command reports an error; after a change of country routing
    the file holds the previous settings, after any other change the new ones stay. *)
Theorem unapplied_setting key value w s t e w' s' :
  load_settings w = Ok s -> settled s -> (forall s w, (store_settings s w).1 = None) ->
  key <> "auto-mode" -> edit_setting parse_uri key value s = Ok (t, true) ->
  setSetting rfc3339 url_host digest profile_error_text parse_uri setting_text key value w = (Err e, w') ->
  load_settings w' = Ok s' ->
  if country_key key then rest s' = rest s else saved_as t s'.
Proof.
  intros Hl Hs Hstore Hk He. unfold setSetting. rewrite bool_decide_eq_false_2 by done.
  unfold mbind, prog_bind, load_settings_as, valid, of_result. rewrite Hl, He. cbn [fst snd].
  unfold save_settings_as. destruct (act _ (store_settings t) w) as [[[]|x] w1] eqn:Es.
  2: { unfold act in Es. pose proof (Hstore t w) as Hok. destruct (store_settings t w) as [[|]]; done. }
  pose proof (stored_saved _ _ _ Es) as Hst. cbn [when]. destruct (country_key key).
  - destruct (apply_restoring _ _ s w1) as [[[]|x] w2] eqn:Ea; [done|]. intros E Hl'. end_world E.
    pose proof (taken_back _ _ _ _ _ _ Hs Hstore Ea) as Hk2. by apply Hk2.
  - pose proof (saved_kept t w1 Hst) as Hafter. destruct (reapply w1) as [[[]|x] w2]; [done|]. intros E Hl'. end_world E. by apply Hafter.
Qed.

(** A patch of anything switches the firewall on again.  While country routing is
    on, a firewall that was switched off comes back with any patch, one of a timer
    as well: it is stored as switched on in the split mode, its hosts and
    targets are gone, and nothing is applied, so that the stored policy is not
    the one in force. *)
Theorem patch_reenables_firewall key v w s t b :
  load_settings w = Ok s -> settled s ->
  CountryRouting.Enabled (Settings.CountryRouting s) = true -> FirewallSettings.Enabled (Settings.Firewall s) = false ->
  key ∈ shared_keys -> patch_order {[ key := v ]} = [key] -> edit_setting parse_uri key v s = Ok (t, b) ->
  exists p, Settings.Firewall t = Settings.Firewall s /\
    PatchSettings rfc3339 url_host digest profile_error_text parse_float parse_uri setting_text patch_order {[ key := v ]} w
      = (match act (wrap "save settings") (store_settings p) w with (Ok _, w') => (Ok p, w') | (Err e, w') => (Err e, w') end) /\
    FirewallSettings.Enabled (Settings.Firewall p) = true /\ FirewallSettings.Mode (Settings.Firewall p) = FirewallModeSplit /\
    FirewallSettings.Hosts (Settings.Firewall p) = [] /\ FirewallSettings.Targets (Settings.Firewall p) = FirewallSelectorSet.zero.
Proof.
  intros Hl (_ & _ & _ & _ & _ & Hc) Hon Hoff Hk Ho He.
  pose proof (patch_matches_setting parse_float parse_uri key v s Hc) as Hp. rewrite He in Hp. cbn in Hp.
  specialize (Hp ltac:(rewrite !elem_of_cons; by right; right)).
  destruct (step_alone parse_float parse_uri key v s Hk) as (r & Hr1 & _ & Hr2).
  rewrite He in Hr1. destruct r as [t'|]; [|done]. cbn in Hr1. injection Hr1 as <- _. destruct (Hr2 t eq_refl) as [Ht1 Ht2].
  exists (enable_country_firewall t). split; [done|].
  assert (Hroutes : patch_routes {[ key := v ]} = false).
  { assert (Hn : "country-routing.enabled" ∉ shared_keys /\ "country-routing.country" ∉ shared_keys) by (split; apply (bool_decide_unpack _); vm_compute; exact I).
    destruct Hn as [Hn1 Hn2]. unfold patch_routes. rewrite !lookup_singleton_ne by congruence. reflexivity. }
  split.
  - unfold PatchSettings, mbind, prog_bind, load_settings_as, valid, of_result. rewrite Hl, Ho, Hp, Hroutes. cbn [when].
    unfold save_settings_as. by destruct (act _ _ w) as [[]].
  - unfold enable_country_firewall. rewrite Ht1, Ht2, Hon, Hoff. by cbn [andb negb].
Qed.

End Service.

(** ** On the world with a settings file *)

Abbreviation patch_there :=
  (PatchSettings (fun _ => "") (fun _ => None) (fun _ => "") (fun _ => "") (fun _ => None) (fun _ => None) (fun _ => "invalid value")
     (fun values => (map_to_list values).*1)).
Abbreviation set_there :=
  (setSetting (fun _ => "") (fun _ => None) (fun _ => "") (fun _ => "") (fun _ => None) (fun _ => "invalid value")).

Lemma service_settled : settled service_settings.
Proof.
  assert (E : LoadSettings (settings_file service_world) = Ok service_settings) by (vm_compute; reflexivity).
  exact (loaded_settled _ _ E).
Qed.

Lemma settings_store_ok s (w : SettingsWorld) : (store_settings s w).1 = None.
Proof. reflexivity. Qed.

Definition russia_patch : gmap string string := {[ "country-routing.enabled" := "true"; "country-routing.country" := "ru"; "refresh-interval" := "2h" ]}.
Definition broken_patch : gmap string string := {[ "country-routing.enabled" := "true"; "refresh-interval" := "2h"; "switch-cooldown" := "-1s" ]}.

(** A patch of three values is applied; one with an invalid value is not. *)
Lemma patch_all_or_nothing_witness :
  (patch_there broken_patch service_world).2 = service_world /\
  exists q s', (patch_there russia_patch service_world).1 = Ok q /\ load_settings (patch_there russia_patch service_world).2 = Ok s' /\
    Settings.CountryRouting s' = CountryRouting.mk true "RU" /\ saved_as q s'.
Proof.
  pose proof (fun values => patch_all_or_nothing (SettingsFileLaws0 := settings_world_laws) (fun _ => "") (fun _ => None) (fun _ => "") (fun _ => "")
    (fun _ => None) (fun _ => None) (fun _ => "invalid value") (fun values => (map_to_list values).*1) values service_world service_settings
    service_world_loads service_settled settings_store_ok) as T.
  split.
  - pose proof (T broken_patch) as Tb. destruct (edit_patch _ _ _ broken_patch service_settings) as [p|e] eqn:E; [vm_compute in E; discriminate E|].
    rewrite Tb. reflexivity.
  - pose proof (T russia_patch) as Tr. destruct (edit_patch _ _ _ russia_patch service_settings) as [p|e] eqn:E; [|vm_compute in E; discriminate E].
    destruct (patch_there russia_patch service_world) as [r w'] eqn:Er.
    destruct (load_settings w') as [s'|] eqn:El; [|vm_compute in Er; injection Er as <- <-; vm_compute in El; discriminate El].
    specialize (Tr r w' s' eq_refl El).
    destruct r as [q|]; [|vm_compute in Er; discriminate Er]. exists q, s'. split; [reflexivity|split; [exact El|split]].
    + vm_compute in Er. injection Er as <- <-. vm_compute in El. injection El as <-. reflexivity.
    + destruct Tr as [-> Hs]. exact Hs.
Defined.

(** A world in which no connection comes up. *)
Definition blocked_world : SettingsWorld :=
  Build_SettingsWorld (world_at OperationalModeVPN None (Some "blocked")) (settings_file service_world).

Lemma blocked_world_loads : load_settings blocked_world = Ok service_settings.
Proof. vm_compute. reflexivity. Qed.

Lemma unapplied_setting_witness :
  exists e w' s', set_there "russia-direct" "true" blocked_world = (Err e, w') /\ load_settings w' = Ok s' /\ rest s' = rest service_settings.
Proof.
  destruct (edit_setting (fun _ => None) "russia-direct" "true" service_settings) as [[t b]|] eqn:Ee; [|vm_compute in Ee; discriminate Ee].
  assert (Eb : b = true) by (vm_compute in Ee; injection Ee as _ <-; reflexivity). subst b.
  destruct (set_there "russia-direct" "true" blocked_world) as [[r|e] w'] eqn:Er; [vm_compute in Er; discriminate Er|].
  destruct (load_settings w') as [s'|] eqn:El; [|vm_compute in Er; injection Er as <- <-; vm_compute in El; discriminate El].
  exists e, w', s'. split; [reflexivity|split; [exact El|]].
  exact (unapplied_setting (SettingsFileLaws0 := settings_world_laws) (fun _ => "") (fun _ => None) (fun _ => "") (fun _ => "") (fun _ => None)
    (fun _ => "invalid value") "russia-direct" "true" blocked_world service_settings t e w' s' blocked_world_loads service_settled settings_store_ok
    ltac:(discriminate) Ee Er El).
Defined.

(** Country routing is on and the firewall was switched off. *)
Definition off_settings : Settings :=
  DefaultSettings <| Settings.CountryRouting := CountryRouting.mk true "RU" |>
    <| Settings.Firewall ::= fun f => f <| FirewallSettings.Enabled := false |> <| FirewallSettings.Mode := FirewallModeDisabled |> |>.
Definition off_world : SettingsWorld := Build_SettingsWorld vpn_world (Some (SaveSettings (fun _ => true) off_settings)).

Lemma patch_reenables_firewall_witness :
  exists p, (patch_there {[ "refresh-interval" := "2h" ]} off_world).1 = Ok p /\ FirewallSettings.Enabled (Settings.Firewall p) = true.
Proof.
  assert (El : load_settings off_world = Ok off_settings) by (vm_compute; reflexivity).
  assert (Es : settled off_settings) by (apply (loaded_settled (settings_file off_world)); vm_compute; reflexivity).
  destruct (edit_setting (fun _ => None) "refresh-interval" "2h" off_settings) as [[t b]|] eqn:Ee; [|vm_compute in Ee; discriminate Ee].
  destruct (patch_reenables_firewall (W := SettingsWorld) (fun _ => "") (fun _ => None) (fun _ => "") (fun _ => "") (fun _ => None) (fun _ => None)
    (fun _ => "invalid value") (fun values => (map_to_list values).*1) "refresh-interval" "2h" off_world off_settings t b El Es eq_refl eq_refl
    ltac:(repeat constructor) ltac:(vm_compute; reflexivity) Ee) as (p & _ & Hp & Hf & _).
  exists p. split; [|exact Hf]. rewrite Hp. reflexivity.
Defined.

Lemma patch_matches_setting_witness :
  edit_patch (fun _ => None) (fun _ => None) ["refresh-interval"] {[ "refresh-interval" := "2h" ]} off_settings =
  (let* t := edit_setting (fun _ => None) "refresh-interval" "2h" off_settings in Ok (enable_country_firewall t.1)).
Proof. apply patch_matches_setting; [vm_compute; reflexivity|repeat constructor]. Defined.
