(* ===== verification/ProviderNames.v ===== *)
(** * The name of a provider

    [domain/provider_name.go] and the names of subscriptions in [app/service.go]:
    where the name that is shown comes from, and what a refresh makes of it.
    [url.Parse] and [unicode.ToUpper] are parameters. *)
From S2P Require Import Prelude GoRunes GoStrings GoNum NetIP GoConv Domain.

Local Open Scope Z_scope.
Local Open Scope list_scope.

(** What is read of an address that [url.Parse] accepts. *)
Module ParsedURL.
Record ParsedURL : Type := mk { Scheme : string; Host : string; Hostname : string }.
End ParsedURL.
Abbreviation ParsedURL := ParsedURL.ParsedURL.

Module SubscriptionUpdates.
Import Subscription.
Definition eta (s : Subscription) : Subscription :=
  mk (ID s) (SourceType s) (Source s) (FileName s) (ProviderName s) (ProviderNameSource s) (DisplayName s) (HWID s)
     (LastUpdatedAt s) (ExpiresAt s) (Traffic s) (RefreshInterval s) (LastError s) (ParserStatus s) (Nodes s).
#[export] Instance set_ID : Setter ID := ltac:(mk_setter eta ID).
#[export] Instance set_ProviderName : Setter ProviderName := ltac:(mk_setter eta ProviderName).
#[export] Instance set_ProviderNameSource : Setter ProviderNameSource := ltac:(mk_setter eta ProviderNameSource).
#[export] Instance set_DisplayName : Setter DisplayName := ltac:(mk_setter eta DisplayName).
#[export] Instance set_HWID : Setter HWID := ltac:(mk_setter eta HWID).
#[export] Instance set_LastUpdatedAt : Setter LastUpdatedAt := ltac:(mk_setter eta LastUpdatedAt).
#[export] Instance set_ExpiresAt : Setter ExpiresAt := ltac:(mk_setter eta ExpiresAt).
#[export] Instance set_Traffic : Setter Traffic := ltac:(mk_setter eta Traffic).
#[export] Instance set_LastError : Setter LastError := ltac:(mk_setter eta LastError).
#[export] Instance set_ParserStatus : Setter ParserStatus := ltac:(mk_setter eta ParserStatus).
#[export] Instance set_Nodes : Setter Nodes := ltac:(mk_setter eta Nodes).
End SubscriptionUpdates.
Export (hints) SubscriptionUpdates.

Definition default_provider : string := "Imported Subscription".

Definition hyphens_to_spaces (label : string) : string := replace_byte "_" " " (replace_byte "-" " " label).

(** The first name that is not blank, trimmed. *)
Definition display_name (displayName providerName : string) : string :=
  if bool_decide (TrimSpace displayName = "") then TrimSpace providerName else TrimSpace displayName.

Section Names.
  Context (url_parse : string -> option ParsedURL) (to_upper : Z -> Z).

(** ** From a host name *)

Definition normalizeProviderHost (value : string) : string :=
  let value := TrimSpace value in
  let bare :=
    let value := match cut_byte value "/"%char with Some (a, _) => a | None => value end in
    match SplitHostPort value with Ok (host, _) => TrimSpace host | Err _ => TrimSpace value end in
  if bool_decide (value = "") then ""
  else
    match url_parse value with
    | Some u => if bool_decide (ParsedURL.Host u = "") then bare else TrimSpace (ParsedURL.Hostname u)
    | None => bare
    end.

Definition isCommonSecondLevelLabel (value : string) : bool :=
  bool_decide (ToLower (TrimSpace value) ∈ ["co"; "com"; "net"; "org"; "gov"; "ac"; "edu"]).

(** The label that names the provider: the second from the end, or the third under
    a country's second level. *)
Definition stem_label (parts : list string) : string :=
  let n := length parts in
  let index :=
    if bool_decide (2 <= n)%nat
    then
      if bool_decide (3 <= n)%nat && bool_decide (String.length (default "" (last parts)) = 2%nat)
         && isCommonSecondLevelLabel (default "" (parts !! (n - 2)%nat))
      then (n - 3)%nat else (n - 2)%nat
    else (n - 1)%nat in
  default "" (parts !! index).

Definition without_service_prefix (label : string) : string :=
  match List.find (fun prefix => HasPrefix label prefix && bool_decide (String.length prefix + 2 < String.length label)%nat)
          ["conn"; "vpn"; "sub"; "api"; "www"] with
  | Some prefix => TrimPrefix label prefix
  | None => label
  end.

Definition providerDomainStem (value : string) : string :=
  let host := normalizeProviderHost value in
  if bool_decide (host = "") then ""
  else TrimSpace (without_service_prefix (stem_label (split_byte (ToLower host) "."%char))).

Definition isDomainLike (value : string) : bool :=
  let host := normalizeProviderHost value in
  if bool_decide (host = "") || Contains host " " then false
  else Contains host "." && bool_decide (ParseIP host = None).

Definition title_word (part : string) : string :=
  match runes (ToLower part) with
  | [] => part
  | r :: rest => of_bytes (encode (to_upper r :: rest))
  end.

Definition titleWords (value : string) : string := Join (title_word <$> Fields (TrimSpace value)) " ".

Definition with_vpn (label : string) : string := if Contains (ToLower label) "vpn" then label else label +:+ " VPN".

Definition HumanizeProviderName (value : string) : string :=
  let value := TrimSpace value in
  if bool_decide (value = "") then "Imported VPN"
  else if negb (isDomainLike value) then value
  else
    let label := providerDomainStem value in
    if bool_decide (label = "") then "Imported VPN"
    else TrimSpace (with_vpn (titleWords (hyphens_to_spaces label))).

Definition ProviderNameFromURL (rawURL : string) : string :=
  let rawURL := TrimSpace rawURL in
  if bool_decide (rawURL = "") then default_provider else HumanizeProviderName rawURL.

(** ** The name of a subscription and where it comes from *)

Definition deriveProviderName (sourceType rawURL : string) : string :=
  if bool_decide (sourceType = SourceTypeURL) then ProviderNameFromURL rawURL else default_provider.

(** [title]: the name in the answer of the provider. *)
Definition resolveProviderName (reqName sourceType rawURL title : string) : string * string :=
  if negb (bool_decide (TrimSpace reqName = "")) then (TrimSpace reqName, ProviderNameSourceManual)
  else if negb (bool_decide (TrimSpace title = "")) then (TrimSpace title, ProviderNameSourceHeader)
  else if bool_decide (sourceType = SourceTypeURL) then (deriveProviderName sourceType rawURL, ProviderNameSourceURL)
  else (default_provider, ProviderNameSourceDefault).

Definition effectiveProviderNameSource (sub : Subscription) : string :=
  if negb (bool_decide (Subscription.ProviderNameSource sub = "")) then Subscription.ProviderNameSource sub
  else
    let providerName := TrimSpace (Subscription.ProviderName sub) in
    let displayName := TrimSpace (Subscription.DisplayName sub) in
    if bool_decide (providerName = "") && bool_decide (displayName = "") then ProviderNameSourceDefault
    else
      let '(providerName, displayName) :=
        if bool_decide (providerName = "") then (displayName, displayName)
        else if bool_decide (displayName = "") then (providerName, providerName)
        else (providerName, displayName) in
      if negb (bool_decide (providerName = displayName)) then ProviderNameSourceManual
      else if bool_decide (Subscription.SourceType sub = SourceTypeURL)
              && bool_decide (providerName = deriveProviderName (Subscription.SourceType sub) (Subscription.Source sub))
      then ProviderNameSourceURL
      else if bool_decide (providerName = default_provider) then ProviderNameSourceDefault
      else ProviderNameSourceManual.

Definition subscriptionURLHost (rawURL : string) : string :=
  let rawURL := TrimSpace rawURL in
  if bool_decide (rawURL = "") then ""
  else match url_parse rawURL with Some u => TrimSpace (ParsedURL.Hostname u) | None => "" end.

Definition humanizeLegacyHostLabel (label : string) : string :=
  let label := TrimSpace label in
  if bool_decide (label = "") then ""
  else
    let result := Join (title_word <$> Fields (hyphens_to_spaces label)) " " in
    if bool_decide (result = "") then "" else with_vpn result.

Definition normalizeProviderNameToken (value : string) : string :=
  Join (Fields (replace_byte "_" " " (TrimSpace (ToLower value)))) " ".

(** The names that older versions made up. *)
Definition push_candidate (candidates : list string) (value : string) : list string :=
  let value := TrimSpace value in
  if bool_decide (value = "") || existsb (fun existing => EqualFold existing value) candidates then candidates
  else candidates ++ [value].

Definition legacyAutoProviderNameCandidates (sub : Subscription) : list string :=
  let candidates := push_candidate [] (deriveProviderName (Subscription.SourceType sub) (Subscription.Source sub)) in
  if negb (bool_decide (Subscription.SourceType sub = SourceTypeURL)) then push_candidate candidates default_provider
  else
    let host := subscriptionURLHost (Subscription.Source sub) in
    let candidates := push_candidate candidates host in
    if bool_decide (host = "") then candidates
    else
      match split_byte (ToLower host) "."%char with
      | part :: _ => if bool_decide (part = "") then candidates else push_candidate candidates (humanizeLegacyHostLabel part)
      | [] => candidates
      end.

Definition canUpgradeLegacyProviderName (sub : Subscription) (currentName : string) : bool :=
  if bool_decide (TrimSpace currentName = "") then true
  else if negb (bool_decide (Subscription.ProviderNameSource sub = "")) then false
  else existsb (fun candidate => bool_decide (normalizeProviderNameToken candidate = normalizeProviderNameToken currentName))
         (legacyAutoProviderNameCandidates sub).

(** The provider's name, the name that is shown and where they come from, after a refresh. *)
Definition refreshedProviderIdentity (sub : Subscription) (title : string) : string * string * string :=
  let currentName := display_name (Subscription.DisplayName sub) (Subscription.ProviderName sub) in
  let resolved := resolveProviderName "" (Subscription.SourceType sub) (Subscription.Source sub) title in
  if canUpgradeLegacyProviderName sub currentName then (resolved.1, resolved.1, resolved.2)
  else
    let source := effectiveProviderNameSource sub in
    if bool_decide (source = ProviderNameSourceManual) then (currentName, currentName, source)
    else if negb (bool_decide (TrimSpace title = "")) then (TrimSpace title, TrimSpace title, ProviderNameSourceHeader)
    else if negb (bool_decide (currentName = "")) then (currentName, currentName, source)
    else (resolved.1, resolved.1, resolved.2).

End Names.

Definition ascii_upper (r : Z) : Z := if (97 <=? r) && (r <=? 122) then r - 32 else r.

Example humanize_ex1 : HumanizeProviderName (fun _ => None) ascii_upper "connsample.example" = "Sample VPN".
Proof. vm_compute. reflexivity. Qed.
Example humanize_ex2 : HumanizeProviderName (fun _ => None) ascii_upper "key.vpndemo.example" = "Demo VPN".
Proof. vm_compute. reflexivity. Qed.
Example humanize_ex3 : HumanizeProviderName (fun _ => Some (ParsedURL.mk "https" "key.vpndemo.example" "key.vpndemo.example")) ascii_upper
  "https://key.vpndemo.example/sub/abc" = "Demo VPN".
Proof. vm_compute. reflexivity. Qed.
Example humanize_ex4 : HumanizeProviderName (fun _ => None) ascii_upper "Sample VPN" = "Sample VPN".
Proof. vm_compute. reflexivity. Qed.
