(* ===== verification/SubscriptionFetch.v ===== *)
(** * Fetching a subscription

    What the service asks a provider and what it makes of the answer
    ([app/service.go]): the attempts and their delays, the names and limits in the
    headers, pages and error documents in place of a subscription.

    Regular expressions, [encoding/json], [html.UnescapeString], [url.Parse], the
    HTTP client and the random source are interfaces. *)
From S2P Require Import Prelude GoRunes GoStrings GoNum NetIP Domain GoConv GoConvFacts Effects.
From S2P Require Import NodeSelection ProviderNames.

Local Open Scope Z_scope.
Local Open Scope list_scope.

(** What the code takes from the libraries that read texts. *)
Class WebText := {
  url_parse : string -> option ParsedURL;
  unescape : string -> string;                     (** [html.UnescapeString] *)
  share_link_matches : string -> list string;      (** [subscriptionShareLinkPattern.FindAllString] *)
  heading_match : string -> option string;         (** [htmlH1Pattern], the group *)
  title_match : string -> option string;           (** [htmlTitlePattern] *)
  strip_tags : string -> string;                   (** [htmlTagPattern.ReplaceAllString] with a space *)
  json_object : string -> option (list (string * option string))
    (** the fields of a JSON object; the value when [json.Unmarshal] reads it as a string *)
}.

(** ** Headers *)

Module SubscriptionMetadata.
Record SubscriptionMetadata : Type := mk {
  ProviderName : string;
  ExpiresAt : option Time;
  Traffic : option SubscriptionTraffic.SubscriptionTraffic
}.
Definition zero : SubscriptionMetadata := mk "" None None.
End SubscriptionMetadata.
Abbreviation SubscriptionMetadata := SubscriptionMetadata.SubscriptionMetadata.

(** [time.Unix(n, 0)]; its seconds wrap around. *)
Definition from_unix (n : Z) : Time := wrap64 (n + 62135596800) * Second.

Module Userinfo.
Record Userinfo : Type := mk { expire : option Time; traffic : SubscriptionTraffic.SubscriptionTraffic; hasTraffic : bool }.
End Userinfo.
Abbreviation Userinfo := Userinfo.Userinfo.

Definition no_traffic : SubscriptionTraffic.SubscriptionTraffic := SubscriptionTraffic.mk 0 0 0.
Definition no_userinfo : Userinfo := Userinfo.mk None no_traffic false.

Definition userinfo_part (info : Userinfo) (part : string) : Userinfo :=
  match cut_byte (TrimSpace part) "="%char with
  | None => info
  | Some (key, value) =>
    match Atoi (TrimSpace value) with
    | None => info
    | Some number =>
      let t := Userinfo.traffic info in
      let key := ToLower (TrimSpace key) in
      if number <? 0 then info
      else if bool_decide (key = "expire")
      then if 0 <? number then Userinfo.mk (Some (from_unix number)) t (Userinfo.hasTraffic info) else info
      else if bool_decide (key = "upload")
      then Userinfo.mk (Userinfo.expire info) (SubscriptionTraffic.mk number (SubscriptionTraffic.DownloadBytes t) (SubscriptionTraffic.TotalBytes t)) true
      else if bool_decide (key = "download")
      then Userinfo.mk (Userinfo.expire info) (SubscriptionTraffic.mk (SubscriptionTraffic.UploadBytes t) number (SubscriptionTraffic.TotalBytes t)) true
      else if bool_decide (key = "total")
      then Userinfo.mk (Userinfo.expire info) (SubscriptionTraffic.mk (SubscriptionTraffic.UploadBytes t) (SubscriptionTraffic.DownloadBytes t) number) true
      else info
    end
  end.

Definition parseSubscriptionUserinfoValue (raw : string) : option Time * option SubscriptionTraffic.SubscriptionTraffic :=
  let info := foldl userinfo_part no_userinfo (split_byte raw ";"%char) in
  (Userinfo.expire info, if Userinfo.hasTraffic info then Some (Userinfo.traffic info) else None).

(** The first of two headers that says something, for either part. *)
Definition parseSubscriptionUserinfo (header : string -> string) : option Time * option SubscriptionTraffic.SubscriptionTraffic :=
  let first := parseSubscriptionUserinfoValue (header "Subscription-Userinfo") in
  let second := parseSubscriptionUserinfoValue (header "X-Subscription-Userinfo") in
  (match first.1 with Some t => Some t | None => second.1 end, match first.2 with Some t => Some t | None => second.2 end).

(** [base64.StdEncoding] and [base64.RawStdEncoding], which ignore the unused bits. *)
Fixpoint decode64_lax (padded : bool) (l : list Z) : option (list Z) :=
  match l with
  | [] => Some []
  | a :: b :: c :: d :: t =>
    match sextet_of a, sextet_of b with
    | Some a, Some b =>
      if padded && (d =? 61)
      then
        if negb (bool_decide (t = [])) then None
        else if c =? 61 then Some [a * 4 + b / 16]
        else match sextet_of c with
             | Some c => Some [a * 4 + b / 16; b mod 16 * 16 + c / 4]
             | None => None
             end
      else
        match sextet_of c, sextet_of d, decode64_lax padded t with
        | Some c, Some d, Some rest => Some (a * 4 + b / 16 :: b mod 16 * 16 + c / 4 :: c mod 4 * 64 + d :: rest)
        | _, _, _ => None
        end
    | _, _ => None
    end
  | [a; b] =>
    match sextet_of a, sextet_of b with
    | Some a, Some b => if padded then None else Some [a * 4 + b / 16]
    | _, _ => None
    end
  | [a; b; c] =>
    match sextet_of a, sextet_of b, sextet_of c with
    | Some a, Some b, Some c => if padded then None else Some [a * 4 + b / 16; b mod 16 * 16 + c / 4]
    | _, _, _ => None
    end
  | _ => None
  end.

Definition decoded_title (padded : bool) (encoded : string) : string :=
  match decode64_lax padded (filter (fun c => negb ((c =? 10) || (c =? 13)) = true) (to_bytes encoded)) with
  | Some bytes => TrimSpace (of_bytes bytes)
  | None => ""
  end.

Definition drop_bytes (n : nat) (s : string) : string := of_bytes (drop n (to_bytes s)).

Definition decodeProfileTitle (value : string) : string :=
  let value := TrimSpace value in
  if bool_decide (value = "") then ""
  else if negb (HasPrefix (ToLower value) "base64:") then value
  else
    let encoded := TrimSpace (drop_bytes 7 value) in
    if bool_decide (encoded = "") then ""
    else if negb (bool_decide (decoded_title true encoded = "")) then decoded_title true encoded
    else decoded_title false encoded.

Definition response_metadata (header : string -> string) : SubscriptionMetadata :=
  SubscriptionMetadata.mk (decodeProfileTitle (header "Profile-Title"))
    (parseSubscriptionUserinfo header).1 (parseSubscriptionUserinfo header).2.

Definition needsSubscriptionMetadataFallback (m : SubscriptionMetadata) : bool :=
  bool_decide (SubscriptionMetadata.ExpiresAt m = None) || negb (bool_decide (is_Some (SubscriptionMetadata.Traffic m))).

Definition mergeSubscriptionMetadata (primary fallback : SubscriptionMetadata) : SubscriptionMetadata :=
  SubscriptionMetadata.mk
    (if bool_decide (TrimSpace (SubscriptionMetadata.ProviderName primary) = "")
     then SubscriptionMetadata.ProviderName fallback else SubscriptionMetadata.ProviderName primary)
    (match SubscriptionMetadata.ExpiresAt primary with Some t => Some t | None => SubscriptionMetadata.ExpiresAt fallback end)
    (match SubscriptionMetadata.Traffic primary with Some t => Some t | None => SubscriptionMetadata.Traffic fallback end).

(** ** Requests *)

Definition setHAPPSubscriptionHeaders (hwid : string) : list (string * string) :=
  [("X-Device-Os", "OpenWrt"); ("X-Device-Model", "NanoPi R4S"); ("X-Device-Locale", "ru"); ("X-Ver-Os", "FriendlyWrt")]
  ++ (if bool_decide (hwid = "") then [] else [("X-Hwid", hwid)]).

Definition content_headers (hwid userAgent : string) : list (string * string) :=
  [("Accept", "text/plain, application/json;q=0.9, */*;q=0.8"); ("Accept-Language", "en-US,en;q=0.9"); ("User-Agent", userAgent)]
  ++ setHAPPSubscriptionHeaders hwid.

Definition metadata_headers (hwid userAgent : string) : list (string * string) :=
  [("Accept", "*/*"); ("User-Agent", userAgent)] ++ setHAPPSubscriptionHeaders hwid.

Definition hex_bytes (l : list Z) : string := of_bytes (l ≫= (fun b => [hex_digit (b / 16); hex_digit (b mod 16)])).

(** The random identifier of version 4 of [newSubscriptionHWID]. *)
Definition hwid_of (id : list Z) : string :=
  let id := <[6%nat := Z.lor (Z.land (default 0 (id !! 6%nat)) 15) 64]> id in
  let id := <[8%nat := Z.lor (Z.land (default 0 (id !! 8%nat)) 63) 128]> id in
  Join (hex_bytes <$> [take 4 id; take 2 (drop 4 id); take 2 (drop 6 id); take 2 (drop 8 id); take 6 (drop 10 id)]) "-".

(** An answer; reading its body up to a limit gives what was read and perhaps an error. *)
Module Response.
Record Response : Type := mk {
  StatusCode : Z;
  Status : string;
  Header : string -> string;
  read_limited : Z -> string * option string
}.
End Response.
Abbreviation Response := Response.Response.

(** [client.Do] fails with a text; [cancelled]: the error of the context, if it has one. *)
Module RequestFailure.
Record RequestFailure : Type := mk { text : string; cancelled : option string }.
End RequestFailure.
Abbreviation RequestFailure := RequestFailure.RequestFailure.

Class SubscriptionHost (W : Type) := {
  request_error : string -> option string;                 (** [http.NewRequestWithContext] *)
  http_get : bool -> string -> list (string * string) -> W -> result RequestFailure Response * W;
    (** the plain client, or the one that is limited to TLS 1.2 *)
  tls12_client : bool;                                     (** there is the second client *)
  back_off : Duration -> W -> option string * W;           (** the error of the context when it ends first *)
  random_id : W -> result string (list Z) * W;
  now_utc : W -> Time * W;
  read_subscriptions : W -> result string (list Subscription);
  save_subscriptions : list Subscription -> W -> option string * W
}.

Definition subscriptionFetchMaxAttempts : nat := 3.
Definition subscriptionFetchBaseBackoff : Duration := 250 * Millisecond.
Definition subscriptionFetchUserAgent : string := "Happ/2.18.1".
Definition subscriptionFetchFallbackUserAgent : string := "sing-box/1.10.0".
Definition subscriptionMetadataFallbackUserAgent : string := "curl/8.7.1".

Definition isTransientSubscriptionStatus (code : Z) : bool := bool_decide (code ∈ [400; 403; 406; 429; 500; 502; 503; 504]).

(** ** Bodies that are not subscriptions *)

Definition cut_text (text : string) : string :=
  if bool_decide (160 < String.length text)%nat then of_bytes (take 160 (to_bytes text)) +:+ "..." else text.

Definition isHTMLLike (trimmed : string) : bool :=
  let lower := ToLower trimmed in
  HasPrefix lower "<!doctype html" || HasPrefix lower "<html" || (Contains lower "<body" && Contains lower "</html>").

Section Bodies.
  Context `{WebText}.

Definition cleanHTMLSnippet (value : string) : string := TrimSpace (Join (Fields (strip_tags (unescape value))) " ").

Definition summarizeHTMLResponse (trimmed : string) : string :=
  let snippet (m : option string) := match m with Some text => cleanHTMLSnippet text | None => "" end in
  if negb (isHTMLLike trimmed) then ""
  else if negb (bool_decide (snippet (heading_match trimmed) = "")) then snippet (heading_match trimmed)
  else if negb (bool_decide (snippet (title_match trimmed) = "")) then snippet (title_match trimmed)
  else cut_text (cleanHTMLSnippet trimmed).

(** The last of equal keys counts. *)
Definition jsonStringField (payload : list (string * option string)) (key : string) : string :=
  match List.find (fun f => bool_decide (f.1 = key)) (rev payload) with
  | Some (_, Some text) => TrimSpace text
  | _ => ""
  end.

Definition first_text (values : list string) : string :=
  match List.find (fun v => negb (bool_decide (TrimSpace v = ""))) values with Some v => TrimSpace v | None => "" end.

Definition summarizeJSONEndpointError (trimmed : string) : string :=
  if negb (HasPrefix trimmed "{") then ""
  else
    match json_object trimmed with
    | None => ""
    | Some payload =>
      if existsb (fun key => bool_decide (key ∈ payload.*1)) ["outbounds"; "protocol"; "config"; "link"] then ""
      else
        let code := jsonStringField payload "error" in
        let info := first_text [jsonStringField payload "info"; jsonStringField payload "message"; jsonStringField payload "detail"] in
        if negb (bool_decide (code = "")) && negb (bool_decide (info = ""))
        then "subscription endpoint error " +:+ code +:+ ": " +:+ info
        else if negb (bool_decide (code = "")) then "subscription endpoint error " +:+ code
        else if negb (bool_decide (info = "")) then "subscription endpoint error: " +:+ info
        else ""
    end.

Definition extractSubscriptionShareLinks (value : string) : list string :=
  foldl (fun out m => let link := unescape (TrimSpace m) in if bool_decide (link = "") then out else push_unique out link)
    [] (share_link_matches value).

(** The text that is parsed, or why there is none. *)
Definition normalizeSubscriptionResponse (rawURL body : string) : result string string :=
  let trimmed := TrimSpace body in
  let failed (message : string) : result string string := Err ("fetch " +:+ rawURL +:+ ": " +:+ message) in
  if bool_decide (trimmed = "") then failed "empty response body"
  else if isHTMLLike trimmed
  then
    match extractSubscriptionShareLinks trimmed with
    | [] => failed (if bool_decide (summarizeHTMLResponse trimmed = "") then "endpoint returned HTML page instead of subscription data"
                    else summarizeHTMLResponse trimmed)
    | links => Ok (Join links newline)
    end
  else if negb (bool_decide (summarizeJSONEndpointError trimmed = "")) then failed (summarizeJSONEndpointError trimmed)
  else Ok body.

Definition isDDoSGuardResponse (resp : Response) (body : string) : bool :=
  Contains (ToLower (Response.Header resp "Server")) "ddos-guard" || Contains (ToLower body) "ddos-guard".

Definition summarizeDDoSGuardResponse (resp : Response) (body : string) : string :=
  if negb (isDDoSGuardResponse resp body) then ""
  else if (Response.StatusCode resp =? 503) || (Response.StatusCode resp =? 504)
  then "subscription endpoint is protected by DDoS-Guard and rejected the automated request"
  else "subscription endpoint is protected by DDoS-Guard".

Definition summarizeSubscriptionResponseBody (body : string) : string :=
  let trimmed := TrimSpace body in
  if bool_decide (trimmed = "") then ""
  else if negb (bool_decide (summarizeJSONEndpointError trimmed = "")) then summarizeJSONEndpointError trimmed
  else if negb (bool_decide (summarizeHTMLResponse trimmed = "")) then summarizeHTMLResponse trimmed
  else cut_text (TrimSpace match cut_byte trimmed line_feed with Some (a, _) => a | None => trimmed end).

Definition summarizeSubscriptionFailure (resp : Response) (body : string) : string :=
  if negb (bool_decide (summarizeDDoSGuardResponse resp body = "")) then summarizeDDoSGuardResponse resp body
  else summarizeSubscriptionResponseBody body.

Definition shouldRetrySubscriptionTLS12 (rawURL err : string) : bool :=
  match url_parse rawURL with
  | Some u => EqualFold (ParsedURL.Scheme u) "https" && Contains (ToLower err) "tls handshake timeout"
  | None => false
  end.

End Bodies.

(** ** Fetching *)

Module FetchFault.
Record FetchFault : Type := mk { retry : bool; text : string }.
End FetchFault.
Abbreviation FetchFault := FetchFault.FetchFault.

Module FetchResult.
Record FetchResult : Type := mk { Content : string; Metadata : SubscriptionMetadata }.
End FetchResult.
Abbreviation FetchResult := FetchResult.FetchResult.

Definition success_status (resp : Response) : bool := (200 <=? Response.StatusCode resp) && (Response.StatusCode resp <? 300).

Section Fetch.
  Context `{WebText} `{SubscriptionHost W}.

Definition read_response (rawURL : string) (resp : Response) : result FetchFault FetchResult :=
  if negb (success_status resp)
  then
    let message := summarizeSubscriptionFailure resp (Response.read_limited resp 65536).1 in
    let status := "fetch " +:+ rawURL +:+ ": unexpected status " +:+ Response.Status resp in
    Err (FetchFault.mk (isTransientSubscriptionStatus (Response.StatusCode resp))
           (if bool_decide (message = "") then status else status +:+ ": " +:+ message))
  else
    match Response.read_limited resp 8388608 with
    | (_, Some e) => Err (FetchFault.mk false ("read response body: " +:+ e))
    | (body, None) =>
      match normalizeSubscriptionResponse rawURL body with
      | Err e => Err (FetchFault.mk false e)
      | Ok content => Ok (FetchResult.mk content (response_metadata (Response.Header resp)))
      end
    end.

Definition fetchSubscriptionOnceWithClient (rawURL hwid userAgent : string) (tls12 : bool) : Prog W FetchFault FetchResult :=
  match request_error rawURL with
  | Some e => raise (FetchFault.mk false ("build request: " +:+ e))
  | None =>
    answer ← outcome (http_get tls12 rawURL (content_headers hwid userAgent));
    match answer with
    | Err e =>
      raise match RequestFailure.cancelled e with
            | Some ctx => FetchFault.mk false ("fetch " +:+ rawURL +:+ ": " +:+ ctx)
            | None => FetchFault.mk true ("fetch " +:+ rawURL +:+ ": " +:+ RequestFailure.text e)
            end
    | Ok resp => of_result (read_response rawURL resp)
    end
  end.

Definition fetchSubscriptionOnce (rawURL hwid userAgent : string) : Prog W FetchFault FetchResult :=
  answer ← attempt (fetchSubscriptionOnceWithClient rawURL hwid userAgent false);
  match answer with
  | Ok r => mret r
  | Err e =>
    if negb (shouldRetrySubscriptionTLS12 rawURL (FetchFault.text e)) || negb tls12_client then raise e
    else fetchSubscriptionOnceWithClient rawURL hwid userAgent true
  end.

(** No metadata when they cannot be had. *)
Definition fetchSubscriptionMetadata (rawURL hwid userAgent : string) : Prog W FetchFault (option SubscriptionMetadata) :=
  match request_error rawURL with
  | Some _ => mret None
  | None =>
    answer ← outcome (http_get false rawURL (metadata_headers hwid userAgent));
    mret match answer with
         | Err _ => None
         | Ok resp => if success_status resp then Some (response_metadata (Response.Header resp)) else None
         end
  end.

Definition enrichSubscriptionMetadata (rawURL hwid : string) (metadata : SubscriptionMetadata) : Prog W FetchFault SubscriptionMetadata :=
  if negb (needsSubscriptionMetadataFallback metadata) then mret metadata
  else
    fallback ← fetchSubscriptionMetadata rawURL hwid subscriptionMetadataFallbackUserAgent;
    mret (match fallback with Some f => mergeSubscriptionMetadata metadata f | None => metadata end).

Definition attempt_agent (attempt : Z) : string :=
  if 1 <? attempt then subscriptionFetchFallbackUserAgent else subscriptionFetchUserAgent.

(** [more]: the attempts that may follow this one. *)
Fixpoint fetch_attempts (rawURL hwid : string) (more : nat) (number : Z) : Prog W FetchFault FetchResult :=
  answer ← attempt (fetchSubscriptionOnce rawURL hwid (attempt_agent number));
  match answer with
  | Ok r =>
    metadata ← enrichSubscriptionMetadata rawURL hwid (FetchResult.Metadata r);
    mret (FetchResult.mk (FetchResult.Content r) metadata)
  | Err e =>
    match more with
    | O => raise e
    | S more =>
      if negb (FetchFault.retry e) then raise e
      else
        ended ← outcome (back_off (subscriptionFetchBaseBackoff * Z.shiftl 1 (number - 1)));
        match ended with
        | Some ctx => raise (FetchFault.mk false ("fetch " +:+ rawURL +:+ ": " +:+ ctx))
        | None => fetch_attempts rawURL hwid more (number + 1)
        end
    end
  end.

Definition fetchSubscription (rawURL hwid : string) : Prog W Fault FetchResult :=
  map_error (fun e => fault (FetchFault.text e)) (fetch_attempts rawURL hwid (subscriptionFetchMaxAttempts - 1) 1).

Definition newSubscriptionHWID : Prog W Fault string :=
  id ← outcome random_id;
  match id with
  | Ok id => mret (hwid_of id)
  | Err e => raise (wrap "create subscription HWID" e)
  end.

End Fetch.

(** ** Fetching: theorems

    How many requests a fetch makes, and that the limits a provider sends are read
    as they are written. *)

(** ** Counting requests *)

Section Counting.
  Context {W : Type} (requests : W -> nat).

(** The program adds at most [n] requests. *)
Definition costs {E A} (n : nat) (p : Prog W E A) : Prop := forall w, (requests (p w).2 <= requests w + n)%nat.

Lemma costs_ret {E A} n (a : A) : costs (E := E) n (mret a).
Proof. intros w. cbn. lia. Qed.

Lemma costs_raise {E A} n (e : E) : costs (A := A) n (raise e).
Proof. intros w. cbn. lia. Qed.

Lemma costs_of_result {E A} n (r : result E A) : costs n (of_result r).
Proof. intros w. cbn. lia. Qed.

Lemma costs_bind {E A B} n k m (p : Prog W E B) (f : B -> Prog W E A) : costs n p -> (forall b, costs k (f b)) -> (n + k <= m)%nat -> costs m (p ≫= f).
Proof.
  intros Hp Hf Hm w. unfold mbind, prog_bind. specialize (Hp w). destruct (p w) as [[b|e] w1]; cbn [snd] in *; [|lia]. specialize (Hf b w1). lia.
Qed.

Lemma costs_attempt {E A} n (p : Prog W E A) : costs n p -> costs (E := E) n (attempt p).
Proof. intros Hp w. unfold attempt. specialize (Hp w). by destruct (p w). Qed.

Lemma costs_map_error {E E'} {A} n (g : E -> E') (p : Prog W E A) : costs n p -> costs n (map_error g p).
Proof. intros Hp w. unfold map_error. specialize (Hp w). by destruct (p w) as [[|]]. Qed.

Lemma costs_outcome {E A} n (f : W -> A * W) : (forall w, requests (f w).2 <= requests w + n)%nat -> costs (E := E) n (outcome f).
Proof. intros Hf w. unfold outcome. specialize (Hf w). by destruct (f w). Qed.

End Counting.

Create HintDb costs.
#[export] Hint Resolve costs_ret costs_raise costs_of_result : costs.

Section Requests.
  Context `{WebText} `{SubscriptionHost W} (requests : W -> nat).
  Hypothesis get_counts : forall tls12 url headers w, requests (http_get tls12 url headers w).2 = S (requests w).
  Hypothesis waiting_asks_nothing : forall d w, requests (back_off d w).2 = requests w.

(** The requests of one attempt: a second one when there is a client that is limited to TLS 1.2. *)
Definition clients : nat := if tls12_client then 2%nat else 1%nat.

Lemma costs_get {E} tls12 url headers : costs requests (E := E) 1 (outcome (http_get tls12 url headers)).
Proof using get_counts. apply costs_outcome. intros w. rewrite get_counts. lia. Qed.

Lemma costs_wait {E} d : costs requests (E := E) 0 (outcome (back_off d)).
Proof using waiting_asks_nothing. apply costs_outcome. intros w. rewrite waiting_asks_nothing. lia. Qed.

Lemma costs_with_client url hwid agent tls12 : costs requests 1 (fetchSubscriptionOnceWithClient (W := W) url hwid agent tls12).
Proof using get_counts.
  unfold fetchSubscriptionOnceWithClient. destruct (request_error url); [auto with costs|].
  eapply (costs_bind _ 1 0); [apply costs_get| |lia]. intros []; auto with costs.
Qed.

Lemma costs_once url hwid agent : costs requests clients (fetchSubscriptionOnce (W := W) url hwid agent).
Proof using get_counts.
  unfold fetchSubscriptionOnce, clients. destruct tls12_client.
  - eapply (costs_bind _ 1 1); [apply costs_attempt, costs_with_client| |lia]. intros [r|e]; [auto with costs|].
    destruct (_ || _); [auto with costs|apply costs_with_client].
  - eapply (costs_bind _ 1 0); [apply costs_attempt, costs_with_client| |lia]. intros [r|e]; [auto with costs|]. cbn [negb]. rewrite orb_true_r. auto with costs.
Qed.

Lemma costs_enrich url hwid metadata : costs requests 1 (enrichSubscriptionMetadata (W := W) url hwid metadata).
Proof using get_counts.
  unfold enrichSubscriptionMetadata, fetchSubscriptionMetadata. destruct (negb _); [auto with costs|].
  eapply (costs_bind _ 1 0); [|auto with costs|lia]. destruct (request_error url); [auto with costs|].
  eapply (costs_bind _ 1 0); [apply costs_get|auto with costs|lia].
Qed.

Lemma costs_attempts url hwid more n : costs requests (clients * S more + 1) (fetch_attempts (W := W) url hwid more n).
Proof using get_counts waiting_asks_nothing.
  revert n. induction more as [|more IH]; intros n; cbn [fetch_attempts].
  - eapply (costs_bind _ clients 1); [apply costs_attempt, costs_once| |lia]. intros [r|e]; [|auto with costs].
    eapply (costs_bind _ 1 0); [apply costs_enrich|auto with costs|lia].
  - eapply (costs_bind _ clients (clients * S more + 1)); [apply costs_attempt, costs_once| |lia]. intros [r|e].
    + eapply (costs_bind _ 1 0); [apply costs_enrich|auto with costs|lia].
    + destruct (negb _); [auto with costs|]. eapply (costs_bind _ 0 (clients * S more + 1)); [apply costs_wait| |lia]. intros [ctx|]; [auto with costs|]. apply IH.
Qed.

(** A fetch ends after three attempts: the provider is asked at most four times,
    at most seven with a client that is limited to TLS 1.2. *)
Theorem fetch_asks_at_most url hwid w :
  (requests (fetchSubscription (W := W) url hwid w).2 <= requests w + if tls12_client then 7 else 4)%nat.
Proof using get_counts waiting_asks_nothing.
  pose proof (costs_map_error _ _ (fun e => fault (FetchFault.text e)) _ (costs_attempts url hwid (subscriptionFetchMaxAttempts - 1) 1)) as Hc.
  specialize (Hc w). unfold clients in Hc. fold (fetchSubscription (W := W) url hwid) in Hc.
  change (map_error _ _) with (fetchSubscription (W := W) url hwid) in Hc. destruct tls12_client; cbn in Hc |- *; exact Hc.
Qed.

End Requests.

(** ** The limits a provider sends *)

Lemma TrimSpace_leading s : TrimSpace (String " " s) = TrimSpace s.
Proof.
  unfold TrimSpace. change (to_bytes (String " " s)) with (32 :: to_bytes s). rewrite decode_cons. reflexivity.
Qed.

Lemma Atoi_Itoa n : 0 <= n <= max_int64 -> Atoi (Itoa n) = Some n.
Proof.
  intros Hn. destruct (Itoa_digits n ltac:(lia)) as (Hd & Hv & Hne & _). unfold Atoi. cbv zeta.
  destruct (to_bytes (Itoa n)) as [|b l] eqn:E; [done|]. pose proof (Forall_inv Hd) as Hb. cbv beta in Hb.
  assert (Es : (match b :: l with 43 :: t => (1, t) | 45 :: t => (-1, t) | _ => (1, b :: l) end) = (1, b :: l)).
  { destruct (decide (b = 43)); [lia|]. destruct (decide (b = 45)); [lia|]. repeat case_match; try done; congruence. }
  rewrite Es. assert (Hf : forallb is_digit (b :: l) = true).
  { apply forallb_forall. intros x Hx%list_elem_of_In. rewrite Forall_forall in Hd. specialize (Hd x Hx). cbv beta in Hd. unfold is_digit.
    apply andb_true_iff. rewrite !Z.leb_le. lia. }
  rewrite Hf, bool_decide_eq_false_2 by done. cbn [negb orb]. rewrite Hv, Z.mul_1_l.
  rewrite (proj2 (Z.leb_le min_int64 n)), (proj2 (Z.leb_le n max_int64)) by (unfold min_int64 in *; lia). done.
Qed.

Lemma Itoa_visible n : 0 <= n -> all_bytes plain_byte (Itoa n) = true.
Proof.
  intros Hn. destruct (Itoa_digits n Hn) as (Hd & _). apply all_bytes_spec. eapply Forall_impl; [exact Hd|]. cbv beta. intros b Hb.
  unfold plain_byte. rewrite !andb_true_iff, negb_true_iff, andb_false_iff, !Z.leb_le, !Z.leb_gt. lia.
Qed.

Lemma Itoa_no_byte n c : 0 <= n -> is_digit (byte_of c) = false -> has_byte (Itoa n) c = false.
Proof.
  intros Hn Hc. apply (all_bytes_no_byte is_digit); [|done]. destruct (Itoa_digits n Hn) as (Hd & _). apply all_bytes_spec.
  eapply Forall_impl; [exact Hd|]. cbv beta. intros b Hb. unfold is_digit. rewrite andb_true_iff, !Z.leb_le. lia.
Qed.

Lemma part_spaced info part : userinfo_part info (String " " part) = userinfo_part info part.
Proof. unfold userinfo_part. by rewrite TrimSpace_leading. Qed.

(** What a field does to what was read before. *)
Definition field_read (info : Userinfo) (key : string) (n : Z) : Userinfo :=
  let t := Userinfo.traffic info in
  if bool_decide (key = "expire") then if 0 <? n then Userinfo.mk (Some (from_unix n)) t (Userinfo.hasTraffic info) else info
  else if bool_decide (key = "upload")
  then Userinfo.mk (Userinfo.expire info) (SubscriptionTraffic.mk n (SubscriptionTraffic.DownloadBytes t) (SubscriptionTraffic.TotalBytes t)) true
  else if bool_decide (key = "download")
  then Userinfo.mk (Userinfo.expire info) (SubscriptionTraffic.mk (SubscriptionTraffic.UploadBytes t) n (SubscriptionTraffic.TotalBytes t)) true
  else if bool_decide (key = "total")
  then Userinfo.mk (Userinfo.expire info) (SubscriptionTraffic.mk (SubscriptionTraffic.UploadBytes t) (SubscriptionTraffic.DownloadBytes t) n) true
  else info.

Lemma upload_read e t b n : field_read (Userinfo.mk e t b) "upload" n =
  Userinfo.mk e (SubscriptionTraffic.mk n (SubscriptionTraffic.DownloadBytes t) (SubscriptionTraffic.TotalBytes t)) true.
Proof. reflexivity. Qed.

Lemma download_read e t b n : field_read (Userinfo.mk e t b) "download" n =
  Userinfo.mk e (SubscriptionTraffic.mk (SubscriptionTraffic.UploadBytes t) n (SubscriptionTraffic.TotalBytes t)) true.
Proof. reflexivity. Qed.

Lemma total_read e t b n : field_read (Userinfo.mk e t b) "total" n =
  Userinfo.mk e (SubscriptionTraffic.mk (SubscriptionTraffic.UploadBytes t) (SubscriptionTraffic.DownloadBytes t) n) true.
Proof. reflexivity. Qed.

Lemma expire_read e t b n : field_read (Userinfo.mk e t b) "expire" n = Userinfo.mk (if 0 <? n then Some (from_unix n) else e) t b.
Proof. unfold field_read. rewrite bool_decide_eq_true_2 by done. by destruct (0 <? n). Qed.

Lemma part_read info key n : all_bytes plain_byte key = true -> has_byte key "="%char = false -> 0 <= n <= max_int64 ->
  userinfo_part info (key +:+ "=" +:+ Itoa n) = field_read info key n.
Proof.
  intros Hk Hq Hn. pose proof (Itoa_visible n ltac:(lia)) as Hi. unfold userinfo_part.
  rewrite plain_TrimSpace by (rewrite !all_bytes_app, Hk, Hi; done). change ("=" +:+ Itoa n) with (String "=" (Itoa n)).
  rewrite cut_byte_app by done. rewrite (plain_TrimSpace (Itoa n)), Atoi_Itoa by done. cbv zeta. rewrite (proj2 (Z.ltb_ge n 0)) by lia.
  by rewrite (plain_TrimSpace key), plain_ToLower by done.
Qed.

Definition userinfo_text (upload download total expire : Z) : string :=
  Join ["upload=" +:+ Itoa upload; "download=" +:+ Itoa download; "total=" +:+ Itoa total; "expire=" +:+ Itoa expire] "; ".

(** The traffic and the expiry that a provider writes into its header are read
    back, for every 64-bit value; no expiry is read from a zero. *)
Theorem userinfo_reads_back upload download total expire :
  0 <= upload <= max_int64 -> 0 <= download <= max_int64 -> 0 <= total <= max_int64 -> 0 <= expire <= max_int64 ->
  parseSubscriptionUserinfoValue (userinfo_text upload download total expire) =
    (if 0 <? expire then Some (from_unix expire) else None, Some (SubscriptionTraffic.mk upload download total)).
Proof.
  intros Hu Hd Ht He. unfold parseSubscriptionUserinfoValue, userinfo_text.
  assert (Hno : forall key n, 0 <= n -> has_byte key ";"%char = false -> has_byte (key +:+ Itoa n) ";"%char = false)
    by (intros key n Hn Hk; by rewrite has_byte_app, Hk, Itoa_no_byte).
  assert (Hsplit : forall a b, has_byte a ";"%char = false -> split_byte (a +:+ "; " +:+ b) ";"%char = a :: split_byte (String " " b) ";"%char).
  { intros a b Ha. rewrite split_byte_cut. change ("; " +:+ b) with (String ";" (String " " b)). by rewrite cut_byte_app. }
  assert (Hspace : forall a, has_byte a ";"%char = false -> has_byte (String " " a) ";"%char = false) by done.
  change (Join ?l "; ") with (("upload=" +:+ Itoa upload) +:+ "; " +:+ ("download=" +:+ Itoa download) +:+ "; " +:+ ("total=" +:+ Itoa total)
                              +:+ "; " +:+ ("expire=" +:+ Itoa expire)).
  rewrite Hsplit by (apply Hno; [lia|done]).
  change (String " " (("download=" +:+ Itoa download) +:+ "; " +:+ ?r)) with ((String " " ("download=" +:+ Itoa download)) +:+ "; " +:+ r).
  rewrite Hsplit by (apply Hspace, Hno; [lia|done]).
  change (String " " (("total=" +:+ Itoa total) +:+ "; " +:+ ?r)) with ((String " " ("total=" +:+ Itoa total)) +:+ "; " +:+ r).
  rewrite Hsplit by (apply Hspace, Hno; [lia|done]).
  rewrite (split_byte_cut (String " " ("expire=" +:+ Itoa expire))), (proj2 (cut_byte_None _ _)) by (apply Hspace, Hno; [lia|done]).
  cbn [foldl]. rewrite !part_spaced.
  change ("upload=" +:+ Itoa upload) with ("upload" +:+ "=" +:+ Itoa upload).
  change ("download=" +:+ Itoa download) with ("download" +:+ "=" +:+ Itoa download).
  change ("total=" +:+ Itoa total) with ("total" +:+ "=" +:+ Itoa total).
  change ("expire=" +:+ Itoa expire) with ("expire" +:+ "=" +:+ Itoa expire).
  rewrite !part_read by done. unfold no_userinfo. rewrite upload_read, download_read, total_read, expire_read.
  cbn [Userinfo.expire Userinfo.traffic Userinfo.hasTraffic SubscriptionTraffic.UploadBytes SubscriptionTraffic.DownloadBytes SubscriptionTraffic.TotalBytes].
  by destruct (0 <? expire).
Qed.

Lemma userinfo_reads_back_witness :
  parseSubscriptionUserinfoValue (userinfo_text 5 0 max_int64 1700000000)
    = (Some (from_unix 1700000000), Some (SubscriptionTraffic.mk 5 0 max_int64)).
Proof. apply (userinfo_reads_back 5 0 max_int64 1700000000); unfold max_int64; lia. Defined.
