(* ===== verification/Subscriptions.v ===== *)
(** * Subscriptions

    Adding, moving, renaming, removing and refreshing subscriptions
    ([app/service.go]).  A handler loads the list, edits it, stores it and follows
    up in the state and the settings.

    [parse_nodes] stands for the package [parser] ([Parser]), [sha1_hex] for the hash,
    [marshal_signature] for [encoding/json] on the fields of a signature.  The
    search for a free identifier has no bound in the source; here it has
    [id_attempts] steps.  The store lock is not modelled. *)
From Stdlib Require Import FinFun.
From S2P Require Import Prelude GoRunes GoStrings GoNum NetIP Domain GoConv AmneziaProfile.
From S2P Require Import AmneziaRuntime Firewall FirewallSettings Zapret Settings Connection Probe.
From S2P Require Import Migrations AutoState AutoSelect Reserves XrayConfig BackendRequest.
From S2P Require Import ManagedBackend Scheduler Effects ManagedSwitch NodeSelection ReserveRound.
From S2P Require Import AutoCommit Failover AtomicFiles AmneziaStore ProviderNames.
From S2P Require Import SubscriptionFetch.

Local Open Scope Z_scope.
Local Open Scope list_scope.

#[export] Instance set_node_subscription : Setter Node.SubscriptionID := ltac:(mk_setter Node.eta Node.SubscriptionID).

Module AddSubscriptionRequest.
Record AddSubscriptionRequest : Type := mk { URL : string; Raw : string; Name : string; HWID : string; FileName : string }.
Definition with_hwid (hwid : string) (r : AddSubscriptionRequest) : AddSubscriptionRequest :=
  mk (URL r) (Raw r) (Name r) hwid (FileName r).
End AddSubscriptionRequest.
Abbreviation AddSubscriptionRequest := AddSubscriptionRequest.AddSubscriptionRequest.

Definition raw_list : string := "server-list".

Definition blank (s : string) : bool := bool_decide (TrimSpace s = "").

(** ** Files *)

(** [filepath.Ext]: from the last dot of the last element. *)
Definition Ext (path : string) : string :=
  let element := match cut_last 47 (to_bytes path) with Some (_, b) => b | None => to_bytes path end in
  match cut_last 46 element with Some (_, b) => of_bytes (46 :: b) | None => "" end.

Definition displayNameFromFile (name : string) : string :=
  let name := TrimSpace (Base name) in
  let name := TrimSpace (TrimSuffix name (Ext name)) in
  if bool_decide (name = "") then "Файл серверов" else name.

(** ** Lists *)

(** Replaces the first element with the same key, or appends. *)
Fixpoint put_by {A} (key : A -> string) (next : A) (l : list A) : list A :=
  match l with
  | [] => [next]
  | x :: rest => if bool_decide (key x = key next) then next :: rest else x :: put_by key next rest
  end.

Definition upsertSubscription (subscriptions : list Subscription) (next : Subscription) : list Subscription :=
  put_by Subscription.ID next subscriptions.

Definition put_node (nodes : list Node) (node : Node) : list Node := put_by Node.ID node nodes.

Definition find_listed (id : string) (subscriptions : list Subscription) : option (nat * Subscription) :=
  list_find (fun sub => Subscription.ID sub = id) subscriptions.

Definition find_node_index (id : string) (nodes : list Node) : option (nat * Node) :=
  list_find (fun n => Node.ID n = id) nodes.

Definition own_nodes (id : string) (nodes : list Node) : list Node := (fun n => n <| Node.SubscriptionID := id |>) <$> nodes.

(** ** The same server after a refresh *)

Definition sameRefreshedNodeIdentity (l r : Node) : bool :=
  bool_decide (Node.Protocol l = Node.Protocol r) && bool_decide (Node.Address l = Node.Address r)
  && (Node.Port l =? Node.Port r) && bool_decide (Node.UUID l = Node.UUID r) && bool_decide (Node.Password l = Node.Password r)
  && bool_decide (Node.Encryption l = Node.Encryption r) && bool_decide (Node.Security l = Node.Security r)
  && bool_decide (Node.ServerName l = Node.ServerName r) && bool_decide (Node.ALPN l = Node.ALPN r)
  && bool_decide (Node.Fingerprint l = Node.Fingerprint r) && bool_decide (Node.PublicKey l = Node.PublicKey r)
  && bool_decide (Node.ShortID l = Node.ShortID r) && bool_decide (Node.SpiderX l = Node.SpiderX r)
  && bool_decide (Node.Flow l = Node.Flow r) && bool_decide (Node.Transport l = Node.Transport r)
  && bool_decide (Node.Path l = Node.Path r) && bool_decide (Node.Host l = Node.Host r).

Definition remapRefreshedNodeID (activeNodeID : string) (previousNodes refreshedNodes : list Node) : string :=
  if bool_decide (activeNodeID = "") then activeNodeID
  else if existsb (fun n => bool_decide (Node.ID n = activeNodeID)) refreshedNodes then activeNodeID
  else
    match find_node previousNodes activeNodeID with
    | None => activeNodeID
    | Some previous =>
      match filter (fun n => sameRefreshedNodeIdentity n previous = true) refreshedNodes with
      | [m] => Node.ID m
      | _ => activeNodeID
      end
    end.

Definition remap_excluded (subscriptionID : string) (previousNodes refreshedNodes : list Node) (value : string) : string :=
  match SplitAutoExcludedNodeKey value with
  | Some (current, nodeID) =>
    if bool_decide (current = subscriptionID)
    then AutoExcludedNodeKey current (remapRefreshedNodeID nodeID previousNodes refreshedNodes) else value
  | None => value
  end.

Definition remapRefreshedAutoExcludedNodes (values : list string) (subscriptionID : string) (previousNodes refreshedNodes : list Node)
    : list string :=
  match values with
  | [] => []
  | _ => NormalizeAutoExcludedNodes (remap_excluded subscriptionID previousNodes refreshedNodes <$> values)
  end.

(** The active node keeps a name when it is gone. *)
Definition follow_active (subscriptionID : string) (previousNodes nodes : list Node) (state : RuntimeState) : RuntimeState :=
  if bool_decide (RuntimeState.ActiveSubscriptionID state = subscriptionID)
  then
    let previousNodeID := RuntimeState.ActiveNodeID state in
    let state := match find_node previousNodes previousNodeID with
                 | Some n => state <| RuntimeState.ActiveNodeName := DisplayName n |>
                 | None => state end in
    let state := state <| RuntimeState.ActiveNodeID := remapRefreshedNodeID previousNodeID previousNodes nodes |> in
    match find_node nodes (RuntimeState.ActiveNodeID state) with
    | Some n => state <| RuntimeState.ActiveNodeName := DisplayName n |>
    | None => state
    end
  else state.

Definition refreshed_at (id : string) (at_ : Time) (state : RuntimeState) : RuntimeState :=
  state <| RuntimeState.LastRefreshAt ::= <[id := at_]> |>.

(** ** Identifiers *)

Section Identifiers.
  Context (sha1_hex : string -> string).
  Context (marshal_signature : string -> string -> string -> string -> list Node -> option string).

Definition stableSubscriptionID (sourceType source : string) : string :=
  "sub-" +:+ of_bytes (take 10 (to_bytes (sha1_hex (sourceType +:+ "|" +:+ source)))).

Definition subscriptionSignature (sub : Subscription) : string :=
  let source := TrimSpace (Subscription.Source sub) in
  let providerName := TrimSpace (Subscription.ProviderName sub) in
  let displayName := TrimSpace (Subscription.DisplayName sub) in
  match marshal_signature (Subscription.SourceType sub) source providerName displayName (own_nodes "" (Subscription.Nodes sub)) with
  | Some payload => sha1_hex payload
  | None => stableSubscriptionID (Subscription.SourceType sub) (source +:+ "|" +:+ providerName +:+ "|" +:+ displayName)
  end.

Definition subscriptionIDExists (subscriptions : list Subscription) (id : string) : bool :=
  existsb (fun sub => bool_decide (Subscription.ID sub = id)) subscriptions.

Definition resolveFileSubscriptionID (subscriptions : list Subscription) (fileName : string) : string :=
  let fileName := ToLower (TrimSpace (Base fileName)) in
  match List.find (fun sub => bool_decide (Subscription.SourceType sub = SourceTypeFile)
                              && EqualFold (TrimSpace (Subscription.FileName sub)) fileName) subscriptions with
  | Some existing => Subscription.ID existing
  | None => stableSubscriptionID SourceTypeFile fileName
  end.

Definition same_content (next existing : Subscription) : bool :=
  bool_decide (Subscription.SourceType existing = Subscription.SourceType next)
  && bool_decide (TrimSpace (Subscription.Source existing) = TrimSpace (Subscription.Source next))
  && bool_decide (subscriptionSignature existing = subscriptionSignature next).

Definition numbered_id (next : Subscription) (number : Z) : string :=
  stableSubscriptionID (Subscription.SourceType next)
    (Subscription.Source next +:+ "|" +:+ subscriptionSignature next +:+ "|" +:+ Itoa number).

(** [number]: the attempt of this step. *)
Fixpoint free_numbered (subscriptions : list Subscription) (next : Subscription) (fuel : nat) (number : Z) : option string :=
  match fuel with
  | O => None
  | S fuel =>
    let candidate := numbered_id next number in
    if subscriptionIDExists subscriptions candidate then free_numbered subscriptions next fuel (number + 1) else Some candidate
  end.

Definition resolveAddSubscriptionID (fuel : nat) (subscriptions : list Subscription) (next : Subscription) : option string :=
  match List.find (same_content next) subscriptions with
  | Some existing => Some (Subscription.ID existing)
  | None =>
    let baseID := stableSubscriptionID (Subscription.SourceType next) (Subscription.Source next) in
    if negb (subscriptionIDExists subscriptions baseID) then Some baseID
    else
      let candidate := stableSubscriptionID (Subscription.SourceType next)
        (Subscription.Source next +:+ "|" +:+ subscriptionSignature next) in
      if negb (subscriptionIDExists subscriptions candidate) then Some candidate
      else free_numbered subscriptions next fuel 2
  end.

End Identifiers.

Definition swapped (i j : nat) (l : list Subscription) : list Subscription :=
  match l !! i, l !! j with
  | Some x, Some y => <[j := x]> (<[i := y]> l)
  | _, _ => l
  end.

(** The list after a move up or down; none at the edge of the list. *)
Definition moved (direction : string) (index : nat) (l : list Subscription) : option (list Subscription) :=
  let newIndex := if bool_decide (direction = "up") then match index with O => None | S i => Some i end else Some (S index) in
  match newIndex with
  | Some j => if bool_decide (j < length l)%nat then Some (swapped index j l) else None
  | None => None
  end.

Definition renamed (name : string) (sub : Subscription) : Subscription :=
  sub <| Subscription.DisplayName := name |> <| Subscription.ProviderName := name |>
      <| Subscription.ProviderNameSource := ProviderNameSourceManual |>.

Definition failed_refresh (e : string) (sub : Subscription) : Subscription :=
  sub <| Subscription.LastError := e |> <| Subscription.ParserStatus := "error" |>.

Definition storedSource (sourceType : string) (req : AddSubscriptionRequest) : string :=
  if bool_decide (sourceType = SourceTypeURL) then TrimSpace (AddSubscriptionRequest.URL req) else AddSubscriptionRequest.Raw req.

(** ** Handlers *)

Section Service.
  Context `{WebText}.
  Context `{ManagedBackend W, Router W, Runtime W, SubscriptionHost W}.
  Context (parse_nodes : string -> string -> result string (list Node)) (to_upper : Z -> Z).
  Context (sha1_hex : string -> string) (marshal_signature : string -> string -> string -> string -> list Node -> option string).
  Context (id_attempts : nat).

Abbreviation App := (Prog W Fault).

Definition load_subscriptions_as (context : string) : App (list Subscription) := fun w =>
  match read_subscriptions w with
  | Ok subs => (Ok subs, w)
  | Err e => (Err (wrap context e), w)
  end.

Definition save_subscriptions_as (subs : list Subscription) : App unit := act (wrap "save subscriptions") (save_subscriptions subs).

Definition utc_time : App Time := outcome now_utc.

Definition not_found (id : string) : Fault := fault ("subscription " +:+ quoted id +:+ " not found").

(** The state is changed when it can be read; a failure to store it is dropped. *)
Definition touch_state (change : RuntimeState -> RuntimeState) : App unit :=
  state ← reads load_state;
  match state with
  | Ok state => ignore (act fault (save_state (change state)))
  | Err _ => mret tt
  end.

(** *** Adding *)

Definition remembered_hwid (req : AddSubscriptionRequest) (existing : list Subscription) : string :=
  match List.find (fun sub => bool_decide (Subscription.SourceType sub = SourceTypeURL)
                              && bool_decide (TrimSpace (Subscription.Source sub) = TrimSpace (AddSubscriptionRequest.URL req))
                              && negb (blank (Subscription.HWID sub))) existing with
  | Some sub => Subscription.HWID sub
  | None => AddSubscriptionRequest.HWID req
  end.

Definition with_remembered_hwid (req : AddSubscriptionRequest) : App AddSubscriptionRequest :=
  if negb (blank (AddSubscriptionRequest.URL req)) && blank (AddSubscriptionRequest.HWID req)
  then
    existing ← load_subscriptions_as "load subscriptions";
    mret (AddSubscriptionRequest.with_hwid (remembered_hwid req existing) req)
  else mret req.

Definition hwid_or_new (hwid : string) : App string :=
  if blank hwid then newSubscriptionHWID else mret (TrimSpace hwid).

(** The text, its kind, what the provider says and the identifier that was sent. *)
Definition resolveSubscriptionSource (req : AddSubscriptionRequest) : App (string * string * SubscriptionMetadata * string) :=
  if negb (blank (AddSubscriptionRequest.URL req))
  then
    hwid ← hwid_or_new (AddSubscriptionRequest.HWID req);
    fetched ← map_error (wrap_fault "fetch subscription") (fetchSubscription (AddSubscriptionRequest.URL req) hwid);
    mret (FetchResult.Content fetched, SourceTypeURL, FetchResult.Metadata fetched, hwid)
  else if negb (blank (AddSubscriptionRequest.FileName req)) && negb (blank (AddSubscriptionRequest.Raw req))
  then mret (AddSubscriptionRequest.Raw req, SourceTypeFile, SubscriptionMetadata.zero, "")
  else if negb (blank (AddSubscriptionRequest.Raw req))
  then mret (AddSubscriptionRequest.Raw req, SourceTypeRaw, SubscriptionMetadata.zero, "")
  else raise (fault "either url or raw payload is required").

Definition added_name (req : AddSubscriptionRequest) (sourceType : string) (metadata : SubscriptionMetadata) : string * string :=
  if bool_decide (sourceType = SourceTypeFile) && blank (AddSubscriptionRequest.Name req)
  then (displayNameFromFile (AddSubscriptionRequest.FileName req), ProviderNameSourceDefault)
  else resolveProviderName url_parse to_upper (AddSubscriptionRequest.Name req) sourceType (AddSubscriptionRequest.URL req)
         (SubscriptionMetadata.ProviderName metadata).

(** The list of single servers, as it is or new. *)
Definition raw_list_of (interval : Duration) (subs : list Subscription) : Subscription :=
  match find_listed raw_list subs with
  | Some (_, sub) => sub
  | None => Subscription.mk raw_list SourceTypeRaw "raw" "" "Server List" "default" "Server List" "" zero_time None None interval "" "ok" []
  end.

Definition add_servers (now : Time) (nodes : list Node) (sub : Subscription) : Subscription :=
  sub <| Subscription.LastUpdatedAt := now |> <| Subscription.Nodes ::= fun old => foldl put_node old (own_nodes raw_list nodes) |>.

Definition new_subscription (req : AddSubscriptionRequest) (sourceType : string) (names : string * string) (hwid : string) (now : Time)
    (metadata : SubscriptionMetadata) (interval : Duration) (nodes : list Node) : Subscription :=
  Subscription.mk "" sourceType (storedSource sourceType req) (TrimSpace (AddSubscriptionRequest.FileName req)) names.1 names.2 names.1
    hwid now (SubscriptionMetadata.ExpiresAt metadata) (SubscriptionMetadata.Traffic metadata) interval "" "ok" nodes.

Definition identified (id : string) (sub : Subscription) : Subscription :=
  sub <| Subscription.ID := id |> <| Subscription.Nodes ::= own_nodes id |>.

(** The subscription that is added to the list; none when no free identifier is found. *)
Definition subscription_to_add (subs : list Subscription) (req : AddSubscriptionRequest) (sourceType : string) (names : string * string)
    (hwid : string) (now : Time) (metadata : SubscriptionMetadata) (interval : Duration) (nodes : list Node) : option Subscription :=
  if bool_decide (sourceType = SourceTypeRaw) then Some (add_servers now nodes (raw_list_of interval subs))
  else
    let sub := new_subscription req sourceType names hwid now metadata interval nodes in
    if bool_decide (sourceType = SourceTypeFile)
    then Some (identified (resolveFileSubscriptionID sha1_hex subs (Subscription.FileName sub)) sub)
    else
      match resolveAddSubscriptionID sha1_hex marshal_signature id_attempts subs sub with
      | Some id => Some (identified id sub)
      | None => None
      end.

Definition addSubscription (req : AddSubscriptionRequest) : App Subscription :=
  req ← with_remembered_hwid req;
  resolved ← resolveSubscriptionSource req;
  let '(source, sourceType, metadata, hwid) := resolved in
  settings ← load_settings_as "load settings";
  let names := added_name req sourceType metadata in
  nodes ← of_result match parse_nodes source names.1 with Ok nodes => Ok nodes | Err e => Err (wrap "parse subscription" e) end;
  subs ← load_subscriptions_as "load subscriptions";
  now ← utc_time;
  match subscription_to_add subs req sourceType names hwid now metadata (Settings.RefreshInterval settings) nodes with
  | None => raise (fault "no free identifier")
  | Some sub =>
    _ ← save_subscriptions_as (upsertSubscription subs sub);
    _ ← touch_state (refreshed_at (Subscription.ID sub) now);
    mret sub
  end.

(** *** Moving and renaming *)

Definition MoveSubscription (id direction : string) : App unit :=
  subs ← (fun w => (match read_subscriptions w with Ok subs => Ok subs | Err e => Err (fault e) end, w));
  match find_listed id subs with
  | None => raise (not_found id)
  | Some (index, _) =>
    if bool_decide (direction = "up") || bool_decide (direction = "down")
    then match moved direction index subs with
         | Some subs => save_subscriptions_as subs
         | None => mret tt
         end
    else raise (fault ("invalid direction " +:+ quoted direction +:+ ", must be 'up' or 'down'"))
  end.

Definition renameSubscription (id name : string) : App unit :=
  subs ← load_subscriptions_as "load subscriptions";
  match find_listed id subs with
  | None => raise (not_found id)
  | Some (index, sub) => act fault (save_subscriptions (<[index := renamed name sub]> subs))
  end.

(** *** Removing *)

Definition disconnected_state (state : RuntimeState) : RuntimeState :=
  state <| RuntimeState.ActiveSubscriptionID := "" |> <| RuntimeState.ActiveNodeID := "" |> <| RuntimeState.ActiveNodeName := "" |>
        <| RuntimeState.Mode := SelectionModeDisconnected |> <| RuntimeState.Connected := false |>.

Definition disconnected_settings (settings : Settings) : Settings :=
  settings <| Settings.AutoMode := false |> <| Settings.Mode := SelectionModeDisconnected |>.

Definition persistDisconnectedState (state : RuntimeState) : App unit :=
  let state := disconnected_state state in
  state ← stamp (negb (bool_decide (effectiveActiveTransport state = TransportModeDirect)))
    (fun now s => s <| RuntimeState.LastTransportSwitchAt := now |>) state;
  _ ← save_as "save state" (clearZapretTestState
        (state <| RuntimeState.ActiveTransport := TransportModeDirect |> <| RuntimeState.LastTransportFailureReason := "" |>));
  settings ← reads load_settings;
  match settings with
  | Ok s => save_settings (disconnected_settings s)
  | Err _ => mret tt
  end.

(** Disconnects when what is removed is in use, stores the list, then the state. *)
Definition remove_with (in_use : RuntimeState -> bool) (subs : list Subscription) : App unit :=
  loaded ← reads load_state;
  let active := match loaded with Ok state => in_use state | Err _ => false end in
  _ ← when active disconnectRuntime;
  _ ← save_subscriptions_as subs;
  match loaded with
  | Ok state => when active (persistDisconnectedState state)
  | Err _ => mret tt
  end.

Definition list_without_node (index : nat) (node_index : nat) (sub : Subscription) (subs : list Subscription) : list Subscription :=
  let sub := sub <| Subscription.Nodes ::= delete node_index |> in
  if bool_decide (Subscription.Nodes sub = []) then delete index subs else <[index := sub]> subs.

Definition removeSubscriptionNode (subID nodeID : string) : App unit :=
  subs ← load_subscriptions_as "load subscriptions";
  match find_listed subID subs with
  | None => raise (not_found subID)
  | Some (index, sub) =>
    match find_node_index nodeID (Subscription.Nodes sub) with
    | None => raise (fault ("node " +:+ quoted nodeID +:+ " not found in subscription " +:+ quoted subID))
    | Some (node_index, _) =>
      remove_with (fun state => bool_decide (RuntimeState.ActiveSubscriptionID state = subID)
                                && bool_decide (RuntimeState.ActiveNodeID state = nodeID))
        (list_without_node index node_index sub subs)
    end
  end.

Definition removeSubscription (id : string) : App unit :=
  subs ← load_subscriptions_as "load subscriptions";
  match find_listed id subs with
  | None => raise (not_found id)
  | Some (index, _) =>
    remove_with (fun state => bool_decide (RuntimeState.ActiveSubscriptionID state = id)) (delete index subs)
  end.

Definition removeAllSubscriptions : App nat :=
  subs ← load_subscriptions_as "load subscriptions";
  match subs with
  | [] => mret 0%nat
  | _ =>
    _ ← remove_with (fun state => negb (bool_decide (RuntimeState.ActiveSubscriptionID state = ""))) [];
    mret (length subs)
  end.

(** *** Refreshing *)

Definition record_failure (subs : list Subscription) (index : nat) (sub : Subscription) (context : string) (e : Fault) : App Subscription :=
  _ ← ignore (save_subscriptions_as (<[index := failed_refresh (fault_text e) sub]> subs));
  raise (wrap_fault context e).

(** The text, what the provider says, and the subscription with its identifier. *)
Definition refresh_content (subs : list Subscription) (index : nat) (sub : Subscription)
    : App (result Fault (string * SubscriptionMetadata * Subscription)) :=
  if bool_decide (Subscription.SourceType sub = SourceTypeURL)
  then
    hwid ← hwid_or_new (Subscription.HWID sub);
    fetched ← attempt (fetchSubscription (Subscription.Source sub) hwid);
    mret match fetched with
         | Err e => Err e
         | Ok r => Ok (FetchResult.Content r, FetchResult.Metadata r, sub <| Subscription.HWID := hwid |>)
         end
  else mret (Ok (Subscription.Source sub, SubscriptionMetadata.zero, sub)).

(** The nodes, the names and where they come from. *)
Definition refresh_nodes (sub : Subscription) (content : string) (metadata : SubscriptionMetadata)
    : result string (list Node * (string * string * string)) :=
  if bool_decide (Subscription.ID sub = raw_list)
  then Ok (Subscription.Nodes sub,
           (Subscription.ProviderName sub, Subscription.DisplayName sub, Subscription.ProviderNameSource sub))
  else
    let names := refreshedProviderIdentity url_parse to_upper sub (SubscriptionMetadata.ProviderName metadata) in
    let* nodes := parse_nodes content names.1.1 in Ok (nodes, names).

Definition refreshed_expiry (metadata : SubscriptionMetadata) (sub : Subscription) : App (option Time) :=
  match SubscriptionMetadata.ExpiresAt metadata, Subscription.ExpiresAt sub with
  | Some t, _ => mret (Some t)
  | None, Some t => now ← utc_time; mret (if After t now then Some t else None)
  | None, None => mret None
  end.

Definition refreshed_subscription (sub : Subscription) (nodes : list Node) (names : string * string * string) (expiry : option Time)
    (metadata : SubscriptionMetadata) (now : Time) : Subscription :=
  sub <| Subscription.Nodes := nodes |>
      <| Subscription.ProviderName := names.1.1 |> <| Subscription.DisplayName := names.1.2 |> <| Subscription.ProviderNameSource := names.2 |>
      <| Subscription.ExpiresAt := expiry |>
      <| Subscription.Traffic ::= fun old => match SubscriptionMetadata.Traffic metadata with Some t => Some t | None => old end |>
      <| Subscription.LastError := "" |> <| Subscription.ParserStatus := "ok" |> <| Subscription.LastUpdatedAt := now |>.

Definition follow_hidden (id : string) (previousNodes nodes : list Node) : App unit :=
  settings ← reads load_settings;
  match settings with
  | Err _ => mret tt
  | Ok s =>
    let remapped := remapRefreshedAutoExcludedNodes (Settings.AutoExcludedNodes s) id previousNodes nodes in
    when (negb (bool_decide (remapped = Settings.AutoExcludedNodes s)))
      (act (wrap "save refreshed hidden servers") (store_settings (s <| Settings.AutoExcludedNodes := remapped |>)))
  end.

Definition refreshSubscription (id : string) : App Subscription :=
  subs ← load_subscriptions_as "load subscriptions";
  match find_listed id subs with
  | None => raise (not_found id)
  | Some (index, sub) =>
    now ← currentTime;
    if IsExpired sub now then raise (fault ("subscription " +:+ quoted id +:+ " expired; refresh skipped"))
    else
      fetched ← refresh_content subs index sub;
      match fetched with
      | Err e => record_failure subs index sub "fetch subscription" e
      | Ok (content, metadata, sub) =>
        match refresh_nodes sub content metadata with
        | Err e => record_failure subs index sub "parse subscription" (fault e)
        | Ok (nodes, names) =>
          let previousNodes := Subscription.Nodes sub in
          let nodes := own_nodes (Subscription.ID sub) nodes in
          expiry ← refreshed_expiry metadata sub;
          now ← utc_time;
          let sub := refreshed_subscription sub nodes names expiry metadata now in
          _ ← save_subscriptions_as (<[index := sub]> subs);
          _ ← follow_hidden (Subscription.ID sub) previousNodes nodes;
          _ ← touch_state (fun state => refreshed_at (Subscription.ID sub) now (follow_active (Subscription.ID sub) previousNodes nodes state));
          mret sub
        end
      end
  end.

(** The subscriptions that were refreshed, and the errors of the others. *)
Fixpoint refresh_each (subs updated : list Subscription) (errors : list string) : App (list Subscription * list string) :=
  match subs with
  | [] => mret (updated, errors)
  | sub :: rest =>
    now ← currentTime;
    if IsExpired sub now then refresh_each rest updated errors
    else
      refreshed ← attempt (refreshSubscription (Subscription.ID sub));
      match refreshed with
      | Ok r => refresh_each rest (updated ++ [r]) errors
      | Err e =>
        refresh_each rest updated
          (errors ++ ["refresh subscription " +:+ quoted (Subscription.ID sub) +:+ ": " +:+ fault_text e])
      end
  end.

Definition refreshAll : App (list Subscription * list string) :=
  subs ← load_subscriptions_as "load subscriptions";
  refresh_each subs [] [].

(** [scheduler.go]: the time of an attempt that was made. *)
Definition touchRefreshAttempt (subscriptionID : string) (at_ : Time) : App unit :=
  if blank subscriptionID then mret tt
  else
    state ← load_state_as "load state";
    save_as "save state" (refreshed_at subscriptionID at_ state).

End Service.

(** ** Facts about lists of subscriptions

    Replacing and moving entries, the identifiers of new subscriptions, and what
    becomes of a server's identifier and of the hidden servers in a refresh. *)

(** ** Replacing or appending *)

Section PutBy.
  Context {A : Type} (key : A -> string).

Lemma put_by_absent next l : key next ∉ key <$> l -> put_by key next l = l ++ [next].
Proof.
  induction l as [|x l IH]; cbn; [done|]. intros [Hx Hl]%not_elem_of_cons. rewrite bool_decide_eq_false_2 by congruence. by rewrite IH.
Qed.

Lemma put_by_present next l i x : list_find (fun y => key y = key next) l = Some (i, x) -> put_by key next l = <[i := next]> l.
Proof.
  revert i. induction l as [|y l IH]; cbn; intros i; [done|]. destruct (decide (key y = key next)) as [Ey|Ey].
  - intros [= <- <-]. by rewrite bool_decide_eq_true_2.
  - destruct (list_find _ l) as [[j z]|] eqn:E; [|done]. cbn. intros [= <- <-]. rewrite bool_decide_eq_false_2 by done. cbn. by rewrite (IH j).
Qed.

Lemma put_by_keys next l k : k ∈ key <$> put_by key next l <-> k = key next \/ k ∈ key <$> l.
Proof.
  induction l as [|x l IH]; cbn; [set_solver|]. case_bool_decide as Ex; cbn; rewrite !elem_of_cons; [rewrite Ex; tauto|]. rewrite IH. tauto.
Qed.

Lemma put_by_nodup next l : NoDup (key <$> l) -> NoDup (key <$> put_by key next l).
Proof.
  induction l as [|x l IH]; cbn; intros Hl; [apply NoDup_singleton|]. apply NoDup_cons in Hl as [Hx Hl].
  case_bool_decide as Ex; cbn; apply NoDup_cons; [by rewrite <- Ex|]. split; [|by apply IH]. rewrite put_by_keys. naive_solver.
Qed.

Lemma put_by_elem next l x : x ∈ put_by key next l -> x = next \/ x ∈ l.
Proof.
  induction l as [|y l IH]; cbn; [set_solver|]. case_bool_decide; rewrite !elem_of_cons; [tauto|]. tauto.
Qed.

Lemma put_by_there next l : next ∈ put_by key next l.
Proof. induction l as [|y l IH]; cbn; [set_solver|]. case_bool_decide; set_solver. Qed.

(** The entries with other keys are left as they are, in their order. *)
Lemma put_by_others next l : NoDup (key <$> l) ->
  filter (fun x => key x <> key next) (put_by key next l) = filter (fun x => key x <> key next) l.
Proof.
  induction l as [|x l IH]; cbn [put_by fmap list_fmap]; intros Hl.
  - rewrite filter_cons_False; [done|by intros []].
  - apply NoDup_cons in Hl as [Hx Hl]. case_bool_decide as Ex.
    + rewrite !filter_cons_False; [done|by intros []; congruence|by intros []].
    + rewrite !filter_cons_True by done. by rewrite IH.
Qed.

End PutBy.

(** ** Well-formed lists *)

(** [good]: what the reader of subscriptions promises of every server. *)
Section WellFormed.
  Context (good : Node -> Prop).

Definition owned (id : string) (n : Node) : Prop := Node.SubscriptionID n = id /\ good n.

Definition owns (sub : Subscription) : Prop := Forall (owned (Subscription.ID sub)) (Subscription.Nodes sub).

Definition subs_ok (subs : list Subscription) : Prop := NoDup (Subscription.ID <$> subs) /\ Forall owns subs.

Lemma owned_owned id nodes : (forall n, good n -> good (n <| Node.SubscriptionID := id |>)) -> Forall good nodes -> Forall (owned id) (own_nodes id nodes).
Proof. intros Hg Hn. apply Forall_fmap. eapply Forall_impl; [exact Hn|]. intros n Hgn. split; [done|]. by apply Hg. Qed.

Lemma find_listed_Some id subs i sub :
  find_listed id subs = Some (i, sub) -> subs !! i = Some sub /\ Subscription.ID sub = id.
Proof. intros (Hi & Hid & _)%list_find_Some. done. Qed.

Lemma find_listed_None id subs : find_listed id subs = None -> id ∉ Subscription.ID <$> subs.
Proof.
  intros Hn%list_find_None (sub & -> & Hs)%list_elem_of_fmap. rewrite Forall_forall in Hn. by apply (Hn _ Hs).
Qed.

Lemma subs_ok_put sub subs : subs_ok subs -> owns sub -> subs_ok (upsertSubscription subs sub).
Proof.
  intros [Hn Ho] Hs. split; [by apply put_by_nodup|]. apply Forall_forall. intros x [->|Hx]%put_by_elem; [done|].
  rewrite Forall_forall in Ho. by apply Ho.
Qed.

Lemma subs_ok_insert i old sub subs : subs_ok subs -> subs !! i = Some old -> Subscription.ID sub = Subscription.ID old -> owns sub ->
  subs_ok (<[i := sub]> subs).
Proof.
  intros [Hn Ho] Hi Hid Hs. split; [|by apply Forall_insert].
  rewrite list_fmap_insert, Hid, list_insert_id; [done|]. by rewrite list_lookup_fmap, Hi.
Qed.

Lemma subs_ok_delete i subs : subs_ok subs -> subs_ok (delete i subs).
Proof.
  intros [Hn Ho]. assert (Hs : sublist (delete i subs) subs) by apply sublist_delete. split.
  - eapply sublist_NoDup; [exact Hn|by apply fmap_sublist].
  - apply Forall_forall. intros x Hx. rewrite Forall_forall in Ho. apply Ho. eapply elem_of_submseteq; [exact Hx|by apply sublist_submseteq].
Qed.

Lemma swapped_length i j l : length (swapped i j l) = length l.
Proof. unfold swapped. destruct (l !! i), (l !! j); rewrite ?length_insert; done. Qed.

Lemma swapped_perm i j l : swapped i j l ≡ₚ l.
Proof.
  unfold swapped. destruct (l !! i) as [x|] eqn:Ei; [|done]. destruct (l !! j) as [y|] eqn:Ej; [|done].
  by apply Permutation_insert_swap.
Qed.

Lemma subs_ok_moved direction i l l' : moved direction i l = Some l' -> subs_ok l -> subs_ok l'.
Proof.
  assert (Hp : forall j, subs_ok l -> subs_ok (swapped i j l)).
  { intros j [Hn Ho]. pose proof (swapped_perm i j l) as P. split; [by rewrite P|by rewrite P]. }
  unfold moved. cbv zeta. destruct (if bool_decide _ then _ else _) as [j|]; [|done]. case_bool_decide; [|done]. intros [= <-]. apply Hp.
Qed.

End WellFormed.

(** ** Moving *)

Lemma find_unique id l i s : NoDup (Subscription.ID <$> l) -> l !! i = Some s -> Subscription.ID s = id -> find_listed id l = Some (i, s).
Proof.
  intros Hn Hi <-. apply list_find_Some. split; [done|]. split; [done|]. intros j y Hj Hlt Heq.
  assert (j = i); [|lia]. eapply (NoDup_lookup (Subscription.ID <$> l)); [done| |]; rewrite list_lookup_fmap; [by rewrite Hj; cbn; rewrite Heq|by rewrite Hi].
Qed.

Lemma swapped_lookups i j l x y : i <> j -> l !! i = Some x -> l !! j = Some y ->
  swapped i j l !! i = Some y /\ swapped i j l !! j = Some x /\ swapped j i (swapped i j l) = l.
Proof.
  intros Hij Hx Hy. pose proof (lookup_lt_Some _ _ _ Hx). pose proof (lookup_lt_Some _ _ _ Hy).
  assert (E : swapped i j l = <[j := x]> (<[i := y]> l)) by (unfold swapped; by rewrite Hx, Hy).
  assert (Hi : swapped i j l !! i = Some y).
  { rewrite E, list_lookup_insert_ne by done. apply list_lookup_insert_eq. done. }
  assert (Hj : swapped i j l !! j = Some x).
  { rewrite E. apply list_lookup_insert_eq. by rewrite length_insert. }
  split_and!; [done|done|]. unfold swapped at 1. rewrite Hi, Hj, E. apply list_eq. intros k.
  destruct (decide (k = i)) as [->|Hki]; [rewrite list_lookup_insert_eq by (by rewrite !length_insert); by rewrite Hx|].
  rewrite list_lookup_insert_ne by done. destruct (decide (k = j)) as [->|Hkj].
  - rewrite list_lookup_insert_eq by (by rewrite !length_insert). by rewrite Hy.
  - rewrite !list_lookup_insert_ne by done. done.
Qed.

Lemma moved_up i l l' : moved "up" (S i) l = Some l' <-> (i < length l)%nat /\ l' = swapped (S i) i l.
Proof.
  change (moved "up" (S i) l) with (if bool_decide (i < length l)%nat then Some (swapped (S i) i l) else None). case_bool_decide; naive_solver.
Qed.

Lemma moved_down i l l' : moved "down" i l = Some l' <-> (S i < length l)%nat /\ l' = swapped i (S i) l.
Proof.
  change (moved "down" i l) with (if bool_decide (S i < length l)%nat then Some (swapped i (S i) l) else None). case_bool_decide; naive_solver.
Qed.

Definition opposite (direction : string) : string := if bool_decide (direction = "up") then "down" else "up".

(** A move that changed the list is undone by the opposite move of the same
    subscription, which it finds at its new place. *)
Theorem move_is_undone direction id l i s l' :
  NoDup (Subscription.ID <$> l) -> direction = "up" \/ direction = "down" ->
  find_listed id l = Some (i, s) -> moved direction i l = Some l' ->
  exists j, find_listed id l' = Some (j, s) /\ moved (opposite direction) j l' = Some l.
Proof.
  intros Hn Hd [Hi Hid]%find_listed_Some.
  assert (Hkey : forall j, (j = S i \/ i = S j) -> (j < length l)%nat ->
            find_listed id (swapped i j l) = Some (j, s) /\ swapped j i (swapped i j l) = l).
  { intros j Hj Hlt. destruct (lookup_lt_is_Some_2 l j) as [y Hy]; [done|].
    destruct (swapped_lookups i j l s y) as (_ & H2' & H3'); [lia|done|done|]. split; [|done].
    apply find_unique; [|done|done]. by rewrite swapped_perm. }
  pose proof (lookup_lt_Some _ _ _ Hi) as Hlen. destruct Hd as [->| ->].
  - destruct i as [|i]; [done|]. intros [Hlt ->]%moved_up. exists i. destruct (Hkey i) as [Hf Hs]; [by right|done|].
    split; [done|]. apply moved_down. rewrite swapped_length, Hs. done.
  - intros [Hlt ->]%moved_down. exists (S i). destruct (Hkey (S i)) as [Hf Hs]; [by left|done|].
    split; [done|]. apply moved_up. rewrite swapped_length, Hs. done.
Qed.

(** ** Identifiers *)

Section Identifiers.
  Context (sha1_hex : string -> string).
  Context (marshal_signature : string -> string -> string -> string -> list Node -> option string).

Abbreviation numbered := (numbered_id sha1_hex marshal_signature).
Abbreviation resolve_id := (resolveAddSubscriptionID sha1_hex marshal_signature).
Abbreviation same := (same_content sha1_hex marshal_signature).

Lemma subscriptionIDExists_spec subs id : subscriptionIDExists subs id = true <-> id ∈ Subscription.ID <$> subs.
Proof.
  unfold subscriptionIDExists. rewrite existsb_exists. setoid_rewrite <- list_elem_of_In. split.
  - intros (s & Hs & Hid%bool_decide_eq_true). apply list_elem_of_fmap. eauto.
  - intros (s & -> & Hs)%list_elem_of_fmap. exists s. by rewrite bool_decide_eq_true.
Qed.

Lemma free_numbered_some subs next fuel n id : free_numbered sha1_hex marshal_signature subs next fuel n = Some id -> id ∉ Subscription.ID <$> subs.
Proof.
  revert n. induction fuel as [|fuel IH]; intros n; [done|]. cbn. destruct (subscriptionIDExists _ _) eqn:E; [apply IH|].
  intros [= <-]. by rewrite <- subscriptionIDExists_spec, E.
Qed.

Lemma free_numbered_none subs next fuel n : free_numbered sha1_hex marshal_signature subs next fuel n = None ->
  Forall (fun k => numbered next k ∈ Subscription.ID <$> subs) (seqZ n (Z.of_nat fuel)).
Proof.
  revert n. induction fuel as [|fuel IH]; intros n; [by rewrite seqZ_nil by lia|]. cbn [free_numbered]. cbv zeta.
  destruct (subscriptionIDExists _ _) eqn:E; [|done]. intros Hf. rewrite Nat2Z.inj_succ, seqZ_cons by lia.
  apply Forall_cons. split; [by apply subscriptionIDExists_spec|]. replace (Z.pred (Z.succ (Z.of_nat fuel))) with (Z.of_nat fuel) by lia.
  replace (Z.succ n) with (n + 1)%Z by lia. by apply IH.
Qed.

Lemma same_find next subs e : List.find (same next) subs = Some e -> e ∈ subs /\ same next e = true.
Proof. intros [Hi Hs]%find_some. split; [by apply list_elem_of_In|done]. Qed.

(** What the source searches for: an identifier of a subscription with the same
    content, or one that nobody has. *)
Lemma resolved_id subs next fuel id : resolve_id fuel subs next = Some id ->
  (exists e, e ∈ subs /\ Subscription.ID e = id /\ same next e = true) \/ id ∉ Subscription.ID <$> subs.
Proof.
  unfold resolveAddSubscriptionID. destruct (List.find _ subs) as [e|] eqn:Ef.
  - intros [= <-]. left. exists e. by destruct (same_find _ _ _ Ef).
  - intros Hr. right. revert Hr. destruct (subscriptionIDExists _ _) eqn:E1; cbn.
    + destruct (subscriptionIDExists subs (stableSubscriptionID _ _ _)) eqn:E2 in |- *; cbn; [apply free_numbered_some|].
      intros [= <-]. by rewrite <- subscriptionIDExists_spec, E2.
    + intros [= <-]. by rewrite <- subscriptionIDExists_spec, E1.
Qed.

(** The search for an identifier ends: among one more numbered candidates than
    there are subscriptions, when their hashes differ, one is free; more steps give
    the same. *)
Theorem free_identifier_found subs next fuel :
  NoDup (numbered next <$> seqZ 2 (Z.of_nat (S (length subs)))) -> (length subs < fuel)%nat ->
  exists id, resolve_id fuel subs next = Some id /\
    ((exists e, e ∈ subs /\ Subscription.ID e = id /\ same next e = true) \/ id ∉ Subscription.ID <$> subs).
Proof.
  intros Hd Hf. destruct (resolve_id fuel subs next) as [id|] eqn:E; [exists id; split; [done|by eapply resolved_id]|]. exfalso.
  assert (Hn : free_numbered sha1_hex marshal_signature subs next fuel 2 = None).
  { unfold resolveAddSubscriptionID in E. destruct (List.find _ _); [done|]. destruct (negb _); [done|]. by destruct (negb _). }
  apply free_numbered_none in Hn.
  assert (Hle : (length (numbered next <$> seqZ 2 (Z.of_nat (S (length subs)))) <= length (Subscription.ID <$> subs))%nat).
  { apply submseteq_length, NoDup_submseteq; [done|]. intros x (k & -> & Hk)%list_elem_of_fmap. rewrite Forall_forall in Hn. apply Hn.
    apply elem_of_seqZ in Hk. apply elem_of_seqZ. lia. }
  rewrite !length_fmap, length_seqZ in Hle. lia.
Qed.

End Identifiers.

(** ** Servers that stay the same *)

(** The server of an identifier, when a refresh gave it another one. *)
Lemma remap_unique id previous refreshed p m :
  id <> "" -> id ∉ Node.ID <$> refreshed -> find_node previous id = Some p ->
  filter (fun n => sameRefreshedNodeIdentity n p = true) refreshed = [m] ->
  remapRefreshedNodeID id previous refreshed = Node.ID m.
Proof.
  intros Hid Hr Hp Hm. unfold remapRefreshedNodeID. rewrite bool_decide_eq_false_2 by done.
  destruct (existsb _ refreshed) eqn:E; [|by rewrite Hp, Hm]. exfalso.
  apply existsb_exists in E as (n & Hn%list_elem_of_In & Hid'%bool_decide_eq_true). apply Hr, list_elem_of_fmap. by exists n.
Qed.

(** An identifier that is still there is kept. *)
Lemma remap_kept id previous refreshed : id ∈ Node.ID <$> refreshed -> remapRefreshedNodeID id previous refreshed = id.
Proof.
  intros (n & -> & Hn)%list_elem_of_fmap. unfold remapRefreshedNodeID. case_bool_decide; [done|].
  assert (E : existsb (fun n' => bool_decide (Node.ID n' = Node.ID n)) refreshed = true); [|by rewrite E].
  apply existsb_exists. exists n. rewrite <- list_elem_of_In, bool_decide_eq_true. done.
Qed.

Lemma remap_old_or_new id previous refreshed :
  remapRefreshedNodeID id previous refreshed = id \/ remapRefreshedNodeID id previous refreshed ∈ Node.ID <$> refreshed.
Proof.
  unfold remapRefreshedNodeID. case_bool_decide; [by left|]. destruct (existsb _ _); [by left|]. destruct (find_node _ _) as [p|]; [|by left].
  destruct (filter _ refreshed) as [|m [|]] eqn:E; [by left| |by left]. right. apply list_elem_of_fmap. exists m. split; [done|].
  assert (Hm : m ∈ filter (fun n => sameRefreshedNodeIdentity n p = true) refreshed) by (rewrite E; set_solver).
  by apply list_elem_of_filter in Hm as [_ Hm].
Qed.

(** ** Hidden servers *)

Definition clean (id : string) : Prop := TrimSpace id = id /\ id <> "".

Definition plain_id (id : string) : Prop := clean id /\ has_byte id "/"%char = false.

Lemma plain_parts sid n : plain_id sid -> clean n -> exclusion_parts sid n.
Proof. intros [[H1s H2s] H3s] [H4s H5s]. by repeat split. Qed.

Lemma hidden_iff values sid n : plain_id sid -> clean n ->
  IsAutoExcludedNode values sid n = true <-> exists v, v ∈ values /\ SplitAutoExcludedNodeKey v = Some (sid, n).
Proof.
  intros Hs Hn. pose proof (plain_parts _ _ Hs Hn) as Hp. rewrite (proj1 (IsAutoExcludedNode_normalized values sid n (proj2 Hs))).
  rewrite NormalizeAutoExcludedNodes_elem, (AutoExcludedNodeKey_parts _ _ Hp). split.
  - intros (_ & v & s & k & Hv & Hsp & E). exists v. split; [done|]. pose proof (SplitAutoExcludedNodeKey_parts _ _ _ Hsp) as Hq.
    rewrite (AutoExcludedNodeKey_parts _ _ Hq) in E. rewrite Hsp, <- (SplitAutoExcludedNodeKey_key _ _ Hp), E. symmetry. by apply SplitAutoExcludedNodeKey_key.
  - intros (v & Hv & Hsp). split; [by destruct sid|]. exists v, sid, n. split_and!; [done|done|]. by rewrite AutoExcludedNodeKey_parts.
Qed.

(** A refresh hides exactly the servers that were hidden, under their new
    identifiers, and hides or shows nothing of the other subscriptions. *)
Theorem hidden_servers_follow values sid previous refreshed :
  plain_id sid -> Forall (fun n => clean (Node.ID n)) refreshed ->
  let remapped := remapRefreshedAutoExcludedNodes values sid previous refreshed in
  (forall m, clean m -> IsAutoExcludedNode remapped sid m = true <->
     exists n, clean n /\ IsAutoExcludedNode values sid n = true /\ remapRefreshedNodeID n previous refreshed = m) /\
  (forall other n, plain_id other -> other <> sid -> clean n ->
     IsAutoExcludedNode remapped other n = true <-> IsAutoExcludedNode values other n = true).
Proof.
  intros Hsid Hr. cbv zeta.
  assert (Hin : forall other n, plain_id other -> clean n ->
            IsAutoExcludedNode (remapRefreshedAutoExcludedNodes values sid previous refreshed) other n = true <->
            exists v, v ∈ values /\ SplitAutoExcludedNodeKey (remap_excluded sid previous refreshed v) = Some (other, n)).
  { intros other n Ho Hn. destruct values as [|v0 values]; [cbn; rewrite hidden_iff by done; set_solver|].
    unfold remapRefreshedAutoExcludedNodes. rewrite (proj2 (IsAutoExcludedNode_normalized _ other n (proj2 Ho))), hidden_iff by done.
    split.
    - intros (v & (u & -> & Hu)%list_elem_of_fmap & Hv). by exists u.
    - intros (v & Hv & E). exists (remap_excluded sid previous refreshed v). split; [|done]. apply list_elem_of_fmap. by exists v. }
  assert (Hmap : forall v s k, SplitAutoExcludedNodeKey v = Some (s, k) ->
            SplitAutoExcludedNodeKey (remap_excluded sid previous refreshed v)
            = Some (s, if bool_decide (s = sid) then remapRefreshedNodeID k previous refreshed else k)).
  { intros v s k Hv. pose proof (SplitAutoExcludedNodeKey_parts _ _ _ Hv) as (Hs1 & Hs2 & Hk1 & Hk2 & Hs3).
    unfold remap_excluded. rewrite Hv. case_bool_decide as E; [|done]. subst s.
    assert (Hp : exclusion_parts sid (remapRefreshedNodeID k previous refreshed)).
    { apply plain_parts; [done|]. destruct (remap_old_or_new k previous refreshed) as [->|(m & -> & Hm)%list_elem_of_fmap]; [done|].
      rewrite Forall_forall in Hr. by apply Hr. }
    by rewrite (AutoExcludedNodeKey_parts _ _ Hp), (SplitAutoExcludedNodeKey_key _ _ Hp). }
  assert (Hnone : forall v, SplitAutoExcludedNodeKey v = None -> remap_excluded sid previous refreshed v = v)
    by (intros v Hv; unfold remap_excluded; by rewrite Hv).
  split.
  - intros m Hm. rewrite Hin by done. split.
    + intros (v & Hv & E). destruct (SplitAutoExcludedNodeKey v) as [[s k]|] eqn:Ev; [|rewrite (Hnone _ Ev) in E; congruence].
      rewrite (Hmap _ _ _ Ev) in E. injection E as -> Hk. rewrite bool_decide_eq_true_2 in Hk by done.
      pose proof (SplitAutoExcludedNodeKey_parts _ _ _ Ev) as (_ & _ & Hk1 & Hk2 & _). exists k. split; [done|]. split; [|done].
      apply hidden_iff; [done|done|]. by exists v.
    + intros (n & Hn & Hh & <-). apply hidden_iff in Hh as (v & Hv & Ev); [|done|done]. exists v. split; [done|].
      by rewrite (Hmap _ _ _ Ev), bool_decide_eq_true_2.
  - intros other n Ho Hne Hn. rewrite Hin, hidden_iff by done. split.
    + intros (v & Hv & E). exists v. split; [done|]. destruct (SplitAutoExcludedNodeKey v) as [[s k]|] eqn:Ev; [|rewrite (Hnone _ Ev) in E; congruence].
      rewrite (Hmap _ _ _ Ev) in E. injection E as -> Hk. rewrite bool_decide_eq_false_2 in Hk by done. by rewrite Hk.
    + intros (v & Hv & Ev). exists v. split; [done|]. by rewrite (Hmap _ _ _ Ev), bool_decide_eq_false_2.
Qed.

(** A name that was given by hand survives every refresh, whatever the provider
    calls itself. *)
Theorem renamed_name_survives url_parse to_upper name sub title : TrimSpace name <> "" ->
  refreshedProviderIdentity url_parse to_upper (renamed name sub) title = (TrimSpace name, TrimSpace name, ProviderNameSourceManual).
Proof.
  intros Hn. unfold refreshedProviderIdentity. cbv zeta.
  change (Subscription.DisplayName (renamed name sub)) with name. change (Subscription.ProviderName (renamed name sub)) with name.
  assert (E : display_name name name = TrimSpace name) by (unfold display_name; by case_bool_decide). rewrite E.
  assert (Hc : canUpgradeLegacyProviderName url_parse to_upper (renamed name sub) (TrimSpace name) = false).
  { unfold canUpgradeLegacyProviderName. rewrite TrimSpace_idemp, bool_decide_eq_false_2 by done. done. }
  rewrite Hc. done.
Qed.

(** ** Witnesses *)

Definition listed_subscription (id : string) : Subscription :=
  Subscription.mk id SourceTypeURL "https://a.example" "" "A" ProviderNameSourceURL "A" "" zero_time None None 0%Z "" "ok" [].

Lemma move_is_undone_witness :
  exists j, find_listed "b" (default [] (moved "up" 1 [listed_subscription "a"; listed_subscription "b"])) = Some (j, listed_subscription "b") /\
    moved "down" j (default [] (moved "up" 1 [listed_subscription "a"; listed_subscription "b"])) = Some [listed_subscription "a"; listed_subscription "b"].
Proof.
  apply (move_is_undone "up" "b" [listed_subscription "a"; listed_subscription "b"] 1 (listed_subscription "b")).
  - apply NoDup_cons. split; [|apply NoDup_singleton]. cbn. intros Hin%list_elem_of_singleton. discriminate Hin.
  - by left.
  - reflexivity.
  - reflexivity.
Defined.

Lemma renamed_name_survives_witness :
  refreshedProviderIdentity (fun _ => None) (fun r => r) (renamed " Mine " (listed_subscription "a")) "Provider"
    = ("Mine", "Mine", ProviderNameSourceManual).
Proof.
  exact (renamed_name_survives (fun _ => None) (fun r => r) " Mine " (listed_subscription "a") "Provider" ltac:(discriminate)).
Defined.

(** The candidates of a hash that tells texts apart. *)
Lemma free_identifier_found_witness :
  let subs := [listed_subscription "sub-url|https:"] in
  let marshal := fun _ _ _ _ _ => Some "" in
  let hash := fun s => if bool_decide (s = "") then "" else String.substring (String.length s - 10) 10 s in
  exists id, resolveAddSubscriptionID hash marshal 2 subs (listed_subscription "x") = Some id /\
    ((exists e, e ∈ subs /\ Subscription.ID e = id /\ same_content hash marshal (listed_subscription "x") e = true) \/ id ∉ Subscription.ID <$> subs).
Proof.
  intros subs marshal hash. apply (free_identifier_found hash marshal subs (listed_subscription "x") 2); [|unfold subs; cbn; lia].
  apply NoDup_cons. split; [|apply NoDup_singleton]. intros Hin%list_elem_of_singleton. vm_compute in Hin. discriminate Hin.
Defined.

Definition named_node (id address : string) : Node := Node.zero <| Node.ID := id |> <| Node.Protocol := ProtocolVLESS |> <| Node.Remark := address |>.

Lemma hidden_servers_follow_witness :
  let previous := [named_node "old" ""] in
  let refreshed := [named_node "new" ""] in
  IsAutoExcludedNode (remapRefreshedAutoExcludedNodes ["s/old"; "t/old"] "s" previous refreshed) "s" "new" = true.
Proof.
  intros previous refreshed.
  assert (Hs : plain_id "s") by (split; [split|]; [reflexivity|discriminate|reflexivity]).
  assert (Hc : forall id, id = "new" \/ id = "old" -> clean id) by (intros id [->| ->]; split; [reflexivity|discriminate|reflexivity|discriminate]).
  assert (Hr : Forall (fun n => clean (Node.ID n)) refreshed) by (apply Forall_singleton, Hc; by left).
  apply (proj1 (hidden_servers_follow ["s/old"; "t/old"] "s" previous refreshed Hs Hr) "new"); [apply Hc; by left|].
  exists "old". split; [apply Hc; by right|]. split; reflexivity.
Defined.
