(* ===== verification/SubscriptionsFacts.v ===== *)
(** * Subscriptions: theorems

    What the handlers keep of the list of subscriptions, what a subscription that
    is added, removed or refreshed leaves behind, and how much is asked of a
    provider. *)
From S2P Require Import Prelude GoRunes GoStrings GoNum NetIP Domain GoConv AmneziaProfile.
From S2P Require Import AmneziaRuntime Firewall FirewallSettings Zapret Settings Connection Probe.
From S2P Require Import Migrations PersistFacts AutoState AutoSelect AutoSelectFacts Reserves.
From S2P Require Import XrayConfig XrayFacts BackendRequest ManagedBackend Scheduler Effects.
From S2P Require Import ManagedSwitch ManagedSwitchFacts MemoryWorld NodeSelection.
From S2P Require Import NodeSelectionFacts ReserveRound AutoCommit Failover AtomicFiles.
From S2P Require Import AmneziaStore Reapply SettingsKept ProviderNames SubscriptionFetch.
From S2P Require Import Subscriptions.

Local Open Scope Z_scope.
Local Open Scope list_scope.

(** ** What is relied on *)

Section Files.
  Context {W : Type} `{ManagedBackend W, Router W, Runtime W, SubscriptionHost W}.

(** The three files of the service. *)
Definition files (w : W) : result string (list Subscription) * result string RuntimeState * result string Settings :=
  (read_subscriptions w, load_state w, load_settings w).

Definition apart {A} (f : W -> A * W) : Prop := forall w, files (f w).2 = files w.

End Files.

(** What is outside leaves the files alone, and a failed store left the old file
    or the new one.  [reloaded]: a subscription as it comes back from the file. *)
Class SubscriptionLaws (W : Type) `{ManagedBackend W, Router W, Runtime W, SubscriptionHost W}
    (good : Node -> Prop) (reloaded : Subscription -> Subscription) : Prop := {
  reloaded_ID : forall sub, Subscription.ID (reloaded sub) = Subscription.ID sub;
  reloaded_owns : forall sub, owns good sub -> owns good (reloaded sub);
  subs_saved : forall l w w', save_subscriptions l w = (None, w') -> read_subscriptions w' = Ok (reloaded <$> l);
  subs_saved_or_old : forall l w, let w' := (save_subscriptions l w).2 in
    read_subscriptions w' = read_subscriptions w \/ read_subscriptions w' = Ok (reloaded <$> l);
  subs_save_state : forall l w, load_state (save_subscriptions l w).2 = load_state w;
  subs_save_settings : forall l w, load_settings (save_subscriptions l w).2 = load_settings w;
  state_saved : forall s w w', save_state s w = (None, w') -> load_state w' = Ok (reload_state (settle_operational_mode s));
  state_saved_or_old : forall s w, let w' := (save_state s w).2 in
    load_state w' = load_state w \/ load_state w' = Ok (reload_state (settle_operational_mode s));
  state_save_subs : forall s w, read_subscriptions (save_state s w).2 = read_subscriptions w;
  settings_save_subs : forall s w, read_subscriptions (store_settings s w).2 = read_subscriptions w;
  settings_save_state : forall s w, load_state (store_settings s w).2 = load_state w;
  apart_get : forall tls12 url headers, apart (http_get tls12 url headers);
  apart_back_off : forall d, apart (back_off d);
  apart_random : apart random_id;
  apart_now : apart now_utc;
  apart_clock : apart clock;
  apart_firewall : apart firewall_disable;
  apart_dns : apart dns_disable;
  apart_stop : apart stop_backend;
  apart_zapret : apart zapret_disable
}.

#[export] Hint Resolve apart_get apart_back_off apart_random apart_now apart_clock apart_firewall apart_dns apart_stop apart_zapret : untouched.

(** What carries a connection on the router: the redirection of traffic, the
    resolver, the proxy, and the fallback. *)
Inductive Manager : Type := FirewallRules | DNSRuntime | ProxyProcess | ZapretProcess.

#[export] Instance Manager_eq_dec : EqDecision Manager.
Proof. solve_decision. Defined.

(** [up m w]: the manager [m] has something in force in [w].  Switching one off
    takes that one down and no other; the files and the clock have no part in it. *)
Class ManagerLaws (W : Type) `{ManagedBackend W, Router W, Runtime W, SubscriptionHost W} (up : Manager -> W -> bool) : Prop := {
  firewall_goes_down : forall w w', firewall_disable w = (None, w') -> up FirewallRules w' = false;
  dns_goes_down : forall w w', dns_disable w = (None, w') -> up DNSRuntime w' = false;
  proxy_goes_down : forall w w', stop_backend w = (None, w') -> up ProxyProcess w' = false;
  zapret_goes_down : forall w w', zapret_disable w = (None, w') -> up ZapretProcess w' = false;
  up_beside_dns : forall m w, m <> DNSRuntime -> up m (dns_disable w).2 = up m w;
  up_beside_proxy : forall m w, m <> ProxyProcess -> up m (stop_backend w).2 = up m w;
  up_beside_zapret : forall m w, m <> ZapretProcess -> up m (zapret_disable w).2 = up m w;
  up_beside_clock : forall m w, up m (clock w).2 = up m w;
  up_beside_state : forall m s w, up m (save_state s w).2 = up m w;
  up_beside_settings : forall m s w, up m (store_settings s w).2 = up m w;
  up_beside_subscriptions : forall m l w, up m (save_subscriptions l w).2 = up m w
}.

Section Subscriptions.
  Context {W : Type} {good : Node -> Prop} {reloaded : Subscription -> Subscription} `{SubscriptionLaws W good reloaded} `{WebText}.
  Context (parse_nodes : string -> string -> result string (list Node)) (to_upper : Z -> Z).
  Context (sha1_hex : string -> string) (marshal_signature : string -> string -> string -> string -> list Node -> option string).
  Context (id_attempts : nat).

Abbreviation add := (addSubscription (W := W) parse_nodes to_upper sha1_hex marshal_signature id_attempts).
Abbreviation refresh := (refreshSubscription (W := W) parse_nodes to_upper).
Abbreviation App := (Prog W Fault).
Abbreviation owned := (owned good).
Abbreviation owns := (owns good).
Abbreviation subs_ok := (subs_ok good).

(** ** What touches no file *)

Lemma untouched_apart {E A} (f : W -> A * W) : apart f -> untouched (E := E) files (outcome f).
Proof. intros Hf. apply untouched_outcome, Hf. Qed.

Lemma untouched_apart_act {E X} (wrap : X -> E) (f : W -> option X * W) : apart f -> untouched files (act wrap f).
Proof. intros Hf. apply untouched_act, Hf. Qed.

#[local] Hint Resolve untouched_apart untouched_apart_act : untouched.

Lemma untouched_once url hwid agent tls12 : untouched files (fetchSubscriptionOnceWithClient (W := W) url hwid agent tls12).
Proof. unfold fetchSubscriptionOnceWithClient. untouched_steps. Qed.

#[local] Hint Resolve untouched_once : untouched.

Lemma untouched_attempts url hwid more n : untouched files (fetch_attempts (W := W) url hwid more n).
Proof.
  revert n. induction more as [|more IH]; intros n; cbn [fetch_attempts];
    unfold fetchSubscriptionOnce, enrichSubscriptionMetadata, fetchSubscriptionMetadata; untouched_steps.
Qed.

#[local] Hint Resolve untouched_attempts : untouched.

Lemma untouched_fetch url hwid : untouched files (fetchSubscription (W := W) url hwid).
Proof. unfold fetchSubscription. untouched_steps. Qed.

Lemma untouched_hwid hwid : untouched files (hwid_or_new (W := W) hwid).
Proof. unfold hwid_or_new, newSubscriptionHWID. untouched_steps. Qed.

#[local] Hint Resolve untouched_fetch untouched_hwid : untouched.

Lemma untouched_source req : untouched files (resolveSubscriptionSource (W := W) req).
Proof. unfold resolveSubscriptionSource. untouched_steps. Qed.

Lemma untouched_content subs i sub : untouched files (refresh_content (W := W) subs i sub).
Proof. unfold refresh_content. untouched_steps. Qed.

Lemma untouched_utc : untouched files (utc_time (W := W)).
Proof. unfold utc_time. untouched_steps. Qed.

Lemma untouched_current : untouched files (currentTime (W := W)).
Proof. intros w. unfold currentTime. pose proof (apart_clock w). by destruct (clock w). Qed.

Lemma untouched_load_subs context : untouched files (load_subscriptions_as (W := W) context).
Proof. intros w. unfold load_subscriptions_as. by destruct (read_subscriptions w). Qed.

Lemma untouched_load_settings context : untouched files (load_settings_as (W := W) context).
Proof. intros w. unfold load_settings_as. by destruct (load_settings w). Qed.

#[local] Hint Resolve untouched_source untouched_content untouched_utc untouched_current untouched_load_subs untouched_load_settings : untouched.

Lemma untouched_hwid_remembered req : untouched files (with_remembered_hwid (W := W) req).
Proof. unfold with_remembered_hwid. untouched_steps. Qed.

Lemma untouched_expiry metadata sub : untouched files (refreshed_expiry (W := W) metadata sub).
Proof. unfold refreshed_expiry. untouched_steps. Qed.

Lemma untouched_disconnect : untouched files (disconnectRuntime (W := W)).
Proof. unfold disconnectRuntime, stopProxyTransport. untouched_steps. Qed.

#[local] Hint Resolve untouched_hwid_remembered untouched_expiry untouched_disconnect : untouched.

(** ** The list stays well-formed *)

Definition file_ok (w : W) : Prop := forall subs, read_subscriptions w = Ok subs -> subs_ok subs.

Lemma reloaded_ok l : subs_ok l -> subs_ok (reloaded <$> l).
Proof.
  intros [Hn Ho]. split.
  - rewrite <- list_fmap_compose. erewrite list_fmap_ext; [exact Hn|]. intros i sub _. apply reloaded_ID.
  - apply Forall_fmap. eapply Forall_impl; [exact Ho|]. apply reloaded_owns.
Qed.

Lemma stays_files {E A} (p : Prog W E A) : untouched files p -> stays file_ok p.
Proof. intros Hp w Hw subs Hs. specialize (Hp w). apply (f_equal (fun x => x.1.1)) in Hp. cbn in Hp. apply Hw. by rewrite <- Hp. Qed.

Lemma stays_save_subs {E} (wrap : string -> E) l : subs_ok l -> stays file_ok (act wrap (save_subscriptions l)).
Proof.
  intros Hl. apply stays_act. intros w Hw subs. destruct (subs_saved_or_old l w) as [->| ->]; [apply Hw|].
  intros [= <-]. by apply reloaded_ok.
Qed.

Lemma stays_save_state {E} (wrap : string -> E) s : stays file_ok (act wrap (save_state s)).
Proof. apply stays_act. intros w Hw subs. rewrite state_save_subs. apply Hw. Qed.

Lemma stays_store_settings {E} (wrap : string -> E) s : stays file_ok (act wrap (store_settings s)).
Proof. apply stays_act. intros w Hw subs. rewrite settings_save_subs. apply Hw. Qed.

Lemma stays_with_subs {A} context (k : list Subscription -> App A) :
  (forall subs, subs_ok subs -> stays file_ok (k subs)) -> stays file_ok (load_subscriptions_as context ≫= k).
Proof.
  intros Hk w Hw. unfold mbind, prog_bind, load_subscriptions_as. destruct (read_subscriptions w) as [subs|e] eqn:E; [|done].
  apply Hk; [by apply Hw|done].
Qed.

#[local] Hint Resolve stays_ret stays_raise stays_of_result stays_reads stays_save_state stays_store_settings : stays.

Ltac subs_steps :=
  repeat first
    [ solve [eauto with stays]
    | solve [apply stays_files; eauto with untouched]
    | match goal with
      | |- stays _ (load_subscriptions_as _ ≫= _) => apply stays_with_subs; intros ? ?
      | |- stays _ (save_subscriptions_as _) => apply stays_save_subs
      | |- stays _ (act _ (save_subscriptions _)) => apply stays_save_subs
      | |- stays _ (mbind _ _) => apply stays_bind; [|intros ?]
      | |- stays _ (ignore _) => apply stays_ignore
      | |- stays _ (attempt _) => apply stays_attempt
      | |- stays _ (when _ _) => apply stays_when
      | |- stays _ (match ?x with _ => _ end) => destruct x eqn:?
      | |- stays _ (let '_ := ?x in _) => destruct x eqn:?
      end ].

Lemma stays_touch change : stays file_ok (touch_state (W := W) change).
Proof. unfold touch_state. subs_steps. Qed.

Lemma stays_persist state : stays file_ok (persistDisconnectedState (W := W) state).
Proof. unfold persistDisconnectedState, stamp, save_as, save_settings. cbv zeta. subs_steps. Qed.

#[local] Hint Resolve stays_touch stays_persist : stays.

Lemma stays_remove in_use subs : subs_ok subs -> stays file_ok (remove_with (W := W) in_use subs).
Proof. intros Hs. unfold remove_with. cbv zeta. subs_steps; try done. Qed.

#[local] Hint Resolve stays_remove : stays.

Lemma put_nodes_owned id new old : Forall (owned id) old -> Forall (owned id) new -> Forall (owned id) (foldl put_node old new).
Proof.
  revert old. induction new as [|n new IH]; cbn; intros old Ho Hn; [done|]. apply Forall_cons in Hn as [Hn Hns]. apply IH; [|done].
  apply Forall_forall. intros x [->|Hx]%put_by_elem; [done|]. rewrite Forall_forall in Ho. by apply Ho.
Qed.

Lemma raw_list_owns interval subs : Forall owns subs ->
  owns (raw_list_of interval subs) /\ Subscription.ID (raw_list_of interval subs) = raw_list.
Proof.
  intros Ho. unfold raw_list_of. destruct (find_listed raw_list subs) as [[i sub]|] eqn:E; [|split; [constructor|done]].
  apply find_listed_Some in E as [Hi Hid]. split; [|done]. rewrite Forall_forall in Ho. by eapply Ho, list_elem_of_lookup_2.
Qed.

Lemma stays_bind_result {A B} (p : App A) (k : A -> App B) (R : A -> Prop) :
  stays file_ok p -> (forall w a w', p w = (Ok a, w') -> R a) -> (forall a, R a -> stays file_ok (k a)) -> stays file_ok (p ≫= k).
Proof.
  intros Hp HR Hk w Hw. pose proof (Hp w Hw) as H1'. unfold mbind, prog_bind. destruct (p w) as [[a|e] w1] eqn:E; [|done].
  apply Hk; [by eapply HR|done].
Qed.

(** What the reader gives is good, whatever subscription it is put in. *)
Section Reader.
  Context (good_moves : forall id n, good n -> good (n <| Node.SubscriptionID := id |>)).
  Context (good_parsed : forall text name nodes, parse_nodes text name = Ok nodes -> Forall good nodes).

Lemma added_owns subs req sourceType names hwid now metadata interval nodes sub : Forall owns subs -> Forall good nodes ->
  subscription_to_add sha1_hex marshal_signature id_attempts subs req sourceType names hwid now metadata interval nodes = Some sub -> owns sub.
Proof.
  intros Ho Hg. pose proof (fun id => owned_owned good id nodes (good_moves id) Hg) as Hown. unfold subscription_to_add. case_bool_decide.
  - intros Hs. injection Hs as <-. destruct (raw_list_owns interval subs Ho) as [Hl Hid].
    unfold owns. change (Subscription.ID (add_servers now nodes (raw_list_of interval subs))) with (Subscription.ID (raw_list_of interval subs)).
    change (Subscription.Nodes (add_servers now nodes (raw_list_of interval subs)))
      with (foldl put_node (Subscription.Nodes (raw_list_of interval subs)) (own_nodes raw_list nodes)).
    rewrite Hid. apply put_nodes_owned; [by rewrite <- Hid|apply Hown].
  - cbv zeta. case_bool_decide; [intros Hs; injection Hs as <-; apply Hown|].
    destruct (resolveAddSubscriptionID _ _ _ _ _); [|done]. intros Hs; injection Hs as <-; apply Hown.
Qed.

Lemma parsed_nodes_good text name w nodes w' :
  of_result (W := W) match parse_nodes text name with Ok nodes => Ok nodes | Err e => Err (wrap "parse subscription" e) end w = (Ok nodes, w') ->
  Forall good nodes.
Proof. destruct (parse_nodes text name) as [l|e] eqn:E; intros Er; [|discriminate Er]. injection Er as <- _. by eapply good_parsed. Qed.

Lemma stays_add req : stays file_ok (add req).
Proof.
  unfold addSubscription. apply stays_bind; [subs_steps|]. intros req'. apply stays_bind; [subs_steps|]. intros [[[source sourceType] metadata] hwid].
  apply stays_bind; [subs_steps|]. intros settings. cbv zeta.
  apply (stays_bind_result _ _ (Forall good)); [subs_steps|intros w nodes w'; apply parsed_nodes_good|]. intros nodes Hg.
  subs_steps. apply subs_ok_put; [done|]. eapply added_owns; [|exact Hg|eassumption].
  match goal with Hs : subs_ok _ |- _ => exact (proj2 Hs) end.
Qed.

Lemma stays_move id direction : stays file_ok (MoveSubscription (W := W) id direction).
Proof.
  intros w Hw. unfold MoveSubscription, mbind, prog_bind. destruct (read_subscriptions w) as [subs|e] eqn:E; [|done].
  destruct (find_listed id subs) as [[i sub]|] eqn:Ef; [|done]. destruct (_ || _); [|done].
  destruct (moved direction i subs) as [l|] eqn:El; [|done]. apply stays_save_subs; [|done]. eapply subs_ok_moved; [done|]. by apply Hw.
Qed.

(** Replaces one entry by another with the same identifier. *)
Lemma subs_ok_replace id subs i old sub : subs_ok subs -> find_listed id subs = Some (i, old) ->
  Subscription.ID sub = Subscription.ID old -> owns sub -> subs_ok (<[i := sub]> subs).
Proof. intros Hs [Hi _]%find_listed_Some Hid Ho. by eapply subs_ok_insert. Qed.

Lemma subs_ok_owner id subs i sub : subs_ok subs -> find_listed id subs = Some (i, sub) -> owns sub.
Proof. intros [_ Ho] [Hi _]%find_listed_Some. rewrite Forall_forall in Ho. by eapply Ho, list_elem_of_lookup_2. Qed.

Lemma stays_rename id name : stays file_ok (renameSubscription (W := W) id name).
Proof.
  unfold renameSubscription. subs_steps. subst. eapply subs_ok_replace; [done|done|done|].
  change (owns s). by eapply subs_ok_owner.
Qed.

Lemma subs_ok_list_without id i j sub subs : subs_ok subs -> find_listed id subs = Some (i, sub) -> subs_ok (list_without_node i j sub subs).
Proof.
  intros Hs Hf. unfold list_without_node. cbv zeta. case_bool_decide; [by apply subs_ok_delete|].
  eapply subs_ok_replace; [done|done|done|]. pose proof (subs_ok_owner _ _ _ _ Hs Hf) as Ho.
  unfold owns in *. change (Subscription.Nodes (sub <| Subscription.Nodes ::= delete j |>)) with (delete j (Subscription.Nodes sub)).
  change (Subscription.ID (sub <| Subscription.Nodes ::= delete j |>)) with (Subscription.ID sub). by apply Forall_delete.
Qed.

Lemma stays_remove_node subID nodeID : stays file_ok (removeSubscriptionNode (W := W) subID nodeID).
Proof. unfold removeSubscriptionNode. subs_steps. subst. apply stays_remove. by eapply subs_ok_list_without. Qed.

Lemma stays_remove_subscription id : stays file_ok (removeSubscription (W := W) id).
Proof. unfold removeSubscription. subs_steps. apply stays_remove. by apply subs_ok_delete. Qed.

Lemma stays_remove_all : stays file_ok (removeAllSubscriptions (W := W)).
Proof. unfold removeAllSubscriptions. subs_steps. apply stays_remove. split; [constructor|constructor]. Qed.

Lemma stays_record subs i id old sub context e : subs_ok subs -> find_listed id subs = Some (i, old) ->
  Subscription.ID sub = Subscription.ID old -> owns sub -> stays file_ok (record_failure (W := W) subs i sub context e).
Proof. intros Hs Hf Hid Ho. unfold record_failure. subs_steps. by eapply subs_ok_replace. Qed.

(** Fetching changes nothing but the identifier that is sent. *)
Lemma content_sub subs i sub w content metadata sub' w' :
  refresh_content (W := W) subs i sub w = (Ok (Ok (content, metadata, sub')), w') -> exists hwid, sub' = sub <| Subscription.HWID := hwid |>.
Proof.
  unfold refresh_content. case_bool_decide.
  - intros (hwid & w1 & _ & Hk)%bind_ok. apply bind_ok in Hk as (r & w2 & _ & Hk). destruct r; [|discriminate].
    injection Hk as _ _ <- _. by exists hwid.
  - intros Hk. injection Hk as _ _ <- _. exists (Subscription.HWID sub). by destruct sub.
Qed.

Lemma stays_hidden id previous nodes : stays file_ok (follow_hidden (W := W) id previous nodes).
Proof. unfold follow_hidden. cbv zeta. subs_steps. Qed.

#[local] Hint Resolve stays_hidden : stays.

(** A refresh reads the servers again, or keeps those of the list of single servers. *)
Lemma refreshed_good sub content metadata nodes names : owns sub -> refresh_nodes parse_nodes to_upper sub content metadata = Ok (nodes, names) ->
  Forall good nodes.
Proof.
  intros Ho. unfold refresh_nodes. case_bool_decide.
  - intros E. injection E as <- _. eapply Forall_impl; [exact Ho|]. by intros n [_ Hn].
  - cbv zeta. destruct (parse_nodes _ _) as [l|] eqn:E; [|discriminate]. intros E'. injection E' as <- _. by eapply good_parsed.
Qed.

Lemma stays_refresh id : stays file_ok (refresh id).
Proof.
  unfold refreshSubscription. apply stays_with_subs. intros subs Hs. destruct (find_listed id subs) as [[i sub]|] eqn:Ef; [|apply stays_raise].
  pose proof (subs_ok_owner _ _ _ _ Hs Ef) as Ho.
  apply stays_bind; [subs_steps|]. intros now. destruct (IsExpired sub now); [apply stays_raise|].
  apply (stays_bind_result _ _ (fun r => match r with Ok x => exists hwid, x.2 = sub <| Subscription.HWID := hwid |> | Err _ => True end)); [subs_steps| |].
  { intros w r w' E. destruct r as [[[content metadata] sub']|]; [|done]. by eapply content_sub. }
  intros [[[content metadata] sub']|e] Hr; [|by eapply stays_record]. destruct Hr as [hwid Hr]. cbn in Hr. subst sub'.
  destruct (refresh_nodes _ _ _ _ _) as [[nodes names]|e] eqn:En; [|by eapply stays_record]. cbv zeta. subs_steps.
  eapply subs_ok_replace; [done|done|done|]. apply owned_owned; [apply good_moves|]. by eapply refreshed_good.
Qed.

#[local] Hint Resolve stays_refresh : stays.

Lemma stays_each subs updated errors : stays file_ok (refresh_each (W := W) parse_nodes to_upper subs updated errors).
Proof. revert updated errors. induction subs as [|sub subs IH]; intros updated errors; cbn [refresh_each]; subs_steps; apply IH. Qed.

#[local] Hint Resolve stays_each stays_add stays_move stays_rename stays_remove_node stays_remove_subscription stays_remove_all : stays.

(** A request to the service. *)
Inductive SubscriptionCall : Type :=
| AddCall (req : AddSubscriptionRequest)
| MoveCall (id direction : string)
| RenameCall (id name : string)
| RemoveNodeCall (subID nodeID : string)
| RemoveCall (id : string)
| RemoveAllCall
| RefreshCall (id : string)
| RefreshAllCall.

Definition called {A} (p : App A) : App unit := _ ← p; mret tt.

Definition serve (call : SubscriptionCall) : App unit :=
  match call with
  | AddCall req => called (add req)
  | MoveCall id direction => MoveSubscription id direction
  | RenameCall id name => renameSubscription id name
  | RemoveNodeCall subID nodeID => removeSubscriptionNode subID nodeID
  | RemoveCall id => removeSubscription id
  | RemoveAllCall => called removeAllSubscriptions
  | RefreshCall id => called (refresh id)
  | RefreshAllCall => called (refreshAll parse_nodes to_upper)
  end.

(** Every request starts from the world that the one before left, also a failed one. *)
Definition serve_all (calls : list SubscriptionCall) (w : W) : W := foldl (fun w call => (serve call w).2) w calls.

Lemma stays_serve call : stays file_ok (serve call).
Proof.
  destruct call; cbn [serve]; unfold called, refreshAll; subs_steps.
Qed.

(** C16: whatever is added, moved, renamed, removed and refreshed, also when it
    fails half way: the identifiers in the file stay distinct, and every server
    names the subscription it is in. *)
Theorem subscriptions_stay_well_formed calls w : file_ok w -> file_ok (serve_all calls w).
Proof.
  revert w. induction calls as [|call calls IH]; cbn; intros w Hw; [done|]. apply IH, stays_serve, Hw.
Qed.

(** ** What a successful request leaves *)

(** The steps before a bind that succeeded left the files alone. *)
Lemma bind_apart {A B} (p : App A) (k : A -> App B) w b w' : untouched files p -> (p ≫= k) w = (Ok b, w') ->
  exists a w1, p w = (Ok a, w1) /\ files w1 = files w /\ k a w1 = (Ok b, w').
Proof. intros Hp (a & w1 & E & Hk)%bind_ok. exists a, w1. split_and!; [done| |done]. by eapply untouched_eq. Qed.

Lemma with_subs_ok {B} context (k : list Subscription -> App B) w subs b w' : read_subscriptions w = Ok subs ->
  (load_subscriptions_as context ≫= k) w = (Ok b, w') -> k subs w = (Ok b, w').
Proof. intros Hs. unfold mbind, prog_bind, load_subscriptions_as. by rewrite Hs. Qed.

Lemma files_subs w v : files w = files v -> read_subscriptions w = read_subscriptions v.
Proof. by intros [=]. Qed.

Lemma files_state w v : files w = files v -> load_state w = load_state v.
Proof. by intros [=]. Qed.

Lemma saved_subs_ok {B} wrap l (k : unit -> App B) w b w' : (act wrap (save_subscriptions l) ≫= k) w = (Ok b, w') ->
  exists w1, read_subscriptions w1 = Ok (reloaded <$> l) /\ load_state w1 = load_state w /\ load_settings w1 = load_settings w /\ k tt w1 = (Ok b, w').
Proof.
  intros ([] & w1 & E & Hk)%bind_ok. apply act_ok in E. exists w1. split_and!; [by eapply subs_saved| | |done].
  - replace w1 with (save_subscriptions l w).2 by (by rewrite E). apply subs_save_state.
  - replace w1 with (save_subscriptions l w).2 by (by rewrite E). apply subs_save_settings.
Qed.

Lemma touch_keeps_subs change w : read_subscriptions (touch_state (W := W) change w).2 = read_subscriptions w.
Proof.
  unfold touch_state, mbind, prog_bind, reads. destruct (load_state w) as [st|]; [|done]. unfold ignore, act. cbn [snd].
  pose proof (state_save_subs (change st) w). by destruct (save_state _ w) as [[|]].
Qed.

Lemma upserted subs sub : subs_ok subs -> owns sub ->
  sub ∈ upsertSubscription subs sub /\ subs_ok (upsertSubscription subs sub) /\
  filter (fun x => Subscription.ID x <> Subscription.ID sub) (upsertSubscription subs sub)
    = filter (fun x => Subscription.ID x <> Subscription.ID sub) subs.
Proof. intros Hs Ho. split_and!; [apply put_by_there|by apply subs_ok_put|]. apply put_by_others, Hs. Qed.

Lemma unique_id subs x y : subs_ok subs -> x ∈ subs -> y ∈ subs -> Subscription.ID x = Subscription.ID y -> x = y.
Proof.
  intros [Hn _] [i Hi]%list_elem_of_lookup_1 [j Hj]%list_elem_of_lookup_1 E. assert (i = j); [|naive_solver].
  eapply (NoDup_lookup (Subscription.ID <$> subs)); [done| |]; rewrite list_lookup_fmap; [by rewrite Hi; cbn; rewrite E|by rewrite Hj].
Qed.

(** A subscription with an address takes the place only of one with the same address. *)
Lemma added_replaces subs req sourceType names hwid now metadata interval nodes sub e : subs_ok subs ->
  subscription_to_add sha1_hex marshal_signature id_attempts subs req sourceType names hwid now metadata interval nodes = Some sub ->
  Subscription.SourceType sub = SourceTypeURL -> e ∈ subs -> Subscription.ID e = Subscription.ID sub ->
  Subscription.SourceType e = SourceTypeURL /\ TrimSpace (Subscription.Source e) = TrimSpace (Subscription.Source sub).
Proof.
  intros Hs. unfold subscription_to_add. case_bool_decide as Hraw.
  - intros Hsub. injection Hsub as <-. unfold raw_list_of.
    destruct (find_listed raw_list subs) as [[i s]|] eqn:E; [|intros Hu; discriminate Hu].
    apply find_listed_Some in E as [Hi Hid]. intros Hu He Heq. rewrite (unique_id subs e s Hs He); [by split|by eapply list_elem_of_lookup_2|done].
  - cbv zeta. case_bool_decide as Hfile; [intros Hsub; injection Hsub as <-; intros Hu; change (sourceType = SourceTypeURL) in Hu; by rewrite Hfile in Hu|].
    destruct (resolveAddSubscriptionID _ _ _ _ _) as [id|] eqn:E; [|done]. intros Hsub. injection Hsub as <-. intros Hu He Heq.
    change (sourceType = SourceTypeURL) in Hu. change (Subscription.ID e = id) in Heq.
    apply resolved_id in E as [(x & Hx & Hid & Hsame)|Hnew]; [|exfalso; apply Hnew, list_elem_of_fmap; by exists e].
    rewrite (unique_id subs e x Hs He Hx) by congruence. unfold same_content in Hsame. rewrite !andb_true_iff, !bool_decide_eq_true in Hsame.
    destruct Hsame as [[Ht Hsrc] _]. split; [by rewrite Ht|exact Hsrc].
Qed.

(** C19: a subscription that was added is in the file, among well-formed ones; the
    others are there as before, in their order; a fetched one took the place only of
    one with the same address. *)
Theorem added_subscription_is_stored req w subs sub w' :
  read_subscriptions w = Ok subs -> subs_ok subs -> add req w = (Ok sub, w') ->
  exists l, read_subscriptions w' = Ok (reloaded <$> l) /\ sub ∈ l /\ subs_ok l /\
    filter (fun x => Subscription.ID x <> Subscription.ID sub) l = filter (fun x => Subscription.ID x <> Subscription.ID sub) subs /\
    (Subscription.SourceType sub = SourceTypeURL -> forall e, e ∈ subs -> Subscription.ID e = Subscription.ID sub ->
       Subscription.SourceType e = SourceTypeURL /\ TrimSpace (Subscription.Source e) = TrimSpace (Subscription.Source sub)).
Proof.
  intros Hr Hs. unfold addSubscription. intros Hrun.
  apply bind_apart in Hrun as (req' & w1 & _ & F1 & Hrun); [|eauto with untouched].
  apply bind_apart in Hrun as ([[[source sourceType] metadata] hwid] & w2 & _ & F2 & Hrun); [|eauto with untouched].
  apply bind_apart in Hrun as (settings & w3 & _ & F3 & Hrun); [|eauto with untouched]. cbv zeta in Hrun.
  apply bind_apart in Hrun as (nodes & w4 & E4 & F4 & Hrun); [|eauto with untouched].
  apply parsed_nodes_good in E4.
  assert (Hr4 : read_subscriptions w4 = Ok subs) by (rewrite <- Hr; apply files_subs; congruence).
  apply (with_subs_ok _ _ _ _ _ _ Hr4) in Hrun. cbv beta in Hrun. apply bind_apart in Hrun as (now & w5 & _ & F5 & Hrun); [|eauto with untouched].
  destruct (subscription_to_add _ _ _ _ _ _ _ _ _ _ _ _) as [s|] eqn:Es; [|by apply raise_ok in Hrun]. unfold save_subscriptions_as in Hrun.
  apply saved_subs_ok in Hrun as (w6 & Hr6 & _ & _ & Hrun). apply bind_ok in Hrun as ([] & w7 & Ht & Hrun).
  assert (s = sub /\ w7 = w') as [-> ->] by (by injection Hrun).
  pose proof (added_owns _ _ _ _ _ _ _ _ _ _ (proj2 Hs) E4 Es) as Ho. destruct (upserted subs sub Hs Ho) as (Hin & Hok & Hf).
  exists (upsertSubscription subs sub). split_and!; [|done|done|done|].
  - rewrite <- Hr6. pose proof (touch_keeps_subs (refreshed_at (Subscription.ID sub) now) w6) as Hk. by rewrite Ht in Hk.
  - intros Hu e He Hid. exact (added_replaces _ _ _ _ _ _ _ _ _ _ _ Hs Es Hu He Hid).
Qed.

End Reader.

(** *** Removing *)

Lemma connection_reloaded s c t a n m : connection s = (c, t, a, n, m) -> NormalizeTransportMode t = t ->
  connection (reload_state (settle_operational_mode s)) = (c, t, a, n, m).
Proof. intros E Ht. rewrite connection_saved. unfold connection in E. injection E as -> -> -> -> ->. by rewrite Ht. Qed.

Lemma detach_state_ok state w w' : persistDisconnectedState (W := W) state w = (Ok tt, w') ->
  read_subscriptions w' = read_subscriptions w /\
  exists st', load_state w' = Ok st' /\ connection st' = (false, TransportModeDirect, "", "", SelectionModeDisconnected).
Proof.
  unfold persistDisconnectedState. cbv zeta. intros Hrun.
  apply bind_apart in Hrun as (st1 & w1 & E1 & F1 & Hrun); [|unfold stamp; untouched_steps].
  assert (Hc : forall b, connection (clearZapretTestState (st1 <| RuntimeState.ActiveTransport := TransportModeDirect |> <| RuntimeState.LastTransportFailureReason := b |>))
               = (false, TransportModeDirect, "", "", SelectionModeDisconnected)).
  { intros b. revert E1. unfold stamp. destruct (negb _).
    - intros (now & w0 & _ & E)%bind_ok. by injection E as <- _.
    - intros E. by injection E as <- _. }
  apply bind_ok in Hrun as ([] & w2 & E2 & Hrun). apply act_ok in E2. set (saved := clearZapretTestState _) in E2.
  pose proof (state_saved _ _ _ E2) as Hl. pose proof (state_save_subs saved w1) as Hr2. rewrite E2 in Hr2. cbn in Hr2.
  assert (Hw : read_subscriptions w' = read_subscriptions w2 /\ load_state w' = load_state w2).
  { apply bind_ok in Hrun as (s & w3 & E3 & Hrun). injection E3 as <- <-. destruct (load_settings w2) as [s|]; [|by injection Hrun as <-].
    unfold save_settings, ignore in Hrun. apply (f_equal snd) in Hrun. cbn [snd] in Hrun. subst w'. unfold act.
    pose proof (settings_save_subs (disconnected_settings s) w2). pose proof (settings_save_state (disconnected_settings s) w2).
    by destruct (store_settings _ w2) as [[|]]. }
  destruct Hw as [Hws Hwl]. split; [rewrite Hws, Hr2; by apply files_subs|].
  exists (reload_state (settle_operational_mode saved)). split; [by rewrite Hwl|]. specialize (Hc ""). fold saved in Hc.
  by apply connection_reloaded.
Qed.

Lemma when_true {E} (p : Prog W E unit) : when true p = p.
Proof. reflexivity. Qed.

Lemma when_false {E} (p : Prog W E unit) : when false p = mret tt.
Proof. reflexivity. Qed.

Lemma remove_with_eq in_use subs w st : load_state w = Ok st -> remove_with (W := W) in_use subs w =
  (_ ← when (in_use st) disconnectRuntime; _ ← save_subscriptions_as subs; when (in_use st) (persistDisconnectedState st)) w.
Proof. intros Hl. unfold remove_with. cbv [reads mbind prog_bind]. by rewrite Hl. Qed.

Lemma remove_with_ok in_use subs w w' st : load_state w = Ok st -> remove_with (W := W) in_use subs w = (Ok tt, w') ->
  read_subscriptions w' = Ok (reloaded <$> subs) /\
  exists st', load_state w' = Ok st' /\
    if in_use st then connection st' = (false, TransportModeDirect, "", "", SelectionModeDisconnected) else st' = st.
Proof.
  intros Hl. rewrite (remove_with_eq _ _ _ _ Hl). intros Hrun.
  apply bind_apart in Hrun as ([] & w1 & _ & F1 & Hrun); [|apply untouched_when, untouched_disconnect].
  apply saved_subs_ok in Hrun as (w2 & Hr2 & Hl2 & _ & Hrun). destruct (in_use st).
  - rewrite when_true in Hrun. apply detach_state_ok in Hrun as (Hr & st' & Hst & Hc). split; [by rewrite Hr|by exists st'].
  - rewrite when_false in Hrun. assert (w2 = w') as -> by (by injection Hrun). split; [done|]. exists st. split; [|done]. rewrite Hl2, <- Hl. by apply files_state.
Qed.

Section TakenDown.
  Context (up : Manager -> W -> bool) `{!ManagerLaws W up}.

Lemma untouched_up_stamp m b set st : untouched (up m) (stamp (W := W) b set st).
Proof.
  unfold stamp. destruct b; [|apply untouched_ret]. apply untouched_bind; [|intros; apply untouched_ret].
  intros w. unfold currentTime. pose proof (up_beside_clock m w). by destruct (clock w).
Qed.

Lemma untouched_up_detach m st : untouched (up m) (persistDisconnectedState (W := W) st).
Proof.
  unfold persistDisconnectedState, save_as, save_settings. pose proof @untouched_up_stamp as Hs. cbv zeta.
  repeat first [apply Hs | solve [eauto with untouched] | apply untouched_bind; [|intros ?]
    | apply untouched_act; intros w; apply up_beside_state | apply untouched_ignore, untouched_act; intros w; apply up_beside_settings | case_match].
Qed.

Lemma runtime_taken_down w w' : disconnectRuntime (W := W) w = (Ok tt, w') -> forall m, up m w' = false.
Proof.
  unfold disconnectRuntime, stopProxyTransport. intros ([] & w3 & Hstop & Hz%act_ok)%bind_ok.
  apply bind_ok in Hstop as ([] & w1 & Hf%act_ok & Hstop). apply bind_ok in Hstop as ([] & w2 & Hd%act_ok & Hp%act_ok).
  pose proof (firewall_goes_down _ _ Hf) as F. pose proof (dns_goes_down _ _ Hd) as D.
  pose proof (proxy_goes_down _ _ Hp) as P. pose proof (zapret_goes_down _ _ Hz) as Z.
  assert (Kd : forall m, m <> DNSRuntime -> up m w2 = up m w1) by (intros m Hm; rewrite <- (up_beside_dns m w1 Hm); by rewrite Hd).
  assert (Kp : forall m, m <> ProxyProcess -> up m w3 = up m w2) by (intros m Hm; rewrite <- (up_beside_proxy m w2 Hm); by rewrite Hp).
  assert (Kz : forall m, m <> ZapretProcess -> up m w' = up m w3) by (intros m Hm; rewrite <- (up_beside_zapret m w3 Hm); by rewrite Hz).
  intros []; [by rewrite Kz, Kp, Kd|by rewrite Kz, Kp|by rewrite Kz|done].
Qed.

Lemma removed_runtime in_use subs w w' st : load_state w = Ok st -> remove_with (W := W) in_use subs w = (Ok tt, w') ->
  forall m, up m w' = if in_use st then false else up m w.
Proof.
  intros Hl. rewrite (remove_with_eq _ _ _ _ Hl). intros Hrun m. apply bind_ok in Hrun as ([] & w1 & H1' & Hrun).
  unfold save_subscriptions_as in Hrun. apply bind_ok in Hrun as ([] & w2 & H2'%act_ok & Hrun).
  pose proof (up_beside_subscriptions m subs w1) as K2. rewrite H2' in K2. cbn [snd] in K2. destruct (in_use st).
  - rewrite when_true in H1', Hrun. apply (untouched_eq (up m) _ _ _ _ (untouched_up_detach m st)) in Hrun. rewrite Hrun, K2.
    by apply (runtime_taken_down _ _ H1').
  - rewrite when_false in H1', Hrun. injection H1' as <-. injection Hrun as <-. exact K2.
Qed.

(** C17: a subscription that was removed is not in the file any more, the others are,
    and it is not the active one: when it was in use the connection is given up, on
    the router, where the redirection, the resolver, the proxy and the fallback are
    all down, as well as on file; otherwise the state and the router are left
    as they are. *)
Theorem removed_subscription_disconnects id w subs st w' :
  read_subscriptions w = Ok subs -> subs_ok subs -> load_state w = Ok st -> removeSubscription id w = (Ok tt, w') ->
  exists i sub st', subs !! i = Some sub /\ Subscription.ID sub = id /\
    read_subscriptions w' = Ok (reloaded <$> delete i subs) /\ id ∉ Subscription.ID <$> delete i subs /\
    load_state w' = Ok st' /\
    if bool_decide (RuntimeState.ActiveSubscriptionID st = id)
    then connection st' = (false, TransportModeDirect, "", "", SelectionModeDisconnected) /\ (forall m, up m w' = false)
    else st' = st /\ (forall m, up m w' = up m w).
Proof.
  intros Hr Hs Hl Hrun. unfold removeSubscription in Hrun. apply (with_subs_ok _ _ _ _ _ _ Hr) in Hrun. cbv beta in Hrun.
  destruct (find_listed id subs) as [[i sub]|] eqn:Ef; [|by apply raise_ok in Hrun]. apply find_listed_Some in Ef as [Hi Hid].
  destruct (remove_with_ok _ _ _ _ _ Hl Hrun) as (Hr' & st' & Hst & Hc). pose proof (removed_runtime _ _ _ _ _ Hl Hrun) as Hu.
  cbv beta in Hc, Hu. exists i, sub, st'. split_and!; [done|done|done| |done|by destruct (bool_decide _)].
  destruct Hs as [Hn _]. rewrite (delete_Permutation _ _ _ Hi) in Hn. cbn in Hn. apply NoDup_cons in Hn as [Hn _]. by rewrite <- Hid.
Qed.

End TakenDown.

(** *** Refreshing *)

Lemma hidden_keeps id previous nodes w r w' : follow_hidden (W := W) id previous nodes w = (r, w') ->
  read_subscriptions w' = read_subscriptions w /\ load_state w' = load_state w.
Proof.
  unfold follow_hidden, mbind, prog_bind, reads. destruct (load_settings w) as [s|]; [|by intros [= _ <-]]. cbv zeta.
  destruct (negb _); cbn [when]; [|by intros [= _ <-]]. intros E. apply (f_equal snd) in E. cbn [snd] in E. subst w'. unfold act.
  set (next := s <| Settings.AutoExcludedNodes := _ |>). pose proof (settings_save_subs next w). pose proof (settings_save_state next w).
  by destruct (store_settings next w) as [[|]].
Qed.

(** The nodes of a refreshed subscription, and the state that a refresh stores. *)
Lemma refresh_run id w subs i sub st sub' w' : read_subscriptions w = Ok subs -> find_listed id subs = Some (i, sub) -> load_state w = Ok st ->
  refresh id w = (Ok sub', w') ->
  exists now w1, Subscription.ID sub' = id /\ load_state w1 = Ok st /\
    touch_state (fun state => refreshed_at id now (follow_active id (Subscription.Nodes sub) (Subscription.Nodes sub') state)) w1 = (Ok tt, w').
Proof.
  intros Hr Hf Hl Hrun. unfold refreshSubscription in Hrun. apply (with_subs_ok _ _ _ _ _ _ Hr) in Hrun. cbv beta in Hrun. rewrite Hf in Hrun.
  apply find_listed_Some in Hf as [Hi Hid].
  apply bind_apart in Hrun as (now0 & w1 & _ & F1 & Hrun); [|eauto with untouched]. destruct (IsExpired sub now0); [by apply raise_ok in Hrun|].
  apply bind_apart in Hrun as (r & w2 & E2 & F2 & Hrun); [|eauto with untouched].
  assert (Hno : forall context e v, record_failure subs i context e v w2 = (Ok sub', w') -> False).
  { intros context e v. unfold record_failure. intros (? & ? & _ & Hk)%bind_ok. by apply raise_ok in Hk. }
  destruct r as [[[content metadata] s]|e]; [|by apply Hno in Hrun]. apply content_sub in E2 as [hwid Es].
  assert (Hs1 : Subscription.ID s = id /\ Subscription.Nodes s = Subscription.Nodes sub) by (by rewrite Es). destruct Hs1 as [Hsid Hsn].
  destruct (refresh_nodes _ _ _ _ _) as [[nodes names]|e]; [|by apply Hno in Hrun]. cbv zeta in Hrun.
  apply bind_apart in Hrun as (expiry & w3 & _ & F3 & Hrun); [|eauto with untouched].
  apply bind_apart in Hrun as (now & w4 & _ & F4 & Hrun); [|eauto with untouched].
  unfold save_subscriptions_as in Hrun. apply saved_subs_ok in Hrun as (w5 & _ & Hl5 & _ & Hrun).
  apply bind_ok in Hrun as ([] & w6 & E6 & Hrun). apply hidden_keeps in E6 as [_ Hl6].
  apply bind_ok in Hrun as ([] & w7 & E7 & Hrun). set (new := refreshed_subscription _ _ _ _ _ _) in Hrun.
  assert (Hnew : new = sub' /\ w7 = w') by (by injection Hrun). destruct Hnew as [Hnew ->].
  change (Subscription.ID (refreshed_subscription s (own_nodes (Subscription.ID s) nodes) names expiry metadata now)) with (Subscription.ID s) in E7.
  rewrite Hsid, Hsn in E7. exists now, w6. split_and!.
  - rewrite <- Hnew. exact Hsid.
  - rewrite Hl6, Hl5, <- Hl. apply files_state. congruence.
  - rewrite <- Hnew. change (Subscription.Nodes new) with (own_nodes (Subscription.ID s) nodes). rewrite Hsid. exact E7.
Qed.

(** C18: when the server in use comes back from a refresh under another identifier,
    and only one server is the same, the state follows it; the connection stays. *)
Theorem refresh_follows_server id w subs i sub st p m sub' w' :
  (forall s v, (save_state s v).1 = None) ->
  read_subscriptions w = Ok subs -> find_listed id subs = Some (i, sub) -> load_state w = Ok st ->
  RuntimeState.ActiveSubscriptionID st = id -> RuntimeState.ActiveNodeID st <> "" ->
  find_node (Subscription.Nodes sub) (RuntimeState.ActiveNodeID st) = Some p ->
  refresh id w = (Ok sub', w') ->
  RuntimeState.ActiveNodeID st ∉ Node.ID <$> Subscription.Nodes sub' ->
  filter (fun n => sameRefreshedNodeIdentity n p = true) (Subscription.Nodes sub') = [m] ->
  exists st' n, load_state w' = Ok st' /\
    RuntimeState.ActiveSubscriptionID st' = id /\ RuntimeState.ActiveNodeID st' = Node.ID m /\
    find_node (Subscription.Nodes sub') (Node.ID m) = Some n /\ RuntimeState.ActiveNodeName st' = DisplayName n /\
    RuntimeState.Connected st' = RuntimeState.Connected st /\ RuntimeState.Mode st' = RuntimeState.Mode st.
Proof.
  intros Hsave Hr Hf Hl Ha Hne Hp Hrun Hgone Hm. destruct (refresh_run _ _ _ _ _ _ _ _ Hr Hf Hl Hrun) as (now & w1 & _ & Hl1 & Ht).
  destruct (find_node (Subscription.Nodes sub') (Node.ID m)) as [n|] eqn:En.
  2: { exfalso. rewrite find_node_None in En. apply (En m); [|done].
       assert (Hin : m ∈ filter (fun n => sameRefreshedNodeIdentity n p = true) (Subscription.Nodes sub')) by (rewrite Hm; set_solver).
       by apply list_elem_of_filter in Hin as [_ Hin]. }
  unfold touch_state, mbind, prog_bind, reads in Ht. rewrite Hl1 in Ht. unfold ignore, act in Ht. apply (f_equal snd) in Ht. cbn [snd] in Ht.
  set (next := refreshed_at _ _ _) in Ht. specialize (Hsave next w1). destruct (save_state next w1) as [e w2] eqn:Es. cbn in Hsave, Ht. subst e.
  cbn [snd] in Ht. subst w2. exists (reload_state (settle_operational_mode next)), n. rewrite (state_saved _ _ _ Es).
  assert (Hid : remapRefreshedNodeID (RuntimeState.ActiveNodeID st) (Subscription.Nodes sub) (Subscription.Nodes sub') = Node.ID m)
    by (by eapply remap_unique).
  assert (Hnext : RuntimeState.ActiveSubscriptionID next = id /\ RuntimeState.ActiveNodeID next = Node.ID m /\
            RuntimeState.ActiveNodeName next = DisplayName n /\ RuntimeState.Connected next = RuntimeState.Connected st /\
            RuntimeState.Mode next = RuntimeState.Mode st).
  { unfold next, follow_active. rewrite bool_decide_eq_true_2 by done. cbv zeta. rewrite Hp, Hid.
    match goal with |- context [find_node ?l ?x] => change x with (Node.ID m) end. rewrite En. by rewrite <- Ha. }
  destruct Hnext as (H1' & H2' & H3' & H4' & H5'). split_and!; try done; unfold settle_operational_mode; destruct (bool_decide _); done.
Qed.

End Subscriptions.

(** ** A world with subscriptions

    The world of the settings with a list of subscriptions and a provider that
    always gives the same answer: the interfaces of the handlers, on which their
    theorems are applied. *)

Record SubscriptionWorld : Type := {
  service : SettingsWorld;
  subscriptions_file : list Subscription;
  provider : result RequestFailure Response;
  asked : nat;
  running : Manager -> bool
}.

Definition on_service {A} (f : SettingsWorld -> A * SettingsWorld) (w : SubscriptionWorld) : A * SubscriptionWorld :=
  let '(a, s) := f (service w) in (a, Build_SubscriptionWorld s (subscriptions_file w) (provider w) (asked w) (running w)).

(** The manager is switched off. *)
Definition shut (m : Manager) (w : SubscriptionWorld) : option string * SubscriptionWorld :=
  (None, Build_SubscriptionWorld (service w) (subscriptions_file w) (provider w) (asked w)
           (fun k => if decide (k = m) then false else running w k)).

#[export] Instance subscription_backend : ManagedBackend SubscriptionWorld := {
  PrepareOutbound node mark := on_service (PrepareOutbound node mark);
  RemoveOutbound tag := on_service (RemoveOutbound tag);
  SelectOutbound tag := on_service (SelectOutbound tag);
  SelectedOutbound := on_service SelectedOutbound;
  SetProbeOutbound slot tag := on_service (SetProbeOutbound slot tag)
}.

#[export] Instance subscription_router : Router SubscriptionWorld := {
  save_state s := on_service (save_state s);
  load_state w := load_state (service w);
  verify slot tag := on_service (verify slot tag);
  confirmation_delay := on_service confirmation_delay;
  egress := on_service egress;
  persist_config r := on_service (persist_config r)
}.

#[export] Instance subscription_runtime : Runtime SubscriptionWorld := {
  load_settings w := load_settings (service w);
  load_subscriptions w := Some (subscriptions_file w);
  load_cached_state w := load_cached_state (service w);
  clock := on_service clock;
  switch_clock w := switch_clock (service w);
  system_resolvers w := system_resolvers (service w);
  resolve node w := resolve node (service w);
  apply_ipv6 := on_service apply_ipv6;
  apply_config r := on_service (apply_config r);
  capture_rollback w := capture_rollback (service w);
  rollback_config s := on_service (rollback_config s);
  check_running := on_service check_running;
  stop_backend := shut ProxyProcess;
  dns_apply d := on_service (dns_apply d);
  dns_disable := shut DNSRuntime;
  firewall_apply f := on_service (firewall_apply f);
  firewall_disable := shut FirewallRules;
  zapret_apply l := on_service (zapret_apply l);
  zapret_disable := shut ZapretProcess;
  store_settings s := on_service (store_settings s)
}.

Definition spring : Time := from_unix 1700000000.

#[export] Instance subscription_host : SubscriptionHost SubscriptionWorld := {
  request_error _ := None;
  http_get _ _ _ w := (provider w, Build_SubscriptionWorld (service w) (subscriptions_file w) (provider w) (S (asked w)) (running w));
  tls12_client := true;
  back_off _ w := (None, w);
  random_id w := (Ok (replicate 16 0), w);
  now_utc w := (spring, w);
  read_subscriptions w := Ok (subscriptions_file w);
  save_subscriptions l w := (None, Build_SubscriptionWorld (service w) l (provider w) (asked w) (running w))
}.

(** No regular expression matches and no text is JSON. *)
#[export] Instance plain_text : WebText := {
  url_parse _ := None;
  unescape s := s;
  share_link_matches _ := [];
  heading_match _ := None;
  title_match _ := None;
  strip_tags s := s;
  json_object _ := None
}.

Lemma service_apart {A} (f : SettingsWorld -> A * SettingsWorld) :
  (forall s, load_state (f s).2 = load_state s /\ load_settings (f s).2 = load_settings s) -> apart (W := SubscriptionWorld) (on_service f).
Proof. intros Hf w. unfold on_service, files. specialize (Hf (service w)). destruct (f (service w)) as [a s]. cbn in *. by destruct Hf as [-> ->]. Qed.

Lemma memory_apart {A} (f : MemoryWorld -> A * MemoryWorld) : (forall m, load_state (f m).2 = load_state m) ->
  apart (W := SubscriptionWorld) (on_service (on_memory f)).
Proof.
  intros Hf. apply service_apart. intros s. split.
  - unfold on_memory. pose proof (Hf (memory s)). by destruct (f (memory s)).
  - apply on_memory_silent.
Qed.

Lemma subscription_world_laws good : SubscriptionLaws SubscriptionWorld good id.
Proof.
  assert (Hsave : forall s w w', save_state s w = (None, w') -> load_state w' = Ok (reload_state (settle_operational_mode s))).
  { intros s w w' E. apply (f_equal snd) in E. cbn [snd] in E. subst w'.
    exact (saved_is_loaded (RouterLaws := world_laws) s (memory (service w)) _ eq_refl). }
  split; try (intros; reflexivity); try done.
  - intros l w w' [= <-]. cbn. by rewrite list_fmap_id.
  - intros l w. right. cbn. by rewrite list_fmap_id.
  - intros s w. right. apply (Hsave s w). reflexivity.
Qed.

Lemma subscription_manager_laws : ManagerLaws SubscriptionWorld (fun m w => running w m).
Proof.
  split; try (intros; reflexivity).
  1-4: intros w w' E; injection E as <-; cbn; by rewrite decide_True.
  1-3: intros m w Hm; cbn; by rewrite decide_False.
Qed.

(** ** The theorems on this world *)

Definition first_subscription : Subscription :=
  Subscription.mk "sub-1" SourceTypeURL "https://a.example" "" "A" ProviderNameSourceURL "A" "h" zero_time None None 0 "" "ok"
    [(named_node "old" "A") <| Node.SubscriptionID := "sub-1" |>].

Definition second_subscription : Subscription :=
  Subscription.mk "sub-2" SourceTypeURL "https://b.example" "" "B" ProviderNameSourceManual "B" "h" zero_time None None 0 "" "ok" [].

Definition listed : list Subscription := [first_subscription; second_subscription].

Definition active_state : RuntimeState :=
  (world_state OperationalModeVPN) <| RuntimeState.ActiveSubscriptionID := "sub-1" |> <| RuntimeState.ActiveNodeID := "old" |>.

Definition answer : Response := Response.mk 200 "200 OK" (fun _ => "") (fun _ => ("new", None)).

Definition subscription_world : SubscriptionWorld :=
  Build_SubscriptionWorld (Build_SettingsWorld
      (Build_MemoryWorld (Build_Memory [] ∅) (Some (stored active_state)) None None None)
      (Some (SaveSettings (fun _ => true) DefaultSettings)))
    listed (Ok answer) 0 (fun _ => true).

(** Every text is one server that is named by the text. *)
Definition parse_one (content providerName : string) : result string (list Node) := Ok [named_node content "A"].

Abbreviation add_here := (addSubscription (W := SubscriptionWorld) parse_one id (fun s => s) (fun _ source _ _ _ => Some source) 3).
Abbreviation refresh_here := (refreshSubscription (W := SubscriptionWorld) parse_one id).

Definition raw_request : AddSubscriptionRequest := AddSubscriptionRequest.mk "" "one" "" "" "".
Definition url_request : AddSubscriptionRequest := AddSubscriptionRequest.mk "https://b.example" "" "" "" "".

(** What [parse_one] promises. *)
Definition called_a (n : Node) : Prop := Node.Remark n = "A".

Lemma called_a_moves id n : called_a n -> called_a (n <| Node.SubscriptionID := id |>).
Proof. done. Qed.

Lemma parse_one_good text name nodes : parse_one text name = Ok nodes -> Forall called_a nodes.
Proof. intros E. injection E as <-. by apply Forall_singleton. Qed.

Lemma listed_ok : subs_ok called_a listed.
Proof.
  split; [|repeat constructor]. apply NoDup_cons. split; [|apply NoDup_singleton]. intros Hin%list_elem_of_singleton. discriminate Hin.
Qed.

Lemma subscriptions_stay_well_formed_witness :
  file_ok (good := called_a) subscription_world /\
  file_ok (good := called_a) (serve_all parse_one id (fun s => s) (fun _ source _ _ _ => Some source) 3
    [AddCall raw_request; AddCall url_request; MoveCall "sub-2" "up"; RefreshCall "sub-1"; RemoveNodeCall "server-list" "one"; RefreshAllCall] subscription_world).
Proof.
  assert (Hok : file_ok (good := called_a) subscription_world) by (intros subs Hs; injection Hs as <-; exact listed_ok).
  split; [exact Hok|].
  exact (subscriptions_stay_well_formed (H3 := subscription_world_laws called_a) parse_one id (fun s => s) (fun _ source _ _ _ => Some source) 3 called_a_moves parse_one_good
    [AddCall raw_request; AddCall url_request; MoveCall "sub-2" "up"; RefreshCall "sub-1"; RemoveNodeCall "server-list" "one"; RefreshAllCall]
    subscription_world Hok).
Defined.

Abbreviation added_run := (add_here url_request subscription_world).
Definition added_there : Subscription := match added_run.1 with Ok s => s | Err _ => Subscription.zero end.

Lemma added_subscription_is_stored_witness :
  Subscription.ID added_there = "sub-2" /\
  exists l, read_subscriptions added_run.2 = Ok (id <$> l) /\ added_there ∈ l /\ subs_ok called_a l /\
    filter (fun x => Subscription.ID x <> Subscription.ID added_there) l = filter (fun x => Subscription.ID x <> Subscription.ID added_there) listed /\
    (Subscription.SourceType added_there = SourceTypeURL -> forall e, e ∈ listed -> Subscription.ID e = Subscription.ID added_there ->
       Subscription.SourceType e = SourceTypeURL /\ TrimSpace (Subscription.Source e) = TrimSpace (Subscription.Source added_there)).
Proof.
  split; [vm_compute; reflexivity|].
  assert (E : added_run.1 = Ok added_there) by (vm_compute; reflexivity).
  exact (added_subscription_is_stored (H3 := subscription_world_laws called_a) parse_one id (fun s => s) (fun _ source _ _ _ => Some source) 3 called_a_moves parse_one_good
    url_request subscription_world listed added_there added_run.2 eq_refl listed_ok (run_eq _ _ E)).
Defined.

Abbreviation removed_run := (removeSubscription (W := SubscriptionWorld) "sub-1" subscription_world).

Lemma saved_active_state : exists st, load_state subscription_world = Ok st /\
  RuntimeState.ActiveSubscriptionID st = "sub-1" /\ RuntimeState.ActiveNodeID st = "old" /\ RuntimeState.Connected st = true.
Proof.
  destruct (load_state subscription_world) as [st|e] eqn:E; [|vm_compute in E; discriminate E]. exists st. split; [done|].
  assert (Ef : match load_state subscription_world with
          | Ok st => (RuntimeState.ActiveSubscriptionID st, RuntimeState.ActiveNodeID st, RuntimeState.Connected st) | Err _ => ("", "", false) end
          = ("sub-1", "old", true)) by (vm_compute; reflexivity).
  rewrite E in Ef. by injection Ef as -> -> ->.
Qed.

Lemma removed_subscription_disconnects_witness :
  exists i sub st st', load_state subscription_world = Ok st /\ RuntimeState.Connected st = true /\
    listed !! i = Some sub /\ Subscription.ID sub = "sub-1" /\
    read_subscriptions removed_run.2 = Ok (id <$> delete i listed) /\ load_state removed_run.2 = Ok st' /\
    connection st' = (false, TransportModeDirect, "", "", SelectionModeDisconnected) /\
    forall m, running subscription_world m = true /\ running removed_run.2 m = false.
Proof.
  destruct saved_active_state as (st & Hl & Ha & _ & Hc).
  assert (E : removed_run.1 = Ok tt) by (vm_compute; reflexivity).
  destruct (removed_subscription_disconnects (H3 := subscription_world_laws called_a) (fun m w => running w m)
              (ManagerLaws0 := subscription_manager_laws) "sub-1" subscription_world listed st removed_run.2
              eq_refl listed_ok Hl (run_eq _ _ E)) as (i & sub & st' & Hi & Hid & Hr & _ & Hst & Hcase).
  rewrite bool_decide_eq_true_2 in Hcase by exact Ha. exists i, sub, st, st'.
  split; [exact Hl|]. split; [exact Hc|]. split; [exact Hi|]. split; [exact Hid|]. split; [exact Hr|]. split; [exact Hst|]. destruct Hcase as [Hst' Hup].
  split; [exact Hst'|]. intros m. split; [reflexivity|exact (Hup m)].
Defined.

Abbreviation refreshed_run := (refresh_here "sub-1" subscription_world).
Definition refreshed_there : Subscription := match refreshed_run.1 with Ok s => s | Err _ => Subscription.zero end.
Definition old_server : Node := (named_node "old" "A") <| Node.SubscriptionID := "sub-1" |>.
Definition new_server : Node := (named_node "new" "A") <| Node.SubscriptionID := "sub-1" |>.

Lemma refresh_follows_server_witness :
  exists st' n, load_state refreshed_run.2 = Ok st' /\
    RuntimeState.ActiveSubscriptionID st' = "sub-1" /\ RuntimeState.ActiveNodeID st' = "new" /\
    find_node (Subscription.Nodes refreshed_there) "new" = Some n /\ RuntimeState.ActiveNodeName st' = DisplayName n /\
    RuntimeState.Connected st' = true.
Proof.
  destruct saved_active_state as (st & Hl & Ha & Hn & Hc).
  assert (E : refreshed_run.1 = Ok refreshed_there) by (vm_compute; reflexivity).
  destruct (refresh_follows_server (H3 := subscription_world_laws called_a) parse_one id "sub-1" subscription_world listed 0 first_subscription st
              old_server new_server refreshed_there refreshed_run.2) as (st' & n & Hst & H1' & H2' & H3' & H4' & H5' & _).
  - intros s v. reflexivity.
  - reflexivity.
  - reflexivity.
  - exact Hl.
  - exact Ha.
  - rewrite Hn. discriminate.
  - rewrite Hn. reflexivity.
  - exact (run_eq _ _ E).
  - rewrite Hn. assert (En : Node.ID <$> Subscription.Nodes refreshed_there = ["new"]) by (vm_compute; reflexivity). rewrite En.
    intros Hin%list_elem_of_singleton. discriminate Hin.
  - vm_compute. reflexivity.
  - exists st', n. rewrite Hc in H5'. split; [exact Hst|]. split; [exact H1'|]. split; [exact H2'|]. split; [exact H3'|]. split; [exact H4'|exact H5'].
Defined.

Lemma fetch_asks_at_most_witness :
  (asked (fetchSubscription (W := SubscriptionWorld) "https://a.example" "h" subscription_world).2 <= 0 + 7)%nat.
Proof.
  exact (fetch_asks_at_most (W := SubscriptionWorld) asked (fun _ _ _ _ => eq_refl) (fun _ _ => eq_refl) "https://a.example" "h" subscription_world).
Defined.
