(* ===== verification/Parser.v ===== *)
(** * Reading the text of a subscription

    The package [parser]: share links, base64 lists, Clash YAML and Xray JSON
    become nodes.  [ParseNodes] and the JSON import call each other for documents
    inside strings; the model has [fuel] for the nesting.

    [url.Parse], [url.PathUnescape], [encoding/json] and [yaml.v3] are a class:
    the decoders of the source's types, and the members of objects and lists as
    raw texts.  The entries of a YAML map come in the order in which the loop over
    it meets them.  The error texts of base64 do not name the offset. *)
From S2P Require Import Prelude GoRunes GoStrings GoNum NetIP GoConv Domain AutoSelect Reserves.
From S2P Require Import SubscriptionFetch.

Local Open Scope Z_scope.
Local Open Scope list_scope.

Module NodeFields.
Import Node.
#[export] Instance set_Address : Setter Address := ltac:(mk_setter Node.eta Node.Address).
#[export] Instance set_ProviderName : Setter Node.ProviderName := ltac:(mk_setter Node.eta Node.ProviderName).
#[export] Instance set_RawOutbound : Setter RawOutbound := ltac:(mk_setter Node.eta Node.RawOutbound).
End NodeFields.
Export (hints) NodeFields.

(** ** What the libraries give *)

Module ShareURL.
Record ShareURL : Type := mk {
  Scheme : string;
  Host : string;
  Hostname : string;
  Port : string;
  User : option (string * option string);   (** the name and perhaps a password *)
  Fragment : string;
  Query : string -> string;                 (** [Query().Get] *)
  RawQuery : string
}.
End ShareURL.
Abbreviation ShareURL := ShareURL.ShareURL.

Module vmessPayload.
Record vmessPayload : Type := mk {
  Version : string; Name : string; Address : string; Port : string; ID : string; AlterID : string; Security : string; Network : string;
  Type_ : string; Host : string; Path : string; TLS : string; ServerName : string; ALPN : string; Fingerprint : string; Flow : string
}.
End vmessPayload.
Abbreviation vmessPayload := vmessPayload.vmessPayload.

(** A value of type [any] that YAML gives; [text]: what [fmt.Sprint] prints. *)
Inductive YamlAny : Type :=
| YamlNil
| YamlString (s : string)
| YamlOther (text : string)
| YamlList (l : list YamlAny) (text : string)
| YamlMap (entries : list (string * YamlAny)) (text : string).
Abbreviation YamlEntries := (list (string * YamlAny)).

Module xrayOutboundJSON.
Record xrayOutboundJSON : Type := mk { Protocol : string; Tag : string; Remark : string; Name : string; Settings : string; StreamSettings : string }.
End xrayOutboundJSON.
Abbreviation xrayOutboundJSON := xrayOutboundJSON.xrayOutboundJSON.

Module xrayUser.
Record xrayUser : Type := mk { ID : string; Encryption : string; Flow : string; Security : string }.
End xrayUser.
Abbreviation xrayUser := xrayUser.xrayUser.

Module xrayVNext.
Record xrayVNext : Type := mk { Address : string; Port : Z; Users : list xrayUser }.
End xrayVNext.
Abbreviation xrayVNext := xrayVNext.xrayVNext.

Module xrayDirectEndpointSettings.
Record xrayDirectEndpointSettings : Type := mk {
  Address : string; Port : Z; ID : string; UUID : string; Password : string; Method : string; Encryption : string; Flow : string; Security : string
}.
End xrayDirectEndpointSettings.
Abbreviation xrayDirectEndpointSettings := xrayDirectEndpointSettings.xrayDirectEndpointSettings.

Module xrayServer.
Record xrayServer : Type := mk { Address : string; Port : Z; Password : string; Method : string }.
End xrayServer.
Abbreviation xrayServer := xrayServer.xrayServer.

Module xrayStreamSettings.
Record xrayStreamSettings : Type := mk {
  Network : string; Security : string;
  TLSServerName : string; TLSALPN : list string; TLSFingerprint : string; AllowInsecure : bool;
  RealityServerName : string; PublicKey : string; ShortID : string; RealityFingerprint : string; SpiderX : string;
  WSPath : string; WSHost : string; ServiceName : string; Auth : string; Version : Z
}.
Definition zero : xrayStreamSettings := mk "" "" "" [] "" false "" "" "" "" "" "" "" "" "" 0.
End xrayStreamSettings.
Abbreviation xrayStreamSettings := xrayStreamSettings.xrayStreamSettings.

Module xrayHysteriaOutboundSettings.
Record xrayHysteriaOutboundSettings : Type := mk {
  Address : string; Port : Z; Version : Z; Auth : string; UDPMasks : list (string * string)  (** type and raw settings *)
}.
End xrayHysteriaOutboundSettings.
Abbreviation xrayHysteriaOutboundSettings := xrayHysteriaOutboundSettings.xrayHysteriaOutboundSettings.

Class ParserLibrary := {
  parse_url : string -> result string ShareURL;
  path_unescape : string -> result string string;
  quote : string -> string;                                        (** [%q] *)
  atoi_error : string -> string;                                   (** the text of an error of [strconv.Atoi] *)
  vmess_json : string -> result string vmessPayload;
  yaml_file : string -> result string (list YamlEntries * list YamlEntries);   (** proxies and payload *)
  encode_query : list (string * string) -> string;                 (** [url.Values.Encode] *)
  json_valid : string -> bool;
  json_fields : string -> result string (list (string * string));  (** the members of an object, every key once *)
  json_items : string -> result string (list string);
  json_text : string -> option string;                             (** what a string variable takes from it *)
  json_labels : string -> result string (list string);             (** remarks, remark, name, ps *)
  json_outbound : string -> result string xrayOutboundJSON;
  json_stream : string -> result string xrayStreamSettings;
  json_vnext : string -> result string (list xrayVNext);
  json_direct : string -> result string xrayDirectEndpointSettings;
  json_servers : string -> result string (list xrayServer);
  json_hysteria : string -> result string xrayHysteriaOutboundSettings;
  json_password : string -> option string
}.

(** ** Errors *)

Inductive Sentinel : Type := UnsupportedJSONOutbound | UnsupportedJSONImport.

Module ParseError.
Record ParseError : Type := mk { cause : option Sentinel; message : string }.
End ParseError.
Abbreviation ParseError := ParseError.ParseError.

Definition parse_error (message : string) : ParseError := ParseError.mk None message.
Definition in_context (context e : string) : ParseError := parse_error (context +:+ ": " +:+ e).
Definition errUnsupportedJSONOutbound : ParseError := ParseError.mk (Some UnsupportedJSONOutbound) "unsupported json outbound".
Definition errUnsupportedJSONImport : ParseError := ParseError.mk (Some UnsupportedJSONImport) "unsupported json import".
Definition no_supported_nodes : ParseError := parse_error "no supported nodes found".

Definition as_parse {A} (context : string) (r : result string A) : result ParseError A :=
  match r with Ok a => Ok a | Err e => Err (in_context context e) end.

(** ** base64 *)

(** The URL alphabet in terms of the standard one. *)
Definition url_char (c : Z) : Z :=
  if c =? 45 then 43 else if c =? 95 then 47 else if (c =? 43) || (c =? 47) then 0 else c.

Definition base64_decode (url padded : bool) (s : string) : option string :=
  let l := filter (fun c => negb ((c =? 10) || (c =? 13)) = true) (to_bytes s) in
  of_bytes <$> decode64_lax padded (if url then url_char <$> l else l).

Fixpoint first_decoded (encodings : list (bool * bool)) (s : string) : option string :=
  match encodings with
  | [] => None
  | (url, padded) :: rest => match base64_decode url padded s with Some d => Some d | None => first_decoded rest s end
  end.

Definition compact_text (s : string) : string :=
  of_bytes (filter (fun c => negb ((c =? 10) || (c =? 13) || (c =? 9) || (c =? 32)) = true) (to_bytes s)).

Definition decodeBase64Payload (input : string) : option string :=
  first_decoded [(false, true); (false, false); (true, true); (true, false)] (compact_text (TrimSpace input)).

Definition decodeShadowsocksBase64 (input : string) : result ParseError string :=
  match first_decoded [(true, false); (true, true); (false, false); (false, true)] input with
  | Some d => Ok d
  | None => Err (in_context "decode shadowsocks payload" "illegal base64 data")
  end.

Definition base64_rune (r : Z) : bool :=
  ((97 <=? r) && (r <=? 122)) || ((65 <=? r) && (r <=? 90)) || ((48 <=? r) && (r <=? 57))
  || bool_decide (r ∈ [43; 47; 45; 95; 61; 10; 13; 9; 32]).

Definition looksLikeBase64Payload (input : string) : bool :=
  let trimmed := TrimSpace input in
  if bool_decide (trimmed = "") || Contains trimmed "://" then false else forallb base64_rune (runes trimmed).

Definition isNodeLink (input : string) : bool :=
  let trimmed := TrimSpace (ToLower input) in
  existsb (fun prefix => HasPrefix trimmed prefix)
    ["vless://"; "vmess://"; "trojan://"; "ss://"; "socks://"; "hysteria://"; "hysteria2://"; "hy2://"].

(** ** Nodes *)

Definition splitCSV (raw : string) : list string :=
  filter (fun part => part <> "") (TrimSpace <$> split_byte (TrimSpace raw) ","%char).

(** [firstNonEmpty] of this package does not trim. *)
Definition first_value (values : list string) : string :=
  default "" (List.find (fun v => negb (bool_decide (TrimSpace v = ""))) values).

Definition is_hysteria (protocol : string) : bool := bool_decide (protocol = ProtocolHysteria) || bool_decide (protocol = ProtocolHysteria2).

Section Nodes.
  Context (sha1_hex : string -> string) (json_extras : gmap string string -> string).
  Context (provider : string).
  Context `{ParserLibrary}.

Abbreviation stable_id := (StableNodeID sha1_hex json_extras).

Definition settled_names (node : Node) : Node :=
  let name := TrimSpace (Node.Name node) in
  let remark := TrimSpace (Node.Remark node) in
  let name := if bool_decide (name = "") then remark else name in
  let remark := if bool_decide (remark = "") then name else remark in
  node <| Node.Name := remark |> <| Node.Remark := remark |>.

Definition settled_transport (node : Node) : Node :=
  if is_hysteria (Node.Protocol node) then node <| Node.Transport := "udp" |>
  else if bool_decide (Node.Transport node = "") then node <| Node.Transport := "tcp" |> else node.

Definition credential_error (node : Node) : option ParseError :=
  let missing (what : string) : option ParseError := Some (parse_error (Node.Protocol node +:+ " node missing " +:+ what)) in
  let p := Node.Protocol node in
  if bool_decide (p = ProtocolVLESS) || bool_decide (p = ProtocolVMess)
  then if bool_decide (Node.UUID node = "") then missing "uuid" else None
  else if bool_decide (p = ProtocolTrojan) || bool_decide (p = ProtocolShadowsocks)
  then if bool_decide (Node.Password node = "") then missing "password" else None
  else if bool_decide (p = ProtocolSocks) then None
  else if is_hysteria p then if bool_decide (Node.Password node = "") then missing "password" else None
  else Some (parse_error ("unsupported protocol " +:+ quote p)).

Definition settled_node (node : Node) : Node :=
  settled_transport (settled_names (node <| Node.Address ::= TrimSpace |>) <| Node.ProviderName := provider |>).

Definition normalizeNode (node : Node) : result ParseError Node :=
  let node := settled_node node in
  match credential_error node with
  | Some e => Err e
  | None =>
    if bool_decide (Node.Address node = "") then Err (parse_error (Node.Protocol node +:+ " node missing address"))
    else if Node.Port node <=? 0 then Err (parse_error (Node.Protocol node +:+ " node missing port"))
    else Ok (node <| Node.ID := stable_id node |>)
  end.

(** ** Share links *)

Definition read_url (what raw : string) : result ParseError ShareURL := as_parse ("parse " +:+ what +:+ " link") (parse_url raw).

Definition read_port (what text : string) : result ParseError Z :=
  match Atoi text with Some p => Ok p | None => Err (in_context ("parse " +:+ what +:+ " port") (atoi_error text)) end.

(** [parsed.User.Username()], which a missing user answers with nothing. *)
Definition user_name (u : ShareURL) : string := match ShareURL.User u with Some (name, _) => name | None => "" end.

Definition passwordFromURL (u : ShareURL) : string :=
  match ShareURL.User u with Some (_, Some password) => password | Some (name, None) => name | None => "" end.

Definition ParseVLESS (raw : string) : result ParseError Node :=
  let* u := read_url "vless" raw in
  let* port := read_port "vless" (ShareURL.Port u) in
  let q := ShareURL.Query u in
  let transport := first_value [q "type"; q "network"] in
  let path := if bool_decide (transport = "grpc")
              then first_value [q "serviceName"; q "service_name"; q "grpc-service-name"; q "path"] else q "path" in
  normalizeNode (Node.mk "" "" (ShareURL.Fragment u) "" ProtocolVLESS (ShareURL.Hostname u) port (user_name u) "" (q "encryption") (q "security")
    (first_value [q "sni"; q "serverName"]) (splitCSV (q "alpn")) (q "fp") (first_value [q "pbk"; q "publicKey"])
    (first_value [q "sid"; q "shortId"]) (first_value [q "spx"; q "spiderX"]) (q "flow") transport path (q "host")
    (ShareURL.Fragment u) (ShareURL.RawQuery u) {["type" := transport]} "").

Definition decodeVMessPayload (encoded : string) : result ParseError vmessPayload :=
  match first_decoded [(false, true); (false, false)] (TrimSpace encoded) with
  | None => Err (in_context "decode vmess payload" "illegal base64 data")
  | Some decoded => as_parse "decode vmess json" (vmess_json decoded)
  end.

Definition ParseVMess (raw : string) : result ParseError Node :=
  let* p := decodeVMessPayload (TrimPrefix (TrimSpace raw) "vmess://") in
  let* port := read_port "vmess" (vmessPayload.Port p) in
  normalizeNode (Node.mk "" "" (vmessPayload.Name p) "" ProtocolVMess (vmessPayload.Address p) port (vmessPayload.ID p) "" (vmessPayload.Security p)
    (vmessPayload.TLS p) (vmessPayload.ServerName p) (splitCSV (vmessPayload.ALPN p)) (vmessPayload.Fingerprint p) "" "" "" (vmessPayload.Flow p)
    (vmessPayload.Network p) (vmessPayload.Path p) (vmessPayload.Host p) (vmessPayload.Name p) ""
    (<["aid" := vmessPayload.AlterID p]> (<["type" := vmessPayload.Type_ p]> {["v" := vmessPayload.Version p]})) "").

Definition ParseTrojan (raw : string) : result ParseError Node :=
  let* u := read_url "trojan" (TrimSpace raw) in
  let* port := read_port "trojan" (ShareURL.Port u) in
  let q := ShareURL.Query u in
  let transport := first_value [q "type"; q "network"] in
  normalizeNode (Node.mk "" "" (ShareURL.Fragment u) "" ProtocolTrojan (ShareURL.Hostname u) port "" (passwordFromURL u) "" (q "security")
    (first_value [q "sni"; q "serverName"]) (splitCSV (q "alpn")) "" "" "" "" "" transport (q "path") (q "host")
    (ShareURL.Fragment u) (ShareURL.RawQuery u) {["type" := transport]} "").

Definition decodeShadowsocksCredentials (input : string) : result ParseError string :=
  if Contains input ":" then Ok input else decodeShadowsocksBase64 input.

(** The credentials, host, port and label of a link whose parts are visible. *)
Definition open_shadowsocks (u : ShareURL) (user : string * option string) : result ParseError (string * string * string * string) :=
  let* credentials := match user with
                      | (name, Some password) => Ok (name +:+ ":" +:+ password)
                      | (name, None) => decodeShadowsocksCredentials name
                      end in
  Ok (credentials, ShareURL.Hostname u, ShareURL.Port u, ShareURL.Fragment u).

(** The same of a link that is encoded as a whole. *)
Definition packed_shadowsocks (u : ShareURL) (trimmed : string) : result ParseError (string * string * string * string) :=
  let payload := TrimPrefix trimmed (ShareURL.Scheme u +:+ "://") in
  let* parts := match cut_byte payload "#"%char with
                | Some (a, b) => let* fragment := as_parse "decode shadowsocks label" (path_unescape b) in Ok (a, fragment)
                | None => Ok (payload, "")
                end in
  let* decoded := decodeShadowsocksBase64 parts.1 in
  match cut_last 64 (to_bytes decoded) with
  | None => Err (parse_error "invalid shadowsocks payload")
  | Some (a, b) =>
    if bool_decide (a = []) || bool_decide (b = []) then Err (parse_error "invalid shadowsocks payload")
    else
      let* host := as_parse "invalid shadowsocks host" (SplitHostPort (of_bytes b)) in
      Ok (of_bytes a, host.1, host.2, parts.2)
  end.

Definition ParseShadowsocks (raw : string) : result ParseError Node :=
  let trimmed := TrimSpace raw in
  let* u := read_url "shadowsocks" trimmed in
  let* parts := match ShareURL.User u with
                | Some user => if bool_decide (ShareURL.Host u = "") then packed_shadowsocks u trimmed else open_shadowsocks u user
                | None => packed_shadowsocks u trimmed
                end in
  let '(credentials, host, portText, fragment) := parts in
  match cut_byte credentials ":"%char with
  | None => Err (parse_error "invalid shadowsocks credentials")
  | Some (method, password) =>
    if bool_decide (host = "") || bool_decide (portText = "") then Err (parse_error "invalid shadowsocks host")
    else
      let* port := read_port "shadowsocks" portText in
      normalizeNode (Node.mk "" "" fragment "" ProtocolShadowsocks host port "" password method "" "" [] "" "" "" "" "" "" "" "" fragment "" ∅ "")
  end.

(** The name and the password of a SOCKS link; the two may be encoded together. *)
Definition socks_user (user : option (string * option string)) : string * string :=
  match user with
  | None => ("", "")
  | Some (name, Some password) => (name, password)
  | Some (name, None) =>
    if looksLikeBase64Payload name
    then match base64_decode false true name with
         | Some decoded => match cut_byte decoded ":"%char with Some (a, b) => (a, b) | None => (decoded, "") end
         | None => (name, "")
         end
    else (name, "")
  end.

Definition ParseSocks (raw : string) : result ParseError Node :=
  let* u := read_url "socks" (TrimSpace raw) in
  let* port := read_port "socks" (ShareURL.Port u) in
  let user := socks_user (ShareURL.User u) in
  normalizeNode (Node.mk "" "" (ShareURL.Fragment u) "" ProtocolSocks (ShareURL.Hostname u) port user.1 user.2 "" "" "" [] "" "" "" "" "" "" "" ""
    (ShareURL.Fragment u) "" ∅ "").

Definition hysteria_node (u : ShareURL) (port : Z) (protocol auth obfsKey : string) : Node :=
  let q := ShareURL.Query u in
  Node.mk "" "" (ShareURL.Fragment u) "" protocol (ShareURL.Hostname u) port auth auth "" "" (first_value [q "sni"; q "peer"])
    (splitCSV (first_value [q "alpn"; "h3"])) "" "" "" "" "" "" "" "" (ShareURL.Fragment u) ""
    (<["insecure" := q "insecure"]> (<["allowInsecure" := q "allowInsecure"]> (<["obfs" := q "obfs"]>
      {["obfs-password" := first_value [q "obfs-password"; q obfsKey]]}))) "".

Definition ParseHysteria (raw : string) : result ParseError Node :=
  let* u := read_url "hysteria" raw in
  let* port := read_port "hysteria" (ShareURL.Port u) in
  let auth := ShareURL.Query u "auth" in
  normalizeNode (hysteria_node u port ProtocolHysteria (if bool_decide (auth = "") then user_name u else auth) "obfsParam").

Definition ParseHysteria2 (raw : string) : result ParseError Node :=
  let* u := read_url "hysteria2" raw in
  let* port := read_port "hysteria2" (ShareURL.Port u) in
  normalizeNode (hysteria_node u port ProtocolHysteria2 (user_name u) "obfs-param").

Definition parseSingleNode (line : string) : result ParseError Node :=
  let lower := ToLower line in
  if HasPrefix lower "vless://" then ParseVLESS line
  else if HasPrefix lower "vmess://" then ParseVMess line
  else if HasPrefix lower "trojan://" then ParseTrojan line
  else if HasPrefix lower "ss://" then ParseShadowsocks line
  else if HasPrefix lower "socks://" then ParseSocks line
  else if HasPrefix lower "hysteria://" then ParseHysteria line
  else if HasPrefix lower "hysteria2://" || HasPrefix lower "hy2://" then ParseHysteria2 line
  else Err (parse_error "unsupported subscription entry").

(** ** Clash YAML *)

Definition sprint (v : YamlAny) : string :=
  match v with
  | YamlNil => "<nil>"
  | YamlString s => s
  | YamlOther text | YamlList _ text | YamlMap _ text => text
  end.

Definition yamlValue (values : YamlEntries) (key : string) : YamlAny :=
  match List.find (fun e => EqualFold (TrimSpace e.1) key) values with Some (_, v) => v | None => YamlNil end.

Definition yamlString (values : YamlEntries) (key : string) : string :=
  match yamlValue values key with YamlNil => "" | v => TrimSpace (sprint v) end.

Definition yamlInt (values : YamlEntries) (key : string) : result ParseError Z :=
  let raw := yamlString values key in
  match Atoi raw with
  | Some v => if v <=? 0 then Err (parse_error ("invalid " +:+ key +:+ " " +:+ quote raw)) else Ok v
  | None => Err (parse_error ("invalid " +:+ key +:+ " " +:+ quote raw))
  end.

Definition yamlBool (values : YamlEntries) (key : string) : bool :=
  bool_decide (ToLower (yamlString values key) ∈ ["true"; "yes"; "1"; "on"]).

Definition yamlMap (values : YamlEntries) (key : string) : YamlEntries :=
  match yamlValue values key with YamlMap entries _ => entries | _ => [] end.

Definition yamlStringSlice (values : YamlEntries) (key : string) : list string :=
  match yamlValue values key with
  | YamlList l _ => filter (fun text => text <> "") ((fun v => TrimSpace (sprint v)) <$> l)
  | YamlString s => splitCSV s
  | _ => []
  end.

Definition yaml_protocol (typeName : string) : result ParseError string :=
  if bool_decide (typeName = "ss") then Ok ProtocolShadowsocks
  else if bool_decide (typeName = "socks5") then Ok ProtocolSocks
  else if bool_decide (typeName = "hy2") then Ok ProtocolHysteria2
  else if bool_decide (typeName ∈ ["vless"; "vmess"; "trojan"; "socks"; "hysteria"; "hysteria2"]) then Ok typeName
  else Err (parse_error ("unsupported proxy type " +:+ quote typeName)).

(** The security, the public key and the short identifier. *)
Definition yaml_security (entry : YamlEntries) : string * string * string :=
  let reality := yamlMap entry "reality-opts" in
  match reality with
  | _ :: _ => ("reality", first_value [yamlString reality "public-key"; yamlString reality "pbk"],
               first_value [yamlString reality "short-id"; yamlString reality "sid"])
  | [] =>
    if yamlBool entry "tls" || EqualFold (yamlString entry "security") "tls" then ("tls", "", "") else (yamlString entry "security", "", "")
  end.

(** The transport, the path, the host and the query. *)
Definition yaml_transport (entry : YamlEntries) : string * string * string * string :=
  let transport := first_value [yamlString entry "network"; yamlString entry "transport"] in
  if bool_decide (transport = "ws")
  then
    let opts := yamlMap entry "ws-opts" in
    let headers := yamlMap opts "headers" in
    (transport, yamlString opts "path", first_value [yamlString headers "Host"; yamlString headers "host"], "")
  else if bool_decide (transport = "grpc")
  then
    let opts := yamlMap entry "grpc-opts" in
    (transport, first_value [yamlString opts "grpc-service-name"; yamlString opts "service-name"], "", "")
  else if bool_decide (transport = "xhttp") || bool_decide (transport = "splithttp")
  then
    let opts := match yamlMap entry "xhttp-opts" with [] => yamlMap entry "splithttp-opts" | opts => opts end in
    let set (key : string) : list (string * string) := if bool_decide (yamlString opts key = "") then [] else [(key, yamlString opts key)] in
    ("xhttp", yamlString opts "path", yamlString opts "host", encode_query (set "mode" ++ set "concurrency"))
  else (transport, "", "", "").

Definition yamlProxyNode (entry : YamlEntries) : result ParseError Node :=
  let* protocol := yaml_protocol (ToLower (yamlString entry "type")) in
  let* port := yamlInt entry "port" in
  let str := yamlString entry in
  let hysteria := is_hysteria protocol in
  let password := if hysteria then first_value [str "password"; str "auth"; str "auth-str"] else str "password" in
  let uuid := if hysteria then password else if bool_decide (protocol = ProtocolSocks) then str "username" else str "uuid" in
  let extras : gmap string string :=
    if hysteria then <["obfs-password" := first_value [str "obfs-password"; str "obfs-passwords"]]> {["obfs" := str "obfs"]} else ∅ in
  let extras := if yamlBool entry "skip-cert-verify" then <["insecure" := "true"]> extras else extras in
  let '(security, publicKey, shortID) := yaml_security entry in
  let '(transport, path, host, query) := yaml_transport entry in
  normalizeNode (Node.mk "" "" (str "name") "" protocol (str "server") port uuid password (first_value [str "cipher"; str "encryption"]) security
    (first_value [str "servername"; str "sni"; str "peer"]) (yamlStringSlice entry "alpn")
    (first_value [str "client-fingerprint"; str "fingerprint"; str "fp"]) publicKey shortID "" (str "flow") transport path host
    (str "name") query extras "").

(** The entries that give a node, and the last error. *)
Fixpoint yaml_nodes (entries : list YamlEntries) (index : Z) (nodes : list Node) (lastErr : option ParseError) : list Node * option ParseError :=
  match entries with
  | [] => (nodes, lastErr)
  | entry :: rest =>
    match yamlProxyNode entry with
    | Ok node => yaml_nodes rest (index + 1) (nodes ++ [node]) lastErr
    | Err e => yaml_nodes rest (index + 1) nodes
                 (Some (ParseError.mk (ParseError.cause e) ("YAML proxy " +:+ Itoa (index + 1) +:+ ": " +:+ ParseError.message e)))
    end
  end.

(** None when the text is not taken for YAML. *)
Definition tryParseYAMLNodes (input : string) : option (result ParseError (list Node)) :=
  if negb (Contains input "proxies:") && negb (Contains input "payload:") then None
  else Some (
    let* file := as_parse "decode YAML" (yaml_file input) in
    let entries := match file.1 with [] => file.2 | proxies => proxies end in
    match entries with
    | [] => Err (parse_error "YAML has no proxies or payload entries")
    | _ =>
      match yaml_nodes entries 0 [] None with
      | ([], Some e) => Err e
      | ([], None) => Err (parse_error "YAML has no supported proxies")
      | (nodes, _) => Ok nodes
      end
    end).

(** ** Xray JSON *)

Definition parseJSONVNextEndpoint (raw : string) : result string (string * Z * xrayDirectEndpointSettings) :=
  let* vnext := json_vnext raw in
  match vnext with
  | v :: _ =>
    match xrayVNext.Users v with
    | user :: _ =>
      Ok (xrayVNext.Address v, xrayVNext.Port v,
          xrayDirectEndpointSettings.mk "" 0 (xrayUser.ID user) "" "" "" (xrayUser.Encryption user) (xrayUser.Flow user) (xrayUser.Security user))
    | [] => let* d := json_direct raw in Ok (xrayDirectEndpointSettings.Address d, xrayDirectEndpointSettings.Port d, d)
    end
  | [] => let* d := json_direct raw in Ok (xrayDirectEndpointSettings.Address d, xrayDirectEndpointSettings.Port d, d)
  end.

Definition parseJSONTrojanServer (raw : string) : result string xrayDirectEndpointSettings :=
  let* servers := json_servers raw in
  match servers with
  | s :: _ => Ok (xrayDirectEndpointSettings.mk (xrayServer.Address s) (xrayServer.Port s) "" "" (xrayServer.Password s) (xrayServer.Method s) "" "" "")
  | [] => json_direct raw
  end.

(** The raw outbound is added after the identifier was computed. *)
Definition normalizeJSONNode (node : Node) (raw : string) : result ParseError Node :=
  let* node := normalizeNode node in Ok (node <| Node.RawOutbound := raw |>).

Definition json_extras_of (o : xrayOutboundJSON) (s : xrayStreamSettings) : gmap string string :=
  let extras : gmap string string := if bool_decide (xrayOutboundJSON.Tag o = "") then ∅ else {["tag" := xrayOutboundJSON.Tag o]} in
  if bool_decide (xrayStreamSettings.Network s = "") then extras else <["type" := xrayStreamSettings.Network s]> extras.

(** The part that VLESS, VMess and Trojan share. *)
Definition stream_node (name protocol address : string) (port : Z) (uuid password encryption flow : string) (s : xrayStreamSettings)
    (extras : gmap string string) : Node :=
  Node.mk "" "" name "" protocol address port uuid password encryption (xrayStreamSettings.Security s)
    (first_value [xrayStreamSettings.RealityServerName s; xrayStreamSettings.TLSServerName s]) (xrayStreamSettings.TLSALPN s)
    (first_value [xrayStreamSettings.RealityFingerprint s; xrayStreamSettings.TLSFingerprint s])
    (xrayStreamSettings.PublicKey s) (xrayStreamSettings.ShortID s) (xrayStreamSettings.SpiderX s) flow
    (first_value [xrayStreamSettings.Network s; "tcp"]) (first_value [xrayStreamSettings.WSPath s; xrayStreamSettings.ServiceName s])
    (xrayStreamSettings.WSHost s) name "" extras "".

Definition user_id (d : xrayDirectEndpointSettings) : string := first_value [xrayDirectEndpointSettings.ID d; xrayDirectEndpointSettings.UUID d].

Definition json_vless (o : xrayOutboundJSON) (s : xrayStreamSettings) (name raw : string) : result ParseError Node :=
  let* endpoint := as_parse "decode vless settings" (parseJSONVNextEndpoint (xrayOutboundJSON.Settings o)) in
  let '(address, port, user) := endpoint in
  if bool_decide (address = "") || (port <=? 0) || bool_decide (user_id user = "") then Err (parse_error "invalid vless settings")
  else normalizeJSONNode (stream_node name ProtocolVLESS address port (user_id user) ""
         (first_value [xrayDirectEndpointSettings.Encryption user; "none"]) (xrayDirectEndpointSettings.Flow user) s (json_extras_of o s)) raw.

Definition json_vmess (o : xrayOutboundJSON) (s : xrayStreamSettings) (name raw : string) : result ParseError Node :=
  let* endpoint := as_parse "decode vmess settings" (parseJSONVNextEndpoint (xrayOutboundJSON.Settings o)) in
  let '(address, port, user) := endpoint in
  if bool_decide (address = "") || (port <=? 0) || bool_decide (user_id user = "") then Err (parse_error "invalid vmess settings")
  else normalizeJSONNode (stream_node name ProtocolVMess address port (user_id user) ""
         (first_value [xrayDirectEndpointSettings.Security user; "auto"]) "" s (json_extras_of o s)) raw.

Definition json_trojan (o : xrayOutboundJSON) (s : xrayStreamSettings) (name raw : string) : result ParseError Node :=
  let* d := as_parse "decode trojan settings" (parseJSONTrojanServer (xrayOutboundJSON.Settings o)) in
  let address := xrayDirectEndpointSettings.Address d in
  let port := xrayDirectEndpointSettings.Port d in
  let password := xrayDirectEndpointSettings.Password d in
  if bool_decide (address = "") || (port <=? 0) || bool_decide (password = "") then Err (parse_error "invalid trojan settings")
  else normalizeJSONNode (stream_node name ProtocolTrojan address port "" password (xrayDirectEndpointSettings.Method d) "" s (json_extras_of o s)) raw.

Definition masked_extras (isV2 : bool) (masks : list (string * string)) (extras : gmap string string) : gmap string string :=
  match masks with
  | (type_, settings) :: _ =>
    if isV2 && negb (bool_decide (type_ = ""))
    then
      let extras := <["obfs" := type_]> extras in
      match (if bool_decide (settings = "") then None else json_password settings) with
      | Some password => if bool_decide (password = "") then extras else <["obfs-password" := password]> extras
      | None => extras
      end
    else extras
  | [] => extras
  end.

Definition json_hysteria_node (o : xrayOutboundJSON) (s : xrayStreamSettings) (name raw : string) : result ParseError Node :=
  let* d := as_parse "decode hysteria settings" (json_hysteria (xrayOutboundJSON.Settings o)) in
  let address := xrayHysteriaOutboundSettings.Address d in
  let port := xrayHysteriaOutboundSettings.Port d in
  if bool_decide (address = "") || (port <=? 0) then Err (parse_error "invalid hysteria settings")
  else
    let isV2 := bool_decide (ToLower (xrayOutboundJSON.Protocol o) = "hysteria2") || (xrayHysteriaOutboundSettings.Version d =? 2)
                || (xrayStreamSettings.Version s =? 2) in
    let auth := first_value [xrayStreamSettings.Auth s; xrayHysteriaOutboundSettings.Auth d] in
    let allowInsecure := if xrayStreamSettings.AllowInsecure s then "true" else "false" in
    let extras := <["insecure" := allowInsecure]> (<["allowInsecure" := allowInsecure]>
                    (masked_extras isV2 (xrayHysteriaOutboundSettings.UDPMasks d) (json_extras_of o s))) in
    normalizeJSONNode (Node.mk "" "" name "" (if isV2 then ProtocolHysteria2 else ProtocolHysteria) address port auth auth ""
      (xrayStreamSettings.Security s) (xrayStreamSettings.TLSServerName s) (xrayStreamSettings.TLSALPN s) (xrayStreamSettings.TLSFingerprint s)
      "" "" "" "" (first_value [xrayStreamSettings.Network s; "hysteria"]) "" "" name "" extras "") raw.

Definition parseJSONOutbound (raw defaultLabel : string) : result ParseError Node :=
  let* o := as_parse "decode outbound" (json_outbound raw) in
  let* s := if bool_decide (xrayOutboundJSON.StreamSettings o = "") then Ok xrayStreamSettings.zero
            else as_parse "decode stream settings" (json_stream (xrayOutboundJSON.StreamSettings o)) in
  let name := first_value [defaultLabel; xrayOutboundJSON.Remark o; xrayOutboundJSON.Name o; xrayOutboundJSON.Tag o] in
  let protocol := ToLower (xrayOutboundJSON.Protocol o) in
  if bool_decide (protocol = "vless") then json_vless o s name raw
  else if bool_decide (protocol = "vmess") then json_vmess o s name raw
  else if bool_decide (protocol = "trojan") then json_trojan o s name raw
  else if bool_decide (protocol = "hysteria") || bool_decide (protocol = "hysteria2") then json_hysteria_node o s name raw
  else Err errUnsupportedJSONOutbound.

Fixpoint outbound_nodes (outbounds : list string) (defaultLabel : string) (nodes : list Node) : result ParseError (list Node) :=
  match outbounds with
  | [] => match nodes with [] => Err no_supported_nodes | _ => Ok nodes end
  | outbound :: rest =>
    match parseJSONOutbound outbound defaultLabel with
    | Ok node => outbound_nodes rest defaultLabel (nodes ++ [node])
    | Err e =>
      match ParseError.cause e with
      | Some UnsupportedJSONOutbound => outbound_nodes rest defaultLabel nodes
      | _ => Err e
      end
    end
  end.

Definition parseOutboundList (raw defaultLabel : string) : result ParseError (list Node) :=
  let* outbounds := as_parse "decode json outbounds" (json_items raw) in outbound_nodes outbounds defaultLabel [].

Definition parseJSONImportLabel (raw : string) : result ParseError string :=
  let* labels := as_parse "decode json metadata" (json_labels raw) in Ok (first_value labels).

Definition relabel (label : string) (node : Node) : Node :=
  let node := node <| Node.Remark := label |> <| Node.Name := label |> in node <| Node.ID := stable_id node |>.

Definition applyFallbackNodeLabel (nodes : list Node) (label : string) : list Node :=
  if bool_decide (TrimSpace label = "") then nodes else relabel (TrimSpace label) <$> nodes.

(** ** Documents *)

(** None: the nesting is deeper than the fuel. *)
Abbreviation Parsed := (option (result ParseError (list Node))).

Definition labelled (label : string) (p : Parsed) : Parsed :=
  match p with
  | Some (Ok nodes) => Some (Ok (applyFallbackNodeLabel nodes label))
  | p => p
  end.

Definition skipped_item (e : ParseError) : bool :=
  match ParseError.cause e with Some _ => true | None => Contains (ParseError.message e) "no supported nodes found" end.

(** [import]: [parseJSONImport] of an item. *)
Fixpoint import_items (import : string -> Parsed) (items : list string) (nodes : list Node) : Parsed :=
  match items with
  | [] => Some match nodes with [] => Err no_supported_nodes | _ => Ok nodes end
  | item :: rest =>
    match import item with
    | None => None
    | Some (Ok l) => import_items import rest (nodes ++ l)
    | Some (Err e) => if skipped_item e then import_items import rest nodes else Some (Err e)
    end
  end.

Definition json_field (fields : list (string * string)) (key : string) : option string :=
  option_map snd (List.find (fun f => bool_decide (f.1 = key)) fields).

(** [parse]: [ParseNodes] of a text; [import]: this function for a part. *)
Definition import_object (parse : string -> Parsed) (import : string -> string -> Parsed) (trimmed defaultLabel : string) : Parsed :=
  match json_fields trimmed with
  | Err e => Some (Err (in_context "decode json object" e))
  | Ok fields =>
    let with_label (k : string -> Parsed) : Parsed :=
      match parseJSONImportLabel trimmed with Err e => Some (Err e) | Ok label => k (first_value [label; defaultLabel]) end in
    match json_field fields "outbounds" with
    | Some outbounds => with_label (fun label => Some (parseOutboundList outbounds label))
    | None =>
      match json_field fields "protocol" with
      | Some _ => with_label (fun label => Some (let* node := parseJSONOutbound trimmed label in Ok [node]))
      | None =>
        match json_field fields "config" with
        | Some config =>
          with_label (fun label =>
            match json_text config with
            | Some text => labelled label (parse text)
            | None => import config label
            end)
        | None =>
          match json_field fields "link" with
          | Some link =>
            with_label (fun label =>
              match json_text link with
              | Some text => labelled label (parse text)
              | None => Some (Err errUnsupportedJSONImport)
              end)
          | None => Some (Err errUnsupportedJSONImport)
          end
        end
      end
    end
  end.

Definition import_document (parse : string -> Parsed) (import : string -> string -> Parsed) (raw defaultLabel : string) : Parsed :=
  let trimmed := TrimSpace raw in
  if bool_decide (trimmed = "") then Some (Err (parse_error "empty json import"))
  else if HasPrefix trimmed "{" then import_object parse import trimmed defaultLabel
  else if HasPrefix trimmed "["
  then match json_items trimmed with
       | Err e => Some (Err (in_context "decode json list" e))
       | Ok items => import_items (fun item => import item "") items []
       end
  else Some (Err errUnsupportedJSONImport).

(** The lines that give a node, and the last error. *)
Fixpoint line_nodes (lines : list string) (nodes : list Node) (lastErr : option ParseError) : list Node * option ParseError :=
  match lines with
  | [] => (nodes, lastErr)
  | line :: rest =>
    let line := TrimSpace line in
    if bool_decide (line = "") || HasPrefix line "#" then line_nodes rest nodes lastErr
    else
      match parseSingleNode line with
      | Ok node => line_nodes rest (nodes ++ [node]) lastErr
      | Err e => line_nodes rest nodes
                   (Some (ParseError.mk (ParseError.cause e) ("parse subscription line " +:+ quote line +:+ ": " +:+ ParseError.message e)))
      end
  end.

(** The text of an encoded list, when it holds links. *)
Definition unpacked (trimmed : string) : string :=
  if looksLikeBase64Payload trimmed
  then match decodeBase64Payload trimmed with
       | Some decoded => if Contains decoded "://" then decoded else trimmed
       | None => trimmed
       end
  else trimmed.

Definition parse_links (text : string) : result ParseError (list Node) :=
  if isNodeLink text && negb (has_byte text line_feed)
  then let* node := parseSingleNode text in Ok [node]
  else
    match line_nodes (split_byte text line_feed) [] None with
    | ([], Some e) => Err e
    | ([], None) => Err no_supported_nodes
    | (nodes, _) => Ok nodes
    end.

Definition is_json (trimmed : string) : bool := (HasPrefix trimmed "{" || HasPrefix trimmed "[") && json_valid trimmed.

Definition parse_text (import : string -> string -> Parsed) (input : string) : Parsed :=
  let trimmed := TrimSpace input in
  if bool_decide (trimmed = "") then Some (Err (parse_error "empty subscription input"))
  else if is_json trimmed then import trimmed ""
  else
    match tryParseYAMLNodes trimmed with
    | Some r => Some r
    | None => Some (parse_links (unpacked trimmed))
    end.

Fixpoint parseJSONImportWithLabel (fuel : nat) (raw defaultLabel : string) : Parsed :=
  match fuel with
  | O => None
  | S fuel => import_document (parse_text (parseJSONImportWithLabel fuel)) (parseJSONImportWithLabel fuel) raw defaultLabel
  end.

Definition ParseNodes (fuel : nat) (input : string) : Parsed := parse_text (parseJSONImportWithLabel fuel) input.

End Nodes.

(** What the service reads from the text of a subscription.  No document is
    nested deeper than it has characters. *)
Definition read_subscription (sha1_hex : string -> string) (json_extras : gmap string string -> string) `{ParserLibrary}
    (text providerName : string) : result string (list Node) :=
  match ParseNodes sha1_hex json_extras providerName (S (length (runes text))) text with
  | Some (Ok nodes) => Ok nodes
  | Some (Err e) => Err (ParseError.message e)
  | None => Err "nested too deeply"
  end.
