(* ===== verification/ParserFacts.v ===== *)
(** * Reading subscriptions: theorems

    What every node that is read satisfies, that nested documents come to an end,
    that encoding a list changes nothing, and what a bad line does to the others. *)
From S2P Require Import Prelude GoRunes GoStrings GoNum NetIP GoConv GoConvFacts Domain.
From S2P Require Import AutoSelect.
From S2P Require Import Effects Reserves ManagedBackend ManagedSwitch NodeSelection ProviderNames.
From S2P Require Import SubscriptionFetch Subscriptions SubscriptionsFacts Parser.

Local Open Scope Z_scope.
Local Open Scope list_scope.

Section Facts.
  Context (sha1_hex : string -> string) (json_extras : gmap string string -> string) (provider : string) `{ParserLibrary}.

Abbreviation stable_id := (StableNodeID sha1_hex json_extras).
Abbreviation normalize := (normalizeNode sha1_hex json_extras provider).
Abbreviation single := (parseSingleNode sha1_hex json_extras provider).
Abbreviation import := (parseJSONImportWithLabel sha1_hex json_extras provider).
Abbreviation parse := (ParseNodes sha1_hex json_extras provider).

(** ** Nodes *)

(** A node that can be used: a known protocol with its credentials, an address, a
    port, a transport, one trimmed name and the identifier of what it is. *)
Record node_ok (node : Node) : Prop := {
  ok_provider : Node.ProviderName node = provider;
  ok_credentials : credential_error node = None;
  ok_address : TrimSpace (Node.Address node) = Node.Address node /\ Node.Address node <> "";
  ok_port : 0 < Node.Port node;
  ok_transport : Node.Transport node <> "";
  ok_name : Node.Name node = Node.Remark node /\ TrimSpace (Node.Name node) = Node.Name node;
  ok_id : Node.ID node = stable_id node \/ Node.ID node = stable_id (node <| Node.RawOutbound := "" |>)
}.

Lemma settled_names_ok node : Node.Name (settled_names node) = Node.Remark (settled_names node) /\
  TrimSpace (Node.Name (settled_names node)) = Node.Name (settled_names node).
Proof.
  split; [reflexivity|]. unfold settled_names. cbv zeta.
  match goal with |- TrimSpace (Node.Name (?n <| Node.Name := ?r |> <| Node.Remark := _ |>)) = _ => change (TrimSpace r = r) end.
  repeat case_bool_decide; by rewrite ?TrimSpace_idemp.
Qed.

Lemma settled_transport_ok node : Node.Transport (settled_transport node) <> "".
Proof. unfold settled_transport. destruct (is_hysteria _); [done|]. by case_bool_decide. Qed.

Abbreviation settled := (settled_node provider).

Lemma settled_transport_fields node : Node.ProviderName (settled_transport node) = Node.ProviderName node /\
  Node.Name (settled_transport node) = Node.Name node /\ Node.Remark (settled_transport node) = Node.Remark node /\
  Node.Address (settled_transport node) = Node.Address node /\ Node.RawOutbound (settled_transport node) = Node.RawOutbound node.
Proof. unfold settled_transport. destruct (is_hysteria _); [done|]. by destruct (bool_decide _). Qed.

Lemma settled_fields node : Node.ProviderName (settled node) = provider /\
  (Node.Name (settled node) = Node.Remark (settled node) /\ TrimSpace (Node.Name (settled node)) = Node.Name (settled node)) /\
  TrimSpace (Node.Address (settled node)) = Node.Address (settled node) /\ Node.Transport (settled node) <> "" /\
  Node.RawOutbound (settled node) = Node.RawOutbound node.
Proof.
  unfold settled_node. pose proof (settled_names_ok (node <| Node.Address ::= TrimSpace |>)) as Hn. pose proof (TrimSpace_idemp (Node.Address node)) as Ha.
  set (named := settled_names (node <| Node.Address ::= TrimSpace |>) <| Node.ProviderName := provider |>).
  destruct (settled_transport_fields named) as (-> & -> & -> & -> & ->).
  split; [reflexivity|]. split; [exact Hn|]. split; [exact Ha|]. split; [apply settled_transport_ok|reflexivity].
Qed.

(** The identifier does not depend on itself. *)
Lemma identified_ok node : Node.ProviderName node = provider -> credential_error node = None ->
  TrimSpace (Node.Address node) = Node.Address node -> Node.Address node <> "" -> 0 < Node.Port node -> Node.Transport node <> "" ->
  Node.Name node = Node.Remark node -> TrimSpace (Node.Name node) = Node.Name node -> node_ok (node <| Node.ID := stable_id node |>).
Proof. intros. split; [assumption|assumption|split; assumption|assumption|assumption|split; assumption|left; reflexivity]. Qed.

Lemma normalized_ok node node' : Node.RawOutbound node = "" -> normalize node = Ok node' -> node_ok node' /\ Node.RawOutbound node' = "".
Proof.
  intros Hraw. unfold normalizeNode. destruct (settled_fields node) as (Hp & (Hn & Hn') & Ha & Ht & Hr). generalize dependent (settled node).
  intros n Hp Hn Hn' Ha Ht Hr. cbv zeta. destruct (credential_error n) eqn:Ec; [discriminate|]. case_bool_decide as Hae; [discriminate|].
  destruct (Z.leb_spec (Node.Port n) 0); [discriminate|].
  intros E. injection E as <-. split; [by apply identified_ok|]. change (Node.RawOutbound n = ""). by rewrite Hr.
Qed.

Lemma json_node_ok node raw node' : Node.RawOutbound node = "" ->
  normalizeJSONNode sha1_hex json_extras provider node raw = Ok node' -> node_ok node'.
Proof.
  intros Hraw. unfold normalizeJSONNode. destruct (normalize node) as [n|] eqn:E; [|discriminate]. apply normalized_ok in E as [[H1' H2' H3' H4' H5' H6' H7'] Hr]; [|done].
  intros E. injection E as <-. split; try assumption. right.
  change (Node.ID n = stable_id (n <| Node.RawOutbound := "" |>)). destruct H7' as [E|E]; [|exact E]. rewrite E. f_equal. destruct n. cbn in Hr. by subst.
Qed.

Lemma relabel_ok label node : TrimSpace label = label -> node_ok node -> node_ok (relabel sha1_hex json_extras label node).
Proof. intros Hl [H1' H2' H3' H4' H5' H6' H7']. split; try assumption; [split; [reflexivity|exact Hl]|left; reflexivity]. Qed.

Lemma fallback_ok nodes label : Forall node_ok nodes -> Forall node_ok (applyFallbackNodeLabel sha1_hex json_extras nodes label).
Proof.
  intros Hn. unfold applyFallbackNodeLabel. case_bool_decide; [done|]. apply Forall_fmap. eapply Forall_impl; [exact Hn|].
  intros n. apply relabel_ok, TrimSpace_idemp.
Qed.

Lemma read_ok {A B} (r : result ParseError A) (k : A -> result ParseError B) b : (let* a := r in k a) = Ok b -> exists a, r = Ok a /\ k a = Ok b.
Proof. destruct r; [intros E; by exists a|discriminate]. Qed.

(** Takes the steps of a reader until it normalises a node. *)
Ltac reader_steps :=
  repeat match goal with
    | |- (let* _ := _ in _) = Ok _ -> _ => let E := fresh "E" in intros E; apply read_ok in E as (? & _ & E); revert E
    | |- (match ?x with _ => _ end) = Ok _ -> _ => destruct x; try discriminate
    | |- (let '_ := ?x in _) = Ok _ -> _ => destruct x
    end.

Lemma single_ok line node : single line = Ok node -> node_ok node /\ Node.RawOutbound node = "".
Proof.
  unfold parseSingleNode, ParseVLESS, ParseVMess, ParseTrojan, ParseShadowsocks, ParseSocks, ParseHysteria, ParseHysteria2, hysteria_node.
  cbv zeta. reader_steps; try (apply normalized_ok; reflexivity).
Qed.

(** ** Lists of nodes *)

Definition list_ok (nodes : list Node) : Prop := nodes <> [] /\ Forall node_ok nodes.

Lemma nonempty_ok nodes : Forall node_ok nodes -> forall (e : ParseError) nodes', match nodes with [] => Err e | _ => Ok nodes end = Ok nodes' -> list_ok nodes'.
Proof. intros Hn e nodes'. destruct nodes; [discriminate|]. intros E. injection E as <-. by split. Qed.

Lemma fallback_list_ok nodes label : list_ok nodes -> list_ok (applyFallbackNodeLabel sha1_hex json_extras nodes label).
Proof.
  intros [Hn Ho]. split; [|by apply fallback_ok]. unfold applyFallbackNodeLabel. case_bool_decide; [done|]. by destruct nodes.
Qed.

Lemma yaml_node_ok entry node : yamlProxyNode sha1_hex json_extras provider entry = Ok node -> node_ok node.
Proof.
  unfold yamlProxyNode. cbv zeta. intros E. apply read_ok in E as (? & _ & E). apply read_ok in E as (? & _ & E). revert E.
  destruct (yaml_security entry) as [[? ?] ?], (yaml_transport entry) as [[[? ?] ?] ?]. intros E. by apply normalized_ok in E as [? _].
Qed.

Lemma yaml_nodes_ok entries : forall index nodes e, Forall node_ok nodes ->
  Forall node_ok (yaml_nodes sha1_hex json_extras provider entries index nodes e).1.
Proof.
  induction entries as [|entry rest IH]; intros index nodes e Hn; [exact Hn|]. cbn. destruct (yamlProxyNode _ _ _ entry) as [node|] eqn:E; [|by apply IH].
  apply IH, Forall_app. split; [exact Hn|]. by apply Forall_singleton, (yaml_node_ok entry).
Qed.

Lemma yaml_ok input r nodes : tryParseYAMLNodes sha1_hex json_extras provider input = Some r -> r = Ok nodes -> list_ok nodes.
Proof.
  unfold tryParseYAMLNodes. destruct (_ && _); [discriminate|]. intros Hr. injection Hr as <-. intros E. apply read_ok in E as (file & _ & E).
  cbv zeta in E. destruct (match file.1 with [] => _ | _ => _ end) as [|entry rest] eqn:Ee; [discriminate|]. rewrite <- Ee in E. clear Ee.
  match goal with E : context [yaml_nodes _ _ _ ?l _ _ _] |- _ => pose proof (yaml_nodes_ok l 0 [] None (Forall_nil_2 _)) as Hn; destruct (yaml_nodes _ _ _ l _ _ _) as [[|n l'] [e|]] end;
    try discriminate; injection E as <-; by split.
Qed.

Lemma outbound_ok raw label node : parseJSONOutbound sha1_hex json_extras provider raw label = Ok node -> node_ok node.
Proof.
  unfold parseJSONOutbound, json_vless, json_vmess, json_trojan, json_hysteria_node. cbv zeta. reader_steps; try (apply json_node_ok; reflexivity).
Qed.

Lemma outbound_nodes_ok outbounds label : forall nodes nodes', Forall node_ok nodes ->
  outbound_nodes sha1_hex json_extras provider outbounds label nodes = Ok nodes' -> list_ok nodes'.
Proof.
  induction outbounds as [|outbound rest IH]; intros nodes nodes' Hn; cbn; [by apply nonempty_ok|].
  destruct (parseJSONOutbound _ _ _ outbound label) as [node|e] eqn:E.
  - apply IH, Forall_app. split; [exact Hn|]. by apply Forall_singleton, (outbound_ok outbound label).
  - destruct (ParseError.cause e) as [[]|]; try discriminate. by apply IH.
Qed.

Lemma line_nodes_ok lines : forall nodes e, Forall node_ok nodes -> Forall node_ok (line_nodes sha1_hex json_extras provider lines nodes e).1.
Proof.
  induction lines as [|line rest IH]; intros nodes e Hn; [exact Hn|]. cbn. destruct (_ || _); [by apply IH|].
  destruct (single (TrimSpace line)) as [node|] eqn:E; [|by apply IH]. apply IH, Forall_app. split; [exact Hn|]. by apply Forall_singleton, (single_ok (TrimSpace line)).
Qed.

Lemma links_ok text nodes : parse_links sha1_hex json_extras provider text = Ok nodes -> list_ok nodes.
Proof.
  unfold parse_links. destruct (_ && _).
  - intros E. apply read_ok in E as (node & Hs & E). injection E as <-. split; [done|]. by apply Forall_singleton, (single_ok text).
  - pose proof (line_nodes_ok (split_byte text line_feed) [] None (Forall_nil_2 _)) as Hn.
    destruct (line_nodes _ _ _ _ _ _) as [[|n l'] [e|]]; try discriminate; intros E; injection E as <-; by split.
Qed.

(** ** Documents *)

(** What is read is well formed. *)
Definition well_read (p : option (result ParseError (list Node))) : Prop := forall nodes, p = Some (Ok nodes) -> list_ok nodes.

Lemma well_read_error e : well_read (Some (Err e)).
Proof. intros nodes. discriminate. Qed.

Lemma well_read_none : well_read None.
Proof. intros nodes. discriminate. Qed.

Lemma well_read_some r : (forall nodes, r = Ok nodes -> list_ok nodes) -> well_read (Some r).
Proof. intros Hr nodes E. injection E as E. by apply Hr. Qed.

Lemma labelled_ok label p : well_read p -> well_read (labelled sha1_hex json_extras label p).
Proof.
  intros Hp. destruct p as [[nodes|e]|]; [|exact Hp|exact Hp]. apply well_read_some. intros nodes' E. injection E as <-. by apply fallback_list_ok, Hp.
Qed.

Lemma items_ok read items : (forall item, well_read (read item)) -> forall nodes, Forall node_ok nodes -> well_read (import_items read items nodes).
Proof.
  intros Hr. induction items as [|item rest IH]; intros nodes Hn; cbn.
  - apply well_read_some. by apply nonempty_ok.
  - destruct (read item) as [[l|e]|] eqn:E; [|destruct (skipped_item e); [by apply IH|apply well_read_error]|apply well_read_none].
    apply IH, Forall_app. split; [exact Hn|]. by apply Hr in E as [_ ?].
Qed.

Lemma text_ok read input : (forall t label, well_read (read t label)) -> well_read (parse_text sha1_hex json_extras provider read input).
Proof.
  intros Hr. unfold parse_text. cbv zeta. case_bool_decide; [apply well_read_error|]. destruct (is_json _); [apply Hr|].
  destruct (tryParseYAMLNodes _ _ _ _) as [r|] eqn:E; apply well_read_some.
  - intros nodes. exact (yaml_ok _ _ nodes E).
  - intros nodes. apply links_ok.
Qed.

Lemma object_ok parse_part read raw label : (forall t, well_read (parse_part t)) -> (forall t l, well_read (read t l)) ->
  well_read (import_object sha1_hex json_extras provider parse_part read raw label).
Proof.
  intros Hp Hr. unfold import_object. destruct (json_fields raw) as [fields|]; [|apply well_read_error]. cbv zeta.
  destruct (json_field fields "outbounds") as [outbounds|]; [|destruct (json_field fields "protocol") as [protocol|];
    [|destruct (json_field fields "config") as [config|]; [|destruct (json_field fields "link") as [link|]; [|apply well_read_error]]]];
    (destruct (parseJSONImportLabel raw) as [l|]; [|apply well_read_error]).
  - apply well_read_some. intros nodes E. apply read_ok in E as (items & _ & E). by eapply outbound_nodes_ok.
  - apply well_read_some. intros nodes E. apply read_ok in E as (node & Ho & E). injection E as <-. split; [done|]. by eapply Forall_singleton, outbound_ok.
  - destruct (json_text config); [apply labelled_ok, Hp|apply Hr].
  - destruct (json_text link); [apply labelled_ok, Hp|apply well_read_error].
Qed.

Lemma import_ok fuel : forall raw label, well_read (import fuel raw label).
Proof.
  induction fuel as [|fuel IH]; intros raw label; [apply well_read_none|]. cbn. unfold import_document. cbv zeta.
  case_bool_decide; [apply well_read_error|]. destruct (HasPrefix _ "{"); [by apply object_ok; [intros t; apply text_ok|]|].
  destruct (HasPrefix _ "["); [|apply well_read_error]. destruct (json_items _); [|apply well_read_error]. by apply items_ok.
Qed.

Lemma parse_ok fuel input : well_read (parse fuel input).
Proof. apply text_ok, import_ok. Qed.

(** ** Nesting *)

Definition size (s : string) : nat := length (runes s).

Lemma size_trim s : (size (TrimSpace s) <= size s)%nat.
Proof.
  unfold size, runes. rewrite decode_TrimSpace. destruct (trim_chunks_infix (decode (to_bytes s))) as (a & b & E).
  rewrite !length_fmap. rewrite E at 2. rewrite !length_app. lia.
Qed.

(** The parts of a document are shorter than the document. *)
Class ShrinkingParts : Prop := {
  field_shrinks raw fields key part : json_fields raw = Ok fields -> (key, part) ∈ fields -> (size part < size raw)%nat;
  item_shrinks raw items item : json_items raw = Ok items -> item ∈ items -> (size item < size raw)%nat;
  text_shrinks raw text : json_text raw = Some text -> (size text <= size raw)%nat
}.

(** Two readers that agree and answer. *)
Abbreviation same_answer p q := (p = q /\ p <> None).

Lemma answered (r : result ParseError (list Node)) : same_answer (Some r) (Some r).
Proof. by split. Qed.

Lemma labelled_same label p q : same_answer p q -> same_answer (labelled sha1_hex json_extras label p) (labelled sha1_hex json_extras label q).
Proof. intros [<- Hp]. split; [done|]. by destruct p as [[]|]. Qed.

Lemma items_same read read' items : (forall item, item ∈ items -> same_answer (read item) (read' item)) ->
  forall nodes, same_answer (import_items read items nodes) (import_items read' items nodes).
Proof.
  induction items as [|item rest IH]; intros Hr nodes; cbn; [by split|].
  assert (IH' : forall nodes, same_answer (import_items read rest nodes) (import_items read' rest nodes)).
  { apply IH. intros i Hi. apply Hr. by apply list_elem_of_further. }
  destruct (Hr item (list_elem_of_here _ _)) as [<- Hi]. destruct (read item) as [[l|e]|]; [apply IH'| |done].
  destruct (skipped_item e); [apply IH'|by split].
Qed.

Lemma text_same read read' input : same_answer (read (TrimSpace input) "") (read' (TrimSpace input) "") ->
  same_answer (parse_text sha1_hex json_extras provider read input) (parse_text sha1_hex json_extras provider read' input).
Proof.
  intros Hr. unfold parse_text. cbv zeta. case_bool_decide; [by split|]. destruct (is_json _); [exact Hr|].
  by destruct (tryParseYAMLNodes _ _ _ _).
Qed.

Lemma field_member fields key part : json_field fields key = Some part -> exists key', (key', part) ∈ fields.
Proof.
  unfold json_field. destruct (List.find _ fields) as [[k v]|] eqn:E; [|discriminate]. intros Ev. injection Ev as <-.
  exists k. apply find_some in E as [E _]. by apply list_elem_of_In.
Qed.

Section Nesting.
  Context `{!ShrinkingParts}.

Lemma object_same parse_part parse_part' read read' raw label :
  (forall t, (size t < size raw)%nat -> same_answer (parse_part t) (parse_part' t)) ->
  (forall t l, (size t < size raw)%nat -> same_answer (read t l) (read' t l)) ->
  same_answer (import_object sha1_hex json_extras provider parse_part read raw label)
    (import_object sha1_hex json_extras provider parse_part' read' raw label).
Proof.
  intros Hp Hr. unfold import_object. destruct (json_fields raw) as [fields|] eqn:Ef; [|by split]. cbv zeta.
  assert (Hf : forall key part, json_field fields key = Some part -> (size part < size raw)%nat).
  { intros key part Hk. apply field_member in Hk as (k & Hk). by eapply field_shrinks. }
  destruct (json_field fields "outbounds") as [outbounds|]; [|destruct (json_field fields "protocol") as [protocol|];
    [|destruct (json_field fields "config") as [config|] eqn:Ec; [|destruct (json_field fields "link") as [link|] eqn:El; [|by split]]]];
    (destruct (parseJSONImportLabel raw) as [l|]; [|by split]); try by split.
  - pose proof (Hf _ _ Ec). destruct (json_text config) as [text|] eqn:Et; [|by apply Hr].
    apply labelled_same, Hp. pose proof (text_shrinks _ _ Et). lia.
  - pose proof (Hf _ _ El). destruct (json_text link) as [text|] eqn:Et; [|by split].
    apply labelled_same, Hp. pose proof (text_shrinks _ _ Et). lia.
Qed.

Lemma import_same n : forall m raw label, (size raw < n)%nat -> (size raw < m)%nat -> same_answer (import n raw label) (import m raw label).
Proof.
  induction n as [|n IH]; intros [|m] raw label Hn Hm; try lia. cbn. unfold import_document. cbv zeta. pose proof (size_trim raw) as Ht.
  case_bool_decide; [by split|]. destruct (HasPrefix _ "{").
  - apply object_same; [|intros; apply IH; lia]. intros t Hs. apply text_same, IH; pose proof (size_trim t); lia.
  - destruct (HasPrefix _ "["); [|by split]. destruct (json_items _) as [items|] eqn:Ei; [|by split].
    apply items_same. intros item Hi. pose proof (item_shrinks _ _ _ Ei Hi). apply IH; lia.
Qed.

Lemma parse_same n m input : (size input < n)%nat -> (size input < m)%nat -> same_answer (parse n input) (parse m input).
Proof. intros Hn Hm. pose proof (size_trim input). apply text_same, import_same; lia. Qed.

End Nesting.

(** ** Encoded lists *)

Lemma decode64_lax_decode64 l : forall d, decode64 l = Some d -> decode64_lax true l = Some d.
Proof.
  induction l as [l IH] using (induction_ltof1 _ length); unfold ltof in IH. intros d.
  destruct l as [|a [|b [|c [|e t]]]]; try discriminate; [done|]. cbn.
  destruct (sextet_of a), (sextet_of b); try discriminate. destruct (e =? 61).
  - destruct (negb _); [discriminate|]. destruct (c =? 61); [by destruct (_ =? 0)|]. destruct (sextet_of c); [|discriminate]. by destruct (_ =? 0).
  - destruct (sextet_of c), (sextet_of e); try discriminate. destruct (decode64 t) eqn:Et; [|discriminate].
    by rewrite (IH t ltac:(cbn; lia) _ Et).
Qed.

(** What an encoding is made of. *)
Definition encoding_byte (b : Z) : bool := base64_rune b && (43 <=? b) && (b <=? 122).

Lemma sextet_encoding v : 0 <= v < 64 -> encoding_byte (sextet_char v) = true.
Proof.
  intros Hv. assert (G : forallb (fun n => encoding_byte (sextet_char (Z.of_nat n))) (seq 0 64) = true) by (vm_compute; reflexivity).
  rewrite forallb_forall in G. specialize (G (Z.to_nat v)). rewrite Z2Nat.id in G by lia. apply G, in_seq. lia.
Qed.

Lemma encode64_encoding l : Forall is_byte l -> Forall (fun b => encoding_byte b = true) (encode64 l).
Proof.
  induction l as [|a|a b|a b c t IH] using triples; intros Hl; [constructor| | |].
  - inversion Hl as [|? ? Ha _]; subst. destruct (sextets a 0 0 Ha ltac:(unfold is_byte; lia) ltac:(unfold is_byte; lia)) as (R1 & R2 & _).
    change (0 / 16) with 0 in *. rewrite Z.add_0_r in *. cbn [encode64]. repeat constructor; by apply sextet_encoding.
  - inversion Hl as [|? ? Ha Hl']; subst. inversion Hl' as [|? ? Hb _]; subst.
    destruct (sextets a b 0 Ha Hb ltac:(unfold is_byte; lia)) as (R1 & R2 & R3 & _).
    change (0 / 64) with 0 in *. rewrite Z.add_0_r in *. cbn [encode64]. repeat constructor; by apply sextet_encoding.
  - inversion Hl as [|? ? Ha Hl']; subst. inversion Hl' as [|? ? Hb Hl'']; subst. inversion Hl'' as [|? ? Hc Ht]; subst.
    destruct (sextets a b c Ha Hb Hc) as (R1 & R2 & R3 & R4 & _). rewrite encode64_step.
    repeat (apply Forall_cons; split; [by apply sextet_encoding|]). by apply IH.
Qed.

Section Encoded.
  Context (s : string) (Hs : s <> "").

Abbreviation encoded := (EncodeToString (to_bytes s)).

Lemma encoded_bytes : all_bytes encoding_byte encoded = true.
Proof. apply all_bytes_spec. rewrite EncodeToString_bytes by apply to_bytes_bytes. apply encode64_encoding, to_bytes_bytes. Qed.

Lemma encoded_lacks c : encoding_byte (byte_of c) = false -> has_byte encoded c = false.
Proof. intros Hc. by eapply all_bytes_no_byte; [exact encoded_bytes|]. Qed.

Lemma encoded_contains sub c a b : sub = a +:+ String c b -> encoding_byte (byte_of c) = false -> Contains encoded sub = false.
Proof.
  intros -> Hc. apply not_true_iff_false. intros (x & y & E)%Contains_spec. pose proof (encoded_lacks c Hc) as Hl.
  rewrite E, !has_byte_app in Hl. apply orb_false_iff in Hl as [_ Hl]. apply orb_false_iff in Hl as [Hl _]. apply orb_false_iff in Hl as [_ Hl].
  cbn in Hl. by rewrite bool_decide_eq_true_2 in Hl.
Qed.

Lemma encoded_prefix c : encoding_byte (byte_of c) = false -> HasPrefix encoded (String c "") = false.
Proof.
  intros Hc. apply not_true_iff_false. intros [b E]%HasPrefix_spec. pose proof (encoded_lacks c Hc) as Hl.
  rewrite E, has_byte_app in Hl. apply orb_false_iff in Hl as [Hl _]. cbn in Hl. by rewrite bool_decide_eq_true_2 in Hl.
Qed.

Lemma encoded_trimmed : TrimSpace encoded = encoded.
Proof. apply visible_TrimSpace, visible_encoded, to_bytes_bytes. Qed.

Lemma encoded_nonempty : encoded <> "".
Proof.
  intros E. apply Hs, to_bytes_inj. pose proof (decode64_encode64 _ (to_bytes_bytes s)) as Hd.
  rewrite <- EncodeToString_bytes, E in Hd by apply to_bytes_bytes. by injection Hd as <-.
Qed.

Lemma encoded_looks : looksLikeBase64Payload encoded = true.
Proof.
  unfold looksLikeBase64Payload. rewrite encoded_trimmed, bool_decide_eq_false_2 by exact encoded_nonempty.
  rewrite (encoded_contains "://" ":"%char "" "//" eq_refl eq_refl). cbn [orb].
  assert (Hr : forall b, encoding_byte b = true -> base64_rune b = true /\ (b <? 128) = true).
  { intros b Hb. unfold encoding_byte in Hb. rewrite !andb_true_iff, !Z.leb_le in Hb. split; [tauto|apply Z.ltb_lt; lia]. }
  rewrite ascii_bytes_runes; eapply all_bytes_impl; [|exact encoded_bytes| |exact encoded_bytes]; intros b Hb; apply Hr, Hb.
Qed.

Lemma encoded_decodes : decodeBase64Payload encoded = Some s.
Proof.
  assert (Hp : forall (P : Z -> Prop) `{!forall x, Decision (P x)}, (forall b, encoding_byte b = true -> P b) -> filter P (to_bytes encoded) = to_bytes encoded).
  { intros P ? HP. apply filter_id. pose proof (proj1 (all_bytes_spec _ _) encoded_bytes) as Hb. eapply Forall_impl; [exact Hb|exact HP]. }
  assert (Hr : forall b, encoding_byte b = true -> 43 <= b <= 122) by (intros b Hb; unfold encoding_byte in Hb; rewrite !andb_true_iff, !Z.leb_le in Hb; lia).
  unfold decodeBase64Payload, compact_text. rewrite encoded_trimmed.
  rewrite Hp by (intros b Hb%Hr; rewrite !(proj2 (Z.eqb_neq b _)) by lia; done). rewrite of_to_bytes. cbn [first_decoded]. unfold base64_decode.
  rewrite Hp by (intros b Hb%Hr; rewrite !(proj2 (Z.eqb_neq b _)) by lia; done).
  rewrite EncodeToString_bytes by apply to_bytes_bytes. rewrite (decode64_lax_decode64 _ _ (decode64_encode64 _ (to_bytes_bytes s))).
  cbn [fmap option_fmap option_map]. by rewrite of_to_bytes.
Qed.

End Encoded.

(** ** Lines *)

(** The node of a line, if it has one. *)
Definition line_node (line : string) : option Node :=
  if bool_decide (TrimSpace line = "") || HasPrefix (TrimSpace line) "#" then None
  else match single (TrimSpace line) with Ok node => Some node | Err _ => None end.

Lemma line_nodes_omap lines : forall nodes e, (line_nodes sha1_hex json_extras provider lines nodes e).1 = nodes ++ omap line_node lines.
Proof.
  induction lines as [|line rest IH]; intros nodes e; cbn; [by rewrite app_nil_r|]. unfold line_node at 1. destruct (_ || _); [apply IH|].
  destruct (single (TrimSpace line)); [|apply IH]. by rewrite IH, <- app_assoc.
Qed.

(** ** What subscriptions give *)

(** C20: whatever text is given (a link, a list, an encoded list, YAML or nested
    JSON), the reader answers with at least one node or an error, and every node
    it gives can be used: its protocol is known and has its credentials, address
    and names are trimmed, the port is positive, and the identifier is the hash
    of what the node is. *)
Theorem parsed_nodes_well_formed fuel input nodes : parse fuel input = Some (Ok nodes) -> nodes <> [] /\ Forall node_ok nodes.
Proof. intros E. by apply parse_ok in E. Qed.

(** C21: documents inside documents come to an end.  When parts are shorter than
    what they are part of, as many levels as the input has characters are enough:
    there is an answer, and a larger bound gives the same one. *)
Theorem nested_documents_end `{!ShrinkingParts} fuel input : (size input < fuel)%nat ->
  parse fuel input <> None /\ forall fuel', (size input < fuel')%nat -> parse fuel' input = parse fuel input.
Proof.
  intros Hf. split; [exact (proj2 (parse_same _ _ _ Hf Hf))|]. intros fuel' Hf'. exact (proj1 (parse_same _ _ _ Hf' Hf)).
Qed.

(** C23: a base64 encoding of a list of links reads as the list itself. *)
Theorem encoded_list_is_read fuel s : TrimSpace s = s -> Contains s "://" = true -> is_json s = false ->
  tryParseYAMLNodes sha1_hex json_extras provider s = None -> parse fuel (EncodeToString (to_bytes s)) = parse fuel s.
Proof.
  intros Ht Hc Hj Hy. assert (Hs : s <> "") by (intros ->; discriminate Hc). unfold ParseNodes, parse_text. cbv zeta.
  rewrite Ht, encoded_trimmed, !bool_decide_eq_false_2, Hj, Hy by (done || by apply encoded_nonempty).
  unfold is_json. rewrite !encoded_prefix by done. cbn [orb andb].
  unfold tryParseYAMLNodes. rewrite (encoded_contains s "proxies:" ":"%char "proxies" "" eq_refl eq_refl), (encoded_contains s "payload:" ":"%char "payload" "" eq_refl eq_refl).
  cbn [negb andb]. unfold unpacked. rewrite encoded_looks, encoded_decodes, Hc by done.
  replace (looksLikeBase64Payload s) with false; [done|]. unfold looksLikeBase64Payload. by rewrite Ht, Hc, orb_true_r.
Qed.

(** C24: a line that cannot be read hides no other line.  The nodes of a list are
    those of its lines that can be read, in order, blank lines and comments
    aside; there is an error only when no line gives a node. *)
Theorem bad_line_hides_nothing fuel input nodes :
  let text := unpacked (TrimSpace input) in
  TrimSpace input <> "" -> is_json (TrimSpace input) = false -> tryParseYAMLNodes sha1_hex json_extras provider (TrimSpace input) = None ->
  has_byte text line_feed = true ->
  parse fuel input = Some (Ok nodes) <-> nodes <> [] /\ nodes = omap line_node (split_byte text line_feed).
Proof.
  cbv zeta. intros Ht Hj Hy Hl. unfold ParseNodes, parse_text. cbv zeta. rewrite bool_decide_eq_false_2, Hj, Hy by done.
  unfold parse_links. rewrite Hl, andb_false_r. pose proof (line_nodes_omap (split_byte (unpacked (TrimSpace input)) line_feed) [] None) as Hn.
  cbn [app] in Hn. rewrite <- Hn. destruct (line_nodes _ _ _ _ _ _) as [[|n l] [e|]]; cbn [fst]; split;
    solve [discriminate|intros [? ?]; congruence|intros E; injection E as <-; done|by intros [_ ->]].
Qed.

(** ** What the service keeps *)

(** What the servers of a file need so that a configuration can be made of them. *)
Definition connectable (n : Node) : Prop :=
  credential_error n = None /\ TrimSpace (Node.Address n) = Node.Address n /\ Node.Address n <> "" /\ 0 < Node.Port n /\ Node.Transport n <> "".

Lemma connectable_moves id n : connectable n -> connectable (n <| Node.SubscriptionID := id |>).
Proof. done. Qed.

End Facts.

Lemma read_usable `{ParserLibrary} sha1_hex json_extras text name nodes :
  read_subscription sha1_hex json_extras text name = Ok nodes -> Forall connectable nodes.
Proof.
  unfold read_subscription. destruct (ParseNodes _ _ _ _ _) as [[l|e]|] eqn:E; intros E'; [|discriminate|discriminate]. injection E' as <-.
  apply parse_ok in E as [_ Hl]. eapply Forall_impl; [exact Hl|]. intros n [? ? [? ?] ? ? ? ?]. by split_and!.
Qed.

(** C15: the service and the reader together: whatever is added, refreshed, moved,
    renamed and removed, in any order and also when it fails half way, every server
    in the file has a known protocol with its credentials, an address, a positive
    port and a transport, and names the subscription it is in. *)
Theorem subscribed_servers_are_usable {W} `{ParserLibrary} (reloaded : Subscription -> Subscription) `{SubscriptionLaws W connectable reloaded} `{WebText}
    sha1_hex json_extras to_upper marshal_signature id_attempts calls w :
  file_ok (good := connectable) w ->
  forall subs sub n, read_subscriptions (serve_all (read_subscription sha1_hex json_extras) to_upper sha1_hex marshal_signature id_attempts calls w) = Ok subs ->
    sub ∈ subs -> n ∈ Subscription.Nodes sub -> connectable n /\ Node.SubscriptionID n = Subscription.ID sub.
Proof.
  intros Hw subs sub n Hs Hsub Hn.
  assert (Hok : file_ok (good := connectable) (serve_all (read_subscription sha1_hex json_extras) to_upper sha1_hex marshal_signature id_attempts calls w)).
  { revert w Hw Hs. induction calls as [|call calls IH]; cbn; intros w Hw Hs; [done|]. apply IH; [|done].
    apply stays_serve; [exact connectable_moves|exact (read_usable sha1_hex json_extras)|exact Hw]. }
  destruct (Hok subs Hs) as [_ Ho]. rewrite Forall_forall in Ho. specialize (Ho sub Hsub). unfold owns in Ho. rewrite Forall_forall in Ho.
  by destruct (Ho n Hn).
Qed.

(** ** On a small library *)

(** Links without a user, and one document with a list of links inside. *)
Module Sample.

Definition link (n : string) : string := "socks://10.0.0." +:+ n +:+ ":1080".

Definition url (raw : string) : result string ShareURL :=
  if HasPrefix raw "socks://10.0.0." && HasSuffix raw ":1080"
  then Ok (ShareURL.mk "socks" (TrimPrefix raw "socks://") (TrimSuffix (TrimPrefix raw "socks://") ":1080") "1080" None "" (fun _ => "") "")
  else Err "invalid URL".

Definition dquote : ascii := "034".
Definition text : string := String dquote (link "1" +:+ String dquote "").
Definition document : string := "{config:" +:+ text +:+ "}".

#[export] Instance library : ParserLibrary := {|
  parse_url := url; path_unescape := Ok; quote s := s; atoi_error s := s; vmess_json _ := Err ""; yaml_file _ := Err "";
  encode_query _ := ""; json_valid s := bool_decide (s = document);
  json_fields s := if bool_decide (s = document) then Ok [("config", text)] else Err "invalid";
  json_items _ := Err ""; json_text s := if bool_decide (s = text) then Some (link "1") else None; json_labels _ := Ok ["label"];
  json_outbound _ := Err ""; json_stream _ := Err ""; json_vnext _ := Err ""; json_direct _ := Err ""; json_servers _ := Err "";
  json_hysteria _ := Err ""; json_password _ := None
|}.

#[export] Instance shrinking : ShrinkingParts.
Proof.
  split; unfold json_fields, json_items, json_text, library; intros raw.
  - intros fields key part. case_bool_decide as E; [|discriminate]. intros F. injection F as <-. intros Hp%list_elem_of_singleton.
    injection Hp as _ ->. subst. vm_compute. lia.
  - discriminate.
  - intros t. case_bool_decide as E; [|discriminate]. intros F. injection F as <-. subst. vm_compute. lia.
Qed.

Definition lines : string := link "1" +:+ String line_feed ("nonsense" +:+ String line_feed (link "2")).

Definition hash (s : string) : string := s.
Definition no_extras (m : gmap string string) : string := "{}".
Definition read (input : string) : option (result ParseError (list Node)) := ParseNodes hash no_extras "demo" 60 input.
Definition nodes_of (p : option (result ParseError (list Node))) : list Node := match p with Some (Ok nodes) => nodes | _ => [] end.

End Sample.
Import (hints) Sample.

Lemma parsed_nodes_well_formed_witness :
  length (Sample.nodes_of (Sample.read Sample.document)) = 1%nat /\
  Forall (node_ok Sample.hash Sample.no_extras "demo") (Sample.nodes_of (Sample.read Sample.document)).
Proof.
  split; [vm_compute; reflexivity|].
  refine (proj2 (parsed_nodes_well_formed Sample.hash Sample.no_extras "demo" 60 Sample.document _ _)). vm_compute. reflexivity.
Defined.

Lemma nested_documents_end_witness :
  Sample.read Sample.document <> None /\
  forall fuel, (60 < fuel)%nat -> ParseNodes Sample.hash Sample.no_extras "demo" fuel Sample.document = Sample.read Sample.document.
Proof.
  destruct (nested_documents_end Sample.hash Sample.no_extras "demo" 60 Sample.document ltac:(apply Nat.ltb_lt; vm_compute; reflexivity)) as [Hn He].
  split; [exact Hn|]. intros fuel Hf. apply He. eapply Nat.lt_trans; [|exact Hf]. apply Nat.ltb_lt. vm_compute. reflexivity.
Defined.

Lemma encoded_list_is_read_witness :
  Sample.read (EncodeToString (to_bytes Sample.lines)) = Sample.read Sample.lines /\ length (Sample.nodes_of (Sample.read Sample.lines)) = 2%nat.
Proof.
  split; [|vm_compute; reflexivity].
  apply (encoded_list_is_read Sample.hash Sample.no_extras "demo" 60 Sample.lines); vm_compute; reflexivity.
Defined.

Lemma bad_line_hides_nothing_witness :
  Sample.nodes_of (Sample.read Sample.lines) =
  omap (line_node Sample.hash Sample.no_extras "demo") (split_byte (unpacked (TrimSpace Sample.lines)) line_feed).
Proof.
  refine (proj2 (proj1 (bad_line_hides_nothing Sample.hash Sample.no_extras "demo" 60 Sample.lines _ _ _ _ _) _)); vm_compute; solve [reflexivity|discriminate].
Defined.

(** An empty file, and a list of links that is added, one of the provider, and a refresh. *)
Definition empty_file : SubscriptionWorld :=
  Build_SubscriptionWorld (service subscription_world) [] (Ok (Response.mk 200 "200 OK" (fun _ => "") (fun _ => (Sample.link "7", None)))) 0 (running subscription_world).

Definition sample_calls : list SubscriptionCall :=
  [AddCall (AddSubscriptionRequest.mk "" Sample.lines "" "" ""); AddCall url_request; RefreshAllCall; MoveCall "server-list" "down"].

Abbreviation sample_world :=
  (serve_all (W := SubscriptionWorld) (read_subscription Sample.hash Sample.no_extras) id Sample.hash (fun _ source _ _ _ => Some source) 3 sample_calls empty_file).

Lemma subscribed_servers_are_usable_witness :
  (length ∘ Subscription.Nodes) <$> subscriptions_file sample_world = [1; 2]%nat /\
  Forall (fun sub => Forall connectable (Subscription.Nodes sub)) (subscriptions_file sample_world).
Proof.
  split; [vm_compute; reflexivity|].
  assert (Hok : file_ok (good := connectable) empty_file).
  { intros subs Hs. injection Hs as <-. split; [constructor|constructor]. }
  assert (Hr : forall w : SubscriptionWorld, read_subscriptions w = Ok (subscriptions_file w)) by done.
  apply Forall_forall. intros sub Hsub. apply Forall_forall. intros n Hn.
  exact (proj1 (subscribed_servers_are_usable (H4 := subscription_world_laws connectable) id Sample.hash Sample.no_extras id
    (fun _ source _ _ _ => Some source) 3 sample_calls empty_file Hok _ sub n (Hr sample_world) Hsub Hn)).
Defined.
